(* ===== verification/_CoqProject ===== *)
-Q . S2P
Prelude.v
GoText.v
GoEncoding.v
GoTime.v
GoJson.v
GoStrings.v
GoDoc.v
GoStruct.v
Paging.v
AgentTypes.v
AgentCodec.v
Framework.v
FrameworkFacts.v
Protect.v
AgentStore.v
MemoryStore.v
AgentCore.v
AgentLifecycle.v
AgentShutdown.v
AgentCommands.v
AgentLease.v
AgentArtifact.v
AgentQuery.v
Scenario.v
AgentFacts.v
AgentReplay.v
MemoryFacts.v
MemoryForward.v
AgentSealing.v
AgentMachine.v
AgentRefinement.v
AgentInvariant.v
AgentPreserve.v
AgentHistory.v
AgentVerdict.v
AgentLeaseVerdict.v
AgentArtifactVerdict.v
AgentFencing.v
AgentOpening.v
AgentPages.v
AgentMessages.v
AgentLeaseList.v
AgentReads.v
WorkspaceApply.v
WorkspaceJournal.v
WorkspaceFacts.v
WorkspaceMachine.v
WorkspaceRefinement.v
WorkspaceRuns.v
WorkspaceProperties.v
CompletionSafety.v
LlmTypes.v
LlmJson.v
LlmMemory.v
LlmLedger.v
LlmScan.v
LlmRuntime.v
LlmProg.v
LlmEvents.v
LlmService.v
LlmCommit.v
LlmRecovery.v
LlmAdmission.v
LlmMaintenance.v
LlmEffects.v
LlmMachine.v
LlmSpec.v
LlmAtomic.v
LlmRefinement.v
LlmExactlyOnce.v
LlmOperations.v
LlmAdmitOnce.v
LlmOutcomes.v
LlmProperties.v
CompletionTypes.v
CompletionHub.v
CompletionHubFacts.v
AgentProperties.v
AgentWitnesses.v
