(* ===== verification/Prelude.v ===== *)
(** * Human: a verification library (root file)

    The program lets a human answer for a machine.  A caller opens Tasks in a
    workspace (HumanAgent, src/agent) or asks for completions (HumanLLM,
    src/llm); a worker leases the work, converses, freezes Artifacts and
    submits results; the caller applies an Artifact to its workspace by one
    compare-and-swap and reports a receipt (src/workspace).  Every durable
    record goes through a Store port with transactions (agent/store.go), whose
    in-memory implementation (humantest/agent_store_memory.go) is part of the
    model; payloads can be sealed by a Protector (src/protect); injected
    dependencies are owned or borrowed resources with versioned contracts
    (src/framework).

    ** How the files correspond to the code

    Language and library.  This file: results of fallible calls ([outcome],
    the notations [let?] and [check … then]), counting maps, and the tactics
    of the development.  [GoText], [GoEncoding], [GoTime], [GoJson],
    [GoStrings]: what the code uses of Go's strings, utf8, hex, base64,
    sha256 (computed), time, encoding/json, mime and path.  [Paging]: following the cursors of a paged
    listing, against any lister.

    HumanAgent.  [AgentTypes]: agent/types.go, its records and errors.
    [AgentCodec]: their JSON.  [Framework], [Protect]: framework/*.go and
    protect/*.go.  [AgentStore]: agent/store.go, the Store port as a class
    with the laws an implementation promises.  [MemoryStore]: the in-memory
    Store, operation by operation.  [AgentCore]: agent/store_core.go,
    protection.go and the validators.  [AgentLifecycle]: Open and Shutdown of
    agent/agent.go.  [AgentCommands], [AgentLease], [AgentArtifact],
    [AgentQuery]: the methods of [Agent] in agent.go, lease.go and
    dispatch.go, artifact.go and query.go; a method that runs a transaction is
    split into the validation before it, its callback ([…Tx], [replay…]) and
    what is made of its result.  [Scenario]: one run of everything, by
    evaluation.

    Caller side.  [WorkspaceApply]: workspace/apply.go.  [WorkspaceJournal]:
    the transactions of workspace/sqlite/journal.go on its table.
    [WorkspaceMachine]: the journal under concurrent callers, lost processes
    and uncertain commits.

    HumanLLM.  [GoDoc], [GoStruct]: the JSON documents of encoding/json with
    raw messages and [any], and the codecs of structures from their tags.
    [LlmTypes]: llm/types.go, store_types.go, the metadata of store.go,
    codec.go, transport.go, service_types.go.  [LlmJson]: the JSON of every
    structure the core encodes, canonical JSON and the digests of
    llm/service.go.  [LlmMemory]: the in-memory Store
    (humantest/llm_store_memory.go), operation by operation.  [LlmProg]:
    programs over a Store that other callers share, their runs, and a weakest
    precondition for them.  [LlmRuntime]: the tables a Service keeps in memory
    (llm/service.go, service_worker.go, service_response.go,
    service_notice.go), one definition per critical section.  [LlmService]:
    the ports, sealed payloads and the replay of a response
    (service_blob.go, service_recovery.go).  [LlmEvents], [LlmCommit]: the plan
    of a worker event, acknowledgements and the commit (service_event.go).
    [LlmRecovery]: response pages, waiting, recovery and quarantine
    (service_response.go, service_recovery.go).  [LlmAdmission]:
    service_admission.go.  [LlmMaintenance]: expiry, retention, status,
    detached callers, sessions and shutdown.  [LlmScan]: the loops over paged
    scans.

    Completions.  [CompletionTypes]: canonical requests, events, routing
    identities, states and harness profiles (internal/completion, canonical,
    adapter).  [CompletionHub]: the hub of live completions
    (internal/completion/hub/hub.go), each section under its lock, and their
    interleaving with publishers, consumers and dispatchers.
    [CompletionSafety]: the lexical check of paths
    (internal/completion/safety/path.go).

    ** What the theorems show

    - [AgentMachine] is an abstract machine of the Agent: what a committed
      state is and the steps it may take.  [AgentRefinement] and
      [AgentProperties] show that every command makes at most one of these
      steps, whatever commits in between; [AgentInvariant], [AgentPreserve]:
      the invariant of reachable states; [AgentHistory]: what
      is committed is kept and commands are exactly-once; [AgentFacts],
      [AgentReplay]: the lemmas under them.
    - [AgentVerdict], [AgentLeaseVerdict], [AgentArtifactVerdict]: each
      transaction on every branch, errors and their precedence included;
      [AgentFencing]: retired leases stay stale, workspaces move by recorded
      successes only.
    - [AgentPages], [AgentMessages], [AgentLeaseList]: paged listings are
      complete and without repetition; [AgentReads]: single reads are exact;
      [MemoryForward] holds the orders they sort by.
    - [AgentSealing]: round trips of sealed and plain content, no downgrade.
    - [AgentShutdown], [AgentOpening], [FrameworkFacts], [MemoryFacts]:
      shutdown, construction, resources and the ownership of an image.
    - [MemoryFacts], [MemoryForward]: the memory Store keeps the promises of
      the Store class.
    - [WorkspaceFacts], [WorkspaceMachine], [WorkspaceRefinement],
      [WorkspaceRuns], [WorkspaceProperties]: the journal refines a map of
      records, calls an applier at most once, and never loses or changes a
      terminal record.
    - [LlmLedger], [LlmProperties]: the invariant of the HumanLLM ledger, what
      later states keep, loops over pages that end, and canonical JSON that
      reads back exactly; revisions that never wrap, so that an
      unchanged revision means an unchanged record; [LlmEffects]: each
      transaction of the service read as a change of the ledger.
    - [LlmMachine]: the atomic steps of the service, made of the code's own
      computations.  [LlmSpec]: the abstract machine, five rules, and the
      invariant of its states.  [LlmAtomic]: every atomic step is a step of the
      abstract machine.  What was read early is still true at
      the commit, so that an operation is one step where it commits.
      [LlmRefinement], [LlmOperations], [LlmAdmitOnce]: every operation, in
      every run, makes such steps only.  [LlmExactlyOnce], [LlmAdmitOnce]: what
      their answers stand for.  [LlmOutcomes]: these results, with a
      small service whose runs are computed.
    - [CompletionSafety], [LlmEvents]: accepted paths stay in the workspace;
      what is planned for an event.
    - [CompletionHubFacts]: the invariant of a hub under any interleaving, its
      bounds, who may publish, what an acknowledgement stands for, and that
      registrations and reservations are honoured.  [CompletionTypes]: keys
      that cannot collide, one authorization per tool, runs of a completion.
    - [AgentWitnesses] and the ends of the property files: concrete runs that
      meet the hypotheses.

    ** Conventions and bounds

    Integers are [Z] and kept at their width where the code can overflow
    (int64 counters and fences are refused at [MaxInt64]; uint64 wraps).  Go
    maps are [gmap]s; text and bytes are [string]s of bytes; a nil slice is an
    option where the code tells it from an empty one.  Times are nanoseconds
    since the epoch in an int64.  Copies made by clone functions are values.
    A transaction's callback runs on a snapshot; what other callers commit
    before and after it is the environment of the refinement theorem.  The few
    recursions with fuel (JSON decoding, dropping trailing bytes, the run of a
    paged listing) take a measure of their input, which suffices because each
    round consumes some of it; the lemmas next to them say so.

    ** Not modelled

    SQL statements and files (agent/sqlite, llm/sqlite, internal/store), HTTP
    and WebSocket transports, process and file-system adapters, the command
    line, the web UI and the test suites; AES-GCM is a parameter with its
    documented behaviour.  Telemetry has no effect on the code and is left out.
    The completion dialects and the gateway, which translate the JSON of three
    providers behind HTTP, the worker programs with their SQL journals, the A2A
    adapter over its SDK, and the token bucket of the rate limiter, which
    computes in floating point, are outside the model.  Of HumanLLM the
    construction of a Service from its options is left out: it wires the parts
    and starts the background loops, whose rounds are modelled. *)

From Stdlib Require Export String Ascii ZArith NArith List Bool Lia Sorting.Sorted.
From stdpp Require Export base tactics list strings gmap fin_maps.

(* ------------------------------------------------------------------ *)
(** ** Results of fallible code *)

(** A Go function returning [(A, error)]: either the value or the error. *)
Inductive outcome (E A : Type) : Type :=
  | Ok (value : A)
  | Err (failure : E).
Arguments Ok {E A} _.
Arguments Err {E A} _.

#[export] Instance outcome_eq_dec {E A} `{EqDecision E, EqDecision A} :
  EqDecision (outcome E A).
Proof. solve_decision. Defined.

Definition obind {E A B} (m : outcome E A) (k : A -> outcome E B) : outcome E B :=
  match m with
  | Ok v => k v
  | Err e => Err e
  end.

Definition is_ok {E A} (m : outcome E A) : bool :=
  match m with
  | Ok _ => true
  | Err _ => false
  end.

Declare Scope human_scope.
Delimit Scope human_scope with human.

Notation "'let?' x ':=' m 'in' k" := (obind m (fun x => k))
  (at level 10, x pattern, m at level 100, k at level 200)
  : human_scope.
Notation "'check' m 'then' k" := (obind m (fun _ : unit => k))
  (at level 10, m at level 100, k at level 200)
  : human_scope.

Open Scope human_scope.

(** A guard: the early return [if bad { return err }]. *)
Definition refuse_if {E} (bad : bool) (e : E) : outcome E unit :=
  if bad then Err e else Ok tt.

Lemma obind_Ok {E A B} (m : outcome E A) (k : A -> outcome E B) b :
  obind m k = Ok b -> exists a, m = Ok a /\ k a = Ok b.
Proof. destruct m; simpl; [eauto | discriminate]. Qed.

Lemma obind_assoc {E A B C} (m : outcome E A) (f : A -> outcome E B) (g : B -> outcome E C) :
  obind (obind m f) g = obind m (fun a => obind (f a) g).
Proof. by destruct m. Qed.

Lemma refuse_if_Ok {E} (b : bool) (e : E) u : refuse_if b e = Ok u -> b = false.
Proof. by destruct b. Qed.

Lemma refuse_if_false {E} (b : bool) (e : E) : b = false -> refuse_if b e = Ok tt.
Proof. by intros ->. Qed.

(* ------------------------------------------------------------------ *)
(** ** Tactics shared by the development *)

(** Peel the successful run in a hypothesis: every bind and guard that must
    have succeeded becomes a hypothesis of its own. *)
Ltac ok_step H :=
  lazymatch type of H with
  | obind _ _ = Ok _ =>
      let a := fresh "v" in let Ha := fresh "Hv" in
      apply obind_Ok in H; destruct H as (a & Ha & H)
  | refuse_if _ _ = Ok _ => apply refuse_if_Ok in H
  | Ok _ = Ok _ => injection H as H; try subst
  | Err _ = Ok _ => discriminate H
  end.

Ltac ok_inv :=
  repeat match goal with
  | H : obind _ _ = Ok _ |- _ => ok_step H
  | H : refuse_if _ _ = Ok _ |- _ => ok_step H
  | H : Ok _ = Ok _ |- _ => ok_step H
  | H : Err _ = Ok _ |- _ => ok_step H
  end.

(** Boolean guards that came out false, as a disjunction in the code. *)
Ltac bool_split :=
  repeat match goal with
  | H : (_ || _)%bool = false |- _ => apply orb_false_iff in H; destruct H
  | H : (_ && _)%bool = true |- _ => apply andb_true_iff in H; destruct H
  | H : negb _ = false |- _ => apply negb_false_iff in H
  | H : negb _ = true |- _ => apply negb_true_iff in H
  end.

Ltac zbool :=
  repeat match goal with
  | H : (_ <? _)%Z = true |- _ => apply Z.ltb_lt in H
  | H : (_ <? _)%Z = false |- _ => apply Z.ltb_ge in H
  | H : (_ <=? _)%Z = true |- _ => apply Z.leb_le in H
  | H : (_ <=? _)%Z = false |- _ => apply Z.leb_gt in H
  | H : (_ =? _)%Z = true |- _ => apply Z.eqb_eq in H
  | H : (_ =? _)%Z = false |- _ => apply Z.eqb_neq in H
  | H : (_ >=? _)%Z = _ |- _ => rewrite Z.geb_leb in H
  | H : (_ >? _)%Z = _ |- _ => rewrite Z.gtb_ltb in H
  end.

(* ------------------------------------------------------------------ *)
(** ** Decidable tests as booleans *)

(** Go's [==] on comparable values. *)
Notation "x =?= y" := (bool_decide (x = y)) (at level 70, no associativity) : human_scope.
Notation "x <>? y" := (negb (bool_decide (x = y))) (at level 70, no associativity) : human_scope.

(** Boolean equality tests as equations. *)
Ltac decided :=
  repeat match goal with
  | H : bool_decide _ = true |- _ => apply bool_decide_eq_true in H
  | H : bool_decide _ = false |- _ => apply bool_decide_eq_false in H
  | H : negb (bool_decide _) = false |- _ => apply negb_false_iff, bool_decide_eq_true in H
  | H : negb (bool_decide _) = true |- _ => apply negb_true_iff, bool_decide_eq_false in H
  | H : Bool.eqb _ _ = true |- _ => apply eqb_prop in H
  end.

Definition is_none {A} (o : option A) : bool :=
  match o with Some _ => false | None => true end.

Lemma is_none_true {A} (o : option A) : is_none o = true <-> o = None.
Proof. by destruct o. Qed.

Lemma is_none_false {A} (o : option A) : is_none o = false <-> is_Some o.
Proof. destruct o; simpl; split; intros H; eauto; [discriminate | by destruct H]. Qed.

(** The empty string is Go's zero value of every string type. *)
Definition is_empty (s : string) : bool :=
  match s with EmptyString => true | _ => false end.

Lemma is_empty_true s : is_empty s = true <-> s = ""%string.
Proof. destruct s; simpl; split; congruence. Qed.

(** Byte length of a Go string or byte slice. *)
Definition len (s : string) : Z := Z.of_nat (String.length s).

Lemma len_nonneg s : (0 <= len s)%Z.
Proof. unfold len. lia. Qed.

(** [math.MaxInt64]. *)
Definition MaxInt64 : Z := 9223372036854775807%Z.

(* ------------------------------------------------------------------ *)
(** ** Lists sorted by a boolean order *)

Section SortedLists.
Context {A : Type} (less : A -> A -> bool).

(** [sort.Slice]: an ascending arrangement. *)
Fixpoint insert_sorted (x : A) (l : list A) : list A :=
  match l with
  | [] => [x]
  | y :: l' => if less y x then y :: insert_sorted x l' else x :: l
  end.

Fixpoint sort_slice (l : list A) : list A :=
  match l with
  | [] => []
  | x :: l' => insert_sorted x (sort_slice l')
  end.

Lemma insert_sorted_perm x l : insert_sorted x l ≡ₚ x :: l.
Proof.
  induction l as [|y l IH]; simpl; [done|].
  destruct (less y x); [|done]. rewrite IH. constructor.
Qed.

Lemma sort_slice_perm l : sort_slice l ≡ₚ l.
Proof. induction l as [|x l IH]; simpl; [done|]. by rewrite insert_sorted_perm, IH. Qed.

(** No element precedes one that is before it in the list. *)
Definition ascending (l : list A) : Prop := StronglySorted (fun x y => less y x = false) l.
End SortedLists.

(** A strict total order, as a boolean test. *)
Record strict_total {K} (less : K -> K -> bool) : Prop := {
  less_irrefl : forall x, less x x = false;
  less_trans : forall x y z, less x y = true -> less y z = true -> less x z = true;
  less_total : forall x y, less x y = false -> less y x = false -> x = y
}.

(** The lexicographic order of two. *)
Definition lex {K1 K2} `{EqDecision K1} (l1 : K1 -> K1 -> bool) (l2 : K2 -> K2 -> bool)
    (x y : K1 * K2) : bool :=
  if fst x =?= fst y then l2 (snd x) (snd y) else l1 (fst x) (fst y).

Lemma strict_total_lex {K1 K2} `{EqDecision K1} (l1 : K1 -> K1 -> bool) (l2 : K2 -> K2 -> bool) :
  strict_total l1 -> strict_total l2 -> strict_total (lex l1 l2).
Proof.
  intros [i1 t1 o1] [i2 t2 o2]. unfold lex. split.
  - intros [a b]. cbn. by rewrite bool_decide_eq_true_2.
  - intros [a1 b1] [a2 b2] [a3 b3]. cbn. repeat case_bool_decide; subst; try done; eauto.
    intros Hx Hy. pose proof (t1 _ _ _ Hx Hy) as Hc. by rewrite i1 in Hc.
  - intros [a1 b1] [a2 b2]. cbn. repeat case_bool_decide; subst; try done.
    + intros. f_equal. by apply o2.
    + intros Hx Hy. by pose proof (o1 _ _ Hx Hy).
Qed.

Lemma strict_total_Zlt : strict_total Z.ltb.
Proof.
  split.
  - intros. apply Z.ltb_irrefl.
  - intros x y z. rewrite !Z.ltb_lt. lia.
  - intros x y. rewrite !Z.ltb_ge. lia.
Qed.

(** The opposite order. *)
Lemma strict_total_flip {K} (less : K -> K -> bool) :
  strict_total less -> strict_total (fun x y => less y x).
Proof. intros [i t o]. split; [done | eauto | eauto]. Qed.

(** Go's [<] on strings: bytewise. *)
Fixpoint string_less (a b : string) : bool :=
  match a, b with
  | _, EmptyString => false
  | EmptyString, _ => true
  | String x a', String y b' =>
      if Ascii.eqb x y then string_less a' b' else (N_of_ascii x <? N_of_ascii y)%N
  end.

Lemma strict_total_string : strict_total string_less.
Proof.
  split.
  - intros x. induction x as [|a x IH]; [done|]. cbn. by rewrite Ascii.eqb_refl.
  - intros x. induction x as [|a x IH]; intros [|b y] [|c z]; cbn; try done.
    destruct (Ascii.eqb_spec a b) as [->|Hab], (Ascii.eqb_spec b c) as [->|Hbc]; try done.
    + apply IH.
    + intros Hx _. by rewrite (proj2 (Ascii.eqb_neq _ _) Hab).
    + intros Hx%N.ltb_lt Hy%N.ltb_lt. destruct (Ascii.eqb_spec a c) as [->|_]; [lia|].
      apply N.ltb_lt. lia.
  - intros x. induction x as [|a x IH]; intros [|b y]; cbn; try done.
    rewrite (Ascii.eqb_sym b a). destruct (Ascii.eqb_spec a b) as [->|Hab].
    + intros. f_equal. by apply IH.
    + rewrite !N.ltb_ge. intros. destruct Hab. rewrite <- (ascii_N_embedding a), <- (ascii_N_embedding b).
      f_equal. lia.
Qed.

(** Lists sorted by a key with a strict total order. *)
Section SortedByKey.
Context {A K : Type} (key : A -> K) (kless : K -> K -> bool) (Hk : strict_total kless).
Context (less : A -> A -> bool) (Hless : forall x y, less x y = kless (key x) (key y)).

Lemma not_less_trans x y z : less y x = false -> less z y = false -> less z x = false.
Proof.
  rewrite !Hless. destruct Hk as [irr trans total]. intros H1 H2.
  destruct (kless (key z) (key x)) eqn:E; [|done].
  destruct (kless (key y) (key z)) eqn:E2.
  - pose proof (trans _ _ _ E2 E). congruence.
  - pose proof (total _ _ E2 H2) as Heq. congruence.
Qed.

Lemma less_asym x y : less x y = true -> less y x = false.
Proof.
  rewrite !Hless. destruct Hk as [irr trans total]. intros H.
  destruct (kless (key y) (key x)) eqn:E; [|done].
  pose proof (trans _ _ _ H E) as Hc. congruence.
Qed.

Lemma insert_sorted_ascending x l : ascending less l -> ascending less (insert_sorted less x l).
Proof.
  unfold ascending. induction 1 as [|y l Hs IH Hf]; simpl.
  { repeat constructor. }
  destruct (less y x) eqn:E.
  - constructor; [done|]. rewrite insert_sorted_perm. constructor; [|done]. by apply less_asym.
  - constructor; [by constructor|]. constructor; [done|].
    eapply Forall_impl; [exact Hf|]. simpl. intros z Hz. by eapply not_less_trans.
Qed.

Lemma sort_slice_ascending l : ascending less (sort_slice less l).
Proof.
  induction l as [|x l IH]; simpl; [constructor|]. by apply insert_sorted_ascending.
Qed.

(** When the keys tell the elements apart, the arrangement does not depend
    on the order they came in: Go iterates a map in an unspecified order
    before it sorts. *)
Lemma ascending_unique l1 l2 :
  (forall x y, x ∈ l1 -> y ∈ l1 -> key x = key y -> x = y) ->
  ascending less l1 -> ascending less l2 -> l1 ≡ₚ l2 -> l1 = l2.
Proof.
  unfold ascending. revert l2. induction l1 as [|x l1 IH]; intros l2 Hinj H1 H2 Hp.
  { symmetry in Hp. by apply Permutation_nil_r in Hp. }
  destruct l2 as [|y l2]; [by apply Permutation_nil_r in Hp|].
  inversion H1 as [|? ? Hs1 Hf1]; inversion H2 as [|? ? Hs2 Hf2]; subst.
  assert (x = y) as ->.
  { assert (x ∈ y :: l2) as Hx by (rewrite <- Hp; left).
    assert (y ∈ x :: l1) as Hy by (rewrite Hp; left).
    apply elem_of_cons in Hx as [->|Hx]; [done|].
    assert (y ∈ x :: l1) as Hy' by done.
    apply elem_of_cons in Hy as [->|Hy]; [done|].
    rewrite Forall_forall in Hf1, Hf2. specialize (Hf1 _ Hy). specialize (Hf2 _ Hx).
    apply Hinj; [left|done|]. rewrite Hless in Hf1, Hf2. by apply (less_total _ Hk). }
  f_equal. apply IH; [|done..|by apply Permutation.Permutation_cons_inv in Hp].
  intros a b Ha Hb. apply Hinj; by right.
Qed.

Lemma sort_slice_perm_eq l1 l2 :
  (forall x y, x ∈ l1 -> y ∈ l1 -> key x = key y -> x = y) ->
  l1 ≡ₚ l2 -> sort_slice less l1 = sort_slice less l2.
Proof.
  intros Hinj Hp. apply ascending_unique; try apply sort_slice_ascending.
  - intros x y. rewrite !sort_slice_perm. apply Hinj.
  - by rewrite !sort_slice_perm.
Qed.

Lemma ascending_take n l : ascending less l -> ascending less (take n l).
Proof.
  unfold ascending. intros H. revert n. induction H as [|x l Hs IH Hf]; intros [|n]; cbn;
    constructor; [done|]. by apply Forall_take.
Qed.

Lemma ascending_filter (P : A -> Prop) `{forall x, Decision (P x)} l :
  ascending less l -> ascending less (filter P l).
Proof.
  unfold ascending. induction 1 as [|x l Hs IH Hf]; [constructor|].
  rewrite filter_cons. case_decide; [|done]. constructor; [done|].
  rewrite Forall_forall in Hf |- *. intros y Hy. apply Hf.
  by apply list_elem_of_filter in Hy as [_ Hy].
Qed.
End SortedByKey.

(* ------------------------------------------------------------------ *)
(** ** Counting the entries of a map *)

Section MapCount.
Context {K A : Type} `{Countable K} (p : A -> bool).

Definition count_map (m : gmap K A) : nat := size (filter (fun kv : K * A => p (snd kv) = true) m).

Lemma count_insert_new m k a : m !! k = None ->
  count_map (<[k := a]> m) = (count_map m + Nat.b2n (p a))%nat.
Proof.
  intros Hk. unfold count_map. destruct (p a) eqn:E; cbn [Nat.b2n].
  - rewrite map_filter_insert_True by done. rewrite map_size_insert_None; [lia|].
    apply map_lookup_filter_None. by left.
  - rewrite map_filter_insert_False by (cbn; congruence). by rewrite delete_id by done.
Qed.

Lemma count_delete m k a : m !! k = Some a ->
  (count_map (delete k m) + Nat.b2n (p a))%nat = count_map m.
Proof.
  intros Hk. rewrite <- (insert_delete_id m k a) at 2 by done.
  by rewrite count_insert_new by apply lookup_delete_eq.
Qed.

Lemma count_update m k a b : m !! k = Some a ->
  (count_map (<[k := b]> m) + Nat.b2n (p a))%nat = (count_map m + Nat.b2n (p b))%nat.
Proof.
  intros Hk. rewrite <- insert_delete_eq, count_insert_new by apply lookup_delete_eq.
  pose proof (count_delete m k a Hk). lia.
Qed.

Lemma count_pos m k a : m !! k = Some a -> p a = true -> (0 < count_map m)%nat.
Proof. intros Hk Hp. pose proof (count_delete m k a Hk). rewrite Hp in *. cbn in *. lia. Qed.

(** Two different entries that are counted. *)
Lemma count_two m k1 k2 a1 a2 : m !! k1 = Some a1 -> m !! k2 = Some a2 -> k1 <> k2 ->
  p a1 = true -> p a2 = true -> (2 <= count_map m)%nat.
Proof.
  intros H1 H2 Hne P1 P2. pose proof (count_delete m k1 a1 H1).
  pose proof (count_pos (delete k1 m) k2 a2). rewrite lookup_delete_ne, P1 in * by done. cbn in *.
  specialize (H3 H2 P2). lia.
Qed.

Lemma count_some m : count_map m <> 0%nat -> exists k a, m !! k = Some a /\ p a = true.
Proof.
  unfold count_map. intros [k [a Ha]]%map_size_ne_0_lookup_1.
  apply map_lookup_filter_Some in Ha as [Ha Hp]. eauto.
Qed.

Lemma count_le m : (count_map m <= size m)%nat.
Proof. apply map_subseteq_size, map_filter_subseteq. Qed.

Lemma count_empty : count_map ∅ = 0%nat.
Proof. unfold count_map. by rewrite map_filter_empty. Qed.
End MapCount.
#[global] Arguments count_map : simpl never.

(** String append computes on constructors. *)
#[global] Arguments String.append !_ _ : simpl nomatch.

Lemma string_app_assoc (a b c : string) : ((a ++ b) ++ c = a ++ (b ++ c))%string.
Proof. induction a as [|x a IH]; simpl; [done | by rewrite IH]. Qed.

Lemma string_app_nil (a : string) : (a ++ "" = a)%string.
Proof. induction a as [|x a IH]; simpl; [done | by rewrite IH]. Qed.

Lemma len_app a b : len (a ++ b)%string = (len a + len b)%Z.
Proof. unfold len. induction a as [|x a IH]; simpl; lia. Qed.

Create HintDb human discriminated.
#[export] Hint Resolve len_nonneg : human.

(** Closed equations and bounds, by evaluation in the kernel's machine. *)
Ltac evaluate := lazymatch goal with |- _ = ?b => vm_cast_no_check (@eq_refl _ b) end.
Ltac evaluate_le := red; apply Z.leb_le; evaluate.
