(* ===== verification/GoText.v ===== *)
(** * Go strings and byte slices

    A Go string and a []byte are sequences of bytes; both are the Standard
    Library's [string].  This file has the operations of the [unicode/utf8],
    [strings], [encoding/hex], [encoding/base64], [regexp] and [mime] packages
    that the modelled code calls. *)

From S2P Require Import Prelude.

Local Open Scope string_scope.

(* ------------------------------------------------------------------ *)
(** ** Bytes *)

Definition byte_of (a : ascii) : N := N_of_ascii a.

Definition in_range (lo hi n : N) : bool := (lo <=? n)%N && (n <=? hi)%N.

Definition is_lower (a : ascii) : bool := in_range 97 122 (byte_of a).
Definition is_upper (a : ascii) : bool := in_range 65 90 (byte_of a).
Definition is_digit (a : ascii) : bool := in_range 48 57 (byte_of a).
Definition is_alnum (a : ascii) : bool := is_lower a || is_upper a || is_digit a.

Fixpoint string_forallb (f : ascii -> bool) (s : string) : bool :=
  match s with
  | EmptyString => true
  | String a s' => f a && string_forallb f s'
  end.

Definition string_existsb (f : ascii -> bool) (s : string) : bool :=
  negb (string_forallb (fun a => negb (f a)) s).

(** [strings.ContainsAny] for a set of ASCII characters. *)
Definition contains_any (set : list ascii) (s : string) : bool :=
  string_existsb (fun a => existsb (Ascii.eqb a) set) s.

Fixpoint concat_strings (l : list string) : string :=
  match l with
  | [] => ""
  | s :: l' => s ++ concat_strings l'
  end.

(** The characters of a small string literal, used as a set. *)
Definition nul : ascii := ascii_of_nat 0.
Definition tab : ascii := ascii_of_nat 9.
Definition lf : ascii := ascii_of_nat 10.
Definition vt : ascii := ascii_of_nat 11.
Definition ff : ascii := ascii_of_nat 12.
Definition cr : ascii := ascii_of_nat 13.
Definition quote : ascii := ascii_of_nat 34.
Definition backslash : ascii := ascii_of_nat 92.

(* ------------------------------------------------------------------ *)
(** ** UTF-8 *)

(** One decoding step of [utf8.DecodeRuneInString]: the rune, the bytes it was
    read from, and whether the encoding was valid.  An invalid byte is read
    alone, as U+FFFD. *)
Record chunk := Chunk { rune : N; raw : string; good : bool }.

Definition str1 (a : ascii) : string := String a "".
Definition str2 (a b : ascii) : string := String a (str1 b).
Definition str3 (a b c : ascii) : string := String a (str2 b c).
Definition str4 (a b c d : ascii) : string := String a (str3 b c d).

Definition rune_error : N := 65533.
Definition bad_chunk (a : ascii) : chunk := Chunk rune_error (str1 a) false.

Definition cont (a : ascii) : bool := in_range 128 191 (byte_of a).
Definition low6 (a : ascii) : N := N.land (byte_of a) 63.

(** The second byte's range depends on the first (no overlong forms, no
    surrogates, nothing above U+10FFFF). *)
Definition second3 (a b : ascii) : bool :=
  in_range (if (byte_of a =? 224)%N then 160 else 128)
           (if (byte_of a =? 237)%N then 159 else 191) (byte_of b).
Definition second4 (a b : ascii) : bool :=
  in_range (if (byte_of a =? 240)%N then 144 else 128)
           (if (byte_of a =? 244)%N then 143 else 191) (byte_of b).

Definition rune2 (a b : ascii) : N := N.land (byte_of a) 31 * 64 + low6 b.
Definition rune3 (a b c : ascii) : N :=
  (N.land (byte_of a) 15 * 64 + low6 b) * 64 + low6 c.
Definition rune4 (a b c d : ascii) : N :=
  ((N.land (byte_of a) 7 * 64 + low6 b) * 64 + low6 c) * 64 + low6 d.

Fixpoint runes (s : string) : list chunk :=
  match s with
  | "" => []
  | String a s1 =>
      if (byte_of a <? 128)%N then Chunk (byte_of a) (str1 a) true :: runes s1
      else if (byte_of a <? 194)%N then bad_chunk a :: runes s1
      else if (byte_of a <? 224)%N then
        match s1 with
        | String b s2 =>
            if cont b then Chunk (rune2 a b) (str2 a b) true :: runes s2
            else bad_chunk a :: runes s1
        | "" => [bad_chunk a]
        end
      else if (byte_of a <? 240)%N then
        match s1 with
        | String b (String c s3) =>
            if second3 a b && cont c
            then Chunk (rune3 a b c) (str3 a b c) true :: runes s3
            else bad_chunk a :: runes s1
        | _ => bad_chunk a :: runes s1
        end
      else if (byte_of a <? 245)%N then
        match s1 with
        | String b (String c (String d s4)) =>
            if second4 a b && cont c && cont d
            then Chunk (rune4 a b c d) (str4 a b c d) true :: runes s4
            else bad_chunk a :: runes s1
        | _ => bad_chunk a :: runes s1
        end
      else bad_chunk a :: runes s1
  end.

Definition concat_raw (l : list chunk) : string := concat_strings (raw <$> l).

(** [utf8.ValidString] (and [utf8.Valid]). *)
Definition valid_string (s : string) : bool := forallb good (runes s).

(** [utf8.EncodeRune]; a surrogate or an out-of-range value is U+FFFD. *)
Definition encode_rune (r : N) : string :=
  let b n := ascii_of_N n in
  if (r <? 128)%N then str1 (b r)
  else if (r <? 2048)%N then str2 (b (192 + r / 64)%N) (b (128 + r mod 64)%N)
  else if in_range 55296 57343 r || (1114111 <? r)%N
  then str3 (b 239%N) (b 191%N) (b 189%N)
  else if (r <? 65536)%N
  then str3 (b (224 + r / 4096)%N) (b (128 + (r / 64) mod 64)%N) (b (128 + r mod 64)%N)
  else str4 (b (240 + r / 262144)%N) (b (128 + (r / 4096) mod 64)%N)
            (b (128 + (r / 64) mod 64)%N) (b (128 + r mod 64)%N).

(** [strings.ToValidUTF8(s, replacement)]: each maximal run of invalid bytes
    becomes one replacement. *)
Fixpoint to_valid_chunks (replacement : string) (after_bad : bool) (l : list chunk) : string :=
  match l with
  | [] => ""
  | c :: l' =>
      if good c then raw c ++ to_valid_chunks replacement false l'
      else (if after_bad then "" else replacement) ++ to_valid_chunks replacement true l'
  end.

Definition ToValidUTF8 (s replacement : string) : string :=
  to_valid_chunks replacement false (runes s).

Lemma concat_raw_cons c l : concat_raw (c :: l) = raw c ++ concat_raw l.
Proof. done. Qed.

Lemma runes_raw s : concat_raw (runes s) = s.
Proof.
  assert (forall n s, (String.length s <= n)%nat -> concat_raw (runes s) = s) as H.
  { clear s. intros n. induction n as [|n IH]; intros s Hn.
    { destruct s; [done | simpl in Hn; lia]. }
    destruct s as [|a s1]; [done|]. simpl in Hn.
    cbn [runes]. repeat case_match; subst; rewrite concat_raw_cons;
      try (rewrite IH by (cbn [String.length] in *; lia)); done. }
  by apply (H (String.length s)).
Qed.

(** A valid text is decoded the same whatever follows it. *)
Lemma runes_app s t : valid_string s = true -> runes (s ++ t) = (runes s ++ runes t)%list.
Proof.
  unfold valid_string.
  assert (forall n s, (String.length s <= n)%nat -> forallb good (runes s) = true ->
            runes (s ++ t) = (runes s ++ runes t)%list) as H.
  { clear s. intros n. induction n as [|n IH]; intros s Hn Hok.
    { destruct s; [done | simpl in Hn; lia]. }
    destruct s as [|a s1]; [done|]. simpl in Hn. cbn [runes] in Hok.
    repeat match type of Hok with context [match ?x with _ => _ end] => destruct x eqn:? end; subst;
      try discriminate Hok; cbn [append runes];
      repeat match goal with H : ?x = ?b |- context [if ?x then _ else _] => rewrite H end;
      cbn [app]; f_equal; apply IH; cbn [String.length] in *; (lia || done). }
  by apply (H (String.length s)).
Qed.

Lemma valid_string_app s t :
  valid_string s = true -> valid_string t = true -> valid_string (s ++ t) = true.
Proof.
  intros Hs Ht. unfold valid_string. rewrite runes_app by done.
  rewrite forallb_app. by apply andb_true_intro.
Qed.

Lemma chunk_raw_valid s : Forall (fun c => good c = true -> valid_string (raw c) = true) (runes s).
Proof.
  assert (forall n s, (String.length s <= n)%nat ->
    Forall (fun c => good c = true -> valid_string (raw c) = true) (runes s)) as H.
  { clear s. intros n. induction n as [|n IH]; intros s Hn.
    { destruct s; [constructor | simpl in Hn; lia]. }
    destruct s as [|a s1]; [constructor|]. simpl in Hn. cbn [runes].
    repeat case_match; subst; constructor;
      try (apply IH; cbn [String.length] in *; lia); cbn [good raw bad_chunk]; try done; intros _;
      unfold valid_string, str4, str3, str2, str1; cbn [runes];
      repeat match goal with H : _ = ?b |- context [if ?x then _ else _] =>
        match type of H with x = b => rewrite H end end; try done.
    all: constructor. }
  by apply (H (String.length s)).
Qed.

(* ------------------------------------------------------------------ *)
(** ** Space trimming *)

(** [unicode.IsSpace]. *)
Definition is_space_rune (r : N) : bool :=
  existsb (N.eqb r) [9; 10; 11; 12; 13; 32; 133; 160; 5760; 8232; 8233; 8239; 8287; 12288]%N
  || in_range 8192 8202 r.

Definition is_space_chunk (c : chunk) : bool := good c && is_space_rune (rune c).

Fixpoint drop_space (l : list chunk) : list chunk :=
  match l with
  | c :: l' => if is_space_chunk c then drop_space l' else l
  | [] => []
  end.

(** [strings.TrimLeftFunc(s, unicode.IsSpace)] and [strings.TrimSpace]. *)
Definition TrimLeftSpace (s : string) : string := concat_raw (drop_space (runes s)).
Definition TrimSpace (s : string) : string :=
  concat_raw (rev (drop_space (rev (drop_space (runes s))))).

Lemma drop_space_last l c :
  is_space_chunk c = false -> exists l', drop_space (l ++ [c]) = (l' ++ [c])%list.
Proof.
  intros Hc. induction l as [|x l [l' IH]]; cbn.
  { rewrite Hc. by exists []. }
  destruct (is_space_chunk x); [eauto|]. by exists (x :: l).
Qed.

(** Trimming keeps a first character that is not a space. *)
Lemma TrimSpace_head s c l :
  runes s = c :: l -> is_space_chunk c = false -> exists t, TrimSpace s = raw c ++ t.
Proof.
  intros Hs Hc. unfold TrimSpace. rewrite Hs. cbn [drop_space]. rewrite Hc. cbn [rev].
  destruct (drop_space_last (rev l) c Hc) as (l' & ->). rewrite rev_app_distr.
  eexists. cbn [rev app]. by rewrite concat_raw_cons.
Qed.

(* ------------------------------------------------------------------ *)
(** ** Identifier patterns *)

(** The regular expression [^[A-Za-z0-9][A-Za-z0-9._:-]{0,127}$]. *)
Definition stable_first (a : ascii) : bool := is_alnum a.
Definition stable_rest (a : ascii) : bool :=
  is_alnum a || existsb (Ascii.eqb a) ["."; "_"; ":"; "-"]%char.

Definition match_stable (s : string) : bool :=
  match s with
  | "" => false
  | String a s' => stable_first a && string_forallb stable_rest s' && (len s' <=? 127)%Z
  end.

(** The regular expression [^[a-z][a-z0-9._/-]{0,127}$]. *)
Definition token_rest (a : ascii) : bool :=
  is_lower a || is_digit a || existsb (Ascii.eqb a) ["."; "_"; "/"; "-"]%char.

Definition match_token (s : string) : bool :=
  match s with
  | "" => false
  | String a s' => is_lower a && string_forallb token_rest s' && (len s' <=? 127)%Z
  end.

(* ------------------------------------------------------------------ *)
(** ** ASCII text is valid UTF-8 *)

Definition is_ascii (s : string) : bool := string_forallb (fun a => (byte_of a <? 128)%N) s.

Lemma string_forallb_impl f g s :
  (forall a, f a = true -> g a = true) -> string_forallb f s = true -> string_forallb g s = true.
Proof.
  intros H. induction s as [|a s IH]; simpl; [done|]. rewrite !andb_true_iff. intros [? ?]. eauto.
Qed.

Lemma string_forallb_app f a b :
  string_forallb f (a ++ b) = string_forallb f a && string_forallb f b.
Proof. induction a as [|x a IH]; simpl; [done|]. by rewrite IH, andb_assoc. Qed.

Lemma is_ascii_valid s : is_ascii s = true -> valid_string s = true.
Proof.
  unfold is_ascii, valid_string. induction s as [|a s IH]; [done|]. cbn [string_forallb].
  rewrite andb_true_iff. intros [Ha H]. cbn [runes]. rewrite Ha. cbn [forallb good]. auto.
Qed.

Lemma is_alnum_ascii a : is_alnum a = true -> (byte_of a <? 128)%N = true.
Proof.
  unfold is_alnum, is_lower, is_upper, is_digit, in_range.
  rewrite !orb_true_iff, !andb_true_iff, !N.leb_le, N.ltb_lt. lia.
Qed.

Lemma stable_rest_ascii a : stable_rest a = true -> (byte_of a <? 128)%N = true.
Proof.
  unfold stable_rest. rewrite orb_true_iff. intros [H|H]; [by apply is_alnum_ascii|].
  apply existsb_exists in H as (x & Hx & H). apply Ascii.eqb_eq in H as ->.
  cbn in Hx. by repeat destruct Hx as [<-|Hx].
Qed.

Lemma match_stable_ascii s : match_stable s = true -> is_ascii s = true.
Proof.
  unfold match_stable, is_ascii. destruct s as [|a s]; [done|]. rewrite !andb_true_iff.
  intros [[Ha Hs] _]. cbn. rewrite (is_alnum_ascii a) by done. cbn.
  eapply string_forallb_impl; [|done]. apply stable_rest_ascii.
Qed.

Lemma match_stable_valid s : match_stable s = true -> valid_string s = true.
Proof. intros H. by apply is_ascii_valid, match_stable_ascii. Qed.

Lemma match_stable_nonempty s : match_stable s = true -> s <> "".
Proof. by destruct s. Qed.
