(* ===== verification/GoEncoding.v ===== *)
(** * Hexadecimal, base64 and SHA-256

    The functions of [encoding/hex], [encoding/base64] and [crypto/sha256]
    that the program uses for digests and for byte slices in JSON, as
    executable definitions, with the base64 round trip. *)

From S2P Require Import Prelude GoText.

Local Open Scope string_scope.

(* ------------------------------------------------------------------ *)
(** ** Hexadecimal *)

Definition hex_digit (n : N) : ascii :=
  if (n <? 10)%N then ascii_of_N (48 + n) else ascii_of_N (87 + n).

Definition hex_value (a : ascii) : option N :=
  let n := byte_of a in
  if in_range 48 57 n then Some (n - 48)%N
  else if in_range 97 102 n then Some (n - 87)%N
  else if in_range 65 70 n then Some (n - 55)%N
  else None.

(** [hex.EncodeToString]. *)
Fixpoint hex_encode (s : string) : string :=
  match s with
  | "" => ""
  | String a s' =>
      String (hex_digit (byte_of a / 16)) (String (hex_digit (byte_of a mod 16)) (hex_encode s'))
  end.

(** [hex.DecodeString]. *)
Fixpoint hex_decode (s : string) : option string :=
  match s with
  | "" => Some ""
  | String a (String b s') =>
      match hex_value a, hex_value b, hex_decode s' with
      | Some x, Some y, Some r => Some (String (ascii_of_N (x * 16 + y)) r)
      | _, _, _ => None
      end
  | String _ "" => None
  end.

(* ------------------------------------------------------------------ *)
(** ** base64.StdEncoding *)

Definition b64_digit (n : N) : ascii :=
  if (n <? 26)%N then ascii_of_N (65 + n)
  else if (n <? 52)%N then ascii_of_N (71 + n)
  else if (n <? 62)%N then ascii_of_N (n - 4)
  else if (n =? 62)%N then "+"%char else "/"%char.

Definition b64_value (a : ascii) : option N :=
  let n := byte_of a in
  if is_upper a then Some (n - 65)%N
  else if is_lower a then Some (n - 71)%N
  else if is_digit a then Some (n + 4)%N
  else if Ascii.eqb a "+" then Some 62%N
  else if Ascii.eqb a "/" then Some 63%N
  else None.

(** [base64.StdEncoding.EncodeToString]. *)
Fixpoint b64_encode (s : string) : string :=
  match s with
  | "" => ""
  | String a "" =>
      let x := byte_of a in
      String (b64_digit (x / 4)) (String (b64_digit (x mod 4 * 16)) "==")
  | String a (String b "") =>
      let x := byte_of a in let y := byte_of b in
      String (b64_digit (x / 4)) (String (b64_digit (x mod 4 * 16 + y / 16))
        (String (b64_digit (y mod 16 * 4)) "="))
  | String a (String b (String c s')) =>
      let x := byte_of a in let y := byte_of b in let z := byte_of c in
      String (b64_digit (x / 4)) (String (b64_digit (x mod 4 * 16 + y / 16))
        (String (b64_digit (y mod 16 * 4 + z / 64)) (String (b64_digit (z mod 64))
          (b64_encode s'))))
  end.

Definition b64_tail1 (strict : bool) (x y : N) : option string :=
  if strict && negb (y mod 16 =? 0)%N then None
  else Some (str1 (ascii_of_N (x * 4 + y / 16))).

Definition b64_tail2 (strict : bool) (x y z : N) : option string :=
  if strict && negb (z mod 4 =? 0)%N then None
  else Some (str2 (ascii_of_N (x * 4 + y / 16)) (ascii_of_N (y mod 16 * 16 + z / 4))).

(** Decoding of a text from which CR and LF have been removed. *)
Fixpoint b64_groups (strict : bool) (s : string) : option string :=
  match s with
  | "" => Some ""
  | String a (String b (String c (String d s'))) =>
      match b64_value a, b64_value b with
      | Some x, Some y =>
          match b64_value c, b64_value d with
          | Some z, Some w =>
              match b64_groups strict s' with
              | Some r => Some (String (ascii_of_N (x * 4 + y / 16))
                            (String (ascii_of_N (y mod 16 * 16 + z / 4))
                              (String (ascii_of_N (z mod 4 * 64 + w)) r)))
              | None => None
              end
          | Some z, None =>
              if Ascii.eqb d "=" && is_empty s' then b64_tail2 strict x y z else None
          | None, _ =>
              if Ascii.eqb c "=" && Ascii.eqb d "=" && is_empty s'
              then b64_tail1 strict x y else None
          end
      | _, _ => None
      end
  | _ => None
  end.

Fixpoint drop_newlines (s : string) : string :=
  match s with
  | "" => ""
  | String a s' =>
      if Ascii.eqb a cr || Ascii.eqb a lf then drop_newlines s' else String a (drop_newlines s')
  end.

(** [base64.StdEncoding.Decode], and its [Strict] variant. *)
Definition b64_decode (strict : bool) (s : string) : option string :=
  b64_groups strict (drop_newlines s).

Lemma byte_bound a : (byte_of a < 256)%N.
Proof. unfold byte_of. apply N_ascii_bounded. Qed.

Lemma b64_value_digit n : (n < 64)%N -> b64_value (b64_digit n) = Some n.
Proof.
  intros Hn.
  assert (forallb (fun k => bool_decide (b64_value (b64_digit (N.of_nat k)) = Some (N.of_nat k)))
            (seq 0 64) = true) as H by reflexivity.
  rewrite forallb_forall in H. specialize (H (N.to_nat n)).
  rewrite in_seq, N2Nat.id in H. apply bool_decide_eq_true in H; [done | lia].
Qed.

Lemma b64_digit_newline n : (n < 64)%N ->
  Ascii.eqb (b64_digit n) cr || Ascii.eqb (b64_digit n) lf = false.
Proof.
  intros Hn.
  assert (forallb (fun k => negb (Ascii.eqb (b64_digit (N.of_nat k)) cr ||
            Ascii.eqb (b64_digit (N.of_nat k)) lf)) (seq 0 64) = true) as H by reflexivity.
  rewrite forallb_forall in H. specialize (H (N.to_nat n)).
  rewrite in_seq, N2Nat.id in H. apply negb_true_iff in H; [done | lia].
Qed.

Lemma hex_value_digit n : (n < 16)%N -> hex_value (hex_digit n) = Some n.
Proof.
  intros Hn.
  assert (forallb (fun k => bool_decide (hex_value (hex_digit (N.of_nat k)) = Some (N.of_nat k)))
            (seq 0 16) = true) as H by reflexivity.
  rewrite forallb_forall in H. specialize (H (N.to_nat n)).
  rewrite in_seq, N2Nat.id in H. apply bool_decide_eq_true in H; [done | lia].
Qed.

Lemma hex_roundtrip s : hex_decode (hex_encode s) = Some s.
Proof.
  induction s as [|a s IH]; [done|]. cbn [hex_encode hex_decode].
  pose proof (byte_bound a). rewrite !hex_value_digit, IH by
    (try apply N.mod_lt; try apply N.Div0.div_lt_upper_bound; (done || lia)).
  rewrite (N.mul_comm _ 16), <- N.div_mod by done. unfold byte_of. by rewrite ascii_N_embedding.
Qed.

Lemma hex_encode_length s : String.length (hex_encode s) = (2 * String.length s)%nat.
Proof. induction s as [|a s IH]; cbn [hex_encode String.length]; [done|]. rewrite IH. lia. Qed.

Lemma string3_ind (P : string -> Prop) :
  P "" -> (forall a, P (str1 a)) -> (forall a b, P (str2 a b)) ->
  (forall a b c s, P s -> P (String a (String b (String c s)))) -> forall s, P s.
Proof.
  intros H0 H1 H2 H3 s.
  assert (forall n s, (String.length s <= n)%nat -> P s) as H.
  { clear s. induction n as [|n IH]; intros s Hn.
    { destruct s; [done | simpl in Hn; lia]. }
    destruct s as [|a [|b [|c s]]]; [done | apply H1 | apply H2 |].
    apply H3, IH. simpl in Hn. lia. }
  by apply (H (String.length s)).
Qed.

Ltac sextet :=
  repeat match goal with a : ascii |- _ =>
    lazymatch goal with
    | _ : (byte_of a < 256)%N |- _ => fail
    | _ => pose proof (byte_bound a)
    end end;
  zify; Z.to_euclidean_division_equations; lia.

Lemma drop_newlines_encode s : drop_newlines (b64_encode s) = b64_encode s.
Proof.
  induction s as [|a|a b|a b c s IH] using string3_ind;
    cbn -[N.div N.modulo N.mul N.add]; rewrite ?b64_digit_newline by sextet;
    cbn -[N.div N.modulo N.mul N.add]; rewrite ?IH; done.
Qed.

Lemma ascii_eq a n : n = byte_of a -> ascii_of_N n = a.
Proof. intros ->. apply ascii_N_embedding. Qed.

Lemma b64_roundtrip strict s : b64_decode strict (b64_encode s) = Some s.
Proof.
  unfold b64_decode. rewrite drop_newlines_encode.
  induction s as [|a|a b|a b c s IH] using string3_ind; [done| | |];
    cbn -[N.div N.modulo N.mul N.add]; rewrite !b64_value_digit by sextet;
    cbn -[N.div N.modulo N.mul N.add].
  - unfold b64_tail1. rewrite (proj2 (N.eqb_eq _ _)), andb_false_r by sextet. cbn.
    unfold str1. do 2 f_equal. apply ascii_eq. sextet.
  - unfold b64_tail2. rewrite (proj2 (N.eqb_eq _ _)), andb_false_r by sextet. cbn.
    unfold str2, str1. do 2 f_equal; [|f_equal]; apply ascii_eq; sextet.
  - rewrite IH. repeat (f_equal; try (apply ascii_eq; sextet)).
Qed.

Lemma b64_encode_ascii s : is_ascii (b64_encode s) = true.
Proof.
  assert (forall n, (byte_of (b64_digit n) <? 128)%N = true) as Hd.
  { intros n. unfold b64_digit. repeat case_match; repeat match goal with
      | H : (_ <? _)%N = true |- _ => apply N.ltb_lt in H end; try done;
      unfold byte_of; rewrite N_ascii_embedding by lia; apply N.ltb_lt; lia. }
  unfold is_ascii.
  induction s as [| | |x y z s IH] using string3_ind; cbn -[b64_digit byte_of N.ltb];
    rewrite ?Hd; done.
Qed.

(* ------------------------------------------------------------------ *)
(** ** SHA-256 *)

Module Sha256.
Local Open Scope N_scope.

Definition w32 (n : N) : N := N.land n 4294967295.
Definition add32 (a b : N) : N := w32 (a + b).
Definition rotr (x : N) (k : N) : N := N.lor (N.shiftr x k) (w32 (N.shiftl x (32 - k))).

(** The constants are the first 32 bits of the fractional parts of roots of
    the first primes: cube roots for the rounds, square roots for the start. *)
Definition is_prime (n : N) : bool :=
  forallb (fun d => negb (n mod d =? 0)) (N.of_nat <$> seq 2 (N.to_nat n - 2)).

Definition primes : list N := Eval vm_compute in
  List.filter is_prime (N.of_nat <$> seq 2 310).

(** The integer cube root, bit after bit below [2 ^ bits]. *)
Fixpoint cube_root (bits : nat) (root n : N) : N :=
  match bits with
  | O => root
  | S b =>
      let next := root + N.shiftl 1 (N.of_nat b) in
      cube_root b (if next * next * next <=? n then next else root) n
  end.

Definition K : list N := Eval vm_compute in
  (fun p => w32 (cube_root 36 0 (N.shiftl p 96))) <$> primes.

Definition initial : list N := Eval vm_compute in
  (fun p => w32 (N.sqrt (N.shiftl p 64))) <$> take 8 primes.

Example constants_count : length primes = 64%nat /\ length K = 64%nat /\ last K = Some 3329325298.
Proof. vm_compute. done. Qed.

Fixpoint bytes_of (s : string) : list N :=
  match s with "" => [] | String a s' => byte_of a :: bytes_of s' end.

Fixpoint be_bytes (k : nat) (n : N) : list N :=
  match k with
  | O => []
  | S k' => be_bytes k' (n / 256) ++ [n mod 256]
  end.

(** Padding: 0x80, zeros to 56 modulo 64, the bit length on eight bytes. *)
Definition pad (m : list N) : list N :=
  let l := length m in
  let zeros := ((119 - l mod 64) mod 64)%nat in
  m ++ [128] ++ replicate zeros 0 ++ be_bytes 8 (8 * N.of_nat l).

Fixpoint words (fuel : nat) (m : list N) : list N :=
  match fuel, m with
  | S f, a :: b :: c :: d :: m' =>
      (((a * 256 + b) * 256 + c) * 256 + d) :: words f m'
  | _, _ => []
  end.

(** Message schedule, newest word first. *)
Fixpoint extend (k : nat) (w : list N) : list N :=
  match k with
  | O => w
  | S k' =>
      let g i := nth i w 0 in
      let s0 := N.lxor (N.lxor (rotr (g 14%nat) 7) (rotr (g 14%nat) 18)) (N.shiftr (g 14%nat) 3) in
      let s1 := N.lxor (N.lxor (rotr (g 1%nat) 17) (rotr (g 1%nat) 19)) (N.shiftr (g 1%nat) 10) in
      extend k' (w32 (g 15%nat + s0 + g 6%nat + s1) :: w)
  end.

Fixpoint rounds (kw : list (N * N)) (a b c d e f g h : N) : list N :=
  match kw with
  | [] => [a; b; c; d; e; f; g; h]
  | (k, w) :: kw' =>
      let s1 := N.lxor (N.lxor (rotr e 6) (rotr e 11)) (rotr e 25) in
      let ch := N.lxor (N.land e f) (N.land (N.lxor e 4294967295) g) in
      let t1 := w32 (h + s1 + ch + k + w) in
      let s0 := N.lxor (N.lxor (rotr a 2) (rotr a 13)) (rotr a 22) in
      let maj := N.lxor (N.lxor (N.land a b) (N.land a c)) (N.land b c) in
      rounds kw' (add32 t1 (add32 s0 maj)) a b c (add32 d t1) e f g
  end.

Definition compress (st : list N) (block : list N) : list N :=
  let w := rev (extend 48 (rev block)) in
  match st with
  | [a; b; c; d; e; f; g; h] => zip_with add32 st (rounds (combine K w) a b c d e f g h)
  | _ => st
  end.

Fixpoint blocks (fuel : nat) (st : list N) (ws : list N) : list N :=
  match fuel, ws with
  | S f, _ :: _ => blocks f (compress st (take 16 ws)) (drop 16 ws)
  | _, _ => st
  end.

Fixpoint string_of_bytes (l : list N) : string :=
  match l with [] => "" | n :: l' => String (ascii_of_N n) (string_of_bytes l') end.

(** [sha256.Sum256], as the 32-byte string. *)
Definition Sum256 (s : string) : string :=
  let m := pad (bytes_of s) in
  let ws := words (length m) m in
  string_of_bytes (mjoin (be_bytes 4 <$> blocks (length ws) initial ws)).

Lemma be_bytes_length k : forall n, length (be_bytes k n) = k.
Proof. induction k as [|k IH]; intros n; cbn; [done|]. rewrite length_app, IH. cbn. lia. Qed.

Lemma rounds_length kw : forall a b c d e f g h, length (rounds kw a b c d e f g h) = 8%nat.
Proof. induction kw as [|[] kw IH]; intros; [done|]. apply IH. Qed.

Lemma compress_length st block : length st = 8%nat -> length (compress st block) = 8%nat.
Proof.
  intros H. unfold compress.
  do 8 (destruct st as [|? st]; [done|]). destruct st; [|done].
  rewrite length_zip_with, rounds_length. done.
Qed.

Lemma blocks_length fuel : forall st ws, length st = 8%nat -> length (blocks fuel st ws) = 8%nat.
Proof.
  induction fuel as [|fuel IH]; intros st ws H; [done|]. cbn. destruct ws; [done|].
  by apply IH, compress_length.
Qed.

(** A digest is 32 bytes. *)
Lemma Sum256_length s : String.length (Sum256 s) = 32%nat.
Proof.
  unfold Sum256. set (l := blocks _ _ _).
  assert (length l = 8%nat) as Hl by (by apply blocks_length). clearbody l.
  assert (forall b, String.length (string_of_bytes b) = length b) as -> by (by intros b; induction b; cbn; congruence).
  assert (length (mjoin (be_bytes 4 <$> l)) = 4 * length l)%nat as ->; [|by rewrite Hl].
  clear Hl. induction l as [|n l IH]; [done|]. 
  change (mjoin (be_bytes 4 <$> n :: l)) with (be_bytes 4 n ++ mjoin (be_bytes 4 <$> l))%list.
  rewrite length_app, be_bytes_length, IH. cbn. lia.
Qed.

Example sum256_abc :
  hex_encode (Sum256 "abc") =
    "ba7816bf8f01cfea414140de5dae2223b00361a396177a9cb410ff61f20015ad".
Proof. vm_compute. reflexivity. Qed.

Example sum256_two_blocks :
  hex_encode (Sum256 "abcdbcdecdefdefgefghfghighijhijkijkljklmklmnlmnomnopnopq") =
    "248d6a61d20638b8e5c026930c3e6039a33ce45964ff2167f6ecedd419db06c1".
Proof. vm_compute. reflexivity. Qed.
End Sha256.

#[global] Arguments Sha256.Sum256 : simpl never.
