(* ===== verification/GoTime.v ===== *)
(** * time.Time

    An instant is its number of nanoseconds since the Unix epoch, unbounded as
    Go's range (years 0 to 9999 and beyond) exceeds what an int64 of
    nanoseconds holds.  Locations and monotonic readings are not part of the
    instant: the code compares times only with [Equal], [Before] and [After],
    which ignore them.  JSON form: RFC 3339 with nanoseconds, in UTC. *)

From S2P Require Import Prelude GoText.
From Stdlib Require Import DecimalString DecimalZ.

Local Open Scope Z_scope.

Abbreviation time := Z.

(** The zero [time.Time]: January 1, year 1, 00:00:00 UTC. *)
Definition zero_time : time := -62135596800 * 1000000000.

Definition IsZero (t : time) : bool := t =? zero_time.
Definition Before (t u : time) : bool := t <? u.
Definition After (t u : time) : bool := u <? t.
Definition TimeEqual (t u : time) : bool := t =? u.

(** Two's complement wrap-around of a 64-bit signed integer. *)
Definition wrap64 (z : Z) : Z :=
  (z + 9223372036854775808) mod 18446744073709551616 - 9223372036854775808.

(** [t.UnixNano()]: an int64, so an instant outside the years 1678 to 2262
    wraps around; [time.Unix(0, n)]. *)
Definition UnixNano (t : time) : Z := wrap64 t.
Definition UnixTime (nanos : Z) : time := nanos.

Definition in_int64 (z : Z) : Prop := -9223372036854775808 <= z <= MaxInt64.

Lemma wrap64_id z : in_int64 z <-> wrap64 z = z.
Proof. unfold in_int64, wrap64, MaxInt64. split; intros; Z.to_euclidean_division_equations; lia. Qed.

Lemma zero_time_outside : UnixTime (UnixNano zero_time) <> zero_time.
Proof. by vm_compute. Qed.

(* ------------------------------------------------------------------ *)
(** ** The civil calendar *)

Definition civil_of_days (z0 : Z) : Z * Z * Z :=
  let z := z0 + 719468 in
  let era := z / 146097 in
  let doe := z mod 146097 in
  let yoe := (doe - doe / 1460 + doe / 36524 - doe / 146096) / 365 in
  let doy := doe - (365 * yoe + yoe / 4 - yoe / 100) in
  let mp := (5 * doy + 2) / 153 in
  let d := doy - (153 * mp + 2) / 5 + 1 in
  let m := if mp <? 10 then mp + 3 else mp - 9 in
  let y := yoe + era * 400 + (if m <=? 2 then 1 else 0) in
  (y, m, d).

Definition days_of_civil (y0 m d : Z) : Z :=
  let y := if m <=? 2 then y0 - 1 else y0 in
  let era := y / 400 in
  let yoe := y mod 400 in
  let doy := (153 * (if 2 <? m then m - 3 else m + 9) + 2) / 5 + d - 1 in
  let doe := yoe * 365 + yoe / 4 - yoe / 100 + doy in
  era * 146097 + doe - 719468.

Lemma yoe_bounds doe :
  0 <= doe < 146097 ->
  let yoe := (doe - doe / 1460 + doe / 36524 - doe / 146096) / 365 in
  0 <= yoe < 400 /\ 0 <= doe - (365 * yoe + yoe / 4 - yoe / 100) <= 365.
Proof. intros H. cbv zeta. Z.to_euclidean_division_equations. lia. Qed.

Lemma civil_bounds z y m d :
  civil_of_days z = (y, m, d) -> 1 <= m <= 12 /\ 1 <= d <= 31.
Proof.
  unfold civil_of_days. set (doe := (z + 719468) mod 146097).
  assert (0 <= doe < 146097) as Hd by (apply Z.mod_pos_bound; lia).
  pose proof (yoe_bounds doe Hd) as [_ Hy]. revert Hy.
  set (doy := doe - _). intros Hy [= <- <- <-].
  repeat case_match; zbool; Z.to_euclidean_division_equations; lia.
Qed.

Lemma days_civil_roundtrip z y m d :
  civil_of_days z = (y, m, d) -> days_of_civil y m d = z.
Proof.
  unfold civil_of_days.
  set (era := (z + 719468) / 146097). set (doe := (z + 719468) mod 146097).
  assert (z = era * 146097 + doe - 719468) as Hz
    by (pose proof (Z.div_mod (z + 719468) 146097); lia).
  assert (0 <= doe < 146097) as Hd by (apply Z.mod_pos_bound; lia).
  pose proof (yoe_bounds doe Hd) as Hb. cbv zeta in Hb. revert Hb.
  set (yoe := (_ / 365)). set (doy := doe - _).
  assert (doe = yoe * 365 + yoe / 4 - yoe / 100 + doy) as Hdoe by (unfold doy; lia).
  clearbody doy yoe era doe. intros [Hyoe Hdoy] [= <- <- <-].
  set (mp := (5 * doy + 2) / 153).
  assert (0 <= mp <= 11) as Hmp by (unfold mp; Z.to_euclidean_division_equations; lia).
  unfold days_of_civil. clearbody mp.
  set (m := if mp <? 10 then mp + 3 else mp - 9).
  assert ((if 2 <? m then m - 3 else m + 9) = mp) as ->.
  { unfold m. repeat case_match; zbool; lia. }
  assert ((if m <=? 2 then yoe + era * 400 + (if m <=? 2 then 1 else 0) - 1
           else yoe + era * 400 + (if m <=? 2 then 1 else 0)) = yoe + era * 400) as ->.
  { case_match; lia. }
  rewrite Z.div_add, Z.mod_add, (Z.div_small yoe), (Z.mod_small yoe) by lia. lia.
Qed.

(* ------------------------------------------------------------------ *)
(** ** Fixed-width decimal fields *)

Definition digit_char (n : Z) : ascii := ascii_of_N (Z.to_N (48 + n)).
Definition digit_value (a : ascii) : option Z :=
  if is_digit a then Some (Z.of_N (byte_of a) - 48) else None.

Fixpoint dec_fixed (k : nat) (n : Z) : string :=
  match k with
  | O => ""
  | S k' => dec_fixed k' (n / 10) ++ str1 (digit_char (n mod 10))
  end%string.

Fixpoint parse_digits (k : nat) (acc : Z) (s : string) : option (Z * string) :=
  match k with
  | O => Some (acc, s)
  | S k' =>
      match s with
      | String a s' =>
          match digit_value a with
          | Some d => parse_digits k' (acc * 10 + d) s'
          | None => None
          end
      | EmptyString => None
      end
  end.

Lemma digit_roundtrip n : 0 <= n < 10 -> digit_value (digit_char n) = Some n.
Proof.
  intros H. rewrite <-(Z2Nat.id n) by lia.
  assert (Z.to_nat n < 10)%nat as Hn by lia. revert Hn. generalize (Z.to_nat n).
  by repeat (intros [|k]; [done|revert k]); intros ? ?; lia.
Qed.

Lemma dec_fixed_digits k : forall n s acc, 0 <= n < 10 ^ Z.of_nat k ->
  parse_digits k acc (dec_fixed k n ++ s)%string = Some (acc * 10 ^ Z.of_nat k + n, s).
Proof.
  induction k as [|k IH]; intros n s acc Hn.
  { simpl in *. do 2 f_equal. lia. }
  rewrite Nat2Z.inj_succ, Z.pow_succ_r in * by lia.
  cbn [dec_fixed]. rewrite string_app_assoc.
  assert (forall k acc s, parse_digits (S k) acc s =
    match parse_digits k acc s with
    | Some (v, String a r) => match digit_value a with Some d => Some (v * 10 + d, r) | None => None end
    | _ => None end) as Hsplit.
  { clear. induction k as [|k IH]; intros acc s; [by destruct s|].
    destruct s as [|a s]; [done|]. cbn [parse_digits]. destruct (digit_value a); [|done].
    rewrite <- IH. done. }
  rewrite Hsplit, IH by (Z.to_euclidean_division_equations; lia).
  cbn [str1 append]. rewrite digit_roundtrip by (apply Z.mod_pos_bound; lia).
  do 2 f_equal. pose proof (Z.div_mod n 10). nia.
Qed.

(* ------------------------------------------------------------------ *)
(** ** RFC 3339 with nanoseconds *)

Definition two (n : Z) : string := dec_fixed 2 n.

(** Trailing zeros of the fraction are dropped; an empty fraction has no dot. *)
Fixpoint drop_zeros (s : string) : string :=
  match s with
  | "" => ""
  | String a s' =>
      let r := drop_zeros s' in
      if Ascii.eqb a "0" && is_empty r then "" else String a r
  end%string.

Definition frac_text (n : Z) : string :=
  let d := drop_zeros (dec_fixed 9 n) in
  if is_empty d then "" else String "." d.

Definition nanos_per_second : Z := 1000000000.

(** [t.UTC().Format(time.RFC3339Nano)]. *)
Definition format_rfc3339 (t : time) : string :=
  let secs := t / nanos_per_second in
  let days := secs / 86400 in
  let sod := secs mod 86400 in
  let '(y, m, d) := civil_of_days days in
  (dec_fixed 4 y ++ "-" ++ two m ++ "-" ++ two d ++ "T" ++
   two (sod / 3600) ++ ":" ++ two (sod / 60 mod 60) ++ ":" ++ two (sod mod 60) ++
   frac_text (t mod nanos_per_second) ++ "Z")%string.

(** Reads up to nine fraction digits, scaling as it goes. *)
Fixpoint parse_frac (scale : nat) (acc : Z) (s : string) : Z * string :=
  match scale, s with
  | S k, String a s' =>
      match digit_value a with
      | Some d => parse_frac k (acc + d * 10 ^ Z.of_nat k) s'
      | None => (acc, s)
      end
  | _, _ => (acc, s)
  end.

Definition expect (c : ascii) (s : string) : option string :=
  match s with
  | String a s' => if Ascii.eqb a c then Some s' else None
  | EmptyString => None
  end.

Definition parse_fraction (s : string) : Z * string :=
  match s with
  | String "."%char s' => parse_frac 9 0 s'
  | _ => (0, s)
  end.

(** [time.Parse(time.RFC3339Nano, s)] for the UTC designator, the only one
    [format_rfc3339] writes. *)
Definition parse_rfc3339 (s : string) : option time :=
  '(y, s) ← parse_digits 4 0 s; s ← expect "-" s;
  '(m, s) ← parse_digits 2 0 s; s ← expect "-" s;
  '(d, s) ← parse_digits 2 0 s; s ← expect "T" s;
  '(hh, s) ← parse_digits 2 0 s; s ← expect ":" s;
  '(mi, s) ← parse_digits 2 0 s; s ← expect ":" s;
  '(ss, s) ← parse_digits 2 0 s;
  let '(frac, s) := parse_fraction s in
  s ← expect "Z" s;
  if is_empty s && (1 <=? m) && (m <=? 12) && (1 <=? d) && (d <=? 31)
     && (hh <? 24) && (mi <? 60) && (ss <? 60)
  then Some ((days_of_civil y m d * 86400 + hh * 3600 + mi * 60 + ss) * nanos_per_second + frac)
  else None.

Lemma parse_digits_cut k n s : 0 <= n < 10 ^ Z.of_nat k ->
  parse_digits k 0 (dec_fixed k n ++ s)%string = Some (n, s).
Proof. intros H. by rewrite dec_fixed_digits. Qed.

Lemma dec_fixed_left k : forall n, 0 <= n < 10 ^ Z.of_nat (S k) ->
  dec_fixed (S k) n =
    String (digit_char (n / 10 ^ Z.of_nat k)) (dec_fixed k (n mod 10 ^ Z.of_nat k)).
Proof.
  induction k as [|k IH]; intros n Hn.
  { simpl in *. rewrite Z.div_1_r, Z.mod_small by lia. done. }
  rewrite Nat2Z.inj_succ, Z.pow_succ_r in Hn by lia.
  assert (0 < 10 ^ Z.of_nat k) as Hp by lia.
  change (dec_fixed (S (S k)) n) with (dec_fixed (S k) (n / 10) ++ str1 (digit_char (n mod 10)))%string.
  rewrite IH by (Z.to_euclidean_division_equations; lia).
  change (dec_fixed (S k) (n mod 10 ^ Z.of_nat (S k))) with
    (dec_fixed k (n mod 10 ^ Z.of_nat (S k) / 10) ++ str1 (digit_char ((n mod 10 ^ Z.of_nat (S k)) mod 10)))%string.
  rewrite Nat2Z.inj_succ, Z.pow_succ_r by lia. cbn [append].
  rewrite Z.div_div by lia. rewrite Z.rem_mul_r by lia.
  rewrite (Z.mul_comm 10 ((n / 10) mod _)), Z.mod_add, Z.div_add by lia.
  rewrite Z.mod_mod by lia. rewrite (Z.div_small (n mod 10)) by (apply Z.mod_pos_bound; lia). done.
Qed.

Lemma parse_frac_Z k acc : parse_frac k acc "Z" = (acc, "Z"%string).
Proof. by destruct k. Qed.

Lemma parse_frac_text k : forall n acc, 0 <= n < 10 ^ Z.of_nat k ->
  parse_frac k acc (drop_zeros (dec_fixed k n) ++ "Z")%string = (acc + n, "Z"%string).
Proof.
  induction k as [|k IH]; intros n acc Hn.
  { simpl in *. f_equal. lia. }
  rewrite dec_fixed_left by done.
  rewrite Nat2Z.inj_succ, Z.pow_succ_r in Hn by lia.
  set (p := 10 ^ Z.of_nat k) in *. assert (0 < p) as Hp by lia.
  assert (0 <= n mod p < p) as Hr by (apply Z.mod_pos_bound; lia).
  assert (0 <= n / p < 10) as Hq by (Z.to_euclidean_division_equations; nia).
  pose proof (Z.div_mod n p). cbn [drop_zeros].
  destruct (Ascii.eqb (digit_char (n / p)) "0" && is_empty (drop_zeros (dec_fixed k (n mod p)))) eqn:E.
  - apply andb_true_iff in E as [E1 E2]. apply is_empty_true in E2.
    apply Ascii.eqb_eq in E1. pose proof (digit_roundtrip _ Hq) as Hd. rewrite E1 in Hd.
    injection Hd as Hd. pose proof (IH (n mod p) 0 Hr) as H0. rewrite E2 in H0.
    cbn [append] in *. rewrite parse_frac_Z in *. injection H0 as H0. f_equal. lia.
  - cbn [append parse_frac]. rewrite digit_roundtrip by done. rewrite IH by done.
    fold p. f_equal. lia.
Qed.

Lemma parse_fraction_text n : 0 <= n < nanos_per_second ->
  parse_fraction (frac_text n ++ "Z")%string = (n, "Z"%string).
Proof.
  intros Hn. pose proof (parse_frac_text 9 n 0 Hn) as H.
  unfold frac_text. destruct (is_empty _) eqn:E.
  - apply is_empty_true in E. rewrite E in H. injection H as H. cbn. f_equal. lia.
  - by cbn [append parse_fraction].
Qed.

Lemma civil_year_range z y m d : -106752 <= z <= 106752 ->
  civil_of_days z = (y, m, d) -> 0 <= y < 10000.
Proof.
  unfold civil_of_days. intros Hz. set (doe := (z + 719468) mod 146097).
  assert (0 <= doe < 146097) as Hd by (apply Z.mod_pos_bound; lia).
  pose proof (yoe_bounds doe Hd) as [Hb _]. revert Hb. set (yoe := _ / 365). intros Hb.
  set (doy := doe - _). clearbody yoe doy doe. intros [= <- _ _].
  assert (4 <= (z + 719468) / 146097 <= 5) by (Z.to_euclidean_division_equations; lia).
  repeat case_match; lia.
Qed.

Lemma expect_hit c s : expect c (String c s) = Some s.
Proof. cbn. by rewrite Ascii.eqb_refl. Qed.

Lemma parse_two n s : 0 <= n < 100 -> parse_digits 2 0 (two n ++ s)%string = Some (n, s).
Proof. intros H. by apply parse_digits_cut. Qed.

(** Every instant that an int64 of nanoseconds can hold survives the JSON
    form exactly. *)
Lemma rfc3339_roundtrip t : in_int64 t -> parse_rfc3339 (format_rfc3339 t) = Some t.
Proof.
  unfold in_int64, MaxInt64, format_rfc3339. intros Ht.
  set (secs := t / nanos_per_second). set (days := secs / 86400). set (sod := secs mod 86400).
  assert (0 <= sod < 86400) as Hsod by (apply Z.mod_pos_bound; lia).
  assert (0 <= t mod nanos_per_second < nanos_per_second) as Hn by (apply Z.mod_pos_bound; done).
  assert (-106752 <= days <= 106752) as Hdays.
  { unfold days, secs, nanos_per_second. Z.to_euclidean_division_equations. lia. }
  assert (t = (days * 86400 + sod) * nanos_per_second + t mod nanos_per_second) as Hsum.
  { pose proof (Z.div_mod secs 86400). pose proof (Z.div_mod t nanos_per_second).
    unfold nanos_per_second in *. lia. }
  destruct (civil_of_days days) as [[y m] d] eqn:Ec.
  pose proof (civil_bounds _ _ _ _ Ec). pose proof (civil_year_range _ _ _ _ Hdays Ec).
  pose proof (days_civil_roundtrip _ _ _ _ Ec) as Hback.
  assert (0 <= sod / 3600 < 24 /\ 0 <= sod / 60 mod 60 < 60 /\ 0 <= sod mod 60 < 60 /\
          sod = sod / 3600 * 3600 + sod / 60 mod 60 * 60 + sod mod 60) as (Hh & Hm & Hs & Hsplit)
    by (Z.to_euclidean_division_equations; lia).
  clearbody sod secs days. unfold parse_rfc3339.
  rewrite parse_digits_cut by (cbn; lia). cbn [mbind option_bind append]. rewrite expect_hit.
  do 2 (cbn [mbind option_bind]; rewrite parse_two by lia; cbn [mbind option_bind append];
        rewrite expect_hit).
  do 2 (cbn [mbind option_bind]; rewrite parse_two by lia; cbn [mbind option_bind append];
        rewrite expect_hit).
  cbn [mbind option_bind]. rewrite parse_two by lia. cbn [mbind option_bind].
  rewrite parse_fraction_text by done. cbn [mbind option_bind]. rewrite expect_hit.
  cbn [mbind option_bind].
  assert (is_empty "" && (1 <=? m) && (m <=? 12) && (1 <=? d) && (d <=? 31)
     && (sod / 3600 <? 24) && (sod / 60 mod 60 <? 60) && (sod mod 60 <? 60) = true) as ->.
  { cbn [is_empty]. rewrite !andb_true_iff. repeat split; try (apply Z.leb_le; lia); apply Z.ltb_lt; lia. }
  f_equal. rewrite Hback. unfold nanos_per_second in *. lia.
Qed.

Lemma digit_char_ascii n : 0 <= n < 10 -> (byte_of (digit_char n) <? 128)%N = true.
Proof.
  intros H. unfold digit_char, byte_of. rewrite N_ascii_embedding by lia. apply N.ltb_lt. lia.
Qed.

Lemma dec_fixed_ascii k : forall n, is_ascii (dec_fixed k n) = true.
Proof.
  unfold is_ascii. induction k as [|k IH]; intros n; cbn [dec_fixed]; [done|].
  rewrite string_forallb_app, IH. cbn -[N.ltb]. rewrite digit_char_ascii; [done|].
  apply Z.mod_pos_bound. lia.
Qed.

Lemma drop_zeros_ascii s : is_ascii s = true -> is_ascii (drop_zeros s) = true.
Proof.
  unfold is_ascii. induction s as [|a s IH]; cbn -[N.ltb]; [done|]. rewrite andb_true_iff.
  intros [Ha Hs]. case_match; [done|]. cbn -[N.ltb]. by rewrite Ha, IH.
Qed.

Lemma format_rfc3339_ascii t : is_ascii (format_rfc3339 t) = true.
Proof.
  unfold format_rfc3339. destruct (civil_of_days _) as [[y m] d].
  assert (is_ascii (frac_text (t mod nanos_per_second)) = true) as Hf.
  { unfold frac_text. case_match; [done|]. cbn -[N.ltb drop_zeros dec_fixed].
    apply drop_zeros_ascii, dec_fixed_ascii. }
  unfold is_ascii, two in *. rewrite !string_forallb_app, Hf.
  repeat match goal with |- context [string_forallb ?f (dec_fixed ?k ?n)] =>
    rewrite (dec_fixed_ascii k n : string_forallb f (dec_fixed k n) = true) end. done.
Qed.

Lemma zero_time_before t : in_int64 t -> (zero_time < t)%Z.
Proof. unfold in_int64, zero_time. lia. Qed.

Lemma int64_not_zero t : in_int64 t -> IsZero t = false.
Proof. intros H%zero_time_before. unfold IsZero. apply Z.eqb_neq. lia. Qed.
