(* ===== verification/GoJson.v ===== *)
(** * encoding/json

    JSON documents, the text [json.Marshal] writes for them (HTML-safe string
    escapes, no spaces) and the parser behind [json.Unmarshal], with the proof
    that every document with valid UTF-8 strings survives the two.  Numbers are
    the integers the program's structures hold; a literal with a fraction or an
    exponent, which cannot decode into any of their fields, is refused.  Object
    members keep their order and duplicates. *)

From S2P Require Import Prelude GoText GoEncoding.
From Stdlib Require Import DecimalString DecimalZ.

Local Open Scope string_scope.

Inductive json :=
  | JNull
  | JBool (b : bool)
  | JNum (z : Z)
  | JStr (s : string)
  | JArr (items : list json)
  | JObj (members : list (string * json)).

(* ------------------------------------------------------------------ *)
(** ** Marshal *)

Definition print_Z (z : Z) : string := NilZero.string_of_int (Z.to_int z).

Definition u_escape (n : N) : string :=
  String backslash (String "u" (String (hex_digit (n / 4096)) (String (hex_digit (n / 256 mod 16))
    (str2 (hex_digit (n / 16 mod 16)) (hex_digit (n mod 16)))))).

Definition short_escape (n : N) : option ascii :=
  if (n =? 34)%N then Some quote
  else if (n =? 92)%N then Some backslash
  else if (n =? 8)%N then Some "b"%char
  else if (n =? 12)%N then Some "f"%char
  else if (n =? 10)%N then Some "n"%char
  else if (n =? 13)%N then Some "r"%char
  else if (n =? 9)%N then Some "t"%char
  else None.

(** The bytes below 0x80 that [json.Marshal] copies unchanged. *)
Definition html_safe (n : N) : bool :=
  (32 <=? n)%N && negb (existsb (N.eqb n) [34; 38; 60; 62; 92]%N).

Definition escape_chunk (c : chunk) : string :=
  if negb (good c) then u_escape rune_error
  else if (rune c <? 128)%N then
    if html_safe (rune c) then raw c
    else match short_escape (rune c) with
         | Some e => str2 backslash e
         | None => u_escape (rune c)
         end
  else if (rune c =? 8232)%N || (rune c =? 8233)%N then u_escape (rune c)
  else raw c.

Definition escape (s : string) : string := concat_strings (escape_chunk <$> runes s).

Definition quoted (s : string) : string := String quote (escape s ++ str1 quote).

Fixpoint print (j : json) : string :=
  match j with
  | JNull => "null"
  | JBool true => "true"
  | JBool false => "false"
  | JNum z => print_Z z
  | JStr s => quoted s
  | JArr l =>
      "[" ++ (fix items (l : list json) :=
                match l with
                | [] => ""
                | [x] => print x
                | x :: l' => print x ++ "," ++ items l'
                end) l ++ "]"
  | JObj l =>
      "{" ++ (fix members (l : list (string * json)) :=
                match l with
                | [] => ""
                | [(k, x)] => quoted k ++ ":" ++ print x
                | (k, x) :: l' => quoted k ++ ":" ++ print x ++ "," ++ members l'
                end) l ++ "}"
  end.

Fixpoint print_items (l : list json) : string :=
  match l with
  | [] => ""
  | [x] => print x
  | x :: l' => print x ++ "," ++ print_items l'
  end.

Fixpoint print_members (l : list (string * json)) : string :=
  match l with
  | [] => ""
  | [(k, x)] => quoted k ++ ":" ++ print x
  | (k, x) :: l' => quoted k ++ ":" ++ print x ++ "," ++ print_members l'
  end.

Lemma print_arr l : print (JArr l) = "[" ++ print_items l ++ "]".
Proof. done. Qed.

Lemma print_obj l : print (JObj l) = "{" ++ print_members l ++ "}".
Proof. done. Qed.

(* ------------------------------------------------------------------ *)
(** ** Unmarshal *)

Definition is_ws (a : ascii) : bool := existsb (Ascii.eqb a) [" "%char; tab; lf; cr].

Fixpoint skip_ws (s : string) : string :=
  match s with
  | String a s' => if is_ws a then skip_ws s' else s
  | "" => ""
  end.

Definition hex4 (a b c d : ascii) : option N :=
  w ← hex_value a; x ← hex_value b; y ← hex_value c; z ← hex_value d;
  Some (((w * 16 + x) * 16 + y) * 16 + z)%N.

Definition short_unescape (e : ascii) : option ascii :=
  if Ascii.eqb e quote || Ascii.eqb e backslash || Ascii.eqb e "/" then Some e
  else if Ascii.eqb e "b" then Some (ascii_of_nat 8)
  else if Ascii.eqb e "f" then Some ff
  else if Ascii.eqb e "n" then Some lf
  else if Ascii.eqb e "r" then Some cr
  else if Ascii.eqb e "t" then Some tab
  else None.

Definition prepend (p : string) (o : option (string * string)) : option (string * string) :=
  match o with
  | Some (x, r) => Some (p ++ x, r)
  | None => None
  end.

(** A high surrogate followed by an escaped low surrogate. *)
Definition surrogate_pair (r : N) (s : string) : option N :=
  match s with
  | String bs (String u (String a (String b (String c (String d _))))) =>
      if Ascii.eqb bs backslash && Ascii.eqb u "u" && in_range 55296 56319 r then
        match hex4 a b c d with
        | Some r2 =>
            if in_range 56320 57343 r2
            then Some (65536 + (r - 55296) * 1024 + (r2 - 56320))%N else None
        | None => None
        end
      else None
  | _ => None
  end.

(** The contents of a string literal, from after its opening quote. *)
Fixpoint unquote (s : string) : option (string * string) :=
  match s with
  | "" => None
  | String a s1 =>
      if Ascii.eqb a quote then Some ("", s1)
      else if Ascii.eqb a backslash then
        match s1 with
        | "" => None
        | String e s2 =>
            if Ascii.eqb e "u" then
              match s2 with
              | String h1 (String h2 (String h3 (String h4 s3))) =>
                  match hex4 h1 h2 h3 h4 with
                  | Some r =>
                      match surrogate_pair r s3, s3 with
                      | Some r2, String _ (String _ (String _ (String _ (String _ (String _ s4))))) =>
                          prepend (encode_rune r2) (unquote s4)
                      | _, _ => prepend (encode_rune r) (unquote s3)
                      end
                  | None => None
                  end
              | _ => None
              end
            else
              match short_unescape e with
              | Some c => prepend (str1 c) (unquote s2)
              | None => None
              end
        end
      else if (byte_of a <? 32)%N then None
      else prepend (str1 a) (unquote s1)
  end.

(** Invalid UTF-8 inside a literal reads as U+FFFD, byte by byte. *)
Definition coerce_utf8 (s : string) : string :=
  concat_strings ((fun c => if good c then raw c else encode_rune rune_error) <$> runes s).

Definition is_num_char (a : ascii) : bool :=
  is_digit a || existsb (Ascii.eqb a) ["-"; "+"; "."; "e"; "E"]%char.

Fixpoint span (f : ascii -> bool) (s : string) : string * string :=
  match s with
  | String a s' =>
      if f a then let '(x, r) := span f s' in (String a x, r) else ("", s)
  | "" => ("", "")
  end.

Definition parse_number (s : string) : option (json * string) :=
  let '(lit, r) := span is_num_char s in
  d ← NilZero.int_of_string lit;
  if print_Z (Z.of_int d) =?= lit then Some (JNum (Z.of_int d), r) else None.

Fixpoint strip_prefix (p s : string) : option string :=
  match p, s with
  | "", _ => Some s
  | String a p', String b s' => if Ascii.eqb a b then strip_prefix p' s' else None
  | _, "" => None
  end.

Definition literal (word : string) (j : json) (s : string) : option (json * string) :=
  r ← strip_prefix word s; Some (j, r).

Definition parse_scalar (s : string) : option (json * string) :=
  match s with
  | String a s' =>
      if Ascii.eqb a quote then
        match unquote s' with
        | Some (x, r) => Some (JStr (coerce_utf8 x), r)
        | None => None
        end
      else if Ascii.eqb a "t" then literal "true" (JBool true) s
      else if Ascii.eqb a "f" then literal "false" (JBool false) s
      else if Ascii.eqb a "n" then literal "null" JNull s
      else parse_number s
  | "" => None
  end.

(** Recursive descent; each level of the document takes one unit of fuel, and
    the length of the text is always enough. *)
Fixpoint parse_value (fuel : nat) (s0 : string) : option (json * string) :=
  match fuel with
  | O => None
  | S n =>
      match skip_ws s0 with
      | String a s =>
          if Ascii.eqb a "[" then
            match skip_ws s with
            | String b r => if Ascii.eqb b "]" then Some (JArr [], r)
                            else '(l, r) ← parse_items n s; Some (JArr l, r)
            | "" => None
            end
          else if Ascii.eqb a "{" then
            match skip_ws s with
            | String b r => if Ascii.eqb b "}" then Some (JObj [], r)
                            else '(l, r) ← parse_members n s; Some (JObj l, r)
            | "" => None
            end
          else parse_scalar (String a s)
      | "" => None
      end
  end
with parse_items (fuel : nat) (s : string) : option (list json * string) :=
  match fuel with
  | O => None
  | S n =>
      '(x, r) ← parse_value n s;
      match skip_ws r with
      | String c r' =>
          if Ascii.eqb c "]" then Some ([x], r')
          else if Ascii.eqb c "," then '(l, r'') ← parse_items n r'; Some (x :: l, r'')
          else None
      | "" => None
      end
  end
with parse_members (fuel : nat) (s : string) : option (list (string * json) * string) :=
  match fuel with
  | O => None
  | S n =>
      match skip_ws s with
      | String q s1 =>
          if Ascii.eqb q quote then
            '(k, r) ← unquote s1;
            match skip_ws r with
            | String c r1 =>
                if Ascii.eqb c ":" then
                  '(x, r2) ← parse_value n r1;
                  match skip_ws r2 with
                  | String c2 r3 =>
                      if Ascii.eqb c2 "}" then Some ([(coerce_utf8 k, x)], r3)
                      else if Ascii.eqb c2 "," then
                        '(l, r4) ← parse_members n r3; Some ((coerce_utf8 k, x) :: l, r4)
                      else None
                  | "" => None
                  end
                else None
            | "" => None
            end
          else None
      | "" => None
      end
  end.

Definition parse (s : string) : option json :=
  '(j, r) ← parse_value (S (String.length s)) s;
  if is_empty (skip_ws r) then Some j else None.

Example parse_print_example :
  parse (print (JObj [("a", JArr [JNum (-12); JNull; JBool true]); ("<b>", JStr "x & y"); ("c", JObj [])])) =
  Some (JObj [("a", JArr [JNum (-12); JNull; JBool true]); ("<b>", JStr "x & y"); ("c", JObj [])]).
Proof. vm_compute. reflexivity. Qed.

(* ------------------------------------------------------------------ *)
(** ** String literals read back *)

(** What [runes] yields: a valid chunk is one ASCII byte, or bytes that are
    all at least 0x80; the two line separators have one encoding. *)
Definition chunk_wf (c : chunk) : Prop :=
  good c = true ->
  (exists a, (byte_of a < 128)%N /\ rune c = byte_of a /\ raw c = str1 a) \/
  ((128 <= rune c)%N /\ string_forallb (fun a => (128 <=? byte_of a)%N) (raw c) = true /\
   (rune c = 8232%N \/ rune c = 8233%N -> raw c = encode_rune (rune c))).

Lemma land_ones' x k m : m = N.ones k -> N.land x m = (x mod 2 ^ k)%N.
Proof. intros ->. apply N.land_ones. Qed.

Lemma low6_mod a : low6 a = (byte_of a mod 64)%N.
Proof. unfold low6. by rewrite (land_ones' _ 6). Qed.

Lemma in_range_true lo hi n : in_range lo hi n = true <-> (lo <= n <= hi)%N.
Proof. unfold in_range. rewrite andb_true_iff, !N.leb_le. done. Qed.

Ltac high_bytes :=
  unfold cont in *; rewrite in_range_true in *;
  cbn -[N.leb]; rewrite ?andb_true_iff, ?N.leb_le; lia.

Lemma separator_bytes a b c r :
  (224 <= byte_of a < 240)%N -> (128 <= byte_of b <= 191)%N -> (128 <= byte_of c <= 191)%N ->
  rune3 a b c = r -> r = 8232%N \/ r = 8233%N -> str3 a b c = encode_rune r.
Proof.
  intros Ha Hb Hc Hr Hor. unfold rune3 in Hr. rewrite !low6_mod, (land_ones' _ 4) in Hr by done.
  assert (byte_of a = 226 /\ byte_of b = 128 /\ byte_of c = r - 8064)%N as (Ea & Eb & Ec).
  { change (2 ^ 4)%N with 16%N in Hr. zify. Z.to_euclidean_division_equations. lia. }
  rewrite <- (ascii_N_embedding a), <- (ascii_N_embedding b), <- (ascii_N_embedding c).
  unfold byte_of in *. rewrite Ea, Eb, Ec. destruct Hor as [-> | ->]; done.
Qed.

Lemma rune2_bounds a b : (194 <= byte_of a < 224)%N -> cont b = true ->
  (128 <= rune2 a b < 2048)%N.
Proof.
  unfold cont, rune2. rewrite in_range_true, low6_mod, (land_ones' _ 5) by done.
  change (2 ^ 5)%N with 32%N. intros. zify. Z.to_euclidean_division_equations. lia.
Qed.

Lemma rune3_bounds a b c : (224 <= byte_of a < 240)%N -> second3 a b = true -> cont c = true ->
  (2048 <= rune3 a b c < 65536)%N.
Proof.
  unfold cont, second3, rune3. rewrite !in_range_true, !low6_mod, (land_ones' _ 4) by done.
  change (2 ^ 4)%N with 16%N. intros Ha Hb Hc.
  destruct (N.eqb_spec (byte_of a) 224), (N.eqb_spec (byte_of a) 237);
    zify; Z.to_euclidean_division_equations; lia.
Qed.

Lemma rune4_bounds a b c d : (240 <= byte_of a < 245)%N -> second4 a b = true ->
  cont c = true -> cont d = true -> (65536 <= rune4 a b c d)%N.
Proof.
  unfold cont, second4, rune4. rewrite !in_range_true, !low6_mod, (land_ones' _ 3) by done.
  change (2 ^ 3)%N with 8%N. intros Ha Hb Hc Hd.
  destruct (N.eqb_spec (byte_of a) 240), (N.eqb_spec (byte_of a) 244);
    zify; Z.to_euclidean_division_equations; lia.
Qed.

Lemma second3_range a b : second3 a b = true -> (128 <= byte_of b <= 191)%N.
Proof.
  unfold second3. rewrite in_range_true.
  destruct (N.eqb_spec (byte_of a) 224), (N.eqb_spec (byte_of a) 237); lia.
Qed.

Lemma second4_range a b : second4 a b = true -> (128 <= byte_of b <= 191)%N.
Proof.
  unfold second4. rewrite in_range_true.
  destruct (N.eqb_spec (byte_of a) 240), (N.eqb_spec (byte_of a) 244); lia.
Qed.

Lemma chunk_wf_multi r w : (128 <= r)%N ->
  string_forallb (fun a => (128 <=? byte_of a)%N) w = true ->
  (r = 8232%N \/ r = 8233%N -> w = encode_rune r) -> chunk_wf (Chunk r w true).
Proof. intros ? ? ? _. right. done. Qed.

Ltac nbool :=
  repeat match goal with
  | H : (_ <? _)%N = true |- _ => apply N.ltb_lt in H
  | H : (_ <? _)%N = false |- _ => apply N.ltb_ge in H
  | H : (_ && _)%bool = true |- _ => apply andb_true_iff in H; destruct H
  end.

Lemma runes_wf s : Forall chunk_wf (runes s).
Proof.
  assert (forall n s, (String.length s <= n)%nat -> Forall chunk_wf (runes s)) as H.
  { clear s. induction n as [|n IH]; intros s Hn.
    { destruct s; [constructor | simpl in Hn; lia]. }
    destruct s as [|a s1]; [constructor|]. simpl in Hn. cbn [runes].
    repeat case_match; subst; (constructor; [|try (apply IH; cbn [String.length] in *; lia); try constructor]);
      try (intros Hg; discriminate Hg); nbool.
    - intros _. left. eauto.
    - apply chunk_wf_multi; [eapply rune2_bounds; [lia|done]| |].
      + high_bytes.
      + intros Hor. exfalso. destruct (rune2_bounds a a0); [lia|done|lia].
    - pose proof (second3_range _ _ ltac:(eassumption)).
      apply chunk_wf_multi.
      + destruct (rune3_bounds a a0 a1); [lia|done|done|lia].
      + high_bytes.
      + intros Hor. eapply separator_bytes; [..|done|done]; [lia|done|].
        unfold cont in *. rewrite in_range_true in *. lia.
    - pose proof (second4_range _ _ ltac:(eassumption)).
      assert (65536 <= rune4 a a0 a1 a2)%N by (apply rune4_bounds; [lia|done..]).
      apply chunk_wf_multi; [lia | high_bytes | lia]. }
  by apply (H (String.length s)).
Qed.

Lemma unquote_high w t :
  string_forallb (fun a => (128 <=? byte_of a)%N) w = true ->
  unquote (w ++ t) = prepend w (unquote t).
Proof.
  induction w as [|a w IH]; intros H.
  { cbn. by destruct (unquote t) as [[]|]. }
  cbn in H. apply andb_true_iff in H as [Ha H]. apply N.leb_le in Ha.
  cbn [append unquote].
  assert (Ascii.eqb a quote = false) as ->.
  { apply Ascii.eqb_neq. intros ->. by cbn in Ha. }
  assert (Ascii.eqb a backslash = false) as ->.
  { apply Ascii.eqb_neq. intros ->. by cbn in Ha. }
  rewrite (proj2 (N.ltb_ge _ _)) by lia. rewrite IH by done.
  by destruct (unquote t) as [[]|].
Qed.

(** Escapes of single bytes, checked on all of them. *)
Definition ascii_escape (a : ascii) : string := escape_chunk (Chunk (byte_of a) (str1 a) true).

Lemma surrogate_none r s : in_range 55296 56319 r = false -> surrogate_pair r s = None.
Proof.
  intros H. unfold surrogate_pair. repeat (case_match; try done).
  rewrite H, andb_false_r in *. done.
Qed.

(** A [\u] escape that is no high surrogate reads as its rune. *)
Lemma unquote_u_escape r t h1 h2 h3 h4 :
  u_escape r = String backslash (String "u" (str4 h1 h2 h3 h4)) ->
  hex4 h1 h2 h3 h4 = Some r -> in_range 55296 56319 r = false ->
  unquote (u_escape r ++ t) = prepend (encode_rune r) (unquote t).
Proof.
  intros -> Hh Hs. cbn -[hex4 surrogate_pair encode_rune unquote].
  change (unquote (String backslash (String "u" (String h1 (String h2 (String h3 (String h4 t))))))) with
    (match hex4 h1 h2 h3 h4 with
     | Some r =>
         match surrogate_pair r t, t with
         | Some r2, String _ (String _ (String _ (String _ (String _ (String _ s4))))) =>
             prepend (encode_rune r2) (unquote s4)
         | _, _ => prepend (encode_rune r) (unquote t)
         end
     | None => None
     end).
  rewrite Hh, surrogate_none by done. done.
Qed.

(** The three shapes an escaped ASCII byte can have, tested on every byte. *)
Definition plain_byte (a : ascii) : bool :=
  negb (Ascii.eqb a quote) && negb (Ascii.eqb a backslash) && (32 <=? byte_of a)%N.

Definition escape_shape (a : ascii) : bool :=
  let e := ascii_escape a in
  ((e =?= str1 a) && plain_byte a)
  || match e with
     | String b (String x "") =>
         Ascii.eqb b backslash && negb (Ascii.eqb x "u") && (short_unescape x =?= Some a)
     | String b (String u (String h1 (String h2 (String h3 (String h4 ""))))) =>
         (e =?= u_escape (byte_of a)) && Ascii.eqb b backslash && Ascii.eqb u "u"
         && (hex4 h1 h2 h3 h4 =?= Some (byte_of a)) && (encode_rune (byte_of a) =?= str1 a)
     | _ => false
     end.

Lemma escape_shape_ascii a : (byte_of a < 128)%N -> escape_shape a = true.
Proof.
  intros Ha. rewrite <- (ascii_N_embedding a). fold (byte_of a).
  assert (forallb (fun k => escape_shape (ascii_of_N (N.of_nat k))) (seq 0 128) = true) as H
    by (vm_compute; reflexivity).
  rewrite forallb_forall in H. specialize (H (N.to_nat (byte_of a))).
  rewrite in_seq, N2Nat.id in H. apply H. lia.
Qed.

Lemma unquote_plain a t : plain_byte a = true -> unquote (String a t) = prepend (str1 a) (unquote t).
Proof.
  unfold plain_byte. intros H. bool_split. apply N.leb_le in H0.
  cbn [unquote]. rewrite H, H1. by rewrite (proj2 (N.ltb_ge _ _)) by lia.
Qed.

Lemma unquote_short x a t : Ascii.eqb x "u" = false -> short_unescape x = Some a ->
  unquote (String backslash (String x t)) = prepend (str1 a) (unquote t).
Proof. intros Hu Hx. cbn -[byte_of]. by rewrite Hu, Hx. Qed.

Lemma unquote_escape_ascii a t :
  (byte_of a < 128)%N -> unquote (ascii_escape a ++ t) = prepend (str1 a) (unquote t).
Proof.
  intros Ha. pose proof (escape_shape_ascii a Ha) as H. unfold escape_shape in H.
  apply orb_true_iff in H as [H|H].
  { bool_split. apply bool_decide_eq_true in H. rewrite H. by apply unquote_plain. }
  destruct (ascii_escape a) as [|b [|x [|h1 [|h2 [|h3 [|h4 [|]]]]]]] eqn:E; try discriminate H;
    bool_split; rewrite ?bool_decide_eq_true, ?Ascii.eqb_eq in *; subst.
  - cbn [append]. by apply unquote_short.
  - match goal with Hx : String backslash _ = u_escape _ |- _ => rename Hx into Hu end.
    rewrite Hu. erewrite unquote_u_escape; [by f_equal | by symmetry | done|].
    unfold in_range. by rewrite (proj2 (N.leb_gt 55296 _)) by lia.
Qed.

Lemma unquote_separator r t : r = 8232%N \/ r = 8233%N ->
  unquote (u_escape r ++ t) = prepend (encode_rune r) (unquote t).
Proof. intros [-> | ->]; by eapply unquote_u_escape. Qed.

Lemma unquote_chunk c t : chunk_wf c -> good c = true ->
  unquote (escape_chunk c ++ t) = prepend (raw c) (unquote t).
Proof.
  intros Hwf Hg. destruct (Hwf Hg) as [(a & Ha & Hr & Hw) | (Hr & Hhigh & Hsep)].
  - destruct c as [r w g]. cbn in *. subst. by apply unquote_escape_ascii.
  - unfold escape_chunk. rewrite Hg. cbn [negb]. rewrite (proj2 (N.ltb_ge _ _)) by lia.
    destruct ((rune c =? 8232)%N || (rune c =? 8233)%N) eqn:E.
    + assert (rune c = 8232%N \/ rune c = 8233%N) as Hor.
      { apply orb_true_iff in E as [E|E]; apply N.eqb_eq in E; auto. }
      rewrite (Hsep Hor). by apply unquote_separator.
    + by apply unquote_high.
Qed.

Lemma prepend_app a b o : prepend a (prepend b o) = prepend (a ++ b) o.
Proof. destruct o as [[x r]|]; cbn; [|done]. by rewrite string_app_assoc. Qed.

Lemma unquote_quoted s t : valid_string s = true ->
  unquote (escape s ++ String quote t) = Some (s, t).
Proof.
  intros Hv. unfold valid_string in Hv. unfold escape.
  rewrite <- (runes_raw s) at 2. unfold concat_raw.
  pose proof (runes_wf s) as Hwf. revert Hv Hwf. generalize (runes s) as l.
  induction l as [|c l IH]; intros Hv Hwf; cbn [fmap list_fmap concat_strings]; [done|].
  cbn in Hv. apply andb_true_iff in Hv as [Hg Hv]. inversion Hwf; subst.
  rewrite string_app_assoc, unquote_chunk by done. change (list_fmap _ _ raw l) with (raw <$> l).
  change (list_fmap _ _ escape_chunk l) with (escape_chunk <$> l).
  rewrite IH by done. done.
Qed.

Lemma coerce_valid s : valid_string s = true -> coerce_utf8 s = s.
Proof.
  intros Hv. unfold coerce_utf8. rewrite <- (runes_raw s) at 2. unfold concat_raw. f_equal.
  unfold valid_string in Hv. rewrite forallb_forall in Hv.
  apply list_fmap_ext. intros i c Hc. rewrite Hv; [done|].
  apply list_elem_of_In. by eapply list_elem_of_lookup_2.
Qed.

(* ------------------------------------------------------------------ *)
(** ** Numbers read back *)

(** What follows a value in a document never continues a number. *)
Definition delimited (s : string) : bool :=
  match s with
  | String a _ => negb (is_num_char a)
  | "" => true
  end.

Lemma span_app f w r :
  string_forallb f w = true -> match r with String a _ => f a = false | "" => True end ->
  span f (w ++ r) = (w, r).
Proof.
  intros Hw Hr. induction w as [|a w IH]; cbn in *.
  { destruct r as [|a r]; [done|]. cbn. by rewrite Hr. }
  apply andb_true_iff in Hw as [Ha Hw]. by rewrite Ha, IH.
Qed.

Lemma uint_chars d : string_forallb is_num_char (NilEmpty.string_of_uint d) = true.
Proof. by induction d. Qed.

Lemma print_Z_chars z : string_forallb is_num_char (print_Z z) = true.
Proof.
  unfold print_Z, NilZero.string_of_int. destruct (Z.to_int z) as [d|d];
    [|cbn]; destruct d; try done; apply uint_chars.
Qed.

Lemma of_print_Z z : NilZero.int_of_string (print_Z z) = Some (Z.to_int z).
Proof.
  unfold print_Z. apply NilZero.isi; destruct z as [|p|p]; cbn; try done;
    intros H; injection H as H; eapply (DecimalPos.Unsigned.to_uint_nonnil p); done.
Qed.

Lemma parse_print_number z r : delimited r = true ->
  parse_number (print_Z z ++ r) = Some (JNum z, r).
Proof.
  intros Hr. unfold parse_number. rewrite span_app.
  - cbn [mbind option_bind]. rewrite of_print_Z. cbn [mbind option_bind].
    rewrite DecimalZ.of_to. by rewrite bool_decide_eq_true_2.
  - apply print_Z_chars.
  - destruct r; [done|]. cbn in Hr. by apply negb_true_iff in Hr.
Qed.

Lemma print_Z_head z : exists a s, print_Z z = String a s /\ is_num_char a = true.
Proof.
  pose proof (print_Z_chars z) as H. destruct (print_Z z) as [|a s] eqn:E.
  { pose proof (of_print_Z z) as Hn. rewrite E in Hn. discriminate Hn. }
  cbn in H. apply andb_true_iff in H as [H _]. eauto.
Qed.

(* ------------------------------------------------------------------ *)
(** ** Documents read back *)

(** Every string of the document is valid UTF-8. *)
Fixpoint json_ok (j : json) : bool :=
  match j with
  | JStr s => valid_string s
  | JArr l => forallb json_ok l
  | JObj l => forallb (fun m => valid_string (fst m) && json_ok (snd m)) l
  | _ => true
  end.

Fixpoint jsize (j : json) : nat :=
  match j with
  | JArr l => S (foldr (fun x n => S (jsize x + n)) 0 l)%nat
  | JObj l => S (foldr (fun m n => S (jsize (snd m) + n)) 0 l)%nat
  | _ => 1%nat
  end.

Definition items_size (l : list json) : nat := foldr (fun x n => S (jsize x + n)) 0%nat l.
Definition members_size (l : list (string * json)) : nat :=
  foldr (fun m n => S (jsize (snd m) + n)) 0%nat l.

(** The first byte of a printed value: no space, no closing bracket. *)
Definition value_start (a : ascii) : bool :=
  negb (is_ws a) && negb (Ascii.eqb a "]") && negb (Ascii.eqb a "}").

Lemma num_char_start a : is_num_char a = true ->
  value_start a && negb (Ascii.eqb a quote) && negb (Ascii.eqb a "[") && negb (Ascii.eqb a "{")
  && negb (Ascii.eqb a "t") && negb (Ascii.eqb a "f") && negb (Ascii.eqb a "n") = true.
Proof. by destruct a as [[] [] [] [] [] [] [] []]. Qed.

Lemma print_start j : exists a s, print j = String a s /\ value_start a = true.
Proof.
  destruct j as [|[]|z|s|l|l]; try (by eexists _, _).
  destruct (print_Z_head z) as (a & s & E & H). exists a, s.
  apply num_char_start in H. by bool_split.
Qed.

Lemma skip_ws_start a s : value_start a = true -> skip_ws (String a s) = String a s.
Proof. unfold value_start. intros H. bool_split. cbn -[is_ws]. by rewrite H. Qed.

Lemma parse_value_quote n s : parse_value (S n) (String quote s) =
  match unquote s with Some (x, r) => Some (JStr (coerce_utf8 x), r) | None => None end.
Proof. done. Qed.

Lemma parse_value_open n a s : value_start a = true ->
  parse_value (S n) (String "[" (String a s)) =
    ('(l, r) ← parse_items n (String a s); Some (JArr l, r)).
Proof.
  intros Ha. cbn [parse_value]. change (skip_ws (String "[" (String a s))) with (String "[" (String a s)).
  cbn iota beta. rewrite skip_ws_start by done. unfold value_start in Ha.
  rewrite !andb_true_iff, !negb_true_iff in Ha. destruct Ha as ((_ & Hb) & _). by rewrite Hb.
Qed.

Lemma parse_value_brace n s :
  parse_value (S n) (String "{" (String quote s)) =
    ('(l, r) ← parse_members n (String quote s); Some (JObj l, r)).
Proof. done. Qed.

Lemma parse_items_step n s x r :
  parse_value n s = Some (x, r) ->
  parse_items (S n) s =
    match skip_ws r with
    | String c r' =>
        if Ascii.eqb c "]" then Some ([x], r')
        else if Ascii.eqb c "," then '(l, r'') ← parse_items n r'; Some (x :: l, r'')
        else None
    | "" => None
    end.
Proof. intros H. cbn [parse_items]. by rewrite H. Qed.

Lemma parse_members_step n k x s r : valid_string k = true ->
  parse_value n s = Some (x, r) ->
  parse_members (S n) (quoted k ++ ":" ++ s) =
    match skip_ws r with
    | String c r' =>
        if Ascii.eqb c "}" then Some ([(k, x)], r')
        else if Ascii.eqb c "," then '(l, r'') ← parse_members n r'; Some ((k, x) :: l, r'')
        else None
    | "" => None
    end.
Proof.
  intros Hk H. unfold quoted. cbn [append]. rewrite string_app_assoc. unfold str1. cbn [append].
  cbn [parse_members]. change (skip_ws (String quote ?t)) with (String quote t).
  change (Ascii.eqb quote quote) with true. cbn iota beta. rewrite unquote_quoted by done.
  cbn [mbind option_bind]. change (skip_ws (String ":" s)) with (String ":" s).
  change (Ascii.eqb ":" ":") with true. cbn iota beta. rewrite H. cbn [mbind option_bind].
  by rewrite coerce_valid.
Qed.

Lemma parse_print_mutual n :
  (forall j r, (jsize j <= n)%nat -> json_ok j = true -> delimited r = true ->
     parse_value n (print j ++ r) = Some (j, r)) /\
  (forall l r, l <> [] -> (items_size l <= n)%nat -> forallb json_ok l = true ->
     parse_items n (print_items l ++ String "]" r) = Some (l, r)) /\
  (forall l r, l <> [] -> (members_size l <= n)%nat ->
     forallb (fun m => valid_string (fst m) && json_ok (snd m)) l = true ->
     parse_members n (print_members l ++ String "}" r) = Some (l, r)).
Proof.
  induction n as [|n (IHv & IHi & IHm)].
  { split_and!.
    - intros []; cbn; intros; lia.
    - intros [|[] l]; cbn; intros; (done || lia).
    - intros [|[k []] l]; cbn; intros; (done || lia). }
  split_and!.
  - intros j r Hn Hok Hr. destruct j as [|[]|z|s|l|l]; try done.
    + destruct (print_Z_head z) as (a & t & E & Ha). pose proof (parse_print_number z r Hr) as Hp.
      cbn [print]. rewrite E in *. apply num_char_start in Ha.
      rewrite !andb_true_iff, !negb_true_iff in Ha.
      destruct Ha as ((((((Hs & Hq) & Hb) & Hc) & Ht) & Hf) & Hnl).
      cbn [append parse_value] in *. rewrite skip_ws_start by done.
      rewrite Hb, Hc. unfold parse_scalar. by rewrite Hq, Ht, Hf, Hnl.
    + cbn [print]. unfold quoted, str1. cbn [append]. rewrite string_app_assoc. cbn [append].
      by rewrite parse_value_quote, unquote_quoted, coerce_valid.
    + rewrite print_arr. destruct l as [|j l]; [done|].
      cbn [append]. rewrite string_app_assoc. cbn [append].
      assert (exists a t, print_items (j :: l) ++ String "]" r = String a t /\ value_start a = true)
        as (a & t & E & Ha).
      { destruct (print_start j) as (a & t & E & Ha).
        destruct l; cbn [print_items]; rewrite E; by eexists _, _. }
      rewrite E, parse_value_open, <- E, IHi; [done..| |done|done]. cbn in Hn |- *. lia.
    + rewrite print_obj. destruct l as [|[k j] l]; [done|].
      cbn [append]. rewrite string_app_assoc. cbn [append].
      assert (exists t, print_members ((k, j) :: l) ++ String "}" r = String quote t) as (t & E)
        by (destruct l; by eexists _).
      rewrite E, parse_value_brace, <- E, IHm; [done..| |done]. cbn in Hn |- *. lia.
  - intros l r Hl Hn Hok. destruct l as [|j l]; [done|]. cbn in Hn, Hok.
    apply andb_true_iff in Hok as [Hj Hok]. fold (items_size l) in Hn.
    destruct l as [|j' l].
    + cbn [print_items]. by erewrite parse_items_step by (apply IHv; [lia|done..]).
    + change (print_items (j :: j' :: l)) with (print j ++ "," ++ print_items (j' :: l)).
      rewrite !string_app_assoc. erewrite parse_items_step by (apply IHv; [lia|done..]).
      cbn [append skip_ws]. change (is_ws ",") with false. cbn -[print_items parse_items].
      rewrite IHi by (done || lia). done.
  - intros l r Hl Hn Hok. destruct l as [|[k j] l]; [done|]. cbn in Hn, Hok.
    apply andb_true_iff in Hok as [Hj Hok]. apply andb_true_iff in Hj as [Hk Hj].
    fold (members_size l) in Hn.
    destruct l as [|[k' j'] l].
    + cbn [print_members]. rewrite !string_app_assoc.
      by erewrite parse_members_step by (done || (apply IHv; [lia|done..])).
    + change (print_members ((k, j) :: (k', j') :: l)) with
        (quoted k ++ ":" ++ print j ++ "," ++ print_members ((k', j') :: l)).
      rewrite !string_app_assoc.
      erewrite parse_members_step by (done || (apply IHv; [lia|done..])).
      cbn [append skip_ws]. change (is_ws ",") with false. cbn -[print_members parse_members].
      rewrite IHm by (done || lia). done.
Qed.

Lemma slen_app a b : String.length (a ++ b) = (String.length a + String.length b)%nat.
Proof. induction a as [|x a IH]; simpl; [done | by rewrite IH]. Qed.

Lemma print_items_cons j l : print_items (j :: l) =
  match l with [] => print j | _ => print j ++ "," ++ print_items l end.
Proof. by destruct l. Qed.

Lemma print_members_cons k j l : print_members ((k, j) :: l) =
  match l with
  | [] => quoted k ++ ":" ++ print j
  | _ => quoted k ++ ":" ++ print j ++ "," ++ print_members l
  end.
Proof. by destruct l as [|[]]. Qed.

Lemma jsize_print n :
  (forall j, (jsize j <= n)%nat -> (jsize j <= String.length (print j))%nat) /\
  (forall l, (items_size l <= n)%nat -> (items_size l <= S (String.length (print_items l)))%nat) /\
  (forall l, (members_size l <= n)%nat -> (members_size l <= S (String.length (print_members l)))%nat).
Proof.
  induction n as [|n (IHv & IHi & IHm)].
  { split_and!; [intros []|intros [|[] l]|intros [|[k []] l]]; cbn; lia. }
  split_and!.
  - intros j Hn. destruct j as [|[]|z|s|l|l]; try (cbn; lia).
    + destruct (print_Z_head z) as (a & t & E & _). cbn [print]. rewrite E. cbn. lia.
    + rewrite print_arr. cbn in Hn. specialize (IHi l). unfold items_size in *.
      rewrite !slen_app. cbn -[print_items]. lia.
    + rewrite print_obj. cbn in Hn. specialize (IHm l). unfold members_size in *.
      rewrite !slen_app. cbn -[print_members]. lia.
  - intros [|j l] Hn; [cbn; lia|]. rewrite print_items_cons. cbn in Hn |- *.
    fold (items_size l) in *. pose proof (IHv j). pose proof (IHi l).
    destruct l; [cbn -[print] in *; lia|]. rewrite ?slen_app.
    cbn -[print_items items_size print] in *. lia.
  - intros [|[k j] l] Hn; [cbn; lia|]. rewrite print_members_cons.
    cbn -[quoted append] in Hn |- *.
    fold (members_size l) in *. pose proof (IHv j). pose proof (IHm l).
    destruct l; rewrite ?slen_app; [cbn -[print quoted] in *; lia|].
    cbn -[print_members members_size print quoted] in *. lia.
Qed.

(** [json.Unmarshal] of [json.Marshal] is the document itself. *)
Theorem parse_print j : json_ok j = true -> parse (print j) = Some j.
Proof.
  intros Hok. unfold parse.
  pose proof (proj1 (jsize_print (jsize j)) j (le_n _)) as Hs.
  destruct (parse_print_mutual (S (String.length (print j)))) as (Hv & _ & _).
  specialize (Hv j "" ltac:(lia) Hok eq_refl). rewrite string_app_nil in Hv. by rewrite Hv.
Qed.

(** Printed text is valid UTF-8. *)
Lemma hex_digit_ascii n : (n < 16)%N -> (byte_of (hex_digit n) <? 128)%N = true.
Proof.
  intros H. unfold hex_digit. case_match; unfold byte_of;
    rewrite N_ascii_embedding by (zify; lia); apply N.ltb_lt;
    repeat match goal with H : (_ <? _)%N = true |- _ => apply N.ltb_lt in H end; lia.
Qed.

Lemma u_escape_valid n : (n < 65536)%N -> valid_string (u_escape n) = true.
Proof.
  intros H. apply is_ascii_valid. unfold u_escape, str2, str1, is_ascii. cbn [string_forallb].
  rewrite !hex_digit_ascii; [done|..]; try (apply N.mod_lt; done).
  apply N.Div0.div_lt_upper_bound. lia.
Qed.

Lemma escape_chunk_valid c :
  chunk_wf c -> (good c = true -> valid_string (raw c) = true) -> valid_string (escape_chunk c) = true.
Proof.
  intros Hwf Hc. unfold escape_chunk. destruct (good c) eqn:Eg; cbn [negb].
  2:{ apply u_escape_valid. unfold rune_error. lia. }
  destruct (rune c <? 128)%N eqn:El.
  - destruct (html_safe (rune c)); [auto|]. destruct (short_escape (rune c)) as [e|] eqn:Es.
    + unfold short_escape in Es. repeat case_match; try done; injection Es as <-; done.
    + apply u_escape_valid. apply N.ltb_lt in El. lia.
  - case_match; [|auto]. apply u_escape_valid.
    match goal with H : _ || _ = true |- _ => apply orb_true_iff in H; rewrite !N.eqb_eq in H end. lia.
Qed.

Lemma quoted_valid s : valid_string (quoted s) = true.
Proof.
  unfold quoted. apply (valid_string_app (str1 quote)); [done|]. apply valid_string_app; [|done].
  unfold escape. pose proof (runes_wf s) as Hwf. pose proof (chunk_raw_valid s) as Hv.
  induction (runes s) as [|c l IH]; [done|].
  apply Forall_cons in Hwf as [Hc Hwf]. apply Forall_cons in Hv as [Hcv Hv].
  cbn. apply valid_string_app; [by apply escape_chunk_valid | by apply IH].
Qed.

Lemma num_chars_ascii s : string_forallb is_num_char s = true -> is_ascii s = true.
Proof. apply string_forallb_impl. by intros [[] [] [] [] [] [] [] []]. Qed.

Lemma print_valid j : valid_string (print j) = true.
Proof.
  assert (forall n j, (jsize j <= n)%nat -> valid_string (print j) = true) as H.
  { clear j. intros n. induction n as [|n IH]; intros j Hn; [destruct j; cbn in Hn; lia|].
    destruct j as [|[]|z|s|l|l]; try done.
    - apply is_ascii_valid, num_chars_ascii, print_Z_chars.
    - apply quoted_valid.
    - rewrite print_arr. apply (valid_string_app "["); [done|]. apply valid_string_app; [|done].
      cbn in Hn. apply le_S_n in Hn. fold (items_size l) in Hn.
      induction l as [|j l IHl]; [done|]. rewrite print_items_cons. cbn in Hn.
      fold (items_size l) in Hn.
      assert (valid_string (print j) = true) as Hj by (apply IH; lia).
      destruct l; [done|]. apply valid_string_app; [done|].
      apply (valid_string_app ","); [done|]. apply IHl. lia.
    - rewrite print_obj. apply (valid_string_app "{"); [done|]. apply valid_string_app; [|done].
      cbn in Hn. apply le_S_n in Hn. fold (members_size l) in Hn.
      induction l as [|[k j] l IHl]; [done|]. rewrite print_members_cons. cbn in Hn.
      fold (members_size l) in Hn.
      assert (valid_string (quoted k ++ ":" ++ print j) = true) as Hj.
      { apply valid_string_app; [apply quoted_valid|]. apply (valid_string_app ":"); [done|].
        apply IH; lia. }
      destruct l; [done|].
      assert (forall t, quoted k ++ ":" ++ print j ++ t = (quoted k ++ ":" ++ print j) ++ t) as ->
        by (intros t; by rewrite !string_app_assoc).
      apply valid_string_app; [done|]. apply (valid_string_app ","); [done|]. apply IHl. lia. }
  by apply (H (jsize j)).
Qed.

#[global] Arguments print : simpl never.
#[global] Arguments parse : simpl never.

(* ------------------------------------------------------------------ *)
(** ** Decoding into structures *)

(** The member of an object that decodes into the field tagged [k]: the last
    one with that name. *)
Fixpoint field (k : string) (l : list (string * json)) : option json :=
  match l with
  | [] => None
  | (k', x) :: l' =>
      match field k l' with
      | Some y => Some y
      | None => if String.eqb k k' then Some x else None
      end
  end.

(** A field that is absent or [null] keeps the zero value. *)
Definition dec_str (o : option json) : option string :=
  match o with
  | None | Some JNull => Some ""
  | Some (JStr s) => Some s
  | Some _ => None
  end.

(** An unsigned or signed 64-bit integer field. *)
Definition dec_int (lo hi : Z) (o : option json) : option Z :=
  match o with
  | None | Some JNull => Some 0%Z
  | Some (JNum z) => if (lo <=? z)%Z && (z <=? hi)%Z then Some z else None
  | Some _ => None
  end.

Definition max_uint64 : Z := 18446744073709551615%Z.
Definition dec_uint64 : option json -> option Z := dec_int 0 max_uint64.
Definition dec_int64 : option json -> option Z := dec_int (-9223372036854775808) MaxInt64.

Definition dec_obj {A} (f : list (string * json) -> option A) (o : option json) : option A :=
  match o with
  | None | Some JNull => f []
  | Some (JObj l) => f l
  | Some _ => None
  end.

Definition dec_ptr {A} (f : option json -> option A) (o : option json) : option (option A) :=
  match o with
  | None | Some JNull => Some None
  | Some j => v ← f (Some j); Some (Some v)
  end.

(** A []byte field: base64, or null for the nil slice. *)
Definition enc_bytes (s : string) : json := JStr (b64_encode s).
Definition dec_bytes (o : option json) : option string :=
  match o with
  | None | Some JNull => Some ""
  | Some (JStr s) => b64_decode false s
  | Some _ => None
  end.

(** An [omitempty] string or pointer field. *)
Definition opt_str (k s : string) : list (string * json) :=
  if is_empty s then [] else [(k, JStr s)].
Definition opt_ptr {A} (k : string) (f : A -> json) (o : option A) : list (string * json) :=
  match o with Some v => [(k, f v)] | None => [] end.
