(* ===== verification/GoStrings.v ===== *)
(** * Substrings and paths (strings, path)

    [strings.Contains], [strings.Split] on a byte, [strings.ReplaceAll] of a
    byte, and [path.Clean] of a rooted path. *)

From S2P Require Import Prelude GoText GoJson.

Local Open Scope string_scope.

(** [strings.HasPrefix]. *)
Definition HasPrefix (s p : string) : bool := negb (is_none (strip_prefix p s)).

(** [strings.Contains(s, sub)]. *)
Fixpoint Contains (s sub : string) : bool :=
  HasPrefix s sub || match s with "" => false | String _ s' => Contains s' sub end.

(** [strings.Split(s, string(sep))] for one separating byte. *)
Fixpoint Split (sep : ascii) (s : string) : list string :=
  match s with
  | "" => [""]
  | String a s' =>
      if Ascii.eqb a sep then "" :: Split sep s'
      else match Split sep s' with
           | w :: ws => String a w :: ws
           | [] => [str1 a]
           end
  end.

(** [strings.Join(l, string(sep))]. *)
Fixpoint Join_sep (sep : ascii) (l : list string) : string :=
  match l with
  | [] => ""
  | [w] => w
  | w :: ws => w ++ String sep (Join_sep sep ws)
  end.

(** [strings.ReplaceAll] of one byte by another. *)
Fixpoint ReplaceByte (old new : ascii) (s : string) : string :=
  match s with
  | "" => ""
  | String a s' => String (if Ascii.eqb a old then new else a) (ReplaceByte old new s')
  end.

(** [path.Clean] of a path that begins with a slash: empty and "." elements go,
    ".." takes the element before it, or nothing at the root.  The elements so
    far are kept in reverse. *)
Definition clean_element (before : list string) (w : string) : list string :=
  if is_empty w || String.eqb w "." then before
  else if String.eqb w ".." then tail before
  else w :: before.

Definition clean_elements (p : string) : list string :=
  rev (fold_left clean_element (Split "/" p) []).

Definition CleanRooted (p : string) : string := String "/" (Join_sep "/" (clean_elements p)).

Example clean_1 : CleanRooted "/workspace//a/./b/../c" = "/workspace/a/c".
Proof. reflexivity. Qed.
Example clean_2 : CleanRooted "/workspace/../../etc/passwd" = "/etc/passwd".
Proof. reflexivity. Qed.
Example clean_3 : CleanRooted "/.." = "/".
Proof. reflexivity. Qed.

(* ------------------------------------------------------------------ *)
(** ** Facts *)

Definition no_byte (c : ascii) (s : string) : bool := string_forallb (fun a => negb (Ascii.eqb a c)) s.

Lemma Split_nonempty sep s : Split sep s <> [].
Proof. destruct s as [|a s]; cbn; [done|]. destruct (Ascii.eqb a sep); [done|]. by destruct (Split sep s). Qed.

(** The pieces hold no separator, and joined they are the text. *)
Lemma Split_pieces sep s : Forall (fun w => no_byte sep w = true) (Split sep s).
Proof.
  induction s as [|a s IH]; cbn; [by repeat constructor|].
  destruct (Ascii.eqb a sep) eqn:E; [by constructor|].
  destruct (Split sep s) as [|w ws]; [repeat constructor; cbn; by rewrite E|].
  inversion IH; subst. constructor; [|done]. unfold no_byte in *. cbn. by rewrite E.
Qed.

Lemma Join_Split sep s : Join_sep sep (Split sep s) = s.
Proof.
  induction s as [|a s IH]; [done|]. cbn. destruct (Ascii.eqb_spec a sep) as [->|Hne].
  - pose proof (Split_nonempty sep s). destruct (Split sep s) as [|w ws]; [done|]. cbn in *. by rewrite IH.
  - destruct (Split sep s) as [|w [|w' ws]] eqn:E; [by pose proof (Split_nonempty sep s)|cbn in *; by rewrite IH|].
    cbn in *. by rewrite <- IH.
Qed.

Lemma Split_no_sep sep w : no_byte sep w = true -> Split sep w = [w].
Proof.
  unfold no_byte. induction w as [|a w IH]; [done|]. cbn. rewrite andb_true_iff. intros [Ha Hw].
  apply negb_true_iff in Ha. by rewrite Ha, IH.
Qed.

Lemma Split_cons sep w s : no_byte sep w = true -> Split sep (w ++ String sep s) = w :: Split sep s.
Proof.
  unfold no_byte. induction w as [|a w IH]; cbn; [by rewrite Ascii.eqb_refl|].
  rewrite andb_true_iff. intros [Ha Hw]. apply negb_true_iff in Ha. by rewrite Ha, IH.
Qed.

Lemma Split_Join sep l : l <> [] -> Forall (fun w => no_byte sep w = true) l -> Split sep (Join_sep sep l) = l.
Proof.
  intros Hl H. induction H as [|w ws Hw Hws IH]; [done|]. destruct ws as [|w' ws]; [by apply Split_no_sep|].
  change (Join_sep sep (w :: w' :: ws)) with (w ++ String sep (Join_sep sep (w' :: ws))).
  rewrite Split_cons by done. by rewrite IH.
Qed.

(** A plain element of a path. *)
Definition plain (w : string) : Prop := w <> "" /\ w <> "." /\ w <> ".." /\ no_byte "/" w = true.

Lemma clean_element_plain before w : Forall plain before -> no_byte "/" w = true ->
  Forall plain (clean_element before w).
Proof.
  intros Hb Hw. unfold clean_element. destruct (is_empty w) eqn:Ee; [done|].
  destruct (String.eqb_spec w "."); [done|]. cbn [orb].
  destruct (String.eqb_spec w ".."); [by destruct Hb|].
  constructor; [|done]. split_and!; try done. by intros ->.
Qed.

Lemma clean_elements_plain p : Forall plain (clean_elements p).
Proof.
  unfold clean_elements. apply Forall_rev.
  assert (forall l before, Forall (fun w => no_byte "/" w = true) l -> Forall plain before ->
            Forall plain (fold_left clean_element l before)) as H.
  { intros l. induction l as [|w l IH]; intros before Hl Hb; [done|]. inversion Hl; subst. cbn.
    apply IH; [done | by apply clean_element_plain]. }
  apply H; [apply Split_pieces | constructor].
Qed.

(** Plain elements are kept by another cleaning. *)
Lemma fold_clean_plain l before : Forall plain l -> fold_left clean_element l before = (rev l ++ before)%list.
Proof.
  revert before. induction l as [|w l IH]; intros before H; [done|]. inversion H as [|? ? Hw Hl]; subst. cbn.
  rewrite IH by done. destruct Hw as (H1 & H2 & H3 & _).
  assert (clean_element before w = w :: before) as ->.
  { unfold clean_element. destruct (is_empty w) eqn:E; [by apply is_empty_true in E|].
    destruct (String.eqb_spec w "."); [done|]. cbn [orb]. by destruct (String.eqb_spec w ".."). }
  by rewrite <- app_assoc.
Qed.

Lemma clean_elements_join l : Forall plain l -> clean_elements (String "/" (Join_sep "/" l)) = l.
Proof.
  intros H. unfold clean_elements. cbn [Split]. rewrite Ascii.eqb_refl. cbn [fold_left].
  change (clean_element [] "") with (@nil string).
  destruct l as [|w l]; [done|].
  rewrite Split_Join; [|done|by eapply Forall_impl; [exact H|]; intros ? (_ & _ & _ & ?)].
  rewrite fold_clean_plain, app_nil_r by done. apply rev_involutive.
Qed.

Lemma CleanRooted_idempotent p : CleanRooted (CleanRooted p) = CleanRooted p.
Proof. unfold CleanRooted. by rewrite clean_elements_join by apply clean_elements_plain. Qed.

(* ------------------------------------------------------------------ *)
(** ** mime.ParseMediaType

    Whether [mime.ParseMediaType] accepts a media type: the code uses only its
    error. *)

Definition is_tspecial (a : ascii) : bool :=
  existsb (Ascii.eqb a)
    ["("; ")"; "<"; ">"; "@"; ","; ";"; ":"; backslash; quote; "/"; "["; "]"; "?"; "="]%char.

Definition is_token_char (a : ascii) : bool :=
  (32 <? byte_of a)%N && (byte_of a <? 127)%N && negb (is_tspecial a).

Definition consumeToken (v : string) : string * string := span is_token_char v.

(** Lower case as far as an ASCII byte can result: the capital ASCII letters,
    the Kelvin sign and the dotted capital I. *)
Definition lower_chunk (c : chunk) : string :=
  if in_range 65 90 (rune c) then str1 (ascii_of_N (rune c + 32))
  else if good c && (rune c =? 8490)%N then "k"
  else if good c && (rune c =? 304)%N then "i"
  else raw c.

Definition ToLower (s : string) : string := concat_strings (lower_chunk <$> runes s).

Fixpoint cut_semicolon (s : string) : string * string :=
  match s with
  | "" => ("", "")
  | String a s' =>
      if Ascii.eqb a ";" then ("", s) else let '(b, r) := cut_semicolon s' in (String a b, r)
  end.

Definition checkMediaTypeDisposition (s : string) : bool :=
  let '(typ, rest) := consumeToken s in
  if is_empty typ then false
  else match rest with
       | "" => true
       | String c r =>
           if Ascii.eqb c "/" then
             let '(subtype, rest) := consumeToken r in
             negb (is_empty subtype) && is_empty rest
           else false
       end.

(** The body of a quoted string, from after its opening quote. *)
Fixpoint consumeQuoted (v : string) : option (string * string) :=
  match v with
  | "" => None
  | String a v1 =>
      if Ascii.eqb a quote then Some ("", v1)
      else match v1 with
           | String b v2 =>
               if Ascii.eqb a backslash && is_tspecial b then prepend (str1 b) (consumeQuoted v2)
               else if Ascii.eqb a cr || Ascii.eqb a lf then None
               else prepend (str1 a) (consumeQuoted v1)
           | "" => None
           end
  end.

Definition consumeValue (v : string) : string * string :=
  match v with
  | "" => ("", "")
  | String a v' =>
      if Ascii.eqb a quote then
        match consumeQuoted v' with Some (x, r) => (x, r) | None => ("", v) end
      else consumeToken v
  end.

(** [key = ""] means that no parameter was read. *)
Definition consumeMediaParam (v : string) : string * string * string :=
  match TrimLeftSpace v with
  | String semi rest =>
      if negb (Ascii.eqb semi ";") then ("", "", v)
      else
        let '(param, rest) := consumeToken (TrimLeftSpace rest) in
        let param := ToLower param in
        if is_empty param then ("", "", v)
        else match TrimLeftSpace rest with
             | String e rest =>
                 if negb (Ascii.eqb e "=") then ("", "", v)
                 else
                   let rest := TrimLeftSpace rest in
                   let '(value, rest2) := consumeValue rest in
                   if is_empty value && (rest2 =?= rest) then ("", "", v)
                   else (param, value, rest2)
             | "" => ("", "", v)
             end
  | "" => ("", "", v)
  end.

Fixpoint parse_params (fuel : nat) (seen : list (string * string)) (v : string) : bool :=
  match fuel with
  | O => is_empty v
  | S n =>
      let v := TrimLeftSpace v in
      if is_empty v then true
      else
        let '(key, value, rest) := consumeMediaParam v in
        if is_empty key then TrimSpace rest =?= ";"
        else if existsb (fun p => (fst p =?= key) && (snd p <>? value)) seen then false
        else parse_params n ((key, value) :: seen) rest
  end.

(** Every parameter takes at least one byte, so the length of the text bounds
    the number of rounds. *)
Definition ParseMediaType_ok (v : string) : bool :=
  let '(base, rest) := cut_semicolon v in
  checkMediaTypeDisposition (TrimSpace (ToLower base))
  && parse_params (S (String.length rest)) [] rest.

Example mime_plain : ParseMediaType_ok "text/plain; charset=utf-8" = true.
Proof. vm_compute. reflexivity. Qed.

Example mime_bad : ParseMediaType_ok "text/" = false.
Proof. vm_compute. reflexivity. Qed.

Example mime_quoted : ParseMediaType_ok ("a/b;x=" ++ String quote ("q;r" ++ String quote ";x=q")) = false.
Proof. vm_compute. reflexivity. Qed.
