(* ===== verification/GoDoc.v ===== *)
(** * JSON texts as raw documents (encoding/json)

    A [json.RawMessage], a [json.Number] and a compacted text keep the literals
    they were read with.  [doc] is a document whose string and number literals
    are raw: [write] is its compact text, [read] the scanner behind
    [json.Valid], [json.Compact] and the decoder, with the proof that what was
    written reads back.  [value] is what the decoder makes of a document in an
    [any] with [UseNumber], and [encode_value] what [json.Marshal] writes for
    it.  The decoder's nesting limit of 10000 levels is not modelled. *)

From S2P Require Import Prelude GoText GoEncoding GoJson GoStrings.
From Stdlib Require Import DecimalString DecimalFacts DecimalN.

Local Open Scope string_scope.

Inductive doc :=
  | DLit (text : string)
  | DStr (body : string)
  | DArr (items : list doc)
  | DObj (members : list (string * doc)).

(* ------------------------------------------------------------------ *)
(** ** Writing *)

Definition in_quotes (body : string) : string := String quote (body ++ str1 quote).

Fixpoint write (d : doc) : string :=
  match d with
  | DLit t => t
  | DStr b => in_quotes b
  | DArr l =>
      "[" ++ (fix items (l : list doc) :=
                match l with
                | [] => ""
                | [x] => write x
                | x :: l' => write x ++ "," ++ items l'
                end) l ++ "]"
  | DObj l =>
      "{" ++ (fix members (l : list (string * doc)) :=
                match l with
                | [] => ""
                | [(k, x)] => in_quotes k ++ ":" ++ write x
                | (k, x) :: l' => in_quotes k ++ ":" ++ write x ++ "," ++ members l'
                end) l ++ "}"
  end.

Fixpoint write_items (l : list doc) : string :=
  match l with
  | [] => ""
  | [x] => write x
  | x :: l' => write x ++ "," ++ write_items l'
  end.

Fixpoint write_members (l : list (string * doc)) : string :=
  match l with
  | [] => ""
  | [(k, x)] => in_quotes k ++ ":" ++ write x
  | (k, x) :: l' => in_quotes k ++ ":" ++ write x ++ "," ++ write_members l'
  end.

Lemma write_arr l : write (DArr l) = "[" ++ write_items l ++ "]".
Proof. done. Qed.
Lemma write_obj l : write (DObj l) = "{" ++ write_members l ++ "}".
Proof. done. Qed.

(* ------------------------------------------------------------------ *)
(** ** Reading *)

(** The characters of a string literal up to its closing quote. *)
Fixpoint scan_body (s : string) : option (string * string) :=
  match s with
  | "" => None
  | String a s1 =>
      if Ascii.eqb a quote then Some ("", s1)
      else if Ascii.eqb a backslash then
        match s1 with
        | "" => None
        | String e s2 =>
            if Ascii.eqb e "u" then
              match s2 with
              | String h1 (String h2 (String h3 (String h4 s3))) =>
                  if is_none (hex4 h1 h2 h3 h4) then None
                  else prepend (str2 a e ++ str4 h1 h2 h3 h4) (scan_body s3)
              | _ => None
              end
            else if is_none (short_unescape e) then None
            else prepend (str2 a e) (scan_body s2)
        end
      else if (byte_of a <? 32)%N then None
      else prepend (str1 a) (scan_body s1)
  end.

(** A number literal: sign, integer part without a leading zero, fraction,
    exponent. *)
Definition digits_tail (s : string) : string := snd (span is_digit s).
Definition some_digits (s : string) : option string :=
  match s with
  | String a s' => if is_digit a then Some (digits_tail s') else None
  | "" => None
  end.
Definition drop_byte (set : list ascii) (s : string) : string :=
  match s with
  | String a s' => if existsb (Ascii.eqb a) set then s' else s
  | "" => s
  end.

Definition number_whole (s : string) : option string :=
  match drop_byte ["-"%char] s with
  | String a s => if Ascii.eqb a "0" then Some s else some_digits (String a s)
  | "" => None
  end.
Definition number_fraction (s : string) : option string :=
  match s with
  | String a s' => if Ascii.eqb a "." then some_digits s' else Some s
  | "" => Some s
  end.
Definition number_exponent (s : string) : option string :=
  match s with
  | String a s' =>
      if existsb (Ascii.eqb a) ["e"; "E"]%char then some_digits (drop_byte ["+"; "-"]%char s') else Some s
  | "" => Some s
  end.

Definition valid_number (lit : string) : bool :=
  match (r ← number_whole lit; r ← number_fraction r; number_exponent r) with
  | Some "" => true
  | _ => false
  end.

Definition word_literal (lit : string) : bool :=
  String.eqb lit "null" || String.eqb lit "true" || String.eqb lit "false".

Definition word (w : string) (s : string) : option (doc * string) :=
  r ← strip_prefix w s; Some (DLit w, r).

Definition read_scalar (s : string) : option (doc * string) :=
  match s with
  | String a s' =>
      if Ascii.eqb a quote then '(b, r) ← scan_body s'; Some (DStr b, r)
      else if Ascii.eqb a "t" then word "true" s
      else if Ascii.eqb a "f" then word "false" s
      else if Ascii.eqb a "n" then word "null" s
      else let '(lit, r) := span is_num_char s in
           if valid_number lit then Some (DLit lit, r) else None
  | "" => None
  end.

(** Recursive descent; each level takes one unit of fuel, and the length of
    the text is always enough. *)
Fixpoint read_value (fuel : nat) (s0 : string) : option (doc * string) :=
  match fuel with
  | O => None
  | S n =>
      match skip_ws s0 with
      | String a s =>
          if Ascii.eqb a "[" then
            match skip_ws s with
            | String b r => if Ascii.eqb b "]" then Some (DArr [], r)
                            else '(l, r) ← read_items n s; Some (DArr l, r)
            | "" => None
            end
          else if Ascii.eqb a "{" then
            match skip_ws s with
            | String b r => if Ascii.eqb b "}" then Some (DObj [], r)
                            else '(l, r) ← read_members n s; Some (DObj l, r)
            | "" => None
            end
          else read_scalar (String a s)
      | "" => None
      end
  end
with read_items (fuel : nat) (s : string) : option (list doc * string) :=
  match fuel with
  | O => None
  | S n =>
      '(x, r) ← read_value n s;
      match skip_ws r with
      | String c r' =>
          if Ascii.eqb c "]" then Some ([x], r')
          else if Ascii.eqb c "," then '(l, r'') ← read_items n r'; Some (x :: l, r'')
          else None
      | "" => None
      end
  end
with read_members (fuel : nat) (s : string) : option (list (string * doc) * string) :=
  match fuel with
  | O => None
  | S n =>
      match skip_ws s with
      | String q s1 =>
          if Ascii.eqb q quote then
            '(k, r) ← scan_body s1;
            match skip_ws r with
            | String c r1 =>
                if Ascii.eqb c ":" then
                  '(x, r2) ← read_value n r1;
                  match skip_ws r2 with
                  | String c2 r3 =>
                      if Ascii.eqb c2 "}" then Some ([(k, x)], r3)
                      else if Ascii.eqb c2 "," then
                        '(l, r4) ← read_members n r3; Some ((k, x) :: l, r4)
                      else None
                  | "" => None
                  end
                else None
            | "" => None
            end
          else None
      | "" => None
      end
  end.

Definition read (s : string) : option doc :=
  '(d, r) ← read_value (S (String.length s)) s;
  if is_empty (skip_ws r) then Some d else None.

(** [json.Valid]. *)
Definition json_Valid (s : string) : bool := negb (is_none (read s)).

(** A text with single quotes for double ones. *)
Definition dquoted (s : string) : string := ReplaceByte "'" quote s.

Example read_1 : write <$> read (dquoted " { 'a' : [ 1.50e+3 , '\u0041\n' , null ] , 'b':{ } } ") =
  Some (dquoted "{'a':[1.50e+3,'\u0041\n',null],'b':{}}").
Proof. vm_compute. reflexivity. Qed.
Example read_2 : (fun s => read (dquoted s)) <$> ["01"; "-"; "1."; "[1,]"; "a'"; "'\x'"; "tru"; "1 2"; "-.5"] = repeat None 9.
Proof. vm_compute. reflexivity. Qed.

(* ------------------------------------------------------------------ *)
(** ** Compaction with HTML escapes *)

(** [appendCompact] with [escapeHTML], on the body of a literal. *)
Fixpoint html_body (s : string) : string :=
  match s with
  | "" => ""
  | String a s1 =>
      if existsb (N.eqb (byte_of a)) [60; 62; 38]%N then u_escape (byte_of a) ++ html_body s1
      else match s1 with
           | String b (String c s3) =>
               if (byte_of a =? 226)%N && (byte_of b =? 128)%N && (N.land (byte_of c) 254 =? 168)%N
               then u_escape (8192 + N.land (byte_of c) 63) ++ html_body s3
               else String a (html_body s1)
           | _ => String a (html_body s1)
           end
  end.

Fixpoint html (d : doc) : doc :=
  match d with
  | DLit t => DLit t
  | DStr b => DStr (html_body b)
  | DArr l => DArr (html <$> l)
  | DObj l => DObj ((fun m => (html_body (fst m), html (snd m))) <$> l)
  end.

(** What [json.Marshal] writes for a [json.RawMessage]. *)
Definition encode_raw (raw : option string) : option doc :=
  match raw with
  | None => Some (DLit "null")
  | Some s => html <$> read s
  end.

(* ------------------------------------------------------------------ *)
(** ** Values *)

(** The text a literal stands for. *)
Definition text_of (body : string) : string :=
  match unquote (body ++ str1 quote) with
  | Some (x, _) => coerce_utf8 x
  | None => ""
  end.

Inductive value :=
  | VNull
  | VBool (b : bool)
  | VNumber (lit : string)
  | VString (s : string)
  | VArray (items : list value)
  | VObject (members : list (string * value)).

(** A map's entries in the order of their keys. *)
Fixpoint set_member {A} (k : string) (v : A) (m : list (string * A)) : list (string * A) :=
  match m with
  | [] => [(k, v)]
  | (k', v') :: m' =>
      if String.eqb k k' then (k, v) :: m'
      else if string_less k k' then (k, v) :: m
      else (k', v') :: set_member k v m'
  end.

Definition members_of {A} (l : list (string * A)) : list (string * A) :=
  fold_left (fun m kv => set_member (fst kv) (snd kv) m) l [].

Fixpoint decode_value (d : doc) : value :=
  match d with
  | DLit t =>
      if String.eqb t "null" then VNull
      else if String.eqb t "true" then VBool true
      else if String.eqb t "false" then VBool false
      else VNumber t
  | DStr b => VString (text_of b)
  | DArr l => VArray (decode_value <$> l)
  | DObj l => VObject (members_of ((fun m => (text_of (fst m), decode_value (snd m))) <$> l))
  end.

(** [json.Marshal] of an [any]; an invalid [json.Number] is its only failure. *)
Fixpoint encode_value (v : value) : option doc :=
  match v with
  | VNull => Some (DLit "null")
  | VBool b => Some (DLit (if b then "true" else "false"))
  | VNumber lit =>
      if is_empty lit then Some (DLit "0")
      else if valid_number lit then Some (DLit lit) else None
  | VString s => Some (DStr (escape s))
  | VArray l =>
      DArr <$> (fix items (l : list value) : option (list doc) :=
        match l with
        | [] => Some []
        | x :: l' => d ← encode_value x; ds ← items l'; Some (d :: ds)
        end) l
  | VObject m =>
      DObj <$> (fix members (m : list (string * value)) : option (list (string * doc)) :=
        match m with
        | [] => Some []
        | (k, x) :: m' => d ← encode_value x; ds ← members m'; Some ((escape k, d) :: ds)
        end) m
  end.

Fixpoint encode_values (l : list value) : option (list doc) :=
  match l with
  | [] => Some []
  | x :: l' => d ← encode_value x; ds ← encode_values l'; Some (d :: ds)
  end.

Fixpoint encode_members (m : list (string * value)) : option (list (string * doc)) :=
  match m with
  | [] => Some []
  | (k, x) :: m' => d ← encode_value x; ds ← encode_members m'; Some ((escape k, d) :: ds)
  end.

Lemma encode_array l : encode_value (VArray l) = DArr <$> encode_values l.
Proof. done. Qed.
Lemma encode_object m : encode_value (VObject m) = DObj <$> encode_members m.
Proof. done. Qed.

(* ------------------------------------------------------------------ *)
(** ** Literals read back *)

(** The body of a literal: plain bytes and escapes. *)
Inductive literal_text : string -> Prop :=
  | literal_empty : literal_text ""
  | literal_byte a b : plain_byte a = true -> literal_text b -> literal_text (String a b)
  | literal_escaped x b : Ascii.eqb x "u" = false -> is_none (short_unescape x) = false ->
      literal_text b -> literal_text (String backslash (String x b))
  | literal_coded h1 h2 h3 h4 b : is_none (hex4 h1 h2 h3 h4) = false -> literal_text b ->
      literal_text (String backslash (String "u" (String h1 (String h2 (String h3 (String h4 b)))))).

Lemma literal_app a b : literal_text a -> literal_text b -> literal_text (a ++ b).
Proof. induction 1; intros Hb; cbn [append]; eauto using literal_text. Qed.

(** The scanner passes over it. *)
Lemma literal_scan b s : literal_text b -> scan_body (b ++ s) = prepend b (scan_body s).
Proof.
  induction 1 as [|a b Ha _ IH|x b Hu Hx _ IH|h1 h2 h3 h4 b Hh _ IH].
  - cbn. by destruct (scan_body s) as [[]|].
  - unfold plain_byte in Ha. bool_split. match goal with H : (_ <=? _)%N = true |- _ => apply N.leb_le in H end.
    cbn [append scan_body]. rewrite H, H1, (proj2 (N.ltb_ge _ _)) by lia. by rewrite IH, prepend_app.
  - cbn -[short_unescape]. by rewrite Hu, Hx, IH, prepend_app.
  - cbn -[hex4]. by rewrite Hh, IH, prepend_app.
Qed.

Lemma literal_close b r : literal_text b -> scan_body (b ++ String quote r) = Some (b, r).
Proof.
  intros H. rewrite literal_scan by done. change (scan_body (String quote r)) with (Some ("", r)). cbn [prepend].
  by rewrite string_app_nil.
Qed.

Lemma literal_plain a : plain_byte a = true -> literal_text (str1 a).
Proof. intros. by apply literal_byte, literal_empty. Qed.
Lemma literal_short x : Ascii.eqb x "u" = false -> is_none (short_unescape x) = false ->
  literal_text (str2 backslash x).
Proof. intros. by apply literal_escaped, literal_empty. Qed.
Lemma literal_hex h1 h2 h3 h4 : is_none (hex4 h1 h2 h3 h4) = false ->
  literal_text (str2 backslash "u" ++ str4 h1 h2 h3 h4).
Proof. intros. by apply literal_coded, literal_empty. Qed.

Lemma prepend_Some p o b r : prepend p o = Some (b, r) -> exists b', o = Some (b', r) /\ b = p ++ b'.
Proof. destruct o as [[x y]|]; cbn; [|done]. intros [= <- <-]. eauto. Qed.

Lemma scan_body_literal s b r : scan_body s = Some (b, r) ->
  literal_text b /\ (String.length b + String.length r < String.length s)%nat.
Proof.
  enough (forall n s b r, (String.length s <= n)%nat -> scan_body s = Some (b, r) ->
    literal_text b /\ (String.length b + String.length r < String.length s)%nat) by eauto.
  clear. intros n. induction n as [|n IH]; intros s b r Hn H; [by destruct s; cbn in Hn; [|lia]|].
  destruct s as [|a s1]; [done|]. cbn [scan_body] in H. cbn [String.length] in *.
  destruct (Ascii.eqb a quote) eqn:Eq. { injection H as <- <-. split; [apply literal_empty | cbn; lia]. }
  destruct (Ascii.eqb a backslash) eqn:Eb.
  - apply Ascii.eqb_eq in Eb as ->. destruct s1 as [|e s2]; [done|]. cbn [String.length] in *.
    destruct (Ascii.eqb e "u") eqn:Eu.
    + apply Ascii.eqb_eq in Eu as ->. destruct s2 as [|h1 [|h2 [|h3 [|h4 s3]]]]; try done.
      destruct (is_none _) eqn:Eh; [done|]. apply prepend_Some in H as (b' & H & ->).
      cbn [String.length] in *. apply IH in H as [Hb Hl]; [|lia].
      split; [by apply literal_app; [apply literal_hex|] | cbn; lia].
    + destruct (is_none _) eqn:Ee; [done|]. apply prepend_Some in H as (b' & H & ->).
      apply IH in H as [Hb Hl]; [|lia].
      split; [by apply literal_app; [apply literal_short|] | cbn; lia].
  - destruct (_ <? 32)%N eqn:El; [done|]. apply prepend_Some in H as (b' & H & ->).
    apply IH in H as [Hb Hl]; [|lia]. split; [|cbn; lia].
    apply literal_app; [|done]. apply literal_plain. unfold plain_byte. rewrite Eq, Eb. cbn.
    apply N.leb_le. apply N.ltb_ge in El. lia.
Qed.

Definition literal_shape (a : ascii) : bool :=
  match ascii_escape a with
  | String b "" => plain_byte b
  | String b (String x "") => Ascii.eqb b backslash && negb (Ascii.eqb x "u") && negb (is_none (short_unescape x))
  | String b (String u (String h1 (String h2 (String h3 (String h4 ""))))) =>
      Ascii.eqb b backslash && Ascii.eqb u "u" && negb (is_none (hex4 h1 h2 h3 h4))
  | _ => false
  end.

Lemma literal_shape_ascii a : (byte_of a < 128)%N -> literal_shape a = true.
Proof.
  intros Ha. rewrite <- (ascii_N_embedding a). fold (byte_of a).
  assert (forallb (fun k => literal_shape (ascii_of_N (N.of_nat k))) (seq 0 128) = true) as H
    by (vm_compute; reflexivity).
  rewrite forallb_forall in H. specialize (H (N.to_nat (byte_of a))).
  rewrite in_seq, N2Nat.id in H. apply H. lia.
Qed.

Lemma literal_ascii a : (byte_of a < 128)%N -> literal_text (ascii_escape a).
Proof.
  intros H%literal_shape_ascii. unfold literal_shape in H.
  destruct (ascii_escape a) as [|b [|x [|h1 [|h2 [|h3 [|h4 [|]]]]]]]; try done; bool_split;
    repeat match goal with H : Ascii.eqb _ _ = true |- _ => apply Ascii.eqb_eq in H as -> end.
  - by apply literal_plain.
  - by apply literal_short.
  - by apply literal_hex.
Qed.

Lemma literal_high w : string_forallb (fun a => (128 <=? byte_of a)%N) w = true -> literal_text w.
Proof.
  induction w as [|a w IH]; intros H; [apply literal_empty|]. cbn in H. apply andb_true_iff in H as [Ha H].
  apply (literal_app (str1 a)); [|auto]. apply literal_plain. apply N.leb_le in Ha. unfold plain_byte.
  rewrite (proj2 (N.leb_le 32 _)) by lia.
  assert (Ascii.eqb a quote = false) as -> by (apply Ascii.eqb_neq; by intros ->).
  by assert (Ascii.eqb a backslash = false) as -> by (apply Ascii.eqb_neq; by intros ->).
Qed.

Lemma literal_u n : (n < 65536)%N -> literal_text (u_escape n).
Proof.
  intros Hn. apply literal_hex. unfold hex4. rewrite !hex_value_digit; [done|..]; try (apply N.mod_lt; done).
  apply N.Div0.div_lt_upper_bound. lia.
Qed.

Lemma literal_escape s : literal_text (escape s).
Proof.
  unfold escape. pose proof (runes_wf s) as Hwf. revert Hwf. generalize (runes s) as l.
  induction l as [|c l IH]; intros Hwf; [apply literal_empty|].
  apply Forall_cons in Hwf as [Hc Hwf]. apply literal_app; [|auto]. clear IH Hwf.
  destruct (good c) eqn:Eg; [|unfold escape_chunk; rewrite Eg; by apply literal_u].
  destruct (Hc Eg) as [(a & Ha & Hr & Hw) | (Hr & Hhigh & _)].
  - destruct c as [r w g]. cbn in *. subst. by apply literal_ascii.
  - unfold escape_chunk. rewrite Eg. cbn [negb]. rewrite (proj2 (N.ltb_ge _ _)) by lia.
    destruct (_ || _) eqn:E; [|by apply literal_high]. apply literal_u.
    apply orb_true_iff in E as [E%N.eqb_eq|E%N.eqb_eq]; lia.
Qed.

(* ------------------------------------------------------------------ *)
(** ** Numbers *)

(** [s] is a run of number characters followed by [r]. *)
Definition runs_to (s r : string) : Prop := exists w, s = w ++ r /\ string_forallb is_num_char w = true.

Lemma runs_refl s : runs_to s s.
Proof. by exists "". Qed.
Lemma runs_trans a b c : runs_to a b -> runs_to b c -> runs_to a c.
Proof.
  intros (v & -> & Hv) (w & -> & Hw). exists (v ++ w).
  by rewrite string_app_assoc, string_forallb_app, Hv, Hw.
Qed.
Lemma runs_cons a s r : is_num_char a = true -> runs_to s r -> runs_to (String a s) r.
Proof. intros Ha (w & -> & Hw). exists (String a w). split; [done|]. cbn. by rewrite Ha. Qed.
Lemma digit_num_char a : is_digit a = true -> is_num_char a = true.
Proof. unfold is_num_char. by intros ->. Qed.

Lemma runs_digits s : runs_to s (digits_tail s).
Proof.
  unfold digits_tail. induction s as [|a s IH]; cbn; [apply runs_refl|].
  destruct (is_digit a) eqn:E; cbn; [|apply runs_refl]. destruct (span is_digit s) eqn:Es. cbn in *.
  apply runs_cons; [by apply digit_num_char | done].
Qed.
Lemma runs_some_digits s r : some_digits s = Some r -> runs_to s r.
Proof.
  destruct s as [|a s]; cbn; [done|]. destruct (is_digit a) eqn:E; intros [= <-].
  apply runs_cons; [by apply digit_num_char | apply runs_digits].
Qed.
Lemma runs_drop set s : forallb is_num_char set = true -> runs_to s (drop_byte set s).
Proof.
  intros Hset. destruct s as [|a s]; cbn; [apply runs_refl|]. destruct (existsb _ _) eqn:E; [|apply runs_refl].
  apply runs_cons; [|apply runs_refl]. apply existsb_exists in E as (b & Hb & ->%Ascii.eqb_eq).
  rewrite forallb_forall in Hset. auto.
Qed.

Lemma valid_number_chars lit : valid_number lit = true -> string_forallb is_num_char lit = true.
Proof.
  intros H. assert (runs_to lit "") as (w & -> & Hw); [|by rewrite string_app_nil].
  unfold valid_number in H. destruct (number_whole lit) as [r1|] eqn:E1; [|done]. cbn in H.
  destruct (number_fraction r1) as [r2|] eqn:E2; [|done]. cbn in H.
  destruct (number_exponent r2) as [r3|] eqn:E3; [|done]. destruct r3; [|done]. clear H.
  eapply runs_trans; [apply (runs_drop ["-"%char]); done|]. unfold number_whole in E1.
  eapply (runs_trans _ r1).
  { destruct (drop_byte _ lit) as [|a s]; [done|]. destruct (Ascii.eqb_spec a "0") as [->|].
    - injection E1 as <-. apply runs_cons; [done | apply runs_refl].
    - by apply runs_some_digits. }
  eapply (runs_trans _ r2).
  { destruct r1 as [|a s]; cbn in E2; [injection E2 as <-; apply runs_refl|].
    destruct (Ascii.eqb_spec a ".") as [->|]; [|injection E2 as <-; apply runs_refl].
    apply runs_cons; [done | by apply runs_some_digits]. }
  destruct r2 as [|a s]; cbn in E3; [apply runs_refl|].
  destruct (_ || _) eqn:E; [|done]. apply runs_cons.
  { apply orb_true_iff in E as [->%Ascii.eqb_eq|E]; [done|]. by rewrite orb_false_r in E; apply Ascii.eqb_eq in E as ->. }
  eapply runs_trans; [apply (runs_drop ["+"; "-"]%char); done | by apply runs_some_digits].
Qed.

(** A decimal integer is a valid number. *)
Lemma span_digits_uint d : span is_digit (NilEmpty.string_of_uint d) = (NilEmpty.string_of_uint d, "").
Proof. induction d as [|d IH|d IH|d IH|d IH|d IH|d IH|d IH|d IH|d IH|d IH]; cbn; [done|..]; by rewrite IH. Qed.

Lemma number_uint d : Decimal.unorm d = d ->
  (r ← match NilZero.string_of_uint d with
       | String a s => if Ascii.eqb a "0" then Some s else some_digits (String a s)
       | "" => None end;
   r ← number_fraction r; number_exponent r) = Some "".
Proof.
  intros H. destruct d as [|d|d|d|d|d|d|d|d|d|d];
    try (cbn; unfold digits_tail; rewrite span_digits_uint; done); try done.
  unfold Decimal.unorm in H. change (Decimal.nzhead (Decimal.D0 d)) with (Decimal.nzhead d) in H.
  destruct (Decimal.nzhead d) eqn:E; try done; [by injection H as <-|].
  by apply DecimalFacts.nzhead_nonzero in E.
Qed.

Lemma uint_unorm n : Decimal.unorm (N.to_uint n) = N.to_uint n.
Proof. rewrite <- DecimalN.Unsigned.to_of. by rewrite DecimalN.Unsigned.of_to. Qed.

Lemma print_Z_valid z : valid_number (print_Z z) = true.
Proof.
  unfold valid_number, print_Z.
  assert (forall p, number_whole (NilZero.string_of_uint (Pos.to_uint p)) =
    match NilZero.string_of_uint (Pos.to_uint p) with
    | String a s => if Ascii.eqb a "0" then Some s else some_digits (String a s)
    | "" => None end) as Hw.
  { intros p. unfold number_whole, drop_byte.
    destruct (Pos.to_uint p) eqn:E; try done. }
  destruct z as [|p|p]; [done| |]; cbn [Z.to_int NilZero.string_of_int].
  - rewrite Hw. by rewrite (number_uint (Pos.to_uint p) (uint_unorm (Npos p))).
  - unfold number_whole. cbn [drop_byte existsb]. rewrite Ascii.eqb_refl. cbn [orb].
    by rewrite (number_uint (Pos.to_uint p) (uint_unorm (Npos p))).
Qed.

(* ------------------------------------------------------------------ *)
(** ** Documents read back *)

(** Documents whose literals are well formed. *)
Fixpoint doc_ok (d : doc) : Prop :=
  match d with
  | DLit t => word_literal t = true \/ valid_number t = true
  | DStr b => literal_text b
  | DArr l => foldr (fun x P => doc_ok x /\ P) True l
  | DObj l => foldr (fun m P => literal_text (fst m) /\ doc_ok (snd m) /\ P) True l
  end.

Definition items_ok (l : list doc) : Prop := foldr (fun x P => doc_ok x /\ P) True l.
Definition members_ok (l : list (string * doc)) : Prop :=
  foldr (fun m P => literal_text (fst m) /\ doc_ok (snd m) /\ P) True l.

Fixpoint dsize (d : doc) : nat :=
  match d with
  | DArr l => S (foldr (fun x n => S (dsize x + n)) 0 l)%nat
  | DObj l => S (foldr (fun m n => S (dsize (snd m) + n)) 0 l)%nat
  | _ => 1%nat
  end.
Definition ditems_size (l : list doc) : nat := foldr (fun x n => S (dsize x + n)) 0%nat l.
Definition dmembers_size (l : list (string * doc)) : nat :=
  foldr (fun m n => S (dsize (snd m) + n)) 0%nat l.

Lemma doc_rect2 (P : doc -> Prop) :
  (forall t, P (DLit t)) -> (forall b, P (DStr b)) ->
  (forall l, Forall P l -> P (DArr l)) -> (forall l, Forall (fun m => P (snd m)) l -> P (DObj l)) ->
  forall d, P d.
Proof.
  intros Hl Hs Ha Ho. fix IH 1. intros [t|b|l|l]; [apply Hl | apply Hs | apply Ha | apply Ho].
  - induction l; constructor; [apply IH | done].
  - induction l as [|[k d] l IHl]; constructor; [apply IH | done].
Qed.

Lemma number_head t : valid_number t = true -> exists a s, t = String a s /\ is_num_char a = true.
Proof.
  intros H. pose proof (valid_number_chars _ H) as Hc. destruct t as [|a s]; [done|].
  cbn in Hc. apply andb_true_iff in Hc as [Hc _]. eauto.
Qed.

Lemma write_start d : doc_ok d -> exists a s, write d = String a s /\ value_start a = true.
Proof.
  destruct d as [t|b|l|l]; cbn; try (by eexists _, _). intros [H|H].
  - unfold word_literal in H. rewrite !orb_true_iff, !String.eqb_eq in H.
    destruct H as [[->| ->]| ->]; by eexists _, _.
  - apply number_head in H as (a & s & -> & Ha). exists a, s. apply num_char_start in Ha. by bool_split.
Qed.

Lemma read_number t r : valid_number t = true -> delimited r = true -> forall n,
  read_value (S n) (t ++ r) = Some (DLit t, r).
Proof.
  intros H Hr n. pose proof (number_head _ H) as (a & s & Et & Ha). pose proof (valid_number_chars _ H) as Hc.
  assert (span is_num_char (t ++ r) = (t, r)) as Hs.
  { apply span_app; [done|]. destruct r; [done|]. cbn in Hr. by apply negb_true_iff in Hr. }
  rewrite Et in *. cbn [append] in *. apply num_char_start in Ha.
  rewrite !andb_true_iff, !negb_true_iff in Ha.
  destruct Ha as ((((((Hv & Hq) & Hb) & Hc') & Ht) & Hf) & Hnl).
  cbn [read_value]. rewrite skip_ws_start by done. rewrite Hb, Hc'. unfold read_scalar.
  rewrite Hq, Ht, Hf, Hnl, Hs. by rewrite H.
Qed.

Lemma read_word t r n : word_literal t = true -> read_value (S n) (t ++ r) = Some (DLit t, r).
Proof.
  unfold word_literal. rewrite !orb_true_iff, !String.eqb_eq. by intros [[->| ->]| ->].
Qed.

Lemma read_value_open n a s : value_start a = true ->
  read_value (S n) (String "[" (String a s)) =
    ('(l, r) ← read_items n (String a s); Some (DArr l, r)).
Proof.
  intros Ha. cbn [read_value]. change (skip_ws (String "[" (String a s))) with (String "[" (String a s)).
  cbn iota beta. rewrite skip_ws_start by done. unfold value_start in Ha.
  rewrite !andb_true_iff, !negb_true_iff in Ha. destruct Ha as ((_ & Hb) & _). by rewrite Hb.
Qed.

Lemma read_value_brace n s :
  read_value (S n) (String "{" (String quote s)) =
    ('(l, r) ← read_members n (String quote s); Some (DObj l, r)).
Proof. done. Qed.

Lemma read_items_step n s x r :
  read_value n s = Some (x, r) ->
  read_items (S n) s =
    match skip_ws r with
    | String c r' =>
        if Ascii.eqb c "]" then Some ([x], r')
        else if Ascii.eqb c "," then '(l, r'') ← read_items n r'; Some (x :: l, r'')
        else None
    | "" => None
    end.
Proof. intros H. cbn [read_items]. by rewrite H. Qed.

Lemma read_members_step n k x s r : literal_text k ->
  read_value n s = Some (x, r) ->
  read_members (S n) (in_quotes k ++ ":" ++ s) =
    match skip_ws r with
    | String c r' =>
        if Ascii.eqb c "}" then Some ([(k, x)], r')
        else if Ascii.eqb c "," then '(l, r'') ← read_members n r'; Some ((k, x) :: l, r'')
        else None
    | "" => None
    end.
Proof.
  intros Hk H. unfold in_quotes. cbn [append]. rewrite string_app_assoc. unfold str1. cbn [append].
  cbn [read_members]. change (skip_ws (String quote ?t)) with (String quote t).
  change (Ascii.eqb quote quote) with true. cbn iota beta. rewrite literal_close by done.
  cbn [mbind option_bind]. change (skip_ws (String ":" s)) with (String ":" s).
  change (Ascii.eqb ":" ":") with true. cbn iota beta. by rewrite H.
Qed.

Lemma read_write_mutual n :
  (forall d r, (dsize d <= n)%nat -> doc_ok d -> delimited r = true ->
     read_value n (write d ++ r) = Some (d, r)) /\
  (forall l r, l <> [] -> (ditems_size l <= n)%nat -> items_ok l ->
     read_items n (write_items l ++ String "]" r) = Some (l, r)) /\
  (forall l r, l <> [] -> (dmembers_size l <= n)%nat -> members_ok l ->
     read_members n (write_members l ++ String "}" r) = Some (l, r)).
Proof.
  induction n as [|n (IHv & IHi & IHm)].
  { split_and!.
    - intros []; cbn; intros; lia.
    - intros [|[] l]; cbn; intros; (done || lia).
    - intros [|[k []] l]; cbn; intros; (done || lia). }
  split_and!.
  - intros d r Hn Hok Hr. destruct d as [t|b|l|l].
    + destruct Hok as [H|H]; [by apply read_word | by apply read_number].
    + cbn [write]. unfold in_quotes, str1. cbn [append]. rewrite string_app_assoc. cbn [append].
      change (read_value (S n) (String quote (b ++ String quote r))) with
        ('(b, r) ← scan_body (b ++ String quote r); Some (DStr b, r)).
      by rewrite literal_close.
    + rewrite write_arr. destruct l as [|d l]; [done|].
      cbn [append]. rewrite string_app_assoc. cbn [append].
      assert (exists a t, write_items (d :: l) ++ String "]" r = String a t /\ value_start a = true)
        as (a & t & E & Ha).
      { destruct (write_start d) as (a & t & E & Ha); [apply Hok|].
        destruct l; cbn [write_items]; rewrite E; by eexists _, _. }
      rewrite E, read_value_open, <- E, IHi; [done..| |done|done]. cbn in Hn |- *. lia.
    + rewrite write_obj. destruct l as [|[k d] l]; [done|].
      cbn [append]. rewrite string_app_assoc. cbn [append].
      assert (exists t, write_members ((k, d) :: l) ++ String "}" r = String quote t) as (t & E)
        by (destruct l; by eexists _).
      rewrite E, read_value_brace, <- E, IHm; [done..| |done]. cbn in Hn |- *. lia.
  - intros l r Hl Hn Hok. destruct l as [|d l]; [done|]. destruct Hok as [Hd Hok]. cbn in Hn.
    fold (ditems_size l) in Hn. destruct l as [|d' l].
    + cbn [write_items]. by erewrite read_items_step by (apply IHv; [lia|done..]).
    + change (write_items (d :: d' :: l)) with (write d ++ "," ++ write_items (d' :: l)).
      rewrite !string_app_assoc. erewrite read_items_step by (apply IHv; [lia|done..]).
      cbn [append skip_ws]. change (is_ws ",") with false. cbn -[write_items read_items].
      rewrite IHi by (done || lia). done.
  - intros l r Hl Hn Hok. destruct l as [|[k d] l]; [done|]. destruct Hok as (Hk & Hd & Hok). cbn in Hn, Hk, Hd.
    fold (dmembers_size l) in Hn.
    destruct l as [|[k' d'] l].
    + cbn [write_members]. rewrite !string_app_assoc.
      by erewrite read_members_step by (done || (apply IHv; [lia|done..])).
    + change (write_members ((k, d) :: (k', d') :: l)) with
        (in_quotes k ++ ":" ++ write d ++ "," ++ write_members ((k', d') :: l)).
      rewrite !string_app_assoc.
      erewrite read_members_step by (done || (apply IHv; [lia|done..])).
      cbn [append skip_ws]. change (is_ws ",") with false. cbn -[write_members read_members].
      rewrite IHm by (done || lia). done.
Qed.

Lemma write_items_cons d l : write_items (d :: l) =
  match l with [] => write d | _ => write d ++ "," ++ write_items l end.
Proof. by destruct l. Qed.

Lemma write_members_cons k d l : write_members ((k, d) :: l) =
  match l with
  | [] => in_quotes k ++ ":" ++ write d
  | _ => in_quotes k ++ ":" ++ write d ++ "," ++ write_members l
  end.
Proof. by destruct l as [|[]]. Qed.

Lemma dsize_write n :
  (forall d, (dsize d <= n)%nat -> doc_ok d -> (dsize d <= String.length (write d))%nat) /\
  (forall l, (ditems_size l <= n)%nat -> items_ok l -> (ditems_size l <= S (String.length (write_items l)))%nat) /\
  (forall l, (dmembers_size l <= n)%nat -> members_ok l -> (dmembers_size l <= S (String.length (write_members l)))%nat).
Proof.
  induction n as [|n (IHv & IHi & IHm)].
  { split_and!; [intros []|intros [|[] l]|intros [|[k []] l]]; cbn; lia. }
  split_and!.
  - intros d Hn Hok. destruct d as [t|b|l|l]; [|cbn; lia|..].
    + destruct (write_start _ Hok) as (a & s & E & _). rewrite E. cbn. lia.
    + rewrite write_arr. cbn in Hn. specialize (IHi l). unfold ditems_size in *.
      rewrite !slen_app. specialize (IHi ltac:(lia) Hok). cbn -[write_items]. lia.
    + rewrite write_obj. cbn in Hn. specialize (IHm l). unfold dmembers_size in *.
      rewrite !slen_app. specialize (IHm ltac:(lia) Hok). cbn -[write_members]. lia.
  - intros [|d l] Hn Hok; [cbn; lia|]. destruct Hok as [Hd Hok]. rewrite write_items_cons. cbn in Hn |- *.
    fold (ditems_size l) in *. specialize (IHv d ltac:(lia) Hd). specialize (IHi l ltac:(lia) Hok).
    destruct l; [cbn -[write] in *; lia|]. rewrite ?slen_app.
    cbn -[write_items ditems_size write] in *. lia.
  - intros [|[k d] l] Hn Hok; [cbn; lia|]. destruct Hok as (Hk & Hd & Hok). rewrite write_members_cons.
    cbn -[in_quotes append] in Hn, Hd |- *.
    fold (dmembers_size l) in *. specialize (IHv d ltac:(lia) Hd). specialize (IHm l ltac:(lia) Hok).
    destruct l; rewrite ?slen_app; [cbn -[write in_quotes] in *; lia|].
    cbn -[write_members dmembers_size write in_quotes] in *. lia.
Qed.

(** A written document reads back. *)
Theorem read_write d : doc_ok d -> read (write d) = Some d.
Proof.
  intros Hok. unfold read.
  pose proof (proj1 (dsize_write (dsize d)) d (le_n _) Hok) as Hs.
  destruct (read_write_mutual (S (String.length (write d)))) as (Hv & _ & _).
  specialize (Hv d "" ltac:(lia) Hok eq_refl). rewrite string_app_nil in Hv. by rewrite Hv.
Qed.

(** What the scanner reads is well formed. *)
Lemma read_scalar_ok s d r : read_scalar s = Some (d, r) -> doc_ok d.
Proof.
  unfold read_scalar, word. destruct s as [|a s]; [done|]. intros H.
  destruct (Ascii.eqb a quote).
  { destruct (scan_body s) as [[b t]|] eqn:E; [|done]. injection H as <- <-. by apply scan_body_literal in E as [? _]. }
  destruct (Ascii.eqb a "t"); [destruct (strip_prefix _ _); [injection H as <- <-; by left | done]|].
  destruct (Ascii.eqb a "f"); [destruct (strip_prefix _ _); [injection H as <- <-; by left | done]|].
  destruct (Ascii.eqb a "n"); [destruct (strip_prefix _ _); [injection H as <- <-; by left | done]|].
  destruct (span _ _) as [lit t]. destruct (valid_number lit) eqn:E; [|done]. injection H as <- <-. by right.
Qed.

Lemma read_ok_mutual n :
  (forall s d r, read_value n s = Some (d, r) -> doc_ok d) /\
  (forall s l r, read_items n s = Some (l, r) -> items_ok l) /\
  (forall s l r, read_members n s = Some (l, r) -> members_ok l).
Proof.
  induction n as [|n (IHv & IHi & IHm)]; [done|]. split_and!.
  - intros s d r H. cbn [read_value] in H. destruct (skip_ws s) as [|a s1]; [done|].
    destruct (Ascii.eqb a "["); [|destruct (Ascii.eqb a "{")].
    + destruct (skip_ws s1) as [|b s2]; [done|]. destruct (Ascii.eqb b "]"); [by injection H as <- <-|].
      destruct (read_items n s1) as [[l t]|] eqn:E; [|done]. injection H as <- <-. by apply IHi in E.
    + destruct (skip_ws s1) as [|b s2]; [done|]. destruct (Ascii.eqb b "}"); [by injection H as <- <-|].
      destruct (read_members n s1) as [[l t]|] eqn:E; [|done]. injection H as <- <-. by apply IHm in E.
    + by apply read_scalar_ok in H.
  - intros s l r H. cbn [read_items] in H. destruct (read_value n s) as [[x t]|] eqn:E; [|done]. cbn in H.
    apply IHv in E. destruct (skip_ws t) as [|c t']; [done|].
    destruct (Ascii.eqb c "]"); [by injection H as <- <-|]. destruct (Ascii.eqb c ","); [|done].
    destruct (read_items n t') as [[l' t'']|] eqn:E'; [|done]. injection H as <- <-. apply IHi in E'. done.
  - intros s l r H. cbn [read_members] in H. destruct (skip_ws s) as [|q s1]; [done|].
    destruct (Ascii.eqb q quote); [|done]. destruct (scan_body s1) as [[k t]|] eqn:Ek; [|done]. cbn in H.
    apply scan_body_literal in Ek as [Hk _]. destruct (skip_ws t) as [|c r1]; [done|].
    destruct (Ascii.eqb c ":"); [|done]. destruct (read_value n r1) as [[x r2]|] eqn:E; [|done]. cbn in H.
    apply IHv in E. destruct (skip_ws r2) as [|c2 r3]; [done|].
    destruct (Ascii.eqb c2 "}"); [by injection H as <- <-|]. destruct (Ascii.eqb c2 ","); [|done].
    destruct (read_members n r3) as [[l' r4]|] eqn:E'; [|done]. injection H as <- <-. apply IHm in E'. done.
Qed.

Lemma read_ok s d : read s = Some d -> doc_ok d.
Proof.
  unfold read. destruct (read_value _ _) as [[d' r]|] eqn:E; [|done]. cbn. intros H.
  destruct (is_empty _); [|done]. injection H as <-. by apply read_ok_mutual in E.
Qed.

(* ------------------------------------------------------------------ *)
(** ** Compaction is idempotent *)

Definition html_keeps (a : ascii) : bool := negb (existsb (N.eqb (byte_of a)) [60; 62; 38; 226]%N).

Lemma html_keep a s : html_keeps a = true -> html_body (String a s) = String a (html_body s).
Proof.
  unfold html_keeps. cbn [existsb]. intros H. apply negb_true_iff in H. rewrite !orb_false_iff in H.
  destruct H as (H1 & H2 & H3 & H4 & _). cbn -[byte_of u_escape]. rewrite H1, H2, H3, H4. cbn.
  destruct s as [|b [|c s]]; done.
Qed.

Lemma html_keep_app w s : string_forallb html_keeps w = true -> html_body (w ++ s) = w ++ html_body s.
Proof.
  induction w as [|a w IH]; intros H; [done|]. cbn in H. apply andb_true_iff in H as [Ha H].
  cbn [append]. by rewrite html_keep, IH.
Qed.

Lemma hex_digit_keeps n : (n < 16)%N -> html_keeps (hex_digit n) = true.
Proof.
  intros Hn. assert (forallb (fun k => html_keeps (hex_digit (N.of_nat k))) (seq 0 16) = true) as H
    by (vm_compute; reflexivity).
  rewrite forallb_forall in H. specialize (H (N.to_nat n)). rewrite in_seq, N2Nat.id in H. apply H. lia.
Qed.

Lemma u_escape_keeps n : (n < 65536)%N -> string_forallb html_keeps (u_escape n) = true.
Proof.
  intros Hn. unfold u_escape, str2, str1. cbn [string_forallb]. rewrite !hex_digit_keeps; [done|..];
    try (apply N.mod_lt; done). apply N.Div0.div_lt_upper_bound. lia.
Qed.

Lemma every_byte (f : N -> bool) :
  forallb (fun k => f (N.of_nat k)) (seq 0 256) = true -> forall a, f (byte_of a) = true.
Proof.
  rewrite forallb_forall. intros H a. specialize (H (N.to_nat (byte_of a))).
  rewrite in_seq, N2Nat.id in H. apply H. pose proof (byte_bound a). lia.
Qed.

Lemma separator_low c : (N.land (byte_of c) 254 =? 168)%N = true ->
  (128 <= byte_of c)%N /\ (N.land (byte_of c) 63 < 64)%N.
Proof.
  intros H. pose proof (every_byte (fun n => implb (N.land n 254 =? 168)%N ((128 <=? n)%N && (N.land n 63 <? 64)%N))) as Hb.
  specialize (Hb ltac:(vm_compute; reflexivity) c). cbn beta in Hb. rewrite H in Hb. cbn [implb] in Hb.
  apply andb_true_iff in Hb as [H1%N.leb_le H2%N.ltb_lt]. done.
Qed.

Lemma html_body_cons a s : existsb (N.eqb (byte_of a)) [60; 62; 38]%N = false ->
  html_body (String a s) =
    match s with
    | String b (String c s3) =>
        if (byte_of a =? 226)%N && (byte_of b =? 128)%N && (N.land (byte_of c) 254 =? 168)%N
        then u_escape (8192 + N.land (byte_of c) 63) ++ html_body s3
        else String a (html_body s)
    | _ => String a (html_body s)
    end.
Proof.
  intros E. change (html_body (String a s)) with
    (if existsb (N.eqb (byte_of a)) [60; 62; 38]%N then u_escape (byte_of a) ++ html_body s
     else match s with
       | String b (String c s3) =>
           if (byte_of a =? 226)%N && (byte_of b =? 128)%N && (N.land (byte_of c) 254 =? 168)%N
           then u_escape (8192 + N.land (byte_of c) 63) ++ html_body s3
           else String a (html_body s)
       | _ => String a (html_body s)
       end). by rewrite E.
Qed.

(** The three ways [html_body] goes on. *)
Variant html_case : string -> string -> Prop :=
  | html_escape w s n : (n < 65536)%N -> string_forallb (fun a => plain_byte a) w = true ->
      w <> "" -> html_case (w ++ s) (u_escape n ++ html_body s)
  | html_plain a s : (byte_of a = 226%N -> match s with
        | String b (String c _) => (byte_of b =? 128)%N && (N.land (byte_of c) 254 =? 168)%N = false
        | _ => True end) ->
      existsb (N.eqb (byte_of a)) [60; 62; 38]%N = false -> html_case (String a s) (String a (html_body s))
  | html_end : html_case "" "".

Lemma html_body_case s : html_case s (html_body s).
Proof.
  destruct s as [|a s]; [constructor|]. destruct (existsb (N.eqb (byte_of a)) [60; 62; 38]%N) eqn:E.
  - assert (html_body (String a s) = u_escape (byte_of a) ++ html_body s) as -> by (cbn [html_body]; by rewrite E).
    apply (html_escape (str1 a)); [pose proof (byte_bound a); lia| |done].
    cbn [existsb] in E. rewrite !orb_true_iff, !N.eqb_eq in E. cbn. rewrite andb_true_r. unfold plain_byte.
    assert (32 <= byte_of a)%N by (destruct E as [E|[E|[E|E]]]; [lia..|done]).
    rewrite (proj2 (N.leb_le _ _)) by done. rewrite andb_true_r.
    apply andb_true_iff. rewrite !negb_true_iff, !Ascii.eqb_neq.
    split; intros ->; vm_compute in E; destruct E as [E|[E|[E|E]]]; done.
  - rewrite html_body_cons by done. destruct s as [|b [|c s]]; [by constructor..|].
    destruct ((byte_of a =? 226)%N && (byte_of b =? 128)%N && (N.land (byte_of c) 254 =? 168)%N) eqn:Ep.
    + bool_split. pose proof (separator_low c) as Hc. destruct Hc as [Hc Hl]; [done|].
      repeat match goal with H : (_ =? _)%N = true |- _ => apply N.eqb_eq in H end.
      apply (html_escape (str3 a b c)); [lia|..|done].
      * assert (forall x, (128 <= byte_of x)%N -> plain_byte x = true) as Hp.
        { intros x Hx. unfold plain_byte. rewrite (proj2 (N.leb_le 32 _)) by lia. rewrite andb_true_r.
          apply andb_true_iff. rewrite !negb_true_iff, !Ascii.eqb_neq. split; intros ->; vm_compute in Hx; done. }
        cbn. rewrite !Hp by lia. done.
    + constructor; [|done]. intros Ha. rewrite Ha in Ep. cbn in Ep. done.
Qed.

Lemma string_length_ind (P : string -> Prop) :
  (forall s, (forall t, (String.length t < String.length s)%nat -> P t) -> P s) -> forall s, P s.
Proof.
  intros H s. enough (forall n s, (String.length s <= n)%nat -> P s) by eauto. clear s.
  induction n as [|n IH]; intros s Hn; apply H; intros t Ht; [lia|]. apply IH. lia.
Qed.

Lemma html_body_idem s : html_body (html_body s) = html_body s.
Proof.
  induction s as [s IH] using string_length_ind. destruct (html_body_case s) as [w s n Hn _ Hw|a s Hp E|]; [..|done].
  - rewrite html_keep_app by by apply u_escape_keeps. f_equal. apply IH. rewrite slen_app. destruct w; [done|cbn; lia].
  - rewrite html_body_cons by done.
    assert (html_body (html_body s) = html_body s) as Hs by (apply IH; cbn; lia).
    destruct (html_body s) as [|b [|c t]] eqn:Es; [done|by rewrite Hs|].
    destruct (_ && _) eqn:Ep; [|by rewrite Hs]. exfalso. bool_split.
    repeat match goal with H : (_ =? _)%N = true |- _ => apply N.eqb_eq in H end.
    match goal with H : byte_of a = _ |- _ => specialize (Hp H) end.
    destruct (html_body_case s) as [w s n Hn _ Hw|b' s _ E'|]; [|injection Es as -> Es|done].
    + injection Es as <- Es. done.
    + destruct (html_body_case s) as [w s n _ _ _|c' s _ _|]; [|injection Es as -> Es|done].
      * injection Es as <- Es. done.
      * rewrite (proj2 (N.eqb_eq (byte_of b) 128)) in Hp by done.
        match goal with H : N.land _ _ = _ |- _ => rewrite H in Hp end. done.
Qed.

Lemma literal_strip w s : string_forallb (fun a => plain_byte a) w = true -> literal_text (w ++ s) -> literal_text s.
Proof.
  induction w as [|a w IH]; [done|]. cbn. rewrite andb_true_iff. intros [Ha Hw] H. apply IH; [done|].
  inversion H; subst; [done|..]; done.
Qed.

Lemma hex_value_keeps a : is_none (hex_value a) = false -> html_keeps a = true.
Proof. by destruct a as [[] [] [] [] [] [] [] []]. Qed.

Lemma html_literal b : literal_text b -> literal_text (html_body b).
Proof.
  induction b as [b IH] using string_length_ind. intros Hb. inversion Hb as [|a b' Ha Hb'|x b' Hu Hx Hb'|h1 h2 h3 h4 b' Hh Hb']; subst.
  - constructor.
  - remember (String a b') as s0 eqn:E0. destruct (html_body_case s0) as [w s n Hn Hp Hw|a' s _ _|]; [..|done].
    + apply literal_app; [by apply literal_u|]. apply IH; [rewrite slen_app; destruct w; [done|cbn; lia]|].
      by eapply literal_strip.
    + injection E0 as -> ->. apply literal_byte; [done|]. apply IH; [cbn; lia | done].
  - assert (html_keeps x = true) as Hk.
    { unfold short_unescape in Hx. revert Hx. clear. by destruct x as [[] [] [] [] [] [] [] []]. }
    rewrite !html_keep by done. apply literal_escaped; [done..|]. apply IH; [cbn; lia | done].
  - assert (html_keeps h1 = true /\ html_keeps h2 = true /\ html_keeps h3 = true /\ html_keeps h4 = true) as (H1 & H2 & H3 & H4).
    { unfold hex4 in Hh. repeat match goal with |- _ /\ _ => split end; apply hex_value_keeps.
      - by destruct (hex_value h1).
      - destruct (hex_value h1); [|done]. by destruct (hex_value h2).
      - destruct (hex_value h1); [|done]. cbn in Hh. destruct (hex_value h2); [|done]. by destruct (hex_value h3).
      - destruct (hex_value h1); [|done]. cbn in Hh. destruct (hex_value h2); [|done]. cbn in Hh.
        destruct (hex_value h3); [|done]. by destruct (hex_value h4). }
    rewrite !html_keep by done. apply literal_coded; [done|]. apply IH; [cbn; lia | done].
Qed.

Lemma html_ok d : doc_ok d -> doc_ok (html d).
Proof.
  induction d as [t|b|l IH|l IH] using doc_rect2; cbn; [done|apply html_literal|..].
  - induction IH as [|d l Hd _ IHl]; cbn; [done|]. intros [? ?]. auto.
  - induction IH as [|[k d] l Hd _ IHl]; cbn; [done|]. intros (? & ? & ?). split_and!; auto using html_literal.
Qed.

Lemma html_idem d : html (html d) = html d.
Proof.
  induction d as [t|b|l IH|l IH] using doc_rect2; cbn; [done|by rewrite html_body_idem|..].
  - f_equal. rewrite <- list_fmap_compose. apply list_fmap_ext. intros i x Hx. cbn.
    rewrite Forall_lookup in IH. by eapply IH.
  - f_equal. rewrite <- list_fmap_compose. apply list_fmap_ext. intros i [k x] Hx. cbn.
    rewrite Forall_lookup in IH. rewrite html_body_idem. f_equal. by eapply (IH _ (k, x)).
Qed.

(* ------------------------------------------------------------------ *)
(** ** Strings *)

Lemma coerce_is_valid s : valid_string (coerce_utf8 s) = true.
Proof.
  unfold coerce_utf8. pose proof (chunk_raw_valid s) as H. induction (runes s) as [|c l IH]; [done|].
  apply Forall_cons in H as [Hc H]. cbn. apply valid_string_app; [|auto].
  destruct (good c); [auto | done].
Qed.

Lemma text_of_valid b : valid_string (text_of b) = true.
Proof. unfold text_of. destruct (unquote _) as [[x r]|]; [apply coerce_is_valid | done]. Qed.

Lemma text_of_escape s : valid_string s = true -> text_of (escape s) = s.
Proof.
  intros H. unfold text_of. change (str1 quote) with (String quote ""). rewrite unquote_quoted by done.
  by apply coerce_valid.
Qed.

(* ------------------------------------------------------------------ *)
(** ** Maps with sorted keys *)

Definition keys_sorted {A} (m : list (string * A)) : Prop :=
  StronglySorted (fun x y => string_less (fst x) (fst y) = true) m.

Lemma set_member_keys {A} (P : string -> Prop) k (v : A) m :
  P k -> Forall (fun kv => P (fst kv)) m -> Forall (fun kv => P (fst kv)) (set_member k v m).
Proof.
  intros Hk H. induction H as [|[k' v'] m Hk' H IH]; cbn; [by repeat constructor|].
  destruct (String.eqb k k'); [by constructor|]. destruct (string_less k k'); constructor; cbn; auto.
Qed.

Lemma set_member_values {A} (P : A -> Prop) k (v : A) m :
  P v -> Forall (fun kv => P (snd kv)) m -> Forall (fun kv => P (snd kv)) (set_member k v m).
Proof.
  intros Hk H. induction H as [|[k' v'] m Hk' H IH]; cbn; [by repeat constructor|].
  destruct (String.eqb k k'); [by constructor|]. destruct (string_less k k'); constructor; cbn; auto.
Qed.

Lemma set_member_sorted {A} k (v : A) m : keys_sorted m -> keys_sorted (set_member k v m).
Proof.
  unfold keys_sorted. induction 1 as [|[k' v'] m Hs IH Hf]; cbn; [by repeat constructor|].
  destruct (String.eqb_spec k k') as [->|Hne]; [by constructor|].
  destruct (string_less k k') eqn:E.
  - constructor; [by constructor|]. constructor; [done|]. eapply Forall_impl; [exact Hf|].
    intros [k2 v2]. cbn. intros H2. exact (less_trans _ strict_total_string _ _ _ E H2).
  - constructor; [done|]. apply (set_member_keys (fun x => string_less k' x = true)); [|done].
    destruct (string_less k' k) eqn:E'; [done|]. by destruct (less_total _ strict_total_string _ _ E E').
Qed.

Lemma fold_members {A} (P : list (string * A) -> Prop) l m :
  P m -> (forall k v m, (k, v) ∈ l -> P m -> P (set_member k v m)) ->
  P (fold_left (fun m kv => set_member (fst kv) (snd kv) m) l m).
Proof.
  revert m. induction l as [|[k v] l IH]; intros m Hm Hs; [done|]. cbn. apply IH.
  - apply Hs; [by left | done].
  - intros k' v' m' Hin. apply Hs. by right.
Qed.

Lemma set_member_last {A} k (v : A) m :
  Forall (fun kv => string_less (fst kv) k = true) m -> set_member k v m = (m ++ [(k, v)])%list.
Proof.
  induction 1 as [|[k' v'] m Hk H IH]; [done|]. cbn in *.
  destruct (String.eqb_spec k k') as [->|]; [by rewrite (less_irrefl _ strict_total_string) in Hk|].
  destruct (string_less k k') eqn:E; [|by rewrite IH].
  pose proof (less_trans _ strict_total_string _ _ _ Hk E) as Hc. by rewrite (less_irrefl _ strict_total_string) in Hc.
Qed.

Lemma members_of_sorted {A} (m : list (string * A)) : keys_sorted m -> members_of m = m.
Proof.
  unfold members_of. intros H.
  enough (forall p, keys_sorted (p ++ m) -> fold_left (fun m kv => set_member (fst kv) (snd kv) m) m p = (p ++ m)%list)
    as Hp by (by apply (Hp [])).
  clear H. induction m as [|[k v] m IH]; intros p Hp; cbn; [by rewrite List.app_nil_r|].
  rewrite set_member_last.
  - rewrite IH by (by rewrite <- app_assoc). by rewrite <- app_assoc.
  - clear IH. unfold keys_sorted in Hp. induction p as [|x p IH]; [constructor|].
    inversion Hp as [|? ? Hs Hf]; subst. constructor; [|auto].
    rewrite Forall_app in Hf. destruct Hf as [_ Hf]. by inversion Hf.
Qed.

(* ------------------------------------------------------------------ *)
(** ** Values read back *)

(** A value as the decoder makes it: valid UTF-8, valid numbers, sorted
    keys. *)
Fixpoint value_ok (v : value) : Prop :=
  match v with
  | VNumber lit => valid_number lit = true
  | VString s => valid_string s = true
  | VArray l => foldr (fun x P => value_ok x /\ P) True l
  | VObject m => keys_sorted m /\ foldr (fun kv P => valid_string (fst kv) = true /\ value_ok (snd kv) /\ P) True m
  | _ => True
  end.

Definition values_ok (m : list (string * value)) : Prop :=
  Forall (fun kv => valid_string (fst kv) = true) m /\ Forall (fun kv => value_ok (snd kv)) m.

Lemma values_ok_foldr m :
  foldr (fun kv P => valid_string (fst kv) = true /\ value_ok (snd kv) /\ P) True m <-> values_ok m.
Proof.
  unfold values_ok. induction m as [|kv m IH]; cbn; [by repeat constructor|]. rewrite IH, !Forall_cons. tauto.
Qed.
Lemma items_ok_foldr l : foldr (fun x P => value_ok x /\ P) True l <-> Forall value_ok l.
Proof. induction l as [|x l IH]; cbn; [by repeat constructor|]. by rewrite IH, Forall_cons. Qed.

Lemma value_rect2 (P : value -> Prop) :
  P VNull -> (forall b, P (VBool b)) -> (forall t, P (VNumber t)) -> (forall s, P (VString s)) ->
  (forall l, Forall P l -> P (VArray l)) -> (forall m, Forall (fun kv => P (snd kv)) m -> P (VObject m)) ->
  forall v, P v.
Proof.
  intros Hn Hb Hl Hs Ha Ho. fix IH 1. intros [|b|t|s|l|m]; [done|done|done|done|apply Ha|apply Ho].
  - induction l; constructor; [apply IH | done].
  - induction m as [|[k v] m IHm]; constructor; [apply IH | done].
Qed.

(** The decoder makes well-formed values. *)
Lemma decode_value_ok d : doc_ok d -> value_ok (decode_value d).
Proof.
  induction d as [t|b|l IH|l IH] using doc_rect2.
  - cbn. intros H. destruct (String.eqb t "null") eqn:E1; [done|]. destruct (String.eqb t "true") eqn:E2; [done|].
    destruct (String.eqb t "false") eqn:E3; [done|]. unfold word_literal in H. rewrite E1, E2, E3 in H. by destruct H.
  - intros _. apply text_of_valid.
  - cbn [decode_value value_ok doc_ok]. rewrite items_ok_foldr. induction IH as [|d l Hd _ IHl]; [constructor|].
    intros [? ?]. cbn. constructor; auto.
  - cbn [decode_value value_ok doc_ok]. rewrite values_ok_foldr. intros H. unfold members_of.
    apply fold_members; [split; [constructor | by repeat constructor]|].
    intros k v m Hin (Hs & Hk & Hv). split; [by apply set_member_sorted|].
    apply list_elem_of_fmap in Hin as ([k0 d] & [= -> ->] & Hin). split.
    + apply (set_member_keys (fun k => valid_string k = true)); [apply text_of_valid | done].
    + apply set_member_values; [|done]. clear Hs Hk Hv.
      induction IH as [|[k1 d1] l Hd _ IHl]; [by apply elem_of_nil in Hin|]. cbn in H, Hd. destruct H as (_ & H1 & H).
      apply elem_of_cons in Hin as [[= -> ->]|Hin]; auto.
Qed.

(** [json.Marshal] and the decoder are inverse on them. *)
Lemma encode_value_ok v : value_ok v ->
  exists d, encode_value v = Some d /\ doc_ok d /\ decode_value d = v.
Proof.
  induction v as [|[]|t|s|l IH|m IH] using value_rect2.
  - intros _. eexists. split_and!; [done|by left|done].
  - intros _. eexists. split_and!; [done|by left|done].
  - intros _. eexists. split_and!; [done|by left|done].
  - cbn [value_ok]. intros H. exists (DLit t). cbn [encode_value]. destruct (is_empty t) eqn:E; [by apply is_empty_true in E as ->|].
    rewrite H. split_and!; [done|by right|]. cbn.
    destruct (String.eqb_spec t "null") as [->|_]; [done|]. destruct (String.eqb_spec t "true") as [->|_]; [done|].
    by destruct (String.eqb_spec t "false") as [->|_].
  - intros H. eexists. split_and!; [done|apply literal_escape|]. cbn. by rewrite text_of_escape.
  - cbn [value_ok]. rewrite items_ok_foldr, encode_array. intros H.
    enough (exists ds, encode_values l = Some ds /\ items_ok ds /\ decode_value <$> ds = l) as (ds & -> & Hok & <-) by (by exists (DArr ds)).
    induction IH as [|v l Hv _ IHl]; [by exists []|]. apply Forall_cons in H as [Hv' H].
    destruct (Hv Hv') as (d & E & Hd & Hdv). destruct (IHl H) as (ds & Es & Hds & Hdl).
    exists (d :: ds). cbn. rewrite E. cbn. rewrite Es. cbn. split_and!; [done..|]. by rewrite Hdv, Hdl.
  - cbn [value_ok]. rewrite values_ok_foldr, encode_object. intros (Hs & Hk & Hv).
    enough (exists ds, encode_members m = Some ds /\ members_ok ds /\
      (fun kd => (text_of (fst kd), decode_value (snd kd))) <$> ds = m) as (ds & -> & Hok & Hm).
    { exists (DObj ds). split_and!; [done..|]. cbn [decode_value]. rewrite Hm. by rewrite members_of_sorted. }
    clear Hs. induction IH as [|[k v] m Hkv _ IHm]; [by exists []|]. apply Forall_cons in Hk as [Hk1 Hk], Hv as [Hv1 Hv].
    destruct (Hkv Hv1) as (d & E & Hd & Hdv). destruct (IHm Hk Hv) as (ds & Es & Hds & Hdm).
    exists ((escape k, d) :: ds). cbn in *. rewrite E. cbn. rewrite Es. cbn.
    split_and!; [done|apply literal_escape|done..|]. by rewrite text_of_escape, Hdv, Hdm.
Qed.

Lemma encode_value_doc v d : encode_value v = Some d -> doc_ok d.
Proof.
  revert d. induction v as [|[]|t|s|l IH|m IH] using value_rect2; intros d H.
  - injection H as <-. by left.
  - injection H as <-. by left.
  - injection H as <-. by left.
  - cbn in H. destruct (is_empty t); [injection H as <-; by right|].
    destruct (valid_number t) eqn:E; [|done]. injection H as <-. by right.
  - injection H as <-. apply literal_escape.
  - rewrite encode_array in H. apply fmap_Some in H as (ds & H & ->). cbn.
    revert ds H. induction IH as [|v l Hv _ IHl]; intros ds H; cbn in H; [by injection H as <-|].
    destruct (encode_value v) as [d|]; [|done]. cbn in H. destruct (encode_values l) as [ds'|]; [|done].
    injection H as <-. cbn. auto.
  - rewrite encode_object in H. apply fmap_Some in H as (ds & H & ->). cbn.
    revert ds H. induction IH as [|[k v] m Hv _ IHm]; intros ds H; cbn in H; [by injection H as <-|].
    destruct (encode_value v) as [d|] eqn:Ev; [|done]. cbn in H. destruct (encode_members m) as [ds'|]; [|done].
    injection H as <-. cbn. split_and!; [apply literal_escape | by apply Hv | by apply IHm].
Qed.

(** A raw message as the decoder keeps it from compacted text. *)
Definition raw_ok (s : string) : Prop := exists d, doc_ok d /\ html d = d /\ s = write d.

Lemma encode_raw_ok s : raw_ok s -> exists d, encode_raw (Some s) = Some d /\ doc_ok d /\ write d = s.
Proof. intros (d & Hd & Hh & ->). exists d. unfold encode_raw. rewrite read_write by done. cbn [fmap option_fmap option_map]. by rewrite Hh. Qed.

Lemma encode_raw_doc raw d : encode_raw raw = Some d -> doc_ok d /\ raw_ok (write d).
Proof.
  destruct raw as [s|]; cbn -[read]; intros H.
  - apply fmap_Some in H as (d0 & H & ->). apply read_ok in H. split; [by apply html_ok|].
    exists (html d0). split_and!; [by apply html_ok|by rewrite html_idem|done].
  - injection H as <-. split; [by left|]. exists (DLit "null"). split_and!; [by left|done..].
Qed.

#[global] Arguments write : simpl never.
#[global] Arguments read : simpl never.
#[global] Arguments encode_raw : simpl never.
