(* ===== verification/GoStruct.v ===== *)
(** * JSON forms of structures (encoding/json)

    A [codec] is what [json.Marshal] writes for the values of a type and what
    the decoder reads, with three laws: what is written is well formed; it
    always reads back, as a canonical value; a canonical value reads back
    exactly.  A [field] is a codec of a structure's field, which may be
    omitted.  [struct] is the codec of a structure from its fields, each under
    its tag, in the order they are declared. *)

From S2P Require Import Prelude GoText GoEncoding GoJson GoDoc.
From Stdlib Require Import DecimalString.

Local Open Scope string_scope.

Record codec (A : Type) := Codec_ {
  encode : A -> option doc;
  decode : doc -> option A;
  canonical : A -> Prop;
  encode_ok : forall a d, encode a = Some d -> doc_ok d;
  normalizes : forall a d, encode a = Some d -> exists b, decode d = Some b /\ canonical b;
  reads_back : forall a, canonical a -> exists d, encode a = Some d /\ decode d = Some a
}.
Arguments Codec_ {A} _ _ _ _ _ _.
Arguments encode {A} _ _.
Arguments decode {A} _ _.
Arguments canonical {A} _ _.

(** [json.Marshal], and a decoder with [UseNumber] that refuses trailing
    data. *)
Definition Marshal_ {A} (c : codec A) (a : A) : option string := write <$> encode c a.
Definition Decode_ {A} (c : codec A) (s : string) : option A := d ← read s; decode c d.

Lemma marshal_decode {A} (c : codec A) a s : Marshal_ c a = Some s ->
  exists b, Decode_ c s = Some b /\ canonical c b.
Proof.
  unfold Marshal_, Decode_. intros H. apply fmap_Some in H as (d & H & ->).
  rewrite read_write by (by eapply encode_ok). by eapply normalizes.
Qed.

Lemma decode_marshal {A} (c : codec A) a : canonical c a ->
  exists s, Marshal_ c a = Some s /\ Decode_ c s = Some a.
Proof.
  unfold Marshal_, Decode_. intros H. destruct (reads_back _ c a H) as (d & E & Hd). exists (write d).
  rewrite E. cbn. rewrite read_write by (by eapply encode_ok). done.
Qed.

(* ------------------------------------------------------------------ *)
(** ** Fields *)

Record field (A : Type) := Field {
  fenc : A -> option (option doc);
  fdec : option doc -> option A;
  fcan : A -> Prop;
  fenc_ok : forall a d, fenc a = Some (Some d) -> doc_ok d;
  fnormalizes : forall a o, fenc a = Some o -> exists b, fdec o = Some b /\ fcan b;
  freads_back : forall a, fcan a -> exists o, fenc a = Some o /\ fdec o = Some a
}.
Arguments Field {A} _ _ _ _ _ _.
Arguments fenc {A} _ _.
Arguments fdec {A} _ _.
Arguments fcan {A} _ _.

Definition is_null (d : doc) : bool := match d with DLit t => String.eqb t "null" | _ => false end.

(** The decoder of a field that leaves the zero value when the member is
    absent or null. *)
Definition or_zero {A} (zero : A) (f : doc -> option A) (o : option doc) : option A :=
  match o with
  | None => Some zero
  | Some d => if is_null d then Some zero else f d
  end.

Definition dec_text (d : doc) : option string := match d with DStr b => Some (text_of b) | _ => None end.
Definition jstr (s : string) : doc := DStr (escape s).

(** [string] *)
Definition f_string : field string.
Proof.
  refine (Field (fun s => Some (Some (jstr s))) (or_zero "" dec_text) (fun s => valid_string s = true) _ _ _).
  - intros a d [= <-]. apply literal_escape.
  - intros a o [= <-]. eexists. split; [done|]. apply text_of_valid.
  - intros a Ha. eexists. split; [done|]. cbn. by rewrite text_of_escape.
Defined.

(** [string] with [omitempty] *)
Definition o_string : field string.
Proof.
  refine (Field (fun s => Some (if is_empty s then None else Some (jstr s))) (or_zero "" dec_text)
    (fun s => valid_string s = true) _ _ _).
  - intros a d. destruct (is_empty a); intros [= <-]. apply literal_escape.
  - intros a o [= <-]. destruct (is_empty a); (eexists; split; [done|]; [done || apply text_of_valid]).
  - intros a Ha. eexists. split; [done|]. destruct (is_empty a) eqn:E; [by apply is_empty_true in E as ->|].
    cbn. by rewrite text_of_escape.
Defined.

(** A named string type through its two conversions. *)
Definition f_named {A} (to : A -> string) (parse_ : string -> A) (Hparse : forall s, to (parse_ s) = s) (omit : bool) : field A.
Proof.
  refine (Field (fun a => Some (if omit && is_empty (to a) then None else Some (jstr (to a))))
    (fun o => parse_ <$> or_zero "" dec_text o) (fun a => valid_string (to a) = true /\ parse_ (to a) = a) _ _ _).
  - intros a d. destruct (_ && _); intros [= <-]. apply literal_escape.
  - intros a o [= <-]. destruct (_ && _); cbn; (eexists; split; [done|]; rewrite !Hparse; split; [|done];
      [done || apply text_of_valid]).
  - intros a [Ha Hc]. eexists. split; [done|]. destruct (omit && is_empty (to a)) eqn:E; cbn.
    + apply andb_true_iff in E as [_ E]. apply is_empty_true in E. by rewrite <- E, Hc.
    + by rewrite text_of_escape, Hc.
Defined.

(** [*string] with [omitempty] *)
Definition o_text : field (option string).
Proof.
  refine (Field (fun o => Some (jstr <$> o)) (or_zero None (fun d => Some <$> dec_text d))
    (fun o => match o with Some s => valid_string s = true | None => True end) _ _ _).
  - intros [s|] d; intros [= <-]. apply literal_escape.
  - intros [s|] o [= <-]; (eexists; split; [done|]); [apply text_of_valid | done].
  - intros [s|] Hs; (eexists; split; [done|]); [|done]. cbn. by rewrite text_of_escape.
Defined.

Definition jbool (b : bool) : doc := DLit (if b then "true" else "false").
Definition dec_truth (d : doc) : option bool :=
  match d with
  | DLit t => if String.eqb t "true" then Some true else if String.eqb t "false" then Some false else None
  | _ => None
  end.

(** [bool], with or without [omitempty] *)
Definition f_bool (omit : bool) : field bool.
Proof.
  refine (Field (fun b => Some (if omit && negb b then None else Some (jbool b))) (or_zero false dec_truth)
    (fun _ => True) _ _ _).
  - intros [] d; destruct omit; intros [= <-]; by left.
  - intros [] o; destruct omit; intros [= <-]; by eexists.
  - intros [] _; destruct omit; by eexists.
Defined.

(** An integer within the width of its type. *)
Definition dec_integer (lo hi : Z) (d : doc) : option Z :=
  match d with
  | DLit t =>
      i ← NilZero.int_of_string t;
      let z := Z.of_int i in if (lo <=? z)%Z && (z <=? hi)%Z then Some z else None
  | _ => None
  end.

Definition in_width (lo hi z : Z) : Prop := (lo <= z <= hi)%Z.

(** An integer of the type: a value out of its range is not encoded. *)
Definition f_integer (lo hi : Z) : field Z.
Proof.
  refine (Field (fun z => if (lo <=? z)%Z && (z <=? hi)%Z then Some (Some (DLit (print_Z z))) else None)
    (or_zero 0%Z (dec_integer lo hi)) (in_width lo hi) _ _ _).
  - intros z d. destruct (_ && _); intros [= <-]. right. apply print_Z_valid.
  - intros z o. destruct (_ && _) eqn:E; intros [= <-]. exists z. cbn.
    assert (String.eqb (print_Z z) "null" = false) as ->.
    { destruct (print_Z_head z) as (a & s & -> & Ha). by destruct a as [[] [] [] [] [] [] [] []]. }
    rewrite of_print_Z. cbn. rewrite DecimalZ.of_to, E. split; [done|].
    unfold in_width. apply andb_true_iff in E. rewrite !Z.leb_le in E. lia.
  - intros z Hz. unfold in_width in Hz. assert ((lo <=? z)%Z && (z <=? hi)%Z = true) as E.
    { rewrite andb_true_iff, !Z.leb_le. lia. }
    rewrite E. eexists. split; [done|]. cbn.
    assert (String.eqb (print_Z z) "null" = false) as ->.
    { destruct (print_Z_head z) as (a & s & -> & Ha). by destruct a as [[] [] [] [] [] [] [] []]. }
    rewrite of_print_Z. cbn. by rewrite DecimalZ.of_to, E.
Defined.

Definition dec_base64 (d : doc) : option (option string) := s ← dec_text d; Some <$> b64_decode false s.

Lemma dec_base64_jstr s : dec_base64 (jstr (b64_encode s)) = Some (Some s).
Proof.
  unfold dec_base64, jstr. cbn [dec_text mbind option_bind].
  rewrite text_of_escape by (apply is_ascii_valid, b64_encode_ascii). by rewrite b64_roundtrip.
Qed.

(** [[]byte] with [omitempty]: base64. *)
Definition o_bytes : field (option string).
Proof.
  refine (Field (fun b => Some (if is_empty (default "" b) then None else Some (jstr (b64_encode (default "" b)))))
    (or_zero None dec_base64)
    (fun b => match b with Some s => s <> "" | None => True end) _ _ _).
  - intros b d. destruct (is_empty _); intros [= <-]. apply literal_escape.
  - intros b o [= <-]. destruct (is_empty _) eqn:E; [by eexists|]. exists b.
    destruct b as [s|]; [|done]. cbn in E. cbn [or_zero is_null jstr default from_option]. rewrite dec_base64_jstr.
    split; [done|]. by intros ->.
  - intros [s|] Hs; (eexists; split; [done|]); [|done]. cbn [default from_option id].
    destruct (is_empty s) eqn:E; [by apply is_empty_true in E|]. exact (dec_base64_jstr s).
Defined.

(** [map[string]any] with [omitempty]: nil and the empty map are left out. *)
Definition o_map : field (option (list (string * value))).
Proof.
  refine (Field (fun m => match m with
                          | None | Some [] => Some None
                          | Some m => Some <$> encode_value (VObject m) end)
    (or_zero None (fun d => match d with
                            | DObj _ => match decode_value d with VObject m => Some (Some m) | _ => None end
                            | _ => None end))
    (fun m => match m with Some m => m <> [] /\ value_ok (VObject m) | None => True end) _ _ _).
  - intros [[|kv m]|] d H; try done. apply fmap_Some in H as (d' & H & [= ->]). by eapply encode_value_doc.
  - intros [[|kv m]|] o H; [injection H as <-; by exists None| |injection H as <-; by exists None].
    apply fmap_Some in H as (d & H & ->). pose proof (encode_value_doc _ _ H) as Hd.
    rewrite encode_object in H. apply fmap_Some in H as (ds & H & ->).
    eexists. split; [done|]. split; [|by apply (decode_value_ok (DObj ds))].
    destruct kv as [k v]. cbn in H. destruct (encode_value v); [|done]. cbn in H.
    destruct (encode_members m) as [ds'|]; [|done]. injection H as <-. clear.
    unfold members_of. cbn. generalize (text_of (escape k)) (decode_value d). intros k' v'.
    apply (fold_members (fun m => m <> [])); [done|]. intros k2 v2 [|[k3 v3] m] _ Hm; [done|]. cbn.
    by repeat case_match.
  - intros [m|] H; [|by eexists]. destruct H as [Hm Hv]. destruct (encode_value_ok _ Hv) as (d & E & _ & Hd).
    destruct m as [|kv m]; [done|]. rewrite E. eexists. split; [done|].
    rewrite encode_object in E. apply fmap_Some in E as (ds & E & ->).
    change (or_zero None _ (Some (DObj ds))) with (match decode_value (DObj ds) with VObject m => Some (Some m) | _ => None end).
    by rewrite Hd.
Defined.

(** [any] with [omitempty]: nil is left out. *)
Definition o_any : field value.
Proof.
  refine (Field (fun v => match v with VNull => Some None | _ => Some <$> encode_value v end)
    (fun o => Some (match o with Some d => decode_value d | None => VNull end)) value_ok _ _ _).
  - intros v d H. assert (encode_value v = Some d) as E.
    { destruct v; try (apply fmap_Some in H as (d' & H & [= ->]); exact H). done. }
    by eapply encode_value_doc.
  - intros v o H. destruct o as [d|]; [|by exists VNull].
    assert (encode_value v = Some d) as E.
    { destruct v; try (apply fmap_Some in H as (d' & H & [= ->]); exact H). done. }
    eexists. split; [done|]. apply decode_value_ok. by eapply encode_value_doc.
  - intros v Hv. destruct (encode_value_ok _ Hv) as (d & E & _ & Hd).
    destruct v; [by eexists|..]; rewrite E; eexists; (split; [done|]); by (cbn; rewrite Hd).
Defined.

(** [json.RawMessage], with or without [omitempty]. *)
Definition f_raw (omit : bool) : field (option string).
Proof.
  refine (Field (fun b => if omit && is_empty (default "" b) then Some None else Some <$> encode_raw b)
    (fun o => Some (write <$> o))
    (fun b => match b with Some s => raw_ok s | None => omit = true end) _ _ _).
  - intros b d. destruct (_ && _); [done|]. intros H. apply fmap_Some in H as (d' & H & [= ->]).
    by apply encode_raw_doc in H as [? _].
  - intros b o. destruct (_ && _) eqn:E.
    + intros [= <-]. exists None. split; [done|]. by apply andb_true_iff in E as [-> _].
    + intros H. apply fmap_Some in H as (d & H & ->). apply encode_raw_doc in H as [_ H]. by eexists.
  - intros [s|] H.
    + destruct (encode_raw_ok _ H) as (d & E & Hd & Hw). cbn.
      assert (is_empty s = false) as ->.
      { destruct (write_start d Hd) as (a & t & Ew & _). rewrite Hw in Ew. by rewrite Ew. }
      rewrite andb_false_r, E. eexists. split; [done|]. cbn. by rewrite Hw.
    + cbn. subst omit. by eexists.
Defined.

(** [map[string]string] with [omitempty]; a null is the zero string. *)
Definition text_value (v : value) : option string :=
  match v with VString s => Some s | VNull => Some "" | _ => None end.
Fixpoint text_values (m : list (string * value)) : option (list (string * string)) :=
  match m with
  | [] => Some []
  | (k, v) :: m => s ← text_value v; l ← text_values m; Some ((k, s) :: l)
  end.
Definition of_texts (m : list (string * string)) : list (string * value) := (fun kv => (kv.1, VString kv.2)) <$> m.

Definition text_pair (kv : string * string) : Prop := valid_string kv.1 = true /\ valid_string kv.2 = true.

Lemma text_values_of m : text_values (of_texts m) = Some m.
Proof. induction m as [|[k s] m IH]; [done|]. cbn. unfold of_texts in IH. by rewrite IH. Qed.

Lemma of_texts_sorted m : keys_sorted m -> keys_sorted (of_texts m).
Proof.
  unfold keys_sorted, of_texts. induction 1 as [|[k s] m Hs IH Hf]; cbn; constructor; [done|].
  rewrite Forall_fmap. eapply Forall_impl; [exact Hf|]. by intros [].
Qed.

Lemma of_texts_ok m : keys_sorted m -> Forall text_pair m ->
  value_ok (VObject (of_texts m)).
Proof.
  intros Hs Hv. split; [by apply of_texts_sorted|]. apply values_ok_foldr. unfold values_ok, of_texts.
  rewrite !Forall_fmap. split; (eapply Forall_impl; [exact Hv|]); by intros [] [].
Qed.

Lemma set_member_text k s m : set_member k (VString s) (of_texts m) = of_texts (set_member k s m).
Proof.
  induction m as [|[k' s'] m IH]; [done|]. cbn. unfold of_texts in *.
  destruct (String.eqb k k'); [done|]. destruct (string_less k k'); [done|]. cbn. by rewrite IH.
Qed.

Lemma set_member_pair k s acc : valid_string k = true -> valid_string s = true -> Forall text_pair acc ->
  Forall text_pair (set_member k s acc).
Proof.
  intros Hk Hs Ha.
  assert (Forall (fun kv => valid_string (fst kv) = true) (set_member k s acc)) as H1.
  { apply (set_member_keys (fun k => valid_string k = true)); [done|]. eapply Forall_impl; [exact Ha|]. by intros ? []. }
  assert (Forall (fun kv => valid_string (snd kv) = true) (set_member k s acc)) as H2.
  { apply (set_member_values (fun v => valid_string v = true)); [done|]. eapply Forall_impl; [exact Ha|]. by intros ? []. }
  rewrite Forall_forall in *. intros kv Hin. split; [by apply H1 | by apply H2].
Qed.

Lemma fold_texts l : Forall text_pair l -> forall acc, keys_sorted acc -> Forall text_pair acc ->
  exists m, fold_left (fun m kv => set_member (fst kv) (snd kv) m) (of_texts l) (of_texts acc) = of_texts m /\
    keys_sorted m /\ Forall text_pair m /\ (acc <> [] \/ l <> [] -> m <> []).
Proof.
  induction 1 as [|[k s] l [Hk Hs'] Hv IH]; intros acc Hs Ha.
  - exists acc. split_and!; [done..|]. by intros [].
  - destruct (IH (set_member k s acc)) as (m & E & ? & ? & Hne); [by apply set_member_sorted | by apply set_member_pair|].
    exists m. cbn. rewrite set_member_text. split_and!; [done..|]. intros _. apply Hne. left.
    destruct acc as [|[k' s''] acc]; [done|]. cbn. by repeat case_match.
Qed.

Lemma encode_texts m d : encode_value (VObject (of_texts m)) = Some d ->
  exists m', decode_value d = VObject (of_texts m') /\ keys_sorted m' /\ Forall text_pair m' /\ (m <> [] -> m' <> []).
Proof.
  rewrite encode_object. intros H. apply fmap_Some in H as (ds & H & ->). cbn. unfold members_of.
  assert (Forall2 (fun kv kd => kd = (escape kv.1, jstr kv.2)) m ds) as F.
  { revert ds H. induction m as [|[k s] m IH]; intros ds H; cbn in H; [by injection H as <-|].
    destruct (encode_members _) as [ds'|] eqn:E; [|done]. injection H as <-. constructor; [done|]. by apply IH. }
  clear H. assert (exists l, (fun m => (text_of m.1, decode_value m.2)) <$> ds = of_texts l /\
    Forall text_pair l /\ length l = length m) as (l & -> & Hv & Hlen).
  { induction F as [|[k s] [? ?] m ds [= -> ->] F IH]; [by exists []|]. destruct IH as (l & E & Hv & Hl).
    exists ((text_of (escape k), text_of (escape s)) :: l). cbn. rewrite E. split_and!; [done| |by rewrite Hl].
    constructor; [|done]. split; apply text_of_valid. }
  destruct (fold_texts l Hv []) as (m' & E & Hs & Hv' & Hne); [constructor..|]. exists m'.
  split_and!; [by rewrite <- E | done..|]. intros Hm. apply Hne. right. intros ->. by destruct m.
Qed.

Definition o_strings : field (option (list (string * string))).
Proof.
  refine (Field (fun m => match m with
                          | None | Some [] => Some None
                          | Some m => Some <$> encode_value (VObject (of_texts m)) end)
    (or_zero None (fun d => match d with
                            | DObj _ => match decode_value d with VObject m => Some <$> text_values m | _ => None end
                            | _ => None end))
    (fun m => match m with
              | Some m => m <> [] /\ keys_sorted m /\ Forall text_pair m
              | None => True end) _ _ _).
  - intros [[|kv m]|] d H; try done. apply fmap_Some in H as (d' & H & [= ->]). by eapply encode_value_doc.
  - intros [[|kv m]|] o H; [injection H as <-; by exists None| |injection H as <-; by exists None].
    apply fmap_Some in H as (d & H & ->). destruct (encode_texts _ _ H) as (m' & E & Hs & Hv & Hne).
    exists (Some m'). rewrite encode_object in H. apply fmap_Some in H as (ds & _ & ->).
    change (or_zero None _ (Some (DObj ds))) with (match decode_value (DObj ds) with VObject m => Some <$> text_values m | _ => None end).
    rewrite E, text_values_of. split; [done|]. split_and!; [by apply Hne | done..].
  - intros [m|] H; [|by eexists]. destruct H as (Hm & Hs & Hv).
    destruct (encode_value_ok _ (of_texts_ok _ Hs Hv)) as (d & E & _ & Hd).
    destruct m as [|kv m]; [done|]. rewrite E. eexists. split; [done|].
    rewrite encode_object in E. apply fmap_Some in E as (ds & E & ->).
    change (or_zero None _ (Some (DObj ds))) with (match decode_value (DObj ds) with VObject m => Some <$> text_values m | _ => None end).
    by rewrite Hd, text_values_of.
Defined.

(* ------------------------------------------------------------------ *)
(** ** Slices *)

Fixpoint encode_all {A} (c : codec A) (l : list A) : option (list doc) :=
  match l with
  | [] => Some []
  | a :: l => d ← encode c a; ds ← encode_all c l; Some (d :: ds)
  end.
Fixpoint decode_all {A} (c : codec A) (l : list doc) : option (list A) :=
  match l with
  | [] => Some []
  | d :: l => a ← decode c d; rest ← decode_all c l; Some (a :: rest)
  end.

Lemma encode_all_ok {A} (c : codec A) l ds : encode_all c l = Some ds -> doc_ok (DArr ds).
Proof.
  revert ds. induction l as [|a l IH]; cbn; intros ds H; [by injection H as <-|].
  destruct (encode c a) eqn:E; [|done]. destruct (encode_all c l); [|done]. injection H as <-. cbn.
  split; [by eapply encode_ok | by apply IH].
Qed.

Lemma encode_all_normalizes {A} (c : codec A) l ds : encode_all c l = Some ds ->
  exists l', decode_all c ds = Some l' /\ Forall (canonical c) l' /\ length l' = length l.
Proof.
  revert ds. induction l as [|a l IH]; cbn; intros ds H; [injection H as <-; by exists []|].
  destruct (encode c a) eqn:E; [|done]. destruct (encode_all c l) eqn:El; [|done]. injection H as <-.
  apply normalizes in E as (b & Hb & Hc). destruct (IH _ eq_refl) as (l' & Hl & Hc' & Hn).
  exists (b :: l'). cbn. rewrite Hb. cbn. rewrite Hl. cbn. split_and!; [done | by constructor | by rewrite Hn].
Qed.

Lemma encode_all_reads_back {A} (c : codec A) l : Forall (canonical c) l ->
  exists ds, encode_all c l = Some ds /\ decode_all c ds = Some l.
Proof.
  induction 1 as [|a l Ha Hl (ds & E & Hd)]; [by exists []|]. destruct (reads_back _ c a Ha) as (d & Ed & Hdd).
  exists (d :: ds). cbn. rewrite Ed, E. cbn. by rewrite Hdd, Hd.
Qed.

(** A slice, nil when it is empty: null, or left out with [omitempty]. *)
Definition f_list {A} (omit : bool) (c : codec A) : field (list A).
Proof.
  refine (Field (fun l => match l with
                          | [] => Some (if omit then None else Some (DLit "null"))
                          | _ => (fun ds => Some (DArr ds)) <$> encode_all c l end)
    (or_zero [] (fun d => match d with DArr ds => decode_all c ds | _ => None end)) (Forall (canonical c)) _ _ _).
  - intros [|a l] d H; [destruct omit; [done|]; injection H as <-; by left|].
    apply fmap_Some in H as (ds & H & [= ->]). by eapply encode_all_ok.
  - intros [|a l] o H; [injection H as <-; exists []; by destruct omit|].
    apply fmap_Some in H as (ds & H & ->). apply encode_all_normalizes in H as (l' & H & Hc & _). by exists l'.
  - intros [|a l] H; [eexists; split; [done|]; by destruct omit|].
    destruct (encode_all_reads_back c _ H) as (ds & E & Hd). rewrite E. eexists. split; [done|]. exact Hd.
Defined.

(* ------------------------------------------------------------------ *)
(** ** Structures *)

(** [foldName]: names match up to case.  The only other runes that fold to
    ASCII are the Kelvin sign and the long s. *)
Fixpoint fold_name (s : string) : string :=
  match s with
  | "" => ""
  | String a s' =>
      if (byte_of a =? 226)%N then
        match s' with
        | String b (String c s'') =>
            if ((byte_of b =? 132) && (byte_of c =? 170))%N then String "k" (fold_name s'') else String a (fold_name s')
        | _ => String a (fold_name s')
        end
      else if (byte_of a =? 197)%N then
        match s' with
        | String b s'' => if (byte_of b =? 191)%N then String "s" (fold_name s'') else String a (fold_name s')
        | _ => String a (fold_name s')
        end
      else String (if is_upper a then ascii_of_N (byte_of a + 32) else a) (fold_name s')
  end.

Definition names (tag : string) (kd : string * doc) : bool := String.eqb (fold_name (text_of kd.1)) (fold_name tag).

(** The member of a field: absent, or there.  An object that names a field
    more than once is refused here; the decoder would fill the field again. *)
Definition member (tag : string) (ds : list (string * doc)) : option (option doc) :=
  match List.filter (names tag) ds with
  | [] => Some None
  | [kd] => Some (Some kd.2)
  | _ => None
  end.

Definition present (l : list (string * option doc)) : list (string * doc) :=
  omap (fun kd => d ← kd.2; Some (escape kd.1, d)) l.

Record members (A : Type) := Members {
  tags : list string;
  menc : A -> option (list (string * option doc));
  mdec : (string -> option (option doc)) -> option A;
  mcan : A -> Prop;
  menc_tags : forall a l, menc a = Some l -> l.*1 = tags;
  menc_ok : forall a l k d, menc a = Some l -> (k, Some d) ∈ l -> doc_ok d;
  mnormalizes : forall a l get, menc a = Some l -> (forall k o, (k, o) ∈ l -> get k = Some o) ->
    exists b, mdec get = Some b /\ mcan b;
  mreads_back : forall a, mcan a -> exists l, menc a = Some l /\
    forall get, (forall k o, (k, o) ∈ l -> get k = Some o) -> mdec get = Some a
}.
Arguments Members {A} _ _ _ _ _ _ _ _.
Arguments tags {A} _.
Arguments menc {A} _ _.
Arguments mdec {A} _ _.
Arguments mcan {A} _ _.

Definition no_members : members unit.
Proof.
  refine (Members [] (fun _ => Some []) (fun _ => Some tt) (fun _ => True) _ _ _ _).
  - by intros a l [= <-].
  - intros a l k d [= <-] H. by apply elem_of_nil in H.
  - intros a l get _ _. by exists tt.
  - intros [] _. by eexists.
Defined.

Definition and_member {A B} (tag : string) (f : field A) (m : members B) : members (A * B).
Proof.
  refine (Members (tag :: tags m)
    (fun ab => o ← fenc f ab.1; l ← menc m ab.2; Some ((tag, o) :: l))
    (fun get => o ← get tag; a ← fdec f o; b ← mdec m get; Some (a, b))
    (fun ab => fcan f ab.1 /\ mcan m ab.2) _ _ _ _).
  - intros [a b] l H. cbn in H. destruct (fenc f a); [|done]. destruct (menc m b) as [l'|] eqn:E; [|done].
    injection H as <-. cbn. by rewrite (menc_tags _ m _ _ E).
  - intros [a b] l k d H Hin. cbn in H. destruct (fenc f a) as [o|] eqn:Ea; [|done].
    destruct (menc m b) as [l'|] eqn:E; [|done]. injection H as <-. apply elem_of_cons in Hin as [[= -> <-]|Hin].
    + by eapply fenc_ok.
    + by eapply menc_ok.
  - intros [a b] l get H Hget. cbn in H. destruct (fenc f a) as [o|] eqn:Ea; [|done].
    destruct (menc m b) as [l'|] eqn:E; [|done]. injection H as <-. rewrite (Hget tag o) by left. cbn.
    apply fnormalizes in Ea as (a' & -> & Ha). apply (mnormalizes _ m _ _ get) in E as (b' & -> & Hb).
    + by exists (a', b').
    + intros k o' Hin. apply Hget. by right.
  - intros [a b] [Ha Hb]. cbn in Ha, Hb. destruct (freads_back _ f a Ha) as (o & Ea & Hda).
    destruct (mreads_back _ m b Hb) as (l & Eb & Hdb). cbn. rewrite Ea, Eb. eexists. split; [done|].
    intros get Hget. rewrite (Hget tag o) by left. cbn. rewrite Hda. cbn. rewrite Hdb; [done|].
    intros k o' Hin. apply Hget. by right.
Defined.

Definition tags_ok (l : list string) : bool :=
  bool_decide (NoDup (fold_name <$> l)) && forallb valid_string l.

Lemma present_some k d l : present ((k, Some d) :: l) = (escape k, d) :: present l.
Proof. done. Qed.
Lemma present_none k l : present ((k, None) :: l) = present l.
Proof. done. Qed.

Lemma names_escape tag k d : valid_string k = true -> names tag (escape k, d) = String.eqb (fold_name k) (fold_name tag).
Proof. intros Hk. unfold names. cbn [fst]. by rewrite text_of_escape. Qed.

Lemma present_names tag l : forallb valid_string l.*1 = true -> fold_name tag ∉ fold_name <$> l.*1 ->
  List.filter (names tag) (present l) = [].
Proof.
  induction l as [|[k o] l IH]; [done|]. rewrite !fmap_cons. cbn [forallb fst]. intros Hv Hn.
  apply andb_true_iff in Hv as [Hk Hv]. apply not_elem_of_cons in Hn as [Hne Hn]. specialize (IH Hv Hn).
  destruct o as [d|]; [|exact IH]. rewrite present_some. cbn [List.filter]. rewrite names_escape by done.
  by rewrite (proj2 (String.eqb_neq _ _)).
Qed.

Lemma member_present l : tags_ok l.*1 = true -> forall k o, (k, o) ∈ l -> member k (present l) = Some o.
Proof.
  unfold tags_ok, member. intros H. apply andb_true_iff in H as [Hnd Hv]. apply bool_decide_eq_true in Hnd.
  induction l as [|[k' o'] l IH]; intros k o Hin; [by apply elem_of_nil in Hin|].
  rewrite !fmap_cons in Hnd. rewrite fmap_cons in Hv. cbn [forallb fst] in Hnd, Hv.
  apply andb_true_iff in Hv as [Hk Hv]. apply NoDup_cons in Hnd as [Hn Hnd]. apply elem_of_cons in Hin as [[= -> ->]|Hin].
  - pose proof (present_names k' l Hv Hn) as He. destruct o' as [d|]; [|by rewrite present_none, He].
    rewrite present_some. cbn [List.filter]. by rewrite names_escape, String.eqb_refl, He by done.
  - specialize (IH Hnd Hv _ _ Hin).
    assert (fold_name k' <> fold_name k) as Hne.
    { intros E. destruct Hn. rewrite E. apply list_elem_of_fmap. exists k. split; [done|].
      apply list_elem_of_fmap. by exists (k, o). }
    destruct o' as [d|]; [|exact IH]. rewrite present_some. cbn [List.filter]. rewrite names_escape by done.
    by rewrite (proj2 (String.eqb_neq _ _)).
Qed.

Lemma present_ok l : (forall k d, (k, Some d) ∈ l -> doc_ok d) -> doc_ok (DObj (present l)).
Proof.
  induction l as [|[k [d|]] l IH]; intros H; [done| |].
  - cbn. split_and!; [apply literal_escape | apply (H k); left|]. apply IH. intros k' d' Hin. apply (H k'). by right.
  - apply IH. intros k' d' Hin. apply (H k'). by right.
Qed.

(** A structure [R] seen as its fields; null leaves the zero structure. *)
Section Struct.
Context {R T : Type} (to : R -> T) (from : T -> R) (m : members T).
Context (to_from : forall t, to (from t) = t) (from_to : forall r, from (to r) = r) (Htags : tags_ok (tags m) = true).

Definition enc_struct (r : R) : option doc := (fun l => DObj (present l)) <$> menc m (to r).
Definition dec_struct (d : doc) : option R :=
  match d with
  | DObj ds => from <$> mdec m (fun tag => member tag ds)
  | _ => if is_null d then from <$> mdec m (fun _ => Some None) else None
  end.

Definition struct : codec R.
Proof.
  refine (Codec_ enc_struct dec_struct (fun r => mcan m (to r)) _ _ _); unfold enc_struct.
  - intros r d H. apply fmap_Some in H as (l & H & ->). apply present_ok. intros k d. by eapply menc_ok.
  - intros r d H. apply fmap_Some in H as (l & H & ->). cbn.
    destruct (mnormalizes _ m _ _ (fun tag => member tag (present l)) H) as (t & -> & Hc).
    + apply member_present. by rewrite (menc_tags _ m _ _ H).
    + exists (from t). cbn. by rewrite to_from.
  - intros r Hr. destruct (mreads_back _ m _ Hr) as (l & E & Hd). rewrite E. eexists. split; [done|]. cbn.
    rewrite Hd; [cbn; by rewrite from_to|]. apply member_present. by rewrite (menc_tags _ m _ _ E).
Defined.

Lemma struct_not_null r d : encode struct r = Some d -> is_null d = false.
Proof. cbn. unfold enc_struct. intros H. by apply fmap_Some in H as (l & _ & ->). Qed.
End Struct.

(** A structure as a field, and a pointer to one with [omitempty]. *)
Definition f_struct {A} (c : codec A) (zero : A) (Hc : forall a d, encode c a = Some d -> is_null d = false) : field A.
Proof.
  refine (Field (fun a => Some <$> encode c a) (or_zero zero (decode c)) (canonical c) _ _ _).
  - intros a d H. apply fmap_Some in H as (d' & H & [= ->]). by eapply encode_ok.
  - intros a o H. apply fmap_Some in H as (d & H & ->). cbn. rewrite (Hc _ _ H). by eapply normalizes.
  - intros a Ha. destruct (reads_back _ c a Ha) as (d & E & Hd). rewrite E. eexists. split; [done|].
    cbn. by rewrite (Hc _ _ E).
Defined.

Definition o_struct {A} (c : codec A) (Hc : forall a d, encode c a = Some d -> is_null d = false) : field (option A).
Proof.
  refine (Field (fun a => match a with None => Some None | Some a => Some <$> encode c a end)
    (or_zero None (fun d => Some <$> decode c d))
    (fun a => match a with None => True | Some a => canonical c a end) _ _ _).
  - intros [a|] d H; [|done]. apply fmap_Some in H as (d' & H & [= ->]). by eapply encode_ok.
  - intros [a|] o H; [|injection H as <-; by exists None]. apply fmap_Some in H as (d & H & ->). cbn.
    rewrite (Hc _ _ H). apply normalizes in H as (b & -> & Hb). by exists (Some b).
  - intros [a|] Ha; [|by eexists]. destruct (reads_back _ c a Ha) as (d & E & Hd). rewrite E. eexists. split; [done|].
    cbn. by rewrite (Hc _ _ E), Hd.
Defined.
