(* ===== verification/Paging.v ===== *)
(** * Pages of a sorted listing

    The lists of the program are cut into pages: a page holds the first [n]
    elements after a cursor, in the order of a key, and the cursor of the next
    page is the key of its last element. [pages_complete]: a client that
    follows the cursors from the start sees every element once, in order. *)

From S2P Require Import Prelude.

(** Follow the cursors, at most [fuel] pages. *)
Fixpoint all_pages {C A} (page : option C -> option (list A * option C)) (fuel : nat) (after : option C)
    : option (list A) :=
  match fuel with
  | O => None
  | S fuel' =>
      match page after with
      | None => None
      | Some (items, None) => Some items
      | Some (items, Some next) => (fun rest => items ++ rest) <$> all_pages page fuel' (Some next)
      end
  end.

(** The page of the elements that remain: at most [n], and where to go on. *)
Definition cut {C A} (cursor : A -> C) (n : nat) (remaining : list A) : list A * option C :=
  let items := take n remaining in
  (items, if (n <? length remaining)%nat then cursor <$> last items else None).

Lemma last_take {A} (l : list A) n : (0 < n <= length l)%nat -> exists l0 x, take n l = l0 ++ [x] /\ last (take n l) = Some x.
Proof.
  intros Hn. destruct (take n l) as [|y l'] eqn:E using rev_ind.
  - apply (f_equal length) in E. rewrite length_take in E. cbn in E. lia.
  - exists l', y. by rewrite last_snoc.
Qed.

(** A filter keeps a list sorted, and commutes with sorting. *)
Section Sorted.
Context {A K : Type} (key : A -> K) (kless : K -> K -> bool) (Hk : strict_total kless).
Context (less : A -> A -> bool) (Hless : forall x y, less x y = kless (key x) (key y)).

Lemma ascending_sub (f : A -> bool) l : ascending less l -> ascending less (List.filter f l).
Proof.
  unfold ascending. induction 1 as [|x l Hs IH Hf]; [constructor|]. cbn. destruct (f x); [|done].
  constructor; [done|]. rewrite Forall_forall in Hf |- *. intros y Hy. apply Hf.
  apply list_elem_of_In, filter_In in Hy as [Hy _]. by apply list_elem_of_In.
Qed.

Lemma filter_perm (f : A -> bool) l l' : l ≡ₚ l' -> List.filter f l ≡ₚ List.filter f l'.
Proof.
  induction 1 as [|x l l' H IH|x y l|l l' l'' H1 IH1 H2 IH2]; cbn; [done| | |by etrans].
  - destruct (f x); [by constructor|done].
  - destruct (f x), (f y); try done. constructor.
Qed.

Lemma sort_filter (f : A -> bool) l :
  (forall x y, x ∈ l -> y ∈ l -> key x = key y -> x = y) ->
  sort_slice less (List.filter f l) = List.filter f (sort_slice less l).
Proof.
  intros Hinj. apply (ascending_unique key kless Hk less Hless).
  - intros x y. rewrite !sort_slice_perm, !list_elem_of_In, !filter_In, <- !list_elem_of_In. intros [Hx _] [Hy _]. auto.
  - apply (sort_slice_ascending key kless Hk less Hless).
  - apply ascending_sub, (sort_slice_ascending key kless Hk less Hless).
  - rewrite sort_slice_perm. apply filter_perm. by rewrite sort_slice_perm.
Qed.

(** What follows an element of a list without equal keys is what its key is
    below. *)
Lemma resume l1 x l2 :
  NoDup (key <$> l1 ++ x :: l2) -> ascending less (l1 ++ x :: l2) ->
  List.filter (fun y => kless (key x) (key y)) (l1 ++ x :: l2) = l2.
Proof.
  destruct Hk as [irr tra tot]. intros Hnd Hs. rewrite fmap_app, fmap_cons in Hnd.
  apply NoDup_app in Hnd as (_ & Hd & Hnd). apply NoDup_cons in Hnd as [Hx Hnd].
  induction l1 as [|y l1 IH]; cbn [app List.filter] in Hs |- *.
  - rewrite irr. inversion Hs as [|? ? Hs' Hf]; subst. clear Hs Hs' Hd.
    induction l2 as [|z l2 IH]; [done|]. cbn. inversion Hf as [|? ? Hz Hf']; subst.
    rewrite fmap_cons in Hnd, Hx. apply NoDup_cons in Hnd as [_ Hnd]. apply not_elem_of_cons in Hx as [Hne Hx].
    rewrite Hless in Hz. destruct (kless (key x) (key z)) eqn:E; [f_equal; auto|].
    destruct Hne. by apply tot.
  - inversion Hs as [|? ? Hs' Hf]; subst. rewrite Forall_app, Forall_cons in Hf. destruct Hf as (_ & Hy & _).
    rewrite Hless in Hy. rewrite Hy. apply IH; [|done]. intros k Hin. apply Hd. rewrite fmap_cons. by right.
Qed.

Context {C : Type} (cursor : A -> C) (ckey : C -> K).

(** The elements after a cursor. *)
Definition after_cursor (c : option C) (l : list A) : list A :=
  match c with
  | None => l
  | Some c => List.filter (fun y => kless (ckey c) (key y)) l
  end.

(** A client that starts without a cursor and follows the cursors. A page may
    show its elements through [f]. *)
Theorem pages_complete {B} (f : A -> B) page l n :
  (forall x, x ∈ l -> ckey (cursor x) = key x) -> NoDup (key <$> l) -> ascending less l -> (0 < n)%nat ->
  (forall c, (forall c', c = Some c' -> exists x, x ∈ l /\ c' = cursor x) ->
    page c = Some (f <$> fst (cut cursor n (after_cursor c l)), snd (cut cursor n (after_cursor c l)))) ->
  forall fuel, (length l < fuel)%nat -> all_pages page fuel None = Some (f <$> l).
Proof.
  intros Hcursor Hnd Hs Hn Hpage.
  assert (forall fuel c l1 l2, l = l1 ++ l2 -> after_cursor c l = l2 ->
    (forall c', c = Some c' -> exists x, x ∈ l /\ c' = cursor x) -> (length l2 < fuel)%nat ->
    all_pages page fuel c = Some (f <$> l2)) as Hall.
  { induction fuel as [|fuel IH]; intros c l1 l2 Hl Hc Hin Hf; [lia|]. cbn. rewrite Hpage, Hc by done. unfold cut.
    destruct (n <? length l2)%nat eqn:E; cbn [fst snd].
    - apply Nat.ltb_lt in E. destruct (last_take l2 n) as (l0 & x & Ht & Hx); [lia|]. rewrite Hx. cbn.
      assert (l = (l1 ++ l0) ++ x :: drop n l2) as Hl'.
      { rewrite Hl. rewrite <- (take_drop n l2) at 1. by rewrite Ht, <- !app_assoc. }
      assert (x ∈ l) as Hxl by (rewrite Hl'; apply elem_of_app; right; by left).
      rewrite (IH _ ((l1 ++ l0) ++ [x]) (drop n l2)).
      + cbn. f_equal. by rewrite <- fmap_app, take_drop.
      + by rewrite Hl', <- !app_assoc.
      + cbn. rewrite Hcursor, Hl' by done. apply resume; by rewrite <- Hl'.
      + intros c' [= <-]. by exists x.
      + rewrite length_drop. lia.
    - apply Nat.ltb_ge in E. by rewrite take_ge. }
  intros fuel Hf. by apply (Hall fuel None [] l).
Qed.
End Sorted.

(* ------------------------------------------------------------------ *)
(** ** Numbered lists *)

(** Follow the numbers: each page says after which element it ends and whether
    there are more. *)
Fixpoint all_after {A} (page : Z -> option (list A * Z * bool)) (fuel : nat) (after : Z) : option (list A) :=
  match fuel with
  | O => None
  | S fuel' =>
      match page after with
      | None => None
      | Some (items, _, false) => Some items
      | Some (items, next, true) => (fun rest => items ++ rest) <$> all_after page fuel' next
      end
  end.

(** A page of a numbered list: some elements after the [n]-th, at least one
    when there is one. *)
Definition run_page {A} (l : list A) (n : nat) (p : list A * Z * bool) : Prop :=
  exists k, p = (take k (drop n l), Z.of_nat (n + k), (n + k <? length l)%nat) /\
    (n + k <= length l)%nat /\ ((n < length l)%nat -> (0 < k)%nat).

Theorem runs_complete {A} (page : Z -> option (list A * Z * bool)) (l : list A) :
  (forall n, (n <= length l)%nat -> exists p, page (Z.of_nat n) = Some p /\ run_page l n p) ->
  forall fuel n, (n <= length l)%nat -> (length l - n < fuel)%nat -> all_after page fuel (Z.of_nat n) = Some (drop n l).
Proof.
  intros Hpage. induction fuel as [|fuel IH]; intros n Hn Hf; [lia|]. cbn.
  destruct (Hpage n Hn) as (p & -> & k & -> & Hk & Hpos).
  destruct (Nat.ltb_spec (n + k) (length l)) as [Hlt|Hge].
  - rewrite IH by lia. cbn. f_equal. rewrite <- drop_drop. apply take_drop.
  - rewrite take_ge; [done|]. rewrite length_drop. lia.
Qed.
