(* ===== verification/AgentTypes.v ===== *)
(** * The HumanAgent domain types (agent/types.go, workspace/types.go)

    Identifiers are Go strings.  The string enumerations are inductive types
    whose last constructor holds any string that is not one of the constants;
    the zero value of a Go enumeration is that constructor at the empty
    string.  A 64-bit counter is a [Z]; where the code guards its range the
    guard is part of the model.  A pointer to a value that is never shared
    after it is stored is an [option]. *)

From S2P Require Import Prelude GoText GoTime.

Local Open Scope string_scope.

(* ------------------------------------------------------------------ *)
(** ** Identifiers *)

Abbreviation AuthorityID := string.
Abbreviation ContextID := string.
Abbreviation WorkspaceID := string.
Abbreviation TaskID := string.
Abbreviation MessageID := string.
Abbreviation SubmissionID := string.
Abbreviation CommandID := string.
Abbreviation ArtifactID := string.
Abbreviation ApplyReceiptID := string.
Abbreviation WorkerID := string.
Abbreviation LeaseFence := Z.
Abbreviation Revision := string.
Abbreviation Digest := string.

Record ContextRef := { ContextRef_Authority : AuthorityID; ContextRef_ID : ContextID }.
Record WorkspaceRef := { WorkspaceRef_Authority : AuthorityID; WorkspaceRef_ID : WorkspaceID }.
Record TaskRef := { TaskRef_Workspace : WorkspaceRef; TaskRef_ID : TaskID }.
Record ArtifactRef := { ArtifactRef_Workspace : WorkspaceRef; ArtifactRef_ID : ArtifactID }.

#[export] Instance ContextRef_eq_dec : EqDecision ContextRef.
Proof. solve_decision. Defined.
#[export] Instance WorkspaceRef_eq_dec : EqDecision WorkspaceRef.
Proof. solve_decision. Defined.
#[export] Instance TaskRef_eq_dec : EqDecision TaskRef.
Proof. solve_decision. Defined.
#[export] Instance ArtifactRef_eq_dec : EqDecision ArtifactRef.
Proof. solve_decision. Defined.

#[export] Instance WorkspaceRef_countable : Countable WorkspaceRef.
Proof.
  refine (inj_countable' (fun r => (WorkspaceRef_Authority r, WorkspaceRef_ID r) : string * string)
    (fun p => {| WorkspaceRef_Authority := fst p; WorkspaceRef_ID := snd p |}) _).
  by intros [].
Defined.
#[export] Instance TaskRef_countable : Countable TaskRef.
Proof.
  refine (inj_countable' (fun r => (TaskRef_Workspace r, TaskRef_ID r) : WorkspaceRef * string)
    (fun p => {| TaskRef_Workspace := fst p; TaskRef_ID := snd p |}) _).
  by intros [].
Defined.
#[export] Instance ArtifactRef_countable : Countable ArtifactRef.
Proof.
  refine (inj_countable' (fun r => (ArtifactRef_Workspace r, ArtifactRef_ID r) : WorkspaceRef * string)
    (fun p => {| ArtifactRef_Workspace := fst p; ArtifactRef_ID := snd p |}) _).
  by intros [].
Defined.

(* ------------------------------------------------------------------ *)
(** ** Task states *)

Inductive TaskState :=
  | TaskSubmitted | TaskWorking | TaskInputRequired
  | TaskCompleted | TaskCanceled | TaskRejected | TaskFailed
  | TaskStateOther (s : string).

#[export] Instance TaskState_eq_dec : EqDecision TaskState.
Proof. solve_decision. Defined.

Definition TaskState_string (s : TaskState) : string :=
  match s with
  | TaskSubmitted => "submitted"
  | TaskWorking => "working"
  | TaskInputRequired => "input_required"
  | TaskCompleted => "completed"
  | TaskCanceled => "canceled"
  | TaskRejected => "rejected"
  | TaskFailed => "failed"
  | TaskStateOther s => s
  end.

Definition TaskState_of_string (s : string) : TaskState :=
  if s =?= "submitted" then TaskSubmitted
  else if s =?= "working" then TaskWorking
  else if s =?= "input_required" then TaskInputRequired
  else if s =?= "completed" then TaskCompleted
  else if s =?= "canceled" then TaskCanceled
  else if s =?= "rejected" then TaskRejected
  else if s =?= "failed" then TaskFailed
  else TaskStateOther s.

Definition Terminal (state : TaskState) : bool :=
  match state with
  | TaskCompleted | TaskCanceled | TaskRejected | TaskFailed => true
  | _ => false
  end.

Inductive Author := AuthorCaller | AuthorAgent | AuthorOther (s : string).

#[export] Instance Author_eq_dec : EqDecision Author.
Proof. solve_decision. Defined.

(* ------------------------------------------------------------------ *)
(** ** Messages, submissions and tasks *)

Record Part := { Part_MediaType : string; Part_Data : string }.
Record MessageInput := { MessageInput_ID : MessageID; MessageInput_Parts : list Part }.

Record Message := {
  Message_ID : MessageID;
  Message_Task : TaskRef;
  Message_Sequence : Z;
  Message_Author : Author;
  Message_Parts : list Part;
  Message_CreatedAt : time
}.

Record Submission := {
  Submission_ID : SubmissionID;
  Submission_Task : TaskRef;
  Submission_FinalMessage : MessageID;
  Submission_Artifact : option ArtifactRef;
  Submission_PublishedAt : time
}.

Record Task := {
  Task_Ref : TaskRef;
  Task_Context : ContextRef;
  Task_State : TaskState;
  Task_Revision : Z;
  Task_MessageCount : Z;
  Task_EventCount : Z;
  Task_Artifact : option ArtifactRef;
  Task_Submission : option Submission;
  Task_CreatedAt : time;
  Task_UpdatedAt : time
}.

#[export] Instance Part_eq_dec : EqDecision Part.
Proof. solve_decision. Defined.
#[export] Instance MessageInput_eq_dec : EqDecision MessageInput.
Proof. solve_decision. Defined.
#[export] Instance Message_eq_dec : EqDecision Message.
Proof. solve_decision. Defined.
#[export] Instance Submission_eq_dec : EqDecision Submission.
Proof. solve_decision. Defined.
#[export] Instance Task_eq_dec : EqDecision Task.
Proof. solve_decision. Defined.

(** [MaxPageSize]. *)
Definition MaxPageSize : Z := 100.

Record PageRequest := { PageRequest_After : Z; PageRequest_Limit : Z }.
Record MessagePage := {
  MessagePage_Items : list Message; MessagePage_Next : Z; MessagePage_HasMore : bool }.

Record TaskPageCursor := {
  TaskPageCursor_CreatedAt : time;
  TaskPageCursor_Workspace : WorkspaceID;
  TaskPageCursor_Task : TaskID
}.
Record TaskPageRequest := {
  TaskPageRequest_After : option TaskPageCursor; TaskPageRequest_Limit : Z }.
Record TaskPage := {
  TaskPage_Items : list Task; TaskPage_Next : option TaskPageCursor; TaskPage_HasMore : bool }.

Record TaskQueryCursor := {
  TaskQueryCursor_UpdatedAt : time;
  TaskQueryCursor_Workspace : WorkspaceID;
  TaskQueryCursor_Task : TaskID
}.

(** [Context] at the empty string and [State] at [TaskStateOther ""] do not
    filter. *)
Record TaskQuery := {
  TaskQuery_Context : ContextID;
  TaskQuery_State : TaskState;
  TaskQuery_UpdatedAtOrAfter : option time;
  TaskQuery_After : option TaskQueryCursor;
  TaskQuery_Limit : Z
}.
Record TaskQueryPage := {
  TaskQueryPage_Items : list Task;
  TaskQueryPage_Next : option TaskQueryCursor;
  TaskQueryPage_HasMore : bool;
  TaskQueryPage_TotalSize : Z
}.

Record TaskSnapshot := { TaskSnapshot_Task : Task; TaskSnapshot_EventCursor : Z }.

(* ------------------------------------------------------------------ *)
(** ** Commands and leases *)

Record CommandMeta := { CommandMeta_ID : CommandID; CommandMeta_ExpectedRevision : Z }.

Record LeaseGrant := {
  LeaseGrant_Task : TaskRef; LeaseGrant_Worker : WorkerID; LeaseGrant_Fence : LeaseFence }.

Record LeaseAssignment := {
  LeaseAssignment_Grant : LeaseGrant;
  LeaseAssignment_Task : Task;
  LeaseAssignment_GrantedAt : time
}.

#[export] Instance CommandMeta_eq_dec : EqDecision CommandMeta.
Proof. solve_decision. Defined.
#[export] Instance LeaseGrant_eq_dec : EqDecision LeaseGrant.
Proof. solve_decision. Defined.
#[export] Instance LeaseAssignment_eq_dec : EqDecision LeaseAssignment.
Proof. solve_decision. Defined.

Record LeasePageCursor := {
  LeasePageCursor_GrantedAt : time;
  LeasePageCursor_Workspace : WorkspaceID;
  LeasePageCursor_Task : TaskID;
  LeasePageCursor_Fence : LeaseFence
}.
Record LeasePageRequest := {
  LeasePageRequest_After : option LeasePageCursor; LeasePageRequest_Limit : Z }.
Record LeasePage := {
  LeasePage_Items : list LeaseAssignment;
  LeasePage_Next : option LeasePageCursor;
  LeasePage_HasMore : bool
}.

Record AcquireLeaseCommand := {
  AcquireLease_ID : CommandID; AcquireLease_Task : TaskRef; AcquireLease_Worker : WorkerID }.
Record ClaimLeaseCommand := {
  ClaimLease_ID : CommandID; ClaimLease_Authority : AuthorityID; ClaimLease_Worker : WorkerID }.
Record FenceLeaseCommand := { FenceLease_ID : CommandID; FenceLease_Grant : LeaseGrant }.

Record WorkerCommandMeta := {
  WorkerMeta_ID : CommandID; WorkerMeta_ExpectedRevision : Z; WorkerMeta_Grant : LeaseGrant }.

Record CreateTaskCommand := {
  CreateTask_Meta : CommandMeta; CreateTask_Task : TaskRef;
  CreateTask_Context : ContextRef; CreateTask_Message : MessageInput
}.
Record TaskCommand := { TaskCommand_Meta : CommandMeta; TaskCommand_Task : TaskRef }.
Record WorkerTaskCommand := {
  WorkerTaskCommand_Meta : WorkerCommandMeta; WorkerTaskCommand_Task : TaskRef }.
Record MessageCommand := {
  MessageCommand_Meta : CommandMeta; MessageCommand_Task : TaskRef;
  MessageCommand_Message : MessageInput
}.
Record WorkerMessageCommand := {
  WorkerMessage_Meta : WorkerCommandMeta; WorkerMessage_Task : TaskRef;
  WorkerMessage_Message : MessageInput
}.
Record CompleteTaskCommand := {
  CompleteTask_Meta : WorkerCommandMeta; CompleteTask_Task : TaskRef;
  CompleteTask_Submission : SubmissionID; CompleteTask_Message : MessageInput;
  CompleteTask_Artifact : option ArtifactRef
}.

(* ------------------------------------------------------------------ *)
(** ** Artifacts and receipts *)

Inductive ArtifactState :=
  | ArtifactFrozen | ArtifactPublished | ArtifactDiscarded | ArtifactStateOther (s : string).

#[export] Instance ArtifactState_eq_dec : EqDecision ArtifactState.
Proof. solve_decision. Defined.

(** [workspace.Payload] and [workspace.ApplyDecision]. *)
Record Payload := { Payload_MediaType : string; Payload_Data : string }.

Inductive ApplyDecision :=
  | ApplySuccess | ApplyConflict | ApplyRejected | ApplyIndeterminate
  | ApplyDecisionOther (s : string).

#[export] Instance ApplyDecision_eq_dec : EqDecision ApplyDecision.
Proof. solve_decision. Defined.
#[export] Instance Payload_eq_dec : EqDecision Payload.
Proof. solve_decision. Defined.

Definition ApplyDecision_Valid (d : ApplyDecision) : bool :=
  match d with
  | ApplySuccess | ApplyConflict | ApplyRejected | ApplyIndeterminate => true
  | ApplyDecisionOther _ => false
  end.

Record Artifact := {
  Artifact_Ref : ArtifactRef;
  Artifact_Task : TaskRef;
  Artifact_State : ArtifactState;
  Artifact_BaseRevision : Revision;
  Artifact_ResultRevision : Revision;
  Artifact_Digest : Digest;
  Artifact_PayloadDigest : Digest;
  Artifact_PayloadSize : Z;
  Artifact_MediaType : string;
  Artifact_FrozenAt : time;
  Artifact_PublishedAt : option time;
  Artifact_DiscardedAt : option time
}.

#[export] Instance Artifact_eq_dec : EqDecision Artifact.
Proof. solve_decision. Defined.

Record ArtifactContent := {
  ArtifactContent_Artifact : Artifact; ArtifactContent_Payload : Payload }.

Record FreezeArtifactCommand := {
  FreezeArtifact_Meta : WorkerCommandMeta;
  FreezeArtifact_Task : TaskRef;
  FreezeArtifact_Artifact : ArtifactID;
  FreezeArtifact_ExpectedBaseRevision : Revision;
  FreezeArtifact_Payload : Payload
}.

Record FreezeArtifactResult := { FreezeResult_Task : Task; FreezeResult_Artifact : Artifact }.

#[export] Instance FreezeArtifactResult_eq_dec : EqDecision FreezeArtifactResult.
Proof. solve_decision. Defined.

Record RecordApplyReceiptCommand := {
  RecordReceipt_CommandID : CommandID;
  RecordReceipt_Receipt : ApplyReceiptID;
  RecordReceipt_Artifact : ArtifactRef;
  RecordReceipt_ArtifactDigest : Digest;
  RecordReceipt_BaseRevision : Revision;
  RecordReceipt_ResultRevision : Revision;
  RecordReceipt_Decision : ApplyDecision;
  RecordReceipt_ObservedRevision : Revision;
  RecordReceipt_Code : string;
  RecordReceipt_Message : string
}.

Record ApplyReceipt := {
  ApplyReceipt_ID : ApplyReceiptID;
  ApplyReceipt_Artifact : ArtifactRef;
  ApplyReceipt_ArtifactDigest : Digest;
  ApplyReceipt_BaseRevision : Revision;
  ApplyReceipt_ResultRevision : Revision;
  ApplyReceipt_Decision : ApplyDecision;
  ApplyReceipt_ObservedRevision : Revision;
  ApplyReceipt_Code : string;
  ApplyReceipt_Message : string;
  ApplyReceipt_RecordedAt : time
}.

#[export] Instance ApplyReceipt_eq_dec : EqDecision ApplyReceipt.
Proof. solve_decision. Defined.

Record WorkspaceHead := {
  WorkspaceHead_Workspace : WorkspaceRef;
  WorkspaceHead_ConfirmedRevision : Revision;
  WorkspaceHead_UpdatedAt : time
}.

#[export] Instance WorkspaceHead_eq_dec : EqDecision WorkspaceHead.
Proof. solve_decision. Defined.

(* ------------------------------------------------------------------ *)
(** ** Events *)

Inductive EventType :=
  | EventTaskSubmitted | EventTaskAccepted | EventTaskRejected | EventInputRequired
  | EventCallerReplied | EventTaskCanceled | EventTaskFailed | EventTaskCompleted
  | EventArtifactFrozen | EventTypeOther (s : string).

#[export] Instance EventType_eq_dec : EqDecision EventType.
Proof. solve_decision. Defined.

Record Event := {
  Event_Task : TaskRef;
  Event_Sequence : Z;
  Event_Type : EventType;
  Event_State : TaskState;
  Event_Revision : Z;
  Event_Message : MessageID;
  Event_Submission : SubmissionID;
  Event_Artifact : ArtifactID;
  Event_OccurredAt : time
}.

#[export] Instance Event_eq_dec : EqDecision Event.
Proof. solve_decision. Defined.

Record EventPage := {
  EventPage_Items : list Event; EventPage_Next : Z; EventPage_HasMore : bool }.

(* ------------------------------------------------------------------ *)
(** ** Errors

    An error is its identity under [errors.Is] and [errors.As]: the sentinel it
    wraps, with the fields of the typed errors.  The texts added by
    [fmt.Errorf] are not modelled. *)

Inductive StoreRecordKind :=
  | StoreRecordCommand | StoreRecordTask | StoreRecordMessage | StoreRecordEvent
  | StoreRecordLeaseGrant | StoreRecordWorkspaceHead | StoreRecordArtifact
  | StoreRecordSubmission | StoreRecordApplyReceipt.

Inductive StoreConstraint :=
  | StoreConstraintCommandID | StoreConstraintTaskKey | StoreConstraintPublicTaskID
  | StoreConstraintMessageID | StoreConstraintMessageSequence | StoreConstraintEventSequence
  | StoreConstraintLeaseFence | StoreConstraintArtifactID | StoreConstraintArtifactTask
  | StoreConstraintSubmissionID | StoreConstraintReceiptID.

#[export] Instance StoreRecordKind_eq_dec : EqDecision StoreRecordKind.
Proof. solve_decision. Defined.
#[export] Instance StoreConstraint_eq_dec : EqDecision StoreConstraint.
Proof. solve_decision. Defined.

Inductive error :=
  | ErrInvalidArgument | ErrNotFound | ErrIdempotencyConflict | ErrRevisionConflict
  | ErrInvalidTransition | ErrTerminalTask | ErrTaskConflict | ErrMessageConflict
  | ErrSubmissionConflict | ErrArtifactNotFound | ErrArtifactConflict | ErrArtifactState
  | ErrWorkspaceConflict | ErrWorkspaceNotFound | ErrReceiptNotFound | ErrReceiptConflict
  | ErrLeaseNotFound | ErrLeaseUnavailable | ErrStaleLease | ErrLeaseFenceExhausted
  | ErrCorruptStore | ErrProtectionDowngrade | ErrClosed
  (* agent/store.go *)
  | ErrStoreRecordNotFound | ErrStoreConflict | ErrStoreCommitUnknown | ErrStoreClosed
  | ErrStoreRecordTooLarge
  | StoreNotFoundError (Record_ : StoreRecordKind) (Key : string)
  | StoreConflictError (Constraint_ : StoreConstraint) (Key : string)
  | StoreLimitError (Record_ : StoreRecordKind) (Limit : Z)
  | RevisionConflictError (Expected Actual : Z)
  | TransitionError (Operation : string) (State : TaskState) (Terminal_ : bool)
  (* protect *)
  | ErrInvalidBinding | ErrInvalidEnvelope | ErrAuthentication | ErrKeyUnavailable
  | ErrProviderUnavailable | ErrInvalidStoredEnvelope | ErrInvalidStoredValue
  (* framework, humantest *)
  | ErrContractMismatch | ErrResourceReleased | ErrStoreDescription
  | ErrMemoryAgentStoreImageInUse
  (* errors of other packages, by an identifying text *)
  | ErrForeign (s : string)
  (* errors.Join *)
  | Join (left right : error).

#[export] Instance error_eq_dec : EqDecision error.
Proof. solve_decision. Defined.

(** [errors.Is]: the error or one it unwraps to is the target. *)
Fixpoint errors_Is (e target : error) : bool :=
  (e =?= target) ||
  match e with
  | RevisionConflictError _ _ => ErrRevisionConflict =?= target
  | TransitionError _ _ terminal =>
      (if terminal then ErrTerminalTask else ErrInvalidTransition) =?= target
  | StoreNotFoundError _ _ => ErrStoreRecordNotFound =?= target
  | StoreConflictError _ _ => ErrStoreConflict =?= target
  | StoreLimitError _ _ => ErrStoreRecordTooLarge =?= target
  | Join l r => errors_Is l target || errors_Is r target
  | _ => false
  end.

Abbreviation res A := (outcome error A).

(** A [context.Context] argument: nil, or a context that is live or done with
    its error, at the time of the call. *)
Inductive goctx := NilContext | Context (err : option error).
