(* ===== verification/AgentCodec.v ===== *)
(** * JSON forms and digests (struct tags of agent/types.go; commandDigest,
    contentDigest, byteDigest of agent/agent.go; digestPayload, nextRevision,
    digestArtifact of agent/artifact.go)

    A structure's JSON form lists its fields in declaration order under their
    tags, leaving out empty [omitempty] fields.  [JsonCodec] is the interface
    the command receipts use: what [json.Marshal] writes for a result,
    [json.Unmarshal] reads back. *)

From S2P Require Import Prelude GoText GoEncoding GoTime GoJson AgentTypes.

Local Open Scope string_scope.

Class JsonCodec (A : Type) := {
  enc : A -> json;
  dec : option json -> option A;
  (** The values whose JSON form is exact: valid UTF-8 strings, counters that
      fit their width, times that an int64 of nanoseconds holds. *)
  codec_ok : A -> Prop;
  enc_json_ok : forall a, codec_ok a -> json_ok (enc a) = true;
  dec_enc : forall a, codec_ok a -> dec (Some (enc a)) = Some a
}.

Definition Marshal {A} `{JsonCodec A} (a : A) : string := print (enc a).
Definition Unmarshal {A} `{JsonCodec A} (s : string) : option A :=
  j ← parse s; dec (Some j).

Lemma unmarshal_marshal {A} `{JsonCodec A} (a : A) :
  codec_ok a -> Unmarshal (Marshal a) = Some a.
Proof.
  intros Ha. unfold Unmarshal, Marshal. rewrite parse_print by (by apply enc_json_ok).
  cbn [mbind option_bind]. by apply dec_enc.
Qed.

(* ------------------------------------------------------------------ *)
(** ** Identifiers and times *)

Definition enc_time (t : time) : json := JStr (format_rfc3339 t).
Definition dec_time (o : option json) : option time :=
  match o with
  | None | Some JNull => Some zero_time
  | Some (JStr s) => parse_rfc3339 s
  | Some _ => None
  end.

Definition enc_WorkspaceRef (r : WorkspaceRef) : json :=
  JObj [("authority", JStr (WorkspaceRef_Authority r)); ("id", JStr (WorkspaceRef_ID r))].
Definition dec_WorkspaceRef : option json -> option WorkspaceRef := dec_obj (fun l =>
  a ← dec_str (field "authority" l); i ← dec_str (field "id" l);
  Some {| WorkspaceRef_Authority := a; WorkspaceRef_ID := i |}).

Definition enc_ContextRef (r : ContextRef) : json :=
  JObj [("authority", JStr (ContextRef_Authority r)); ("id", JStr (ContextRef_ID r))].
Definition dec_ContextRef : option json -> option ContextRef := dec_obj (fun l =>
  a ← dec_str (field "authority" l); i ← dec_str (field "id" l);
  Some {| ContextRef_Authority := a; ContextRef_ID := i |}).

Definition enc_TaskRef (r : TaskRef) : json :=
  JObj [("workspace", enc_WorkspaceRef (TaskRef_Workspace r)); ("id", JStr (TaskRef_ID r))].
Definition dec_TaskRef : option json -> option TaskRef := dec_obj (fun l =>
  w ← dec_WorkspaceRef (field "workspace" l); i ← dec_str (field "id" l);
  Some {| TaskRef_Workspace := w; TaskRef_ID := i |}).

Definition enc_ArtifactRef (r : ArtifactRef) : json :=
  JObj [("workspace", enc_WorkspaceRef (ArtifactRef_Workspace r)); ("id", JStr (ArtifactRef_ID r))].
Definition dec_ArtifactRef : option json -> option ArtifactRef := dec_obj (fun l =>
  w ← dec_WorkspaceRef (field "workspace" l); i ← dec_str (field "id" l);
  Some {| ArtifactRef_Workspace := w; ArtifactRef_ID := i |}).

(* ------------------------------------------------------------------ *)
(** ** Commands (encoded only, for their digest) *)

Definition enc_Part (p : Part) : json :=
  JObj [("media_type", JStr (Part_MediaType p)); ("data", enc_bytes (Part_Data p))].
Definition enc_Parts (l : list Part) : json := JArr (enc_Part <$> l).
Definition enc_MessageInput (m : MessageInput) : json :=
  JObj [("id", JStr (MessageInput_ID m)); ("parts", enc_Parts (MessageInput_Parts m))].

Definition dec_Part : option json -> option Part := dec_obj (fun l =>
  m ← dec_str (field "media_type" l); d ← dec_bytes (field "data" l);
  Some {| Part_MediaType := m; Part_Data := d |}).
Definition dec_Parts (j : json) : option (list Part) :=
  match j with
  | JNull => Some []
  | JArr l => mapM (fun x => dec_Part (Some x)) l
  | _ => None
  end.

Definition enc_CommandMeta (m : CommandMeta) : json :=
  JObj [("id", JStr (CommandMeta_ID m)); ("expected_revision", JNum (CommandMeta_ExpectedRevision m))].

Definition enc_LeaseGrant (g : LeaseGrant) : json :=
  JObj [("task", enc_TaskRef (LeaseGrant_Task g)); ("worker", JStr (LeaseGrant_Worker g));
        ("fence", JNum (LeaseGrant_Fence g))].

Definition enc_WorkerCommandMeta (m : WorkerCommandMeta) : json :=
  JObj [("id", JStr (WorkerMeta_ID m)); ("expected_revision", JNum (WorkerMeta_ExpectedRevision m));
        ("grant", enc_LeaseGrant (WorkerMeta_Grant m))].

Definition enc_AcquireLease (c : AcquireLeaseCommand) : json :=
  JObj [("id", JStr (AcquireLease_ID c)); ("task", enc_TaskRef (AcquireLease_Task c));
        ("worker", JStr (AcquireLease_Worker c))].
Definition enc_ClaimLease (c : ClaimLeaseCommand) : json :=
  JObj [("id", JStr (ClaimLease_ID c)); ("authority", JStr (ClaimLease_Authority c));
        ("worker", JStr (ClaimLease_Worker c))].
Definition enc_FenceLease (c : FenceLeaseCommand) : json :=
  JObj [("id", JStr (FenceLease_ID c)); ("grant", enc_LeaseGrant (FenceLease_Grant c))].

Definition enc_CreateTask (c : CreateTaskCommand) : json :=
  JObj [("meta", enc_CommandMeta (CreateTask_Meta c)); ("task", enc_TaskRef (CreateTask_Task c));
        ("context", enc_ContextRef (CreateTask_Context c));
        ("message", enc_MessageInput (CreateTask_Message c))].
Definition enc_TaskCommand (c : TaskCommand) : json :=
  JObj [("meta", enc_CommandMeta (TaskCommand_Meta c)); ("task", enc_TaskRef (TaskCommand_Task c))].
Definition enc_WorkerTaskCommand (c : WorkerTaskCommand) : json :=
  JObj [("meta", enc_WorkerCommandMeta (WorkerTaskCommand_Meta c));
        ("task", enc_TaskRef (WorkerTaskCommand_Task c))].
Definition enc_MessageCommand (c : MessageCommand) : json :=
  JObj [("meta", enc_CommandMeta (MessageCommand_Meta c)); ("task", enc_TaskRef (MessageCommand_Task c));
        ("message", enc_MessageInput (MessageCommand_Message c))].
Definition enc_WorkerMessageCommand (c : WorkerMessageCommand) : json :=
  JObj [("meta", enc_WorkerCommandMeta (WorkerMessage_Meta c));
        ("task", enc_TaskRef (WorkerMessage_Task c));
        ("message", enc_MessageInput (WorkerMessage_Message c))].
Definition enc_CompleteTask (c : CompleteTaskCommand) : json :=
  JObj ([("meta", enc_WorkerCommandMeta (CompleteTask_Meta c));
         ("task", enc_TaskRef (CompleteTask_Task c));
         ("submission", JStr (CompleteTask_Submission c));
         ("message", enc_MessageInput (CompleteTask_Message c))]
        ++ opt_ptr "artifact" enc_ArtifactRef (CompleteTask_Artifact c))%list.

Definition enc_Payload (p : Payload) : json :=
  JObj [("media_type", JStr (Payload_MediaType p)); ("data", enc_bytes (Payload_Data p))].

Definition enc_FreezeArtifact (c : FreezeArtifactCommand) : json :=
  JObj [("meta", enc_WorkerCommandMeta (FreezeArtifact_Meta c));
        ("task", enc_TaskRef (FreezeArtifact_Task c));
        ("artifact", JStr (FreezeArtifact_Artifact c));
        ("expected_base_revision", JStr (FreezeArtifact_ExpectedBaseRevision c));
        ("payload", enc_Payload (FreezeArtifact_Payload c))].

Definition ApplyDecision_string (d : ApplyDecision) : string :=
  match d with
  | ApplySuccess => "success"
  | ApplyConflict => "conflict"
  | ApplyRejected => "rejected"
  | ApplyIndeterminate => "indeterminate"
  | ApplyDecisionOther s => s
  end.
Definition ApplyDecision_of_string (s : string) : ApplyDecision :=
  if String.eqb s "success" then ApplySuccess
  else if String.eqb s "conflict" then ApplyConflict
  else if String.eqb s "rejected" then ApplyRejected
  else if String.eqb s "indeterminate" then ApplyIndeterminate
  else ApplyDecisionOther s.

Definition enc_RecordApplyReceipt (c : RecordApplyReceiptCommand) : json :=
  JObj ([("command_id", JStr (RecordReceipt_CommandID c));
         ("receipt", JStr (RecordReceipt_Receipt c));
         ("artifact", enc_ArtifactRef (RecordReceipt_Artifact c));
         ("artifact_digest", JStr (RecordReceipt_ArtifactDigest c));
         ("base_revision", JStr (RecordReceipt_BaseRevision c));
         ("result_revision", JStr (RecordReceipt_ResultRevision c));
         ("decision", JStr (ApplyDecision_string (RecordReceipt_Decision c)))]
        ++ opt_str "observed_revision" (RecordReceipt_ObservedRevision c)
        ++ opt_str "code" (RecordReceipt_Code c)
        ++ opt_str "message" (RecordReceipt_Message c))%list.

(* ------------------------------------------------------------------ *)
(** ** Results *)

Definition enc_Submission (s : Submission) : json :=
  JObj ([("id", JStr (Submission_ID s)); ("task", enc_TaskRef (Submission_Task s));
         ("final_message", JStr (Submission_FinalMessage s))]
        ++ opt_ptr "artifact" enc_ArtifactRef (Submission_Artifact s)
        ++ [("published_at", enc_time (Submission_PublishedAt s))])%list.
Definition dec_Submission : option json -> option Submission := dec_obj (fun l =>
  i ← dec_str (field "id" l); t ← dec_TaskRef (field "task" l);
  m ← dec_str (field "final_message" l); a ← dec_ptr dec_ArtifactRef (field "artifact" l);
  p ← dec_time (field "published_at" l);
  Some {| Submission_ID := i; Submission_Task := t; Submission_FinalMessage := m;
          Submission_Artifact := a; Submission_PublishedAt := p |}).

Definition enc_Task (t : Task) : json :=
  JObj ([("ref", enc_TaskRef (Task_Ref t)); ("context", enc_ContextRef (Task_Context t));
         ("state", JStr (TaskState_string (Task_State t))); ("revision", JNum (Task_Revision t));
         ("message_count", JNum (Task_MessageCount t)); ("event_count", JNum (Task_EventCount t))]
        ++ opt_ptr "artifact" enc_ArtifactRef (Task_Artifact t)
        ++ opt_ptr "submission" enc_Submission (Task_Submission t)
        ++ [("created_at", enc_time (Task_CreatedAt t)); ("updated_at", enc_time (Task_UpdatedAt t))])%list.
Definition dec_Task : option json -> option Task := dec_obj (fun l =>
  r ← dec_TaskRef (field "ref" l); c ← dec_ContextRef (field "context" l);
  s ← dec_str (field "state" l); rev ← dec_uint64 (field "revision" l);
  mc ← dec_uint64 (field "message_count" l); ec ← dec_uint64 (field "event_count" l);
  a ← dec_ptr dec_ArtifactRef (field "artifact" l);
  sub ← dec_ptr dec_Submission (field "submission" l);
  ca ← dec_time (field "created_at" l); ua ← dec_time (field "updated_at" l);
  Some {| Task_Ref := r; Task_Context := c; Task_State := TaskState_of_string s;
          Task_Revision := rev; Task_MessageCount := mc; Task_EventCount := ec;
          Task_Artifact := a; Task_Submission := sub;
          Task_CreatedAt := ca; Task_UpdatedAt := ua |}).

Definition dec_LeaseGrant : option json -> option LeaseGrant := dec_obj (fun l =>
  t ← dec_TaskRef (field "task" l); w ← dec_str (field "worker" l);
  f ← dec_uint64 (field "fence" l);
  Some {| LeaseGrant_Task := t; LeaseGrant_Worker := w; LeaseGrant_Fence := f |}).

Definition enc_LeaseAssignment (a : LeaseAssignment) : json :=
  JObj [("grant", enc_LeaseGrant (LeaseAssignment_Grant a)); ("task", enc_Task (LeaseAssignment_Task a));
        ("granted_at", enc_time (LeaseAssignment_GrantedAt a))].
Definition dec_LeaseAssignment : option json -> option LeaseAssignment := dec_obj (fun l =>
  g ← dec_LeaseGrant (field "grant" l); t ← dec_Task (field "task" l);
  a ← dec_time (field "granted_at" l);
  Some {| LeaseAssignment_Grant := g; LeaseAssignment_Task := t; LeaseAssignment_GrantedAt := a |}).

Definition ArtifactState_string (s : ArtifactState) : string :=
  match s with
  | ArtifactFrozen => "frozen"
  | ArtifactPublished => "published"
  | ArtifactDiscarded => "discarded"
  | ArtifactStateOther s => s
  end.
Definition ArtifactState_of_string (s : string) : ArtifactState :=
  if String.eqb s "frozen" then ArtifactFrozen
  else if String.eqb s "published" then ArtifactPublished
  else if String.eqb s "discarded" then ArtifactDiscarded
  else ArtifactStateOther s.

Definition enc_Artifact (a : Artifact) : json :=
  JObj ([("ref", enc_ArtifactRef (Artifact_Ref a)); ("task", enc_TaskRef (Artifact_Task a));
         ("state", JStr (ArtifactState_string (Artifact_State a)));
         ("base_revision", JStr (Artifact_BaseRevision a));
         ("result_revision", JStr (Artifact_ResultRevision a));
         ("digest", JStr (Artifact_Digest a)); ("payload_digest", JStr (Artifact_PayloadDigest a));
         ("payload_size", JNum (Artifact_PayloadSize a)); ("media_type", JStr (Artifact_MediaType a));
         ("frozen_at", enc_time (Artifact_FrozenAt a))]
        ++ opt_ptr "published_at" enc_time (Artifact_PublishedAt a)
        ++ opt_ptr "discarded_at" enc_time (Artifact_DiscardedAt a))%list.
Definition dec_Artifact : option json -> option Artifact := dec_obj (fun l =>
  r ← dec_ArtifactRef (field "ref" l); t ← dec_TaskRef (field "task" l);
  s ← dec_str (field "state" l); b ← dec_str (field "base_revision" l);
  rr ← dec_str (field "result_revision" l); d ← dec_str (field "digest" l);
  pd ← dec_str (field "payload_digest" l); ps ← dec_int64 (field "payload_size" l);
  m ← dec_str (field "media_type" l); f ← dec_time (field "frozen_at" l);
  p ← dec_ptr dec_time (field "published_at" l); x ← dec_ptr dec_time (field "discarded_at" l);
  Some {| Artifact_Ref := r; Artifact_Task := t; Artifact_State := ArtifactState_of_string s;
          Artifact_BaseRevision := b; Artifact_ResultRevision := rr; Artifact_Digest := d;
          Artifact_PayloadDigest := pd; Artifact_PayloadSize := ps; Artifact_MediaType := m;
          Artifact_FrozenAt := f; Artifact_PublishedAt := p; Artifact_DiscardedAt := x |}).

Definition enc_FreezeResult (r : FreezeArtifactResult) : json :=
  JObj [("task", enc_Task (FreezeResult_Task r)); ("artifact", enc_Artifact (FreezeResult_Artifact r))].
Definition dec_FreezeResult : option json -> option FreezeArtifactResult := dec_obj (fun l =>
  t ← dec_Task (field "task" l); a ← dec_Artifact (field "artifact" l);
  Some {| FreezeResult_Task := t; FreezeResult_Artifact := a |}).

Definition enc_ApplyReceipt (r : ApplyReceipt) : json :=
  JObj ([("id", JStr (ApplyReceipt_ID r)); ("artifact", enc_ArtifactRef (ApplyReceipt_Artifact r));
         ("artifact_digest", JStr (ApplyReceipt_ArtifactDigest r));
         ("base_revision", JStr (ApplyReceipt_BaseRevision r));
         ("result_revision", JStr (ApplyReceipt_ResultRevision r));
         ("decision", JStr (ApplyDecision_string (ApplyReceipt_Decision r)))]
        ++ opt_str "observed_revision" (ApplyReceipt_ObservedRevision r)
        ++ opt_str "code" (ApplyReceipt_Code r)
        ++ opt_str "message" (ApplyReceipt_Message r)
        ++ [("recorded_at", enc_time (ApplyReceipt_RecordedAt r))])%list.
Definition dec_ApplyReceipt : option json -> option ApplyReceipt := dec_obj (fun l =>
  i ← dec_str (field "id" l); a ← dec_ArtifactRef (field "artifact" l);
  d ← dec_str (field "artifact_digest" l); b ← dec_str (field "base_revision" l);
  r ← dec_str (field "result_revision" l); s ← dec_str (field "decision" l);
  o ← dec_str (field "observed_revision" l); c ← dec_str (field "code" l);
  m ← dec_str (field "message" l); t ← dec_time (field "recorded_at" l);
  Some {| ApplyReceipt_ID := i; ApplyReceipt_Artifact := a; ApplyReceipt_ArtifactDigest := d;
          ApplyReceipt_BaseRevision := b; ApplyReceipt_ResultRevision := r;
          ApplyReceipt_Decision := ApplyDecision_of_string s; ApplyReceipt_ObservedRevision := o;
          ApplyReceipt_Code := c; ApplyReceipt_Message := m; ApplyReceipt_RecordedAt := t |}).

(* ------------------------------------------------------------------ *)
(** ** Digests *)

Definition byteDigest (value : string) : string := hex_encode (Sha256.Sum256 value).

Definition commandDigest (kind : string) (command : json) : string :=
  byteDigest (print (JObj [("kind", JStr kind); ("command", command)])).

Definition contentDigest (parts : list Part) : string := byteDigest (print (enc_Parts parts)).

Definition sha256Identity (payload : string) : Digest := "sha256:" ++ byteDigest payload.

Definition digestPayload (p : Payload) : Digest := sha256Identity (print (enc_Payload p)).

Definition nextRevision (base : Revision) (ref : ArtifactRef) (payload : Digest) : Revision :=
  sha256Identity (print (JObj [("base", JStr base); ("surface", JStr "agent");
    ("artifact", enc_ArtifactRef ref); ("payload", JStr payload)])).

Definition digestArtifact (ref : ArtifactRef) (task : TaskRef) (base result : Revision)
    (payload : Digest) (mediaType : string) : Digest :=
  sha256Identity (print (JObj [("ref", enc_ArtifactRef ref); ("task", enc_TaskRef task);
    ("base", JStr base); ("result", JStr result); ("payload", JStr payload);
    ("media_type", JStr mediaType)])).

(* ------------------------------------------------------------------ *)
(** ** The results read back *)

Definition WorkspaceRef_utf8 (r : WorkspaceRef) : bool :=
  valid_string (WorkspaceRef_Authority r) && valid_string (WorkspaceRef_ID r).
Definition ContextRef_utf8 (r : ContextRef) : bool :=
  valid_string (ContextRef_Authority r) && valid_string (ContextRef_ID r).
Definition TaskRef_utf8 (r : TaskRef) : bool :=
  WorkspaceRef_utf8 (TaskRef_Workspace r) && valid_string (TaskRef_ID r).
Definition ArtifactRef_utf8 (r : ArtifactRef) : bool :=
  WorkspaceRef_utf8 (ArtifactRef_Workspace r) && valid_string (ArtifactRef_ID r).

Definition on_some {A} (P : A -> Prop) (o : option A) : Prop :=
  match o with Some v => P v | None => True end.

Definition Submission_ok (s : Submission) : Prop :=
  valid_string (Submission_ID s) = true /\ TaskRef_utf8 (Submission_Task s) = true /\
  valid_string (Submission_FinalMessage s) = true /\
  on_some (fun a => ArtifactRef_utf8 a = true) (Submission_Artifact s) /\
  in_int64 (Submission_PublishedAt s).

Definition Task_ok (t : Task) : Prop :=
  TaskRef_utf8 (Task_Ref t) = true /\ ContextRef_utf8 (Task_Context t) = true /\
  TaskState_of_string (TaskState_string (Task_State t)) = Task_State t /\
  valid_string (TaskState_string (Task_State t)) = true /\
  (0 <= Task_Revision t <= max_uint64)%Z /\ (0 <= Task_MessageCount t <= max_uint64)%Z /\
  (0 <= Task_EventCount t <= max_uint64)%Z /\
  on_some (fun a => ArtifactRef_utf8 a = true) (Task_Artifact t) /\
  on_some Submission_ok (Task_Submission t) /\
  in_int64 (Task_CreatedAt t) /\ in_int64 (Task_UpdatedAt t).

Definition LeaseGrant_ok (g : LeaseGrant) : Prop :=
  TaskRef_utf8 (LeaseGrant_Task g) = true /\ valid_string (LeaseGrant_Worker g) = true /\
  (0 <= LeaseGrant_Fence g <= max_uint64)%Z.

Definition LeaseAssignment_ok (a : LeaseAssignment) : Prop :=
  LeaseGrant_ok (LeaseAssignment_Grant a) /\ Task_ok (LeaseAssignment_Task a) /\
  in_int64 (LeaseAssignment_GrantedAt a).

Definition Artifact_ok (a : Artifact) : Prop :=
  ArtifactRef_utf8 (Artifact_Ref a) = true /\ TaskRef_utf8 (Artifact_Task a) = true /\
  ArtifactState_of_string (ArtifactState_string (Artifact_State a)) = Artifact_State a /\
  valid_string (ArtifactState_string (Artifact_State a)) = true /\
  valid_string (Artifact_BaseRevision a) = true /\ valid_string (Artifact_ResultRevision a) = true /\
  valid_string (Artifact_Digest a) = true /\ valid_string (Artifact_PayloadDigest a) = true /\
  in_int64 (Artifact_PayloadSize a) /\ valid_string (Artifact_MediaType a) = true /\
  in_int64 (Artifact_FrozenAt a) /\
  on_some in_int64 (Artifact_PublishedAt a) /\ on_some in_int64 (Artifact_DiscardedAt a).

Definition FreezeResult_ok (r : FreezeArtifactResult) : Prop :=
  Task_ok (FreezeResult_Task r) /\ Artifact_ok (FreezeResult_Artifact r).

Definition ApplyReceipt_ok (r : ApplyReceipt) : Prop :=
  valid_string (ApplyReceipt_ID r) = true /\ ArtifactRef_utf8 (ApplyReceipt_Artifact r) = true /\
  valid_string (ApplyReceipt_ArtifactDigest r) = true /\
  valid_string (ApplyReceipt_BaseRevision r) = true /\
  valid_string (ApplyReceipt_ResultRevision r) = true /\
  ApplyDecision_of_string (ApplyDecision_string (ApplyReceipt_Decision r)) = ApplyReceipt_Decision r /\
  valid_string (ApplyDecision_string (ApplyReceipt_Decision r)) = true /\
  valid_string (ApplyReceipt_ObservedRevision r) = true /\ valid_string (ApplyReceipt_Code r) = true /\
  valid_string (ApplyReceipt_Message r) = true /\ in_int64 (ApplyReceipt_RecordedAt r).

Lemma time_utf8 t : valid_string (format_rfc3339 t) = true.
Proof. apply is_ascii_valid, format_rfc3339_ascii. Qed.

Lemma dec_enc_time t : in_int64 t -> dec_time (Some (enc_time t)) = Some t.
Proof. apply rfc3339_roundtrip. Qed.

Lemma dec_int_num lo hi z : (lo <= z <= hi)%Z -> dec_int lo hi (Some (JNum z)) = Some z.
Proof. intros H. cbn. by rewrite !(proj2 (Z.leb_le _ _)) by lia. Qed.

Lemma dec_enc_WorkspaceRef r : dec_WorkspaceRef (Some (enc_WorkspaceRef r)) = Some r.
Proof. by destruct r. Qed.
Lemma dec_enc_ContextRef r : dec_ContextRef (Some (enc_ContextRef r)) = Some r.
Proof. by destruct r. Qed.
Lemma dec_enc_TaskRef r : dec_TaskRef (Some (enc_TaskRef r)) = Some r.
Proof. by destruct r as [[]]. Qed.
Lemma dec_enc_ArtifactRef r : dec_ArtifactRef (Some (enc_ArtifactRef r)) = Some r.
Proof. by destruct r as [[]]. Qed.

Lemma dec_ptr_some {A} (f : option json -> option A) j v :
  j <> JNull -> f (Some j) = Some v -> dec_ptr f (Some j) = Some (Some v).
Proof. intros Hj Hf. unfold dec_ptr. rewrite Hf. by destruct j. Qed.

Create HintDb codec.
#[export] Hint Rewrite dec_enc_WorkspaceRef dec_enc_ContextRef dec_enc_TaskRef dec_enc_ArtifactRef
  time_utf8 : codec.

#[global] Arguments enc_TaskRef : simpl never.
#[global] Arguments enc_ArtifactRef : simpl never.
#[global] Arguments enc_WorkspaceRef : simpl never.
#[global] Arguments enc_ContextRef : simpl never.
#[global] Arguments dec_TaskRef : simpl never.
#[global] Arguments dec_ArtifactRef : simpl never.
#[global] Arguments dec_WorkspaceRef : simpl never.
#[global] Arguments dec_ContextRef : simpl never.
#[global] Arguments enc_time : simpl never.
#[global] Arguments dec_time : simpl never.
#[global] Arguments dec_int : simpl never.
#[global] Arguments valid_string : simpl never.

(** Decoding one field after another, each read back by its lemma. *)
Ltac decode_fields :=
  repeat first
    [ progress cbn
    | progress autorewrite with codec
    | rewrite dec_enc_time by (assumption || lia)
    | rewrite dec_int_num by (assumption || lia)
    | match goal with H : _ = _ |- _ => rewrite H end ].

Lemma dec_enc_Submission s : Submission_ok s -> dec_Submission (Some (enc_Submission s)) = Some s.
Proof.
  destruct s as [i t m [a|] p]; unfold Submission_ok, enc_Submission, dec_Submission; cbn;
    intros (_ & _ & _ & _ & Hp); unfold dec_ptr; decode_fields; done.
Qed.

#[global] Arguments enc_Submission : simpl never.
#[global] Arguments dec_Submission : simpl never.

Lemma dec_enc_Task t : Task_ok t -> dec_Task (Some (enc_Task t)) = Some t.
Proof.
  destruct t as [r c s rev mc ec a sub ca ua].
  unfold Task_ok, enc_Task, dec_Task, dec_uint64; cbn.
  intros (_ & _ & Hs & _ & Hrev & Hmc & Hec & _ & Hsub & Hca & Hua).
  assert (forall o, on_some Submission_ok o ->
    dec_ptr dec_Submission (enc_Submission <$> o) = Some o) as Hdec.
  { intros [v|]; cbn; [|done]. intros Hv. by rewrite dec_enc_Submission. }
  specialize (Hdec _ Hsub).
  assert (forall o : option ArtifactRef, dec_ptr dec_ArtifactRef (enc_ArtifactRef <$> o) = Some o) as Ha.
  { intros [v|]; cbn; [|done]. by rewrite dec_enc_ArtifactRef. }
  specialize (Ha a). destruct a as [a|], sub as [sub|]; cbn in *; decode_fields; done.
Qed.

#[global] Arguments enc_Task : simpl never.
#[global] Arguments dec_Task : simpl never.

Lemma dec_enc_LeaseGrant g : LeaseGrant_ok g -> dec_LeaseGrant (Some (enc_LeaseGrant g)) = Some g.
Proof.
  destruct g. unfold LeaseGrant_ok, enc_LeaseGrant, dec_LeaseGrant, dec_uint64; cbn.
  intros (_ & _ & Hf). decode_fields. done.
Qed.

#[global] Arguments enc_LeaseGrant : simpl never.
#[global] Arguments dec_LeaseGrant : simpl never.

Lemma dec_enc_LeaseAssignment a :
  LeaseAssignment_ok a -> dec_LeaseAssignment (Some (enc_LeaseAssignment a)) = Some a.
Proof.
  destruct a. unfold LeaseAssignment_ok, enc_LeaseAssignment, dec_LeaseAssignment; cbn.
  intros (Hg & Ht & Ha). rewrite dec_enc_LeaseGrant by done. cbn.
  rewrite dec_enc_Task by done. decode_fields. done.
Qed.

Lemma dec_enc_Artifact a : Artifact_ok a -> dec_Artifact (Some (enc_Artifact a)) = Some a.
Proof.
  destruct a as [r t s b rr d pd ps m f p x].
  unfold Artifact_ok, enc_Artifact, dec_Artifact, dec_int64; cbn.
  intros (_ & _ & Hs & _ & _ & _ & _ & _ & Hps & _ & Hf & Hp & Hx).
  unfold in_int64 in Hps.
  assert (forall o, on_some in_int64 o -> dec_ptr dec_time (enc_time <$> o) = Some o) as Hdec.
  { intros [v|]; cbn; [|done]. intros Hv. by rewrite dec_enc_time. }
  pose proof (Hdec _ Hp) as Hdp. pose proof (Hdec _ Hx) as Hdx.
  destruct p as [p|], x as [x|]; cbn in *; decode_fields; done.
Qed.

#[global] Arguments enc_Artifact : simpl never.
#[global] Arguments dec_Artifact : simpl never.

Lemma dec_enc_FreezeResult r :
  FreezeResult_ok r -> dec_FreezeResult (Some (enc_FreezeResult r)) = Some r.
Proof.
  destruct r. unfold FreezeResult_ok, enc_FreezeResult, dec_FreezeResult; cbn.
  intros (Ht & Ha). rewrite dec_enc_Task by done. cbn. by rewrite dec_enc_Artifact.
Qed.

Lemma dec_opt_str k s : dec_str (field k (opt_str k s)) = Some s.
Proof.
  unfold opt_str. destruct (is_empty s) eqn:E; [by apply is_empty_true in E as ->|].
  cbn. by rewrite String.eqb_refl.
Qed.

Lemma dec_enc_ApplyReceipt r :
  ApplyReceipt_ok r -> dec_ApplyReceipt (Some (enc_ApplyReceipt r)) = Some r.
Proof.
  destruct r as [i a d b rr de o c m t].
  unfold ApplyReceipt_ok, enc_ApplyReceipt, dec_ApplyReceipt; cbn.
  intros (_ & _ & _ & _ & _ & Hd & _ & _ & _ & _ & Ht). unfold opt_str.
  destruct (is_empty o) eqn:Eo, (is_empty c) eqn:Ec, (is_empty m) eqn:Em;
    rewrite ?is_empty_true in *; subst; decode_fields; done.
Qed.

(* ------------------------------------------------------------------ *)
(** ** The results' JSON forms are exact *)

Ltac encode_fields :=
  repeat first
    [ progress bool_split
    | match goal with
      | |- (_ && _)%bool = true => apply andb_true_iff; split
      | |- true = true => reflexivity
      | H : ?x = true |- ?x = true => exact H
      | |- json_ok (enc_time _) = true => apply time_utf8
      | |- json_ok (JStr _) = true => cbn
      | |- json_ok (JNum _) = true => reflexivity
      | |- valid_string (String _ _) = true => reflexivity
      end ].

Lemma enc_WorkspaceRef_json r : WorkspaceRef_utf8 r = true -> json_ok (enc_WorkspaceRef r) = true.
Proof.
  unfold WorkspaceRef_utf8, enc_WorkspaceRef. intros H. cbn. encode_fields.
Qed.
Lemma enc_ContextRef_json r : ContextRef_utf8 r = true -> json_ok (enc_ContextRef r) = true.
Proof. unfold ContextRef_utf8, enc_ContextRef. intros H. cbn. encode_fields. Qed.
Lemma enc_TaskRef_json r : TaskRef_utf8 r = true -> json_ok (enc_TaskRef r) = true.
Proof.
  unfold TaskRef_utf8, enc_TaskRef. intros H. cbn. bool_split.
  rewrite enc_WorkspaceRef_json by done. encode_fields.
Qed.
Lemma enc_ArtifactRef_json r : ArtifactRef_utf8 r = true -> json_ok (enc_ArtifactRef r) = true.
Proof.
  unfold ArtifactRef_utf8, enc_ArtifactRef. intros H. cbn. bool_split.
  rewrite enc_WorkspaceRef_json by done. encode_fields.
Qed.

(** An object is exact when each of its members is. *)
Definition member_ok (m : string * json) : bool := valid_string (fst m) && json_ok (snd m).

Lemma json_ok_obj l : json_ok (JObj l) = forallb member_ok l.
Proof. done. Qed.
Lemma member_ok_pair k j : member_ok (k, j) = valid_string k && json_ok j.
Proof. done. Qed.
Lemma members_opt_str k s :
  valid_string k = true -> valid_string s = true -> forallb member_ok (opt_str k s) = true.
Proof.
  intros Hk Hs. unfold opt_str. destruct (is_empty s); [done|].
  cbn. unfold member_ok. cbn. by rewrite Hk, Hs.
Qed.
Lemma members_opt_ptr {A} k (f : A -> json) (P : A -> Prop) o :
  valid_string k = true -> (forall a, P a -> json_ok (f a) = true) -> on_some P o ->
  forallb member_ok (opt_ptr k f o) = true.
Proof.
  intros Hk Hf Ho. destruct o as [a|]; [|done]. cbn in *. unfold member_ok. cbn.
  by rewrite Hk, Hf.
Qed.

#[export] Hint Resolve enc_TaskRef_json enc_ArtifactRef_json enc_ContextRef_json
  enc_WorkspaceRef_json : codec.

(** Reduce the exactness of an object to that of its members' values. *)
Ltac object_fields :=
  rewrite json_ok_obj, ?forallb_app; cbn [forallb app]; rewrite ?member_ok_pair;
  repeat match goal with |- (_ && _)%bool = true => apply andb_true_intro; split end;
  first [ match goal with |- valid_string (String _ _) = true => reflexivity | |- true = true => reflexivity end
        | apply time_utf8 | by auto with codec
        | eapply members_opt_ptr; [reflexivity | | eassumption]; cbn; auto with codec;
          intros; apply time_utf8
        | eapply members_opt_str; [reflexivity | done]
        | idtac ].

Lemma enc_Submission_json s : Submission_ok s -> json_ok (enc_Submission s) = true.
Proof.
  intros (Hi & Ht & Hm & Ha & _). unfold enc_Submission. object_fields.
Qed.
#[export] Hint Resolve enc_Submission_json : codec.

Lemma enc_Task_json t : Task_ok t -> json_ok (enc_Task t) = true.
Proof.
  intros (Hr & Hc & _ & Hs & _ & _ & _ & Ha & Hsub & _ & _). unfold enc_Task. object_fields.
Qed.

Lemma enc_LeaseGrant_json g : LeaseGrant_ok g -> json_ok (enc_LeaseGrant g) = true.
Proof. intros (Ht & Hw & _). unfold enc_LeaseGrant. object_fields. Qed.
#[export] Hint Resolve enc_Task_json enc_LeaseGrant_json : codec.

Lemma enc_LeaseAssignment_json a :
  LeaseAssignment_ok a -> json_ok (enc_LeaseAssignment a) = true.
Proof. intros (Hg & Ht & _). unfold enc_LeaseAssignment. object_fields. Qed.

Lemma enc_Artifact_json a : Artifact_ok a -> json_ok (enc_Artifact a) = true.
Proof.
  intros (Hr & Ht & _ & Hs & Hb & Hrr & Hd & Hpd & _ & Hm & _ & Hp & Hx).
  unfold enc_Artifact. object_fields.
Qed.
#[export] Hint Resolve enc_Artifact_json : codec.

Lemma enc_FreezeResult_json r : FreezeResult_ok r -> json_ok (enc_FreezeResult r) = true.
Proof. intros (Ht & Ha). unfold enc_FreezeResult. object_fields. Qed.

Lemma enc_ApplyReceipt_json r : ApplyReceipt_ok r -> json_ok (enc_ApplyReceipt r) = true.
Proof.
  intros (Hi & Ha & Hd & Hb & Hr & _ & Hs & Ho & Hc & Hm & _).
  unfold enc_ApplyReceipt. object_fields.
Qed.

(* ------------------------------------------------------------------ *)
(** ** The codecs of the command results *)

#[export] Instance Task_codec : JsonCodec Task :=
  {| enc := enc_Task; dec := dec_Task; codec_ok := Task_ok;
     enc_json_ok := enc_Task_json; dec_enc := dec_enc_Task |}.
#[export] Instance LeaseGrant_codec : JsonCodec LeaseGrant :=
  {| enc := enc_LeaseGrant; dec := dec_LeaseGrant; codec_ok := LeaseGrant_ok;
     enc_json_ok := enc_LeaseGrant_json; dec_enc := dec_enc_LeaseGrant |}.
#[export] Instance LeaseAssignment_codec : JsonCodec LeaseAssignment :=
  {| enc := enc_LeaseAssignment; dec := dec_LeaseAssignment; codec_ok := LeaseAssignment_ok;
     enc_json_ok := enc_LeaseAssignment_json; dec_enc := dec_enc_LeaseAssignment |}.
#[export] Instance FreezeArtifactResult_codec : JsonCodec FreezeArtifactResult :=
  {| enc := enc_FreezeResult; dec := dec_FreezeResult; codec_ok := FreezeResult_ok;
     enc_json_ok := enc_FreezeResult_json; dec_enc := dec_enc_FreezeResult |}.
#[export] Instance ApplyReceipt_codec : JsonCodec ApplyReceipt :=
  {| enc := enc_ApplyReceipt; dec := dec_ApplyReceipt; codec_ok := ApplyReceipt_ok;
     enc_json_ok := enc_ApplyReceipt_json; dec_enc := dec_enc_ApplyReceipt |}.
