(* ===== verification/Framework.v ===== *)
(** * Cross-surface contracts (framework/contract.go, fault.go, resource.go)

    A port's contract is negotiated once at construction; a fault carries a
    code and the class of retry that is safe for it; a resource pairs a
    dependency with its owner, and releases what it owns at most once.  The
    mutex and [sync.Once] of a resource are the atomic steps of a relation, so
    that concurrent callers are interleavings of those steps. *)

From S2P Require Import Prelude GoText AgentTypes.

Local Open Scope string_scope.

(* ------------------------------------------------------------------ *)
(** ** Contracts *)

Abbreviation ContractID := string.
Abbreviation Feature := string.

(** [contractName]. *)
Definition contractName (s : string) : bool := match_token s.

Record Contract := {
  Contract_ID : ContractID; Contract_Major : Z; Contract_Minor : Z;
  Contract_Features : gmap Feature Z
}.
Record Requirements := {
  Requirements_ID : ContractID; Requirements_Major : Z; Requirements_MinimumMinor : Z;
  Requirements_Features : gmap Feature Z
}.

Definition features_valid (features : gmap Feature Z) : bool :=
  forallb (fun p : Feature * Z => contractName (fst p) && (snd p <>? 0%Z)) (map_to_list features).

Definition validateContract (contract : Contract) : res unit :=
  check refuse_if (negb (contractName (Contract_ID contract)) || (Contract_Major contract =?= 0%Z))
    ErrContractMismatch then
  refuse_if (negb (features_valid (Contract_Features contract))) ErrContractMismatch.

Definition validateRequirements (required : Requirements) : res unit :=
  check refuse_if (negb (contractName (Requirements_ID required)) || (Requirements_Major required =?= 0%Z))
    ErrContractMismatch then
  refuse_if (negb (features_valid (Requirements_Features required))) ErrContractMismatch.

(** One required feature is provided at its version or a newer one. *)
Definition feature_met (provided : gmap Feature Z) (p : Feature * Z) : bool :=
  match provided !! fst p with
  | Some actual => negb (actual <? snd p)%Z
  | None => false
  end.

Definition Negotiate (provided : Contract) (required : Requirements) : res Contract :=
  check validateContract provided then
  check validateRequirements required then
  check refuse_if (Contract_ID provided <>? Requirements_ID required) ErrContractMismatch then
  check refuse_if (Contract_Major provided <>? Requirements_Major required) ErrContractMismatch then
  check refuse_if (Contract_Minor provided <? Requirements_MinimumMinor required)%Z ErrContractMismatch then
  check refuse_if (negb (forallb (feature_met (Contract_Features provided))
                           (map_to_list (Requirements_Features required)))) ErrContractMismatch then
  Ok provided.

(* ------------------------------------------------------------------ *)
(** ** Faults *)

Inductive FaultCode :=
  | CodeInvalid | CodeUnauthenticated | CodeForbidden | CodeNotFound | CodeConflict
  | CodeStale | CodeUnavailable | CodeIndeterminate | CodeCorrupt | CodeClosed
  | FaultCodeOther (s : string).
Inductive RetryMode :=
  | RetryNever | RetryExactInput | RetryBackoff | RetryReconcile | RetryModeOther (s : string).

#[export] Instance FaultCode_eq_dec : EqDecision FaultCode.
Proof. solve_decision. Defined.
#[export] Instance RetryMode_eq_dec : EqDecision RetryMode.
Proof. solve_decision. Defined.

Definition FaultCode_valid (code : FaultCode) : bool :=
  match code with FaultCodeOther _ => false | _ => true end.
Definition RetryMode_valid (mode : RetryMode) : bool :=
  match mode with RetryModeOther _ => false | _ => true end.

Definition retryAllowed (code : FaultCode) (mode : RetryMode) : bool :=
  match code with
  | CodeUnavailable => (mode =?= RetryBackoff) || (mode =?= RetryExactInput)
  | CodeIndeterminate => mode =?= RetryReconcile
  | CodeConflict | CodeStale => (mode =?= RetryNever) || (mode =?= RetryExactInput)
  | _ => mode =?= RetryNever
  end.

Record Fault := {
  Fault_Code : FaultCode; Fault_Retry : RetryMode; Fault_Message : string; Fault_Cause : option error }.

Definition FaultCode_string (code : FaultCode) : string :=
  match code with
  | CodeInvalid => "invalid" | CodeUnauthenticated => "unauthenticated"
  | CodeForbidden => "forbidden" | CodeNotFound => "not_found" | CodeConflict => "conflict"
  | CodeStale => "stale" | CodeUnavailable => "unavailable"
  | CodeIndeterminate => "indeterminate" | CodeCorrupt => "corrupt" | CodeClosed => "closed"
  | FaultCodeOther s => s
  end.

(** [NewFault]: the fault, or the plain error that refuses the combination. *)
Definition NewFault (code : FaultCode) (retry : RetryMode) (message : string) (cause : option error)
    : res Fault :=
  check refuse_if (negb (FaultCode_valid code)) (ErrForeign "framework: invalid fault code") then
  check refuse_if (negb (RetryMode_valid retry)) (ErrForeign "framework: invalid retry mode") then
  check refuse_if (negb (retryAllowed code retry)) (ErrForeign "framework: retry mode is unsafe") then
  Ok {| Fault_Code := code; Fault_Retry := retry;
        Fault_Message := if is_empty message && is_none cause then FaultCode_string code else message;
        Fault_Cause := cause |}.

(* ------------------------------------------------------------------ *)
(** ** Resources *)

(** How far the [sync.Once] of an owned resource has come. *)
Inductive once_state := OnceIdle | OnceRunning | OnceDone.

#[export] Instance once_state_eq_dec : EqDecision once_state.
Proof. solve_decision. Defined.

Record ownedResource := {
  owned_releasing : bool; owned_released : bool; owned_once : once_state; owned_err : option error }.

Definition Own : ownedResource :=
  {| owned_releasing := false; owned_released := false; owned_once := OnceIdle; owned_err := None |}.

(** [Resource.Value] of an owned resource (a borrowed one always has its
    value). *)
Definition Resource_Value {T} (value : T) (owned : option ownedResource) : res T :=
  match owned with
  | None => Ok value
  | Some o => if owned_releasing o || owned_released o then Err ErrResourceReleased else Ok value
  end.

(** What concurrent callers of [Release] do to the shared [ownedResource]:
    the first one marks it releasing and calls the release callback; when the
    callback returns, its result is stored; every other caller returns after
    that with the stored result. *)
Inductive release_label := CallRelease | ReleaseReturned (err : option error) | ReturnResult (err : option error).

Inductive release_step : ownedResource -> release_label -> ownedResource -> Prop :=
  | step_call o :
      owned_once o = OnceIdle ->
      release_step o CallRelease
        {| owned_releasing := true; owned_released := owned_released o;
           owned_once := OnceRunning; owned_err := owned_err o |}
  | step_finish o err :
      owned_once o = OnceRunning ->
      release_step o (ReleaseReturned err)
        {| owned_releasing := false; owned_released := true; owned_once := OnceDone; owned_err := err |}
  | step_return o :
      owned_once o = OnceDone ->
      release_step o (ReturnResult (owned_err o)) o.

Inductive release_trace : ownedResource -> list release_label -> ownedResource -> Prop :=
  | trace_nil o : release_trace o [] o
  | trace_cons o1 l o2 ls o3 :
      release_step o1 l o2 -> release_trace o2 ls o3 -> release_trace o1 (l :: ls) o3.

Definition is_call (l : release_label) : bool := match l with CallRelease => true | _ => false end.

(* ------------------------------------------------------------------ *)
(** ** Facts *)

Lemma Negotiate_Ok provided required c :
  Negotiate provided required = Ok c ->
  c = provided /\ Contract_ID provided = Requirements_ID required /\
  Contract_Major provided = Requirements_Major required /\
  (Requirements_MinimumMinor required <= Contract_Minor provided)%Z /\
  (forall f v, Requirements_Features required !! f = Some v ->
     exists v', Contract_Features provided !! f = Some v' /\ (v <= v')%Z).
Proof.
  unfold Negotiate. intros H. ok_inv. bool_split. zbool.
  repeat match goal with H : bool_decide _ = true |- _ => apply bool_decide_eq_true in H end.
  split_and!; try done. intros f w Hf.
  match goal with Hall : forallb _ _ = true |- _ => rename Hall into Hmet end.
  rewrite forallb_forall in Hmet. specialize (Hmet (f, w)).
  apply elem_of_map_to_list, list_elem_of_In in Hf. specialize (Hmet Hf).
  unfold feature_met in Hmet. cbn in Hmet. case_match; [|done].
  bool_split. zbool. eauto.
Qed.

(** After the resource has left its idle state no callback starts, and every
    result returned is the one stored. *)
Lemma release_done o ls o' : release_trace o ls o' -> owned_once o = OnceDone ->
  o' = o /\ forall l, l ∈ ls -> l = ReturnResult (owned_err o).
Proof.
  induction 1 as [|o1 l o2 ls o3 Hs Ht IH]; intros Hd.
  { split; [done|]. intros l Hl. by apply elem_of_nil in Hl. }
  inversion Hs; subst; try congruence. destruct (IH Hd) as [-> Hall]. split; [done|].
  intros l [->|Hl]%elem_of_cons; auto.
Qed.
