(* ===== verification/FrameworkFacts.v ===== *)
(** * Guarantees of the cross-surface contracts

    Negotiation against its declarative meaning, and the single release of an
    owned resource under concurrent callers. *)

From S2P Require Import Prelude GoText AgentTypes Framework.

Local Open Scope string_scope.

(* ------------------------------------------------------------------ *)
(** ** Negotiation *)

(** Every feature has a well-formed name and a version. *)
Definition features_named (features : gmap Feature Z) : Prop :=
  forall f v, features !! f = Some v -> contractName f = true /\ v <> 0%Z.

Lemma features_valid_spec features : features_valid features = true <-> features_named features.
Proof.
  unfold features_valid, features_named. rewrite forallb_forall. split.
  - intros H f v Hf. specialize (H (f, v)).
    apply elem_of_map_to_list, list_elem_of_In, H in Hf. cbn in Hf. bool_split. decided. auto.
  - intros H [f v] Hf%list_elem_of_In%elem_of_map_to_list. destruct (H f v Hf) as [Hn Hv]. cbn.
    rewrite Hn. cbn. by rewrite bool_decide_eq_false_2.
Qed.

Lemma features_met_spec provided required :
  forallb (feature_met provided) (map_to_list required) = true <->
  forall f v, required !! f = Some v -> exists v', provided !! f = Some v' /\ (v <= v')%Z.
Proof.
  rewrite forallb_forall. split.
  - intros H f v Hf. specialize (H (f, v)).
    apply elem_of_map_to_list, list_elem_of_In, H in Hf. unfold feature_met in Hf. cbn in Hf.
    destruct (provided !! f) as [v'|]; [|done]. exists v'. split; [done|]. lia.
  - intros H [f v] Hf%list_elem_of_In%elem_of_map_to_list.
    destruct (H f v Hf) as (v' & Hv & Hle). unfold feature_met. cbn. rewrite Hv. lia.
Qed.

(** A provided contract satisfies the requirements. *)
Definition satisfies (provided : Contract) (required : Requirements) : Prop :=
  (contractName (Contract_ID provided) = true /\ Contract_Major provided <> 0%Z /\
   features_named (Contract_Features provided)) /\
  (contractName (Requirements_ID required) = true /\ Requirements_Major required <> 0%Z /\
   features_named (Requirements_Features required)) /\
  Contract_ID provided = Requirements_ID required /\
  Contract_Major provided = Requirements_Major required /\
  (Requirements_MinimumMinor required <= Contract_Minor provided)%Z /\
  (forall f v, Requirements_Features required !! f = Some v ->
     exists v', Contract_Features provided !! f = Some v' /\ (v <= v')%Z).

Lemma validateContract_spec c : validateContract c = Ok tt <->
  contractName (Contract_ID c) = true /\ Contract_Major c <> 0%Z /\ features_named (Contract_Features c).
Proof.
  unfold validateContract. rewrite <- features_valid_spec.
  destruct (contractName _), (features_valid _); cbn; try case_bool_decide; cbn; naive_solver.
Qed.

Lemma validateRequirements_spec c : validateRequirements c = Ok tt <->
  contractName (Requirements_ID c) = true /\ Requirements_Major c <> 0%Z /\ features_named (Requirements_Features c).
Proof.
  unfold validateRequirements. rewrite <- features_valid_spec.
  destruct (contractName _), (features_valid _); cbn; try case_bool_decide; cbn; naive_solver.
Qed.

(** C24: [Negotiate] accepts a contract exactly when it satisfies the
    requirements (well-formed on both sides, same identifier and major
    version, at least the minor version, every required feature at its
    version or later), returns the provided contract unchanged, and refuses
    everything else with [ErrContractMismatch]. *)
Theorem negotiate_exact provided required :
  (satisfies provided required -> Negotiate provided required = Ok provided) /\
  (~ satisfies provided required -> Negotiate provided required = Err ErrContractMismatch).
Proof.
  assert (Negotiate provided required = Ok provided <-> satisfies provided required) as Hiff.
  { unfold Negotiate, satisfies.
    rewrite <- validateContract_spec, <- validateRequirements_spec, <- features_met_spec.
    destruct (validateContract provided) as [[]|]; cbn [obind]; [|naive_solver].
    destruct (validateRequirements required) as [[]|]; cbn [obind]; [|naive_solver].
    repeat case_bool_decide; cbn [obind refuse_if negb]; try naive_solver.
    destruct (Z.ltb_spec (Contract_Minor provided) (Requirements_MinimumMinor required));
      cbn [obind refuse_if]; [naive_solver lia|].
    destruct (forallb _ _); cbn; naive_solver. }
  split; [by apply Hiff|]. intros Hn.
  assert (Negotiate provided required = Ok provided \/ Negotiate provided required = Err ErrContractMismatch)
    as [H|H]; [|by apply Hiff in H|done].
  unfold Negotiate, validateContract, validateRequirements, refuse_if. repeat case_match; cbn; eauto.
Qed.

Definition demo_provided : Contract :=
  {| Contract_ID := "store"; Contract_Major := 1; Contract_Minor := 2; Contract_Features := {["events" := 2%Z]} |}.
Definition demo_required : Requirements :=
  {| Requirements_ID := "store"; Requirements_Major := 1; Requirements_MinimumMinor := 1;
     Requirements_Features := {["events" := 1%Z]} |}.

Lemma demo_satisfies : satisfies demo_provided demo_required.
Proof.
  unfold satisfies, features_named. cbn. split_and!; try done;
    intros f v [<- <-]%lookup_singleton_Some; [done..|]. by exists 2%Z.
Qed.

Lemma negotiate_exact_witness : Negotiate demo_provided demo_required = Ok demo_provided.
Proof. exact (proj1 (negotiate_exact demo_provided demo_required) demo_satisfies). Defined.

(* ------------------------------------------------------------------ *)
(** ** Release of an owned resource *)

(** Whatever the number of concurrent callers of [Release], what happens
    to an owned resource is a prefix of: one start of its callback, the
    return of that callback, and callers that get exactly that result.  Its
    value is available before the callback starts and refused with
    [ErrResourceReleased] from then on, for ever. *)
Theorem resource_released_once ls o :
  release_trace Own ls o ->
  (ls = [] \/ ls = [CallRelease] \/
   exists err n, ls = CallRelease :: ReleaseReturned err :: repeat (ReturnResult err) n) /\
  forall T (v : T), Resource_Value v (Some o) = match ls with [] => Ok v | _ => Err ErrResourceReleased end.
Proof.
  inversion 1 as [|? l o1 ls1 ? Hs Ht]; subst; [by split; [left|]|].
  inversion Hs; subst; try done. clear Hs.
  inversion Ht as [|? l o2 ls2 ? Hs Ht2]; subst; [by split; [right; left|]|].
  inversion Hs as [|? err|]; subst; try done. destruct (release_done _ _ _ Ht2 eq_refl) as [-> Hall].
  split; [|done]. right; right. exists err, (length ls2). do 2 f_equal.
  clear -Hall. induction ls2 as [|l ls IH]; cbn; [done|]. f_equal; [apply Hall; by left|].
  apply IH. intros l' Hl. apply Hall. by right.
Qed.

Lemma resource_released_once_witness :
  Resource_Value 7 (Some {| owned_releasing := false; owned_released := true; owned_once := OnceDone;
                            owned_err := None |}) = Err ErrResourceReleased.
Proof.
  apply (resource_released_once [CallRelease; ReleaseReturned None; ReturnResult None]).
  eapply trace_cons; [by apply step_call|]. eapply trace_cons; [by apply step_finish|].
  eapply trace_cons; [by apply (step_return {| owned_releasing := false; owned_released := true; owned_once := OnceDone;
                               owned_err := None |})|]. constructor.
Defined.
