(* ===== verification/Protect.v ===== *)
(** * Payload protection (protect/protect.go, stored.go, value.go)

    A [Protector] is code outside the repository: a record of functions.  The
    persistence framing is the repository's own, and is modelled byte for
    byte: [MarshalEnvelope] and [MarshalStoredValue] print JSON, and the strict
    decoders walk the text token by token as [json.Decoder] does, refusing
    unknown, duplicate and missing fields and trailing data.  A byte slice
    whose nil value is told apart from the empty one is an [option string]. *)

From S2P Require Import Prelude GoText GoEncoding GoJson AgentTypes Framework.

Local Open Scope string_scope.

Abbreviation bytes := (option string).

Definition bytes_text (b : bytes) : string := default "" b.
Definition blen (b : bytes) : Z := len (bytes_text b).

Definition maximumDataBytes : Z := 134217728.

(* ------------------------------------------------------------------ *)
(** ** Bindings, envelopes, descriptions *)

Record Binding := {
  Binding_Component : string; Binding_Purpose : string; Binding_Authority : string;
  Binding_Namespace : string; Binding_RecordType : string; Binding_RecordID : string;
  Binding_Field : string; Binding_Schema : Z
}.

Record Envelope := {
  Envelope_Provider : string; Envelope_Format : string;
  Envelope_KeyID : string; Envelope_KeyVersion : string;
  Envelope_Nonce : bytes; Envelope_Data : bytes
}.

#[export] Instance Envelope_eq_dec : EqDecision Envelope.
Proof. solve_decision. Defined.

Record Description := {
  Description_Contract : Contract; Description_Provider : string; Description_Format : string;
  Description_MaxPlaintextBytes : Z; Description_MaxEnvelopeBytes : Z
}.

(** [Protector] as an Agent holds it: its description, read once at
    construction, and its two operations. *)
Record Protector := {
  Protector_Seal : goctx -> Binding -> bytes -> res Envelope;
  Protector_Open : goctx -> Binding -> Envelope -> res bytes
}.

Definition tokenPattern (s : string) : bool := match_token s.

(** Text of 1 to 512 bytes, valid UTF-8 without NUL, CR or LF. *)
Definition binding_text (value : string) : bool :=
  negb (is_empty value || (len value >? 512)%Z || negb (valid_string value)
        || contains_any [nul; cr; lf] value).

Definition ValidateBinding (binding : Binding) : res unit :=
  check refuse_if (negb (forallb tokenPattern
    [Binding_Component binding; Binding_Purpose binding; Binding_RecordType binding;
     Binding_Field binding])) ErrInvalidBinding then
  check refuse_if (negb (forallb binding_text
    [Binding_Authority binding; Binding_Namespace binding; Binding_RecordID binding]))
    ErrInvalidBinding then
  refuse_if (Binding_Schema binding =? 0)%Z ErrInvalidBinding.

Definition enc_Binding (b : Binding) : json :=
  JObj [("component", JStr (Binding_Component b)); ("purpose", JStr (Binding_Purpose b));
        ("authority", JStr (Binding_Authority b)); ("namespace", JStr (Binding_Namespace b));
        ("record_type", JStr (Binding_RecordType b)); ("record_id", JStr (Binding_RecordID b));
        ("field", JStr (Binding_Field b)); ("schema", JNum (Binding_Schema b))].

Definition AAD (binding : Binding) : res string :=
  check ValidateBinding binding then Ok (print (enc_Binding binding)).

Definition ProtectorRequirements : Requirements :=
  {| Requirements_ID := "human.protector"; Requirements_Major := 1;
     Requirements_MinimumMinor := 0; Requirements_Features := ∅ |}.

Definition ValidateDescription (d : Description) : res unit :=
  let? _ := Negotiate (Description_Contract d) ProtectorRequirements in
  check refuse_if (negb (tokenPattern (Description_Provider d)) || negb (tokenPattern (Description_Format d)))
    (ErrForeign "protect: provider and format must be stable lowercase identifiers") then
  refuse_if ((Description_MaxPlaintextBytes d <? 1)%Z
             || (Description_MaxPlaintextBytes d >? maximumDataBytes)%Z
             || (Description_MaxEnvelopeBytes d <? Description_MaxPlaintextBytes d)%Z
             || (Description_MaxEnvelopeBytes d >? maximumDataBytes)%Z)
    (ErrForeign "protect: invalid plaintext or envelope byte limit").

Definition ValidateEnvelope (envelope : Envelope) : res unit :=
  check refuse_if (negb (tokenPattern (Envelope_Provider envelope))
                   || negb (tokenPattern (Envelope_Format envelope))) ErrInvalidEnvelope then
  check refuse_if (negb (forallb binding_text [Envelope_KeyID envelope; Envelope_KeyVersion envelope]))
    ErrInvalidEnvelope then
  refuse_if ((blen (Envelope_Nonce envelope) >? 1024)%Z || (blen (Envelope_Data envelope) =? 0)%Z
             || (blen (Envelope_Data envelope) >? maximumDataBytes)%Z) ErrInvalidEnvelope.

(** [append([]byte(nil), b...)]: a copy, nil when there is no byte. *)
Definition clone_bytes (b : bytes) : bytes := if is_empty (bytes_text b) then None else b.

Definition CloneEnvelope (e : Envelope) : Envelope :=
  {| Envelope_Provider := Envelope_Provider e; Envelope_Format := Envelope_Format e;
     Envelope_KeyID := Envelope_KeyID e; Envelope_KeyVersion := Envelope_KeyVersion e;
     Envelope_Nonce := clone_bytes (Envelope_Nonce e); Envelope_Data := clone_bytes (Envelope_Data e) |}.

(* ------------------------------------------------------------------ *)
(** ** The token-by-token decoder both framings use *)

(** [decoder.Decode] of one value: the value, its raw text, what follows. *)
Definition decode_value (s0 : string) : option (json * string * string) :=
  let s := skip_ws s0 in
  '(j, r) ← parse_value (S (String.length s)) s;
  Some (j, substring 0 (String.length s - String.length r) s, r).

(** [decoder.Token] of a member name and the colon [Decode] then expects. *)
Definition decode_key (s : string) : option (string * string) :=
  match skip_ws s with
  | String q s1 =>
      if Ascii.eqb q quote then
        '(k, r) ← unquote s1;
        match skip_ws r with
        | String c r1 => if Ascii.eqb c ":" then Some (coerce_utf8 k, r1) else None
        | "" => None
        end
      else None
  | "" => None
  end.

Section Decoder.
Context {W : Type} (assign : string -> json -> string -> W -> option W).

(** The loop [for decoder.More()]: [first] until a member was read. *)
Fixpoint decode_members (fuel : nat) (first : bool) (seen : list string) (wire : W) (s : string)
    : option (W * list string * string) :=
  match fuel with
  | O => None
  | S n =>
      match skip_ws s with
      | "" => None
      | String c r =>
          if Ascii.eqb c "}" then Some (wire, seen, r)
          else
            rest ← (if first then Some (String c r) else if Ascii.eqb c "," then Some r else None);
            '(key, after) ← decode_key rest;
            if existsb (String.eqb key) seen then None
            else
              '(j, raw, r') ← decode_value after;
              wire' ← assign key j raw wire;
              decode_members n false (key :: seen) wire' r'
      end
  end.

(** One object, all its required members, nothing after it. *)
Definition decode_object (required : list string) (wire : W) (encoded : string) : option W :=
  match skip_ws encoded with
  | String c s =>
      if Ascii.eqb c "{" then
        '(w, seen, r) ← decode_members (S (String.length s)) true [] wire s;
        if is_empty (skip_ws r) && forallb (fun k => existsb (String.eqb k) seen) required
        then Some w else None
      else None
  | "" => None
  end.
End Decoder.

Definition dec_uint16 : option json -> option Z := dec_int 0 65535.
Definition dec_bool (o : option json) : option bool :=
  match o with
  | None | Some JNull => Some false
  | Some (JBool b) => Some b
  | Some _ => None
  end.

(* ------------------------------------------------------------------ *)
(** ** Stored envelopes *)

Definition StoredEnvelopeVersion : Z := 1.
Definition MaxStoredEnvelopeBytes : Z := 180355072.

Record storedEnvelopeV1 := {
  envelope_Version : Z; envelope_Provider : string; envelope_Format : string;
  envelope_KeyID : string; envelope_KeyVersion : string;
  envelope_NonceNil : bool; envelope_Nonce : string;
  envelope_DataNil : bool; envelope_Data : string
}.

Definition storedEnvelope_zero : storedEnvelopeV1 :=
  {| envelope_Version := 0; envelope_Provider := ""; envelope_Format := ""; envelope_KeyID := "";
     envelope_KeyVersion := ""; envelope_NonceNil := false; envelope_Nonce := "";
     envelope_DataNil := false; envelope_Data := "" |}.

Definition storedEnvelope_of (e : Envelope) : storedEnvelopeV1 :=
  {| envelope_Version := StoredEnvelopeVersion;
     envelope_Provider := Envelope_Provider e; envelope_Format := Envelope_Format e;
     envelope_KeyID := Envelope_KeyID e; envelope_KeyVersion := Envelope_KeyVersion e;
     envelope_NonceNil := is_none (Envelope_Nonce e);
     envelope_Nonce := b64_encode (bytes_text (Envelope_Nonce e));
     envelope_DataNil := is_none (Envelope_Data e);
     envelope_Data := b64_encode (bytes_text (Envelope_Data e)) |}.

Definition enc_storedEnvelope (w : storedEnvelopeV1) : json :=
  JObj [("version", JNum (envelope_Version w)); ("provider", JStr (envelope_Provider w));
        ("format", JStr (envelope_Format w)); ("key_id", JStr (envelope_KeyID w));
        ("key_version", JStr (envelope_KeyVersion w)); ("nonce_nil", JBool (envelope_NonceNil w));
        ("nonce", JStr (envelope_Nonce w)); ("data_nil", JBool (envelope_DataNil w));
        ("data", JStr (envelope_Data w))].

Definition MarshalEnvelope (envelope : Envelope) : res string :=
  check refuse_if (negb (is_ok (ValidateEnvelope envelope))) ErrInvalidStoredEnvelope then
  let encoded := print (enc_storedEnvelope (storedEnvelope_of envelope)) in
  check refuse_if (len encoded >? MaxStoredEnvelopeBytes)%Z ErrInvalidStoredEnvelope then
  Ok encoded.

(** The [switch key] of [decodeStoredEnvelopeV1]. *)
Definition assign_envelope (key : string) (j : json) (raw : string) (w : storedEnvelopeV1)
    : option storedEnvelopeV1 :=
  let 'Build_storedEnvelopeV1 v p f k kv nn n dn d := w in
  if String.eqb key "version" then
    x ← dec_uint16 (Some j); Some (Build_storedEnvelopeV1 x p f k kv nn n dn d)
  else if String.eqb key "provider" then
    x ← dec_str (Some j); Some (Build_storedEnvelopeV1 v x f k kv nn n dn d)
  else if String.eqb key "format" then
    x ← dec_str (Some j); Some (Build_storedEnvelopeV1 v p x k kv nn n dn d)
  else if String.eqb key "key_id" then
    x ← dec_str (Some j); Some (Build_storedEnvelopeV1 v p f x kv nn n dn d)
  else if String.eqb key "key_version" then
    x ← dec_str (Some j); Some (Build_storedEnvelopeV1 v p f k x nn n dn d)
  else if String.eqb key "nonce_nil" then
    x ← dec_bool (Some j); Some (Build_storedEnvelopeV1 v p f k kv x n dn d)
  else if String.eqb key "nonce" then
    x ← dec_str (Some j); Some (Build_storedEnvelopeV1 v p f k kv nn x dn d)
  else if String.eqb key "data_nil" then
    x ← dec_bool (Some j); Some (Build_storedEnvelopeV1 v p f k kv nn n x d)
  else if String.eqb key "data" then
    x ← dec_str (Some j); Some (Build_storedEnvelopeV1 v p f k kv nn n dn x)
  else None.

Definition decodeStoredEnvelopeV1 (encoded : string) : option storedEnvelopeV1 :=
  decode_object assign_envelope
    ["version"; "provider"; "format"; "key_id"; "key_version"; "nonce_nil"; "nonce"; "data_nil"; "data"]
    storedEnvelope_zero encoded.

(** [decodeStoredBytes] and [decodeCanonicalValueBytes]: the one spelling of
    the bytes, or nothing. *)
Definition decodeStoredBytes (encoded : string) (isNil : bool) : option bytes :=
  if isNil then if is_empty encoded then Some None else None
  else
    decoded ← b64_decode true encoded;
    if String.eqb (b64_encode decoded) encoded then Some (Some decoded) else None.

Definition or_err {A} (o : option A) (e : error) : res A :=
  match o with Some v => Ok v | None => Err e end.

Definition UnmarshalEnvelopeLimited (encoded : string) (maxBytes : Z) : res Envelope :=
  check refuse_if ((maxBytes <? 1)%Z || (maxBytes >? MaxStoredEnvelopeBytes)%Z) ErrInvalidStoredEnvelope then
  check refuse_if ((len encoded =? 0)%Z || (len encoded >? maxBytes)%Z) ErrInvalidStoredEnvelope then
  check refuse_if (negb (valid_string encoded)) ErrInvalidStoredEnvelope then
  let? wire := or_err (decodeStoredEnvelopeV1 encoded) ErrInvalidStoredEnvelope in
  check refuse_if (envelope_Version wire <>? StoredEnvelopeVersion) ErrInvalidStoredEnvelope then
  let? nonce := or_err (decodeStoredBytes (envelope_Nonce wire) (envelope_NonceNil wire))
                  ErrInvalidStoredEnvelope in
  let? data := or_err (decodeStoredBytes (envelope_Data wire) (envelope_DataNil wire))
                 ErrInvalidStoredEnvelope in
  let envelope := {| Envelope_Provider := envelope_Provider wire; Envelope_Format := envelope_Format wire;
                     Envelope_KeyID := envelope_KeyID wire; Envelope_KeyVersion := envelope_KeyVersion wire;
                     Envelope_Nonce := nonce; Envelope_Data := data |} in
  check refuse_if (negb (is_ok (ValidateEnvelope envelope))) ErrInvalidStoredEnvelope then
  Ok envelope.

Definition UnmarshalEnvelope (encoded : string) : res Envelope :=
  UnmarshalEnvelopeLimited encoded MaxStoredEnvelopeBytes.

(* ------------------------------------------------------------------ *)
(** ** Stored values *)

Definition StoredValueVersion : Z := 1.
Definition MaxStoredValueBytes : Z := 181403648.

Inductive StoredValueMode := StoredValuePlain | StoredValueSealed | StoredValueModeOther (s : string).

#[export] Instance StoredValueMode_eq_dec : EqDecision StoredValueMode.
Proof. solve_decision. Defined.

Definition StoredValueMode_string (m : StoredValueMode) : string :=
  match m with
  | StoredValuePlain => "plain"
  | StoredValueSealed => "sealed"
  | StoredValueModeOther s => s
  end.
Definition StoredValueMode_of_string (s : string) : StoredValueMode :=
  if String.eqb s "plain" then StoredValuePlain
  else if String.eqb s "sealed" then StoredValueSealed
  else StoredValueModeOther s.

Record StoredValue := {
  Value_Mode : StoredValueMode; Value_Nil : bool; Value_Plain : bytes; Value_Envelope : option Envelope }.

#[export] Instance StoredValue_eq_dec : EqDecision StoredValue.
Proof. solve_decision. Defined.

Definition NewPlainStoredValue (plaintext : bytes) : StoredValue :=
  {| Value_Mode := StoredValuePlain; Value_Nil := is_none plaintext;
     Value_Plain := plaintext; Value_Envelope := None |}.

Definition NewSealedStoredValue (plaintextNil : bool) (envelope : Envelope) : res StoredValue :=
  check refuse_if (negb (is_ok (ValidateEnvelope envelope))) ErrInvalidStoredValue then
  Ok {| Value_Mode := StoredValueSealed; Value_Nil := plaintextNil;
        Value_Plain := None; Value_Envelope := Some (CloneEnvelope envelope) |}.

Definition ValidateStoredValue (value : StoredValue) : res unit :=
  match Value_Mode value with
  | StoredValuePlain =>
      refuse_if (negb (is_none (Value_Envelope value))
                 || negb (Bool.eqb (Value_Nil value) (is_none (Value_Plain value)))
                 || (blen (Value_Plain value) >? maximumDataBytes)%Z) ErrInvalidStoredValue
  | StoredValueSealed =>
      match Value_Plain value, Value_Envelope value with
      | None, Some envelope => refuse_if (negb (is_ok (ValidateEnvelope envelope))) ErrInvalidStoredValue
      | _, _ => Err ErrInvalidStoredValue
      end
  | StoredValueModeOther _ => Err ErrInvalidStoredValue
  end.

Record storedValueV1 := {
  value_Version : Z; value_Mode : StoredValueMode; value_Nil : bool;
  value_Plain : string; value_Envelope : string
}.

(** The [json.RawMessage] member is compact JSON already, so [json.Marshal]
    writes it as it is: here the document it is the text of. *)
Definition enc_storedValue (value : StoredValue) (envelope : json) : json :=
  JObj [("version", JNum StoredValueVersion);
        ("mode", JStr (StoredValueMode_string (Value_Mode value)));
        ("nil", JBool (Value_Nil value));
        ("plain", JStr (b64_encode (bytes_text (Value_Plain value))));
        ("envelope", envelope)].

Definition MarshalStoredValue (value : StoredValue) : res string :=
  check ValidateStoredValue value then
  let? envelope :=
    match Value_Mode value, Value_Envelope value with
    | StoredValueSealed, Some envelope =>
        check refuse_if (negb (is_ok (MarshalEnvelope envelope))) ErrInvalidStoredValue then
        Ok (enc_storedEnvelope (storedEnvelope_of envelope))
    | _, _ => Ok JNull
    end in
  let encoded := print (enc_storedValue value envelope) in
  check refuse_if (len encoded >? MaxStoredValueBytes)%Z ErrInvalidStoredValue then
  Ok encoded.

Definition assign_value (key : string) (j : json) (raw : string) (w : storedValueV1)
    : option storedValueV1 :=
  let 'Build_storedValueV1 v m n p e := w in
  if String.eqb key "version" then
    x ← dec_uint16 (Some j); Some (Build_storedValueV1 x m n p e)
  else if String.eqb key "mode" then
    x ← dec_str (Some j); Some (Build_storedValueV1 v (StoredValueMode_of_string x) n p e)
  else if String.eqb key "nil" then
    x ← dec_bool (Some j); Some (Build_storedValueV1 v m x p e)
  else if String.eqb key "plain" then
    x ← dec_str (Some j); Some (Build_storedValueV1 v m n x e)
  else if String.eqb key "envelope" then Some (Build_storedValueV1 v m n p raw)
  else None.

Definition decodeStoredValueV1 (encoded : string) : option storedValueV1 :=
  decode_object assign_value ["version"; "mode"; "nil"; "plain"; "envelope"]
    {| value_Version := 0; value_Mode := StoredValueModeOther ""; value_Nil := false;
       value_Plain := ""; value_Envelope := "" |} encoded.

Definition UnmarshalStoredValueLimited (encoded : string) (maxBytes : Z) : res StoredValue :=
  check refuse_if ((maxBytes <? 1)%Z || (maxBytes >? MaxStoredValueBytes)%Z) ErrInvalidStoredValue then
  check refuse_if ((len encoded =? 0)%Z || (len encoded >? maxBytes)%Z) ErrInvalidStoredValue then
  check refuse_if (negb (valid_string encoded)) ErrInvalidStoredValue then
  let? wire := or_err (decodeStoredValueV1 encoded) ErrInvalidStoredValue in
  check refuse_if (value_Version wire <>? StoredValueVersion) ErrInvalidStoredValue then
  let? value :=
    match value_Mode wire with
    | StoredValuePlain =>
        check refuse_if (negb (String.eqb (TrimSpace (value_Envelope wire)) "null")) ErrInvalidStoredValue then
        let? plain := or_err (decodeStoredBytes (value_Plain wire) (value_Nil wire)) ErrInvalidStoredValue in
        Ok {| Value_Mode := StoredValuePlain; Value_Nil := value_Nil wire;
              Value_Plain := plain; Value_Envelope := None |}
    | StoredValueSealed =>
        check refuse_if (negb (is_empty (value_Plain wire))
                         || String.eqb (TrimSpace (value_Envelope wire)) "null") ErrInvalidStoredValue then
        match UnmarshalEnvelopeLimited (value_Envelope wire)
                (Z.min (len (value_Envelope wire)) MaxStoredEnvelopeBytes) with
        | Ok envelope =>
            Ok {| Value_Mode := StoredValueSealed; Value_Nil := value_Nil wire;
                  Value_Plain := None; Value_Envelope := Some envelope |}
        | Err _ => Err ErrInvalidStoredValue
        end
    | StoredValueModeOther _ => Err ErrInvalidStoredValue
    end in
  check ValidateStoredValue value then
  Ok value.

Definition UnmarshalStoredValue (encoded : string) : res StoredValue :=
  UnmarshalStoredValueLimited encoded MaxStoredValueBytes.

Example stored_plain_example :
  (let? s := MarshalStoredValue (NewPlainStoredValue (Some "hi")) in UnmarshalStoredValue s) =
  Ok (NewPlainStoredValue (Some "hi")).
Proof. vm_compute. reflexivity. Qed.

(* ------------------------------------------------------------------ *)
(** ** The decoder reads back what [json.Marshal] prints *)

Lemma substring_prefix a b : substring 0 (String.length a) (a ++ b) = a.
Proof. induction a as [|x a IH]; cbn; [by destruct b | by rewrite IH]. Qed.

Lemma decode_value_print j r : json_ok j = true -> delimited r = true ->
  decode_value (print j ++ r) = Some (j, print j, r).
Proof.
  intros Hj Hr. unfold decode_value. destruct (print_start j) as (a & t & E & Ha).
  assert (skip_ws (print j ++ r) = print j ++ r) as ->
    by (rewrite E; cbn [append]; by apply skip_ws_start).
  pose proof (proj1 (jsize_print (jsize j)) j (le_n _)) as Hs.
  destruct (parse_print_mutual (S (String.length (print j ++ r)))) as (Hv & _ & _).
  rewrite Hv by (rewrite ?slen_app; (lia || done)). cbn [mbind option_bind].
  rewrite slen_app, Nat.add_sub, substring_prefix. done.
Qed.

Lemma decode_key_quoted k s : valid_string k = true ->
  decode_key (quoted k ++ String ":" s) = Some (k, s).
Proof.
  intros Hk. unfold decode_key, quoted, str1. cbn [append]. rewrite string_app_assoc. cbn [append].
  change (skip_ws (String quote ?t)) with (String quote t). cbn iota.
  change (Ascii.eqb quote quote) with true. cbn iota.
  rewrite unquote_quoted by done. cbn [mbind option_bind].
  change (skip_ws (String ":" s)) with (String ":" s). cbn iota.
  change (Ascii.eqb ":" ":") with true. cbn iota. by rewrite coerce_valid.
Qed.

#[global] Arguments decode_value : simpl never.
#[global] Arguments decode_key : simpl never.

Section DecoderFacts.
Context {W : Type} (assign : string -> json -> string -> W -> option W).

(** The fields assigned one after another. *)
Fixpoint assign_all (l : list (string * json)) (w : W) : option W :=
  match l with
  | [] => Some w
  | (k, j) :: l' => w' ← assign k j (print j) w; assign_all l' w'
  end.

(** The text left when the members [l] are still to be read. *)
Definition members_text (first : bool) (l : list (string * json)) (r : string) : string :=
  match l with
  | [] => String "}" r
  | _ => (if first then "" else ",") ++ print_members l ++ String "}" r
  end.

Lemma decode_members_print l : forall fuel first seen wire r w,
  (length l < fuel)%nat ->
  forallb (fun m => valid_string (fst m) && json_ok (snd m)) l = true ->
  NoDup (fst <$> l) -> (forall k, k ∈ fst <$> l -> existsb (String.eqb k) seen = false) ->
  assign_all l wire = Some w ->
  exists seen', decode_members assign fuel first seen wire (members_text first l r) = Some (w, seen', r) /\
    forall k, existsb (String.eqb k) seen' = existsb (String.eqb k) seen || existsb (String.eqb k) (fst <$> l).
Proof.
  induction l as [|[k j] l IH]; intros fuel first seen wire r w Hf Hok Hnd Hseen Hw.
  { destruct fuel as [|n]; [cbn in Hf; lia|]. cbn in Hw. injection Hw as ->.
    exists seen. split; [done|]. intros k. by rewrite orb_false_r. }
  destruct fuel as [|n]; [cbn in Hf; lia|]. cbn [forallb fst snd] in Hok.
  apply andb_true_iff in Hok as [Hkj Hok]. apply andb_true_iff in Hkj as [Hk Hj].
  cbn [assign_all] in Hw. destruct (assign k j (print j) wire) as [w1|] eqn:Ew; [|done].
  cbn in Hw, Hnd. apply NoDup_cons in Hnd as [Hni Hnd].
  assert (members_text first ((k, j) :: l) r =
          (if first then "" else ",") ++ quoted k ++ String ":" (print j ++ members_text false l r)) as ->.
  { unfold members_text. rewrite print_members_cons.
    destruct l as [|[k' j'] l]; rewrite !string_app_assoc; done. }
  cbn [decode_members].
  assert (forall (t : string), skip_ws ((if first then "" else ",") ++ quoted k ++ t) =
            (if first then "" else ",") ++ quoted k ++ t) as Hws by (by destruct first).
  rewrite Hws.
  edestruct (IH n false (k :: seen) w1 r w) as (seen' & Hd & Hs); [cbn in Hf; lia|done|done| |done|].
  { intros k' Hk'. cbn. destruct (String.eqb_spec k' k) as [->|_]; [done|].
    apply Hseen. by right. }
  exists seen'. split.
  2:{ intros k'. rewrite Hs. cbn. destruct (String.eqb k' k); cbn; [by rewrite orb_true_r|done]. }
  assert (delimited (members_text false l r) = true) as Hdel by (by destruct l).
  assert (forall t, (match (if first then "" else ",") ++ quoted k ++ t with
     | "" => None
     | String c r0 => if Ascii.eqb c "}" then Some (wire, seen, r0)
        else rest ← (if first then Some (String c r0) else if Ascii.eqb c "," then Some r0 else None);
             '(key, after) ← decode_key rest;
             if existsb (String.eqb key) seen then None
             else '(j0, raw, r') ← decode_value after; wire' ← assign key j0 raw wire;
                  decode_members assign n false (key :: seen) wire' r'
     end) = ('(key, after) ← decode_key (quoted k ++ t);
             if existsb (String.eqb key) seen then None
             else '(j0, raw, r') ← decode_value after; wire' ← assign key j0 raw wire;
                  decode_members assign n false (key :: seen) wire' r')) as ->
    by (intros t; by destruct first).
  rewrite decode_key_quoted by done. cbn [mbind option_bind].
  rewrite Hseen by left. rewrite decode_value_print by done. cbn [mbind option_bind].
  rewrite Ew. cbn [mbind option_bind]. exact Hd.
Qed.

Lemma decode_object_print required l wire w :
  json_ok (JObj l) = true -> NoDup (fst <$> l) -> assign_all l wire = Some w ->
  forallb (fun k => existsb (String.eqb k) (fst <$> l)) required = true ->
  decode_object assign required wire (print (JObj l)) = Some w.
Proof.
  intros Hok Hnd Hw Hreq. unfold decode_object. rewrite print_obj. cbn [append].
  change (skip_ws (String "{" ?t)) with (String "{" t). cbn iota.
  change (Ascii.eqb "{" "{") with true. cbn iota.
  assert (print_members l ++ "}" = members_text true l "") as -> by (by destruct l).
  assert (length l <= String.length (members_text true l ""))%nat as Hlen.
  { pose proof (proj2 (proj2 (jsize_print (members_size l))) l (le_n _)) as Hs.
    assert (length l <= members_size l)%nat as Hm.
    { clear. induction l as [|[k j] l IH]; cbn; [lia|]. fold (members_size l). lia. }
    destruct l as [|m l]; [cbn; lia|]. unfold members_text. rewrite !slen_app. cbn [String.length].
    lia. }
  destruct (decode_members_print l (S (String.length (members_text true l ""))) true [] wire "" w)
    as (seen & Hd & Hs); [lia|exact Hok|done|done|done|].
  rewrite Hd. cbn [mbind option_bind skip_ws is_empty andb].
  assert (forallb (fun k => existsb (String.eqb k) seen) required = true) as ->; [|done].
  rewrite forallb_forall in Hreq |- *. intros k Hk. rewrite Hs. by apply Hreq.
Qed.
End DecoderFacts.

(* ------------------------------------------------------------------ *)
(** ** Round trips *)

Lemma match_token_ascii s : match_token s = true -> is_ascii s = true.
Proof.
  unfold match_token, is_ascii. destruct s as [|a s]; [done|]. rewrite !andb_true_iff.
  intros [[Ha Hs] _]. cbn. apply andb_true_intro. split.
  - apply is_alnum_ascii. unfold is_alnum. by rewrite Ha.
  - eapply string_forallb_impl; [|exact Hs]. intros x. unfold token_rest.
    rewrite !orb_true_iff. intros [[Hx|Hx]|Hx].
    + apply is_alnum_ascii. unfold is_alnum. by rewrite Hx.
    + apply is_alnum_ascii. unfold is_alnum. by rewrite Hx, !orb_true_r.
    + apply existsb_exists in Hx as (y & Hy & Hx). apply Ascii.eqb_eq in Hx as ->.
      cbn in Hy. by repeat destruct Hy as [<-|Hy].
Qed.

Lemma decodeStoredBytes_encode (b : bytes) :
  decodeStoredBytes (b64_encode (bytes_text b)) (is_none b) = Some b.
Proof.
  destruct b as [s|]; [|done]. unfold decodeStoredBytes, bytes_text. cbn [is_none default].
  rewrite b64_roundtrip. cbn [mbind option_bind]. by rewrite String.eqb_refl.
Qed.

Lemma ValidateEnvelope_Ok e : ValidateEnvelope e = Ok tt ->
  tokenPattern (Envelope_Provider e) = true /\ tokenPattern (Envelope_Format e) = true /\
  valid_string (Envelope_KeyID e) = true /\ valid_string (Envelope_KeyVersion e) = true.
Proof.
  unfold ValidateEnvelope. intros H. ok_inv. cbn in *. unfold binding_text in *.
  bool_split. tauto.
Qed.

Lemma is_ok_unit (m : res unit) : is_ok m = true <-> m = Ok tt.
Proof. destruct m as [[]|]; cbn; split; congruence. Qed.

Lemma enc_storedEnvelope_ok e :
  ValidateEnvelope e = Ok tt -> json_ok (enc_storedEnvelope (storedEnvelope_of e)) = true.
Proof.
  intros (Hp & Hf & Hk & Hv)%ValidateEnvelope_Ok. unfold enc_storedEnvelope, storedEnvelope_of. cbn -[valid_string].
  rewrite !(is_ascii_valid (b64_encode _)) by apply b64_encode_ascii.
  rewrite (is_ascii_valid (Envelope_Provider e)) by (by apply match_token_ascii).
  rewrite (is_ascii_valid (Envelope_Format e)) by (by apply match_token_ascii).
  by rewrite Hk, Hv.
Qed.

Lemma decode_storedEnvelope e :
  ValidateEnvelope e = Ok tt ->
  decodeStoredEnvelopeV1 (print (enc_storedEnvelope (storedEnvelope_of e))) = Some (storedEnvelope_of e).
Proof.
  intros He. apply decode_object_print.
  - by apply enc_storedEnvelope_ok.
  - cbn. apply (bool_decide_unpack _). by vm_compute.
  - done.
  - by vm_compute.
Qed.

Lemma print_nonempty j : (len (print j) =? 0)%Z = false.
Proof. destruct (print_start j) as (a & t & -> & _). unfold len. cbn. by apply Z.eqb_neq. Qed.

(** A marshalled envelope is read back exactly, under every admission limit
    its text fits. *)
Lemma unmarshal_envelope e s limit :
  MarshalEnvelope e = Ok s -> (len s <= limit <= MaxStoredEnvelopeBytes)%Z ->
  UnmarshalEnvelopeLimited s limit = Ok e.
Proof.
  unfold MarshalEnvelope. intros H Hl. ok_inv. apply negb_false_iff, is_ok_unit in Hv.
  pose proof (len_nonneg (print (enc_storedEnvelope (storedEnvelope_of e)))).
  pose proof (print_nonempty (enc_storedEnvelope (storedEnvelope_of e))) as Hne. zbool.
  unfold UnmarshalEnvelopeLimited.
  rewrite !refuse_if_false; cbn [obind].
  - rewrite decode_storedEnvelope by done. cbn [or_err obind envelope_Version storedEnvelope_of].
    rewrite refuse_if_false by done. cbn [obind envelope_Nonce envelope_NonceNil envelope_Data
      envelope_DataNil storedEnvelope_of].
    rewrite !decodeStoredBytes_encode. cbn [or_err obind envelope_Provider envelope_Format
      envelope_KeyID envelope_KeyVersion].
    destruct e as [p f k kv n d]. cbn in *. rewrite Hv. done.
  - by rewrite print_valid.
  - apply orb_false_iff. split; [by apply Z.eqb_neq|]. rewrite Z.gtb_ltb. apply Z.ltb_ge. lia.
  - rewrite Z.gtb_ltb. apply orb_false_iff. split; apply Z.ltb_ge; lia.
Qed.

Lemma print_obj_not_null l : String.eqb (TrimSpace (print (JObj l))) "null" = false.
Proof.
  apply String.eqb_neq. rewrite print_obj. cbn [append].
  destruct (TrimSpace_head (String "{" (print_members l ++ "}")) (Chunk 123 "{" true)
    (runes (print_members l ++ "}"))) as (t & ->); done.
Qed.

Lemma MarshalStoredValue_ok value envelope :
  Value_Mode value <> StoredValueModeOther "" ->
  valid_string (StoredValueMode_string (Value_Mode value)) = true ->
  json_ok envelope = true -> json_ok (enc_storedValue value envelope) = true.
Proof.
  intros _ Hm He. unfold enc_storedValue. cbn -[valid_string]. rewrite Hm, He.
  by rewrite (is_ascii_valid (b64_encode _)) by apply b64_encode_ascii.
Qed.

Lemma decode_storedValue value envelope :
  Value_Mode value = StoredValuePlain \/ Value_Mode value = StoredValueSealed ->
  json_ok envelope = true ->
  decodeStoredValueV1 (print (enc_storedValue value envelope)) =
  Some {| value_Version := StoredValueVersion; value_Mode := Value_Mode value;
          value_Nil := Value_Nil value; value_Plain := b64_encode (bytes_text (Value_Plain value));
          value_Envelope := print envelope |}.
Proof.
  intros Hm He. apply decode_object_print.
  - apply MarshalStoredValue_ok; [|by destruct Hm as [->| ->]|done]. by destruct Hm as [->| ->].
  - cbn. apply (bool_decide_unpack _). by vm_compute.
  - cbn. by destruct Hm as [->| ->].
  - by vm_compute.
Qed.

(** A marshalled value is read back exactly, under every admission limit its
    text fits. *)
Lemma unmarshal_stored_value value s limit :
  MarshalStoredValue value = Ok s -> (len s <= limit <= MaxStoredValueBytes)%Z ->
  UnmarshalStoredValueLimited s limit = Ok value.
Proof.
  unfold MarshalStoredValue. intros H Hl. ok_inv. rename v0 into envelope. destruct v.
  pose proof (len_nonneg (print (enc_storedValue value envelope))).
  pose proof (print_nonempty (enc_storedValue value envelope)) as Hne. zbool.
  pose proof Hv as Hvalid. unfold ValidateStoredValue in Hv.
  assert ((Value_Mode value = StoredValuePlain \/ Value_Mode value = StoredValueSealed) /\
          json_ok envelope = true) as [Hm Hj].
  { destruct (Value_Mode value); [|destruct (Value_Plain value); [done|]|done];
      destruct (Value_Envelope value) as [e|]; try done; ok_inv; split; auto.
    apply negb_false_iff, is_ok_unit in Hv. by apply enc_storedEnvelope_ok. }
  unfold UnmarshalStoredValueLimited.
  rewrite !refuse_if_false; cbn [obind].
  - rewrite decode_storedValue by done.
    cbn [or_err obind value_Version value_Mode value_Nil value_Plain value_Envelope].
    rewrite refuse_if_false by done. cbn [obind].
    destruct value as [m nl p eo]. cbn [Value_Mode Value_Nil Value_Plain Value_Envelope] in *.
    destruct Hm as [-> | ->].
    + ok_inv. bool_split. match goal with H : is_none _ = true |- _ => apply is_none_true in H as -> end.
      ok_inv.
      match goal with H : Bool.eqb _ _ = true |- _ => apply eqb_prop in H as -> end.
      change (TrimSpace (print JNull)) with "null".
      rewrite decodeStoredBytes_encode. cbn -[ValidateStoredValue]. by rewrite Hvalid.
    + destruct p; [done|]. destruct eo as [e|]; [|done]. ok_inv.
      rewrite (print_obj_not_null _ : String.eqb (TrimSpace (print (enc_storedEnvelope (storedEnvelope_of e)))) "null" = false). cbn [is_empty bytes_text default b64_encode negb orb refuse_if obind].
      match goal with H : negb (is_ok (MarshalEnvelope e)) = false |- _ => rename H into Hmar end.
      apply negb_false_iff in Hmar. destruct (MarshalEnvelope e) as [s|] eqn:Es; [|done].
      assert (s = print (enc_storedEnvelope (storedEnvelope_of e))) as ->.
      { unfold MarshalEnvelope in Es. by ok_inv. }
      assert (len (print (enc_storedEnvelope (storedEnvelope_of e))) <= MaxStoredEnvelopeBytes)%Z.
      { unfold MarshalEnvelope in Es. ok_inv. zbool. lia. }
      rewrite (unmarshal_envelope e _ _ Es) by lia. cbn [obind]. by rewrite Hvalid.
  - by rewrite print_valid.
  - apply orb_false_iff. split; [by apply Z.eqb_neq|]. rewrite Z.gtb_ltb. apply Z.ltb_ge. lia.
  - rewrite Z.gtb_ltb. apply orb_false_iff. split; apply Z.ltb_ge; lia.
Qed.
