(* ===== verification/AgentStore.v ===== *)
(** * The Agent's persistence port (agent/store.go)

    [StoreView] and [StoreTx] are the interfaces of a transaction: classes over
    the type [S] of its state.  A view primitive reads the state; a mutation
    returns the state it leaves, or an error.  [Store] is the port itself: a
    callback is a function of the transaction's state, and [View] and [Update]
    run it against the current snapshot.  [StoreLaws] is what the Agent core
    relies on: it states the contract written in store.go's comments, and the
    theorems about the Agent that need a law of the Store are proved against
    it. *)

From S2P Require Import Prelude GoText GoTime AgentTypes Framework.

Local Open Scope string_scope.

(* ------------------------------------------------------------------ *)
(** ** Contract and description *)

Definition StoreContractID : ContractID := "human.agent.store".
Definition StoreContractMajor : Z := 2.

Definition StoreRequirements : Requirements :=
  {| Requirements_ID := StoreContractID; Requirements_Major := StoreContractMajor;
     Requirements_MinimumMinor := 0; Requirements_Features := ∅ |}.

Record StoreDescription := {
  StoreDescription_Contract : Contract;
  StoreDescription_Provider : string;
  StoreDescription_Version : string
}.

Definition validStoreDescriptionField (value : string) : bool :=
  negb (is_empty value || negb (String.eqb value (TrimSpace value)) || (len value >? 128)%Z
        || negb (valid_string value))
  && negb (existsb (fun c => (rune c <? 32)%N || (rune c =? 127)%N) (runes value)).

Definition StoreDescription_Validate (d : StoreDescription) : res unit :=
  let? _ := Negotiate (StoreDescription_Contract d) StoreRequirements in
  refuse_if (negb (validStoreDescriptionField (StoreDescription_Provider d))
             || negb (validStoreDescriptionField (StoreDescription_Version d))) ErrStoreDescription.

(* ------------------------------------------------------------------ *)
(** ** Records *)

Abbreviation StoreDigest := string.

Record StoreCommandRecord := {
  Command_Authority : AuthorityID;
  Command_ID : CommandID;
  Command_Kind : string;
  Command_IntentDigest : StoreDigest;
  Command_ResultKind : string;
  Command_Result : string;
  Command_ResultDigest : StoreDigest;
  Command_CreatedAt : time
}.

Record StoreLeaseState := { Lease_Owner : WorkerID; Lease_Fence : LeaseFence }.

Record StoreTaskRecord := {
  TaskRecord_Task : Task;
  TaskRecord_Lease : StoreLeaseState;
  TaskRecord_ArtifactState : option ArtifactState
}.

Record StoreMessageRecord := {
  MessageRecord_ID : MessageID;
  MessageRecord_Task : TaskRef;
  MessageRecord_Sequence : Z;
  MessageRecord_Author : Author;
  MessageRecord_EncodedParts : string;
  MessageRecord_PartsDigest : StoreDigest;
  MessageRecord_CreatedAt : time
}.

Record StoreEventRecord := { EventRecord_Event : Event }.
Record StoreLeaseGrantRecord := { GrantRecord_Grant : LeaseGrant; GrantRecord_GrantedAt : time }.
Record StoreArtifactRecord := { ArtifactRecord_Artifact : Artifact; ArtifactRecord_EncodedPayload : string }.
Record StoreSubmissionRecord := { SubmissionRecord_Submission : Submission }.
Record StoreApplyReceiptRecord := { ReceiptRecord_Receipt : ApplyReceipt }.
Record StoreWorkspaceHeadRecord := { HeadRecord_Head : WorkspaceHead }.

#[export] Instance StoreLeaseState_eq_dec : EqDecision StoreLeaseState.
Proof. solve_decision. Defined.
#[export] Instance StoreTaskRecord_eq_dec : EqDecision StoreTaskRecord.
Proof. solve_decision. Defined.
#[export] Instance StoreCommandRecord_eq_dec : EqDecision StoreCommandRecord.
Proof. solve_decision. Defined.

(* ------------------------------------------------------------------ *)
(** ** Keys, limits and scans *)

Record StoreCommandKey := { CommandKey_Authority : AuthorityID; CommandKey_ID : CommandID }.
Record StoreMessageKey := { MessageKey_Authority : AuthorityID; MessageKey_ID : MessageID }.
Record StoreReadLimit := { ReadLimit_MaxBytes : Z }.

#[export] Instance StoreCommandKey_eq_dec : EqDecision StoreCommandKey.
Proof. solve_decision. Defined.
#[export] Instance StoreMessageKey_eq_dec : EqDecision StoreMessageKey.
Proof. solve_decision. Defined.
#[export] Instance StoreCommandKey_countable : Countable StoreCommandKey.
Proof.
  refine (inj_countable' (fun k => (CommandKey_Authority k, CommandKey_ID k) : string * string)
    (fun p => {| CommandKey_Authority := fst p; CommandKey_ID := snd p |}) _).
  by intros [].
Defined.
#[export] Instance StoreMessageKey_countable : Countable StoreMessageKey.
Proof.
  refine (inj_countable' (fun k => (MessageKey_Authority k, MessageKey_ID k) : string * string)
    (fun p => {| MessageKey_Authority := fst p; MessageKey_ID := snd p |}) _).
  by intros [].
Defined.

Record StoreTaskContextScan := {
  ContextScan_Context : ContextRef; ContextScan_After : option TaskPageCursor; ContextScan_Limit : Z }.

Record StoreTaskAuthorityScan := {
  AuthorityScan_Authority : AuthorityID;
  AuthorityScan_Context : ContextID;
  AuthorityScan_State : TaskState;
  AuthorityScan_UpdatedAtOrAfter : option time;
  AuthorityScan_After : option TaskQueryCursor;
  AuthorityScan_Limit : Z
}.

Record StoreTaskAuthorityResult := {
  AuthorityResult_Records : list StoreTaskRecord; AuthorityResult_TotalSize : Z }.

Record StoreMessageScan := {
  MessageScan_Task : TaskRef; MessageScan_After : Z; MessageScan_Limit : Z;
  MessageScan_ReadLimit : StoreReadLimit
}.

Record StoreEventScan := { EventScan_Task : TaskRef; EventScan_After : Z; EventScan_Limit : Z }.

Record StoreLeaseScan := {
  LeaseScan_Authority : AuthorityID; LeaseScan_Worker : WorkerID;
  LeaseScan_After : option LeasePageCursor; LeaseScan_Limit : Z
}.

(* ------------------------------------------------------------------ *)
(** ** Mutations *)

Record StoreTaskCondition := {
  Condition_ExpectedRevision : Z; Condition_ExpectedLease : option StoreLeaseState }.
Record StoreTaskMutation := {
  TaskMutation_Ref : TaskRef; TaskMutation_Condition : StoreTaskCondition;
  TaskMutation_Next : StoreTaskRecord
}.
Record StoreArtifactMutation := {
  ArtifactMutation_Ref : ArtifactRef;
  ArtifactMutation_Task : TaskRef;
  ArtifactMutation_ExpectedState : ArtifactState;
  ArtifactMutation_NextState : ArtifactState;
  ArtifactMutation_PublishedAt : option time;
  ArtifactMutation_DiscardedAt : option time
}.
Record StoreWorkspaceHeadMutation := {
  HeadMutation_Workspace : WorkspaceRef;
  HeadMutation_ExpectedRevision : Revision;
  HeadMutation_Next : StoreWorkspaceHeadRecord
}.

(* ------------------------------------------------------------------ *)
(** ** The interfaces *)

(** [StoreView]: reads of one transaction. *)
Class StoreView (S : Type) := {
  LookupCommand : StoreCommandKey -> StoreReadLimit -> S -> res StoreCommandRecord;
  LoadTask : TaskRef -> S -> res StoreTaskRecord;
  ResolveTask : AuthorityID -> TaskID -> S -> res TaskRef;
  LoadMessage : StoreMessageKey -> StoreReadLimit -> S -> res StoreMessageRecord;
  LoadArtifact : ArtifactRef -> StoreReadLimit -> S -> res StoreArtifactRecord;
  LoadApplyReceipt : ArtifactRef -> S -> res StoreApplyReceiptRecord;
  LoadWorkspaceHead : WorkspaceRef -> S -> res StoreWorkspaceHeadRecord;
  LoadLeaseGrant : TaskRef -> LeaseFence -> S -> res StoreLeaseGrantRecord;
  LoadLatestLeaseGrant : TaskRef -> S -> res StoreLeaseGrantRecord;
  FindClaimableTask : AuthorityID -> S -> res StoreTaskRecord;
  ScanContextTasks : StoreTaskContextScan -> S -> res (list StoreTaskRecord);
  ScanAuthorityTasks : StoreTaskAuthorityScan -> S -> res StoreTaskAuthorityResult;
  ScanMessages : StoreMessageScan -> S -> res (list StoreMessageRecord);
  ScanEvents : StoreEventScan -> S -> res (list StoreEventRecord);
  ScanLeases : StoreLeaseScan -> S -> res (list LeaseAssignment)
}.

(** [StoreTx]: the mutations of one transaction. *)
Class StoreTx (S : Type) `{StoreView S} := {
  InsertCommand : StoreCommandRecord -> S -> res S;
  InsertTask : StoreTaskRecord -> S -> res S;
  CompareAndSwapTask : StoreTaskMutation -> S -> res (bool * S);
  InsertMessage : StoreMessageRecord -> S -> res S;
  InsertEvent : StoreEventRecord -> S -> res S;
  InsertLeaseGrant : StoreLeaseGrantRecord -> S -> res S;
  InsertArtifact : StoreArtifactRecord -> S -> res S;
  CompareAndSwapArtifact : StoreArtifactMutation -> S -> res (bool * S);
  InsertSubmission : StoreSubmissionRecord -> S -> res S;
  InsertWorkspaceHead : StoreWorkspaceHeadRecord -> S -> res (bool * S);
  CompareAndSwapWorkspaceHead : StoreWorkspaceHeadMutation -> S -> res (bool * S);
  InsertApplyReceipt : StoreApplyReceiptRecord -> S -> res S
}.

(** [Store]: the port.  [W] is the implementation with its committed state, as
    it is when the call is admitted. *)
Class Store (W S : Type) := {
  View : forall {A}, goctx -> (S -> res A) -> W -> res A;
  Update : forall {A}, goctx -> (S -> res (A * S)) -> W -> res A * W
}.

(** The early return of a method that has not changed the store. *)
Definition or_return {A B W} (m : res A) (w : W) (k : A -> res B * W) : res B * W :=
  match m with
  | Ok a => k a
  | Err e => (Err e, w)
  end.

Notation "'try' x ':=' m 'on' w 'in' k" := (or_return m w (fun x => k))
  (at level 10, x pattern, m at level 100, w at level 9, k at level 200)
  : human_scope.

Lemma or_return_Ok {A B W} (m : res A) (w : W) (k : A -> res B * W) b w' :
  or_return m w k = (Ok b, w') -> exists a, m = Ok a /\ k a = (Ok b, w').
Proof. destruct m; cbn; [eauto | discriminate]. Qed.

(** Peel the early returns of a call that succeeded. *)
Ltac try_inv :=
  repeat match goal with
  | H : or_return _ _ _ = (Ok _, _) |- _ =>
      let a := fresh "v" in let Ha := fresh "Hv" in
      apply or_return_Ok in H; destruct H as (a & Ha & H)
  end.

(** A Store error [from] is reported as the domain error [to]. *)
Definition on_error {A} (from to : error) (m : res A) : res A :=
  match m with
  | Ok v => Ok v
  | Err e => Err (if errors_Is e from then to else e)
  end.

(** Any failure of [m] is reported as [to]. *)
Definition replace_error {A} (to : error) (m : res A) : res A :=
  match m with
  | Ok v => Ok v
  | Err _ => Err to
  end.

(** A record that is absent is not an error: [found] is false. *)
Definition found_or_absent {A} (m : res A) : res (option A) :=
  match m with
  | Ok v => Ok (Some v)
  | Err e => if errors_Is e ErrStoreRecordNotFound then Ok None else Err e
  end.

Lemma on_error_Ok {A} from to (m : res A) v : on_error from to m = Ok v <-> m = Ok v.
Proof. destruct m; cbn; split; congruence. Qed.

Lemma replace_error_Ok {A} to (m : res A) v : replace_error to m = Ok v <-> m = Ok v.
Proof. destruct m; cbn; split; congruence. Qed.

(* ------------------------------------------------------------------ *)
(** ** The contract *)

Definition CommandKey (r : StoreCommandRecord) : StoreCommandKey :=
  {| CommandKey_Authority := Command_Authority r; CommandKey_ID := Command_ID r |}.

(** What a later committed state keeps of an earlier one: the immutable
    command receipts and the immutable lease history. *)
Record keeps {S} `{StoreView S} (s s' : S) : Prop := {
  keeps_command : forall k limit r,
    LookupCommand k limit s = Ok r -> LookupCommand k limit s' = Ok r;
  keeps_grant : forall t f r, LoadLeaseGrant t f s = Ok r -> LoadLeaseGrant t f s' = Ok r
}.

#[export] Instance keeps_preorder {S} `{StoreView S} : PreOrder (keeps (S := S)).
Proof.
  split.
  - intros s. by split.
  - intros s1 s2 s3 [] []. split; eauto.
Qed.

(** The laws of a transaction. *)
Class StoreLaws (S : Type) `{StoreTx S} := {
  (** a receipt that was inserted is found under every budget it fits *)
  lookup_inserted : forall r limit s s',
    InsertCommand r s = Ok s' -> (1 <= ReadLimit_MaxBytes limit)%Z ->
    (len (Command_Result r) <= ReadLimit_MaxBytes limit)%Z ->
    LookupCommand (CommandKey r) limit s' = Ok r;
  (** so is a lease grant *)
  load_inserted_grant : forall r s s',
    InsertLeaseGrant r s = Ok s' ->
    LoadLeaseGrant (LeaseGrant_Task (GrantRecord_Grant r)) (LeaseGrant_Fence (GrantRecord_Grant r)) s' = Ok r;
  (** no mutation changes a receipt or a grant *)
  keeps_InsertCommand : forall r s s', InsertCommand r s = Ok s' -> keeps s s';
  keeps_InsertTask : forall r s s', InsertTask r s = Ok s' -> keeps s s';
  keeps_CompareAndSwapTask : forall m s b s', CompareAndSwapTask m s = Ok (b, s') -> keeps s s';
  keeps_InsertMessage : forall r s s', InsertMessage r s = Ok s' -> keeps s s';
  keeps_InsertEvent : forall r s s', InsertEvent r s = Ok s' -> keeps s s';
  keeps_InsertLeaseGrant : forall r s s', InsertLeaseGrant r s = Ok s' -> keeps s s';
  keeps_InsertArtifact : forall r s s', InsertArtifact r s = Ok s' -> keeps s s';
  keeps_CompareAndSwapArtifact : forall m s b s', CompareAndSwapArtifact m s = Ok (b, s') -> keeps s s';
  keeps_InsertSubmission : forall r s s', InsertSubmission r s = Ok s' -> keeps s s';
  keeps_InsertWorkspaceHead : forall r s b s', InsertWorkspaceHead r s = Ok (b, s') -> keeps s s';
  keeps_CompareAndSwapWorkspaceHead : forall m s b s',
    CompareAndSwapWorkspaceHead m s = Ok (b, s') -> keeps s s';
  keeps_InsertApplyReceipt : forall r s s', InsertApplyReceipt r s = Ok s' -> keeps s s'
}.

(** A failed [Update] reports a definite failure, or that it may have
    committed. *)
Definition commit_unknown (e : error) : bool := errors_Is e ErrStoreCommitUnknown.

(** The laws of the port, for an implementation whose committed state the
    callbacks see as [snapshot].  [View] runs its callback on the snapshot and
    returns what it returns, unless it was not admitted.  [Update] commits all
    of a successful callback's writes, or none; its own failures are errors of
    the implementation, and only [ErrStoreCommitUnknown] leaves open whether
    it committed. *)
Class StoreContract (W S : Type) `{Store W S} := {
  snapshot : W -> S;
  admits : W -> goctx -> Prop;
  admits_View : forall {A} ctx (f : S -> res A) w, admits w ctx -> View ctx f w = f (snapshot w);
  View_cases : forall {A} ctx (f : S -> res A) w,
    View ctx f w = f (snapshot w) \/ exists e, View ctx f w = Err e;
  Update_cases : forall {A} ctx (f : S -> res (A * S)) w r w', Update ctx f w = (r, w') ->
    match f (snapshot w) with
    | Ok (a, s) =>
        (r = Ok a /\ snapshot w' = s) \/
        (exists e, r = Err e /\ (snapshot w' = snapshot w \/ (commit_unknown e = true /\ snapshot w' = s)))
    | Err e => (exists e', r = Err e') /\ snapshot w' = snapshot w
    end;
  admits_Update : forall {A} ctx (f : S -> res (A * S)) w, admits w ctx ->
    match f (snapshot w) with
    | Ok (a, s) => exists w', Update ctx f w = (Ok a, w') /\ snapshot w' = s
    | Err e => exists w', Update ctx f w = (Err e, w') /\ snapshot w' = snapshot w
    end
}.
