(* ===== verification/MemoryStore.v ===== *)
(** * The in-memory Agent Store (humantest/agent_store_memory.go)

    [memoryAgentState] holds the store's nine maps.  A [memoryAgentUnit] is the
    state of one callback with its lifetime flag; every primitive checks the
    flag first.  Go's copies of records on the way in and out are the values
    themselves here: no caller shares memory with the store.  A loop over a Go
    map visits the entries in the order of [map_to_list]; where that order
    could matter the code sorts afterwards, or stops at the only match. *)

From S2P Require Import Prelude GoText GoTime GoJson AgentTypes Framework AgentStore.

Local Open Scope string_scope.

(* ------------------------------------------------------------------ *)
(** ** State *)

Record memoryAgentLeaseKey := { LeaseKey_task : TaskRef; LeaseKey_fence : LeaseFence }.

#[export] Instance memoryAgentLeaseKey_eq_dec : EqDecision memoryAgentLeaseKey.
Proof. solve_decision. Defined.
#[export] Instance memoryAgentLeaseKey_countable : Countable memoryAgentLeaseKey.
Proof.
  refine (inj_countable' (fun k => (LeaseKey_task k, LeaseKey_fence k) : TaskRef * Z)
    (fun p => {| LeaseKey_task := fst p; LeaseKey_fence := snd p |}) _).
  by intros [].
Defined.

Record memoryAgentState := {
  commands : gmap StoreCommandKey StoreCommandRecord;
  tasks : gmap TaskRef StoreTaskRecord;
  messages : gmap StoreMessageKey StoreMessageRecord;
  events : gmap TaskRef (gmap Z StoreEventRecord);
  leaseGrants : gmap memoryAgentLeaseKey StoreLeaseGrantRecord;
  artifacts : gmap ArtifactRef StoreArtifactRecord;
  submissions : gmap TaskRef StoreSubmissionRecord;
  workspaceHeads : gmap WorkspaceRef StoreWorkspaceHeadRecord;
  applyReceipts : gmap ArtifactRef StoreApplyReceiptRecord
}.

Definition newMemoryAgentState : memoryAgentState :=
  {| commands := ∅; tasks := ∅; messages := ∅; events := ∅; leaseGrants := ∅; artifacts := ∅;
     submissions := ∅; workspaceHeads := ∅; applyReceipts := ∅ |}.

Definition set_commands m s := {| commands := m; tasks := tasks s; messages := messages s;
  events := events s; leaseGrants := leaseGrants s; artifacts := artifacts s;
  submissions := submissions s; workspaceHeads := workspaceHeads s; applyReceipts := applyReceipts s |}.
Definition set_tasks m s := {| commands := commands s; tasks := m; messages := messages s;
  events := events s; leaseGrants := leaseGrants s; artifacts := artifacts s;
  submissions := submissions s; workspaceHeads := workspaceHeads s; applyReceipts := applyReceipts s |}.
Definition set_messages m s := {| commands := commands s; tasks := tasks s; messages := m;
  events := events s; leaseGrants := leaseGrants s; artifacts := artifacts s;
  submissions := submissions s; workspaceHeads := workspaceHeads s; applyReceipts := applyReceipts s |}.
Definition set_events m s := {| commands := commands s; tasks := tasks s; messages := messages s;
  events := m; leaseGrants := leaseGrants s; artifacts := artifacts s;
  submissions := submissions s; workspaceHeads := workspaceHeads s; applyReceipts := applyReceipts s |}.
Definition set_leaseGrants m s := {| commands := commands s; tasks := tasks s; messages := messages s;
  events := events s; leaseGrants := m; artifacts := artifacts s;
  submissions := submissions s; workspaceHeads := workspaceHeads s; applyReceipts := applyReceipts s |}.
Definition set_artifacts m s := {| commands := commands s; tasks := tasks s; messages := messages s;
  events := events s; leaseGrants := leaseGrants s; artifacts := m;
  submissions := submissions s; workspaceHeads := workspaceHeads s; applyReceipts := applyReceipts s |}.
Definition set_submissions m s := {| commands := commands s; tasks := tasks s; messages := messages s;
  events := events s; leaseGrants := leaseGrants s; artifacts := artifacts s;
  submissions := m; workspaceHeads := workspaceHeads s; applyReceipts := applyReceipts s |}.
Definition set_workspaceHeads m s := {| commands := commands s; tasks := tasks s; messages := messages s;
  events := events s; leaseGrants := leaseGrants s; artifacts := artifacts s;
  submissions := submissions s; workspaceHeads := m; applyReceipts := applyReceipts s |}.
Definition set_applyReceipts m s := {| commands := commands s; tasks := tasks s; messages := messages s;
  events := events s; leaseGrants := leaseGrants s; artifacts := artifacts s;
  submissions := submissions s; workspaceHeads := workspaceHeads s; applyReceipts := m |}.

Record memoryAgentUnit := { unit_state : memoryAgentState; unit_active : bool }.

Definition ensureActive (u : memoryAgentUnit) : res unit :=
  refuse_if (negb (unit_active u)) ErrStoreClosed.

(* ------------------------------------------------------------------ *)
(** ** Errors and limits *)

Definition memoryAgentNotFound (kind : StoreRecordKind) (key : string) : error :=
  StoreNotFoundError kind key.
Definition memoryAgentConflict (constraint : StoreConstraint) (key : string) : error :=
  StoreConflictError constraint key.
Definition memoryAgentLimit (kind : StoreRecordKind) (limit : Z) : error := StoreLimitError kind limit.

Definition memoryAgentReadLimit (kind : StoreRecordKind) (limit : StoreReadLimit) : res unit :=
  refuse_if (ReadLimit_MaxBytes limit <? 1)%Z (memoryAgentLimit kind (ReadLimit_MaxBytes limit)).

Definition memoryAgentScanLimit (limit : Z) : res unit :=
  refuse_if ((limit <? 1)%Z || (limit >? MaxPageSize + 1)%Z) ErrInvalidArgument.

(** [list[:limit]] when the list is longer. *)
Definition truncate {A} (limit : Z) (l : list A) : list A :=
  if (Z.of_nat (length l) >? limit)%Z then take (Z.to_nat limit) l else l.

(* ------------------------------------------------------------------ *)
(** ** Orders and cursors *)

Definition memoryAgentTaskCreatedLess (left right : StoreTaskRecord) : bool :=
  let l := TaskRecord_Task left in let r := TaskRecord_Task right in
  if negb (TimeEqual (Task_CreatedAt l) (Task_CreatedAt r)) then
    Before (Task_CreatedAt l) (Task_CreatedAt r)
  else if WorkspaceRef_ID (TaskRef_Workspace (Task_Ref l)) <>? WorkspaceRef_ID (TaskRef_Workspace (Task_Ref r)) then
    string_less (WorkspaceRef_ID (TaskRef_Workspace (Task_Ref l))) (WorkspaceRef_ID (TaskRef_Workspace (Task_Ref r)))
  else string_less (TaskRef_ID (Task_Ref l)) (TaskRef_ID (Task_Ref r)).

Definition memoryAgentTaskUpdatedLess (left right : StoreTaskRecord) : bool :=
  let l := TaskRecord_Task left in let r := TaskRecord_Task right in
  if negb (TimeEqual (Task_UpdatedAt l) (Task_UpdatedAt r)) then
    After (Task_UpdatedAt l) (Task_UpdatedAt r)
  else if WorkspaceRef_ID (TaskRef_Workspace (Task_Ref l)) <>? WorkspaceRef_ID (TaskRef_Workspace (Task_Ref r)) then
    string_less (WorkspaceRef_ID (TaskRef_Workspace (Task_Ref l))) (WorkspaceRef_ID (TaskRef_Workspace (Task_Ref r)))
  else string_less (TaskRef_ID (Task_Ref l)) (TaskRef_ID (Task_Ref r)).

Definition memoryAgentTaskAfterContextCursor (task : Task) (cursor : option TaskPageCursor) : bool :=
  match cursor with
  | None => true
  | Some c =>
      if negb (TimeEqual (Task_CreatedAt task) (TaskPageCursor_CreatedAt c)) then
        After (Task_CreatedAt task) (TaskPageCursor_CreatedAt c)
      else if WorkspaceRef_ID (TaskRef_Workspace (Task_Ref task)) <>? TaskPageCursor_Workspace c then
        string_less (TaskPageCursor_Workspace c) (WorkspaceRef_ID (TaskRef_Workspace (Task_Ref task)))
      else string_less (TaskPageCursor_Task c) (TaskRef_ID (Task_Ref task))
  end.

Definition memoryAgentTaskAfterAuthorityCursor (task : Task) (cursor : option TaskQueryCursor) : bool :=
  match cursor with
  | None => true
  | Some c =>
      if negb (TimeEqual (Task_UpdatedAt task) (TaskQueryCursor_UpdatedAt c)) then
        Before (Task_UpdatedAt task) (TaskQueryCursor_UpdatedAt c)
      else if WorkspaceRef_ID (TaskRef_Workspace (Task_Ref task)) <>? TaskQueryCursor_Workspace c then
        string_less (TaskQueryCursor_Workspace c) (WorkspaceRef_ID (TaskRef_Workspace (Task_Ref task)))
      else string_less (TaskQueryCursor_Task c) (TaskRef_ID (Task_Ref task))
  end.

Definition memoryAgentLeaseLess (left right : LeaseAssignment) : bool :=
  let l := Task_Ref (LeaseAssignment_Task left) in let r := Task_Ref (LeaseAssignment_Task right) in
  if negb (TimeEqual (LeaseAssignment_GrantedAt left) (LeaseAssignment_GrantedAt right)) then
    Before (LeaseAssignment_GrantedAt left) (LeaseAssignment_GrantedAt right)
  else if WorkspaceRef_ID (TaskRef_Workspace l) <>? WorkspaceRef_ID (TaskRef_Workspace r) then
    string_less (WorkspaceRef_ID (TaskRef_Workspace l)) (WorkspaceRef_ID (TaskRef_Workspace r))
  else if TaskRef_ID l <>? TaskRef_ID r then string_less (TaskRef_ID l) (TaskRef_ID r)
  else (LeaseGrant_Fence (LeaseAssignment_Grant left) <? LeaseGrant_Fence (LeaseAssignment_Grant right))%Z.

Definition memoryAgentLeaseAfterCursor (assignment : LeaseAssignment) (cursor : option LeasePageCursor) : bool :=
  match cursor with
  | None => true
  | Some c =>
      let ref := Task_Ref (LeaseAssignment_Task assignment) in
      if negb (TimeEqual (LeaseAssignment_GrantedAt assignment) (LeasePageCursor_GrantedAt c)) then
        After (LeaseAssignment_GrantedAt assignment) (LeasePageCursor_GrantedAt c)
      else if WorkspaceRef_ID (TaskRef_Workspace ref) <>? LeasePageCursor_Workspace c then
        string_less (LeasePageCursor_Workspace c) (WorkspaceRef_ID (TaskRef_Workspace ref))
      else if TaskRef_ID ref <>? LeasePageCursor_Task c then
        string_less (LeasePageCursor_Task c) (TaskRef_ID ref)
      else (LeasePageCursor_Fence c <? LeaseGrant_Fence (LeaseAssignment_Grant assignment))%Z
  end.

(* ------------------------------------------------------------------ *)
(** ** Reads (memoryAgentView) *)

Module ReadOp.

Definition LookupCommand (u : memoryAgentUnit) (key : StoreCommandKey) (limit : StoreReadLimit)
    : res StoreCommandRecord :=
  check ensureActive u then
  check memoryAgentReadLimit StoreRecordCommand limit then
  match commands (unit_state u) !! key with
  | None => Err (memoryAgentNotFound StoreRecordCommand (CommandKey_ID key))
  | Some record =>
      check refuse_if (len (Command_Result record) >? ReadLimit_MaxBytes limit)%Z
        (memoryAgentLimit StoreRecordCommand (ReadLimit_MaxBytes limit)) then
      Ok record
  end.

Definition LoadTask (u : memoryAgentUnit) (ref : TaskRef) : res StoreTaskRecord :=
  check ensureActive u then
  match tasks (unit_state u) !! ref with
  | None => Err (memoryAgentNotFound StoreRecordTask (TaskRef_ID ref))
  | Some record => Ok record
  end.

Definition ResolveTask (u : memoryAgentUnit) (authority : AuthorityID) (id : TaskID) : res TaskRef :=
  check ensureActive u then
  match List.find (fun p : TaskRef * StoreTaskRecord =>
          (WorkspaceRef_Authority (TaskRef_Workspace (fst p)) =?= authority) && (TaskRef_ID (fst p) =?= id))
        (map_to_list (tasks (unit_state u))) with
  | Some (ref, _) => Ok ref
  | None => Err (memoryAgentNotFound StoreRecordTask id)
  end.

Definition LoadMessage (u : memoryAgentUnit) (key : StoreMessageKey) (limit : StoreReadLimit)
    : res StoreMessageRecord :=
  check ensureActive u then
  check memoryAgentReadLimit StoreRecordMessage limit then
  match messages (unit_state u) !! key with
  | None => Err (memoryAgentNotFound StoreRecordMessage (MessageKey_ID key))
  | Some record =>
      check refuse_if (len (MessageRecord_EncodedParts record) >? ReadLimit_MaxBytes limit)%Z
        (memoryAgentLimit StoreRecordMessage (ReadLimit_MaxBytes limit)) then
      Ok record
  end.

Definition LoadArtifact (u : memoryAgentUnit) (ref : ArtifactRef) (limit : StoreReadLimit)
    : res StoreArtifactRecord :=
  check ensureActive u then
  check memoryAgentReadLimit StoreRecordArtifact limit then
  match artifacts (unit_state u) !! ref with
  | None => Err (memoryAgentNotFound StoreRecordArtifact (ArtifactRef_ID ref))
  | Some record =>
      check refuse_if (len (ArtifactRecord_EncodedPayload record) >? ReadLimit_MaxBytes limit)%Z
        (memoryAgentLimit StoreRecordArtifact (ReadLimit_MaxBytes limit)) then
      Ok record
  end.

Definition LoadApplyReceipt (u : memoryAgentUnit) (ref : ArtifactRef) : res StoreApplyReceiptRecord :=
  check ensureActive u then
  match applyReceipts (unit_state u) !! ref with
  | None => Err (memoryAgentNotFound StoreRecordApplyReceipt (ArtifactRef_ID ref))
  | Some record => Ok record
  end.

Definition LoadWorkspaceHead (u : memoryAgentUnit) (ref : WorkspaceRef) : res StoreWorkspaceHeadRecord :=
  check ensureActive u then
  match workspaceHeads (unit_state u) !! ref with
  | None => Err (memoryAgentNotFound StoreRecordWorkspaceHead (WorkspaceRef_ID ref))
  | Some record => Ok record
  end.

Definition LoadLeaseGrant (u : memoryAgentUnit) (ref : TaskRef) (fence : LeaseFence)
    : res StoreLeaseGrantRecord :=
  check ensureActive u then
  match leaseGrants (unit_state u) !! {| LeaseKey_task := ref; LeaseKey_fence := fence |} with
  | None => Err (memoryAgentNotFound StoreRecordLeaseGrant (print_Z fence))
  | Some record => Ok record
  end.

(** One round of the loop over the grants. *)
Definition later_grant (ref : TaskRef) (latest : option StoreLeaseGrantRecord)
    (entry : memoryAgentLeaseKey * StoreLeaseGrantRecord) : option StoreLeaseGrantRecord :=
  let '(key, record) := entry in
  if LeaseKey_task key =?= ref then
    match latest with
    | None => Some record
    | Some l => if (LeaseKey_fence key >? LeaseGrant_Fence (GrantRecord_Grant l))%Z then Some record else latest
    end
  else latest.

Definition LoadLatestLeaseGrant (u : memoryAgentUnit) (ref : TaskRef) : res StoreLeaseGrantRecord :=
  check ensureActive u then
  match fold_left (later_grant ref) (map_to_list (leaseGrants (unit_state u))) None with
  | None => Err (memoryAgentNotFound StoreRecordLeaseGrant (TaskRef_ID ref))
  | Some record => Ok record
  end.

Definition claimable (authority : AuthorityID) (record : StoreTaskRecord) : bool :=
  (WorkspaceRef_Authority (TaskRef_Workspace (Task_Ref (TaskRecord_Task record))) =?= authority)
  && is_empty (Lease_Owner (TaskRecord_Lease record))
  && negb (Terminal (Task_State (TaskRecord_Task record))).

(** The values of a map that pass a test. *)
Definition select {K A} `{Countable K} (f : A -> bool) (m : gmap K A) : list A :=
  List.filter f (snd <$> map_to_list m).

Definition FindClaimableTask (u : memoryAgentUnit) (authority : AuthorityID) : res StoreTaskRecord :=
  check ensureActive u then
  match sort_slice memoryAgentTaskCreatedLess (select (claimable authority) (tasks (unit_state u))) with
  | [] => Err (memoryAgentNotFound StoreRecordTask "claimable")
  | record :: _ => Ok record
  end.

Definition ScanContextTasks (u : memoryAgentUnit) (scan : StoreTaskContextScan)
    : res (list StoreTaskRecord) :=
  check ensureActive u then
  check memoryAgentScanLimit (ContextScan_Limit scan) then
  let list := select (fun record =>
      (Task_Context (TaskRecord_Task record) =?= ContextScan_Context scan)
      && memoryAgentTaskAfterContextCursor (TaskRecord_Task record) (ContextScan_After scan))
    (tasks (unit_state u)) in
  Ok (truncate (ContextScan_Limit scan) (sort_slice memoryAgentTaskCreatedLess list)).

Definition authority_filter (scan : StoreTaskAuthorityScan) (record : StoreTaskRecord) : bool :=
  let task := TaskRecord_Task record in
  (WorkspaceRef_Authority (TaskRef_Workspace (Task_Ref task)) =?= AuthorityScan_Authority scan)
  && (is_empty (AuthorityScan_Context scan)
      || (ContextRef_ID (Task_Context task) =?= AuthorityScan_Context scan))
  && ((AuthorityScan_State scan =?= TaskStateOther "") || (Task_State task =?= AuthorityScan_State scan))
  && match AuthorityScan_UpdatedAtOrAfter scan with
     | None => true
     | Some floor => negb (Before (Task_UpdatedAt task) floor)
     end.

(** The loop that fills the page: the first [Limit] records after the
    cursor. *)
Definition ScanAuthorityTasks (u : memoryAgentUnit) (scan : StoreTaskAuthorityScan)
    : res StoreTaskAuthorityResult :=
  check ensureActive u then
  check memoryAgentScanLimit (AuthorityScan_Limit scan) then
  let filtered := sort_slice memoryAgentTaskUpdatedLess
                    (select (authority_filter scan) (tasks (unit_state u))) in
  let page := take (Z.to_nat (AuthorityScan_Limit scan))
    (List.filter (fun record => memoryAgentTaskAfterAuthorityCursor (TaskRecord_Task record)
                                  (AuthorityScan_After scan)) filtered) in
  Ok {| AuthorityResult_Records := page; AuthorityResult_TotalSize := Z.of_nat (length filtered) |}.

(** The byte budget: the longest prefix that fits, an error when the first
    record alone does not. *)
Fixpoint fit_budget (max total : Z) (first : bool) (l : list StoreMessageRecord)
    : res (list StoreMessageRecord) :=
  match l with
  | [] => Ok []
  | record :: l' =>
      let size := len (MessageRecord_EncodedParts record) in
      if (size >? max)%Z then
        if first then Err (memoryAgentLimit StoreRecordMessage max) else Ok []
      else if (total >? max - size)%Z then Ok []
      else
        let? rest := fit_budget max (total + size) false l' in
        Ok (record :: rest)
  end.

Definition ScanMessages (u : memoryAgentUnit) (scan : StoreMessageScan) : res (list StoreMessageRecord) :=
  check ensureActive u then
  check memoryAgentScanLimit (MessageScan_Limit scan) then
  check memoryAgentReadLimit StoreRecordMessage (MessageScan_ReadLimit scan) then
  let list := sort_slice (fun x y => MessageRecord_Sequence x <? MessageRecord_Sequence y)%Z
    (select (fun record => (MessageRecord_Task record =?= MessageScan_Task scan)
                           && (MessageRecord_Sequence record >? MessageScan_After scan)%Z)
            (messages (unit_state u))) in
  fit_budget (ReadLimit_MaxBytes (MessageScan_ReadLimit scan)) 0 true (truncate (MessageScan_Limit scan) list).

Definition ScanEvents (u : memoryAgentUnit) (scan : StoreEventScan) : res (list StoreEventRecord) :=
  check ensureActive u then
  check memoryAgentScanLimit (EventScan_Limit scan) then
  let history := default ∅ (events (unit_state u) !! EventScan_Task scan) in
  let sequences := truncate (EventScan_Limit scan)
    (sort_slice Z.ltb
      (List.filter (fun sequence => sequence >? EventScan_After scan)%Z (fst <$> map_to_list history))) in
  Ok (omap (fun sequence => history !! sequence) sequences).

(** One round of the loop over the tasks. *)
Definition scan_lease (u : memoryAgentUnit) (scan : StoreLeaseScan)
    (entry : TaskRef * StoreTaskRecord) : res (list LeaseAssignment) :=
  let '(ref, record) := entry in
  if (WorkspaceRef_Authority (TaskRef_Workspace ref) <>? LeaseScan_Authority scan)
     || (Lease_Owner (TaskRecord_Lease record) <>? LeaseScan_Worker scan)
  then Ok []
  else
    match leaseGrants (unit_state u) !!
            {| LeaseKey_task := ref; LeaseKey_fence := Lease_Fence (TaskRecord_Lease record) |} with
    | None => Err ErrCorruptStore
    | Some grant =>
        check refuse_if (LeaseGrant_Worker (GrantRecord_Grant grant) <>? LeaseScan_Worker scan)
          ErrCorruptStore then
        let assignment := {| LeaseAssignment_Grant := GrantRecord_Grant grant;
                             LeaseAssignment_Task := TaskRecord_Task record;
                             LeaseAssignment_GrantedAt := GrantRecord_GrantedAt grant |} in
        Ok (if memoryAgentLeaseAfterCursor assignment (LeaseScan_After scan) then [assignment] else [])
    end.

Fixpoint collect {A B} (f : A -> res (list B)) (l : list A) : res (list B) :=
  match l with
  | [] => Ok []
  | x :: l' =>
      let? here := f x in
      let? rest := collect f l' in
      Ok (here ++ rest)%list
  end.

Definition ScanLeases (u : memoryAgentUnit) (scan : StoreLeaseScan) : res (list LeaseAssignment) :=
  check ensureActive u then
  check memoryAgentScanLimit (LeaseScan_Limit scan) then
  let? result := collect (scan_lease u scan) (map_to_list (tasks (unit_state u))) in
  Ok (truncate (LeaseScan_Limit scan) (sort_slice memoryAgentLeaseLess result)).

End ReadOp.

(* ------------------------------------------------------------------ *)
(** ** Mutations (memoryAgentTx) *)

Module WriteOp.

(** A value of the map passes the test. *)
Definition some_value {K A} `{Countable K} (f : A -> bool) (m : gmap K A) : bool :=
  existsb f (snd <$> map_to_list m).

Definition InsertCommand (u : memoryAgentUnit) (record : StoreCommandRecord) : res memoryAgentState :=
  check ensureActive u then
  let s := unit_state u in
  let key := CommandKey record in
  match commands s !! key with
  | Some _ => Err (memoryAgentConflict StoreConstraintCommandID (Command_ID record))
  | None => Ok (set_commands (<[key := record]> (commands s)) s)
  end.

Definition InsertTask (u : memoryAgentUnit) (record : StoreTaskRecord) : res memoryAgentState :=
  check ensureActive u then
  let s := unit_state u in
  let ref := Task_Ref (TaskRecord_Task record) in
  match tasks s !! ref with
  | Some _ => Err (memoryAgentConflict StoreConstraintTaskKey (TaskRef_ID ref))
  | None =>
      check refuse_if (existsb (fun p : TaskRef * StoreTaskRecord =>
          (WorkspaceRef_Authority (TaskRef_Workspace (fst p)) =?= WorkspaceRef_Authority (TaskRef_Workspace ref))
          && (TaskRef_ID (fst p) =?= TaskRef_ID ref)) (map_to_list (tasks s)))
        (memoryAgentConflict StoreConstraintPublicTaskID (TaskRef_ID ref)) then
      Ok (set_tasks (<[ref := record]> (tasks s)) s)
  end.

Definition CompareAndSwapTask (u : memoryAgentUnit) (mutation : StoreTaskMutation)
    : res (bool * memoryAgentState) :=
  check ensureActive u then
  let s := unit_state u in
  let ref := TaskMutation_Ref mutation in
  let next := TaskMutation_Next mutation in
  let condition := TaskMutation_Condition mutation in
  match tasks s !! ref with
  | None => Err (memoryAgentNotFound StoreRecordTask (TaskRef_ID ref))
  | Some current =>
      check refuse_if ((ref <>? Task_Ref (TaskRecord_Task next))
                       || (Condition_ExpectedRevision condition =? 0)%Z) ErrInvalidArgument then
      if (Task_Revision (TaskRecord_Task current) <>? Condition_ExpectedRevision condition)
         || match Condition_ExpectedLease condition with
            | None => false
            | Some lease => TaskRecord_Lease current <>? lease
            end
      then Ok (false, s)
      else
        check refuse_if ((Task_Context (TaskRecord_Task current) <>? Task_Context (TaskRecord_Task next))
                         || negb (TimeEqual (Task_CreatedAt (TaskRecord_Task current))
                                            (Task_CreatedAt (TaskRecord_Task next)))) ErrInvalidArgument then
        Ok (true, set_tasks (<[ref := next]> (tasks s)) s)
  end.

Definition InsertMessage (u : memoryAgentUnit) (record : StoreMessageRecord) : res memoryAgentState :=
  check ensureActive u then
  let s := unit_state u in
  let key := {| MessageKey_Authority := WorkspaceRef_Authority (TaskRef_Workspace (MessageRecord_Task record));
                MessageKey_ID := MessageRecord_ID record |} in
  match messages s !! key with
  | Some _ => Err (memoryAgentConflict StoreConstraintMessageID (MessageRecord_ID record))
  | None =>
      check refuse_if (some_value (fun existing =>
          (MessageRecord_Task existing =?= MessageRecord_Task record)
          && (MessageRecord_Sequence existing =? MessageRecord_Sequence record)%Z) (messages s))
        (memoryAgentConflict StoreConstraintMessageSequence (print_Z (MessageRecord_Sequence record))) then
      Ok (set_messages (<[key := record]> (messages s)) s)
  end.

Definition InsertEvent (u : memoryAgentUnit) (record : StoreEventRecord) : res memoryAgentState :=
  check ensureActive u then
  let s := unit_state u in
  let event := EventRecord_Event record in
  let history := default ∅ (events s !! Event_Task event) in
  match history !! Event_Sequence event with
  | Some _ => Err (memoryAgentConflict StoreConstraintEventSequence (print_Z (Event_Sequence event)))
  | None => Ok (set_events (<[Event_Task event := <[Event_Sequence event := record]> history]> (events s)) s)
  end.

Definition InsertLeaseGrant (u : memoryAgentUnit) (record : StoreLeaseGrantRecord) : res memoryAgentState :=
  check ensureActive u then
  let s := unit_state u in
  let grant := GrantRecord_Grant record in
  let key := {| LeaseKey_task := LeaseGrant_Task grant; LeaseKey_fence := LeaseGrant_Fence grant |} in
  match leaseGrants s !! key with
  | Some _ => Err (memoryAgentConflict StoreConstraintLeaseFence (print_Z (LeaseGrant_Fence grant)))
  | None => Ok (set_leaseGrants (<[key := record]> (leaseGrants s)) s)
  end.

(** The loop over the artifacts: the first one of the same authority and ID,
    or of the same Task, is the conflict. *)
Fixpoint artifact_conflict (record : Artifact) (l : list StoreArtifactRecord) : option error :=
  match l with
  | [] => None
  | stored :: l' =>
      let existing := ArtifactRecord_Artifact stored in
      if (WorkspaceRef_Authority (ArtifactRef_Workspace (Artifact_Ref existing))
            =?= WorkspaceRef_Authority (ArtifactRef_Workspace (Artifact_Ref record)))
         && (ArtifactRef_ID (Artifact_Ref existing) =?= ArtifactRef_ID (Artifact_Ref record))
      then Some (memoryAgentConflict StoreConstraintArtifactID (ArtifactRef_ID (Artifact_Ref record)))
      else if Artifact_Task existing =?= Artifact_Task record
      then Some (memoryAgentConflict StoreConstraintArtifactTask (TaskRef_ID (Artifact_Task record)))
      else artifact_conflict record l'
  end.

Definition InsertArtifact (u : memoryAgentUnit) (record : StoreArtifactRecord) : res memoryAgentState :=
  check ensureActive u then
  let s := unit_state u in
  let artifact := ArtifactRecord_Artifact record in
  match artifacts s !! Artifact_Ref artifact with
  | Some _ => Err (memoryAgentConflict StoreConstraintArtifactID (ArtifactRef_ID (Artifact_Ref artifact)))
  | None =>
      match artifact_conflict artifact (snd <$> map_to_list (artifacts s)) with
      | Some e => Err e
      | None => Ok (set_artifacts (<[Artifact_Ref artifact := record]> (artifacts s)) s)
      end
  end.

Definition CompareAndSwapArtifact (u : memoryAgentUnit) (mutation : StoreArtifactMutation)
    : res (bool * memoryAgentState) :=
  check ensureActive u then
  let s := unit_state u in
  let ref := ArtifactMutation_Ref mutation in
  check refuse_if (TaskRef_Workspace (ArtifactMutation_Task mutation) <>? ArtifactRef_Workspace ref)
    ErrInvalidArgument then
  match artifacts s !! ref with
  | None => Ok (false, s)
  | Some current =>
      let a := ArtifactRecord_Artifact current in
      if (Artifact_Task a <>? ArtifactMutation_Task mutation)
         || (Artifact_State a <>? ArtifactMutation_ExpectedState mutation)
      then Ok (false, s)
      else
        let next := {| Artifact_Ref := Artifact_Ref a; Artifact_Task := Artifact_Task a;
                       Artifact_State := ArtifactMutation_NextState mutation;
                       Artifact_BaseRevision := Artifact_BaseRevision a;
                       Artifact_ResultRevision := Artifact_ResultRevision a;
                       Artifact_Digest := Artifact_Digest a;
                       Artifact_PayloadDigest := Artifact_PayloadDigest a;
                       Artifact_PayloadSize := Artifact_PayloadSize a;
                       Artifact_MediaType := Artifact_MediaType a;
                       Artifact_FrozenAt := Artifact_FrozenAt a;
                       Artifact_PublishedAt := ArtifactMutation_PublishedAt mutation;
                       Artifact_DiscardedAt := ArtifactMutation_DiscardedAt mutation |} in
        Ok (true, set_artifacts (<[ref := {| ArtifactRecord_Artifact := next;
              ArtifactRecord_EncodedPayload := ArtifactRecord_EncodedPayload current |}]> (artifacts s)) s)
  end.

Definition InsertSubmission (u : memoryAgentUnit) (record : StoreSubmissionRecord) : res memoryAgentState :=
  check ensureActive u then
  let s := unit_state u in
  let submission := SubmissionRecord_Submission record in
  let conflict := memoryAgentConflict StoreConstraintSubmissionID (Submission_ID submission) in
  match submissions s !! Submission_Task submission with
  | Some _ => Err conflict
  | None =>
      check refuse_if (some_value (fun existing =>
          (WorkspaceRef_Authority (TaskRef_Workspace (Submission_Task (SubmissionRecord_Submission existing)))
             =?= WorkspaceRef_Authority (TaskRef_Workspace (Submission_Task submission)))
          && (Submission_ID (SubmissionRecord_Submission existing) =?= Submission_ID submission))
        (submissions s)) conflict then
      Ok (set_submissions (<[Submission_Task submission := record]> (submissions s)) s)
  end.

Definition InsertWorkspaceHead (u : memoryAgentUnit) (record : StoreWorkspaceHeadRecord)
    : res (bool * memoryAgentState) :=
  check ensureActive u then
  let s := unit_state u in
  let workspace := WorkspaceHead_Workspace (HeadRecord_Head record) in
  match workspaceHeads s !! workspace with
  | Some _ => Ok (false, s)
  | None => Ok (true, set_workspaceHeads (<[workspace := record]> (workspaceHeads s)) s)
  end.

Definition CompareAndSwapWorkspaceHead (u : memoryAgentUnit) (mutation : StoreWorkspaceHeadMutation)
    : res (bool * memoryAgentState) :=
  check ensureActive u then
  let s := unit_state u in
  let workspace := HeadMutation_Workspace mutation in
  check refuse_if (WorkspaceHead_Workspace (HeadRecord_Head (HeadMutation_Next mutation)) <>? workspace)
    ErrInvalidArgument then
  match workspaceHeads s !! workspace with
  | None => Ok (false, s)
  | Some current =>
      if WorkspaceHead_ConfirmedRevision (HeadRecord_Head current) <>? HeadMutation_ExpectedRevision mutation
      then Ok (false, s)
      else Ok (true, set_workspaceHeads (<[workspace := HeadMutation_Next mutation]> (workspaceHeads s)) s)
  end.

Definition InsertApplyReceipt (u : memoryAgentUnit) (record : StoreApplyReceiptRecord)
    : res memoryAgentState :=
  check ensureActive u then
  let s := unit_state u in
  let receipt := ReceiptRecord_Receipt record in
  let conflict := memoryAgentConflict StoreConstraintReceiptID (ApplyReceipt_ID receipt) in
  match applyReceipts s !! ApplyReceipt_Artifact receipt with
  | Some _ => Err conflict
  | None =>
      check refuse_if (some_value (fun existing =>
          (WorkspaceRef_Authority (ArtifactRef_Workspace (ApplyReceipt_Artifact (ReceiptRecord_Receipt existing)))
             =?= WorkspaceRef_Authority (ArtifactRef_Workspace (ApplyReceipt_Artifact receipt)))
          && (ApplyReceipt_ID (ReceiptRecord_Receipt existing) =?= ApplyReceipt_ID receipt))
        (applyReceipts s)) conflict then
      Ok (set_applyReceipts (<[ApplyReceipt_Artifact receipt := record]> (applyReceipts s)) s)
  end.

End WriteOp.

(* ------------------------------------------------------------------ *)
(** ** The Store interfaces *)

(** The unit a callback is given: the state, while the callback runs. *)
Definition live (s : memoryAgentState) : memoryAgentUnit := {| unit_state := s; unit_active := true |}.

#[export] Instance memoryAgentView : StoreView memoryAgentState := {
  LookupCommand key limit s := ReadOp.LookupCommand (live s) key limit;
  LoadTask ref s := ReadOp.LoadTask (live s) ref;
  ResolveTask authority id s := ReadOp.ResolveTask (live s) authority id;
  LoadMessage key limit s := ReadOp.LoadMessage (live s) key limit;
  LoadArtifact ref limit s := ReadOp.LoadArtifact (live s) ref limit;
  LoadApplyReceipt ref s := ReadOp.LoadApplyReceipt (live s) ref;
  LoadWorkspaceHead ref s := ReadOp.LoadWorkspaceHead (live s) ref;
  LoadLeaseGrant ref fence s := ReadOp.LoadLeaseGrant (live s) ref fence;
  LoadLatestLeaseGrant ref s := ReadOp.LoadLatestLeaseGrant (live s) ref;
  FindClaimableTask authority s := ReadOp.FindClaimableTask (live s) authority;
  ScanContextTasks scan s := ReadOp.ScanContextTasks (live s) scan;
  ScanAuthorityTasks scan s := ReadOp.ScanAuthorityTasks (live s) scan;
  ScanMessages scan s := ReadOp.ScanMessages (live s) scan;
  ScanEvents scan s := ReadOp.ScanEvents (live s) scan;
  ScanLeases scan s := ReadOp.ScanLeases (live s) scan
}.

#[export] Instance memoryAgentTx : StoreTx memoryAgentState := {
  InsertCommand record s := WriteOp.InsertCommand (live s) record;
  InsertTask record s := WriteOp.InsertTask (live s) record;
  CompareAndSwapTask mutation s := WriteOp.CompareAndSwapTask (live s) mutation;
  InsertMessage record s := WriteOp.InsertMessage (live s) record;
  InsertEvent record s := WriteOp.InsertEvent (live s) record;
  InsertLeaseGrant record s := WriteOp.InsertLeaseGrant (live s) record;
  InsertArtifact record s := WriteOp.InsertArtifact (live s) record;
  CompareAndSwapArtifact mutation s := WriteOp.CompareAndSwapArtifact (live s) mutation;
  InsertSubmission record s := WriteOp.InsertSubmission (live s) record;
  InsertWorkspaceHead record s := WriteOp.InsertWorkspaceHead (live s) record;
  CompareAndSwapWorkspaceHead mutation s := WriteOp.CompareAndSwapWorkspaceHead (live s) mutation;
  InsertApplyReceipt record s := WriteOp.InsertApplyReceipt (live s) record
}.

(* ------------------------------------------------------------------ *)
(** ** Images and handles *)

Abbreviation handleID := nat.

(** The image, its owner, and the handles opened over it with their [closed]
    flags. *)
Record MemoryAgentStoreImage := {
  image_state : memoryAgentState;
  image_owner : option handleID;
  image_handles : gmap handleID bool
}.

(** A Store over the image: the image as it is now, and the Store's handle. *)
Record MemoryAgentStore := { store_image : MemoryAgentStoreImage; store_handle : handleID }.

Definition NewMemoryAgentStoreImage : MemoryAgentStoreImage :=
  {| image_state := newMemoryAgentState; image_owner := None; image_handles := ∅ |}.

(** [image.Open()]: the new handle and the image with it. *)
Definition Open (image : MemoryAgentStoreImage) : res (handleID * MemoryAgentStoreImage) :=
  match image_owner image with
  | Some _ => Err ErrMemoryAgentStoreImageInUse
  | None =>
      let handle := fresh (dom (image_handles image)) in
      Ok (handle, {| image_state := image_state image; image_owner := Some handle;
                     image_handles := <[handle := false]> (image_handles image) |})
  end.

Definition handle_closed (image : MemoryAgentStoreImage) (handle : handleID) : bool :=
  default true (image_handles image !! handle).

Definition Abandon (image : MemoryAgentStoreImage) (handle : handleID) : res MemoryAgentStoreImage :=
  check refuse_if (handle_closed image handle || (image_owner image <>? Some handle)) ErrStoreClosed then
  Ok {| image_state := image_state image; image_owner := None;
        image_handles := <[handle := true]> (image_handles image) |}.

(** [store.close], which the release function runs once. *)
Definition close (image : MemoryAgentStoreImage) (handle : handleID) : MemoryAgentStoreImage :=
  {| image_state := image_state image;
     image_owner := if image_owner image =?= Some handle then None else image_owner image;
     image_handles := <[handle := true]> (image_handles image) |}.

Definition StoreDescription_memory : StoreDescription :=
  {| StoreDescription_Contract := {| Contract_ID := StoreContractID; Contract_Major := StoreContractMajor;
                                     Contract_Minor := 0; Contract_Features := ∅ |};
     StoreDescription_Provider := "humantest-memory-model"; StoreDescription_Version := "1" |}.

(** A context that is nil, or already done. *)
Definition context_ready (ctx : goctx) : res unit :=
  match ctx with
  | NilContext => Err ErrInvalidArgument
  | Context (Some e) => Err e
  | Context None => Ok tt
  end.

Definition admission (ctx : goctx) (store : MemoryAgentStore) : res unit :=
  check context_ready ctx then
  refuse_if (handle_closed (store_image store) (store_handle store)
             || (image_owner (store_image store) <>? Some (store_handle store))) ErrStoreClosed.

Definition memory_View {A} (ctx : goctx) (callback : memoryAgentState -> res A) (store : MemoryAgentStore)
    : res A :=
  check admission ctx store then
  callback (image_state (store_image store)).

(** The callback works on a copy, which replaces the state when it returns
    nil. *)
Definition memory_Update {A} (ctx : goctx) (callback : memoryAgentState -> res (A * memoryAgentState))
    (store : MemoryAgentStore) : res A * MemoryAgentStore :=
  match (check admission ctx store then callback (image_state (store_image store))) with
  | Err e => (Err e, store)
  | Ok (a, next) =>
      (Ok a, {| store_image := {| image_state := next; image_owner := image_owner (store_image store);
                                  image_handles := image_handles (store_image store) |};
                store_handle := store_handle store |})
  end.

#[export] Instance memoryAgentStore : Store MemoryAgentStore memoryAgentState := {
  View A ctx f w := memory_View ctx f w;
  Update A ctx f w := memory_Update ctx f w
}.

(* ------------------------------------------------------------------ *)
(** ** The contract *)

Lemma ensureActive_live s : ensureActive (live s) = Ok tt.
Proof. done. Qed.

(** Break a successful primitive into its branches. *)
Ltac op_inv :=
  repeat match goal with
  | H : context [ensureActive (live _)] |- _ => rewrite ensureActive_live in H; cbn [obind] in H
  | H : obind _ _ = Ok _ |- _ => ok_step H
  | H : refuse_if _ _ = Ok _ |- _ => ok_step H
  | H : Ok _ = Ok _ |- _ => ok_step H
  | H : Err _ = Ok _ |- _ => ok_step H
  | H : (_, _) = (_, _) |- _ => injection H as H; subst
  | H : match ?x with _ => _ end = Ok _ |- _ =>
      lazymatch x with live _ => fail | _ => destruct x eqn:? end
  | H : (if ?x then _ else _) = Ok _ |- _ => destruct x eqn:?
  end; cbn [unit_state live] in *.

(** Receipts and grants are the same in two states. *)
Lemma keeps_same s s' :
  commands s' = commands s -> leaseGrants s' = leaseGrants s -> keeps s s'.
Proof.
  intros Hc Hg. split; intros; cbn in *;
    unfold ReadOp.LookupCommand, ReadOp.LoadLeaseGrant in *; cbn in *; by rewrite ?Hc, ?Hg.
Qed.

Lemma keeps_insert_command r s s' : WriteOp.InsertCommand (live s) r = Ok s' -> keeps s s'.
Proof.
  unfold WriteOp.InsertCommand. intros H. op_inv. split; [|by intros].
  intros k limit r'. cbn. unfold ReadOp.LookupCommand. cbn [ensureActive unit_active live unit_state obind refuse_if negb].
  destruct (memoryAgentReadLimit _ _); [|done]. cbn [obind set_commands commands].
  destruct (decide (CommandKey r = k)) as [<-|Hne].
  - by rewrite Heqo.
  - by rewrite lookup_insert_ne.
Qed.

Lemma keeps_insert_grant r s s' : WriteOp.InsertLeaseGrant (live s) r = Ok s' -> keeps s s'.
Proof.
  unfold WriteOp.InsertLeaseGrant. intros H. op_inv. split; [by intros|].
  intros t f r'. cbn. unfold ReadOp.LoadLeaseGrant. cbn.
  match goal with |- context [<[?k := _]> _ !! ?k'] => destruct (decide (k = k')) as [<-|Hne] end.
  - by rewrite Heqo.
  - by rewrite lookup_insert_ne.
Qed.

#[export] Instance memoryAgentLaws : StoreLaws memoryAgentState.
Proof.
  split.
  - intros r limit s s' H Hl Hr. cbn in *. unfold WriteOp.InsertCommand in H. op_inv.
    unfold ReadOp.LookupCommand. cbn [ensureActive unit_active live unit_state obind refuse_if negb].
    unfold memoryAgentReadLimit. rewrite refuse_if_false by (apply Z.ltb_ge; lia).
    cbn [obind set_commands commands]. rewrite lookup_insert_eq.
    by rewrite refuse_if_false by (rewrite Z.gtb_ltb; apply Z.ltb_ge; lia).
  - intros r s s' H. cbn in *. unfold WriteOp.InsertLeaseGrant in H. op_inv.
    unfold ReadOp.LoadLeaseGrant. cbn. by rewrite lookup_insert_eq.
  - exact keeps_insert_command.
  - cbn. unfold WriteOp.InsertTask. intros. op_inv. by apply keeps_same.
  - cbn. unfold WriteOp.CompareAndSwapTask. intros. op_inv; by apply keeps_same.
  - cbn. unfold WriteOp.InsertMessage. intros. op_inv. by apply keeps_same.
  - cbn. unfold WriteOp.InsertEvent. intros. op_inv. by apply keeps_same.
  - exact keeps_insert_grant.
  - cbn. unfold WriteOp.InsertArtifact. intros. op_inv. by apply keeps_same.
  - cbn. unfold WriteOp.CompareAndSwapArtifact. intros. op_inv; by apply keeps_same.
  - cbn. unfold WriteOp.InsertSubmission. intros. op_inv. by apply keeps_same.
  - cbn. unfold WriteOp.InsertWorkspaceHead. intros. op_inv; by apply keeps_same.
  - cbn. unfold WriteOp.CompareAndSwapWorkspaceHead. intros. op_inv; by apply keeps_same.
  - cbn. unfold WriteOp.InsertApplyReceipt. intros. op_inv. by apply keeps_same.
Qed.

#[export] Instance memoryAgentContract : StoreContract MemoryAgentStore memoryAgentState.
Proof.
  refine {| snapshot w := image_state (store_image w);
            admits w ctx := admission ctx w = Ok tt |}; cbn.
  - intros A ctx f w Ha. unfold memory_View. by rewrite Ha.
  - intros A ctx f w. unfold memory_View. destruct (admission ctx w) as [[]|e]; cbn; eauto.
  - intros A ctx f w r w'. unfold memory_Update.
    destruct (admission ctx w) as [[]|e]; cbn.
    + destruct (f _) as [[a s]|e]; intros [= <- <-]; eauto.
    + intros [= <- <-]. destruct (f _) as [[a s]|e']; eauto 10.
  - intros A ctx f w Ha. unfold memory_Update. rewrite Ha. cbn.
    destruct (f _) as [[a s]|e]; eauto.
Defined.
