(* ===== verification/AgentCore.v ===== *)
(** * The Agent's shared core (agent/agent.go validators, store_core.go,
    protection.go, and the loaders of artifact.go and lease.go)

    Every definition that reads the store is generic in the transaction state
    [S] and its [StoreView]/[StoreTx] instance: the same code runs in a View
    and in an Update, as it does in Go. *)

From S2P Require Import Prelude GoText GoEncoding GoTime GoJson GoStrings AgentTypes AgentCodec Framework.
From S2P Require Import Protect AgentStore.

Local Open Scope string_scope.

(* ------------------------------------------------------------------ *)
(** ** The Agent *)

Definition maxPartBytes : Z := 2097152.
Definition maxPageBytes : Z := 4194304.
Definition defaultArtifactMax : Z := 16777216.
Definition absoluteArtifactMax : Z := 67108864.
Definition maxRevisionBytes : Z := 512.
Definition maxStoredArtifactBytes : Z := MaxStoredValueBytes.

(** The fields an operation reads.  [Agent_now] is what the clock returns at
    this call, [None] for a nil clock. *)
Record Agent := {
  Agent_protector : option Protector;
  Agent_protectorDescription : Description;
  Agent_allowPlaintext : bool;
  Agent_now : option time;
  Agent_maxArtifactBytes : Z;
  Agent_closed : bool
}.

(** [acquireStore], as a call sees it: the counting of active calls is in
    AgentLifecycle. *)
Definition acquireStore (agent : Agent) : res unit := refuse_if (Agent_closed agent) ErrClosed.

(* ------------------------------------------------------------------ *)
(** ** Validators *)

Definition validateCallContext (ctx : goctx) : res unit :=
  match ctx with
  | NilContext => Err ErrInvalidArgument
  | Context _ => Ok tt
  end.

Definition validateStable (value : string) : res unit :=
  refuse_if (negb (match_stable value)) ErrInvalidArgument.

Definition validateWorkspaceRef (ref : WorkspaceRef) : res unit :=
  check validateStable (WorkspaceRef_Authority ref) then
  validateStable (WorkspaceRef_ID ref).

Definition validateTaskRef (ref : TaskRef) : res unit :=
  check validateWorkspaceRef (TaskRef_Workspace ref) then
  validateStable (TaskRef_ID ref).

Definition validateContextRef (ref : ContextRef) : res unit :=
  check validateStable (ContextRef_Authority ref) then
  validateStable (ContextRef_ID ref).

Definition validateArtifactRef (ref : ArtifactRef) : res unit :=
  check validateWorkspaceRef (ArtifactRef_Workspace ref) then
  validateStable (ArtifactRef_ID ref).

Definition validateMeta (meta : CommandMeta) (create : bool) : res unit :=
  check validateStable (CommandMeta_ID meta) then
  check refuse_if (create && negb (CommandMeta_ExpectedRevision meta =? 0)%Z) ErrInvalidArgument then
  check refuse_if (negb create && (CommandMeta_ExpectedRevision meta =? 0)%Z) ErrInvalidArgument then
  refuse_if (CommandMeta_ExpectedRevision meta >? MaxInt64)%Z ErrInvalidArgument.

(** A media type: trimmed, at most 128 bytes, valid UTF-8 on one line, and
    accepted by [mime.ParseMediaType]. *)
Definition media_type_valid (mediaType : string) : bool :=
  negb (is_empty mediaType || negb (String.eqb (TrimSpace mediaType) mediaType)
        || (len mediaType >? 128)%Z || negb (valid_string mediaType)
        || contains_any [cr; lf; nul] mediaType)
  && ParseMediaType_ok mediaType.

(** The loop over the parts, with the bytes seen so far. *)
Fixpoint validateParts (total : Z) (parts : list Part) : res unit :=
  match parts with
  | [] => Ok tt
  | part :: parts' =>
      check refuse_if (negb (media_type_valid (Part_MediaType part))) ErrInvalidArgument then
      check refuse_if (len (Part_Data part) =? 0)%Z ErrInvalidArgument then
      let total' := (total + len (Part_Data part))%Z in
      check refuse_if (total' >? maxPartBytes)%Z ErrInvalidArgument then
      validateParts total' parts'
  end.

Definition validateMessageInput (input : MessageInput) : res unit :=
  check validateStable (MessageInput_ID input) then
  check refuse_if ((length (MessageInput_Parts input) =? 0)%nat
                   || (32 <? length (MessageInput_Parts input))%nat) ErrInvalidArgument then
  validateParts 0 (MessageInput_Parts input).

Definition validateCreateCommand (command : CreateTaskCommand) : res unit :=
  check validateMeta (CreateTask_Meta command) true then
  check validateTaskRef (CreateTask_Task command) then
  check validateContextRef (CreateTask_Context command) then
  check refuse_if (WorkspaceRef_Authority (TaskRef_Workspace (CreateTask_Task command))
                   <>? ContextRef_Authority (CreateTask_Context command)) ErrInvalidArgument then
  validateMessageInput (CreateTask_Message command).

Definition normalizePageLimit (limit : Z) : res Z :=
  if (limit =? 0)%Z then Ok MaxPageSize
  else
    check refuse_if ((limit <? 0)%Z || (limit >? MaxPageSize)%Z) ErrInvalidArgument then
    Ok limit.

Definition normalizePageRequest (request : PageRequest) : res Z :=
  check refuse_if (PageRequest_After request >? MaxInt64)%Z ErrInvalidArgument then
  normalizePageLimit (PageRequest_Limit request).

(** A time that survives its nanosecond form. *)
Definition store_time (t : time) : bool := negb (IsZero t) && TimeEqual (UnixTime (UnixNano t)) t.

Definition validateTaskCursor (cursor : TaskPageCursor) : res unit :=
  check refuse_if (negb (store_time (TaskPageCursor_CreatedAt cursor))) ErrInvalidArgument then
  check validateStable (TaskPageCursor_Workspace cursor) then
  validateStable (TaskPageCursor_Task cursor).

Definition validateRevision (revision : Revision) : res unit :=
  refuse_if (is_empty revision || (len revision >? maxRevisionBytes)%Z || negb (valid_string revision)
             || contains_any [nul; cr; lf] revision) ErrInvalidArgument.

Definition validateDigest (digest : Digest) : res unit :=
  check refuse_if (negb (len digest =? 71)%Z || is_none (strip_prefix "sha256:" digest))
    ErrInvalidArgument then
  refuse_if (is_none (strip_prefix "sha256:" digest ≫= hex_decode)) ErrInvalidArgument.

Definition validateArtifactPayloadShape (payload : Payload) : res unit :=
  check refuse_if (negb (media_type_valid (Payload_MediaType payload))) ErrInvalidArgument then
  refuse_if ((len (Payload_Data payload) =? 0)%Z || (len (Payload_Data payload) >? absoluteArtifactMax)%Z)
    ErrInvalidArgument.

Definition validateLeaseGrant (grant : LeaseGrant) : res unit :=
  check validateTaskRef (LeaseGrant_Task grant) then
  check validateStable (LeaseGrant_Worker grant) then
  refuse_if ((LeaseGrant_Fence grant =? 0)%Z || (LeaseGrant_Fence grant >? MaxInt64)%Z) ErrInvalidArgument.

Definition commandMeta (meta : WorkerCommandMeta) : CommandMeta :=
  {| CommandMeta_ID := WorkerMeta_ID meta; CommandMeta_ExpectedRevision := WorkerMeta_ExpectedRevision meta |}.

Definition validateWorkerMeta (meta : WorkerCommandMeta) (task : TaskRef) : res unit :=
  check validateMeta (commandMeta meta) false then
  check validateLeaseGrant (WorkerMeta_Grant meta) then
  refuse_if (LeaseGrant_Task (WorkerMeta_Grant meta) <>? task) ErrInvalidArgument.

Definition validTaskState (state : TaskState) : bool :=
  match state with TaskStateOther _ => false | _ => true end.

Definition validateStoredTask (task : Task) : res unit :=
  check replace_error ErrCorruptStore (validateTaskRef (Task_Ref task)) then
  check refuse_if (negb (is_ok (validateContextRef (Task_Context task)))
                   || (ContextRef_Authority (Task_Context task)
                       <>? WorkspaceRef_Authority (TaskRef_Workspace (Task_Ref task)))) ErrCorruptStore then
  check refuse_if (negb (validTaskState (Task_State task))
      || (Task_Revision task =? 0)%Z || (Task_Revision task >? MaxInt64)%Z
      || (Task_MessageCount task =? 0)%Z || (Task_MessageCount task >? MaxInt64)%Z
      || (Task_EventCount task =? 0)%Z || (Task_EventCount task >? MaxInt64)%Z
      || negb (Task_Revision task =? Task_EventCount task)%Z
      || (Task_MessageCount task >? Task_Revision task)%Z
      || IsZero (Task_CreatedAt task) || Before (Task_UpdatedAt task) (Task_CreatedAt task))
    ErrCorruptStore then
  check refuse_if (negb (Bool.eqb (Task_State task =?= TaskCompleted)
                                  (negb (is_none (Task_Submission task))))) ErrCorruptStore then
  check match Task_Artifact task with
        | None => Ok tt
        | Some artifact =>
            refuse_if (negb (is_ok (validateArtifactRef artifact))
                       || (ArtifactRef_Workspace artifact <>? TaskRef_Workspace (Task_Ref task)))
              ErrCorruptStore
        end then
  match Task_Submission task with
  | None => Ok tt
  | Some submission =>
      check refuse_if ((Submission_Task submission <>? Task_Ref task)
          || negb (is_ok (validateStable (Submission_ID submission)))
          || negb (is_ok (validateStable (Submission_FinalMessage submission)))
          || IsZero (Submission_PublishedAt submission)
          || negb (TimeEqual (Submission_PublishedAt submission) (Task_UpdatedAt task)))
        ErrCorruptStore then
      refuse_if (Task_Artifact task <>? Submission_Artifact submission) ErrCorruptStore
  end.

Definition validateStoredMessage (message : Message) : res unit :=
  check replace_error ErrCorruptStore (validateTaskRef (Message_Task message)) then
  let wantAuthor := if (Message_Sequence message mod 2 =? 1)%Z then AuthorCaller else AuthorAgent in
  check refuse_if ((Message_Sequence message =? 0)%Z || (Message_Sequence message >? MaxInt64)%Z
      || (Message_Author message <>? wantAuthor) || IsZero (Message_CreatedAt message)) ErrCorruptStore then
  replace_error ErrCorruptStore (validateMessageInput
    {| MessageInput_ID := Message_ID message; MessageInput_Parts := Message_Parts message |}).

(** The table of the state each event type is recorded with. *)
Definition event_state (type : EventType) : option TaskState :=
  match type with
  | EventTaskSubmitted => Some TaskSubmitted
  | EventTaskAccepted => Some TaskWorking
  | EventTaskRejected => Some TaskRejected
  | EventInputRequired => Some TaskInputRequired
  | EventCallerReplied => Some TaskWorking
  | EventTaskCanceled => Some TaskCanceled
  | EventTaskFailed => Some TaskFailed
  | EventTaskCompleted => Some TaskCompleted
  | EventArtifactFrozen => Some TaskWorking
  | EventTypeOther _ => None
  end.

Definition event_wants_message (type : EventType) : bool :=
  match type with
  | EventTaskSubmitted | EventInputRequired | EventCallerReplied | EventTaskCompleted => true
  | _ => false
  end.

Definition validateStoredEvent (event : Event) : res unit :=
  check refuse_if (negb (is_ok (validateTaskRef (Event_Task event)))
      || (Event_Sequence event =? 0)%Z || (Event_Sequence event >? MaxInt64)%Z
      || (Event_Revision event =? 0)%Z || (Event_Revision event >? MaxInt64)%Z
      || negb (Event_Sequence event =? Event_Revision event)%Z
      || IsZero (Event_OccurredAt event)) ErrCorruptStore then
  check refuse_if (is_none (event_state (Event_Type event))
                   || (event_state (Event_Type event) <>? Some (Event_State event))) ErrCorruptStore then
  let hasArtifact := negb (is_empty (Event_Artifact event)) in
  let artifactInvalid :=
    ((Event_Type event =?= EventArtifactFrozen) && negb hasArtifact)
    || ((Event_Type event <>? EventArtifactFrozen) && (Event_Type event <>? EventTaskCompleted)
        && hasArtifact) in
  refuse_if (negb (Bool.eqb (event_wants_message (Event_Type event)) (negb (is_empty (Event_Message event))))
      || negb (Bool.eqb (Event_Type event =?= EventTaskCompleted) (negb (is_empty (Event_Submission event))))
      || artifactInvalid) ErrCorruptStore.

Definition validateReceiptCommand (command : RecordApplyReceiptCommand) : res unit :=
  check validateStable (RecordReceipt_CommandID command) then
  check validateStable (RecordReceipt_Receipt command) then
  check validateArtifactRef (RecordReceipt_Artifact command) then
  check validateDigest (RecordReceipt_ArtifactDigest command) then
  check validateRevision (RecordReceipt_BaseRevision command) then
  check validateRevision (RecordReceipt_ResultRevision command) then
  check refuse_if (negb (ApplyDecision_Valid (RecordReceipt_Decision command))) ErrInvalidArgument then
  check (if is_empty (RecordReceipt_ObservedRevision command) then Ok tt
         else validateRevision (RecordReceipt_ObservedRevision command)) then
  check refuse_if ((RecordReceipt_Decision command =?= ApplySuccess)
                   && (RecordReceipt_ObservedRevision command <>? RecordReceipt_ResultRevision command))
    ErrInvalidArgument then
  check refuse_if ((RecordReceipt_Decision command =?= ApplyConflict)
                   && is_empty (RecordReceipt_ObservedRevision command)) ErrInvalidArgument then
  check refuse_if ((len (RecordReceipt_Code command) >? 128)%Z
                   || negb (valid_string (RecordReceipt_Code command))
                   || contains_any [nul; cr; lf] (RecordReceipt_Code command)) ErrInvalidArgument then
  refuse_if ((len (RecordReceipt_Message command) >? 4096)%Z
             || negb (valid_string (RecordReceipt_Message command))
             || contains_any [nul] (RecordReceipt_Message command)) ErrInvalidArgument.

Definition validateStoredReceipt (receipt : ApplyReceipt) : res unit :=
  let command := {| RecordReceipt_CommandID := "stored-receipt";
    RecordReceipt_Receipt := ApplyReceipt_ID receipt; RecordReceipt_Artifact := ApplyReceipt_Artifact receipt;
    RecordReceipt_ArtifactDigest := ApplyReceipt_ArtifactDigest receipt;
    RecordReceipt_BaseRevision := ApplyReceipt_BaseRevision receipt;
    RecordReceipt_ResultRevision := ApplyReceipt_ResultRevision receipt;
    RecordReceipt_Decision := ApplyReceipt_Decision receipt;
    RecordReceipt_ObservedRevision := ApplyReceipt_ObservedRevision receipt;
    RecordReceipt_Code := ApplyReceipt_Code receipt; RecordReceipt_Message := ApplyReceipt_Message receipt |} in
  refuse_if (negb (is_ok (validateReceiptCommand command)) || IsZero (ApplyReceipt_RecordedAt receipt))
    ErrCorruptStore.

Definition validateStoredArtifactMetadata (artifact : Artifact) : res unit :=
  check refuse_if (negb (is_ok (validateArtifactRef (Artifact_Ref artifact)))
      || negb (is_ok (validateTaskRef (Artifact_Task artifact)))
      || (TaskRef_Workspace (Artifact_Task artifact) <>? ArtifactRef_Workspace (Artifact_Ref artifact))
      || (Artifact_PayloadSize artifact <=? 0)%Z || (Artifact_PayloadSize artifact >? absoluteArtifactMax)%Z
      || IsZero (Artifact_FrozenAt artifact)) ErrCorruptStore then
  check refuse_if (negb (is_ok (validateRevision (Artifact_BaseRevision artifact)))
      || negb (is_ok (validateRevision (Artifact_ResultRevision artifact)))
      || negb (is_ok (validateDigest (Artifact_Digest artifact)))
      || negb (is_ok (validateDigest (Artifact_PayloadDigest artifact)))
      || (Artifact_BaseRevision artifact =?= Artifact_ResultRevision artifact)) ErrCorruptStore then
  check match Artifact_State artifact, Artifact_PublishedAt artifact, Artifact_DiscardedAt artifact with
        | ArtifactFrozen, None, None => Ok tt
        | ArtifactPublished, Some published, None =>
            refuse_if (Before published (Artifact_FrozenAt artifact)) ErrCorruptStore
        | ArtifactDiscarded, None, Some discarded =>
            refuse_if (Before discarded (Artifact_FrozenAt artifact)) ErrCorruptStore
        | _, _, _ => Err ErrCorruptStore
        end then
  refuse_if ((nextRevision (Artifact_BaseRevision artifact) (Artifact_Ref artifact)
                (Artifact_PayloadDigest artifact) <>? Artifact_ResultRevision artifact)
      || (digestArtifact (Artifact_Ref artifact) (Artifact_Task artifact) (Artifact_BaseRevision artifact)
            (Artifact_ResultRevision artifact) (Artifact_PayloadDigest artifact)
            (Artifact_MediaType artifact) <>? Artifact_Digest artifact)) ErrCorruptStore.

Definition validateStoredArtifact (content : ArtifactContent) : res unit :=
  let artifact := ArtifactContent_Artifact content in
  let payload := ArtifactContent_Payload content in
  check refuse_if (negb (is_ok (validateStoredArtifactMetadata artifact))
      || negb (Artifact_PayloadSize artifact =? len (Payload_Data payload))%Z
      || (Artifact_MediaType artifact <>? Payload_MediaType payload)
      || (len (Payload_Data payload) =? 0)%Z) ErrCorruptStore then
  refuse_if (digestPayload payload <>? Artifact_PayloadDigest artifact) ErrCorruptStore.

Definition validateFreezeResult (result : FreezeArtifactResult) : res unit :=
  let task := FreezeResult_Task result in
  let artifact := FreezeResult_Artifact result in
  refuse_if (negb (is_ok (validateStoredTask task))
      || (Task_Artifact task <>? Some (Artifact_Ref artifact))
      || (Artifact_State artifact <>? ArtifactFrozen)
      || (Artifact_Task artifact <>? Task_Ref task) || (Artifact_PayloadSize artifact <=? 0)%Z
      || IsZero (Artifact_FrozenAt artifact)
      || negb (TimeEqual (Artifact_FrozenAt artifact) (Task_UpdatedAt task))
      || negb (is_none (Artifact_PublishedAt artifact)) || negb (is_none (Artifact_DiscardedAt artifact))
      || negb (is_ok (validateRevision (Artifact_BaseRevision artifact)))
      || negb (is_ok (validateRevision (Artifact_ResultRevision artifact)))
      || negb (is_ok (validateDigest (Artifact_Digest artifact)))
      || negb (is_ok (validateDigest (Artifact_PayloadDigest artifact)))) ErrCorruptStore.

Definition sameReceiptDecision (left right : ApplyReceipt) : bool :=
  (ApplyReceipt_ID left =?= ApplyReceipt_ID right)
  && (ApplyReceipt_Artifact left =?= ApplyReceipt_Artifact right)
  && (ApplyReceipt_ArtifactDigest left =?= ApplyReceipt_ArtifactDigest right)
  && (ApplyReceipt_BaseRevision left =?= ApplyReceipt_BaseRevision right)
  && (ApplyReceipt_ResultRevision left =?= ApplyReceipt_ResultRevision right)
  && (ApplyReceipt_Decision left =?= ApplyReceipt_Decision right)
  && (ApplyReceipt_ObservedRevision left =?= ApplyReceipt_ObservedRevision right)
  && (ApplyReceipt_Code left =?= ApplyReceipt_Code right)
  && (ApplyReceipt_Message left =?= ApplyReceipt_Message right).

Definition sameReceipt (left right : ApplyReceipt) : bool :=
  sameReceiptDecision left right && TimeEqual (ApplyReceipt_RecordedAt left) (ApplyReceipt_RecordedAt right).

Definition sameArtifactIdentity (left right : Artifact) : bool :=
  (Artifact_Ref left =?= Artifact_Ref right) && (Artifact_Task left =?= Artifact_Task right)
  && (Artifact_BaseRevision left =?= Artifact_BaseRevision right)
  && (Artifact_ResultRevision left =?= Artifact_ResultRevision right)
  && (Artifact_Digest left =?= Artifact_Digest right)
  && (Artifact_PayloadDigest left =?= Artifact_PayloadDigest right)
  && (Artifact_PayloadSize left =? Artifact_PayloadSize right)%Z
  && (Artifact_MediaType left =?= Artifact_MediaType right)
  && TimeEqual (Artifact_FrozenAt left) (Artifact_FrozenAt right).

(* ------------------------------------------------------------------ *)
(** ** Clock *)

Definition checkedClockTime (clock : option time) : res time :=
  match clock with
  | None => Err ErrInvalidArgument
  | Some value =>
      check refuse_if (IsZero value) ErrInvalidArgument then
      let normalized := UnixTime (UnixNano value) in
      check refuse_if (negb (TimeEqual normalized value)) ErrInvalidArgument then
      Ok normalized
  end.

Definition timestampAtLeast (candidate : time) (floors : list time) : time :=
  fold_left (fun candidate floor => if Before candidate floor then floor else candidate) floors candidate.

Definition containsState (states : list TaskState) (candidate : TaskState) : bool :=
  existsb (fun state => state =?= candidate) states.

(* ------------------------------------------------------------------ *)
(** ** Payload protection (protection.go) *)

Definition agentProtectionSchema : Z := 1.

Definition messageProtectionBinding (task : TaskRef) (message : MessageID) : Binding :=
  {| Binding_Component := "human.agent"; Binding_Purpose := "persistence";
     Binding_Authority := WorkspaceRef_Authority (TaskRef_Workspace task);
     Binding_Namespace := WorkspaceRef_ID (TaskRef_Workspace task) ++ "/" ++ TaskRef_ID task;
     Binding_RecordType := "message"; Binding_RecordID := message; Binding_Field := "parts";
     Binding_Schema := agentProtectionSchema |}.

Definition artifactProtectionBinding (artifact : Artifact) : Binding :=
  {| Binding_Component := "human.agent"; Binding_Purpose := "persistence";
     Binding_Authority := WorkspaceRef_Authority (ArtifactRef_Workspace (Artifact_Ref artifact));
     Binding_Namespace := WorkspaceRef_ID (ArtifactRef_Workspace (Artifact_Ref artifact)) ++ "/"
                          ++ TaskRef_ID (Artifact_Task artifact);
     Binding_RecordType := "artifact";
     Binding_RecordID := ArtifactRef_ID (Artifact_Ref artifact) ++ "/" ++ Artifact_Digest artifact;
     Binding_Field := "payload"; Binding_Schema := agentProtectionSchema |}.

Definition validateProtectorEnvelope (agent : Agent) (envelope : Envelope) : res unit :=
  check ValidateEnvelope envelope then
  let description := Agent_protectorDescription agent in
  check refuse_if ((Envelope_Provider envelope <>? Description_Provider description)
                   || (Envelope_Format envelope <>? Description_Format description)) ErrInvalidEnvelope then
  refuse_if (blen (Envelope_Nonce envelope) + blen (Envelope_Data envelope)
             >? Description_MaxEnvelopeBytes description)%Z ErrInvalidEnvelope.

Definition sealStoredValue (agent : Agent) (ctx : goctx) (binding : Binding) (plaintext : bytes) : res string :=
  match Agent_protector agent with
  | None => MarshalStoredValue (NewPlainStoredValue plaintext)
  | Some protector =>
      check refuse_if (blen plaintext >? Description_MaxPlaintextBytes (Agent_protectorDescription agent))%Z
        ErrInvalidArgument then
      let? envelope := Protector_Seal protector ctx binding plaintext in
      check validateProtectorEnvelope agent envelope then
      let? value := NewSealedStoredValue (is_none plaintext) envelope in
      MarshalStoredValue value
  end.

(** [errors.Join(ErrCorruptStore, err)]. *)
Definition join_corrupt {A} (m : res A) : res A :=
  match m with
  | Ok v => Ok v
  | Err e => Err (Join ErrCorruptStore e)
  end.

Definition validateStoredValueShape (agent : Agent) (encoded : string) (maxBytes : Z) : res StoredValue :=
  let? value := join_corrupt (UnmarshalStoredValueLimited encoded maxBytes) in
  check match Value_Mode value with
        | StoredValuePlain =>
            refuse_if (negb (is_none (Agent_protector agent)) && negb (Agent_allowPlaintext agent))
              (Join ErrCorruptStore ErrProtectionDowngrade)
        | StoredValueSealed =>
            match Agent_protector agent, Value_Envelope value with
            | Some _, Some envelope => join_corrupt (validateProtectorEnvelope agent envelope)
            | _, _ => Err ErrCorruptStore
            end
        | StoredValueModeOther _ => Err ErrCorruptStore
        end then
  Ok value.

Definition openStoredValue (agent : Agent) (ctx : goctx) (binding : Binding) (encoded : string)
    (maxBytes : Z) : res bytes :=
  let? value := validateStoredValueShape agent encoded maxBytes in
  match Value_Mode value, Value_Envelope value, Agent_protector agent with
  | StoredValuePlain, _, _ => Ok (Value_Plain value)
  | StoredValueSealed, Some envelope, Some protector =>
      let? plaintext :=
        match Protector_Open protector ctx binding (CloneEnvelope envelope) with
        | Ok plaintext => Ok plaintext
        | Err e => Err (if errors_Is e ErrAuthentication || errors_Is e ErrInvalidEnvelope
                        then Join ErrCorruptStore e else e)
        end in
      check refuse_if (negb (Bool.eqb (is_none plaintext) (Value_Nil value))) ErrCorruptStore then
      check refuse_if (blen plaintext >? Description_MaxPlaintextBytes (Agent_protectorDescription agent))%Z
        ErrCorruptStore then
      Ok plaintext
  | _, _, _ => Err ErrCorruptStore
  end.

Record preparedMessageContent := { prepared_encoded : string; prepared_digest : StoreDigest }.

Definition prepareMessageContent (agent : Agent) (ctx : goctx) (task : TaskRef) (message : MessageInput)
    : res preparedMessageContent :=
  let plaintext := print (enc_Parts (MessageInput_Parts message)) in
  let digest := contentDigest (MessageInput_Parts message) in
  let? encoded := sealStoredValue agent ctx (messageProtectionBinding task (MessageInput_ID message))
                    (Some plaintext) in
  check refuse_if ((len encoded =? 0)%Z || (len encoded >? maxPageBytes)%Z) ErrInvalidArgument then
  Ok {| prepared_encoded := encoded; prepared_digest := digest |}.

Definition messageFromStoreRecord (agent : Agent) (ctx : goctx) (record : StoreMessageRecord) : res Message :=
  let encoded := MessageRecord_EncodedParts record in
  check refuse_if ((len encoded =? 0)%Z || (len encoded >? maxPageBytes)%Z) ErrCorruptStore then
  let? plaintext := openStoredValue agent ctx
    (messageProtectionBinding (MessageRecord_Task record) (MessageRecord_ID record)) encoded maxPageBytes in
  let? parts := or_err (text ← plaintext; j ← parse text; dec_Parts j) ErrCorruptStore in
  check refuse_if (contentDigest parts <>? MessageRecord_PartsDigest record) ErrCorruptStore then
  let message := {| Message_ID := MessageRecord_ID record; Message_Task := MessageRecord_Task record;
                    Message_Sequence := MessageRecord_Sequence record;
                    Message_Author := MessageRecord_Author record; Message_Parts := parts;
                    Message_CreatedAt := MessageRecord_CreatedAt record |} in
  check validateStoredMessage message then
  Ok message.

Definition prepareArtifactPayload (agent : Agent) (ctx : goctx) (artifact : Artifact) (payload : Payload)
    : res string :=
  let? encoded := sealStoredValue agent ctx (artifactProtectionBinding artifact) (Some (Payload_Data payload)) in
  check refuse_if ((len encoded =? 0)%Z || (len encoded >? maxStoredArtifactBytes)%Z) ErrInvalidArgument then
  Ok encoded.

Definition artifactContentFromStoreRecord (agent : Agent) (ctx : goctx) (record : StoreArtifactRecord)
    : res ArtifactContent :=
  let encoded := ArtifactRecord_EncodedPayload record in
  let artifact := ArtifactRecord_Artifact record in
  check refuse_if ((len encoded =? 0)%Z || (len encoded >? maxStoredArtifactBytes)%Z) ErrCorruptStore then
  let? plaintext := openStoredValue agent ctx (artifactProtectionBinding artifact) encoded
                      maxStoredArtifactBytes in
  let content := {| ArtifactContent_Artifact := artifact;
                    ArtifactContent_Payload := {| Payload_MediaType := Artifact_MediaType artifact;
                                                  Payload_Data := bytes_text plaintext |} |} in
  check validateStoredArtifact content then
  Ok content.

(* ------------------------------------------------------------------ *)
(** ** Loading and recording (store_core.go, artifact.go, lease.go) *)

Definition validateStoreTaskRecord (record : StoreTaskRecord) : res unit :=
  let task := TaskRecord_Task record in
  let lease := TaskRecord_Lease record in
  check validateStoredTask task then
  check refuse_if (negb (is_empty (Lease_Owner lease))
                   && ((Lease_Fence lease =? 0)%Z || Terminal (Task_State task))) ErrCorruptStore then
  check refuse_if (negb (Bool.eqb (is_none (Task_Artifact task))
                                  (is_none (TaskRecord_ArtifactState record)))) ErrCorruptStore then
  match TaskRecord_ArtifactState record with
  | None => Ok tt
  | Some state =>
      refuse_if (negb
        (((state =?= ArtifactFrozen)
           && ((Task_State task =?= TaskWorking) || (Task_State task =?= TaskInputRequired)))
         || ((state =?= ArtifactPublished) && (Task_State task =?= TaskCompleted))
         || ((state =?= ArtifactDiscarded)
              && ((Task_State task =?= TaskCanceled) || (Task_State task =?= TaskFailed)))))
        ErrCorruptStore
  end.

Definition validLeaseTimestamp (value : time) : bool := store_time value.

Definition validateLeaseAssignment (assignment : LeaseAssignment) : res unit :=
  check replace_error ErrCorruptStore (validateLeaseGrant (LeaseAssignment_Grant assignment)) then
  let task := LeaseAssignment_Task assignment in
  refuse_if (negb (is_ok (validateStoredTask task))
      || (Task_Ref task <>? LeaseGrant_Task (LeaseAssignment_Grant assignment))
      || Terminal (Task_State task)
      || negb (validLeaseTimestamp (LeaseAssignment_GrantedAt assignment))
      || Before (LeaseAssignment_GrantedAt assignment) (Task_CreatedAt task)) ErrCorruptStore.

Definition validateStoreCommandRecord (record : StoreCommandRecord) (authority : AuthorityID)
    (id : CommandID) : res unit :=
  check refuse_if ((Command_Authority record <>? authority) || (Command_ID record <>? id)
      || negb (is_ok (validateStable (Command_Kind record)))
      || is_empty (Command_IntentDigest record)
      || negb (is_ok (validateStable (Command_ResultKind record)))
      || (len (Command_Result record) =? 0)%Z || IsZero (Command_CreatedAt record)) ErrCorruptStore then
  refuse_if (byteDigest (Command_Result record) <>? Command_ResultDigest record) ErrCorruptStore.

Section Loaders.
Context {S : Type} `{StoreView S}.

Definition loadTaskRecordFromStore (view : S) (ref : TaskRef) : res StoreTaskRecord :=
  let? record := on_error ErrStoreRecordNotFound ErrNotFound (LoadTask ref view) in
  check refuse_if (Task_Ref (TaskRecord_Task record) <>? ref) ErrCorruptStore then
  check validateStoreTaskRecord record then
  Ok record.

Definition loadTaskFromStore (view : S) (ref : TaskRef) : res Task :=
  let? record := loadTaskRecordFromStore view ref in
  Ok (TaskRecord_Task record).

(** [replayJSONCommandFromStore]: [Ok None] when the command is new, the
    decoded result when its receipt matches. *)
Definition replayJSONCommandFromStore {A} `{JsonCodec A} (view : S) (authority : AuthorityID)
    (id : CommandID) (kind digest resultKind : string) : res (option A) :=
  let? found := found_or_absent
    (LookupCommand {| CommandKey_Authority := authority; CommandKey_ID := id |}
                   {| ReadLimit_MaxBytes := maxPageBytes |} view) in
  match found with
  | None => Ok None
  | Some record =>
      check validateStoreCommandRecord record authority id then
      check refuse_if ((Command_Kind record <>? kind) || (Command_IntentDigest record <>? digest)
                       || (Command_ResultKind record <>? resultKind)) ErrIdempotencyConflict then
      let? result := or_err (Unmarshal (Command_Result record)) ErrCorruptStore in
      Ok (Some result)
  end.

Definition replayTaskCommandFromStore (view : S) (authority : AuthorityID) (id : CommandID)
    (kind digest : string) : res (option Task) :=
  let? found := replayJSONCommandFromStore (A := Task) view authority id kind digest "task" in
  match found with
  | None => Ok None
  | Some task =>
      check validateStoredTask task then
      check refuse_if (WorkspaceRef_Authority (TaskRef_Workspace (Task_Ref task)) <>? authority)
        ErrCorruptStore then
      Ok (Some task)
  end.

Definition verifyLeaseGrantHistoryFromStore (view : S) (grant : LeaseGrant) : res time :=
  check validateLeaseGrant grant then
  let? record := on_error ErrStoreRecordNotFound ErrStaleLease
    (LoadLeaseGrant (LeaseGrant_Task grant) (LeaseGrant_Fence grant) view) in
  check refuse_if ((GrantRecord_Grant record <>? grant) || IsZero (GrantRecord_GrantedAt record))
    ErrCorruptStore then
  Ok (GrantRecord_GrantedAt record).

Definition requireCurrentLeaseFromStore (view : S) (grant : LeaseGrant) : res unit :=
  let? _ := verifyLeaseGrantHistoryFromStore view grant in
  let? record := loadTaskRecordFromStore view (LeaseGrant_Task grant) in
  refuse_if ((Lease_Owner (TaskRecord_Lease record) <>? LeaseGrant_Worker grant)
             || negb (Lease_Fence (TaskRecord_Lease record) =? LeaseGrant_Fence grant)%Z) ErrStaleLease.

(** The zero time when the Task has no lease history. *)
Definition validateLeaseHistoryHeadFromStore (view : S) (record : StoreTaskRecord) : res time :=
  let task := TaskRecord_Task record in
  let lease := TaskRecord_Lease record in
  let? latest := found_or_absent (LoadLatestLeaseGrant (Task_Ref task) view) in
  match latest with
  | None =>
      check refuse_if (negb (Lease_Fence lease =? 0)%Z || negb (is_empty (Lease_Owner lease)))
        ErrCorruptStore then
      Ok zero_time
  | Some latest =>
      let grant := GrantRecord_Grant latest in
      check refuse_if (negb (is_ok (validateLeaseGrant grant))
          || (LeaseGrant_Task grant <>? Task_Ref task)
          || negb (LeaseGrant_Fence grant =? Lease_Fence lease)%Z
          || negb (validLeaseTimestamp (GrantRecord_GrantedAt latest))
          || Before (GrantRecord_GrantedAt latest) (Task_CreatedAt task)
          || (negb (is_empty (Lease_Owner lease)) && (LeaseGrant_Worker grant <>? Lease_Owner lease)))
        ErrCorruptStore then
      Ok (GrantRecord_GrantedAt latest)
  end.

Definition verifyLeaseAssignmentFromStore (view : S) (assignment : LeaseAssignment) : res unit :=
  let? grantedAt := on_error ErrStaleLease ErrCorruptStore
    (verifyLeaseGrantHistoryFromStore view (LeaseAssignment_Grant assignment)) in
  refuse_if (negb (TimeEqual grantedAt (LeaseAssignment_GrantedAt assignment))) ErrCorruptStore.

Definition loadLeaseAssignmentFromStore (view : S) (ref : TaskRef) : res LeaseAssignment :=
  let? record := loadTaskRecordFromStore view ref in
  let? grantedAt := validateLeaseHistoryHeadFromStore view record in
  let lease := TaskRecord_Lease record in
  check refuse_if (is_empty (Lease_Owner lease)) ErrLeaseNotFound then
  let assignment := {| LeaseAssignment_Grant := {| LeaseGrant_Task := ref;
                         LeaseGrant_Worker := Lease_Owner lease; LeaseGrant_Fence := Lease_Fence lease |};
                       LeaseAssignment_Task := TaskRecord_Task record;
                       LeaseAssignment_GrantedAt := grantedAt |} in
  check validateLeaseAssignment assignment then
  Ok assignment.

Definition loadArtifactRecord (view : S) (ref : ArtifactRef) : res StoreArtifactRecord :=
  let? record :=
    match LoadArtifact ref {| ReadLimit_MaxBytes := maxStoredArtifactBytes |} view with
    | Ok record => Ok record
    | Err e => Err (if errors_Is e ErrStoreRecordNotFound then ErrArtifactNotFound
                    else if errors_Is e ErrStoreRecordTooLarge then ErrCorruptStore else e)
    end in
  check refuse_if (Artifact_Ref (ArtifactRecord_Artifact record) <>? ref) ErrCorruptStore then
  check refuse_if (negb (is_ok (validateStoredArtifactMetadata (ArtifactRecord_Artifact record)))
      || (len (ArtifactRecord_EncodedPayload record) =? 0)%Z
      || (len (ArtifactRecord_EncodedPayload record) >? maxStoredArtifactBytes)%Z) ErrCorruptStore then
  Ok record.

Definition loadApplyReceipt (view : S) (ref : ArtifactRef) : res (option ApplyReceipt) :=
  let? found := found_or_absent (LoadApplyReceipt ref view) in
  match found with
  | None => Ok None
  | Some record =>
      let receipt := ReceiptRecord_Receipt record in
      check refuse_if (ApplyReceipt_Artifact receipt <>? ref) ErrCorruptStore then
      check validateStoredReceipt receipt then
      Ok (Some receipt)
  end.

Definition loadVerifiedApplyReceipt (view : S) (ref : ArtifactRef) : res (option ApplyReceipt) :=
  let? found := loadApplyReceipt view ref in
  match found with
  | None => Ok None
  | Some receipt =>
      let? record := loadArtifactRecord view ref in
      let artifact := ArtifactRecord_Artifact record in
      match Artifact_PublishedAt artifact with
      | None => Err ErrCorruptStore
      | Some published =>
          check refuse_if ((Artifact_State artifact <>? ArtifactPublished)
              || (ApplyReceipt_ArtifactDigest receipt <>? Artifact_Digest artifact)
              || (ApplyReceipt_BaseRevision receipt <>? Artifact_BaseRevision artifact)
              || (ApplyReceipt_ResultRevision receipt <>? Artifact_ResultRevision artifact)
              || Before (ApplyReceipt_RecordedAt receipt) published) ErrCorruptStore then
          Ok (Some receipt)
      end
  end.

Definition verifyArtifactLeaseGrantHistory (view : S) (grant : LeaseGrant) : res time :=
  check validateLeaseGrant grant then
  let? taskRecord := on_error ErrNotFound ErrCorruptStore
    (loadTaskRecordFromStore view (LeaseGrant_Task grant)) in
  let? record := on_error ErrStoreRecordNotFound ErrCorruptStore
    (LoadLeaseGrant (LeaseGrant_Task grant) (LeaseGrant_Fence grant) view) in
  check refuse_if ((GrantRecord_Grant record <>? grant)
                   || negb (validLeaseTimestamp (GrantRecord_GrantedAt record))) ErrCorruptStore then
  check refuse_if (Before (GrantRecord_GrantedAt record) (Task_CreatedAt (TaskRecord_Task taskRecord)))
    ErrCorruptStore then
  Ok (GrantRecord_GrantedAt record).

Definition requireArtifactCurrentLease (view : S) (record : StoreTaskRecord) (grant : LeaseGrant)
    : res unit :=
  let task := TaskRecord_Task record in
  let lease := TaskRecord_Lease record in
  check validateLeaseGrant grant then
  check refuse_if (Task_Ref task <>? LeaseGrant_Task grant) ErrCorruptStore then
  check refuse_if ((Lease_Fence lease >? MaxInt64)%Z
                   || ((Lease_Fence lease =? 0)%Z && negb (is_empty (Lease_Owner lease)))) ErrCorruptStore then
  check refuse_if (negb (is_empty (Lease_Owner lease))
                   && negb (is_ok (validateStable (Lease_Owner lease)))) ErrCorruptStore then
  let? latest := found_or_absent (LoadLatestLeaseGrant (LeaseGrant_Task grant) view) in
  match latest with
  | None =>
      check refuse_if (negb (Lease_Fence lease =? 0)%Z) ErrCorruptStore then
      Err ErrStaleLease
  | Some latest =>
      let latestGrant := GrantRecord_Grant latest in
      check refuse_if (negb (is_ok (validateLeaseGrant latestGrant))
          || (LeaseGrant_Task latestGrant <>? LeaseGrant_Task grant)
          || negb (LeaseGrant_Fence latestGrant =? Lease_Fence lease)%Z
          || negb (validLeaseTimestamp (GrantRecord_GrantedAt latest))
          || Before (GrantRecord_GrantedAt latest) (Task_CreatedAt task)) ErrCorruptStore then
      check refuse_if (negb (is_empty (Lease_Owner lease))
                       && (LeaseGrant_Worker latestGrant <>? Lease_Owner lease)) ErrCorruptStore then
      check refuse_if ((Lease_Owner lease <>? LeaseGrant_Worker grant)
                       || negb (Lease_Fence lease =? LeaseGrant_Fence grant)%Z) ErrStaleLease then
      check refuse_if (latestGrant <>? grant) ErrCorruptStore then
      let? exact := on_error ErrStoreRecordNotFound ErrCorruptStore
        (LoadLeaseGrant (LeaseGrant_Task grant) (LeaseGrant_Fence grant) view) in
      refuse_if ((GrantRecord_Grant exact <>? latestGrant)
                 || negb (TimeEqual (GrantRecord_GrantedAt exact) (GrantRecord_GrantedAt latest)))
        ErrCorruptStore
  end.

Definition loadArtifactWorkspaceHead (view : S) (ref : WorkspaceRef) : res WorkspaceHead :=
  let? record := on_error ErrStoreRecordNotFound ErrWorkspaceNotFound (LoadWorkspaceHead ref view) in
  let head := HeadRecord_Head record in
  check refuse_if ((WorkspaceHead_Workspace head <>? ref)
      || negb (is_ok (validateRevision (WorkspaceHead_ConfirmedRevision head)))
      || IsZero (WorkspaceHead_UpdatedAt head)) ErrCorruptStore then
  Ok head.
End Loaders.

Section Recorders.
Context {S : Type} `{StoreTx S}.

Definition commandRecord {A} `{JsonCodec A} (authority : AuthorityID) (id : CommandID)
    (kind digest resultKind : string) (result : A) (now : time) : StoreCommandRecord :=
  {| Command_Authority := authority; Command_ID := id; Command_Kind := kind;
     Command_IntentDigest := digest; Command_ResultKind := resultKind;
     Command_Result := Marshal result; Command_ResultDigest := byteDigest (Marshal result);
     Command_CreatedAt := now |}.

Definition recordJSONCommandToStore {A} `{JsonCodec A} (tx : S) (authority : AuthorityID) (id : CommandID)
    (kind digest resultKind : string) (result : A) (now : time) : res S :=
  on_error ErrStoreConflict ErrIdempotencyConflict
    (InsertCommand (commandRecord authority id kind digest resultKind result now) tx).

Definition recordTaskCommandToStore (tx : S) (authority : AuthorityID) (id : CommandID)
    (kind digest : string) (task : Task) (now : time) : res S :=
  recordJSONCommandToStore tx authority id kind digest "task" task now.

Definition insertMessageToStore (tx : S) (message : Message) (prepared : preparedMessageContent) : res S :=
  on_error ErrStoreConflict ErrMessageConflict
    (InsertMessage {| MessageRecord_ID := Message_ID message; MessageRecord_Task := Message_Task message;
                      MessageRecord_Sequence := Message_Sequence message;
                      MessageRecord_Author := Message_Author message;
                      MessageRecord_EncodedParts := prepared_encoded prepared;
                      MessageRecord_PartsDigest := prepared_digest prepared;
                      MessageRecord_CreatedAt := Message_CreatedAt message |} tx).

Definition insertEventToStore (tx : S) (event : Event) : res S :=
  InsertEvent {| EventRecord_Event := event |} tx.
End Recorders.
