(* ===== verification/AgentLifecycle.v ===== *)
(** * The lifecycle of an Agent (agent/agent.go)

    Construction: the defaults and limits of [Config], and [Open], which on
    every failure releases what it was given.  Life: [acquireStore] admits and
    counts calls, [Shutdown] stops admission, waits for the calls that were
    admitted, then releases the Protector and the Store in a goroutine of its
    own.  The mutex sections, the [sync.Once]s, the channel operations and the
    release goroutines are the atomic steps of a relation, so that concurrent
    callers are interleavings of those steps. *)

From S2P Require Import Prelude GoText GoTime GoJson AgentTypes AgentCodec Framework Protect.
From S2P Require Import AgentStore AgentCore.

Local Open Scope string_scope.

(* ------------------------------------------------------------------ *)
(** ** Construction *)

(** A Go interface value: nil, an interface holding a nil pointer, or a value. *)
Inductive iface (T : Type) := NilInterface | TypedNil | Boxed (v : T).
Arguments NilInterface {T}.
Arguments TypedNil {T}.
Arguments Boxed {T} _.

Definition nilAgentStore {T} (store : iface T) : bool :=
  match store with Boxed _ => false | _ => true end.

Definition nilProtector {T} (protector : iface T) : bool :=
  match protector with Boxed _ => false | _ => true end.

(** [framework.Resource]: the value, and the shared state of an owned one. *)
Record Resource (T : Type) := { Resource_value : T; Resource_owned : option ownedResource }.
Arguments Resource_value {T} _.
Arguments Resource_owned {T} _.

Definition defaultReleaseTimeout : Z := 10000000000.
Definition minimumReleaseTimeout : Z := 1000000.
Definition maximumReleaseTimeout : Z := 300000000000.

(** [DeadlineExceeded]: the error of a release context that ran out. *)
Definition DeadlineExceeded : error := ErrForeign "context deadline exceeded".

(** [errors.Join] of two results that may be nil. *)
Definition errors_Join (left right : option error) : option error :=
  match left, right with
  | None, e => e
  | Some e, None => Some e
  | Some l, Some r => Some (Join l r)
  end.

Section Construction.
(** The injected ports: a Store describes itself, a Protector may fail to. *)
Context {Store : Type} (Store_Description : Store -> StoreDescription).
Context (Protector_Describe : goctx -> Protector -> res Description).

Record Config := {
  Config_Store : Resource (iface Store);
  Config_Protector : Resource (iface Protector);
  Config_AllowPlaintextReads : bool;
  Config_MaxArtifactBytes : Z;
  Config_Clock : option time;
  Config_ReleaseTimeout : Z
}.

Definition ReadResource {T} (r : Resource T) : res T := Resource_Value (Resource_value r) (Resource_owned r).

(** [Config.withDefaults]; [wall] is what [time.Now] shows. *)
Definition withDefaults (wall : time) (config : Config) : res Config :=
  let? store := ReadResource (Config_Store config) in
  check refuse_if (nilAgentStore store) ErrInvalidArgument then
  let maxArtifactBytes :=
    if (Config_MaxArtifactBytes config =? 0)%Z then defaultArtifactMax else Config_MaxArtifactBytes config in
  let clock := match Config_Clock config with None => Some wall | c => c end in
  let? _ := checkedClockTime clock in
  check refuse_if ((maxArtifactBytes <? 1)%Z || (maxArtifactBytes >? absoluteArtifactMax)%Z) ErrInvalidArgument then
  let releaseTimeout :=
    if (Config_ReleaseTimeout config =? 0)%Z then defaultReleaseTimeout else Config_ReleaseTimeout config in
  check refuse_if ((releaseTimeout <? minimumReleaseTimeout)%Z || (releaseTimeout >? maximumReleaseTimeout)%Z)
    ErrInvalidArgument then
  Ok {| Config_Store := Config_Store config; Config_Protector := Config_Protector config;
        Config_AllowPlaintextReads := Config_AllowPlaintextReads config;
        Config_MaxArtifactBytes := maxArtifactBytes; Config_Clock := clock;
        Config_ReleaseTimeout := releaseTimeout |}.

(** What a release callback does within a timeout: it returns, or it is
    still running when the time is over. *)
Abbreviation callback := (Z -> option (option error)).

(** [releaseAgentResource] on a resource nobody else is using: the result,
    whether the callback was started, and the resource afterwards. *)
Definition releaseAgentResource (timeout : Z) (release : callback) (owned : option ownedResource)
    : option error * bool * option ownedResource :=
  match owned with
  | None => (None, false, None)
  | Some o =>
      match owned_once o with
      | OnceDone => (owned_err o, false, Some o)
      | OnceIdle =>
          match release timeout with
          | Some err =>
              (err, true, Some {| owned_releasing := false; owned_released := true;
                                  owned_once := OnceDone; owned_err := err |})
          | None =>
              (Some DeadlineExceeded, true,
               Some {| owned_releasing := true; owned_released := owned_released o;
                       owned_once := OnceRunning; owned_err := owned_err o |})
          end
      | OnceRunning =>
          match release timeout with
          | Some err =>
              (err, false, Some {| owned_releasing := false; owned_released := true;
                                   owned_once := OnceDone; owned_err := err |})
          | None => (Some DeadlineExceeded, false, Some o)
          end
      end
  end.

(** What a failed construction left behind: its error, and per resource
    whether its callback was started and its state. *)
Record Released := {
  Released_error : option error;
  Released_protector : bool * option ownedResource;
  Released_store : bool * option ownedResource
}.

Context (release_protector release_store : callback).

Definition releaseAgentResources (timeout : Z) (protectorResource storeResource : option ownedResource) : Released :=
  let '(e1, c1, o1) := releaseAgentResource timeout release_protector protectorResource in
  let '(e2, c2, o2) := releaseAgentResource timeout release_store storeResource in
  {| Released_error := errors_Join e1 e2; Released_protector := (c1, o1); Released_store := (c2, o2) |}.

Definition releaseAgentConfigResources (config : Config) : Released :=
  let timeout := Config_ReleaseTimeout config in
  let timeout :=
    if (timeout <? minimumReleaseTimeout)%Z || (timeout >? maximumReleaseTimeout)%Z
    then defaultReleaseTimeout else timeout in
  releaseAgentResources timeout (Resource_owned (Config_Protector config)) (Resource_owned (Config_Store config)).

(** A construction returns an Agent, or the error of the failure joined with
    that of the releases. *)
Inductive opened := Opened (agent : Agent) (releaseTimeout : Z) | OpenFailed (err : error) (released : Released).

Definition open_failed (err : error) (released : Released) : opened :=
  OpenFailed (match Released_error released with None => err | Some e => Join err e end) released.

Definition noDescription : Description :=
  {| Description_Contract := {| Contract_ID := ""; Contract_Major := 0; Contract_Minor := 0; Contract_Features := ∅ |};
     Description_Provider := ""; Description_Format := ""; Description_MaxPlaintextBytes := 0;
     Description_MaxEnvelopeBytes := 0 |}.

(** The Protector and its description, when one is configured. *)
Definition acquireProtector (ctx : goctx) (resource : Resource (iface Protector))
    : res (option Protector * Description) :=
  let? protector := ReadResource resource in
  match protector with
  | NilInterface =>
      check refuse_if (negb (is_none (Resource_owned resource))) ErrInvalidArgument then
      Ok (None, noDescription)
  | TypedNil => Err ErrInvalidArgument
  | Boxed p =>
      let? description := Protector_Describe ctx p in
      check ValidateDescription description then
      Ok (Some p, description)
  end.

Definition acquireAgentStore (store : iface Store) : res unit :=
  match store with
  | Boxed s => StoreDescription_Validate (Store_Description s)
  | _ => Err ErrInvalidArgument
  end.

Definition newAgent (ctx : goctx) (config : Config) : opened :=
  let fail_with err :=
    open_failed err (releaseAgentResources (Config_ReleaseTimeout config)
                       (Resource_owned (Config_Protector config)) (Resource_owned (Config_Store config))) in
  match (let? store := ReadResource (Config_Store config) in
         check acquireAgentStore store then
         acquireProtector ctx (Config_Protector config)) with
  | Err err => fail_with err
  | Ok (protector, description) =>
      Opened {| Agent_protector := protector; Agent_protectorDescription := description;
                Agent_allowPlaintext := Config_AllowPlaintextReads config;
                Agent_now := Config_Clock config;
                Agent_maxArtifactBytes := Config_MaxArtifactBytes config; Agent_closed := false |}
             (Config_ReleaseTimeout config)
  end.

Definition AgentOpen (ctx : goctx) (wall : time) (config : Config) : opened :=
  match (match ctx with
         | NilContext => Err ErrInvalidArgument
         | Context (Some err) => Err err
         | Context None => withDefaults wall config
         end) with
  | Err err => open_failed err (releaseAgentConfigResources config)
  | Ok completed => newAgent ctx completed
  end.
End Construction.
Arguments Config : clear implicits.

Definition DefaultConfig {Store : Type} : Config Store :=
  {| Config_Store := {| Resource_value := NilInterface; Resource_owned := None |};
     Config_Protector := {| Resource_value := NilInterface; Resource_owned := None |};
     Config_AllowPlaintextReads := false; Config_MaxArtifactBytes := defaultArtifactMax;
     Config_Clock := None; Config_ReleaseTimeout := defaultReleaseTimeout |}.

(* ------------------------------------------------------------------ *)
(** ** Life *)

Module Lifecycle.

(** [uint64] arithmetic. *)
Definition wrap64 (n : Z) : Z := (n mod 18446744073709551616)%Z.

(** The goroutine of one [releaseAgentResource]: not started, started, or its
    result is in the channel. *)
Inductive releaser := NotStarted | Started | Sent (err : option error).

(** A dependency of the Agent: the shared state of its resource (none when it
    is borrowed) and the goroutine that releases it. *)
Record dependency := { owned : option ownedResource; goroutine : releaser }.

(** Where [finishShutdown] stands. *)
Inductive finisher :=
  | NoShutdown | AwaitDrained | ReleasingProtector | ReleasingStore (first : option error) | Finished.

(** The lifecycle fields of an [Agent].  [releases] are the closures
    [acquireStore] returned, with the state of their [sync.Once]. *)
Record lifecycle := {
  closed : bool; active : Z; drained : bool; shutdown : bool; done : bool; closeErr : option error;
  releases : gmap nat bool;
  finish : finisher;
  protector : dependency; store : dependency
}.

Definition started (protectorResource storeResource : option ownedResource) : lifecycle :=
  {| closed := false; active := 0; drained := false; shutdown := false; done := false; closeErr := None;
     releases := ∅; finish := NoShutdown;
     protector := {| owned := protectorResource; goroutine := NotStarted |};
     store := {| owned := storeResource; goroutine := NotStarted |} |}.

(** [acquireStore]: refused, or one more active call and its closure. *)
Definition acquireStore (handle : nat) (a : lifecycle) : res lifecycle :=
  check refuse_if (closed a) ErrClosed then
  Ok {| closed := closed a; active := wrap64 (active a + 1); drained := drained a; shutdown := shutdown a;
        done := done a; closeErr := closeErr a; releases := <[handle := false]> (releases a);
        finish := finish a; protector := protector a; store := store a |}.

(** The closure [acquireStore] returned: its first call counts the call out
    and, when the Agent is closed and no call is left, closes [drained]. *)
Definition releaseCall (handle : nat) (a : lifecycle) : lifecycle :=
  match releases a !! handle with
  | Some false =>
      let active' := if (active a >? 0)%Z then wrap64 (active a - 1) else active a in
      {| closed := closed a; active := active';
         drained := drained a || (closed a && (active' =? 0)%Z);
         shutdown := shutdown a; done := done a; closeErr := closeErr a;
         releases := <[handle := true]> (releases a);
         finish := finish a; protector := protector a; store := store a |}
  | _ => a
  end.

(** [Shutdown] up to its wait: only the first call stops admission and starts
    the finisher. *)
Definition beginShutdown (a : lifecycle) : lifecycle :=
  if shutdown a then a
  else {| closed := true; active := active a; drained := drained a || (active a =? 0)%Z; shutdown := true;
          done := done a; closeErr := closeErr a; releases := releases a; finish := AwaitDrained;
          protector := protector a; store := store a |}.

(** What a call of [Shutdown] returns without waiting: a nil Agent has
    nothing to do, a nil context is refused; the others wait. *)
Definition Shutdown_immediate (agent : option lifecycle) (ctx : goctx) : option (res unit) :=
  match agent, ctx with
  | None, _ => Some (Ok tt)
  | Some _, NilContext => Some (Err ErrInvalidArgument)
  | Some _, Context _ => None
  end.

(** The wait of [Shutdown]: either ready case of the [select]. *)
Inductive Shutdown_returns (a : lifecycle) (ctx : option error) : option error -> Prop :=
  | returns_closed : done a = true -> Shutdown_returns a ctx (closeErr a)
  | returns_waited err : ctx = Some err -> Shutdown_returns a ctx (Some err).

(** [Agent.Err]. *)
Definition AgentErr (a : lifecycle) : option error := if done a then closeErr a else None.

(** Steps of a dependency.  The owner of a copy of the resource may release it
    as well ([OtherCalls]); the release of a borrowed one does nothing. *)
Inductive dependency_label :=
  | CallbackByAgent | CallbackByOther | CallbackReturns (err : option error) | GoroutineSends (err : option error).

Inductive dependency_step : dependency -> dependency_label -> dependency -> Prop :=
  | agent_calls o o' :
      release_step o CallRelease o' ->
      dependency_step {| owned := Some o; goroutine := Started |} CallbackByAgent
                      {| owned := Some o'; goroutine := Started |}
  | other_calls o o' g :
      release_step o CallRelease o' ->
      dependency_step {| owned := Some o; goroutine := g |} CallbackByOther {| owned := Some o'; goroutine := g |}
  | callback_returns o o' g err :
      release_step o (ReleaseReturned err) o' ->
      dependency_step {| owned := Some o; goroutine := g |} (CallbackReturns err)
                      {| owned := Some o'; goroutine := g |}
  | sends_result o err :
      release_step o (ReturnResult err) o ->
      dependency_step {| owned := Some o; goroutine := Started |} (GoroutineSends err)
                      {| owned := Some o; goroutine := Sent err |}
  | sends_borrowed :
      dependency_step {| owned := None; goroutine := Started |} (GoroutineSends None)
                      {| owned := None; goroutine := Sent None |}.

(** What [releaseAgentResource] gets: the result sent, or, at any time, the
    end of its release context. *)
Inductive attempt (d : dependency) : option error -> Prop :=
  | attempt_result err : goroutine d = Sent err -> attempt d err
  | attempt_timeout : attempt d (Some DeadlineExceeded).

Definition spawn (d : dependency) : dependency := {| owned := owned d; goroutine := Started |}.

Definition with_finish (a : lifecycle) (f : finisher) (p s : dependency) : lifecycle :=
  {| closed := closed a; active := active a; drained := drained a; shutdown := shutdown a; done := done a;
     closeErr := closeErr a; releases := releases a; finish := f; protector := p; store := s |}.

(** [finishShutdown]: wait for [drained], release the Protector, then the
    Store, then publish the joined result and close [done]. *)
Inductive finish_step : lifecycle -> lifecycle -> Prop :=
  | finish_drained a :
      finish a = AwaitDrained -> drained a = true ->
      finish_step a (with_finish a ReleasingProtector (spawn (protector a)) (store a))
  | finish_protector a err :
      finish a = ReleasingProtector -> attempt (protector a) err ->
      finish_step a (with_finish a (ReleasingStore err) (protector a) (spawn (store a)))
  | finish_store a first err :
      finish a = ReleasingStore first -> attempt (store a) err ->
      finish_step a
        {| closed := closed a; active := active a; drained := drained a; shutdown := shutdown a; done := true;
           closeErr := errors_Join first err; releases := releases a; finish := Finished;
           protector := protector a; store := store a |}.

Inductive which := TheProtector | TheStore.

Inductive label :=
  | Admit (handle : nat) | Refuse | CallOut (handle : nat) | ShutdownCall
  | Finish | Dependency (w : which) (l : dependency_label).

(** The Agent under concurrent callers. *)
Inductive step : lifecycle -> label -> lifecycle -> Prop :=
  | step_admit a handle a' :
      releases a !! handle = None -> acquireStore handle a = Ok a' -> step a (Admit handle) a'
  | step_refuse a handle e : acquireStore handle a = Err e -> step a Refuse a
  | step_callout a handle : is_Some (releases a !! handle) -> step a (CallOut handle) (releaseCall handle a)
  | step_shutdown a : step a ShutdownCall (beginShutdown a)
  | step_finish a a' : finish_step a a' -> step a Finish a'
  | step_protector a l d :
      dependency_step (protector a) l d ->
      step a (Dependency TheProtector l) (with_finish a (finish a) d (store a))
  | step_store a l d :
      dependency_step (store a) l d ->
      step a (Dependency TheStore l) (with_finish a (finish a) (protector a) d).

(** The labels of a run, in order. *)
Inductive run : lifecycle -> list label -> lifecycle -> Prop :=
  | run_nil a : run a [] a
  | run_snoc a ls b l c : run a ls b -> step b l c -> run a (ls ++ [l]) c.

End Lifecycle.
