(* ===== verification/AgentShutdown.v ===== *)
(** * What the lifecycle of an Agent guarantees

    Invariants of the reachable lifecycles, by induction on the run: the
    counter of active calls, the order of the cleanup, its end. *)

From S2P Require Import Prelude GoText GoTime GoJson AgentTypes AgentCodec Framework Protect.
From S2P Require Import AgentStore AgentCore AgentLifecycle.

Import Lifecycle.

(* ------------------------------------------------------------------ *)
(** ** Outstanding calls *)

(** The calls that were admitted and have not been counted out. *)
Definition pending (m : gmap nat bool) : nat := count_map negb m.
Definition outstanding (a : lifecycle) : nat := pending (releases a).

Lemma pending_admit m h : m !! h = None -> pending (<[h := false]> m) = S (pending m).
Proof. intros H. unfold pending. rewrite count_insert_new by done. cbn. lia. Qed.

Lemma pending_callout m h : m !! h = Some false -> pending m = S (pending (<[h := true]> m)).
Proof. intros H. pose proof (count_update negb m h false true H). cbn in *. unfold pending. lia. Qed.

Lemma pending_some m : pending m <> 0 -> exists h, m !! h = Some false.
Proof. intros (h & [] & Hh & ?)%count_some; [done|eauto]. Qed.

Lemma wrap64_small n : (0 <= n < 18446744073709551616)%Z -> wrap64 n = n.
Proof. apply Z.mod_small. Qed.

(** Fewer than 2^64 calls were ever admitted. *)
Definition bounded (a : lifecycle) : Prop := (Z.of_nat (size (releases a)) < 18446744073709551616)%Z.

(* ------------------------------------------------------------------ *)
(** ** The invariant *)

(** A dependency whose goroutine has sent a success was released. *)
Definition dependency_ok (d : dependency) : Prop :=
  goroutine d = Sent None ->
  match owned d with None => True | Some o => owned_once o = OnceDone /\ owned_err o = None end.

Definition begun (f : finisher) : bool := match f with NoShutdown => false | _ => true end.
Definition past_drain (f : finisher) : bool :=
  match f with NoShutdown | AwaitDrained => false | _ => true end.
Definition past_protector (f : finisher) : bool :=
  match f with ReleasingStore _ | Finished => true | _ => false end.

Record lifecycle_ok (a : lifecycle) : Prop := {
  ok_active : active a = Z.of_nat (outstanding a);
  ok_closed : closed a = shutdown a;
  ok_begun : begun (finish a) = shutdown a;
  ok_drained : drained a = closed a && (active a =? 0)%Z;
  ok_past : past_drain (finish a) = true -> drained a = true;
  ok_protector : goroutine (protector a) = NotStarted <-> past_drain (finish a) = false;
  ok_store : goroutine (store a) = NotStarted <-> past_protector (finish a) = false;
  ok_done : done a = true <-> finish a = Finished;
  ok_dependencies : dependency_ok (protector a) /\ dependency_ok (store a);
  ok_first : finish a = ReleasingStore None -> goroutine (protector a) = Sent None;
  ok_err : finish a = Finished -> closeErr a = None ->
    goroutine (protector a) = Sent None /\ goroutine (store a) = Sent None
}.

Lemma dependency_step_ok d l d' : dependency_step d l d' -> dependency_ok d -> dependency_ok d'.
Proof.
  unfold dependency_ok. inversion 1; subst; cbn; try done; intros Hok Hs; try specialize (Hok Hs);
    match goal with H : release_step _ _ _ |- _ => inversion H; subst end; cbn in *;
    try (destruct Hok; congruence); try congruence.
  split; [done | congruence].
Qed.

Lemma dependency_step_goroutine d l d' : dependency_step d l d' ->
  (goroutine d' = NotStarted <-> goroutine d = NotStarted) /\
  (forall e, goroutine d = Sent e -> goroutine d' = Sent e).
Proof. inversion 1; subst; cbn; done. Qed.

Lemma size_step a l b : step a l b -> bounded b -> bounded a.
Proof.
  unfold bounded. inversion 1 as [? h ? Hn Ha| |? h [[] Hh]| |? ? Hf| |]; subst; cbn; try done.
  - unfold acquireStore in Ha. ok_inv. cbn. rewrite map_size_insert_None by done. lia.
  - unfold releaseCall. by rewrite Hh.
  - unfold releaseCall. rewrite Hh. cbn. by rewrite map_size_insert_Some by eauto.
  - unfold beginShutdown. by destruct (shutdown _).
  - by inversion Hf; subst.
Qed.

Lemma started_ok p s : lifecycle_ok (started p s).
Proof. by split; cbn; try done; intros; split. Qed.

Lemma outstanding_bound a : bounded a -> (Z.of_nat (outstanding a) < 18446744073709551616)%Z.
Proof. unfold bounded, outstanding. pose proof (count_le negb (releases a)). unfold pending. lia. Qed.

Lemma admit_ok a h b : releases a !! h = None -> acquireStore h a = Ok b -> bounded b ->
  lifecycle_ok a -> lifecycle_ok b.
Proof.
  intros Hn Ha Hb [h1 h2 h3 h4 h5 h6 h7 h8 h9 h10 h11].
  unfold acquireStore in Ha. destruct (closed a) eqn:Ec; [done|]. injection Ha as <-.
  apply outstanding_bound in Hb. unfold outstanding in Hb. cbn in Hb.
  rewrite pending_admit in Hb by done. split; cbn; try done.
  - unfold outstanding. cbn. rewrite pending_admit by done. rewrite h1, wrap64_small; unfold outstanding; lia.
Qed.

Lemma callout_ok a h : is_Some (releases a !! h) -> bounded a -> lifecycle_ok a -> lifecycle_ok (releaseCall h a).
Proof.
  intros [b Hh] Hb Hok. unfold releaseCall. rewrite Hh. destruct b; [done|].
  destruct Hok as [h1 h2 h3 h4 h5 h6 h7 h8 h9 h10 h11].
  apply outstanding_bound in Hb. unfold outstanding in h1, Hb. rewrite (pending_callout _ _ Hh) in h1, Hb.
  assert ((active a >? 0)%Z = true) as Hpos by lia.
  assert (drained a = false) as Hd.
  { rewrite h4. apply andb_false_iff. right. lia. }
  split; cbn; rewrite ?Hpos; try done.
  - unfold outstanding. cbn. rewrite wrap64_small; lia.
  - by rewrite Hd, h2.
  - intros Hp. rewrite h5 in Hd by done. done.
Qed.

Lemma shutdown_ok a : lifecycle_ok a -> lifecycle_ok (beginShutdown a).
Proof.
  intros Hok. unfold beginShutdown. destruct (shutdown a) eqn:Es; [done|].
  destruct Hok as [h1 h2 h3 h4 h5 h6 h7 h8 h9 h10 h11]. rewrite Es in *.
  destruct (finish a) eqn:Ef; try done. cbn in *. split; cbn; try done; try by intros.
  - by rewrite h4, h2.
  - split; [|done]. intros Hd%h8. done.
Qed.

Lemma attempt_success d : attempt d None -> goroutine d = Sent None.
Proof. by inversion 1. Qed.

Lemma finish_ok a b : finish_step a b -> lifecycle_ok a -> lifecycle_ok b.
Proof.
  intros Hs [h1 h2 h3 h4 h5 h6 h7 h8 [h9 h9'] h10 h11].
  inversion Hs as [? Hf Hd|? err Hf Ha|? first err Hf Ha]; subst; rewrite Hf in *; cbn in *.
  - split; cbn; try done; try (split; [by intros [=]%h8 | done]).
  - split; cbn; try done; try (split; [by intros [=]%h8 | done]).
    intros [= ->]. by apply attempt_success.
  - split; cbn; try done. intros _ He. destruct first, err; try done.
    split; [by apply h10 | by apply attempt_success].
Qed.

Lemma with_dependencies_ok a p s :
  lifecycle_ok a ->
  dependency_ok p -> dependency_ok s ->
  (goroutine p = NotStarted <-> goroutine (protector a) = NotStarted) ->
  (goroutine s = NotStarted <-> goroutine (store a) = NotStarted) ->
  (forall e, goroutine (protector a) = Sent e -> goroutine p = Sent e) ->
  (forall e, goroutine (store a) = Sent e -> goroutine s = Sent e) ->
  lifecycle_ok (with_finish a (finish a) p s).
Proof.
  intros [h1 h2 h3 h4 h5 h6 h7 h8 [h9 h9'] h10 h11] Hp Hs Gp Gs Ep Es. split; cbn; try done.
  - by rewrite Gp.
  - by rewrite Gs.
  - eauto.
  - intros Hf He. destruct (h11 Hf He). auto.
Qed.

Lemma step_ok a l b : step a l b -> bounded b -> lifecycle_ok a -> lifecycle_ok b.
Proof.
  intros Hs Hb Hok. pose proof (size_step _ _ _ Hs Hb) as Hba.
  destruct Hs as [| |? h Hh| |? ? Hf|? ? d Hd|? ? d Hd].
  - by eapply admit_ok.
  - done.
  - by apply callout_ok.
  - by apply shutdown_ok.
  - by eapply finish_ok.
  - destruct (dependency_step_goroutine _ _ _ Hd).
    apply with_dependencies_ok; try done; [|by destruct Hok as [? ? ? ? ? ? ? ? [? ?]]..].
    eapply dependency_step_ok; [done|]. by destruct Hok as [? ? ? ? ? ? ? ? [? ?]].
  - destruct (dependency_step_goroutine _ _ _ Hd).
    apply with_dependencies_ok; try done; [by destruct Hok as [? ? ? ? ? ? ? ? [? ?]]|].
    eapply dependency_step_ok; [done|]. by destruct Hok as [? ? ? ? ? ? ? ? [? ?]].
Qed.

Lemma bounded_run a ls b : run a ls b -> bounded b -> bounded a.
Proof. induction 1; [done|]. intros Hc. by eapply IHrun, size_step. Qed.

Lemma run_ok a ls b : run a ls b -> bounded b -> lifecycle_ok a -> lifecycle_ok b.
Proof.
  induction 1 as [|a ls b l c Hr IH Hs]; [done|]. intros Hc Ha.
  eapply step_ok; [done..|]. apply IH; [|done]. by eapply size_step.
Qed.

(* ------------------------------------------------------------------ *)
(** ** Callbacks *)

Definition dependency_of (w : which) (a : lifecycle) : dependency :=
  match w with TheProtector => protector a | TheStore => store a end.

(** A callback of the dependency starts, called by anyone. *)
Definition starts (w : which) (l : label) : bool :=
  match w, l with
  | TheProtector, Dependency TheProtector (CallbackByAgent | CallbackByOther) => true
  | TheStore, Dependency TheStore (CallbackByAgent | CallbackByOther) => true
  | _, _ => false
  end.

Definition count (p : label -> bool) (ls : list label) : nat := length (List.filter p ls).

Lemma count_snoc p ls l : count p (ls ++ [l]) = count p ls + (if p l then 1 else 0).
Proof.
  unfold count. rewrite List.filter_app, length_app. cbn. by destruct (p l).
Qed.

(** Whether the callback can still be started. *)
Definition unused (d : dependency) : nat :=
  match owned d with
  | Some o => match owned_once o with OnceIdle => 1 | _ => 0 end
  | None => 0
  end.

Lemma dependency_step_unused d l d' : dependency_step d l d' ->
  unused d = unused d' + (match l with CallbackByAgent | CallbackByOther => 1 | _ => 0 end).
Proof.
  unfold unused. inversion 1; subst; cbn; try done;
    match goal with H : release_step _ _ _ |- _ => inversion H; subst end; cbn in *;
    try (by repeat match goal with H : owned_once _ = _ |- _ => rewrite H end); lia.
Qed.

Lemma step_unused w a l b : step a l b ->
  unused (dependency_of w a) = unused (dependency_of w b) + (if starts w l then 1 else 0).
Proof.
  destruct 1 as [? h ? Hn Ha| |? h Hh| |? ? Hf|? ? d Hd|? ? d Hd].
  - unfold acquireStore in Ha. ok_inv. destruct w; cbn; lia.
  - destruct w; cbn; lia.
  - unfold releaseCall. destruct Hh as [[] ->]; destruct w; cbn; lia.
  - unfold beginShutdown. destruct (shutdown _), w; cbn; lia.
  - destruct Hf, w; cbn; unfold unused, spawn; cbn; lia.
  - apply dependency_step_unused in Hd. destruct w, l; cbn in *; lia.
  - apply dependency_step_unused in Hd. destruct w, l; cbn in *; lia.
Qed.

Lemma run_unused w a ls b : run a ls b ->
  unused (dependency_of w a) = unused (dependency_of w b) + count (starts w) ls.
Proof.
  induction 1 as [|a ls b l c Hr IH Hs]; [cbn; lia|].
  rewrite count_snoc. apply (step_unused w) in Hs. lia.
Qed.

Lemma agent_starts_started d d' : dependency_step d CallbackByAgent d' -> goroutine d = Started.
Proof. by inversion 1. Qed.

Lemma unused_le d : unused d <= 1.
Proof. unfold unused. repeat case_match; lia. Qed.

(* ------------------------------------------------------------------ *)
(** ** Admission, order and result *)

Lemma step_closed a l b : step a l b -> closed a = true -> closed b = true /\ forall h, l <> Admit h.
Proof.
  destruct 1 as [? h ? Hn Ha| |? h Hh| |? ? Hf|? ? d Hd|? ? d Hd]; intros Hc; try done.
  - unfold acquireStore in Ha. by rewrite Hc in Ha.
  - unfold releaseCall. by destruct Hh as [[] ->].
  - unfold beginShutdown. by destruct (shutdown _).
  - by destruct Hf.
Qed.

Lemma run_closed a ls b : run a ls b -> closed a = true -> closed b = true /\ forall h, Admit h ∉ ls.
Proof.
  induction 1 as [|a ls b l c Hr IH Hs]; intros Hc.
  { split; [done|]. intros h Hh. by apply elem_of_nil in Hh. }
  destruct (IH Hc) as [Hb Hn]. destruct (step_closed _ _ _ Hs Hb) as [Hd Hl].
  split; [done|]. intros h [Hi|Hi%list_elem_of_singleton]%elem_of_app; [by eapply Hn|].
  by eapply Hl.
Qed.

Lemma step_finished a l b : step a l b -> shutdown a = true -> finish a = Finished ->
  shutdown b = true /\ finish b = Finished /\ closeErr b = closeErr a.
Proof.
  destruct 1 as [? h ? Hn Ha| |? h Hh| |? ? Hf|? ? d Hd|? ? d Hd]; intros Hu Hc; try done.
  - unfold acquireStore in Ha. by ok_inv.
  - unfold releaseCall. by destruct Hh as [[] ->].
  - unfold beginShutdown. by rewrite Hu.
  - destruct Hf; congruence.
Qed.

Lemma run_finished a ls b : run a ls b -> shutdown a = true -> finish a = Finished ->
  shutdown b = true /\ finish b = Finished /\ closeErr b = closeErr a.
Proof.
  induction 1 as [|a ls b l c Hr IH Hs]; [done|]. intros Hu Hc. destruct (IH Hu Hc) as (H1 & H2 & H3).
  destruct (step_finished _ _ _ Hs H1 H2) as (H4 & H5 & H6). by rewrite H6.
Qed.

(* ------------------------------------------------------------------ *)
(** ** Termination *)

(** What is left of a shutdown: the calls to count out, and the steps of
    [finishShutdown]. *)
Definition stages (f : finisher) : nat :=
  match f with NoShutdown => 4 | AwaitDrained => 3 | ReleasingProtector => 2 | ReleasingStore _ => 1 | Finished => 0 end.
Definition remaining (a : lifecycle) : nat := outstanding a + stages (finish a).

Definition is_finish (l : label) : bool := match l with Finish => true | _ => false end.

Lemma step_stages a l b : step a l b -> shutdown a = true -> begun (finish a) = true ->
  shutdown b = true /\ begun (finish b) = true /\
  stages (finish b) + (if is_finish l then 1 else 0) = stages (finish a).
Proof.
  destruct 1 as [? h ? Hn Ha| |? h Hh| |? ? Hf|? ? d Hd|? ? d Hd]; intros Hu Hb; cbn; rewrite ?Nat.add_0_r; try done.
  - unfold acquireStore in Ha. by ok_inv.
  - unfold releaseCall. by destruct Hh as [[] ->].
  - unfold beginShutdown. by rewrite Hu.
  - destruct Hf as [? Hf _|? ? Hf _|? ? ? Hf _]; cbn; rewrite Hf; done.
Qed.

Lemma run_stages a ls b : run a ls b -> shutdown a = true -> begun (finish a) = true ->
  shutdown b = true /\ begun (finish b) = true /\
  stages (finish b) + count is_finish ls = stages (finish a).
Proof.
  induction 1 as [|a ls b l c Hr IH Hs]; [cbn; intros; split_and!; try done; lia|].
  intros Hu Hb. destruct (IH Hu Hb) as (H1 & H2 & H3).
  destruct (step_stages _ _ _ Hs H1 H2) as (H4 & H5 & H6).
  split_and!; [done..|]. rewrite count_snoc. lia.
Qed.

(** A closed Agent that has not finished can move: a call that is out may
    return, and without one the finisher goes on, even when no callback
    returns. *)
Lemma progress a : lifecycle_ok a -> shutdown a = true -> done a = false ->
  (exists h, releases a !! h = Some false) \/ exists b, step a Finish b.
Proof.
  intros [h1 h2 h3 h4 h5 h6 h7 h8 h9 h10 h11] Hu Hd.
  destruct (decide (outstanding a = 0)) as [Hz|Hz]; [|left; by apply pending_some].
  right. assert (drained a = true) as Hdr by (rewrite h4, h2, Hu, h1, Hz; done).
  rewrite Hu in h3. destruct (finish a) eqn:Ef; try done.
  - eexists. by apply step_finish, finish_drained.
  - eexists. apply step_finish, finish_protector; [done | apply attempt_timeout].
  - eexists. eapply step_finish, finish_store; [done | apply attempt_timeout].
  - rewrite (proj2 h8) in Hd; done.
Qed.

Lemma run_app a ls b ls' c : run a ls b -> run b ls' c -> run a (ls ++ ls') c.
Proof.
  intros H1. induction 1 as [|b ls' c l d Hr IH Hs]; [by rewrite app_nil_r|].
  rewrite app_assoc. eapply run_snoc; [by apply IH | done].
Qed.

Lemma run_one a l b : step a l b -> run a [l] b.
Proof. intros H. eapply (run_snoc a [] a l b); [constructor | done]. Qed.

(** The steps of a cleanup: calls return, the finisher goes on. *)
Definition cleanup (l : label) : Prop := match l with Finish | CallOut _ => True | _ => False end.

Lemma completes n a : remaining a <= n -> lifecycle_ok a -> bounded a -> shutdown a = true ->
  exists ls b, run a ls b /\ done b = true /\ length ls <= n /\ Forall cleanup ls.
Proof.
  revert a. induction n as [|n IH]; intros a Hn Hok Hb Hu; destruct (done a) eqn:Hd;
    try (exists [], a; split_and!; [constructor | done | cbn; lia | constructor]).
  { pose proof (ok_done _ Hok) as [_ Hf]. unfold remaining in Hn.
    destruct (finish a) eqn:Ef; cbn in Hn; try lia. rewrite Hf in Hd; done. }
  assert (exists l b, step a l b /\ cleanup l /\ remaining b <= n /\ shutdown b = true /\ bounded b)
    as (l & b & Hs & Hl & Hr & Hub & Hbb).
  { pose proof (ok_begun _ Hok) as Hbeg. rewrite Hu in Hbeg.
    destruct (progress a Hok Hu Hd) as [[h Hh]|[b Hs]].
    - exists (CallOut h), (releaseCall h a). split_and!; [by constructor; eauto | done | | |].
      + unfold remaining, outstanding, releaseCall in *. rewrite Hh. cbn.
        rewrite (pending_callout _ _ Hh) in Hn. lia.
      + unfold releaseCall. by rewrite Hh.
      + unfold bounded, releaseCall in *. rewrite Hh. cbn. by rewrite map_size_insert_Some by eauto.
    - exists Finish, b. destruct (step_stages _ _ _ Hs Hu Hbeg) as (H1 & H2 & H3).
      assert (releases b = releases a) as Hrel.
      { inversion Hs as [| | | |? ? Hf| |]; subst. by destruct Hf. }
      unfold remaining, outstanding, bounded in *. rewrite Hrel. cbn in H3.
      split_and!; try done. lia. }
  destruct (IH b Hr (step_ok _ _ _ Hs Hbb Hok) Hbb Hub) as (ls & c & Hrun & Hdone & Hlen & Hall).
  exists (l :: ls), c. split_and!; [by apply (run_app a [l] b), Hrun; apply run_one | done | cbn; lia | by constructor].
Qed.

(* ------------------------------------------------------------------ *)
(** ** The properties *)

(** C22: however calls, shutdowns and releases of copied resources
    interleave (and fewer than 2^64 calls are ever admitted), the counter of
    active calls counts exactly the admitted calls that have not returned;
    [drained] is closed exactly when the Agent is closed and none is left;
    the Agent starts a release callback only when it is closed and no call
    is out, that of the Store only after the attempt on the Protector ended;
    no callback is started twice; and a closed Agent admits no call ever
    again. *)
Theorem shutdown_safe protectorResource storeResource ls a :
  run (started protectorResource storeResource) ls a -> bounded a ->
  active a = Z.of_nat (outstanding a) /\
  (drained a = true <-> closed a = true /\ outstanding a = 0) /\
  (forall w b, step a (Dependency w CallbackByAgent) b ->
     closed a = true /\ outstanding a = 0 /\
     (w = TheStore -> finish a = Finished \/ exists first, finish a = ReleasingStore first)) /\
  (forall w, count (starts w) ls <= 1) /\
  (closed a = true -> forall ls' b, run a ls' b -> forall h, Admit h ∉ ls').
Proof.
  intros Hr Hb. pose proof (run_ok _ _ _ Hr Hb (started_ok _ _)) as Hok.
  pose proof Hok as [h1 h2 h3 h4 h5 h6 h7 h8 h9 h10 h11].
  assert (drained a = true <-> closed a = true /\ outstanding a = 0) as Hd.
  { rewrite h4, h1, andb_true_iff, Z.eqb_eq. destruct (closed a); intuition lia. }
  split_and!; [done | done | | |].
  - intros w b Hs. enough (past_drain (finish a) = true /\ (w = TheStore -> past_protector (finish a) = true)) as [Hp Hw].
    { apply h5, Hd in Hp as [? ?]. split_and!; [done..|]. intros Hst%Hw.
      destruct (finish a) as [| | |first|]; try done; [right; by exists first | by left]. }
    inversion Hs as [| | | | |? ? d Hds|? ? d Hds]; subst; apply agent_starts_started in Hds;
      (split; [|try done]).
    + destruct (past_drain (finish a)); [done|]. by rewrite (proj2 h6) in Hds.
    + destruct (finish a) eqn:Ef; try done; by rewrite (proj2 h7) in Hds.
    + intros _. destruct (past_protector (finish a)); [done|]. by rewrite (proj2 h7) in Hds.
  - intros w. apply (run_unused w) in Hr. pose proof (unused_le (dependency_of w (started protectorResource storeResource))). lia.
  - intros Hc ls' b Hr'. by apply (run_closed _ _ _ Hr').
Qed.

(** C23: once [Shutdown] was called the cleanup ends, whatever the calls and
    the callbacks do: while it has not ended a call that is out can return or
    the finisher can go on, which it does at most three times in any
    continuation; so at most as many steps as calls are out, and three more,
    close [done].  From then on nothing changes the result, and it is nil
    only when both dependencies were released without an error. *)
Theorem shutdown_completes protectorResource storeResource ls a :
  run (started protectorResource storeResource) ls a -> bounded a -> shutdown a = true ->
  (exists ls' b, run a ls' b /\ done b = true /\ length ls' <= outstanding a + 3 /\ Forall cleanup ls') /\
  (forall ls' b, run a ls' b -> count is_finish ls' <= 3) /\
  (done a = false -> (exists h, releases a !! h = Some false) \/ exists b, step a Finish b) /\
  (done a = true -> forall ls' b, run a ls' b -> bounded b ->
     done b = true /\ closeErr b = closeErr a /\ AgentErr b = closeErr a /\
     (closeErr a = None -> forall w o, owned (dependency_of w b) = Some o ->
        owned_once o = OnceDone /\ owned_err o = None)).
Proof.
  intros Hr Hb Hu. pose proof (run_ok _ _ _ Hr Hb (started_ok _ _)) as Hok.
  pose proof (ok_begun _ Hok) as Hbeg. rewrite Hu in Hbeg.
  assert (stages (finish a) <= 3) as Hst by (destruct (finish a); try done; cbn; lia).
  split_and!.
  - destruct (completes (remaining a) a) as (ls' & b & ? & ? & Hl & ?); try done.
    exists ls', b. split_and!; [done..| |done]. unfold remaining in Hl. lia.
  - intros ls' b Hr'. destruct (run_stages _ _ _ Hr' Hu Hbeg) as (_ & _ & ?). lia.
  - by apply progress.
  - intros Hd ls' b Hr' Hbb. pose proof (run_ok _ _ _ Hr' Hbb Hok) as Hokb.
    destruct (run_finished _ _ _ Hr' Hu (proj1 (ok_done _ Hok) Hd)) as (_ & Hf & He).
    assert (done b = true) as Hdb by by apply (ok_done _ Hokb).
    split_and!; [done | done | unfold AgentErr; by rewrite Hdb |].
    rewrite <- He. intros Hn w o Ho. destruct (ok_err _ Hokb Hf Hn) as [Hp Hs].
    destruct (ok_dependencies _ Hokb) as [Hdp Hds].
    unfold dependency_ok in *. destruct w; cbn in Ho; [specialize (Hdp Hp) | specialize (Hds Hs)];
      rewrite Ho in *; done.
Qed.

(** A run: a call is admitted, Shutdown waits for it, the Protector's
    callback times out, the Store's succeeds. *)
Definition demo_call : lifecycle :=
  match acquireStore 0 (started (Some Own) (Some Own)) with Ok a => a | Err _ => started None None end.
Definition demo_shut : lifecycle := beginShutdown demo_call.

Lemma demo_run : run (started (Some Own) (Some Own)) [Admit 0; ShutdownCall] demo_shut.
Proof.
  apply (run_snoc _ [Admit 0] demo_call); [|constructor].
  apply run_one. constructor; [done | reflexivity].
Qed.

Lemma shutdown_safe_witness :
  active demo_shut = Z.of_nat (outstanding demo_shut) /\ outstanding demo_shut = 1.
Proof.
  split; [|reflexivity].
  exact (proj1 (shutdown_safe (Some Own) (Some Own) [Admit 0; ShutdownCall] demo_shut demo_run ltac:(reflexivity))).
Defined.

Lemma shutdown_completes_witness :
  exists ls' b, run demo_shut ls' b /\ done b = true /\ length ls' <= 4 /\ Forall cleanup ls'.
Proof.
  exact (proj1 (shutdown_completes (Some Own) (Some Own) [Admit 0; ShutdownCall] demo_shut demo_run
                  ltac:(reflexivity) ltac:(reflexivity))).
Defined.
