(* ===== verification/AgentCommands.v ===== *)
(** * Task commands (CreateTask and the transitions of agent/agent.go)

    A command method runs its Update callback once.  CreateTask and the
    transitions that carry a message first look for a committed receipt in a
    View, and seal the message between the two; [between] is what other calls
    do to the store in that time. *)

From S2P Require Import Prelude GoText GoTime GoJson AgentTypes AgentCodec Framework Protect AgentStore.
From S2P Require Import AgentCore.

Local Open Scope string_scope.

Section Commands.
Context {W S : Type} `{StoreTx S, Store W S}.

(* ---------------------------------------------------------------- *)
(** ** CreateTask *)

Definition replayCreate (view : S) (command : CreateTaskCommand) (digest : string) : res (option Task) :=
  let? found := replayTaskCommandFromStore view
    (WorkspaceRef_Authority (TaskRef_Workspace (CreateTask_Task command)))
    (CommandMeta_ID (CreateTask_Meta command)) "create_task" digest in
  match found with
  | None => Ok None
  | Some replay =>
      check refuse_if ((Task_Ref replay <>? CreateTask_Task command)
                       || (Task_Context replay <>? CreateTask_Context command)) ErrCorruptStore then
      Ok (Some replay)
  end.

Definition createdTask (command : CreateTaskCommand) (now : time) : Task :=
  {| Task_Ref := CreateTask_Task command; Task_Context := CreateTask_Context command;
     Task_State := TaskSubmitted; Task_Revision := 1; Task_MessageCount := 1; Task_EventCount := 1;
     Task_Artifact := None; Task_Submission := None; Task_CreatedAt := now; Task_UpdatedAt := now |}.

Definition createdRecord (command : CreateTaskCommand) (now : time) : StoreTaskRecord :=
  {| TaskRecord_Task := createdTask command now;
     TaskRecord_Lease := {| Lease_Owner := ""; Lease_Fence := 0 |};
     TaskRecord_ArtifactState := None |}.

(** The Update callback of CreateTask. *)
Definition createTaskTx (agent : Agent) (command : CreateTaskCommand) (digest : string)
    (prepared : preparedMessageContent) (tx : S) : res (Task * S) :=
  let? replay := replayCreate tx command digest in
  match replay with
  | Some task => Ok (task, tx)
  | None =>
      let ref := CreateTask_Task command in
      let? now := checkedClockTime (Agent_now agent) in
      let task := createdTask command now in
      let? tx := on_error ErrStoreConflict ErrTaskConflict (InsertTask (createdRecord command now) tx) in
      let message := {| Message_ID := MessageInput_ID (CreateTask_Message command); Message_Task := ref;
                        Message_Sequence := 1; Message_Author := AuthorCaller;
                        Message_Parts := MessageInput_Parts (CreateTask_Message command);
                        Message_CreatedAt := now |} in
      let? tx := insertMessageToStore tx message prepared in
      let event := {| Event_Task := ref; Event_Sequence := 1; Event_Type := EventTaskSubmitted;
                      Event_State := TaskSubmitted; Event_Revision := 1;
                      Event_Message := Message_ID message; Event_Submission := ""; Event_Artifact := "";
                      Event_OccurredAt := now |} in
      let? tx := insertEventToStore tx event in
      let? tx := recordTaskCommandToStore tx (WorkspaceRef_Authority (TaskRef_Workspace ref))
                   (CommandMeta_ID (CreateTask_Meta command)) "create_task" digest task now in
      Ok (task, tx)
  end.

Definition CreateTask (agent : Agent) (ctx : goctx) (command : CreateTaskCommand) (between : W -> W) (w : W)
    : res Task * W :=
  try _ := validateCallContext ctx on w in
  try _ := validateCreateCommand command on w in
  let digest := commandDigest "create_task" (enc_CreateTask command) in
  try _ := acquireStore agent on w in
  try replayed := View ctx (fun view => replayCreate view command digest) w on w in
  match replayed with
  | Some task => (Ok task, w)
  | None =>
      try prepared := prepareMessageContent agent ctx (CreateTask_Task command)
                        (CreateTask_Message command) on w in
      Update ctx (createTaskTx agent command digest prepared) (between w)
  end.

(* ---------------------------------------------------------------- *)
(** ** Transitions *)

(** [transition]; no submission is the empty identifier. *)
Record transition_change := {
  change_allowed : list TaskState;
  change_next : TaskState;
  change_event : EventType;
  change_author : Author;
  change_message : option MessageInput;
  change_submission : SubmissionID;
  change_artifact : option ArtifactRef;
  change_discardArtifact : bool
}.

Definition replayTransition (view : S) (kind : string) (meta : CommandMeta) (grant : option LeaseGrant)
    (ref : TaskRef) (digest : string) : res (option Task) :=
  let? found := replayTaskCommandFromStore view (WorkspaceRef_Authority (TaskRef_Workspace ref))
                  (CommandMeta_ID meta) kind digest in
  match found with
  | None => Ok None
  | Some replay =>
      check refuse_if (Task_Ref replay <>? ref) ErrCorruptStore then
      check match grant with
            | None => Ok tt
            | Some grant => let? _ := verifyLeaseGrantHistoryFromStore view grant in Ok tt
            end then
      Ok (Some replay)
  end.

(** The checks on the current record, before anything is written. *)
Definition admitTransition (tx : S) (kind : string) (meta : CommandMeta) (grant : option LeaseGrant)
    (change : transition_change) (current : Task) : res unit :=
  check match grant with
        | None => Ok tt
        | Some grant => requireCurrentLeaseFromStore tx grant
        end then
  check refuse_if (negb (Task_Revision current =? CommandMeta_ExpectedRevision meta)%Z)
    (RevisionConflictError (CommandMeta_ExpectedRevision meta) (Task_Revision current)) then
  check refuse_if (Terminal (Task_State current)) (TransitionError kind (Task_State current) true) then
  check refuse_if (negb (containsState (change_allowed change) (Task_State current)))
    (TransitionError kind (Task_State current) false) then
  refuse_if ((Task_Revision current >=? MaxInt64)%Z || (Task_EventCount current >=? MaxInt64)%Z
             || (negb (is_none (change_message change)) && (Task_MessageCount current >=? MaxInt64)%Z))
    ErrRevisionConflict.

Definition transitionMessageID (change : transition_change) : MessageID :=
  match change_message change with
  | Some message => MessageInput_ID message
  | None => ""
  end.

(** The submission a completion publishes. *)
Definition transitionSubmission (ref : TaskRef) (change : transition_change) (now : time)
    : option Submission :=
  if is_empty (change_submission change) then None
  else Some {| Submission_ID := change_submission change; Submission_Task := ref;
               Submission_FinalMessage := transitionMessageID change;
               Submission_Artifact := change_artifact change; Submission_PublishedAt := now |}.

(** The Task after the transition. *)
Definition transitionTask (ref : TaskRef) (change : transition_change) (current : Task) (now : time) : Task :=
  {| Task_Ref := Task_Ref current; Task_Context := Task_Context current;
     Task_State := change_next change;
     Task_Revision := Task_Revision current + 1;
     Task_MessageCount := if is_none (change_message change) then Task_MessageCount current
                          else Task_MessageCount current + 1;
     Task_EventCount := Task_EventCount current + 1;
     Task_Artifact := Task_Artifact current;
     Task_Submission := if is_empty (change_submission change) then Task_Submission current
                        else transitionSubmission ref change now;
     Task_CreatedAt := Task_CreatedAt current; Task_UpdatedAt := now |}.

Definition transitionRecord (change : transition_change) (current : StoreTaskRecord) (next : Task)
    : StoreTaskRecord :=
  {| TaskRecord_Task := next;
     TaskRecord_Lease :=
       {| Lease_Owner := if Terminal (Task_State next) then "" else Lease_Owner (TaskRecord_Lease current);
          Lease_Fence := Lease_Fence (TaskRecord_Lease current) |};
     TaskRecord_ArtifactState :=
       if negb (is_none (change_artifact change)) then Some ArtifactPublished
       else if change_discardArtifact change && negb (is_none (Task_Artifact (TaskRecord_Task current)))
       then Some ArtifactDiscarded
       else TaskRecord_ArtifactState current |}.

Definition transitionCondition (meta : CommandMeta) (grant : option LeaseGrant) : StoreTaskCondition :=
  {| Condition_ExpectedRevision := CommandMeta_ExpectedRevision meta;
     Condition_ExpectedLease :=
       (fun g => {| Lease_Owner := LeaseGrant_Worker g; Lease_Fence := LeaseGrant_Fence g |}) <$> grant |}.

Definition transitionEvent (ref : TaskRef) (change : transition_change) (next : Task) (now : time) : Event :=
  {| Event_Task := ref; Event_Sequence := Task_EventCount next; Event_Type := change_event change;
     Event_State := Task_State next; Event_Revision := Task_Revision next;
     Event_Message := transitionMessageID change;
     Event_Submission := change_submission change;
     Event_Artifact := match change_artifact change with
                       | Some artifact => ArtifactRef_ID artifact
                       | None => ""
                       end;
     Event_OccurredAt := now |}.

(** The CompareAndSwapTask missed: the precise conflict. *)
Definition transitionMiss (tx : S) (meta : CommandMeta) (grant : option LeaseGrant) (ref : TaskRef) : error :=
  let failure :=
    check match grant with
          | None => Ok tt
          | Some grant => requireCurrentLeaseFromStore tx grant
          end then
    let? latest := loadTaskFromStore tx ref in
    Err (RevisionConflictError (CommandMeta_ExpectedRevision meta) (Task_Revision latest)) : res unit in
  match failure with
  | Err e => e
  | Ok _ => ErrCorruptStore
  end.

(** A frozen Artifact is published or discarded with its Task. *)
Definition moveArtifact (tx : S) (artifact : ArtifactRef) (ref : TaskRef) (next : ArtifactState)
    (published discarded : option time) : res S :=
  let? (changed, tx) := CompareAndSwapArtifact
    {| ArtifactMutation_Ref := artifact; ArtifactMutation_Task := ref;
       ArtifactMutation_ExpectedState := ArtifactFrozen; ArtifactMutation_NextState := next;
       ArtifactMutation_PublishedAt := published; ArtifactMutation_DiscardedAt := discarded |} tx in
  check refuse_if (negb changed) ErrArtifactState then
  Ok tx.

(** What follows the CompareAndSwapTask: the message, the Artifact, the
    submission, the event and the receipt. *)
Definition transitionWrites (tx : S) (kind : string) (meta : CommandMeta) (ref : TaskRef) (digest : string)
    (change : transition_change) (current next : Task) (prepared : preparedMessageContent) (now : time)
    : res S :=
  let? tx :=
    match change_message change with
    | None => Ok tx
    | Some message =>
        insertMessageToStore tx
          {| Message_ID := MessageInput_ID message; Message_Task := ref;
             Message_Sequence := Task_MessageCount next; Message_Author := change_author change;
             Message_Parts := MessageInput_Parts message; Message_CreatedAt := now |} prepared
    end in
  let? tx :=
    match change_discardArtifact change, Task_Artifact current with
    | true, Some artifact => moveArtifact tx artifact ref ArtifactDiscarded None (Some now)
    | _, _ => Ok tx
    end in
  let? tx :=
    match change_artifact change with
    | Some artifact => moveArtifact tx artifact ref ArtifactPublished (Some now) None
    | None => Ok tx
    end in
  let? tx :=
    match transitionSubmission ref change now with
    | Some submission =>
        on_error ErrStoreConflict ErrSubmissionConflict
          (InsertSubmission {| SubmissionRecord_Submission := submission |} tx)
    | None => Ok tx
    end in
  let? tx := insertEventToStore tx (transitionEvent ref change next now) in
  recordTaskCommandToStore tx (WorkspaceRef_Authority (TaskRef_Workspace ref)) (CommandMeta_ID meta)
    kind digest next now.

(** The Update callback of a transition. *)
Definition transitionTx (agent : Agent) (kind : string) (meta : CommandMeta) (grant : option LeaseGrant)
    (ref : TaskRef) (digest : string) (change : transition_change) (prepared : preparedMessageContent)
    (tx : S) : res (Task * S) :=
  let? replay := replayTransition tx kind meta grant ref digest in
  match replay with
  | Some task => Ok (task, tx)
  | None =>
      let? record := loadTaskRecordFromStore tx ref in
      let current := TaskRecord_Task record in
      check admitTransition tx kind meta grant change current then
      let? now := checkedClockTime (Agent_now agent) in
      let now := timestampAtLeast now [Task_UpdatedAt current] in
      let next := transitionTask ref change current now in
      check refuse_if (negb (is_empty (change_submission change))
                       && (Task_Artifact current <>? change_artifact change)) ErrArtifactState then
      let? (updated, tx) := CompareAndSwapTask
        {| TaskMutation_Ref := ref; TaskMutation_Condition := transitionCondition meta grant;
           TaskMutation_Next := transitionRecord change record next |} tx in
      if negb updated then Err (transitionMiss tx meta grant ref)
      else
        let? tx := transitionWrites tx kind meta ref digest change current next prepared now in
        Ok (next, tx)
  end.

Definition noContent : preparedMessageContent := {| prepared_encoded := ""; prepared_digest := "" |}.

Definition transition (agent : Agent) (ctx : goctx) (kind : string) (meta : CommandMeta)
    (grant : option LeaseGrant) (ref : TaskRef) (command : json) (change : transition_change)
    (between : W -> W) (w : W) : res Task * W :=
  try _ := validateCallContext ctx on w in
  try _ := validateMeta meta false on w in
  try _ := validateTaskRef ref on w in
  let digest := commandDigest kind command in
  try _ := acquireStore agent on w in
  match change_message change with
  | None => Update ctx (transitionTx agent kind meta grant ref digest change noContent) w
  | Some message =>
      try replayed := View ctx (fun view => replayTransition view kind meta grant ref digest) w on w in
      match replayed with
      | Some task => (Ok task, w)
      | None =>
          try prepared := prepareMessageContent agent ctx ref message on w in
          Update ctx (transitionTx agent kind meta grant ref digest change prepared) (between w)
      end
  end.

(* ---------------------------------------------------------------- *)
(** ** The transitions a caller or a worker commands *)

Definition plainChange (allowed : list TaskState) (next : TaskState) (event : EventType) (discard : bool)
    : transition_change :=
  {| change_allowed := allowed; change_next := next; change_event := event; change_author := AuthorOther "";
     change_message := None; change_submission := ""; change_artifact := None;
     change_discardArtifact := discard |}.

Definition messageChange (allowed : list TaskState) (next : TaskState) (event : EventType) (author : Author)
    (message : MessageInput) : transition_change :=
  {| change_allowed := allowed; change_next := next; change_event := event; change_author := author;
     change_message := Some message; change_submission := ""; change_artifact := None;
     change_discardArtifact := false |}.

Definition AcceptTask (agent : Agent) (ctx : goctx) (command : WorkerTaskCommand) (between : W -> W) (w : W)
    : res Task * W :=
  let meta := WorkerTaskCommand_Meta command in
  try _ := validateWorkerMeta meta (WorkerTaskCommand_Task command) on w in
  transition agent ctx "accept_task" (commandMeta meta) (Some (WorkerMeta_Grant meta))
    (WorkerTaskCommand_Task command) (enc_WorkerTaskCommand command)
    (plainChange [TaskSubmitted] TaskWorking EventTaskAccepted false) between w.

Definition RejectTask (agent : Agent) (ctx : goctx) (command : WorkerTaskCommand) (between : W -> W) (w : W)
    : res Task * W :=
  let meta := WorkerTaskCommand_Meta command in
  try _ := validateWorkerMeta meta (WorkerTaskCommand_Task command) on w in
  transition agent ctx "reject_task" (commandMeta meta) (Some (WorkerMeta_Grant meta))
    (WorkerTaskCommand_Task command) (enc_WorkerTaskCommand command)
    (plainChange [TaskSubmitted] TaskRejected EventTaskRejected false) between w.

Definition RequestInput (agent : Agent) (ctx : goctx) (command : WorkerMessageCommand)
    (between : W -> W) (w : W) : res Task * W :=
  let meta := WorkerMessage_Meta command in
  try _ := validateCallContext ctx on w in
  try _ := validateWorkerMeta meta (WorkerMessage_Task command) on w in
  try _ := validateMessageInput (WorkerMessage_Message command) on w in
  transition agent ctx "request_input" (commandMeta meta) (Some (WorkerMeta_Grant meta))
    (WorkerMessage_Task command) (enc_WorkerMessageCommand command)
    (messageChange [TaskWorking] TaskInputRequired EventInputRequired AuthorAgent
       (WorkerMessage_Message command)) between w.

Definition ReplyTask (agent : Agent) (ctx : goctx) (command : MessageCommand) (between : W -> W) (w : W)
    : res Task * W :=
  try _ := validateCallContext ctx on w in
  try _ := validateMessageInput (MessageCommand_Message command) on w in
  transition agent ctx "reply_task" (MessageCommand_Meta command) None (MessageCommand_Task command)
    (enc_MessageCommand command)
    (messageChange [TaskInputRequired] TaskWorking EventCallerReplied AuthorCaller
       (MessageCommand_Message command)) between w.

Definition CancelTask (agent : Agent) (ctx : goctx) (command : TaskCommand) (between : W -> W) (w : W)
    : res Task * W :=
  transition agent ctx "cancel_task" (TaskCommand_Meta command) None (TaskCommand_Task command)
    (enc_TaskCommand command)
    (plainChange [TaskSubmitted; TaskWorking; TaskInputRequired] TaskCanceled EventTaskCanceled true)
    between w.

Definition FailTask (agent : Agent) (ctx : goctx) (command : WorkerTaskCommand) (between : W -> W) (w : W)
    : res Task * W :=
  let meta := WorkerTaskCommand_Meta command in
  try _ := validateWorkerMeta meta (WorkerTaskCommand_Task command) on w in
  transition agent ctx "fail_task" (commandMeta meta) (Some (WorkerMeta_Grant meta))
    (WorkerTaskCommand_Task command) (enc_WorkerTaskCommand command)
    (plainChange [TaskWorking; TaskInputRequired] TaskFailed EventTaskFailed true) between w.

Definition completeChange (command : CompleteTaskCommand) : transition_change :=
  {| change_allowed := [TaskWorking]; change_next := TaskCompleted; change_event := EventTaskCompleted;
     change_author := AuthorAgent; change_message := Some (CompleteTask_Message command);
     change_submission := CompleteTask_Submission command;
     change_artifact := CompleteTask_Artifact command; change_discardArtifact := false |}.

Definition CompleteTask (agent : Agent) (ctx : goctx) (command : CompleteTaskCommand)
    (between : W -> W) (w : W) : res Task * W :=
  let meta := CompleteTask_Meta command in
  try _ := validateCallContext ctx on w in
  try _ := validateWorkerMeta meta (CompleteTask_Task command) on w in
  try _ := match CompleteTask_Artifact command with
           | None => Ok tt
           | Some artifact =>
               refuse_if (negb (is_ok (validateArtifactRef artifact))
                          || (ArtifactRef_Workspace artifact <>? TaskRef_Workspace (CompleteTask_Task command)))
                 ErrInvalidArgument
           end on w in
  try _ := validateStable (CompleteTask_Submission command) on w in
  try _ := validateMessageInput (CompleteTask_Message command) on w in
  transition agent ctx "complete_task" (commandMeta meta) (Some (WorkerMeta_Grant meta))
    (CompleteTask_Task command) (enc_CompleteTask command) (completeChange command) between w.
(** The seven transitions as one operation. *)
Inductive TaskOp :=
  | OpAccept (command : WorkerTaskCommand)
  | OpReject (command : WorkerTaskCommand)
  | OpRequestInput (command : WorkerMessageCommand)
  | OpReply (command : MessageCommand)
  | OpCancel (command : TaskCommand)
  | OpFail (command : WorkerTaskCommand)
  | OpComplete (command : CompleteTaskCommand).

Definition runTaskOp (agent : Agent) (ctx : goctx) (op : TaskOp) (between : W -> W) (w : W) : res Task * W :=
  match op with
  | OpAccept command => AcceptTask agent ctx command between w
  | OpReject command => RejectTask agent ctx command between w
  | OpRequestInput command => RequestInput agent ctx command between w
  | OpReply command => ReplyTask agent ctx command between w
  | OpCancel command => CancelTask agent ctx command between w
  | OpFail command => FailTask agent ctx command between w
  | OpComplete command => CompleteTask agent ctx command between w
  end.
End Commands.
