(* ===== verification/AgentLease.v ===== *)
(** * Leases (agent/lease.go, agent/dispatch.go)

    A worker holds a Task by a lease: an owner and a fence that only grows.
    AcquireLease and ClaimLease grant the next fence, FenceLease retires the
    current one, GetLease and ListLeases read committed assignments. *)

From S2P Require Import Prelude GoText GoTime GoJson AgentTypes AgentCodec Framework Protect AgentStore.
From S2P Require Import AgentCore.

Local Open Scope string_scope.

Section Leases.
Context {W S : Type} `{StoreTx S, Store W S}.

(** Grant the next fence of [record]'s Task: the assignment, its history
    record, the Task's lease pointer and the receipt. *)
Definition grantLease (agent : Agent) (tx : S) (record : StoreTaskRecord) (previousGrantedAt : time)
    (authority : AuthorityID) (id : CommandID) (kind digest : string) (worker : WorkerID)
    (validate : LeaseAssignment -> res unit) : res (LeaseAssignment * S) :=
  let task := TaskRecord_Task record in
  let lease := TaskRecord_Lease record in
  check refuse_if (Lease_Fence lease >=? MaxInt64)%Z ErrLeaseFenceExhausted then
  let nextFence := (Lease_Fence lease + 1)%Z in
  let? now := checkedClockTime (Agent_now agent) in
  let now := timestampAtLeast now [Task_UpdatedAt task; previousGrantedAt] in
  let assignment :=
    {| LeaseAssignment_Grant := {| LeaseGrant_Task := Task_Ref task; LeaseGrant_Worker := worker;
                                   LeaseGrant_Fence := nextFence |};
       LeaseAssignment_Task := task; LeaseAssignment_GrantedAt := now |} in
  check validate assignment then
  let? tx := on_error ErrStoreConflict ErrCorruptStore
    (InsertLeaseGrant {| GrantRecord_Grant := LeaseAssignment_Grant assignment;
                         GrantRecord_GrantedAt := now |} tx) in
  let next := {| TaskRecord_Task := task;
                 TaskRecord_Lease := {| Lease_Owner := worker; Lease_Fence := nextFence |};
                 TaskRecord_ArtifactState := TaskRecord_ArtifactState record |} in
  let? (changed, tx) := CompareAndSwapTask
    {| TaskMutation_Ref := Task_Ref task;
       TaskMutation_Condition := {| Condition_ExpectedRevision := Task_Revision task;
                                    Condition_ExpectedLease := Some lease |};
       TaskMutation_Next := next |} tx in
  check refuse_if (negb changed) ErrLeaseUnavailable then
  let? tx := recordJSONCommandToStore tx authority id kind digest "lease_assignment" assignment now in
  Ok (assignment, tx).

(* ---------------------------------------------------------------- *)
(** ** AcquireLease *)

Definition replayAcquire (tx : S) (command : AcquireLeaseCommand) (digest : string)
    : res (option LeaseAssignment) :=
  let? found := replayJSONCommandFromStore (A := LeaseAssignment) tx
    (WorkspaceRef_Authority (TaskRef_Workspace (AcquireLease_Task command)))
    (AcquireLease_ID command) "acquire_lease" digest "lease_assignment" in
  match found with
  | None => Ok None
  | Some replay =>
      check refuse_if (negb (is_ok (validateLeaseAssignment replay))
          || (LeaseGrant_Task (LeaseAssignment_Grant replay) <>? AcquireLease_Task command)
          || (LeaseGrant_Worker (LeaseAssignment_Grant replay) <>? AcquireLease_Worker command))
        ErrCorruptStore then
      check verifyLeaseAssignmentFromStore tx replay then
      Ok (Some replay)
  end.

Definition acquireLeaseTx (agent : Agent) (command : AcquireLeaseCommand) (digest : string) (tx : S)
    : res (LeaseAssignment * S) :=
  let? replay := replayAcquire tx command digest in
  match replay with
  | Some assignment => Ok (assignment, tx)
  | None =>
      let? record := loadTaskRecordFromStore tx (AcquireLease_Task command) in
      let task := TaskRecord_Task record in
      let? previousGrantedAt := validateLeaseHistoryHeadFromStore tx record in
      check refuse_if (Terminal (Task_State task)) (TransitionError "acquire_lease" (Task_State task) true) then
      check refuse_if (negb (is_empty (Lease_Owner (TaskRecord_Lease record)))) ErrLeaseUnavailable then
      grantLease agent tx record previousGrantedAt
        (WorkspaceRef_Authority (TaskRef_Workspace (AcquireLease_Task command)))
        (AcquireLease_ID command) "acquire_lease" digest (AcquireLease_Worker command) (fun _ => Ok tt)
  end.

Definition AcquireLease (agent : Agent) (ctx : goctx) (command : AcquireLeaseCommand) (w : W)
    : res LeaseAssignment * W :=
  try _ := validateCallContext ctx on w in
  try _ := validateStable (AcquireLease_ID command) on w in
  try _ := validateTaskRef (AcquireLease_Task command) on w in
  try _ := validateStable (AcquireLease_Worker command) on w in
  let digest := commandDigest "acquire_lease" (enc_AcquireLease command) in
  try _ := acquireStore agent on w in
  Update ctx (acquireLeaseTx agent command digest) w.

(* ---------------------------------------------------------------- *)
(** ** ClaimLease (dispatch.go) *)

Definition replayClaim (tx : S) (command : ClaimLeaseCommand) (digest : string)
    : res (option LeaseAssignment) :=
  let? found := replayJSONCommandFromStore (A := LeaseAssignment) tx (ClaimLease_Authority command)
    (ClaimLease_ID command) "claim_lease" digest "lease_assignment" in
  match found with
  | None => Ok None
  | Some replay =>
      let grant := LeaseAssignment_Grant replay in
      check refuse_if (negb (is_ok (validateLeaseAssignment replay))
          || (WorkspaceRef_Authority (TaskRef_Workspace (LeaseGrant_Task grant)) <>? ClaimLease_Authority command)
          || (LeaseGrant_Worker grant <>? ClaimLease_Worker command)) ErrCorruptStore then
      check verifyLeaseAssignmentFromStore tx replay then
      Ok (Some replay)
  end.

Definition claimLeaseTx (agent : Agent) (command : ClaimLeaseCommand) (digest : string) (tx : S)
    : res (LeaseAssignment * S) :=
  let? replay := replayClaim tx command digest in
  match replay with
  | Some assignment => Ok (assignment, tx)
  | None =>
      let? record := on_error ErrStoreRecordNotFound ErrLeaseNotFound
        (FindClaimableTask (ClaimLease_Authority command) tx) in
      let task := TaskRecord_Task record in
      check refuse_if (negb (is_ok (validateStoreTaskRecord record))
          || (WorkspaceRef_Authority (TaskRef_Workspace (Task_Ref task)) <>? ClaimLease_Authority command)
          || Terminal (Task_State task) || negb (is_empty (Lease_Owner (TaskRecord_Lease record))))
        ErrCorruptStore then
      let? previousGrantedAt := validateLeaseHistoryHeadFromStore tx record in
      grantLease agent tx record previousGrantedAt (ClaimLease_Authority command) (ClaimLease_ID command)
        "claim_lease" digest (ClaimLease_Worker command) validateLeaseAssignment
  end.

Definition ClaimLease (agent : Agent) (ctx : goctx) (command : ClaimLeaseCommand) (w : W)
    : res LeaseAssignment * W :=
  try _ := validateCallContext ctx on w in
  try _ := validateStable (ClaimLease_ID command) on w in
  try _ := validateStable (ClaimLease_Authority command) on w in
  try _ := validateStable (ClaimLease_Worker command) on w in
  let digest := commandDigest "claim_lease" (enc_ClaimLease command) in
  try _ := acquireStore agent on w in
  Update ctx (claimLeaseTx agent command digest) w.

(* ---------------------------------------------------------------- *)
(** ** FenceLease *)

Definition replayFence (tx : S) (command : FenceLeaseCommand) (digest : string) : res (option LeaseGrant) :=
  let? found := replayJSONCommandFromStore (A := LeaseGrant) tx
    (WorkspaceRef_Authority (TaskRef_Workspace (LeaseGrant_Task (FenceLease_Grant command))))
    (FenceLease_ID command) "fence_lease" digest "lease_grant" in
  match found with
  | None => Ok None
  | Some replay =>
      check refuse_if ((replay <>? FenceLease_Grant command) || negb (is_ok (validateLeaseGrant replay)))
        ErrCorruptStore then
      let? _ := on_error ErrStaleLease ErrCorruptStore (verifyLeaseGrantHistoryFromStore tx replay) in
      Ok (Some replay)
  end.

Definition fenceLeaseTx (agent : Agent) (command : FenceLeaseCommand) (digest : string) (tx : S)
    : res (unit * S) :=
  let? replay := replayFence tx command digest in
  match replay with
  | Some _ => Ok (tt, tx)
  | None =>
      let grant := FenceLease_Grant command in
      let? record := loadTaskRecordFromStore tx (LeaseGrant_Task grant) in
      check requireCurrentLeaseFromStore tx grant then
      let next := {| TaskRecord_Task := TaskRecord_Task record;
                     TaskRecord_Lease := {| Lease_Owner := ""; Lease_Fence := LeaseGrant_Fence grant |};
                     TaskRecord_ArtifactState := TaskRecord_ArtifactState record |} in
      let? (changed, tx) := CompareAndSwapTask
        {| TaskMutation_Ref := LeaseGrant_Task grant;
           TaskMutation_Condition :=
             {| Condition_ExpectedRevision := Task_Revision (TaskRecord_Task record);
                Condition_ExpectedLease := Some (TaskRecord_Lease record) |};
           TaskMutation_Next := next |} tx in
      check refuse_if (negb changed) ErrStaleLease then
      let? now := checkedClockTime (Agent_now agent) in
      let? tx := recordJSONCommandToStore tx
        (WorkspaceRef_Authority (TaskRef_Workspace (LeaseGrant_Task grant)))
        (FenceLease_ID command) "fence_lease" digest "lease_grant" grant now in
      Ok (tt, tx)
  end.

Definition FenceLease (agent : Agent) (ctx : goctx) (command : FenceLeaseCommand) (w : W) : res unit * W :=
  try _ := validateCallContext ctx on w in
  try _ := validateStable (FenceLease_ID command) on w in
  try _ := validateLeaseGrant (FenceLease_Grant command) on w in
  let digest := commandDigest "fence_lease" (enc_FenceLease command) in
  try _ := acquireStore agent on w in
  Update ctx (fenceLeaseTx agent command digest) w.

(* ---------------------------------------------------------------- *)
(** ** GetLease and ListLeases *)

Definition GetLease (agent : Agent) (ctx : goctx) (ref : TaskRef) (w : W) : res LeaseAssignment :=
  check validateCallContext ctx then
  check validateTaskRef ref then
  check acquireStore agent then
  View ctx (fun view => loadLeaseAssignmentFromStore view ref) w.

Definition validateLeaseCursor (cursor : LeasePageCursor) : res unit :=
  refuse_if (negb (validLeaseTimestamp (LeasePageCursor_GrantedAt cursor))
      || negb (is_ok (validateStable (LeasePageCursor_Workspace cursor)))
      || negb (is_ok (validateStable (LeasePageCursor_Task cursor)))
      || (LeasePageCursor_Fence cursor =? 0)%Z || (LeasePageCursor_Fence cursor >? MaxInt64)%Z)
    ErrInvalidArgument.

(** The checks on one listed assignment. *)
Definition checkListedLease (view : S) (authority : AuthorityID) (worker : WorkerID)
    (assignment : LeaseAssignment) : res unit :=
  let grant := LeaseAssignment_Grant assignment in
  check refuse_if (negb (is_ok (validateLeaseAssignment assignment))
      || (WorkspaceRef_Authority (TaskRef_Workspace (LeaseGrant_Task grant)) <>? authority)
      || (LeaseGrant_Worker grant <>? worker)) ErrCorruptStore then
  check verifyLeaseAssignmentFromStore view assignment then
  let? record := loadTaskRecordFromStore view (LeaseGrant_Task grant) in
  refuse_if ((Lease_Owner (TaskRecord_Lease record) <>? worker)
      || negb (Lease_Fence (TaskRecord_Lease record) =? LeaseGrant_Fence grant)%Z
      || negb (Task_Revision (TaskRecord_Task record) =? Task_Revision (LeaseAssignment_Task assignment))%Z)
    ErrCorruptStore.

Fixpoint check_all {A} (f : A -> res unit) (l : list A) : res unit :=
  match l with
  | [] => Ok tt
  | x :: l' => check f x then check_all f l'
  end.

Definition leaseCursor (last : LeaseAssignment) : LeasePageCursor :=
  let grant := LeaseAssignment_Grant last in
  {| LeasePageCursor_GrantedAt := LeaseAssignment_GrantedAt last;
     LeasePageCursor_Workspace := WorkspaceRef_ID (TaskRef_Workspace (LeaseGrant_Task grant));
     LeasePageCursor_Task := TaskRef_ID (LeaseGrant_Task grant);
     LeasePageCursor_Fence := LeaseGrant_Fence grant |}.

Definition listLeasesView (authority : AuthorityID) (worker : WorkerID)
    (after : option LeasePageCursor) (limit : Z) (view : S) : res LeasePage :=
  let? listed := ScanLeases {| LeaseScan_Authority := authority; LeaseScan_Worker := worker;
                               LeaseScan_After := after; LeaseScan_Limit := limit + 1 |} view in
  let hasMore := (Z.of_nat (length listed) >? limit)%Z in
  let items := if hasMore then take (Z.to_nat limit) listed else listed in
  check check_all (checkListedLease view authority worker) items then
  Ok {| LeasePage_Items := items;
        LeasePage_Next := if hasMore then leaseCursor <$> last items else None;
        LeasePage_HasMore := hasMore |}.

Definition ListLeases (agent : Agent) (ctx : goctx) (authority : AuthorityID) (worker : WorkerID)
    (request : LeasePageRequest) (w : W) : res LeasePage :=
  check validateCallContext ctx then
  check validateStable authority then
  check validateStable worker then
  let? limit := normalizePageLimit (LeasePageRequest_Limit request) in
  check match LeasePageRequest_After request with
        | None => Ok tt
        | Some cursor => validateLeaseCursor cursor
        end then
  check acquireStore agent then
  View ctx (listLeasesView authority worker (LeasePageRequest_After request) limit) w.
End Leases.
