(* ===== verification/AgentArtifact.v ===== *)
(** * Artifacts, apply receipts and workspace heads (agent/artifact.go)

    FreezeArtifact records one immutable payload for a working Task and pins it
    to the workspace's confirmed revision; RecordApplyReceipt records the
    caller's one durable decision, and advances the confirmed revision when the
    decision is a success. *)

From S2P Require Import Prelude GoText GoTime GoJson AgentTypes AgentCodec Framework Protect AgentStore.
From S2P Require Import AgentCore.

Local Open Scope string_scope.

Section Artifacts.
Context {W S : Type} `{StoreTx S, Store W S}.

(* ---------------------------------------------------------------- *)
(** ** FreezeArtifact *)

Definition freezeRef (command : FreezeArtifactCommand) : ArtifactRef :=
  {| ArtifactRef_Workspace := TaskRef_Workspace (FreezeArtifact_Task command);
     ArtifactRef_ID := FreezeArtifact_Artifact command |}.

(** The artifact but for its freeze time. *)
Definition artifactIdentity (command : FreezeArtifactCommand) (frozenAt : time) : Artifact :=
  let ref := freezeRef command in
  let payload := FreezeArtifact_Payload command in
  let payloadDigest := digestPayload payload in
  let base := FreezeArtifact_ExpectedBaseRevision command in
  let resultRevision := nextRevision base ref payloadDigest in
  {| Artifact_Ref := ref; Artifact_Task := FreezeArtifact_Task command; Artifact_State := ArtifactFrozen;
     Artifact_BaseRevision := base; Artifact_ResultRevision := resultRevision;
     Artifact_Digest := digestArtifact ref (FreezeArtifact_Task command) base resultRevision
                          payloadDigest (Payload_MediaType payload);
     Artifact_PayloadDigest := payloadDigest; Artifact_PayloadSize := len (Payload_Data payload);
     Artifact_MediaType := Payload_MediaType payload; Artifact_FrozenAt := frozenAt;
     Artifact_PublishedAt := None; Artifact_DiscardedAt := None |}.

(** A committed freeze: its result and the stored record. *)
Definition replayFreeze (view : S) (command : FreezeArtifactCommand) (digest : string)
    : res (option (FreezeArtifactResult * StoreArtifactRecord)) :=
  let meta := FreezeArtifact_Meta command in
  let? found := replayJSONCommandFromStore (A := FreezeArtifactResult) view
    (WorkspaceRef_Authority (TaskRef_Workspace (FreezeArtifact_Task command)))
    (WorkerMeta_ID meta) "freeze_artifact" digest "freeze_artifact" in
  match found with
  | None => Ok None
  | Some replay =>
      check validateFreezeResult replay then
      check refuse_if ((Task_Ref (FreezeResult_Task replay) <>? FreezeArtifact_Task command)
                       || (Artifact_Ref (FreezeResult_Artifact replay) <>? freezeRef command))
        ErrCorruptStore then
      let? _ := verifyArtifactLeaseGrantHistory view (WorkerMeta_Grant meta) in
      let? stored := replace_error ErrCorruptStore
        (loadArtifactRecord view (Artifact_Ref (FreezeResult_Artifact replay))) in
      check refuse_if (negb (sameArtifactIdentity (ArtifactRecord_Artifact stored)
                                                  (FreezeResult_Artifact replay))) ErrCorruptStore then
      Ok (Some (replay, stored))
  end.

Definition admitFreeze (tx : S) (command : FreezeArtifactCommand) (record : StoreTaskRecord) : res unit :=
  let meta := FreezeArtifact_Meta command in
  let current := TaskRecord_Task record in
  check requireArtifactCurrentLease tx record (WorkerMeta_Grant meta) then
  check refuse_if (negb (Task_Revision current =? WorkerMeta_ExpectedRevision meta)%Z)
    (RevisionConflictError (WorkerMeta_ExpectedRevision meta) (Task_Revision current)) then
  check refuse_if (Terminal (Task_State current))
    (TransitionError "freeze_artifact" (Task_State current) true) then
  check refuse_if (Task_State current <>? TaskWorking)
    (TransitionError "freeze_artifact" (Task_State current) false) then
  check refuse_if (negb (is_none (Task_Artifact current)) || negb (is_none (Task_Submission current)))
    ErrArtifactConflict then
  refuse_if ((Task_Revision current >=? MaxInt64)%Z || (Task_EventCount current >=? MaxInt64)%Z)
    ErrRevisionConflict.

Definition frozenTask (current : Task) (ref : ArtifactRef) (now : time) : Task :=
  {| Task_Ref := Task_Ref current; Task_Context := Task_Context current; Task_State := Task_State current;
     Task_Revision := Task_Revision current + 1; Task_MessageCount := Task_MessageCount current;
     Task_EventCount := Task_EventCount current + 1; Task_Artifact := Some ref;
     Task_Submission := Task_Submission current; Task_CreatedAt := Task_CreatedAt current;
     Task_UpdatedAt := now |}.

(** The CompareAndSwapTask missed. *)
Definition freezeMiss (tx : S) (command : FreezeArtifactCommand) : error :=
  let meta := FreezeArtifact_Meta command in
  let failure :=
    let? latest := loadTaskRecordFromStore tx (FreezeArtifact_Task command) in
    check requireArtifactCurrentLease tx latest (WorkerMeta_Grant meta) then
    Err (RevisionConflictError (WorkerMeta_ExpectedRevision meta)
           (Task_Revision (TaskRecord_Task latest))) : res unit in
  match failure with
  | Err e => e
  | Ok _ => ErrCorruptStore
  end.

(** The Update callback: the result, and the stored record of a replay. *)
Definition freezeArtifactTx (agent : Agent) (command : FreezeArtifactCommand) (digest preparedPayload : string)
    (tx : S) : res ((FreezeArtifactResult * option StoreArtifactRecord) * S) :=
  let? replay := replayFreeze tx command digest in
  match replay with
  | Some (result, stored) => Ok ((result, Some stored), tx)
  | None =>
      let meta := FreezeArtifact_Meta command in
      let task := FreezeArtifact_Task command in
      let ref := freezeRef command in
      let base := FreezeArtifact_ExpectedBaseRevision command in
      let? record := loadTaskRecordFromStore tx task in
      let current := TaskRecord_Task record in
      check admitFreeze tx command record then
      let? now := checkedClockTime (Agent_now agent) in
      let now := timestampAtLeast now [Task_UpdatedAt current] in
      let? (_, tx) := InsertWorkspaceHead
        {| HeadRecord_Head := {| WorkspaceHead_Workspace := TaskRef_Workspace task;
             WorkspaceHead_ConfirmedRevision := base; WorkspaceHead_UpdatedAt := now |} |} tx in
      let? head := loadArtifactWorkspaceHead tx (TaskRef_Workspace task) in
      check refuse_if (WorkspaceHead_ConfirmedRevision head <>? base) ErrWorkspaceConflict then
      let artifact := artifactIdentity command now in
      let? tx := on_error ErrStoreConflict ErrArtifactConflict
        (InsertArtifact {| ArtifactRecord_Artifact := artifact;
                           ArtifactRecord_EncodedPayload := preparedPayload |} tx) in
      let next := frozenTask current ref now in
      let? (changed, tx) := CompareAndSwapTask
        {| TaskMutation_Ref := task;
           TaskMutation_Condition :=
             {| Condition_ExpectedRevision := WorkerMeta_ExpectedRevision meta;
                Condition_ExpectedLease := Some {| Lease_Owner := LeaseGrant_Worker (WorkerMeta_Grant meta);
                                                   Lease_Fence := LeaseGrant_Fence (WorkerMeta_Grant meta) |} |};
           TaskMutation_Next := {| TaskRecord_Task := next; TaskRecord_Lease := TaskRecord_Lease record;
                                   TaskRecord_ArtifactState := Some ArtifactFrozen |} |} tx in
      if negb changed then Err (freezeMiss tx command)
      else
        let? tx := insertEventToStore tx
          {| Event_Task := task; Event_Sequence := Task_EventCount next; Event_Type := EventArtifactFrozen;
             Event_State := TaskWorking; Event_Revision := Task_Revision next; Event_Message := "";
             Event_Submission := ""; Event_Artifact := ArtifactRef_ID ref; Event_OccurredAt := now |} in
        let frozen := {| FreezeResult_Task := next; FreezeResult_Artifact := artifact |} in
        let? tx := recordJSONCommandToStore tx (WorkspaceRef_Authority (TaskRef_Workspace task))
                     (WorkerMeta_ID meta) "freeze_artifact" digest "freeze_artifact" frozen now in
        Ok ((frozen, None), tx)
  end.

(** A replayed result is returned once its stored payload has an acceptable
    shape; nothing is opened. *)
Definition returnFrozen (agent : Agent) (frozen : FreezeArtifactResult) (stored : option StoreArtifactRecord)
    : res FreezeArtifactResult :=
  match stored with
  | None => Ok frozen
  | Some stored =>
      let? _ := validateStoredValueShape agent (ArtifactRecord_EncodedPayload stored)
                  maxStoredArtifactBytes in
      Ok frozen
  end.

Definition FreezeArtifact (agent : Agent) (ctx : goctx) (command : FreezeArtifactCommand)
    (between : W -> W) (w : W) : res FreezeArtifactResult * W :=
  try _ := validateCallContext ctx on w in
  try _ := validateWorkerMeta (FreezeArtifact_Meta command) (FreezeArtifact_Task command) on w in
  try _ := validateTaskRef (FreezeArtifact_Task command) on w in
  try _ := validateStable (FreezeArtifact_Artifact command) on w in
  try _ := validateRevision (FreezeArtifact_ExpectedBaseRevision command) on w in
  try _ := validateArtifactPayloadShape (FreezeArtifact_Payload command) on w in
  let digest := commandDigest "freeze_artifact" (enc_FreezeArtifact command) in
  try _ := acquireStore agent on w in
  try replayed := View ctx (fun view => replayFreeze view command digest) w on w in
  match replayed with
  | Some (frozen, stored) => (returnFrozen agent frozen (Some stored), w)
  | None =>
      try _ := refuse_if (len (Payload_Data (FreezeArtifact_Payload command)) >? Agent_maxArtifactBytes agent)%Z
                 ErrInvalidArgument on w in
      try preparedPayload := prepareArtifactPayload agent ctx (artifactIdentity command zero_time)
                               (FreezeArtifact_Payload command) on w in
      let '(result, w') := Update ctx (freezeArtifactTx agent command digest preparedPayload) (between w) in
      (let? (frozen, stored) := result in returnFrozen agent frozen stored, w')
  end.

Definition GetArtifact (agent : Agent) (ctx : goctx) (ref : ArtifactRef) (w : W) : res ArtifactContent :=
  check validateCallContext ctx then
  check validateArtifactRef ref then
  check acquireStore agent then
  let? record := View ctx (fun view => loadArtifactRecord view ref) w in
  artifactContentFromStoreRecord agent ctx record.

(* ---------------------------------------------------------------- *)
(** ** Apply receipts *)

Definition replayReceipt (tx : S) (command : RecordApplyReceiptCommand) (digest : string)
    : res (option ApplyReceipt) :=
  let? found := replayJSONCommandFromStore (A := ApplyReceipt) tx
    (WorkspaceRef_Authority (ArtifactRef_Workspace (RecordReceipt_Artifact command)))
    (RecordReceipt_CommandID command) "record_apply_receipt" digest "apply_receipt" in
  match found with
  | None => Ok None
  | Some replay =>
      check validateStoredReceipt replay then
      check refuse_if ((ApplyReceipt_Artifact replay <>? RecordReceipt_Artifact command)
                       || (ApplyReceipt_ID replay <>? RecordReceipt_Receipt command)) ErrCorruptStore then
      let? authoritative := loadVerifiedApplyReceipt tx (ApplyReceipt_Artifact replay) in
      match authoritative with
      | None => Err ErrCorruptStore
      | Some authoritative =>
          check refuse_if (negb (sameReceipt replay authoritative)) ErrCorruptStore then
          Ok (Some replay)
      end
  end.

Definition receiptOf (command : RecordApplyReceiptCommand) (now : time) : ApplyReceipt :=
  {| ApplyReceipt_ID := RecordReceipt_Receipt command; ApplyReceipt_Artifact := RecordReceipt_Artifact command;
     ApplyReceipt_ArtifactDigest := RecordReceipt_ArtifactDigest command;
     ApplyReceipt_BaseRevision := RecordReceipt_BaseRevision command;
     ApplyReceipt_ResultRevision := RecordReceipt_ResultRevision command;
     ApplyReceipt_Decision := RecordReceipt_Decision command;
     ApplyReceipt_ObservedRevision := RecordReceipt_ObservedRevision command;
     ApplyReceipt_Code := RecordReceipt_Code command; ApplyReceipt_Message := RecordReceipt_Message command;
     ApplyReceipt_RecordedAt := now |}.

(** A first decision: the head moves on success, the receipt is inserted. *)
Definition decideReceipt (tx : S) (artifact : Artifact) (receipt : ApplyReceipt) (now : time) : res S :=
  let? tx :=
    if ApplyReceipt_Decision receipt =?= ApplySuccess then
      let workspace := ArtifactRef_Workspace (Artifact_Ref artifact) in
      let? (changed, tx) := CompareAndSwapWorkspaceHead
        {| HeadMutation_Workspace := workspace;
           HeadMutation_ExpectedRevision := Artifact_BaseRevision artifact;
           HeadMutation_Next := {| HeadRecord_Head :=
             {| WorkspaceHead_Workspace := workspace;
                WorkspaceHead_ConfirmedRevision := Artifact_ResultRevision artifact;
                WorkspaceHead_UpdatedAt := now |} |} |} tx in
      check refuse_if (negb changed) ErrWorkspaceConflict then
      Ok tx
    else Ok tx in
  on_error ErrStoreConflict ErrReceiptConflict
    (InsertApplyReceipt {| ReceiptRecord_Receipt := receipt |} tx).

Definition recordApplyReceiptTx (agent : Agent) (command : RecordApplyReceiptCommand) (digest : string)
    (tx : S) : res (ApplyReceipt * S) :=
  let? replay := replayReceipt tx command digest in
  match replay with
  | Some receipt => Ok (receipt, tx)
  | None =>
      let? record := loadArtifactRecord tx (RecordReceipt_Artifact command) in
      let artifact := ArtifactRecord_Artifact record in
      check refuse_if (Artifact_State artifact <>? ArtifactPublished) ErrArtifactState then
      check refuse_if ((RecordReceipt_ArtifactDigest command <>? Artifact_Digest artifact)
          || (RecordReceipt_BaseRevision command <>? Artifact_BaseRevision artifact)
          || (RecordReceipt_ResultRevision command <>? Artifact_ResultRevision artifact))
        ErrReceiptConflict then
      let? existing := loadVerifiedApplyReceipt tx (RecordReceipt_Artifact command) in
      let? now := checkedClockTime (Agent_now agent) in
      let now := timestampAtLeast now
        (Artifact_FrozenAt artifact :: option_list (Artifact_PublishedAt artifact)) in
      let? (receipt, tx) :=
        match existing with
        | Some existing =>
            check refuse_if (negb (sameReceiptDecision existing (receiptOf command now)))
              ErrReceiptConflict then
            Ok (existing, tx)
        | None =>
            let? tx := decideReceipt tx artifact (receiptOf command now) now in
            Ok (receiptOf command now, tx)
        end in
      let? tx := recordJSONCommandToStore tx
        (WorkspaceRef_Authority (ArtifactRef_Workspace (RecordReceipt_Artifact command)))
        (RecordReceipt_CommandID command) "record_apply_receipt" digest "apply_receipt" receipt now in
      Ok (receipt, tx)
  end.

Definition RecordApplyReceipt (agent : Agent) (ctx : goctx) (command : RecordApplyReceiptCommand) (w : W)
    : res ApplyReceipt * W :=
  try _ := validateCallContext ctx on w in
  try _ := validateReceiptCommand command on w in
  let digest := commandDigest "record_apply_receipt" (enc_RecordApplyReceipt command) in
  try _ := acquireStore agent on w in
  Update ctx (recordApplyReceiptTx agent command digest) w.

Definition GetApplyReceipt (agent : Agent) (ctx : goctx) (ref : ArtifactRef) (w : W) : res ApplyReceipt :=
  check validateCallContext ctx then
  check validateArtifactRef ref then
  check acquireStore agent then
  let? found := View ctx (fun view => loadVerifiedApplyReceipt view ref) w in
  or_err found ErrReceiptNotFound.

Definition GetWorkspaceHead (agent : Agent) (ctx : goctx) (ref : WorkspaceRef) (w : W) : res WorkspaceHead :=
  check validateCallContext ctx then
  check validateWorkspaceRef ref then
  check acquireStore agent then
  View ctx (fun view => loadArtifactWorkspaceHead view ref) w.
End Artifacts.
