(* ===== verification/AgentQuery.v ===== *)
(** * Queries (the read methods of agent/agent.go and agent/query.go)

    Every read runs in one View and checks what the store returned: identity,
    order, contiguity, counts.  Pages are cut to the requested limit from one
    extra record. *)

From S2P Require Import Prelude GoText GoTime GoJson AgentTypes AgentCodec Framework Protect AgentStore.
From S2P Require Import AgentCore.

Local Open Scope string_scope.

Section Queries.
Context {W S : Type} `{StoreTx S, Store W S}.

Definition GetTask (agent : Agent) (ctx : goctx) (ref : TaskRef) (w : W) : res Task :=
  check validateCallContext ctx then
  check validateTaskRef ref then
  check acquireStore agent then
  View ctx (fun view => loadTaskFromStore view ref) w.

Definition SnapshotTask (agent : Agent) (ctx : goctx) (ref : TaskRef) (w : W) : res TaskSnapshot :=
  check validateCallContext ctx then
  check validateTaskRef ref then
  check acquireStore agent then
  View ctx (fun view =>
    let? task := loadTaskFromStore view ref in
    Ok {| TaskSnapshot_Task := task; TaskSnapshot_EventCursor := Task_EventCount task |}) w.

(** The public method [ResolveTask] of the Agent. *)
Definition AgentResolveTask (agent : Agent) (ctx : goctx) (authority : AuthorityID) (id : TaskID) (w : W)
    : res TaskRef :=
  check validateCallContext ctx then
  check validateStable authority then
  check validateStable id then
  check acquireStore agent then
  View ctx (fun view =>
    let? ref := on_error ErrStoreRecordNotFound ErrNotFound (ResolveTask authority id view) in
    check refuse_if ((WorkspaceRef_Authority (TaskRef_Workspace ref) <>? authority) || (TaskRef_ID ref <>? id))
      ErrCorruptStore then
    check replace_error ErrCorruptStore (validateTaskRef ref) then
    Ok ref) w.

Definition getMessageView (authority : AuthorityID) (id : MessageID) (view : S) : res StoreMessageRecord :=
  let? loaded :=
    match LoadMessage {| MessageKey_Authority := authority; MessageKey_ID := id |}
                      {| ReadLimit_MaxBytes := maxPageBytes |} view with
    | Ok loaded => Ok loaded
    | Err e => Err (if errors_Is e ErrStoreRecordNotFound then ErrNotFound
                    else if errors_Is e ErrStoreRecordTooLarge then ErrCorruptStore else e)
    end in
  check refuse_if ((MessageRecord_ID loaded <>? id)
      || (WorkspaceRef_Authority (TaskRef_Workspace (MessageRecord_Task loaded)) <>? authority))
    ErrCorruptStore then
  check refuse_if ((len (MessageRecord_EncodedParts loaded) =? 0)%Z
      || (len (MessageRecord_EncodedParts loaded) >? maxPageBytes)%Z) ErrCorruptStore then
  Ok loaded.

Definition GetMessage (agent : Agent) (ctx : goctx) (authority : AuthorityID) (id : MessageID) (w : W)
    : res Message :=
  check validateCallContext ctx then
  check validateStable authority then
  check validateStable id then
  check acquireStore agent then
  let? record := View ctx (getMessageView authority id) w in
  messageFromStoreRecord agent ctx record.

(* ---------------------------------------------------------------- *)
(** ** Task pages *)

Definition taskCursor (last : Task) : TaskPageCursor :=
  {| TaskPageCursor_CreatedAt := Task_CreatedAt last;
     TaskPageCursor_Workspace := WorkspaceRef_ID (TaskRef_Workspace (Task_Ref last));
     TaskPageCursor_Task := TaskRef_ID (Task_Ref last) |}.

(** The loop over the page's records. *)
Fixpoint contextTasks (context : ContextRef) (records : list StoreTaskRecord) : res (list Task) :=
  match records with
  | [] => Ok []
  | record :: records' =>
      check refuse_if (negb (is_ok (validateStoreTaskRecord record))
                       || (Task_Context (TaskRecord_Task record) <>? context)) ErrCorruptStore then
      let? rest := contextTasks context records' in
      Ok (TaskRecord_Task record :: rest)
  end.

Definition listTasksView (context : ContextRef) (after : option TaskPageCursor) (limit : Z) (view : S)
    : res TaskPage :=
  let? records := ScanContextTasks {| ContextScan_Context := context; ContextScan_After := after;
                                      ContextScan_Limit := limit + 1 |} view in
  let hasMore := (Z.of_nat (length records) >? limit)%Z in
  let? items := contextTasks context (if hasMore then take (Z.to_nat limit) records else records) in
  Ok {| TaskPage_Items := items; TaskPage_Next := if hasMore then taskCursor <$> last items else None;
        TaskPage_HasMore := hasMore |}.

Definition ListTasks (agent : Agent) (ctx : goctx) (context : ContextRef) (request : TaskPageRequest) (w : W)
    : res TaskPage :=
  check validateCallContext ctx then
  check validateContextRef context then
  let? limit := normalizePageLimit (TaskPageRequest_Limit request) in
  check match TaskPageRequest_After request with
        | None => Ok tt
        | Some cursor => validateTaskCursor cursor
        end then
  check acquireStore agent then
  View ctx (listTasksView context (TaskPageRequest_After request) limit) w.

Definition validateQueryTime (value : time) : res unit :=
  refuse_if (negb (store_time value)) ErrInvalidArgument.

Definition validateTaskQueryCursor (cursor : TaskQueryCursor) : res unit :=
  check validateQueryTime (TaskQueryCursor_UpdatedAt cursor) then
  check validateStable (TaskQueryCursor_Workspace cursor) then
  validateStable (TaskQueryCursor_Task cursor).

Definition taskFollowsAuthorityCursor (task : Task) (cursor : TaskQueryCursor) : bool :=
  let ref := Task_Ref task in
  if Before (Task_UpdatedAt task) (TaskQueryCursor_UpdatedAt cursor) then true
  else if negb (TimeEqual (Task_UpdatedAt task) (TaskQueryCursor_UpdatedAt cursor)) then false
  else if WorkspaceRef_ID (TaskRef_Workspace ref) <>? TaskQueryCursor_Workspace cursor then
    string_less (TaskQueryCursor_Workspace cursor) (WorkspaceRef_ID (TaskRef_Workspace ref))
  else string_less (TaskQueryCursor_Task cursor) (TaskRef_ID ref).

Definition authorityTaskPrecedes (first second : Task) : bool :=
  let r1 := Task_Ref first in let r2 := Task_Ref second in
  if negb (TimeEqual (Task_UpdatedAt first) (Task_UpdatedAt second)) then
    After (Task_UpdatedAt first) (Task_UpdatedAt second)
  else if WorkspaceRef_ID (TaskRef_Workspace r1) <>? WorkspaceRef_ID (TaskRef_Workspace r2) then
    string_less (WorkspaceRef_ID (TaskRef_Workspace r1)) (WorkspaceRef_ID (TaskRef_Workspace r2))
  else string_less (TaskRef_ID r1) (TaskRef_ID r2).

Definition validateAuthorityTaskQueryRecord (task : Task) (authority : AuthorityID) (request : TaskQuery)
    (previous : option Task) : res unit :=
  check refuse_if ((WorkspaceRef_Authority (TaskRef_Workspace (Task_Ref task)) <>? authority)
      || (negb (is_empty (TaskQuery_Context request))
          && (ContextRef_ID (Task_Context task) <>? TaskQuery_Context request))
      || ((TaskQuery_State request <>? TaskStateOther "") && (Task_State task <>? TaskQuery_State request))
      || match TaskQuery_UpdatedAtOrAfter request with
         | None => false
         | Some floor => Before (Task_UpdatedAt task) floor
         end
      || match TaskQuery_After request with
         | None => false
         | Some cursor => negb (taskFollowsAuthorityCursor task cursor)
         end) ErrCorruptStore then
  match previous with
  | None => Ok tt
  | Some previous => refuse_if (negb (authorityTaskPrecedes previous task)) ErrCorruptStore
  end.

(** The loop over the records: the page's items, and whether it stopped at
    the limit. *)
Fixpoint authorityTasks (authority : AuthorityID) (request : TaskQuery) (room : nat)
    (previous : option Task) (records : list StoreTaskRecord) : res (list Task * bool) :=
  match records with
  | [] => Ok ([], false)
  | record :: records' =>
      let task := TaskRecord_Task record in
      check validateStoreTaskRecord record then
      check validateAuthorityTaskQueryRecord task authority request previous then
      match room with
      | O => Ok ([], true)
      | Datatypes.S room' =>
          let? (items, hasMore) := authorityTasks authority request room' (Some task) records' in
          Ok (task :: items, hasMore)
      end
  end.

Definition taskQueryCursor (last : Task) : TaskQueryCursor :=
  {| TaskQueryCursor_UpdatedAt := Task_UpdatedAt last;
     TaskQueryCursor_Workspace := WorkspaceRef_ID (TaskRef_Workspace (Task_Ref last));
     TaskQueryCursor_Task := TaskRef_ID (Task_Ref last) |}.

Definition listAuthorityTasksView (authority : AuthorityID) (request : TaskQuery) (limit : Z) (view : S)
    : res TaskQueryPage :=
  let? result := ScanAuthorityTasks
    {| AuthorityScan_Authority := authority; AuthorityScan_Context := TaskQuery_Context request;
       AuthorityScan_State := TaskQuery_State request;
       AuthorityScan_UpdatedAtOrAfter := TaskQuery_UpdatedAtOrAfter request;
       AuthorityScan_After := TaskQuery_After request; AuthorityScan_Limit := limit + 1 |} view in
  let records := AuthorityResult_Records result in
  check refuse_if ((Z.of_nat (length records) >? limit + 1)%Z
                   || (AuthorityResult_TotalSize result <? Z.of_nat (length records))%Z) ErrCorruptStore then
  let? (items, hasMore) := authorityTasks authority request (Z.to_nat limit) None records in
  Ok {| TaskQueryPage_Items := items;
        TaskQueryPage_Next := if hasMore then taskQueryCursor <$> last items else None;
        TaskQueryPage_HasMore := hasMore;
        TaskQueryPage_TotalSize := AuthorityResult_TotalSize result |}.

Definition ListAuthorityTasks (agent : Agent) (ctx : goctx) (authority : AuthorityID) (request : TaskQuery)
    (w : W) : res TaskQueryPage :=
  check validateCallContext ctx then
  check validateStable authority then
  let? limit := normalizePageLimit (TaskQuery_Limit request) in
  check (if is_empty (TaskQuery_Context request) then Ok tt else validateStable (TaskQuery_Context request)) then
  check refuse_if ((TaskQuery_State request <>? TaskStateOther "")
                   && negb (validTaskState (TaskQuery_State request))) ErrInvalidArgument then
  check match TaskQuery_UpdatedAtOrAfter request with
        | None => Ok tt
        | Some floor => validateQueryTime floor
        end then
  check match TaskQuery_After request with
        | None => Ok tt
        | Some cursor => validateTaskQueryCursor cursor
        end then
  check acquireStore agent then
  View ctx (listAuthorityTasksView authority request limit) w.

(* ---------------------------------------------------------------- *)
(** ** Message and event pages *)

(** The loop over the records: those of the page, and whether it stopped at
    the limit. *)
Fixpoint messageRun (ref : TaskRef) (room : nat) (expected : Z) (records : list StoreMessageRecord)
    : res (list StoreMessageRecord * bool) :=
  match records with
  | [] => Ok ([], false)
  | record :: records' =>
      match room with
      | O => Ok ([], true)
      | Datatypes.S room' =>
          check refuse_if ((MessageRecord_Task record <>? ref)
                           || negb (MessageRecord_Sequence record =? expected)%Z) ErrCorruptStore then
          let? (rest, more) := messageRun ref room' (expected + 1) records' in
          Ok (record :: rest, more)
      end
  end.

(** The selected records, the next cursor, and whether there are more. *)
Definition listMessagesView (ref : TaskRef) (after limit : Z) (view : S)
    : res (list StoreMessageRecord * Z * bool) :=
  let? task := loadTaskFromStore view ref in
  check refuse_if (after >? Task_MessageCount task)%Z ErrInvalidArgument then
  let? records := on_error ErrStoreRecordTooLarge ErrCorruptStore (ScanMessages
    {| MessageScan_Task := ref; MessageScan_After := after; MessageScan_Limit := limit + 1;
       MessageScan_ReadLimit := {| ReadLimit_MaxBytes := maxPageBytes |} |} view) in
  let? (selected, more) := messageRun ref (Z.to_nat limit) (after + 1) records in
  let next := match last selected with
              | None => after
              | Some record => MessageRecord_Sequence record
              end in
  check refuse_if (next >? Task_MessageCount task)%Z ErrCorruptStore then
  if (next <? Task_MessageCount task)%Z then
    check refuse_if ((length selected =? 0)%nat) ErrCorruptStore then
    Ok (selected, next, true)
  else Ok (selected, next, more).

Fixpoint openMessages (agent : Agent) (ctx : goctx) (records : list StoreMessageRecord) : res (list Message) :=
  match records with
  | [] => Ok []
  | record :: records' =>
      let? message := messageFromStoreRecord agent ctx record in
      let? rest := openMessages agent ctx records' in
      Ok (message :: rest)
  end.

Definition ListMessages (agent : Agent) (ctx : goctx) (ref : TaskRef) (request : PageRequest) (w : W)
    : res MessagePage :=
  check validateCallContext ctx then
  check validateTaskRef ref then
  let? limit := normalizePageRequest request in
  check acquireStore agent then
  let? (selected, next, hasMore) := View ctx (listMessagesView ref (PageRequest_After request) limit) w in
  let? items := openMessages agent ctx selected in
  Ok {| MessagePage_Items := items; MessagePage_Next := next; MessagePage_HasMore := hasMore |}.

Fixpoint eventRun (ref : TaskRef) (room : nat) (expected : Z) (records : list StoreEventRecord)
    : res (list Event * bool) :=
  match records with
  | [] => Ok ([], false)
  | record :: records' =>
      match room with
      | O => Ok ([], true)
      | Datatypes.S room' =>
          let event := EventRecord_Event record in
          check refuse_if ((Event_Task event <>? ref) || negb (Event_Sequence event =? expected)%Z)
            ErrCorruptStore then
          check validateStoredEvent event then
          let? (rest, more) := eventRun ref room' (expected + 1) records' in
          Ok (event :: rest, more)
      end
  end.

Definition readEventsView (ref : TaskRef) (after limit : Z) (view : S) : res EventPage :=
  let? task := loadTaskFromStore view ref in
  check refuse_if (after >? Task_EventCount task)%Z ErrInvalidArgument then
  let? records := ScanEvents {| EventScan_Task := ref; EventScan_After := after;
                                EventScan_Limit := limit + 1 |} view in
  let? (items, more) := eventRun ref (Z.to_nat limit) (after + 1) records in
  let next := match last items with
              | None => after
              | Some event => Event_Sequence event
              end in
  check refuse_if (negb more && negb (next =? Task_EventCount task)%Z) ErrCorruptStore then
  Ok {| EventPage_Items := items; EventPage_Next := next; EventPage_HasMore := more |}.

Definition ReadEvents (agent : Agent) (ctx : goctx) (ref : TaskRef) (request : PageRequest) (w : W)
    : res EventPage :=
  check validateCallContext ctx then
  check validateTaskRef ref then
  let? limit := normalizePageRequest request in
  check acquireStore agent then
  View ctx (readEventsView ref (PageRequest_After request) limit) w.
End Queries.
