(* ===== verification/Scenario.v ===== *)
(** * A concrete history

    One Task of one authority, from its submission to an applied Artifact, run
    through the public operations over the in-memory store.  The witnesses of
    the properties evaluate them here. *)

From S2P Require Import Prelude GoText GoTime GoJson AgentTypes AgentCodec Framework Protect.
From S2P Require Import AgentStore MemoryStore AgentCore AgentCommands AgentLease AgentArtifact AgentQuery.

Local Open Scope string_scope.

Module Demo.

(** An opened store. *)
Definition w0 : MemoryAgentStore :=
  match Open NewMemoryAgentStoreImage with
  | Ok (h, image) => {| store_image := image; store_handle := h |}
  | Err _ => {| store_image := NewMemoryAgentStoreImage; store_handle := O |}
  end.

Definition noDescription : Description :=
  {| Description_Contract := {| Contract_ID := ""; Contract_Major := 0; Contract_Minor := 0; Contract_Features := ∅ |};
     Description_Provider := ""; Description_Format := ""; Description_MaxPlaintextBytes := 0;
     Description_MaxEnvelopeBytes := 0 |}.

(** An Agent without a protector whose clock shows [t]. *)
Definition agent (t : Z) : Agent :=
  {| Agent_protector := None; Agent_protectorDescription := noDescription; Agent_allowPlaintext := false;
     Agent_now := Some t; Agent_maxArtifactBytes := defaultArtifactMax; Agent_closed := false |}.

Definition ctx : goctx := Context None.
Definition alone (w : MemoryAgentStore) : MemoryAgentStore := w.

Definition ws : WorkspaceRef := {| WorkspaceRef_Authority := "auth"; WorkspaceRef_ID := "ws" |}.
Definition task : TaskRef := {| TaskRef_Workspace := ws; TaskRef_ID := "task1" |}.
Definition artifact : ArtifactRef := {| ArtifactRef_Workspace := ws; ArtifactRef_ID := "art" |}.
Definition grant : LeaseGrant := {| LeaseGrant_Task := task; LeaseGrant_Worker := "wk"; LeaseGrant_Fence := 1 |}.

Definition text (id body : string) : MessageInput :=
  {| MessageInput_ID := id; MessageInput_Parts := [{| Part_MediaType := "text/plain"; Part_Data := body |}] |}.
Definition meta (id : string) (revision : Z) : WorkerCommandMeta :=
  {| WorkerMeta_ID := id; WorkerMeta_ExpectedRevision := revision; WorkerMeta_Grant := grant |}.

Definition create : CreateTaskCommand :=
  {| CreateTask_Meta := {| CommandMeta_ID := "c1"; CommandMeta_ExpectedRevision := 0 |};
     CreateTask_Task := task; CreateTask_Context := {| ContextRef_Authority := "auth"; ContextRef_ID := "ctx" |};
     CreateTask_Message := text "m1" "hello" |}.
Definition acquire : AcquireLeaseCommand :=
  {| AcquireLease_ID := "c2"; AcquireLease_Task := task; AcquireLease_Worker := "wk" |}.
Definition claim : ClaimLeaseCommand :=
  {| ClaimLease_ID := "c2"; ClaimLease_Authority := "auth"; ClaimLease_Worker := "wk" |}.
Definition accept : WorkerTaskCommand :=
  {| WorkerTaskCommand_Meta := meta "c3" 1; WorkerTaskCommand_Task := task |}.
Definition freeze : FreezeArtifactCommand :=
  {| FreezeArtifact_Meta := meta "c4" 2; FreezeArtifact_Task := task; FreezeArtifact_Artifact := "art";
     FreezeArtifact_ExpectedBaseRevision := "rev0";
     FreezeArtifact_Payload := {| Payload_MediaType := "application/json"; Payload_Data := "{}" |} |}.
Definition complete : CompleteTaskCommand :=
  {| CompleteTask_Meta := meta "c5" 3; CompleteTask_Task := task; CompleteTask_Submission := "sub";
     CompleteTask_Message := text "m2" "done"; CompleteTask_Artifact := Some artifact |}.

Definition w1 : MemoryAgentStore := Eval vm_compute in
  snd (CreateTask (agent 1700000000000000000) ctx create alone w0).
Definition w2 : MemoryAgentStore := Eval vm_compute in
  snd (AcquireLease (agent 1700000000000000001) ctx acquire w1).
Definition w3 : MemoryAgentStore := Eval vm_compute in
  snd (AcceptTask (agent 1700000000000000002) ctx accept alone w2).
Definition w4 : MemoryAgentStore := Eval vm_compute in
  snd (FreezeArtifact (agent 1700000000000000003) ctx freeze alone w3).
Definition w5 : MemoryAgentStore := Eval vm_compute in
  snd (CompleteTask (agent 1700000000000000004) ctx complete alone w4).

(** The published Artifact, and the caller's receipt of its application. *)
Definition published : Artifact := Eval vm_compute in artifactIdentity freeze 1700000000000000003.
Definition apply_ok : RecordApplyReceiptCommand :=
  {| RecordReceipt_CommandID := "c6"; RecordReceipt_Receipt := "rcpt"; RecordReceipt_Artifact := artifact;
     RecordReceipt_ArtifactDigest := Artifact_Digest published;
     RecordReceipt_BaseRevision := Artifact_BaseRevision published;
     RecordReceipt_ResultRevision := Artifact_ResultRevision published;
     RecordReceipt_Decision := ApplySuccess; RecordReceipt_ObservedRevision := Artifact_ResultRevision published;
     RecordReceipt_Code := ""; RecordReceipt_Message := "" |}.
Definition w6 : MemoryAgentStore := Eval vm_compute in
  snd (RecordApplyReceipt (agent 1700000000000000005) ctx apply_ok w5).

(** The results the calls return. *)
Definition task_after (m : res Task * MemoryAgentStore) : Task :=
  match fst m with
  | Ok t => t
  | Err _ => createdTask create 0
  end.
Definition task1 : Task := Eval vm_compute in
  task_after (CreateTask (agent 1700000000000000000) ctx create alone w0).
Definition assignment2 : LeaseAssignment := Eval vm_compute in
  match fst (AcquireLease (agent 1700000000000000001) ctx acquire w1) with
  | Ok a => a
  | Err _ => {| LeaseAssignment_Grant := grant; LeaseAssignment_Task := task1; LeaseAssignment_GrantedAt := 0 |}
  end.
Definition task3 : Task := Eval vm_compute in
  task_after (AcceptTask (agent 1700000000000000002) ctx accept alone w2).
Definition task5 : Task := Eval vm_compute in
  task_after (CompleteTask (agent 1700000000000000004) ctx complete alone w4).

End Demo.

(** The history runs: the Task is completed and the revision confirmed. *)
Example demo_completes :
  (Task_State Demo.task5, Task_Revision Demo.task5) = (TaskCompleted, 4%Z) /\
  (fun h => WorkspaceHead_ConfirmedRevision h) <$>
    match GetWorkspaceHead (Demo.agent 0) Demo.ctx Demo.ws Demo.w6 with Ok h => Some h | Err _ => None end
  = Some (Artifact_ResultRevision Demo.published).
Proof. by vm_compute. Qed.
