(* ===== verification/AgentFacts.v ===== *)
(** * What the Agent's validators establish

    Inversions of the checks of AgentCore, the digests' shape, and the clock
    and timestamp arithmetic, shared by the theorems about the operations. *)

From S2P Require Import Prelude GoText GoEncoding GoTime GoJson AgentTypes AgentCodec Framework Protect.
From S2P Require Import AgentStore AgentCore.

Local Open Scope string_scope.

(* ------------------------------------------------------------------ *)
(** ** Digests *)

Lemma string_length_nonempty s : (0 < String.length s)%nat -> s <> "".
Proof. destruct s; cbn; [lia | done]. Qed.

Lemma byteDigest_nonempty s : byteDigest s <> "".
Proof.
  apply string_length_nonempty. unfold byteDigest.
  rewrite hex_encode_length, Sha256.Sum256_length. lia.
Qed.

Lemma commandDigest_nonempty kind j : is_empty (commandDigest kind j) = false.
Proof.
  unfold commandDigest. pose proof (byteDigest_nonempty (print (JObj [("kind", JStr kind); ("command", j)]))).
  by destruct (byteDigest _).
Qed.

Lemma hex_encode_ascii s : is_ascii (hex_encode s) = true.
Proof.
  unfold is_ascii. induction s as [|a s IH]; [done|]. cbn [hex_encode string_forallb].
  pose proof (byte_bound a). rewrite !hex_digit_ascii, IH; [done|..];
    [by apply N.mod_lt | by apply N.Div0.div_lt_upper_bound].
Qed.

Lemma sha256Identity_length s : len (sha256Identity s) = 71%Z.
Proof.
  unfold sha256Identity, byteDigest. rewrite len_app. unfold len.
  by rewrite hex_encode_length, Sha256.Sum256_length.
Qed.

Lemma sha256Identity_ascii s : is_ascii (sha256Identity s) = true.
Proof.
  unfold sha256Identity, byteDigest, is_ascii. rewrite string_forallb_app.
  by rewrite (hex_encode_ascii _ : string_forallb _ _ = true).
Qed.

Lemma strip_prefix_app p s : strip_prefix p (p ++ s) = Some s.
Proof. induction p as [|a p IH]; cbn; [done|]. by rewrite Ascii.eqb_refl. Qed.

Lemma validateDigest_sha256 s : validateDigest (sha256Identity s) = Ok tt.
Proof.
  unfold validateDigest. rewrite sha256Identity_length. unfold sha256Identity, byteDigest.
  rewrite strip_prefix_app. cbn [is_none mbind option_bind orb negb Z.eqb Pos.eqb refuse_if obind].
  by rewrite hex_roundtrip.
Qed.

Lemma hex_digit_clean n : (n < 16)%N -> existsb (Ascii.eqb (hex_digit n)) [nul; cr; lf] = false.
Proof.
  intros Hn.
  assert (forallb (fun k => negb (existsb (Ascii.eqb (hex_digit (N.of_nat k))) [nul; cr; lf]))
            (seq 0 16) = true) as H by reflexivity.
  rewrite forallb_forall in H. specialize (H (N.to_nat n)).
  rewrite in_seq, N2Nat.id in H. apply negb_true_iff. apply H. lia.
Qed.

Lemma validateRevision_sha256 s : validateRevision (sha256Identity s) = Ok tt.
Proof.
  unfold validateRevision. rewrite sha256Identity_length, (is_ascii_valid _ (sha256Identity_ascii s)).
  apply refuse_if_false. unfold sha256Identity, byteDigest, contains_any, string_existsb.
  rewrite string_forallb_app. cbn [is_empty append orb].
  change (71 >? maxRevisionBytes)%Z with false. cbn [orb negb]. apply negb_false_iff.
  apply andb_true_intro. split; [done|].
  induction (Sha256.Sum256 s) as [|a t IH]; [done|]. cbn [hex_encode string_forallb].
  pose proof (byte_bound a). rewrite !hex_digit_clean, IH; [done|..];
    [by apply N.mod_lt | by apply N.Div0.div_lt_upper_bound].
Qed.

(* ------------------------------------------------------------------ *)
(** ** Clock *)

Lemma checkedClockTime_Ok clock now :
  checkedClockTime clock = Ok now -> clock = Some now /\ in_int64 now /\ IsZero now = false.
Proof.
  unfold checkedClockTime. destruct clock as [t|]; [|done]. intros H. ok_inv.
  apply negb_false_iff in Hv0. unfold TimeEqual, UnixTime in *. apply Z.eqb_eq in Hv0.
  unfold UnixNano in *. rewrite Hv0. split_and!; [done| |done].
  by apply wrap64_id.
Qed.

(** The result is the candidate or one of the floors, and none of them is
    after it. *)
Lemma timestampAtLeast_spec candidate floors :
  (timestampAtLeast candidate floors = candidate \/ timestampAtLeast candidate floors ∈ floors) /\
  (candidate <= timestampAtLeast candidate floors)%Z /\
  Forall (fun floor => (floor <= timestampAtLeast candidate floors)%Z) floors.
Proof.
  unfold timestampAtLeast. revert candidate.
  induction floors as [|f floors IH]; intros candidate; cbn [fold_left].
  { split_and!; [by left|lia|constructor]. }
  change (Before candidate f) with (candidate <? f)%Z. destruct (candidate <? f)%Z eqn:E; zbool.
  - destruct (IH f) as (Hin & Hle & Hall). split_and!.
    + right. destruct Hin as [-> | Hin]; [left | by right].
    + lia.
    + by constructor.
  - destruct (IH candidate) as (Hin & Hle & Hall). split_and!.
    + destruct Hin as [-> | Hin]; [by left | right; by right].
    + lia.
    + constructor; [lia | done].
Qed.

Lemma timestamp_floor candidate floor : (floor <= timestampAtLeast candidate [floor])%Z.
Proof.
  destruct (timestampAtLeast_spec candidate [floor]) as (_ & _ & H). by apply Forall_cons in H as [].
Qed.

Lemma timestamp_in_int64 candidate floors :
  in_int64 candidate -> Forall in_int64 floors -> in_int64 (timestampAtLeast candidate floors).
Proof.
  intros Hc Hf. destruct (timestampAtLeast_spec candidate floors) as ([-> | Hin] & _); [done|].
  rewrite Forall_forall in Hf. auto.
Qed.

Lemma store_time_int64 t : store_time t = true <-> in_int64 t.
Proof.
  unfold store_time, TimeEqual, UnixTime, UnixNano. rewrite andb_true_iff, negb_true_iff, Z.eqb_eq.
  rewrite <- wrap64_id. split; [by intros [_ H] | intros H; split; [|done]].
  by apply int64_not_zero.
Qed.

(* ------------------------------------------------------------------ *)
(** ** Identifiers *)

Lemma validateStable_Ok s u : validateStable s = Ok u <-> match_stable s = true.
Proof.
  unfold validateStable, refuse_if. destruct u, (match_stable s); cbn; split; congruence.
Qed.

Lemma is_ok_Ok {A} (m : res A) : is_ok m = true <-> exists v, m = Ok v.
Proof. destruct m; cbn; split; eauto; try done. by intros [v ?]. Qed.

Definition WorkspaceRef_stable (r : WorkspaceRef) : bool :=
  match_stable (WorkspaceRef_Authority r) && match_stable (WorkspaceRef_ID r).
Definition TaskRef_stable (r : TaskRef) : bool :=
  WorkspaceRef_stable (TaskRef_Workspace r) && match_stable (TaskRef_ID r).
Definition ArtifactRef_stable (r : ArtifactRef) : bool :=
  WorkspaceRef_stable (ArtifactRef_Workspace r) && match_stable (ArtifactRef_ID r).
Definition ContextRef_stable (r : ContextRef) : bool :=
  match_stable (ContextRef_Authority r) && match_stable (ContextRef_ID r).

Lemma validateWorkspaceRef_Ok r u : validateWorkspaceRef r = Ok u <-> WorkspaceRef_stable r = true.
Proof.
  unfold validateWorkspaceRef, WorkspaceRef_stable, validateStable, refuse_if.
  destruct u, (match_stable _); cbn; [|split; congruence]. destruct (match_stable _); cbn; split; congruence.
Qed.
Lemma validateTaskRef_Ok r u : validateTaskRef r = Ok u <-> TaskRef_stable r = true.
Proof.
  unfold validateTaskRef, TaskRef_stable. destruct (validateWorkspaceRef _) as [v|] eqn:E; cbn.
  - apply validateWorkspaceRef_Ok in E. rewrite E. apply validateStable_Ok.
  - destruct (WorkspaceRef_stable _) eqn:E2; [|cbn; split; congruence].
    apply (validateWorkspaceRef_Ok _ tt) in E2. congruence.
Qed.
Lemma validateArtifactRef_Ok r u : validateArtifactRef r = Ok u <-> ArtifactRef_stable r = true.
Proof.
  unfold validateArtifactRef, ArtifactRef_stable. destruct (validateWorkspaceRef _) as [v|] eqn:E; cbn.
  - apply validateWorkspaceRef_Ok in E. rewrite E. apply validateStable_Ok.
  - destruct (WorkspaceRef_stable _) eqn:E2; [|cbn; split; congruence].
    apply (validateWorkspaceRef_Ok _ tt) in E2. congruence.
Qed.
Lemma validateContextRef_Ok r u : validateContextRef r = Ok u <-> ContextRef_stable r = true.
Proof.
  unfold validateContextRef, ContextRef_stable, validateStable, refuse_if.
  destruct u, (match_stable _); cbn; [|split; congruence]. destruct (match_stable _); cbn; split; congruence.
Qed.

Lemma WorkspaceRef_stable_utf8 r : WorkspaceRef_stable r = true -> WorkspaceRef_utf8 r = true.
Proof.
  unfold WorkspaceRef_stable, WorkspaceRef_utf8. rewrite !andb_true_iff. intros [].
  split; by apply match_stable_valid.
Qed.
Lemma TaskRef_stable_utf8 r : TaskRef_stable r = true -> TaskRef_utf8 r = true.
Proof.
  unfold TaskRef_stable, TaskRef_utf8. rewrite !andb_true_iff. intros [].
  split; [by apply WorkspaceRef_stable_utf8 | by apply match_stable_valid].
Qed.
Lemma ArtifactRef_stable_utf8 r : ArtifactRef_stable r = true -> ArtifactRef_utf8 r = true.
Proof.
  unfold ArtifactRef_stable, ArtifactRef_utf8. rewrite !andb_true_iff. intros [].
  split; [by apply WorkspaceRef_stable_utf8 | by apply match_stable_valid].
Qed.
Lemma ContextRef_stable_utf8 r : ContextRef_stable r = true -> ContextRef_utf8 r = true.
Proof.
  unfold ContextRef_stable, ContextRef_utf8. rewrite !andb_true_iff. intros [].
  split; by apply match_stable_valid.
Qed.

(* ------------------------------------------------------------------ *)
(** ** A valid Task, as a record of facts *)

Record valid_task (t : Task) : Prop := {
  vt_ref : TaskRef_stable (Task_Ref t) = true;
  vt_context : ContextRef_stable (Task_Context t) = true;
  vt_authority : ContextRef_Authority (Task_Context t) = WorkspaceRef_Authority (TaskRef_Workspace (Task_Ref t));
  vt_state : validTaskState (Task_State t) = true;
  vt_revision : (Task_Revision t <> 0 /\ Task_Revision t <= MaxInt64)%Z;
  vt_messages : (Task_MessageCount t <> 0 /\ Task_MessageCount t <= Task_Revision t)%Z;
  vt_events : Task_EventCount t = Task_Revision t;
  vt_created : IsZero (Task_CreatedAt t) = false;
  vt_updated : (Task_CreatedAt t <= Task_UpdatedAt t)%Z;
  vt_completed : Task_State t = TaskCompleted <-> is_Some (Task_Submission t);
  vt_artifact : forall a, Task_Artifact t = Some a ->
    ArtifactRef_stable a = true /\ ArtifactRef_Workspace a = TaskRef_Workspace (Task_Ref t);
  vt_submission : forall s, Task_Submission t = Some s ->
    Submission_Task s = Task_Ref t /\ match_stable (Submission_ID s) = true /\
    match_stable (Submission_FinalMessage s) = true /\ IsZero (Submission_PublishedAt s) = false /\
    Submission_PublishedAt s = Task_UpdatedAt t /\ Submission_Artifact s = Task_Artifact t
}.

Lemma stable_ok s : is_ok (validateStable s) = match_stable s.
Proof. unfold validateStable, refuse_if. by destruct (match_stable s). Qed.
Lemma workspace_ok r : is_ok (validateWorkspaceRef r) = WorkspaceRef_stable r.
Proof.
  unfold validateWorkspaceRef, WorkspaceRef_stable, validateStable, refuse_if.
  destruct (match_stable _); [|done]. by destruct (match_stable _).
Qed.
Lemma task_ref_ok r : is_ok (validateTaskRef r) = TaskRef_stable r.
Proof.
  unfold TaskRef_stable. rewrite <- workspace_ok, <- stable_ok. unfold validateTaskRef.
  by destruct (validateWorkspaceRef _).
Qed.
Lemma artifact_ref_ok r : is_ok (validateArtifactRef r) = ArtifactRef_stable r.
Proof.
  unfold ArtifactRef_stable. rewrite <- workspace_ok, <- stable_ok. unfold validateArtifactRef.
  by destruct (validateWorkspaceRef _).
Qed.
Lemma context_ref_ok r : is_ok (validateContextRef r) = ContextRef_stable r.
Proof.
  unfold ContextRef_stable. rewrite <- !stable_ok. unfold validateContextRef.
  by destruct (validateStable _).
Qed.

Lemma refuse_if_is_ok {E} b (e : E) : is_ok (refuse_if b e) = negb b.
Proof. by destruct b. Qed.
Lemma obind_unit_ok {E A} (m : outcome E unit) (k : outcome E A) :
  is_ok (obind m (fun _ => k)) = is_ok m && is_ok k.
Proof. by destruct m. Qed.
Lemma replace_error_ok {A} e (m : res A) : is_ok (replace_error e m) = is_ok m.
Proof. by destruct m. Qed.

(** [validateStoredTask] accepts exactly the valid Tasks. *)
Lemma valid_task_of_check t u : validateStoredTask t = Ok u -> valid_task t.
Proof.
  unfold validateStoredTask. intros H. ok_inv. rewrite replace_error_Ok in Hv.
  bool_split. zbool. rewrite ?stable_ok, ?artifact_ref_ok, ?context_ref_ok in *. decided.
  apply validateTaskRef_Ok in Hv.
  split; try done; try (split; [done|lia]).
  - unfold Before in *. by zbool.
  - match goal with H : bool_decide _ = negb _ |- _ => rename H into Hc end.
    split.
    + intros Hs. rewrite bool_decide_eq_true_2 in Hc by done. by destruct (Task_Submission t).
    + intros [s Hs]. rewrite Hs in Hc. by apply bool_decide_eq_true in Hc.
  - intros a Ha. match goal with H : match Task_Artifact t with _ => _ end = Ok _ |- _ => rename H into Hr end.
    rewrite Ha in Hr. ok_inv. bool_split. decided. rewrite artifact_ref_ok in *. done.
  - intros s Hs. match goal with H : match Task_Submission t with _ => _ end = Ok _ |- _ => rename H into Hr end.
    rewrite Hs in Hr. ok_inv. bool_split. decided. rewrite stable_ok in *. unfold TimeEqual in *. zbool.
    repeat split; done.
Qed.

Lemma check_of_valid_task t : valid_task t -> validateStoredTask t = Ok tt.
Proof.
  intros [Hr Hc Ha Hs Hrev Hm He Hcr Hup Hcomp Hart Hsub]. unfold validateStoredTask.
  rewrite (proj2 (replace_error_Ok _ _ tt)) by (by apply validateTaskRef_Ok). cbn [obind].
  rewrite context_ref_ok, Hc, Ha, bool_decide_eq_true_2 by done. cbn [negb orb refuse_if obind].
  rewrite Hs, Hcr, He. unfold Before. cbn [negb orb].
  rewrite !(proj2 (Z.eqb_neq _ _)) by lia. rewrite Z.eqb_refl, !Z.gtb_ltb, !(proj2 (Z.ltb_ge _ _)) by lia.
  cbn [negb orb refuse_if obind].
  assert (Bool.eqb (Task_State t =?= TaskCompleted) (negb (is_none (Task_Submission t))) = true) as ->.
  { case_bool_decide as E.
    - apply Hcomp in E as [s ->]. done.
    - destruct (Task_Submission t); [|done]. destruct E. apply Hcomp. eauto. }
  cbn [negb refuse_if obind].
  assert (match Task_Artifact t with
          | Some artifact => refuse_if (negb (is_ok (validateArtifactRef artifact))
              || (ArtifactRef_Workspace artifact <>? TaskRef_Workspace (Task_Ref t))) ErrCorruptStore
          | None => Ok tt end = Ok tt) as ->.
  { destruct (Task_Artifact t) as [a|]; [|done]. destruct (Hart a eq_refl) as [H1 H2].
    by rewrite artifact_ref_ok, H1, H2, bool_decide_eq_true_2. }
  cbn [obind]. destruct (Task_Submission t) as [s|]; [|done].
  destruct (Hsub s eq_refl) as (E1 & H1 & H2 & H3 & E2 & E3).
  rewrite !stable_ok, E1, H1, H2, H3, E2, E3. unfold TimeEqual. rewrite Z.eqb_refl, !bool_decide_eq_true_2 by done.
  done.
Qed.

(** The JSON form of a valid Task is exact when its times are nanosecond
    times and its counters are not negative. *)
Lemma Task_ok_of_valid t :
  valid_task t -> (0 < Task_MessageCount t)%Z -> in_int64 (Task_CreatedAt t) -> in_int64 (Task_UpdatedAt t) ->
  Task_ok t.
Proof.
  intros [Hr Hc Ha Hs Hrev Hm He Hcr Hup Hcomp Hart Hsub] Hpos Hci Hui. unfold MaxInt64 in *. unfold max_uint64.
  unfold Task_ok, max_uint64. split_and!; try lia; try done.
  - by apply TaskRef_stable_utf8.
  - by apply ContextRef_stable_utf8.
  - by destruct (Task_State t).
  - by destruct (Task_State t).
  - destruct (Task_Artifact t) as [a|] eqn:E; [|done]. cbn. apply ArtifactRef_stable_utf8. by destruct (Hart a eq_refl).
  - destruct (Task_Submission t) as [s|] eqn:E; [|done]. cbn.
    destruct (Hsub s eq_refl) as (H1 & H2 & H3 & H4 & H5 & H6).
    split_and!; [by apply match_stable_valid|rewrite H1; by apply TaskRef_stable_utf8|by apply match_stable_valid| |].
    + rewrite H6. destruct (Task_Artifact t) as [a|] eqn:E2; [|done]. cbn.
      apply ArtifactRef_stable_utf8. by destruct (Hart a eq_refl).
    + by rewrite H5.
Qed.
