(* ===== verification/AgentReplay.v ===== *)
(** * Exactly-once commands

    The receipt a command leaves in the store makes every later attempt of the
    same command return the first result and change nothing, whatever other
    calls committed in between: [replay…] is proved stable under [keeps], and a
    fresh run is proved to end in a state where it replays.  Everything here is
    generic in the Store: it uses the laws of AgentStore only. *)

From S2P Require Import Prelude GoText GoEncoding GoTime GoJson AgentTypes AgentCodec Framework Protect.
From S2P Require Import AgentStore AgentCore AgentCommands AgentLease AgentFacts.

Local Open Scope string_scope.

(** The receipt of a result fits the budget it is read back under. *)
Definition receipt_fits {A} `{JsonCodec A} (a : A) : Prop := (len (Marshal a) <= maxPageBytes)%Z.

Lemma found_or_absent_None {A} (m : res A) : found_or_absent m = Ok None -> exists e, m = Err e.
Proof. destruct m; cbn; [done|]. eauto. Qed.

Section Replay.
Context {S : Type} `{StoreLaws S}.

Lemma replay_json_keeps {A} `{JsonCodec A} (s s' : S) authority id kind digest resultKind (a : A) :
  keeps s s' ->
  replayJSONCommandFromStore s authority id kind digest resultKind = Ok (Some a) ->
  replayJSONCommandFromStore s' authority id kind digest resultKind = Ok (Some a).
Proof.
  intros [Hk _]. unfold replayJSONCommandFromStore.
  destruct (LookupCommand _ _ s) as [r|e] eqn:E.
  - by rewrite (Hk _ _ _ E).
  - cbn. by destruct (errors_Is e _).
Qed.

Lemma replay_json_recorded {A} `{JsonCodec A} (s s' : S) authority id kind digest resultKind (a : A) now :
  recordJSONCommandToStore s authority id kind digest resultKind a now = Ok s' ->
  codec_ok a -> receipt_fits a ->
  match_stable kind = true -> match_stable resultKind = true -> is_empty digest = false ->
  IsZero now = false ->
  replayJSONCommandFromStore s' authority id kind digest resultKind = Ok (Some a).
Proof.
  unfold recordJSONCommandToStore. rewrite on_error_Ok. intros Hi Ha Hf Hk Hr Hd Hn.
  unfold replayJSONCommandFromStore.
  assert (LookupCommand {| CommandKey_Authority := authority; CommandKey_ID := id |}
            {| ReadLimit_MaxBytes := maxPageBytes |} s' =
          Ok (commandRecord authority id kind digest resultKind a now)) as ->.
  { apply (lookup_inserted _ {| ReadLimit_MaxBytes := maxPageBytes |} _ _ Hi); [done|exact Hf]. }
  cbn [found_or_absent obind]. unfold validateStoreCommandRecord, commandRecord. cbn [Command_Authority
    Command_ID Command_Kind Command_IntentDigest Command_ResultKind Command_Result Command_ResultDigest
    Command_CreatedAt].
  rewrite !stable_ok, Hk, Hr, Hd, Hn, !bool_decide_eq_true_2 by done.
  assert ((len (Marshal a) =? 0)%Z = false) as -> by apply print_nonempty.
  cbn [negb orb refuse_if obind]. rewrite unmarshal_marshal by done. done.
Qed.

Lemma replay_task_keeps (s s' : S) authority id kind digest t :
  keeps s s' -> replayTaskCommandFromStore s authority id kind digest = Ok (Some t) ->
  replayTaskCommandFromStore s' authority id kind digest = Ok (Some t).
Proof.
  intros Hk. unfold replayTaskCommandFromStore. intros Hr. apply obind_Ok in Hr as (o & Ho & Hr).
  destruct o as [t'|]; [|discriminate Hr]. by rewrite (replay_json_keeps _ _ _ _ _ _ _ _ Hk Ho).
Qed.

Lemma replay_task_recorded (s s' : S) authority id kind digest t now :
  recordTaskCommandToStore s authority id kind digest t now = Ok s' ->
  valid_task t -> Task_ok t -> receipt_fits t -> match_stable kind = true -> is_empty digest = false ->
  IsZero now = false -> WorkspaceRef_Authority (TaskRef_Workspace (Task_Ref t)) = authority ->
  replayTaskCommandFromStore s' authority id kind digest = Ok (Some t).
Proof.
  intros Hr Hv Hok Hf Hk Hd Hn Ha. unfold replayTaskCommandFromStore.
  rewrite (replay_json_recorded _ _ _ _ _ _ _ _ _ Hr) by done. cbn [obind].
  rewrite check_of_valid_task by done. cbn [obind]. by rewrite Ha, bool_decide_eq_true_2.
Qed.

(** The lease history a replay verifies is immutable too. *)
Lemma verify_grant_keeps (s s' : S) grant t :
  keeps s s' -> verifyLeaseGrantHistoryFromStore s grant = Ok t ->
  verifyLeaseGrantHistoryFromStore s' grant = Ok t.
Proof.
  intros [_ Hk]. unfold verifyLeaseGrantHistoryFromStore.
  destruct (validateLeaseGrant grant); cbn [obind]; [|done].
  destruct (LoadLeaseGrant _ _ s) as [r|e] eqn:E; [|done]. by rewrite (Hk _ _ _ E).
Qed.
End Replay.

(* ------------------------------------------------------------------ *)
(** ** Admission *)

(** A call that reaches the store: the context is not nil, the Agent is not
    shut down, and the store admits it and does not fail. *)
Definition reaches {W S} `{StoreContract W S} (agent : Agent) (ctx : goctx) (w : W) : Prop :=
  ctx <> NilContext /\ Agent_closed agent = false /\ admits w ctx.

Lemma reaches_checks {W S} `{StoreContract W S} agent ctx (w : W) :
  reaches agent ctx w -> validateCallContext ctx = Ok tt /\ acquireStore agent = Ok tt.
Proof.
  intros (Hc & Ha & _). split; [by destruct ctx|]. unfold acquireStore. by rewrite Ha.
Qed.

(** What an Update that returned a value did: its callback succeeded on the
    snapshot, and left its state as the new snapshot. *)
Lemma Update_Ok {W S} `{StoreContract W S} {A} ctx (f : S -> res (A * S)) (w w' : W) a :
  Update ctx f w = (Ok a, w') -> f (snapshot w) = Ok (a, snapshot w').
Proof.
  intros Hu. pose proof (Update_cases _ _ _ _ _ Hu) as Hc. destruct (f (snapshot w)) as [[a' s]|e].
  - destruct Hc as [[[= ->] <-] | (e & Hr & _)]; [done | discriminate Hr].
  - destruct Hc as [[e' Hr] _]. discriminate Hr.
Qed.

Lemma View_Ok {W S} `{StoreContract W S} {A} ctx (f : S -> res A) (w : W) a :
  View ctx f w = Ok a -> f (snapshot w) = Ok a.
Proof. intros Hv. destruct (View_cases ctx f w) as [E | [e E]]; congruence. Qed.

Section ExactlyOnce.
Context {W S : Type} `{HV : StoreView S} `{HT : !StoreTx S} `{HL : !StoreLaws S}
  `{HS : Store W S} `{HC : !StoreContract W S}.

(* ---------------------------------------------------------------- *)
(** ** CreateTask *)

Lemma replayCreate_keeps (s s' : S) command digest t :
  keeps s s' -> replayCreate s command digest = Ok (Some t) -> replayCreate s' command digest = Ok (Some t).
Proof.
  intros Hk. unfold replayCreate. intros Hr. apply obind_Ok in Hr as (o & Ho & Hr).
  destruct o as [t'|]; [|discriminate Hr]. by rewrite (replay_task_keeps _ _ _ _ _ _ _ Hk Ho).
Qed.

Lemma createdTask_valid command now :
  validateCreateCommand command = Ok tt -> in_int64 now -> valid_task (createdTask command now).
Proof.
  unfold validateCreateCommand. intros Hc Hn. ok_inv. decided.
  apply validateTaskRef_Ok in Hv0. apply validateContextRef_Ok in Hv1.
  split; cbn; try done; try lia.
  by apply int64_not_zero.
Qed.

(** A fresh run of the callback ends in a state that replays its result. *)
Lemma createTaskTx_replays agent command digest prepared (s s' : S) t :
  validateCreateCommand command = Ok tt -> is_empty digest = false -> receipt_fits t ->
  createTaskTx agent command digest prepared s = Ok (t, s') ->
  replayCreate s' command digest = Ok (Some t).
Proof.
  intros Hc Hd Hf. unfold createTaskTx. intros Hr. apply obind_Ok in Hr as ([t'|] & Hrep & Hr).
  { injection Hr as <- <-. done. }
  ok_inv. apply checkedClockTime_Ok in Hv as (_ & Hn & Hz).
  pose proof (createdTask_valid _ _ Hc Hn) as Hvt.
  unfold replayCreate. erewrite replay_task_recorded; [|exact Hv3|done|..]; try done.
  - cbn. by rewrite !bool_decide_eq_true_2.
  - by apply Task_ok_of_valid.
Qed.

Lemma CreateTask_replays agent ctx command between (w w1 : W) t :
  CreateTask agent ctx command between w = (Ok t, w1) -> receipt_fits t ->
  validateCreateCommand command = Ok tt /\
  replayCreate (snapshot w1) command (commandDigest "create_task" (enc_CreateTask command)) = Ok (Some t).
Proof.
  unfold CreateTask. intros Hr Hf. apply or_return_Ok in Hr as (_ & _ & Hr).
  apply or_return_Ok in Hr as ([] & Hc & Hr). apply or_return_Ok in Hr as (_ & _ & Hr).
  apply or_return_Ok in Hr as (o & Hv & Hr). split; [done|]. apply View_Ok in Hv.
  destruct o as [t'|].
  { by injection Hr as <- <-. }
  apply or_return_Ok in Hr as (p & _ & Hr). apply Update_Ok in Hr.
  eapply createTaskTx_replays; [done|apply commandDigest_nonempty|done|exact Hr].
Qed.

(** Once CreateTask has returned a Task, every later call with the same
    command returns that Task and leaves the store as it is: under any clock
    and any protector, whatever was committed since, and whatever commits
    while the call runs. *)
Lemma create_task_replay_any agent ctx command between agent' ctx' between' (w w1 w2 : W) t :
  CreateTask agent ctx command between w = (Ok t, w1) -> receipt_fits t ->
  keeps (snapshot w1) (snapshot w2) -> reaches agent' ctx' w2 ->
  CreateTask agent' ctx' command between' w2 = (Ok t, w2).
Proof.
  intros Hr Hf Hk Hre. apply CreateTask_replays in Hr as [Hc Hr]; [|done].
  apply (replayCreate_keeps _ _ _ _ _ Hk) in Hr.
  destruct (reaches_checks _ _ _ Hre) as [H1 H2]. destruct Hre as (_ & _ & Ha).
  unfold CreateTask. rewrite H1, Hc, H2. cbn [or_return]. by rewrite admits_View, Hr.
Qed.

(** An Update that failed may have committed only when it says so; then a
    retry of the command tells. *)
Lemma create_task_failed_any agent ctx command between (w w1 : W) e :
  CreateTask agent ctx command between w = (Err e, w1) ->
  w1 = w \/ snapshot w1 = snapshot (between w) \/
  (commit_unknown e = true /\
   exists t prepared, createTaskTx agent command (commandDigest "create_task" (enc_CreateTask command))
     prepared (snapshot (between w)) = Ok (t, snapshot w1)).
Proof.
  unfold CreateTask, or_return. intros Hr.
  repeat match type of Hr with
  | (Err _, _) = (_, _) => injection Hr as <- <-; by left
  | (Ok _, _) = (Err _, _) => discriminate Hr
  | match ?x with _ => _ end = _ => destruct x eqn:?
  end.
  right. pose proof (Update_cases _ _ _ _ _ Hr) as Hc. destruct (createTaskTx _ _ _ _ _) as [[a s]|e'] eqn:E.
  - destruct Hc as [[[=] _] | (e' & [= ->] & [Hs | [Hu Hs]])]; [by left|]. right. split; [done|].
    rewrite <- Hs in E. eauto.
  - destruct Hc as [_ Hs]. by left.
Qed.
(* ---------------------------------------------------------------- *)
(** ** Transitions *)

(** A change a command can make: its end state is a Task state, a completion
    is exactly a change with a submission, and a submission comes with a
    message. *)
Record sound_change (change : transition_change) : Prop := {
  sound_next : validTaskState (change_next change) = true;
  sound_completed : change_next change = TaskCompleted <-> is_empty (change_submission change) = false;
  sound_submission : is_empty (change_submission change) = false ->
    match_stable (change_submission change) = true /\ match_stable (transitionMessageID change) = true
}.

(** The JSON form of the Task is exact. *)
Definition exact_task (t : Task) : Prop := Task_ok t /\ (0 < Task_MessageCount t)%Z.

Lemma moveArtifact_keeps (s s' : S) artifact ref next p d :
  moveArtifact s artifact ref next p d = Ok s' -> keeps s s'.
Proof.
  unfold moveArtifact. intros Hr. apply obind_Ok in Hr as ([b s1] & Hm & Hr). ok_inv.
  by eapply keeps_CompareAndSwapArtifact.
Qed.

Lemma on_error_keeps (P : S -> Prop) from to (m : res S) s :
  on_error from to m = Ok s -> (m = Ok s -> P s) -> P s.
Proof. rewrite on_error_Ok. auto. Qed.

Lemma transitionWrites_keeps (s s' : S) kind meta ref digest change current next prepared now :
  transitionWrites s kind meta ref digest change current next prepared now = Ok s' -> keeps s s'.
Proof.
  unfold transitionWrites, insertMessageToStore, insertEventToStore, recordTaskCommandToStore,
    recordJSONCommandToStore.
  intros Hr. ok_inv. rewrite !on_error_Ok in *.
  transitivity v. { destruct (change_message change); ok_inv; [|done]. rewrite on_error_Ok in *.
    by eapply keeps_InsertMessage. }
  transitivity v0. { destruct (change_discardArtifact change), (Task_Artifact current); ok_inv; try done.
    by eapply moveArtifact_keeps. }
  transitivity v1. { destruct (change_artifact change); ok_inv; [|done]. by eapply moveArtifact_keeps. }
  transitivity v2. { destruct (transitionSubmission _ _ _); ok_inv; [|done]. rewrite on_error_Ok in *.
    by eapply keeps_InsertSubmission. }
  transitivity v3; [by eapply keeps_InsertEvent | by eapply keeps_InsertCommand].
Qed.

Lemma replayTransition_keeps (s s' : S) kind meta grant ref digest t :
  keeps s s' -> replayTransition s kind meta grant ref digest = Ok (Some t) ->
  replayTransition s' kind meta grant ref digest = Ok (Some t).
Proof.
  intros Hk. unfold replayTransition. intros Hr. apply obind_Ok in Hr as (o & Ho & Hr).
  destruct o as [t'|]; [|discriminate Hr]. rewrite (replay_task_keeps _ _ _ _ _ _ _ Hk Ho).
  cbn [obind]. destruct (refuse_if _ _); [|discriminate Hr]. cbn [obind] in *.
  destruct grant as [g|]; [|done]. apply obind_Ok in Hr as (u & Hu & Hr).
  apply obind_Ok in Hu as (t0 & Ht & Hu). by rewrite (verify_grant_keeps _ _ _ _ Hk Ht).
Qed.

Lemma loadTaskRecord_Ok (s : S) ref record :
  loadTaskRecordFromStore s ref = Ok record ->
  LoadTask ref s = Ok record /\ Task_Ref (TaskRecord_Task record) = ref /\
  validateStoreTaskRecord record = Ok tt.
Proof.
  unfold loadTaskRecordFromStore. intros Hr. ok_inv. rewrite on_error_Ok in *. decided.
  by destruct v1.
Qed.

Lemma record_valid_task record :
  validateStoreTaskRecord record = Ok tt -> valid_task (TaskRecord_Task record).
Proof. unfold validateStoreTaskRecord. intros Hr. ok_inv. by eapply valid_task_of_check. Qed.

Lemma transitionTask_valid ref change current now :
  valid_task current -> Task_Ref current = ref -> Terminal (Task_State current) = false ->
  sound_change change -> (0 < Task_MessageCount (transitionTask ref change current now))%Z ->
  (Task_Revision current < MaxInt64)%Z -> (Task_UpdatedAt current <= now)%Z -> IsZero now = false ->
  (is_empty (change_submission change) = false -> Task_Artifact current = change_artifact change) ->
  valid_task (transitionTask ref change current now).
Proof.
  intros [Hr Hc Ha Hs Hrev Hm He Hcr Hup Hcomp Hart Hsub] Hcur Ht [Hn Hco Hss] Hpos Hmax Hnow Hz Hpub.
  assert (Task_Submission current = None) as Hnone.
  { destruct (Task_Submission current) eqn:E; [|done]. exfalso.
    assert (Task_State current = TaskCompleted) as Hst by (apply Hcomp; eauto). by rewrite Hst in Ht. }
  unfold transitionTask in *. cbn in Hpos. split; cbn; try done; try lia.
  - destruct (is_none _); lia.
  - destruct (is_none _); lia.
  - rewrite Hnone. unfold transitionSubmission. destruct (is_empty (change_submission change)).
    + rewrite Hco. split; [done | by intros [? ?]].
    + split; [by eauto | by intros _; apply Hco].
  - intros s. rewrite Hnone. unfold transitionSubmission.
    destruct (is_empty (change_submission change)) eqn:E; [done|]. intros [= <-]. cbn.
    destruct (Hss eq_refl) as [H1 H2]. by rewrite Hpub.
Qed.

(** The result of every fresh transition that ends in [s'] is exact. *)
Definition exact_transitions (s' : S) (t : Task) : Prop :=
  forall agent kind meta grant ref digest change prepared s,
    transitionTx agent kind meta grant ref digest change prepared s = Ok (t, s') ->
    replayTransition s kind meta grant ref digest = Ok None -> exact_task t.

(** A fresh transition ends in a state that replays its result. *)
Lemma transitionTx_replays agent kind meta grant ref digest change prepared (s s' : S) t :
  transitionTx agent kind meta grant ref digest change prepared s = Ok (t, s') ->
  sound_change change -> match_stable kind = true -> is_empty digest = false ->
  exact_transitions s' t -> receipt_fits t ->
  replayTransition s' kind meta grant ref digest = Ok (Some t).
Proof.
  intros Hr Hso Hk Hd Hex Hf. specialize (Hex _ _ _ _ _ _ _ _ _ Hr). unfold transitionTx in Hr.
  apply obind_Ok in Hr as ([t'|] & Hrep & Hr); [by injection Hr as <- <-|].
  destruct (Hex Hrep) as [Hok Hpos]. clear Hex.
  apply obind_Ok in Hr as (record & Hload & Hr). apply obind_Ok in Hr as (u & Hadm & Hr).
  apply obind_Ok in Hr as (now0 & Hclock & Hr). set (now := timestampAtLeast now0 _) in *.
  apply obind_Ok in Hr as (u' & Hart & Hr). apply refuse_if_Ok in Hart.
  apply obind_Ok in Hr as ([b s1] & Hcas & Hr). destruct b; [|discriminate Hr]. cbn [negb] in Hr.
  apply obind_Ok in Hr as (s2 & Hw & Hr). injection Hr as <- <-.
  apply loadTaskRecord_Ok in Hload as (_ & Href & Hrec). apply record_valid_task in Hrec.
  unfold admitTransition in Hadm. ok_inv. bool_split. rewrite Z.geb_leb in *. zbool.
  apply checkedClockTime_Ok in Hclock as (_ & Hn & Hz).
  pose proof (timestamp_floor now0 (Task_UpdatedAt (TaskRecord_Task record))) as Hfloor. fold now in Hfloor.
  assert (valid_task (transitionTask ref change (TaskRecord_Task record) now)) as Hvt.
  { apply transitionTask_valid; try done.
    - destruct Hok as (_ & _ & _ & _ & _ & _ & _ & _ & _ & _ & Hu). by apply int64_not_zero.
    - intros E. rewrite E in Hart. cbn in Hart. by decided. }
  assert (keeps s s2) as Hkeep.
  { etransitivity; [by eapply keeps_CompareAndSwapTask | by eapply transitionWrites_keeps]. }
  unfold replayTransition. unfold transitionWrites in Hw. ok_inv.
  erewrite replay_task_recorded; [|exact Hw|done..| |].
  - cbn [obind]. cbn [Task_Ref transitionTask]. rewrite Href, bool_decide_eq_true_2 by done.
    cbn [negb refuse_if obind]. destruct grant as [g|]; [|done].
    unfold requireCurrentLeaseFromStore in *.
    match goal with H : obind (verifyLeaseGrantHistoryFromStore s g) _ = Ok _ |- _ =>
      apply obind_Ok in H as (t0 & Ht & _) end.
    by rewrite (verify_grant_keeps _ _ _ _ Hkeep Ht).
  - destruct Hok as (_ & _ & _ & _ & _ & _ & _ & _ & _ & _ & Hu). by apply int64_not_zero.
  - cbn. by rewrite Href.
Qed.

Lemma transition_replays agent ctx kind meta grant ref command change between (w w1 : W) t :
  transition agent ctx kind meta grant ref command change between w = (Ok t, w1) ->
  sound_change change -> match_stable kind = true -> exact_transitions (snapshot w1) t -> receipt_fits t ->
  validateMeta meta false = Ok tt /\ validateTaskRef ref = Ok tt /\
  replayTransition (snapshot w1) kind meta grant ref (commandDigest kind command) = Ok (Some t).
Proof.
  unfold transition. intros Hr Hso Hk Hex Hf. apply or_return_Ok in Hr as (_ & _ & Hr).
  apply or_return_Ok in Hr as ([] & Hm & Hr). apply or_return_Ok in Hr as ([] & Href & Hr).
  apply or_return_Ok in Hr as (_ & _ & Hr). split_and!; [done..|].
  destruct (change_message change) as [message|].
  - apply or_return_Ok in Hr as (o & Hv & Hr). apply View_Ok in Hv. destruct o as [t'|].
    { by injection Hr as <- <-. }
    apply or_return_Ok in Hr as (p & _ & Hr). apply Update_Ok in Hr.
    eapply transitionTx_replays; try done. apply commandDigest_nonempty.
  - apply Update_Ok in Hr. eapply transitionTx_replays; try done. apply commandDigest_nonempty.
Qed.

Lemma transition_replay_any agent ctx kind meta grant ref command change between agent' ctx' between'
    (w w1 w2 : W) t :
  transition agent ctx kind meta grant ref command change between w = (Ok t, w1) ->
  sound_change change -> match_stable kind = true -> exact_transitions (snapshot w1) t -> receipt_fits t ->
  keeps (snapshot w1) (snapshot w2) -> reaches agent' ctx' w2 ->
  exists w', transition agent' ctx' kind meta grant ref command change between' w2 = (Ok t, w') /\
    snapshot w' = snapshot w2.
Proof.
  intros Hr Hso Hk Hex Hf Hkeep Hre.
  destruct (transition_replays _ _ _ _ _ _ _ _ _ _ _ _ Hr Hso Hk Hex Hf) as (Hm & Href & Hrep).
  apply (replayTransition_keeps _ _ _ _ _ _ _ _ Hkeep) in Hrep.
  destruct (reaches_checks _ _ _ Hre) as [H1 H2]. destruct Hre as (_ & _ & Ha).
  unfold transition. rewrite H1, Hm, Href, H2. cbn [or_return].
  destruct (change_message change) as [message|].
  - rewrite admits_View by done. rewrite Hrep. cbn [or_return]. eauto.
  - pose proof (admits_Update (A := Task) ctx' (transitionTx agent' kind meta grant ref
      (commandDigest kind command) change noContent) w2 Ha) as Hu.
    unfold transitionTx in Hu at 1. rewrite Hrep in Hu. cbn [obind] in Hu. exact Hu.
Qed.
(** What the seven commands ask for is sound. *)
Lemma plain_sound allowed next event discard :
  validTaskState next = true -> next <> TaskCompleted ->
  sound_change (plainChange allowed next event discard).
Proof. intros Hv Hc. by split. Qed.

Lemma message_sound allowed next event author message :
  validTaskState next = true -> next <> TaskCompleted ->
  sound_change (messageChange allowed next event author message).
Proof. intros Hv Hc. by split. Qed.

Lemma complete_sound command :
  validateStable (CompleteTask_Submission command) = Ok tt ->
  validateMessageInput (CompleteTask_Message command) = Ok tt ->
  sound_change (completeChange command).
Proof.
  intros Hs Hm. apply validateStable_Ok in Hs. unfold validateMessageInput in Hm.
  apply obind_Ok in Hm as (u & Hm & _). apply validateStable_Ok in Hm.
  pose proof (match_stable_nonempty _ Hs) as Hne.
  assert (is_empty (CompleteTask_Submission command) = false) as He.
  { destruct (is_empty _) eqn:E; [|done]. by apply is_empty_true in E. }
  split; cbn; [done | by rewrite He | done].
Qed.

(** Once a transition command has returned a Task, every later call with the
    same command returns that Task and leaves the store as it is. *)
Lemma task_op_replay_any agent ctx op between agent' ctx' between' (w w1 w2 : W) t :
  runTaskOp agent ctx op between w = (Ok t, w1) -> exact_transitions (snapshot w1) t -> receipt_fits t ->
  keeps (snapshot w1) (snapshot w2) -> reaches agent' ctx' w2 ->
  exists w', runTaskOp agent' ctx' op between' w2 = (Ok t, w') /\ snapshot w' = snapshot w2.
Proof.
  intros Hr Hex Hf Hk Hre. destruct (reaches_checks _ _ _ Hre) as [H1 H2].
  destruct op as [c|c|c|c|c|c|c]; cbn [runTaskOp] in *;
    unfold AcceptTask, RejectTask, RequestInput, ReplyTask, CancelTask, FailTask, CompleteTask in *;
    try_inv; repeat match goal with u : unit |- _ => destruct u end;
    rewrite ?H1; repeat match goal with
      | H : ?m = Ok tt |- context [or_return ?m _ _] => rewrite H; cbn [or_return] end;
    (eapply transition_replay_any; [exact Hr| |done|done|done|done|done]);
    first [ by apply plain_sound | by apply message_sound | by apply complete_sound ].
Qed.

(* ---------------------------------------------------------------- *)
(** ** Leases *)

Definition exact_assignment (a : LeaseAssignment) : Prop :=
  LeaseAssignment_ok a /\ (0 < Task_MessageCount (LeaseAssignment_Task a))%Z /\
  (0 < LeaseGrant_Fence (LeaseAssignment_Grant a))%Z.

Lemma verify_assignment_keeps (s s' : S) a :
  keeps s s' -> verifyLeaseAssignmentFromStore s a = Ok tt -> verifyLeaseAssignmentFromStore s' a = Ok tt.
Proof.
  intros Hk. unfold verifyLeaseAssignmentFromStore. intros Hr. apply obind_Ok in Hr as (t & Ht & Hr).
  rewrite on_error_Ok in Ht. by rewrite (verify_grant_keeps _ _ _ _ Hk Ht).
Qed.

Lemma validateLeaseGrant_facts grant :
  TaskRef_stable (LeaseGrant_Task grant) = true -> match_stable (LeaseGrant_Worker grant) = true ->
  (0 < LeaseGrant_Fence grant <= MaxInt64)%Z -> validateLeaseGrant grant = Ok tt.
Proof.
  intros Ht Hw Hf. unfold validateLeaseGrant.
  rewrite (proj2 (validateTaskRef_Ok _ tt) Ht). cbn [obind].
  rewrite (proj2 (validateStable_Ok _ tt) Hw). cbn [obind].
  rewrite refuse_if_false; [done|]. apply orb_false_iff. rewrite Z.gtb_ltb.
  split; [apply Z.eqb_neq; lia | apply Z.ltb_ge; lia].
Qed.

Lemma validateLeaseAssignment_fresh a :
  validateLeaseGrant (LeaseAssignment_Grant a) = Ok tt -> valid_task (LeaseAssignment_Task a) ->
  Task_Ref (LeaseAssignment_Task a) = LeaseGrant_Task (LeaseAssignment_Grant a) ->
  Terminal (Task_State (LeaseAssignment_Task a)) = false -> in_int64 (LeaseAssignment_GrantedAt a) ->
  (Task_UpdatedAt (LeaseAssignment_Task a) <= LeaseAssignment_GrantedAt a)%Z ->
  validateLeaseAssignment a = Ok tt.
Proof.
  intros Hg Hv Href Ht Hi Hle. unfold validateLeaseAssignment. rewrite Hg. cbn [replace_error obind].
  rewrite check_of_valid_task, Ht by done. cbn [is_ok negb orb].
  rewrite bool_decide_eq_true_2 by done. unfold validLeaseTimestamp.
  rewrite (proj2 (store_time_int64 _)) by done. unfold Before.
  rewrite (proj2 (Z.ltb_ge _ _)); [done|]. pose proof (vt_updated _ Hv). lia.
Qed.

(** Every assignment granted in a transaction that ends in [s'] is exact. *)
Definition exact_grants (s' : S) (a : LeaseAssignment) : Prop :=
  forall agent s record previous authority id kind digest worker validate,
    grantLease agent s record previous authority id kind digest worker validate = Ok (a, s') ->
    validateStoreTaskRecord record = Ok tt -> exact_assignment a.

(** A grant ends in a state where its assignment is recorded and verified. *)
Lemma grantLease_replays agent (s s' : S) record prev authority id kind digest worker validate a :
  grantLease agent s record prev authority id kind digest worker validate = Ok (a, s') ->
  validateStoreTaskRecord record = Ok tt -> Terminal (Task_State (TaskRecord_Task record)) = false ->
  match_stable worker = true -> match_stable kind = true -> is_empty digest = false ->
  exact_grants s' a -> receipt_fits a ->
  replayJSONCommandFromStore s' authority id kind digest "lease_assignment" = Ok (Some a) /\
  validateLeaseAssignment a = Ok tt /\ verifyLeaseAssignmentFromStore s' a = Ok tt /\
  LeaseGrant_Task (LeaseAssignment_Grant a) = Task_Ref (TaskRecord_Task record) /\
  LeaseGrant_Worker (LeaseAssignment_Grant a) = worker.
Proof.
  intros Hr Hrec Ht Hw Hk Hd Hex Hf. destruct (Hex _ _ _ _ _ _ _ _ _ _ Hr Hrec) as (Hok & Hpos & Hfence).
  unfold grantLease in Hr. apply record_valid_task in Hrec.
  apply obind_Ok in Hr as (u & Hmax & Hr). apply refuse_if_Ok in Hmax.
  apply obind_Ok in Hr as (now0 & Hclock & Hr). set (now := timestampAtLeast now0 _) in *.
  cbv zeta in Hr. set (grant := {| LeaseGrant_Task := _ |}) in *. set (a' := {| LeaseAssignment_Grant := grant |}) in *.
  apply obind_Ok in Hr as (u1 & _ & Hr). apply obind_Ok in Hr as (s1 & Hg & Hr).
  apply obind_Ok in Hr as ([b s2] & Hcas & Hr). apply obind_Ok in Hr as (u2 & _ & Hr).
  apply obind_Ok in Hr as (s3 & Hrc & Hr). injection Hr as <- <-.
  apply on_error_Ok in Hg. rewrite Z.geb_leb in Hmax. zbool.
  destruct Hok as (Hgok & Htok & Hnow). change (in_int64 now) in Hnow.
  assert (validateLeaseGrant grant = Ok tt) as Hvg.
  { apply validateLeaseGrant_facts; [apply Hrec|done|]. cbn in *. lia. }
  assert (Task_UpdatedAt (TaskRecord_Task record) <= now)%Z as Hup.
  { destruct (timestampAtLeast_spec now0 [Task_UpdatedAt (TaskRecord_Task record); prev]) as (_ & _ & Hall).
    by apply Forall_cons in Hall as []. }
  split_and!; [| | |done|done].
  - eapply replay_json_recorded; try done. by apply int64_not_zero.
  - by apply validateLeaseAssignment_fresh.
  - assert (keeps s1 s3) as Hkeep.
    { etransitivity; [by eapply keeps_CompareAndSwapTask|]. unfold recordJSONCommandToStore in Hrc.
      apply on_error_Ok in Hrc. by eapply keeps_InsertCommand. }
    unfold verifyLeaseAssignmentFromStore, verifyLeaseGrantHistoryFromStore.
    change (LeaseAssignment_Grant a') with grant. rewrite Hvg. cbn [obind].
    pose proof (keeps_grant _ _ Hkeep _ _ _ (load_inserted_grant _ _ _ Hg)) as Hlg.
    cbn [GrantRecord_Grant] in Hlg. change (LeaseAssignment_Grant a') with grant in Hlg. rewrite Hlg.
    cbn [on_error obind GrantRecord_Grant GrantRecord_GrantedAt].
    change (LeaseAssignment_Grant a') with grant. rewrite bool_decide_eq_true_2 by done.
    rewrite (int64_not_zero now) by done. cbn [negb orb refuse_if obind on_error].
    unfold TimeEqual. change (LeaseAssignment_GrantedAt a') with now. by rewrite Z.eqb_refl.
Qed.

Lemma replayAcquire_keeps (s s' : S) command digest a :
  keeps s s' -> replayAcquire s command digest = Ok (Some a) -> replayAcquire s' command digest = Ok (Some a).
Proof.
  intros Hk. unfold replayAcquire. intros Hr. apply obind_Ok in Hr as (o & Ho & Hr).
  destruct o as [a'|]; [|discriminate Hr]. rewrite (replay_json_keeps _ _ _ _ _ _ _ _ Hk Ho). cbn [obind].
  apply obind_Ok in Hr as (u & Hc & Hr). rewrite Hc. cbn [obind].
  apply obind_Ok in Hr as ([] & Hv & Hr). by rewrite (verify_assignment_keeps _ _ _ Hk Hv).
Qed.

Lemma replayClaim_keeps (s s' : S) command digest a :
  keeps s s' -> replayClaim s command digest = Ok (Some a) -> replayClaim s' command digest = Ok (Some a).
Proof.
  intros Hk. unfold replayClaim. intros Hr. apply obind_Ok in Hr as (o & Ho & Hr).
  destruct o as [a'|]; [|discriminate Hr]. rewrite (replay_json_keeps _ _ _ _ _ _ _ _ Hk Ho). cbn [obind].
  apply obind_Ok in Hr as (u & Hc & Hr). rewrite Hc. cbn [obind].
  apply obind_Ok in Hr as ([] & Hv & Hr). by rewrite (verify_assignment_keeps _ _ _ Hk Hv).
Qed.

(** A callback that starts by replaying returns the replayed result. *)
Lemma update_replays {A} ctx (f : S -> res (A * S)) (w : W) a :
  admits w ctx -> f (snapshot w) = Ok (a, snapshot w) ->
  exists w', Update ctx f w = (Ok a, w') /\ snapshot w' = snapshot w.
Proof. intros Ha Hf. pose proof (admits_Update ctx f w Ha) as Hu. by rewrite Hf in Hu. Qed.

Lemma acquire_lease_replay_any agent ctx command agent' ctx' (w w1 w2 : W) a :
  AcquireLease agent ctx command w = (Ok a, w1) -> exact_grants (snapshot w1) a -> receipt_fits a ->
  keeps (snapshot w1) (snapshot w2) -> reaches agent' ctx' w2 ->
  exists w', AcquireLease agent' ctx' command w2 = (Ok a, w') /\ snapshot w' = snapshot w2.
Proof.
  intros Hr Hex Hf Hk Hre. destruct (reaches_checks _ _ _ Hre) as [H1 H2]. destruct Hre as (_ & _ & Ha).
  unfold AcquireLease in *. try_inv. repeat match goal with u : unit |- _ => destruct u end.
  rewrite H1, H2. cbn [or_return].
  repeat match goal with H : ?m = Ok tt |- context [or_return ?m _ _] => rewrite H; cbn [or_return] end.
  apply Update_Ok in Hr. set (digest := commandDigest _ _) in *. apply update_replays; [done|].
  assert (replayAcquire (snapshot w1) command digest = Ok (Some a)) as Hrep.
  2:{ unfold acquireLeaseTx. by rewrite (replayAcquire_keeps _ _ _ _ _ Hk Hrep). }
  unfold acquireLeaseTx in Hr. apply obind_Ok in Hr as ([a'|] & Hrep & Hr); [by injection Hr as <- <-|].
  apply obind_Ok in Hr as (record & Hload & Hr). apply obind_Ok in Hr as (prev & _ & Hr).
  apply obind_Ok in Hr as (u & Ht & Hr). apply refuse_if_Ok in Ht. apply obind_Ok in Hr as (u' & _ & Hr).
  apply loadTaskRecord_Ok in Hload as (_ & Href & Hrec).
  apply grantLease_replays in Hr as (Hj & Hva & Hve & Hgt & Hgw); try done.
  - unfold replayAcquire. rewrite Hj. cbn [obind]. rewrite Hva, Hgt, Hgw, Href, !bool_decide_eq_true_2 by done.
    cbn [is_ok negb orb refuse_if obind]. by rewrite Hve.
  - by eapply validateStable_Ok.
  - apply commandDigest_nonempty.
Qed.

Lemma claim_lease_replay_any agent ctx command agent' ctx' (w w1 w2 : W) a :
  ClaimLease agent ctx command w = (Ok a, w1) -> exact_grants (snapshot w1) a -> receipt_fits a ->
  keeps (snapshot w1) (snapshot w2) -> reaches agent' ctx' w2 ->
  exists w', ClaimLease agent' ctx' command w2 = (Ok a, w') /\ snapshot w' = snapshot w2.
Proof.
  intros Hr Hex Hf Hk Hre. destruct (reaches_checks _ _ _ Hre) as [H1 H2]. destruct Hre as (_ & _ & Ha).
  unfold ClaimLease in *. try_inv. repeat match goal with u : unit |- _ => destruct u end.
  rewrite H1, H2. cbn [or_return].
  repeat match goal with H : ?m = Ok tt |- context [or_return ?m _ _] => rewrite H; cbn [or_return] end.
  apply Update_Ok in Hr. set (digest := commandDigest _ _) in *. apply update_replays; [done|].
  assert (replayClaim (snapshot w1) command digest = Ok (Some a)) as Hrep.
  2:{ unfold claimLeaseTx. by rewrite (replayClaim_keeps _ _ _ _ _ Hk Hrep). }
  unfold claimLeaseTx in Hr. apply obind_Ok in Hr as ([a'|] & Hrep & Hr); [by injection Hr as <- <-|].
  apply obind_Ok in Hr as (record & Hload & Hr). apply obind_Ok in Hr as (u & Hc & Hr).
  apply obind_Ok in Hr as (prev & _ & Hr). apply refuse_if_Ok in Hc. bool_split. decided.
  match goal with H : is_ok (validateStoreTaskRecord record) = true |- _ =>
    apply is_ok_unit in H; rename H into Hrec end.
  apply grantLease_replays in Hr as (Hj & Hva & Hve & Hgt & Hgw); try done.
  - unfold replayClaim. rewrite Hj. cbn [obind]. rewrite Hva, Hgt, Hgw, !bool_decide_eq_true_2 by done.
    cbn [is_ok negb orb refuse_if obind]. by rewrite Hve.
  - by eapply validateStable_Ok.
  - apply commandDigest_nonempty.
Qed.
End ExactlyOnce.
