(* ===== verification/MemoryFacts.v ===== *)
(** * What the in-memory primitives do

    For each mutation, the condition under which it succeeds and the state it
    leaves; for each load, the map entry it returns.  These are the only facts
    the proofs about the Agent over this store use. *)

From S2P Require Import Prelude GoText GoTime GoJson AgentTypes AgentCodec Framework Protect AgentStore MemoryStore.

Local Open Scope string_scope.

Definition lease_key (g : LeaseGrant) : memoryAgentLeaseKey :=
  {| LeaseKey_task := LeaseGrant_Task g; LeaseKey_fence := LeaseGrant_Fence g |}.
Definition message_key (m : StoreMessageRecord) : StoreMessageKey :=
  {| MessageKey_Authority := WorkspaceRef_Authority (TaskRef_Workspace (MessageRecord_Task m));
     MessageKey_ID := MessageRecord_ID m |}.

(** The events of a Task by sequence. *)
Definition history (s : memoryAgentState) (ref : TaskRef) : gmap Z StoreEventRecord :=
  default ∅ (events s !! ref).

Definition add_task (r : StoreTaskRecord) (s : memoryAgentState) : memoryAgentState :=
  set_tasks (<[Task_Ref (TaskRecord_Task r) := r]> (tasks s)) s.
Definition add_message (m : StoreMessageRecord) (s : memoryAgentState) : memoryAgentState :=
  set_messages (<[message_key m := m]> (messages s)) s.
Definition add_event (e : Event) (s : memoryAgentState) : memoryAgentState :=
  set_events (<[Event_Task e := <[Event_Sequence e := {| EventRecord_Event := e |}]> (history s (Event_Task e))]>
                (events s)) s.
Definition add_grant (g : StoreLeaseGrantRecord) (s : memoryAgentState) : memoryAgentState :=
  set_leaseGrants (<[lease_key (GrantRecord_Grant g) := g]> (leaseGrants s)) s.
Definition add_artifact (a : StoreArtifactRecord) (s : memoryAgentState) : memoryAgentState :=
  set_artifacts (<[Artifact_Ref (ArtifactRecord_Artifact a) := a]> (artifacts s)) s.
Definition add_submission (r : StoreSubmissionRecord) (s : memoryAgentState) : memoryAgentState :=
  set_submissions (<[Submission_Task (SubmissionRecord_Submission r) := r]> (submissions s)) s.
Definition add_head (h : StoreWorkspaceHeadRecord) (s : memoryAgentState) : memoryAgentState :=
  set_workspaceHeads (<[WorkspaceHead_Workspace (HeadRecord_Head h) := h]> (workspaceHeads s)) s.
Definition add_receipt (r : StoreApplyReceiptRecord) (s : memoryAgentState) : memoryAgentState :=
  set_applyReceipts (<[ApplyReceipt_Artifact (ReceiptRecord_Receipt r) := r]> (applyReceipts s)) s.
Definition add_command (r : StoreCommandRecord) (s : memoryAgentState) : memoryAgentState :=
  set_commands (<[CommandKey r := r]> (commands s)) s.

(** The artifact with a new publication state. *)
Definition artifact_with (a : StoreArtifactRecord) (state : ArtifactState) (published discarded : option time)
    : StoreArtifactRecord :=
  let x := ArtifactRecord_Artifact a in
  {| ArtifactRecord_Artifact :=
       {| Artifact_Ref := Artifact_Ref x; Artifact_Task := Artifact_Task x; Artifact_State := state;
          Artifact_BaseRevision := Artifact_BaseRevision x; Artifact_ResultRevision := Artifact_ResultRevision x;
          Artifact_Digest := Artifact_Digest x; Artifact_PayloadDigest := Artifact_PayloadDigest x;
          Artifact_PayloadSize := Artifact_PayloadSize x; Artifact_MediaType := Artifact_MediaType x;
          Artifact_FrozenAt := Artifact_FrozenAt x; Artifact_PublishedAt := published;
          Artifact_DiscardedAt := discarded |};
     ArtifactRecord_EncodedPayload := ArtifactRecord_EncodedPayload a |}.

(* ------------------------------------------------------------------ *)
(** ** Loops over a map *)

Lemma some_value_false {K A} `{Countable K} (f : A -> bool) (m : gmap K A) :
  WriteOp.some_value f m = false <-> forall k v, m !! k = Some v -> f v = false.
Proof.
  unfold WriteOp.some_value. rewrite <- not_true_iff_false, existsb_exists. split.
  - intros Hn k v Hk. apply not_true_iff_false. intros Hf. apply Hn. exists v. split; [|done].
    apply list_elem_of_In, list_elem_of_fmap. exists (k, v). split; [done|]. by apply elem_of_map_to_list.
  - intros Hall (v & Hv & Hf). apply list_elem_of_In, list_elem_of_fmap in Hv as ([k v'] & -> & Hv).
    apply elem_of_map_to_list in Hv. cbn in Hf. by rewrite (Hall _ _ Hv) in Hf.
Qed.

Lemma elem_of_select {K A} `{Countable K} (f : A -> bool) (m : gmap K A) v :
  v ∈ ReadOp.select f m <-> (exists k, m !! k = Some v) /\ f v = true.
Proof.
  unfold ReadOp.select. rewrite list_elem_of_In, filter_In, <- list_elem_of_In, list_elem_of_fmap.
  split; intros [Hv Hf]; (split; [|done]).
  - destruct Hv as ([k v'] & -> & Hv). apply elem_of_map_to_list in Hv. eauto.
  - destruct Hv as [k Hk]. exists (k, v). split; [done|]. by apply elem_of_map_to_list.
Qed.

(* ------------------------------------------------------------------ *)
(** ** Loads *)

Lemma LoadTask_Ok ref (s : memoryAgentState) r : LoadTask ref s = Ok r <-> tasks s !! ref = Some r.
Proof. cbn. unfold ReadOp.LoadTask. cbn. destruct (tasks s !! ref); split; congruence. Qed.

Lemma LoadTask_None ref (s : memoryAgentState) :
  tasks s !! ref = None -> LoadTask ref s = Err (StoreNotFoundError StoreRecordTask (TaskRef_ID ref)).
Proof. cbn. unfold ReadOp.LoadTask. cbn. by intros ->. Qed.

Lemma LoadLeaseGrant_Ok ref f (s : memoryAgentState) r :
  LoadLeaseGrant ref f s = Ok r <->
  leaseGrants s !! {| LeaseKey_task := ref; LeaseKey_fence := f |} = Some r.
Proof. cbn. unfold ReadOp.LoadLeaseGrant. cbn. destruct (leaseGrants s !! _); split; congruence. Qed.

Lemma LoadArtifact_Ok ref limit (s : memoryAgentState) r :
  LoadArtifact ref limit s = Ok r -> artifacts s !! ref = Some r.
Proof. cbn. unfold ReadOp.LoadArtifact. intros H. op_inv. congruence. Qed.

Lemma LoadWorkspaceHead_Ok ref (s : memoryAgentState) r :
  LoadWorkspaceHead ref s = Ok r <-> workspaceHeads s !! ref = Some r.
Proof. cbn. unfold ReadOp.LoadWorkspaceHead. cbn. destruct (workspaceHeads s !! _); split; congruence. Qed.

Lemma LoadApplyReceipt_found ref (s : memoryAgentState) :
  found_or_absent (LoadApplyReceipt ref s) = Ok (applyReceipts s !! ref).
Proof. cbn. unfold ReadOp.LoadApplyReceipt. cbn. by destruct (applyReceipts s !! ref). Qed.

Lemma FindClaimableTask_Ok authority (s : memoryAgentState) r :
  FindClaimableTask authority s = Ok r ->
  (exists k, tasks s !! k = Some r) /\ ReadOp.claimable authority r = true.
Proof.
  cbn. unfold ReadOp.FindClaimableTask. cbn [ensureActive unit_active live unit_state obind refuse_if negb].
  destruct (sort_slice _ _) as [|r' l] eqn:E; [done|]. intros [= ->]. apply elem_of_select.
  rewrite <- (sort_slice_perm memoryAgentTaskCreatedLess), E. by left.
Qed.

(** The latest grant is the one of greatest fence. *)
Lemma latest_grant ref (l : list (memoryAgentLeaseKey * StoreLeaseGrantRecord)) :
  (forall k g, (k, g) ∈ l -> k = lease_key (GrantRecord_Grant g)) ->
  match fold_left (ReadOp.later_grant ref) l None with
  | None => forall k g, (k, g) ∈ l -> LeaseKey_task k <> ref
  | Some g => (exists k, (k, g) ∈ l) /\ LeaseGrant_Task (GrantRecord_Grant g) = ref /\
      forall k g', (k, g') ∈ l -> LeaseKey_task k = ref ->
        (LeaseKey_fence k <= LeaseGrant_Fence (GrantRecord_Grant g))%Z
  end.
Proof.
  intros Hkeys. induction l as [|[k g] l IH] using rev_ind.
  { cbn. intros k g Hin. by apply elem_of_nil in Hin. }
  rewrite fold_left_app. cbn [fold_left].
  assert (forall k' g', (k', g') ∈ l -> k' = lease_key (GrantRecord_Grant g')) as Hl.
  { intros. apply Hkeys, elem_of_app. by left. }
  assert (k = lease_key (GrantRecord_Grant g)) as Hk.
  { apply Hkeys, elem_of_app. right. by left. }
  specialize (IH Hl). destruct (fold_left _ l None) as [best|]; cbn [ReadOp.later_grant].
  - destruct IH as ((k0 & Hin) & Ht & Hmax). case_bool_decide as Eref.
    + destruct (LeaseKey_fence k >? _)%Z eqn:E; rewrite Z.gtb_ltb in E; zbool.
      * split_and!; [exists k; apply elem_of_app; right; by left | by rewrite <- Eref, Hk |].
        intros k' g' Hin' Hr. apply elem_of_app in Hin' as [Hin' | Hin'].
        -- specialize (Hmax _ _ Hin' Hr). subst k. cbn in *. lia.
        -- apply list_elem_of_singleton in Hin' as [= -> ->]. by rewrite Hk.
      * split_and!; [exists k0; apply elem_of_app; by left | done |].
        intros k' g' Hin' Hr. apply elem_of_app in Hin' as [Hin' | Hin']; [by eapply Hmax|].
        by apply list_elem_of_singleton in Hin' as [= -> ->].
    + split_and!; [exists k0; apply elem_of_app; by left | done |].
      intros k' g' Hin' Hr. apply elem_of_app in Hin' as [Hin' | Hin']; [by eapply Hmax|].
      by apply list_elem_of_singleton in Hin' as [= -> ->].
  - case_bool_decide as Eref.
    + split_and!; [exists k; apply elem_of_app; right; by left | by rewrite <- Eref, Hk |].
      intros k' g' Hin' Hr. apply elem_of_app in Hin' as [Hin' | Hin']; [by destruct (IH _ _ Hin')|].
      apply list_elem_of_singleton in Hin' as [= -> ->]. by rewrite Hk.
    + intros k' g' Hin'. apply elem_of_app in Hin' as [Hin' | Hin']; [by eapply IH|].
      by apply list_elem_of_singleton in Hin' as [= -> ->].
Qed.

(* ------------------------------------------------------------------ *)
(** ** Mutations *)

Definition task_authority (ref : TaskRef) : AuthorityID := WorkspaceRef_Authority (TaskRef_Workspace ref).
Definition artifact_authority (ref : ArtifactRef) : AuthorityID :=
  WorkspaceRef_Authority (ArtifactRef_Workspace ref).

Lemma InsertTask_Ok r (s s' : memoryAgentState) :
  InsertTask r s = Ok s' ->
  (forall ref r', tasks s !! ref = Some r' ->
    task_authority ref = task_authority (Task_Ref (TaskRecord_Task r)) ->
    TaskRef_ID ref <> TaskRef_ID (Task_Ref (TaskRecord_Task r))) /\
  tasks s !! Task_Ref (TaskRecord_Task r) = None /\ s' = add_task r s.
Proof.
  cbn. unfold WriteOp.InsertTask. intros H. op_inv. split_and!; [|done|done].
  intros ref r' Hr Ha Hi. apply not_true_iff_false in Hv. apply Hv, existsb_exists.
  exists (ref, r'). split; [by apply list_elem_of_In, elem_of_map_to_list|]. cbn.
  by rewrite !bool_decide_eq_true_2.
Qed.

Lemma CompareAndSwapTask_Ok m (s s' : memoryAgentState) b :
  CompareAndSwapTask m s = Ok (b, s') ->
  exists current, tasks s !! TaskMutation_Ref m = Some current /\
  TaskMutation_Ref m = Task_Ref (TaskRecord_Task (TaskMutation_Next m)) /\
  if b then
    Task_Revision (TaskRecord_Task current) = Condition_ExpectedRevision (TaskMutation_Condition m) /\
    (forall l, Condition_ExpectedLease (TaskMutation_Condition m) = Some l -> TaskRecord_Lease current = l) /\
    Task_Context (TaskRecord_Task current) = Task_Context (TaskRecord_Task (TaskMutation_Next m)) /\
    Task_CreatedAt (TaskRecord_Task current) = Task_CreatedAt (TaskRecord_Task (TaskMutation_Next m)) /\
    s' = add_task (TaskMutation_Next m) s
  else s' = s /\
    (Task_Revision (TaskRecord_Task current) <> Condition_ExpectedRevision (TaskMutation_Condition m) \/
     exists l, Condition_ExpectedLease (TaskMutation_Condition m) = Some l /\ TaskRecord_Lease current <> l).
Proof.
  cbn. unfold WriteOp.CompareAndSwapTask. cbn [ensureActive unit_active live unit_state obind refuse_if negb].
  destruct (tasks s !! _) as [current|] eqn:Hcur; [|done]. intros H. exists current. split; [done|].
  apply obind_Ok in H as (u & Hg & H). apply refuse_if_Ok in Hg. bool_split. decided. split; [done|].
  destruct (_ || _)%bool eqn:Emiss in H.
  - injection H as <- <-. split; [done|]. apply orb_true_iff in Emiss as [E | E]; decided; [by left|right].
    destruct (Condition_ExpectedLease _) as [l|]; [|done]. decided. eauto.
  - bool_split. ok_inv. bool_split. decided. unfold TimeEqual in *. zbool. split_and!; try done.
    + intros l Hl. match goal with H : match Condition_ExpectedLease _ with _ => _ end = _ |- _ => rewrite Hl in H end.
      by decided.
    + unfold add_task. congruence.
Qed.

Ltac primitive := cbn; cbn [ensureActive unit_active live unit_state obind refuse_if negb].

Lemma InsertMessage_Ok m (s s' : memoryAgentState) :
  InsertMessage m s = Ok s' ->
  messages s !! message_key m = None /\
  (forall k m', messages s !! k = Some m' -> MessageRecord_Task m' = MessageRecord_Task m ->
    MessageRecord_Sequence m' <> MessageRecord_Sequence m) /\
  s' = add_message m s.
Proof.
  primitive. unfold WriteOp.InsertMessage. primitive. intros H. op_inv. split_and!; [done| |done].
  intros k m' Hm Ht Hs. match goal with H : WriteOp.some_value _ _ = false |- _ => rename H into Hn end.
  pose proof (proj1 (some_value_false _ _) Hn _ _ Hm) as Hf. cbn in Hf.
  by rewrite bool_decide_eq_true_2, Hs, Z.eqb_refl in Hf.
Qed.

Lemma InsertEvent_Ok e (s s' : memoryAgentState) :
  InsertEvent {| EventRecord_Event := e |} s = Ok s' ->
  history s (Event_Task e) !! Event_Sequence e = None /\ s' = add_event e s.
Proof. primitive. unfold WriteOp.InsertEvent. primitive. intros H. op_inv. done. Qed.

Lemma InsertLeaseGrant_Ok g (s s' : memoryAgentState) :
  InsertLeaseGrant g s = Ok s' ->
  leaseGrants s !! lease_key (GrantRecord_Grant g) = None /\ s' = add_grant g s.
Proof. primitive. unfold WriteOp.InsertLeaseGrant. primitive. intros H. op_inv. done. Qed.

Lemma InsertCommand_Ok r (s s' : memoryAgentState) :
  InsertCommand r s = Ok s' -> commands s !! CommandKey r = None /\ s' = add_command r s.
Proof. primitive. unfold WriteOp.InsertCommand. primitive. intros H. op_inv. done. Qed.

Lemma artifact_conflict_None a l :
  WriteOp.artifact_conflict a l = None -> forall a', a' ∈ l ->
    (artifact_authority (Artifact_Ref (ArtifactRecord_Artifact a')) = artifact_authority (Artifact_Ref a) ->
     ArtifactRef_ID (Artifact_Ref (ArtifactRecord_Artifact a')) <> ArtifactRef_ID (Artifact_Ref a)) /\
    Artifact_Task (ArtifactRecord_Artifact a') <> Artifact_Task a.
Proof.
  induction l as [|x l IH]; cbn [WriteOp.artifact_conflict]; intros H a' Hin.
  { by apply elem_of_nil in Hin. }
  destruct (_ && _)%bool eqn:E1 in H; [done|]. case_bool_decide as E2; [done|].
  apply elem_of_cons in Hin as [-> | Hin]; [|by apply IH]. split; [|done].
  intros Ha Hi. apply andb_false_iff in E1 as [E1 | E1]; by decided.
Qed.

Lemma InsertArtifact_Ok a (s s' : memoryAgentState) :
  InsertArtifact a s = Ok s' ->
  artifacts s !! Artifact_Ref (ArtifactRecord_Artifact a) = None /\
  (forall k a', artifacts s !! k = Some a' ->
    (artifact_authority (Artifact_Ref (ArtifactRecord_Artifact a')) =
       artifact_authority (Artifact_Ref (ArtifactRecord_Artifact a)) ->
     ArtifactRef_ID (Artifact_Ref (ArtifactRecord_Artifact a')) <>
       ArtifactRef_ID (Artifact_Ref (ArtifactRecord_Artifact a))) /\
    Artifact_Task (ArtifactRecord_Artifact a') <> Artifact_Task (ArtifactRecord_Artifact a)) /\
  s' = add_artifact a s.
Proof.
  primitive. unfold WriteOp.InsertArtifact. primitive. intros H. op_inv. split_and!; [done| |done].
  intros k a' Ha. eapply artifact_conflict_None; [done|]. apply list_elem_of_fmap. exists (k, a').
  split; [done|]. by apply elem_of_map_to_list.
Qed.

(** A move that was made; the mutation's Ref is the artifact's key. *)
Lemma CompareAndSwapArtifact_Ok m (s s' : memoryAgentState) :
  CompareAndSwapArtifact m s = Ok (true, s') ->
  exists a, artifacts s !! ArtifactMutation_Ref m = Some a /\
    Artifact_Task (ArtifactRecord_Artifact a) = ArtifactMutation_Task m /\
    Artifact_State (ArtifactRecord_Artifact a) = ArtifactMutation_ExpectedState m /\
    s' = set_artifacts (<[ArtifactMutation_Ref m := artifact_with a (ArtifactMutation_NextState m)
            (ArtifactMutation_PublishedAt m) (ArtifactMutation_DiscardedAt m)]> (artifacts s)) s.
Proof.
  primitive. unfold WriteOp.CompareAndSwapArtifact. primitive. intros H.
  apply obind_Ok in H as (u & _ & H). destruct (artifacts s !! _) as [a|]; [|done].
  destruct (_ || _)%bool eqn:E in H; [done|]. injection H as <-. bool_split. decided.
  exists a. by split_and!.
Qed.

Lemma InsertSubmission_Ok r (s s' : memoryAgentState) :
  InsertSubmission r s = Ok s' ->
  submissions s !! Submission_Task (SubmissionRecord_Submission r) = None /\
  (forall k r', submissions s !! k = Some r' ->
    task_authority (Submission_Task (SubmissionRecord_Submission r')) =
      task_authority (Submission_Task (SubmissionRecord_Submission r)) ->
    Submission_ID (SubmissionRecord_Submission r') <> Submission_ID (SubmissionRecord_Submission r)) /\
  s' = add_submission r s.
Proof.
  primitive. unfold WriteOp.InsertSubmission. primitive. intros H. op_inv. split_and!; [done| |done].
  intros k r' Hr Ha Hi. match goal with H : WriteOp.some_value _ _ = false |- _ => rename H into Hn end.
  pose proof (proj1 (some_value_false _ _) Hn _ _ Hr) as Hf. cbn in Hf. unfold task_authority in *.
  by rewrite !bool_decide_eq_true_2 in Hf.
Qed.

Lemma InsertWorkspaceHead_Ok h (s s' : memoryAgentState) b :
  InsertWorkspaceHead h s = Ok (b, s') ->
  if b then workspaceHeads s !! WorkspaceHead_Workspace (HeadRecord_Head h) = None /\ s' = add_head h s
  else is_Some (workspaceHeads s !! WorkspaceHead_Workspace (HeadRecord_Head h)) /\ s' = s.
Proof.
  primitive. unfold WriteOp.InsertWorkspaceHead. primitive.
  destruct (workspaceHeads s !! _) eqn:E; intros [= <- <-]; [split; [eauto|done] | done].
Qed.

Lemma CompareAndSwapWorkspaceHead_Ok m (s s' : memoryAgentState) :
  CompareAndSwapWorkspaceHead m s = Ok (true, s') ->
  WorkspaceHead_Workspace (HeadRecord_Head (HeadMutation_Next m)) = HeadMutation_Workspace m /\
  (exists h, workspaceHeads s !! HeadMutation_Workspace m = Some h /\
    WorkspaceHead_ConfirmedRevision (HeadRecord_Head h) = HeadMutation_ExpectedRevision m) /\
  s' = add_head (HeadMutation_Next m) s.
Proof.
  primitive. unfold WriteOp.CompareAndSwapWorkspaceHead. primitive. intros H.
  apply obind_Ok in H as (u & Hw & H). apply refuse_if_Ok in Hw. decided.
  destruct (workspaceHeads s !! _) as [h|]; [|done].
  case_bool_decide as E; cbn [negb] in H; [|done]. injection H as <-. unfold add_head. rewrite Hw. eauto 10.
Qed.

Lemma InsertApplyReceipt_Ok r (s s' : memoryAgentState) :
  InsertApplyReceipt r s = Ok s' ->
  applyReceipts s !! ApplyReceipt_Artifact (ReceiptRecord_Receipt r) = None /\
  (forall k r', applyReceipts s !! k = Some r' ->
    artifact_authority (ApplyReceipt_Artifact (ReceiptRecord_Receipt r')) =
      artifact_authority (ApplyReceipt_Artifact (ReceiptRecord_Receipt r)) ->
    ApplyReceipt_ID (ReceiptRecord_Receipt r') <> ApplyReceipt_ID (ReceiptRecord_Receipt r)) /\
  s' = add_receipt r s.
Proof.
  primitive. unfold WriteOp.InsertApplyReceipt. primitive. intros H. op_inv. split_and!; [done| |done].
  intros k r' Hr Ha Hi. match goal with H : WriteOp.some_value _ _ = false |- _ => rename H into Hn end.
  pose proof (proj1 (some_value_false _ _) Hn _ _ Hr) as Hf. cbn in Hf. unfold artifact_authority in *.
  by rewrite !bool_decide_eq_true_2 in Hf.
Qed.

(* ------------------------------------------------------------------ *)
(** ** One live handle per image (humantest/agent_store_memory.go)

    An image outlives the Stores opened over it.  Its life is a sequence of
    openings, releases (an idempotent function, callable at any time),
    simulated process losses and Updates through any handle ever returned. *)

Section Images.

Inductive image_step : MemoryAgentStoreImage -> MemoryAgentStoreImage -> Prop :=
  | image_open image handle image' : Open image = Ok (handle, image') -> image_step image image'
  | image_release image handle : is_Some (image_handles image !! handle) ->
      image_step image (close image handle)
  | image_abandon image handle image' : Abandon image handle = Ok image' -> image_step image image'
  | image_update image handle A ctx (callback : memoryAgentState -> res (A * memoryAgentState)) :
      is_Some (image_handles image !! handle) ->
      image_step image
        (store_image (snd (memory_Update ctx callback {| store_image := image; store_handle := handle |}))).

Definition image_later : MemoryAgentStoreImage -> MemoryAgentStoreImage -> Prop := rtc image_step.

(** The owner is the one handle that is open. *)
Definition owner_open (image : MemoryAgentStoreImage) : Prop :=
  forall h, image_handles image !! h = Some false <-> image_owner image = Some h.

Lemma Open_inv image handle image' : Open image = Ok (handle, image') ->
  image_owner image = None /\ image_handles image !! handle = None /\
  image' = {| image_state := image_state image; image_owner := Some handle;
              image_handles := <[handle := false]> (image_handles image) |}.
Proof.
  unfold Open. destruct (image_owner image) eqn:Eo; [done|]. intros [= <- <-]. split_and!; [done| |done].
  apply not_elem_of_dom, is_fresh.
Qed.

Lemma Abandon_inv image handle image' : Abandon image handle = Ok image' ->
  image_handles image !! handle = Some false /\ image_owner image = Some handle /\
  image' = {| image_state := image_state image; image_owner := None;
              image_handles := <[handle := true]> (image_handles image) |}.
Proof.
  unfold Abandon, handle_closed. intros H. ok_inv. bool_split. decided.
  destruct (image_handles image !! handle) as [[]|]; done.
Qed.

Lemma memory_Update_image {A} ctx (callback : memoryAgentState -> res (A * memoryAgentState)) image handle :
  let after := store_image (snd (memory_Update ctx callback {| store_image := image; store_handle := handle |})) in
  image_owner after = image_owner image /\ image_handles after = image_handles image /\
  (image_state after = image_state image \/ image_owner image = Some handle).
Proof.
  cbn zeta. unfold memory_Update, admission. cbn [store_image store_handle].
  destruct (context_ready ctx) as [u|]; cbn [obind]; [|auto].
  destruct (handle_closed image handle) eqn:Ec; cbn; [auto|].
  case_bool_decide; cbn; [|auto]. destruct (callback _) as [[]|]; cbn; auto.
Qed.

Lemma image_step_owner image image' : image_step image image' -> owner_open image -> owner_open image'.
Proof.
  unfold owner_open. intros Hs Ho h. destruct Hs as [? ? ? H|? h' Hh|? ? ? H|? h' A ctx cb Hh].
  - apply Open_inv in H as (Hn & Hf & ->). cbn. rewrite lookup_insert_Some, Ho, Hn. naive_solver.
  - cbn. rewrite lookup_insert_Some, Ho. case_bool_decide; naive_solver.
  - apply Abandon_inv in H as (Hh & Hn & ->). cbn. rewrite lookup_insert_Some, Ho, Hn. naive_solver.
  - destruct (memory_Update_image ctx cb image h') as (-> & -> & _). apply Ho.
Qed.

Lemma image_step_closed image image' h : image_step image image' ->
  image_handles image !! h = Some true -> image_handles image' !! h = Some true.
Proof.
  intros Hs Hc. destruct Hs as [? ? ? H|? h' Hh|? ? ? H|? h' A ctx cb Hh].
  - apply Open_inv in H as (_ & Hf & ->). cbn. rewrite lookup_insert_ne by congruence. done.
  - cbn. destruct (decide (h' = h)) as [->|]; [by rewrite lookup_insert_eq | by rewrite lookup_insert_ne].
  - apply Abandon_inv in H as (Hf & _ & ->). cbn. rewrite lookup_insert_ne by congruence. done.
  - by destruct (memory_Update_image ctx cb image h') as (_ & -> & _).
Qed.

Lemma image_later_owner image image' : image_later image image' -> owner_open image -> owner_open image'.
Proof. induction 1; eauto using image_step_owner. Qed.

Lemma image_later_closed image image' h : image_later image image' ->
  image_handles image !! h = Some true -> image_handles image' !! h = Some true.
Proof. induction 1; eauto using image_step_closed. Qed.

(** A store that is not the owner's is refused and changes nothing. *)
Definition refused (image : MemoryAgentStoreImage) (h : handleID) : Prop :=
  forall A ctx (callback : memoryAgentState -> res (A * memoryAgentState)) (reader : memoryAgentState -> res A),
    context_ready ctx = Ok tt ->
    let store := {| store_image := image; store_handle := h |} in
    memory_Update ctx callback store = (Err ErrStoreClosed, store) /\
    memory_View ctx reader store = Err ErrStoreClosed.

Lemma not_owner_refused image h : image_owner image <> Some h -> refused image h.
Proof.
  intros Hn A ctx callback reader Hc. cbn zeta. unfold memory_Update, memory_View, admission.
  rewrite Hc. cbn. rewrite bool_decide_eq_false_2 by done. cbn. by rewrite orb_true_r.
Qed.

(** Over the whole life of an image at most one handle is open, and it is
    its owner; [Open] succeeds exactly when none is, with a handle never used
    before and the committed state unchanged; a handle that was released or
    abandoned stays closed for ever; a Store without the open handle is
    refused with [ErrStoreClosed] and changes nothing; and nothing but an
    Update through the open handle changes the committed state. *)
Theorem memory_image_single_owner image :
  image_later NewMemoryAgentStoreImage image ->
  (forall h1 h2, image_handles image !! h1 = Some false -> image_handles image !! h2 = Some false -> h1 = h2) /\
  ((exists h, image_handles image !! h = Some false) -> Open image = Err ErrMemoryAgentStoreImageInUse) /\
  ((forall h, image_handles image !! h <> Some false) ->
     exists h image', Open image = Ok (h, image') /\ image_handles image !! h = None /\
                      image_handles image' !! h = Some false /\ image_state image' = image_state image) /\
  (forall h, image_handles image !! h <> Some false -> refused image h) /\
  (forall h image', image_handles image !! h = Some true -> image_later image image' ->
     image_handles image' !! h = Some true) /\
  (forall image', image_step image image' -> image_state image' <> image_state image ->
     exists h, image_handles image !! h = Some false /\ image_handles image' = image_handles image).
Proof.
  intros Hl. assert (owner_open image) as Ho.
  { eapply image_later_owner; [done|]. intros h. cbn. by rewrite lookup_empty. }
  unfold owner_open in Ho. split_and!.
  - intros h1 h2 H1%Ho H2%Ho. congruence.
  - intros [h Hh%Ho]. unfold Open. by rewrite Hh.
  - intros Hn. unfold Open. destruct (image_owner image) as [h|] eqn:E; [by destruct (Hn h); apply Ho|].
    eexists _, _. split_and!; [done | apply not_elem_of_dom, is_fresh | apply lookup_insert_eq | done].
  - intros h Hh. apply not_owner_refused. by rewrite <- Ho.
  - intros h image' Hh Hlater. by eapply image_later_closed.
  - intros image' Hs Hne. destruct Hs as [? ? ? H|? h' Hh|? ? ? H|? h' A ctx cb Hh].
    + by apply Open_inv in H as (_ & _ & ->).
    + done.
    + by apply Abandon_inv in H as (_ & _ & ->).
    + destruct (memory_Update_image ctx cb image h') as (_ & -> & [Hst|Hown]); [done|].
      exists h'. by rewrite Ho.
Qed.
End Images.

Lemma memory_image_single_owner_witness :
  exists h image, Open NewMemoryAgentStoreImage = Ok (h, image) /\ Open image = Err ErrMemoryAgentStoreImageInUse.
Proof.
  eexists _, _. split; [reflexivity|].
  apply memory_image_single_owner; [|eexists; apply lookup_insert_eq].
  apply rtc_once. by eapply image_open.
Defined.
