(* ===== verification/MemoryForward.v ===== *)
(** * The orders of the listings

    The three orders of the in-memory store as the order of a key: Tasks by
    creation, Tasks by their last change, leases by their grant. *)

From S2P Require Import Prelude GoText GoTime GoJson Paging AgentTypes AgentCodec Framework AgentStore MemoryStore AgentCore MemoryFacts.

Local Open Scope string_scope.

(** A time, and the place of a Task in its authority. *)
Definition place_key : Type := time * (string * string).

Definition place (ref : TaskRef) : string * string := (WorkspaceRef_ID (TaskRef_Workspace ref), TaskRef_ID ref).

Definition place_less : string * string -> string * string -> bool := lex string_less string_less.
Definition oldest_first : place_key -> place_key -> bool := lex Z.ltb place_less.
Definition latest_first : place_key -> place_key -> bool := lex (fun x y => y <? x)%Z place_less.
Definition lease_first : time * ((string * string) * Z) -> time * ((string * string) * Z) -> bool :=
  lex Z.ltb (lex place_less Z.ltb).

Lemma strict_total_place : strict_total place_less.
Proof. apply strict_total_lex; apply strict_total_string. Qed.
Lemma strict_total_oldest : strict_total oldest_first.
Proof. apply strict_total_lex; [apply strict_total_Zlt | apply strict_total_place]. Qed.
Lemma strict_total_latest : strict_total latest_first.
Proof. apply strict_total_lex; [apply (strict_total_flip _ strict_total_Zlt) | apply strict_total_place]. Qed.
Lemma strict_total_lease : strict_total lease_first.
Proof.
  apply strict_total_lex; [apply strict_total_Zlt|].
  apply strict_total_lex; [apply strict_total_place | apply strict_total_Zlt].
Qed.
#[export] Hint Resolve strict_total_oldest strict_total_latest strict_total_lease : human.

Definition created_key (r : StoreTaskRecord) : place_key :=
  (Task_CreatedAt (TaskRecord_Task r), place (Task_Ref (TaskRecord_Task r))).
Definition updated_key (r : StoreTaskRecord) : place_key :=
  (Task_UpdatedAt (TaskRecord_Task r), place (Task_Ref (TaskRecord_Task r))).
Definition lease_key_of (a : LeaseAssignment) : time * ((string * string) * Z) :=
  (LeaseAssignment_GrantedAt a, (place (Task_Ref (LeaseAssignment_Task a)), LeaseGrant_Fence (LeaseAssignment_Grant a))).

(** Reads the [if]s of the code as the lexicographic order. *)
Ltac by_lex :=
  unfold oldest_first, latest_first, lease_first, place_less, lex, TimeEqual, Before, After; cbn [fst snd place];
  repeat match goal with
  | |- context [(?x =? ?y)%Z] => destruct (Z.eqb_spec x y)
  | |- context [bool_decide (?x = ?y)] => destruct (decide (x = y)); [rewrite (bool_decide_eq_true_2 (x = y)) by done
                                            | rewrite (bool_decide_eq_false_2 (x = y)) by done]
  end; cbn [negb]; try congruence.

Lemma created_less x y : memoryAgentTaskCreatedLess x y = oldest_first (created_key x) (created_key y).
Proof. unfold memoryAgentTaskCreatedLess, created_key, place. by_lex. Qed.

Lemma updated_less x y : memoryAgentTaskUpdatedLess x y = latest_first (updated_key x) (updated_key y).
Proof. unfold memoryAgentTaskUpdatedLess, updated_key, place. by_lex. Qed.

Lemma granted_less x y : memoryAgentLeaseLess x y = lease_first (lease_key_of x) (lease_key_of y).
Proof. unfold memoryAgentLeaseLess, lease_key_of, place. by_lex. Qed.

(** A cursor is the key of the last element of the page before. *)
Definition created_cursor (c : TaskPageCursor) : place_key :=
  (TaskPageCursor_CreatedAt c, (TaskPageCursor_Workspace c, TaskPageCursor_Task c)).
Definition updated_cursor (c : TaskQueryCursor) : place_key :=
  (TaskQueryCursor_UpdatedAt c, (TaskQueryCursor_Workspace c, TaskQueryCursor_Task c)).
Definition granted_cursor (c : LeasePageCursor) : time * ((string * string) * Z) :=
  (LeasePageCursor_GrantedAt c, ((LeasePageCursor_Workspace c, LeasePageCursor_Task c), LeasePageCursor_Fence c)).

Lemma after_created r c :
  memoryAgentTaskAfterContextCursor (TaskRecord_Task r) (Some c) = oldest_first (created_cursor c) (created_key r).
Proof. unfold memoryAgentTaskAfterContextCursor, created_cursor, created_key, place. by_lex. Qed.

Lemma after_updated r c :
  memoryAgentTaskAfterAuthorityCursor (TaskRecord_Task r) (Some c) = latest_first (updated_cursor c) (updated_key r).
Proof. unfold memoryAgentTaskAfterAuthorityCursor, updated_cursor, updated_key, place. by_lex. Qed.

Lemma after_granted a c :
  memoryAgentLeaseAfterCursor a (Some c) = lease_first (granted_cursor c) (lease_key_of a).
Proof. unfold memoryAgentLeaseAfterCursor, granted_cursor, lease_key_of, place. by_lex. Qed.

(* ------------------------------------------------------------------ *)
(** ** Selections of a map *)

Lemma filter_andb {A} (f g : A -> bool) (l : list A) :
  List.filter (fun x => f x && g x) l = List.filter g (List.filter f l).
Proof. induction l as [|x l IH]; cbn; [done|]. destruct (f x); cbn; [destruct (g x)|]; by rewrite IH. Qed.

Lemma filter_all {A} (f : A -> bool) (l : list A) : (forall x, x ∈ l -> f x = true) -> List.filter f l = l.
Proof.
  induction l as [|x l IH]; intros Hall; [done|]. cbn. rewrite Hall by left. f_equal. apply IH.
  intros y Hy. apply Hall. by right.
Qed.

Lemma filter_ext_in {A} (f g : A -> bool) (l : list A) :
  (forall x, x ∈ l -> f x = g x) -> List.filter f l = List.filter g l.
Proof.
  induction l as [|x l IH]; intros Hall; [done|]. cbn. rewrite Hall by left.
  rewrite IH; [done|]. intros y Hy. apply Hall. by right.
Qed.

Lemma select_andb {K A} `{Countable K} (f g : A -> bool) (m : gmap K A) :
  ReadOp.select (fun x => f x && g x) m = List.filter g (ReadOp.select f m).
Proof. apply filter_andb. Qed.

(** Values of a map whose keys they determine are listed once. *)
Lemma NoDup_select {K A B} `{Countable K} (key : A -> B) (f : A -> bool) (m : gmap K A) :
  (forall k1 k2 x1 x2, m !! k1 = Some x1 -> m !! k2 = Some x2 -> f x1 = true -> f x2 = true ->
    key x1 = key x2 -> k1 = k2) ->
  NoDup (key <$> ReadOp.select f m).
Proof.
  intros Hinj. unfold ReadOp.select.
  assert (forall l, NoDup l.*1 -> (forall p, p ∈ l -> m !! p.1 = Some p.2) ->
    NoDup (key <$> List.filter f (snd <$> l))) as Hl.
  { induction l as [|[k x] l IH]; intros Hnd Hin; cbn; [constructor|].
    apply NoDup_cons in Hnd as [Hk Hnd].
    assert (NoDup (key <$> List.filter f (snd <$> l))) as IHl by (apply IH; [done|intros p Hp; apply Hin; by right]).
    destruct (f x) eqn:Ef; [|done]. cbn. apply NoDup_cons. split; [|done]. intros Hx.
    apply list_elem_of_fmap in Hx as (x' & Hkey & Hx'). apply list_elem_of_In, filter_In in Hx' as [Hx' Ef'].
    apply list_elem_of_In, list_elem_of_fmap in Hx' as ([k' x''] & -> & Hp). cbn in *.
    assert (k = k') as ->.
    { apply (Hinj _ _ x x''); try done; [by apply (Hin (k, x)); left|by apply (Hin (k', x'')); right]. }
    apply Hk, list_elem_of_fmap. by exists (k', x''). }
  apply Hl; [apply NoDup_fst_map_to_list|]. intros [k x] Hp. by apply elem_of_map_to_list in Hp.
Qed.

(* ------------------------------------------------------------------ *)
(** ** When the in-memory primitives succeed

    MemoryFacts inverts a mutation that succeeded; here a mutation is an
    equation: the state it leaves when its constraint holds, the constraint
    it reports when it does not. *)

Lemma LookupCommand_absent key limit (s : memoryAgentState) :
  found_or_absent (LookupCommand key limit s) = Ok None -> commands s !! key = None.
Proof.
  primitive. unfold ReadOp.LookupCommand. primitive. unfold memoryAgentReadLimit, refuse_if.
  destruct (_ <? _)%Z; [done|]. cbn [obind]. destruct (commands s !! key); [|done].
  by destruct (_ >? _)%Z.
Qed.

(** A command without a receipt has its key free. *)
Lemma replay_absent {A} `{JsonCodec A} (s : memoryAgentState) authority id kind digest resultKind :
  replayJSONCommandFromStore (A := A) s authority id kind digest resultKind = Ok None ->
  commands s !! {| CommandKey_Authority := authority; CommandKey_ID := id |} = None.
Proof.
  unfold replayJSONCommandFromStore. intros E. apply obind_Ok in E as ([r|] & Hf & E).
  - apply obind_Ok in E as ([] & _ & E). apply obind_Ok in E as ([] & _ & E).
    apply obind_Ok in E as (x & _ & E). discriminate E.
  - by eapply LookupCommand_absent.
Qed.

Lemma replay_task_absent (s : memoryAgentState) authority id kind digest :
  replayTaskCommandFromStore s authority id kind digest = Ok None ->
  commands s !! {| CommandKey_Authority := authority; CommandKey_ID := id |} = None.
Proof.
  unfold replayTaskCommandFromStore. intros E. apply obind_Ok in E as ([t|] & Hf & E).
  - apply obind_Ok in E as ([] & _ & E). apply obind_Ok in E as ([] & _ & E). discriminate E.
  - exact (replay_absent _ _ _ _ _ _ Hf).
Qed.

Lemma record_new {A} `{JsonCodec A} (s : memoryAgentState) authority id kind digest resultKind (a : A) now :
  commands s !! {| CommandKey_Authority := authority; CommandKey_ID := id |} = None ->
  recordJSONCommandToStore s authority id kind digest resultKind a now =
    Ok (add_command (commandRecord authority id kind digest resultKind a now) s).
Proof.
  intros E. unfold recordJSONCommandToStore. primitive. unfold WriteOp.InsertCommand. primitive.
  unfold CommandKey, commandRecord. cbn [Command_Authority Command_ID]. by rewrite E.
Qed.

Lemma InsertTask_new r (s : memoryAgentState) :
  tasks s !! Task_Ref (TaskRecord_Task r) = None ->
  (forall ref, is_Some (tasks s !! ref) -> task_authority ref = task_authority (Task_Ref (TaskRecord_Task r)) ->
    TaskRef_ID ref <> TaskRef_ID (Task_Ref (TaskRecord_Task r))) ->
  InsertTask r s = Ok (add_task r s).
Proof.
  intros E Hid. primitive. unfold WriteOp.InsertTask. primitive. rewrite E.
  rewrite refuse_if_false; [done|]. apply not_true_iff_false. intros (x & Hin & Hx)%existsb_exists.
  destruct x as [ref r']. apply list_elem_of_In, elem_of_map_to_list in Hin. apply andb_true_iff in Hx as [H1 H2].
  decided. by apply (Hid ref (ex_intro _ r' Hin) H1).
Qed.

Lemma InsertTask_taken r (s : memoryAgentState) ref :
  is_Some (tasks s !! ref) -> task_authority ref = task_authority (Task_Ref (TaskRecord_Task r)) ->
  TaskRef_ID ref = TaskRef_ID (Task_Ref (TaskRecord_Task r)) ->
  exists c k, InsertTask r s = Err (StoreConflictError c k).
Proof.
  intros [r' Hr] Ha Hi. primitive. unfold WriteOp.InsertTask. primitive.
  destruct (tasks s !! Task_Ref (TaskRecord_Task r)); [by eexists _, _|].
  match goal with |- context [refuse_if ?b _] => assert (b = true) as -> end; [|by eexists _, _].
  apply existsb_exists. exists (ref, r'). split; [by apply list_elem_of_In, elem_of_map_to_list|]. cbn.
  by rewrite !bool_decide_eq_true_2.
Qed.

(** The compare-and-swap of a Task, when its condition holds. *)
Lemma CompareAndSwapTask_do ref revision lease next (s : memoryAgentState) current :
  tasks s !! ref = Some current -> Task_Ref (TaskRecord_Task next) = ref ->
  Task_Revision (TaskRecord_Task current) = revision -> revision <> 0%Z ->
  (forall l, lease = Some l -> TaskRecord_Lease current = l) ->
  Task_Context (TaskRecord_Task next) = Task_Context (TaskRecord_Task current) ->
  Task_CreatedAt (TaskRecord_Task next) = Task_CreatedAt (TaskRecord_Task current) ->
  CompareAndSwapTask {| TaskMutation_Ref := ref;
      TaskMutation_Condition := {| Condition_ExpectedRevision := revision; Condition_ExpectedLease := lease |};
      TaskMutation_Next := next |} s = Ok (true, add_task next s).
Proof.
  intros Hr Href Hrev Hne Hl Hc Ht. primitive. unfold WriteOp.CompareAndSwapTask. primitive. rewrite Hr, Href, Hrev, Hc.
  unfold TimeEqual. rewrite Ht, Z.eqb_refl, !bool_decide_eq_true_2, (proj2 (Z.eqb_neq _ _)) by done.
  cbn [negb orb refuse_if obind].
  assert (match lease with None => false | Some l => TaskRecord_Lease current <>? l end = false) as ->.
  { destruct lease as [l|]; [|done]. by rewrite (Hl l eq_refl), bool_decide_eq_true_2. }
  cbn [obind refuse_if]. unfold add_task. by rewrite Href.
Qed.

Lemma insertMessage_new (s : memoryAgentState) message prepared :
  let m := {| MessageRecord_ID := Message_ID message; MessageRecord_Task := Message_Task message;
              MessageRecord_Sequence := Message_Sequence message; MessageRecord_Author := Message_Author message;
              MessageRecord_EncodedParts := prepared_encoded prepared;
              MessageRecord_PartsDigest := prepared_digest prepared;
              MessageRecord_CreatedAt := Message_CreatedAt message |} in
  (forall k m', messages s !! k = Some m' -> MessageRecord_Task m' = Message_Task message ->
    MessageRecord_Sequence m' <> Message_Sequence message) ->
  insertMessageToStore s message prepared =
    if is_none (messages s !! message_key m) then Ok (add_message m s) else Err ErrMessageConflict.
Proof.
  cbv zeta. intros Hseq. unfold insertMessageToStore. primitive. unfold WriteOp.InsertMessage. primitive.
  unfold message_key. cbn [MessageRecord_Task MessageRecord_ID].
  destruct (messages s !! _); [done|]. cbn [is_none].
  rewrite refuse_if_false; [done|]. apply some_value_false. intros k m' Hm. cbn [MessageRecord_Task MessageRecord_Sequence].
  case_bool_decide as E; [|done]. apply Z.eqb_neq. by eapply Hseq.
Qed.

Lemma insertEvent_new (s : memoryAgentState) e :
  history s (Event_Task e) !! Event_Sequence e = None ->
  insertEventToStore s e = Ok (add_event e s).
Proof.
  intros E. unfold insertEventToStore. primitive. unfold WriteOp.InsertEvent. primitive.
  unfold history in E. rewrite E. done.
Qed.

Lemma InsertLeaseGrant_new g (s : memoryAgentState) :
  leaseGrants s !! lease_key (GrantRecord_Grant g) = None -> InsertLeaseGrant g s = Ok (add_grant g s).
Proof.
  intros E. primitive. unfold WriteOp.InsertLeaseGrant. primitive. unfold lease_key in E. rewrite E. done.
Qed.

(** A submission identifier that is in use in an authority. *)
Definition submission_used (s : memoryAgentState) (authority : AuthorityID) (id : SubmissionID) : bool :=
  WriteOp.some_value (fun r =>
    (task_authority (Submission_Task (SubmissionRecord_Submission r)) =?= authority)
    && (Submission_ID (SubmissionRecord_Submission r) =?= id)) (submissions s).

Lemma InsertSubmission_at x (s : memoryAgentState) :
  submissions s !! Submission_Task x = None ->
  on_error ErrStoreConflict ErrSubmissionConflict (InsertSubmission {| SubmissionRecord_Submission := x |} s) =
    if submission_used s (task_authority (Submission_Task x)) (Submission_ID x)
    then Err ErrSubmissionConflict
    else Ok (add_submission {| SubmissionRecord_Submission := x |} s).
Proof.
  intros E. primitive. unfold WriteOp.InsertSubmission. primitive. rewrite E. unfold submission_used, task_authority.
  cbn [SubmissionRecord_Submission]. by destruct (WriteOp.some_value _ _).
Qed.

(** The compare-and-swap of a frozen Artifact of its Task. *)
Lemma CompareAndSwapArtifact_do ref task next published discarded x (s : memoryAgentState) :
  artifacts s !! ref = Some x -> Artifact_Task (ArtifactRecord_Artifact x) = task ->
  Artifact_State (ArtifactRecord_Artifact x) = ArtifactFrozen -> TaskRef_Workspace task = ArtifactRef_Workspace ref ->
  CompareAndSwapArtifact {| ArtifactMutation_Ref := ref; ArtifactMutation_Task := task;
      ArtifactMutation_ExpectedState := ArtifactFrozen; ArtifactMutation_NextState := next;
      ArtifactMutation_PublishedAt := published; ArtifactMutation_DiscardedAt := discarded |} s =
    Ok (true, set_artifacts (<[ref := artifact_with x next published discarded]> (artifacts s)) s).
Proof.
  intros Hx Ht Hf Hw. primitive. unfold WriteOp.CompareAndSwapArtifact. primitive.
  rewrite Hw, bool_decide_eq_true_2 by done. cbn [negb obind]. rewrite Hx, Ht, Hf, !bool_decide_eq_true_2 by done.
  by subst task.
Qed.
