(* ===== verification/AgentSealing.v ===== *)
(** * What is stored is what is read

    Message parts and Artifact payloads are stored through a framing that a
    protector may seal. An Agent with the same protection reads back exactly
    what was written, and an Agent with a protector never writes, nor by
    default accepts, unprotected content. *)

From S2P Require Import Prelude GoText GoTime GoEncoding GoJson AgentTypes AgentCodec Framework Protect AgentStore.
From S2P Require Import AgentCore AgentFacts AgentReplay.

Local Open Scope string_scope.

(** Two Agents with the same protector. *)
Definition same_protection (agent agent' : Agent) : Prop :=
  Agent_protector agent' = Agent_protector agent /\
  Agent_protectorDescription agent' = Agent_protectorDescription agent.

(** What a Protector promises: in a context where it is available it opens
    under the same binding what it sealed, nil and empty plaintexts apart. *)
Definition opens_in (protector : Protector) (ctx : goctx) : Prop :=
  forall ctx0 binding plaintext envelope,
    Protector_Seal protector ctx0 binding plaintext = Ok envelope ->
    Protector_Open protector ctx binding (CloneEnvelope envelope) = Ok plaintext.

Lemma clone_bytes_idem b : clone_bytes (clone_bytes b) = clone_bytes b.
Proof. unfold clone_bytes. by destruct b as [[|a b]|]. Qed.

Lemma CloneEnvelope_idem e : CloneEnvelope (CloneEnvelope e) = CloneEnvelope e.
Proof. unfold CloneEnvelope. cbn. by rewrite !clone_bytes_idem. Qed.

Lemma blen_clone b : blen (clone_bytes b) = blen b.
Proof. unfold clone_bytes, blen. by destruct b as [[|a b]|]. Qed.

Lemma marshal_valid value s : MarshalStoredValue value = Ok s -> ValidateStoredValue value = Ok tt.
Proof. unfold MarshalStoredValue. intros H. apply obind_Ok in H as ([] & Hv & _). done. Qed.

Lemma validate_clone agent agent' e :
  same_protection agent agent' -> validateProtectorEnvelope agent e = Ok tt ->
  ValidateEnvelope (CloneEnvelope e) = Ok tt -> validateProtectorEnvelope agent' (CloneEnvelope e) = Ok tt.
Proof.
  intros [_ Hd] Hv Hc. unfold validateProtectorEnvelope in *. rewrite Hc, Hd. cbn [obind].
  apply obind_Ok in Hv as (? & _ & Hv). apply obind_Ok in Hv as (? & H1 & H2). cbn [CloneEnvelope
    Envelope_Provider Envelope_Format Envelope_Nonce Envelope_Data]. rewrite !blen_clone.
  by destruct (_ || _)%bool.
Qed.

Lemma open_sealed agent agent' ctx ctx' binding plaintext s limit :
  sealStoredValue agent ctx binding plaintext = Ok s -> same_protection agent agent' ->
  (forall protector, Agent_protector agent = Some protector -> opens_in protector ctx') ->
  (len s <= limit <= MaxStoredValueBytes)%Z ->
  openStoredValue agent' ctx' binding s limit = Ok plaintext.
Proof.
  intros Hs Hsame Hopen Hl. unfold sealStoredValue in Hs. unfold openStoredValue, validateStoredValueShape.
  destruct (Agent_protector agent) as [protector|] eqn:Ep.
  - apply obind_Ok in Hs as (u & Hsize & Hs). apply refuse_if_Ok in Hsize.
    apply obind_Ok in Hs as (e & He & Hs). apply obind_Ok in Hs as ([] & Hve & Hs).
    apply obind_Ok in Hs as (value & Hval & Hs). unfold NewSealedStoredValue in Hval.
    apply obind_Ok in Hval as (? & _ & Hval). injection Hval as <-.
    rewrite (unmarshal_stored_value _ _ _ Hs Hl). apply marshal_valid in Hs. cbn in Hs.
    apply refuse_if_Ok, negb_false_iff, is_ok_unit in Hs.
    cbn [join_corrupt obind Value_Mode Value_Envelope Value_Nil]. rewrite (proj1 Hsame), Ep.
    rewrite (validate_clone _ _ _ Hsame Hve Hs). cbn [join_corrupt obind Value_Mode Value_Envelope Value_Nil].
    rewrite CloneEnvelope_idem, (Hopen _ eq_refl _ _ _ _ He). cbn [obind]. rewrite eqb_reflx. cbn [negb refuse_if obind].
    rewrite (proj2 Hsame), Hsize. done.
  - rewrite (unmarshal_stored_value _ _ _ Hs Hl).
    cbn [join_corrupt obind Value_Mode NewPlainStoredValue Value_Plain]. by rewrite (proj1 Hsame), Ep.
Qed.

(** C20: a stored value is read back. What an Agent has sealed for a binding,
    any Agent with the same protection opens again under that binding, exactly,
    whatever their clocks and limits; without a protector the value is stored
    as it is. *)
Theorem stored_value_roundtrip agent agent' ctx ctx' binding plaintext s limit :
  sealStoredValue agent ctx binding plaintext = Ok s -> same_protection agent agent' ->
  (forall protector, Agent_protector agent = Some protector -> opens_in protector ctx') ->
  (len s <= limit <= MaxStoredValueBytes)%Z ->
  openStoredValue agent' ctx' binding s limit = Ok plaintext.
Proof. apply open_sealed. Qed.

(* ------------------------------------------------------------------ *)
(** ** Messages *)

(** Media types are text. *)
Definition parts_text (l : list Part) : Prop := Forall (fun p => valid_string (Part_MediaType p) = true) l.

Lemma validateParts_text l : forall total, validateParts total l = Ok tt -> parts_text l.
Proof.
  induction l as [|p l IH]; intros total Hv; [constructor|]. cbn [validateParts] in Hv.
  apply obind_Ok in Hv as (? & Hm & Hv). apply obind_Ok in Hv as (? & _ & Hv). apply obind_Ok in Hv as (? & _ & Hv).
  constructor; [|by eapply IH]. apply refuse_if_Ok, negb_false_iff in Hm. unfold media_type_valid in Hm.
  apply andb_true_iff in Hm as [Hm _]. apply negb_true_iff in Hm. by bool_split.
Qed.

Lemma input_text input : validateMessageInput input = Ok tt -> parts_text (MessageInput_Parts input).
Proof.
  unfold validateMessageInput. intros Hv. apply obind_Ok in Hv as (? & _ & Hv). apply obind_Ok in Hv as (? & _ & Hv).
  by eapply validateParts_text.
Qed.

Lemma dec_enc_Part p : dec_Part (Some (enc_Part p)) = Some p.
Proof.
  destruct p as [m d]. unfold dec_Part, enc_Part, enc_bytes. cbn -[b64_decode b64_encode].
  by rewrite b64_roundtrip.
Qed.

Lemma dec_enc_Parts l : dec_Parts (enc_Parts l) = Some l.
Proof.
  unfold enc_Parts, dec_Parts. induction l as [|p l IH]; [done|]. rewrite fmap_cons. cbn [mapM].
  by rewrite dec_enc_Part, IH.
Qed.

Lemma enc_Parts_json l : parts_text l -> json_ok (enc_Parts l) = true.
Proof.
  intros Hl. unfold enc_Parts. cbn. induction Hl as [|p l Hp Hl IH]; [done|]. cbn.
  rewrite Hp, (is_ascii_valid (b64_encode _)) by apply b64_encode_ascii. cbn. done.
Qed.

Lemma parts_roundtrip l : parts_text l -> (j ← parse (print (enc_Parts l)); dec_Parts j) = Some l.
Proof. intros Hl. rewrite parse_print by (by apply enc_Parts_json). cbn [mbind option_bind]. apply dec_enc_Parts. Qed.

(** The content of a stored message. *)
Definition message_of (m : StoreMessageRecord) (parts : list Part) : Message :=
  {| Message_ID := MessageRecord_ID m; Message_Task := MessageRecord_Task m;
     Message_Sequence := MessageRecord_Sequence m; Message_Author := MessageRecord_Author m;
     Message_Parts := parts; Message_CreatedAt := MessageRecord_CreatedAt m |}.

(** A message is read back. A record that holds the content an Agent
    prepared for a message of a Task, with the author of its turn, opens under
    any Agent with the same protection to exactly the parts that were given,
    media types and bytes. *)
Theorem message_content_roundtrip agent agent' ctx ctx' task input prepared m :
  validateMessageInput input = Ok tt -> prepareMessageContent agent ctx task input = Ok prepared ->
  same_protection agent agent' ->
  (forall protector, Agent_protector agent = Some protector -> opens_in protector ctx') ->
  MessageRecord_ID m = MessageInput_ID input -> MessageRecord_Task m = task ->
  MessageRecord_EncodedParts m = prepared_encoded prepared -> MessageRecord_PartsDigest m = prepared_digest prepared ->
  TaskRef_stable task = true -> (1 <= MessageRecord_Sequence m <= MaxInt64)%Z ->
  MessageRecord_Author m = (if (MessageRecord_Sequence m mod 2 =? 1)%Z then AuthorCaller else AuthorAgent) ->
  in_int64 (MessageRecord_CreatedAt m) ->
  messageFromStoreRecord agent' ctx' m = Ok (message_of m (MessageInput_Parts input)).
Proof.
  intros Hin Hprep Hsame Hopen Hid Ht Henc Hdig Hst Hseq Hauth Htime.
  unfold prepareMessageContent in Hprep. apply obind_Ok in Hprep as (s & Hseal & Hprep).
  apply obind_Ok in Hprep as ([] & Hlen & Hprep). injection Hprep as <-. cbn [prepared_encoded prepared_digest] in Henc, Hdig.
  unfold messageFromStoreRecord. rewrite Henc. apply refuse_if_Ok in Hlen.
  rewrite refuse_if_false by done. cbn [obind]. apply orb_false_iff in Hlen as [Hl0 Hl1]. rewrite Z.gtb_ltb in Hl1. zbool.
  assert (openStoredValue agent' ctx' (messageProtectionBinding (MessageRecord_Task m) (MessageRecord_ID m)) s maxPageBytes
    = Ok (Some (print (enc_Parts (MessageInput_Parts input))))) as ->.
  { rewrite Hid, Ht. by apply (open_sealed agent agent' ctx); [| | |unfold maxPageBytes, MaxStoredValueBytes in *; lia]. }
  cbn [obind mbind option_bind]. rewrite parts_roundtrip by (by apply input_text). cbn [or_err obind].
  rewrite Hdig, bool_decide_eq_true_2 by done. cbn [negb refuse_if obind].
  unfold validateStoredMessage. cbn [Message_Task Message_Sequence Message_Author Message_CreatedAt Message_ID Message_Parts].
  rewrite Ht, (proj2 (validateTaskRef_Ok _ tt) Hst). cbn [replace_error obind].
  rewrite (proj2 (Z.eqb_neq _ _)), Z.gtb_ltb, (proj2 (Z.ltb_ge _ _)), Hauth, bool_decide_eq_true_2 by (done || lia).
  rewrite (int64_not_zero _ Htime). cbn [negb orb refuse_if obind].
  assert ({| MessageInput_ID := MessageRecord_ID m; MessageInput_Parts := MessageInput_Parts input |} = input) as ->.
  { rewrite Hid. by destruct input. }
  rewrite Hin. cbn [replace_error obind]. unfold message_of. by rewrite Ht, Hauth.
Qed.

(* ------------------------------------------------------------------ *)
(** ** Artifacts *)

Lemma same_binding a b : sameArtifactIdentity a b = true -> artifactProtectionBinding a = artifactProtectionBinding b.
Proof.
  unfold sameArtifactIdentity, artifactProtectionBinding. intros H. bool_split. decided. congruence.
Qed.

(** An Artifact's payload is read back. A record that holds the payload
    an Agent prepared for an Artifact, with valid metadata that still has the
    Artifact's identity (published, discarded or frozen), opens under any Agent
    with the same protection to exactly the media type and bytes frozen. *)
Theorem artifact_payload_roundtrip agent agent' ctx ctx' identity payload s x :
  prepareArtifactPayload agent ctx identity payload = Ok s -> same_protection agent agent' ->
  (forall protector, Agent_protector agent = Some protector -> opens_in protector ctx') ->
  ArtifactRecord_EncodedPayload x = s -> sameArtifactIdentity identity (ArtifactRecord_Artifact x) = true ->
  validateStoredArtifactMetadata (ArtifactRecord_Artifact x) = Ok tt ->
  (0 < len (Payload_Data payload))%Z -> Artifact_PayloadSize identity = len (Payload_Data payload) ->
  Artifact_MediaType identity = Payload_MediaType payload -> Artifact_PayloadDigest identity = digestPayload payload ->
  artifactContentFromStoreRecord agent' ctx' x =
    Ok {| ArtifactContent_Artifact := ArtifactRecord_Artifact x; ArtifactContent_Payload := payload |}.
Proof.
  intros Hprep Hsame Hopen Henc Hid Hmeta Hpos Hsize Hmedia Hdigest.
  unfold prepareArtifactPayload in Hprep. apply obind_Ok in Hprep as (s' & Hseal & Hprep).
  apply obind_Ok in Hprep as ([] & Hlen & Hprep). injection Hprep as ->. apply refuse_if_Ok in Hlen.
  unfold artifactContentFromStoreRecord. rewrite Henc, refuse_if_false by done. cbn [obind].
  apply orb_false_iff in Hlen as [_ Hlen]. rewrite Z.gtb_ltb in Hlen. zbool.
  rewrite (open_sealed agent agent' ctx ctx' _ (Some (Payload_Data payload)));
    [|by rewrite <- (same_binding _ _ Hid)|done|done|unfold maxStoredArtifactBytes, MaxStoredValueBytes in *; lia].
  cbn [obind bytes_text default]. unfold sameArtifactIdentity in Hid. bool_split. decided. zbool.
  assert ({| Payload_MediaType := Artifact_MediaType (ArtifactRecord_Artifact x); Payload_Data := id (Payload_Data payload) |}
    = payload) as -> by (destruct payload; cbn in *; congruence).
  unfold validateStoredArtifact. cbn [ArtifactContent_Artifact ArtifactContent_Payload]. rewrite Hmeta.
  rewrite (proj2 (Z.eqb_eq _ _)), (proj2 (Z.eqb_neq _ _)) by lia.
  rewrite !bool_decide_eq_true_2 by congruence. done.
Qed.

(* ------------------------------------------------------------------ *)
(** ** The boundary of protection *)

(** Plain content in a store. *)
Definition stored_plain (s : string) (limit : Z) : Prop :=
  exists value, UnmarshalStoredValueLimited s limit = Ok value /\ Value_Mode value = StoredValuePlain.

(** C21: protection has no gap and no downgrade. An Agent with a protector
    stores only what the protector sealed: the stored text decodes to an
    envelope and holds no plaintext. Unless it allows plaintext it refuses
    plain content as a downgrade; an Agent without a protector refuses sealed
    content. *)
Theorem protection_boundary agent ctx binding s limit :
  (1 <= limit <= MaxStoredValueBytes)%Z ->
  (forall protector plaintext, Agent_protector agent = Some protector ->
    sealStoredValue agent ctx binding plaintext = Ok s -> (len s <= limit)%Z ->
    exists envelope, Protector_Seal protector ctx binding plaintext = Ok envelope /\
      UnmarshalStoredValueLimited s limit =
        Ok {| Value_Mode := StoredValueSealed; Value_Nil := is_none plaintext; Value_Plain := None;
              Value_Envelope := Some (CloneEnvelope envelope) |}) /\
  (stored_plain s limit -> Agent_protector agent <> None -> Agent_allowPlaintext agent = false ->
    openStoredValue agent ctx binding s limit = Err (Join ErrCorruptStore ErrProtectionDowngrade)) /\
  (~ stored_plain s limit -> Agent_protector agent = None -> forall plaintext,
    openStoredValue agent ctx binding s limit <> Ok plaintext).
Proof.
  intros Hl. split_and!.
  - intros protector plaintext Ep Hs Hlen. unfold sealStoredValue in Hs. rewrite Ep in Hs.
    apply obind_Ok in Hs as (? & _ & Hs). apply obind_Ok in Hs as (e & He & Hs). apply obind_Ok in Hs as (? & _ & Hs).
    apply obind_Ok in Hs as (value & Hval & Hs). unfold NewSealedStoredValue in Hval.
    apply obind_Ok in Hval as (? & _ & Hval). injection Hval as <-. exists e. split; [done|].
    apply (unmarshal_stored_value _ _ _ Hs). lia.
  - intros (value & Hv & Hm) Hp Ha. unfold openStoredValue, validateStoredValueShape. rewrite Hv. cbn [join_corrupt obind].
    rewrite Hm, Ha. by destruct (Agent_protector agent).
  - intros Hn Hp plaintext Ho. unfold openStoredValue, validateStoredValueShape in Ho. rewrite Hp in Ho.
    destruct (UnmarshalStoredValueLimited s limit) as [value|e] eqn:Hv; cbn [join_corrupt obind] in Ho; [|done].
    destruct (Value_Mode value) eqn:Hm; try done. apply Hn. by exists value.
Qed.

(* ------------------------------------------------------------------ *)
(** ** A protector *)

(** A toy protector: it seals with the identity. *)
Definition toy_protector : Protector :=
  {| Protector_Seal := fun _ _ plaintext =>
       Ok {| Envelope_Provider := "toy"; Envelope_Format := "v1"; Envelope_KeyID := "k"; Envelope_KeyVersion := "1";
             Envelope_Nonce := Some (if is_none plaintext then "n" else "p"); Envelope_Data := plaintext |};
     Protector_Open := fun _ _ envelope =>
       Ok (if String.eqb (bytes_text (Envelope_Nonce envelope)) "n" then None
           else Some (bytes_text (Envelope_Data envelope))) |}.

Lemma toy_opens ctx : opens_in toy_protector ctx.
Proof. intros ctx0 binding plaintext envelope [= <-]. cbn. by destruct plaintext as [[|a p]|]. Qed.

Definition toy_agent : Agent :=
  {| Agent_protector := Some toy_protector;
     Agent_protectorDescription :=
       {| Description_Contract := {| Contract_ID := "protector"; Contract_Major := 1; Contract_Minor := 0; Contract_Features := ∅ |};
          Description_Provider := "toy"; Description_Format := "v1"; Description_MaxPlaintextBytes := 1024;
          Description_MaxEnvelopeBytes := 2048 |};
     Agent_allowPlaintext := false; Agent_now := Some 1700000000000000000%Z;
     Agent_maxArtifactBytes := 1024; Agent_closed := false |}.

Definition toy_task : TaskRef :=
  {| TaskRef_Workspace := {| WorkspaceRef_Authority := "auth"; WorkspaceRef_ID := "ws" |}; TaskRef_ID := "task1" |}.
Definition toy_binding : Binding := messageProtectionBinding toy_task "m1".
Definition toy_sealed : string := Eval vm_compute in
  match sealStoredValue toy_agent (Context None) toy_binding (Some "secret") with Ok s => s | Err _ => "" end.

Lemma toy_protection ctx : forall protector, Agent_protector toy_agent = Some protector -> opens_in protector ctx.
Proof. intros protector [= <-]. apply toy_opens. Qed.

Lemma stored_value_roundtrip_witness :
  openStoredValue toy_agent (Context None) toy_binding toy_sealed 4096 = Ok (Some "secret").
Proof.
  apply (stored_value_roundtrip toy_agent toy_agent (Context None)).
  - evaluate.
  - by split.
  - apply toy_protection.
  - split; evaluate_le.
Defined.

Definition toy_input : MessageInput :=
  {| MessageInput_ID := "m1"; MessageInput_Parts := [{| Part_MediaType := "text/plain"; Part_Data := "hello" |}] |}.
Definition toy_prepared : preparedMessageContent := Eval vm_compute in
  match prepareMessageContent toy_agent (Context None) toy_task toy_input with
  | Ok p => p
  | Err _ => {| prepared_encoded := ""; prepared_digest := "" |}
  end.
Definition toy_record : StoreMessageRecord :=
  {| MessageRecord_ID := "m1"; MessageRecord_Task := toy_task; MessageRecord_Sequence := 1;
     MessageRecord_Author := AuthorCaller; MessageRecord_EncodedParts := prepared_encoded toy_prepared;
     MessageRecord_PartsDigest := prepared_digest toy_prepared; MessageRecord_CreatedAt := 1700000000000000000 |}.

Lemma message_content_roundtrip_witness :
  messageFromStoreRecord toy_agent (Context None) toy_record = Ok (message_of toy_record (MessageInput_Parts toy_input)).
Proof.
  apply (message_content_roundtrip toy_agent toy_agent (Context None) (Context None) toy_task toy_input toy_prepared).
  - evaluate.
  - evaluate.
  - by split.
  - apply toy_protection.
  - done.
  - done.
  - done.
  - done.
  - evaluate.
  - split; evaluate_le.
  - evaluate.
  - split; evaluate_le.
Defined.

Lemma protection_boundary_witness :
  openStoredValue toy_agent (Context None) toy_binding
    match MarshalStoredValue (NewPlainStoredValue (Some "clear")) with Ok s => s | Err _ => "" end 4096
  = Err (Join ErrCorruptStore ErrProtectionDowngrade).
Proof.
  apply protection_boundary.
  - split; evaluate_le.
  - exists (NewPlainStoredValue (Some "clear")). split; [evaluate|done].
  - done.
  - done.
Defined.
