(* ===== verification/AgentMachine.v ===== *)
(** * The abstract machine of committed writes

    [agent_step] is the specification of what the seven commands that write do
    to the committed state: one rule per way a command commits, each with the
    conditions under which it may and the state it leaves, with no errors, no
    receipts to look up and no order of writes inside the transaction.
    AgentRefinement proves that every call of the Agent is a step or leaves
    the state as it was; the invariants of AgentInvariant are proved by
    induction over the rules. *)

From S2P Require Import Prelude GoText GoTime GoJson AgentTypes AgentCodec Framework Protect AgentStore.
From S2P Require Import MemoryStore AgentCore AgentCommands AgentLease AgentArtifact AgentFacts.
From S2P Require Import MemoryFacts.

Local Open Scope string_scope.

(* ------------------------------------------------------------------ *)
(** ** The life of a Task *)

(** The seven transitions a command can ask for, and whether the command
    carries a worker's lease. *)
Inductive task_change : transition_change -> bool -> Prop :=
  | change_accept : task_change (plainChange [TaskSubmitted] TaskWorking EventTaskAccepted false) true
  | change_reject : task_change (plainChange [TaskSubmitted] TaskRejected EventTaskRejected false) true
  | change_request_input message : validateMessageInput message = Ok tt ->
      task_change (messageChange [TaskWorking] TaskInputRequired EventInputRequired AuthorAgent message) true
  | change_reply message : validateMessageInput message = Ok tt ->
      task_change (messageChange [TaskInputRequired] TaskWorking EventCallerReplied AuthorCaller message) false
  | change_cancel : task_change (plainChange [TaskSubmitted; TaskWorking; TaskInputRequired] TaskCanceled
                                   EventTaskCanceled true) false
  | change_fail : task_change (plainChange [TaskWorking; TaskInputRequired] TaskFailed EventTaskFailed true) true
  | change_complete command :
      validateStable (CompleteTask_Submission command) = Ok tt ->
      validateMessageInput (CompleteTask_Message command) = Ok tt ->
      task_change (completeChange command) true.

(** The state machine of a Task: an event type and the states it joins. *)
Inductive lifecycle : TaskState -> EventType -> TaskState -> Prop :=
  | life_accept : lifecycle TaskSubmitted EventTaskAccepted TaskWorking
  | life_reject : lifecycle TaskSubmitted EventTaskRejected TaskRejected
  | life_request_input : lifecycle TaskWorking EventInputRequired TaskInputRequired
  | life_reply : lifecycle TaskInputRequired EventCallerReplied TaskWorking
  | life_freeze : lifecycle TaskWorking EventArtifactFrozen TaskWorking
  | life_complete : lifecycle TaskWorking EventTaskCompleted TaskCompleted
  | life_cancel state : Terminal state = false -> validTaskState state = true ->
      lifecycle state EventTaskCanceled TaskCanceled
  | life_fail state : state = TaskWorking \/ state = TaskInputRequired ->
      lifecycle state EventTaskFailed TaskFailed.

Lemma task_change_lifecycle change leased state :
  task_change change leased -> containsState (change_allowed change) state = true ->
  lifecycle state (change_event change) (change_next change).
Proof.
  intros Hc Hs. unfold containsState in Hs. apply existsb_exists in Hs as (st & Hin & E). decided. subst st.
  destruct Hc; cbn in *; repeat destruct Hin as [<- | Hin]; try done; try constructor; auto.
Qed.

(* ------------------------------------------------------------------ *)
(** ** What a commit leaves *)

Definition createdMessage (command : CreateTaskCommand) (prepared : preparedMessageContent) (now : time)
    : StoreMessageRecord :=
  {| MessageRecord_ID := MessageInput_ID (CreateTask_Message command);
     MessageRecord_Task := CreateTask_Task command; MessageRecord_Sequence := 1;
     MessageRecord_Author := AuthorCaller; MessageRecord_EncodedParts := prepared_encoded prepared;
     MessageRecord_PartsDigest := prepared_digest prepared; MessageRecord_CreatedAt := now |}.

Definition createdEvent (command : CreateTaskCommand) (now : time) : Event :=
  {| Event_Task := CreateTask_Task command; Event_Sequence := 1; Event_Type := EventTaskSubmitted;
     Event_State := TaskSubmitted; Event_Revision := 1;
     Event_Message := MessageInput_ID (CreateTask_Message command); Event_Submission := "";
     Event_Artifact := ""; Event_OccurredAt := now |}.

Definition create_commit (command : CreateTaskCommand) (prepared : preparedMessageContent) (now : time)
    (receipt : StoreCommandRecord) (s : memoryAgentState) : memoryAgentState :=
  add_command receipt (add_event (createdEvent command now)
    (add_message (createdMessage command prepared now) (add_task (createdRecord command now) s))).

(** The message a transition adds. *)
Definition changeMessage (ref : TaskRef) (change : transition_change) (next : Task)
    (prepared : preparedMessageContent) (now : time) : option StoreMessageRecord :=
  (fun message =>
    {| MessageRecord_ID := MessageInput_ID message; MessageRecord_Task := ref;
       MessageRecord_Sequence := Task_MessageCount next; MessageRecord_Author := change_author change;
       MessageRecord_EncodedParts := prepared_encoded prepared;
       MessageRecord_PartsDigest := prepared_digest prepared; MessageRecord_CreatedAt := now |})
  <$> change_message change.

(** The Artifact a transition publishes or discards, with its new state. *)
Definition changeArtifact (change : transition_change) (current : Task) (now : time)
    : option (ArtifactRef * (ArtifactState * option time * option time)) :=
  match change_artifact change, change_discardArtifact change, Task_Artifact current with
  | Some artifact, _, _ => Some (artifact, (ArtifactPublished, Some now, None))
  | None, true, Some artifact => Some (artifact, (ArtifactDiscarded, None, Some now))
  | None, _, _ => None
  end.

Definition move_artifact (artifact : ArtifactRef) (to : ArtifactState * option time * option time)
    (s : memoryAgentState) : memoryAgentState :=
  let '(state, published, discarded) := to in
  match artifacts s !! artifact with
  | Some a => set_artifacts (<[artifact := artifact_with a state published discarded]> (artifacts s)) s
  | None => s
  end.

Definition if_some {A} (f : A -> memoryAgentState -> memoryAgentState) (o : option A) (s : memoryAgentState)
    : memoryAgentState :=
  match o with Some a => f a s | None => s end.

Definition transition_commit (ref : TaskRef) (change : transition_change) (current : StoreTaskRecord)
    (prepared : preparedMessageContent) (now : time) (receipt : StoreCommandRecord) (s : memoryAgentState)
    : memoryAgentState :=
  let task := TaskRecord_Task current in
  let next := transitionTask ref change task now in
  add_command receipt (add_event (transitionEvent ref change next now)
    (if_some (fun submission => add_submission {| SubmissionRecord_Submission := submission |})
       (transitionSubmission ref change now)
      (if_some (fun move => move_artifact (fst move) (snd move)) (changeArtifact change task now)
        (if_some add_message (changeMessage ref change next prepared now)
          (add_task (transitionRecord change current next) s))))).

Definition frozenRecord (current : StoreTaskRecord) (ref : ArtifactRef) (now : time) : StoreTaskRecord :=
  {| TaskRecord_Task := frozenTask (TaskRecord_Task current) ref now;
     TaskRecord_Lease := TaskRecord_Lease current; TaskRecord_ArtifactState := Some ArtifactFrozen |}.

Definition frozenEvent (ref : TaskRef) (artifact : ArtifactRef) (next : Task) (now : time) : Event :=
  {| Event_Task := ref; Event_Sequence := Task_EventCount next; Event_Type := EventArtifactFrozen;
     Event_State := TaskWorking; Event_Revision := Task_Revision next; Event_Message := "";
     Event_Submission := ""; Event_Artifact := ArtifactRef_ID artifact; Event_OccurredAt := now |}.

(** The head a workspace has after a freeze: its own, or the first one. *)
Definition pin_head (workspace : WorkspaceRef) (base : Revision) (now : time) (s : memoryAgentState)
    : memoryAgentState :=
  match workspaceHeads s !! workspace with
  | Some _ => s
  | None => add_head {| HeadRecord_Head := {| WorkspaceHead_Workspace := workspace;
      WorkspaceHead_ConfirmedRevision := base; WorkspaceHead_UpdatedAt := now |} |} s
  end.

Definition freeze_commit (command : FreezeArtifactCommand) (current : StoreTaskRecord) (payload : string)
    (now : time) (receipt : StoreCommandRecord) (s : memoryAgentState) : memoryAgentState :=
  let ref := FreezeArtifact_Task command in
  let next := frozenTask (TaskRecord_Task current) (freezeRef command) now in
  add_command receipt (add_event (frozenEvent ref (freezeRef command) next now)
    (add_task (frozenRecord current (freezeRef command) now)
      (add_artifact {| ArtifactRecord_Artifact := artifactIdentity command now;
                       ArtifactRecord_EncodedPayload := payload |}
        (pin_head (TaskRef_Workspace ref) (FreezeArtifact_ExpectedBaseRevision command) now s)))).

Definition with_lease (record : StoreTaskRecord) (owner : WorkerID) (fence : LeaseFence) : StoreTaskRecord :=
  {| TaskRecord_Task := TaskRecord_Task record;
     TaskRecord_Lease := {| Lease_Owner := owner; Lease_Fence := fence |};
     TaskRecord_ArtifactState := TaskRecord_ArtifactState record |}.

Definition next_grant (record : StoreTaskRecord) (worker : WorkerID) (now : time) : StoreLeaseGrantRecord :=
  {| GrantRecord_Grant := {| LeaseGrant_Task := Task_Ref (TaskRecord_Task record); LeaseGrant_Worker := worker;
                             LeaseGrant_Fence := Lease_Fence (TaskRecord_Lease record) + 1 |};
     GrantRecord_GrantedAt := now |}.

Definition grant_commit (record : StoreTaskRecord) (worker : WorkerID) (now : time)
    (receipt : StoreCommandRecord) (s : memoryAgentState) : memoryAgentState :=
  add_command receipt
    (add_task (with_lease record worker (Lease_Fence (TaskRecord_Lease record) + 1))
      (add_grant (next_grant record worker now) s)).

Definition fence_commit (record : StoreTaskRecord) (receipt : StoreCommandRecord) (s : memoryAgentState)
    : memoryAgentState :=
  add_command receipt (add_task (with_lease record "" (Lease_Fence (TaskRecord_Lease record))) s).

(** The head after a decision: a success confirms the result. *)
Definition confirm_head (artifact : Artifact) (decision : ApplyDecision) (now : time) (s : memoryAgentState)
    : memoryAgentState :=
  if decision =?= ApplySuccess then
    add_head {| HeadRecord_Head := {| WorkspaceHead_Workspace := ArtifactRef_Workspace (Artifact_Ref artifact);
      WorkspaceHead_ConfirmedRevision := Artifact_ResultRevision artifact;
      WorkspaceHead_UpdatedAt := now |} |} s
  else s.

Definition decide_commit (artifact : Artifact) (receipt : ApplyReceipt) (now : time)
    (record : StoreCommandRecord) (s : memoryAgentState) : memoryAgentState :=
  add_command record (add_receipt {| ReceiptRecord_Receipt := receipt |}
    (confirm_head artifact (ApplyReceipt_Decision receipt) now s)).

(* ------------------------------------------------------------------ *)
(** ** The rules *)

(** The record of [ref] a command works on. *)
Record current_task (s : memoryAgentState) (ref : TaskRef) (record : StoreTaskRecord) : Prop := {
  current_found : tasks s !! ref = Some record;
  current_ref : Task_Ref (TaskRecord_Task record) = ref;
  current_valid : validateStoreTaskRecord record = Ok tt
}.

(** The grant is the one the Task's lease points to, and is in the history. *)
Record current_grant (s : memoryAgentState) (record : StoreTaskRecord) (grant : LeaseGrant) : Prop := {
  grant_valid : validateLeaseGrant grant = Ok tt;
  grant_task : LeaseGrant_Task grant = Task_Ref (TaskRecord_Task record);
  grant_owner : Lease_Owner (TaskRecord_Lease record) = LeaseGrant_Worker grant;
  grant_fence : Lease_Fence (TaskRecord_Lease record) = LeaseGrant_Fence grant;
  grant_history : exists g, leaseGrants s !! lease_key grant = Some g /\ GrantRecord_Grant g = grant
}.

(** A receipt is committed once. *)
Definition new_receipt (s : memoryAgentState) (receipt : StoreCommandRecord) : Prop :=
  commands s !! CommandKey receipt = None /\
  validateStoreCommandRecord receipt (Command_Authority receipt) (Command_ID receipt) = Ok tt.

(** A message is new: its identifier in the authority, its sequence in the
    Task. *)
Definition new_message (s : memoryAgentState) (m : StoreMessageRecord) : Prop :=
  messages s !! message_key m = None /\
  forall k m', messages s !! k = Some m' -> MessageRecord_Task m' = MessageRecord_Task m ->
    MessageRecord_Sequence m' <> MessageRecord_Sequence m.

(** The content was prepared by some Agent for this message. *)
Definition prepared_for (ref : TaskRef) (input : MessageInput) (prepared : preparedMessageContent) : Prop :=
  exists agent ctx, prepareMessageContent agent ctx ref input = Ok prepared.

Inductive agent_step (s : memoryAgentState) : memoryAgentState -> Prop :=
  | step_create command prepared now receipt :
      validateCreateCommand command = Ok tt -> in_int64 now ->
      prepared_for (CreateTask_Task command) (CreateTask_Message command) prepared ->
      tasks s !! CreateTask_Task command = None ->
      (forall ref r, tasks s !! ref = Some r ->
        task_authority ref = task_authority (CreateTask_Task command) ->
        TaskRef_ID ref <> TaskRef_ID (CreateTask_Task command)) ->
      new_message s (createdMessage command prepared now) ->
      new_receipt s receipt ->
      agent_step s (create_commit command prepared now receipt s)
  | step_transition ref change leased grant current prepared clock now receipt :
      task_change change leased -> (leased = true <-> is_Some grant) ->
      current_task s ref current ->
      (forall g, grant = Some g -> current_grant s current g) ->
      Terminal (Task_State (TaskRecord_Task current)) = false ->
      containsState (change_allowed change) (Task_State (TaskRecord_Task current)) = true ->
      (Task_Revision (TaskRecord_Task current) < MaxInt64)%Z ->
      in_int64 clock -> now = timestampAtLeast clock [Task_UpdatedAt (TaskRecord_Task current)] ->
      (is_empty (change_submission change) = false ->
        Task_Artifact (TaskRecord_Task current) = change_artifact change) ->
      (forall input, change_message change = Some input -> prepared_for ref input prepared) ->
      (forall m, changeMessage ref change (transitionTask ref change (TaskRecord_Task current) now) prepared now
                 = Some m -> new_message s m) ->
      (forall a to, changeArtifact change (TaskRecord_Task current) now = Some (a, to) ->
        exists r, artifacts s !! a = Some r /\ Artifact_Task (ArtifactRecord_Artifact r) = ref /\
          Artifact_State (ArtifactRecord_Artifact r) = ArtifactFrozen) ->
      (forall x, transitionSubmission ref change now = Some x ->
        submissions s !! ref = None /\
        forall k r, submissions s !! k = Some r ->
          task_authority (Submission_Task (SubmissionRecord_Submission r)) = task_authority ref ->
          Submission_ID (SubmissionRecord_Submission r) <> Submission_ID x) ->
      new_receipt s receipt ->
      agent_step s (transition_commit ref change current prepared now receipt s)
  | step_freeze command current payload clock now receipt :
      validateRevision (FreezeArtifact_ExpectedBaseRevision command) = Ok tt ->
      validateStable (FreezeArtifact_Artifact command) = Ok tt ->
      validateArtifactPayloadShape (FreezeArtifact_Payload command) = Ok tt ->
      (exists agent ctx, prepareArtifactPayload agent ctx (artifactIdentity command zero_time)
                           (FreezeArtifact_Payload command) = Ok payload) ->
      current_task s (FreezeArtifact_Task command) current ->
      current_grant s current (WorkerMeta_Grant (FreezeArtifact_Meta command)) ->
      Task_State (TaskRecord_Task current) = TaskWorking -> Task_Artifact (TaskRecord_Task current) = None ->
      (Task_Revision (TaskRecord_Task current) < MaxInt64)%Z ->
      in_int64 clock -> now = timestampAtLeast clock [Task_UpdatedAt (TaskRecord_Task current)] ->
      (forall h, workspaceHeads s !! TaskRef_Workspace (FreezeArtifact_Task command) = Some h ->
        WorkspaceHead_ConfirmedRevision (HeadRecord_Head h) = FreezeArtifact_ExpectedBaseRevision command) ->
      artifacts s !! freezeRef command = None ->
      (forall k a, artifacts s !! k = Some a ->
        (artifact_authority (Artifact_Ref (ArtifactRecord_Artifact a)) = artifact_authority (freezeRef command) ->
         ArtifactRef_ID (Artifact_Ref (ArtifactRecord_Artifact a)) <> FreezeArtifact_Artifact command) /\
        Artifact_Task (ArtifactRecord_Artifact a) <> FreezeArtifact_Task command) ->
      new_receipt s receipt ->
      agent_step s (freeze_commit command current payload now receipt s)
  | step_grant ref record worker previous clock now receipt :
      current_task s ref record -> match_stable worker = true ->
      Terminal (Task_State (TaskRecord_Task record)) = false ->
      Lease_Owner (TaskRecord_Lease record) = "" -> (Lease_Fence (TaskRecord_Lease record) < MaxInt64)%Z ->
      validateLeaseHistoryHeadFromStore s record = Ok previous ->
      in_int64 clock -> now = timestampAtLeast clock [Task_UpdatedAt (TaskRecord_Task record); previous] ->
      leaseGrants s !! lease_key (GrantRecord_Grant (next_grant record worker now)) = None ->
      new_receipt s receipt ->
      agent_step s (grant_commit record worker now receipt s)
  | step_fence ref record grant receipt :
      current_task s ref record -> current_grant s record grant -> new_receipt s receipt ->
      agent_step s (fence_commit record receipt s)
  | step_decide command artifact clock now receipt :
      validateReceiptCommand command = Ok tt ->
      artifacts s !! RecordReceipt_Artifact command = Some artifact ->
      Artifact_Ref (ArtifactRecord_Artifact artifact) = RecordReceipt_Artifact command ->
      Artifact_State (ArtifactRecord_Artifact artifact) = ArtifactPublished ->
      RecordReceipt_ArtifactDigest command = Artifact_Digest (ArtifactRecord_Artifact artifact) ->
      RecordReceipt_BaseRevision command = Artifact_BaseRevision (ArtifactRecord_Artifact artifact) ->
      RecordReceipt_ResultRevision command = Artifact_ResultRevision (ArtifactRecord_Artifact artifact) ->
      in_int64 clock ->
      now = timestampAtLeast clock (Artifact_FrozenAt (ArtifactRecord_Artifact artifact)
              :: option_list (Artifact_PublishedAt (ArtifactRecord_Artifact artifact))) ->
      applyReceipts s !! RecordReceipt_Artifact command = None ->
      (forall k r, applyReceipts s !! k = Some r ->
        artifact_authority (ApplyReceipt_Artifact (ReceiptRecord_Receipt r)) =
          artifact_authority (RecordReceipt_Artifact command) ->
        ApplyReceipt_ID (ReceiptRecord_Receipt r) <> RecordReceipt_Receipt command) ->
      (RecordReceipt_Decision command = ApplySuccess ->
        exists h, workspaceHeads s !! ArtifactRef_Workspace (RecordReceipt_Artifact command) = Some h /\
          WorkspaceHead_ConfirmedRevision (HeadRecord_Head h) = RecordReceipt_BaseRevision command) ->
      new_receipt s receipt ->
      agent_step s (decide_commit (ArtifactRecord_Artifact artifact) (receiptOf command now) now receipt s)
  | step_repeat receipt :
      new_receipt s receipt -> agent_step s (add_command receipt s).
