(* ===== verification/AgentRefinement.v ===== *)
(** * Every call of the Agent is a step of the abstract machine

    For each Update callback: what it returns, it returns on the state as it
    was, or after one [agent_step].  Then, for any Store that keeps the port's
    contract over the memory transactions, every public operation leaves the
    committed state as it was or moves it by one step, whatever the operation
    returns. *)

From S2P Require Import Prelude GoText GoTime GoJson AgentTypes AgentCodec Framework Protect AgentStore.
From S2P Require Import MemoryStore AgentCore AgentCommands AgentLease AgentArtifact AgentFacts.
From S2P Require Import AgentReplay MemoryFacts AgentMachine.

Local Open Scope string_scope.

(** The state did not change, or it made a step. *)
Definition stays_or_steps (s s' : memoryAgentState) : Prop := s' = s \/ agent_step s s'.

(* ------------------------------------------------------------------ *)
(** ** Shared facts *)

Lemma record_new_receipt {A} `{JsonCodec A} (s s' : memoryAgentState) authority id kind digest resultKind
    (a : A) now :
  recordJSONCommandToStore s authority id kind digest resultKind a now = Ok s' ->
  match_stable kind = true -> match_stable resultKind = true -> is_empty digest = false -> IsZero now = false ->
  let receipt := commandRecord authority id kind digest resultKind a now in
  new_receipt s receipt /\ s' = add_command receipt s.
Proof.
  unfold recordJSONCommandToStore. rewrite on_error_Ok. intros Hi Hk Hr Hd Hn.
  apply InsertCommand_Ok in Hi as [Hfree ->]. split; [|done]. split; [done|].
  unfold validateStoreCommandRecord, commandRecord. cbn [Command_Authority Command_ID Command_Kind
    Command_IntentDigest Command_ResultKind Command_Result Command_ResultDigest Command_CreatedAt].
  rewrite !stable_ok, Hk, Hr, Hd, Hn, !bool_decide_eq_true_2 by done.
  assert ((len (Marshal a) =? 0)%Z = false) as -> by apply print_nonempty. done.
Qed.

Lemma load_current_task (s : memoryAgentState) ref record :
  loadTaskRecordFromStore s ref = Ok record -> current_task s ref record.
Proof.
  intros (Hl & Hr & Hv)%loadTaskRecord_Ok. apply LoadTask_Ok in Hl. by split.
Qed.

Lemma require_current_grant (s : memoryAgentState) ref record grant :
  requireCurrentLeaseFromStore s grant = Ok tt -> current_task s ref record -> LeaseGrant_Task grant = ref ->
  current_grant s record grant.
Proof.
  unfold requireCurrentLeaseFromStore, verifyLeaseGrantHistoryFromStore. intros H [Hf Hr Hv] Ht.
  apply obind_Ok in H as (t & Hh & H). apply obind_Ok in Hh as ([] & Hg & Hh).
  apply obind_Ok in Hh as (g & Hl & Hh). apply on_error_Ok, LoadLeaseGrant_Ok in Hl.
  apply obind_Ok in Hh as (u & Hc & Hh). apply refuse_if_Ok in Hc.
  apply obind_Ok in H as (record' & Hload & H). apply load_current_task in Hload as [Hf' _ _].
  rewrite Ht in Hf'. rewrite Hf in Hf'. injection Hf' as <-. apply refuse_if_Ok in H. bool_split. decided. zbool.
  split; try done; [by rewrite Hr | exists g; by split].
Qed.

(* ------------------------------------------------------------------ *)
(** ** CreateTask *)

Lemma createTaskTx_steps agent command digest prepared (s s' : memoryAgentState) t :
  createTaskTx agent command digest prepared s = Ok (t, s') ->
  validateCreateCommand command = Ok tt -> is_empty digest = false ->
  prepared_for (CreateTask_Task command) (CreateTask_Message command) prepared ->
  stays_or_steps s s'.
Proof.
  intros H Hc Hd Hp. unfold createTaskTx in H. apply obind_Ok in H as ([t'|] & _ & H).
  { injection H as <- <-. by left. }
  apply obind_Ok in H as (now & Hn & H). apply checkedClockTime_Ok in Hn as (_ & Hn & _).
  apply obind_Ok in H as (s1 & H1 & H). apply on_error_Ok, InsertTask_Ok in H1 as (Hid & Hfree & ->).
  apply obind_Ok in H as (s2 & H2 & H). unfold insertMessageToStore in H2.
  apply on_error_Ok, InsertMessage_Ok in H2 as (Hm1 & Hm2 & ->).
  apply obind_Ok in H as (s3 & H3 & H). apply InsertEvent_Ok in H3 as (He & ->).
  apply obind_Ok in H as (s4 & H4 & H). injection H as <- <-.
  apply record_new_receipt in H4 as ([Hr1 Hr2] & ->); [|done..|by apply int64_not_zero].
  right. by apply (step_create _ command prepared now).
Qed.

(* ------------------------------------------------------------------ *)
(** ** Transitions *)

Lemma moveArtifact_Ok (s s' : memoryAgentState) artifact ref next p d :
  moveArtifact s artifact ref next p d = Ok s' ->
  s' = move_artifact artifact (next, p, d) s /\
  exists r, artifacts s !! artifact = Some r /\ Artifact_Task (ArtifactRecord_Artifact r) = ref /\
    Artifact_State (ArtifactRecord_Artifact r) = ArtifactFrozen.
Proof.
  unfold moveArtifact. intros H. apply obind_Ok in H as ([b s1] & Hm & H). destruct b; [|discriminate H].
  injection H as <-. apply CompareAndSwapArtifact_Ok in Hm as (a & Ha & Ht & Hs & ->). cbn in *.
  rewrite Ha. eauto 10.
Qed.

Lemma task_change_sound change leased : task_change change leased -> sound_change change.
Proof.
  destruct 1; [by apply plain_sound..|by apply message_sound|by apply message_sound|
    by apply plain_sound|by apply plain_sound|by apply complete_sound].
Qed.

(** At most one of the two moves of a transition is made. *)
Lemma task_change_artifact change leased :
  task_change change leased -> change_discardArtifact change = true -> change_artifact change = None.
Proof. by destruct 1. Qed.

Lemma later_not_zero clock floors : in_int64 clock -> IsZero (timestampAtLeast clock floors) = false.
Proof.
  intros Hc. destruct (timestampAtLeast_spec clock floors) as (_ & Hle & _).
  unfold in_int64 in Hc. unfold IsZero, zero_time. apply Z.eqb_neq. lia.
Qed.

(** The writes that follow the compare-and-swap, one by one. *)
Lemma change_message_write ref change next prepared now (s s' : memoryAgentState) :
  match change_message change with
  | None => Ok s
  | Some message =>
      insertMessageToStore s
        {| Message_ID := MessageInput_ID message; Message_Task := ref;
           Message_Sequence := Task_MessageCount next; Message_Author := change_author change;
           Message_Parts := MessageInput_Parts message; Message_CreatedAt := now |} prepared
  end = Ok s' ->
  s' = if_some add_message (changeMessage ref change next prepared now) s /\
  forall m, changeMessage ref change next prepared now = Some m -> new_message s m.
Proof.
  unfold changeMessage. destruct (change_message change) as [message|]; cbn [fmap option_fmap option_map if_some].
  - unfold insertMessageToStore. rewrite on_error_Ok. intros (H1 & H2 & ->)%InsertMessage_Ok.
    split; [done|]. by intros m [= <-].
  - intros [= <-]. done.
Qed.

Lemma change_artifact_writes ref change leased current now (s s1 s2 : memoryAgentState) :
  task_change change leased ->
  match change_discardArtifact change, Task_Artifact current with
  | true, Some artifact => moveArtifact s artifact ref ArtifactDiscarded None (Some now)
  | _, _ => Ok s
  end = Ok s1 ->
  match change_artifact change with
  | Some artifact => moveArtifact s1 artifact ref ArtifactPublished (Some now) None
  | None => Ok s1
  end = Ok s2 ->
  s2 = if_some (fun move => move_artifact (fst move) (snd move)) (changeArtifact change current now) s /\
  forall a to, changeArtifact change current now = Some (a, to) ->
    exists r, artifacts s !! a = Some r /\ Artifact_Task (ArtifactRecord_Artifact r) = ref /\
      Artifact_State (ArtifactRecord_Artifact r) = ArtifactFrozen.
Proof.
  intros Hch Hd Hp. pose proof (task_change_artifact _ _ Hch) as Hex. unfold changeArtifact.
  destruct (change_discardArtifact change).
  - rewrite Hex in * by done. injection Hp as <-. destruct (Task_Artifact current) as [a|]; cbn [if_some].
    + apply moveArtifact_Ok in Hd as [-> Hr]. split; [done|]. by intros ? ? [= <- <-].
    + injection Hd as <-. done.
  - injection Hd as <-. destruct (change_artifact change) as [a|]; cbn [if_some].
    + apply moveArtifact_Ok in Hp as [-> Hr]. split; [done|]. by intros ? ? [= <- <-].
    + injection Hp as <-. done.
Qed.

Lemma change_submission_write ref change now (s s' : memoryAgentState) :
  match transitionSubmission ref change now with
  | Some submission =>
      on_error ErrStoreConflict ErrSubmissionConflict
        (InsertSubmission {| SubmissionRecord_Submission := submission |} s)
  | None => Ok s
  end = Ok s' ->
  s' = if_some (fun x => add_submission {| SubmissionRecord_Submission := x |})
         (transitionSubmission ref change now) s /\
  forall x, transitionSubmission ref change now = Some x ->
    submissions s !! ref = None /\
    forall k r, submissions s !! k = Some r ->
      task_authority (Submission_Task (SubmissionRecord_Submission r)) = task_authority ref ->
      Submission_ID (SubmissionRecord_Submission r) <> Submission_ID x.
Proof.
  unfold transitionSubmission. destruct (is_empty _); cbn [if_some].
  - intros [= <-]. done.
  - rewrite on_error_Ok. intros (H1 & H2 & ->)%InsertSubmission_Ok. split; [done|]. by intros x [= <-].
Qed.

(** The maps a stage of a transition does not touch. *)
Lemma if_some_message o s :
  artifacts (if_some add_message o s) = artifacts s /\ submissions (if_some add_message o s) = submissions s /\
  commands (if_some add_message o s) = commands s.
Proof. by destruct o. Qed.
Lemma if_some_move (o : option (ArtifactRef * (ArtifactState * option time * option time))) s :
  let s' := if_some (fun move => move_artifact (fst move) (snd move)) o s in
  submissions s' = submissions s /\ commands s' = commands s.
Proof. destruct o as [[a [[st p] d]]|]; cbn; [|done]. by destruct (artifacts s !! a). Qed.
Lemma if_some_submission o s :
  commands (if_some (fun x => add_submission {| SubmissionRecord_Submission := x |}) o s) = commands s.
Proof. by destruct o. Qed.

Lemma transitionTx_steps agent kind meta grant ref digest change leased prepared (s s' : memoryAgentState) t :
  transitionTx agent kind meta grant ref digest change prepared s = Ok (t, s') ->
  task_change change leased -> (leased = true <-> is_Some grant) ->
  (forall g, grant = Some g -> LeaseGrant_Task g = ref) ->
  match_stable kind = true -> is_empty digest = false ->
  (forall input, change_message change = Some input -> prepared_for ref input prepared) ->
  stays_or_steps s s'.
Proof.
  unfold transitionTx. intros H Hch Hleased Hgrant Hkind Hd Hp. apply obind_Ok in H as ([t'|] & _ & H).
  { injection H as <- <-. by left. }
  apply obind_Ok in H as (record & Hload & H). apply load_current_task in Hload as Hcur.
  apply obind_Ok in H as ([] & Hadm & H). apply obind_Ok in H as (clock & Hn & H).
  apply checkedClockTime_Ok in Hn as (_ & Hn & _).
  apply obind_Ok in H as (u & Hart & H). apply refuse_if_Ok in Hart.
  apply obind_Ok in H as ([b s1] & Hcas & H). destruct b; [|discriminate H]. cbn [negb] in H.
  apply obind_Ok in H as (s7 & Hw & H). injection H as <- <-.
  apply CompareAndSwapTask_Ok in Hcas as (c & Hc & Href & Hrev & _ & _ & _ & ->). cbn [TaskMutation_Next] in *.
  unfold admitTransition in Hadm. apply obind_Ok in Hadm as ([] & Hlease & Hadm). ok_inv. bool_split.
  rewrite Z.geb_leb in *. zbool.
  unfold transitionWrites in Hw. apply obind_Ok in Hw as (s2 & Hmsg & Hw).
  apply obind_Ok in Hw as (s3 & Hdis & Hw). apply obind_Ok in Hw as (s4 & Hpub & Hw).
  apply obind_Ok in Hw as (s5 & Hsub & Hw). apply obind_Ok in Hw as (s6 & Hev & Hw).
  apply InsertEvent_Ok in Hev as (_ & ->).
  apply change_message_write in Hmsg as [-> Hmsg].
  destruct (change_artifact_writes _ _ _ _ _ _ _ _ Hch Hdis Hpub) as [-> Hmove]. clear Hpub Hdis.
  apply change_submission_write in Hsub as [-> Hsub].
  apply record_new_receipt in Hw as ([Hr1 Hr2] & ->); [|done..|by apply later_not_zero].
  right. eapply (step_transition _ ref change leased grant record prepared clock); try done.
  - intros g ->. eapply require_current_grant; [done..|]. by apply Hgrant.
  - intros He. rewrite He in Hart. cbn in Hart. by decided.
  - intros a to Ha. destruct (Hmove a to Ha) as (r & Hr & Hrest). rewrite (proj1 (if_some_message _ _)) in Hr. eauto.
  - intros x Hx. destruct (Hsub x Hx) as [H1' H2'].
    rewrite (proj1 (if_some_move _ _)), (proj1 (proj2 (if_some_message _ _))) in H1', H2'. done.
  - split; [|done]. cbn [commands add_event set_events] in Hr1.
    by rewrite if_some_submission, (proj2 (if_some_move _ _)), (proj2 (proj2 (if_some_message _ _))) in Hr1.
Qed.

(* ------------------------------------------------------------------ *)
(** ** Leases *)

(** Every Task record is stored under its own reference. *)
Definition keyed_tasks (s : memoryAgentState) : Prop :=
  forall ref r, tasks s !! ref = Some r -> Task_Ref (TaskRecord_Task r) = ref.

Lemma grantLease_steps agent (s s' : memoryAgentState) ref record previous authority id kind digest worker
    validate a :
  grantLease agent s record previous authority id kind digest worker validate = Ok (a, s') ->
  current_task s ref record -> match_stable worker = true ->
  Terminal (Task_State (TaskRecord_Task record)) = false -> Lease_Owner (TaskRecord_Lease record) = "" ->
  validateLeaseHistoryHeadFromStore s record = Ok previous ->
  match_stable kind = true -> is_empty digest = false ->
  agent_step s s'.
Proof.
  unfold grantLease. intros H Hcur Hw Ht Ho Hprev Hk Hd.
  apply obind_Ok in H as (u & Hmax & H). apply refuse_if_Ok in Hmax. rewrite Z.geb_leb in Hmax. zbool.
  apply obind_Ok in H as (clock & Hn & H). apply checkedClockTime_Ok in Hn as (_ & Hn & _). cbv zeta in H.
  apply obind_Ok in H as (u' & _ & H). apply obind_Ok in H as (s1 & Hg & H).
  apply on_error_Ok, InsertLeaseGrant_Ok in Hg as (Hg & ->).
  apply obind_Ok in H as ([b s2] & Hcas & H). apply obind_Ok in H as (u2 & Hb & H).
  apply refuse_if_Ok in Hb. destruct b; [|discriminate Hb].
  apply CompareAndSwapTask_Ok in Hcas as (c & _ & _ & _ & _ & _ & _ & ->).
  apply obind_Ok in H as (s3 & Hr & H). injection H as <- <-.
  apply record_new_receipt in Hr as (Hr & ->); [|done..|by apply later_not_zero].
  by apply (step_grant _ ref record worker previous clock).
Qed.

Lemma acquireLeaseTx_steps agent command digest (s s' : memoryAgentState) a :
  acquireLeaseTx agent command digest s = Ok (a, s') ->
  match_stable (AcquireLease_Worker command) = true -> is_empty digest = false ->
  stays_or_steps s s'.
Proof.
  unfold acquireLeaseTx. intros H Hw Hd. apply obind_Ok in H as ([a'|] & _ & H).
  { injection H as <- <-. by left. }
  apply obind_Ok in H as (record & Hload & H). apply load_current_task in Hload.
  apply obind_Ok in H as (previous & Hprev & H). ok_inv. right.
  eapply grantLease_steps; try done. apply is_empty_true. by apply negb_false_iff.
Qed.

Lemma claimLeaseTx_steps agent command digest (s s' : memoryAgentState) a :
  claimLeaseTx agent command digest s = Ok (a, s') -> keyed_tasks s ->
  match_stable (ClaimLease_Worker command) = true -> is_empty digest = false ->
  stays_or_steps s s'.
Proof.
  unfold claimLeaseTx. intros H Hkeyed Hw Hd. apply obind_Ok in H as ([a'|] & _ & H).
  { injection H as <- <-. by left. }
  apply obind_Ok in H as (record & Hfind & H). apply on_error_Ok in Hfind.
  apply obind_Ok in H as (u & Hc & H). apply refuse_if_Ok in Hc. bool_split.
  apply obind_Ok in H as (previous & Hprev & H). right.
  eapply (grantLease_steps _ _ _ (Task_Ref (TaskRecord_Task record))); try done; [|by apply is_empty_true].
  apply FindClaimableTask_Ok in Hfind as [[k Hk] _]. split; [|done|].
  - by rewrite (Hkeyed _ _ Hk).
  - by apply is_ok_unit.
Qed.

Lemma fenceLeaseTx_steps agent command digest (s s' : memoryAgentState) u :
  fenceLeaseTx agent command digest s = Ok (u, s') -> is_empty digest = false -> stays_or_steps s s'.
Proof.
  unfold fenceLeaseTx. intros H Hd. apply obind_Ok in H as ([g'|] & _ & H).
  { injection H as <- <-. by left. }
  apply obind_Ok in H as (record & Hload & H). apply load_current_task in Hload as Hcur.
  apply obind_Ok in H as ([] & Hg & H). eapply require_current_grant in Hg; [|done|done].
  apply obind_Ok in H as ([b s1] & Hcas & H). apply obind_Ok in H as (v & Hb & H).
  apply refuse_if_Ok in Hb. destruct b; [|discriminate Hb].
  apply CompareAndSwapTask_Ok in Hcas as (c & _ & _ & _ & _ & _ & _ & ->).
  apply obind_Ok in H as (now & Hn & H). apply checkedClockTime_Ok in Hn as (_ & Hn & _).
  apply obind_Ok in H as (s2 & Hr & H). injection H as <- <-.
  apply record_new_receipt in Hr as (Hr & ->); [|done..|by apply int64_not_zero].
  right. cbn [TaskMutation_Next]. rewrite <- (grant_fence _ _ _ Hg).
  by apply (step_fence _ (LeaseGrant_Task (FenceLease_Grant command)) record (FenceLease_Grant command)).
Qed.

(* ------------------------------------------------------------------ *)
(** ** Artifacts *)

Lemma require_artifact_grant (s : memoryAgentState) ref record grant :
  requireArtifactCurrentLease s record grant = Ok tt -> current_task s ref record ->
  current_grant s record grant.
Proof.
  unfold requireArtifactCurrentLease. intros H _. apply obind_Ok in H as ([] & Hg & H).
  apply obind_Ok in H as (u1 & Ht & H). apply refuse_if_Ok in Ht.
  apply obind_Ok in H as (u2 & _ & H). apply obind_Ok in H as (u3 & _ & H).
  apply obind_Ok in H as ([latest|] & _ & H).
  2:{ apply obind_Ok in H as (u & _ & H). discriminate H. }
  apply obind_Ok in H as (u4 & _ & H). apply obind_Ok in H as (u5 & _ & H).
  apply obind_Ok in H as (u6 & Hl & H). apply obind_Ok in H as (u7 & He & H).
  apply obind_Ok in H as (exact & Hx & H). apply on_error_Ok, LoadLeaseGrant_Ok in Hx.
  apply refuse_if_Ok in Hl, He, H. bool_split. decided. zbool.
  split; try done. exists exact. split; [done|congruence].
Qed.

Lemma freezeArtifactTx_steps agent command digest payload (s s' : memoryAgentState) r :
  freezeArtifactTx agent command digest payload s = Ok (r, s') ->
  validateRevision (FreezeArtifact_ExpectedBaseRevision command) = Ok tt ->
  validateStable (FreezeArtifact_Artifact command) = Ok tt ->
  validateArtifactPayloadShape (FreezeArtifact_Payload command) = Ok tt ->
  (exists agent ctx, prepareArtifactPayload agent ctx (artifactIdentity command zero_time)
                       (FreezeArtifact_Payload command) = Ok payload) ->
  is_empty digest = false ->
  stays_or_steps s s'.
Proof.
  unfold freezeArtifactTx. intros H Hb Ha Hp Hpp Hd. apply obind_Ok in H as ([[r' st]|] & _ & H).
  { injection H as <- <-. by left. }
  apply obind_Ok in H as (record & Hload & H). apply load_current_task in Hload as Hcur.
  apply obind_Ok in H as ([] & Hadm & H). apply obind_Ok in H as (clock & Hn & H).
  apply checkedClockTime_Ok in Hn as (_ & Hn & _).
  apply obind_Ok in H as ([b0 s1] & Hhead & H). apply obind_Ok in H as (head & Hlh & H).
  apply obind_Ok in H as (u0 & Hconf & H). apply refuse_if_Ok in Hconf. decided.
  apply obind_Ok in H as (s2 & Hart & H). apply on_error_Ok, InsertArtifact_Ok in Hart as (Hf1 & Hf2 & ->).
  apply obind_Ok in H as ([b s3] & Hcas & H). destruct b; [|discriminate H]. cbn [negb] in H.
  apply CompareAndSwapTask_Ok in Hcas as (c & _ & _ & _ & _ & _ & _ & ->). cbn [TaskMutation_Next] in H.
  apply obind_Ok in H as (s4 & Hev & H). apply InsertEvent_Ok in Hev as (_ & ->).
  apply obind_Ok in H as (s5 & Hr & H). injection H as <- <-.
  apply record_new_receipt in Hr as ([Hr1 Hr2] & ->); [|done..|by apply later_not_zero].
  assert (s1 = pin_head (TaskRef_Workspace (FreezeArtifact_Task command))
            (FreezeArtifact_ExpectedBaseRevision command)
            (timestampAtLeast clock [Task_UpdatedAt (TaskRecord_Task record)]) s /\
          forall h, workspaceHeads s !! TaskRef_Workspace (FreezeArtifact_Task command) = Some h ->
            WorkspaceHead_ConfirmedRevision (HeadRecord_Head h) = FreezeArtifact_ExpectedBaseRevision command)
    as [-> Hheads].
  { unfold loadArtifactWorkspaceHead in Hlh. apply obind_Ok in Hlh as (hr & Hl & Hlh).
    apply on_error_Ok, LoadWorkspaceHead_Ok in Hl. apply obind_Ok in Hlh as (u & _ & [= <-]).
    apply InsertWorkspaceHead_Ok in Hhead. unfold pin_head. destruct b0; destruct Hhead as [Hh ->].
    - cbn in Hh. rewrite Hh. split; [done|]. by intros h ?.
    - destruct Hh as [h Hh]. cbn in Hh. rewrite Hh in Hl |- *. split; [done|]. congruence. }
  unfold admitFreeze in Hadm. apply obind_Ok in Hadm as ([] & Hlease & Hadm). ok_inv. bool_split. decided.
  rewrite Z.geb_leb in *. zbool.
  eapply require_artifact_grant in Hlease; [|done].
  right. apply (step_freeze _ command record payload clock); try done.
  - by apply is_none_true.
  - unfold pin_head in Hf1. by destruct (workspaceHeads s !! _) in Hf1.
  - intros k a Hk. apply (Hf2 k a). unfold pin_head. by destruct (workspaceHeads s !! _).
  - split; [|done]. cbn in Hr1. unfold pin_head in Hr1. by destruct (workspaceHeads s !! _) in Hr1.
Qed.

Lemma decideReceipt_Ok (s s' : memoryAgentState) artifact receipt now :
  decideReceipt s artifact receipt now = Ok s' ->
  s' = add_receipt {| ReceiptRecord_Receipt := receipt |}
         (confirm_head artifact (ApplyReceipt_Decision receipt) now s) /\
  applyReceipts s !! ApplyReceipt_Artifact receipt = None /\
  (forall k r, applyReceipts s !! k = Some r ->
    artifact_authority (ApplyReceipt_Artifact (ReceiptRecord_Receipt r)) =
      artifact_authority (ApplyReceipt_Artifact receipt) ->
    ApplyReceipt_ID (ReceiptRecord_Receipt r) <> ApplyReceipt_ID receipt) /\
  (ApplyReceipt_Decision receipt = ApplySuccess ->
    exists h, workspaceHeads s !! ArtifactRef_Workspace (Artifact_Ref artifact) = Some h /\
      WorkspaceHead_ConfirmedRevision (HeadRecord_Head h) = Artifact_BaseRevision artifact).
Proof.
  unfold decideReceipt, confirm_head. intros H. apply obind_Ok in H as (s1 & Hh & H).
  apply on_error_Ok, InsertApplyReceipt_Ok in H as (H1 & H2 & ->). case_bool_decide as E.
  - apply obind_Ok in Hh as ([b s2] & Hc & Hh). destruct b; [|discriminate Hh]. injection Hh as <-.
    apply CompareAndSwapWorkspaceHead_Ok in Hc as (_ & Hc & ->). done.
  - injection Hh as <-. done.
Qed.

Lemma recordApplyReceiptTx_steps agent command digest (s s' : memoryAgentState) r :
  recordApplyReceiptTx agent command digest s = Ok (r, s') ->
  validateReceiptCommand command = Ok tt -> is_empty digest = false -> stays_or_steps s s'.
Proof.
  unfold recordApplyReceiptTx. intros H Hc Hd. apply obind_Ok in H as ([r'|] & _ & H).
  { injection H as <- <-. by left. }
  apply obind_Ok in H as (record & Hload & H). apply obind_Ok in H as (u1 & Hst & H).
  apply obind_Ok in H as (u2 & Hsame & H). apply refuse_if_Ok in Hst, Hsame. bool_split. decided.
  apply obind_Ok in H as (existing & Hex & H). apply obind_Ok in H as (clock & Hn & H).
  apply checkedClockTime_Ok in Hn as (_ & Hn & _). cbv zeta in H.
  apply obind_Ok in H as ([receipt s1] & Hdec & H). apply obind_Ok in H as (s2 & Hr & H).
  injection H as <- <-.
  apply record_new_receipt in Hr as ([Hr1 Hr2] & ->); [|done..|by apply later_not_zero].
  unfold loadArtifactRecord in Hload. apply obind_Ok in Hload as (record' & Hla & Hload).
  apply obind_Ok in Hload as (u & Href & Hload). apply refuse_if_Ok in Href. decided.
  apply obind_Ok in Hload as (u' & _ & [= <-]).
  assert (artifacts s !! RecordReceipt_Artifact command = Some record') as Hart.
  { destruct (LoadArtifact _ _ s) eqn:E; [|done]. injection Hla as ->. by eapply LoadArtifact_Ok. }
  destruct existing as [existing|].
  - apply obind_Ok in Hdec as (v & _ & [= <- <-]). right. by apply step_repeat.
  - apply obind_Ok in Hdec as (s3 & Hdec & [= <- <-]).
    apply decideReceipt_Ok in Hdec as (-> & H1' & H2' & H3'). cbn in H1', H2', H3'.
    right. apply (step_decide _ command record' clock); try done.
    + intros E. destruct (H3' E) as (h & Hh & Hrev). exists h.
      split; [by rewrite <- Href|]. by rewrite Hrev.
    + split; [|done]. unfold confirm_head in Hr1. by case_bool_decide.
Qed.

(* ------------------------------------------------------------------ *)
(** ** The public operations *)

(** The operations of the Agent that write. *)
Inductive AgentOp :=
  | OpCreateTask (command : CreateTaskCommand)
  | OpTask (op : TaskOp)
  | OpAcquireLease (command : AcquireLeaseCommand)
  | OpClaimLease (command : ClaimLeaseCommand)
  | OpFenceLease (command : FenceLeaseCommand)
  | OpFreezeArtifact (command : FreezeArtifactCommand)
  | OpRecordApplyReceipt (command : RecordApplyReceiptCommand).

Section Operations.
Context {W : Type} `{HS : Store W memoryAgentState} `{HC : !StoreContract W memoryAgentState}.

(** The store after a call; [between] is what other calls commit while this
    one runs outside a transaction. *)
Definition runAgentOp (agent : Agent) (ctx : goctx) (op : AgentOp) (between : W -> W) (w : W) : W :=
  match op with
  | OpCreateTask command => snd (CreateTask agent ctx command between w)
  | OpTask op => snd (runTaskOp agent ctx op between w)
  | OpAcquireLease command => snd (AcquireLease agent ctx command w)
  | OpClaimLease command => snd (ClaimLease agent ctx command w)
  | OpFenceLease command => snd (FenceLease agent ctx command w)
  | OpFreezeArtifact command => snd (FreezeArtifact agent ctx command between w)
  | OpRecordApplyReceipt command => snd (RecordApplyReceipt agent ctx command w)
  end.

(** From [w], or from the store as others left it meanwhile, the call stays
    or makes one step. *)
Definition simulated (between : W -> W) (w w' : W) : Prop :=
  stays_or_steps (snapshot w) (snapshot w') \/ stays_or_steps (snapshot (between w)) (snapshot w').

Lemma simulated_stays between w : simulated between w w.
Proof. by left; left. Qed.

Lemma Update_steps {A} ctx (f : memoryAgentState -> res (A * memoryAgentState)) (w : W) :
  (forall a s', f (snapshot w) = Ok (a, s') -> stays_or_steps (snapshot w) s') ->
  stays_or_steps (snapshot w) (snapshot (snd (Update ctx f w))).
Proof.
  intros Hf. destruct (Update ctx f w) as [r w'] eqn:E. pose proof (Update_cases _ _ _ _ _ E) as Hc.
  cbn. destruct (f (snapshot w)) as [[a s']|e].
  - specialize (Hf a s' eq_refl).
    destruct Hc as [[_ ->] | (e & _ & [-> | [_ ->]])]; [done|by left|done].
  - destruct Hc as [_ ->]. by left.
Qed.

Lemma or_return_simulated {A B} between (m : res A) (w : W) (k : A -> res B * W) :
  (forall a, m = Ok a -> simulated between w (snd (k a))) -> simulated between w (snd (or_return m w k)).
Proof. destruct m; cbn; intros Hk; [by apply Hk|]. apply simulated_stays. Qed.

Lemma CreateTask_simulated agent ctx command between (w : W) :
  simulated between w (snd (CreateTask agent ctx command between w)).
Proof.
  unfold CreateTask. apply or_return_simulated. intros _ _. apply or_return_simulated. intros [] Hc.
  apply or_return_simulated. intros _ _. apply or_return_simulated. intros [t|] _; [apply simulated_stays|].
  apply or_return_simulated. intros p Hp. right. apply Update_steps. intros a s' Hf.
  eapply createTaskTx_steps; [done..|apply commandDigest_nonempty|]. by exists agent, ctx.
Qed.

Lemma transition_simulated agent ctx kind meta grant ref command change leased between (w : W) :
  task_change change leased -> (leased = true <-> is_Some grant) ->
  (forall g, grant = Some g -> LeaseGrant_Task g = ref) -> match_stable kind = true ->
  simulated between w (snd (transition agent ctx kind meta grant ref command change between w)).
Proof.
  intros Hch Hl Hg Hk. unfold transition. do 4 (apply or_return_simulated; intros _ _).
  destruct (change_message change) as [message|] eqn:Em.
  - apply or_return_simulated. intros [t|] _; [apply simulated_stays|].
    apply or_return_simulated. intros p Hp. right. apply Update_steps. intros a s' Hf.
    eapply transitionTx_steps; [done..|apply commandDigest_nonempty|].
    rewrite Em. intros input [= <-]. by exists agent, ctx.
  - left. apply Update_steps. intros a s' Hf.
    eapply transitionTx_steps; [done..|apply commandDigest_nonempty|]. by rewrite Em.
Qed.

Lemma worker_meta_task meta ref :
  validateWorkerMeta meta ref = Ok tt -> forall g, Some (WorkerMeta_Grant meta) = Some g -> LeaseGrant_Task g = ref.
Proof. unfold validateWorkerMeta. intros H g [= <-]. ok_inv. by decided. Qed.

Lemma leased_some {A} (a : A) : true = true <-> is_Some (Some a).
Proof. by split. Qed.
Lemma leased_none {A} : false = true <-> is_Some (None (A := A)).
Proof. split; [done | by intros []]. Qed.

Lemma task_op_simulated agent ctx op between (w : W) :
  simulated between w (snd (runTaskOp agent ctx op between w)).
Proof.
  destruct op as [c|c|c|c|c|c|c]; cbn [runTaskOp];
    unfold AcceptTask, RejectTask, RequestInput, ReplyTask, CancelTask, FailTask, CompleteTask;
    repeat lazymatch goal with |- simulated _ _ (snd (or_return _ _ _)) => apply or_return_simulated; intros [] ? end;
    (eapply transition_simulated;
      [econstructor; eassumption | first [apply leased_some | apply leased_none] | by first [eapply worker_meta_task; eassumption | intros ? [=]] | done]).
Qed.

Lemma FreezeArtifact_simulated agent ctx command between (w : W) :
  simulated between w (snd (FreezeArtifact agent ctx command between w)).
Proof.
  unfold FreezeArtifact. do 3 (apply or_return_simulated; intros [] ?).
  apply or_return_simulated; intros [] Ha. apply or_return_simulated; intros [] Hb.
  apply or_return_simulated; intros [] Hp. apply or_return_simulated; intros [] _.
  apply or_return_simulated. intros [[r st]|] _; [apply simulated_stays|].
  apply or_return_simulated; intros [] _. apply or_return_simulated. intros p Hpp.
  destruct (Update ctx _ (between w)) as [r w'] eqn:E. cbn [snd]. right.
  change w' with (snd (r, w')). rewrite <- E. apply Update_steps. intros a s' Hf.
  eapply freezeArtifactTx_steps; [done..| |apply commandDigest_nonempty]. by exists agent, ctx.
Qed.

(** Every call stays or makes one step. *)
Lemma agent_op_simulated agent ctx op between (w : W) :
  keyed_tasks (snapshot w) -> simulated between w (runAgentOp agent ctx op between w).
Proof.
  intros Hk. destruct op; cbn [runAgentOp];
    [apply CreateTask_simulated | apply task_op_simulated | | | | apply FreezeArtifact_simulated |].
  - unfold AcquireLease. do 3 (apply or_return_simulated; intros [] ?).
    apply or_return_simulated; intros [] Hw. apply or_return_simulated; intros [] _.
    left. apply Update_steps. intros a s' Hf. eapply acquireLeaseTx_steps; [done| |apply commandDigest_nonempty].
    by eapply validateStable_Ok.
  - unfold ClaimLease. do 3 (apply or_return_simulated; intros [] ?).
    apply or_return_simulated; intros [] Hw. apply or_return_simulated; intros [] _.
    left. apply Update_steps. intros a s' Hf.
    eapply claimLeaseTx_steps; [done|done| |apply commandDigest_nonempty]. by eapply validateStable_Ok.
  - unfold FenceLease. do 4 (apply or_return_simulated; intros [] ?).
    left. apply Update_steps. intros a s' Hf. eapply fenceLeaseTx_steps; [done|apply commandDigest_nonempty].
  - unfold RecordApplyReceipt. apply or_return_simulated; intros [] _.
    apply or_return_simulated; intros [] Hc. apply or_return_simulated; intros [] _.
    left. apply Update_steps. intros a s' Hf.
    eapply recordApplyReceiptTx_steps; [done|done|apply commandDigest_nonempty].
Qed.

(** The committed states of a Store that only Agent calls write to: any
    Agents, clocks and protectors, any interleaving of their transactions. *)
Inductive agent_reachable : W -> Prop :=
  | reach_new w : snapshot w = newMemoryAgentState -> agent_reachable w
  | reach_call w agent ctx op between :
      agent_reachable w -> agent_reachable (between w) ->
      agent_reachable (runAgentOp agent ctx op between w).
End Operations.
