(* ===== verification/AgentInvariant.v ===== *)
(** * What holds in every committed state

    The invariant is split by Task: [wf_record] is about a Task's own record,
    [wf_history], [wf_conversation], [wf_leases] and the Artifact and
    submission clauses relate it to the other maps.  Each part has a lemma that
    extends it by one write and one that frames it; [AgentPreserve] puts them
    together for every rule of the machine. *)

From S2P Require Import Prelude GoText GoTime GoJson AgentTypes AgentCodec Framework Protect AgentStore.
From S2P Require Import MemoryStore AgentCore AgentCommands AgentLease AgentArtifact AgentFacts.
From S2P Require Import AgentReplay MemoryFacts AgentMachine.

Local Open Scope string_scope.

(* ------------------------------------------------------------------ *)
(** ** The Task record *)

(** The states an Artifact's state goes with. *)
Definition artifact_fits (a : ArtifactState) (t : TaskState) : bool :=
  ((a =?= ArtifactFrozen) && ((t =?= TaskWorking) || (t =?= TaskInputRequired)))
  || ((a =?= ArtifactPublished) && (t =?= TaskCompleted))
  || ((a =?= ArtifactDiscarded) && ((t =?= TaskCanceled) || (t =?= TaskFailed))).

(** [validateStoreTaskRecord], as a record of facts. *)
Record valid_record (r : StoreTaskRecord) : Prop := {
  vr_task : valid_task (TaskRecord_Task r);
  vr_owner : Lease_Owner (TaskRecord_Lease r) <> "" ->
    Lease_Fence (TaskRecord_Lease r) <> 0%Z /\ Terminal (Task_State (TaskRecord_Task r)) = false;
  vr_artifact : is_none (Task_Artifact (TaskRecord_Task r)) = is_none (TaskRecord_ArtifactState r);
  vr_fits : forall a, TaskRecord_ArtifactState r = Some a -> artifact_fits a (Task_State (TaskRecord_Task r)) = true
}.

Lemma valid_record_check r : validateStoreTaskRecord r = Ok tt <-> valid_record r.
Proof.
  unfold validateStoreTaskRecord. split.
  - intros H. apply obind_Ok in H as ([] & Ht & H). apply valid_task_of_check in Ht.
    apply obind_Ok in H as (u1 & Ho & H). apply refuse_if_Ok in Ho.
    apply obind_Ok in H as (u2 & Ha & H). apply refuse_if_Ok in Ha. bool_split. decided.
    split; [done| |done|].
    + intros Hne. rewrite <- is_empty_true in Hne. apply not_true_iff_false in Hne. rewrite Hne in Ho.
      cbn in Ho. bool_split. by zbool.
    + intros a E. rewrite E in H. apply refuse_if_Ok in H. by bool_split.
  - intros [Ht Ho Ha Hf]. rewrite check_of_valid_task by done. cbn [obind].
    assert (negb (is_empty (Lease_Owner (TaskRecord_Lease r)))
      && ((Lease_Fence (TaskRecord_Lease r) =? 0)%Z || Terminal (Task_State (TaskRecord_Task r))) = false) as ->.
    { destruct (is_empty _) eqn:E; [done|]. apply not_true_iff_false in E. rewrite is_empty_true in E.
      destruct (Ho E) as [H1 ->]. cbn. rewrite orb_false_r. by apply Z.eqb_neq. }
    cbn [refuse_if obind]. rewrite Ha, eqb_reflx. cbn [negb refuse_if obind].
    destruct (TaskRecord_ArtifactState r) as [a|]; [|done]. apply refuse_if_false, negb_false_iff.
    by apply Hf.
Qed.

(** Whose turn it is to speak: an even number of messages ends with the
    worker's. *)
Definition turn (state : TaskState) (count : Z) : Prop :=
  match state with
  | TaskSubmitted | TaskWorking | TaskRejected => (count mod 2 = 1)%Z
  | TaskInputRequired | TaskCompleted => (count mod 2 = 0)%Z
  | _ => True
  end.

Record wf_record (ref : TaskRef) (r : StoreTaskRecord) : Prop := {
  wr_ref : Task_Ref (TaskRecord_Task r) = ref;
  wr_valid : valid_record r;
  wr_created : in_int64 (Task_CreatedAt (TaskRecord_Task r));
  wr_updated : in_int64 (Task_UpdatedAt (TaskRecord_Task r));
  wr_revision : (0 < Task_Revision (TaskRecord_Task r))%Z;
  wr_messages : (0 < Task_MessageCount (TaskRecord_Task r))%Z;
  wr_fence : (0 <= Lease_Fence (TaskRecord_Lease r) <= MaxInt64)%Z;
  wr_turn : turn (Task_State (TaskRecord_Task r)) (Task_MessageCount (TaskRecord_Task r))
}.

(* ------------------------------------------------------------------ *)
(** ** The event history *)

Record wf_event (ref : TaskRef) (n : Z) (e : Event) : Prop := {
  we_task : Event_Task e = ref;
  we_sequence : Event_Sequence e = n;
  we_valid : validateStoredEvent e = Ok tt;
  we_time : in_int64 (Event_OccurredAt e)
}.

(** The events are numbered 1 to [count] without a gap, start with the
    submission, follow [lifecycle], never go back in time, and the last one
    has the Task's state and time. *)
Record wf_history (ref : TaskRef) (h : gmap Z StoreEventRecord) (count : Z) (state : TaskState) (updated : time)
    : Prop := {
  wh_domain : forall n, is_Some (h !! n) <-> (1 <= n <= count)%Z;
  wh_event : forall n e, h !! n = Some e -> wf_event ref n (EventRecord_Event e);
  wh_first : forall e, h !! 1%Z = Some e -> Event_Type (EventRecord_Event e) = EventTaskSubmitted;
  wh_chain : forall n e e', h !! n = Some e -> h !! (n + 1)%Z = Some e' ->
    lifecycle (Event_State (EventRecord_Event e)) (Event_Type (EventRecord_Event e'))
              (Event_State (EventRecord_Event e')) /\
    (Event_OccurredAt (EventRecord_Event e) <= Event_OccurredAt (EventRecord_Event e'))%Z;
  wh_last : forall e, h !! count = Some e ->
    Event_State (EventRecord_Event e) = state /\ Event_OccurredAt (EventRecord_Event e) = updated
}.

Lemma wf_history_first ref e :
  wf_event ref 1 e -> Event_Type e = EventTaskSubmitted ->
  wf_history ref {[ 1%Z := {| EventRecord_Event := e |} ]} 1 (Event_State e) (Event_OccurredAt e).
Proof.
  intros He Ht. split.
  - intros n. destruct (decide (n = 1%Z)) as [->|Hn].
    + rewrite lookup_singleton_eq. split; [lia|eauto].
    + rewrite lookup_singleton_ne by done. split; [by intros []|lia].
  - intros n e' Hn. apply lookup_singleton_Some in Hn as [<- <-]. done.
  - intros e' Hn. apply lookup_singleton_Some in Hn as [_ <-]. done.
  - intros n e1 e2 H1 H2. apply lookup_singleton_Some in H1 as [<- _], H2 as [? _]. lia.
  - intros e' Hn. apply lookup_singleton_Some in Hn as [_ <-]. done.
Qed.

Lemma wf_history_extend ref h count state updated e :
  wf_history ref h count state updated -> (1 <= count)%Z -> wf_event ref (count + 1) e ->
  lifecycle state (Event_Type e) (Event_State e) -> (updated <= Event_OccurredAt e)%Z ->
  wf_history ref (<[(count + 1)%Z := {| EventRecord_Event := e |}]> h) (count + 1) (Event_State e)
    (Event_OccurredAt e).
Proof.
  intros [Hdom Hev Hfst Hch Hlast] Hc He Hl Hu. split.
  - intros n. destruct (decide (n = count + 1)%Z) as [->|Hn].
    + rewrite lookup_insert_eq. split; [lia|eauto].
    + rewrite lookup_insert_ne, Hdom by done. lia.
  - intros n e' Hn. apply lookup_insert_Some in Hn as [[<- <-] | [_ Hn]]; [done|by apply Hev].
  - intros e' Hn. rewrite lookup_insert_ne in Hn by lia. by apply Hfst.
  - intros n e1 e2 H1 H2. destruct (decide (n = count)) as [->|Hn].
    + rewrite lookup_insert_eq in H2. injection H2 as <-. rewrite lookup_insert_ne in H1 by lia.
      destruct (Hlast _ H1) as [-> ->]. done.
    + rewrite lookup_insert_ne in H2 by lia.
      assert (is_Some (h !! (n + 1)%Z)) as Hs by eauto. apply Hdom in Hs.
      rewrite lookup_insert_ne in H1 by lia. by eapply Hch.
  - intros e' Hn. rewrite lookup_insert_eq in Hn. by injection Hn as <-.
Qed.

(* ------------------------------------------------------------------ *)
(** ** The conversation *)

(** The messages of a Task are numbered 1 to [count]. *)
Definition wf_conversation (ref : TaskRef) (ms : gmap StoreMessageKey StoreMessageRecord) (count : Z) : Prop :=
  forall n, (exists k m, ms !! k = Some m /\ MessageRecord_Task m = ref /\ MessageRecord_Sequence m = n) <->
    (1 <= n <= count)%Z.

Lemma wf_conversation_extend ref ms count k m :
  wf_conversation ref ms count -> (0 <= count)%Z -> ms !! k = None ->
  MessageRecord_Task m = ref -> MessageRecord_Sequence m = (count + 1)%Z ->
  wf_conversation ref (<[k := m]> ms) (count + 1).
Proof.
  intros Hc Hpos Hk Ht Hs n. split.
  - intros (k' & m' & Hm & Ht' & Hn). apply lookup_insert_Some in Hm as [[<- <-] | [_ Hm]]; [lia|].
    assert (1 <= n <= count)%Z by (apply Hc; eauto). lia.
  - intros Hn. destruct (decide (n = count + 1)%Z) as [->|Hne].
    + exists k, m. by rewrite lookup_insert_eq.
    + destruct (proj2 (Hc n)) as (k' & m' & Hm & H1 & H2); [lia|]. exists k', m'.
      rewrite lookup_insert_ne; [done|]. intros <-. congruence.
Qed.

(** A message of another Task, under a new key, changes nothing. *)
Lemma wf_conversation_frame ref ms count k m :
  wf_conversation ref ms count -> ms !! k = None -> MessageRecord_Task m <> ref ->
  wf_conversation ref (<[k := m]> ms) count.
Proof.
  intros Hc Hk Ht n. rewrite <- (Hc n). split; intros (k' & m' & Hm & Ht' & Hn).
  - apply lookup_insert_Some in Hm as [[<- <-] | [_ Hm]]; [done|eauto].
  - exists k', m'. rewrite lookup_insert_ne; [done|]. intros <-. congruence.
Qed.

(* ------------------------------------------------------------------ *)
(** ** The lease history *)

Record wf_grant (ref : TaskRef) (n : LeaseFence) (created : time) (g : StoreLeaseGrantRecord) : Prop := {
  wg_task : LeaseGrant_Task (GrantRecord_Grant g) = ref;
  wg_fence : LeaseGrant_Fence (GrantRecord_Grant g) = n;
  wg_worker : match_stable (LeaseGrant_Worker (GrantRecord_Grant g)) = true;
  wg_time : in_int64 (GrantRecord_GrantedAt g);
  wg_created : (created <= GrantRecord_GrantedAt g)%Z
}.

Definition grant_at (ref : TaskRef) (n : LeaseFence) (s : gmap memoryAgentLeaseKey StoreLeaseGrantRecord)
    : option StoreLeaseGrantRecord :=
  s !! {| LeaseKey_task := ref; LeaseKey_fence := n |}.

(** The grants of a Task have the fences 1 to the current one, never go back
    in time, and the owner holds the last. *)
Record wf_leases (ref : TaskRef) (gs : gmap memoryAgentLeaseKey StoreLeaseGrantRecord)
    (lease : StoreLeaseState) (created : time) : Prop := {
  wl_domain : forall n, is_Some (grant_at ref n gs) <-> (1 <= n <= Lease_Fence lease)%Z;
  wl_grant : forall n g, grant_at ref n gs = Some g -> wf_grant ref n created g;
  wl_times : forall n m g g', grant_at ref n gs = Some g -> grant_at ref m gs = Some g' -> (n <= m)%Z ->
    (GrantRecord_GrantedAt g <= GrantRecord_GrantedAt g')%Z;
  wl_owner : Lease_Owner lease <> "" -> exists g, grant_at ref (Lease_Fence lease) gs = Some g /\
    LeaseGrant_Worker (GrantRecord_Grant g) = Lease_Owner lease
}.

Lemma grant_at_insert ref n g gs :
  grant_at ref n (<[{| LeaseKey_task := ref; LeaseKey_fence := n |} := g]> gs) = Some g.
Proof. unfold grant_at. by rewrite lookup_insert_eq. Qed.

Lemma grant_at_insert_ne ref ref' n m g gs :
  ref <> ref' \/ n <> m ->
  grant_at ref n (<[{| LeaseKey_task := ref'; LeaseKey_fence := m |} := g]> gs) = grant_at ref n gs.
Proof. intros Hne. unfold grant_at. rewrite lookup_insert_ne; [done|]. intros [= -> ->]. by destruct Hne. Qed.

Lemma wf_leases_none ref gs created :
  (forall n, grant_at ref n gs = None) -> wf_leases ref gs {| Lease_Owner := ""; Lease_Fence := 0 |} created.
Proof.
  intros Hn. split; [intros n|intros n g|intros n m g g'|]; cbn; rewrite ?Hn; try done.
  split; [by intros []|lia].
Qed.

Lemma wf_leases_extend ref gs lease created g :
  wf_leases ref gs lease created -> (0 <= Lease_Fence lease)%Z ->
  wf_grant ref (Lease_Fence lease + 1) created g ->
  (forall g', grant_at ref (Lease_Fence lease) gs = Some g' ->
    (GrantRecord_GrantedAt g' <= GrantRecord_GrantedAt g)%Z) ->
  wf_leases ref (<[{| LeaseKey_task := ref; LeaseKey_fence := Lease_Fence lease + 1 |} := g]> gs)
    {| Lease_Owner := LeaseGrant_Worker (GrantRecord_Grant g); Lease_Fence := Lease_Fence lease + 1 |} created.
Proof.
  intros [Hd Hg Ht Ho] Hpos Hwf Hlast. split; cbn.
  - intros n. destruct (decide (n = Lease_Fence lease + 1)%Z) as [->|Hn].
    + rewrite grant_at_insert. split; [lia|eauto].
    + rewrite grant_at_insert_ne, Hd by auto. lia.
  - intros n g'. destruct (decide (n = Lease_Fence lease + 1)%Z) as [->|Hn].
    + rewrite grant_at_insert. by intros [= <-].
    + rewrite grant_at_insert_ne by auto. apply Hg.
  - intros n m g1 g2 H1 H2 Hle.
    destruct (decide (m = Lease_Fence lease + 1)%Z) as [->|Hm].
    + rewrite grant_at_insert in H2. injection H2 as <-.
      destruct (decide (n = Lease_Fence lease + 1)%Z) as [->|Hn].
      { rewrite grant_at_insert in H1. injection H1 as <-. lia. }
      rewrite grant_at_insert_ne in H1 by auto.
      assert (1 <= n <= Lease_Fence lease)%Z as Hr by (apply Hd; eauto).
      destruct (proj2 (Hd (Lease_Fence lease))) as [gl Hgl]; [lia|].
      pose proof (Ht _ _ _ _ H1 Hgl ltac:(lia)). pose proof (Hlast _ Hgl). lia.
    + rewrite grant_at_insert_ne in H2 by auto.
      assert (1 <= m <= Lease_Fence lease)%Z as Hr by (apply Hd; eauto).
      rewrite grant_at_insert_ne in H1 by (right; lia). by eapply Ht.
  - intros _. exists g. by rewrite grant_at_insert.
Qed.

(** Retiring the lease keeps its history. *)
Lemma wf_leases_retire ref gs lease created :
  wf_leases ref gs lease created ->
  wf_leases ref gs {| Lease_Owner := ""; Lease_Fence := Lease_Fence lease |} created.
Proof. intros [Hd Hg Ht Ho]. by split. Qed.

Lemma wf_leases_same ref gs gs' lease created :
  wf_leases ref gs lease created -> (forall n, grant_at ref n gs' = grant_at ref n gs) ->
  wf_leases ref gs' lease created.
Proof.
  intros [Hd Hg Ht Ho] E. split; [intros n|intros n g|intros n m g g'|]; rewrite ?E; eauto.
Qed.

(* ------------------------------------------------------------------ *)
(** ** The whole state *)

(** One Task with everything that belongs to it. *)
Record wf_task (s : memoryAgentState) (ref : TaskRef) (r : StoreTaskRecord) : Prop := {
  wt_record : wf_record ref r;
  wt_history : wf_history ref (history s ref) (Task_EventCount (TaskRecord_Task r))
    (Task_State (TaskRecord_Task r)) (Task_UpdatedAt (TaskRecord_Task r));
  wt_conversation : wf_conversation ref (messages s) (Task_MessageCount (TaskRecord_Task r));
  wt_leases : wf_leases ref (leaseGrants s) (TaskRecord_Lease r) (Task_CreatedAt (TaskRecord_Task r));
  wt_artifact : forall a, Task_Artifact (TaskRecord_Task r) = Some a ->
    exists x, artifacts s !! a = Some x /\ Artifact_Task (ArtifactRecord_Artifact x) = ref /\
      TaskRecord_ArtifactState r = Some (Artifact_State (ArtifactRecord_Artifact x)) /\
      (Artifact_FrozenAt (ArtifactRecord_Artifact x) <= Task_UpdatedAt (TaskRecord_Task r))%Z;
  wt_submission : SubmissionRecord_Submission <$> submissions s !! ref = Task_Submission (TaskRecord_Task r)
}.

(** The author whose turn a sequence number is. *)
Definition author_of (n : Z) : Author := if (n mod 2 =? 1)%Z then AuthorCaller else AuthorAgent.

Record wf_message (s : memoryAgentState) (k : StoreMessageKey) (m : StoreMessageRecord) : Prop := {
  wm_key : k = message_key m;
  wm_task : is_Some (tasks s !! MessageRecord_Task m);
  wm_author : MessageRecord_Author m = author_of (MessageRecord_Sequence m);
  wm_time : in_int64 (MessageRecord_CreatedAt m);
  wm_content : exists input, MessageInput_ID input = MessageRecord_ID m /\
    validateMessageInput input = Ok tt /\
    prepared_for (MessageRecord_Task m) input
      {| prepared_encoded := MessageRecord_EncodedParts m; prepared_digest := MessageRecord_PartsDigest m |}
}.

(** [wa_valid] leaves out an Artifact whose result revision is its own base: the
    result is a SHA-256 identity of a text that holds the base, so that needs a
    fixed point of the hash, which the freeze does not look for. *)
Record wf_artifact (s : memoryAgentState) (a : ArtifactRef) (x : StoreArtifactRecord) : Prop := {
  wa_ref : Artifact_Ref (ArtifactRecord_Artifact x) = a;
  wa_valid : Artifact_BaseRevision (ArtifactRecord_Artifact x) <> Artifact_ResultRevision (ArtifactRecord_Artifact x) ->
    validateStoredArtifactMetadata (ArtifactRecord_Artifact x) = Ok tt;
  wa_frozen : in_int64 (Artifact_FrozenAt (ArtifactRecord_Artifact x));
  wa_published : forall t, Artifact_PublishedAt (ArtifactRecord_Artifact x) = Some t -> in_int64 t;
  wa_published_at : Artifact_State (ArtifactRecord_Artifact x) = ArtifactPublished ->
    is_Some (Artifact_PublishedAt (ArtifactRecord_Artifact x));
  wa_payload : (0 < len (ArtifactRecord_EncodedPayload x) <= maxStoredArtifactBytes)%Z;
  wa_task : exists r, tasks s !! Artifact_Task (ArtifactRecord_Artifact x) = Some r /\
    Task_Artifact (TaskRecord_Task r) = Some a;
  wa_head : is_Some (workspaceHeads s !! ArtifactRef_Workspace a)
}.

Record wf_head (w : WorkspaceRef) (h : StoreWorkspaceHeadRecord) : Prop := {
  wh_workspace : WorkspaceHead_Workspace (HeadRecord_Head h) = w;
  wh_revision : validateRevision (WorkspaceHead_ConfirmedRevision (HeadRecord_Head h)) = Ok tt;
  wh_time : in_int64 (WorkspaceHead_UpdatedAt (HeadRecord_Head h))
}.

(** A decision belongs to a published Artifact and repeats its identity. *)
Record wf_receipt (s : memoryAgentState) (a : ArtifactRef) (r : ApplyReceipt) : Prop := {
  wp_artifact : ApplyReceipt_Artifact r = a;
  wp_valid : validateStoredReceipt r = Ok tt;
  wp_time : in_int64 (ApplyReceipt_RecordedAt r);
  wp_published : exists x t, artifacts s !! a = Some x /\
    Artifact_State (ArtifactRecord_Artifact x) = ArtifactPublished /\
    Artifact_PublishedAt (ArtifactRecord_Artifact x) = Some t /\ (t <= ApplyReceipt_RecordedAt r)%Z /\
    ApplyReceipt_ArtifactDigest r = Artifact_Digest (ArtifactRecord_Artifact x) /\
    ApplyReceipt_BaseRevision r = Artifact_BaseRevision (ArtifactRecord_Artifact x) /\
    ApplyReceipt_ResultRevision r = Artifact_ResultRevision (ArtifactRecord_Artifact x)
}.

Record WF (s : memoryAgentState) : Prop := {
  wf_tasks : forall ref r, tasks s !! ref = Some r -> wf_task s ref r;
  wf_ids : forall ref ref', is_Some (tasks s !! ref) -> is_Some (tasks s !! ref') ->
    task_authority ref = task_authority ref' -> TaskRef_ID ref = TaskRef_ID ref' -> ref = ref';
  wf_no_events : forall ref, tasks s !! ref = None -> history s ref = ∅;
  wf_no_grants : forall ref n, tasks s !! ref = None -> grant_at ref n (leaseGrants s) = None;
  wf_no_submissions : forall ref, tasks s !! ref = None -> submissions s !! ref = None;
  wf_messages : forall k m, messages s !! k = Some m -> wf_message s k m;
  wf_sequences : forall k k' m m', messages s !! k = Some m -> messages s !! k' = Some m' ->
    MessageRecord_Task m = MessageRecord_Task m' -> MessageRecord_Sequence m = MessageRecord_Sequence m' ->
    k = k';
  wf_artifacts : forall a x, artifacts s !! a = Some x -> wf_artifact s a x;
  wf_heads : forall w h, workspaceHeads s !! w = Some h -> wf_head w h;
  wf_receipts : forall a r, applyReceipts s !! a = Some r -> wf_receipt s a (ReceiptRecord_Receipt r);
  wf_commands : forall k r, commands s !! k = Some r ->
    CommandKey r = k /\ validateStoreCommandRecord r (Command_Authority r) (Command_ID r) = Ok tt
}.

Lemma WF_new : WF newMemoryAgentState.
Proof.
  assert (forall ref, history newMemoryAgentState ref = ∅) as Hh by done.
  split; cbn; try (intros; by rewrite lookup_empty in *); try done.
Qed.

(* ------------------------------------------------------------------ *)
(** ** Frames *)

Lemma wf_task_frame s s' ref r :
  wf_task s ref r -> history s' ref = history s ref ->
  (forall n, wf_conversation ref (messages s) n -> wf_conversation ref (messages s') n) ->
  (forall n, grant_at ref n (leaseGrants s') = grant_at ref n (leaseGrants s)) ->
  (forall a x, artifacts s !! a = Some x -> Artifact_Task (ArtifactRecord_Artifact x) = ref ->
    artifacts s' !! a = Some x) ->
  submissions s' !! ref = submissions s !! ref ->
  wf_task s' ref r.
Proof.
  intros [Hr Hh Hc Hl Ha Hs] Eh Ec El Ea Es. split; try done.
  - by rewrite Eh.
  - by apply Ec.
  - by eapply wf_leases_same.
  - intros a Hta. destruct (Ha a Hta) as (x & Hx & Ht & Hst). exists x. eauto.
  - by rewrite Es.
Qed.

Lemma wf_message_frame s s' k m :
  wf_message s k m -> (forall ref, is_Some (tasks s !! ref) -> is_Some (tasks s' !! ref)) -> wf_message s' k m.
Proof. intros [] Ht. split; auto. Qed.

Lemma wf_artifact_frame s s' a x :
  wf_artifact s a x ->
  (forall r, tasks s !! Artifact_Task (ArtifactRecord_Artifact x) = Some r ->
    exists r', tasks s' !! Artifact_Task (ArtifactRecord_Artifact x) = Some r' /\
      (Task_Artifact (TaskRecord_Task r) = Some a -> Task_Artifact (TaskRecord_Task r') = Some a)) ->
  (forall w, is_Some (workspaceHeads s !! w) -> is_Some (workspaceHeads s' !! w)) ->
  wf_artifact s' a x.
Proof.
  intros [] Ht Hh. split; auto. destruct wa_task0 as (r & Hr & Ha).
  destruct (Ht r Hr) as (r' & Hr' & Ha'). eauto.
Qed.

Lemma wf_receipt_frame s s' a r :
  wf_receipt s a r ->
  (forall x, artifacts s !! a = Some x -> Artifact_State (ArtifactRecord_Artifact x) = ArtifactPublished ->
    artifacts s' !! a = Some x) ->
  wf_receipt s' a r.
Proof.
  intros [] Ha. split; auto. destruct wp_published0 as (x & t & Hx & Hst & Hrest). exists x, t. eauto.
Qed.

Lemma history_add_event s e ref :
  history (add_event e s) ref =
  if decide (Event_Task e = ref) then <[Event_Sequence e := {| EventRecord_Event := e |}]> (history s ref)
  else history s ref.
Proof.
  unfold history at 1. unfold add_event. cbn [events set_events]. case_decide as E.
  - subst ref. by rewrite lookup_insert_eq.
  - by rewrite lookup_insert_ne.
Qed.

(** A receipt that is added is keyed and valid. *)
Lemma wf_commands_add s receipt k r :
  (forall k r, commands s !! k = Some r ->
    CommandKey r = k /\ validateStoreCommandRecord r (Command_Authority r) (Command_ID r) = Ok tt) ->
  new_receipt s receipt -> <[CommandKey receipt := receipt]> (commands s) !! k = Some r ->
  CommandKey r = k /\ validateStoreCommandRecord r (Command_Authority r) (Command_ID r) = Ok tt.
Proof.
  intros Hc [_ Hv] Hk. apply lookup_insert_Some in Hk as [[<- <-] | [_ Hk]]; [done|by apply Hc].
Qed.

(* ------------------------------------------------------------------ *)
(** ** The current grant *)

Lemma wf_grant_keyed s k g :
  WF s -> leaseGrants s !! k = Some g -> k = lease_key (GrantRecord_Grant g).
Proof.
  intros Hwf Hk. destruct k as [ref n]. fold (grant_at ref n (leaseGrants s)) in Hk.
  destruct (tasks s !! ref) as [r|] eqn:E.
  - destruct (wl_grant _ _ _ _ (wt_leases _ _ _ (wf_tasks _ Hwf _ _ E)) _ _ Hk) as [<- <- _ _ _]. done.
  - by rewrite (wf_no_grants _ Hwf _ _ E) in Hk.
Qed.

(** The latest grant of a Task is the one its lease points to. *)
Lemma latest_is_current s ref r :
  WF s -> tasks s !! ref = Some r ->
  found_or_absent (LoadLatestLeaseGrant ref s) = Ok (grant_at ref (Lease_Fence (TaskRecord_Lease r)) (leaseGrants s)).
Proof.
  intros Hwf Hr. pose proof (wt_leases _ _ _ (wf_tasks _ Hwf _ _ Hr)) as Hl.
  cbn. unfold ReadOp.LoadLatestLeaseGrant. cbn [ensureActive unit_active live unit_state obind refuse_if negb].
  pose proof (latest_grant ref (map_to_list (leaseGrants s))) as Hlatest.
  assert (forall k g, (k, g) ∈ map_to_list (leaseGrants s) -> k = lease_key (GrantRecord_Grant g)) as Hkeys.
  { intros k g Hin%elem_of_map_to_list. by eapply wf_grant_keyed. }
  specialize (Hlatest Hkeys). destruct (fold_left _ _ None) as [g|]; cbn [found_or_absent].
  - destruct Hlatest as ((k & Hin) & Ht & Hmax). apply elem_of_map_to_list in Hin as Hg.
    rewrite (Hkeys _ _ Hin) in Hg. unfold lease_key in Hg. rewrite Ht in Hg.
    fold (grant_at ref (LeaseGrant_Fence (GrantRecord_Grant g)) (leaseGrants s)) in Hg.
    assert (1 <= LeaseGrant_Fence (GrantRecord_Grant g) <= Lease_Fence (TaskRecord_Lease r))%Z as Hle.
    { apply (wl_domain _ _ _ _ Hl). eauto. }
    destruct (proj2 (wl_domain _ _ _ _ Hl (Lease_Fence (TaskRecord_Lease r)))) as [g' Hg']; [lia|].
    assert (Lease_Fence (TaskRecord_Lease r) <= LeaseGrant_Fence (GrantRecord_Grant g))%Z as Hge.
    { apply (Hmax {| LeaseKey_task := ref; LeaseKey_fence := Lease_Fence (TaskRecord_Lease r) |} g').
      - by apply elem_of_map_to_list.
      - done. }
    f_equal. rewrite <- Hg. f_equal. lia.
  - f_equal. symmetry. destruct (grant_at _ _ _) as [g|] eqn:Hg; [|done].
    exfalso. apply (Hlatest {| LeaseKey_task := ref; LeaseKey_fence := Lease_Fence (TaskRecord_Lease r) |} g);
      [by apply elem_of_map_to_list|done].
Qed.

(** What [validateLeaseHistoryHeadFromStore] returns: the time of the current
    grant, or the zero time of a Task that was never granted. *)
Lemma history_head s ref r previous :
  WF s -> tasks s !! ref = Some r -> validateLeaseHistoryHeadFromStore s r = Ok previous ->
  match grant_at ref (Lease_Fence (TaskRecord_Lease r)) (leaseGrants s) with
  | Some g => previous = GrantRecord_GrantedAt g
  | None => previous = zero_time
  end.
Proof.
  intros Hwf Hr. pose proof (wr_ref _ _ (wt_record _ _ _ (wf_tasks _ Hwf _ _ Hr))) as Href.
  unfold validateLeaseHistoryHeadFromStore. rewrite Href, (latest_is_current _ _ _ Hwf Hr). cbn [obind].
  destruct (grant_at _ _ _); intros H; ok_inv; done.
Qed.
