(* ===== verification/AgentPreserve.v ===== *)
(** * Every rule keeps the invariant

    One lemma per rule of the abstract machine, from the extension and frame
    lemmas of AgentInvariant; then every committed state of a Store only the
    Agent writes to is well formed. *)

From S2P Require Import Prelude GoText GoTime GoJson AgentTypes AgentCodec Framework Protect AgentStore.
From S2P Require Import MemoryStore AgentCore AgentCommands AgentLease AgentArtifact AgentFacts.
From S2P Require Import AgentReplay MemoryFacts AgentMachine AgentRefinement AgentInvariant.

Local Open Scope string_scope.

(* ------------------------------------------------------------------ *)
(** ** CreateTask *)

Lemma validateMessageInput_stable input :
  validateMessageInput input = Ok tt -> match_stable (MessageInput_ID input) = true.
Proof. unfold validateMessageInput. intros H. apply obind_Ok in H as ([] & H & _). by apply validateStable_Ok in H. Qed.

Lemma stable_not_empty s : match_stable s = true -> is_empty s = false.
Proof. intros H%match_stable_nonempty. destruct (is_empty s) eqn:E; [|done]. by apply is_empty_true in E. Qed.

Lemma create_command_facts command :
  validateCreateCommand command = Ok tt ->
  TaskRef_stable (CreateTask_Task command) = true /\
  validateMessageInput (CreateTask_Message command) = Ok tt.
Proof.
  unfold validateCreateCommand. intros H. ok_inv. apply validateTaskRef_Ok in Hv0.
  split; [done|]. by destruct (validateMessageInput _) as [[]|].
Qed.

Lemma createdRecord_wf command now :
  validateCreateCommand command = Ok tt -> in_int64 now ->
  wf_record (CreateTask_Task command) (createdRecord command now).
Proof.
  intros Hc Hn. split; cbn; unfold MaxInt64; try done; try lia.
  split; cbn; try done. by apply createdTask_valid.
Qed.

Lemma createdEvent_wf command now :
  validateCreateCommand command = Ok tt -> in_int64 now ->
  wf_event (CreateTask_Task command) 1 (createdEvent command now).
Proof.
  intros [Hr Hm]%create_command_facts Hn. split; try done. unfold validateStoredEvent. cbn.
  rewrite task_ref_ok, Hr, (int64_not_zero _ Hn), (stable_not_empty _ (validateMessageInput_stable _ Hm)). done.
Qed.

Lemma wf_conversation_none s ref :
  WF s -> tasks s !! ref = None -> wf_conversation ref (messages s) 0.
Proof.
  intros Hwf Hn n. split; [|lia]. intros (k & m & Hm & Ht & _).
  destruct (wm_task _ _ _ (wf_messages _ Hwf _ _ Hm)) as [r Hr]. congruence.
Qed.

Lemma wf_step_create s command prepared now receipt :
  WF s -> validateCreateCommand command = Ok tt -> in_int64 now ->
  prepared_for (CreateTask_Task command) (CreateTask_Message command) prepared ->
  tasks s !! CreateTask_Task command = None ->
  (forall ref r, tasks s !! ref = Some r ->
    task_authority ref = task_authority (CreateTask_Task command) ->
    TaskRef_ID ref <> TaskRef_ID (CreateTask_Task command)) ->
  new_message s (createdMessage command prepared now) -> new_receipt s receipt ->
  WF (create_commit command prepared now receipt s).
Proof.
  intros Hwf Hc Hn Hp Hfree Hid [Hm1 Hm2] Hr. set (ref := CreateTask_Task command) in *.
  pose proof (create_command_facts _ Hc) as [Href Hmsg].
  assert (forall ref', is_Some (<[ref := createdRecord command now]> (tasks s) !! ref') ->
            ref' = ref \/ (ref' <> ref /\ is_Some (tasks s !! ref'))) as Hsome.
  { intros ref' [r Hr']. apply lookup_insert_Some in Hr' as [[<- _] | [Hne Hr']]; eauto. }
  assert (forall ref', is_Some (tasks s !! ref') ->
            is_Some (<[ref := createdRecord command now]> (tasks s) !! ref')) as Hmono.
  { intros ref' Hs. destruct (decide (ref' = ref)) as [->|Hne]; [rewrite lookup_insert_eq; eauto|].
    by rewrite lookup_insert_ne. }
  assert (forall ref', history (create_commit command prepared now receipt s) ref' =
            if decide (ref = ref') then <[1%Z := {| EventRecord_Event := createdEvent command now |}]> (history s ref')
            else history s ref') as Hhist.
  { intros ref'. apply (history_add_event (add_message (createdMessage command prepared now)
      (add_task (createdRecord command now) s))). }
  split.
  - intros ref' r Hl. cbn in Hl. apply lookup_insert_Some in Hl as [[<- <-] | [Hne Hl]].
    + split; cbn.
      * by apply createdRecord_wf.
      * rewrite Hhist, decide_True, (wf_no_events _ Hwf) by done. rewrite insert_empty.
        apply (wf_history_first _ (createdEvent command now)); [|done]. by apply createdEvent_wf.
      * apply (wf_conversation_extend _ _ 0); try done. by apply wf_conversation_none.
      * apply wf_leases_none. intros n. by apply (wf_no_grants _ Hwf).
      * done.
      * by rewrite (wf_no_submissions _ Hwf).
    + eapply wf_task_frame; [by apply (wf_tasks _ Hwf)| |cbn|done..].
      * by rewrite Hhist, decide_False.
      * intros n Hcv. by apply wf_conversation_frame.
  - intros r1 r2 H1 H2 Ha Hi. apply Hsome in H1 as [-> | [_ H1]], H2 as [-> | [_ H2]]; try done.
    + destruct H2 as [r2' H2]. by destruct (Hid _ _ H2).
    + destruct H1 as [r1' H1]. by destruct (Hid _ _ H1).
    + by apply (wf_ids _ Hwf).
  - intros ref' Hl. cbn in Hl. apply lookup_insert_None in Hl as [Hl Hne].
    rewrite Hhist, decide_False by done. by apply (wf_no_events _ Hwf).
  - intros ref' n Hl. cbn in *. apply lookup_insert_None in Hl as [Hl _]. by apply (wf_no_grants _ Hwf).
  - intros ref' Hl. cbn in *. apply lookup_insert_None in Hl as [Hl _]. by apply (wf_no_submissions _ Hwf).
  - intros k m Hm. cbn in Hm. apply lookup_insert_Some in Hm as [[<- <-] | [_ Hm]].
    + split; try done; [cbn; by rewrite lookup_insert_eq; eauto|]. exists (CreateTask_Message command).
      split_and!; try done. by destruct prepared.
    + eapply wf_message_frame; [by apply (wf_messages _ Hwf) | done].
  - intros k k' m m' H1 H2 Ht Hs. cbn in H1, H2.
    apply lookup_insert_Some in H1 as [[<- <-] | [_ H1]], H2 as [[<- <-] | [_ H2]]; try done.
    + by destruct (Hm2 _ _ H2).
    + by destruct (Hm2 _ _ H1).
    + by eapply (wf_sequences _ Hwf).
  - intros a x Hx. eapply wf_artifact_frame; [by apply (wf_artifacts _ Hwf)| |done].
    intros r Hr'. cbn. exists r. rewrite lookup_insert_ne; [done|]. intros E. cbn in E. fold ref in E. congruence.
  - apply (wf_heads _ Hwf).
  - intros a r Hr'. eapply wf_receipt_frame; [by apply (wf_receipts _ Hwf)|done].
  - intros k r Hk. by eapply wf_commands_add; [apply (wf_commands _ Hwf)|..].
Qed.

(* ------------------------------------------------------------------ *)
(** ** A write to one Task *)

(** Nothing of [ref] changed. *)
Record untouched (s s' : memoryAgentState) (ref : TaskRef) : Prop := {
  un_history : history s' ref = history s ref;
  un_conversation : forall n, wf_conversation ref (messages s) n -> wf_conversation ref (messages s') n;
  un_leases : forall n, grant_at ref n (leaseGrants s') = grant_at ref n (leaseGrants s);
  un_artifacts : forall a x, artifacts s !! a = Some x -> Artifact_Task (ArtifactRecord_Artifact x) = ref ->
    artifacts s' !! a = Some x;
  un_submissions : submissions s' !! ref = submissions s !! ref
}.

(** The message map with at most one new message of [ref]. *)
Definition one_message (s s' : memoryAgentState) (ref : TaskRef) : Prop :=
  messages s' = messages s \/
  exists m, messages s' = <[message_key m := m]> (messages s) /\ new_message s m /\
    MessageRecord_Task m = ref /\ wf_message s' (message_key m) m.

Lemma one_message_conversation s s' ref ref' n :
  one_message s s' ref -> ref' <> ref ->
  wf_conversation ref' (messages s) n -> wf_conversation ref' (messages s') n.
Proof.
  intros [-> | (m & -> & [Hk _] & Ht & _)] Hne Hc; [done|].
  apply wf_conversation_frame; [done|done|]. congruence.
Qed.

(** A state that differs from a well-formed one in one Task and what belongs
    to it is well formed when that Task is. *)
Lemma WF_update s s' ref r r' receipt :
  WF s -> tasks s !! ref = Some r -> tasks s' = <[ref := r']> (tasks s) ->
  wf_task s' ref r' ->
  (forall ref', ref' <> ref -> untouched s s' ref') ->
  one_message s s' ref ->
  (forall a, Task_Artifact (TaskRecord_Task r) = Some a -> Task_Artifact (TaskRecord_Task r') = Some a) ->
  (forall a x, artifacts s' !! a = Some x -> artifacts s !! a = Some x \/ wf_artifact s' a x) ->
  (forall a x, artifacts s !! a = Some x -> Artifact_State (ArtifactRecord_Artifact x) = ArtifactPublished ->
    artifacts s' !! a = Some x) ->
  (forall w, is_Some (workspaceHeads s !! w) -> is_Some (workspaceHeads s' !! w)) ->
  (forall w h, workspaceHeads s' !! w = Some h -> workspaceHeads s !! w = Some h \/ wf_head w h) ->
  applyReceipts s' = applyReceipts s ->
  commands s' = <[CommandKey receipt := receipt]> (commands s) -> new_receipt s receipt ->
  WF s'.
Proof.
  intros Hwf Hr Ht Hnew Hun Hmsg Hart Harts Hpub Hheads Hhead Hrec Hcmd Hreceipt.
  assert (forall ref', is_Some (tasks s' !! ref') <-> is_Some (tasks s !! ref')) as Hsome.
  { intros ref'. rewrite Ht. destruct (decide (ref' = ref)) as [->|Hne].
    - rewrite lookup_insert_eq, Hr. split; eauto.
    - by rewrite lookup_insert_ne. }
  assert (forall ref', tasks s' !! ref' = None -> ref' <> ref /\ tasks s !! ref' = None) as Hnone.
  { intros ref' Hn. rewrite Ht in Hn. apply lookup_insert_None in Hn as [Hn Hne]. split; congruence. }
  assert (forall k m, messages s' !! k = Some m -> messages s !! k = Some m \/
            (k = message_key m /\ new_message s m /\ wf_message s' k m)) as Hms.
  { intros k m Hm. destruct Hmsg as [E | (m' & E & Hn & _ & Hw)]; rewrite E in Hm; [by left|].
    apply lookup_insert_Some in Hm as [[<- <-] | [_ Hm]]; [right|left]; done. }
  split.
  - intros ref' r0 Hl. rewrite Ht in Hl. apply lookup_insert_Some in Hl as [[<- <-] | [Hne Hl]]; [done|].
    destruct (Hun ref' (not_eq_sym Hne)). by eapply wf_task_frame; [apply (wf_tasks _ Hwf)|..].
  - intros r1 r2 H1 H2. rewrite Hsome in H1, H2. by apply (wf_ids _ Hwf).
  - intros ref' Hn. apply Hnone in Hn as [Hne Hn]. destruct (Hun ref' Hne) as [-> _ _ _ _].
    by apply (wf_no_events _ Hwf).
  - intros ref' n Hn. apply Hnone in Hn as [Hne Hn]. destruct (Hun ref' Hne) as [_ _ -> _ _].
    by apply (wf_no_grants _ Hwf).
  - intros ref' Hn. apply Hnone in Hn as [Hne Hn]. destruct (Hun ref' Hne) as [_ _ _ _ ->].
    by apply (wf_no_submissions _ Hwf).
  - intros k m Hm. apply Hms in Hm as [Hm | (-> & _ & Hw)]; [|done].
    eapply wf_message_frame; [by apply (wf_messages _ Hwf)|]. intros ref'. by rewrite Hsome.
  - intros k k' m m' H1 H2 Hta Hs. destruct Hmsg as [E | (m0 & E & [_ Hn] & _ & _)]; rewrite E in H1, H2.
    { by eapply (wf_sequences _ Hwf). }
    apply lookup_insert_Some in H1 as [[<- <-] | [_ H1]], H2 as [[<- <-] | [_ H2]]; try done.
    + by destruct (Hn _ _ H2).
    + by destruct (Hn _ _ H1).
    + by eapply (wf_sequences _ Hwf).
  - intros a x Hx. apply Harts in Hx as [Hx | Hx]; [|done].
    eapply wf_artifact_frame; [by apply (wf_artifacts _ Hwf)| |done].
    intros r0 H0. rewrite Ht. destruct (decide (Artifact_Task (ArtifactRecord_Artifact x) = ref)) as [E|Hne].
    + rewrite E in *. rewrite Hr in H0. injection H0 as <-. exists r'. rewrite lookup_insert_eq. auto.
    + exists r0. by rewrite lookup_insert_ne by done.
  - intros w h Hh. apply Hhead in Hh as [Hh | Hh]; [by apply (wf_heads _ Hwf)|done].
  - intros a p Hp. rewrite Hrec in Hp. eapply wf_receipt_frame; [by apply (wf_receipts _ Hwf)|intros x; apply Hpub].
  - intros k c Hk. rewrite Hcmd in Hk. by eapply wf_commands_add; [apply (wf_commands _ Hwf)|..].
Qed.

(* ------------------------------------------------------------------ *)
(** ** Leases *)

(** The clauses of [WF_update] for a state with the same conversation,
    history, artifacts, submissions, heads and receipts. *)
Lemma with_lease_wf ref r owner fence :
  wf_record ref r -> (0 <= fence <= MaxInt64)%Z ->
  (owner <> "" -> fence <> 0%Z /\ Terminal (Task_State (TaskRecord_Task r)) = false) ->
  wf_record ref (with_lease r owner fence).
Proof. intros [H1 [Hv Ho Ha Hf] H3 H4 H5 H6 H7 H8] Hfe Hown. by split. Qed.

Lemma grant_time clock updated previous created ref n g s :
  in_int64 clock -> in_int64 updated -> (created <= updated)%Z ->
  match grant_at ref n s with
  | Some g => previous = GrantRecord_GrantedAt g /\ in_int64 previous
  | None => previous = zero_time
  end ->
  let now := timestampAtLeast clock [updated; previous] in
  in_int64 now /\ (created <= now)%Z /\ (grant_at ref n s = Some g -> (GrantRecord_GrantedAt g <= now)%Z).
Proof.
  intros Hc Hu Hcu Hp now. destruct (timestampAtLeast_spec clock [updated; previous]) as (Hin & Hle & Hall).
  fold now in Hin, Hle, Hall. apply Forall_cons in Hall as [H1 Hall]. apply Forall_cons in Hall as [H2 _].
  split_and!.
  - destruct Hin as [-> | Hin]; [done|]. apply elem_of_cons in Hin as [-> | Hin]; [done|].
    apply list_elem_of_singleton in Hin. destruct (grant_at ref n s); [destruct Hp as [-> ?]; by rewrite Hin|].
    subst previous. exfalso. unfold in_int64 in Hc. unfold zero_time in *. lia.
  - lia.
  - intros E. rewrite E in Hp. destruct Hp as [-> _]. done.
Qed.

Lemma wf_step_grant s ref r worker previous clock now receipt :
  WF s -> current_task s ref r -> match_stable worker = true ->
  Terminal (Task_State (TaskRecord_Task r)) = false ->
  (Lease_Fence (TaskRecord_Lease r) < MaxInt64)%Z ->
  validateLeaseHistoryHeadFromStore s r = Ok previous -> in_int64 clock ->
  now = timestampAtLeast clock [Task_UpdatedAt (TaskRecord_Task r); previous] ->
  new_receipt s receipt -> WF (grant_commit r worker now receipt s).
Proof.
  intros Hwf [Hr Href _] Hw Ht Hmax Hprev Hclock -> Hreceipt.
  pose proof (wf_tasks _ Hwf _ _ Hr) as [Hrec Hh Hcv Hl Hart Hsub].
  pose proof (history_head _ _ _ _ Hwf Hr Hprev) as Hhead.
  set (now := timestampAtLeast _ _). set (g := next_grant r worker now).
  pose proof (wr_fence _ _ Hrec) as Hfence.
  assert (wf_grant ref (Lease_Fence (TaskRecord_Lease r) + 1) (Task_CreatedAt (TaskRecord_Task r)) g /\
    forall g', grant_at ref (Lease_Fence (TaskRecord_Lease r)) (leaseGrants s) = Some g' ->
      (GrantRecord_GrantedAt g' <= GrantRecord_GrantedAt g)%Z) as [Hg Hlast].
  { assert (forall g', in_int64 now /\ (Task_CreatedAt (TaskRecord_Task r) <= now)%Z /\
      (grant_at ref (Lease_Fence (TaskRecord_Lease r)) (leaseGrants s) = Some g' ->
        (GrantRecord_GrantedAt g' <= now)%Z)) as Hn.
    { intros g'. apply grant_time; try apply Hrec; [done|]. destruct (grant_at _ _ _) as [g0|] eqn:E; [|done].
      split; [done|]. rewrite Hhead. by apply (wl_grant _ _ _ _ Hl _ _ E). }
    split; [|intros g'; apply Hn]. destruct (Hn g) as (H1 & H2 & _). by split. }
  eapply (WF_update s _ ref r (with_lease r worker (Lease_Fence (TaskRecord_Lease r) + 1))); try done.
  - cbn. by rewrite Href.
  - split; try done.
    + apply with_lease_wf; [done|lia|]. intros _. split; [lia|done].
    + cbn. unfold lease_key. cbn. rewrite Href. apply (wf_leases_extend _ _ _ _ g); [done|lia|done..].
  - intros ref' Hne. split; try done. intros n. cbn. unfold lease_key. cbn. rewrite Href.
    apply grant_at_insert_ne. by left.
  - by left.
  - auto.
  - auto.
Qed.

Lemma wf_step_fence s ref r grant receipt :
  WF s -> current_task s ref r -> current_grant s r grant -> new_receipt s receipt ->
  WF (fence_commit r receipt s).
Proof.
  intros Hwf [Hr Href _] Hg Hreceipt. pose proof (wf_tasks _ Hwf _ _ Hr) as [Hrec Hh Hcv Hl Hart Hsub].
  eapply (WF_update s _ ref r (with_lease r "" (Lease_Fence (TaskRecord_Lease r)))); try done.
  - cbn. by rewrite Href.
  - split; try done.
    + apply with_lease_wf; [done|apply Hrec|done].
    + by apply wf_leases_retire.
  - by left.
  - auto.
  - auto.
Qed.

(* ------------------------------------------------------------------ *)
(** ** FreezeArtifact *)

Lemma revision_stable_ok r : validateRevision r = Ok tt -> is_ok (validateRevision r) = true.
Proof. by intros ->. Qed.

(** A frozen Artifact's metadata is valid, but for the fixed point. *)
Lemma artifactIdentity_valid command now :
  TaskRef_stable (FreezeArtifact_Task command) = true ->
  validateRevision (FreezeArtifact_ExpectedBaseRevision command) = Ok tt ->
  validateStable (FreezeArtifact_Artifact command) = Ok tt ->
  validateArtifactPayloadShape (FreezeArtifact_Payload command) = Ok tt -> in_int64 now ->
  Artifact_BaseRevision (artifactIdentity command now) <> Artifact_ResultRevision (artifactIdentity command now) ->
  validateStoredArtifactMetadata (artifactIdentity command now) = Ok tt.
Proof.
  intros Ht Hb Ha Hp Hn Hne. unfold validateStoredArtifactMetadata.
  apply validateStable_Ok in Ha. unfold validateArtifactPayloadShape in Hp. ok_inv.
  bool_split. zbool. cbn in Hne.
  assert (ArtifactRef_stable (freezeRef command) = true) as Hr.
  { unfold TaskRef_stable in Ht. apply andb_true_iff in Ht as [Ht _]. unfold ArtifactRef_stable. cbn. by rewrite Ht, Ha. }
  cbn [artifactIdentity Artifact_Ref Artifact_Task Artifact_State Artifact_BaseRevision Artifact_ResultRevision
    Artifact_Digest Artifact_PayloadDigest Artifact_PayloadSize Artifact_MediaType Artifact_FrozenAt
    Artifact_PublishedAt Artifact_DiscardedAt].
  rewrite artifact_ref_ok, task_ref_ok, Hr, Ht, (int64_not_zero _ Hn).
  unfold nextRevision, digestArtifact, digestPayload in *. rewrite Hb, validateRevision_sha256, !validateDigest_sha256.
  rewrite (bool_decide_eq_false_2 (_ = sha256Identity _)) by done. rewrite !bool_decide_eq_true_2 by done.
  pose proof (len_nonneg (Payload_Data (FreezeArtifact_Payload command))).
  rewrite Z.gtb_ltb, (proj2 (Z.leb_gt _ _)), (proj2 (Z.ltb_ge _ _)) by lia. done.
Qed.

Lemma prepared_payload_bounds agent ctx a payload encoded :
  prepareArtifactPayload agent ctx a payload = Ok encoded -> (0 < len encoded <= maxStoredArtifactBytes)%Z.
Proof.
  unfold prepareArtifactPayload. intros H. ok_inv. bool_split. zbool. pose proof (len_nonneg encoded). lia.
Qed.

Lemma frozenRecord_wf ref r a now :
  wf_record ref r -> Task_State (TaskRecord_Task r) = TaskWorking ->
  (Task_Revision (TaskRecord_Task r) < MaxInt64)%Z -> in_int64 now ->
  (Task_UpdatedAt (TaskRecord_Task r) <= now)%Z ->
  ArtifactRef_stable a = true -> ArtifactRef_Workspace a = TaskRef_Workspace ref ->
  wf_record ref (frozenRecord r a now).
Proof.
  intros [Href [Hv Ho Ha Hf] Hc Hu Hrev Hm Hfe Hturn] Hst Hmax Hn Hle Hsa Hw.
  split; try done; [|cbn; lia]. split; cbn; try done.
  - destruct Hv. split; cbn; try done; try lia.
    + intros x [= <-]. split; [done|]. by rewrite Href.
    + intros sub Hs. exfalso. assert (Task_State (TaskRecord_Task r) = TaskCompleted) by (apply vt_completed; eauto).
      congruence.
  - intros x [= <-]. by rewrite Hst.
Qed.

Lemma pin_head_wf s w base now :
  WF s -> validateRevision base = Ok tt -> in_int64 now ->
  (forall w', is_Some (workspaceHeads s !! w') -> is_Some (workspaceHeads (pin_head w base now s) !! w')) /\
  is_Some (workspaceHeads (pin_head w base now s) !! w) /\
  forall w' h, workspaceHeads (pin_head w base now s) !! w' = Some h ->
    workspaceHeads s !! w' = Some h \/ wf_head w' h.
Proof.
  intros Hwf Hb Hn. unfold pin_head. destruct (workspaceHeads s !! w) as [h0|] eqn:E.
  { split_and!; eauto. }
  cbn. split_and!.
  - intros w' Hs. destruct (decide (w = w')) as [<-|Hne]; [rewrite lookup_insert_eq; eauto|by rewrite lookup_insert_ne].
  - rewrite lookup_insert_eq. eauto.
  - intros w' h Hh. apply lookup_insert_Some in Hh as [[<- <-] | [_ Hh]]; [right|by left]. by split.
Qed.

Lemma pin_head_same s w base now :
  let s' := pin_head w base now s in
  commands s' = commands s /\ tasks s' = tasks s /\ messages s' = messages s /\ events s' = events s /\
  leaseGrants s' = leaseGrants s /\ artifacts s' = artifacts s /\ submissions s' = submissions s /\
  applyReceipts s' = applyReceipts s.
Proof. unfold pin_head. by destruct (workspaceHeads s !! w). Qed.

Lemma history_same s s' ref : events s' = events s -> history s' ref = history s ref.
Proof. unfold history. by intros ->. Qed.

Lemma wf_step_freeze s command r payload clock now receipt :
  WF s -> validateRevision (FreezeArtifact_ExpectedBaseRevision command) = Ok tt ->
  validateStable (FreezeArtifact_Artifact command) = Ok tt ->
  validateArtifactPayloadShape (FreezeArtifact_Payload command) = Ok tt ->
  (exists agent ctx, prepareArtifactPayload agent ctx (artifactIdentity command zero_time)
                       (FreezeArtifact_Payload command) = Ok payload) ->
  current_task s (FreezeArtifact_Task command) r ->
  Task_State (TaskRecord_Task r) = TaskWorking -> Task_Artifact (TaskRecord_Task r) = None ->
  (Task_Revision (TaskRecord_Task r) < MaxInt64)%Z ->
  in_int64 clock -> now = timestampAtLeast clock [Task_UpdatedAt (TaskRecord_Task r)] ->
  artifacts s !! freezeRef command = None -> new_receipt s receipt ->
  WF (freeze_commit command r payload now receipt s).
Proof.
  intros Hwf Hb Ha Hp (agent & ctx & Hpp) [Hr Href _] Hst Hnone Hmax Hclock Enow Hfree Hreceipt.
  set (ref := FreezeArtifact_Task command) in *. set (a := freezeRef command) in *.
  pose proof (wf_tasks _ Hwf _ _ Hr) as [Hrec Hh Hcv Hl Hart Hsub].
  assert (in_int64 now) as Hn.
  { subst now. apply timestamp_in_int64; [done|]. constructor; [apply Hrec|constructor]. }
  assert (Task_UpdatedAt (TaskRecord_Task r) <= now)%Z as Hle by (subst now; apply timestamp_floor).
  pose proof (vr_task _ (wr_valid _ _ Hrec)) as Hvt.
  assert (TaskRef_stable ref = true) as Hrs by (rewrite <- Href; apply Hvt).
  assert (ArtifactRef_stable a = true) as Has.
  { apply validateStable_Ok in Ha. unfold TaskRef_stable in Hrs. apply andb_true_iff in Hrs as [Hws _].
    unfold ArtifactRef_stable, a. cbn. fold ref. by rewrite Hws, Ha. }
  destruct (pin_head_wf s (TaskRef_Workspace ref) _ now Hwf Hb Hn) as (Hh1 & Hh2 & Hh3).
  destruct (pin_head_same s (TaskRef_Workspace ref) (FreezeArtifact_ExpectedBaseRevision command) now)
    as (Ec & Et & Em & Ee & El & Ea & Es & Er).
  set (s1 := pin_head _ _ now s) in *. set (r' := frozenRecord r a now).
  set (x := {| ArtifactRecord_Artifact := artifactIdentity command now; ArtifactRecord_EncodedPayload := payload |}).
  set (e := frozenEvent ref a (frozenTask (TaskRecord_Task r) a now) now).
  change (WF (add_command receipt (add_event e (add_task r' (add_artifact x s1))))).
  assert (forall ref', history (add_command receipt (add_event e (add_task r' (add_artifact x s1)))) ref' =
    if decide (ref = ref') then <[Event_Sequence e := {| EventRecord_Event := e |}]> (history s ref')
    else history s ref') as Hhist.
  { intros ref'. rewrite <- !(history_same s s1) by done.
    apply (history_add_event (add_task r' (add_artifact x s1))). }
  eapply (WF_update s _ ref r r'); try done.
  - cbn. by rewrite Href, Et.
  - split.
    + by apply frozenRecord_wf.
    + rewrite Hhist, decide_True by done. pose proof (vt_events _ Hvt) as Hev. rewrite Hev in Hh.
      pose proof (wr_revision _ _ Hrec).
      replace (Event_Sequence e) with (Task_Revision (TaskRecord_Task r) + 1)%Z by (cbn; lia).
      replace (Task_EventCount (TaskRecord_Task r')) with (Task_Revision (TaskRecord_Task r) + 1)%Z by (cbn; lia).
      replace (Task_State (TaskRecord_Task r')) with (Event_State e) by (cbn; congruence).
      apply (wf_history_extend _ _ _ _ _ e Hh); [lia| |rewrite Hst; constructor|done].
      split; try done; [cbn; lia|]. unfold validateStoredEvent, e. cbn.
      rewrite task_ref_ok, Hrs, Hev, (int64_not_zero _ Hn), Z.eqb_refl.
      rewrite !Z.gtb_ltb, !(proj2 (Z.ltb_ge _ _)), !(proj2 (Z.eqb_neq _ _)) by lia. cbn.
      apply validateStable_Ok, stable_not_empty in Ha. by rewrite Ha.
    + cbn. by rewrite Em.
    + cbn. by rewrite El.
    + intros a' [= <-]. exists x. cbn. rewrite lookup_insert_eq. split_and!; try done.
    + cbn. by rewrite Es.
  - intros ref' Hne. split; cbn; rewrite ?Em, ?El, ?Es; try done.
    + rewrite Hhist. by rewrite decide_False.
    + intros a' x' Hx' Ht'. rewrite Ea, lookup_insert_ne; [done|]. intros E. cbn in E. fold a in E. congruence.
  - left. cbn. done.
  - congruence.
  - intros a' x' Hx'. cbn in Hx'. apply lookup_insert_Some in Hx' as [[<- <-] | [_ Hx']];
      [right | left; by rewrite <- Ea].
    split; try done.
    + cbn. by apply artifactIdentity_valid.
    + by eapply prepared_payload_bounds.
    + exists r'. cbn. fold ref. rewrite Href, lookup_insert_eq. done.
  - intros a' x' Hx' _. cbn. rewrite Ea, lookup_insert_ne; [done|]. intros E. cbn in E. fold a in E. congruence.
  - cbn. by rewrite Ec.
Qed.

(* ------------------------------------------------------------------ *)
(** ** Transitions *)

Definition moved_artifacts (move : option (ArtifactRef * (ArtifactState * option time * option time)))
    (m : gmap ArtifactRef StoreArtifactRecord) : gmap ArtifactRef StoreArtifactRecord :=
  match move with
  | Some (a, (state, published, discarded)) =>
      match m !! a with
      | Some x => <[a := artifact_with x state published discarded]> m
      | None => m
      end
  | None => m
  end.

(** The maps after a transition. *)
Lemma transition_commit_fields ref change r prepared now receipt s :
  let next := transitionTask ref change (TaskRecord_Task r) now in
  let s' := transition_commit ref change r prepared now receipt s in
  commands s' = <[CommandKey receipt := receipt]> (commands s) /\
  tasks s' = <[Task_Ref (TaskRecord_Task r) := transitionRecord change r next]> (tasks s) /\
  messages s' = match changeMessage ref change next prepared now with
                | Some m => <[message_key m := m]> (messages s)
                | None => messages s
                end /\
  (forall ref', history s' ref' =
     if decide (ref = ref')
     then <[Task_EventCount next := {| EventRecord_Event := transitionEvent ref change next now |}]> (history s ref')
     else history s ref') /\
  leaseGrants s' = leaseGrants s /\
  artifacts s' = moved_artifacts (changeArtifact change (TaskRecord_Task r) now) (artifacts s) /\
  submissions s' = match transitionSubmission ref change now with
                   | Some x => <[Submission_Task x := {| SubmissionRecord_Submission := x |}]> (submissions s)
                   | None => submissions s
                   end /\
  workspaceHeads s' = workspaceHeads s /\ applyReceipts s' = applyReceipts s.
Proof.
  intros next s'.
  assert (forall e o1 o2 o3 s0, let s1 := if_some (fun submission => add_submission
              {| SubmissionRecord_Submission := submission |}) o1
            (if_some (fun move => move_artifact (fst move) (snd move)) o2 (if_some add_message o3 s0)) in
          commands s1 = commands s0 /\ tasks s1 = tasks s0 /\
          messages s1 = match o3 with Some m => <[message_key m := m]> (messages s0) | None => messages s0 end /\
          (forall ref', history (add_event e s1) ref' = if decide (Event_Task e = ref')
             then <[Event_Sequence e := {| EventRecord_Event := e |}]> (history s0 ref') else history s0 ref') /\
          leaseGrants s1 = leaseGrants s0 /\
          artifacts s1 = moved_artifacts o2 (artifacts s0) /\
          submissions s1 = match o1 with
            | Some x => <[Submission_Task x := {| SubmissionRecord_Submission := x |}]> (submissions s0)
            | None => submissions s0 end /\
          workspaceHeads s1 = workspaceHeads s0 /\ applyReceipts s1 = applyReceipts s0) as Hf.
  { intros e o1 o2 o3 s0 s1.
    assert (events s1 = events s0) as He.
    { subst s1. destruct o1, o2 as [[a [[st p] d]]|], o3; cbn; try done;
        (destruct (artifacts s0 !! a); done). }
    split_and!; try (intros ref'; rewrite history_add_event, (history_same s0 s1) by done; done);
      clear He; subst s1; destruct o1, o2 as [[a [[st p] d]]|], o3; cbn; try done;
      destruct (artifacts s0 !! a); done. }
  destruct (Hf (transitionEvent ref change next now) (transitionSubmission ref change now)
    (changeArtifact change (TaskRecord_Task r) now) (changeMessage ref change next prepared now)
    (add_task (transitionRecord change r next) s)) as (E1 & E).
  split; [|exact E]. exact (f_equal (insert (CommandKey receipt) receipt) E1).
Qed.

Lemma validate_artifact_with x state published discarded now :
  Artifact_State (ArtifactRecord_Artifact x) = ArtifactFrozen ->
  (Artifact_FrozenAt (ArtifactRecord_Artifact x) <= now)%Z ->
  (state, published, discarded) = (ArtifactPublished, Some now, None) \/
  (state, published, discarded) = (ArtifactDiscarded, None, Some now) ->
  validateStoredArtifactMetadata (ArtifactRecord_Artifact x) = Ok tt ->
  validateStoredArtifactMetadata (ArtifactRecord_Artifact (artifact_with x state published discarded)) = Ok tt.
Proof.
  intros _ Hle Hto Hv. unfold validateStoredArtifactMetadata in *. cbn.
  apply obind_Ok in Hv as ([] & H1 & Hv). apply obind_Ok in Hv as ([] & H2 & Hv).
  apply obind_Ok in Hv as ([] & _ & Hv). cbn in H1, H2, Hv. rewrite H1, H2, Hv. cbn [obind].
  destruct Hto as [[= -> -> ->] | [= -> -> ->]]; unfold Before; rewrite (proj2 (Z.ltb_ge _ _)) by lia; done.
Qed.

#[local] Arguments containsState : simpl never.

Lemma containsState_elem states state : containsState states state = true -> state ∈ states.
Proof.
  unfold containsState. intros (x & Hin & E)%existsb_exists. decided. subst. by apply list_elem_of_In.
Qed.

(** The states a change is allowed in, one by one. *)
Ltac allowed_states H :=
  apply containsState_elem in H; cbn in H;
  repeat lazymatch type of H with
    | _ ∈ [] => by apply elem_of_nil in H
    | _ ∈ _ :: _ => apply elem_of_cons in H as [H | H]
    end.

(** What the Artifact state of a Task becomes fits the state it goes to. *)
Lemma transition_artifact_fits change leased r next a :
  task_change change leased -> valid_record r ->
  containsState (change_allowed change) (Task_State (TaskRecord_Task r)) = true ->
  (is_empty (change_submission change) = false -> Task_Artifact (TaskRecord_Task r) = change_artifact change) ->
  TaskRecord_ArtifactState (transitionRecord change r next) = Some a ->
  artifact_fits a (change_next change) = true.
Proof.
  intros Hch [_ _ Ha Hf] Hs Hg. cbn. destruct Hch as [| |m|m| | |c Hsub Hm];
    cbn in *; allowed_states Hs; rewrite Hs in Hf;
    try (intros E; specialize (Hf a E); destruct a; (done || (unfold artifact_fits in *; by cbn in *))).
  all: destruct (Task_Artifact (TaskRecord_Task r)) as [x|] eqn:Ex; cbn in *;
    try (by intros [= <-]); try (intros E; by rewrite E in Ha).
  all: apply validateStable_Ok, stable_not_empty in Hsub; rewrite <- Hg by done; cbn;
    first [by intros [= <-] | intros E; by rewrite E in Ha].
Qed.

Lemma transitionRecord_wf ref change leased r now :
  task_change change leased -> wf_record ref r -> Terminal (Task_State (TaskRecord_Task r)) = false ->
  containsState (change_allowed change) (Task_State (TaskRecord_Task r)) = true ->
  (Task_Revision (TaskRecord_Task r) < MaxInt64)%Z -> in_int64 now ->
  (Task_UpdatedAt (TaskRecord_Task r) <= now)%Z ->
  (is_empty (change_submission change) = false -> Task_Artifact (TaskRecord_Task r) = change_artifact change) ->
  wf_record ref (transitionRecord change r (transitionTask ref change (TaskRecord_Task r) now)).
Proof.
  intros Hch [Href Hv Hc Hu Hrev Hm Hfe Hturn] Ht Hs Hmax Hn Hle Hg.
  assert (0 < Task_MessageCount (transitionTask ref change (TaskRecord_Task r) now))%Z as Hpos.
  { cbn. destruct (is_none _); lia. }
  split; try done.
  - split.
    + apply transitionTask_valid; try done; [apply Hv|by eapply task_change_sound|by apply int64_not_zero].
    + cbn. destruct (Terminal (change_next change)); [done|]. intros Hne. by destruct (vr_owner _ Hv Hne).
    + pose proof (vr_artifact _ Hv) as Ha. cbn. destruct Hch as [| |m|m| | |c Hsub Hmsg]; cbn in *; try done.
      * destruct (Task_Artifact _); done.
      * destruct (Task_Artifact _); done.
      * apply validateStable_Ok, stable_not_empty in Hsub. specialize (Hg Hsub).
        destruct (CompleteTask_Artifact c); cbn in *; [by rewrite Hg|done].
    + intros a Ha. cbn [TaskRecord_Task transitionRecord Task_State transitionTask].
      by eapply transition_artifact_fits.
  - cbn. lia.
  - cbn. destruct Hch as [| |m|m| | |c Hsub Hmsg]; cbn in *; allowed_states Hs; rewrite Hs in Hturn; cbn in Hturn;
      try done; Z.to_euclidean_division_equations; lia.
Qed.

Lemma transitionEvent_wf ref change leased r now :
  task_change change leased -> wf_record ref r ->
  (Task_Revision (TaskRecord_Task r) < MaxInt64)%Z -> in_int64 now ->
  wf_event ref (Task_EventCount (TaskRecord_Task r) + 1)
    (transitionEvent ref change (transitionTask ref change (TaskRecord_Task r) now) now).
Proof.
  intros Hch [Href Hv Hc Hu Hrev Hm Hfe Hturn] Hmax Hn. pose proof (vr_task _ Hv) as Hvt.
  pose proof (vt_events _ Hvt) as Hev. pose proof (vt_ref _ Hvt) as Hr. rewrite Href in Hr.
  split; try done. unfold validateStoredEvent.
  cbn [transitionEvent transitionTask Event_Task Event_Sequence Event_Revision Event_OccurredAt Task_EventCount
    Task_Revision Event_Type Event_State Task_State Event_Message Event_Submission Event_Artifact].
  rewrite task_ref_ok, Hr, Hev, (int64_not_zero _ Hn), Z.eqb_refl.
  rewrite !Z.gtb_ltb, !(proj2 (Z.ltb_ge _ _)), !(proj2 (Z.eqb_neq _ _)) by lia.
  destruct Hch as [| |m Hmsg|m Hmsg| | |c Hsub Hmsg]; try done; cbn;
    rewrite (stable_not_empty _ (validateMessageInput_stable _ Hmsg)); try done.
  apply validateStable_Ok, stable_not_empty in Hsub. by rewrite Hsub.
Qed.

Lemma changeMessage_wf s ref change leased r prepared now m :
  task_change change leased -> wf_record ref r ->
  containsState (change_allowed change) (Task_State (TaskRecord_Task r)) = true ->
  is_Some (tasks s !! ref) -> in_int64 now ->
  (forall input, change_message change = Some input -> prepared_for ref input prepared) ->
  changeMessage ref change (transitionTask ref change (TaskRecord_Task r) now) prepared now = Some m ->
  MessageRecord_Task m = ref /\ MessageRecord_Sequence m = (Task_MessageCount (TaskRecord_Task r) + 1)%Z /\
  wf_message s (message_key m) m.
Proof.
  intros Hch [Href Hv Hc Hu Hrev Hm Hfe Hturn] Hs Hsome Hn Hp. unfold changeMessage.
  destruct (change_message change) as [input|] eqn:Em; [|done]. intros [= <-]. cbn. rewrite Em. cbn.
  split_and!; try done. specialize (Hp input eq_refl).
  assert (validateMessageInput input = Ok tt /\ change_author change =
            author_of (Task_MessageCount (TaskRecord_Task r) + 1)) as [Hv' Ha].
  { destruct Hch as [| |i Hmsg|i Hmsg| | |c Hsub Hmsg]; cbn in *; try done; injection Em as <-;
      (split; [done|]); allowed_states Hs; rewrite Hs in Hturn; cbn in Hturn; unfold author_of;
      destruct (Z.eqb_spec ((Task_MessageCount (TaskRecord_Task r) + 1) mod 2) 1); try done;
      exfalso; Z.to_euclidean_division_equations; lia. }
  split; try done; cbn.
  - exists input. split_and!; try done. by destruct prepared.
Qed.

(** The Artifacts after a transition: those of other Tasks and the published
    ones are as they were; a moved one is valid. *)
Lemma moved_artifacts_lookup move m a x :
  moved_artifacts move m !! a = Some x ->
  m !! a = Some x \/ exists state p d y, move = Some (a, (state, p, d)) /\ m !! a = Some y /\
    x = artifact_with y state p d.
Proof.
  destruct move as [[a' [[state p] d]]|]; cbn; [|by left].
  destruct (m !! a') as [y|] eqn:Ey; [|by left]. intros H.
  apply lookup_insert_Some in H as [[<- <-] | [_ H]]; [right|by left]. by exists state, p, d, y.
Qed.

Lemma moved_artifacts_other move m a x :
  m !! a = Some x -> (forall to, move <> Some (a, to)) -> moved_artifacts move m !! a = Some x.
Proof.
  intros Ha Hne. destruct move as [[a' [[state p] d]]|]; cbn; [|done].
  destruct (m !! a') as [y|] eqn:Ey; [|done]. rewrite lookup_insert_ne; [done|].
  intros ->. by destruct (Hne (state, p, d)).
Qed.

Lemma moved_artifacts_moved a state p d m x :
  m !! a = Some x ->
  moved_artifacts (Some (a, (state, p, d))) m !! a = Some (artifact_with x state p d).
Proof. cbn. intros ->. by rewrite lookup_insert_eq. Qed.

(** What a transition moves is the Task's own Artifact, to the state the
    record takes. *)
Lemma changeArtifact_own change leased r next now a to :
  task_change change leased ->
  (is_empty (change_submission change) = false -> Task_Artifact (TaskRecord_Task r) = change_artifact change) ->
  changeArtifact change (TaskRecord_Task r) now = Some (a, to) ->
  Task_Artifact (TaskRecord_Task r) = Some a /\
  (to = (ArtifactPublished, Some now, None) \/ to = (ArtifactDiscarded, None, Some now)) /\
  TaskRecord_ArtifactState (transitionRecord change r next) = Some (fst (fst to)).
Proof.
  intros Hch Hg Hm. unfold changeArtifact in Hm. cbn.
  destruct Hch as [| |m|m| | |c Hsub Hmsg]; cbn in *; try done;
    try (destruct (Task_Artifact (TaskRecord_Task r)); [|done]; injection Hm as <- <-; eauto).
  apply validateStable_Ok, stable_not_empty in Hsub. rewrite Hg by done.
  destruct (CompleteTask_Artifact c); [|done]. injection Hm as <- <-. eauto.
Qed.

Lemma changeArtifact_none change leased r next now :
  task_change change leased -> changeArtifact change (TaskRecord_Task r) now = None ->
  TaskRecord_ArtifactState (transitionRecord change r next) = TaskRecord_ArtifactState r.
Proof.
  intros Hch Hm. unfold changeArtifact in Hm. cbn.
  destruct Hch as [| |m|m| | |c Hsub Hmsg]; cbn in *; try done;
    try (by destruct (Task_Artifact (TaskRecord_Task r))).
  by destruct (CompleteTask_Artifact c).
Qed.

Lemma transition_artifact_wf s ref change leased r next now a :
  wf_task s ref r -> task_change change leased ->
  (is_empty (change_submission change) = false -> Task_Artifact (TaskRecord_Task r) = change_artifact change) ->
  (Task_UpdatedAt (TaskRecord_Task r) <= now)%Z ->
  Task_Artifact (TaskRecord_Task r) = Some a ->
  exists x, moved_artifacts (changeArtifact change (TaskRecord_Task r) now) (artifacts s) !! a = Some x /\
    Artifact_Task (ArtifactRecord_Artifact x) = ref /\
    TaskRecord_ArtifactState (transitionRecord change r next) = Some (Artifact_State (ArtifactRecord_Artifact x)) /\
    (Artifact_FrozenAt (ArtifactRecord_Artifact x) <= now)%Z.
Proof.
  intros [Hrec Hh Hcv Hl Hart Hsub] Hch Hg Hle Ha. destruct (Hart a Ha) as (x & Hx & Ht & Hst & Hf).
  destruct (changeArtifact change (TaskRecord_Task r) now) as [[a' [[state p] d]]|] eqn:Em.
  - destruct (changeArtifact_own _ _ _ next _ _ _ Hch Hg Em) as (Ha' & Hto & Hst').
    assert (a' = a) as -> by congruence. exists (artifact_with x state p d).
    rewrite (moved_artifacts_moved _ _ _ _ _ _ Hx). rewrite Hst'. cbn. split_and!; try done. lia.
  - exists x. rewrite (changeArtifact_none _ _ _ next _ Hch Em). split_and!; try done. lia.
Qed.

Lemma wf_step_transition s ref change leased r prepared clock now receipt :
  WF s -> task_change change leased -> current_task s ref r ->
  Terminal (Task_State (TaskRecord_Task r)) = false ->
  containsState (change_allowed change) (Task_State (TaskRecord_Task r)) = true ->
  (Task_Revision (TaskRecord_Task r) < MaxInt64)%Z ->
  in_int64 clock -> now = timestampAtLeast clock [Task_UpdatedAt (TaskRecord_Task r)] ->
  (is_empty (change_submission change) = false -> Task_Artifact (TaskRecord_Task r) = change_artifact change) ->
  (forall input, change_message change = Some input -> prepared_for ref input prepared) ->
  (forall m, changeMessage ref change (transitionTask ref change (TaskRecord_Task r) now) prepared now = Some m ->
    new_message s m) ->
  (forall a to, changeArtifact change (TaskRecord_Task r) now = Some (a, to) ->
    exists x, artifacts s !! a = Some x /\ Artifact_Task (ArtifactRecord_Artifact x) = ref /\
      Artifact_State (ArtifactRecord_Artifact x) = ArtifactFrozen) ->
  new_receipt s receipt -> WF (transition_commit ref change r prepared now receipt s).
Proof.
  intros Hwf Hch [Hr Href _] Ht Hs Hmax Hclock Enow Hg Hp Hnewm Hmoved Hreceipt.
  pose proof (wf_tasks _ Hwf _ _ Hr) as Hwt. pose proof Hwt as [Hrec Hh Hcv Hl Hart Hsub].
  assert (in_int64 now) as Hn.
  { subst now. apply timestamp_in_int64; [done|]. constructor; [apply Hrec|constructor]. }
  assert (Task_UpdatedAt (TaskRecord_Task r) <= now)%Z as Hle by (subst now; apply timestamp_floor).
  clear Enow Hclock. set (next := transitionTask ref change (TaskRecord_Task r) now) in *.
  destruct (transition_commit_fields ref change r prepared now receipt s)
    as (Ec & Et & Em & Eh & El & Ea & Es & Ew & Er).
  fold next in Et, Em, Eh. set (s' := transition_commit ref change r prepared now receipt s) in *.
  set (r' := transitionRecord change r next) in *. rewrite Href in Et.
  pose proof (vt_events _ (vr_task _ (wr_valid _ _ Hrec))) as Hev. pose proof (wr_revision _ _ Hrec) as Hrev.
  eapply (WF_update s s' ref r r'); try done.
  - split.
    + by eapply transitionRecord_wf.
    + rewrite Eh, decide_True by done. change (Task_EventCount next) with (Task_EventCount (TaskRecord_Task r) + 1)%Z.
      eapply (wf_history_extend _ _ _ _ _ (transitionEvent ref change next now) Hh); [lia| | |done].
      * by eapply transitionEvent_wf.
      * by eapply task_change_lifecycle.
    + rewrite Em. destruct (changeMessage ref change next prepared now) as [m|] eqn:Hm.
      * destruct (changeMessage_wf s _ _ _ _ _ _ _ Hch Hrec Hs ltac:(eauto) Hn Hp Hm) as (H1 & H2 & _).
        unfold changeMessage in Hm. destruct (Hnewm m eq_refl) as [Hk _].
        replace (Task_MessageCount (TaskRecord_Task r')) with (Task_MessageCount (TaskRecord_Task r) + 1)%Z.
        { apply wf_conversation_extend; try done. pose proof (wr_messages _ _ Hrec). lia. }
        cbn. by destruct (change_message change).
      * unfold changeMessage in Hm. cbn. by destruct (change_message change).
    + rewrite El. replace (TaskRecord_Lease r') with
        (if Terminal (change_next change)
         then {| Lease_Owner := ""; Lease_Fence := Lease_Fence (TaskRecord_Lease r) |} else TaskRecord_Lease r).
      2:{ unfold r', transitionRecord, next, transitionTask. cbn [TaskRecord_Lease TaskRecord_Task Task_State].
          destruct (Terminal (change_next change)); [done|]. by destruct (TaskRecord_Lease r). }
      destruct (Terminal (change_next change)); [by apply wf_leases_retire|done].
    + rewrite Ea. intros a Hta. by eapply transition_artifact_wf.
    + rewrite Es. cbn. unfold transitionSubmission. destruct (is_empty (change_submission change)); [done|].
      cbn. by rewrite lookup_insert_eq.
  - intros ref' Hne. split.
    + rewrite Eh. by rewrite decide_False.
    + intros n Hc. rewrite Em. destruct (changeMessage ref change next prepared now) as [m|] eqn:Hm; [|done].
      destruct (changeMessage_wf s _ _ _ _ _ _ _ Hch Hrec Hs ltac:(eauto) Hn Hp Hm) as (H1 & _).
      destruct (Hnewm m eq_refl) as [Hk _]. apply wf_conversation_frame; [done|done|congruence].
    + by rewrite El.
    + intros a x Hx Htx. rewrite Ea. apply moved_artifacts_other; [done|]. intros to Hto.
      destruct (Hmoved _ _ Hto) as (x' & Hx' & Htx' & _). congruence.
    + rewrite Es. destruct (transitionSubmission ref change now) as [x|] eqn:Ex; [|done].
      unfold transitionSubmission in Ex. destruct (is_empty _); [done|]. injection Ex as <-. cbn.
      by rewrite lookup_insert_ne.
  - unfold one_message. rewrite Em.
    destruct (changeMessage ref change next prepared now) as [m|] eqn:Hm; [right|by left].
    assert (is_Some (tasks s' !! ref)) as Hsome by (rewrite Et, lookup_insert_eq; eauto).
    destruct (changeMessage_wf s' _ _ _ _ _ _ _ Hch Hrec Hs Hsome Hn Hp Hm) as (H1 & _ & H3).
    exists m. split_and!; try done. by apply Hnewm.
  - intros a x Hx. rewrite Ea in Hx.
    apply moved_artifacts_lookup in Hx as [Hx | (state & p & d & y & Hmv & Hy & ->)]; [by left|right].
    destruct (wf_artifacts _ Hwf _ _ Hy) as [W1 W2 W3 W4 W4' W5 W6 W7].
    destruct (changeArtifact_own _ _ _ next _ _ _ Hch Hg Hmv) as (Hta & Hto & _).
    destruct (Hmoved _ _ Hmv) as (y' & Hy' & Hty & Hsy). rewrite Hy in Hy'. injection Hy' as <-.
    destruct (Hart _ Hta) as (y' & Hy' & _ & _ & Hfr). rewrite Hy in Hy'. injection Hy' as <-.
    split; try done.
    + intros Hne. cbn in Hne. eapply validate_artifact_with; [done| |done|by apply W2]. lia.
    + intros t. destruct Hto as [[= -> -> ->] | [= -> -> ->]]; cbn; by intros [= <-].
    + destruct Hto as [[= -> -> ->] | [= -> -> ->]]; cbn; [eauto|done].
    + exists r'. split; [|done].
      change (tasks s' !! Artifact_Task (ArtifactRecord_Artifact y) = Some r').
      by rewrite Hty, Et, lookup_insert_eq.
    + by rewrite Ew.
  - intros a x Hx Hpub. rewrite Ea. apply moved_artifacts_other; [done|]. intros to Hto.
    destruct (Hmoved _ _ Hto) as (x' & Hx' & _ & Hfro). congruence.
  - by rewrite Ew.
  - rewrite Ew. by left.
Qed.

(* ------------------------------------------------------------------ *)
(** ** Decisions *)

Lemma validate_receiptOf command now :
  validateReceiptCommand command = Ok tt -> in_int64 now -> validateStoredReceipt (receiptOf command now) = Ok tt.
Proof.
  intros H Hn. unfold validateStoredReceipt. apply refuse_if_false, orb_false_iff.
  split; [|by apply int64_not_zero]. apply negb_false_iff, is_ok_Ok. exists tt.
  unfold validateReceiptCommand in *. apply obind_Ok in H as ([] & _ & H). cbn. exact H.
Qed.

Lemma confirm_head_same a d now s :
  let s' := confirm_head a d now s in
  commands s' = commands s /\ tasks s' = tasks s /\ messages s' = messages s /\ events s' = events s /\
  leaseGrants s' = leaseGrants s /\ artifacts s' = artifacts s /\ submissions s' = submissions s /\
  applyReceipts s' = applyReceipts s.
Proof. unfold confirm_head. by case_bool_decide. Qed.

Lemma wf_step_decide s command x clock now record :
  WF s -> validateReceiptCommand command = Ok tt ->
  artifacts s !! RecordReceipt_Artifact command = Some x ->
  Artifact_State (ArtifactRecord_Artifact x) = ArtifactPublished ->
  RecordReceipt_ArtifactDigest command = Artifact_Digest (ArtifactRecord_Artifact x) ->
  RecordReceipt_BaseRevision command = Artifact_BaseRevision (ArtifactRecord_Artifact x) ->
  RecordReceipt_ResultRevision command = Artifact_ResultRevision (ArtifactRecord_Artifact x) ->
  in_int64 clock ->
  now = timestampAtLeast clock (Artifact_FrozenAt (ArtifactRecord_Artifact x)
          :: option_list (Artifact_PublishedAt (ArtifactRecord_Artifact x))) ->
  new_receipt s record ->
  WF (decide_commit (ArtifactRecord_Artifact x) (receiptOf command now) now record s).
Proof.
  intros Hwf Hc Hx Hst Hd Hb Hres Hclock Enow Hrecord.
  destruct (wf_artifacts _ Hwf _ _ Hx) as [W1 W2 W3 W4 W4' W5 W6 W7].
  destruct (W4' Hst) as [published Hpub]. rewrite Hpub in Enow. cbn [option_list] in Enow.
  assert (in_int64 now) as Hn.
  { subst now. apply timestamp_in_int64; [done|]. constructor; [done|].
    constructor; [by apply W4|constructor]. }
  assert (published <= now)%Z as Hle.
  { subst now. destruct (timestampAtLeast_spec clock [Artifact_FrozenAt (ArtifactRecord_Artifact x); published])
      as (_ & _ & Hall). by apply Forall_cons in Hall as [_ [Hall _]%Forall_cons]. }
  assert (validateRevision (Artifact_ResultRevision (ArtifactRecord_Artifact x)) = Ok tt) as Hrev.
  { rewrite <- Hres. unfold validateReceiptCommand in Hc. ok_inv. by destruct v4. }
  destruct (confirm_head_same (ArtifactRecord_Artifact x) (RecordReceipt_Decision command) now s)
    as (Ec & Et & Em & Ee & El & Ea & Es & Er).
  unfold decide_commit. cbn [receiptOf ApplyReceipt_Decision]. set (s1 := confirm_head _ _ _ _) in *.
  assert (forall w h, workspaceHeads s1 !! w = Some h -> workspaceHeads s !! w = Some h \/ wf_head w h) as Hh1.
  { intros w h. unfold s1, confirm_head. case_bool_decide; [|by left]. cbn. intros Hh.
    apply lookup_insert_Some in Hh as [[<- <-] | [_ Hh]]; [right|by left]. by split. }
  assert (forall w, is_Some (workspaceHeads s !! w) -> is_Some (workspaceHeads s1 !! w)) as Hh2.
  { intros w. unfold s1, confirm_head. case_bool_decide; [|done]. cbn. intros Hh.
    apply lookup_insert_is_Some. destruct (decide (ArtifactRef_Workspace (Artifact_Ref (ArtifactRecord_Artifact x)) = w));
      [by left|by right]. }
  split; cbn; rewrite ?Ec, ?Et, ?Em, ?El, ?Ea, ?Es, ?Er; try apply Hwf.
  - intros ref r Hr. eapply wf_task_frame; [by apply (wf_tasks _ Hwf)|..]; cbn; rewrite ?Em, ?El, ?Ea, ?Es; try done.
    by apply (history_same s s1).
  - intros ref Hr. rewrite <- (wf_no_events _ Hwf ref Hr). by apply (history_same s s1).
  - intros k m Hm. eapply wf_message_frame; [by apply (wf_messages _ Hwf)|]. cbn. by rewrite Et.
  - intros a y Hy. eapply wf_artifact_frame; [by apply (wf_artifacts _ Hwf)|cbn; rewrite Et; eauto|done].
  - intros w h Hh. destruct (Hh1 _ _ Hh) as [Hh' | Hh']; [by apply (wf_heads _ Hwf)|done].
  - intros a p Hp. apply lookup_insert_Some in Hp as [[<- <-] | [_ Hp]].
    + split; try done; [by apply validate_receiptOf|]. exists x, published. cbn. by rewrite Ea.
    + eapply wf_receipt_frame; [by apply (wf_receipts _ Hwf)|]. cbn. by rewrite Ea.
  - intros k c Hk. by eapply wf_commands_add; [apply (wf_commands _ Hwf)|..].
Qed.

Lemma wf_step_repeat s record : WF s -> new_receipt s record -> WF (add_command record s).
Proof.
  intros Hwf Hr. split; try apply Hwf.
  - intros ref r Hl. eapply wf_task_frame; [by apply (wf_tasks _ Hwf)|done..].
  - intros k m Hm. eapply wf_message_frame; [by apply (wf_messages _ Hwf)|done].
  - intros a x Hx. eapply wf_artifact_frame; [by apply (wf_artifacts _ Hwf)|eauto|done].
  - intros a p Hp. eapply wf_receipt_frame; [by apply (wf_receipts _ Hwf)|done].
  - intros k c Hk. by eapply wf_commands_add; [apply (wf_commands _ Hwf)|..].
Qed.

(* ------------------------------------------------------------------ *)
(** ** Reachable states *)

Lemma wf_step s s' : WF s -> agent_step s s' -> WF s'.
Proof.
  intros Hwf Hstep. destruct Hstep.
  - by apply wf_step_create.
  - by eapply wf_step_transition.
  - by eapply wf_step_freeze.
  - by eapply wf_step_grant.
  - by eapply wf_step_fence.
  - by eapply wf_step_decide.
  - by apply wf_step_repeat.
Qed.

Lemma wf_keyed s : WF s -> keyed_tasks s.
Proof. intros Hwf ref r Hr. by apply (wf_tasks _ Hwf). Qed.

Lemma wf_stays_or_steps s s' : WF s -> stays_or_steps s s' -> WF s'.
Proof. intros Hwf [-> | Hs]; [done|by eapply wf_step]. Qed.

Section Reachable.
Context {W : Type} `{HS : Store W memoryAgentState} `{HC : !StoreContract W memoryAgentState}.

Lemma wf_agent_op agent ctx op between (w : W) :
  WF (snapshot w) -> WF (snapshot (between w)) -> WF (snapshot (runAgentOp agent ctx op between w)).
Proof.
  intros H1 H2. destruct (agent_op_simulated agent ctx op between w (wf_keyed _ H1)) as [Hs | Hs];
    [exact (wf_stays_or_steps _ _ H1 Hs) | exact (wf_stays_or_steps _ _ H2 Hs)].
Qed.

Lemma reachable_WF (w : W) : agent_reachable w -> WF (snapshot w).
Proof.
  induction 1 as [w Hn | w agent ctx op between _ IH1 _ IH2]; [rewrite Hn; apply WF_new|by apply wf_agent_op].
Qed.
End Reachable.
