(* ===== verification/AgentHistory.v ===== *)
(** * What later states keep

    [extends s s'] relates a committed state to a later one: receipts, lease
    grants, messages, events, submissions and decisions are only added; an
    Artifact keeps its identity and payload and a published one is final; a
    Task's revision and fence only grow, and a terminal Task is final.  Every
    step of the machine extends the state it starts from. *)

From S2P Require Import Prelude GoText GoTime GoJson AgentTypes AgentCodec Framework Protect AgentStore MemoryStore AgentCore AgentCommands.
From S2P Require Import AgentLease AgentArtifact AgentFacts AgentReplay MemoryFacts AgentMachine AgentRefinement AgentInvariant AgentPreserve.

Local Open Scope string_scope.

(** What a Task record may become. *)
Record task_grows (r r' : StoreTaskRecord) : Prop := {
  tg_context : Task_Context (TaskRecord_Task r') = Task_Context (TaskRecord_Task r);
  tg_created : Task_CreatedAt (TaskRecord_Task r') = Task_CreatedAt (TaskRecord_Task r);
  tg_revision : (Task_Revision (TaskRecord_Task r) <= Task_Revision (TaskRecord_Task r'))%Z;
  tg_messages : (Task_MessageCount (TaskRecord_Task r) <= Task_MessageCount (TaskRecord_Task r'))%Z;
  tg_updated : (Task_UpdatedAt (TaskRecord_Task r) <= Task_UpdatedAt (TaskRecord_Task r'))%Z;
  tg_fence : (Lease_Fence (TaskRecord_Lease r) <= Lease_Fence (TaskRecord_Lease r'))%Z;
  tg_artifact : forall a, Task_Artifact (TaskRecord_Task r) = Some a -> Task_Artifact (TaskRecord_Task r') = Some a;
  tg_same_revision : Task_Revision (TaskRecord_Task r') = Task_Revision (TaskRecord_Task r) ->
    TaskRecord_Task r' = TaskRecord_Task r;
  tg_terminal : Terminal (Task_State (TaskRecord_Task r)) = true -> r' = r
}.

#[export] Instance task_grows_preorder : PreOrder task_grows.
Proof.
  split.
  - intros r. by split.
  - intros r1 r2 r3 [C1 D1 R1 M1 U1 F1 A1 S1 T1] [C2 D2 R2 M2 U2 F2 A2 S2 T2].
    split; try congruence; try lia; eauto.
    + intros E. rewrite S2, S1 by lia. done.
    + intros Ht. specialize (T1 Ht). subst r2. auto.
Qed.

(** What an Artifact record may become. *)
Record artifact_grows (x x' : StoreArtifactRecord) : Prop := {
  ag_payload : ArtifactRecord_EncodedPayload x' = ArtifactRecord_EncodedPayload x;
  ag_identity : sameArtifactIdentity (ArtifactRecord_Artifact x) (ArtifactRecord_Artifact x') = true;
  ag_final : Artifact_State (ArtifactRecord_Artifact x) <> ArtifactFrozen -> x' = x
}.

Lemma sameArtifactIdentity_refl a : sameArtifactIdentity a a = true.
Proof. unfold sameArtifactIdentity, TimeEqual. rewrite !bool_decide_eq_true_2, !Z.eqb_refl by done. done. Qed.

Lemma sameArtifactIdentity_trans a b c :
  sameArtifactIdentity a b = true -> sameArtifactIdentity b c = true -> sameArtifactIdentity a c = true.
Proof.
  unfold sameArtifactIdentity, TimeEqual. intros H1 H2. bool_split. decided. zbool.
  rewrite !andb_true_iff, !Z.eqb_eq. repeat split; try apply bool_decide_eq_true_2; congruence.
Qed.

#[export] Instance artifact_grows_preorder : PreOrder artifact_grows.
Proof.
  split.
  - intros x. split; [done|apply sameArtifactIdentity_refl|done].
  - intros x y z [P1 I1 F1] [P2 I2 F2]. split; [congruence|by eapply sameArtifactIdentity_trans|].
    intros Hs. specialize (F1 Hs). subst y. auto.
Qed.

Lemma artifact_with_grows x state p d :
  Artifact_State (ArtifactRecord_Artifact x) = ArtifactFrozen -> artifact_grows x (artifact_with x state p d).
Proof. intros Hf. split; [done|exact (sameArtifactIdentity_refl (ArtifactRecord_Artifact x))|done]. Qed.

Record extends (s s' : memoryAgentState) : Prop := {
  ex_commands : commands s ⊆ commands s';
  ex_tasks : forall ref r, tasks s !! ref = Some r -> exists r', tasks s' !! ref = Some r' /\ task_grows r r';
  ex_messages : messages s ⊆ messages s';
  ex_events : forall ref, history s ref ⊆ history s' ref;
  ex_grants : leaseGrants s ⊆ leaseGrants s';
  ex_artifacts : forall a x, artifacts s !! a = Some x -> exists x', artifacts s' !! a = Some x' /\ artifact_grows x x';
  ex_submissions : submissions s ⊆ submissions s';
  ex_heads : forall w, is_Some (workspaceHeads s !! w) -> is_Some (workspaceHeads s' !! w);
  ex_receipts : applyReceipts s ⊆ applyReceipts s'
}.

#[export] Instance extends_preorder : PreOrder extends.
Proof.
  split.
  - intros s. split; try done.
    + intros ref r Hr. exists r. split; [done|reflexivity].
    + intros a x Hx. exists x. split; [done|reflexivity].
  - intros s1 s2 s3 [C1 T1 M1 E1 G1 A1 S1 H1 R1] [C2 T2 M2 E2 G2 A2 S2 H2 R2]. split; try (by etransitivity); auto.
    + intros ref r Hr. destruct (T1 _ _ Hr) as (r2 & Hr2 & Hg). destruct (T2 _ _ Hr2) as (r3 & Hr3 & Hg2).
      exists r3. split; [done|]. by etransitivity.
    + intros ref. etransitivity; [apply E1|apply E2].
    + intros a x Hx. destruct (A1 _ _ Hx) as (x2 & Hx2 & Hg). destruct (A2 _ _ Hx2) as (x3 & Hx3 & Hg2).
      exists x3. split; [done|]. by etransitivity.
Qed.

(** The contract's [keeps] is part of it. *)
Lemma extends_keeps s s' : extends s s' -> keeps s s'.
Proof.
  intros [Hc _ _ _ Hg _ _ _ _]. split.
  - intros k limit r. cbn. unfold ReadOp.LookupCommand.
    cbn [ensureActive unit_active live unit_state obind refuse_if negb].
    destruct (memoryAgentReadLimit _ _); cbn [obind]; [|done].
    destruct (commands s !! k) as [c|] eqn:E; [|done]. by rewrite (lookup_weaken _ _ _ _ E Hc).
  - intros t f r. rewrite !LoadLeaseGrant_Ok. intros E. exact (lookup_weaken _ _ _ _ E Hg).
Qed.

(* ------------------------------------------------------------------ *)
(** ** Steps *)

(** One Task grows and the rest of the task map stays. *)
Lemma tasks_grow (m : gmap TaskRef StoreTaskRecord) ref r r' :
  m !! ref = Some r -> task_grows r r' ->
  forall ref0 r0, m !! ref0 = Some r0 -> exists r0', <[ref := r']> m !! ref0 = Some r0' /\ task_grows r0 r0'.
Proof.
  intros Hr Hg ref0 r0 H0. destruct (decide (ref = ref0)) as [<-|Hne].
  - rewrite H0 in Hr. injection Hr as <-. exists r'. by rewrite lookup_insert_eq.
  - exists r0. rewrite lookup_insert_ne by done. split; [done|reflexivity].
Qed.

Lemma with_lease_grows r owner fence :
  (Lease_Fence (TaskRecord_Lease r) <= fence)%Z -> Terminal (Task_State (TaskRecord_Task r)) = false ->
  task_grows r (with_lease r owner fence).
Proof. intros Hf Ht. split; cbn; try done. congruence. Qed.

Lemma transitionRecord_grows ref change r now :
  Terminal (Task_State (TaskRecord_Task r)) = false -> (Task_UpdatedAt (TaskRecord_Task r) <= now)%Z ->
  task_grows r (transitionRecord change r (transitionTask ref change (TaskRecord_Task r) now)).
Proof.
  intros Ht Hu. split; cbn; try done; try lia; try congruence. destruct (is_none _); lia.
Qed.

Lemma frozenRecord_grows r a now :
  Terminal (Task_State (TaskRecord_Task r)) = false -> (Task_UpdatedAt (TaskRecord_Task r) <= now)%Z ->
  Task_Artifact (TaskRecord_Task r) = None -> task_grows r (frozenRecord r a now).
Proof. intros Ht Hu Hn. split; cbn; try done; try lia; congruence. Qed.

(** The next event is new. *)
Lemma next_event_new s ref r :
  WF s -> tasks s !! ref = Some r -> history s ref !! (Task_EventCount (TaskRecord_Task r) + 1)%Z = None.
Proof.
  intros Hwf Hr. destruct (history s ref !! _) as [e|] eqn:E; [|done].
  assert (is_Some (history s ref !! (Task_EventCount (TaskRecord_Task r) + 1)%Z)) as Hs by eauto.
  apply (wh_domain _ _ _ _ _ (wt_history _ _ _ (wf_tasks _ Hwf _ _ Hr))) in Hs. lia.
Qed.

Lemma history_extends s s' ref n e :
  (forall ref', history s' ref' = if decide (ref = ref') then <[n := e]> (history s ref') else history s ref') ->
  history s ref !! n = None -> forall ref', history s ref' ⊆ history s' ref'.
Proof.
  intros Hh Hn ref'. rewrite Hh. case_decide as E; [|done]. subst ref'. by apply insert_subseteq.
Qed.

Lemma extends_create s command prepared now receipt :
  WF s -> tasks s !! CreateTask_Task command = None ->
  new_message s (createdMessage command prepared now) -> new_receipt s receipt ->
  extends s (create_commit command prepared now receipt s).
Proof.
  intros Hwf Hfree [Hm _] [Hr _]. split; try done.
  - by apply insert_subseteq.
  - intros ref r Hl. exists r. cbn. rewrite lookup_insert_ne by congruence. split; [done|reflexivity].
  - by apply insert_subseteq.
  - apply (history_extends _ _ (CreateTask_Task command) 1 {| EventRecord_Event := createdEvent command now |}).
    + intros ref'. apply (history_add_event (add_message (createdMessage command prepared now)
        (add_task (createdRecord command now) s))).
    + by rewrite (wf_no_events _ Hwf).
  - intros a x Hx. exists x. split; [done|reflexivity].
Qed.

Lemma extends_transition s ref change leased r prepared now receipt :
  WF s -> task_change change leased -> tasks s !! ref = Some r -> Task_Ref (TaskRecord_Task r) = ref ->
  Terminal (Task_State (TaskRecord_Task r)) = false -> (Task_UpdatedAt (TaskRecord_Task r) <= now)%Z ->
  (forall m, changeMessage ref change (transitionTask ref change (TaskRecord_Task r) now) prepared now = Some m ->
    new_message s m) ->
  (forall a to, changeArtifact change (TaskRecord_Task r) now = Some (a, to) ->
    exists x, artifacts s !! a = Some x /\ Artifact_Task (ArtifactRecord_Artifact x) = ref /\
      Artifact_State (ArtifactRecord_Artifact x) = ArtifactFrozen) ->
  (forall x, transitionSubmission ref change now = Some x -> submissions s !! ref = None) ->
  new_receipt s receipt -> extends s (transition_commit ref change r prepared now receipt s).
Proof.
  intros Hwf Hch Hr Href Ht Hu Hm Ha Hsub [Hc _].
  destruct (transition_commit_fields ref change r prepared now receipt s)
    as (Ec & Et & Em & Eh & El & Ea & Es & Ew & Er). rewrite Href in Et.
  split; rewrite ?Ec, ?Em, ?El, ?Es, ?Ew, ?Er; try done.
  - by apply insert_subseteq.
  - rewrite Et. apply (tasks_grow _ _ r); [done|]. by apply transitionRecord_grows.
  - destruct (changeMessage _ _ _ _ _) as [m|] eqn:E; [|done]. apply insert_subseteq. by apply (Hm m eq_refl).
  - eapply history_extends; [exact Eh|]. by apply next_event_new.
  - intros a x Hx. rewrite Ea. destruct (changeArtifact _ _ _) as [[a' [[st p] d]]|] eqn:E.
    2:{ exists x. split; [done|reflexivity]. }
    destruct (decide (a' = a)) as [->|Hne].
    + destruct (Ha _ _ eq_refl) as (x' & Hx' & _ & Hf). rewrite Hx in Hx'. injection Hx' as <-.
      exists (artifact_with x st p d). rewrite (moved_artifacts_moved _ _ _ _ _ _ Hx).
      split; [done|]. by apply artifact_with_grows.
    + exists x. split; [|reflexivity]. apply moved_artifacts_other; [done|]. congruence.
  - destruct (transitionSubmission ref change now) as [x|] eqn:E; [|done].
    pose proof (Hsub x eq_refl). unfold transitionSubmission in E. destruct (is_empty _); [done|]. injection E as <-.
    by apply insert_subseteq.
Qed.

Lemma extends_freeze s command r payload now receipt :
  WF s -> tasks s !! FreezeArtifact_Task command = Some r ->
  Task_Ref (TaskRecord_Task r) = FreezeArtifact_Task command ->
  Task_State (TaskRecord_Task r) = TaskWorking -> Task_Artifact (TaskRecord_Task r) = None ->
  (Task_UpdatedAt (TaskRecord_Task r) <= now)%Z -> artifacts s !! freezeRef command = None ->
  new_receipt s receipt -> extends s (freeze_commit command r payload now receipt s).
Proof.
  intros Hwf Hr Href Hst Hn Hu Hfree [Hc _]. set (ref := FreezeArtifact_Task command) in *.
  destruct (pin_head_same s (TaskRef_Workspace ref) (FreezeArtifact_ExpectedBaseRevision command) now)
    as (Ec & Et & Em & Ee & El & Ea & Es & Er).
  unfold freeze_commit. fold ref. set (s1 := pin_head _ _ now s) in *.
  split; cbn; rewrite ?Ec, ?Em, ?El, ?Es, ?Er; try done.
  - by apply insert_subseteq.
  - rewrite Href, Et. apply (tasks_grow _ _ r); [done|]. apply frozenRecord_grows; try done. by rewrite Hst.
  - eapply (history_extends _ _ ref); [|by apply next_event_new]. intros ref'.
    rewrite <- (history_same s s1) by done.
    apply (history_add_event (add_task _ (add_artifact _ s1))).
  - intros a x Hx. exists x. rewrite Ea, lookup_insert_ne; [split; [done|reflexivity]|]. intros E.
    cbn in E. congruence.
  - intros w Hw. unfold s1, pin_head. destruct (workspaceHeads s !! TaskRef_Workspace ref); [done|].
    cbn. apply lookup_insert_is_Some. destruct (decide (TaskRef_Workspace ref = w)); [by left|by right].
Qed.

Lemma current_grant_live s r grant :
  wf_record (Task_Ref (TaskRecord_Task r)) r -> current_grant s r grant ->
  Terminal (Task_State (TaskRecord_Task r)) = false.
Proof.
  intros Hrec [Hv _ Ho _ _]. apply (vr_owner _ (wr_valid _ _ Hrec)). rewrite Ho.
  unfold validateLeaseGrant in Hv. apply obind_Ok in Hv as ([] & _ & Hv). apply obind_Ok in Hv as ([] & Hv & _).
  apply validateStable_Ok, match_stable_nonempty in Hv. done.
Qed.

Lemma step_extends s s' : WF s -> agent_step s s' -> extends s s'.
Proof.
  intros Hwf Hstep. destruct Hstep.
  - by apply extends_create.
  - match goal with H : current_task _ _ _ |- _ => destruct H as [Hr Href _] end.
    eapply extends_transition; try done; [|by intros; eauto; match goal with H : forall _, transitionSubmission _ _ _ = _ -> _ |- _ => eapply H; eauto end].
    subst now. apply timestamp_floor.
  - match goal with H : current_task _ _ _ |- _ => destruct H as [Hr Href _] end.
    apply extends_freeze; try done. subst now. apply timestamp_floor.
  - match goal with H : current_task _ _ _ |- _ => destruct H as [Hr Href _] end.
    match goal with H : new_receipt _ _ |- _ => destruct H as [Hc _] end.
    split; try done.
    + by apply insert_subseteq.
    + intros ref0 r0 H0'. cbn. rewrite Href. eapply tasks_grow; [done| |done]. apply with_lease_grows; [lia|done].
    + by apply insert_subseteq.
    + intros a x Hx. exists x. split; [done|reflexivity].
  - match goal with H : current_task _ _ _ |- _ => destruct H as [Hr Href _] end.
    match goal with H : new_receipt _ _ |- _ => destruct H as [Hc _] end.
    pose proof (wt_record _ _ _ (wf_tasks _ Hwf _ _ Hr)) as Hrec. rewrite <- Href in Hrec.
    split; try done.
    + by apply insert_subseteq.
    + intros ref0 r0 H0'. cbn. rewrite Href. eapply tasks_grow; [done| |done]. apply with_lease_grows; [lia|].
      by eapply current_grant_live.
    + intros a x Hx. exists x. split; [done|reflexivity].
  - match goal with H : new_receipt _ _ |- _ => destruct H as [Hc _] end.
    destruct (confirm_head_same (ArtifactRecord_Artifact artifact) (RecordReceipt_Decision command) now s)
      as (Ec & Et & Em & Ee & El & Ea & Es & Er).
    unfold decide_commit. cbn [receiptOf ApplyReceipt_Decision].
    split; cbn; rewrite ?Ec, ?Et, ?Em, ?El, ?Ea, ?Es, ?Er; try done.
    + by apply insert_subseteq.
    + intros ref0 r0 H0'. exists r0. split; [done|reflexivity].
    + intros ref0. by rewrite <- (history_same _ _ ref0 Ee).
    + intros a x Hx. exists x. split; [done|reflexivity].
    + intros w Hw. unfold confirm_head. case_bool_decide; [|done]. cbn. apply lookup_insert_is_Some.
      destruct (decide (ArtifactRef_Workspace (Artifact_Ref (ArtifactRecord_Artifact artifact)) = w));
        [by left|by right].
    + by apply insert_subseteq.
  - match goal with H : new_receipt _ _ |- _ => destruct H as [Hc _] end.
    split; try done.
    + by apply insert_subseteq.
    + intros ref0 r0 H0'. exists r0. split; [done|reflexivity].
    + intros a x Hx. exists x. split; [done|reflexivity].
Qed.

Section Later.
Context {W : Type} `{HS : Store W memoryAgentState} `{HC : !StoreContract W memoryAgentState}.

(** The stores any number of Agent calls lead to from [w], with other calls
    running between their transactions. *)
Inductive later (w : W) : W -> Prop :=
  | later_now : later w w
  | later_call w1 agent ctx op between :
      later w w1 -> later w (between w1) -> later w (runAgentOp agent ctx op between w1).

Lemma stays_or_steps_extends s s' : WF s -> stays_or_steps s s' -> extends s s'.
Proof. intros Hwf [-> | Hs]; [reflexivity|by apply step_extends]. Qed.

Lemma later_extends w w' :
  WF (snapshot w) -> later w w' -> WF (snapshot w') /\ extends (snapshot w) (snapshot w').
Proof.
  intros Hwf. induction 1 as [|w1 agent ctx op between _ [IW1 IE1] _ [IW2 IE2]]; [split; [done|reflexivity]|].
  split; [by apply wf_agent_op|].
  destruct (agent_op_simulated agent ctx op between w1 (wf_keyed _ IW1)) as [Hs | Hs].
  - etransitivity; [exact IE1|]. by apply stays_or_steps_extends.
  - etransitivity; [exact IE2|]. by apply stays_or_steps_extends.
Qed.
End Later.

(* ------------------------------------------------------------------ *)
(** ** What a command returns is what it committed

    A fresh run over the memory transactions returns the Task, the assignment
    or the receipt that is in the state it leaves; in a well-formed state such
    a result has an exact JSON form, so the receipt replays it. *)

Lemma record_tasks {A} `{JsonCodec A} (s s' : memoryAgentState) authority id kind digest resultKind (a : A) now :
  recordJSONCommandToStore s authority id kind digest resultKind a now = Ok s' -> tasks s' = tasks s /\
  leaseGrants s' = leaseGrants s.
Proof. unfold recordJSONCommandToStore. rewrite on_error_Ok. by intros (_ & ->)%InsertCommand_Ok. Qed.

Lemma moveArtifact_tasks (s s' : memoryAgentState) a ref next p d :
  moveArtifact s a ref next p d = Ok s' -> tasks s' = tasks s.
Proof. intros (-> & x & Hx & _)%moveArtifact_Ok. cbn. by rewrite Hx. Qed.

Lemma transitionWrites_tasks (s s' : memoryAgentState) kind meta ref digest change current next prepared now :
  transitionWrites s kind meta ref digest change current next prepared now = Ok s' -> tasks s' = tasks s.
Proof.
  unfold transitionWrites. intros H. apply obind_Ok in H as (s1 & H1 & H). apply obind_Ok in H as (s2 & H2 & H).
  apply obind_Ok in H as (s3 & H3 & H). apply obind_Ok in H as (s4 & H4 & H). apply obind_Ok in H as (s5 & H5 & H).
  apply record_tasks in H as [-> _]. apply InsertEvent_Ok in H5 as [_ ->]. cbn.
  transitivity (tasks s3).
  { destruct (transitionSubmission _ _ _); [|by injection H4 as ->].
    by apply on_error_Ok, InsertSubmission_Ok in H4 as (_ & _ & ->). }
  transitivity (tasks s2).
  { destruct (change_artifact change); [by eapply moveArtifact_tasks|by injection H3 as ->]. }
  transitivity (tasks s1).
  { destruct (change_discardArtifact change), (Task_Artifact current); try (by injection H2 as ->).
    by eapply moveArtifact_tasks. }
  destruct (change_message change); [|by injection H1 as ->].
  unfold insertMessageToStore in H1. by apply on_error_Ok, InsertMessage_Ok in H1 as (_ & _ & ->).
Qed.

(** A fresh transition returns the Task it committed. *)
Lemma transitionTx_result agent kind meta grant ref digest change prepared (s s' : memoryAgentState) t :
  transitionTx agent kind meta grant ref digest change prepared s = Ok (t, s') ->
  replayTransition s kind meta grant ref digest = Ok None ->
  exists r clock,
    current_task s ref r /\ in_int64 clock /\
    admitTransition s kind meta grant change (TaskRecord_Task r) = Ok tt /\
    t = transitionTask ref change (TaskRecord_Task r) (timestampAtLeast clock [Task_UpdatedAt (TaskRecord_Task r)]) /\
    tasks s' = <[ref := transitionRecord change r t]> (tasks s).
Proof.
  unfold transitionTx. intros H Hrep. rewrite Hrep in H. cbn [obind] in H.
  apply obind_Ok in H as (r & Hload & H). apply load_current_task in Hload as Hcur.
  apply obind_Ok in H as ([] & Hadm & H). apply obind_Ok in H as (clock & Hn & H).
  apply checkedClockTime_Ok in Hn as (_ & Hn & _).
  apply obind_Ok in H as (u & _ & H). apply obind_Ok in H as ([b s1] & Hcas & H).
  destruct b; [|discriminate H]. cbn [negb] in H. apply obind_Ok in H as (s2 & Hw & H). injection H as <- <-.
  apply CompareAndSwapTask_Ok in Hcas as (c & _ & _ & _ & _ & _ & _ & ->). cbn [TaskMutation_Next] in Hw.
  apply transitionWrites_tasks in Hw. exists r, clock. split_and!; try done.
  rewrite Hw. cbn. by rewrite (current_ref _ _ _ Hcur).
Qed.

(** A Task of a well-formed state has an exact JSON form. *)
Lemma wf_exact_task s ref r : WF s -> tasks s !! ref = Some r -> exact_task (TaskRecord_Task r).
Proof.
  intros Hwf Hr. destruct (wt_record _ _ _ (wf_tasks _ Hwf _ _ Hr)).
  split; [|done]. apply Task_ok_of_valid; try done. apply wr_valid.
Qed.

Lemma wf_exact_transitions (s' : memoryAgentState) t : WF s' -> exact_transitions s' t.
Proof.
  intros Hwf agent kind meta grant ref digest change prepared s H Hrep.
  destruct (transitionTx_result _ _ _ _ _ _ _ _ _ _ _ H Hrep) as (r & clock & _ & _ & _ & -> & Et).
  apply (wf_exact_task s' ref (transitionRecord change r (transitionTask ref change (TaskRecord_Task r)
    (timestampAtLeast clock [Task_UpdatedAt (TaskRecord_Task r)])))); [done|]. by rewrite Et, lookup_insert_eq.
Qed.

(** A grant returns the assignment it committed. *)
Lemma grantLease_result agent (s s' : memoryAgentState) record previous authority id kind digest worker validate a :
  grantLease agent s record previous authority id kind digest worker validate = Ok (a, s') ->
  let ref := Task_Ref (TaskRecord_Task record) in
  let fence := (Lease_Fence (TaskRecord_Lease record) + 1)%Z in
  LeaseAssignment_Grant a = {| LeaseGrant_Task := ref; LeaseGrant_Worker := worker; LeaseGrant_Fence := fence |} /\
  LeaseAssignment_Task a = TaskRecord_Task record /\
  tasks s' !! ref = Some (with_lease record worker fence) /\
  grant_at ref fence (leaseGrants s') =
    Some {| GrantRecord_Grant := LeaseAssignment_Grant a; GrantRecord_GrantedAt := LeaseAssignment_GrantedAt a |}.
Proof.
  unfold grantLease. intros H. apply obind_Ok in H as (u & _ & H). apply obind_Ok in H as (clock & Hn & H).
  cbv zeta in H. apply obind_Ok in H as (u' & _ & H). apply obind_Ok in H as (s1 & Hg & H).
  apply on_error_Ok, InsertLeaseGrant_Ok in Hg as (_ & ->).
  apply obind_Ok in H as ([b s2] & Hcas & H). apply obind_Ok in H as (u2 & Hb & H).
  apply refuse_if_Ok in Hb. destruct b; [|discriminate Hb].
  apply CompareAndSwapTask_Ok in Hcas as (c & _ & _ & _ & _ & _ & _ & ->).
  apply obind_Ok in H as (s3 & Hr & H). injection H as <- <-. apply record_tasks in Hr as [-> ->].
  cbn. split_and!; try done.
  - by rewrite lookup_insert_eq.
  - apply grant_at_insert.
Qed.

Lemma wf_exact_grants (s' : memoryAgentState) a : WF s' -> exact_grants s' a.
Proof.
  intros Hwf agent s record previous authority id kind digest worker validate H _.
  destruct (grantLease_result _ _ _ _ _ _ _ _ _ _ _ _ H) as (Eg & Et & Ht & Hg).
  destruct (wf_tasks _ Hwf _ _ Ht) as [Hrec _ _ Hl _ _].
  pose proof (wl_grant _ _ _ _ Hl _ _ Hg) as [_ _ Hw Htime _]. cbn in Hw, Htime.
  pose proof (wr_fence _ _ Hrec) as Hf. cbn in Hf.
  assert (is_Some (grant_at (Task_Ref (TaskRecord_Task record))
    (Lease_Fence (TaskRecord_Lease record) + 1) (leaseGrants s'))) as Hs by eauto.
  apply (wl_domain _ _ _ _ Hl) in Hs.
  pose proof (wf_exact_task _ _ _ Hwf Ht) as [Hok Hpos]. cbn in Hok, Hpos.
  split; [|rewrite Et, Eg; cbn in *; split; [done|lia]].
  split_and!; [|by rewrite Et|done].
  rewrite Eg in *. cbn in *. unfold LeaseGrant_ok. cbn. unfold MaxInt64, max_uint64 in *.
  split_and!; try lia.
  - apply TaskRef_stable_utf8. destruct (wr_valid _ _ Hrec) as [[Hst] _ _ _]. exact Hst.
  - by apply match_stable_valid.
Qed.
