(* ===== verification/AgentVerdict.v ===== *)
(** * The verdict on a command

    In a well-formed state the transactions of the Agent are total: each
    callback either refuses with an error that the command and the records it
    names decide, in a fixed order, or commits the write of its machine rule.
    The refusals are given as a table, without the loads, validations and
    compare-and-swaps of the code. *)

From S2P Require Import Prelude GoText GoTime GoJson AgentTypes AgentCodec Framework Protect.
From S2P Require Import AgentStore MemoryStore AgentCore AgentCommands AgentLease AgentArtifact AgentFacts AgentReplay.
From S2P Require Import MemoryFacts MemoryForward AgentMachine AgentRefinement AgentInvariant AgentPreserve.
From S2P Require Import AgentHistory.

Local Open Scope string_scope.

Definition refusal (b : bool) (e : error) : option error := if b then Some e else None.

(** The first refusal of a table, or what happens without one. *)
Fixpoint refused_or {A} (table : list (option error)) (ok : res A) : res A :=
  match table with
  | [] => ok
  | Some e :: _ => Err e
  | None :: table' => refused_or table' ok
  end.

(* ------------------------------------------------------------------ *)
(** ** Records of a well-formed state *)

Lemma wf_load s ref r : WF s -> tasks s !! ref = Some r -> loadTaskRecordFromStore s ref = Ok r.
Proof.
  intros Hwf Hr. destruct (wt_record _ _ _ (wf_tasks _ Hwf _ _ Hr)). unfold loadTaskRecordFromStore.
  rewrite (proj2 (LoadTask_Ok _ _ _) Hr). cbn [on_error obind].
  rewrite wr_ref, bool_decide_eq_true_2 by done. cbn [negb refuse_if obind].
  by rewrite (proj2 (valid_record_check r) wr_valid).
Qed.

Lemma load_absent (s : memoryAgentState) ref : tasks s !! ref = None -> loadTaskRecordFromStore s ref = Err ErrNotFound.
Proof. intros Hr. unfold loadTaskRecordFromStore. by rewrite LoadTask_None. Qed.

(** An open Task's Artifact is frozen. *)
Lemma wf_open_artifact s ref r a :
  WF s -> tasks s !! ref = Some r -> Terminal (Task_State (TaskRecord_Task r)) = false ->
  Task_Artifact (TaskRecord_Task r) = Some a ->
  exists x, artifacts s !! a = Some x /\ Artifact_Task (ArtifactRecord_Artifact x) = ref /\
    Artifact_State (ArtifactRecord_Artifact x) = ArtifactFrozen /\ TaskRef_Workspace ref = ArtifactRef_Workspace a.
Proof.
  intros Hwf Hr Ht Ha. destruct (wf_tasks _ Hwf _ _ Hr) as [Hrec _ _ _ Hart _].
  destruct (Hart a Ha) as (x & Hx & Htask & Hst & _). exists x. split_and!; try done.
  - pose proof (vr_fits _ (wr_valid _ _ Hrec) _ Hst) as Hf. unfold artifact_fits in Hf.
    rewrite !orb_true_iff, !andb_true_iff, !orb_true_iff in Hf.
    destruct Hf as [[[Hf _] | [_ Hf]] | [_ [Hf | Hf]]]; decided; [done|by rewrite Hf in Ht..].
  - destruct (vt_artifact _ (vr_task _ (wr_valid _ _ Hrec)) a Ha) as [_ Hw].
    by rewrite Hw, (wr_ref _ _ Hrec).
Qed.

(** An open Task has published nothing. *)
Lemma wf_open_submission s ref r :
  WF s -> tasks s !! ref = Some r -> Terminal (Task_State (TaskRecord_Task r)) = false -> submissions s !! ref = None.
Proof.
  intros Hwf Hr Ht. destruct (wf_tasks _ Hwf _ _ Hr) as [Hrec _ _ _ _ Hsub].
  destruct (submissions s !! ref) as [x|] eqn:E; [|done]. exfalso.
  pose proof (proj2 (vt_completed _ (vr_task _ (wr_valid _ _ Hrec)))) as Hc. rewrite <- Hsub in Hc.
  specialize (Hc (ex_intro _ (SubmissionRecord_Submission x) eq_refl)). by rewrite Hc in Ht.
Qed.

(** The sequence after the last message is free. *)
Lemma wf_next_message s ref r :
  WF s -> tasks s !! ref = Some r -> forall k m, messages s !! k = Some m -> MessageRecord_Task m = ref ->
  MessageRecord_Sequence m <> (Task_MessageCount (TaskRecord_Task r) + 1)%Z.
Proof.
  intros Hwf Hr k m Hm Ht Hs.
  pose proof (proj1 (wt_conversation _ _ _ (wf_tasks _ Hwf _ _ Hr) (Task_MessageCount (TaskRecord_Task r) + 1)%Z)) as Hc.
  assert (1 <= Task_MessageCount (TaskRecord_Task r) + 1 <= Task_MessageCount (TaskRecord_Task r))%Z by (apply Hc; eauto).
  lia.
Qed.

(* ------------------------------------------------------------------ *)
(** ** The worker's lease *)

(** Why a grant is not the current one: its generation was never granted, it
    was granted to somebody else, or it has been retired. *)
Definition lease_refusal (s : memoryAgentState) (r : StoreTaskRecord) (grant : LeaseGrant) : option error :=
  match grant_at (LeaseGrant_Task grant) (LeaseGrant_Fence grant) (leaseGrants s) with
  | None => Some ErrStaleLease
  | Some g =>
      if GrantRecord_Grant g <>? grant then Some ErrCorruptStore
      else refusal (TaskRecord_Lease r <>? {| Lease_Owner := LeaseGrant_Worker grant;
                                              Lease_Fence := LeaseGrant_Fence grant |}) ErrStaleLease
  end.

Lemma require_lease_verdict s ref r grant :
  WF s -> tasks s !! ref = Some r -> LeaseGrant_Task grant = ref -> validateLeaseGrant grant = Ok tt ->
  requireCurrentLeaseFromStore s grant = refused_or [lease_refusal s r grant] (Ok tt).
Proof.
  intros Hwf Hr Ht Hv. unfold requireCurrentLeaseFromStore, verifyLeaseGrantHistoryFromStore, lease_refusal.
  rewrite Hv, Ht. cbn [obind]. unfold grant_at.
  primitive. unfold ReadOp.LoadLeaseGrant. primitive.
  destruct (leaseGrants s !! _) as [g|] eqn:Hg; [|done]. cbn [on_error obind].
  pose proof (wl_grant _ _ _ _ (wt_leases _ _ _ (wf_tasks _ Hwf _ _ Hr)) _ _ Hg) as Hgr.
  rewrite (int64_not_zero _ (wg_time _ _ _ _ Hgr)), orb_false_r.
  case_bool_decide as E; [|done]. cbn [negb refuse_if obind]. rewrite (wf_load _ _ _ Hwf Hr). cbn [obind].
  unfold refusal. destruct (TaskRecord_Lease r) as [owner fence]. cbn [Lease_Owner Lease_Fence].
  case_bool_decide as Eo; cbn [negb orb].
  - destruct (fence =? LeaseGrant_Fence grant)%Z eqn:Ef; zbool.
    + by rewrite bool_decide_eq_true_2 by congruence.
    + rewrite bool_decide_eq_false_2 by congruence. done.
  - rewrite bool_decide_eq_false_2 by congruence. done.
Qed.

Lemma lease_refusal_none s r grant :
  lease_refusal s r grant = None ->
  TaskRecord_Lease r = {| Lease_Owner := LeaseGrant_Worker grant; Lease_Fence := LeaseGrant_Fence grant |}.
Proof.
  unfold lease_refusal. destruct (grant_at _ _ _) as [g|]; [|done]. case_bool_decide; [|done].
  cbn [negb]. unfold refusal. by case_bool_decide.
Qed.

(* ------------------------------------------------------------------ *)
(** ** Transitions *)

(** A message identifier that is in use in an authority. *)
Definition message_used (s : memoryAgentState) (authority : AuthorityID) (id : MessageID) : bool :=
  negb (is_none (messages s !! {| MessageKey_Authority := authority; MessageKey_ID := id |})).

(** Why a transition is refused, in the order the command finds out. *)
Definition transition_refusals (s : memoryAgentState) (kind : string) (expected : Z) (grant : option LeaseGrant)
    (ref : TaskRef) (change : transition_change) (r : StoreTaskRecord) : list (option error) :=
  let task := TaskRecord_Task r in
  [ grant ≫= lease_refusal s r;
    refusal (negb (Task_Revision task =? expected)%Z) (RevisionConflictError expected (Task_Revision task));
    refusal (Terminal (Task_State task)) (TransitionError kind (Task_State task) true);
    refusal (negb (containsState (change_allowed change) (Task_State task)))
      (TransitionError kind (Task_State task) false);
    refusal (MaxInt64 <=? Task_Revision task)%Z ErrRevisionConflict;
    refusal (negb (is_empty (change_submission change)) && (Task_Artifact task <>? change_artifact change))
      ErrArtifactState;
    refusal (match change_message change with
             | Some message => message_used s (task_authority ref) (MessageInput_ID message)
             | None => false
             end) ErrMessageConflict;
    refusal (negb (is_empty (change_submission change))
             && submission_used s (task_authority ref) (change_submission change)) ErrSubmissionConflict ].

Lemma refused_refuse_if {A} b e (k : res A) table :
  (b = false -> k = refused_or table k) -> obind (refuse_if b e) (fun _ => k) = refused_or (refusal b e :: table) k.
Proof. destruct b; cbn; auto. Qed.

(** The admission checks are the first five rows. *)
Lemma admit_verdict s kind meta grant ref change r :
  WF s -> tasks s !! ref = Some r ->
  (forall g, grant = Some g -> LeaseGrant_Task g = ref /\ validateLeaseGrant g = Ok tt) ->
  admitTransition s kind meta grant change (TaskRecord_Task r) =
    refused_or (take 5 (transition_refusals s kind (CommandMeta_ExpectedRevision meta) grant ref change r)) (Ok tt).
Proof.
  intros Hwf Hr Hg. unfold admitTransition, transition_refusals. cbn [take].
  assert (match grant with None => Ok tt | Some g => requireCurrentLeaseFromStore s g end
          = refused_or [grant ≫= lease_refusal s r] (Ok tt)) as ->.
  { destruct grant as [g|]; [|done]. destruct (Hg g eq_refl). by apply (require_lease_verdict s ref). }
  destruct (wt_record _ _ _ (wf_tasks _ Hwf _ _ Hr)).
  destruct (vr_task _ wr_valid) as [_ _ _ _ [_ Hrev] [_ Hmsg] Hev _ _ _ _ _].
  cbn [refused_or]. destruct (grant ≫= _); [done|]. cbn [obind]. unfold refusal.
  destruct (negb (_ =? _)%Z); [done|]. cbn [refuse_if obind].
  destruct (Terminal _); [done|]. cbn [refuse_if obind].
  destruct (negb (containsState _ _)); [done|]. cbn [refuse_if obind]. rewrite Hev, !Z.geb_leb.
  destruct (MaxInt64 <=? Task_Revision _)%Z eqn:E; [done|]. cbn [orb]. zbool.
  rewrite (proj2 (Z.leb_gt _ _)) by lia. by rewrite andb_false_r.
Qed.

Lemma moveArtifact_do (s : memoryAgentState) a ref next p d x :
  artifacts s !! a = Some x -> Artifact_Task (ArtifactRecord_Artifact x) = ref ->
  Artifact_State (ArtifactRecord_Artifact x) = ArtifactFrozen -> TaskRef_Workspace ref = ArtifactRef_Workspace a ->
  moveArtifact s a ref next p d = Ok (move_artifact a (next, p, d) s).
Proof.
  intros Hx Ht Hf Hw. unfold moveArtifact. rewrite (CompareAndSwapArtifact_do _ _ _ _ _ x) by done.
  cbn [obind negb refuse_if]. unfold move_artifact. by rewrite Hx.
Qed.

(** The writes of an admitted transition are refused by a message or a
    submission identifier that is in use, and by nothing else. *)
Lemma writes_verdict s kind meta ref digest change leased r prepared now :
  WF s -> tasks s !! ref = Some r -> task_change change leased ->
  Terminal (Task_State (TaskRecord_Task r)) = false ->
  (is_empty (change_submission change) = false -> Task_Artifact (TaskRecord_Task r) = change_artifact change) ->
  commands s !! {| CommandKey_Authority := task_authority ref; CommandKey_ID := CommandMeta_ID meta |} = None ->
  let next := transitionTask ref change (TaskRecord_Task r) now in
  transitionWrites (add_task (transitionRecord change r next) s) kind meta ref digest change (TaskRecord_Task r) next
      prepared now =
    refused_or (drop 6 (transition_refusals s kind 0 None ref change r))
      (Ok (transition_commit ref change r prepared now
             (commandRecord (task_authority ref) (CommandMeta_ID meta) kind digest "task" next now) s)).
Proof.
  intros Hwf Hr Hch Hterm Hart Hfree next. unfold transitionWrites, transition_refusals. cbn [drop].
  set (s1 := add_task _ s).
  (* the message *)
  assert (match change_message change with
    | None => Ok s1
    | Some message => insertMessageToStore s1 {| Message_ID := MessageInput_ID message; Message_Task := ref;
           Message_Sequence := Task_MessageCount next; Message_Author := change_author change;
           Message_Parts := MessageInput_Parts message; Message_CreatedAt := now |} prepared
    end = refused_or [refusal (match change_message change with
             | Some message => message_used s (task_authority ref) (MessageInput_ID message)
             | None => false end) ErrMessageConflict]
            (Ok (if_some add_message (changeMessage ref change next prepared now) s1))) as ->.
  { unfold changeMessage, next, transitionTask. destruct (change_message change) as [m|]; [|done].
    rewrite insertMessage_new by (cbn; apply (wf_next_message _ _ _ Hwf Hr)). unfold message_used.
    cbn. unfold message_key, task_authority. cbn. by destruct (messages s !! _). }
  cbn [refused_or]. unfold refusal at 1 2.
  match goal with |- context [if ?b then Some ErrMessageConflict else None] => destruct b end; [done|].
  cbn [refused_or obind]. set (s2 := if_some add_message _ s1).
  (* the Artifact *)
  assert (artifacts s2 = artifacts s /\ submissions s2 = submissions s) as [Ea Esub].
  { unfold s2. destruct (if_some_message (changeMessage ref change next prepared now) s1) as (-> & -> & _). done. }
  assert (obind match change_discardArtifact change, Task_Artifact (TaskRecord_Task r) with
      | true, Some artifact => moveArtifact s2 artifact ref ArtifactDiscarded None (Some now)
      | _, _ => Ok s2 end
    (fun tx => match change_artifact change with
      | Some artifact => moveArtifact tx artifact ref ArtifactPublished (Some now) None
      | None => Ok tx end)
    = Ok (if_some (fun move => move_artifact (fst move) (snd move)) (changeArtifact change (TaskRecord_Task r) now) s2))
    as Hmove.
  { unfold changeArtifact. pose proof (task_change_artifact _ _ Hch) as Hex.
    destruct (change_artifact change) as [a|] eqn:Eart.
    - destruct (change_discardArtifact change); [by specialize (Hex eq_refl)|]. cbn [obind].
      assert (Task_Artifact (TaskRecord_Task r) = Some a) as Hta.
      { apply Hart. destruct Hch; cbn in *; try done.
        apply not_true_iff_false. rewrite is_empty_true. by eapply match_stable_nonempty, validateStable_Ok. }
      destruct (wf_open_artifact _ _ _ _ Hwf Hr Hterm Hta) as (x & Hx & Ht & Hf & Hw).
      by apply (moveArtifact_do _ _ _ _ _ _ x); rewrite ?Ea.
    - destruct (change_discardArtifact change), (Task_Artifact (TaskRecord_Task r)) as [a|] eqn:Hta; try done.
      destruct (wf_open_artifact _ _ _ _ Hwf Hr Hterm Hta) as (x & Hx & Ht & Hf & Hw). cbn [obind].
      rewrite (moveArtifact_do _ _ _ _ _ _ x) by (rewrite ?Ea; done). done. }
  rewrite <- obind_assoc, Hmove. cbn [obind]. set (s3 := if_some _ _ s2).
  (* the submission *)
  assert (submissions s3 = submissions s) as Es.
  { unfold s3. by rewrite (proj1 (if_some_move _ _)). }
  assert (match transitionSubmission ref change now with
    | Some submission => on_error ErrStoreConflict ErrSubmissionConflict
          (InsertSubmission {| SubmissionRecord_Submission := submission |} s3)
    | None => Ok s3 end
    = refused_or [refusal (negb (is_empty (change_submission change))
             && submission_used s (task_authority ref) (change_submission change)) ErrSubmissionConflict]
        (Ok (if_some (fun x => add_submission {| SubmissionRecord_Submission := x |})
               (transitionSubmission ref change now) s3))) as ->.
  { unfold transitionSubmission. destruct (is_empty (change_submission change)); [done|]. cbn [negb andb].
    rewrite InsertSubmission_at; [|cbn; rewrite Es; by eapply wf_open_submission]. unfold submission_used. cbn.
    rewrite Es. unfold refusal. by destruct (WriteOp.some_value _ _). }
  cbn [refused_or]. unfold refusal. destruct (negb (is_empty _) && _)%bool; [done|]. cbn [obind].
  (* the event and the receipt *)
  set (s4 := if_some _ _ s3).
  assert (events s4 = events s /\ commands s4 = commands s) as [Ee Ec].
  { unfold s4, s3, s2, changeArtifact, changeMessage. destruct (transitionSubmission _ _ _), (change_message change),
      (change_artifact change), (change_discardArtifact change), (Task_Artifact (TaskRecord_Task r)); cbn;
      repeat match goal with |- context [match ?m !! ?k with _ => _ end] => destruct (m !! k) end; done. }
  rewrite insertEvent_new.
  2:{ cbn. unfold history. rewrite Ee. by apply next_event_new. }
  cbn [obind]. unfold recordTaskCommandToStore. rewrite record_new by (cbn; by rewrite Ec). done.
Qed.

(** The write of a committed transition. *)
Definition transition_result (meta : CommandMeta) (kind digest : string) (ref : TaskRef) (change : transition_change)
    (r : StoreTaskRecord) (prepared : preparedMessageContent) (now : time) (s : memoryAgentState)
    : Task * memoryAgentState :=
  let next := transitionTask ref change (TaskRecord_Task r) now in
  (next, transition_commit ref change r prepared now
           (commandRecord (task_authority ref) (CommandMeta_ID meta) kind digest "task" next now) s).

(** C11: the verdict on a transition. In a well-formed state the transaction of
    a transition that has no receipt yet is total: on an unknown Task it
    returns ErrNotFound; else it returns the first refusal of the table - a
    stale or forged lease, a revision conflict, a terminal Task, a state the
    transition does not start from, an exhausted counter, an Artifact that is
    not the Task's, a message or a submission identifier in use - and with no
    refusal it commits exactly the write of the machine's rule. *)
Theorem transition_outcome agent kind meta grant ref digest change leased prepared clock s :
  WF s -> task_change change leased ->
  (forall g, grant = Some g -> LeaseGrant_Task g = ref /\ validateLeaseGrant g = Ok tt) ->
  replayTransition s kind meta grant ref digest = Ok None ->
  checkedClockTime (Agent_now agent) = Ok clock ->
  transitionTx agent kind meta grant ref digest change prepared s =
    match tasks s !! ref with
    | None => Err ErrNotFound
    | Some r =>
        refused_or (transition_refusals s kind (CommandMeta_ExpectedRevision meta) grant ref change r)
          (Ok (transition_result meta kind digest ref change r prepared
                 (timestampAtLeast clock [Task_UpdatedAt (TaskRecord_Task r)]) s))
    end.
Proof.
  intros Hwf Hch Hg Hrep Hclock. unfold transitionTx. rewrite Hrep. cbn [obind].
  destruct (tasks s !! ref) as [r|] eqn:Hr; [|by rewrite load_absent].
  rewrite (wf_load _ _ _ Hwf Hr). cbn [obind]. rewrite (admit_verdict _ _ _ _ ref _ _ Hwf Hr Hg).
  assert (commands s !! {| CommandKey_Authority := task_authority ref; CommandKey_ID := CommandMeta_ID meta |} = None)
    as Hfree.
  { unfold replayTransition in Hrep. apply obind_Ok in Hrep as ([t|] & Hf & Hrep).
    - apply obind_Ok in Hrep as ([] & _ & Hrep). apply obind_Ok in Hrep as ([] & _ & Hrep). discriminate Hrep.
    - by eapply replay_task_absent. }
  unfold transition_refusals at 1 2. cbn [take refused_or]. unfold refusal.
  destruct (grant ≫= lease_refusal s r) as [e|] eqn:El; [done|].
  destruct (_ =? CommandMeta_ExpectedRevision meta)%Z eqn:Erev; cbn [negb]; [|done]. zbool.
  destruct (Terminal _) eqn:Hterm; [done|]. destruct (negb (containsState _ _)); [done|].
  destruct (MaxInt64 <=? _)%Z; [done|]. cbn [refused_or obind]. rewrite Hclock. cbn [obind].
  set (now := timestampAtLeast _ _).
  destruct (negb (is_empty (change_submission change)) && _)%bool eqn:Eart; [done|]. cbn [refuse_if obind refused_or].
  destruct (wt_record _ _ _ (wf_tasks _ Hwf _ _ Hr)).
  unfold transitionCondition. rewrite (CompareAndSwapTask_do _ _ _ _ _ r); [|done|done|done|lia| |done|done].
  2:{ destruct grant as [g|]; [|done]. intros l [= <-]. by apply (lease_refusal_none s). }
  cbn [obind negb]. rewrite (writes_verdict _ _ _ _ _ _ leased); [|done..| |done].
  - unfold transition_refusals. cbn [drop refused_or]. unfold refusal.
    match goal with |- context [if ?b then Some ErrMessageConflict else None] => destruct b end; [done|].
    match goal with |- context [if ?b then Some ErrSubmissionConflict else None] => destruct b end; done.
  - intros He. rewrite He in Eart. cbn in Eart. by decided.
Qed.

(* ------------------------------------------------------------------ *)
(** ** CreateTask *)

(** A public Task identifier that is in use in an authority. *)
Definition task_used (s : memoryAgentState) (authority : AuthorityID) (id : TaskID) : bool :=
  WriteOp.some_value (fun r => (task_authority (Task_Ref (TaskRecord_Task r)) =?= authority)
                               && (TaskRef_ID (Task_Ref (TaskRecord_Task r)) =?= id)) (tasks s).

Lemma task_used_spec s authority id :
  WF s -> task_used s authority id = false <->
  forall ref, is_Some (tasks s !! ref) -> task_authority ref = authority -> TaskRef_ID ref <> id.
Proof.
  intros Hwf. unfold task_used. rewrite some_value_false.
  assert (forall ref r, tasks s !! ref = Some r -> Task_Ref (TaskRecord_Task r) = ref) as Hkey.
  { intros ref r Hr. apply (wr_ref _ _ (wt_record _ _ _ (wf_tasks _ Hwf _ _ Hr))). }
  split.
  - intros Hf ref [r Hr] Ha Hi. specialize (Hf _ _ Hr). cbn in Hf. rewrite (Hkey _ _ Hr) in Hf.
    by rewrite !bool_decide_eq_true_2 in Hf.
  - intros Hf ref r Hr. rewrite (Hkey _ _ Hr). apply not_true_iff_false. intros [H1 H2]%andb_true_iff. decided.
    apply (Hf ref); [by eexists|done|done].
Qed.

(** Why a creation is refused. *)
Definition create_refusals (s : memoryAgentState) (command : CreateTaskCommand) : list (option error) :=
  let authority := task_authority (CreateTask_Task command) in
  [ refusal (task_used s authority (TaskRef_ID (CreateTask_Task command))) ErrTaskConflict;
    refusal (message_used s authority (MessageInput_ID (CreateTask_Message command))) ErrMessageConflict ].

Lemma insert_task_verdict s r :
  WF s ->
  on_error ErrStoreConflict ErrTaskConflict (InsertTask r s) =
    let ref := Task_Ref (TaskRecord_Task r) in
    if task_used s (task_authority ref) (TaskRef_ID ref) then Err ErrTaskConflict else Ok (add_task r s).
Proof.
  intros Hwf. cbv zeta. destruct (task_used _ _ _) eqn:E.
  - unfold task_used, WriteOp.some_value in E. apply existsb_exists in E as (r' & Hin & E).
    apply list_elem_of_In, list_elem_of_fmap in Hin as ([ref' r''] & -> & Hin%elem_of_map_to_list). cbn in E.
    pose proof (wr_ref _ _ (wt_record _ _ _ (wf_tasks _ Hwf _ _ Hin))) as Href. cbn in Href. rewrite Href in E.
    apply andb_true_iff in E as [E1 E2]. decided.
    destruct (InsertTask_taken r s ref') as (c & k & ->); [by eexists|done..].
  - rewrite task_used_spec in E by done. rewrite InsertTask_new; [done| |done].
    destruct (tasks s !! _) eqn:Er; [|done]. exfalso. by eapply E; [by eexists| |].
Qed.

(** The verdict on CreateTask. In a well-formed state a new CreateTask
    returns ErrTaskConflict exactly when its public Task identifier is in use
    in the authority (in any workspace), ErrMessageConflict exactly when its
    message identifier is, and else commits the Task with its first message,
    its first event and the receipt. *)
Theorem create_task_outcome agent command digest prepared clock s :
  WF s -> replayCreate s command digest = Ok None -> checkedClockTime (Agent_now agent) = Ok clock ->
  createTaskTx agent command digest prepared s =
    refused_or (create_refusals s command)
      (Ok (createdTask command clock,
           create_commit command prepared clock
             (commandRecord (task_authority (CreateTask_Task command)) (CommandMeta_ID (CreateTask_Meta command))
                "create_task" digest "task" (createdTask command clock) clock) s)).
Proof.
  intros Hwf Hrep Hclock. unfold createTaskTx, create_refusals. rewrite Hrep, Hclock. cbn [obind].
  assert (commands s !! {| CommandKey_Authority := task_authority (CreateTask_Task command);
                           CommandKey_ID := CommandMeta_ID (CreateTask_Meta command) |} = None) as Hfree.
  { unfold replayCreate in Hrep. apply obind_Ok in Hrep as ([t|] & Hf & Hrep).
    - apply obind_Ok in Hrep as ([] & _ & Hrep). discriminate Hrep.
    - by eapply replay_task_absent. }
  rewrite insert_task_verdict by done. cbn [createdRecord TaskRecord_Task createdTask Task_Ref refused_or].
  unfold refusal. destruct (task_used _ _ _) eqn:E; [done|]. cbn [obind].
  assert (tasks s !! CreateTask_Task command = None) as Hnew.
  { rewrite task_used_spec in E by done. destruct (tasks s !! _) eqn:Er; [|done]. exfalso. by eapply E; [by eexists| |]. }
  rewrite insertMessage_new.
  2:{ intros k m Hm Ht. cbn in Ht. destruct (wm_task _ _ _ (wf_messages _ Hwf _ _ Hm)) as [r Hr].
      rewrite Ht in Hr. cbn in Hr. congruence. }
  unfold message_used, message_key, task_authority.
  cbn [MessageRecord_Task MessageRecord_ID Message_Task Message_ID messages add_task set_tasks].
  destruct (messages s !! _); [done|]. cbn [is_none negb obind].
  rewrite insertEvent_new; [|cbn; change (history s (CreateTask_Task command) !! 1%Z = None);
    by rewrite (wf_no_events _ Hwf)].
  cbn [obind]. unfold recordTaskCommandToStore. rewrite record_new by done. done.
Qed.
