(* ===== verification/AgentLeaseVerdict.v ===== *)
(** * The verdict on the lease commands

    AcquireLease, ClaimLease and FenceLease in a well-formed state: which Task
    is chosen, why a lease is refused, and the write of a grant or a fence. *)

From S2P Require Import Prelude GoText GoTime GoJson AgentTypes AgentCodec Framework Protect.
From S2P Require Import AgentStore MemoryStore AgentCore AgentCommands AgentLease AgentArtifact AgentFacts AgentReplay.
From S2P Require Import Paging MemoryFacts MemoryForward AgentMachine AgentRefinement AgentInvariant AgentPreserve.
From S2P Require Import AgentHistory AgentVerdict.

Local Open Scope string_scope.

(** When the Task was last granted: the zero time when it never was. *)
Definition last_granted (s : memoryAgentState) (r : StoreTaskRecord) : time :=
  match grant_at (Task_Ref (TaskRecord_Task r)) (Lease_Fence (TaskRecord_Lease r)) (leaseGrants s) with
  | Some g => GrantRecord_GrantedAt g
  | None => zero_time
  end.

Definition next_assignment (r : StoreTaskRecord) (worker : WorkerID) (now : time) : LeaseAssignment :=
  {| LeaseAssignment_Grant := GrantRecord_Grant (next_grant r worker now);
     LeaseAssignment_Task := TaskRecord_Task r; LeaseAssignment_GrantedAt := now |}.

Definition grant_now (s : memoryAgentState) (r : StoreTaskRecord) (clock : time) : time :=
  timestampAtLeast clock [Task_UpdatedAt (TaskRecord_Task r); last_granted s r].

Definition grant_result (kind digest : string) (authority : AuthorityID) (id : CommandID) (worker : WorkerID)
    (r : StoreTaskRecord) (now : time) (s : memoryAgentState) : LeaseAssignment * memoryAgentState :=
  (next_assignment r worker now,
   grant_commit r worker now
     (commandRecord authority id kind digest "lease_assignment" (next_assignment r worker now) now) s).

Definition fence_exhausted (r : StoreTaskRecord) : option error :=
  refusal (MaxInt64 <=? Lease_Fence (TaskRecord_Lease r))%Z ErrLeaseFenceExhausted.

(** The mutable lease pointer always agrees with the lease history. *)
Lemma history_head_ok s ref r :
  WF s -> tasks s !! ref = Some r -> validateLeaseHistoryHeadFromStore s r = Ok (last_granted s r).
Proof.
  intros Hwf Hr. destruct (wf_tasks _ Hwf _ _ Hr) as [Hrec _ _ Hl _ _].
  pose proof (wr_ref _ _ Hrec) as Href. pose proof (wr_fence _ _ Hrec) as Hfence.
  unfold validateLeaseHistoryHeadFromStore, last_granted. rewrite Href, (latest_is_current _ _ _ Hwf Hr). cbn [obind].
  destruct (grant_at _ _ _) as [g|] eqn:Hg.
  - destruct (wl_grant _ _ _ _ Hl _ _ Hg) as [Ht Hf Hw Hti Hc].
    assert (1 <= Lease_Fence (TaskRecord_Lease r) <= Lease_Fence (TaskRecord_Lease r))%Z as Hpos
      by (apply (wl_domain _ _ _ _ Hl); eauto).
    rewrite validateLeaseGrant_facts, Ht, Hf, Z.eqb_refl, bool_decide_eq_true_2; [|done| |done|rewrite Hf; lia].
    2:{ rewrite Ht, <- Href. apply (vt_ref _ (vr_task _ (wr_valid _ _ Hrec))). }
    assert (validLeaseTimestamp (GrantRecord_GrantedAt g) = true) as -> by (apply store_time_int64; done).
    unfold Before. rewrite (proj2 (Z.ltb_ge _ _)) by done. cbn [is_ok negb orb].
    rewrite refuse_if_false; [done|]. destruct (is_empty (Lease_Owner _)) eqn:Eo; [done|]. cbn [negb andb].
    apply not_true_iff_false in Eo. rewrite is_empty_true in Eo.
    destruct (wl_owner _ _ _ _ Hl Eo) as (g' & Hg' & Hw'). rewrite Hg in Hg'. injection Hg' as <-.
    by rewrite Hw', bool_decide_eq_true_2.
  - assert (Lease_Fence (TaskRecord_Lease r) = 0%Z) as Hz.
    { destruct (decide (Lease_Fence (TaskRecord_Lease r) = 0%Z)); [done|exfalso].
      assert (is_Some (grant_at ref (Lease_Fence (TaskRecord_Lease r)) (leaseGrants s))) as [g E]
        by (apply (wl_domain _ _ _ _ Hl); lia). congruence. }
    rewrite Hz. cbn [Z.eqb negb orb].
    assert (is_empty (Lease_Owner (TaskRecord_Lease r)) = true) as ->; [|done].
    destruct (is_empty _) eqn:Eo; [done|]. apply not_true_iff_false in Eo. rewrite is_empty_true in Eo.
    destruct (vr_owner _ (wr_valid _ _ Hrec) Eo) as [Hne _]. congruence.
Qed.

Lemma last_granted_time s ref r : WF s -> tasks s !! ref = Some r ->
  last_granted s r = zero_time \/ in_int64 (last_granted s r).
Proof.
  intros Hwf Hr. destruct (wf_tasks _ Hwf _ _ Hr) as [Hrec _ _ Hl _ _]. unfold last_granted.
  rewrite (wr_ref _ _ Hrec). destruct (grant_at _ _ _) as [g|] eqn:Hg; [|by left].
  right. apply (wg_time _ _ _ _ (wl_grant _ _ _ _ Hl _ _ Hg)).
Qed.

Lemma grant_now_time s ref r clock :
  WF s -> tasks s !! ref = Some r -> in_int64 clock ->
  in_int64 (grant_now s r clock) /\ (Task_CreatedAt (TaskRecord_Task r) <= grant_now s r clock)%Z.
Proof.
  intros Hwf Hr Hc. destruct (wt_record _ _ _ (wf_tasks _ Hwf _ _ Hr)).
  pose proof (vt_updated _ (vr_task _ wr_valid)) as Hup. unfold grant_now.
  destruct (timestampAtLeast_spec clock [Task_UpdatedAt (TaskRecord_Task r); last_granted s r]) as (Hin & Hle & Hall).
  rewrite !Forall_cons in Hall. destruct Hall as (Hu & Hg & _). split; [|lia].
  destruct Hin as [-> | Hin]; [done|]. rewrite !elem_of_cons in Hin. destruct Hin as [-> | [Hin | Hin]]; [done| |].
  - destruct (last_granted_time _ _ _ Hwf Hr) as [E|]; [|by rewrite Hin].
    exfalso. rewrite Hin, E in Hu. pose proof (zero_time_before _ wr_updated). lia.
  - by apply elem_of_nil in Hin.
Qed.

Lemma next_assignment_valid s ref r worker clock :
  WF s -> tasks s !! ref = Some r -> match_stable worker = true -> in_int64 clock ->
  Terminal (Task_State (TaskRecord_Task r)) = false -> (Lease_Fence (TaskRecord_Lease r) < MaxInt64)%Z ->
  validateLeaseAssignment (next_assignment r worker (grant_now s r clock)) = Ok tt.
Proof.
  intros Hwf Hr Hw Hc Ht Hf. destruct (grant_now_time _ _ _ _ Hwf Hr Hc) as [Hin Hcr].
  destruct (wt_record _ _ _ (wf_tasks _ Hwf _ _ Hr)). unfold validateLeaseAssignment, next_assignment.
  cbn [LeaseAssignment_Grant LeaseAssignment_Task LeaseAssignment_GrantedAt next_grant GrantRecord_Grant LeaseGrant_Task].
  rewrite validateLeaseGrant_facts; [|apply (vt_ref _ (vr_task _ wr_valid))|done|cbn; lia].
  cbn [replace_error obind]. rewrite check_of_valid_task by apply (vr_task _ wr_valid).
  rewrite bool_decide_eq_true_2, Ht by done. unfold Before. rewrite (proj2 (Z.ltb_ge _ _)) by done.
  assert (validLeaseTimestamp (grant_now s r clock) = true) as -> by (apply store_time_int64; done). done.
Qed.

Lemma grantLease_verdict agent authority id kind digest worker validate clock s ref r :
  WF s -> tasks s !! ref = Some r -> Lease_Owner (TaskRecord_Lease r) = "" ->
  checkedClockTime (Agent_now agent) = Ok clock ->
  commands s !! {| CommandKey_Authority := authority; CommandKey_ID := id |} = None ->
  ((Lease_Fence (TaskRecord_Lease r) < MaxInt64)%Z ->
    validate (next_assignment r worker (grant_now s r clock)) = Ok tt) ->
  grantLease agent s r (last_granted s r) authority id kind digest worker validate =
    refused_or [fence_exhausted r]
      (Ok (grant_result kind digest authority id worker r (grant_now s r clock) s)).
Proof.
  intros Hwf Hr Ho Hclock Hfree Hval. unfold grantLease, fence_exhausted. cbn [refused_or]. unfold refusal.
  rewrite Z.geb_leb. destruct (MaxInt64 <=? _)%Z eqn:E; [done|]. zbool. cbn [refuse_if obind].
  rewrite Hclock. cbn [obind]. cbv zeta.
  change (timestampAtLeast clock [Task_UpdatedAt (TaskRecord_Task r); last_granted s r]) with (grant_now s r clock).
  set (now := grant_now s r clock) in *.
  change ({| LeaseAssignment_Grant := {| LeaseGrant_Task := Task_Ref (TaskRecord_Task r);
      LeaseGrant_Worker := worker; LeaseGrant_Fence := Lease_Fence (TaskRecord_Lease r) + 1 |};
      LeaseAssignment_Task := TaskRecord_Task r; LeaseAssignment_GrantedAt := now |})
    with (next_assignment r worker now).
  rewrite Hval by done. cbn [obind].
  destruct (wf_tasks _ Hwf _ _ Hr) as [Hrec _ _ Hl _ _]. pose proof (wr_ref _ _ Hrec) as Href.
  change ({| GrantRecord_Grant := LeaseAssignment_Grant (next_assignment r worker now); GrantRecord_GrantedAt := now |})
    with (next_grant r worker now).
  rewrite InsertLeaseGrant_new.
  2:{ change (grant_at (Task_Ref (TaskRecord_Task r)) (Lease_Fence (TaskRecord_Lease r) + 1) (leaseGrants s) = None).
      rewrite Href. destruct (grant_at _ _ _) as [g|] eqn:Hg; [|done]. exfalso.
      assert (1 <= Lease_Fence (TaskRecord_Lease r) + 1 <= Lease_Fence (TaskRecord_Lease r))%Z; [|lia].
      apply (wl_domain _ _ _ _ Hl). eauto. }
  cbn [on_error obind]. pose proof (wr_revision ref r Hrec).
  rewrite (CompareAndSwapTask_do _ _ _ _ _ r); [|cbn; by rewrite Href|done|done|lia|by intros l [= <-]|done|done].
  cbn [obind negb refuse_if]. rewrite record_new by done. done.
Qed.

(* ------------------------------------------------------------------ *)
(** ** AcquireLease *)

(** Why a Task cannot be leased. *)
Definition acquire_refusals (r : StoreTaskRecord) : list (option error) :=
  [ refusal (Terminal (Task_State (TaskRecord_Task r)))
      (TransitionError "acquire_lease" (Task_State (TaskRecord_Task r)) true);
    refusal (negb (is_empty (Lease_Owner (TaskRecord_Lease r)))) ErrLeaseUnavailable;
    fence_exhausted r ].

(** C12: the verdict on AcquireLease. In a well-formed state a new AcquireLease
    is refused with ErrNotFound on an unknown Task, with a TransitionError on
    a terminal one, with ErrLeaseUnavailable while somebody holds it, with
    ErrLeaseFenceExhausted at the last fence; else it grants the next fence to
    the worker, dated no earlier than the Task and the grant before. *)
Theorem acquire_lease_outcome agent command digest clock s :
  WF s -> replayAcquire s command digest = Ok None -> checkedClockTime (Agent_now agent) = Ok clock ->
  acquireLeaseTx agent command digest s =
    match tasks s !! AcquireLease_Task command with
    | None => Err ErrNotFound
    | Some r =>
        refused_or (acquire_refusals r)
          (Ok (grant_result "acquire_lease" digest (task_authority (AcquireLease_Task command))
                 (AcquireLease_ID command) (AcquireLease_Worker command) r (grant_now s r clock) s))
    end.
Proof.
  intros Hwf Hrep Hclock. unfold acquireLeaseTx. rewrite Hrep. cbn [obind].
  destruct (tasks s !! _) as [r|] eqn:Hr; [|by rewrite load_absent].
  rewrite (wf_load _ _ _ Hwf Hr). cbn [obind]. rewrite (history_head_ok _ _ _ Hwf Hr). cbn [obind].
  unfold acquire_refusals. cbn [refused_or]. unfold refusal. destruct (Terminal _); [done|]. cbn [refuse_if obind].
  destruct (is_empty (Lease_Owner _)) eqn:Eo; [|done]. cbn [negb refuse_if obind].
  rewrite (grantLease_verdict _ _ _ _ _ _ _ clock _ _ _ Hwf Hr); [done|by apply is_empty_true|done| |done].
  unfold replayAcquire in Hrep. apply obind_Ok in Hrep as ([a|] & Hf & Hrep).
  - apply obind_Ok in Hrep as ([] & _ & Hrep). apply obind_Ok in Hrep as ([] & _ & Hrep). discriminate Hrep.
  - exact (replay_absent _ _ _ _ _ _ Hf).
Qed.

(* ------------------------------------------------------------------ *)
(** ** ClaimLease *)

(** The claimable Task of an authority that comes first: no other one is
    older. *)
Record first_claimable (s : memoryAgentState) (authority : AuthorityID) (r : StoreTaskRecord) : Prop := {
  fc_stored : tasks s !! Task_Ref (TaskRecord_Task r) = Some r;
  fc_claimable : ReadOp.claimable authority r = true;
  fc_oldest : forall ref r', tasks s !! ref = Some r' -> ReadOp.claimable authority r' = true ->
    memoryAgentTaskCreatedLess r' r = false
}.

Lemma claimable_facts authority r :
  ReadOp.claimable authority r = true ->
  task_authority (Task_Ref (TaskRecord_Task r)) = authority /\ Lease_Owner (TaskRecord_Lease r) = "" /\
  Terminal (Task_State (TaskRecord_Task r)) = false.
Proof.
  unfold ReadOp.claimable, task_authority. rewrite !andb_true_iff, is_empty_true, negb_true_iff.
  intros [[H1 H2] H3]. decided. by rewrite H1.
Qed.

(** Two Tasks of an authority with the same place are the same. *)
Lemma same_place s ref1 ref2 r1 r2 :
  WF s -> tasks s !! ref1 = Some r1 -> tasks s !! ref2 = Some r2 ->
  task_authority ref1 = task_authority ref2 ->
  place (Task_Ref (TaskRecord_Task r1)) = place (Task_Ref (TaskRecord_Task r2)) -> ref1 = ref2.
Proof.
  intros Hwf H1 H2 Ha. rewrite (wr_ref _ _ (wt_record _ _ _ (wf_tasks _ Hwf _ _ H1))),
    (wr_ref _ _ (wt_record _ _ _ (wf_tasks _ Hwf _ _ H2))).
  destruct ref1 as [[a1 w1] i1], ref2 as [[a2 w2] i2]. unfold place, task_authority in *. cbn in *. congruence.
Qed.

(** At most one Task comes first. *)
Lemma first_claimable_unique s authority r1 r2 :
  WF s -> first_claimable s authority r1 -> first_claimable s authority r2 -> r1 = r2.
Proof.
  intros Hwf [S1 C1 O1] [S2 C2 O2]. pose proof (O1 _ _ S2 C2) as H1. pose proof (O2 _ _ S1 C1) as H2.
  rewrite created_less in H1, H2. pose proof (less_total _ strict_total_oldest _ _ H2 H1) as E.
  injection E as _ E1 E2. destruct (claimable_facts _ _ C1) as (A1 & _), (claimable_facts _ _ C2) as (A2 & _).
  assert (Task_Ref (TaskRecord_Task r1) = Task_Ref (TaskRecord_Task r2)) as E.
  { apply (same_place s _ _ r1 r2); try done; [by rewrite A1, A2|]. unfold place. congruence. }
  rewrite E in S1. congruence.
Qed.

Lemma find_claimable_verdict s authority :
  WF s ->
  match FindClaimableTask authority s with
  | Ok r => first_claimable s authority r
  | Err e => errors_Is e ErrStoreRecordNotFound = true /\
      forall ref r, tasks s !! ref = Some r -> ReadOp.claimable authority r = false
  end.
Proof.
  intros Hwf. primitive. unfold ReadOp.FindClaimableTask. primitive.
  pose proof (sort_slice_ascending created_key oldest_first strict_total_oldest _ created_less
    (ReadOp.select (ReadOp.claimable authority) (tasks s))) as Hasc.
  pose proof (sort_slice_perm memoryAgentTaskCreatedLess (ReadOp.select (ReadOp.claimable authority) (tasks s))) as Hp.
  destruct (sort_slice _ _) as [|r l].
  - split; [done|]. intros ref r Hr. destruct (ReadOp.claimable authority r) eqn:Hc; [|done]. exfalso.
    assert (r ∈ []) as Hin by (rewrite Hp; apply elem_of_select; eauto). by apply elem_of_nil in Hin.
  - assert (r ∈ r :: l) as Hin by left. rewrite Hp in Hin. apply elem_of_select in Hin as [[ref Hr] Hc].
    split; [by rewrite (wr_ref _ _ (wt_record _ _ _ (wf_tasks _ Hwf _ _ Hr)))|done|].
    intros ref' r' Hr' Hc'. inversion Hasc as [|? ? _ Hall]; subst.
    assert (r' ∈ r :: l) as Hin by (rewrite Hp; apply elem_of_select; eauto).
    apply elem_of_cons in Hin as [->|Hin]; [|by rewrite Forall_forall in Hall; apply Hall].
    rewrite created_less. apply (less_irrefl _ strict_total_oldest).
Qed.

(** C13: the verdict on ClaimLease. In a well-formed state a new ClaimLease
    takes the oldest open Task of the authority nobody holds - the least by
    creation time, workspace and identifier - and either grants its next fence
    to the worker or returns ErrLeaseFenceExhausted; it returns
    ErrLeaseNotFound only when no such Task exists. *)
Theorem claim_lease_outcome agent command digest clock s :
  WF s -> replayClaim s command digest = Ok None -> checkedClockTime (Agent_now agent) = Ok clock ->
  match_stable (ClaimLease_Worker command) = true ->
  (exists r, first_claimable s (ClaimLease_Authority command) r /\
    claimLeaseTx agent command digest s =
      refused_or [fence_exhausted r]
        (Ok (grant_result "claim_lease" digest (ClaimLease_Authority command) (ClaimLease_ID command)
               (ClaimLease_Worker command) r (grant_now s r clock) s))) \/
  ((forall ref r, tasks s !! ref = Some r -> ReadOp.claimable (ClaimLease_Authority command) r = false) /\
    claimLeaseTx agent command digest s = Err ErrLeaseNotFound).
Proof.
  intros Hwf Hrep Hclock Hw. pose proof (find_claimable_verdict s (ClaimLease_Authority command) Hwf) as Hfind.
  unfold claimLeaseTx. rewrite Hrep. cbn [obind].
  destruct (FindClaimableTask _ _) as [r|e].
  - left. exists r. split; [done|]. destruct Hfind as [Hr Hc _]. cbn [on_error obind].
    destruct (claimable_facts _ _ Hc) as (Ha & Ho & Ht). unfold task_authority in Ha.
    destruct (wt_record _ _ _ (wf_tasks _ Hwf _ _ Hr)).
    rewrite (proj2 (valid_record_check r) wr_valid), Ha, Ht, Ho, bool_decide_eq_true_2 by done.
    cbn [is_ok negb orb is_empty refuse_if obind]. rewrite (history_head_ok _ _ _ Hwf Hr). cbn [obind].
    rewrite (grantLease_verdict _ _ _ _ _ _ _ clock _ _ _ Hwf Hr); [done..| |].
    + unfold replayClaim in Hrep. apply obind_Ok in Hrep as ([a|] & Hf & Hrep).
      * apply obind_Ok in Hrep as ([] & _ & Hrep). apply obind_Ok in Hrep as ([] & _ & Hrep). discriminate Hrep.
      * exact (replay_absent _ _ _ _ _ _ Hf).
    + intros Hlt. apply (next_assignment_valid s (Task_Ref (TaskRecord_Task r))); try done.
      by apply checkedClockTime_Ok in Hclock as (_ & ? & _).
  - right. destruct Hfind as [He Hnone]. split; [done|]. cbn [on_error]. by rewrite He.
Qed.

(* ------------------------------------------------------------------ *)
(** ** FenceLease *)

Definition fence_result (command : FenceLeaseCommand) (digest : string) (r : StoreTaskRecord) (clock : time)
    (s : memoryAgentState) : unit * memoryAgentState :=
  let grant := FenceLease_Grant command in
  (tt, fence_commit r (commandRecord (task_authority (LeaseGrant_Task grant)) (FenceLease_ID command) "fence_lease"
         digest "lease_grant" grant clock) s).

(** The verdict on FenceLease. In a well-formed state a new FenceLease
    returns ErrNotFound on an unknown Task, and retires the lease exactly when
    the grant is the current one: an unknown or retired fence is
    ErrStaleLease. Retiring keeps the fence and the history. *)
Theorem fence_lease_outcome agent command digest clock s :
  WF s -> replayFence s command digest = Ok None -> checkedClockTime (Agent_now agent) = Ok clock ->
  validateLeaseGrant (FenceLease_Grant command) = Ok tt ->
  fenceLeaseTx agent command digest s =
    match tasks s !! LeaseGrant_Task (FenceLease_Grant command) with
    | None => Err ErrNotFound
    | Some r =>
        refused_or [lease_refusal s r (FenceLease_Grant command)]
          (Ok (fence_result command digest r clock s))
    end.
Proof.
  intros Hwf Hrep Hclock Hv. unfold fenceLeaseTx. rewrite Hrep. cbn [obind].
  destruct (tasks s !! _) as [r|] eqn:Hr; [|by rewrite load_absent].
  rewrite (wf_load _ _ _ Hwf Hr). cbn [obind].
  rewrite (require_lease_verdict s _ r _ Hwf Hr eq_refl Hv). cbn [refused_or].
  destruct (lease_refusal s r _) as [e|] eqn:El; [done|]. cbn [obind].
  pose proof (lease_refusal_none _ _ _ El) as Hl. destruct (wt_record _ _ _ (wf_tasks _ Hwf _ _ Hr)).
  rewrite (CompareAndSwapTask_do _ _ _ _ _ r); [|done|done|done|lia|by intros l [= <-]|done|done].
  cbn [obind negb refuse_if]. rewrite Hclock. cbn [obind]. rewrite record_new.
  - unfold fence_result, fence_commit, with_lease. by rewrite Hl.
  - unfold replayFence in Hrep. apply obind_Ok in Hrep as ([a|] & Hf & Hrep).
    + apply obind_Ok in Hrep as ([] & _ & Hrep). apply obind_Ok in Hrep as (? & _ & Hrep). discriminate Hrep.
    + exact (replay_absent _ _ _ _ _ _ Hf).
Qed.
