(* ===== verification/AgentArtifactVerdict.v ===== *)
(** * The verdict on FreezeArtifact and RecordApplyReceipt

    In a well-formed state the two transactions either refuse with an error the
    command and the records it names decide, or commit the write of their
    machine rule. *)

From S2P Require Import Prelude GoText GoTime GoJson AgentTypes AgentCodec Framework Protect.
From S2P Require Import AgentStore MemoryStore AgentCore AgentCommands AgentLease AgentArtifact AgentFacts AgentReplay.
From S2P Require Import Paging MemoryFacts MemoryForward AgentMachine AgentRefinement AgentInvariant.
From S2P Require Import AgentPreserve AgentHistory AgentVerdict AgentLeaseVerdict.

Local Open Scope string_scope.

(* ------------------------------------------------------------------ *)
(** ** FreezeArtifact *)

(** The freeze compares the lease pointer first, so a grant that is not the
    current one is stale, whoever it was granted to. *)
Definition freeze_lease_refusal (r : StoreTaskRecord) (grant : LeaseGrant) : option error :=
  refusal (TaskRecord_Lease r <>? {| Lease_Owner := LeaseGrant_Worker grant; Lease_Fence := LeaseGrant_Fence grant |})
    ErrStaleLease.

Lemma lease_eq (l : StoreLeaseState) owner fence :
  (Lease_Owner l <>? owner) || negb (Lease_Fence l =? fence)%Z = (l <>? {| Lease_Owner := owner; Lease_Fence := fence |}).
Proof.
  destruct l as [o f]. cbn. destruct (decide (o = owner)) as [->|], (Z.eqb_spec f fence) as [->|];
    rewrite ?(bool_decide_eq_true_2 (owner = owner)) by done.
  - by rewrite bool_decide_eq_true_2.
  - rewrite bool_decide_eq_false_2 by congruence. done.
  - rewrite !bool_decide_eq_false_2 by congruence. done.
  - rewrite !bool_decide_eq_false_2 by congruence. done.
Qed.

Lemma require_artifact_lease_verdict s ref r grant :
  WF s -> tasks s !! ref = Some r -> LeaseGrant_Task grant = ref -> validateLeaseGrant grant = Ok tt ->
  requireArtifactCurrentLease s r grant = refused_or [freeze_lease_refusal r grant] (Ok tt).
Proof.
  intros Hwf Hr Ht Hv. destruct (wf_tasks _ Hwf _ _ Hr) as [[Href Hrec Hcr _ _ _ Hfence _] _ _ Hl _ _].
  unfold requireArtifactCurrentLease, freeze_lease_refusal. rewrite Hv, Href, Ht, bool_decide_eq_true_2 by done.
  cbn [negb refuse_if obind]. rewrite Z.gtb_ltb, (proj2 (Z.ltb_ge _ _)) by lia. cbn [orb].
  assert ((Lease_Fence (TaskRecord_Lease r) =? 0)%Z && negb (is_empty (Lease_Owner (TaskRecord_Lease r))) = false) as ->.
  { destruct (Z.eqb_spec (Lease_Fence (TaskRecord_Lease r)) 0); [|done]. cbn.
    destruct (is_empty _) eqn:E; [done|]. apply not_true_iff_false in E. rewrite is_empty_true in E.
    by destruct (vr_owner _ Hrec E). }
  cbn [refuse_if obind]. rewrite (latest_is_current _ _ _ Hwf Hr).
  assert (Lease_Owner (TaskRecord_Lease r) <> "" -> match_stable (Lease_Owner (TaskRecord_Lease r)) = true) as Hst.
  { intros E. destruct (wl_owner _ _ _ _ Hl E) as (g & Hg & <-). apply (wg_worker _ _ _ _ (wl_grant _ _ _ _ Hl _ _ Hg)). }
  assert (negb (is_empty (Lease_Owner (TaskRecord_Lease r)))
    && negb (is_ok (validateStable (Lease_Owner (TaskRecord_Lease r)))) = false) as ->.
  { destruct (is_empty _) eqn:E; [done|]. apply not_true_iff_false in E. rewrite is_empty_true in E.
    by rewrite stable_ok, Hst. }
  cbn [refuse_if obind]. rewrite lease_eq.
  unfold validateLeaseGrant in Hv. apply obind_Ok in Hv as (? & _ & Hv). apply obind_Ok in Hv as (u & Hw & Hv).
  apply validateStable_Ok in Hw. apply refuse_if_Ok, orb_false_iff in Hv as [Hf0 _]. zbool.
  destruct (grant_at _ _ _) as [g|] eqn:Hg.
  - destruct (wl_grant _ _ _ _ Hl _ _ Hg) as [Gt Gf Gw Gti Gc].
    assert (1 <= Lease_Fence (TaskRecord_Lease r) <= Lease_Fence (TaskRecord_Lease r))%Z as Hpos
      by (apply (wl_domain _ _ _ _ Hl); eauto).
    rewrite validateLeaseGrant_facts, Gt, Gf, Z.eqb_refl, bool_decide_eq_true_2; [|done| |done|rewrite Gf; lia].
    2:{ rewrite Gt, <- Href. apply (vt_ref _ (vr_task _ Hrec)). }
    assert (validLeaseTimestamp (GrantRecord_GrantedAt g) = true) as -> by (apply store_time_int64; done).
    unfold Before. rewrite (proj2 (Z.ltb_ge _ _)) by done. cbn [is_ok negb orb refuse_if obind].
    assert (negb (is_empty (Lease_Owner (TaskRecord_Lease r)))
      && (LeaseGrant_Worker (GrantRecord_Grant g) <>? Lease_Owner (TaskRecord_Lease r)) = false) as ->.
    { destruct (is_empty _) eqn:E; [done|]. apply not_true_iff_false in E. rewrite is_empty_true in E.
      destruct (wl_owner _ _ _ _ Hl E) as (g' & Hg' & Hw'). rewrite Hg in Hg'. injection Hg' as <-.
      by rewrite Hw', bool_decide_eq_true_2. }
    cbn [refuse_if obind]. unfold refusal. case_bool_decide as Elease; [|done]. cbn [negb refuse_if obind refused_or].
    assert (GrantRecord_Grant g = grant) as Eg.
    { destruct (wl_owner _ _ _ _ Hl) as (g' & Hg' & Hw').
      { rewrite Elease. cbn. by apply match_stable_nonempty. }
      rewrite Hg in Hg'. injection Hg' as <-. rewrite Elease in Gf, Hw'. cbn in Gf, Hw'.
      destruct (GrantRecord_Grant g), grant. cbn in *. congruence. }
    rewrite Eg, bool_decide_eq_true_2 by done. cbn [negb refuse_if obind].
    assert (LoadLeaseGrant ref (LeaseGrant_Fence grant) s = Ok g) as ->.
    { apply LoadLeaseGrant_Ok. rewrite Elease in Hg. exact Hg. }
    cbn [on_error obind]. unfold TimeEqual. by rewrite Eg, bool_decide_eq_true_2, Z.eqb_refl.
  - assert (Lease_Fence (TaskRecord_Lease r) = 0%Z) as Hz.
    { destruct (decide (Lease_Fence (TaskRecord_Lease r) = 0%Z)); [done|exfalso].
      assert (is_Some (grant_at ref (Lease_Fence (TaskRecord_Lease r)) (leaseGrants s))) as [g E]
        by (apply (wl_domain _ _ _ _ Hl); lia). congruence. }
    cbn [obind]. rewrite Hz. cbn [Z.eqb negb refuse_if obind]. unfold refusal.
    rewrite bool_decide_eq_false_2; [done|]. intros E. rewrite E in Hz. cbn in Hz. congruence.
Qed.

(** An Artifact identifier that is in use in an authority. *)
Definition artifact_used (s : memoryAgentState) (authority : AuthorityID) (id : ArtifactID) : bool :=
  WriteOp.some_value (fun x =>
    (WorkspaceRef_Authority (ArtifactRef_Workspace (Artifact_Ref (ArtifactRecord_Artifact x))) =?= authority)
    && (ArtifactRef_ID (Artifact_Ref (ArtifactRecord_Artifact x)) =?= id)) (artifacts s).

(** The revision a workspace is at, when something was ever frozen in it. *)
Definition confirmed (s : memoryAgentState) (workspace : WorkspaceRef) : option Revision :=
  (fun h => WorkspaceHead_ConfirmedRevision (HeadRecord_Head h)) <$> workspaceHeads s !! workspace.

Definition freeze_refusals (s : memoryAgentState) (command : FreezeArtifactCommand) (r : StoreTaskRecord)
    : list (option error) :=
  let task := TaskRecord_Task r in
  let workspace := TaskRef_Workspace (FreezeArtifact_Task command) in
  let expected := WorkerMeta_ExpectedRevision (FreezeArtifact_Meta command) in
  [ freeze_lease_refusal r (WorkerMeta_Grant (FreezeArtifact_Meta command));
    refusal (negb (Task_Revision task =? expected)%Z) (RevisionConflictError expected (Task_Revision task));
    refusal (Terminal (Task_State task)) (TransitionError "freeze_artifact" (Task_State task) true);
    refusal (Task_State task <>? TaskWorking) (TransitionError "freeze_artifact" (Task_State task) false);
    refusal (negb (is_none (Task_Artifact task))) ErrArtifactConflict;
    refusal (MaxInt64 <=? Task_Revision task)%Z ErrRevisionConflict;
    refusal (match confirmed s workspace with
             | Some revision => revision <>? FreezeArtifact_ExpectedBaseRevision command
             | None => false
             end) ErrWorkspaceConflict;
    refusal (artifact_used s (WorkspaceRef_Authority workspace) (FreezeArtifact_Artifact command)) ErrArtifactConflict ].

Definition freeze_result (command : FreezeArtifactCommand) (digest payload : string) (r : StoreTaskRecord) (now : time)
    (s : memoryAgentState) : (FreezeArtifactResult * option StoreArtifactRecord) * memoryAgentState :=
  let frozen := {| FreezeResult_Task := frozenTask (TaskRecord_Task r) (freezeRef command) now;
                   FreezeResult_Artifact := artifactIdentity command now |} in
  ((frozen, None),
   freeze_commit command r payload now
     (commandRecord (task_authority (FreezeArtifact_Task command)) (WorkerMeta_ID (FreezeArtifact_Meta command))
        "freeze_artifact" digest "freeze_artifact" frozen now) s).

Lemma artifact_conflict_Some a l e :
  WriteOp.artifact_conflict a l = Some e -> exists x, x ∈ l /\
    ((artifact_authority (Artifact_Ref (ArtifactRecord_Artifact x)) = artifact_authority (Artifact_Ref a) /\
      ArtifactRef_ID (Artifact_Ref (ArtifactRecord_Artifact x)) = ArtifactRef_ID (Artifact_Ref a)) \/
     Artifact_Task (ArtifactRecord_Artifact x) = Artifact_Task a).
Proof.
  induction l as [|x l IH]; cbn [WriteOp.artifact_conflict]; [done|]. unfold artifact_authority.
  intros H. destruct (_ && _)%bool eqn:E1 in H.
  - exists x. split; [by left|]. left. apply andb_true_iff in E1 as [E1 E2]. by decided.
  - destruct (bool_decide (Artifact_Task _ = _)) eqn:E2 in H; decided.
    + exists x. split; [by left|]. by right.
    + destruct (IH H) as (y & Hy & Hc). exists y. split; [by right|done].
Qed.

Lemma artifact_conflict_kind a l e :
  WriteOp.artifact_conflict a l = Some e -> exists c k, e = StoreConflictError c k.
Proof.
  induction l as [|x l IH]; cbn [WriteOp.artifact_conflict]; [done|].
  intros H. destruct (_ && _)%bool in H; [injection H as <-; unfold memoryAgentConflict; eauto|].
  destruct (bool_decide (Artifact_Task _ = _)) in H; [injection H as <-; unfold memoryAgentConflict; eauto|auto].
Qed.

(** The insertion of an Artifact of a Task that has none. *)
Lemma insert_artifact_verdict s s' x :
  WF s -> artifacts s' = artifacts s ->
  (forall r, tasks s !! Artifact_Task (ArtifactRecord_Artifact x) = Some r -> Task_Artifact (TaskRecord_Task r) = None) ->
  on_error ErrStoreConflict ErrArtifactConflict (InsertArtifact x s') =
    let ref := Artifact_Ref (ArtifactRecord_Artifact x) in
    if artifact_used s (WorkspaceRef_Authority (ArtifactRef_Workspace ref)) (ArtifactRef_ID ref)
    then Err ErrArtifactConflict else Ok (add_artifact x s').
Proof.
  intros Hwf Ea Hnone. cbv zeta. primitive. unfold WriteOp.InsertArtifact. primitive. rewrite Ea.
  destruct (artifact_used s _ _) eqn:Eu.
  - destruct (artifacts s !! _); [done|].
    destruct (WriteOp.artifact_conflict _ _) as [e|] eqn:Ec; [by apply artifact_conflict_kind in Ec as (c & k & ->)|].
    exfalso. unfold artifact_used, WriteOp.some_value in Eu. apply existsb_exists in Eu as (x' & Hin & E).
    apply list_elem_of_In in Hin. apply andb_true_iff in E as [E1 E2]. decided.
    destruct (artifact_conflict_None _ _ Ec x' Hin) as [Hc _]. unfold artifact_authority in Hc. by apply Hc.
  - unfold artifact_used in Eu. rewrite some_value_false in Eu.
    destruct (artifacts s !! _) as [x'|] eqn:Ex.
    { specialize (Eu _ _ Ex). cbn in Eu. rewrite (wa_ref _ _ _ (wf_artifacts _ Hwf _ _ Ex)) in Eu.
      by rewrite !bool_decide_eq_true_2 in Eu. }
    destruct (WriteOp.artifact_conflict _ _) as [e|] eqn:Ec; [|by unfold add_artifact; rewrite Ea]. exfalso.
    apply artifact_conflict_Some in Ec as (x' & Hin & Hc). apply list_elem_of_fmap in Hin as ([a x''] & -> & Hin).
    apply elem_of_map_to_list in Hin. cbn in Hc. destruct Hc as [[E1 E2] | E].
    + specialize (Eu _ _ Hin). cbn in Eu. unfold artifact_authority in E1. by rewrite E1, E2, !bool_decide_eq_true_2 in Eu.
    + destruct (wa_task _ _ _ (wf_artifacts _ Hwf _ _ Hin)) as (r & Hr & Hta). rewrite E in Hr.
      specialize (Hnone _ Hr). congruence.
Qed.

(** Pinning a workspace and reading its head back. *)
Lemma pin_verdict s workspace base now :
  WF s -> validateRevision base = Ok tt -> in_int64 now ->
  exists b, InsertWorkspaceHead {| HeadRecord_Head := {| WorkspaceHead_Workspace := workspace;
      WorkspaceHead_ConfirmedRevision := base; WorkspaceHead_UpdatedAt := now |} |} s
    = Ok (b, pin_head workspace base now s) /\
  exists updated, loadArtifactWorkspaceHead (pin_head workspace base now s) workspace =
    Ok {| WorkspaceHead_Workspace := workspace; WorkspaceHead_ConfirmedRevision := default base (confirmed s workspace);
          WorkspaceHead_UpdatedAt := updated |}.
Proof.
  intros Hwf Hb Hn. primitive. unfold WriteOp.InsertWorkspaceHead. primitive.
  unfold loadArtifactWorkspaceHead, confirmed, pin_head.
  destruct (workspaceHeads s !! workspace) as [h|] eqn:Eh.
  - eexists. split; [done|]. destruct (wf_heads _ Hwf _ _ Eh) as [Hw Hrev Hti].
    rewrite (proj2 (LoadWorkspaceHead_Ok _ _ _) Eh). cbn [on_error obind].
    rewrite Hw, Hrev, bool_decide_eq_true_2, (int64_not_zero _ Hti) by done. cbn. exists (WorkspaceHead_UpdatedAt (HeadRecord_Head h)). f_equal.
    destruct (HeadRecord_Head h). cbn in *. by subst.
  - eexists. split; [done|]. exists now.
    rewrite (proj2 (LoadWorkspaceHead_Ok workspace (add_head _ s) {| HeadRecord_Head := {| WorkspaceHead_Workspace := workspace;
      WorkspaceHead_ConfirmedRevision := base; WorkspaceHead_UpdatedAt := now |} |}))
      by (cbn; by rewrite lookup_insert_eq).
    cbn [on_error obind HeadRecord_Head WorkspaceHead_Workspace WorkspaceHead_ConfirmedRevision WorkspaceHead_UpdatedAt].
    by rewrite Hb, bool_decide_eq_true_2, (int64_not_zero _ Hn).
Qed.

Lemma admit_freeze_verdict s command r :
  WF s -> tasks s !! FreezeArtifact_Task command = Some r ->
  LeaseGrant_Task (WorkerMeta_Grant (FreezeArtifact_Meta command)) = FreezeArtifact_Task command ->
  validateLeaseGrant (WorkerMeta_Grant (FreezeArtifact_Meta command)) = Ok tt ->
  admitFreeze s command r = refused_or (take 6 (freeze_refusals s command r)) (Ok tt).
Proof.
  intros Hwf Hr Ht Hv. unfold admitFreeze, freeze_refusals. cbn [take].
  rewrite (require_artifact_lease_verdict s _ r _ Hwf Hr Ht Hv).
  destruct (wt_record _ _ _ (wf_tasks _ Hwf _ _ Hr)). pose proof (vr_task _ wr_valid) as Hvt.
  cbn [refused_or]. destruct (freeze_lease_refusal _ _); [done|]. cbn [obind]. unfold refusal.
  destruct (negb (_ =? _)%Z); [done|]. cbn [refuse_if obind].
  destruct (Terminal _); [done|]. cbn [refuse_if obind].
  destruct (decide (Task_State (TaskRecord_Task r) = TaskWorking)) as [Hst|Hst].
  2:{ by rewrite bool_decide_eq_false_2. }
  rewrite bool_decide_eq_true_2 by done. cbn [negb refuse_if obind].
  assert (is_none (Task_Submission (TaskRecord_Task r)) = true) as ->.
  { destruct (Task_Submission _) eqn:E; [|done]. destruct (vt_completed _ Hvt) as [_ Hc]. rewrite Hst, E in Hc.
    by specialize (Hc (ex_intro _ _ eq_refl)). }
  rewrite orb_false_r. destruct (is_none _); [|done]. cbn [negb refuse_if obind].
  rewrite (vt_events _ Hvt), Z.geb_leb, orb_diag. by destruct (MaxInt64 <=? _)%Z.
Qed.

(** C16: the verdict on FreezeArtifact. In a well-formed state a new
    FreezeArtifact returns ErrNotFound on an unknown Task, and else the first
    refusal of the table: a lease that is not the current one, a revision
    conflict, a terminal Task or one that is not being worked on, a Task that
    has an Artifact, exhausted counters, a workspace whose confirmed revision
    is not the expected base, an Artifact identifier in use; with no refusal it
    freezes the payload, and pins the base of a workspace seen first. *)
Theorem freeze_artifact_outcome agent command digest payload clock s :
  WF s -> replayFreeze s command digest = Ok None -> checkedClockTime (Agent_now agent) = Ok clock ->
  LeaseGrant_Task (WorkerMeta_Grant (FreezeArtifact_Meta command)) = FreezeArtifact_Task command ->
  validateLeaseGrant (WorkerMeta_Grant (FreezeArtifact_Meta command)) = Ok tt ->
  validateRevision (FreezeArtifact_ExpectedBaseRevision command) = Ok tt ->
  freezeArtifactTx agent command digest payload s =
    match tasks s !! FreezeArtifact_Task command with
    | None => Err ErrNotFound
    | Some r =>
        refused_or (freeze_refusals s command r)
          (Ok (freeze_result command digest payload r
                 (timestampAtLeast clock [Task_UpdatedAt (TaskRecord_Task r)]) s))
    end.
Proof.
  intros Hwf Hrep Hclock Ht Hv Hbase. unfold freezeArtifactTx. rewrite Hrep. cbn [obind].
  assert (commands s !! {| CommandKey_Authority := task_authority (FreezeArtifact_Task command);
                           CommandKey_ID := WorkerMeta_ID (FreezeArtifact_Meta command) |} = None) as Hfree.
  { unfold replayFreeze in Hrep. apply obind_Ok in Hrep as ([t|] & Hf & Hrep); [|exact (replay_absent _ _ _ _ _ _ Hf)].
    repeat (apply obind_Ok in Hrep as (? & _ & Hrep)). discriminate Hrep. }
  destruct (tasks s !! _) as [r|] eqn:Hr; [|by rewrite load_absent].
  rewrite (wf_load _ _ _ Hwf Hr). cbn [obind]. rewrite (admit_freeze_verdict _ _ _ Hwf Hr Ht Hv).
  unfold freeze_refusals at 1 2. cbn [take refused_or].
  destruct (freeze_lease_refusal r _) as [e|] eqn:El; [done|]. unfold refusal.
  destruct (_ =? WorkerMeta_ExpectedRevision _)%Z eqn:Erev; cbn [negb]; [|done]. zbool.
  destruct (Terminal _); [done|]. destruct (negb (bool_decide (Task_State _ = _))); [done|].
  destruct (is_none (Task_Artifact _)) eqn:Hnone; cbn [negb]; [|done]. apply is_none_true in Hnone.
  destruct (MaxInt64 <=? _)%Z; [done|]. cbn [refused_or obind]. rewrite Hclock. cbn [obind].
  set (now := timestampAtLeast _ _). destruct (wt_record _ _ _ (wf_tasks _ Hwf _ _ Hr)).
  assert (in_int64 now) as Hnow.
  { apply timestamp_in_int64; [by apply checkedClockTime_Ok in Hclock as (_ & ? & _)|by constructor]. }
  set (workspace := TaskRef_Workspace (FreezeArtifact_Task command)).
  set (base := FreezeArtifact_ExpectedBaseRevision command).
  destruct (pin_verdict s workspace base now Hwf Hbase Hnow) as (b & Hins & updated & Hload). rewrite Hins. cbn [obind].
  rewrite Hload. cbn [obind WorkspaceHead_ConfirmedRevision].
  assert ((default base (confirmed s workspace) <>? base) =
    match confirmed s workspace with Some revision => revision <>? base | None => false end) as ->.
  { destruct (confirmed s workspace); cbn; [done|]. by rewrite bool_decide_eq_true_2. }
  match goal with |- context [refuse_if ?b ErrWorkspaceConflict] => destruct b end; [done|]. cbn [refuse_if obind].
  rewrite (insert_artifact_verdict s); [|done| |].
  2:{ unfold pin_head. by destruct (workspaceHeads s !! _). }
  2:{ cbn. rewrite Hr. by intros r' [= <-]. }
  cbn [ArtifactRecord_Artifact artifactIdentity Artifact_Ref freezeRef ArtifactRef_Workspace ArtifactRef_ID].
  fold workspace. destruct (artifact_used s _ _); [done|]. cbn [obind]. fold (artifactIdentity command now).
  assert (TaskRecord_Lease r = {| Lease_Owner := LeaseGrant_Worker (WorkerMeta_Grant (FreezeArtifact_Meta command));
    Lease_Fence := LeaseGrant_Fence (WorkerMeta_Grant (FreezeArtifact_Meta command)) |}) as Hlease.
  { unfold freeze_lease_refusal, refusal in El. by case_bool_decide. }
  rewrite (CompareAndSwapTask_do _ _ _ _ _ r); [| |done|done|lia|by intros l [= <-]|done|done].
  2:{ unfold add_artifact, pin_head. cbn. by destruct (workspaceHeads s !! _). }
  cbn [obind negb]. rewrite insertEvent_new.
  2:{ cbn [EventRecord_Event Event_Task Event_Sequence frozenTask Task_EventCount].
      transitivity (history s (FreezeArtifact_Task command) !! (Task_EventCount (TaskRecord_Task r) + 1)%Z).
      - unfold history, pin_head. cbn. by destruct (workspaceHeads s !! _).
      - by apply next_event_new. }
  cbn [obind]. rewrite record_new; [done|]. unfold pin_head. cbn. by destruct (workspaceHeads s !! _).
Qed.

(* ------------------------------------------------------------------ *)
(** ** RecordApplyReceipt *)

Lemma wf_load_artifact s ref x :
  WF s -> artifacts s !! ref = Some x ->
  Artifact_BaseRevision (ArtifactRecord_Artifact x) <> Artifact_ResultRevision (ArtifactRecord_Artifact x) ->
  loadArtifactRecord s ref = Ok x.
Proof.
  intros Hwf Hx Hne. destruct (wf_artifacts _ Hwf _ _ Hx) as [Href Hv _ _ _ Hp _ _]. unfold loadArtifactRecord.
  assert (LoadArtifact ref {| ReadLimit_MaxBytes := maxStoredArtifactBytes |} s = Ok x) as ->.
  { primitive. unfold ReadOp.LoadArtifact. primitive. rewrite Hx.
    change (memoryAgentReadLimit StoreRecordArtifact {| ReadLimit_MaxBytes := maxStoredArtifactBytes |}) with (Ok tt : res unit).
    cbn [obind ReadLimit_MaxBytes]. rewrite refuse_if_false; [done|]. rewrite Z.gtb_ltb. apply Z.ltb_ge. lia. }
  cbn [obind]. rewrite Href, bool_decide_eq_true_2, (Hv Hne) by done. cbn [negb refuse_if obind is_ok orb].
  rewrite (proj2 (Z.eqb_neq _ _)), Z.gtb_ltb, (proj2 (Z.ltb_ge _ _)) by lia. done.
Qed.

Lemma load_artifact_absent (s : memoryAgentState) ref :
  artifacts s !! ref = None -> loadArtifactRecord s ref = Err ErrArtifactNotFound.
Proof.
  intros Hx. unfold loadArtifactRecord. primitive. unfold ReadOp.LoadArtifact. primitive. rewrite Hx.
  change (memoryAgentReadLimit StoreRecordArtifact {| ReadLimit_MaxBytes := maxStoredArtifactBytes |}) with (Ok tt : res unit).
  done.
Qed.

(** The decision on record is sound. *)
Lemma wf_load_receipt s ref x :
  WF s -> artifacts s !! ref = Some x ->
  Artifact_BaseRevision (ArtifactRecord_Artifact x) <> Artifact_ResultRevision (ArtifactRecord_Artifact x) ->
  loadVerifiedApplyReceipt s ref = Ok (ReceiptRecord_Receipt <$> applyReceipts s !! ref).
Proof.
  intros Hwf Hx Hne. unfold loadVerifiedApplyReceipt, loadApplyReceipt. rewrite LoadApplyReceipt_found. cbn [obind].
  destruct (applyReceipts s !! ref) as [r|] eqn:Hr; [|done].
  destruct (wf_receipts _ Hwf _ _ Hr) as [Ha Hv _ (x' & t & Hx' & Hst & Hp & Hle & E1 & E2 & E3)].
  rewrite Hx in Hx'. injection Hx' as <-. rewrite Ha, bool_decide_eq_true_2, Hv by done. cbn [negb refuse_if obind].
  rewrite (wf_load_artifact _ _ _ Hwf Hx Hne). cbn [obind]. rewrite Hp, Hst, E1, E2, E3, !bool_decide_eq_true_2 by done.
  unfold Before. rewrite (proj2 (Z.ltb_ge _ _)) by done. done.
Qed.

(** A receipt identifier that is in use in an authority. *)
Definition receipt_used (s : memoryAgentState) (authority : AuthorityID) (id : ApplyReceiptID) : bool :=
  WriteOp.some_value (fun r =>
    (WorkspaceRef_Authority (ArtifactRef_Workspace (ApplyReceipt_Artifact (ReceiptRecord_Receipt r))) =?= authority)
    && (ApplyReceipt_ID (ReceiptRecord_Receipt r) =?= id)) (applyReceipts s).

(** A first decision. *)
Definition decide_refusals (s : memoryAgentState) (command : RecordApplyReceiptCommand) : list (option error) :=
  let workspace := ArtifactRef_Workspace (RecordReceipt_Artifact command) in
  [ refusal ((RecordReceipt_Decision command =?= ApplySuccess)
             && (confirmed s workspace <>? Some (RecordReceipt_BaseRevision command))) ErrWorkspaceConflict;
    refusal (receipt_used s (WorkspaceRef_Authority workspace) (RecordReceipt_Receipt command)) ErrReceiptConflict ].

Lemma decide_verdict s command x now :
  WF s -> artifacts s !! RecordReceipt_Artifact command = Some x ->
  applyReceipts s !! RecordReceipt_Artifact command = None ->
  RecordReceipt_BaseRevision command = Artifact_BaseRevision (ArtifactRecord_Artifact x) ->
  decideReceipt s (ArtifactRecord_Artifact x) (receiptOf command now) now =
    refused_or (decide_refusals s command)
      (Ok (add_receipt {| ReceiptRecord_Receipt := receiptOf command now |}
             (confirm_head (ArtifactRecord_Artifact x) (RecordReceipt_Decision command) now s))).
Proof.
  intros Hwf Hx Hnone Hbase. destruct (wf_artifacts _ Hwf _ _ Hx) as [Href _ _ _ _ _ _ [h Hh]].
  unfold decideReceipt, decide_refusals, confirm_head. cbn [receiptOf ApplyReceipt_Decision refused_or]. rewrite Href, Hbase.
  set (workspace := ArtifactRef_Workspace (RecordReceipt_Artifact command)) in *.
  assert (forall t, applyReceipts t = applyReceipts s ->
    on_error ErrStoreConflict ErrReceiptConflict (InsertApplyReceipt {| ReceiptRecord_Receipt := receiptOf command now |} t)
    = refused_or [refusal (receipt_used s (WorkspaceRef_Authority workspace) (RecordReceipt_Receipt command))
                    ErrReceiptConflict] (Ok (add_receipt {| ReceiptRecord_Receipt := receiptOf command now |} t))) as Hins.
  { intros t Et. primitive. unfold WriteOp.InsertApplyReceipt. primitive. rewrite Et, Hnone. unfold receipt_used.
    fold workspace. destruct (WriteOp.some_value _ _); [done|]. cbn [refuse_if obind on_error refused_or refusal].
    unfold add_receipt. by rewrite Et. }
  unfold refusal in *. case_bool_decide as Edec; cbn [andb].
  - unfold confirmed. rewrite Hh. cbn [fmap option_fmap option_map].
    primitive. unfold WriteOp.CompareAndSwapWorkspaceHead. primitive. rewrite bool_decide_eq_true_2 by done.
    cbn [negb refuse_if obind]. rewrite Hh.
    case_bool_decide as Erev; cbn [negb obind refuse_if].
    + rewrite bool_decide_eq_true_2 by congruence. cbn [negb]. by apply Hins.
    + rewrite bool_decide_eq_false_2 by congruence. done.
  - cbn [obind]. by apply Hins.
Qed.

(** When the decision is recorded: not before the Artifact. *)
Definition receipt_now (x : StoreArtifactRecord) (clock : time) : time :=
  timestampAtLeast clock (Artifact_FrozenAt (ArtifactRecord_Artifact x)
    :: option_list (Artifact_PublishedAt (ArtifactRecord_Artifact x))).

Definition receipt_command (command : RecordApplyReceiptCommand) (digest : string) (receipt : ApplyReceipt) (now : time)
    : StoreCommandRecord :=
  commandRecord (artifact_authority (RecordReceipt_Artifact command)) (RecordReceipt_CommandID command)
    "record_apply_receipt" digest "apply_receipt" receipt now.

(** C17: the verdict on RecordApplyReceipt. In a well-formed state a new
    decision on an Artifact (whose base is not its own result) returns
    ErrArtifactNotFound, ErrArtifactState when it is not published, or
    ErrReceiptConflict when the command names another content. The first
    decision is recorded unless it is a success on a workspace that has moved
    (ErrWorkspaceConflict) or its identifier is in use; it moves the confirmed
    revision exactly when it is a success. A later command with the same
    decision returns the one on record, any other is ErrReceiptConflict. *)
Theorem record_apply_receipt_outcome agent command digest clock s :
  WF s -> replayReceipt s command digest = Ok None -> checkedClockTime (Agent_now agent) = Ok clock ->
  (forall x, artifacts s !! RecordReceipt_Artifact command = Some x ->
    Artifact_BaseRevision (ArtifactRecord_Artifact x) <> Artifact_ResultRevision (ArtifactRecord_Artifact x)) ->
  recordApplyReceiptTx agent command digest s =
    match artifacts s !! RecordReceipt_Artifact command with
    | None => Err ErrArtifactNotFound
    | Some x =>
        let artifact := ArtifactRecord_Artifact x in
        let now := receipt_now x clock in
        refused_or
          [ refusal (Artifact_State artifact <>? ArtifactPublished) ErrArtifactState;
            refusal ((RecordReceipt_ArtifactDigest command <>? Artifact_Digest artifact)
                     || (RecordReceipt_BaseRevision command <>? Artifact_BaseRevision artifact)
                     || (RecordReceipt_ResultRevision command <>? Artifact_ResultRevision artifact)) ErrReceiptConflict ]
          match applyReceipts s !! RecordReceipt_Artifact command with
          | Some recorded =>
              let existing := ReceiptRecord_Receipt recorded in
              refused_or [refusal (negb (sameReceiptDecision existing (receiptOf command now))) ErrReceiptConflict]
                (Ok (existing, add_command (receipt_command command digest existing now) s))
          | None =>
              refused_or (decide_refusals s command)
                (Ok (receiptOf command now,
                     decide_commit artifact (receiptOf command now) now
                       (receipt_command command digest (receiptOf command now) now) s))
          end
    end.
Proof.
  intros Hwf Hrep Hclock Hne. unfold recordApplyReceiptTx. rewrite Hrep. cbn [obind].
  assert (commands s !! {| CommandKey_Authority := artifact_authority (RecordReceipt_Artifact command);
                           CommandKey_ID := RecordReceipt_CommandID command |} = None) as Hfree.
  { unfold replayReceipt in Hrep. apply obind_Ok in Hrep as ([t|] & Hf & Hrep); [|exact (replay_absent _ _ _ _ _ _ Hf)].
    apply obind_Ok in Hrep as (? & _ & Hrep). apply obind_Ok in Hrep as (? & _ & Hrep).
    apply obind_Ok in Hrep as ([a|] & _ & Hrep); [|done]. apply obind_Ok in Hrep as (? & _ & Hrep). discriminate Hrep. }
  destruct (artifacts s !! _) as [x|] eqn:Hx; [|by rewrite load_artifact_absent]. specialize (Hne _ eq_refl).
  rewrite (wf_load_artifact _ _ _ Hwf Hx Hne). cbn [obind refused_or]. cbv zeta. unfold refusal.
  destruct (negb (bool_decide (Artifact_State _ = _))) eqn:Est; [done|]. cbn [refuse_if obind].
  match goal with |- context [refuse_if ?b ErrReceiptConflict] => destruct b eqn:Eid; [done|] end. cbn [refuse_if obind].
  rewrite (wf_load_receipt _ _ _ Hwf Hx Hne). cbn [obind]. rewrite Hclock. cbn [obind]. fold (receipt_now x clock).
  destruct (applyReceipts s !! _) as [recorded|] eqn:Hrec; cbn [fmap option_fmap option_map].
  - destruct (negb (sameReceiptDecision _ _)); [done|]. cbn [refuse_if obind]. by rewrite record_new.
  - bool_split. decided. rewrite (decide_verdict _ _ x) by done. unfold decide_refusals. cbn [refused_or]. unfold refusal.
    match goal with |- context [if ?b then Some ErrWorkspaceConflict else None] => destruct b; [done|] end.
    destruct (receipt_used _ _ _); [done|]. cbn [obind]. rewrite record_new; [done|].
    unfold confirm_head. cbn. by destruct (bool_decide (RecordReceipt_Decision command = ApplySuccess)).
Qed.
