(* ===== verification/AgentFencing.v ===== *)
(** * What a later store cannot undo

    Leases only move forward: a grant that is not the current one is stale in
    every later store. Workspaces only move by decisions: between two stores
    the confirmed revision follows a chain of recorded successes. *)

From S2P Require Import Prelude GoText GoTime GoJson AgentTypes AgentCodec Framework Protect.
From S2P Require Import AgentStore MemoryStore AgentCore AgentCommands AgentLease AgentArtifact AgentFacts AgentReplay.
From S2P Require Import Paging MemoryFacts MemoryForward AgentMachine AgentRefinement AgentInvariant.
From S2P Require Import AgentPreserve AgentHistory AgentVerdict AgentLeaseVerdict AgentArtifactVerdict.

Local Open Scope string_scope.

(* ------------------------------------------------------------------ *)
(** ** Later stores are reached by steps *)

Section Steps.
Context {W : Type} `{HS : Store W memoryAgentState} `{HC : !StoreContract W memoryAgentState}.

(** A property of well-formed states that every step of the machine keeps is
    kept by every later store. *)
Lemma later_keeps (P : memoryAgentState -> Prop) (w w' : W) :
  (forall s s', WF s -> agent_step s s' -> P s -> P s') ->
  WF (snapshot w) -> later w w' -> P (snapshot w) -> P (snapshot w').
Proof.
  intros Hstep Hwf Hl Hp.
  assert (forall s s', WF s -> P s -> stays_or_steps s s' -> P s') as Hs.
  { intros s s' Hw H [-> | Hst]; [done|]. by apply (Hstep s s'). }
  enough (WF (snapshot w') /\ P (snapshot w')) as [_ ?] by done.
  induction Hl as [|w1 agent ctx op between _ [IW1 IP1] _ [IW2 IP2]]; [done|]. split; [by apply wf_agent_op|].
  destruct (agent_op_simulated agent ctx op between w1 (wf_keyed _ IW1)) as [H | H]; eapply Hs; try exact H; done.
Qed.
End Steps.

(* ------------------------------------------------------------------ *)
(** ** Leases *)

(** The lease of a Task stays, is retired, or gets a higher fence. *)
Definition lease_moves (l l' : StoreLeaseState) : Prop :=
  l' = l \/ (Lease_Fence l' = Lease_Fence l /\ Lease_Owner l' = "") \/ (Lease_Fence l < Lease_Fence l')%Z.

Lemma moves_task (m : gmap TaskRef StoreTaskRecord) ref r r' :
  m !! ref = Some r -> lease_moves (TaskRecord_Lease r) (TaskRecord_Lease r') ->
  forall ref0 r0, m !! ref0 = Some r0 -> exists r0', <[ref := r']> m !! ref0 = Some r0' /\
    lease_moves (TaskRecord_Lease r0) (TaskRecord_Lease r0').
Proof.
  intros Hr Hm ref0 r0 H0. destruct (decide (ref = ref0)) as [<-|Hne].
  - rewrite H0 in Hr. injection Hr as <-. exists r'. by rewrite lookup_insert_eq.
  - exists r0. rewrite lookup_insert_ne by done. split; [done|by left].
Qed.

Lemma step_lease s s' ref r :
  WF s -> agent_step s s' -> tasks s !! ref = Some r ->
  exists r', tasks s' !! ref = Some r' /\ lease_moves (TaskRecord_Lease r) (TaskRecord_Lease r').
Proof.
  intros Hwf Hstep. revert ref r.
  destruct Hstep; try match goal with H : current_task _ _ _ |- _ => destruct H as [Hr Href _] end; intros ref0 r0 H0'.
  - exists r0. cbn. rewrite lookup_insert_ne by congruence. split; [done|by left].
  - destruct (transition_commit_fields ref change current prepared now receipt s) as (_ & Et & _). rewrite Et, Href.
    eapply moves_task; [done| |done]. cbn [transitionRecord TaskRecord_Lease].
    destruct (Terminal (Task_State (transitionTask _ _ _ _))); [by right; left|]. left. by destruct (TaskRecord_Lease current).
  - destruct (pin_head_same s (TaskRef_Workspace (FreezeArtifact_Task command))
      (FreezeArtifact_ExpectedBaseRevision command) now) as (_ & Et & _).
    cbn. rewrite Href, Et. eapply moves_task; [done| |done]. by left.
  - cbn. rewrite Href. eapply moves_task; [done| |done]. right. right. cbn. lia.
  - cbn. rewrite Href. eapply moves_task; [done| |done]. right. by left.
  - destruct (confirm_head_same (ArtifactRecord_Artifact artifact) (RecordReceipt_Decision command) now s)
      as (_ & Et & _). unfold decide_commit. cbn. rewrite Et. exists r0. split; [done|by left].
  - exists r0. split; [done|by left].
Qed.

(** A grant that was made, and is not the lease of its Task any more. *)
Record retired (grant : LeaseGrant) (s : memoryAgentState) : Prop := {
  rt_worker : LeaseGrant_Worker grant <> "";
  rt_task : exists r, tasks s !! LeaseGrant_Task grant = Some r /\
    (LeaseGrant_Fence grant <= Lease_Fence (TaskRecord_Lease r))%Z /\
    TaskRecord_Lease r <> {| Lease_Owner := LeaseGrant_Worker grant; Lease_Fence := LeaseGrant_Fence grant |};
  rt_granted : exists g, leaseGrants s !! lease_key grant = Some g /\ GrantRecord_Grant g = grant
}.

Lemma step_retired grant s s' : WF s -> agent_step s s' -> retired grant s -> retired grant s'.
Proof.
  intros Hwf Hstep [Hw (r & Hr & Hf & Hne) (g & Hg & Eg)]. split; [done| |].
  - destruct (step_lease _ _ _ _ Hwf Hstep Hr) as (r' & Hr' & Hm). exists r'. split; [done|].
    destruct Hm as [-> | [[E1 E2] | Hlt]]; [done| |]; (split; [lia|]).
    + intros E. rewrite E in E2. cbn in E2. done.
    + intros E. rewrite E in Hlt. cbn in Hlt. lia.
  - exists g. split; [|done]. exact (lookup_weaken _ _ _ _ Hg (ex_grants _ _ (step_extends _ _ Hwf Hstep))).
Qed.

Section Fencing.
Context {W : Type} `{HS : Store W memoryAgentState} `{HC : !StoreContract W memoryAgentState}.

(** C18: a fenced worker stays out. Once a grant has been retired - fenced,
    closed by a terminal Task, or replaced by a later fence - it is stale in
    every later store, for the commands that move a Task and for a freeze, no
    matter who holds the Task then. *)
Theorem retired_grant_stays_stale grant (w w' : W) :
  agent_reachable w -> later w w' -> validateLeaseGrant grant = Ok tt -> retired grant (snapshot w) ->
  requireCurrentLeaseFromStore (snapshot w') grant = Err ErrStaleLease /\
  exists r, tasks (snapshot w') !! LeaseGrant_Task grant = Some r /\
    requireArtifactCurrentLease (snapshot w') r grant = Err ErrStaleLease.
Proof.
  intros Hw%reachable_WF Hl Hv Hret.
  pose proof (later_keeps (retired grant) w w' (step_retired grant) Hw Hl Hret) as [_ (r & Hr & _ & Hne) (g & Hg & Eg)].
  destruct (later_extends _ _ Hw Hl) as [Hw' _]. split.
  - rewrite (require_lease_verdict _ _ r _ Hw' Hr eq_refl Hv). cbn [refused_or]. unfold lease_refusal.
    change (grant_at (LeaseGrant_Task grant) (LeaseGrant_Fence grant) (leaseGrants (snapshot w')))
      with (leaseGrants (snapshot w') !! lease_key grant).
    rewrite Hg, Eg, bool_decide_eq_true_2 by done. cbn [negb]. unfold refusal. by rewrite bool_decide_eq_false_2.
  - exists r. split; [done|]. rewrite (require_artifact_lease_verdict _ _ r _ Hw' Hr eq_refl Hv). cbn [refused_or].
    unfold freeze_lease_refusal, refusal. by rewrite bool_decide_eq_false_2.
Qed.
End Fencing.

(* ------------------------------------------------------------------ *)
(** ** Workspaces *)

(** A recorded success of a workspace. *)
Definition success (s : memoryAgentState) (workspace : WorkspaceRef) (from to : Revision) : Prop :=
  exists a r, applyReceipts s !! a = Some r /\ ArtifactRef_Workspace a = workspace /\
    ApplyReceipt_Decision (ReceiptRecord_Receipt r) = ApplySuccess /\
    ApplyReceipt_BaseRevision (ReceiptRecord_Receipt r) = from /\
    ApplyReceipt_ResultRevision (ReceiptRecord_Receipt r) = to.

Lemma success_extends s s' workspace from to : extends s s' -> success s workspace from to -> success s' workspace from to.
Proof.
  intros He (a & r & Hr & Hrest). exists a, r. split; [|done]. exact (lookup_weaken _ _ _ _ Hr (ex_receipts _ _ He)).
Qed.

(** A workspace that is at a revision moves along recorded successes. *)
Definition follows (workspace : WorkspaceRef) (from : Revision) (s : memoryAgentState) : Prop :=
  exists to, confirmed s workspace = Some to /\ rtc (success s workspace) from to.

Lemma step_confirmed s s' workspace from :
  WF s -> agent_step s s' -> confirmed s workspace = Some from ->
  exists to, confirmed s' workspace = Some to /\ (to = from \/ success s' workspace from to).
Proof.
  intros Hwf Hstep Hc. unfold confirmed in *. apply fmap_Some in Hc as (h & Hh & Hrev).
  assert (forall t, workspaceHeads t = workspaceHeads s ->
    exists to, (fun h => WorkspaceHead_ConfirmedRevision (HeadRecord_Head h)) <$> workspaceHeads t !! workspace = Some to /\
      (to = from \/ success t workspace from to)) as Hsame.
  { intros t Et. exists from. rewrite Et, Hh. cbn. rewrite Hrev. split; [done|by left]. }
  destruct Hstep; try (apply Hsame; done).
  - apply Hsame. by destruct (transition_commit_fields ref change current prepared now receipt s)
      as (_ & _ & _ & _ & _ & _ & _ & Ew & _).
  - exists from. split; [|by left]. cbn. unfold pin_head.
    destruct (workspaceHeads s !! TaskRef_Workspace _) as [h'|] eqn:E; [by rewrite Hh, Hrev|].
    cbn. rewrite lookup_insert_ne by congruence. by rewrite Hh, Hrev.
  - rename artifact into x. destruct (decide (RecordReceipt_Decision command = ApplySuccess)) as [Hsucc|Hfail].
    2:{ apply Hsame. unfold decide_commit, confirm_head. cbn. by rewrite bool_decide_eq_false_2. }
    match goal with H : Artifact_Ref _ = _ |- _ => rename H into Href end.
    destruct (decide (ArtifactRef_Workspace (RecordReceipt_Artifact command) = workspace)) as [Hws|Hws].
    + exists (Artifact_ResultRevision (ArtifactRecord_Artifact x)). unfold decide_commit, confirm_head.
      cbn [receiptOf ApplyReceipt_Decision]. rewrite (bool_decide_eq_true_2 _ Hsucc). cbn. rewrite Href, Hws, lookup_insert_eq.
      split; [done|]. right. exists (RecordReceipt_Artifact command), {| ReceiptRecord_Receipt := receiptOf command now |}.
      cbn. rewrite lookup_insert_eq. split_and!; try done.
      match goal with H : RecordReceipt_Decision _ = ApplySuccess -> _ |- _ =>
        destruct (H Hsucc) as (h' & Hh' & Hb) end.
      rewrite Hws, Hh in Hh'. injection Hh' as <-. congruence.
    + exists from. split; [|by left]. unfold decide_commit, confirm_head. cbn [receiptOf ApplyReceipt_Decision].
      rewrite (bool_decide_eq_true_2 _ Hsucc). cbn. rewrite Href, lookup_insert_ne by done. by rewrite Hh, Hrev.
Qed.

Lemma step_follows workspace from s s' : WF s -> agent_step s s' -> follows workspace from s -> follows workspace from s'.
Proof.
  intros Hwf Hstep (rev & Hrev & Hchain).
  assert (rtc (success s' workspace) from rev) as Hchain'.
  { eapply rtc_subrel; [|exact Hchain]. intros x y. apply success_extends. by apply step_extends. }
  destruct (step_confirmed _ _ _ _ Hwf Hstep Hrev) as (to & Hto & [-> | Hs]); [exists rev|exists to].
  - done.
  - split; [done|]. by eapply rtc_r.
Qed.

Section Workspaces.
Context {W : Type} `{HS : Store W memoryAgentState} `{HC : !StoreContract W memoryAgentState}.

(** C19: the confirmed revision of a workspace only moves by recorded
    successes. Between a store and any later one it follows a chain of
    decisions on record, each a success whose base is the revision confirmed
    before it and whose result is the one confirmed after: no other command,
    failed decision or race moves it, and it is never lost. *)
Theorem workspace_follows_successes workspace from (w w' : W) :
  agent_reachable w -> later w w' -> confirmed (snapshot w) workspace = Some from ->
  follows workspace from (snapshot w').
Proof.
  intros Hw%reachable_WF Hl Hc. apply (later_keeps (follows workspace from) w w'); [|done..|].
  - intros s s'. apply step_follows.
  - by exists from.
Qed.
End Workspaces.
