(* ===== verification/AgentOpening.v ===== *)
(** * When an Agent opens, and what a failure gives back

    [Open] against its declarative contract: the configurations it accepts,
    the Agent it returns, and the release of both resources on every
    failure. *)

From S2P Require Import Prelude GoText GoTime GoJson AgentTypes AgentCodec Framework Protect.
From S2P Require Import AgentStore AgentCore AgentFacts AgentLifecycle.

Section Opening.
Context {Store : Type} (Store_Description : Store -> StoreDescription).
Context (Protector_Describe : goctx -> Protector -> res Description).
Context (release_protector release_store : Z -> option (option error)).

(** A resource nobody has begun to release. *)
Definition fresh {T} (r : Resource T) : Prop :=
  match Resource_owned r with
  | None => True
  | Some o => owned_releasing o = false /\ owned_released o = false
  end.

Lemma ReadResource_spec {T} (r : Resource T) :
  ReadResource r = Ok (Resource_value r) /\ fresh r \/ ReadResource r = Err ErrResourceReleased /\ ~ fresh r.
Proof.
  unfold ReadResource, Resource_Value, fresh. destruct (Resource_owned r) as [o|]; [|by left].
  destruct (owned_releasing o), (owned_released o); cbn; [right | right | right | left]; (split; [done|]);
    try (by intros [? ?]); done.
Qed.

(** A limit that is unset or within its bounds, and what it means. *)
Definition in_range (low high value : Z) : Prop := value = 0%Z \/ (low <= value <= high)%Z.
Definition or_default (value by_default : Z) : Z := if (value =? 0)%Z then by_default else value.

Lemma or_default_range low high d v : (0 < low)%Z -> (low <= d <= high)%Z ->
  (((or_default v d <? low) || (or_default v d >? high))%Z = false <-> in_range low high v).
Proof.
  intros Hl Hd. unfold or_default, in_range. rewrite orb_false_iff, Z.ltb_ge, Z.gtb_ltb, Z.ltb_ge.
  destruct (Z.eqb_spec v 0); lia.
Qed.

(** The reading of the configured clock. *)
Definition clock_of (wall : time) (config : Config Store) : option time :=
  match Config_Clock config with None => Some wall | c => c end.

(** The Protector an Agent is given. *)
Inductive protector_ok (ctx : goctx) (r : Resource (iface Protector)) : option Protector -> Description -> Prop :=
  | not_configured : Resource_value r = NilInterface -> Resource_owned r = None ->
      protector_ok ctx r None noDescription
  | configured p d : fresh r -> Resource_value r = Boxed p -> Protector_Describe ctx p = Ok d ->
      ValidateDescription d = Ok tt -> protector_ok ctx r (Some p) d.

(** The configurations [Open] accepts. *)
Definition config_ok (ctx : goctx) (wall : time) (config : Config Store) : Prop :=
  ctx = Context None /\ fresh (Config_Store config) /\
  (exists s, Resource_value (Config_Store config) = Boxed s /\
             StoreDescription_Validate (Store_Description s) = Ok tt) /\
  (exists now, checkedClockTime (clock_of wall config) = Ok now) /\
  in_range 1 absoluteArtifactMax (Config_MaxArtifactBytes config) /\
  in_range minimumReleaseTimeout maximumReleaseTimeout (Config_ReleaseTimeout config) /\
  (exists p d, protector_ok ctx (Config_Protector config) p d).

Lemma acquireProtector_spec ctx r p d :
  acquireProtector Protector_Describe ctx r = Ok (p, d) <-> protector_ok ctx r p d.
Proof.
  unfold acquireProtector. destruct (ReadResource_spec r) as [[-> Hf]|[-> Hf]]; cbn.
  - split.
    + destruct (Resource_value r) as [| |x] eqn:Ev; [|done|].
      * destruct (Resource_owned r) eqn:Eo; cbn; [done|]. intros [= <- <-]. by constructor.
      * intros H. ok_inv. destruct v0. by constructor.
    + inversion 1 as [Hn Ho|? ? ? Hv Hd Hval]; subst.
      * by rewrite Hn, Ho.
      * by rewrite Hv, Hd; cbn; rewrite Hval.
  - split; [done|]. inversion 1 as [Hn Ho|]; subst; [|done]. destruct Hf. unfold fresh. by rewrite Ho.
Qed.

(** What a release attempt leaves: a borrowed resource is untouched; the
    callback of an owned one is started unless it was before, and the
    resource yields no value any more. *)
Definition given_back (before : option ownedResource) (after : bool * option ownedResource) : Prop :=
  match before with
  | None => after = (false, None)
  | Some o =>
      exists o', after = (owned_once o =?= OnceIdle, Some o') /\ owned_once o' <> OnceIdle /\
        ((owned_once o <> OnceIdle -> owned_releasing o || owned_released o = true) ->
         owned_releasing o' || owned_released o' = true)
  end.

Lemma releaseAgentResource_gives_back timeout release r :
  let '(_, called, after) := releaseAgentResource timeout release r in given_back r (called, after).
Proof.
  unfold releaseAgentResource, given_back. destruct r as [o|]; [|done].
  destruct (owned_once o) eqn:Eo; [| |]; try destruct (release timeout) as [err|];
    eexists; split_and!; try reflexivity; cbn; rewrite ?Eo, ?orb_true_r; auto.
Qed.

(** The configuration [withDefaults] makes of an acceptable one. *)
Definition completed (wall : time) (config : Config Store) : Config Store :=
  {| Config_Store := Config_Store config; Config_Protector := Config_Protector config;
     Config_AllowPlaintextReads := Config_AllowPlaintextReads config;
     Config_MaxArtifactBytes := or_default (Config_MaxArtifactBytes config) defaultArtifactMax;
     Config_Clock := clock_of wall config;
     Config_ReleaseTimeout := or_default (Config_ReleaseTimeout config) defaultReleaseTimeout |}.

(** What [withDefaults] looks at. *)
Definition defaults_ok (wall : time) (config : Config Store) : Prop :=
  fresh (Config_Store config) /\ nilAgentStore (Resource_value (Config_Store config)) = false /\
  (exists now, checkedClockTime (clock_of wall config) = Ok now) /\
  in_range 1 absoluteArtifactMax (Config_MaxArtifactBytes config) /\
  in_range minimumReleaseTimeout maximumReleaseTimeout (Config_ReleaseTimeout config).

Lemma withDefaults_spec wall config :
  withDefaults wall config = Ok (completed wall config) /\ defaults_ok wall config \/
  (exists e, withDefaults wall config = Err e) /\ ~ defaults_ok wall config.
Proof.
  unfold withDefaults, defaults_ok. fold (clock_of wall config).
  fold (or_default (Config_MaxArtifactBytes config) defaultArtifactMax).
  fold (or_default (Config_ReleaseTimeout config) defaultReleaseTimeout).
  destruct (ReadResource_spec (Config_Store config)) as [[-> Hf]|[-> Hf]]; cbn [obind];
    [|right; split; [eauto | tauto]].
  destruct (nilAgentStore _); cbn [obind refuse_if]; [right; split; [eauto | by intros (_ & ? & _)]|].
  destruct (checkedClockTime (clock_of wall config)) as [now|e]; cbn [obind];
    [|right; split; [eauto | by intros (_ & _ & [? ?] & _)]].
  pose proof (or_default_range 1 absoluteArtifactMax defaultArtifactMax (Config_MaxArtifactBytes config)
                ltac:(done) ltac:(done)) as Ha.
  destruct ((or_default (Config_MaxArtifactBytes config) defaultArtifactMax <? 1)
            || (or_default (Config_MaxArtifactBytes config) defaultArtifactMax >? absoluteArtifactMax))%Z;
    cbn [obind refuse_if]; [right; split; [eauto | intros (_ & _ & _ & ?%Ha & _); done]|].
  pose proof (or_default_range minimumReleaseTimeout maximumReleaseTimeout defaultReleaseTimeout
                (Config_ReleaseTimeout config) ltac:(done) ltac:(done)) as Hr.
  destruct ((or_default (Config_ReleaseTimeout config) defaultReleaseTimeout <? minimumReleaseTimeout)
            || (or_default (Config_ReleaseTimeout config) defaultReleaseTimeout >? maximumReleaseTimeout))%Z;
    cbn [obind refuse_if]; [right; split; [eauto | intros (_ & _ & _ & _ & ?%Hr); done]|].
  left. split; [done|]. split_and!; [done | done | eauto | by apply Ha | by apply Hr].
Qed.

(** The Agent of an accepted configuration. *)
Definition agent_of (wall : time) (config : Config Store) (p : option Protector) (d : Description) : Agent :=
  {| Agent_protector := p; Agent_protectorDescription := d;
     Agent_allowPlaintext := Config_AllowPlaintextReads config; Agent_now := clock_of wall config;
     Agent_maxArtifactBytes := or_default (Config_MaxArtifactBytes config) defaultArtifactMax;
     Agent_closed := false |}.

(** The failure of an opening: both resources are released, within bounds. *)
Definition failed_cleanly (config : Config Store) (err : error) (released : Released) : Prop :=
  (exists timeout primary,
     (minimumReleaseTimeout <= timeout <= maximumReleaseTimeout)%Z /\
     released = releaseAgentResources release_protector release_store timeout
                  (Resource_owned (Config_Protector config)) (Resource_owned (Config_Store config)) /\
     err = match Released_error released with None => primary | Some e => Join primary e end) /\
  given_back (Resource_owned (Config_Protector config)) (Released_protector released) /\
  given_back (Resource_owned (Config_Store config)) (Released_store released).

Lemma released_cleanly config timeout primary :
  (minimumReleaseTimeout <= timeout <= maximumReleaseTimeout)%Z ->
  let released := releaseAgentResources release_protector release_store timeout
                    (Resource_owned (Config_Protector config)) (Resource_owned (Config_Store config)) in
  failed_cleanly config (match Released_error released with None => primary | Some e => Join primary e end) released.
Proof.
  intros Ht. cbn zeta. split; [by eexists _, primary|]. unfold releaseAgentResources.
  pose proof (releaseAgentResource_gives_back timeout release_protector (Resource_owned (Config_Protector config))) as Hp.
  pose proof (releaseAgentResource_gives_back timeout release_store (Resource_owned (Config_Store config))) as Hs.
  destruct (releaseAgentResource _ _ _) as [[e1 c1] o1], (releaseAgentResource _ _ _) as [[e2 c2] o2]. done.
Qed.

Lemma StoreDescription_Validate_unit d u : StoreDescription_Validate d = Ok u -> StoreDescription_Validate d = Ok tt.
Proof. by destruct u. Qed.

(** [Open] accepts exactly the configurations of [config_ok], and then
    returns the Agent with the configured or default limits, releasing
    nothing.  Every other configuration is refused, and the refusal has
    released both resources: a borrowed one is untouched, the callback of an
    owned one was started unless it had been, nobody obtains it any more,
    each attempt was bounded by 1 ms to 5 minutes, and the errors of both
    attempts are joined to the one of the refusal. *)
Theorem open_outcome ctx wall config :
  match AgentOpen Store_Description Protector_Describe release_protector release_store ctx wall config with
  | Opened agent timeout =>
      config_ok ctx wall config /\
      timeout = or_default (Config_ReleaseTimeout config) defaultReleaseTimeout /\
      exists p d, protector_ok ctx (Config_Protector config) p d /\ agent = agent_of wall config p d
  | OpenFailed err released => ~ config_ok ctx wall config /\ failed_cleanly config err released
  end.
Proof.
  unfold AgentOpen.
  assert (forall primary,
    let released := releaseAgentConfigResources release_protector release_store config in
    failed_cleanly config (match Released_error released with None => primary | Some e => Join primary e end)
      released) as Hearly.
  { intros primary. apply released_cleanly.
    destruct ((Config_ReleaseTimeout config <? minimumReleaseTimeout)%Z
              || (Config_ReleaseTimeout config >? maximumReleaseTimeout)%Z) eqn:E; [done|].
    bool_split. zbool. lia. }
  destruct ctx as [|[e|]]; [by split; [intros [? _]|apply Hearly]..|].
  destruct (withDefaults_spec wall config) as [[-> Hd]|[[e ->] Hd]].
  2: { split; [|apply Hearly]. intros (_ & Hf & (s & Hv & _) & Hclock & Ha & Hr & _). apply Hd.
       split_and!; try done. by rewrite Hv. }
  destruct Hd as (Hf & Hn & Hclock & Ha & Hr). unfold newAgent.
  assert (minimumReleaseTimeout <= or_default (Config_ReleaseTimeout config) defaultReleaseTimeout
          <= maximumReleaseTimeout)%Z as Ht.
  { unfold or_default, in_range in *. destruct (Z.eqb_spec (Config_ReleaseTimeout config) 0); [done|lia]. }
  cbn [Config_Store Config_Protector Config_ReleaseTimeout completed].
  destruct (ReadResource_spec (Config_Store config)) as [[-> _]|[_ ?]]; [|done]. cbn [obind].
  destruct (Resource_value (Config_Store config)) as [| |s] eqn:Ev; [done..|]. cbn [acquireAgentStore].
  destruct (StoreDescription_Validate (Store_Description s)) as [[]|e] eqn:Es; cbn [obind].
  2: { split; [|by apply released_cleanly]. intros (_ & _ & (s' & Hs' & Hs'') & _). congruence. }
  destruct (acquireProtector _ _ _) as [[p d]|e] eqn:Ep.
  - apply acquireProtector_spec in Ep. split; [|split; [done|by exists p, d]].
    split_and!; [done | done | by exists s | done | done | done | by exists p, d].
  - split; [|by apply released_cleanly]. intros (_ & _ & _ & _ & _ & _ & p & d & Hp).
    apply acquireProtector_spec in Hp. congruence.
Qed.
End Opening.
