(* ===== verification/AgentPages.v ===== *)
(** * The listings are complete

    The pages of ListTasks, ListAuthorityTasks, ListLeases, ListMessages and
    ReadEvents in a well-formed state: the checks on what the store returns
    never fail, and a client that follows the cursors sees everything there
    is, once and in order. *)

From S2P Require Import Prelude Paging GoText GoTime GoJson AgentTypes AgentCodec Framework Protect.
From S2P Require Import AgentStore MemoryStore AgentCore AgentCommands AgentLease AgentArtifact AgentQuery.
From S2P Require Import AgentFacts AgentReplay MemoryFacts MemoryForward.
From S2P Require Import AgentMachine AgentRefinement AgentInvariant AgentPreserve AgentHistory AgentVerdict AgentLeaseVerdict.

Local Open Scope string_scope.

(* ------------------------------------------------------------------ *)
(** ** Cutting a page from one record more *)

Lemma truncate_more {A} (limit : Z) (l : list A) :
  (0 < limit)%Z ->
  (Z.of_nat (length (truncate (limit + 1) l)) >? limit)%Z = (Z.to_nat limit <? length l)%nat.
Proof.
  intros Hl. unfold truncate. rewrite !Z.gtb_ltb.
  destruct (Z.ltb_spec (limit + 1) (Z.of_nat (length l))).
  - rewrite length_take. rewrite (proj2 (Nat.ltb_lt _ _)), (proj2 (Z.ltb_lt _ _)) by lia. done.
  - destruct (Z.ltb_spec limit (Z.of_nat (length l))), (Nat.ltb_spec (Z.to_nat limit) (length l)); try done; lia.
Qed.

Lemma truncate_length {A} (limit : Z) (l : list A) :
  (0 <= limit)%Z -> length (truncate limit l) = Z.to_nat limit `min` length l.
Proof.
  intros Hl. unfold truncate. rewrite Z.gtb_ltb. destruct (Z.ltb_spec limit (Z.of_nat (length l))).
  - rewrite length_take. lia.
  - lia.
Qed.

Lemma truncate_take {A} (limit : Z) (l : list A) :
  (0 < limit)%Z -> take (Z.to_nat limit) (truncate (limit + 1) l) = take (Z.to_nat limit) l.
Proof.
  intros Hl. unfold truncate. destruct (_ >? _)%Z; [|done]. rewrite take_take. f_equal. lia.
Qed.

(** [if hasMore { records = records[:limit] }]. *)
Lemma truncate_cut {A} (limit : Z) (l : list A) :
  (0 < limit)%Z ->
  (if (Z.to_nat limit <? length l)%nat then take (Z.to_nat limit) (truncate (limit + 1) l) else truncate (limit + 1) l)
  = take (Z.to_nat limit) l.
Proof.
  intros Hl. rewrite truncate_take by done. destruct (Nat.ltb_spec (Z.to_nat limit) (length l)); [done|].
  rewrite take_ge by lia. unfold truncate. rewrite Z.gtb_ltb, (proj2 (Z.ltb_ge _ _)) by lia. done.
Qed.

Lemma scan_limit_ok limit : (0 < limit <= MaxPageSize)%Z -> memoryAgentScanLimit (limit + 1) = Ok tt.
Proof.
  intros Hl. unfold memoryAgentScanLimit. rewrite Z.gtb_ltb, (proj2 (Z.ltb_ge _ _)), (proj2 (Z.ltb_ge _ _)) by lia. done.
Qed.

(** The default page is the largest. *)
Definition page_limit (limit : Z) : Z := if (limit =? 0)%Z then MaxPageSize else limit.

Lemma normalize_limit limit :
  (0 <= limit <= MaxPageSize)%Z ->
  normalizePageLimit limit = Ok (page_limit limit) /\ (0 < page_limit limit <= MaxPageSize)%Z.
Proof.
  intros Hl. unfold normalizePageLimit, page_limit. destruct (Z.eqb_spec limit 0); [done|].
  rewrite Z.gtb_ltb, !(proj2 (Z.ltb_ge _ _)) by lia. split; [done|lia].
Qed.

(* ------------------------------------------------------------------ *)
(** ** ListTasks *)

(** The Tasks of a context, oldest first. *)
Definition context_tasks (s : memoryAgentState) (context : ContextRef) : list StoreTaskRecord :=
  sort_slice memoryAgentTaskCreatedLess
    (ReadOp.select (fun r => Task_Context (TaskRecord_Task r) =?= context) (tasks s)).

Lemma elem_of_context_tasks s context r :
  r ∈ context_tasks s context <->
  (exists ref, tasks s !! ref = Some r) /\ Task_Context (TaskRecord_Task r) = context.
Proof. unfold context_tasks. by rewrite sort_slice_perm, elem_of_select, bool_decide_eq_true. Qed.

Lemma context_tasks_keys s context : WF s -> NoDup (created_key <$> context_tasks s context).
Proof.
  intros Hwf. unfold context_tasks. rewrite sort_slice_perm. apply NoDup_select.
  intros k1 k2 x1 x2 H1 H2 E1 E2 Hkey. decided. apply (same_place s k1 k2 x1 x2); try done.
  - destruct (wt_record _ _ _ (wf_tasks _ Hwf _ _ H1)), (wt_record _ _ _ (wf_tasks _ Hwf _ _ H2)).
    pose proof (vt_authority _ (vr_task _ wr_valid)) as A1. pose proof (vt_authority _ (vr_task _ wr_valid0)) as A2.
    unfold task_authority. rewrite <- wr_ref, <- wr_ref0, <- A1, <- A2. congruence.
  - unfold created_key in Hkey. congruence.
Qed.

Lemma context_tasks_sorted s context : ascending memoryAgentTaskCreatedLess (context_tasks s context).
Proof. apply (sort_slice_ascending created_key oldest_first strict_total_oldest _ created_less). Qed.

(** Elements whose keys differ differ. *)
Lemma NoDup_key_inj {A K} (key : A -> K) (l : list A) x y :
  NoDup (key <$> l) -> x ∈ l -> y ∈ l -> key x = key y -> x = y.
Proof.
  induction l as [|z l IH]; intros Hnd Hx Hy E; [by apply elem_of_nil in Hx|].
  rewrite fmap_cons in Hnd. apply NoDup_cons in Hnd as [Hz Hnd].
  apply elem_of_cons in Hx as [->|Hx], Hy as [->|Hy]; try done.
  - destruct Hz. apply list_elem_of_fmap. eauto.
  - destruct Hz. apply list_elem_of_fmap. eauto.
  - auto.
Qed.

Lemma scan_context s context c limit :
  WF s -> (0 < limit <= MaxPageSize)%Z ->
  ScanContextTasks {| ContextScan_Context := context; ContextScan_After := c; ContextScan_Limit := limit + 1 |} s =
    Ok (truncate (limit + 1) (after_cursor created_key oldest_first created_cursor c (context_tasks s context))).
Proof.
  intros Hwf Hl. primitive. unfold ReadOp.ScanContextTasks. primitive. rewrite scan_limit_ok by done.
  cbn [obind]. do 2 f_equal. rewrite select_andb.
  rewrite (sort_filter created_key oldest_first strict_total_oldest _ created_less).
  - fold (context_tasks s context). destruct c as [c|]; cbn [after_cursor].
    + apply filter_ext_in. intros r _. apply after_created.
    + by apply filter_all.
  - intros x y Hx Hy E. eapply NoDup_key_inj; [apply (context_tasks_keys s context Hwf)|..|exact E];
      unfold context_tasks; by rewrite sort_slice_perm.
Qed.

Lemma contextTasks_ok s context l :
  WF s -> (forall r, r ∈ l -> r ∈ context_tasks s context) -> contextTasks context l = Ok (TaskRecord_Task <$> l).
Proof.
  intros Hwf. induction l as [|r l IH]; intros Hin; [done|].
  assert (r ∈ context_tasks s context) as [[ref Hr] Hc]%elem_of_context_tasks by (apply Hin; left).
  cbn [contextTasks]. destruct (wt_record _ _ _ (wf_tasks _ Hwf _ _ Hr)).
  rewrite (proj2 (valid_record_check r) wr_valid), Hc, bool_decide_eq_true_2 by done. cbn [is_ok negb orb refuse_if obind].
  rewrite IH; [done|]. intros r' Hr'. apply Hin. by right.
Qed.

(** The elements of a page are elements of the listing. *)
Lemma take_after_cursor {A K C} (key : A -> K) kless (ckey : C -> K) c n (l : list A) x :
  x ∈ take n (after_cursor key kless ckey c l) -> x ∈ l.
Proof.
  intros Hx. assert (x ∈ after_cursor key kless ckey c l) as H.
  { rewrite <- (take_drop n). apply elem_of_app. by left. }
  destruct c as [c|]; [|done]. apply list_elem_of_In, filter_In in H as [H _]. by apply list_elem_of_In.
Qed.

Lemma list_tasks_view s context c limit :
  WF s -> (0 < limit <= MaxPageSize)%Z ->
  let rest := after_cursor created_key oldest_first created_cursor c (context_tasks s context) in
  let page := cut (fun r => taskCursor (TaskRecord_Task r)) (Z.to_nat limit) rest in
  listTasksView context c limit s =
    Ok {| TaskPage_Items := TaskRecord_Task <$> fst page; TaskPage_Next := snd page;
          TaskPage_HasMore := (Z.to_nat limit <? length rest)%nat |}.
Proof.
  intros Hwf Hl rest page. unfold listTasksView. rewrite scan_context by done. cbn [obind]. fold rest.
  rewrite truncate_more, truncate_cut by lia.
  rewrite (contextTasks_ok s) by (done || intros r; apply take_after_cursor). cbn [obind].
  unfold page, cut. cbn [fst snd]. rewrite fmap_last. destruct (_ <? _)%nat; [|done]. by rewrite <- option_fmap_compose.
Qed.

(* ------------------------------------------------------------------ *)
(** ** ListAuthorityTasks *)

Definition query_scan (authority : AuthorityID) (request : TaskQuery) (after : option TaskQueryCursor) (limit : Z)
    : StoreTaskAuthorityScan :=
  {| AuthorityScan_Authority := authority; AuthorityScan_Context := TaskQuery_Context request;
     AuthorityScan_State := TaskQuery_State request;
     AuthorityScan_UpdatedAtOrAfter := TaskQuery_UpdatedAtOrAfter request;
     AuthorityScan_After := after; AuthorityScan_Limit := limit |}.

(** The Tasks a query asks for, the last changed first. *)
Definition query_tasks (s : memoryAgentState) (authority : AuthorityID) (request : TaskQuery) : list StoreTaskRecord :=
  sort_slice memoryAgentTaskUpdatedLess
    (ReadOp.select (ReadOp.authority_filter (query_scan authority request None 0)) (tasks s)).

Lemma elem_of_query_tasks s authority request r :
  r ∈ query_tasks s authority request <->
  (exists ref, tasks s !! ref = Some r) /\ ReadOp.authority_filter (query_scan authority request None 0) r = true.
Proof. unfold query_tasks. by rewrite sort_slice_perm, elem_of_select. Qed.

Lemma query_tasks_sorted s authority request : ascending memoryAgentTaskUpdatedLess (query_tasks s authority request).
Proof. apply (sort_slice_ascending updated_key latest_first strict_total_latest _ updated_less). Qed.

Lemma query_tasks_keys s authority request : WF s -> NoDup (updated_key <$> query_tasks s authority request).
Proof.
  intros Hwf. unfold query_tasks. rewrite sort_slice_perm. apply NoDup_select.
  intros k1 k2 x1 x2 H1 H2 E1 E2 Hkey. apply (same_place s k1 k2 x1 x2); try done.
  - unfold ReadOp.authority_filter, query_scan in E1, E2. cbn in E1, E2. bool_split. decided.
    rewrite (wr_ref _ _ (wt_record _ _ _ (wf_tasks _ Hwf _ _ H1))) in *.
    rewrite (wr_ref _ _ (wt_record _ _ _ (wf_tasks _ Hwf _ _ H2))) in *. unfold task_authority. congruence.
  - unfold updated_key in Hkey. congruence.
Qed.

(** The checks of one record follow from the filter and the order. *)
Lemma follows_cursor r c :
  taskFollowsAuthorityCursor (TaskRecord_Task r) c = latest_first (updated_cursor c) (updated_key r).
Proof.
  unfold taskFollowsAuthorityCursor, updated_cursor, updated_key, place, Before.
  destruct (Z.ltb_spec (Task_UpdatedAt (TaskRecord_Task r)) (TaskQueryCursor_UpdatedAt c)).
  - unfold latest_first, lex. cbn [fst snd]. rewrite bool_decide_eq_false_2 by lia. symmetry. by apply Z.ltb_lt.
  - by_lex; symmetry; apply Z.ltb_ge; lia.
Qed.

Lemma precedes_key r1 r2 :
  authorityTaskPrecedes (TaskRecord_Task r1) (TaskRecord_Task r2) = latest_first (updated_key r1) (updated_key r2).
Proof. unfold authorityTaskPrecedes, updated_key, place. by_lex. Qed.

Lemma query_record_ok authority request c r previous :
  ReadOp.authority_filter (query_scan authority request None 0) r = true ->
  (forall c', c = Some c' -> latest_first (updated_cursor c') (updated_key r) = true) ->
  (forall r', previous = Some r' -> latest_first (updated_key r') (updated_key r) = true) ->
  TaskQuery_After request = c ->
  validateAuthorityTaskQueryRecord (TaskRecord_Task r) authority request (TaskRecord_Task <$> previous) = Ok tt.
Proof.
  intros Hf Hc Hp <-. unfold validateAuthorityTaskQueryRecord.
  unfold ReadOp.authority_filter, query_scan in Hf. cbn [AuthorityScan_Authority AuthorityScan_Context AuthorityScan_State
    AuthorityScan_UpdatedAtOrAfter] in Hf. rewrite !andb_true_iff in Hf. destruct Hf as [[[Ha Hx] Hst] Hfl].
  rewrite refuse_if_false.
  - cbn [obind]. destruct previous as [r'|]; [|done]. cbn [fmap option_fmap option_map].
    by rewrite precedes_key, (Hp r' eq_refl).
  - rewrite Ha. cbn [negb orb].
    assert (negb (is_empty (TaskQuery_Context request))
      && (ContextRef_ID (Task_Context (TaskRecord_Task r)) <>? TaskQuery_Context request) = false) as ->.
    { destruct (is_empty _); [done|]. cbn in *. by rewrite Hx. }
    assert ((TaskQuery_State request <>? TaskStateOther "")
      && (Task_State (TaskRecord_Task r) <>? TaskQuery_State request) = false) as ->.
    { destruct (bool_decide (TaskQuery_State request = _)); [done|]. cbn in *. by rewrite Hst. }
    cbn [orb]. destruct (TaskQuery_UpdatedAtOrAfter request); [rewrite negb_true_iff in Hfl; rewrite Hfl|];
      (destruct (TaskQuery_After request) as [c|]; [by rewrite follows_cursor, Hc|done]).
Qed.

Lemma authorityTasks_ok s authority request l : WF s ->
  (forall r, r ∈ l -> r ∈ query_tasks s authority request) ->
  (forall c r, TaskQuery_After request = Some c -> r ∈ l -> latest_first (updated_cursor c) (updated_key r) = true) ->
  StronglySorted (fun x y => latest_first (updated_key x) (updated_key y) = true) l ->
  forall room previous,
  (forall p r, previous = Some p -> r ∈ l -> latest_first (updated_key p) (updated_key r) = true) ->
  authorityTasks authority request room (TaskRecord_Task <$> previous) l =
    Ok (TaskRecord_Task <$> take room l, (room <? length l)%nat).
Proof.
  intros Hwf Hin Hc Hs. induction Hs as [|r l Hs IH Hf]; intros room previous Hp; [by destruct room|].
  assert (r ∈ query_tasks s authority request) as [[ref Hr] Hfilter]%elem_of_query_tasks by (apply Hin; left).
  pose proof (proj2 (valid_record_check r) (wr_valid _ _ (wt_record _ _ _ (wf_tasks _ Hwf _ _ Hr)))) as Hv.
  assert (validateAuthorityTaskQueryRecord (TaskRecord_Task r) authority request (TaskRecord_Task <$> previous) = Ok tt)
    as Hq.
  { apply (query_record_ok _ _ (TaskQuery_After request)); [done| | |done].
    - intros c Ec. apply Hc; [done|by left].
    - intros p ->. apply (Hp p); [done|by left]. }
  destruct room as [|room]; cbn [authorityTasks]; rewrite Hv; cbn [obind]; rewrite Hq; [done|]. cbn [obind].
  change (Some (TaskRecord_Task r)) with (TaskRecord_Task <$> Some r). rewrite IH; [done| | |].
  - intros x Hx. apply Hin. by right.
  - intros c x Ec Hx. apply Hc; [done|by right].
  - intros p x [= <-] Hx. rewrite Forall_forall in Hf. by apply Hf.
Qed.

(** Without equal keys an ascending list is strictly so. *)
Lemma ascending_strict {A K} (key : A -> K) kless (less : A -> A -> bool) l :
  strict_total kless -> (forall x y, less x y = kless (key x) (key y)) ->
  NoDup (key <$> l) -> ascending less l -> StronglySorted (fun x y => kless (key x) (key y) = true) l.
Proof.
  intros [irr tra tot] Hless Hnd Hs. unfold ascending in Hs. induction Hs as [|x l Hs IH Hf]; [constructor|].
  rewrite fmap_cons in Hnd. apply NoDup_cons in Hnd as [Hx Hnd]. constructor; [auto|].
  rewrite Forall_forall in Hf |- *. intros y Hy. specialize (Hf y Hy). rewrite Hless in Hf.
  destruct (kless (key x) (key y)) eqn:E; [done|]. destruct Hx. apply list_elem_of_fmap. exists y.
  split; [by apply tot|done].
Qed.

Lemma StronglySorted_filter {A} (R : A -> A -> Prop) (f : A -> bool) l :
  StronglySorted R l -> StronglySorted R (List.filter f l).
Proof.
  induction 1 as [|x l Hs IH Hf]; [constructor|]. cbn. destruct (f x); [|done]. constructor; [done|].
  rewrite Forall_forall in Hf |- *. intros y Hy. apply Hf.
  apply list_elem_of_In, filter_In in Hy as [Hy _]. by apply list_elem_of_In.
Qed.

Lemma StronglySorted_take {A} (R : A -> A -> Prop) n l : StronglySorted R l -> StronglySorted R (take n l).
Proof.
  intros Hs. revert n. induction Hs as [|x l Hs IH Hf]; intros [|n]; cbn; constructor; [done|]. by apply Forall_take.
Qed.
Lemma scan_authority s authority request c limit :
  WF s -> (0 < limit <= MaxPageSize)%Z ->
  let rest := after_cursor updated_key latest_first updated_cursor c (query_tasks s authority request) in
  ScanAuthorityTasks (query_scan authority request c (limit + 1)) s =
    Ok {| AuthorityResult_Records := take (Z.to_nat (limit + 1)) rest;
          AuthorityResult_TotalSize := Z.of_nat (length (query_tasks s authority request)) |}.
Proof.
  intros Hwf Hl rest. primitive. unfold ReadOp.ScanAuthorityTasks. primitive.
  change (AuthorityScan_Limit (query_scan authority request c (limit + 1))) with (limit + 1)%Z.
  rewrite scan_limit_ok by done. cbn [obind].
  change (sort_slice memoryAgentTaskUpdatedLess
    (ReadOp.select (ReadOp.authority_filter (query_scan authority request c (limit + 1))) (tasks s)))
    with (query_tasks s authority request).
  do 2 f_equal. f_equal. unfold rest. destruct c as [c|]; cbn [after_cursor query_scan AuthorityScan_After].
  - apply filter_ext_in. intros r _. apply after_updated.
  - by apply filter_all.
Qed.

Lemma list_authority_view s authority request limit :
  WF s -> (0 < limit <= MaxPageSize)%Z ->
  let rest := after_cursor updated_key latest_first updated_cursor (TaskQuery_After request)
                (query_tasks s authority request) in
  let page := cut (fun r => taskQueryCursor (TaskRecord_Task r)) (Z.to_nat limit) rest in
  listAuthorityTasksView authority request limit s =
    Ok {| TaskQueryPage_Items := TaskRecord_Task <$> fst page; TaskQueryPage_Next := snd page;
          TaskQueryPage_HasMore := (Z.to_nat limit <? length rest)%nat;
          TaskQueryPage_TotalSize := Z.of_nat (length (query_tasks s authority request)) |}.
Proof.
  intros Hwf Hl rest page. unfold listAuthorityTasksView.
  change {| AuthorityScan_Authority := authority; AuthorityScan_Context := TaskQuery_Context request;
    AuthorityScan_State := TaskQuery_State request;
    AuthorityScan_UpdatedAtOrAfter := TaskQuery_UpdatedAtOrAfter request;
    AuthorityScan_After := TaskQuery_After request; AuthorityScan_Limit := limit + 1 |}
    with (query_scan authority request (TaskQuery_After request) (limit + 1)).
  rewrite scan_authority by done. fold rest. cbn [obind AuthorityResult_Records AuthorityResult_TotalSize].
  assert (forall r, r ∈ rest -> r ∈ query_tasks s authority request) as Hsub.
  { intros r Hr. apply (take_after_cursor updated_key latest_first updated_cursor (TaskQuery_After request) (length rest)).
    by rewrite firstn_all. }
  assert (length rest <= length (query_tasks s authority request))%nat as Hlen.
  { unfold rest. destruct (TaskQuery_After request); [apply filter_length_le|done]. }
  rewrite refuse_if_false; cycle 1.
  { rewrite length_take. apply orb_false_iff. rewrite Z.gtb_ltb. split; apply Z.ltb_ge; lia. }
  cbn [obind]. rewrite (authorityTasks_ok s authority request _ Hwf) with (previous := None); [| | | |done].
  - rewrite take_take, length_take. replace (Z.to_nat limit `min` Z.to_nat (limit + 1)) with (Z.to_nat limit) by lia.
    assert ((Z.to_nat limit <? Z.to_nat (limit + 1) `min` length rest)%nat = (Z.to_nat limit <? length rest)%nat) as ->.
    { destruct (Nat.ltb_spec (Z.to_nat limit) (length rest)); [apply Nat.ltb_lt|apply Nat.ltb_ge]; lia. }
    cbn [obind]. unfold page, cut. cbn [fst snd]. rewrite fmap_last.
    destruct (_ <? _)%nat; [|done]. by rewrite <- option_fmap_compose.
  - intros r Hr. apply Hsub. rewrite <- (take_drop (Z.to_nat (limit + 1)) rest). apply elem_of_app. by left.
  - intros c r Ec Hr. assert (r ∈ rest) as Hin.
    { rewrite <- (take_drop (Z.to_nat (limit + 1)) rest). apply elem_of_app. by left. }
    unfold rest in Hin. rewrite Ec in Hin. cbn in Hin. by apply list_elem_of_In, filter_In in Hin as [_ Hin].
  - apply StronglySorted_take. unfold rest.
    pose proof (ascending_strict updated_key latest_first _ _ strict_total_latest updated_less
      (query_tasks_keys s authority request Hwf) (query_tasks_sorted s authority request)) as Hst.
    destruct (TaskQuery_After request); [by apply StronglySorted_filter|done].
Qed.

(* ------------------------------------------------------------------ *)
(** ** ReadEvents *)

(** The events of a Task, from number [from], [n] of them. *)
Definition events_from (s : memoryAgentState) (ref : TaskRef) (from n : Z) : list StoreEventRecord :=
  omap (fun i => history s ref !! i) (seqZ from n).

Lemma omap_lookup {A B} (f : A -> option B) (l : list A) :
  (forall x, x ∈ l -> is_Some (f x)) -> forall i, omap f l !! i = l !! i ≫= f.
Proof.
  induction l as [|x l IH]; intros Hall i; [done|]. cbn.
  destruct (Hall x) as [y Hy]; [by left|]. rewrite Hy. destruct i as [|i]; cbn; [by rewrite Hy|].
  apply IH. intros z Hz. apply Hall. by right.
Qed.

Lemma omap_length {A B} (f : A -> option B) (l : list A) :
  (forall x, x ∈ l -> is_Some (f x)) -> length (omap f l) = length l.
Proof.
  induction l as [|x l IH]; intros Hall; [done|]. cbn. destruct (Hall x) as [y Hy]; [by left|]. rewrite Hy. cbn.
  f_equal. apply IH. intros z Hz. apply Hall. by right.
Qed.

Lemma ascending_seqZ from n : ascending Z.ltb (seqZ from n).
Proof.
  unfold ascending. remember (Z.to_nat n) as m eqn:E. revert from n E. induction m as [|m IH]; intros from n E.
  - rewrite seqZ_nil by lia. constructor.
  - rewrite seqZ_cons by lia. constructor; [apply IH; lia|]. rewrite Forall_forall. intros i Hi%elem_of_seqZ.
    apply Z.ltb_ge. lia.
Qed.

Section Events.
Context (s : memoryAgentState) (ref : TaskRef) (r : StoreTaskRecord) (Hwf : WF s) (Hr : tasks s !! ref = Some r).
Local Abbreviation count := (Task_EventCount (TaskRecord_Task r)).

Lemma events_range from n i : (1 <= from)%Z -> (from + n - 1 <= count)%Z -> i ∈ seqZ from n -> is_Some (history s ref !! i).
Proof.
  intros H1 H2 Hi%elem_of_seqZ. apply (wh_domain _ _ _ _ _ (wt_history _ _ _ (wf_tasks _ Hwf _ _ Hr))). lia.
Qed.

Lemma events_from_lookup from n i :
  (1 <= from)%Z -> (from + n - 1 <= count)%Z -> (Z.of_nat i < n)%Z ->
  events_from s ref from n !! i = history s ref !! (from + Z.of_nat i)%Z.
Proof.
  intros H1 H2 Hi. unfold events_from. rewrite omap_lookup by (intros; by eapply events_range).
  rewrite (proj2 (lookup_seqZ _ _ _ (from + Z.of_nat i)%Z)); [done|lia].
Qed.

Lemma events_from_length from n : (1 <= from)%Z -> (from + n - 1 <= count)%Z -> (0 <= n)%Z ->
  length (events_from s ref from n) = Z.to_nat n.
Proof.
  intros H1 H2 Hn. unfold events_from. rewrite omap_length by (intros; by eapply events_range).
  apply length_seqZ.
Qed.

(** The numbers after [after], in order. *)
Lemma event_numbers after :
  (0 <= after <= count)%Z ->
  sort_slice Z.ltb (List.filter (fun n => n >? after)%Z (fst <$> map_to_list (history s ref)))
  = seqZ (after + 1) (count - after).
Proof.
  intros Ha. pose proof (wh_domain _ _ _ _ _ (wt_history _ _ _ (wf_tasks _ Hwf _ _ Hr))) as Hdom.
  apply (ascending_unique (fun n => n) Z.ltb strict_total_Zlt Z.ltb (fun _ _ => eq_refl)).
  - done.
  - apply (sort_slice_ascending (fun n => n) Z.ltb strict_total_Zlt Z.ltb (fun _ _ => eq_refl)).
  - apply ascending_seqZ.
  - rewrite sort_slice_perm. apply NoDup_Permutation.
    + apply NoDup_ListNoDup, List.NoDup_filter, NoDup_ListNoDup, NoDup_fst_map_to_list.
    + apply NoDup_seqZ.
    + intros n. rewrite elem_of_seqZ, list_elem_of_In, filter_In, <- list_elem_of_In, Z.gtb_ltb, Z.ltb_lt.
      rewrite list_elem_of_fmap. split.
      * intros [([n' e] & -> & He%elem_of_map_to_list) Hlt]. cbn in *.
        assert (1 <= n' <= count)%Z by (apply Hdom; eauto). lia.
      * intros Hn. destruct (proj2 (Hdom n)) as [e He]; [lia|]. split; [|lia]. exists (n, e). split; [done|].
        by apply elem_of_map_to_list.
Qed.

(** The loop over the records takes them all. *)
Lemma eventRun_ok l : forall room expected,
  (forall i e, l !! i = Some e -> wf_event ref (expected + Z.of_nat i) (EventRecord_Event e)) ->
  eventRun ref room expected l = Ok (EventRecord_Event <$> take room l, (room <? length l)%nat).
Proof.
  induction l as [|e l IH]; intros [|room] expected Hl; try done. cbn [eventRun].
  destruct (Hl O e eq_refl) as [Ht Hs Hv _]. rewrite Z.add_0_r in Hs.
  rewrite Ht, Hs, Hv, Z.eqb_refl, bool_decide_eq_true_2 by done. cbn [negb orb refuse_if obind].
  rewrite IH; [done|]. intros i e' Hi. specialize (Hl (Datatypes.S i) e' Hi).
  by replace (expected + 1 + Z.of_nat i)%Z with (expected + Z.of_nat (Datatypes.S i))%Z by lia.
Qed.

Lemma take_omap {A B} (f : A -> option B) (l : list A) n :
  (forall x, x ∈ l -> is_Some (f x)) -> omap f (take n l) = take n (omap f l).
Proof.
  revert n. induction l as [|x l IH]; intros n Hall; [by destruct n|]. destruct n as [|n]; [done|]. cbn.
  destruct (Hall x) as [y Hy]; [by left|]. rewrite Hy. cbn. f_equal. apply IH. intros z Hz. apply Hall. by right.
Qed.

Lemma truncate_omap {A B} (f : A -> option B) (l : list A) n :
  (forall x, x ∈ l -> is_Some (f x)) -> omap f (truncate n l) = truncate n (omap f l).
Proof.
  intros Hall. unfold truncate. rewrite (omap_length f l Hall). destruct (_ >? _)%Z; [by apply take_omap|done].
Qed.

Lemma scan_events after limit :
  (0 <= after <= count)%Z -> (0 < limit <= MaxPageSize)%Z ->
  ScanEvents {| EventScan_Task := ref; EventScan_After := after; EventScan_Limit := limit + 1 |} s =
    Ok (truncate (limit + 1) (events_from s ref (after + 1) (count - after))).
Proof.
  intros Ha Hl. primitive. unfold ReadOp.ScanEvents. primitive. rewrite scan_limit_ok by done. cbn [obind].
  change (default ∅ (events s !! ref)) with (history s ref). rewrite event_numbers by done.
  rewrite truncate_omap; [done|]. intros i Hi. eapply events_range; [| |exact Hi]; lia.
Qed.

Lemma read_events_view after limit :
  (0 <= after <= count)%Z -> (0 < limit <= MaxPageSize)%Z ->
  let rest := events_from s ref (after + 1) (count - after) in
  readEventsView ref after limit s =
    Ok {| EventPage_Items := EventRecord_Event <$> take (Z.to_nat limit) rest;
          EventPage_Next := after + Z.of_nat (length (take (Z.to_nat limit) rest));
          EventPage_HasMore := (Z.to_nat limit <? length rest)%nat |}.
Proof.
  intros Ha Hl rest. unfold readEventsView, loadTaskFromStore. rewrite (wf_load _ _ _ Hwf Hr). cbn [obind].
  rewrite refuse_if_false by (rewrite Z.gtb_ltb; apply Z.ltb_ge; lia). cbn [obind].
  rewrite scan_events by done. fold rest. cbn [obind].
  assert (length rest = Z.to_nat (count - after)) as Hlen by (apply events_from_length; lia).
  assert (forall i e, rest !! i = Some e -> wf_event ref (after + 1 + Z.of_nat i) (EventRecord_Event e)) as Hev.
  { intros i e Hi. pose proof (lookup_lt_Some _ _ _ Hi) as Hlt. unfold rest in Hi.
    rewrite events_from_lookup in Hi by lia.
    exact (wh_event _ _ _ _ _ (wt_history _ _ _ (wf_tasks _ Hwf _ _ Hr)) _ _ Hi). }
  rewrite eventRun_ok.
  2:{ intros i e Hi. apply Hev. unfold truncate in Hi. destruct (_ >? _)%Z; [|done].
      apply lookup_take_Some in Hi as [Hi _]. done. }
  cbn [obind]. rewrite truncate_take by lia.
  assert ((Z.to_nat limit <? length (truncate (limit + 1) rest))%nat = (Z.to_nat limit <? length rest)%nat) as ->.
  { rewrite truncate_length by lia.
    destruct (Nat.ltb_spec (Z.to_nat limit) (length rest)); [apply Nat.ltb_lt|apply Nat.ltb_ge]; lia. }
  assert (match last (EventRecord_Event <$> take (Z.to_nat limit) rest) with
          | Some event => Event_Sequence event
          | None => after
          end = after + Z.of_nat (length (take (Z.to_nat limit) rest)))%Z as ->.
  { rewrite fmap_last, last_lookup. destruct (take (Z.to_nat limit) rest !! _) as [e|] eqn:El; cbn.
    - apply lookup_take_Some in El as [El Hlt]. rewrite (we_sequence _ _ _ (Hev _ _ El)).
      destruct (take (Z.to_nat limit) rest) eqn:Et; [|cbn; lia].
      cbn in El, Hlt. exfalso. apply (f_equal length) in Et. rewrite length_take in Et. cbn in Et.
      apply lookup_lt_Some in El. lia.
    - apply lookup_ge_None in El. lia. }
  rewrite refuse_if_false; [done|]. destruct (Nat.ltb_spec (Z.to_nat limit) (length rest)) as [|Hge]; [done|].
  cbn [negb andb]. rewrite negb_false_iff, Z.eqb_eq, length_take. lia.
Qed.
End Events.
Section Reads.
Context {W : Type} `{HS : Store W memoryAgentState} `{HC : !StoreContract W memoryAgentState}.

(** Any read that reaches the store evaluates its view. *)
Lemma read_view {A} agent ctx (w : W) (f : memoryAgentState -> res A) :
  reaches agent ctx w -> View ctx f w = f (snapshot w).
Proof. intros (_ & _ & Ha). by apply admits_View. Qed.

(** One page of ListTasks, as its items and the next cursor. *)
Definition tasks_page agent ctx context limit (w : W) (c : option TaskPageCursor)
    : option (list Task * option TaskPageCursor) :=
  match ListTasks agent ctx context {| TaskPageRequest_After := c; TaskPageRequest_Limit := limit |} w with
  | Ok page => Some (TaskPage_Items page, TaskPage_Next page)
  | Err _ => None
  end.

(** ListTasks lists every Task of a context. From any reachable store a
    client that follows the cursors, with any page size, gets every Task of the
    context exactly once, oldest first, and no call fails. *)
Theorem list_tasks_complete agent ctx context limit (w : W) :
  agent_reachable w -> reaches agent ctx w -> validateContextRef context = Ok tt -> (0 <= limit <= MaxPageSize)%Z ->
  exists l,
    (forall fuel, (length l < fuel)%nat -> all_pages (tasks_page agent ctx context limit w) fuel None = Some l) /\
    (forall t, t ∈ l <->
      Task_Context t = context /\ exists r, tasks (snapshot w) !! Task_Ref t = Some r /\ TaskRecord_Task r = t) /\
    NoDup l /\ StronglySorted (fun t t' => (Task_CreatedAt t <= Task_CreatedAt t')%Z) l.
Proof.
  intros Hw%reachable_WF Hre Hctx Hlim. destruct (reaches_checks _ _ _ Hre) as [Hc Ha].
  destruct (normalize_limit _ Hlim) as [Hn Hpos]. set (s := snapshot w) in *.
  exists (TaskRecord_Task <$> context_tasks s context). split_and!.
  - intros fuel Hf. rewrite length_fmap in Hf.
    apply (pages_complete created_key oldest_first strict_total_oldest _ created_less
      (fun r => taskCursor (TaskRecord_Task r)) created_cursor) with (n := Z.to_nat (page_limit limit));
      [done|by apply context_tasks_keys|apply context_tasks_sorted|lia| |done].
    intros c Hcur. unfold tasks_page, ListTasks.
    cbn [TaskPageRequest_Limit TaskPageRequest_After]. rewrite Hc, Hctx, Hn, Ha. cbn [obind].
    assert (match c with None => Ok tt | Some cursor => validateTaskCursor cursor end = Ok tt) as ->.
    { destruct c as [c|]; [|done]. destruct (Hcur c eq_refl) as (r & Hr & ->).
      apply elem_of_context_tasks in Hr as [[ref Hr] _]. destruct (wt_record _ _ _ (wf_tasks _ Hw _ _ Hr)).
      unfold validateTaskCursor, taskCursor. cbn [TaskPageCursor_CreatedAt TaskPageCursor_Workspace TaskPageCursor_Task].
      rewrite (proj2 (store_time_int64 _)) by done. pose proof (vt_ref _ (vr_task _ wr_valid)) as Hst.
      unfold TaskRef_stable, WorkspaceRef_stable in Hst. rewrite !andb_true_iff in Hst.
      destruct Hst as [[_ H1] H2]. cbn [negb refuse_if obind].
      rewrite (proj2 (validateStable_Ok _ tt) H1). cbn [obind]. by apply validateStable_Ok. }
    cbn [obind]. rewrite (read_view _ _ _ _ Hre). fold s. rewrite list_tasks_view by done. done.
  - intros t. rewrite list_elem_of_fmap. split.
    + intros (r & -> & [[ref Hr] Hx]%elem_of_context_tasks). split; [done|]. exists r. split; [|done].
      by rewrite (wr_ref _ _ (wt_record _ _ _ (wf_tasks _ Hw _ _ Hr))).
    + intros (Hx & r & Hr & <-). exists r. split; [done|]. apply elem_of_context_tasks. eauto.
  - eapply (NoDup_fmap_1 (fun t => (Task_CreatedAt t, place (Task_Ref t)))).
    rewrite <- list_fmap_compose. by apply (context_tasks_keys s context).
  - pose proof (context_tasks_sorted s context) as Hsort. unfold ascending in Hsort.
    induction Hsort as [|r l Hs IH Hf]; [constructor|]. rewrite fmap_cons. constructor; [done|].
    rewrite Forall_fmap. eapply Forall_impl; [exact Hf|]. cbn. intros r' Hlt. rewrite created_less in Hlt.
    unfold oldest_first, lex, created_key in Hlt. cbn in Hlt. case_bool_decide as E; [lia|]. zbool. lia.
Qed.

Definition query_with (request : TaskQuery) (limit : Z) (c : option TaskQueryCursor) : TaskQuery :=
  {| TaskQuery_Context := TaskQuery_Context request; TaskQuery_State := TaskQuery_State request;
     TaskQuery_UpdatedAtOrAfter := TaskQuery_UpdatedAtOrAfter request; TaskQuery_After := c;
     TaskQuery_Limit := limit |}.

(** A query a client may ask: its filters are well formed. *)
Record valid_query (request : TaskQuery) : Prop := {
  vq_context : TaskQuery_Context request = "" \/ match_stable (TaskQuery_Context request) = true;
  vq_state : TaskQuery_State request = TaskStateOther "" \/ validTaskState (TaskQuery_State request) = true;
  vq_floor : forall floor, TaskQuery_UpdatedAtOrAfter request = Some floor -> in_int64 floor
}.

(** One page of ListAuthorityTasks: items, next cursor, and the total the page
    reports. *)
Definition authority_page agent ctx authority request limit (w : W) (c : option TaskQueryCursor)
    : option (list (Task * Z) * option TaskQueryCursor) :=
  match ListAuthorityTasks agent ctx authority (query_with request limit c) w with
  | Ok page => Some ((fun t => (t, TaskQueryPage_TotalSize page)) <$> TaskQueryPage_Items page, TaskQueryPage_Next page)
  | Err _ => None
  end.

(** The filters of a query. *)
Definition matches_query (request : TaskQuery) (t : Task) : Prop :=
  (TaskQuery_Context request = "" \/ ContextRef_ID (Task_Context t) = TaskQuery_Context request) /\
  (TaskQuery_State request = TaskStateOther "" \/ Task_State t = TaskQuery_State request) /\
  (forall floor, TaskQuery_UpdatedAtOrAfter request = Some floor -> (floor <= Task_UpdatedAt t)%Z).

Lemma filter_matches authority request r :
  ReadOp.authority_filter (query_scan authority request None 0) r = true <->
  task_authority (Task_Ref (TaskRecord_Task r)) = authority /\ matches_query request (TaskRecord_Task r).
Proof.
  unfold ReadOp.authority_filter, query_scan, matches_query, task_authority.
  cbn [AuthorityScan_Authority AuthorityScan_Context AuthorityScan_State AuthorityScan_UpdatedAtOrAfter].
  rewrite !andb_true_iff, !orb_true_iff, !bool_decide_eq_true, is_empty_true.
  destruct (TaskQuery_UpdatedAtOrAfter request) as [floor|].
  - unfold Before. rewrite negb_true_iff, Z.ltb_ge. split.
    + intros [[[H1 H2] H3] H4]. split_and!; try done. by intros f [= <-].
    + intros [H1 [H2 [H3 H4]]]. split_and!; auto.
  - split; [intros [[[H1 H2] H3] _]; by split_and!|intros [H1 [H2 [H3 _]]]; by split_and!].
Qed.

(** A call with good arguments returns its page. *)
Lemma list_authority_ok agent ctx authority request limit (w : W) c :
  WF (snapshot w) -> reaches agent ctx w -> match_stable authority = true -> valid_query request ->
  (0 <= limit <= MaxPageSize)%Z ->
  (forall c', c = Some c' -> exists ref r, tasks (snapshot w) !! ref = Some r /\ c' = taskQueryCursor (TaskRecord_Task r)) ->
  let all := query_tasks (snapshot w) authority request in
  let rest := after_cursor updated_key latest_first updated_cursor c all in
  let page := cut (fun r => taskQueryCursor (TaskRecord_Task r)) (Z.to_nat (page_limit limit)) rest in
  ListAuthorityTasks agent ctx authority (query_with request limit c) w =
    Ok {| TaskQueryPage_Items := TaskRecord_Task <$> fst page; TaskQueryPage_Next := snd page;
          TaskQueryPage_HasMore := (Z.to_nat (page_limit limit) <? length rest)%nat;
          TaskQueryPage_TotalSize := Z.of_nat (length all) |}.
Proof.
  intros Hw Hre Hauth [Hqx Hqs Hqf] Hlim Hcur. destruct (reaches_checks _ _ _ Hre) as [Hc Ha].
  destruct (normalize_limit _ Hlim) as [Hn Hpos]. cbv zeta. unfold ListAuthorityTasks.
  cbn [query_with TaskQuery_Limit TaskQuery_Context TaskQuery_State TaskQuery_UpdatedAtOrAfter TaskQuery_After].
  rewrite Hc. cbn [obind]. rewrite (proj2 (validateStable_Ok _ tt) Hauth). cbn [obind]. rewrite Hn. cbn [obind].
  assert ((if is_empty (TaskQuery_Context request) then Ok tt else validateStable (TaskQuery_Context request)) = Ok tt) as ->.
  { destruct Hqx as [-> | Hx]; [done|]. destruct (is_empty _); [done|]. by apply validateStable_Ok. }
  cbn [obind]. rewrite refuse_if_false.
  2:{ destruct Hqs as [-> | ->]; [by rewrite bool_decide_eq_true_2|apply andb_false_r]. }
  cbn [obind].
  assert (match TaskQuery_UpdatedAtOrAfter request with None => Ok tt | Some floor => validateQueryTime floor end = Ok tt) as ->.
  { destruct (TaskQuery_UpdatedAtOrAfter request) as [floor|]; [|done]. unfold validateQueryTime.
    by rewrite (proj2 (store_time_int64 _)) by auto. }
  assert (match c with None => Ok tt | Some cursor => validateTaskQueryCursor cursor end = Ok tt) as ->.
  { destruct c as [c|]; [|done]. destruct (Hcur c eq_refl) as (ref & r & Hr & ->).
    destruct (wt_record _ _ _ (wf_tasks _ Hw _ _ Hr)). unfold validateTaskQueryCursor, taskQueryCursor, validateQueryTime.
    cbn [TaskQueryCursor_UpdatedAt TaskQueryCursor_Workspace TaskQueryCursor_Task].
    rewrite (proj2 (store_time_int64 _)) by done. pose proof (vt_ref _ (vr_task _ wr_valid)) as Hst.
    unfold TaskRef_stable, WorkspaceRef_stable in Hst. rewrite !andb_true_iff in Hst.
    destruct Hst as [[_ H1] H2]. cbn [negb refuse_if obind].
    rewrite (proj2 (validateStable_Ok _ tt) H1). cbn [obind]. by apply validateStable_Ok. }
  cbn [obind]. rewrite Ha. cbn [obind]. rewrite (read_view _ _ _ _ Hre).
  rewrite list_authority_view by done. done.
Qed.

(** ListAuthorityTasks lists every Task of an authority that passes the
    filters of the query (context, state, changed since), exactly once, the
    last changed first, and every page reports the same total, the number of
    Tasks that pass; no call fails. *)
Theorem list_authority_tasks_complete agent ctx authority request limit (w : W) :
  agent_reachable w -> reaches agent ctx w -> match_stable authority = true -> valid_query request ->
  (0 <= limit <= MaxPageSize)%Z ->
  exists l,
    (forall fuel, (length l < fuel)%nat ->
      all_pages (authority_page agent ctx authority request limit w) fuel None
        = Some ((fun t => (t, Z.of_nat (length l))) <$> l)) /\
    (forall t, t ∈ l <->
      task_authority (Task_Ref t) = authority /\ matches_query request t /\
      exists r, tasks (snapshot w) !! Task_Ref t = Some r /\ TaskRecord_Task r = t) /\
    NoDup l /\ StronglySorted (fun t t' => (Task_UpdatedAt t' <= Task_UpdatedAt t)%Z) l.
Proof.
  intros Hw%reachable_WF Hre Hauth Hq Hlim. destruct (reaches_checks _ _ _ Hre) as [Hc Ha].
  destruct (normalize_limit _ Hlim) as [Hn Hpos]. set (s := snapshot w) in *.
  exists (TaskRecord_Task <$> query_tasks s authority request). split_and!.
  - intros fuel Hf. rewrite length_fmap in Hf |- *. rewrite <- list_fmap_compose.
    apply (pages_complete updated_key latest_first strict_total_latest _ updated_less
      (fun r => taskQueryCursor (TaskRecord_Task r)) updated_cursor) with (n := Z.to_nat (page_limit limit));
      [done|by apply query_tasks_keys|apply query_tasks_sorted|lia| |done].
    intros c Hcur. unfold authority_page. rewrite (list_authority_ok _ _ _ _ _ _ _ Hw Hre Hauth Hq Hlim).
    + fold s. cbn. by rewrite <- list_fmap_compose.
    + intros c' ->. destruct (Hcur c' eq_refl) as (r & Hr & ->). apply elem_of_query_tasks in Hr as [[ref Hr] _]. eauto.
  - intros t. rewrite list_elem_of_fmap. split.
    + intros (r & -> & [[ref Hr] [Hx Hm]%filter_matches]%elem_of_query_tasks). split_and!; [done..|]. exists r.
      split; [|done]. by rewrite (wr_ref _ _ (wt_record _ _ _ (wf_tasks _ Hw _ _ Hr))).
    + intros (Hx & Hm & r & Hr & <-). exists r. split; [done|]. apply elem_of_query_tasks.
      split; [eauto|]. by apply filter_matches.
  - eapply (NoDup_fmap_1 (fun t => (Task_UpdatedAt t, place (Task_Ref t)))).
    rewrite <- list_fmap_compose. by apply (query_tasks_keys s authority request).
  - pose proof (query_tasks_sorted s authority request) as Hsort. unfold ascending in Hsort.
    induction Hsort as [|r l Hs IH Hf]; [constructor|]. rewrite fmap_cons. constructor; [done|].
    rewrite Forall_fmap. eapply Forall_impl; [exact Hf|]. cbn. intros r' Hlt. rewrite updated_less in Hlt.
    unfold latest_first, lex, updated_key in Hlt. cbn in Hlt. case_bool_decide as E; [lia|]. zbool. lia.
Qed.

(** One page of ReadEvents. *)
Definition events_page agent ctx ref limit (w : W) (after : Z) : option (list Event * Z * bool) :=
  match ReadEvents agent ctx ref {| PageRequest_After := after; PageRequest_Limit := limit |} w with
  | Ok page => Some (EventPage_Items page, EventPage_Next page, EventPage_HasMore page)
  | Err _ => None
  end.

(** C14: ReadEvents replays the history of a Task. A client that starts after
    any event it has seen and follows the cursors gets the rest of the history
    without a gap or a repetition, event [i] at place [i], up to the Task's
    event count; no call fails; and a cursor past the end is refused. *)
Theorem read_events_complete agent ctx ref limit (w : W) r :
  agent_reachable w -> reaches agent ctx w -> tasks (snapshot w) !! ref = Some r -> (0 <= limit <= MaxPageSize)%Z ->
  exists l,
    Z.of_nat (length l) = Task_EventCount (TaskRecord_Task r) /\
    (forall i e, l !! i = Some e ->
      history (snapshot w) ref !! (Z.of_nat i + 1)%Z = Some {| EventRecord_Event := e |}) /\
    (forall fuel n, (n <= length l)%nat -> (length l - n < fuel)%nat ->
      all_after (events_page agent ctx ref limit w) fuel (Z.of_nat n) = Some (drop n l)) /\
    (forall after, (Z.of_nat (length l) < after)%Z ->
      ReadEvents agent ctx ref {| PageRequest_After := after; PageRequest_Limit := limit |} w = Err ErrInvalidArgument).
Proof.
  intros Hw%reachable_WF Hre Hr Hlim. destruct (reaches_checks _ _ _ Hre) as [Hc Ha].
  destruct (normalize_limit _ Hlim) as [Hn Hpos]. set (s := snapshot w) in *.
  set (count := Task_EventCount (TaskRecord_Task r)).
  destruct (wt_record _ _ _ (wf_tasks _ Hw _ _ Hr)).
  assert (validateTaskRef ref = Ok tt) as Href
    by (apply validateTaskRef_Ok; rewrite <- wr_ref; apply (vt_ref _ (vr_task _ wr_valid))).
  assert (0 <= count <= MaxInt64)%Z as Hcount.
  { unfold count. rewrite (vt_events _ (vr_task _ wr_valid)). pose proof (vt_revision _ (vr_task _ wr_valid)). lia. }
  set (all := events_from s ref 1 count).
  assert (Z.of_nat (length all) = count) as Hlen
    by (unfold all; rewrite (events_from_length s ref r) by (done || lia); lia).
  assert (forall n, (n <= length all)%nat -> events_from s ref (Z.of_nat n + 1) (count - Z.of_nat n) = drop n all) as Hdrop.
  { intros n Hle. apply list_eq. intros i. rewrite lookup_drop. unfold all.
    destruct (decide (n + i < length all)%nat).
    - rewrite !(events_from_lookup s ref r) by (done || lia). f_equal. lia.
    - rewrite !lookup_ge_None_2; [done|rewrite (events_from_length s ref r) by (done || lia); lia..]. }
  exists (EventRecord_Event <$> all). rewrite length_fmap. split_and!; [done| | |].
  - intros i e. rewrite list_lookup_fmap, fmap_Some. intros ([e'] & Hi & ->). pose proof (lookup_lt_Some _ _ _ Hi).
    unfold all in Hi. rewrite (events_from_lookup s ref r) in Hi by (done || lia).
    by replace (Z.of_nat i + 1)%Z with (1 + Z.of_nat i)%Z by lia.
  - intros fuel n Hle Hf. apply runs_complete; rewrite ?length_fmap; [|done..]. clear n Hle Hf fuel. intros n Hle.
    unfold events_page, ReadEvents, normalizePageRequest. cbn [PageRequest_After PageRequest_Limit].
    rewrite Hc, Href. cbn [obind]. rewrite refuse_if_false by (rewrite Z.gtb_ltb; apply Z.ltb_ge; lia).
    cbn [obind]. rewrite Hn, Ha. cbn [obind]. rewrite (read_view _ _ _ _ Hre). fold s.
    rewrite (read_events_view s ref r) by (done || lia). rewrite Hdrop by done. eexists. split; [done|].
    set (k := Z.to_nat (page_limit limit)). exists (k `min` (length all - n))%nat. split_and!.
    + cbn [EventPage_Items EventPage_Next EventPage_HasMore]. rewrite <- fmap_drop, <- fmap_take. f_equal; [f_equal|].
      * f_equal. destruct (decide (k <= length all - n)%nat).
        -- by rewrite Nat.min_l.
        -- rewrite Nat.min_r by lia. rewrite !take_ge; [done|rewrite length_drop; lia..].
      * rewrite length_take, length_drop. lia.
      * rewrite length_drop, length_fmap.
        apply Bool.eq_iff_eq_true. rewrite !Nat.ltb_lt. lia.
    + rewrite length_fmap. lia.
    + rewrite length_fmap. lia.
  - intros after Hgt. unfold ReadEvents, normalizePageRequest. cbn [PageRequest_After PageRequest_Limit].
    rewrite Hc, Href. cbn [obind]. destruct (after >? MaxInt64)%Z; [done|]. cbn [refuse_if obind].
    rewrite Hn, Ha. cbn [obind]. rewrite (read_view _ _ _ _ Hre). fold s.
    unfold readEventsView, loadTaskFromStore. rewrite (wf_load _ _ _ Hw Hr). cbn [obind].
    rewrite Z.gtb_ltb, (proj2 (Z.ltb_lt _ _)) by lia. done.
Qed.
End Reads.
