(* ===== verification/AgentMessages.v ===== *)
(** * The conversation of a Task

    ListMessages reads the messages of a Task under a byte budget: the pages
    are short when messages are long, and still lose nothing. *)

From S2P Require Import Prelude Paging GoText GoTime GoJson AgentTypes AgentCodec Framework Protect.
From S2P Require Import AgentStore MemoryStore AgentCore AgentCommands AgentLease AgentArtifact AgentQuery.
From S2P Require Import AgentFacts AgentReplay MemoryFacts MemoryForward.
From S2P Require Import AgentMachine AgentRefinement AgentInvariant AgentPreserve AgentHistory AgentVerdict AgentPages.

Local Open Scope string_scope.

(* ------------------------------------------------------------------ *)
(** ** The byte budget *)

(** The budget cuts the list, and leaves at least one record when every record
    fits alone. *)
Lemma fit_budget_ok max l :
  (forall m, m ∈ l -> (0 < len (MessageRecord_EncodedParts m) <= max)%Z) ->
  forall total first, exists k, ReadOp.fit_budget max total first l = Ok (take k l) /\ (k <= length l)%nat /\
    (total = 0%Z -> l <> [] -> (0 < k)%nat).
Proof.
  induction l as [|m l IH]; intros Hall total first.
  { exists O. split_and!; [done|cbn; lia|done]. }
  cbn [ReadOp.fit_budget]. destruct (Hall m) as [Hp Hm]; [by left|].
  rewrite Z.gtb_ltb, (proj2 (Z.ltb_ge _ _)) by done. rewrite Z.gtb_ltb.
  destruct (Z.ltb_spec (max - len (MessageRecord_EncodedParts m)) total) as [Hlt|Hge].
  - exists O. split_and!; [done|lia|intros ->; lia].
  - destruct (IH ltac:(intros x Hx; apply Hall; by right) (total + len (MessageRecord_EncodedParts m))%Z false)
      as (k & -> & Hk & _).
    exists (Datatypes.S k). cbn. split_and!; [done|lia|lia].
Qed.

(* ------------------------------------------------------------------ *)
(** ** The messages of a Task, in order *)

Definition by_sequence (x y : StoreMessageRecord) : bool := (MessageRecord_Sequence x <? MessageRecord_Sequence y)%Z.

Definition task_messages (s : memoryAgentState) (ref : TaskRef) : list StoreMessageRecord :=
  sort_slice by_sequence (ReadOp.select (fun m => MessageRecord_Task m =?= ref) (messages s)).

Lemma elem_of_task_messages s ref m :
  m ∈ task_messages s ref <-> (exists k, messages s !! k = Some m) /\ MessageRecord_Task m = ref.
Proof. unfold task_messages. by rewrite sort_slice_perm, elem_of_select, bool_decide_eq_true. Qed.

Lemma task_messages_keys s ref : WF s -> NoDup (MessageRecord_Sequence <$> task_messages s ref).
Proof.
  intros Hwf. unfold task_messages. rewrite sort_slice_perm. apply NoDup_select.
  intros k1 k2 m1 m2 H1 H2 E1 E2 Hs. decided. apply (wf_sequences _ Hwf _ _ _ _ H1 H2); congruence.
Qed.

Lemma ascending_fmap {A B} (f : A -> B) (la : A -> A -> bool) (lb : B -> B -> bool) l :
  (forall x y, la x y = lb (f x) (f y)) -> ascending la l -> ascending lb (f <$> l).
Proof.
  intros Hf. unfold ascending. induction 1 as [|x l Hs IH Hall]; [constructor|]. cbn. constructor; [done|].
  rewrite Forall_fmap. eapply Forall_impl; [exact Hall|]. cbn. intros y. by rewrite Hf.
Qed.

Lemma task_messages_numbers s ref r :
  WF s -> tasks s !! ref = Some r ->
  MessageRecord_Sequence <$> task_messages s ref = seqZ 1 (Task_MessageCount (TaskRecord_Task r)).
Proof.
  intros Hwf Hr. apply (ascending_unique (fun n => n) Z.ltb strict_total_Zlt Z.ltb (fun _ _ => eq_refl)).
  - done.
  - apply (ascending_fmap _ by_sequence); [done|].
    apply (sort_slice_ascending MessageRecord_Sequence Z.ltb strict_total_Zlt by_sequence (fun _ _ => eq_refl)).
  - apply ascending_seqZ.
  - apply NoDup_Permutation; [by apply task_messages_keys|apply NoDup_seqZ|]. intros n.
    rewrite elem_of_seqZ, list_elem_of_fmap.
    pose proof (wt_conversation _ _ _ (wf_tasks _ Hwf _ _ Hr) n) as Hc. split.
    + intros (m & -> & [[k Hm] Ht]%elem_of_task_messages).
      assert (1 <= MessageRecord_Sequence m <= Task_MessageCount (TaskRecord_Task r))%Z by (apply Hc; eauto). lia.
    + intros Hn. destruct (proj2 Hc) as (k & m & Hm & Ht & Hs); [lia|]. exists m. split; [done|].
      apply elem_of_task_messages. eauto.
Qed.

Lemma filter_numbered (l : list StoreMessageRecord) : forall from n,
  (forall i m, l !! i = Some m -> MessageRecord_Sequence m = (from + Z.of_nat i)%Z) ->
  List.filter (fun m => MessageRecord_Sequence m >? from - 1 + Z.of_nat n)%Z l = drop n l.
Proof.
  induction l as [|m l IH]; intros from n Hl; [by destruct n|]. cbn [List.filter].
  pose proof (Hl O m eq_refl) as Hm.
  assert (forall i x, l !! i = Some x -> MessageRecord_Sequence x = (from + 1 + Z.of_nat i)%Z) as Hl'.
  { intros i x Hx. rewrite (Hl (Datatypes.S i) x Hx). lia. }
  rewrite Z.gtb_ltb. destruct n as [|n].
  - rewrite (proj2 (Z.ltb_lt _ _)) by lia. cbn. f_equal. apply filter_all. intros x [i Hx]%list_elem_of_lookup.
    rewrite (Hl' _ _ Hx), Z.gtb_ltb. apply Z.ltb_lt. lia.
  - rewrite (proj2 (Z.ltb_ge _ _)) by lia. cbn [drop].
    rewrite <- (IH (from + 1)%Z n Hl'). apply filter_ext_in. intros x _. f_equal. lia.
Qed.

Section Conversation.
Context (s : memoryAgentState) (ref : TaskRef) (r : StoreTaskRecord) (Hwf : WF s) (Hr : tasks s !! ref = Some r).
Local Abbreviation count := (Task_MessageCount (TaskRecord_Task r)).
Local Abbreviation all := (task_messages s ref).

Lemma all_length : length all = Z.to_nat count.
Proof.
  pose proof (f_equal length (task_messages_numbers s ref r Hwf Hr)) as E. rewrite length_fmap, length_seqZ in E. done.
Qed.

Lemma all_lookup i m : all !! i = Some m -> MessageRecord_Sequence m = (1 + Z.of_nat i)%Z.
Proof.
  intros Hm. pose proof (task_messages_numbers s ref r Hwf Hr) as E.
  assert ((MessageRecord_Sequence <$> all) !! i = Some (MessageRecord_Sequence m)) as H by (by rewrite list_lookup_fmap, Hm).
  rewrite E in H. apply lookup_seqZ in H. lia.
Qed.

(** Every stored message fits a page alone. *)
Lemma message_fits m : m ∈ all -> (0 < len (MessageRecord_EncodedParts m) <= maxPageBytes)%Z.
Proof.
  intros [[k Hm] Ht]%elem_of_task_messages. destruct (wm_content _ _ _ (wf_messages _ Hwf _ _ Hm)) as (input & _ & _ & Hp).
  destruct Hp as (agent & ctx & Hp). unfold prepareMessageContent in Hp.
  apply obind_Ok in Hp as (v & _ & Hp). apply obind_Ok in Hp as ([] & Hg & Hp). injection Hp as <- _.
  apply refuse_if_Ok, orb_false_iff in Hg as [H0 H1]. rewrite Z.gtb_ltb in H1. zbool.
  pose proof (len_nonneg v). lia.
Qed.

Lemma scan_messages n limit :
  (n <= length all)%nat -> (0 < limit <= MaxPageSize)%Z ->
  exists k, ScanMessages {| MessageScan_Task := ref; MessageScan_After := Z.of_nat n; MessageScan_Limit := limit + 1;
              MessageScan_ReadLimit := {| ReadLimit_MaxBytes := maxPageBytes |} |} s = Ok (take k (drop n all)) /\
    (n + k <= length all)%nat /\ ((n < length all)%nat -> (0 < k)%nat).
Proof.
  intros Hn Hl. primitive. unfold ReadOp.ScanMessages. primitive. rewrite scan_limit_ok by done. cbn [obind].
  change (memoryAgentReadLimit StoreRecordMessage {| ReadLimit_MaxBytes := maxPageBytes |}) with (Ok tt : res unit).
  cbn [obind]. rewrite select_andb.
  rewrite (sort_filter MessageRecord_Sequence Z.ltb strict_total_Zlt _ (fun _ _ => eq_refl)).
  2:{ intros x y Hx Hy E. eapply NoDup_key_inj; [apply (task_messages_keys s ref Hwf)|..|exact E];
        unfold task_messages; by rewrite sort_slice_perm. }
  change (sort_slice _ (ReadOp.select (fun m => MessageRecord_Task m =?= ref) (messages s))) with all.
  rewrite (filter_numbered all 1 n all_lookup : List.filter (fun m => MessageRecord_Sequence m >? Z.of_nat n)%Z all = _).
  destruct (fit_budget_ok maxPageBytes (truncate (limit + 1) (drop n all))) with (total := 0%Z) (first := true)
    as (k & -> & Hk & Hpos).
  { intros m Hm. apply message_fits. unfold truncate in Hm. destruct (_ >? _)%Z.
    - rewrite <- (take_drop n all). apply elem_of_app. right.
      rewrite <- (take_drop (Z.to_nat (limit + 1)) (drop n all)). apply elem_of_app. by left.
    - rewrite <- (take_drop n all). apply elem_of_app. by right. }
  rewrite truncate_length, length_drop in Hk by lia.
  exists k. split_and!; [|lia|].
  - f_equal. unfold truncate. destruct (_ >? _)%Z; [|done]. rewrite take_take. f_equal. lia.
  - intros Hlt. apply Hpos; [done|]. intros E. apply (f_equal length) in E.
    rewrite truncate_length, length_drop in E by lia. cbn in E. lia.
Qed.

(** The loop over the records takes as many as there is room for. *)
Lemma messageRun_ok l : forall room expected,
  (forall i m, l !! i = Some m -> MessageRecord_Task m = ref /\ MessageRecord_Sequence m = (expected + Z.of_nat i)%Z) ->
  messageRun ref room expected l = Ok (take room l, (room <? length l)%nat).
Proof.
  induction l as [|m l IH]; intros [|room] expected Hl; try done. cbn [messageRun].
  destruct (Hl O m eq_refl) as [Ht Hs]. rewrite Z.add_0_r in Hs.
  rewrite Ht, Hs, Z.eqb_refl, bool_decide_eq_true_2 by done. cbn [negb orb refuse_if obind].
  rewrite IH; [done|]. intros i m' Hi. destruct (Hl (Datatypes.S i) m' Hi). split; [done|lia].
Qed.

Lemma list_messages_view n limit :
  (n <= length all)%nat -> (0 < limit <= MaxPageSize)%Z ->
  exists p, listMessagesView ref (Z.of_nat n) limit s = Ok p /\ run_page all n p.
Proof.
  intros Hn Hl. pose proof all_length as Hlen.
  pose proof (wr_messages _ _ (wt_record _ _ _ (wf_tasks _ Hwf _ _ Hr))) as Hpos.
  unfold listMessagesView, loadTaskFromStore. rewrite (wf_load _ _ _ Hwf Hr). cbn [obind].
  rewrite refuse_if_false by (rewrite Z.gtb_ltb; apply Z.ltb_ge; lia). cbn [obind].
  destruct (scan_messages n limit Hn Hl) as (k & -> & Hk & Hkpos). cbn [on_error obind].
  rewrite messageRun_ok; cycle 1.
  { intros i m [Hi Hlt]%lookup_take_Some. rewrite lookup_drop in Hi. split.
    - apply (elem_of_task_messages s). by eapply list_elem_of_lookup_2.
    - rewrite (all_lookup _ _ Hi). lia. }
  cbn [obind]. rewrite take_take. set (k' := Z.to_nat limit `min` k).
  assert (k' <= length (drop n all))%nat as Hk' by (rewrite length_drop; unfold k'; lia).
  assert (match last (take k' (drop n all)) with Some record => MessageRecord_Sequence record | None => Z.of_nat n end
    = Z.of_nat (n + k')) as ->.
  { rewrite last_lookup, length_take_le by done. clearbody k'. destruct k' as [|k'']; [rewrite take_0, lookup_nil; lia|].
    cbn [Nat.pred]. rewrite lookup_take_lt by lia. rewrite lookup_drop.
    destruct (all !! (n + k'')%nat) as [m|] eqn:Hm; [rewrite (all_lookup _ _ Hm); lia|].
    apply lookup_ge_None in Hm. rewrite length_drop in Hk'. lia. }
  rewrite length_drop in Hk'. rewrite refuse_if_false by (rewrite Z.gtb_ltb; apply Z.ltb_ge; lia). cbn [obind].
  assert (length (take k' (drop n all)) = k') as Hsel by (rewrite length_take_le; [done|rewrite length_drop; lia]).
  destruct (Z.ltb_spec (Z.of_nat (n + k')) count) as [Hlt|Hge].
  - rewrite refuse_if_false by (rewrite Hsel; apply Nat.eqb_neq; lia). cbn [obind]. eexists. split; [done|].
    exists k'. split_and!; [|lia|lia]. do 2 f_equal. symmetry. apply Nat.ltb_lt. lia.
  - eexists. split; [done|]. exists k'. split_and!; [|lia|lia]. f_equal.
    apply Bool.eq_iff_eq_true. rewrite !Nat.ltb_lt, length_take_le by (rewrite length_drop; lia). lia.
Qed.
End Conversation.

Section Reads.
Context {W : Type} `{HS : Store W memoryAgentState} `{HC : !StoreContract W memoryAgentState}.

(** One page of ListMessages. *)
Definition messages_page agent ctx ref limit (w : W) (after : Z) : option (list Message * Z * bool) :=
  match ListMessages agent ctx ref {| PageRequest_After := after; PageRequest_Limit := limit |} w with
  | Ok page => Some (MessagePage_Items page, MessagePage_Next page, MessagePage_HasMore page)
  | Err _ => None
  end.

(** The opened message of a record. *)
Definition opens agent ctx (m : StoreMessageRecord) (message : Message) : Prop :=
  messageFromStoreRecord agent ctx m = Ok message.

Lemma openMessages_ok agent ctx records opened :
  Forall2 (opens agent ctx) records opened -> openMessages agent ctx records = Ok opened.
Proof. induction 1 as [|m x ms xs Hm _ IH]; cbn; [done|]. by rewrite Hm, IH. Qed.

Lemma opened_all agent ctx (l : list StoreMessageRecord) :
  (forall m, m ∈ l -> exists x, opens agent ctx m x) -> exists xs, Forall2 (opens agent ctx) l xs.
Proof.
  induction l as [|m l IH]; intros Hall; [by exists []|].
  destruct (Hall m) as [x Hx]; [by left|]. destruct IH as [xs Hxs]; [intros y Hy; apply Hall; by right|].
  exists (x :: xs). by constructor.
Qed.

(** C15: ListMessages reads the whole conversation. When the Agent can open the
    stored messages of a Task, a client that starts after any message it has
    seen and follows the cursors gets the rest of the conversation, message
    [i] at place [i], up to the Task's message count, however small the byte
    budget makes the pages; no call fails. *)
Theorem list_messages_complete agent ctx ref limit (w : W) r :
  agent_reachable w -> reaches agent ctx w -> tasks (snapshot w) !! ref = Some r -> (0 <= limit <= MaxPageSize)%Z ->
  (forall k m, messages (snapshot w) !! k = Some m -> MessageRecord_Task m = ref -> exists x, opens agent ctx m x) ->
  exists l,
    Z.of_nat (length l) = Task_MessageCount (TaskRecord_Task r) /\
    (forall i x, l !! i = Some x -> exists k m, messages (snapshot w) !! k = Some m /\ MessageRecord_Task m = ref /\
      MessageRecord_Sequence m = (Z.of_nat i + 1)%Z /\ opens agent ctx m x) /\
    (forall fuel n, (n <= length l)%nat -> (length l - n < fuel)%nat ->
      all_after (messages_page agent ctx ref limit w) fuel (Z.of_nat n) = Some (drop n l)).
Proof.
  intros Hw%reachable_WF Hre Hr Hlim Hopen. destruct (reaches_checks _ _ _ Hre) as [Hc Ha].
  destruct (normalize_limit _ Hlim) as [Hn Hpos]. set (s := snapshot w) in *.
  destruct (opened_all agent ctx (task_messages s ref)) as [l Hl].
  { intros m [[k Hm] Ht]%elem_of_task_messages. eauto. }
  pose proof (Forall2_length _ _ _ Hl) as Hlen. pose proof (all_length s ref r Hw Hr) as Hcount.
  destruct (wt_record _ _ _ (wf_tasks _ Hw _ _ Hr)).
  exists l. split_and!; [lia| |].
  - intros i x Hx. destruct (Forall2_lookup_r _ _ _ _ _ Hl Hx) as (m & Hm & Hox).
    assert (m ∈ task_messages s ref) as [[k Hk] Ht]%elem_of_task_messages by (by eapply list_elem_of_lookup_2).
    exists k, m. split_and!; [done..| |done]. rewrite (all_lookup s ref r Hw Hr _ _ Hm). lia.
  - intros fuel n Hle Hf. apply runs_complete; [|done..]. clear n Hle Hf fuel. intros n Hle.
    assert (validateTaskRef ref = Ok tt) as Href
      by (apply validateTaskRef_Ok; rewrite <- wr_ref; apply (vt_ref _ (vr_task _ wr_valid))).
    assert (Task_MessageCount (TaskRecord_Task r) <= MaxInt64)%Z.
    { pose proof (vt_revision _ (vr_task _ wr_valid)). pose proof (vt_messages _ (vr_task _ wr_valid)). lia. }
    unfold messages_page, ListMessages, normalizePageRequest. cbn [PageRequest_After PageRequest_Limit].
    rewrite Hc, Href. cbn [obind]. rewrite refuse_if_false by (rewrite Z.gtb_ltb; apply Z.ltb_ge; lia).
    cbn [obind]. rewrite Hn, Ha. cbn [obind]. rewrite (read_view _ _ _ _ Hre). fold s.
    destruct (list_messages_view s ref r Hw Hr n (page_limit limit)) as (p & -> & k & -> & Hk & Hkpos); [lia|done|].
    cbn [obind]. rewrite (openMessages_ok _ _ _ (take k (drop n l))) by (by apply Forall2_take, Forall2_drop).
    cbn [obind]. eexists. split; [done|]. exists k. rewrite <- Hlen. split_and!; [done|lia|lia].
Qed.
End Reads.
