(* ===== verification/AgentLeaseList.v ===== *)
(** * The leases a worker holds

    ListLeases and GetLease read the current leases: in a well-formed state
    the lease pointer of a Task and the lease history agree, so the checks on
    what the store returns never fail. *)

From S2P Require Import Prelude Paging GoText GoTime GoJson AgentTypes AgentCodec Framework Protect.
From S2P Require Import AgentStore MemoryStore AgentCore AgentCommands AgentLease AgentArtifact AgentQuery.
From S2P Require Import AgentFacts AgentReplay MemoryFacts MemoryForward.
From S2P Require Import AgentMachine AgentRefinement AgentInvariant AgentPreserve AgentHistory AgentVerdict.
From S2P Require Import AgentLeaseVerdict AgentPages.

Local Open Scope string_scope.

(** The assignment of a held Task. *)
Definition held_assignment (r : StoreTaskRecord) (g : StoreLeaseGrantRecord) : LeaseAssignment :=
  {| LeaseAssignment_Grant := GrantRecord_Grant g; LeaseAssignment_Task := TaskRecord_Task r;
     LeaseAssignment_GrantedAt := GrantRecord_GrantedAt g |}.

(** A worker holds a Task of an authority: its lease names the worker, and the
    grant with the current fence is the assignment. *)
Record holds (s : memoryAgentState) (authority : AuthorityID) (worker : WorkerID) (r : StoreTaskRecord)
    (g : StoreLeaseGrantRecord) : Prop := {
  hd_stored : tasks s !! Task_Ref (TaskRecord_Task r) = Some r;
  hd_authority : task_authority (Task_Ref (TaskRecord_Task r)) = authority;
  hd_owner : Lease_Owner (TaskRecord_Lease r) = worker;
  hd_grant : grant_at (Task_Ref (TaskRecord_Task r)) (Lease_Fence (TaskRecord_Lease r)) (leaseGrants s) = Some g
}.

Lemma holds_facts s authority worker r g :
  WF s -> worker <> "" -> holds s authority worker r g ->
  GrantRecord_Grant g = {| LeaseGrant_Task := Task_Ref (TaskRecord_Task r); LeaseGrant_Worker := worker;
                           LeaseGrant_Fence := Lease_Fence (TaskRecord_Lease r) |} /\
  validateLeaseGrant (GrantRecord_Grant g) = Ok tt /\
  validateLeaseAssignment (held_assignment r g) = Ok tt /\
  in_int64 (GrantRecord_GrantedAt g) /\ (Task_CreatedAt (TaskRecord_Task r) <= GrantRecord_GrantedAt g)%Z.
Proof.
  intros Hwf Hne [Hr Ha Ho Hg]. destruct (wf_tasks _ Hwf _ _ Hr) as [[_ Hv Hcr _ _ _ Hfence _] _ _ Hl _ _].
  destruct (wl_grant _ _ _ _ Hl _ _ Hg) as [Ht Hf Hw Hti Hc].
  destruct (wl_owner _ _ _ _ Hl) as (g' & Hg' & Hworker); [congruence|]. rewrite Hg in Hg'. injection Hg' as <-.
  destruct (vr_owner _ Hv) as [_ Hterm]; [congruence|].
  assert (1 <= Lease_Fence (TaskRecord_Lease r) <= Lease_Fence (TaskRecord_Lease r))%Z as Hpos
    by (apply (wl_domain _ _ _ _ Hl); eauto).
  assert (validateLeaseGrant (GrantRecord_Grant g) = Ok tt) as Hgv.
  { apply validateLeaseGrant_facts; [rewrite Ht; apply (vt_ref _ (vr_task _ Hv))|done|rewrite Hf; lia]. }
  split_and!; try done.
  - destruct (GrantRecord_Grant g). cbn in *. congruence.
  - unfold validateLeaseAssignment, held_assignment.
    cbn [LeaseAssignment_Grant LeaseAssignment_Task LeaseAssignment_GrantedAt]. rewrite Hgv. cbn [replace_error obind].
    rewrite check_of_valid_task by apply (vr_task _ Hv). rewrite Ht, Hterm, bool_decide_eq_true_2 by done.
    unfold Before. rewrite (proj2 (Z.ltb_ge _ _)) by done.
    assert (validLeaseTimestamp (GrantRecord_GrantedAt g) = true) as -> by (apply store_time_int64; done). done.
Qed.

(** Every owned Task is held. *)
Lemma owned_holds s ref r worker :
  WF s -> tasks s !! ref = Some r -> Lease_Owner (TaskRecord_Lease r) = worker -> worker <> "" ->
  exists g, holds s (task_authority ref) worker r g.
Proof.
  intros Hwf Hr Ho Hne. destruct (wf_tasks _ Hwf _ _ Hr) as [[Href _ _ _ _ _ _ _] _ _ Hl _ _].
  destruct (wl_owner _ _ _ _ Hl) as (g & Hg & _); [congruence|]. exists g. rewrite <- Href in *. by split.
Qed.

(* ------------------------------------------------------------------ *)
(** ** The listing *)

(** What a Task adds to the listing of a worker. *)
Definition listed_lease (s : memoryAgentState) (authority : AuthorityID) (worker : WorkerID)
    (entry : TaskRef * StoreTaskRecord) : option LeaseAssignment :=
  let '(ref, r) := entry in
  if bool_decide (task_authority ref = authority /\ Lease_Owner (TaskRecord_Lease r) = worker)
  then held_assignment r <$> grant_at ref (Lease_Fence (TaskRecord_Lease r)) (leaseGrants s)
  else None.

(** The assignments a worker holds in an authority, oldest grant first. *)
Definition worker_leases (s : memoryAgentState) (authority : AuthorityID) (worker : WorkerID) : list LeaseAssignment :=
  sort_slice memoryAgentLeaseLess (omap (listed_lease s authority worker) (map_to_list (tasks s))).

Lemma elem_of_worker_leases s authority worker a :
  WF s ->
  a ∈ worker_leases s authority worker <-> exists r g, holds s authority worker r g /\ a = held_assignment r g.
Proof.
  intros Hwf. unfold worker_leases. rewrite sort_slice_perm, list_elem_of_omap. split.
  - intros ([ref r] & Hr%elem_of_map_to_list & Ha). cbn in Ha. case_bool_decide as E; [|done].
    destruct E as [E1 E2]. apply fmap_Some in Ha as (g & Hg & ->). exists r, g. split; [|done].
    pose proof (wr_ref _ _ (wt_record _ _ _ (wf_tasks _ Hwf _ _ Hr))) as Href. rewrite <- Href in *. by split.
  - intros (r & g & [Hr Ha Ho Hg] & ->). exists (Task_Ref (TaskRecord_Task r), r). split; [by apply elem_of_map_to_list|].
    cbn. by rewrite bool_decide_eq_true_2, Hg.
Qed.

Lemma worker_leases_sorted s authority worker : ascending memoryAgentLeaseLess (worker_leases s authority worker).
Proof. apply (sort_slice_ascending lease_key_of lease_first strict_total_lease _ granted_less). Qed.

Lemma NoDup_omap_keys {A B K} (f : A -> option B) (key : B -> K) (l : list A) :
  NoDup l -> (forall x y a b, x ∈ l -> y ∈ l -> f x = Some a -> f y = Some b -> key a = key b -> x = y) ->
  NoDup (key <$> omap f l).
Proof.
  induction 1 as [|x l Hx Hnd IH]; intros Hinj; [constructor|].
  assert (NoDup (key <$> omap f l)) as IHl.
  { apply IH. intros y z a b Hy Hz. apply Hinj; by right. }
  cbn. destruct (f x) as [a|] eqn:Ef; [|done]. cbn. apply NoDup_cons. split; [|done].
  intros Ha. apply list_elem_of_fmap in Ha as (b & Hk & Hb). apply list_elem_of_omap in Hb as (y & Hy & Hf).
  apply Hx. rewrite (Hinj x y a b); try done; [by left|by right].
Qed.

Lemma worker_leases_keys s authority worker : WF s -> NoDup (lease_key_of <$> worker_leases s authority worker).
Proof.
  intros Hwf. unfold worker_leases. rewrite sort_slice_perm. apply NoDup_omap_keys; [apply NoDup_map_to_list|].
  intros [ref1 r1] [ref2 r2] a b H1%elem_of_map_to_list H2%elem_of_map_to_list Ha Hb Hk. cbn in Ha, Hb.
  case_bool_decide as E1; [|done]. case_bool_decide as E2; [|done]. destruct E1 as [A1 _], E2 as [A2 _].
  apply fmap_Some in Ha as (g1 & _ & ->), Hb as (g2 & _ & ->).
  assert (ref1 = ref2) as ->.
  { apply (same_place s ref1 ref2 r1 r2); try done; [congruence|].
    unfold lease_key_of, held_assignment in Hk. cbn [LeaseAssignment_Task] in Hk. congruence. }
  congruence.
Qed.

Lemma collect_filter {A B} (f : A -> res (list B)) (g : A -> option B) (p : B -> bool) (l : list A) :
  (forall x, x ∈ l -> f x = Ok (List.filter p (option_list (g x)))) ->
  ReadOp.collect f l = Ok (List.filter p (omap g l)).
Proof.
  induction l as [|x l IH]; intros Hall; [done|]. cbn [ReadOp.collect]. rewrite Hall by left. cbn [obind].
  rewrite IH by (intros y Hy; apply Hall; by right). cbn. destruct (g x) as [b|]; cbn; [|done]. by destruct (p b).
Qed.

Lemma scan_lease_ok s authority worker c limit ref r :
  WF s -> worker <> "" -> tasks s !! ref = Some r ->
  ReadOp.scan_lease (live s) {| LeaseScan_Authority := authority; LeaseScan_Worker := worker; LeaseScan_After := c;
                                LeaseScan_Limit := limit |} (ref, r) =
    Ok (List.filter (fun a => memoryAgentLeaseAfterCursor a c) (option_list (listed_lease s authority worker (ref, r)))).
Proof.
  intros Hwf Hne Hr. unfold ReadOp.scan_lease, listed_lease. cbn [LeaseScan_Authority LeaseScan_Worker LeaseScan_After].
  destruct (decide (task_authority ref = authority)) as [Ha|Ha].
  2:{ rewrite (bool_decide_eq_false_2 (_ /\ _)) by (by intros []).
      unfold task_authority in Ha. by rewrite bool_decide_eq_false_2. }
  destruct (decide (Lease_Owner (TaskRecord_Lease r) = worker)) as [Ho|Ho].
  2:{ rewrite (bool_decide_eq_false_2 (_ /\ _)) by (by intros []). rewrite (bool_decide_eq_false_2 (_ = worker)) by done.
      by rewrite orb_true_r. }
  rewrite (bool_decide_eq_true_2 (_ /\ _)) by done. unfold task_authority in Ha. rewrite !bool_decide_eq_true_2 by done.
  cbn [negb orb]. destruct (owned_holds s ref r worker Hwf Hr Ho Hne) as [g Hh].
  pose proof (holds_facts _ _ _ _ _ Hwf Hne Hh) as (Hg & _). destruct Hh as [_ _ _ Hg'].
  rewrite (wr_ref _ _ (wt_record _ _ _ (wf_tasks _ Hwf _ _ Hr))) in Hg'.
  change (leaseGrants (unit_state (live s)) !!
    {| LeaseKey_task := ref; LeaseKey_fence := Lease_Fence (TaskRecord_Lease r) |})
    with (grant_at ref (Lease_Fence (TaskRecord_Lease r)) (leaseGrants s)).
  rewrite Hg', Hg. cbn [LeaseGrant_Worker]. rewrite bool_decide_eq_true_2 by done. cbn [negb refuse_if obind].
  cbn [fmap option_fmap option_map option_list List.filter]. unfold held_assignment. rewrite Hg.
  cbn. by destruct (memoryAgentLeaseAfterCursor _ c).
Qed.

Lemma scan_leases_ok s authority worker c limit :
  WF s -> worker <> "" -> (0 < limit <= MaxPageSize)%Z ->
  ScanLeases {| LeaseScan_Authority := authority; LeaseScan_Worker := worker; LeaseScan_After := c;
                LeaseScan_Limit := limit + 1 |} s =
    Ok (truncate (limit + 1) (after_cursor lease_key_of lease_first granted_cursor c (worker_leases s authority worker))).
Proof.
  intros Hwf Hne Hl. primitive. unfold ReadOp.ScanLeases. primitive. rewrite scan_limit_ok by done. cbn [obind].
  rewrite (collect_filter _ (listed_lease s authority worker) (fun a => memoryAgentLeaseAfterCursor a c)).
  2:{ intros [ref r] Hr%elem_of_map_to_list. by apply scan_lease_ok. }
  cbn [obind]. do 2 f_equal. rewrite (sort_filter lease_key_of lease_first strict_total_lease _ granted_less).
  - fold (worker_leases s authority worker). destruct c as [c|]; cbn [after_cursor].
    + apply filter_ext_in. intros a _. apply after_granted.
    + by apply filter_all.
  - intros x y Hx Hy E. eapply NoDup_key_inj; [apply (worker_leases_keys s authority worker Hwf)|..|exact E];
      unfold worker_leases; by rewrite sort_slice_perm.
Qed.

(** What is listed passes the checks. *)
Lemma verify_held s authority worker r g :
  WF s -> worker <> "" -> holds s authority worker r g -> checkListedLease s authority worker (held_assignment r g) = Ok tt.
Proof.
  intros Hwf Hne Hh. destruct (holds_facts _ _ _ _ _ Hwf Hne Hh) as (Hg & Hgv & Hav & Hti & Hcr).
  destruct Hh as [Hr Ha Ho Hgr]. unfold checkListedLease. rewrite Hav. unfold task_authority in Ha.
  cbn [held_assignment LeaseAssignment_Grant LeaseAssignment_Task]. rewrite Hg. cbn [LeaseGrant_Task LeaseGrant_Worker LeaseGrant_Fence].
  rewrite !bool_decide_eq_true_2 by done. cbn [is_ok negb orb refuse_if obind].
  unfold verifyLeaseAssignmentFromStore, verifyLeaseGrantHistoryFromStore.
  cbn [held_assignment LeaseAssignment_Grant LeaseAssignment_GrantedAt]. rewrite Hgv, Hg. cbn [obind LeaseGrant_Task LeaseGrant_Fence].
  assert (LoadLeaseGrant (Task_Ref (TaskRecord_Task r)) (Lease_Fence (TaskRecord_Lease r)) s = Ok g) as ->.
  { apply LoadLeaseGrant_Ok. exact Hgr. }
  cbn [on_error obind]. rewrite Hg, bool_decide_eq_true_2, (int64_not_zero _ Hti) by done.
  cbn [negb orb refuse_if obind on_error]. unfold TimeEqual. rewrite Z.eqb_refl. cbn [negb refuse_if obind].
  rewrite (wf_load _ _ _ Hwf Hr). cbn [obind]. by rewrite Ho, !Z.eqb_refl, bool_decide_eq_true_2.
Qed.

Lemma check_all_ok {A} (f : A -> res unit) (l : list A) : (forall x, x ∈ l -> f x = Ok tt) -> check_all f l = Ok tt.
Proof.
  induction l as [|x l IH]; intros Hall; [done|]. cbn. rewrite Hall by left. cbn. apply IH. intros y Hy. apply Hall. by right.
Qed.

Lemma list_leases_view s authority worker c limit :
  WF s -> worker <> "" -> (0 < limit <= MaxPageSize)%Z ->
  let rest := after_cursor lease_key_of lease_first granted_cursor c (worker_leases s authority worker) in
  let page := cut leaseCursor (Z.to_nat limit) rest in
  listLeasesView authority worker c limit s =
    Ok {| LeasePage_Items := fst page; LeasePage_Next := snd page;
          LeasePage_HasMore := (Z.to_nat limit <? length rest)%nat |}.
Proof.
  intros Hwf Hne Hl rest page. unfold listLeasesView. rewrite scan_leases_ok by done. cbn [obind]. fold rest.
  rewrite truncate_more, truncate_cut by lia. rewrite check_all_ok; [done|]. intros a Ha.
  apply take_after_cursor, elem_of_worker_leases in Ha as (r & g & Hh & ->); [|done]. by apply verify_held.
Qed.

Section Reads.
Context {W : Type} `{HS : Store W memoryAgentState} `{HC : !StoreContract W memoryAgentState}.

(** One page of ListLeases. *)
Definition leases_page agent ctx authority worker limit (w : W) (c : option LeasePageCursor)
    : option (list LeaseAssignment * option LeasePageCursor) :=
  match ListLeases agent ctx authority worker {| LeasePageRequest_After := c; LeasePageRequest_Limit := limit |} w with
  | Ok page => Some (LeasePage_Items page, LeasePage_Next page)
  | Err _ => None
  end.

Lemma lease_cursor_ok s authority worker a :
  WF s -> worker <> "" -> a ∈ worker_leases s authority worker -> validateLeaseCursor (leaseCursor a) = Ok tt.
Proof.
  intros Hwf Hne Ha. apply elem_of_worker_leases in Ha as (r & g & Hh & ->); [|done].
  destruct (holds_facts _ _ _ _ _ Hwf Hne Hh) as (Hg & Hgv & _ & Hti & _). destruct Hh as [Hr _ _ _].
  pose proof (vt_ref _ (vr_task _ (wr_valid _ _ (wt_record _ _ _ (wf_tasks _ Hwf _ _ Hr))))) as Hst.
  unfold TaskRef_stable, WorkspaceRef_stable in Hst. rewrite !andb_true_iff in Hst. destruct Hst as [[_ H1] H2].
  unfold validateLeaseGrant in Hgv. apply obind_Ok in Hgv as (? & _ & Hgv). apply obind_Ok in Hgv as (? & _ & Hgv).
  apply refuse_if_Ok, orb_false_iff in Hgv as [F1 F2]. rewrite Hg in F1, F2. cbn [LeaseGrant_Fence] in F1, F2.
  unfold validateLeaseCursor, leaseCursor, held_assignment.
  cbn [LeasePageCursor_GrantedAt LeasePageCursor_Workspace LeasePageCursor_Task LeasePageCursor_Fence
       LeaseAssignment_Grant LeaseAssignment_GrantedAt]. rewrite Hg. cbn [LeaseGrant_Task LeaseGrant_Fence].
  rewrite F1, F2, !stable_ok, H1, H2.
  assert (validLeaseTimestamp (GrantRecord_GrantedAt g) = true) as -> by (apply store_time_int64; done). done.
Qed.

(** ListLeases lists every lease a worker holds. From any reachable store
    a client that follows the cursors gets the current assignment of every
    Task of the authority whose lease the worker owns, exactly once, the
    oldest grant first; no call fails. *)
Theorem list_leases_complete agent ctx authority worker limit (w : W) :
  agent_reachable w -> reaches agent ctx w -> match_stable authority = true -> match_stable worker = true ->
  (0 <= limit <= MaxPageSize)%Z ->
  exists l,
    (forall fuel, (length l < fuel)%nat ->
      all_pages (leases_page agent ctx authority worker limit w) fuel None = Some l) /\
    (forall a, a ∈ l <-> exists r g, holds (snapshot w) authority worker r g /\ a = held_assignment r g) /\
    NoDup l /\ StronglySorted (fun a b => (LeaseAssignment_GrantedAt a <= LeaseAssignment_GrantedAt b)%Z) l.
Proof.
  intros Hw%reachable_WF Hre Hauth Hwork Hlim. destruct (reaches_checks _ _ _ Hre) as [Hc Ha].
  destruct (normalize_limit _ Hlim) as [Hn Hpos]. set (s := snapshot w) in *.
  pose proof (match_stable_nonempty _ Hwork) as Hne.
  exists (worker_leases s authority worker). split_and!.
  - intros fuel Hf. rewrite <- (list_fmap_id (worker_leases s authority worker)).
    apply (pages_complete lease_key_of lease_first strict_total_lease _ granted_less leaseCursor granted_cursor)
      with (n := Z.to_nat (page_limit limit)); [|by apply worker_leases_keys|apply worker_leases_sorted|lia| |done].
    { intros a (r & g & Hh & ->)%elem_of_worker_leases; [|done].
      destruct (holds_facts _ _ _ _ _ Hw Hne Hh) as (Hg & _). unfold granted_cursor, lease_key_of, leaseCursor, place, held_assignment.
      cbn [LeaseAssignment_Grant LeaseAssignment_Task LeaseAssignment_GrantedAt]. by rewrite Hg. }
    intros c Hcur. unfold leases_page, ListLeases.
    cbn [LeasePageRequest_After LeasePageRequest_Limit]. rewrite Hc. cbn [obind].
    rewrite (proj2 (validateStable_Ok _ tt) Hauth). cbn [obind]. rewrite (proj2 (validateStable_Ok _ tt) Hwork).
    cbn [obind]. rewrite Hn. cbn [obind].
    assert (match c with None => Ok tt | Some cursor => validateLeaseCursor cursor end = Ok tt) as ->.
    { destruct c as [c|]; [|done]. destruct (Hcur c eq_refl) as (a & Hin & ->). by eapply lease_cursor_ok. }
    cbn [obind]. rewrite Ha. cbn [obind]. rewrite (read_view _ _ _ _ Hre). fold s.
    rewrite list_leases_view by done. cbn [LeasePage_Items LeasePage_Next]. by rewrite list_fmap_id.
  - intros a. by apply elem_of_worker_leases.
  - eapply (NoDup_fmap_1 lease_key_of). by apply worker_leases_keys.
  - pose proof (worker_leases_sorted s authority worker) as Hsort. unfold ascending in Hsort.
    induction Hsort as [|a l Hs IH Hf]; [constructor|]. constructor; [done|].
    eapply Forall_impl; [exact Hf|]. cbn. intros b Hlt. rewrite granted_less in Hlt.
    unfold lease_first, lex, lease_key_of in Hlt. cbn in Hlt. case_bool_decide as E; [lia|]. zbool. lia.
Qed.
End Reads.
