(* ===== verification/AgentReads.v ===== *)
(** * The point reads are exact

    GetTask, SnapshotTask, ResolveTask, GetLease, GetWorkspaceHead and
    GetApplyReceipt return what is committed, and their not-found error exactly
    when nothing is; the checks on what the store returns never fail. *)

From S2P Require Import Prelude Paging GoText GoTime GoJson AgentTypes AgentCodec Framework Protect.
From S2P Require Import AgentStore MemoryStore AgentCore AgentCommands AgentLease AgentArtifact AgentQuery.
From S2P Require Import AgentFacts AgentReplay MemoryFacts MemoryForward.
From S2P Require Import AgentMachine AgentRefinement AgentInvariant AgentPreserve AgentHistory AgentVerdict.
From S2P Require Import AgentLeaseVerdict AgentArtifactVerdict AgentPages AgentLeaseList.

Local Open Scope string_scope.

(** A public identifier resolves to the one Task that has it. *)
Lemma resolve_found s ref r :
  WF s -> tasks s !! ref = Some r -> ResolveTask (task_authority ref) (TaskRef_ID ref) s = Ok ref.
Proof.
  intros Hwf Hr. primitive. unfold ReadOp.ResolveTask. primitive. destruct (List.find _ _) as [[ref' r']|] eqn:E.
  - apply find_some in E as [Hin E]. apply list_elem_of_In, elem_of_map_to_list in Hin. cbn in E.
    apply andb_true_iff in E as [E1 E2]. decided. f_equal. apply (wf_ids _ Hwf); [by eexists..|done|done].
  - exfalso. pose proof (find_none _ _ E (ref, r)) as Hn. cbn in Hn. unfold task_authority in Hn.
    rewrite !bool_decide_eq_true_2 in Hn by done. by specialize (Hn (proj1 (list_elem_of_In _ _) (proj2 (elem_of_map_to_list _ _ _) Hr))).
Qed.

Lemma resolve_none (s : memoryAgentState) authority id :
  (forall ref, is_Some (tasks s !! ref) -> task_authority ref = authority -> TaskRef_ID ref <> id) ->
  ResolveTask authority id s = Err (StoreNotFoundError StoreRecordTask id).
Proof.
  intros Hn. primitive. unfold ReadOp.ResolveTask. primitive. destruct (List.find _ _) as [[ref' r']|] eqn:E; [|done].
  apply find_some in E as [Hin E]. apply list_elem_of_In, elem_of_map_to_list in Hin. cbn in E.
  apply andb_true_iff in E as [E1 E2]. decided. exfalso. by apply (Hn ref'); [eexists|..].
Qed.

Section Reads.
Context {W : Type} `{HS : Store W memoryAgentState} `{HC : !StoreContract W memoryAgentState}.

(** The reads of a Task are exact. In any reachable store GetTask and
    SnapshotTask return the committed Task (the snapshot's cursor is its event
    count), GetLease the current assignment of a held Task, and ResolveTask the
    one Task that has a public identifier; they return ErrNotFound (and
    GetLease ErrLeaseNotFound) exactly when there is none, and no other error. *)
Theorem task_reads_exact agent ctx ref authority id (w : W) :
  agent_reachable w -> reaches agent ctx w -> TaskRef_stable ref = true ->
  match_stable authority = true -> match_stable id = true ->
  GetTask agent ctx ref w =
    match tasks (snapshot w) !! ref with Some r => Ok (TaskRecord_Task r) | None => Err ErrNotFound end /\
  SnapshotTask agent ctx ref w =
    match tasks (snapshot w) !! ref with
    | Some r => Ok {| TaskSnapshot_Task := TaskRecord_Task r;
                      TaskSnapshot_EventCursor := Task_EventCount (TaskRecord_Task r) |}
    | None => Err ErrNotFound
    end /\
  match tasks (snapshot w) !! ref with
  | None => GetLease agent ctx ref w = Err ErrNotFound
  | Some r =>
      (Lease_Owner (TaskRecord_Lease r) = "" /\ GetLease agent ctx ref w = Err ErrLeaseNotFound) \/
      exists g, holds (snapshot w) (task_authority ref) (Lease_Owner (TaskRecord_Lease r)) r g /\
        GetLease agent ctx ref w = Ok (held_assignment r g)
  end /\
  ((exists r, is_Some (tasks (snapshot w) !! r) /\ task_authority r = authority /\ TaskRef_ID r = id /\
     AgentResolveTask agent ctx authority id w = Ok r) \/
   ((forall r, is_Some (tasks (snapshot w) !! r) -> task_authority r = authority -> TaskRef_ID r <> id) /\
     AgentResolveTask agent ctx authority id w = Err ErrNotFound)).
Proof.
  intros Hw%reachable_WF Hre Href Hauth Hid. destruct (reaches_checks _ _ _ Hre) as [Hc Ha].
  pose proof (proj2 (validateTaskRef_Ok ref tt) Href) as Hv. set (s := snapshot w) in *.
  split_and!.
  - unfold GetTask. rewrite Hc, Hv, Ha. cbn [obind]. rewrite (read_view _ _ _ _ Hre). fold s. unfold loadTaskFromStore.
    destruct (tasks s !! ref) as [r|] eqn:Hr; [by rewrite (wf_load _ _ _ Hw Hr)|by rewrite load_absent].
  - unfold SnapshotTask. rewrite Hc, Hv, Ha. cbn [obind]. rewrite (read_view _ _ _ _ Hre). fold s. unfold loadTaskFromStore.
    destruct (tasks s !! ref) as [r|] eqn:Hr; [by rewrite (wf_load _ _ _ Hw Hr)|by rewrite load_absent].
  - assert (GetLease agent ctx ref w = loadLeaseAssignmentFromStore s ref) as ->.
    { unfold GetLease. rewrite Hc, Hv, Ha. cbn [obind]. by rewrite (read_view _ _ _ _ Hre). }
    unfold loadLeaseAssignmentFromStore. destruct (tasks s !! ref) as [r|] eqn:Hr; [|by rewrite load_absent].
    rewrite (wf_load _ _ _ Hw Hr). cbn [obind]. rewrite (history_head_ok _ _ _ Hw Hr). cbn [obind].
    destruct (is_empty (Lease_Owner (TaskRecord_Lease r))) eqn:Eo.
    + left. split; [by apply is_empty_true|done].
    + right. apply not_true_iff_false in Eo. rewrite is_empty_true in Eo.
      destruct (owned_holds s ref r _ Hw Hr eq_refl Eo) as [g Hh]. exists g. split; [done|]. cbn [refuse_if obind].
      destruct (holds_facts _ _ _ _ _ Hw Eo Hh) as (Hg & _ & Hav & _).
      unfold last_granted. rewrite (hd_grant _ _ _ _ _ Hh). unfold held_assignment in Hav. rewrite Hg in Hav.
      rewrite (wr_ref _ _ (wt_record _ _ _ (wf_tasks _ Hw _ _ Hr))) in Hav. rewrite Hav. cbn [obind].
      unfold held_assignment. by rewrite Hg, (wr_ref _ _ (wt_record _ _ _ (wf_tasks _ Hw _ _ Hr))).
  - unfold AgentResolveTask. rewrite Hc. cbn [obind]. rewrite (proj2 (validateStable_Ok authority tt) Hauth). cbn [obind].
    rewrite (proj2 (validateStable_Ok id tt) Hid). cbn [obind]. rewrite Ha. cbn [obind].
    rewrite (read_view _ _ _ _ Hre). fold s. destruct (task_used s authority id) eqn:Eu.
    + left. unfold task_used, WriteOp.some_value in Eu. apply existsb_exists in Eu as (r & Hin & E).
      apply list_elem_of_In, list_elem_of_fmap in Hin as ([ref' r'] & -> & Hin%elem_of_map_to_list). cbn in E.
      destruct (wt_record _ _ _ (wf_tasks _ Hw _ _ Hin)). rewrite wr_ref in E.
      apply andb_true_iff in E as [E1 E2]. decided. exists ref'. split_and!; [by eexists|done..|].
      rewrite <- E1, <- E2. rewrite (resolve_found _ _ _ Hw Hin). cbn [on_error obind]. unfold task_authority.
      rewrite !bool_decide_eq_true_2 by done. cbn [negb orb refuse_if obind].
      rewrite (proj2 (validateTaskRef_Ok ref' tt)); [done|]. rewrite <- wr_ref. apply (vt_ref _ (vr_task _ wr_valid)).
    + right. rewrite task_used_spec in Eu by done. split; [done|]. by rewrite resolve_none.
Qed.

(** The reads of a workspace are exact. In any reachable store
    GetWorkspaceHead returns the committed head, and GetApplyReceipt the
    recorded decision on an Artifact (whose base is not its own result), or
    their not-found errors, and no other error. *)
Theorem workspace_reads_exact agent ctx workspace artifact (w : W) :
  agent_reachable w -> reaches agent ctx w -> WorkspaceRef_stable workspace = true -> ArtifactRef_stable artifact = true ->
  (forall x, artifacts (snapshot w) !! artifact = Some x ->
    Artifact_BaseRevision (ArtifactRecord_Artifact x) <> Artifact_ResultRevision (ArtifactRecord_Artifact x)) ->
  GetWorkspaceHead agent ctx workspace w =
    match workspaceHeads (snapshot w) !! workspace with
    | Some h => Ok (HeadRecord_Head h)
    | None => Err ErrWorkspaceNotFound
    end /\
  GetApplyReceipt agent ctx artifact w =
    match applyReceipts (snapshot w) !! artifact with
    | Some r => Ok (ReceiptRecord_Receipt r)
    | None => Err ErrReceiptNotFound
    end.
Proof.
  intros Hw%reachable_WF Hre Hws Hart Hne. destruct (reaches_checks _ _ _ Hre) as [Hc Ha]. set (s := snapshot w) in *. split.
  - unfold GetWorkspaceHead. rewrite Hc. cbn [obind]. rewrite (proj2 (validateWorkspaceRef_Ok workspace tt) Hws). cbn [obind].
    rewrite Ha. cbn [obind]. rewrite (read_view _ _ _ _ Hre). fold s. unfold loadArtifactWorkspaceHead.
    destruct (workspaceHeads s !! workspace) as [h|] eqn:Hh.
    + rewrite (proj2 (LoadWorkspaceHead_Ok _ _ _) Hh). destruct (wf_heads _ Hw _ _ Hh) as [E Hrev Hti].
      cbn [on_error obind]. by rewrite E, Hrev, bool_decide_eq_true_2, (int64_not_zero _ Hti).
    + primitive. unfold ReadOp.LoadWorkspaceHead. primitive. by rewrite Hh.
  - unfold GetApplyReceipt. rewrite Hc. cbn [obind]. rewrite (proj2 (validateArtifactRef_Ok artifact tt) Hart). cbn [obind].
    rewrite Ha. cbn [obind]. rewrite (read_view _ _ _ _ Hre). fold s.
    destruct (applyReceipts s !! artifact) as [r|] eqn:Hr.
    + destruct (wf_receipts _ Hw _ _ Hr) as [_ _ _ (x & t & Hx & _)].
      rewrite (wf_load_receipt _ _ _ Hw Hx (Hne _ Hx)), Hr. done.
    + unfold loadVerifiedApplyReceipt, loadApplyReceipt. rewrite LoadApplyReceipt_found, Hr. done.
Qed.
End Reads.
