(* ===== verification/WorkspaceApply.v ===== *)
(** * Applying an Artifact on the caller's side (workspace/types.go,
    workspace/apply.go)

    The transport-neutral values of one compare-and-swap of a workspace: the
    intent with its canonical JSON form and digest, the observed outcome, and
    the bounded outcome of an effect that cannot be inferred. *)

From S2P Require Import Prelude GoText GoEncoding GoTime GoJson GoStrings AgentTypes AgentCodec.

Local Open Scope string_scope.

Module Workspace.

(** The error variables of package workspace, and the errors of its
    environment by an identifying text. *)
Inductive apply_error :=
  | ErrInvalidApply | ErrApplyNotFound | ErrApplyIntentConflict | ErrCorruptStore | ErrStoreClosed
  | ErrDatabase (s : string) | ErrContext (s : string).

Abbreviation wres A := (outcome apply_error A).

Definition absoluteApplyPayloadMax : Z := 67108864.

Record ApplyIdentity := { Identity_Authority : string; Identity_Workspace : string; Identity_Artifact : string }.

Record ApplyIntent := {
  Intent_Identity : ApplyIdentity;
  Intent_ArtifactDigest : Digest;
  Intent_PayloadDigest : Digest;
  Intent_BaseRevision : Revision;
  Intent_ResultRevision : Revision;
  Intent_Payload : Payload
}.

Record CASOutcome := {
  Outcome_Decision : ApplyDecision;
  Outcome_ObservedRevision : Revision;
  Outcome_Code : string;
  Outcome_Message : string
}.

#[export] Instance ApplyIdentity_eq_dec : EqDecision ApplyIdentity.
Proof. solve_decision. Defined.
#[export] Instance ApplyIntent_eq_dec : EqDecision ApplyIntent.
Proof. solve_decision. Defined.
#[export] Instance CASOutcome_eq_dec : EqDecision CASOutcome.
Proof. solve_decision. Defined.

#[export] Instance ApplyIdentity_countable : Countable ApplyIdentity.
Proof.
  apply (inj_countable'
    (fun i => (Identity_Authority i, Identity_Workspace i, Identity_Artifact i))
    (fun t => let '(a, w, x) := t in
              {| Identity_Authority := a; Identity_Workspace := w; Identity_Artifact := x |})).
  by intros [].
Defined.

Inductive ApplyState :=
  | ApplyStatePending | ApplyStateSuccess | ApplyStateConflict | ApplyStateRejected | ApplyStateIndeterminate
  | ApplyStateOther (s : string).

#[export] Instance ApplyState_eq_dec : EqDecision ApplyState.
Proof. solve_decision. Defined.

Definition ApplyState_string (state : ApplyState) : string :=
  match state with
  | ApplyStatePending => "pending" | ApplyStateSuccess => "success" | ApplyStateConflict => "conflict"
  | ApplyStateRejected => "rejected" | ApplyStateIndeterminate => "indeterminate" | ApplyStateOther s => s
  end.

Definition ApplyState_of_string (s : string) : ApplyState :=
  if s =?= "pending" then ApplyStatePending
  else if s =?= "success" then ApplyStateSuccess
  else if s =?= "conflict" then ApplyStateConflict
  else if s =?= "rejected" then ApplyStateRejected
  else if s =?= "indeterminate" then ApplyStateIndeterminate
  else ApplyStateOther s.

Definition Terminal (state : ApplyState) : bool :=
  (state =?= ApplyStateSuccess) || (state =?= ApplyStateConflict)
  || (state =?= ApplyStateRejected) || (state =?= ApplyStateIndeterminate).

(** The conversion [ApplyState(decision)]. *)
Definition stateForDecision (decision : ApplyDecision) : ApplyState :=
  ApplyState_of_string (ApplyDecision_string decision).

Record ApplyRecord := {
  Record_Intent : ApplyIntent;
  Record_IntentDigest : Digest;
  Record_State : ApplyState;
  Record_Outcome : option CASOutcome;
  Record_CreatedAt : time;
  Record_CompletedAt : option time
}.

Record ApplyResult := { Result_Record : ApplyRecord; Result_Replay : bool }.

(* ------------------------------------------------------------------ *)
(** ** Canonical form *)

Definition enc_ApplyIdentity (i : ApplyIdentity) : json :=
  JObj [("authority", JStr (Identity_Authority i)); ("workspace", JStr (Identity_Workspace i));
        ("artifact", JStr (Identity_Artifact i))].
Definition dec_ApplyIdentity : option json -> option ApplyIdentity := dec_obj (fun l =>
  a ← dec_str (field "authority" l); w ← dec_str (field "workspace" l); x ← dec_str (field "artifact" l);
  Some {| Identity_Authority := a; Identity_Workspace := w; Identity_Artifact := x |}).

Definition dec_Payload : option json -> option Payload := dec_obj (fun l =>
  m ← dec_str (field "media_type" l); d ← dec_bytes (field "data" l);
  Some {| Payload_MediaType := m; Payload_Data := d |}).

Definition enc_ApplyIntent (i : ApplyIntent) : json :=
  JObj [("identity", enc_ApplyIdentity (Intent_Identity i));
        ("artifact_digest", JStr (Intent_ArtifactDigest i));
        ("payload_digest", JStr (Intent_PayloadDigest i));
        ("base_revision", JStr (Intent_BaseRevision i));
        ("result_revision", JStr (Intent_ResultRevision i));
        ("payload", enc_Payload (Intent_Payload i))].
Definition dec_ApplyIntent : option json -> option ApplyIntent := dec_obj (fun l =>
  i ← dec_ApplyIdentity (field "identity" l);
  a ← dec_str (field "artifact_digest" l); p ← dec_str (field "payload_digest" l);
  b ← dec_str (field "base_revision" l); r ← dec_str (field "result_revision" l);
  y ← dec_Payload (field "payload" l);
  Some {| Intent_Identity := i; Intent_ArtifactDigest := a; Intent_PayloadDigest := p;
          Intent_BaseRevision := b; Intent_ResultRevision := r; Intent_Payload := y |}).

Definition enc_CASOutcome (o : CASOutcome) : json :=
  JObj ([("decision", JStr (ApplyDecision_string (Outcome_Decision o)))]
        ++ opt_str "observed_revision" (Outcome_ObservedRevision o)
        ++ opt_str "code" (Outcome_Code o) ++ opt_str "message" (Outcome_Message o))%list.
Definition dec_CASOutcome : option json -> option CASOutcome := dec_obj (fun l =>
  d ← dec_str (field "decision" l); r ← dec_str (field "observed_revision" l);
  c ← dec_str (field "code" l); m ← dec_str (field "message" l);
  Some {| Outcome_Decision := ApplyDecision_of_string d; Outcome_ObservedRevision := r;
          Outcome_Code := c; Outcome_Message := m |}).

Definition sha256Digest (value : string) : Digest := sha256Identity value.

Definition DigestPayload (payload : Payload) : Digest := sha256Digest (print (enc_Payload payload)).

(* ------------------------------------------------------------------ *)
(** ** Validation *)

(** [applyIdentityPattern], the pattern of stable identifiers. *)
Definition ValidateApplyIdentity (identity : ApplyIdentity) : wres unit :=
  refuse_if (negb (forallb match_stable
    [Identity_Authority identity; Identity_Workspace identity; Identity_Artifact identity])) ErrInvalidApply.

Definition validateApplyDigest (digest : Digest) : wres unit :=
  match strip_prefix "sha256:" digest with
  | None => Err ErrInvalidApply
  | Some digits =>
      check refuse_if (negb (len digest =? 71)%Z) ErrInvalidApply then
      match hex_decode digits with
      | None => Err ErrInvalidApply
      | Some decoded => refuse_if ("sha256:" ++ hex_encode decoded <>? digest) ErrInvalidApply
      end
  end.

Definition validateApplyRevision (revision : Revision) : wres unit :=
  refuse_if (is_empty revision || (len revision >? 256)%Z || negb (valid_string revision)
             || contains_any [nul; cr; lf] revision) ErrInvalidApply.

Definition ValidateApplyIntent (intent : ApplyIntent) : wres unit :=
  check ValidateApplyIdentity (Intent_Identity intent) then
  check validateApplyDigest (Intent_ArtifactDigest intent) then
  check validateApplyDigest (Intent_PayloadDigest intent) then
  check refuse_if (Intent_PayloadDigest intent <>? DigestPayload (Intent_Payload intent)) ErrInvalidApply then
  check validateApplyRevision (Intent_BaseRevision intent) then
  check validateApplyRevision (Intent_ResultRevision intent) then
  check refuse_if (Intent_BaseRevision intent =?= Intent_ResultRevision intent) ErrInvalidApply then
  let mediaType := Payload_MediaType (Intent_Payload intent) in
  check refuse_if (is_empty mediaType || (mediaType <>? TrimSpace mediaType) || (len mediaType >? 128)%Z
                   || negb (valid_string mediaType) || contains_any [cr; lf; nul] mediaType) ErrInvalidApply then
  check refuse_if (negb (ParseMediaType_ok mediaType)) ErrInvalidApply then
  refuse_if ((len (Payload_Data (Intent_Payload intent)) =? 0)%Z
             || (len (Payload_Data (Intent_Payload intent)) >? absoluteApplyPayloadMax)%Z) ErrInvalidApply.

Definition CanonicalApplyIntent (intent : ApplyIntent) : wres (string * Digest) :=
  check ValidateApplyIntent intent then
  let encoded := print (enc_ApplyIntent intent) in
  Ok (encoded, sha256Digest encoded).

Definition ValidateCASOutcome (outcome : CASOutcome) (intent : ApplyIntent) : wres unit :=
  check refuse_if (negb (ApplyDecision_Valid (Outcome_Decision outcome))) ErrInvalidApply then
  check (if is_empty (Outcome_ObservedRevision outcome) then Ok tt
         else validateApplyRevision (Outcome_ObservedRevision outcome)) then
  check refuse_if ((Outcome_Decision outcome =?= ApplySuccess)
                   && (Outcome_ObservedRevision outcome <>? Intent_ResultRevision intent)) ErrInvalidApply then
  check refuse_if ((Outcome_Decision outcome =?= ApplyConflict)
                   && is_empty (Outcome_ObservedRevision outcome)) ErrInvalidApply then
  check refuse_if ((len (Outcome_Code outcome) >? 128)%Z || negb (valid_string (Outcome_Code outcome))
                   || contains_any [nul; cr; lf] (Outcome_Code outcome)) ErrInvalidApply then
  refuse_if ((len (Outcome_Message outcome) >? 4096)%Z || negb (valid_string (Outcome_Message outcome))
             || contains_any [nul] (Outcome_Message outcome)) ErrInvalidApply.

(* ------------------------------------------------------------------ *)
(** ** The indeterminate outcome *)

(** The literal "�" of the source, U+FFFD. *)
Definition replacement : string := encode_rune rune_error.

(** [strings.NewReplacer] of single bytes, and [strings.ReplaceAll] of one. *)
Fixpoint replace_bytes (f : ascii -> string) (s : string) : string :=
  match s with
  | "" => ""
  | String a s' => f a ++ replace_bytes f s'
  end.

Definition clean_code (a : ascii) : string :=
  if Ascii.eqb a nul then replacement
  else if Ascii.eqb a cr || Ascii.eqb a lf then " "
  else str1 a.

Definition clean_message (a : ascii) : string := if Ascii.eqb a nul then replacement else str1 a.

(** [value[:n]]. *)
Definition prefix_bytes (n : nat) (value : string) : string := substring 0 n value.

(** The loop of [truncateUTF8]: drop the last byte until the text is valid;
    the length of the text bounds the rounds, since the empty text is valid. *)
Fixpoint drop_until_valid (fuel : nat) (value : string) : string :=
  match fuel with
  | O => value
  | S fuel =>
      if valid_string value then value
      else drop_until_valid fuel (prefix_bytes (String.length value - 1) value)
  end.

Definition truncateUTF8 (value : string) (maximum : nat) : string :=
  if (len value <=? Z.of_nat maximum)%Z then value
  else let cut := prefix_bytes maximum value in drop_until_valid (S (String.length cut)) cut.

Definition IndeterminateOutcome (code message : string) : CASOutcome :=
  let code := replace_bytes clean_code (ToValidUTF8 code replacement) in
  let code := if (len code >? 128)%Z then truncateUTF8 code 128 else code in
  let message := replace_bytes clean_message (ToValidUTF8 message replacement) in
  let message := if (len message >? 4096)%Z then truncateUTF8 message 4096 else message in
  {| Outcome_Decision := ApplyIndeterminate; Outcome_ObservedRevision := "";
     Outcome_Code := code; Outcome_Message := message |}.

End Workspace.
