(* ===== verification/WorkspaceJournal.v ===== *)
(** * The caller's apply journal (workspace/sqlite/journal.go)

    One table, keyed by the identity of an apply; its statements and
    transactions as functions on the rows; [Apply] cut at the points where
    other callers and the loss of the process can come in between; the lock of
    each identity with its reference count; and the journal under concurrent
    callers as a step relation. *)

From S2P Require Import Prelude GoText GoEncoding GoTime GoJson GoStrings AgentTypes AgentCodec.
From S2P Require Import WorkspaceApply.

Local Open Scope string_scope.

Module Journal.
Import Workspace.

(** A row of [workspace_artifact_applies], whose key is the identity. *)
Record apply_row := {
  row_intent : string; row_intent_digest : string; row_state : string;
  row_outcome : option string; row_outcome_digest : option string;
  row_created_at : Z; row_completed_at : option Z
}.

Abbreviation table := (gmap ApplyIdentity apply_row).

(** The CHECK constraints of the table. *)
Definition row_check (r : apply_row) : bool :=
  existsb (String.eqb (row_state r)) ["pending"; "success"; "conflict"; "rejected"; "indeterminate"]
  && (if row_state r =?= "pending"
      then is_none (row_outcome r) && is_none (row_outcome_digest r) && is_none (row_completed_at r)
      else negb (is_none (row_outcome r)) && negb (is_none (row_outcome_digest r))
           && negb (is_none (row_completed_at r))).

(** [time.Time.UnixNano] and back, and the columns of an outcome. *)
Definition digestBytes (value : string) : Digest := sha256Identity value.
Definition encodeOutcome (outcome : CASOutcome) : string := print (enc_CASOutcome outcome).

(** [loadApplyRecord]: the record of a row and the bytes of its intent. *)
Definition loadApplyRecord (db : table) (identity : ApplyIdentity) : wres (ApplyRecord * string) :=
  match db !! identity with
  | None => Err ErrApplyNotFound
  | Some r =>
      match parse (row_intent r) ≫= (fun j => dec_ApplyIntent (Some j)) with
      | None => Err ErrCorruptStore
      | Some intent =>
          match CanonicalApplyIntent intent with
          | Err _ => Err ErrCorruptStore
          | Ok (canonical, calculatedDigest) =>
              check refuse_if ((canonical <>? row_intent r) || (calculatedDigest <>? row_intent_digest r)
                               || (Intent_Identity intent <>? identity)) ErrCorruptStore then
              let created := UnixTime (row_created_at r) in
              check refuse_if (IsZero created) ErrCorruptStore then
              let state := ApplyState_of_string (row_state r) in
              if state =?= ApplyStatePending then
                check refuse_if (negb (is_none (row_outcome r)) && negb (is_empty (default "" (row_outcome r)))
                                 || negb (is_none (row_outcome_digest r))
                                 || negb (is_none (row_completed_at r))) ErrCorruptStore then
                Ok ({| Record_Intent := intent; Record_IntentDigest := row_intent_digest r;
                       Record_State := state; Record_Outcome := None;
                       Record_CreatedAt := created; Record_CompletedAt := None |}, row_intent r)
              else
                match row_outcome r, row_outcome_digest r, row_completed_at r with
                | Some encodedOutcome, Some outcomeDigest, Some completedAt =>
                    check refuse_if (negb (Terminal state) || is_empty encodedOutcome
                                     || (digestBytes encodedOutcome <>? outcomeDigest)) ErrCorruptStore then
                    match parse encodedOutcome ≫= (fun j => dec_CASOutcome (Some j)) with
                    | None => Err ErrCorruptStore
                    | Some outcome =>
                        check refuse_if (negb (is_ok (ValidateCASOutcome outcome intent))
                                         || (stateForDecision (Outcome_Decision outcome) <>? state))
                          ErrCorruptStore then
                        let completed := UnixTime completedAt in
                        check refuse_if (Before completed created) ErrCorruptStore then
                        Ok ({| Record_Intent := intent; Record_IntentDigest := row_intent_digest r;
                               Record_State := state; Record_Outcome := Some outcome;
                               Record_CreatedAt := created; Record_CompletedAt := Some completed |}, row_intent r)
                    end
                | _, _, _ => Err ErrCorruptStore
                end
          end
      end
  end.

(** The INSERT of [begin]: the key is unique and the constraints hold. *)
Definition insertPending (db : table) (identity : ApplyIdentity) (encoded : string) (digest : Digest)
    (created : Z) : wres table :=
  match db !! identity with
  | Some _ => Err ErrApplyIntentConflict
  | None =>
      let r := {| row_intent := encoded; row_intent_digest := digest; row_state := "pending";
                  row_outcome := None; row_outcome_digest := None;
                  row_created_at := created; row_completed_at := None |} in
      check refuse_if (negb (row_check r)) (ErrDatabase "CHECK constraint failed") then
      Ok (<[identity := r]> db)
  end.

(** The UPDATE of [terminalizeApply], with the rows it changed. *)
Definition updateTerminal (db : table) (identity : ApplyIdentity) (state : ApplyState) (outcome : string)
    (digest : Digest) (completed : Z) : wres (table * nat) :=
  match db !! identity with
  | Some r =>
      if row_state r =?= "pending" then
        let r' := {| row_intent := row_intent r; row_intent_digest := row_intent_digest r;
                     row_state := ApplyState_string state; row_outcome := Some outcome;
                     row_outcome_digest := Some digest; row_created_at := row_created_at r;
                     row_completed_at := Some completed |} in
        check refuse_if (negb (row_check r')) (ErrDatabase "CHECK constraint failed") then
        Ok (<[identity := r']> db, 1%nat)
      else Ok (db, 0%nat)
  | None => Ok (db, 0%nat)
  end.

Definition terminalizeApply (db : table) (record : ApplyRecord) (outcome : CASOutcome) (now : time)
    : wres (ApplyRecord * table) :=
  check ValidateCASOutcome outcome (Record_Intent record) then
  let now := if Before now (Record_CreatedAt record) then Record_CreatedAt record else now in
  let encoded := encodeOutcome outcome in
  let state := stateForDecision (Outcome_Decision outcome) in
  let? (db', rows) := updateTerminal db (Intent_Identity (Record_Intent record)) state encoded
                         (digestBytes encoded) (UnixNano now) in
  check refuse_if (negb (Nat.eqb rows 1)) ErrApplyIntentConflict then
  Ok ({| Record_Intent := Record_Intent record; Record_IntentDigest := Record_IntentDigest record;
         Record_State := state; Record_Outcome := Some outcome;
         Record_CreatedAt := Record_CreatedAt record; Record_CompletedAt := Some now |}, db').

Definition unresolvedPending : CASOutcome :=
  IndeterminateOutcome "unresolved_pending"
    "a prior apply attempt has no durable terminal outcome; automatic replay is unsafe".

(** The transaction of [begin]: the record, whether it is a replay, and the
    table it commits. *)
Definition begin (db : table) (intent : ApplyIntent) (encoded : string) (digest : Digest) (now : time)
    : wres (ApplyRecord * bool * table) :=
  match loadApplyRecord db (Intent_Identity intent) with
  | Ok (existing, storedIntent) =>
      check refuse_if ((Record_IntentDigest existing <>? digest) || (storedIntent <>? encoded))
        ErrApplyIntentConflict then
      if Record_State existing =?= ApplyStatePending then
        let? (existing, db') := terminalizeApply db existing unresolvedPending now in
        Ok (existing, true, db')
      else Ok (existing, true, db)
  | Err ErrApplyNotFound =>
      let? db' := insertPending db (Intent_Identity intent) encoded digest (UnixNano now) in
      Ok ({| Record_Intent := intent; Record_IntentDigest := digest; Record_State := ApplyStatePending;
             Record_Outcome := None; Record_CreatedAt := now; Record_CompletedAt := None |}, false, db')
  | Err e => Err e
  end.

(** The transaction of [complete]. *)
Definition complete (db : table) (identity : ApplyIdentity) (encodedIntent : string) (outcome : CASOutcome)
    (now : time) : wres (ApplyRecord * table) :=
  let? (record, storedIntent) := loadApplyRecord db identity in
  check refuse_if (storedIntent <>? encodedIntent) ErrApplyIntentConflict then
  if Record_State record <>? ApplyStatePending then
    if Record_Outcome record =?= Some outcome then Ok (record, db) else Err ErrApplyIntentConflict
  else terminalizeApply db record outcome now.

Definition recoveredPending : CASOutcome :=
  IndeterminateOutcome "recovered_pending"
    "the previous journal owner stopped before recording a terminal apply outcome".

(** [recoverPending], the one UPDATE of an opening. *)
Definition recover_row (nanos : Z) (r : apply_row) : apply_row :=
  if row_state r =?= "pending" then
    let encoded := encodeOutcome recoveredPending in
    {| row_intent := row_intent r; row_intent_digest := row_intent_digest r; row_state := "indeterminate";
       row_outcome := Some encoded; row_outcome_digest := Some (digestBytes encoded);
       row_created_at := row_created_at r;
       row_completed_at := Some (if (row_created_at r >? nanos)%Z then row_created_at r else nanos) |}
  else r.

Definition recoverPending (db : table) (now : time) : table := recover_row (UnixNano now) <$> db.

(** What the applier returned becomes the outcome to record. *)
Definition settle (intent : ApplyIntent) (result : CASOutcome + string) : CASOutcome :=
  match result with
  | inr message => IndeterminateOutcome "cas_callback_error" message
  | inl outcome =>
      match ValidateCASOutcome outcome intent with
      | Err _ => IndeterminateOutcome "invalid_cas_result" "CAS applier returned an invalid result"
      | Ok _ => outcome
      end
  end.

(** One [Apply] with nobody in between and a database that answers: the
    result, the intents the applier was called with, and the table. *)
Definition Apply (db : table) (intent : ApplyIntent) (applier : ApplyIntent -> CASOutcome + string)
    (began completed : time) : wres ApplyResult * list ApplyIntent * table :=
  match CanonicalApplyIntent intent with
  | Err e => (Err e, [], db)
  | Ok (encoded, digest) =>
      match begin db intent encoded digest began with
      | Err e => (Err e, [], db)
      | Ok (record, true, db1) => (Ok {| Result_Record := record; Result_Replay := true |}, [], db1)
      | Ok (record, false, db1) =>
          let outcome := settle intent (applier intent) in
          match complete db1 (Intent_Identity intent) encoded outcome completed with
          | Err e => (Err e, [intent], db1)
          | Ok (final, db2) => (Ok {| Result_Record := final; Result_Replay := false |}, [intent], db2)
          end
      end
  end.

Definition Lookup (db : table) (identity : ApplyIdentity) : wres ApplyRecord :=
  check ValidateApplyIdentity identity then
  let? (record, _) := loadApplyRecord db identity in Ok record.

End Journal.
