(* ===== verification/WorkspaceFacts.v ===== *)
(** * Intents and outcomes at rest

    The canonical forms read back, and the outcome recorded when an effect
    cannot be inferred is always one the journal accepts. *)

From S2P Require Import Prelude GoText GoEncoding GoTime GoJson GoStrings AgentTypes AgentCodec Protect.
From S2P Require Import AgentCore AgentFacts WorkspaceApply.

Local Open Scope string_scope.
Import Workspace.

(* ------------------------------------------------------------------ *)
(** ** Intents read back *)

Lemma validateApplyRevision_valid r : validateApplyRevision r = Ok tt -> valid_string r = true.
Proof. unfold validateApplyRevision. intros H. apply refuse_if_Ok in H. by bool_split. Qed.

Lemma strip_prefix_inv p s t : strip_prefix p s = Some t -> s = p ++ t.
Proof.
  revert s. induction p as [|a p IH]; intros s; cbn; [by intros [= ->]|].
  destruct s as [|b s]; [done|]. destruct (Ascii.eqb_spec a b) as [->|]; [|done].
  by intros ->%IH.
Qed.

Lemma validateApplyDigest_valid d : validateApplyDigest d = Ok tt -> valid_string d = true.
Proof.
  unfold validateApplyDigest. destruct (strip_prefix _ d) as [t|] eqn:Ep; [|done].
  intros H. ok_inv. destruct (hex_decode t) as [x|]; [|done]. apply refuse_if_Ok in H. decided.
  rewrite <- H. apply is_ascii_valid. unfold is_ascii. rewrite string_forallb_app.
  apply andb_true_intro. split; [done | apply hex_encode_ascii].
Qed.

Lemma unit_Ok {E} (m : outcome E unit) u : m = Ok u -> m = Ok tt.
Proof. by destruct u. Qed.

(** What a valid intent guarantees about its strings. *)
Lemma ValidateApplyIntent_strings i : ValidateApplyIntent i = Ok tt ->
  forallb valid_string
    [Identity_Authority (Intent_Identity i); Identity_Workspace (Intent_Identity i);
     Identity_Artifact (Intent_Identity i); Intent_ArtifactDigest i; Intent_PayloadDigest i;
     Intent_BaseRevision i; Intent_ResultRevision i; Payload_MediaType (Intent_Payload i)] = true.
Proof.
  unfold ValidateApplyIntent, ValidateApplyIdentity. intros H. ok_inv. cbn in *. bool_split.
  repeat match goal with
  | H : match_stable _ = true |- _ => apply match_stable_valid in H
  | H : validateApplyDigest _ = Ok _ |- _ => apply unit_Ok, validateApplyDigest_valid in H
  | H : validateApplyRevision _ = Ok _ |- _ => apply unit_Ok, validateApplyRevision_valid in H
  end.
  encode_fields.
Qed.

Lemma enc_ApplyIntent_json i : ValidateApplyIntent i = Ok tt -> json_ok (enc_ApplyIntent i) = true.
Proof.
  intros H%ValidateApplyIntent_strings. cbn [forallb] in H. bool_split.
  unfold enc_ApplyIntent, enc_ApplyIdentity, enc_Payload, enc_bytes. cbn.
  rewrite (is_ascii_valid (b64_encode _)) by apply b64_encode_ascii.
  encode_fields.
Qed.

Lemma dec_enc_ApplyIntent i : dec_ApplyIntent (Some (enc_ApplyIntent i)) = Some i.
Proof.
  destruct i as [[] a p b r [m d]].
  unfold enc_ApplyIntent, dec_ApplyIntent, enc_Payload, enc_bytes. cbn -[b64_decode b64_encode].
  by rewrite b64_roundtrip.
Qed.

Lemma intent_reads_back i : ValidateApplyIntent i = Ok tt ->
  (parse (print (enc_ApplyIntent i)) ≫= fun j => dec_ApplyIntent (Some j)) = Some i.
Proof.
  intros H. rewrite parse_print by by apply enc_ApplyIntent_json. cbn [mbind option_bind].
  apply dec_enc_ApplyIntent.
Qed.

Lemma CanonicalApplyIntent_Ok i encoded digest : CanonicalApplyIntent i = Ok (encoded, digest) <->
  ValidateApplyIntent i = Ok tt /\ encoded = print (enc_ApplyIntent i) /\ digest = sha256Digest encoded.
Proof.
  unfold CanonicalApplyIntent. destruct (ValidateApplyIntent i) as [[]|]; cbn; [|by split; [|intros [? _]]].
  split; [by intros [= <- <-] | by intros (_ & -> & ->)].
Qed.

(* ------------------------------------------------------------------ *)
(** ** Outcomes read back *)

Lemma decision_string_valid d : ApplyDecision_Valid d = true ->
  valid_string (ApplyDecision_string d) = true /\ ApplyDecision_of_string (ApplyDecision_string d) = d.
Proof. by destruct d. Qed.

Lemma ValidateCASOutcome_strings o i : ValidateCASOutcome o i = Ok tt ->
  ApplyDecision_Valid (Outcome_Decision o) = true /\
  forallb valid_string [Outcome_ObservedRevision o; Outcome_Code o; Outcome_Message o] = true.
Proof.
  unfold ValidateCASOutcome. intros H. ok_inv. bool_split. split; [done|].
  cbn [forallb]. encode_fields.
  destruct (is_empty (Outcome_ObservedRevision o)) eqn:E; [apply is_empty_true in E; by rewrite E|].
  by eapply validateApplyRevision_valid, unit_Ok.
Qed.

Lemma dec_enc_CASOutcome o : ApplyDecision_Valid (Outcome_Decision o) = true ->
  dec_CASOutcome (Some (enc_CASOutcome o)) = Some o.
Proof.
  destruct o as [d r c m]. cbn. intros [_ Hd]%decision_string_valid.
  unfold enc_CASOutcome, dec_CASOutcome, opt_str. cbn.
  destruct (is_empty r) eqn:Er, (is_empty c) eqn:Ec, (is_empty m) eqn:Em;
    rewrite ?is_empty_true in *; subst; cbn; by rewrite Hd.
Qed.

Lemma outcome_reads_back o i : ValidateCASOutcome o i = Ok tt ->
  (parse (print (enc_CASOutcome o)) ≫= fun j => dec_CASOutcome (Some j)) = Some o.
Proof.
  intros [Hd Hs]%ValidateCASOutcome_strings. cbn [forallb] in Hs. bool_split.
  rewrite parse_print; [cbn [mbind option_bind]; by apply dec_enc_CASOutcome|].
  destruct (decision_string_valid _ Hd) as [Hv _].
  unfold enc_CASOutcome, opt_str. cbn.
  destruct (is_empty (Outcome_ObservedRevision o)), (is_empty (Outcome_Code o)), (is_empty (Outcome_Message o));
    cbn; encode_fields.
Qed.

Lemma enc_CASOutcome_nonempty o : is_empty (print (enc_CASOutcome o)) = false.
Proof. unfold enc_CASOutcome. rewrite print_obj. by destruct (opt_str _ _). Qed.

Lemma stateForDecision_terminal d : ApplyDecision_Valid d = true ->
  Terminal (stateForDecision d) = true /\ stateForDecision d <> ApplyStatePending /\
  ApplyState_of_string (ApplyState_string (stateForDecision d)) = stateForDecision d.
Proof. destruct d; [..|done]; intros _; by vm_compute. Qed.

(* ------------------------------------------------------------------ *)
(** ** The indeterminate outcome *)

Lemma to_valid_chunks_valid r l : valid_string r = true ->
  Forall (fun c => good c = true -> valid_string (raw c) = true) l ->
  forall after_bad, valid_string (to_valid_chunks r after_bad l) = true.
Proof.
  intros Hr. induction 1 as [|c l Hc Hl IH]; intros after_bad; [done|]. cbn.
  destruct (good c); [by apply valid_string_app; auto|].
  destruct after_bad; [apply IH | by apply valid_string_app].
Qed.

Lemma ToValidUTF8_valid s r : valid_string r = true -> valid_string (ToValidUTF8 s r) = true.
Proof. intros Hr. apply to_valid_chunks_valid; [done | apply chunk_raw_valid]. Qed.

Lemma replace_bytes_app f a b : replace_bytes f (a ++ b) = replace_bytes f a ++ replace_bytes f b.
Proof. induction a as [|x a IH]; cbn; [done|]. by rewrite IH, string_app_assoc. Qed.

(** Replacing ASCII bytes by valid texts keeps a text valid. *)
Lemma replace_bytes_valid f s :
  (forall a, (byte_of a < 128)%N -> valid_string (f a) = true) ->
  (forall a, (128 <= byte_of a)%N -> f a = str1 a) ->
  valid_string s = true -> valid_string (replace_bytes f s) = true.
Proof.
  intros Hlow Hhigh Hs. rewrite <- (runes_raw s). unfold valid_string in Hs.
  pose proof (runes_wf s) as Hwf. pose proof (chunk_raw_valid s) as Hraw.
  induction (runes s) as [|c l IH]; [done|]. cbn in Hs. apply andb_true_iff in Hs as [Hg Hs].
  inversion Hwf as [|? ? Hc Hwf']; inversion Hraw as [|? ? Hv Hraw']; subst.
  rewrite concat_raw_cons, replace_bytes_app. apply valid_string_app; [|auto].
  destruct (Hc Hg) as [(a & Ha & _ & Hr)|(_ & Hb & _)].
  - rewrite Hr. cbn. rewrite string_app_nil. auto.
  - enough (replace_bytes f (raw c) = raw c) as ->; [auto|]. clear -Hhigh Hb.
    induction (raw c) as [|a w IH]; [done|]. cbn in *. apply andb_true_iff in Hb as [Ha%N.leb_le Hb].
    rewrite Hhigh by done. cbn. by rewrite IH.
Qed.

Lemma replace_bytes_clean f set s :
  (forall a, contains_any set (f a) = false) -> contains_any set (replace_bytes f s) = false.
Proof.
  unfold contains_any, string_existsb. intros Hf. induction s as [|a s IH]; [done|]. cbn.
  rewrite string_forallb_app. specialize (Hf a).
  apply negb_false_iff in Hf. apply negb_false_iff in IH. by rewrite Hf, IH.
Qed.

(** A property of single bytes that holds of all 256. *)
Lemma for_all_bytes (P : ascii -> bool) :
  forallb (fun n => P (ascii_of_N (N.of_nat n))) (seq 0 256) = true -> forall a, P a = true.
Proof.
  intros H a. rewrite forallb_forall in H. specialize (H (N.to_nat (byte_of a))).
  rewrite in_seq, N2Nat.id in H. unfold byte_of in H. rewrite ascii_N_embedding in H.
  apply H. pose proof (byte_bound a). unfold byte_of in *. lia.
Qed.

Lemma clean_code_clean a : contains_any [nul; cr; lf] (clean_code a) = false.
Proof.
  apply negb_true_iff. revert a. apply (for_all_bytes (fun a => negb (contains_any [nul; cr; lf] (clean_code a)))).
  vm_compute. reflexivity.
Qed.

Lemma clean_message_clean a : contains_any [nul] (clean_message a) = false.
Proof.
  apply negb_true_iff. revert a. apply (for_all_bytes (fun a => negb (contains_any [nul] (clean_message a)))).
  vm_compute. reflexivity.
Qed.

Lemma str1_valid a : (byte_of a < 128)%N -> valid_string (str1 a) = true.
Proof. intros Ha. unfold valid_string, str1. cbn [runes]. by rewrite (proj2 (N.ltb_lt _ _) Ha). Qed.

Lemma high_not_low a b : (128 <= byte_of a)%N -> (byte_of b < 128)%N -> Ascii.eqb a b = false.
Proof. intros Ha Hb. apply Ascii.eqb_neq. intros ->. lia. Qed.

Lemma clean_code_low a : (byte_of a < 128)%N -> valid_string (clean_code a) = true.
Proof. intros Ha. unfold clean_code. repeat case_match; [done | done | by apply str1_valid]. Qed.
Lemma clean_code_high a : (128 <= byte_of a)%N -> clean_code a = str1 a.
Proof. intros Ha. unfold clean_code. by rewrite !high_not_low. Qed.
Lemma clean_message_low a : (byte_of a < 128)%N -> valid_string (clean_message a) = true.
Proof. intros Ha. unfold clean_message. case_match; [done | by apply str1_valid]. Qed.
Lemma clean_message_high a : (128 <= byte_of a)%N -> clean_message a = str1 a.
Proof. intros Ha. unfold clean_message. by rewrite high_not_low. Qed.

Lemma prefix_bytes_length n s : String.length (prefix_bytes n s) <= n.
Proof. unfold prefix_bytes. revert s. induction n as [|n IH]; intros [|a s]; cbn; try lia. specialize (IH s). lia. Qed.

Lemma prefix_bytes_forallb f n s : string_forallb f s = true -> string_forallb f (prefix_bytes n s) = true.
Proof.
  unfold prefix_bytes. revert s. induction n as [|n IH]; intros [|a s]; cbn; try done.
  rewrite !andb_true_iff. intros [? ?]. auto.
Qed.

Lemma drop_until_valid_spec fuel s f : String.length s < fuel ->
  valid_string (drop_until_valid fuel s) = true /\
  String.length (drop_until_valid fuel s) <= String.length s /\
  (string_forallb f s = true -> string_forallb f (drop_until_valid fuel s) = true).
Proof.
  revert s. induction fuel as [|fuel IH]; intros s Hs; [lia|]. cbn.
  destruct (valid_string s) eqn:Ev; [split_and!; done || lia|].
  pose proof (prefix_bytes_length (String.length s - 1) s) as Hl.
  destruct s as [|a s]; [done|]. cbn [String.length] in *.
  destruct (IH (prefix_bytes (S (String.length s) - 1) (String a s)) ltac:(lia)) as (H1 & H2 & H3).
  split_and!; [done | lia | intros Hf; by apply H3, prefix_bytes_forallb].
Qed.

Lemma truncateUTF8_spec s n f : valid_string s = true ->
  valid_string (truncateUTF8 s n) = true /\ (len (truncateUTF8 s n) <= Z.of_nat n)%Z /\
  (string_forallb f s = true -> string_forallb f (truncateUTF8 s n) = true).
Proof.
  intros Hs. unfold truncateUTF8. destruct (Z.leb_spec (len s) (Z.of_nat n)); [done|].
  pose proof (prefix_bytes_length n s) as Hl.
  destruct (drop_until_valid_spec (S (String.length (prefix_bytes n s))) (prefix_bytes n s) f) as (H1 & H2 & H3); [lia|].
  split_and!; [done | unfold len; lia | intros Hf; by apply H3, prefix_bytes_forallb].
Qed.

(** A cleaned text within its limit passes the check of its field. *)
Lemma bounded_text_ok set limit s :
  valid_string s = true -> contains_any set s = false ->
  let t := if (len s >? Z.of_nat limit)%Z then truncateUTF8 s limit else s in
  (len t >? Z.of_nat limit)%Z || negb (valid_string t) || contains_any set t = false.
Proof.
  intros Hv Hc. cbn zeta.
  assert (forall t, valid_string t = true -> (len t <= Z.of_nat limit)%Z -> contains_any set t = false ->
    (len t >? Z.of_nat limit)%Z || negb (valid_string t) || contains_any set t = false) as Hok.
  { intros t -> Hl ->. cbn. rewrite !orb_false_r, Z.gtb_ltb. by apply Z.ltb_ge. }
  destruct (len s >? Z.of_nat limit)%Z eqn:E; zbool; [|by apply Hok].
  destruct (truncateUTF8_spec s limit (fun a => negb (existsb (Ascii.eqb a) set)) Hv) as (H1 & H2 & H3).
  apply Hok; [done..|]. unfold contains_any, string_existsb in *.
  apply negb_false_iff, H3. by apply negb_false_iff.
Qed.

Lemma IndeterminateOutcome_valid code message intent :
  ValidateCASOutcome (IndeterminateOutcome code message) intent = Ok tt.
Proof.
  unfold ValidateCASOutcome, IndeterminateOutcome.
  cbn [Outcome_Decision Outcome_ObservedRevision Outcome_Code Outcome_Message ApplyDecision_Valid is_empty
       negb refuse_if obind].
  rewrite !bool_decide_eq_false_2 by done. cbn [andb refuse_if obind].
  assert (valid_string replacement = true) as Hr by reflexivity.
  pose proof (bounded_text_ok [nul; cr; lf] 128 (replace_bytes clean_code (ToValidUTF8 code replacement))
    (replace_bytes_valid _ _ clean_code_low clean_code_high (ToValidUTF8_valid _ _ Hr))
    (replace_bytes_clean _ _ _ clean_code_clean)) as Hc.
  pose proof (bounded_text_ok [nul] 4096 (replace_bytes clean_message (ToValidUTF8 message replacement))
    (replace_bytes_valid _ _ clean_message_low clean_message_high (ToValidUTF8_valid _ _ Hr))
    (replace_bytes_clean _ _ _ clean_message_clean)) as Hm.
  cbn zeta in Hc, Hm. change (Z.of_nat 128) with 128%Z in Hc. change (Z.of_nat 4096) with 4096%Z in Hm.
  rewrite Hc. cbn [refuse_if obind]. by rewrite Hm.
Qed.
