(* ===== verification/WorkspaceMachine.v ===== *)
(** * The journal under concurrent callers (workspace/sqlite/journal.go)

    Each call of [Apply] is a thread that takes the lock of its identity,
    commits its intent, calls the applier, commits the outcome and lets go.
    The process can be lost between any two steps; the next owner of the file
    recovers what was pending.  A transaction can fail without effect, and a
    commit can be reported as failed although it took place. *)

From S2P Require Import Prelude GoText GoEncoding GoTime GoJson GoStrings AgentTypes AgentCodec WorkspaceApply WorkspaceJournal.

Module Machine.
Import Workspace Journal.

(** [applyLockEntry]: whether the token is in the channel, and the number of
    calls that refer to the entry. *)
Record applyLockEntry := { token : bool; refs : nat }.

(** Where a call of [Apply] stands. *)
Inductive phase :=
  | Waiting                                                  (* for the token *)
  | Holding                                                  (* before [begin] *)
  | Begun (record : ApplyRecord)                             (* pending is durable *)
  | Calling (record : ApplyRecord)                           (* the applier runs *)
  | Settled (record : ApplyRecord) (outcome : CASOutcome)    (* before [complete] *)
  | Leaving                                                  (* before the unlock *)
  | Dropping.                                                (* before the reference is released *)

Record thread := { th_intent : ApplyIntent; th_entry : nat; th_phase : phase }.

Definition th_identity (t : thread) : ApplyIdentity := Intent_Identity (th_intent t).

(** The rows, [locks] with the entries it points to, the calls, and what the
    appliers were asked and answered so far. *)
Record journal := {
  database : table;
  locks : gmap ApplyIdentity nat;
  entries : gmap nat applyLockEntry;
  threads : gmap nat thread;
  called : list ApplyIntent;
  answered : list (ApplyIntent * (CASOutcome + string))
}.

Definition with_phase (w : journal) (t : nat) (th : thread) (p : phase) : gmap nat thread :=
  <[t := {| th_intent := th_intent th; th_entry := th_entry th; th_phase := p |}]> (threads w).

Definition move (w : journal) (t : nat) (th : thread) (p : phase) (db : table) : journal :=
  {| database := db; locks := locks w; entries := entries w; threads := with_phase w t th p;
     called := called w; answered := answered w |}.

(** [lockIdentity], up to its wait: the entry of the identity, made when there
    is none, with one more reference. *)
Definition lockIdentity (w : journal) (identity : ApplyIdentity)
    : nat * gmap ApplyIdentity nat * gmap nat applyLockEntry :=
  match locks w !! identity with
  | Some e =>
      let entry := default {| token := true; refs := 0 |} (entries w !! e) in
      (e, locks w, <[e := {| token := token entry; refs := S (refs entry) |}]> (entries w))
  | None =>
      let e := fresh (dom (entries w)) in
      (e, <[identity := e]> (locks w), <[e := {| token := true; refs := 1 |}]> (entries w))
  end.

(** [releaseIdentityReference]. *)
Definition releaseIdentityReference (w : journal) (identity : ApplyIdentity) (e : nat)
    : gmap ApplyIdentity nat * gmap nat applyLockEntry :=
  let entry := default {| token := true; refs := 0 |} (entries w !! e) in
  let entry' := {| token := token entry; refs := Nat.pred (refs entry) |} in
  (if Nat.eqb (refs entry') 0 then delete identity (locks w) else locks w, <[e := entry']> (entries w)).

Definition with_token (w : journal) (e : nat) (b : bool) : gmap nat applyLockEntry :=
  let entry := default {| token := true; refs := 0 |} (entries w !! e) in
  <[e := {| token := b; refs := refs entry |}]> (entries w).

Definition encoded (intent : ApplyIntent) : string := print (enc_ApplyIntent intent).

Definition begin_call (w : journal) (th : thread) (now : time) : wres (ApplyRecord * bool * table) :=
  begin (database w) (th_intent th) (encoded (th_intent th)) (sha256Digest (encoded (th_intent th))) now.

Definition complete_call (w : journal) (th : thread) (outcome : CASOutcome) (now : time) : wres (ApplyRecord * table) :=
  complete (database w) (th_identity th) (encoded (th_intent th)) outcome now.

(** The times the clock shows: what an int64 of nanoseconds holds. *)
Inductive step (w : journal) : journal -> Prop :=
  | enter t intent e l es :
      threads w !! t = None -> CanonicalApplyIntent intent = Ok (encoded intent, sha256Digest (encoded intent)) ->
      lockIdentity w (Intent_Identity intent) = (e, l, es) ->
      step w {| database := database w; locks := l; entries := es;
                threads := <[t := {| th_intent := intent; th_entry := e; th_phase := Waiting |}]> (threads w);
                called := called w; answered := answered w |}
  | take_token t th entry :
      threads w !! t = Some th -> th_phase th = Waiting ->
      entries w !! th_entry th = Some entry -> token entry = true ->
      step w {| database := database w; locks := locks w; entries := with_token w (th_entry th) false;
                threads := with_phase w t th Holding; called := called w; answered := answered w |}
  | cancel_wait t th :
      threads w !! t = Some th -> th_phase th = Waiting -> step w (move w t th Dropping (database w))
  | begin_new t th now record db :
      threads w !! t = Some th -> th_phase th = Holding -> in_int64 now ->
      begin_call w th now = Ok (record, false, db) -> step w (move w t th (Begun record) db)
  | begin_replay t th now record db :
      threads w !! t = Some th -> th_phase th = Holding -> in_int64 now ->
      begin_call w th now = Ok (record, true, db) -> step w (move w t th Leaving db)
  | begin_refused t th now e :
      threads w !! t = Some th -> th_phase th = Holding -> in_int64 now ->
      begin_call w th now = Err e -> step w (move w t th Leaving (database w))
  | begin_failed t th :
      threads w !! t = Some th -> th_phase th = Holding -> step w (move w t th Leaving (database w))
  | begin_uncertain t th now record replay db :
      threads w !! t = Some th -> th_phase th = Holding -> in_int64 now ->
      begin_call w th now = Ok (record, replay, db) -> step w (move w t th Leaving db)
  | call_applier t th record :
      threads w !! t = Some th -> th_phase th = Begun record ->
      step w {| database := database w; locks := locks w; entries := entries w;
                threads := with_phase w t th (Calling record);
                called := called w ++ [th_intent th]; answered := answered w |}
  | applier_returns t th record result :
      threads w !! t = Some th -> th_phase th = Calling record ->
      step w {| database := database w; locks := locks w; entries := entries w;
                threads := with_phase w t th (Settled record (settle (th_intent th) result));
                called := called w; answered := answered w ++ [(th_intent th, result)] |}
  | complete_commits t th record outcome now final db :
      threads w !! t = Some th -> th_phase th = Settled record outcome -> in_int64 now ->
      complete_call w th outcome now = Ok (final, db) -> step w (move w t th Leaving db)
  | complete_refused t th record outcome now e :
      threads w !! t = Some th -> th_phase th = Settled record outcome -> in_int64 now ->
      complete_call w th outcome now = Err e -> step w (move w t th Leaving (database w))
  | complete_failed t th record outcome :
      threads w !! t = Some th -> th_phase th = Settled record outcome ->
      step w (move w t th Leaving (database w))
  | unlock t th :
      threads w !! t = Some th -> th_phase th = Leaving ->
      step w {| database := database w; locks := locks w; entries := with_token w (th_entry th) true;
                threads := with_phase w t th Dropping; called := called w; answered := answered w |}
  | drop_reference t th l es :
      threads w !! t = Some th -> th_phase th = Dropping ->
      releaseIdentityReference w (th_identity th) (th_entry th) = (l, es) ->
      step w {| database := database w; locks := l; entries := es; threads := delete t (threads w);
                called := called w; answered := answered w |}
  | process_replaced now :
      in_int64 now ->
      step w {| database := recoverPending (database w) now; locks := ∅; entries := ∅; threads := ∅;
                called := called w; answered := answered w |}.

Definition empty_journal : journal :=
  {| database := ∅; locks := ∅; entries := ∅; threads := ∅; called := []; answered := [] |}.

Definition reachable (w : journal) : Prop := rtc step empty_journal w.

End Machine.

(* ------------------------------------------------------------------ *)
(** ** The identity locks exclude one another

    [locks] and the entries it points to, against the calls that refer to
    them: an entry is in [locks] as long as a call refers to it, its counter
    counts those calls, and its token is out exactly while one of them holds
    the lock. *)

Import Workspace Journal Machine.

(** The phases between taking the token and putting it back. *)
Definition holds (p : phase) : bool :=
  match p with Waiting | Dropping => false | _ => true end.

Definition is_of (i : ApplyIdentity) (th : thread) : bool := bool_decide (th_identity th = i).
Definition holder (i : ApplyIdentity) (th : thread) : bool := is_of i th && holds (th_phase th).

Record locks_ok (l : gmap ApplyIdentity nat) (es : gmap nat applyLockEntry) (ths : gmap nat thread) : Prop := {
  lock_of_thread : forall t th, ths !! t = Some th -> l !! th_identity th = Some (th_entry th);
  lock_entry : forall i e, l !! i = Some e -> exists entry,
    es !! e = Some entry /\ refs entry = count_map (is_of i) ths /\ 0 < refs entry /\
    count_map (holder i) ths = if token entry then 0 else 1;
  lock_distinct : forall i j e, l !! i = Some e -> l !! j = Some e -> i = j
}.

Lemma is_of_true i th : is_of i th = true <-> th_identity th = i.
Proof. apply bool_decide_eq_true. Qed.

Lemma is_of_false i th : th_identity th <> i -> is_of i th = false.
Proof. apply bool_decide_eq_false. Qed.

(** At most one call holds the lock of an identity. *)
Lemma holders_unique l es ths t1 t2 th1 th2 : locks_ok l es ths ->
  ths !! t1 = Some th1 -> ths !! t2 = Some th2 -> th_identity th1 = th_identity th2 ->
  holds (th_phase th1) = true -> holds (th_phase th2) = true -> t1 = t2.
Proof.
  intros [Ht He _] H1 H2 Hi P1 P2. destruct (decide (t1 = t2)) as [|Hne]; [done|].
  destruct (He _ _ (Ht _ _ H1)) as (entry & _ & _ & _ & Hc).
  enough (2 <= count_map (holder (th_identity th1)) ths) by (destruct (token entry); lia).
  eapply count_two; [apply H1 | apply H2 | done | |]; unfold holder;
    [rewrite (proj2 (is_of_true _ th1)) | rewrite (proj2 (is_of_true _ th2))]; done.
Qed.

(** A change of phase that neither takes nor gives back a token. *)
Definition at_phase (th : thread) (p : phase) : thread :=
  {| th_intent := th_intent th; th_entry := th_entry th; th_phase := p |}.

Lemma is_of_at_phase i th p : is_of i (at_phase th p) = is_of i th.
Proof. done. Qed.

Lemma count_is_of_phase i (ths : gmap nat thread) t th p : ths !! t = Some th ->
  count_map (is_of i) (<[t := at_phase th p]> ths) = count_map (is_of i) ths.
Proof.
  intros H. pose proof (count_update (is_of i) ths t th (at_phase th p) H). rewrite is_of_at_phase in *. lia.
Qed.

Lemma thread_lock_phase (l : gmap ApplyIdentity nat) (ths : gmap nat thread) t th p : ths !! t = Some th ->
  (forall t th, ths !! t = Some th -> l !! th_identity th = Some (th_entry th)) ->
  forall t' th', <[t := at_phase th p]> ths !! t' = Some th' -> l !! th_identity th' = Some (th_entry th').
Proof.
  intros H Ht t' th' [[<- <-]|[_ Hl]]%lookup_insert_Some; [by apply (Ht t th) | by eapply Ht].
Qed.

Lemma locks_same_holds l es ths t th p : locks_ok l es ths -> ths !! t = Some th ->
  holds p = holds (th_phase th) -> locks_ok l es (<[t := at_phase th p]> ths).
Proof.
  intros [Ht He Hd] H Hp. split; [by eapply thread_lock_phase| |done].
  intros i e Hl. destruct (He i e Hl) as (entry & H1 & H2 & H3 & H4). exists entry.
  rewrite count_is_of_phase by done. split_and!; [done..|].
  pose proof (count_update (holder i) ths t th (at_phase th p) H) as Hc.
  unfold holder in *. rewrite is_of_at_phase in Hc. cbn [th_phase at_phase] in Hc. rewrite Hp in Hc. lia.
Qed.

(** Taking the token, and putting it back. *)
Lemma locks_token l es ths t th p b entry : locks_ok l es ths -> ths !! t = Some th ->
  es !! th_entry th = Some entry -> token entry = negb b -> holds p = negb b -> holds (th_phase th) = b ->
  locks_ok l (<[th_entry th := {| token := b; refs := refs entry |}]> es) (<[t := at_phase th p]> ths).
Proof.
  intros [Ht He Hd] H Hes Htok Hp Hth. split; [by eapply thread_lock_phase| |done].
  intros i e Hl. destruct (He i e Hl) as (entry' & H1 & H2 & H3 & H4).
  pose proof (count_update (holder i) ths t th (at_phase th p) H) as Hc.
  unfold holder in Hc at 2 4. rewrite is_of_at_phase in Hc. cbn [th_phase at_phase] in Hc. rewrite Hp, Hth in Hc.
  destruct (decide (e = th_entry th)) as [->|Hne].
  - assert (i = th_identity th) as -> by (eapply Hd; [done | by eapply Ht]).
    rewrite Hes in H1. injection H1 as <-. exists {| token := b; refs := refs entry |}. cbn.
    rewrite count_is_of_phase by done. split_and!; [by rewrite lookup_insert_eq | done | done|].
    rewrite (proj2 (is_of_true _ th) eq_refl) in Hc. rewrite Htok in H4. destruct b; cbn in *; lia.
  - exists entry'. rewrite lookup_insert_ne, count_is_of_phase by done. split_and!; [done..|].
    rewrite (is_of_false i th) in Hc; [cbn in Hc; lia|]. intros <-. apply Hne. rewrite (Ht _ _ H) in Hl. congruence.
Qed.

(** A call that arrives. *)
Lemma locks_enter l es ths t intent e l' es' (w : journal) :
  locks w = l -> entries w = es -> locks_ok l es ths -> ths !! t = None ->
  lockIdentity w (Intent_Identity intent) = (e, l', es') ->
  locks_ok l' es' (<[t := {| th_intent := intent; th_entry := e; th_phase := Waiting |}]> ths).
Proof.
  intros <- <- [Ht He Hd] Hn Hw. unfold lockIdentity in Hw. set (i := Intent_Identity intent) in *.
  set (th := {| th_intent := intent; th_entry := e; th_phase := Waiting |}).
  assert (th_identity th = i) as Hthi by done.
  assert (forall j, count_map (is_of j) (<[t := th]> ths) = count_map (is_of j) ths + Nat.b2n (is_of j th)) as Hc.
  { intros j. by apply count_insert_new. }
  assert (forall j, count_map (holder j) (<[t := th]> ths) = count_map (holder j) ths) as Hh.
  { intros j. rewrite count_insert_new by done. unfold holder. cbn. rewrite andb_false_r. cbn. lia. }
  destruct (locks w !! i) as [e0|] eqn:El; injection Hw as <- <- <-.
  - destruct (He i e0 El) as (entry & H1 & H2 & H3 & H4). rewrite H1. cbn [default]. split.
    + intros t' th' [[<- <-]|[_ Hl]]%lookup_insert_Some; [done | by eapply Ht].
    + intros j e' Hl. rewrite Hc, Hh. destruct (decide (e' = e0)) as [->|Hne].
      * assert (j = i) as -> by by eapply Hd. eexists. split; [by rewrite lookup_insert_eq|]. cbn.
        rewrite (proj2 (is_of_true i th) eq_refl). cbn. split_and!; [lia | lia | done].
      * destruct (He j e' Hl) as (entry' & G1 & G2 & G3 & G4). exists entry'.
        rewrite lookup_insert_ne, is_of_false by congruence. cbn. split_and!; (done || lia).
    + done.
  - assert (count_map (is_of i) ths = 0) as Hz.
    { destruct (decide (count_map (is_of i) ths = 0)) as [|(t' & th' & Hl & Hi%is_of_true)%count_some]; [done|].
      apply Ht in Hl. rewrite Hi in Hl. congruence. }
    assert (count_map (holder i) ths = 0) as Hzh.
    { destruct (decide (count_map (holder i) ths = 0)) as [|(t' & th' & Hl & Hi)%count_some]; [done|].
      unfold holder in Hi. apply andb_true_iff in Hi as [Hi%is_of_true _]. apply Ht in Hl. congruence. }
    pose proof (is_fresh (dom (entries w))) as Hf. set (e0 := fresh (dom (entries w))) in *.
    apply not_elem_of_dom in Hf.
    assert (forall j e', locks w !! j = Some e' -> e' <> e0) as Hfresh.
    { intros j e' Hl ->. destruct (He j e0 Hl) as (? & ? & _). congruence. }
    split.
    + intros t' th' [[<- <-]|[_ Hl]]%lookup_insert_Some; [by rewrite lookup_insert_eq|].
      rewrite lookup_insert_ne; [by eapply Ht|]. intros Heq. apply Ht in Hl. rewrite <- Heq in Hl. fold i in Hl. congruence.
    + intros j e' [[<- <-]|[Hne Hl]]%lookup_insert_Some; rewrite Hc, Hh.
      * eexists. split; [by rewrite lookup_insert_eq|]. cbn. rewrite (proj2 (is_of_true i th) eq_refl). cbn. lia.
      * destruct (He j e' Hl) as (entry' & G1 & G2 & G3 & G4). exists entry'.
        rewrite lookup_insert_ne by (intros ->; by eapply Hfresh). rewrite is_of_false by congruence. cbn. split_and!; (done || lia).
    + intros j k e' [[<- <-]|[_ Hj]]%lookup_insert_Some [[<- H2]|[_ Hk]]%lookup_insert_Some; try done.
      * by destruct (Hfresh _ _ Hk).
      * subst. by destruct (Hfresh _ _ Hj).
      * by eapply Hd.
Qed.

(** A call that has gone. *)
Lemma locks_drop l es ths t th l' es' (w : journal) :
  locks w = l -> entries w = es -> locks_ok l es ths -> ths !! t = Some th -> th_phase th = Dropping ->
  releaseIdentityReference w (th_identity th) (th_entry th) = (l', es') ->
  locks_ok l' es' (delete t ths).
Proof.
  intros <- <- [Ht He Hd] H Hp Hw. unfold releaseIdentityReference in Hw.
  destruct (He _ _ (Ht _ _ H)) as (entry & H1 & H2 & H3 & H4). rewrite H1 in Hw. cbn [default] in Hw.
  injection Hw as <- <-. set (i := th_identity th) in *.
  assert (forall j, count_map (is_of j) (delete t ths) + Nat.b2n (is_of j th) = count_map (is_of j) ths) as Hc.
  { intros j. by apply count_delete. }
  assert (forall j, count_map (holder j) (delete t ths) = count_map (holder j) ths) as Hh.
  { intros j. pose proof (count_delete (holder j) ths t th H) as Hx. unfold holder in Hx at 2.
    rewrite Hp, andb_false_r in Hx. cbn in Hx. lia. }
  pose proof (Hc i) as Hci. rewrite (proj2 (is_of_true i th) eq_refl) in Hci. cbn in Hci.
  assert (forall j e', (if Nat.eqb (Nat.pred (refs entry)) 0 then delete i (locks w) else locks w) !! j = Some e' ->
            locks w !! j = Some e' /\ (j = i -> Nat.pred (refs entry) <> 0)) as Hsub.
  { intros j e'. destruct (Nat.eqb_spec (Nat.pred (refs entry)) 0) as [Hz|Hz]; [|done].
    intros [Hne Hl]%lookup_delete_Some. split; [done|]. by intros ->. }
  cbn [refs]. split.
  - intros t' th' [Hne Hl]%lookup_delete_Some. pose proof (Ht _ _ Hl) as Hl'.
    destruct (Nat.eqb_spec (Nat.pred (refs entry)) 0) as [Hz|Hz]; [|done].
    rewrite lookup_delete_ne; [done|]. intros Heq.
    assert (0 < count_map (is_of i) (delete t ths)); [|lia].
    eapply count_pos; [by rewrite lookup_delete_ne|]. by apply is_of_true.
  - intros j e' [Hl Hj]%Hsub. rewrite Hh. destruct (decide (e' = th_entry th)) as [->|Hne].
    + assert (j = i) as -> by (eapply Hd; [done | by apply Ht in H]).
      eexists. split; [by rewrite lookup_insert_eq|]. cbn. specialize (Hj eq_refl). split_and!; [lia | lia | done].
    + destruct (He j e' Hl) as (entry' & G1 & G2 & G3 & G4). exists entry'.
      rewrite lookup_insert_ne by done. specialize (Hc j).
      rewrite (is_of_false j th) in Hc; [cbn in Hc; split_and!; (done || lia)|].
      intros Heq. apply Hne. pose proof (Ht _ _ H) as Hl'. rewrite Heq in Hl'. congruence.
  - intros j k e' [Hj _]%Hsub [Hk _]%Hsub. by eapply Hd.
Qed.

Lemma locks_empty : locks_ok ∅ ∅ ∅.
Proof. split; intros *; by rewrite lookup_empty. Qed.

Lemma step_locks w w' : step w w' -> locks_ok (locks w) (entries w) (threads w) ->
  locks_ok (locks w') (entries w') (threads w').
Proof.
  intros Hs Hok. destruct Hs; cbn;
    try (eapply (locks_same_holds _ _ _ t th); [done | done | by match goal with H : th_phase _ = _ |- _ => rewrite H end]).
  - by eapply locks_enter.
  - unfold with_token. match goal with H : entries _ !! _ = _ |- _ => rewrite H end. cbn [default].
    eapply (locks_token _ _ _ t th); try done. by match goal with H : th_phase _ = _ |- _ => rewrite H end.
  - destruct (lock_entry _ _ _ Hok _ _ (lock_of_thread _ _ _ Hok _ _ H)) as (entry & H1 & _ & _ & H4).
    unfold with_token. rewrite H1. cbn [default id].
    eapply (locks_token _ _ _ t th); try done; [|by rewrite H0].
    change (token entry = false). destruct (token entry); [|done]. exfalso.
    assert (0 < count_map (holder (th_identity th)) (threads w)); [|lia].
    eapply count_pos; [done|]. unfold holder. by rewrite (proj2 (is_of_true _ th) eq_refl), H0.
  - by eapply locks_drop.
  - apply locks_empty.
Qed.
