(* ===== verification/WorkspaceRefinement.v ===== *)
(** * The journal refines a map of records

    Its contract, on records instead of rows: one record per identity, pending
    and then terminal.  Every transaction of the journal computes the
    operation of the contract on the table that represents the map, and never
    finds a row it would call corrupt. *)

From S2P Require Import Prelude GoText GoEncoding GoTime GoJson GoStrings AgentTypes AgentCodec.
From S2P Require Import WorkspaceApply WorkspaceFacts WorkspaceJournal.

Local Open Scope string_scope.
Import Workspace Journal.

(* ------------------------------------------------------------------ *)
(** ** The contract *)

Abbreviation ledger := (gmap ApplyIdentity ApplyRecord).

Definition pending_record (intent : ApplyIntent) (now : time) : ApplyRecord :=
  {| Record_Intent := intent; Record_IntentDigest := sha256Digest (print (enc_ApplyIntent intent));
     Record_State := ApplyStatePending; Record_Outcome := None;
     Record_CreatedAt := now; Record_CompletedAt := None |}.

(** The record with its outcome, dated no earlier than its creation. *)
Definition finished (record : ApplyRecord) (outcome : CASOutcome) (now : time) : ApplyRecord :=
  {| Record_Intent := Record_Intent record; Record_IntentDigest := Record_IntentDigest record;
     Record_State := stateForDecision (Outcome_Decision outcome); Record_Outcome := Some outcome;
     Record_CreatedAt := Record_CreatedAt record;
     Record_CompletedAt := Some (Z.max now (Record_CreatedAt record)) |}.

Definition begin_spec (m : ledger) (intent : ApplyIntent) (now : time) : wres (ApplyRecord * bool * ledger) :=
  let i := Intent_Identity intent in
  match m !! i with
  | None => Ok (pending_record intent now, false, <[i := pending_record intent now]> m)
  | Some r =>
      if Record_Intent r =?= intent then
        if Record_State r =?= ApplyStatePending
        then Ok (finished r unresolvedPending now, true, <[i := finished r unresolvedPending now]> m)
        else Ok (r, true, m)
      else Err ErrApplyIntentConflict
  end.

Definition complete_spec (m : ledger) (intent : ApplyIntent) (outcome : CASOutcome) (now : time)
    : wres (ApplyRecord * ledger) :=
  let i := Intent_Identity intent in
  match m !! i with
  | None => Err ErrApplyNotFound
  | Some r =>
      if Record_Intent r =?= intent then
        if Record_State r =?= ApplyStatePending
        then Ok (finished r outcome now, <[i := finished r outcome now]> m)
        else if Record_Outcome r =?= Some outcome then Ok (r, m) else Err ErrApplyIntentConflict
      else Err ErrApplyIntentConflict
  end.

Definition recover_spec (m : ledger) (now : time) : ledger :=
  (fun r => if Record_State r =?= ApplyStatePending then finished r recoveredPending now else r) <$> m.

(* ------------------------------------------------------------------ *)
(** ** Representation *)

Definition row_of (r : ApplyRecord) : apply_row :=
  {| row_intent := print (enc_ApplyIntent (Record_Intent r)); row_intent_digest := Record_IntentDigest r;
     row_state := ApplyState_string (Record_State r);
     row_outcome := encodeOutcome <$> Record_Outcome r;
     row_outcome_digest := (fun o => digestBytes (encodeOutcome o)) <$> Record_Outcome r;
     row_created_at := UnixNano (Record_CreatedAt r);
     row_completed_at := UnixNano <$> Record_CompletedAt r |}.

(** A record is pending, or has one valid outcome. *)
Inductive stage_ok (r : ApplyRecord) : Prop :=
  | stage_pending : Record_State r = ApplyStatePending -> Record_Outcome r = None ->
      Record_CompletedAt r = None -> stage_ok r
  | stage_terminal o c : Record_State r = stateForDecision (Outcome_Decision o) ->
      Record_Outcome r = Some o -> Record_CompletedAt r = Some c ->
      ValidateCASOutcome o (Record_Intent r) = Ok tt ->
      in_int64 c -> (Record_CreatedAt r <= c)%Z -> stage_ok r.

Record record_ok (i : ApplyIdentity) (r : ApplyRecord) : Prop := {
  record_identity : Intent_Identity (Record_Intent r) = i;
  record_intent : ValidateApplyIntent (Record_Intent r) = Ok tt;
  record_digest : Record_IntentDigest r = sha256Digest (print (enc_ApplyIntent (Record_Intent r)));
  record_created : in_int64 (Record_CreatedAt r);
  record_stage : stage_ok r
}.

Definition represents (m : ledger) (db : table) : Prop :=
  db = row_of <$> m /\ map_Forall record_ok m.

Lemma nanos_back t : in_int64 t -> UnixTime (UnixNano t) = t.
Proof. intros H. unfold UnixTime, UnixNano. by apply wrap64_id. Qed.

Lemma terminal_state o i : ValidateCASOutcome o i = Ok tt ->
  let s := stateForDecision (Outcome_Decision o) in
  Terminal s = true /\ s <> ApplyStatePending /\ ApplyState_of_string (ApplyState_string s) = s.
Proof. intros [Hd _]%ValidateCASOutcome_strings. by apply stateForDecision_terminal. Qed.

Lemma load_row db i r : db !! i = Some (row_of r) -> record_ok i r ->
  loadApplyRecord db i = Ok (r, print (enc_ApplyIntent (Record_Intent r))).
Proof.
  intros Hdb [Hi Hv Hd Hc Hs]. unfold loadApplyRecord. rewrite Hdb. cbn [row_of row_intent].
  rewrite (intent_reads_back _ Hv). unfold CanonicalApplyIntent. rewrite Hv. cbn [obind].
  cbn [row_of row_intent row_intent_digest row_created_at row_state row_outcome row_outcome_digest row_completed_at].
  rewrite !(bool_decide_eq_true_2 _ eq_refl). rewrite (bool_decide_eq_true_2 (_ = Record_IntentDigest r)) by done.
  rewrite (bool_decide_eq_true_2 (_ = i)) by done. cbn [negb orb refuse_if obind].
  rewrite nanos_back, int64_not_zero by done. cbn [refuse_if obind].
  destruct Hs as [E1 E2 E3|o c E1 E2 E3 Ho Hin Hle]; rewrite E1, E2, E3.
  - change (ApplyState_of_string (ApplyState_string ApplyStatePending)) with ApplyStatePending.
    rewrite (bool_decide_eq_true_2 _ eq_refl). cbn. destruct r; cbn in *; congruence.
  - pose proof (terminal_state _ _ Ho) as (Ht & Hp & Hback). cbn [fmap option_fmap option_map].
    rewrite Hback, Ht, (bool_decide_eq_false_2 _ Hp). unfold encodeOutcome.
    rewrite enc_CASOutcome_nonempty, !(bool_decide_eq_true_2 _ eq_refl). cbn [negb orb refuse_if obind].
    rewrite (outcome_reads_back _ _ Ho), Ho, !(bool_decide_eq_true_2 _ eq_refl). cbn [is_ok negb orb refuse_if obind].
    rewrite nanos_back by done. unfold Before. rewrite (proj2 (Z.ltb_ge _ _)) by done.
    cbn. destruct r; cbn in *; congruence.
Qed.

Lemma load_represented m db i : represents m db ->
  loadApplyRecord db i =
  match m !! i with
  | None => Err ErrApplyNotFound
  | Some r => Ok (r, print (enc_ApplyIntent (Record_Intent r)))
  end.
Proof.
  intros [-> Hm]. destruct (m !! i) as [r|] eqn:E.
  - apply load_row; [by rewrite lookup_fmap, E | by apply Hm].
  - unfold loadApplyRecord. by rewrite lookup_fmap, E.
Qed.

(* ------------------------------------------------------------------ *)
(** ** Transactions *)

Lemma max_in_int64 a b : in_int64 a -> in_int64 b -> in_int64 (Z.max a b).
Proof. unfold in_int64. lia. Qed.

Lemma finished_ok i r o now : record_ok i r -> in_int64 now ->
  ValidateCASOutcome o (Record_Intent r) = Ok tt -> record_ok i (finished r o now).
Proof.
  intros [Hi Hv Hd Hc Hs] Hn Ho. split; cbn; try done.
  eapply stage_terminal; cbn; try done; [by apply max_in_int64 | lia].
Qed.

Lemma pending_ok intent now : ValidateApplyIntent intent = Ok tt -> in_int64 now ->
  record_ok (Intent_Identity intent) (pending_record intent now).
Proof. intros. split; try done. by apply stage_pending. Qed.

Lemma insert_represents m db i r : represents m db -> record_ok i r ->
  represents (<[i := r]> m) (<[i := row_of r]> db).
Proof. intros [-> Hm] Hr. split; [by rewrite fmap_insert | by apply map_Forall_insert_2]. Qed.

Lemma terminal_row_check r o c : Record_Outcome r = Some o -> Record_CompletedAt r = Some c ->
  Record_State r = stateForDecision (Outcome_Decision o) -> ApplyDecision_Valid (Outcome_Decision o) = true ->
  row_check (row_of r) = true.
Proof.
  intros Ho Hc Hs Hd. unfold row_check, row_of. cbn [row_state row_outcome row_outcome_digest row_completed_at].
  rewrite Ho, Hc, Hs. by destruct (Outcome_Decision o).
Qed.

Lemma clamp now created :
  (if Before now created then created else now) = Z.max now created.
Proof. unfold Before. destruct (Z.ltb_spec now created); lia. Qed.

Lemma terminalize_represented m db i r o now : represents m db -> m !! i = Some r ->
  Record_State r = ApplyStatePending -> in_int64 now -> ValidateCASOutcome o (Record_Intent r) = Ok tt ->
  exists db', terminalizeApply db r o now = Ok (finished r o now, db') /\
    represents (<[i := finished r o now]> m) db'.
Proof.
  intros Hrep Hm Hs Hn Ho. pose proof Hrep as [Hdb Hall]. pose proof (Hall _ _ Hm) as Hr.
  pose proof (finished_ok _ _ _ _ Hr Hn Ho) as Hf.
  unfold terminalizeApply. rewrite Ho. cbn [obind]. rewrite clamp. unfold updateTerminal.
  rewrite (record_identity _ _ Hr), Hdb, lookup_fmap, Hm. cbn [fmap option_fmap option_map].
  assert ((row_state (row_of r) =?= "pending") = true) as -> by (cbn; rewrite Hs; reflexivity).
  match goal with |- context [row_check ?x] => assert (x = row_of (finished r o now)) as -> by done end.
  rewrite (terminal_row_check (finished r o now) o (Z.max now (Record_CreatedAt r)));
    [|done..|by destruct (ValidateCASOutcome_strings _ _ Ho)].
  cbn [negb refuse_if obind Nat.eqb]. eexists. split; [reflexivity|].
  rewrite <- fmap_insert. split; [done|]. by apply map_Forall_insert_2.
Qed.

Lemma canonical_eq i j : ValidateApplyIntent i = Ok tt -> ValidateApplyIntent j = Ok tt ->
  print (enc_ApplyIntent i) = print (enc_ApplyIntent j) -> i = j.
Proof.
  intros Hi%intent_reads_back Hj%intent_reads_back E. rewrite E in Hi. congruence.
Qed.

Lemma same_intent i r intent : record_ok i r -> ValidateApplyIntent intent = Ok tt ->
  (Record_IntentDigest r <>? sha256Digest (print (enc_ApplyIntent intent)))
  || (print (enc_ApplyIntent (Record_Intent r)) <>? print (enc_ApplyIntent intent))
  = (Record_Intent r <>? intent).
Proof.
  intros Hr Hv. destruct (decide (Record_Intent r = intent)) as [<-|Hne].
  - rewrite (record_digest _ _ Hr). by rewrite !(bool_decide_eq_true_2 _ eq_refl).
  - rewrite (bool_decide_eq_false_2 _ Hne), (bool_decide_eq_false_2 (print _ = print _)).
    2: { intros E. by apply Hne, canonical_eq; [apply Hr| |]. }
    by rewrite orb_true_r.
Qed.

Lemma begin_represented m db intent now :
  represents m db -> ValidateApplyIntent intent = Ok tt -> in_int64 now ->
  let encoded := print (enc_ApplyIntent intent) in
  match begin_spec m intent now with
  | Err e => begin db intent encoded (sha256Digest encoded) now = Err e
  | Ok (r, replay, m') =>
      exists db', begin db intent encoded (sha256Digest encoded) now = Ok (r, replay, db') /\ represents m' db'
  end.
Proof.
  intros Hrep Hv Hn. cbn zeta. unfold begin, begin_spec. rewrite (load_represented _ _ _ Hrep).
  destruct (m !! Intent_Identity intent) as [r|] eqn:Em.
  - pose proof (proj2 Hrep _ _ Em) as Hr. cbn beta iota. rewrite (same_intent _ _ _ Hr Hv).
    destruct (decide (Record_Intent r = intent)) as [He|Hne].
    2: { by rewrite (bool_decide_eq_false_2 _ Hne). }
    rewrite !(bool_decide_eq_true_2 _ He). cbn [negb refuse_if obind].
    destruct (decide (Record_State r = ApplyStatePending)) as [Hs|Hs].
    + rewrite !(bool_decide_eq_true_2 _ Hs).
      destruct (terminalize_represented m db _ r unresolvedPending now Hrep Em Hs Hn) as (db' & -> & Hrep').
      { apply IndeterminateOutcome_valid. }
      cbn [obind]. by exists db'.
    + rewrite !(bool_decide_eq_false_2 _ Hs). by exists db.
  - unfold insertPending. rewrite (proj1 Hrep), lookup_fmap, Em. cbn [fmap option_fmap option_map].
    change (row_check _) with true. cbn [negb refuse_if obind]. eexists. split; [reflexivity|].
    rewrite <- (proj1 Hrep). apply (insert_represents m db _ (pending_record intent now)); [done|].
    by apply pending_ok.
Qed.

Lemma complete_represented m db intent o now :
  represents m db -> ValidateApplyIntent intent = Ok tt -> in_int64 now ->
  ValidateCASOutcome o intent = Ok tt ->
  let encoded := print (enc_ApplyIntent intent) in
  match complete_spec m intent o now with
  | Err e => complete db (Intent_Identity intent) encoded o now = Err e
  | Ok (r, m') => exists db', complete db (Intent_Identity intent) encoded o now = Ok (r, db') /\ represents m' db'
  end.
Proof.
  intros Hrep Hv Hn Ho. cbn zeta. unfold complete, complete_spec. rewrite (load_represented _ _ _ Hrep).
  destruct (m !! Intent_Identity intent) as [r|] eqn:Em; [|done].
  pose proof (proj2 Hrep _ _ Em) as Hr. cbn [obind].
  destruct (decide (Record_Intent r = intent)) as [He|Hne].
  2: { rewrite (bool_decide_eq_false_2 _ Hne), (bool_decide_eq_false_2 (print _ = print _)); [done|].
       intros E. by apply Hne, canonical_eq; [apply Hr| |]. }
  rewrite (bool_decide_eq_true_2 _ He), He, (bool_decide_eq_true_2 _ eq_refl). cbn [negb refuse_if obind].
  destruct (decide (Record_State r = ApplyStatePending)) as [Hs|Hs].
  - rewrite !(bool_decide_eq_true_2 _ Hs). cbn [negb].
    destruct (terminalize_represented m db _ r o now Hrep Em Hs Hn) as (db' & -> & Hrep'); [by rewrite He|].
    by exists db'.
  - rewrite !(bool_decide_eq_false_2 _ Hs). cbn [negb]. case_bool_decide; [by exists db | done].
Qed.

Lemma recover_represented m db now : represents m db -> in_int64 now ->
  represents (recover_spec m now) (recoverPending db now).
Proof.
  intros [-> Hm] Hn. unfold recover_spec, recoverPending, represents. split.
  - rewrite <- !map_fmap_compose. apply map_fmap_ext. intros i r Hi. pose proof (Hm _ _ Hi) as Hr.
    cbn. unfold recover_row. destruct (record_stage _ _ Hr) as [Es Eo Ec|o c Es Eo Ec Ho _ _].
    + assert ((row_state (row_of r) =?= "pending") = true) as -> by (cbn; rewrite Es; reflexivity).
      rewrite (bool_decide_eq_true_2 _ Es). unfold row_of at 6. cbn. unfold UnixNano.
      pose proof (record_created _ _ Hr) as Hc. rewrite !(proj1 (wrap64_id _)) by (done || by apply max_in_int64).
      do 2 f_equal. destruct (Z.gtb_spec (Record_CreatedAt r) now); lia.
    + pose proof (terminal_state _ _ Ho) as (_ & Hp & _). rewrite <- Es in Hp.
      rewrite (bool_decide_eq_false_2 _ Hp).
      enough ((row_state (row_of r) =?= "pending") = false) as -> by done.
      cbn. rewrite Es. destruct (ValidateCASOutcome_strings _ _ Ho) as [Hd _]. by destruct (Outcome_Decision o).
  - intros i r [r0 [<- Hr0]]%lookup_fmap_Some. specialize (Hm _ _ Hr0).
    case_bool_decide; [|done]. apply finished_ok; [done..|apply IndeterminateOutcome_valid].
Qed.
