(* ===== verification/WorkspaceRuns.v ===== *)
(** * What a journal guarantees over its whole life

    The invariant of the reachable journals, through any interleaving of
    calls, failing transactions and losses of the process. *)

From S2P Require Import Prelude GoText GoEncoding GoTime GoJson GoStrings AgentTypes AgentCodec.
From S2P Require Import WorkspaceApply WorkspaceFacts WorkspaceJournal WorkspaceMachine.
From S2P Require Import WorkspaceMachine WorkspaceRefinement.

Import Workspace Journal Machine.

(* ------------------------------------------------------------------ *)
(** ** The invariant *)

(** The record a call relies on, from its durable intent to its outcome. *)
Definition live (p : phase) : option ApplyRecord :=
  match p with Begun r | Calling r | Settled r _ => Some r | _ => None end.

Lemma live_holds p r : live p = Some r -> holds p = true.
Proof. by destruct p. Qed.

(** The applier was called with the intent and this is what it answered. *)
Definition observed (answers : list (ApplyIntent * (CASOutcome + string))) (intent : ApplyIntent) (o : CASOutcome) : Prop :=
  Outcome_Decision o <> ApplyIndeterminate -> (intent, inl o) ∈ answers.

Record thread_ok (m : ledger) (answers : list (ApplyIntent * (CASOutcome + string))) (th : thread) : Prop := {
  thread_intent : ValidateApplyIntent (th_intent th) = Ok tt;
  thread_live : forall r, live (th_phase th) = Some r ->
    m !! th_identity th = Some r /\ Record_State r = ApplyStatePending /\ Record_Intent r = th_intent th;
  thread_settled : forall r o, th_phase th = Settled r o ->
    ValidateCASOutcome o (th_intent th) = Ok tt /\ observed answers (th_intent th) o
}.

Definition begun_of (i : ApplyIdentity) (th : thread) : bool :=
  is_of i th && match th_phase th with Begun _ => true | _ => false end.

(** How often the applier was called for an identity. *)
Definition calls_of (i : ApplyIdentity) (l : list ApplyIntent) : nat :=
  length (List.filter (fun x => bool_decide (Intent_Identity x = i)) l).

#[global] Arguments calls_of : simpl never.

Record journal_ok (m : ledger) (w : journal) : Prop := {
  journal_rows : represents m (database w);
  journal_threads : map_Forall (fun _ => thread_ok m (answered w)) (threads w);
  journal_calls : forall i,
    calls_of i (called w) + count_map (begun_of i) (threads w) <= Nat.b2n (bool_decide (is_Some (m !! i)));
  journal_called : forall intent, intent ∈ called w ->
    exists r, m !! Intent_Identity intent = Some r /\ Record_Intent r = intent;
  journal_outcomes : forall i r o, m !! i = Some r -> Record_Outcome r = Some o ->
    observed (answered w) (Record_Intent r) o;
  journal_answers : forall intent a, (intent, a) ∈ answered w -> intent ∈ called w;
  journal_calling : forall t th r, threads w !! t = Some th -> th_phase th = Calling r -> th_intent th ∈ called w
}.

(** How a ledger evolves: intents stay, and so does what is terminal. *)
Definition grows (m m' : ledger) : Prop :=
  forall i r, m !! i = Some r -> exists r', m' !! i = Some r' /\
    Record_Intent r' = Record_Intent r /\ Record_CreatedAt r' = Record_CreatedAt r /\
    (Record_State r <> ApplyStatePending -> r' = r).

Lemma grows_refl m : grows m m.
Proof. intros i r Hr. by exists r. Qed.

Lemma grows_trans m1 m2 m3 : grows m1 m2 -> grows m2 m3 -> grows m1 m3.
Proof.
  intros H1 H2 i r Hr. destruct (H1 i r Hr) as (r1 & Hr1 & E1 & C1 & T1).
  destruct (H2 i r1 Hr1) as (r2 & Hr2 & E2 & C2 & T2). exists r2. split_and!; [done|congruence|congruence|].
  intros Hp. pose proof (T1 Hp) as ->. auto.
Qed.

Lemma grows_insert_new m i r : m !! i = None -> grows m (<[i := r]> m).
Proof. intros Hn j x Hj. exists x. rewrite lookup_insert_ne by congruence. done. Qed.

Lemma grows_finish m i r o now : m !! i = Some r -> Record_State r = ApplyStatePending ->
  grows m (<[i := finished r o now]> m).
Proof.
  intros Hi Hp j x Hj. destruct (decide (i = j)) as [<-|Hne].
  - rewrite lookup_insert_eq. eexists. split; [done|]. rewrite Hi in Hj. injection Hj as <-. done.
  - exists x. by rewrite lookup_insert_ne.
Qed.

(* ------------------------------------------------------------------ *)
(** ** Preservation, piece by piece *)

Lemma observed_app answers x i o : observed answers i o -> observed (answers ++ x) i o.
Proof. intros H Hd. apply elem_of_app. left. auto. Qed.

Lemma thread_ok_answers m a x th : thread_ok m a th -> thread_ok m (a ++ x) th.
Proof.
  intros [H1 H2 H3]. split; [done..|]. intros r o Hp. destruct (H3 r o Hp). eauto using observed_app.
Qed.

(** A thread is untouched by a change of another identity's record, or of a
    record it does not rely on. *)
Lemma thread_ok_insert m a th i r : thread_ok m a th ->
  (th_identity th = i -> live (th_phase th) = None) -> thread_ok (<[i := r]> m) a th.
Proof.
  intros [H1 H2 H3] Hi. split; [done| |done]. intros r' Hl.
  destruct (H2 r' Hl) as (? & ? & ?). rewrite lookup_insert_ne; [done|]. intros Heq.
  by rewrite (Hi (eq_sym Heq)) in Hl.
Qed.

Lemma thread_ok_idle m a th p : thread_ok m a th -> live p = None -> thread_ok m a (at_phase th p).
Proof.
  intros [H1 _ _] Hp. split; [done|..]; cbn; [intros r Hl; congruence|]. intros r o ->. done.
Qed.

Lemma count_begun_phase i (ths : gmap nat thread) t th p : ths !! t = Some th ->
  count_map (begun_of i) (<[t := at_phase th p]> ths) + Nat.b2n (begun_of i th) =
  count_map (begun_of i) ths + Nat.b2n (begun_of i (at_phase th p)).
Proof. apply count_update. Qed.

Lemma begun_of_idle i th p : (forall r, p <> Begun r) -> begun_of i (at_phase th p) = false.
Proof. unfold begun_of. cbn. intros H. destruct p; try apply andb_false_r. by destruct (H record). Qed.

Lemma calling_phase (calls : list ApplyIntent) w t th p :
  (forall t th r, threads w !! t = Some th -> th_phase th = Calling r -> th_intent th ∈ calls) ->
  (forall r, p <> Calling r) ->
  forall t' th' r, with_phase w t th p !! t' = Some th' -> th_phase th' = Calling r -> th_intent th' ∈ calls.
Proof.
  unfold with_phase. intros H Hp t' th' r [[<- <-]|[_ Hl]]%lookup_insert_Some Hc; [by destruct (Hp r) | by eapply H].
Qed.

(** A thread that moves to a phase without a record, the rows unchanged. *)
Lemma journal_idle m w t th p : journal_ok m w -> threads w !! t = Some th -> live p = None ->
  journal_ok m (move w t th p (database w)).
Proof.
  intros [H1 H2 H3 H4 H5 H6 H7] Ht Hp. split; cbn; try done.
  - apply map_Forall_insert_2; [|done]. apply (thread_ok_idle _ _ th p); [by apply (H2 t)|done].
  - intros i. specialize (H3 i). pose proof (count_begun_phase i _ t th p Ht) as Hc.
    rewrite begun_of_idle in Hc; [unfold with_phase, at_phase in *; cbn in *; lia|]. by intros r ->.
  - by apply calling_phase; [|intros r ->].
Qed.

(** The locks may change freely as far as the records are concerned. *)
Lemma journal_locks m w l es : journal_ok m w ->
  journal_ok m {| database := database w; locks := l; entries := es; threads := threads w;
                  called := called w; answered := answered w |}.
Proof. by intros [H1 H2 H3 H4 H5 H6 H7]. Qed.

(** What a [begin] that answers did to the ledger. *)
Inductive began (m : ledger) (th : thread) (now : time) : ApplyRecord -> bool -> ledger -> Prop :=
  | began_new : m !! th_identity th = None ->
      began m th now (pending_record (th_intent th) now) false
            (<[th_identity th := pending_record (th_intent th) now]> m)
  | began_replay r : m !! th_identity th = Some r -> Record_Intent r = th_intent th ->
      Record_State r <> ApplyStatePending -> began m th now r true m
  | began_unresolved r : m !! th_identity th = Some r -> Record_Intent r = th_intent th ->
      Record_State r = ApplyStatePending ->
      began m th now (finished r unresolvedPending now) true
            (<[th_identity th := finished r unresolvedPending now]> m).

Lemma begin_call_began m w th now r replay db : represents m (database w) ->
  ValidateApplyIntent (th_intent th) = Ok tt -> in_int64 now ->
  begin_call w th now = Ok (r, replay, db) -> exists m', began m th now r replay m' /\ represents m' db.
Proof.
  intros Hrep Hv Hn Hb. pose proof (begin_represented m (database w) (th_intent th) now Hrep Hv Hn) as Hspec.
  cbn zeta in Hspec. unfold begin_call, encoded in Hb. unfold begin_spec in Hspec. rewrite Hb in Hspec.
  change (Intent_Identity (th_intent th)) with (th_identity th) in Hspec.
  destruct (m !! th_identity th) as [r0|] eqn:Em.
  - case_bool_decide as Hi; [|done]. case_bool_decide as Hs;
      destruct Hspec as (db' & [= -> -> <-] & Hrep'); eexists; (split; [|exact Hrep']).
    + by apply began_unresolved.
    + by apply began_replay.
  - destruct Hspec as (db' & [= -> -> <-] & Hrep'). eexists. split; [by apply began_new | done].
Qed.

(** A new durable intent. *)
Lemma journal_inserted m w t th now p db :
  journal_ok m w -> threads w !! t = Some th -> m !! th_identity th = None -> th_phase th = Holding ->
  let r := pending_record (th_intent th) now in
  p = Begun r \/ p = Leaving ->
  represents (<[th_identity th := r]> m) db ->
  journal_ok (<[th_identity th := r]> m) (move w t th p db).
Proof.
  intros [H1 H2 H3 H4 H5 H6 H7] Ht Hn Hph r Hp Hrep. pose proof (H2 _ _ Ht) as Hth. split; cbn.
  - done.
  - apply map_Forall_insert_2.
    + split; cbn; [apply Hth| |by intros r0 o ->; destruct Hp].
      intros r0 Hl. rewrite lookup_insert_eq. destruct Hp as [->| ->]; [|done]. by injection Hl as <-.
    + intros t' th' Ht'. pose proof (H2 _ _ Ht') as Hth'. apply thread_ok_insert; [done|].
      intros Heq. destruct (live (th_phase th')) as [r'|] eqn:El; [|done].
      destruct (thread_live _ _ _ Hth' _ El) as (Hl & _). congruence.
  - intros i. specialize (H3 i). pose proof (count_begun_phase i _ t th p Ht) as Hc.
    unfold with_phase, at_phase in *. unfold begun_of in Hc at 2 4. cbn in Hc. rewrite Hph, andb_false_r in Hc.
    cbn in Hc. destruct (decide (th_identity th = i)) as [<-|Hne].
    + rewrite lookup_insert_eq. rewrite Hn in H3. cbn in H3 |- *. destruct (is_of _ _ && _); cbn in Hc; lia.
    + rewrite lookup_insert_ne by done.
      assert (is_of i {| th_intent := th_intent th; th_entry := th_entry th; th_phase := p |} = false) as Hf.
      { by apply is_of_false. }
      rewrite Hf in Hc. cbn in Hc. lia.
  - intros intent Hin. destruct (H4 _ Hin) as (r0 & Hr0 & Hi). exists r0.
    rewrite lookup_insert_ne by congruence. done.
  - intros i r0 o [[<- <-]|[_ Hl]]%lookup_insert_Some Ho; [done | by eapply H5].
  - done.
  - apply calling_phase; [done|]. by destruct Hp as [->| ->].
Qed.

(** A record that gets its outcome while the call holds the lock. *)
Lemma journal_finished m w t th r o now db :
  journal_ok m w -> locks_ok (locks w) (entries w) (threads w) ->
  threads w !! t = Some th -> holds (th_phase th) = true ->
  m !! th_identity th = Some r -> observed (answered w) (Record_Intent r) o ->
  represents (<[th_identity th := finished r o now]> m) db ->
  journal_ok (<[th_identity th := finished r o now]> m) (move w t th Leaving db).
Proof.
  intros [H1 H2 H3 H4 H5 H6 H7] Hlocks Ht Hh Hr Ho Hrep. pose proof (H2 _ _ Ht) as Hth. split; cbn.
  - done.
  - unfold with_phase. intros t' th' [[<- <-]|[Hne Ht']]%lookup_insert_Some; [by split; [apply Hth|..]|].
    pose proof (H2 _ _ Ht') as Hth'. apply thread_ok_insert; [done|]. intros Heq.
    destruct (live (th_phase th')) as [r'|] eqn:El; [|done]. destruct Hne.
    eapply holders_unique; [done | exact Ht | exact Ht' | done | done | by eapply live_holds].
  - intros i. specialize (H3 i). pose proof (count_begun_phase i _ t th Leaving Ht) as Hc.
    rewrite begun_of_idle in Hc by done. unfold with_phase, at_phase in *. cbn in *.
    destruct (decide (th_identity th = i)) as [<-|Hne]; [|rewrite lookup_insert_ne by done; lia].
    rewrite lookup_insert_eq. rewrite Hr in H3. cbn in H3 |- *. lia.
  - intros intent Hin. destruct (H4 _ Hin) as (r0 & Hr0 & Hi).
    destruct (decide (th_identity th = Intent_Identity intent)) as [He|Hne].
    + rewrite He, lookup_insert_eq. eexists. split; [done|]. rewrite He in Hr. cbn. congruence.
    + exists r0. by rewrite lookup_insert_ne.
  - intros i r0 o0 [[<- <-]|[_ Hl]]%lookup_insert_Some Ho0; [|by eapply H5].
    cbn in Ho0. by injection Ho0 as <-.
  - done.
  - by apply calling_phase.
Qed.

Lemma unresolved_observed a i : observed a i unresolvedPending.
Proof. by intros []. Qed.

(** The end of a [begin] that answered, whatever the call learns of it. *)
Lemma journal_began m w t th now r replay m' db p :
  journal_ok m w -> locks_ok (locks w) (entries w) (threads w) ->
  threads w !! t = Some th -> th_phase th = Holding ->
  began m th now r replay m' -> represents m' db -> p = Leaving \/ replay = false /\ p = Begun r ->
  journal_ok m' (move w t th p db) /\ grows m m'.
Proof.
  intros Hok Hlocks Ht Hp Hb Hrep Hphase. destruct Hb as [Hn|r Hr Hi Hs|r Hr Hi Hs].
  - split; [|by apply grows_insert_new]. apply journal_inserted; try done. naive_solver.
  - destruct Hphase as [->|[? _]]; [|done]. split; [|apply grows_refl].
    assert (db = database w) as ->.
    { destruct Hrep as [-> _]. by destruct (journal_rows _ _ Hok) as [-> _]. }
    by apply journal_idle.
  - destruct Hphase as [->|[? _]]; [|done]. split; [|by apply grows_finish].
    eapply journal_finished; try done; [by rewrite Hp | apply unresolved_observed].
Qed.

(** The outcome to record is valid, and definite only when the applier said so. *)
Lemma settle_valid intent a : ValidateCASOutcome (settle intent a) intent = Ok tt.
Proof.
  unfold settle. destruct a as [o|s]; [|apply IndeterminateOutcome_valid].
  destruct (ValidateCASOutcome o intent) as [[]|] eqn:E; [done | apply IndeterminateOutcome_valid].
Qed.

Lemma settle_observed answers intent a : observed (answers ++ [(intent, a)]) intent (settle intent a).
Proof.
  intros Hd. apply elem_of_app. right. apply list_elem_of_singleton. unfold settle in *.
  destruct a as [o|s]; [|done]. destruct (ValidateCASOutcome o intent); done.
Qed.

(** The completing transaction of a call with a live record commits it. *)
Lemma complete_call_finishes m w t th r o now :
  journal_ok m w -> threads w !! t = Some th -> th_phase th = Settled r o -> in_int64 now ->
  exists db, complete_call w th o now = Ok (finished r o now, db) /\
    represents (<[th_identity th := finished r o now]> m) db.
Proof.
  intros Hok Ht Hp Hn. pose proof (journal_threads _ _ Hok _ _ Ht) as Hth.
  destruct (thread_live _ _ _ Hth r) as (Hr & Hs & Hi); [by rewrite Hp|].
  destruct (thread_settled _ _ _ Hth r o Hp) as [Ho _].
  pose proof (complete_represented m (database w) (th_intent th) o now (journal_rows _ _ Hok)
    (thread_intent _ _ _ Hth) Hn Ho) as Hspec. cbn zeta in Hspec. unfold complete_spec in Hspec.
  change (Intent_Identity (th_intent th)) with (th_identity th) in Hspec.
  rewrite Hr, (bool_decide_eq_true_2 _ Hi), (bool_decide_eq_true_2 _ Hs) in Hspec. exact Hspec.
Qed.

(** A thread that keeps its record but moves on. *)
Lemma journal_called_step m w t th r :
  journal_ok m w -> threads w !! t = Some th -> th_phase th = Begun r ->
  journal_ok m {| database := database w; locks := locks w; entries := entries w;
                  threads := with_phase w t th (Calling r); called := called w ++ [th_intent th];
                  answered := answered w |}.
Proof.
  intros [H1 H2 H3 H4 H5 H6 H7] Ht Hp. pose proof (H2 _ _ Ht) as Hth. split; cbn; try done.
  - apply map_Forall_insert_2; [|done]. split; [apply Hth| |done].
    intros r' [= <-]. apply Hth. by rewrite Hp.
  - intros i. specialize (H3 i). pose proof (count_begun_phase i _ t th (Calling r) Ht) as Hc.
    rewrite begun_of_idle in Hc by done. unfold with_phase, at_phase in *.
    unfold calls_of in *. rewrite List.filter_app, length_app. cbn [List.filter].
    unfold begun_of in Hc at 2. rewrite Hp, andb_true_r in Hc. unfold is_of, th_identity in Hc.
    destruct (bool_decide (Intent_Identity (th_intent th) = i)); cbn in *; lia.
  - intros intent [Hin|Hin%list_elem_of_singleton]%elem_of_app; [by apply H4|]. subst.
    destruct (thread_live _ _ _ Hth r) as (Hr & _ & Hi); [by rewrite Hp|]. by exists r.
  - intros intent a Hin. apply elem_of_app. left. by eapply H6.
  - unfold with_phase. intros t' th' r' [[<- <-]|[_ Hl]]%lookup_insert_Some Hc; apply elem_of_app;
      [right; by left | left; by eapply H7].
Qed.

Lemma journal_answered_step m w t th r a :
  journal_ok m w -> threads w !! t = Some th -> th_phase th = Calling r ->
  journal_ok m {| database := database w; locks := locks w; entries := entries w;
                  threads := with_phase w t th (Settled r (settle (th_intent th) a));
                  called := called w; answered := answered w ++ [(th_intent th, a)] |}.
Proof.
  intros [H1 H2 H3 H4 H5 H6 H7] Ht Hp. pose proof (H2 _ _ Ht) as Hth. split; cbn; try done.
  - apply map_Forall_insert_2.
    + split; cbn; [apply Hth| |].
      * intros r' [= <-]. apply Hth. by rewrite Hp.
      * intros r' o [= <- <-]. split; [apply settle_valid | apply settle_observed].
    + intros t' th' Ht'. by apply thread_ok_answers, H2 with t'.
  - intros i. specialize (H3 i).
    pose proof (count_begun_phase i _ t th (Settled r (settle (th_intent th) a)) Ht) as Hc.
    rewrite begun_of_idle in Hc by done. unfold with_phase, at_phase in *.
    unfold begun_of in Hc at 2. rewrite Hp, andb_false_r in Hc. cbn in *. lia.
  - intros i r' o Hr Ho. by eapply observed_app, H5.
  - intros intent b [Hb|[= -> ->]%list_elem_of_singleton]%elem_of_app; [by eapply H6 | by eapply H7].
  - by apply calling_phase.
Qed.

Lemma journal_recovered m w now : journal_ok m w -> in_int64 now ->
  journal_ok (recover_spec m now)
    {| database := recoverPending (database w) now; locks := ∅; entries := ∅; threads := ∅;
       called := called w; answered := answered w |} /\ grows m (recover_spec m now).
Proof.
  intros [H1 H2 H3 H4 H5 H6 H7] Hn. unfold recover_spec. split; [split; cbn|].
  - by apply recover_represented.
  - done.
  - intros i. specialize (H3 i). rewrite count_empty, lookup_fmap. destruct (m !! i); cbn in *; lia.
  - intros intent Hin. destruct (H4 _ Hin) as (r & Hr & Hi). rewrite lookup_fmap, Hr. cbn.
    eexists. split; [done|]. by case_bool_decide.
  - intros i r o [r0 [<- Hr0]]%lookup_fmap_Some. case_bool_decide as Hs; [|by apply H5 with i].
    cbn. intros [= <-]. by intros [].
  - done.
  - intros t th r. by rewrite lookup_empty.
  - intros i r Hr. rewrite lookup_fmap, Hr. cbn. eexists. split; [done|]. by case_bool_decide.
Qed.

Lemma step_journal m w w' : step w w' ->
  journal_ok m w -> locks_ok (locks w) (entries w) (threads w) ->
  exists m', journal_ok m' w' /\ grows m m'.
Proof.
  intros Hs Hok Hlocks. destruct Hs.
  - exists m. split; [|apply grows_refl]. destruct Hok as [H1' H2 H3 H4 H5 H6 H7]. split; cbn; try done.
    + apply map_Forall_insert_2; [|done]. split; cbn; try done.
      by apply CanonicalApplyIntent_Ok in H0 as [? _].
    + intros i. specialize (H3 i). rewrite count_insert_new by done. unfold begun_of at 2. cbn.
      rewrite andb_false_r. cbn. lia.
    + intros t' th' r [[<- <-]|[_ Hl]]%lookup_insert_Some; [done | by eapply H7].
  - exists m. split; [|apply grows_refl].
    exact (journal_locks m _ (locks w) (with_token w (th_entry th) false) (journal_idle m w t th Holding Hok H eq_refl)).
  - exists m. split; [by apply journal_idle | apply grows_refl].
  - destruct (begin_call_began m w th now record false db) as (m' & Hb & Hrep); try done;
      [apply Hok | by apply (journal_threads _ _ Hok t)|].
    exists m'. eapply journal_began; eauto.
  - destruct (begin_call_began m w th now record true db) as (m' & Hb & Hrep); try done;
      [apply Hok | by apply (journal_threads _ _ Hok t)|].
    exists m'. eapply journal_began; eauto.
  - exists m. split; [by apply journal_idle | apply grows_refl].
  - exists m. split; [by apply journal_idle | apply grows_refl].
  - destruct (begin_call_began m w th now record replay db) as (m' & Hb & Hrep); try done;
      [apply Hok | by apply (journal_threads _ _ Hok t)|].
    exists m'. eapply journal_began; eauto.
  - exists m. split; [by apply journal_called_step | apply grows_refl].
  - exists m. split; [by apply journal_answered_step | apply grows_refl].
  - destruct (complete_call_finishes m w t th record outcome now Hok) as (db' & Hc & Hrep); try done.
    assert (db' = db) as -> by congruence. pose proof (journal_threads _ _ Hok _ _ H) as Hth.
    destruct (thread_live _ _ _ Hth record) as (Hr & Hst & Hi); [by rewrite H0|].
    exists (<[th_identity th := finished record outcome now]> m). split; [|by apply grows_finish].
    apply journal_finished; try done; [by rewrite H0|]. rewrite Hi.
    by destruct (thread_settled _ _ _ Hth record outcome H0).
  - exists m. split; [by apply journal_idle | apply grows_refl].
  - exists m. split; [by apply journal_idle | apply grows_refl].
  - exists m. split; [|apply grows_refl].
    exact (journal_locks m _ (locks w) (with_token w (th_entry th) true) (journal_idle m w t th Dropping Hok H eq_refl)).
  - exists m. split; [|apply grows_refl]. destruct Hok as [G1 G2 G3 G4 G5 G6 G7]. split; cbn; try done.
    + by apply map_Forall_delete.
    + intros i. specialize (G3 i). pose proof (count_delete (begun_of i) _ t th H). lia.
    + intros t' th' r [_ Hl]%lookup_delete_Some. by eapply G7.
  - eexists. by apply journal_recovered.
Qed.

(** The two invariants together. *)
Definition invariant (m : ledger) (w : journal) : Prop :=
  journal_ok m w /\ locks_ok (locks w) (entries w) (threads w).

Lemma steps_invariant w w' : rtc step w w' -> forall m, invariant m w -> exists m', invariant m' w' /\ grows m m'.
Proof.
  induction 1 as [w|w1 w2 w3 Hs Hr IH]; intros m [Hok Hl]; [exists m; split; [done | apply grows_refl]|].
  destruct (step_journal m w1 w2 Hs Hok Hl) as (m2 & Hok2 & Hg2).
  destruct (IH m2) as (m3 & Hinv & Hg3); [split; [done | by eapply step_locks]|].
  exists m3. split; [done | by eapply grows_trans].
Qed.

Lemma empty_invariant : invariant ∅ empty_journal.
Proof.
  split; [|apply locks_empty]. split; cbn; try done.
  - intros intent Hin. by apply elem_of_nil in Hin.
  - intros intent a Hin. by apply elem_of_nil in Hin.
Qed.

Lemma reachable_invariant w : reachable w -> exists m, invariant m w.
Proof. intros Hr. destruct (steps_invariant _ _ Hr ∅ empty_invariant) as (m & ? & _). by exists m. Qed.
