(* ===== verification/WorkspaceProperties.v ===== *)
(** * The properties of the caller's apply journal *)

From S2P Require Import Prelude GoText GoEncoding GoTime GoJson GoStrings AgentTypes AgentCodec.
From S2P Require Import WorkspaceApply WorkspaceFacts WorkspaceJournal WorkspaceMachine.
From S2P Require Import WorkspaceMachine WorkspaceRefinement WorkspaceRuns.

Local Open Scope string_scope.
Import Workspace Journal Machine.

Lemma Lookup_represented m db i : represents m db -> ValidateApplyIdentity i = Ok tt ->
  Lookup db i = match m !! i with None => Err ErrApplyNotFound | Some r => Ok r end.
Proof.
  intros Hrep Hi. unfold Lookup. rewrite Hi. cbn [obind]. rewrite (load_represented _ _ _ Hrep).
  by destruct (m !! i).
Qed.

Lemma intent_identity_valid intent : ValidateApplyIntent intent = Ok tt ->
  ValidateApplyIdentity (Intent_Identity intent) = Ok tt.
Proof. unfold ValidateApplyIntent. intros H. ok_inv. by destruct v. Qed.

(** C25: over the whole life of a journal (any interleaving of calls, failing
    or uncertain commits, losses of the process between any two steps and
    recoveries) the applier is called at most once for an identity, and only
    after its exact intent is durable. *)
Theorem apply_at_most_once w :
  reachable w ->
  (forall i, calls_of i (called w) <= 1) /\
  (forall intent, intent ∈ called w ->
     exists r, Lookup (database w) (Intent_Identity intent) = Ok r /\ Record_Intent r = intent).
Proof.
  intros (m & Hok & _)%reachable_invariant. split.
  - intros i. pose proof (journal_calls _ _ Hok i). destruct (bool_decide _); cbn in *; lia.
  - intros intent Hin. destruct (journal_called _ _ Hok _ Hin) as (r & Hr & Hi). exists r. split; [|done].
    pose proof (proj2 (journal_rows _ _ Hok) _ _ Hr) as Hrec.
    rewrite (Lookup_represented m); [by rewrite Hr | apply Hok|].
    rewrite <- (record_identity _ _ Hrec). by apply intent_identity_valid, Hrec.
Qed.

(** C26: every record of a reachable journal is sound: [Lookup] finds nothing,
    or a record that is pending or has one valid outcome, and never
    [ErrCorruptStore]; a definite outcome (success, conflict, rejected) is
    what the applier answered to exactly this intent, a success observing its
    result revision.  Records are never lost: in every later journal the same
    intent is recorded, and a terminal record is final. *)
Theorem journal_records_sound w i :
  reachable w -> ValidateApplyIdentity i = Ok tt ->
  (Lookup (database w) i = Err ErrApplyNotFound \/
   exists r, Lookup (database w) i = Ok r /\ record_ok i r /\
     forall o, Record_Outcome r = Some o -> observed (answered w) (Record_Intent r) o /\
       (Outcome_Decision o = ApplySuccess -> Outcome_ObservedRevision o = Intent_ResultRevision (Record_Intent r))) /\
  (forall w' r, rtc step w w' -> Lookup (database w) i = Ok r ->
     exists r', Lookup (database w') i = Ok r' /\ Record_Intent r' = Record_Intent r /\
       (Record_State r <> ApplyStatePending -> r' = r)).
Proof.
  intros (m & Hinv)%reachable_invariant Hi. pose proof (proj1 Hinv) as Hok. pose proof (journal_rows _ _ Hok) as Hrep.
  rewrite (Lookup_represented m) by done. split.
  - destruct (m !! i) as [r|] eqn:Er; [right | by left]. exists r.
    pose proof (proj2 Hrep _ _ Er) as Hr. split_and!; [done..|]. intros o Ho.
    split; [by eapply journal_outcomes|]. intros Hd.
    destruct (record_stage _ _ Hr) as [|o' c _ Ho' _ Hv _ _]; [congruence|]. rewrite Ho in Ho'. injection Ho' as <-.
    unfold ValidateCASOutcome in Hv. ok_inv. rewrite Hd in *.
    match goal with H : (_ =?= _) && (_ <>? _) = false |- _ => rewrite (bool_decide_eq_true_2 _ eq_refl) in H; cbn in H end.
    by decided.
  - intros w' r Hsteps Hl. destruct (m !! i) as [r0|] eqn:Er; [|done]. injection Hl as ->.
    destruct (steps_invariant _ _ Hsteps m Hinv) as (m' & Hinv' & Hg).
    destruct (Hg i r Er) as (r' & Hr' & He & _ & Ht). exists r'.
    rewrite (Lookup_represented m'), Hr' by (apply Hinv' || done). done.
Qed.

(** C27: a call that is about to call the applier, is calling it or has its
    answer is undisturbed: its record stays pending, no concurrent call of
    the same identity is past its lock, and its completing transaction, when
    the database answers, records exactly the outcome of the answer. *)
Theorem live_apply_undisturbed w t th r :
  reachable w -> threads w !! t = Some th -> live (th_phase th) = Some r ->
  Record_State r = ApplyStatePending /\ Record_Intent r = th_intent th /\
  Lookup (database w) (th_identity th) = Ok r /\
  (forall t' th', threads w !! t' = Some th' -> th_identity th' = th_identity th ->
     t' <> t -> th_phase th' = Waiting \/ th_phase th' = Dropping) /\
  (forall o now, th_phase th = Settled r o -> in_int64 now ->
     exists db, complete_call w th o now = Ok (finished r o now, db) /\
       Lookup db (th_identity th) = Ok (finished r o now)).
Proof.
  intros (m & Hok & Hlocks)%reachable_invariant Ht Hlive. pose proof (journal_threads _ _ Hok _ _ Ht) as Hth.
  destruct (thread_live _ _ _ Hth r Hlive) as (Hr & Hs & Hi).
  assert (ValidateApplyIdentity (th_identity th) = Ok tt) as Hid by apply (intent_identity_valid _ (thread_intent _ _ _ Hth)).
  split_and!; [done | done | | |].
  - rewrite (Lookup_represented m) by (apply Hok || done). by rewrite Hr.
  - intros t' th' Ht' Hsame Hne. destruct (holds (th_phase th')) eqn:Eh; [|destruct (th_phase th'); auto; done].
    destruct Hne. eapply holders_unique; [done | exact Ht' | exact Ht | done | done | by eapply live_holds].
  - intros o now Hp Hn. destruct (complete_call_finishes m w t th r o now Hok Ht Hp Hn) as (db & Hc & Hrep).
    exists db. split; [done|]. rewrite (Lookup_represented _ _ _ Hrep Hid). by rewrite lookup_insert_eq.
Qed.

(** C28: one [Apply], on every branch.  An invalid intent is refused without
    a trace.  A new identity gets its pending record, the applier is called
    once with the intent, and its answer is recorded (an error or an invalid
    answer as indeterminate).  The same intent again is a replay: a terminal
    record as it is, a pending one left by an attempt without a durable
    outcome as indeterminate.  Another intent under the identity is
    [ErrApplyIntentConflict].  The applier is not called on any branch but
    the first, and no other identity's record changes. *)
Theorem apply_outcome m db intent applier began completed :
  represents m db -> in_int64 began -> in_int64 completed ->
  let i := Intent_Identity intent in
  let '(result, calls, db') := Apply db intent applier began completed in
  exists m', represents m' db' /\ (forall j, j <> i -> m' !! j = m !! j) /\
  match ValidateApplyIntent intent with
  | Err e => result = Err e /\ calls = [] /\ m' = m
  | Ok _ =>
      match m !! i with
      | None =>
          let final := finished (pending_record intent began) (settle intent (applier intent)) completed in
          result = Ok {| Result_Record := final; Result_Replay := false |} /\ calls = [intent] /\ m' !! i = Some final
      | Some r =>
          calls = [] /\
          (if Record_Intent r =?= intent then
             let final := if Record_State r =?= ApplyStatePending then finished r unresolvedPending began else r in
             result = Ok {| Result_Record := final; Result_Replay := true |} /\ m' !! i = Some final
           else result = Err ErrApplyIntentConflict /\ m' = m)
      end
  end.
Proof.
  intros Hrep Hb Hc. cbn zeta. unfold Apply, CanonicalApplyIntent.
  destruct (ValidateApplyIntent intent) as [[]|e] eqn:Ev; cbn [obind]; [|by exists m].
  pose proof (begin_represented m db intent began Hrep Ev Hb) as Hbegin. cbn zeta in Hbegin.
  unfold begin_spec in Hbegin. destruct (m !! Intent_Identity intent) as [r|] eqn:Em.
  - case_bool_decide as Hi; [|rewrite Hbegin; by exists m].
    case_bool_decide as Hs; destruct Hbegin as (db' & -> & Hrep'); eexists; (split; [exact Hrep'|]).
    + split_and!; [|done|done|apply lookup_insert_eq]. intros j Hj. by rewrite lookup_insert_ne.
    + done.
  - destruct Hbegin as (db1 & -> & Hrep1).
    pose proof (complete_represented _ db1 intent (settle intent (applier intent)) completed Hrep1 Ev Hc
                  (settle_valid _ _)) as Hcomplete.
    cbn zeta in Hcomplete. unfold complete_spec in Hcomplete.
    rewrite lookup_insert_eq, !(bool_decide_eq_true_2 _ eq_refl) in Hcomplete.
    destruct Hcomplete as (db2 & -> & Hrep2). eexists. split; [exact Hrep2|].
    split_and!; [|done|done|apply lookup_insert_eq]. intros j Hj. by rewrite !lookup_insert_ne.
Qed.

(** Whatever bytes a code and a message hold, the indeterminate outcome
    made of them is one the journal accepts for every intent: at most 128 and
    4096 bytes, valid UTF-8, without the characters the fields forbid. *)
Theorem indeterminate_outcome_valid code message intent :
  ValidateCASOutcome (IndeterminateOutcome code message) intent = Ok tt.
Proof. apply IndeterminateOutcome_valid. Qed.

(* ------------------------------------------------------------------ *)
(** ** A run *)

Definition demo_payload : Payload := {| Payload_MediaType := "text/plain"; Payload_Data := "hello" |}.
Definition demo_intent : ApplyIntent :=
  {| Intent_Identity := {| Identity_Authority := "auth"; Identity_Workspace := "ws"; Identity_Artifact := "art" |};
     Intent_ArtifactDigest := sha256Digest "artifact"; Intent_PayloadDigest := DigestPayload demo_payload;
     Intent_BaseRevision := "r0"; Intent_ResultRevision := "r1"; Intent_Payload := demo_payload |}.
Definition demo_answer : CASOutcome :=
  {| Outcome_Decision := ApplySuccess; Outcome_ObservedRevision := "r1"; Outcome_Code := ""; Outcome_Message := "" |}.

Lemma demo_canonical :
  CanonicalApplyIntent demo_intent = Ok (encoded demo_intent, sha256Digest (encoded demo_intent)).
Proof. vm_compute. reflexivity. Qed.

Definition demo_thread (p : phase) : thread := {| th_intent := demo_intent; th_entry := 0; th_phase := p |}.
Definition demo_record : ApplyRecord := pending_record demo_intent 7.

(** A journal whose one call has its answer. *)
Definition demo_rows : table := <[Intent_Identity demo_intent := row_of demo_record]> ∅.
Definition demo_world (p : phase) (es : gmap nat applyLockEntry) (db : table) calls answers : journal :=
  {| database := db; locks := <[Intent_Identity demo_intent := 0]> ∅; entries := es;
     threads := <[0 := demo_thread p]> ∅; called := calls; answered := answers |}.
Definition demo_settled : journal :=
  demo_world (Settled demo_record demo_answer) (<[0 := {| token := false; refs := 1 |}]> ∅) demo_rows
    [demo_intent] [(demo_intent, inl demo_answer)].

Lemma demo_reachable : reachable demo_settled.
Proof.
  unfold reachable. eapply rtc_l.
  { apply (enter _ 0 demo_intent 0 (<[Intent_Identity demo_intent := 0]> ∅) (<[0 := {| token := true; refs := 1 |}]> ∅));
      [reflexivity | apply demo_canonical | reflexivity]. }
  eapply rtc_l.
  { apply (take_token _ 0 (demo_thread Waiting) {| token := true; refs := 1 |}); reflexivity. }
  eapply rtc_l.
  { eapply (begin_new _ 0 (demo_thread Holding) 7 demo_record demo_rows); [reflexivity..|split; vm_compute; discriminate|].
    vm_compute. reflexivity. }
  eapply rtc_l.
  { by apply (call_applier _ 0 (demo_thread (Begun demo_record)) demo_record). }
  eapply rtc_l.
  { by apply (applier_returns _ 0 (demo_thread (Calling demo_record)) demo_record (inl demo_answer)). }
  enough (demo_settled = _) as <- by apply rtc_refl. vm_compute. reflexivity.
Qed.

Lemma demo_live : live (th_phase (demo_thread (Settled demo_record demo_answer))) = Some demo_record.
Proof. done. Qed.

Lemma apply_at_most_once_witness : calls_of (Intent_Identity demo_intent) (called demo_settled) <= 1.
Proof. exact (proj1 (apply_at_most_once demo_settled demo_reachable) (Intent_Identity demo_intent)). Defined.

Lemma journal_records_sound_witness :
  exists r, Lookup (database demo_settled) (Intent_Identity demo_intent) = Ok r /\ Record_State r = ApplyStatePending.
Proof.
  destruct (proj1 (journal_records_sound demo_settled (Intent_Identity demo_intent) demo_reachable ltac:(reflexivity)))
    as [H|(r & Hr & _)].
  - exfalso. revert H. vm_compute. discriminate.
  - exists r. split; [exact Hr|]. revert Hr. vm_compute. by intros [= <-].
Defined.

Lemma live_apply_undisturbed_witness :
  Lookup (database demo_settled) (Intent_Identity demo_intent) = Ok demo_record.
Proof.
  exact (proj1 (proj2 (proj2 (live_apply_undisturbed demo_settled 0 (demo_thread (Settled demo_record demo_answer))
    demo_record demo_reachable ltac:(reflexivity) demo_live)))).
Defined.

Lemma apply_outcome_witness :
  exists m', represents m' (snd (Apply ∅ demo_intent (fun _ => inl demo_answer) 7 8)) /\
    m' !! Intent_Identity demo_intent = Some (finished demo_record demo_answer 8).
Proof.
  pose proof (apply_outcome ∅ ∅ demo_intent (fun _ => inl demo_answer) 7 8) as H.
  destruct (Apply ∅ demo_intent (fun _ => inl demo_answer) 7 8) as [[result calls] db'].
  destruct H as (m' & Hrep & _ & Hm);
    [split; [done | apply map_Forall_empty] | split; vm_compute; discriminate | split; vm_compute; discriminate|].
  exists m'. split; [exact Hrep|].
  assert (ValidateApplyIntent demo_intent = Ok tt) as Hv by (vm_compute; reflexivity). rewrite Hv in Hm.
  exact (proj2 (proj2 Hm)).
Defined.
