(* ===== verification/CompletionSafety.v ===== *)
(** * Virtual paths and commands (internal/completion/safety/path.go)

    The gateway's lexical check of the paths a worker names, its warning
    labels, and what an accepted path guarantees. *)

From S2P Require Import Prelude GoText GoJson GoStrings.

Local Open Scope string_scope.

Module Safety.

Inductive Operation := OperationRead | OperationWrite | OperationDelete | OperationRename | OperationOther (s : string).
Inductive Severity := SeverityAllow | SeverityWarn | SeverityBlock.

#[export] Instance Operation_eq_dec : EqDecision Operation.
Proof. solve_decision. Defined.
#[export] Instance Severity_eq_dec : EqDecision Severity.
Proof. solve_decision. Defined.

Record PathDecision := {
  Path_Normalized : string; Path_Relative : string; Path_Severity : Severity; Path_Reasons : list string }.

Definition sensitiveSegments : list string :=
  [".env"; ".ssh"; ".aws"; ".gcp"; ".azure"; ".npmrc"; ".pypirc"].

(** Where the loop over the segments breaks off. *)
Definition warns (severity : Severity) (segment : string) : bool :=
  existsb (String.eqb segment) sensitiveSegments && (severity <>? SeverityBlock).

Definition CheckVirtualPath (input : string) (operation : Operation) : outcome string PathDecision :=
  check refuse_if (is_empty (TrimSpace input)) "path is required" then
  let normalizedInput := ReplaceByte "\" "/" (TrimSpace input) in
  let normalizedInput := if HasPrefix normalizedInput "/" then normalizedInput else "/workspace/" ++ normalizedInput in
  let normalized := CleanRooted normalizedInput in
  if (normalized <>? "/workspace") && negb (HasPrefix normalized "/workspace/") then
    Ok {| Path_Normalized := normalized; Path_Relative := ""; Path_Severity := SeverityBlock;
          Path_Reasons := ["path escapes /workspace"] |}
  else
    let relative :=
      if normalized =?= "/workspace" then "."
      else default normalized (strip_prefix "/workspace/" normalized) in
    let segments := Split "/" (ToLower relative) in
    let blocked := (operation <>? OperationRead) && existsb (String.eqb ".git") segments in
    let severity := if blocked then SeverityBlock else SeverityAllow in
    let reasons := if blocked then ["writes to .git are forbidden"] else [] in
    if existsb (warns severity) segments
    then Ok {| Path_Normalized := normalized; Path_Relative := relative; Path_Severity := SeverityWarn;
               Path_Reasons := (reasons ++ ["path may contain secrets"])%list |}
    else Ok {| Path_Normalized := normalized; Path_Relative := relative; Path_Severity := severity;
               Path_Reasons := reasons |}.

Record CommandDecision := { Command_Severity : Severity; Command_Reasons : list string }.

Definition dangerousCommandFragments : list string :=
  ["rm -rf"; "curl|sh"; "curl | sh"; "wget|sh"; "wget | sh"; "sudo "; "> /dev/"; "mkfs"; "shutdown"; "reboot"].

Definition CheckCommand (command : string) (enabled : bool) : CommandDecision :=
  if negb enabled then {| Command_Severity := SeverityBlock; Command_Reasons := ["command capability is disabled"] |}
  else if existsb (Contains (ToLower command)) dangerousCommandFragments
  then {| Command_Severity := SeverityWarn; Command_Reasons := ["command matches a dangerous pattern"] |}
  else {| Command_Severity := SeverityAllow; Command_Reasons := [] |}.

Example check_escape : (let? d := CheckVirtualPath "\workspace\..\..\Windows\system.ini" OperationRead in
  Ok (Path_Severity d)) = Ok SeverityBlock.
Proof. reflexivity. Qed.
Example check_git : (let? d := CheckVirtualPath "/workspace/.GIT/hooks/pre-commit" OperationWrite in
  Ok (Path_Severity d)) = Ok SeverityBlock.
Proof. reflexivity. Qed.
Example check_secret : CheckVirtualPath "/workspace/.ssh/id_ed25519" OperationRead =
  Ok {| Path_Normalized := "/workspace/.ssh/id_ed25519"; Path_Relative := ".ssh/id_ed25519";
        Path_Severity := SeverityWarn; Path_Reasons := ["path may contain secrets"] |}.
Proof. reflexivity. Qed.

End Safety.

Import Safety.

(* ------------------------------------------------------------------ *)
(** ** What an accepted path guarantees *)

(** An ASCII byte is decoded on its own, whatever comes before it. *)
Lemma runes_before_ascii w a s : (byte_of a < 128)%N ->
  runes (w ++ String a s) = (runes w ++ runes (String a s))%list.
Proof.
  intros Ha.
  assert (cont a = false) as Hc. { unfold cont, in_range. apply andb_false_iff. left. apply N.leb_gt. lia. }
  assert (forall x, second3 x a = false /\ second4 x a = false) as Hs.
  { intros x. unfold second3, second4, in_range. split; apply andb_false_iff; left; apply N.leb_gt; case_match; lia. }
  assert (forall n w, (String.length w <= n)%nat -> runes (w ++ String a s) = (runes w ++ runes (String a s))%list) as H.
  { clear w. intros n. induction n as [|n IH]; intros w Hn; [destruct w; [done | cbn in Hn; lia]|].
    destruct w as [|x w1]; [done|]. cbn [String.length] in Hn.
    assert (forall w2, (String.length w2 <= n)%nat -> runes (w2 ++ String a s) = (runes w2 ++ runes (String a s))%list) as IH'.
    { auto. }
    cbn [append runes].
    destruct (byte_of x <? 128)%N; [cbn [app]; f_equal; apply IH'; lia|].
    destruct (byte_of x <? 194)%N; [cbn [app]; f_equal; apply IH'; lia|].
    destruct (byte_of x <? 224)%N.
    { destruct w1 as [|y w2]; cbn [append]; [by rewrite Hc|].
      destruct (cont y); cbn [app]; f_equal; [apply IH'; cbn [String.length] in Hn; lia|].
      apply (IH' (String y w2)). lia. }
    destruct (byte_of x <? 240)%N.
    { destruct w1 as [|y [|z w3]]; cbn [append].
      - destruct (Hs x) as [-> _]. cbn. by destruct s.
      - rewrite Hc, andb_false_r. cbn [app]. f_equal. apply (IH' (String y "")). cbn in *. lia.
      - destruct (second3 x y && cont z); cbn [app]; f_equal; [apply IH'; cbn [String.length] in Hn; lia|].
        apply (IH' (String y (String z w3))). lia. }
    destruct (byte_of x <? 245)%N; [|cbn [app]; f_equal; apply IH'; lia].
    destruct w1 as [|y [|z [|u w4]]]; cbn [append].
    - destruct (Hs x) as [_ ->]. cbn [andb app]. by destruct s as [|? []].
    - rewrite Hc, andb_false_r. cbn [andb app]. destruct s; f_equal; apply (IH' (String y "")); cbn in *; lia.
    - rewrite Hc, andb_false_r. cbn [app]. f_equal. apply (IH' (String y (String z ""))). cbn in *. lia.
    - destruct (second4 x y && cont z && cont u); cbn [app]; f_equal; [apply IH'; cbn [String.length] in Hn; lia|].
      apply (IH' (String y (String z (String u w4)))). lia. }
  by apply (H (String.length w)).
Qed.

Lemma concat_strings_app l1 l2 : concat_strings (l1 ++ l2) = concat_strings l1 ++ concat_strings l2.
Proof. induction l1 as [|s l1 IH]; [done|]. cbn. by rewrite IH, string_app_assoc. Qed.

Lemma ToLower_slash w s : ToLower (w ++ String "/" s) = ToLower w ++ String "/" (ToLower s).
Proof.
  unfold ToLower. rewrite runes_before_ascii by done. rewrite fmap_app, concat_strings_app. f_equal.
Qed.

Lemma no_byte_app c a b : no_byte c (a ++ b) = no_byte c a && no_byte c b.
Proof. apply string_forallb_app. Qed.

Lemma no_byte_concat c l : no_byte c (concat_raw l) = forallb (fun x => no_byte c (raw x)) l.
Proof. induction l as [|x l IH]; [done|]. by rewrite concat_raw_cons, no_byte_app, IH. Qed.

Lemma lower_chunk_no_slash c : no_byte "/" (raw c) = true -> no_byte "/" (lower_chunk c) = true.
Proof.
  unfold lower_chunk. intros Hr. destruct (in_range 65 90 (rune c)) eqn:E; [|repeat case_match; done].
  unfold in_range in E. apply andb_true_iff in E as [H1%N.leb_le H2%N.leb_le].
  unfold no_byte. cbn [string_forallb str1]. rewrite andb_true_r. apply negb_true_iff, Ascii.eqb_neq. intros Heq.
  apply (f_equal N_of_ascii) in Heq. rewrite N_ascii_embedding in Heq by lia. cbn in Heq. lia.
Qed.

Lemma ToLower_no_slash w : no_byte "/" w = true -> no_byte "/" (ToLower w) = true.
Proof.
  intros Hw. rewrite <- (runes_raw w), no_byte_concat in Hw. unfold ToLower.
  induction (runes w) as [|c l IH]; [done|]. cbn [forallb] in Hw. apply andb_true_iff in Hw as [Hc Hl].
  change (concat_strings (lower_chunk <$> (c :: l))) with (lower_chunk c ++ concat_strings (lower_chunk <$> l)).
  rewrite no_byte_app, lower_chunk_no_slash, IH; done.
Qed.

Lemma Split_ToLower l : l <> [] -> Forall (fun w => no_byte "/" w = true) l ->
  Split "/" (ToLower (Join_sep "/" l)) = ToLower <$> l.
Proof.
  intros Hl H. induction H as [|w ws Hw Hws IH]; [done|].
  destruct ws as [|w' ws]; [by apply Split_no_sep, ToLower_no_slash|].
  change (Join_sep "/" (w :: w' :: ws)) with (w ++ String "/" (Join_sep "/" (w' :: ws))).
  rewrite ToLower_slash, Split_cons by by apply ToLower_no_slash. rewrite IH by done. done.
Qed.

Lemma strip_prefix_append p s t : strip_prefix p s = Some t -> s = p ++ t.
Proof.
  revert s. induction p as [|a p IH]; intros s; cbn; [by intros [= ->]|].
  destruct s as [|b s]; [done|]. destruct (Ascii.eqb_spec a b) as [->|]; [|done]. by intros ->%IH.
Qed.

(** The normalized path is under /workspace: its elements. *)
Definition under_workspace (normalized : string) : bool :=
  (normalized =?= "/workspace") || HasPrefix normalized "/workspace/".

Definition relative_of (normalized : string) : string :=
  if normalized =?= "/workspace" then "." else default normalized (strip_prefix "/workspace/" normalized).

Definition relative_text (rest : list string) : string := match rest with [] => "." | _ => Join_sep "/" rest end.

Lemma under_workspace_elements elements : Forall plain elements ->
  let normalized := String "/" (Join_sep "/" elements) in
  under_workspace normalized = true ->
  exists rest, elements = "workspace" :: rest /\ relative_of normalized = relative_text rest.
Proof.
  intros Hp. cbn zeta. unfold under_workspace, relative_of.
  assert (Forall (fun w => no_byte "/" w = true) elements) as Hno.
  { eapply Forall_impl; [exact Hp|]. by intros ? (_ & _ & _ & ?). }
  destruct elements as [|w rest]; [done|].
  assert (Split "/" (Join_sep "/" (w :: rest)) = w :: rest) as Hsplit by by apply Split_Join.
  case_bool_decide as Heq.
  - intros _. injection Heq as Heq. change (Join_sep "/" (w :: rest) = "workspace") in Heq. rewrite Heq in Hsplit. cbn in Hsplit. injection Hsplit as <- <-. by exists [].
  - unfold HasPrefix. destruct (strip_prefix "/workspace/" (String "/" (Join_sep "/" (w :: rest)))) as [t|] eqn:E; [|done].
    intros _. apply strip_prefix_append in E. injection E as E.
    change (Join_sep "/" (w :: rest) = "workspace/" ++ t) in E. rewrite E in Hsplit.
    change ("workspace/" ++ t)%string with ("workspace" ++ String "/" t)%string in Hsplit.
    rewrite (Split_cons "/" "workspace" t eq_refl) in Hsplit. injection Hsplit as <- <-.
    exists (Split "/" t). split; [done|]. cbn [default].
    rewrite <- (Join_Split "/" t) at 1. by destruct (Split "/" t) as [|] eqn:Es; [by pose proof (Split_nonempty "/" t)|].
Qed.

Lemma existsb_spec_false {A} (f : A -> bool) l : existsb f l = false <-> forall x, x ∈ l -> f x = false.
Proof.
  rewrite <- not_true_iff_false, existsb_exists. split.
  - intros H x Hx. apply not_true_iff_false. intros Hf. apply H. exists x. by rewrite <- list_elem_of_In.
  - intros H (x & Hx & Hf). apply list_elem_of_In in Hx. rewrite H in Hf; done.
Qed.

(** The segments the check looks at. *)
Lemma relative_segments rest : Forall plain rest ->
  Split "/" (ToLower (relative_text rest)) = match rest with [] => ["."] | _ => ToLower <$> rest end.
Proof.
  intros Hp. destruct rest as [|w rest]; [done|]. cbn [relative_text]. apply Split_ToLower; [done|].
  eapply Forall_impl; [exact Hp|]. by intros ? (_ & _ & _ & ?).
Qed.

Lemma segment_in rest w : Forall plain rest -> w ∈ rest -> ToLower w ∈ Split "/" (ToLower (relative_text rest)).
Proof.
  intros Hp Hw. rewrite relative_segments by done. destruct rest; [by apply elem_of_nil in Hw|].
  by apply list_elem_of_fmap_2.
Qed.

(** C35: a decision names a clean path (cleaning it again changes nothing).
    A path that is not blocked lies under /workspace: its elements after
    "workspace" hold no "..", no ".", no empty one and no slash, so that no
    walk along them leaves the directory, and they are the relative path of
    the decision; a path to write has none that is ".git" in any letter case,
    and one that is allowed without a warning has no sensitive element.  A
    path is blocked only when it leaves /workspace or writes to ".git". *)
Theorem path_decision_sound input operation d :
  CheckVirtualPath input operation = Ok d ->
  let elements := clean_elements (Path_Normalized d) in
  CleanRooted (Path_Normalized d) = Path_Normalized d /\
  (Path_Severity d <> SeverityBlock ->
     exists rest, elements = "workspace" :: rest /\ Forall plain rest /\ Path_Relative d = relative_text rest /\
       (operation <> OperationRead -> forall w, w ∈ rest -> ToLower w <> ".git") /\
       (Path_Severity d = SeverityAllow -> forall w, w ∈ rest -> ToLower w ∉ sensitiveSegments)) /\
  (Path_Severity d = SeverityBlock ->
     under_workspace (Path_Normalized d) = false \/
     operation <> OperationRead /\ exists rest w, elements = "workspace" :: rest /\ w ∈ rest /\ ToLower w = ".git").
Proof.
  unfold CheckVirtualPath. intros H. ok_step H. cbn zeta in H. clear Hv v.
  set (full := if HasPrefix _ "/" then _ else _) in H. set (normalized := CleanRooted full) in *.
  assert (CleanRooted normalized = normalized) as Hclean by apply CleanRooted_idempotent.
  pose proof (clean_elements_plain full) as Hplain.
  assert (clean_elements normalized = clean_elements full) as Hel by by apply clean_elements_join.
  destruct (under_workspace normalized) eqn:Eu.
  2: { assert ((normalized <>? "/workspace") && negb (HasPrefix normalized "/workspace/") = true) as Hout.
       { unfold under_workspace in Eu. apply orb_false_iff in Eu as [-> ->]. done. }
       rewrite Hout in H. injection H as <-. cbn [Path_Normalized Path_Severity Path_Relative]. split_and!; [done | done | by left]. }
  assert ((normalized <>? "/workspace") && negb (HasPrefix normalized "/workspace/") = false) as Hin.
  { unfold under_workspace in Eu. destruct (normalized =?= "/workspace"); [done|]. cbn in *. by rewrite Eu. }
  rewrite Hin in H. fold (relative_of normalized) in H.
  destruct (under_workspace_elements _ Hplain Eu) as (rest & Hrest & Hrel).
  change (String "/" (Join_sep "/" (clean_elements full))) with normalized in Hrel.
  rewrite Hrel in H. rewrite Hrest in Hplain, Hel. inversion Hplain as [|? ? _ Hp]; subst.
  set (segments := Split "/" (ToLower (relative_text rest))) in *.
  set (blocked := (operation <>? OperationRead) && existsb (String.eqb ".git") segments) in *.
  assert (blocked = false -> operation <> OperationRead -> forall w, w ∈ rest -> ToLower w <> ".git") as Hgit.
  { unfold blocked. intros Hb Hop w Hw Heq. rewrite (bool_decide_eq_false_2 _ Hop) in Hb. cbn in Hb.
    rewrite existsb_spec_false in Hb. specialize (Hb _ (segment_in _ _ Hp Hw)). rewrite Heq in Hb. done. }
  assert (blocked = true -> operation <> OperationRead /\
            exists rest' w, "workspace" :: rest = "workspace" :: rest' /\ w ∈ rest' /\ ToLower w = ".git") as Hblock.
  { unfold blocked. rewrite andb_true_iff. intros [Hop Hb]. decided. split; [done|].
    apply existsb_exists in Hb as (x & Hx & Heq). apply String.eqb_eq in Heq as <-. apply list_elem_of_In in Hx.
    unfold segments in Hx. rewrite relative_segments in Hx by done.
    destruct rest as [|w0 rest]; [by apply list_elem_of_singleton in Hx|].
    apply list_elem_of_fmap in Hx as (w & -> & Hw). by exists (w0 :: rest), w. }
  destruct (existsb (warns (if blocked then SeverityBlock else SeverityAllow)) segments) eqn:Ew;
    injection H as <-; cbn [Path_Normalized Path_Severity Path_Relative]; rewrite Hel; (split; [done|]); split; try done.
  - intros _. exists rest. split_and!; try done. apply Hgit.
    destruct blocked; [|done]. apply existsb_exists in Ew as (x & _ & Hx). unfold warns in Hx.
    rewrite andb_false_r in Hx. done.
  - destruct blocked eqn:Eb; [done|]. intros _. exists rest. split_and!; try done; [by apply Hgit|].
    intros _ w Hw Hs. rewrite existsb_spec_false in Ew. specialize (Ew _ (segment_in _ _ Hp Hw)).
    unfold warns in Ew. rewrite andb_true_r in Ew. rewrite existsb_spec_false in Ew.
    specialize (Ew _ Hs). by rewrite String.eqb_refl in Ew.
  - destruct blocked; [|done]. intros _. right. by apply Hblock.
Qed.

Lemma path_decision_sound_witness :
  CleanRooted "/workspace/.ssh/id_ed25519" = "/workspace/.ssh/id_ed25519".
Proof. exact (proj1 (path_decision_sound "/workspace/.ssh/id_ed25519" OperationRead _ check_secret)). Defined.
