(* ===== verification/LlmTypes.v ===== *)
(** * The vocabulary of HumanLLM (llm/types.go, llm/store_types.go,
    llm/store.go, llm/codec.go, llm/transport.go, llm/service_types.go)

    Canonical requests and events, the records of the store, codec identities
    and limits, deliveries and receipts, with their validation.  A string type
    of the code with named constants is an inductive with a constructor for
    every other spelling.  A [json.RawMessage], a []byte that can be nil and a
    [*string] are options of strings; a nil slice and an empty one are one
    list.  An error is its identity under [errors.Is]; texts without a sentinel
    are [ErrText]. *)

From S2P Require Import Prelude GoText GoEncoding GoTime GoJson GoStrings GoDoc.
From S2P Require Import AgentTypes Framework.

Local Open Scope string_scope.

Module Llm.

(* ------------------------------------------------------------------ *)
(** ** Named strings *)

Abbreviation CallerID := string.
Abbreviation TaskID := string.
Abbreviation IdempotencyKey := string.
Abbreviation WorkerID := string.
Abbreviation WorkerLeaseID := string.
Abbreviation WorkerSessionID := string.
Abbreviation WorkerDeliveryID := string.
Abbreviation ToolCallID := string.
Abbreviation CodecID := string.
Abbreviation StoreDigest := string.
Abbreviation bytes := (option string).

Inductive TaskState :=
  | TaskLeased | TaskAwaitingHuman | TaskAwaitingCaller | TaskAwaitingResults
  | TaskCompleted | TaskRejected | TaskExpired | TaskFailed | TaskStateOther (s : string).
Inductive CapabilityTier := TierChat | TierRemoteTools | TierWorkspace | TierOther (s : string).
Inductive EventType :=
  | EventAccepted | EventProgress | EventFinal | EventClarification | EventToolCalls
  | EventRejected | EventExpired | EventFailed | EventUnavailable | EventTypeOther (s : string).
Inductive ToolInputKind := ToolInputJSON | ToolInputText | ToolInputOther (s : string).
Inductive ToolCallPolicy := ToolCallsUnset | ToolCallsDisabled | ToolCallsSerial | ToolCallsParallel | ToolCallsOther (s : string).
Inductive Role := RoleSystem | RoleUser | RoleAssistant | RoleTool | RoleOther (s : string).
Inductive BlockType := BlockText | BlockImage | BlockToolUse | BlockToolResult | BlockTypeOther (s : string).
Inductive ResponseMode := ResponseStream | ResponseAggregate | ResponseModeOther (s : string).
Inductive StoreResponseEventKind := StoreEventCheckpoint | StoreEventWire | EventKindOther (s : string).
Inductive ToolExecutionState := ToolExecutionPending | ToolExecutionCompleted | ToolExecutionOther (s : string).
Inductive WorkerRejectionCode :=
  | WorkerRejectInvalid | WorkerRejectForbidden | WorkerRejectNotFound | WorkerRejectStaleLease
  | WorkerRejectResponseClosed | WorkerRejectEventConflict | WorkerRejectStateConflict
  | WorkerRejectToolConflict | WorkerRejectOther (s : string).
Inductive WorkerEventDecision := WorkerEventACK | WorkerEventNACK | WorkerEventOther (s : string).
Inductive AssignmentBoundary := AssignmentAfterAdmission | AssignmentAfterResponse | AssignmentBoundaryOther (s : string).

#[export] Instance TaskState_eq_dec : EqDecision TaskState.
Proof. solve_decision. Defined.
#[export] Instance CapabilityTier_eq_dec : EqDecision CapabilityTier.
Proof. solve_decision. Defined.
#[export] Instance EventType_eq_dec : EqDecision EventType.
Proof. solve_decision. Defined.
#[export] Instance ToolInputKind_eq_dec : EqDecision ToolInputKind.
Proof. solve_decision. Defined.
#[export] Instance ToolCallPolicy_eq_dec : EqDecision ToolCallPolicy.
Proof. solve_decision. Defined.
#[export] Instance Role_eq_dec : EqDecision Role.
Proof. solve_decision. Defined.
#[export] Instance BlockType_eq_dec : EqDecision BlockType.
Proof. solve_decision. Defined.
#[export] Instance ResponseMode_eq_dec : EqDecision ResponseMode.
Proof. solve_decision. Defined.
#[export] Instance StoreResponseEventKind_eq_dec : EqDecision StoreResponseEventKind.
Proof. solve_decision. Defined.
#[export] Instance ToolExecutionState_eq_dec : EqDecision ToolExecutionState.
Proof. solve_decision. Defined.
#[export] Instance WorkerRejectionCode_eq_dec : EqDecision WorkerRejectionCode.
Proof. solve_decision. Defined.
#[export] Instance WorkerEventDecision_eq_dec : EqDecision WorkerEventDecision.
Proof. solve_decision. Defined.
#[export] Instance AssignmentBoundary_eq_dec : EqDecision AssignmentBoundary.
Proof. solve_decision. Defined.

Definition TaskState_Valid (state : TaskState) : bool :=
  match state with TaskStateOther _ => false | _ => true end.
Definition TaskState_Terminal (state : TaskState) : bool :=
  match state with TaskCompleted | TaskRejected | TaskExpired | TaskFailed => true | _ => false end.

Definition CapabilityTier_string (t : CapabilityTier) : string :=
  match t with TierChat => "chat" | TierRemoteTools => "remote_tools" | TierWorkspace => "workspace" | TierOther s => s end.
Definition EventType_string (t : EventType) : string :=
  match t with
  | EventAccepted => "accepted" | EventProgress => "progress" | EventFinal => "final"
  | EventClarification => "clarification" | EventToolCalls => "tool_calls" | EventRejected => "rejected"
  | EventExpired => "expired" | EventFailed => "failed" | EventUnavailable => "unavailable"
  | EventTypeOther s => s
  end.
Definition EventType_of_string (s : string) : EventType :=
  if String.eqb s "accepted" then EventAccepted
  else if String.eqb s "progress" then EventProgress
  else if String.eqb s "final" then EventFinal
  else if String.eqb s "clarification" then EventClarification
  else if String.eqb s "tool_calls" then EventToolCalls
  else if String.eqb s "rejected" then EventRejected
  else if String.eqb s "expired" then EventExpired
  else if String.eqb s "failed" then EventFailed
  else if String.eqb s "unavailable" then EventUnavailable
  else EventTypeOther s.
Definition ToolInputKind_string (k : ToolInputKind) : string :=
  match k with ToolInputJSON => "" | ToolInputText => "text" | ToolInputOther s => s end.
Definition ToolInputKind_of_string (s : string) : ToolInputKind :=
  if is_empty s then ToolInputJSON else if String.eqb s "text" then ToolInputText else ToolInputOther s.
Definition ToolCallPolicy_string (p : ToolCallPolicy) : string :=
  match p with
  | ToolCallsUnset => "" | ToolCallsDisabled => "disabled" | ToolCallsSerial => "serial"
  | ToolCallsParallel => "parallel" | ToolCallsOther s => s
  end.
Definition ToolCallPolicy_of_string (s : string) : ToolCallPolicy :=
  if is_empty s then ToolCallsUnset
  else if String.eqb s "disabled" then ToolCallsDisabled
  else if String.eqb s "serial" then ToolCallsSerial
  else if String.eqb s "parallel" then ToolCallsParallel
  else ToolCallsOther s.
Definition Role_string (r : Role) : string :=
  match r with RoleSystem => "system" | RoleUser => "user" | RoleAssistant => "assistant" | RoleTool => "tool" | RoleOther s => s end.
Definition Role_of_string (s : string) : Role :=
  if String.eqb s "system" then RoleSystem
  else if String.eqb s "user" then RoleUser
  else if String.eqb s "assistant" then RoleAssistant
  else if String.eqb s "tool" then RoleTool
  else RoleOther s.
Definition BlockType_string (t : BlockType) : string :=
  match t with
  | BlockText => "text" | BlockImage => "image" | BlockToolUse => "tool_use"
  | BlockToolResult => "tool_result" | BlockTypeOther s => s
  end.
Definition BlockType_of_string (s : string) : BlockType :=
  if String.eqb s "text" then BlockText
  else if String.eqb s "image" then BlockImage
  else if String.eqb s "tool_use" then BlockToolUse
  else if String.eqb s "tool_result" then BlockToolResult
  else BlockTypeOther s.
Definition AssignmentBoundary_string (b : AssignmentBoundary) : string :=
  match b with
  | AssignmentAfterAdmission => "admission_committed" | AssignmentAfterResponse => "response_committed"
  | AssignmentBoundaryOther s => s
  end.

(* ------------------------------------------------------------------ *)
(** ** Errors *)

Inductive StoreRecordKind :=
  | StoreRecordTask | StoreRecordRequest | StoreRecordResponseEvent | StoreRecordWorkerReceipt
  | StoreRecordToolExecution | StoreRecordRecoveryCursor.
Inductive StoreConstraint :=
  | StoreConstraintDeploymentBinding | StoreConstraintTaskKey | StoreConstraintOpenAffinity
  | StoreConstraintRequestKey | StoreConstraintActiveRequest | StoreConstraintResponseSequence
  | StoreConstraintWorkerEvent | StoreConstraintWorkerReceipt | StoreConstraintToolCall
  | StoreConstraintImmutableRecord | StoreConstraintCompareAndSwap.

#[export] Instance StoreRecordKind_eq_dec : EqDecision StoreRecordKind.
Proof. solve_decision. Defined.
#[export] Instance StoreConstraint_eq_dec : EqDecision StoreConstraint.
Proof. solve_decision. Defined.

(** [AdmissionFailure]. *)
Record AdmissionFailure := { Failure_Status : Z; Failure_Code : string; Failure_Message : string }.

#[export] Instance AdmissionFailure_eq_dec : EqDecision AdmissionFailure.
Proof. solve_decision. Defined.

Inductive error :=
  (* llm/store.go *)
  | ErrStoreDescription | ErrStoreRecordNotFound | ErrStoreConflict | ErrStoreCommitUnknown
  | ErrStoreClosed | ErrStoreRecordTooLarge | ErrStoreInvalidArgument | ErrStoreCorruptRecord
  | StoreNotFoundError (Record_ : StoreRecordKind) (Key : string)
  | StoreConflictError (Constraint_ : StoreConstraint) (Key : string)
  | StoreLimitError (Record_ : StoreRecordKind) (Limit : Z)
  (* llm/service_types.go *)
  | ErrInvalidServiceConfig | ErrServiceClosed | ErrIdempotencyConflict | ErrReplayExpired
  | ErrTaskConflict | ErrWorkerUnavailable | ErrWorkerRouteDenied | ErrWorkerRouterRequired
  | ErrResponseNotFound | ErrResponseDigest
  | AdmissionError (Failure : AdmissionFailure) (ContentType RetryAfter Body : string) (Cause : error)
  (* llm/transport.go, llm/caller_transport.go *)
  | ErrWorkerTransportDescription | ErrCallerTransportDescription
  | ErrWorkerPrincipal | ErrWorkerDelivery | ErrWorkerConnectionConflict
  | ErrWorkerDeliveryNotFound | ErrWorkerDeliveryConflict | ErrWorkerDeliveryIndeterminate
  | WorkerDeliveryError (Delivery : WorkerDeliveryID) (EventID : string) (Cause : error)
  (* llm/codec.go, llm/service_blob.go *)
  | ErrInvalidCodecContract | errPersistedPayloadLimit
  (* errors without a sentinel, errors of other packages, errors.Join *)
  | ErrText (s : string)
  | ErrOf (e : AgentTypes.error)
  | Join (left right : error).

#[export] Instance error_eq_dec : EqDecision error.
Proof. solve_decision. Defined.

(** [errors.Is]: the error or one it unwraps to is the target. *)
Fixpoint errors_Is (e target : error) : bool :=
  (e =?= target) ||
  match e with
  | StoreNotFoundError _ _ => ErrStoreRecordNotFound =?= target
  | StoreConflictError _ _ => ErrStoreConflict =?= target
  | StoreLimitError _ _ => ErrStoreRecordTooLarge =?= target
  | AdmissionError _ _ _ _ cause => errors_Is cause target
  | WorkerDeliveryError _ _ cause => errors_Is cause target
  | Join l r => errors_Is l target || errors_Is r target
  | _ => false
  end.

Abbreviation res A := (outcome error A).

(** A result of another package. *)
Definition of_other {A} (m : outcome AgentTypes.error A) : res A :=
  match m with Ok a => Ok a | Err e => Err (ErrOf e) end.

(** [fmt.Errorf("%w", sentinel)] in place of the error of a call. *)
Definition wrap {A E} (e : error) (m : outcome E A) : res A :=
  match m with Ok a => Ok a | Err _ => Err e end.

(* ------------------------------------------------------------------ *)
(** ** Canonical requests (llm/types.go) *)

Record Block := {
  Block_Type : BlockType; Block_Text : string; Block_ImageURL : string; Block_ToolCallID : string;
  Block_ToolNamespace : string; Block_ToolName : string;
  Block_Input : option (list (string * value)); Block_TextInput : option string;
  Block_Output : value; Block_IsError : bool }.
Record Message := { Message_Role : Role; Message_Blocks : list Block }.
Record Tool := {
  Tool_Namespace : string; Tool_Name : string; Tool_Description : string; Tool_InputKind : ToolInputKind;
  Tool_InputSchema : bytes; Tool_InputFormat : bytes }.
Record HostedCapability := { Capability_Type : string; Capability_Configuration : bytes }.
Record OpaqueInput := { Opaque_Type : string; Opaque_SHA256 : string }.
Record Request := {
  Request_Model : string; Request_Stream : bool; Request_System : string;
  Request_Messages : list Message; Request_Tools : list Tool; Request_ToolCallPolicy : ToolCallPolicy;
  Request_HostedCapabilities : list HostedCapability; Request_OpaqueInput : list OpaqueInput;
  Request_Metadata : option (list (string * string)) }.

Record ToolCall := {
  ToolCall_ID : string; ToolCall_Namespace : string; ToolCall_Name : string;
  ToolCall_Input : option (list (string * value)); ToolCall_TextInput : option string }.
Record Event := {
  Event_ID : string; Event_Type : EventType; Event_WorkerID : string; Event_Text : string;
  Event_ToolCalls : list ToolCall; Event_ErrorCode : string; Event_Error : string }.

Definition QualifiedToolName (namespace name : string) : string :=
  if is_empty namespace then name else namespace ++ "::" ++ name.

Definition ValidateToolIdentity (namespace name : string) : res unit :=
  check refuse_if (is_empty (TrimSpace name)) (ErrText "tool name is required") then
  check refuse_if (name <>? TrimSpace name) (ErrText "tool name has surrounding whitespace") then
  check refuse_if (namespace <>? TrimSpace namespace) (ErrText "tool namespace has surrounding whitespace") then
  refuse_if (Contains namespace "::" || Contains name "::") (ErrText "tool namespace and name cannot contain ::").

Definition Tool_QualifiedName (tool : Tool) : string := QualifiedToolName (Tool_Namespace tool) (Tool_Name tool).
Definition ToolCall_QualifiedName (call : ToolCall) : string :=
  QualifiedToolName (ToolCall_Namespace call) (ToolCall_Name call).

Definition EndsResponse (event : Event) : bool :=
  match Event_Type event with
  | EventFinal | EventClarification | EventToolCalls | EventRejected | EventExpired | EventFailed
  | EventUnavailable => true
  | _ => false
  end.

Definition validTrimmed (s : string) : bool := negb (is_empty s) && (s =?= TrimSpace s).

(** [len(raw) != 0] and [json.Valid(raw)] of a slice that may be nil. *)
Definition blen (b : bytes) : Z := len (default "" b).
Definition raw_Valid (b : bytes) : bool := json_Valid (default "" b).

Definition Block_Validate (block : Block) : res unit :=
  match Block_Type block with
  | BlockText => refuse_if (is_empty (Block_Text block)) (ErrText "text block is empty")
  | BlockImage => refuse_if (is_empty (TrimSpace (Block_ImageURL block))) (ErrText "image URL is required")
  | BlockToolUse =>
      check refuse_if (is_empty (Block_ToolCallID block)) (ErrText "tool use requires an id") then
      check ValidateToolIdentity (Block_ToolNamespace block) (Block_ToolName block) then
      refuse_if (negb (is_none (Block_Input block)) && negb (is_none (Block_TextInput block)))
        (ErrText "tool use cannot have both JSON and text input")
  | BlockToolResult =>
      refuse_if (is_empty (Block_ToolCallID block)) (ErrText "tool result requires a tool call id")
  | BlockTypeOther _ => Err (ErrText "unsupported block type")
  end.

Definition is_nil {A} (l : list A) : bool := match l with [] => true | _ => false end.

(** The loops of [Request.Validate]; a loop that returns on the first bad
    element is [each]. *)
Fixpoint each {A} (f : A -> res unit) (l : list A) : res unit :=
  match l with
  | [] => Ok tt
  | x :: l => check f x then each f l
  end.

Definition tool_check (tool : Tool) : res unit :=
  match Tool_InputKind tool with
  | ToolInputJSON =>
      check refuse_if (negb (raw_Valid (Tool_InputSchema tool))) (ErrText "tool has invalid input schema") then
      refuse_if (negb (blen (Tool_InputFormat tool) =? 0)%Z) (ErrText "JSON-input tool has a text input format")
  | ToolInputText =>
      check refuse_if (negb (blen (Tool_InputSchema tool) =? 0)%Z) (ErrText "text-input tool has an input schema") then
      refuse_if (negb (blen (Tool_InputFormat tool) =? 0)%Z && negb (raw_Valid (Tool_InputFormat tool)))
        (ErrText "text-input tool has invalid input format")
  | ToolInputOther _ => Err (ErrText "tool has unsupported input kind")
  end.

Fixpoint tools_check (seen : list (string * string)) (tools : list Tool) : res unit :=
  match tools with
  | [] => Ok tt
  | tool :: tools =>
      let identity := (Tool_Namespace tool, Tool_Name tool) in
      check ValidateToolIdentity (Tool_Namespace tool) (Tool_Name tool) then
      check refuse_if (bool_decide (identity ∈ seen)) (ErrText "duplicate tool") then
      check tool_check tool then
      tools_check (identity :: seen) tools
  end.

Definition capability_check (capability : HostedCapability) : res unit :=
  check refuse_if (negb (validTrimmed (Capability_Type capability))) (ErrText "hosted capability has invalid type") then
  refuse_if (negb (raw_Valid (Capability_Configuration capability)))
    (ErrText "hosted capability has invalid configuration").

Definition opaque_check (item : OpaqueInput) : res unit :=
  check refuse_if (negb (validTrimmed (Opaque_Type item))) (ErrText "opaque input has invalid type") then
  refuse_if (match hex_decode (Opaque_SHA256 item) with Some d => negb (len d =? 32)%Z | None => true end)
    (ErrText "opaque input has invalid SHA-256 fingerprint").

Definition message_check (message : Message) : res unit :=
  match Message_Role message with
  | RoleOther _ => Err (ErrText "message has invalid role")
  | _ =>
      check refuse_if (is_nil (Message_Blocks message)) (ErrText "message has no content blocks") then
      each Block_Validate (Message_Blocks message)
  end.

Definition Request_Validate (request : Request) : res unit :=
  check refuse_if (is_empty (TrimSpace (Request_Model request))) (ErrText "model is required") then
  check refuse_if (is_nil (Request_Messages request)) (ErrText "at least one message is required") then
  check refuse_if (match Request_ToolCallPolicy request with ToolCallsOther _ => true | _ => false end)
    (ErrText "unsupported tool-call policy") then
  check tools_check [] (Request_Tools request) then
  check each capability_check (Request_HostedCapabilities request) then
  check each opaque_check (Request_OpaqueInput request) then
  each message_check (Request_Messages request).

(* ------------------------------------------------------------------ *)
(** ** Codecs (llm/codec.go) *)

Definition CodecContractID : ContractID := "human.llm.codec".
Definition CodecContractMajor : Z := 1.
Definition maximumCodecBytes : Z := 134217728.
Definition maximumFramesPerStep : Z := 4096.
Definition maximumSeedBytes : Z := 65536.

Record CodecLimits := {
  MaxRequestBytes : Z; MaxStreamFrameBytes : Z; MaxStreamFramesPerStep : Z;
  MaxAggregateBytes : Z; MaxAdmissionErrorBytes : Z }.
Record CodecDescription := {
  Codec_Contract : Contract; Codec_ID : CodecID; Codec_Version : string; Codec_Fingerprint : string;
  Codec_Limits : CodecLimits; Codec_OverloadedStatus : Z }.

Definition RequiredCodecContract : Requirements :=
  {| Requirements_ID := CodecContractID; Requirements_Major := CodecContractMajor;
     Requirements_MinimumMinor := 0; Requirements_Features := ∅ |}.

(** The runes of a text that pass a test, all of them. *)
Definition no_rune (bad : N -> bool) (s : string) : bool := negb (existsb (fun c => bad (rune c)) (runes s)).

Definition lower_hex (a : ascii) : bool := negb (is_upper a).

Definition validFingerprint (value : string) : bool :=
  match strip_prefix "sha256:" value with
  | None => false
  | Some digest =>
      (len value =? 7 + 64)%Z &&
      match hex_decode digest with
      | Some decoded => (len decoded =? 32)%Z && string_forallb lower_hex digest
      | None => false
      end
  end.
Definition validVersion (version : string) : bool :=
  validTrimmed version && (len version <=? 128)%Z && no_rune (fun r => (r <? 33) || (r =? 127))%N version.
Definition validAdmissionStatus (status : Z) : bool :=
  ((status =? 429) || ((500 <=? status) && (status <=? 599)))%Z.
Definition validToken (value : string) : bool :=
  validTrimmed value && (len value <=? 128)%Z && no_rune (fun r => (r <=? 32) || (r =? 127))%N value.
Definition validStableValue (value : string) (maximum : Z) : bool :=
  validTrimmed value && (len value <=? maximum)%Z && no_rune (fun r => (r <? 32) || (r =? 127))%N value.

Definition validateLimits (l : CodecLimits) : res unit :=
  check refuse_if ((MaxRequestBytes l <=? 0) || (MaxStreamFrameBytes l <=? 0) || (MaxStreamFramesPerStep l <=? 0)
                   || (MaxAggregateBytes l <=? 0) || (MaxAdmissionErrorBytes l <=? 0))%Z ErrInvalidCodecContract then
  refuse_if ((maximumCodecBytes <? MaxRequestBytes l) || (maximumCodecBytes <? MaxStreamFrameBytes l)
             || (maximumCodecBytes <? MaxAggregateBytes l) || (maximumCodecBytes <? MaxAdmissionErrorBytes l)
             || (maximumFramesPerStep <? MaxStreamFramesPerStep l))%Z ErrInvalidCodecContract.

Definition NegotiateCodec (d : CodecDescription) : res CodecDescription :=
  match Negotiate (Codec_Contract d) RequiredCodecContract with
  | Err e => Err (Join ErrInvalidCodecContract (ErrOf e))
  | Ok contract =>
      check refuse_if (negb (match_token (Codec_ID d))) ErrInvalidCodecContract then
      check refuse_if (negb (validVersion (Codec_Version d))) ErrInvalidCodecContract then
      check refuse_if (negb (validFingerprint (Codec_Fingerprint d))) ErrInvalidCodecContract then
      check validateLimits (Codec_Limits d) then
      check refuse_if (negb (validAdmissionStatus (Codec_OverloadedStatus d))) ErrInvalidCodecContract then
      Ok {| Codec_Contract := contract; Codec_ID := Codec_ID d; Codec_Version := Codec_Version d;
            Codec_Fingerprint := Codec_Fingerprint d; Codec_Limits := Codec_Limits d;
            Codec_OverloadedStatus := Codec_OverloadedStatus d |}
  end.

Definition AdmissionFailure_Validate (f : AdmissionFailure) : res unit :=
  check refuse_if ((Failure_Status f <? 400) || (599 <? Failure_Status f))%Z ErrInvalidCodecContract then
  check refuse_if (negb (validToken (Failure_Code f))) ErrInvalidCodecContract then
  check refuse_if (is_empty (TrimSpace (Failure_Message f))) ErrInvalidCodecContract then
  refuse_if (65536 <? len (Failure_Message f))%Z ErrInvalidCodecContract.

Record SessionSeed := {
  Seed_CreatedAtUnix : Z; Seed_Entropy : bytes; Seed_Opaque : bytes; Seed_ToolCallPolicy : ToolCallPolicy }.
Record EncoderSession := { Session_ResponseID : string; Session_Model : string; Session_Seed : SessionSeed }.
Record EventSeed := { EventSeed_EncodedAtUnix : Z; EventSeed_Entropy : bytes; EventSeed_Opaque : bytes }.

Definition EncoderSession_Validate (session : EncoderSession) : res unit :=
  let seed := Session_Seed session in
  check refuse_if (negb (validStableValue (Session_ResponseID session) 512)) ErrInvalidCodecContract then
  check refuse_if (negb (validStableValue (Session_Model session) 512)) ErrInvalidCodecContract then
  check refuse_if (Seed_CreatedAtUnix seed <=? 0)%Z ErrInvalidCodecContract then
  check refuse_if (maximumSeedBytes <? blen (Seed_Entropy seed) + blen (Seed_Opaque seed))%Z ErrInvalidCodecContract then
  check refuse_if (match Seed_ToolCallPolicy seed with ToolCallsOther _ => true | _ => false end)
    ErrInvalidCodecContract then
  refuse_if (negb (blen (Seed_Opaque seed) =? 0)%Z && negb (raw_Valid (Seed_Opaque seed))) ErrInvalidCodecContract.

Definition EventSeed_Validate (seed : EventSeed) : res unit :=
  check refuse_if (maximumSeedBytes <? blen (EventSeed_Entropy seed) + blen (EventSeed_Opaque seed))%Z
    ErrInvalidCodecContract then
  refuse_if (negb (blen (EventSeed_Opaque seed) =? 0)%Z && negb (raw_Valid (EventSeed_Opaque seed)))
    ErrInvalidCodecContract.

Abbreviation frames := (list string).
Definition frame_count (l : frames) : Z := Z.of_nat (length l).

Definition CheckRequestSize (limits : CodecLimits) (size : Z) : res unit :=
  check validateLimits limits then
  refuse_if ((size <? 0) || (MaxRequestBytes limits <? size))%Z ErrInvalidCodecContract.
Definition CheckStreamFrames (limits : CodecLimits) (l : frames) : res unit :=
  check validateLimits limits then
  check refuse_if (MaxStreamFramesPerStep limits <? frame_count l)%Z ErrInvalidCodecContract then
  refuse_if (existsb (fun frame => MaxStreamFrameBytes limits <? len frame)%Z l) ErrInvalidCodecContract.
Definition CheckAggregateFrames (limits : CodecLimits) (l : frames) (done : bool) : res unit :=
  check validateLimits limits then
  check refuse_if (negb done && negb (is_nil l)) ErrInvalidCodecContract then
  check refuse_if (done && negb (frame_count l =? 1)%Z) ErrInvalidCodecContract then
  refuse_if (match l with [frame] => (MaxAggregateBytes limits <? len frame)%Z | _ => false end)
    ErrInvalidCodecContract.
Definition CheckAdmissionError (limits : CodecLimits) (body : string) : res unit :=
  check validateLimits limits then
  refuse_if (MaxAdmissionErrorBytes limits <? len body)%Z ErrInvalidCodecContract.

(** An [Encoder] session: what [Start] gives, and the session that goes on
    after one [Encode].  A [Codec] is a third-party port. *)
Record Codec := {
  Codec_Description : CodecDescription;
  Codec_Decode : string -> res Request;
  Encoder_ : Type;
  Codec_NewStream : EncoderSession -> res Encoder_;
  Codec_NewAggregate : EncoderSession -> res Encoder_;
  Encoder_Start : Encoder_ -> res (frames * Encoder_);
  Encoder_Encode : Event -> EventSeed -> Encoder_ -> res (frames * bool * Encoder_);
  Codec_AdmissionError : AdmissionFailure -> res string }.

(* ------------------------------------------------------------------ *)
(** ** Store records (llm/store_types.go) *)

Record CodecSnapshot := {
  Snapshot_Contract : Contract; Snapshot_ID : CodecID; Snapshot_Version : string; Snapshot_Fingerprint : string }.

Definition NewCodecSnapshot (d : CodecDescription) : res CodecSnapshot :=
  let? negotiated := NegotiateCodec d in
  Ok {| Snapshot_Contract := Codec_Contract negotiated; Snapshot_ID := Codec_ID negotiated;
        Snapshot_Version := Codec_Version negotiated; Snapshot_Fingerprint := Codec_Fingerprint negotiated |}.

Definition CodecSnapshot_Validate (snapshot : CodecSnapshot) : res unit :=
  match Negotiate (Snapshot_Contract snapshot) RequiredCodecContract with
  | Err e => Err (Join ErrInvalidCodecContract (ErrOf e))
  | Ok _ =>
      refuse_if (negb (match_token (Snapshot_ID snapshot)) || negb (validVersion (Snapshot_Version snapshot))
                 || negb (validFingerprint (Snapshot_Fingerprint snapshot))) ErrInvalidCodecContract
  end.

Definition CodecSnapshot_Equal (a b : CodecSnapshot) : bool :=
  let c := Snapshot_Contract a in let d := Snapshot_Contract b in
  (Snapshot_ID a =?= Snapshot_ID b) && (Snapshot_Version a =?= Snapshot_Version b)
  && (Snapshot_Fingerprint a =?= Snapshot_Fingerprint b) && (Contract_ID c =?= Contract_ID d)
  && (Contract_Major c =?= Contract_Major d) && (Contract_Minor c =?= Contract_Minor d)
  && (Contract_Features c =?= Contract_Features d).

Record StoreTaskKey := { TaskKey_Caller : CallerID; TaskKey_Task : TaskID }.
Record StoreTaskRecord := {
  Task_Key : StoreTaskKey; Task_WorkspaceKey : string; Task_CapabilityTier : CapabilityTier;
  Task_Codec : CodecSnapshot; Task_HarnessID : string; Task_HarnessVersion : string;
  Task_HarnessSessionID : string; Task_ExecAllowed : bool; Task_State : TaskState;
  Task_LeaseOwner : WorkerID; Task_LeaseID : WorkerLeaseID; Task_Revision : Z;
  Task_CreatedAt : time; Task_UpdatedAt : time }.
Record StoreTaskAffinity := {
  Affinity_Caller : CallerID; Affinity_WorkspaceKey : string; Affinity_HarnessID : string;
  Affinity_HarnessVersion : string; Affinity_HarnessSessionID : string }.

Record StoreRequestKey := { RequestKey_Caller : CallerID; RequestKey_IdempotencyKey : IdempotencyKey }.
Record StoreResponseDecision := {
  Decision_StatusCode : Z; Decision_ContentType : string; Decision_RetryAfter : string; Decision_Body : bytes }.
Record StoreRequestRecord := {
  Req_Key : StoreRequestKey; Req_Task : StoreTaskKey; Req_RequestID : string; Req_ResponseID : string;
  Req_RequestDigest : StoreDigest; Req_Codec : CodecSnapshot; Req_Mode : ResponseMode;
  Req_CanonicalPayload : bytes; Req_Decision : StoreResponseDecision; Req_ResponseComplete : bool;
  Req_RecoveryQuarantined : bool; Req_LastEventSequence : Z; Req_Revision : Z; Req_CreatedAt : time;
  Req_CompletedAt : option time; Req_PayloadPrunedAt : option time }.
Record StoreRequestHead := {
  Head_Key : StoreRequestKey; Head_Task : StoreTaskKey; Head_RequestID : string; Head_ResponseID : string;
  Head_RequestDigest : StoreDigest; Head_Codec : CodecSnapshot; Head_Mode : ResponseMode;
  Head_DecisionStatus : Z; Head_DecisionContentType : string; Head_DecisionRetryAfter : string;
  Head_ResponseComplete : bool; Head_RecoveryQuarantined : bool; Head_LastEventSequence : Z;
  Head_Revision : Z; Head_CreatedAt : time; Head_CompletedAt : option time; Head_PayloadPrunedAt : option time }.

Record StoreResponseEventRecord := {
  Resp_Request : StoreRequestKey; Resp_Sequence : Z; Resp_Kind : StoreResponseEventKind;
  Resp_Worker : WorkerID; Resp_WorkerEventID : string; Resp_WorkerEventDigest : StoreDigest;
  Resp_Data : bytes; Resp_CreatedAt : time }.
Record StoreWorkerReceiptRecord := {
  Receipt_Request : StoreRequestKey; Receipt_EventID : string; Receipt_Worker : WorkerID;
  Receipt_Digest : StoreDigest; Receipt_CreatedAt : time }.
Record StoreToolExecutionKey := { ToolKey_Task : StoreTaskKey; ToolKey_ToolCallID : ToolCallID }.
Record StoreToolExecutionRecord := {
  Exec_Key : StoreToolExecutionKey; Exec_InputDigest : StoreDigest; Exec_State : ToolExecutionState;
  Exec_Result : bytes; Exec_IsError : bool; Exec_Revision : Z; Exec_CreatedAt : time;
  Exec_CompletedAt : option time; Exec_ResultPrunedAt : option time }.

Record StoreReadLimit := { ReadLimit_MaxBytes : Z }.
Record StoreResponseEventScan := {
  EventScan_Request : StoreRequestKey; EventScan_After : Z; EventScan_Kinds : list StoreResponseEventKind;
  EventScan_WorkerEventID : string; EventScan_Limit : Z; EventScan_ReadLimit : StoreReadLimit }.
(** [ToolScan_State]: [None] is the empty string, every state. *)
Record StoreToolExecutionScan := {
  ToolScan_Task : StoreTaskKey; ToolScan_State : option ToolExecutionState; ToolScan_After : ToolCallID;
  ToolScan_Limit : Z; ToolScan_ReadLimit : StoreReadLimit }.
Record StoreRecoveryCursor := {
  RecoveryCursor_CreatedAt : time; RecoveryCursor_Caller : CallerID; RecoveryCursor_IdempotencyKey : IdempotencyKey }.
Record StoreRecoveryScan := {
  RecoveryScan_After : option StoreRecoveryCursor; RecoveryScan_Limit : Z; RecoveryScan_ReadLimit : StoreReadLimit }.
Record StoreRecoveryRecord := { Recovery_Task : StoreTaskRecord; Recovery_Request : StoreRequestRecord }.
Record StoreRetentionCursor := {
  RetentionCursor_CompletedAt : time; RetentionCursor_Caller : CallerID;
  RetentionCursor_IdempotencyKey : IdempotencyKey }.
Record StoreRetentionScan := {
  RetentionScan_CompletedBefore : time; RetentionScan_After : option StoreRetentionCursor; RetentionScan_Limit : Z }.
Record StoreRetentionCandidate := {
  Candidate_Request : StoreRequestHead; Candidate_EffectiveCompletedAt : time;
  Candidate_UnacknowledgedWorkerEvent : bool }.

Record StoreTaskMutation := {
  TaskMutation_Key : StoreTaskKey; TaskMutation_ExpectedRevision : Z; TaskMutation_Next : StoreTaskRecord }.
Record StoreRequestMutation := {
  RequestMutation_Key : StoreRequestKey; RequestMutation_ExpectedRevision : Z; RequestMutation_Next : StoreRequestRecord }.
Record StoreToolExecutionMutation := {
  ToolMutation_Key : StoreToolExecutionKey; ToolMutation_ExpectedRevision : Z;
  ToolMutation_Next : StoreToolExecutionRecord }.

#[export] Instance Contract_eq_dec : EqDecision Contract.
Proof. solve_decision. Defined.
#[export] Instance CodecSnapshot_eq_dec : EqDecision CodecSnapshot.
Proof. solve_decision. Defined.
#[export] Instance StoreTaskKey_eq_dec : EqDecision StoreTaskKey.
Proof. solve_decision. Defined.
#[export] Instance StoreTaskRecord_eq_dec : EqDecision StoreTaskRecord.
Proof. solve_decision. Defined.
#[export] Instance StoreTaskAffinity_eq_dec : EqDecision StoreTaskAffinity.
Proof. solve_decision. Defined.
#[export] Instance StoreRequestKey_eq_dec : EqDecision StoreRequestKey.
Proof. solve_decision. Defined.
#[export] Instance StoreToolExecutionKey_eq_dec : EqDecision StoreToolExecutionKey.
Proof. solve_decision. Defined.

#[export] Instance StoreTaskKey_countable : Countable StoreTaskKey.
Proof.
  refine (inj_countable' (fun k => (TaskKey_Caller k, TaskKey_Task k) : string * string)
    (fun p => {| TaskKey_Caller := fst p; TaskKey_Task := snd p |}) _).
  by intros [].
Defined.
#[export] Instance StoreRequestKey_countable : Countable StoreRequestKey.
Proof.
  refine (inj_countable' (fun k => (RequestKey_Caller k, RequestKey_IdempotencyKey k) : string * string)
    (fun p => {| RequestKey_Caller := fst p; RequestKey_IdempotencyKey := snd p |}) _).
  by intros [].
Defined.
#[export] Instance StoreToolExecutionKey_countable : Countable StoreToolExecutionKey.
Proof.
  refine (inj_countable' (fun k => (ToolKey_Task k, ToolKey_ToolCallID k) : StoreTaskKey * string)
    (fun p => {| ToolKey_Task := fst p; ToolKey_ToolCallID := snd p |}) _).
  by intros [].
Defined.

(* ------------------------------------------------------------------ *)
(** ** Store metadata (llm/store.go) *)

Definition StoreContractID : ContractID := "human.llm.store".
Definition StoreContractMajor : Z := 1.
Definition StoreRequirements : Requirements :=
  {| Requirements_ID := StoreContractID; Requirements_Major := StoreContractMajor;
     Requirements_MinimumMinor := 0; Requirements_Features := ∅ |}.

Record StoreDescription := {
  StoreDescription_Contract : Contract; StoreDescription_Provider : string; StoreDescription_Version : string }.
Record StoreBinding := { Binding_DeploymentID : string }.

#[export] Instance StoreBinding_eq_dec : EqDecision StoreBinding.
Proof. solve_decision. Defined.

Definition workerStableKeyPattern (s : string) : bool := match_stable s.

Definition StoreBinding_Validate (binding : StoreBinding) : res unit :=
  refuse_if (negb (workerStableKeyPattern (Binding_DeploymentID binding))) ErrStoreInvalidArgument.

(** [validStoreDescriptionField], [validWorkerTransportMetadata]. *)
Definition validStoreDescriptionField (value : string) : bool :=
  validTrimmed value && (len value <=? 128)%Z && valid_string value
  && no_rune (fun r => (r <? 32) || (r =? 127))%N value.

Definition StoreDescription_Validate (d : StoreDescription) : res unit :=
  match Negotiate (StoreDescription_Contract d) StoreRequirements with
  | Err e => Err (ErrOf e)
  | Ok _ =>
      refuse_if (negb (validStoreDescriptionField (StoreDescription_Provider d))
                 || negb (validStoreDescriptionField (StoreDescription_Version d))) ErrStoreDescription
  end.

(* ------------------------------------------------------------------ *)
(** ** Deliveries and receipts (llm/transport.go, llm/service_types.go) *)

Record AuthenticatedWorker := { Worker_WorkerID : WorkerID; Worker_SessionID : WorkerSessionID }.
Record CompletionIdentity := {
  Identity_CallerID : CallerID; Identity_RequestID : string; Identity_TaskID : TaskID;
  Identity_WorkspaceKey : string; Identity_IdempotencyKey : IdempotencyKey }.
Record WorkerLease := { WorkerLease_ID : WorkerLeaseID; WorkerLease_Owner : WorkerID }.
Record TaskContext := {
  TaskContext_TaskID : TaskID; TaskContext_WorkspaceKey : string; TaskContext_CapabilityTier : CapabilityTier;
  TaskContext_HarnessID : string; TaskContext_HarnessVersion : string; TaskContext_HarnessSessionID : string;
  TaskContext_ExecAllowed : bool }.
Record Assignment := {
  Assignment_Identity : CompletionIdentity; Assignment_Lease : WorkerLease;
  Assignment_Boundary : AssignmentBoundary; Assignment_Task : TaskContext; Assignment_Request : Request }.
Record WorkerAssignmentDelivery := {
  AssignmentDelivery_ID : WorkerDeliveryID; AssignmentDelivery_Assignment : Assignment }.
Record WorkerEventDelivery := {
  EventDelivery_ID : WorkerDeliveryID; EventDelivery_Identity : CompletionIdentity;
  EventDelivery_LeaseID : WorkerLeaseID; EventDelivery_Event : Event }.
Record WorkerEventReceipt := {
  EventReceipt_Delivery : WorkerDeliveryID; EventReceipt_EventID : string;
  EventReceipt_Decision : WorkerEventDecision; EventReceipt_Code : option WorkerRejectionCode;
  EventReceipt_Message : string }.

#[export] Instance WorkerEventReceipt_eq_dec : EqDecision WorkerEventReceipt.
Proof. solve_decision. Defined.

Definition validateWorkerStableKey (value : string) : res unit :=
  refuse_if (negb (workerStableKeyPattern value)) (ErrText "a stable key is required").
Definition validateOptionalStable (value : string) : res unit :=
  refuse_if (negb (is_empty value) && negb (workerStableKeyPattern value)) ErrInvalidServiceConfig.

Definition validateWorkerEventID (value : string) : res unit :=
  refuse_if (is_empty value || (value <>? TrimSpace value) || (512 <? len value)%Z
             || negb (valid_string value) || contains_any [nul] value) ErrWorkerDelivery.

Definition AuthenticatedWorker_Validate (principal : AuthenticatedWorker) : res unit :=
  check wrap ErrWorkerPrincipal (validateWorkerStableKey (Worker_WorkerID principal)) then
  wrap ErrWorkerPrincipal (validateWorkerStableKey (Worker_SessionID principal)).

Definition CompletionIdentity_Validate (identity : CompletionIdentity) : res unit :=
  check each (fun value => wrap ErrWorkerDelivery (validateWorkerStableKey value))
    [Identity_CallerID identity; Identity_RequestID identity; Identity_TaskID identity;
     Identity_IdempotencyKey identity] then
  if is_empty (Identity_WorkspaceKey identity) then Ok tt
  else wrap ErrWorkerDelivery (validateWorkerStableKey (Identity_WorkspaceKey identity)).

Definition WorkerLease_validate (lease : WorkerLease) : res unit :=
  check wrap ErrWorkerDelivery (validateWorkerStableKey (WorkerLease_ID lease)) then
  wrap ErrWorkerDelivery (validateWorkerStableKey (WorkerLease_Owner lease)).

Definition normalizeTaskContext (input : TaskContext) : TaskContext :=
  if CapabilityTier_string (TaskContext_CapabilityTier input) =?= "" then
    {| TaskContext_TaskID := TaskContext_TaskID input; TaskContext_WorkspaceKey := TaskContext_WorkspaceKey input;
       TaskContext_CapabilityTier := TierChat; TaskContext_HarnessID := TaskContext_HarnessID input;
       TaskContext_HarnessVersion := TaskContext_HarnessVersion input;
       TaskContext_HarnessSessionID := TaskContext_HarnessSessionID input;
       TaskContext_ExecAllowed := TaskContext_ExecAllowed input |}
  else input.

Definition validateTaskContext (input0 : TaskContext) : res unit :=
  let input := normalizeTaskContext input0 in
  match TaskContext_CapabilityTier input with
  | TierChat =>
      refuse_if (negb (is_empty (TaskContext_TaskID input)) || negb (is_empty (TaskContext_WorkspaceKey input))
                 || negb (is_empty (TaskContext_HarnessID input)) || negb (is_empty (TaskContext_HarnessVersion input))
                 || negb (is_empty (TaskContext_HarnessSessionID input)) || TaskContext_ExecAllowed input)
        ErrInvalidServiceConfig
  | TierRemoteTools | TierWorkspace =>
      check validateOptionalStable (TaskContext_TaskID input) then
      each (fun value => refuse_if (is_empty value || negb (workerStableKeyPattern value)) ErrInvalidServiceConfig)
        [TaskContext_WorkspaceKey input; TaskContext_HarnessID input; TaskContext_HarnessVersion input;
         TaskContext_HarnessSessionID input]
  | TierOther _ => Err ErrInvalidServiceConfig
  end.

Definition Assignment_ValidateFor (assignment : Assignment) (principal : AuthenticatedWorker) : res unit :=
  let identity := Assignment_Identity assignment in
  check AuthenticatedWorker_Validate principal then
  check CompletionIdentity_Validate identity then
  check WorkerLease_validate (Assignment_Lease assignment) then
  check refuse_if (WorkerLease_Owner (Assignment_Lease assignment) <>? Worker_WorkerID principal) ErrWorkerDelivery then
  let task := normalizeTaskContext (Assignment_Task assignment) in
  check wrap ErrWorkerDelivery (validateTaskContext task) then
  check (if TaskContext_CapabilityTier task =?= TierChat
         then refuse_if (negb (is_empty (Identity_WorkspaceKey identity))) ErrWorkerDelivery
         else refuse_if ((TaskContext_TaskID task <>? Identity_TaskID identity)
                         || (TaskContext_WorkspaceKey task <>? Identity_WorkspaceKey identity)) ErrWorkerDelivery) then
  check wrap ErrWorkerDelivery (Request_Validate (Assignment_Request assignment)) then
  if Request_Stream (Assignment_Request assignment)
  then refuse_if (Assignment_Boundary assignment <>? AssignmentAfterResponse) ErrWorkerDelivery
  else refuse_if (Assignment_Boundary assignment <>? AssignmentAfterAdmission) ErrWorkerDelivery.

Definition WorkerAssignmentDelivery_ValidateFor (delivery : WorkerAssignmentDelivery)
    (principal : AuthenticatedWorker) : res unit :=
  check wrap ErrWorkerDelivery (validateWorkerStableKey (AssignmentDelivery_ID delivery)) then
  Assignment_ValidateFor (AssignmentDelivery_Assignment delivery) principal.

(** The loop over the tool calls of an event; [json.Marshal] of an input fails
    on a number that is none. *)
Fixpoint toolCalls_check (seen : list string) (calls : list ToolCall) : res unit :=
  match calls with
  | [] => Ok tt
  | call :: calls =>
      check refuse_if (is_empty (TrimSpace (ToolCall_ID call)) || (ToolCall_ID call <>? TrimSpace (ToolCall_ID call)))
        ErrWorkerDelivery then
      check refuse_if (bool_decide (ToolCall_ID call ∈ seen)) ErrWorkerDelivery then
      check wrap ErrWorkerDelivery (ValidateToolIdentity (ToolCall_Namespace call) (ToolCall_Name call)) then
      check refuse_if (negb (is_none (ToolCall_Input call)) && negb (is_none (ToolCall_TextInput call)))
        ErrWorkerDelivery then
      check refuse_if (match ToolCall_Input call with Some m => is_none (encode_members m) | None => false end)
        ErrWorkerDelivery then
      toolCalls_check (ToolCall_ID call :: seen) calls
  end.

Definition validateTransportEvent (event : Event) : res unit :=
  let no_calls := is_nil (Event_ToolCalls event) in
  let no_text := is_empty (Event_Text event) in
  let no_error := is_empty (Event_ErrorCode event) && is_empty (Event_Error event) in
  check validateWorkerEventID (Event_ID event) then
  check refuse_if (negb (is_empty (Event_WorkerID event))) ErrWorkerDelivery then
  match Event_Type event with
  | EventAccepted => refuse_if (negb no_text || negb no_calls || negb no_error) ErrWorkerDelivery
  | EventProgress => refuse_if (no_text || negb no_calls || negb no_error) ErrWorkerDelivery
  | EventFinal | EventClarification => refuse_if (negb no_calls || negb no_error) ErrWorkerDelivery
  | EventToolCalls =>
      check refuse_if (negb no_text || no_calls || negb no_error) ErrWorkerDelivery then
      toolCalls_check [] (Event_ToolCalls event)
  | EventRejected | EventExpired | EventFailed | EventUnavailable =>
      check refuse_if (negb no_text || negb no_calls || no_error) ErrWorkerDelivery then
      refuse_if (negb (is_empty (Event_ErrorCode event)) && negb (workerStableKeyPattern (Event_ErrorCode event)))
        ErrWorkerDelivery
  | EventTypeOther _ => Err ErrWorkerDelivery
  end.

Definition WorkerEventDelivery_Validate (delivery : WorkerEventDelivery) : res unit :=
  check wrap ErrWorkerDelivery (validateWorkerStableKey (EventDelivery_ID delivery)) then
  check CompletionIdentity_Validate (EventDelivery_Identity delivery) then
  check wrap ErrWorkerDelivery (validateWorkerStableKey (EventDelivery_LeaseID delivery)) then
  validateTransportEvent (EventDelivery_Event delivery).

Definition WorkerEventDelivery_ValidateFor (delivery : WorkerEventDelivery) (principal : AuthenticatedWorker) : res unit :=
  check AuthenticatedWorker_Validate principal then
  WorkerEventDelivery_Validate delivery.

Definition validWorkerRejectionCode (code : option WorkerRejectionCode) : bool :=
  match code with None | Some (WorkerRejectOther _) => false | Some _ => true end.

Definition WorkerEventReceipt_ValidateFor (receipt : WorkerEventReceipt) (delivery : WorkerEventDelivery) : res unit :=
  check wrap ErrWorkerDelivery (validateWorkerStableKey (EventDelivery_ID delivery)) then
  check validateWorkerEventID (Event_ID (EventDelivery_Event delivery)) then
  check refuse_if ((EventReceipt_Delivery receipt <>? EventDelivery_ID delivery)
                   || (EventReceipt_EventID receipt <>? Event_ID (EventDelivery_Event delivery))) ErrWorkerDelivery then
  match EventReceipt_Decision receipt with
  | WorkerEventACK =>
      check WorkerEventDelivery_Validate delivery then
      refuse_if (negb (is_none (EventReceipt_Code receipt)) || negb (is_empty (EventReceipt_Message receipt)))
        ErrWorkerDelivery
  | WorkerEventNACK =>
      check refuse_if (negb (validWorkerRejectionCode (EventReceipt_Code receipt))) ErrWorkerDelivery then
      refuse_if ((4096 <? len (EventReceipt_Message receipt))%Z || negb (valid_string (EventReceipt_Message receipt))
                 || contains_any [nul] (EventReceipt_Message receipt)) ErrWorkerDelivery
  | WorkerEventOther _ => Err ErrWorkerDelivery
  end.

(** A uint64 counter goes around at its end. *)
Definition inc64 (z : Z) : Z := ((z + 1) mod 18446744073709551616)%Z.

End Llm.
