(* ===== verification/LlmJson.v ===== *)
(** * The JSON forms of HumanLLM (struct tags of llm/types.go, llm/codec.go,
    llm/transport.go, llm/service_types.go, llm/service_admission.go), and the
    canonical encoding of llm/service.go

    Each structure is the codec of its fields under their tags.  On top of
    them, [stableDigest], [normalizeCanonicalJSON] and [decodeCanonicalJSON]. *)

From S2P Require Import Prelude GoText GoEncoding GoTime GoJson GoStrings GoDoc GoStruct.
From S2P Require Import AgentTypes Framework LlmTypes.

Import Llm.
Local Open Scope string_scope.

(* ------------------------------------------------------------------ *)
(** ** Named strings *)

Definition CapabilityTier_of_string (s : string) : CapabilityTier :=
  if String.eqb s "chat" then TierChat
  else if String.eqb s "remote_tools" then TierRemoteTools
  else if String.eqb s "workspace" then TierWorkspace
  else TierOther s.
Definition AssignmentBoundary_of_string (s : string) : AssignmentBoundary :=
  if String.eqb s "admission_committed" then AssignmentAfterAdmission
  else if String.eqb s "response_committed" then AssignmentAfterResponse
  else AssignmentBoundaryOther s.

Ltac by_spelling :=
  intros s;
  repeat match goal with
  | |- context [String.eqb s ?t] => destruct (String.eqb_spec s t) as [->|]; [done|]
  | |- context [is_empty s] => destruct (is_empty s) eqn:?; [match goal with H : is_empty s = true |- _ => apply is_empty_true in H as -> end; done|]
  end; done.

Lemma EventType_spelling s : EventType_string (EventType_of_string s) = s.
Proof. revert s. unfold EventType_of_string. by_spelling. Qed.
Lemma BlockType_spelling s : BlockType_string (BlockType_of_string s) = s.
Proof. revert s. unfold BlockType_of_string. by_spelling. Qed.
Lemma Role_spelling s : Role_string (Role_of_string s) = s.
Proof. revert s. unfold Role_of_string. by_spelling. Qed.
Lemma ToolInputKind_spelling s : ToolInputKind_string (ToolInputKind_of_string s) = s.
Proof. revert s. unfold ToolInputKind_of_string. by_spelling. Qed.
Lemma ToolCallPolicy_spelling s : ToolCallPolicy_string (ToolCallPolicy_of_string s) = s.
Proof. revert s. unfold ToolCallPolicy_of_string. by_spelling. Qed.
Lemma CapabilityTier_spelling s : CapabilityTier_string (CapabilityTier_of_string s) = s.
Proof. revert s. unfold CapabilityTier_of_string. by_spelling. Qed.
Lemma AssignmentBoundary_spelling s : AssignmentBoundary_string (AssignmentBoundary_of_string s) = s.
Proof. revert s. unfold AssignmentBoundary_of_string. by_spelling. Qed.

Definition f_EventType : field EventType := f_named _ _ EventType_spelling false.
Definition f_BlockType : field BlockType := f_named _ _ BlockType_spelling false.
Definition f_Role : field Role := f_named _ _ Role_spelling false.
Definition f_CapabilityTier : field CapabilityTier := f_named _ _ CapabilityTier_spelling false.
Definition f_AssignmentBoundary : field AssignmentBoundary := f_named _ _ AssignmentBoundary_spelling false.
Definition o_ToolInputKind : field ToolInputKind := f_named _ _ ToolInputKind_spelling true.
Definition o_ToolCallPolicy : field ToolCallPolicy := f_named _ _ ToolCallPolicy_spelling true.
Definition f_int64 : field Z := f_integer (-9223372036854775808) 9223372036854775807.
Definition f_uint8 : field Z := f_integer 0 255.

Declare Scope members_scope.
Delimit Scope members_scope with members.
Notation "t '=:' f '&' m" := (and_member t f m) (at level 60, f at level 50, m at level 60, right associativity) : members_scope.
Notation "'∙'" := no_members : members_scope.

(** A structure with the members [m], from the tuple of its fields and back;
    its tags are checked by computation. *)
Definition struct_of {T R} (m : members T) (to : R -> T) (from : T -> R) to_from from_to Htags : codec R :=
  struct to from m to_from from_to Htags.
Lemma struct_of_not_null {T R} (m : members T) (to : R -> T) (from : T -> R) H1 H2 H3 r d :
  encode (struct_of m to from H1 H2 H3) r = Some d -> is_null d = false.
Proof. apply struct_not_null. Qed.
Notation record_of m to from :=
  (struct_of m to from (ltac:(intros; repeat match goal with x : _ * _ |- _ => destruct x end;
                            repeat match goal with x : unit |- _ => destruct x end; reflexivity))
     (ltac:(intros []; reflexivity)) (ltac:(vm_compute; reflexivity))).

(* ------------------------------------------------------------------ *)
(** ** Events *)

Definition ToolCall_json : codec ToolCall :=
  record_of ("id" =: f_string & "namespace" =: o_string & "name" =: f_string & "input" =: o_map
             & "text_input" =: o_text & ∙)%members
    (fun x => (ToolCall_ID x, (ToolCall_Namespace x, (ToolCall_Name x, (ToolCall_Input x, (ToolCall_TextInput x, tt))))))
    (fun '(a, (b, (c, (d, (e, tt))))) => {| ToolCall_ID := a; ToolCall_Namespace := b; ToolCall_Name := c;
                                          ToolCall_Input := d; ToolCall_TextInput := e |}).

Definition Event_json : codec Event :=
  record_of ("id" =: o_string & "type" =: f_EventType & "worker_id" =: o_string & "text" =: o_string
             & "tool_calls" =: f_list true ToolCall_json & "error_code" =: o_string & "error" =: o_string & ∙)%members
    (fun x => (Event_ID x, (Event_Type x, (Event_WorkerID x, (Event_Text x, (Event_ToolCalls x,
               (Event_ErrorCode x, (Event_Error x, tt))))))))
    (fun '(a, (b, (c, (d, (e, (f, (g, tt))))))) =>
       {| Event_ID := a; Event_Type := b; Event_WorkerID := c; Event_Text := d; Event_ToolCalls := e;
          Event_ErrorCode := f; Event_Error := g |}).

(* ------------------------------------------------------------------ *)
(** ** Requests *)

Definition Block_json : codec Block :=
  record_of ("type" =: f_BlockType & "text" =: o_string & "image_url" =: o_string & "tool_call_id" =: o_string
             & "tool_namespace" =: o_string & "tool_name" =: o_string & "input" =: o_map & "text_input" =: o_text
             & "output" =: o_any & "is_error" =: f_bool true & ∙)%members
    (fun x => (Block_Type x, (Block_Text x, (Block_ImageURL x, (Block_ToolCallID x, (Block_ToolNamespace x,
               (Block_ToolName x, (Block_Input x, (Block_TextInput x, (Block_Output x, (Block_IsError x, tt)))))))))))
    (fun '(a, (b, (c, (d, (e, (f, (g, (h, (i, (j, tt)))))))))) =>
       {| Block_Type := a; Block_Text := b; Block_ImageURL := c; Block_ToolCallID := d; Block_ToolNamespace := e;
          Block_ToolName := f; Block_Input := g; Block_TextInput := h; Block_Output := i; Block_IsError := j |}).

Definition Message_json : codec Message :=
  record_of ("role" =: f_Role & "blocks" =: f_list false Block_json & ∙)%members
    (fun x => (Message_Role x, (Message_Blocks x, tt)))
    (fun '(a, (b, tt)) => {| Message_Role := a; Message_Blocks := b |}).

Definition Tool_json : codec Tool :=
  record_of ("namespace" =: o_string & "name" =: f_string & "description" =: o_string
             & "input_kind" =: o_ToolInputKind & "input_schema" =: f_raw true & "input_format" =: f_raw true & ∙)%members
    (fun x => (Tool_Namespace x, (Tool_Name x, (Tool_Description x, (Tool_InputKind x, (Tool_InputSchema x,
               (Tool_InputFormat x, tt)))))))
    (fun '(a, (b, (c, (d, (e, (f, tt)))))) =>
       {| Tool_Namespace := a; Tool_Name := b; Tool_Description := c; Tool_InputKind := d; Tool_InputSchema := e;
          Tool_InputFormat := f |}).

Definition HostedCapability_json : codec HostedCapability :=
  record_of ("type" =: f_string & "configuration" =: f_raw false & ∙)%members
    (fun x => (Capability_Type x, (Capability_Configuration x, tt)))
    (fun '(a, (b, tt)) => {| Capability_Type := a; Capability_Configuration := b |}).

Definition OpaqueInput_json : codec OpaqueInput :=
  record_of ("type" =: f_string & "sha256" =: f_string & ∙)%members
    (fun x => (Opaque_Type x, (Opaque_SHA256 x, tt)))
    (fun '(a, (b, tt)) => {| Opaque_Type := a; Opaque_SHA256 := b |}).

Definition Request_json : codec Request :=
  record_of ("model" =: f_string & "stream" =: f_bool false & "system" =: o_string
             & "messages" =: f_list false Message_json & "tools" =: f_list true Tool_json
             & "tool_call_policy" =: o_ToolCallPolicy & "hosted_capabilities" =: f_list true HostedCapability_json
             & "opaque_input" =: f_list true OpaqueInput_json & "metadata" =: o_strings & ∙)%members
    (fun x => (Request_Model x, (Request_Stream x, (Request_System x, (Request_Messages x, (Request_Tools x,
               (Request_ToolCallPolicy x, (Request_HostedCapabilities x, (Request_OpaqueInput x,
               (Request_Metadata x, tt))))))))))
    (fun '(a, (b, (c, (d, (e, (f, (g, (h, (i, tt))))))))) =>
       {| Request_Model := a; Request_Stream := b; Request_System := c; Request_Messages := d; Request_Tools := e;
          Request_ToolCallPolicy := f; Request_HostedCapabilities := g; Request_OpaqueInput := h;
          Request_Metadata := i |}).

(* ------------------------------------------------------------------ *)
(** ** Seeds, sessions and checkpoints *)

Definition SessionSeed_json : codec SessionSeed :=
  record_of ("created_at_unix" =: f_int64 & "entropy" =: o_bytes & "opaque" =: f_raw true
             & "tool_call_policy" =: o_ToolCallPolicy & ∙)%members
    (fun x => (Seed_CreatedAtUnix x, (Seed_Entropy x, (Seed_Opaque x, (Seed_ToolCallPolicy x, tt)))))
    (fun '(a, (b, (c, (d, tt)))) =>
       {| Seed_CreatedAtUnix := a; Seed_Entropy := b; Seed_Opaque := c; Seed_ToolCallPolicy := d |}).
Definition zero_SessionSeed : SessionSeed :=
  {| Seed_CreatedAtUnix := 0; Seed_Entropy := None; Seed_Opaque := None; Seed_ToolCallPolicy := ToolCallsUnset |}.

Definition EncoderSession_json : codec EncoderSession :=
  record_of ("ResponseID" =: f_string & "Model" =: f_string
             & "Seed" =: f_struct SessionSeed_json zero_SessionSeed (struct_of_not_null _ _ _ _ _ _) & ∙)%members
    (fun x => (Session_ResponseID x, (Session_Model x, (Session_Seed x, tt))))
    (fun '(a, (b, (c, tt))) => {| Session_ResponseID := a; Session_Model := b; Session_Seed := c |}).

Definition EventSeed_json : codec EventSeed :=
  record_of ("encoded_at_unix" =: f_int64 & "entropy" =: o_bytes & "opaque" =: f_raw true & ∙)%members
    (fun x => (EventSeed_EncodedAtUnix x, (EventSeed_Entropy x, (EventSeed_Opaque x, tt))))
    (fun '(a, (b, (c, tt))) => {| EventSeed_EncodedAtUnix := a; EventSeed_Entropy := b; EventSeed_Opaque := c |}).

Record encoderCheckpoint := {
  Checkpoint_Version : Z; Checkpoint_Kind : string; Checkpoint_Session : option EncoderSession;
  Checkpoint_Event : option Event; Checkpoint_Seed : option EventSeed; Checkpoint_LeaseID : WorkerLeaseID;
  Checkpoint_Worker : WorkerID }.

Definition encoderCheckpoint_json : codec encoderCheckpoint :=
  record_of ("version" =: f_uint8 & "kind" =: f_string
             & "session" =: o_struct EncoderSession_json (struct_of_not_null _ _ _ _ _ _)
             & "event" =: o_struct Event_json (struct_of_not_null _ _ _ _ _ _)
             & "seed" =: o_struct EventSeed_json (struct_of_not_null _ _ _ _ _ _)
             & "lease_id" =: o_string & "worker_id" =: o_string & ∙)%members
    (fun x => (Checkpoint_Version x, (Checkpoint_Kind x, (Checkpoint_Session x, (Checkpoint_Event x,
               (Checkpoint_Seed x, (Checkpoint_LeaseID x, (Checkpoint_Worker x, tt))))))))
    (fun '(a, (b, (c, (d, (e, (f, (g, tt))))))) =>
       {| Checkpoint_Version := a; Checkpoint_Kind := b; Checkpoint_Session := c; Checkpoint_Event := d;
          Checkpoint_Seed := e; Checkpoint_LeaseID := f; Checkpoint_Worker := g |}).

(* ------------------------------------------------------------------ *)
(** ** Assignments and deliveries *)

Definition CompletionIdentity_json : codec CompletionIdentity :=
  record_of ("caller_id" =: f_string & "request_id" =: f_string & "task_id" =: f_string
             & "workspace_key" =: o_string & "idempotency_key" =: f_string & ∙)%members
    (fun x => (Identity_CallerID x, (Identity_RequestID x, (Identity_TaskID x, (Identity_WorkspaceKey x,
               (Identity_IdempotencyKey x, tt))))))
    (fun '(a, (b, (c, (d, (e, tt))))) =>
       {| Identity_CallerID := a; Identity_RequestID := b; Identity_TaskID := c; Identity_WorkspaceKey := d;
          Identity_IdempotencyKey := e |}).
Definition zero_CompletionIdentity : CompletionIdentity :=
  {| Identity_CallerID := ""; Identity_RequestID := ""; Identity_TaskID := ""; Identity_WorkspaceKey := "";
     Identity_IdempotencyKey := "" |}.

Definition WorkerLease_json : codec WorkerLease :=
  record_of ("id" =: f_string & "owner" =: f_string & ∙)%members
    (fun x => (WorkerLease_ID x, (WorkerLease_Owner x, tt)))
    (fun '(a, (b, tt)) => {| WorkerLease_ID := a; WorkerLease_Owner := b |}).
Definition zero_WorkerLease : WorkerLease := {| WorkerLease_ID := ""; WorkerLease_Owner := "" |}.

Definition TaskContext_json : codec TaskContext :=
  record_of ("task_id" =: o_string & "workspace_key" =: o_string & "capability_tier" =: f_CapabilityTier
             & "harness_id" =: o_string & "harness_version" =: o_string & "harness_session_id" =: o_string
             & "exec_allowed" =: f_bool true & ∙)%members
    (fun x => (TaskContext_TaskID x, (TaskContext_WorkspaceKey x, (TaskContext_CapabilityTier x,
               (TaskContext_HarnessID x, (TaskContext_HarnessVersion x, (TaskContext_HarnessSessionID x,
               (TaskContext_ExecAllowed x, tt))))))))
    (fun '(a, (b, (c, (d, (e, (f, (g, tt))))))) =>
       {| TaskContext_TaskID := a; TaskContext_WorkspaceKey := b; TaskContext_CapabilityTier := c;
          TaskContext_HarnessID := d; TaskContext_HarnessVersion := e; TaskContext_HarnessSessionID := f;
          TaskContext_ExecAllowed := g |}).
Definition zero_TaskContext : TaskContext :=
  {| TaskContext_TaskID := ""; TaskContext_WorkspaceKey := ""; TaskContext_CapabilityTier := TierOther "";
     TaskContext_HarnessID := ""; TaskContext_HarnessVersion := ""; TaskContext_HarnessSessionID := "";
     TaskContext_ExecAllowed := false |}.
Definition zero_Request : Request :=
  {| Request_Model := ""; Request_Stream := false; Request_System := ""; Request_Messages := []; Request_Tools := [];
     Request_ToolCallPolicy := ToolCallsUnset; Request_HostedCapabilities := []; Request_OpaqueInput := [];
     Request_Metadata := None |}.
Definition zero_Event : Event :=
  {| Event_ID := ""; Event_Type := EventTypeOther ""; Event_WorkerID := ""; Event_Text := ""; Event_ToolCalls := [];
     Event_ErrorCode := ""; Event_Error := "" |}.

Notation f_record c zero := (f_struct c zero (struct_of_not_null _ _ _ _ _ _)).

Definition Assignment_json : codec Assignment :=
  record_of ("identity" =: f_record CompletionIdentity_json zero_CompletionIdentity
             & "lease" =: f_record WorkerLease_json zero_WorkerLease & "boundary" =: f_AssignmentBoundary
             & "task" =: f_record TaskContext_json zero_TaskContext
             & "request" =: f_record Request_json zero_Request & ∙)%members
    (fun x => (Assignment_Identity x, (Assignment_Lease x, (Assignment_Boundary x, (Assignment_Task x,
               (Assignment_Request x, tt))))))
    (fun '(a, (b, (c, (d, (e, tt))))) =>
       {| Assignment_Identity := a; Assignment_Lease := b; Assignment_Boundary := c; Assignment_Task := d;
          Assignment_Request := e |}).
Definition zero_Assignment : Assignment :=
  {| Assignment_Identity := zero_CompletionIdentity; Assignment_Lease := zero_WorkerLease;
     Assignment_Boundary := AssignmentBoundaryOther ""; Assignment_Task := zero_TaskContext;
     Assignment_Request := zero_Request |}.

Definition WorkerAssignmentDelivery_json : codec WorkerAssignmentDelivery :=
  record_of ("delivery_id" =: f_string & "assignment" =: f_record Assignment_json zero_Assignment & ∙)%members
    (fun x => (AssignmentDelivery_ID x, (AssignmentDelivery_Assignment x, tt)))
    (fun '(a, (b, tt)) => {| AssignmentDelivery_ID := a; AssignmentDelivery_Assignment := b |}).

Definition WorkerEventDelivery_json : codec WorkerEventDelivery :=
  record_of ("delivery_id" =: f_string & "identity" =: f_record CompletionIdentity_json zero_CompletionIdentity
             & "lease_id" =: f_string & "event" =: f_record Event_json zero_Event & ∙)%members
    (fun x => (EventDelivery_ID x, (EventDelivery_Identity x, (EventDelivery_LeaseID x, (EventDelivery_Event x, tt)))))
    (fun '(a, (b, (c, (d, tt)))) =>
       {| EventDelivery_ID := a; EventDelivery_Identity := b; EventDelivery_LeaseID := c; EventDelivery_Event := d |}).

(* ------------------------------------------------------------------ *)
(** ** Canonical JSON (llm/service.go) *)

Definition json_error : error := ErrText "encoding/json".
Definition or_json_error {A} (o : option A) : res A := match o with Some a => Ok a | None => Err json_error end.

Definition Marshal {A} (c : codec A) (a : A) : res string := or_json_error (Marshal_ c a).

(** The decoder uses [UseNumber], and refuses trailing data. *)
Definition decodeCanonicalJSON {A} (c : codec A) (encoded : string) : res A := or_json_error (Decode_ c encoded).

Definition normalizeCanonicalJSON {A} (c : codec A) (value : A) : res A :=
  let? encoded := Marshal c value in
  decodeCanonicalJSON c encoded.

(** The digest of an encoded value. *)
Definition digest_of (encoded : string) : StoreDigest := hex_encode (Sha256.Sum256 encoded).
Definition stableDigest (value : option doc) : res StoreDigest :=
  let? encoded := or_json_error value in
  Ok (digest_of (write encoded)).

Definition Features_doc (m : gmap Feature Z) : doc :=
  match sort_slice (fun x y => string_less (fst x) (fst y)) (map_to_list m) with
  | [] => DLit "null"
  | l => DObj ((fun kv => (escape (fst kv), DLit (print_Z (snd kv)))) <$> l)
  end.
Definition CodecSnapshot_doc (snapshot : CodecSnapshot) : doc :=
  let contract := Snapshot_Contract snapshot in
  DObj [("Contract", DObj [("ID", jstr (Contract_ID contract)); ("Major", DLit (print_Z (Contract_Major contract)));
                           ("Minor", DLit (print_Z (Contract_Minor contract)));
                           ("Features", Features_doc (Contract_Features contract))]);
        ("ID", jstr (Snapshot_ID snapshot)); ("Version", jstr (Snapshot_Version snapshot));
        ("Fingerprint", jstr (Snapshot_Fingerprint snapshot))].

(** The digest and the canonical encoding of a request under a codec. *)
Definition canonicalRequestDigest (snapshot : CodecSnapshot) (request : Request) : res (StoreDigest * string) :=
  let? canonical := Marshal Request_json request in
  let? digest := stableDigest
    (raw ← encode_raw (Some canonical); Some (DObj [("codec", CodecSnapshot_doc snapshot); ("request", raw)])) in
  Ok (digest, canonical).

Definition workerEventDigest (delivery : WorkerEventDelivery) : res StoreDigest :=
  stableDigest
    (identity ← encode CompletionIdentity_json (EventDelivery_Identity delivery);
     event ← encode Event_json (EventDelivery_Event delivery);
     Some (DObj [("identity", identity); ("lease_id", jstr (EventDelivery_LeaseID delivery)); ("event", event)])).

(** The digest of a tool call's input in [planWorkerEvent]. *)
Definition toolCallDigest (call : ToolCall) : res StoreDigest :=
  stableDigest
    (input ← fenc o_map (ToolCall_Input call);
     text ← fenc o_text (ToolCall_TextInput call);
     namespace ← fenc o_string (ToolCall_Namespace call);
     Some (DObj (present [("namespace", namespace); ("name", Some (jstr (ToolCall_Name call))); ("input", input);
                          ("text_input", text)]))).

Definition expiryDigest (key : StoreRequestKey) (requestID : string) : res StoreDigest :=
  stableDigest (Some (DObj [("request", DObj [("Caller", jstr (RequestKey_Caller key));
                                              ("IdempotencyKey", jstr (RequestKey_IdempotencyKey key))]);
                            ("request_id", jstr requestID)])).

(** [normalizeSeedOpaque]: the bytes through an [any]. *)
Definition normalizeSeedOpaque (opaque : bytes) : res bytes :=
  if is_empty (default "" opaque) then Ok None
  else
    let? d := or_json_error (read (default "" opaque)) in
    let? canonical := or_json_error (encode_value (decode_value d)) in
    Ok (Some (write canonical)).

Definition normalizeEventSeed (seed : EventSeed) : res EventSeed :=
  let? opaque := normalizeSeedOpaque (EventSeed_Opaque seed) in
  Ok {| EventSeed_EncodedAtUnix := EventSeed_EncodedAtUnix seed; EventSeed_Entropy := EventSeed_Entropy seed;
        EventSeed_Opaque := opaque |}.
Definition normalizeSessionSeed (seed : SessionSeed) : res SessionSeed :=
  let? opaque := normalizeSeedOpaque (Seed_Opaque seed) in
  Ok {| Seed_CreatedAtUnix := Seed_CreatedAtUnix seed; Seed_Entropy := Seed_Entropy seed; Seed_Opaque := opaque;
        Seed_ToolCallPolicy := Seed_ToolCallPolicy seed |}.

Definition stableAssignmentDeliveryID (requestID : string) (lease : WorkerLeaseID) : WorkerDeliveryID :=
  "assign_" ++ hex_encode (substring 0 16 (Sha256.Sum256 (requestID ++ String nul lease))).

(* ------------------------------------------------------------------ *)
(** ** What canonical JSON guarantees *)

Lemma or_json_Ok {A} (o : option A) a : or_json_error o = Ok a <-> o = Some a.
Proof. destruct o; cbn; split; congruence. Qed.

Lemma marshal_canonical {A} (c : codec A) a : canonical c a ->
  exists s, Marshal c a = Ok s /\ decodeCanonicalJSON c s = Ok a.
Proof.
  intros H. destruct (decode_marshal c a H) as (s & E & D). exists s.
  unfold Marshal, decodeCanonicalJSON. by rewrite E, D.
Qed.

Lemma normalize_canonical {A} (c : codec A) a b : normalizeCanonicalJSON c a = Ok b -> canonical c b.
Proof.
  unfold normalizeCanonicalJSON, Marshal, decodeCanonicalJSON. intros H. ok_inv. apply or_json_Ok in Hv, H.
  destruct (marshal_decode c _ _ Hv) as (b' & E & Hc). congruence.
Qed.

Lemma normalize_fixed {A} (c : codec A) a : canonical c a -> normalizeCanonicalJSON c a = Ok a.
Proof.
  intros H. destruct (marshal_canonical c a H) as (s & E & D). unfold normalizeCanonicalJSON. by rewrite E.
Qed.

(** Only [json.Marshal] can refuse a value. *)
Lemma normalize_total {A} (c : codec A) a s : Marshal c a = Ok s -> is_ok (normalizeCanonicalJSON c a) = true.
Proof.
  unfold normalizeCanonicalJSON. intros E. rewrite E. cbn. unfold Marshal in E. apply or_json_Ok in E.
  destruct (marshal_decode c _ _ E) as (b & D & _). unfold decodeCanonicalJSON. by rewrite D.
Qed.
