(* ===== verification/LlmMemory.v ===== *)
(** * The in-memory HumanLLM Store (humantest/llm_store_memory.go)

    [memoryLLMState] holds the store's five maps.  A [memoryLLMUnit] is the
    state of one callback with its lifetime flag; every primitive checks the
    flag first.  Copies on the way in and out are the values themselves.  A
    loop over a Go map visits the entries in the order of [map_to_list]. *)

From S2P Require Import Prelude GoText GoEncoding GoTime GoJson GoStrings GoDoc.
From S2P Require Import AgentTypes Framework LlmTypes.

Import Llm.
Local Open Scope string_scope.

(* ------------------------------------------------------------------ *)
(** ** State *)

Record memoryLLMReceiptKey := { ReceiptKey_request : StoreRequestKey; ReceiptKey_eventID : string }.

#[export] Instance memoryLLMReceiptKey_eq_dec : EqDecision memoryLLMReceiptKey.
Proof. solve_decision. Defined.
#[export] Instance memoryLLMReceiptKey_countable : Countable memoryLLMReceiptKey.
Proof.
  refine (inj_countable' (fun k => (ReceiptKey_request k, ReceiptKey_eventID k) : StoreRequestKey * string)
    (fun p => {| ReceiptKey_request := fst p; ReceiptKey_eventID := snd p |}) _).
  by intros [].
Defined.

Record memoryLLMState := {
  tasks : gmap StoreTaskKey StoreTaskRecord;
  requests : gmap StoreRequestKey StoreRequestRecord;
  events : gmap StoreRequestKey (gmap Z StoreResponseEventRecord);
  receipts : gmap memoryLLMReceiptKey StoreWorkerReceiptRecord;
  tools : gmap StoreToolExecutionKey StoreToolExecutionRecord
}.

Definition newMemoryLLMState : memoryLLMState :=
  {| tasks := ∅; requests := ∅; events := ∅; receipts := ∅; tools := ∅ |}.

Definition set_tasks m s := {| tasks := m; requests := requests s; events := events s;
  receipts := receipts s; tools := tools s |}.
Definition set_requests m s := {| tasks := tasks s; requests := m; events := events s;
  receipts := receipts s; tools := tools s |}.
Definition set_events m s := {| tasks := tasks s; requests := requests s; events := m;
  receipts := receipts s; tools := tools s |}.
Definition set_receipts m s := {| tasks := tasks s; requests := requests s; events := events s;
  receipts := m; tools := tools s |}.
Definition set_tools m s := {| tasks := tasks s; requests := requests s; events := events s;
  receipts := receipts s; tools := m |}.

Record memoryLLMUnit := { unit_state : memoryLLMState; unit_active : bool }.

Definition ensureActive (u : memoryLLMUnit) : res unit := refuse_if (negb (unit_active u)) ErrStoreClosed.

(** The response events of a request. *)
Definition history (s : memoryLLMState) (key : StoreRequestKey) : gmap Z StoreResponseEventRecord :=
  default ∅ (events s !! key).

(** The values of a map that pass a test, and whether there is one. *)
Definition select {K A} `{Countable K} (f : A -> bool) (m : gmap K A) : list A :=
  List.filter f (snd <$> map_to_list m).
Definition some_entry {K A} `{Countable K} (f : K -> A -> bool) (m : gmap K A) : bool :=
  existsb (fun p : K * A => f (fst p) (snd p)) (map_to_list m).

(* ------------------------------------------------------------------ *)
(** ** Keys, errors and limits *)

(** [fmt.Sprint] of the keys. *)
Definition sprint_task (k : StoreTaskKey) : string := "{" ++ TaskKey_Caller k ++ " " ++ TaskKey_Task k ++ "}".
Definition sprint_request (k : StoreRequestKey) : string :=
  "{" ++ RequestKey_Caller k ++ " " ++ RequestKey_IdempotencyKey k ++ "}".
Definition sprint_tool (k : StoreToolExecutionKey) : string :=
  "{" ++ sprint_task (ToolKey_Task k) ++ " " ++ ToolKey_ToolCallID k ++ "}".
Definition sprint_affinity (a : StoreTaskAffinity) : string :=
  "{" ++ Affinity_Caller a ++ " " ++ Affinity_WorkspaceKey a ++ " " ++ Affinity_HarnessID a ++ " "
  ++ Affinity_HarnessVersion a ++ " " ++ Affinity_HarnessSessionID a ++ "}".

Definition memoryLLMNotFound (kind : StoreRecordKind) (key : string) : error := StoreNotFoundError kind key.
Definition memoryLLMConflict (constraint : StoreConstraint) (key : string) : error :=
  StoreConflictError constraint key.
Definition memoryLLMLimit (kind : StoreRecordKind) (limit : Z) : error := StoreLimitError kind limit.
Definition memoryLLMInvalid : error := ErrStoreInvalidArgument.

Definition memoryLLMValidTaskKey (key : StoreTaskKey) : bool :=
  negb (is_empty (TaskKey_Caller key)) && negb (is_empty (TaskKey_Task key)).
Definition memoryLLMValidRequestKey (key : StoreRequestKey) : bool :=
  negb (is_empty (RequestKey_Caller key)) && negb (is_empty (RequestKey_IdempotencyKey key)).
Definition memoryLLMValidToolKey (key : StoreToolExecutionKey) : bool :=
  memoryLLMValidTaskKey (ToolKey_Task key) && negb (is_empty (ToolKey_ToolCallID key)).

Definition memoryLLMValidateReadLimit (kind : StoreRecordKind) (limit : StoreReadLimit) : res unit :=
  refuse_if (ReadLimit_MaxBytes limit <? 1)%Z (memoryLLMLimit kind (ReadLimit_MaxBytes limit)).
Definition memoryLLMBudget (kind : StoreRecordKind) (size : Z) (limit : StoreReadLimit) : res unit :=
  check memoryLLMValidateReadLimit kind limit then
  refuse_if (ReadLimit_MaxBytes limit <? size)%Z (memoryLLMLimit kind (ReadLimit_MaxBytes limit)).
Definition memoryLLMScanArguments (kind : StoreRecordKind) (limit : Z) (readLimit : StoreReadLimit) : res unit :=
  check refuse_if ((limit <? 1) || (4096 <? limit))%Z memoryLLMInvalid then
  memoryLLMValidateReadLimit kind readLimit.

Definition toolTier (tier : CapabilityTier) : bool :=
  match tier with TierRemoteTools | TierWorkspace => true | _ => false end.

Definition memoryLLMValidateTask (record : StoreTaskRecord) : res unit :=
  check refuse_if (negb (memoryLLMValidTaskKey (Task_Key record)) || (Task_Revision record =? 0)%Z
                   || IsZero (Task_CreatedAt record) || IsZero (Task_UpdatedAt record)
                   || negb (TaskState_Valid (Task_State record))) memoryLLMInvalid then
  check (match Task_CapabilityTier record with
         | TierChat => Ok tt
         | TierRemoteTools | TierWorkspace =>
             refuse_if (is_empty (Task_WorkspaceKey record) || is_empty (Task_HarnessID record)
                        || is_empty (Task_HarnessVersion record) || is_empty (Task_HarnessSessionID record))
               memoryLLMInvalid
         | TierOther _ => Err memoryLLMInvalid
         end) then
  wrap memoryLLMInvalid (CodecSnapshot_Validate (Task_Codec record)).

Definition memoryLLMValidateRequest (record : StoreRequestRecord) : res unit :=
  check refuse_if (negb (memoryLLMValidRequestKey (Req_Key record)) || negb (memoryLLMValidTaskKey (Req_Task record))
                   || is_empty (Req_RequestID record) || is_empty (Req_ResponseID record)
                   || is_empty (Req_RequestDigest record) || (Req_Revision record =? 0)%Z
                   || IsZero (Req_CreatedAt record)
                   || ((Req_Mode record <>? ResponseStream) && (Req_Mode record <>? ResponseAggregate)))
    memoryLLMInvalid then
  check wrap memoryLLMInvalid (CodecSnapshot_Validate (Req_Codec record)) then
  refuse_if (negb (is_none (Req_PayloadPrunedAt record))
             && (negb (blen (Req_CanonicalPayload record) =? 0)%Z
                 || negb (blen (Decision_Body (Req_Decision record)) =? 0)%Z)) memoryLLMInvalid.

Definition memoryLLMValidateResponseEvent (record : StoreResponseEventRecord) : res unit :=
  refuse_if (negb (memoryLLMValidRequestKey (Resp_Request record)) || (Resp_Sequence record =? 0)%Z
             || ((Resp_Kind record <>? StoreEventCheckpoint) && (Resp_Kind record <>? StoreEventWire))
             || IsZero (Resp_CreatedAt record)
             || negb (Bool.eqb (is_empty (Resp_Worker record)) (is_empty (Resp_WorkerEventID record)))
             || negb (Bool.eqb (is_empty (Resp_WorkerEventID record)) (is_empty (Resp_WorkerEventDigest record))))
    memoryLLMInvalid.

Definition memoryLLMValidateWorkerReceipt (record : StoreWorkerReceiptRecord) : res unit :=
  refuse_if (negb (memoryLLMValidRequestKey (Receipt_Request record)) || is_empty (Receipt_EventID record)
             || is_empty (Receipt_Worker record) || is_empty (Receipt_Digest record)
             || IsZero (Receipt_CreatedAt record)) memoryLLMInvalid.

Definition memoryLLMValidateTool (record : StoreToolExecutionRecord) : res unit :=
  refuse_if (negb (memoryLLMValidToolKey (Exec_Key record)) || is_empty (Exec_InputDigest record)
             || (Exec_Revision record =? 0)%Z || IsZero (Exec_CreatedAt record)
             || ((Exec_State record <>? ToolExecutionPending) && (Exec_State record <>? ToolExecutionCompleted)))
    memoryLLMInvalid.

Definition memoryLLMValidRecoveryCursor (cursor : StoreRecoveryCursor) : bool :=
  negb (IsZero (RecoveryCursor_CreatedAt cursor)) && negb (is_empty (RecoveryCursor_Caller cursor))
  && negb (is_empty (RecoveryCursor_IdempotencyKey cursor)).
Definition memoryLLMValidRetentionCursor (cursor : StoreRetentionCursor) : bool :=
  negb (IsZero (RetentionCursor_CompletedAt cursor)) && negb (is_empty (RetentionCursor_Caller cursor))
  && negb (is_empty (RetentionCursor_IdempotencyKey cursor)).

(* ------------------------------------------------------------------ *)
(** ** Projections and orders *)

Definition memoryLLMAffinity (record : StoreTaskRecord) : StoreTaskAffinity :=
  {| Affinity_Caller := TaskKey_Caller (Task_Key record); Affinity_WorkspaceKey := Task_WorkspaceKey record;
     Affinity_HarnessID := Task_HarnessID record; Affinity_HarnessVersion := Task_HarnessVersion record;
     Affinity_HarnessSessionID := Task_HarnessSessionID record |}.

Definition memoryLLMTaskIdentityEqual (left right : StoreTaskRecord) : bool :=
  (Task_Key left =?= Task_Key right) && (Task_WorkspaceKey left =?= Task_WorkspaceKey right)
  && (Task_CapabilityTier left =?= Task_CapabilityTier right)
  && CodecSnapshot_Equal (Task_Codec left) (Task_Codec right)
  && (Task_HarnessID left =?= Task_HarnessID right) && (Task_HarnessVersion left =?= Task_HarnessVersion right)
  && (Task_HarnessSessionID left =?= Task_HarnessSessionID right)
  && Bool.eqb (Task_ExecAllowed left) (Task_ExecAllowed right)
  && TimeEqual (Task_CreatedAt left) (Task_CreatedAt right).

Definition memoryLLMRequestIdentityEqual (left right : StoreRequestRecord) : bool :=
  (Req_Key left =?= Req_Key right) && (Req_Task left =?= Req_Task right)
  && (Req_RequestID left =?= Req_RequestID right) && (Req_ResponseID left =?= Req_ResponseID right)
  && (Req_RequestDigest left =?= Req_RequestDigest right)
  && CodecSnapshot_Equal (Req_Codec left) (Req_Codec right) && (Req_Mode left =?= Req_Mode right)
  && TimeEqual (Req_CreatedAt left) (Req_CreatedAt right).

Definition memoryLLMRequestHead (record : StoreRequestRecord) : StoreRequestHead :=
  {| Head_Key := Req_Key record; Head_Task := Req_Task record; Head_RequestID := Req_RequestID record;
     Head_ResponseID := Req_ResponseID record; Head_RequestDigest := Req_RequestDigest record;
     Head_Codec := Req_Codec record; Head_Mode := Req_Mode record;
     Head_DecisionStatus := Decision_StatusCode (Req_Decision record);
     Head_DecisionContentType := Decision_ContentType (Req_Decision record);
     Head_DecisionRetryAfter := Decision_RetryAfter (Req_Decision record);
     Head_ResponseComplete := Req_ResponseComplete record; Head_RecoveryQuarantined := Req_RecoveryQuarantined record;
     Head_LastEventSequence := Req_LastEventSequence record; Head_Revision := Req_Revision record;
     Head_CreatedAt := Req_CreatedAt record; Head_CompletedAt := Req_CompletedAt record;
     Head_PayloadPrunedAt := Req_PayloadPrunedAt record |}.

Definition memoryLLMRecoveryLess (left right : StoreRequestRecord) : bool :=
  if negb (TimeEqual (Req_CreatedAt left) (Req_CreatedAt right)) then
    Before (Req_CreatedAt left) (Req_CreatedAt right)
  else if RequestKey_Caller (Req_Key left) <>? RequestKey_Caller (Req_Key right) then
    string_less (RequestKey_Caller (Req_Key left)) (RequestKey_Caller (Req_Key right))
  else string_less (RequestKey_IdempotencyKey (Req_Key left)) (RequestKey_IdempotencyKey (Req_Key right)).

Definition memoryLLMRecoveryAfter (record : StoreRequestRecord) (cursor : StoreRecoveryCursor) : bool :=
  if negb (TimeEqual (Req_CreatedAt record) (RecoveryCursor_CreatedAt cursor)) then
    After (Req_CreatedAt record) (RecoveryCursor_CreatedAt cursor)
  else if RequestKey_Caller (Req_Key record) <>? RecoveryCursor_Caller cursor then
    string_less (RecoveryCursor_Caller cursor) (RequestKey_Caller (Req_Key record))
  else string_less (RecoveryCursor_IdempotencyKey cursor) (RequestKey_IdempotencyKey (Req_Key record)).

Definition memoryLLMRetentionLess (left right : StoreRetentionCandidate) : bool :=
  let l := Head_Key (Candidate_Request left) in let r := Head_Key (Candidate_Request right) in
  if negb (TimeEqual (Candidate_EffectiveCompletedAt left) (Candidate_EffectiveCompletedAt right)) then
    Before (Candidate_EffectiveCompletedAt left) (Candidate_EffectiveCompletedAt right)
  else if RequestKey_Caller l <>? RequestKey_Caller r then string_less (RequestKey_Caller l) (RequestKey_Caller r)
  else string_less (RequestKey_IdempotencyKey l) (RequestKey_IdempotencyKey r).

Definition memoryLLMRetentionAfter (key : StoreRequestKey) (effective : time) (cursor : StoreRetentionCursor) : bool :=
  if negb (TimeEqual effective (RetentionCursor_CompletedAt cursor)) then
    After effective (RetentionCursor_CompletedAt cursor)
  else if RequestKey_Caller key <>? RetentionCursor_Caller cursor then
    string_less (RetentionCursor_Caller cursor) (RequestKey_Caller key)
  else string_less (RetentionCursor_IdempotencyKey cursor) (RequestKey_IdempotencyKey key).

(** The page loop of a scan: at most [limit] records within the byte budget;
    an error when the first one alone exceeds it. *)
Fixpoint fit_page {A} (kind : StoreRecordKind) (size : A -> Z) (limit : nat) (max used : Z) (first : bool)
    (l : list A) : res (list A) :=
  match l, limit with
  | [], _ | _, O => Ok []
  | record :: l', S limit' =>
      let n := size record in
      if (max <? n)%Z then (if first then Err (memoryLLMLimit kind max) else Ok [])
      else if (max <? used + n)%Z then Ok []
      else
        let? rest := fit_page kind size limit' max (used + n) false l' in
        Ok (record :: rest)
  end.

Definition event_size (record : StoreResponseEventRecord) : Z := blen (Resp_Data record).
Definition tool_size (record : StoreToolExecutionRecord) : Z := blen (Exec_Result record).
Definition request_size (record : StoreRequestRecord) : Z :=
  (blen (Req_CanonicalPayload record) + blen (Decision_Body (Req_Decision record)))%Z.
Definition recovery_size (record : StoreRecoveryRecord) : Z := request_size (Recovery_Request record).

Definition effectiveCompletedAt (request : StoreRequestRecord) : time :=
  match Req_CompletedAt request with Some at_ => at_ | None => Req_CreatedAt request end.

(** [view.unacknowledged]: some worker event of the request has no receipt of
    the same worker and digest. *)
Definition unacknowledged_event (s : memoryLLMState) (request : StoreRequestKey)
    (event : StoreResponseEventRecord) : bool :=
  negb (is_empty (Resp_WorkerEventID event)) &&
  match receipts s !! {| ReceiptKey_request := request; ReceiptKey_eventID := Resp_WorkerEventID event |} with
  | None => true
  | Some receipt =>
      (Receipt_Worker receipt <>? Resp_Worker event) || (Receipt_Digest receipt <>? Resp_WorkerEventDigest event)
  end.
Definition unacknowledged (s : memoryLLMState) (request : StoreRequestKey) : bool :=
  some_entry (fun _ => unacknowledged_event s request) (history s request).

(* ------------------------------------------------------------------ *)
(** ** Reads (memoryLLMView) *)

Module ReadOp.

Definition LoadTask (u : memoryLLMUnit) (key : StoreTaskKey) : res StoreTaskRecord :=
  check ensureActive u then
  check refuse_if (negb (memoryLLMValidTaskKey key)) memoryLLMInvalid then
  match tasks (unit_state u) !! key with
  | None => Err (memoryLLMNotFound StoreRecordTask (sprint_task key))
  | Some record => Ok record
  end.

Definition FindOpenTask (u : memoryLLMUnit) (affinity : StoreTaskAffinity) : res StoreTaskRecord :=
  check ensureActive u then
  check refuse_if (is_empty (Affinity_Caller affinity) || is_empty (Affinity_WorkspaceKey affinity)
                   || is_empty (Affinity_HarnessID affinity) || is_empty (Affinity_HarnessVersion affinity)
                   || is_empty (Affinity_HarnessSessionID affinity)) ErrStoreInvalidArgument then
  match select (fun record => negb (TaskState_Terminal (Task_State record)) && toolTier (Task_CapabilityTier record)
                              && (memoryLLMAffinity record =?= affinity)) (tasks (unit_state u)) with
  | record :: _ => Ok record
  | [] => Err (memoryLLMNotFound StoreRecordTask (sprint_affinity affinity))
  end.

Definition FindActiveRequest (u : memoryLLMUnit) (task : StoreTaskKey) : res StoreRequestHead :=
  check ensureActive u then
  check refuse_if (negb (memoryLLMValidTaskKey task)) memoryLLMInvalid then
  match select (fun record => (Req_Task record =?= task) && negb (Req_ResponseComplete record))
               (requests (unit_state u)) with
  | record :: _ => Ok (memoryLLMRequestHead record)
  | [] => Err (memoryLLMNotFound StoreRecordRequest (sprint_task task))
  end.

Definition LoadRequestHead (u : memoryLLMUnit) (key : StoreRequestKey) : res StoreRequestHead :=
  check ensureActive u then
  check refuse_if (negb (memoryLLMValidRequestKey key)) memoryLLMInvalid then
  match requests (unit_state u) !! key with
  | None => Err (memoryLLMNotFound StoreRecordRequest (sprint_request key))
  | Some record => Ok (memoryLLMRequestHead record)
  end.

Definition LoadRequest (u : memoryLLMUnit) (key : StoreRequestKey) (limit : StoreReadLimit) : res StoreRequestRecord :=
  check ensureActive u then
  check refuse_if (negb (memoryLLMValidRequestKey key)) memoryLLMInvalid then
  check memoryLLMValidateReadLimit StoreRecordRequest limit then
  match requests (unit_state u) !! key with
  | None => Err (memoryLLMNotFound StoreRecordRequest (sprint_request key))
  | Some record =>
      check memoryLLMBudget StoreRecordRequest (request_size record) limit then
      Ok record
  end.

Definition LoadResponseDecision (u : memoryLLMUnit) (key : StoreRequestKey) (limit : StoreReadLimit)
    : res StoreResponseDecision :=
  check ensureActive u then
  check refuse_if (negb (memoryLLMValidRequestKey key)) memoryLLMInvalid then
  check memoryLLMValidateReadLimit StoreRecordRequest limit then
  match requests (unit_state u) !! key with
  | None => Err (memoryLLMNotFound StoreRecordRequest (sprint_request key))
  | Some record =>
      check memoryLLMBudget StoreRecordRequest (blen (Decision_Body (Req_Decision record))) limit then
      Ok (Req_Decision record)
  end.

Definition LoadWorkerReceipt (u : memoryLLMUnit) (request : StoreRequestKey) (eventID : string)
    : res StoreWorkerReceiptRecord :=
  check ensureActive u then
  check refuse_if (negb (memoryLLMValidRequestKey request) || is_empty eventID) memoryLLMInvalid then
  match receipts (unit_state u) !! {| ReceiptKey_request := request; ReceiptKey_eventID := eventID |} with
  | None => Err (memoryLLMNotFound StoreRecordWorkerReceipt eventID)
  | Some record => Ok record
  end.

Definition LoadToolExecution (u : memoryLLMUnit) (key : StoreToolExecutionKey) (limit : StoreReadLimit)
    : res StoreToolExecutionRecord :=
  check ensureActive u then
  check refuse_if (negb (memoryLLMValidToolKey key)) memoryLLMInvalid then
  check memoryLLMValidateReadLimit StoreRecordToolExecution limit then
  match tools (unit_state u) !! key with
  | None => Err (memoryLLMNotFound StoreRecordToolExecution (sprint_tool key))
  | Some record =>
      check memoryLLMBudget StoreRecordToolExecution (tool_size record) limit then
      Ok record
  end.

(** The loop over the kinds asked for. *)
Fixpoint kinds_check (seen kinds : list StoreResponseEventKind) : res unit :=
  match kinds with
  | [] => Ok tt
  | kind :: kinds =>
      check refuse_if ((kind <>? StoreEventCheckpoint) && (kind <>? StoreEventWire)) memoryLLMInvalid then
      check refuse_if (bool_decide (kind ∈ seen)) memoryLLMInvalid then
      kinds_check (kind :: seen) kinds
  end.

Definition event_selected (scan : StoreResponseEventScan) (entry : Z * StoreResponseEventRecord) : bool :=
  negb ((fst entry <=? EventScan_After scan)%Z
        || (negb (is_nil (EventScan_Kinds scan)) && negb (bool_decide (Resp_Kind (snd entry) ∈ EventScan_Kinds scan)))
        || (negb (is_empty (EventScan_WorkerEventID scan))
            && (Resp_WorkerEventID (snd entry) <>? EventScan_WorkerEventID scan))).

Definition ScanResponseEvents (u : memoryLLMUnit) (scan : StoreResponseEventScan)
    : res (list StoreResponseEventRecord) :=
  check ensureActive u then
  check refuse_if (negb (memoryLLMValidRequestKey (EventScan_Request scan))) memoryLLMInvalid then
  check memoryLLMScanArguments StoreRecordResponseEvent (EventScan_Limit scan) (EventScan_ReadLimit scan) then
  check kinds_check [] (EventScan_Kinds scan) then
  let h := history (unit_state u) (EventScan_Request scan) in
  let sequences := sort_slice Z.ltb (fst <$> List.filter (event_selected scan) (map_to_list h)) in
  fit_page StoreRecordResponseEvent event_size (Z.to_nat (EventScan_Limit scan))
    (ReadLimit_MaxBytes (EventScan_ReadLimit scan)) 0 true (omap (fun sequence => h !! sequence) sequences).

Definition tool_selected (scan : StoreToolExecutionScan)
    (entry : StoreToolExecutionKey * StoreToolExecutionRecord) : bool :=
  negb ((ToolKey_Task (fst entry) <>? ToolScan_Task scan)
        || negb (string_less (ToolScan_After scan) (ToolKey_ToolCallID (fst entry)))
        || match ToolScan_State scan with None => false | Some state => Exec_State (snd entry) <>? state end).

Definition ScanToolExecutions (u : memoryLLMUnit) (scan : StoreToolExecutionScan)
    : res (list StoreToolExecutionRecord) :=
  check ensureActive u then
  check refuse_if (negb (memoryLLMValidTaskKey (ToolScan_Task scan))) memoryLLMInvalid then
  check refuse_if (match ToolScan_State scan with Some (ToolExecutionOther _) => true | _ => false end)
    memoryLLMInvalid then
  check memoryLLMScanArguments StoreRecordToolExecution (ToolScan_Limit scan) (ToolScan_ReadLimit scan) then
  let ids := sort_slice string_less
    ((fun entry => ToolKey_ToolCallID (fst entry)) <$>
      List.filter (tool_selected scan) (map_to_list (tools (unit_state u)))) in
  fit_page StoreRecordToolExecution tool_size (Z.to_nat (ToolScan_Limit scan))
    (ReadLimit_MaxBytes (ToolScan_ReadLimit scan)) 0 true
    (omap (fun id => tools (unit_state u) !! {| ToolKey_Task := ToolScan_Task scan; ToolKey_ToolCallID := id |}) ids).

(** One round of the loop over the requests. *)
Definition recovery_candidate (s : memoryLLMState) (scan : StoreRecoveryScan) (request : StoreRequestRecord)
    : option StoreRecoveryRecord :=
  if Req_RecoveryQuarantined request
     || (Req_ResponseComplete request && negb (unacknowledged s (Req_Key request))) then None
  else if match RecoveryScan_After scan with
          | Some cursor => negb (memoryLLMRecoveryAfter request cursor) | None => false end then None
  else
    task ← tasks s !! Req_Task request;
    Some {| Recovery_Task := task; Recovery_Request := request |}.

Definition ScanRecovery (u : memoryLLMUnit) (scan : StoreRecoveryScan) : res (list StoreRecoveryRecord) :=
  check ensureActive u then
  check refuse_if (match RecoveryScan_After scan with
                   | Some cursor => negb (memoryLLMValidRecoveryCursor cursor) | None => false end)
    memoryLLMInvalid then
  check memoryLLMScanArguments StoreRecordRequest (RecoveryScan_Limit scan) (RecoveryScan_ReadLimit scan) then
  let s := unit_state u in
  let candidates := sort_slice
    (fun x y => memoryLLMRecoveryLess (Recovery_Request x) (Recovery_Request y))
    (omap (recovery_candidate s scan) (snd <$> map_to_list (requests s))) in
  fit_page StoreRecordRequest recovery_size (Z.to_nat (RecoveryScan_Limit scan))
    (ReadLimit_MaxBytes (RecoveryScan_ReadLimit scan)) 0 true candidates.

Definition retention_candidate (s : memoryLLMState) (scan : StoreRetentionScan) (request : StoreRequestRecord)
    : option StoreRetentionCandidate :=
  if negb (Req_ResponseComplete request) || negb (is_none (Req_PayloadPrunedAt request)) then None
  else
    let effective := effectiveCompletedAt request in
    if After effective (RetentionScan_CompletedBefore scan)
       || match RetentionScan_After scan with
          | Some cursor => negb (memoryLLMRetentionAfter (Req_Key request) effective cursor) | None => false end
    then None
    else Some {| Candidate_Request := memoryLLMRequestHead request; Candidate_EffectiveCompletedAt := effective;
                 Candidate_UnacknowledgedWorkerEvent :=
                   negb (Req_RecoveryQuarantined request) && unacknowledged s (Req_Key request) |}.

Definition ScanRetention (u : memoryLLMUnit) (scan : StoreRetentionScan) : res (list StoreRetentionCandidate) :=
  check ensureActive u then
  check refuse_if (IsZero (RetentionScan_CompletedBefore scan)
                   || (RetentionScan_Limit scan <? 1)%Z || (4096 <? RetentionScan_Limit scan)%Z
                   || match RetentionScan_After scan with
                      | Some cursor => negb (memoryLLMValidRetentionCursor cursor) | None => false end)
    memoryLLMInvalid then
  let s := unit_state u in
  let result := sort_slice memoryLLMRetentionLess
    (omap (retention_candidate s scan) (snd <$> map_to_list (requests s))) in
  Ok (take (Z.to_nat (RetentionScan_Limit scan)) result).

End ReadOp.

(* ------------------------------------------------------------------ *)
(** ** Mutations (memoryLLMTx) *)

Module WriteOp.

Definition open_tool_task (record : StoreTaskRecord) : bool :=
  negb (TaskState_Terminal (Task_State record)) && toolTier (Task_CapabilityTier record).

Definition InsertTask (u : memoryLLMUnit) (record : StoreTaskRecord) : res memoryLLMState :=
  check ensureActive u then
  check memoryLLMValidateTask record then
  let s := unit_state u in
  match tasks s !! Task_Key record with
  | Some _ => Err (memoryLLMConflict StoreConstraintTaskKey (sprint_task (Task_Key record)))
  | None =>
      check refuse_if (open_tool_task record &&
          some_entry (fun _ existing => negb (TaskState_Terminal (Task_State existing))
                                        && (memoryLLMAffinity existing =?= memoryLLMAffinity record)) (tasks s))
        (memoryLLMConflict StoreConstraintOpenAffinity (sprint_task (Task_Key record))) then
      Ok (set_tasks (<[Task_Key record := record]> (tasks s)) s)
  end.

Definition CompareAndSwapTask (u : memoryLLMUnit) (mutation : StoreTaskMutation) : res (bool * memoryLLMState) :=
  check ensureActive u then
  let s := unit_state u in
  let key := TaskMutation_Key mutation in
  let next := TaskMutation_Next mutation in
  check refuse_if (negb (memoryLLMValidTaskKey key) || (TaskMutation_ExpectedRevision mutation =? 0)%Z
                   || (Task_Revision next =? 0)%Z) memoryLLMInvalid then
  match tasks s !! key with
  | None => Err (memoryLLMNotFound StoreRecordTask (sprint_task key))
  | Some current =>
      if (Task_Revision current <>? TaskMutation_ExpectedRevision mutation) then Ok (false, s)
      else
        check refuse_if (negb (memoryLLMTaskIdentityEqual current next)
                         || (Task_Revision next <>? inc64 (Task_Revision current)))
          (memoryLLMConflict StoreConstraintImmutableRecord (sprint_task key)) then
        check refuse_if (open_tool_task next &&
            some_entry (fun k existing => (k <>? key) && negb (TaskState_Terminal (Task_State existing))
                                          && (memoryLLMAffinity existing =?= memoryLLMAffinity next)) (tasks s))
          (memoryLLMConflict StoreConstraintOpenAffinity (sprint_task key)) then
        Ok (true, set_tasks (<[key := next]> (tasks s)) s)
  end.

(** The loop over the requests: the first conflict in the order of the map. *)
Fixpoint request_conflict (record : StoreRequestRecord) (l : list StoreRequestRecord) : res unit :=
  match l with
  | [] => Ok tt
  | existing :: l =>
      check refuse_if (negb (Req_ResponseComplete record) && (Req_Task existing =?= Req_Task record)
                       && negb (Req_ResponseComplete existing))
        (memoryLLMConflict StoreConstraintActiveRequest (sprint_task (Req_Task record))) then
      check refuse_if ((RequestKey_Caller (Req_Key existing) =?= RequestKey_Caller (Req_Key record))
                       && ((Req_RequestID existing =?= Req_RequestID record)
                           || (Req_ResponseID existing =?= Req_ResponseID record)))
        (memoryLLMConflict StoreConstraintRequestKey (sprint_request (Req_Key record))) then
      request_conflict record l
  end.

Definition InsertRequest (u : memoryLLMUnit) (record : StoreRequestRecord) : res memoryLLMState :=
  check ensureActive u then
  check memoryLLMValidateRequest record then
  let s := unit_state u in
  match requests s !! Req_Key record with
  | Some _ => Err (memoryLLMConflict StoreConstraintRequestKey (sprint_request (Req_Key record)))
  | None =>
      match tasks s !! Req_Task record with
      | None => Err (memoryLLMNotFound StoreRecordTask (sprint_task (Req_Task record)))
      | Some task =>
          check refuse_if (negb (CodecSnapshot_Equal (Task_Codec task) (Req_Codec record)))
            (memoryLLMConflict StoreConstraintImmutableRecord (sprint_request (Req_Key record))) then
          check request_conflict record (snd <$> map_to_list (requests s)) then
          Ok (set_requests (<[Req_Key record := record]> (requests s)) s)
      end
  end.

(** [bytes.Equal]: nil and empty are the same. *)
Definition bytes_Equal (a b : bytes) : bool := default "" a =?= default "" b.

Definition payload_frozen (current next : StoreRequestRecord) : bool :=
  let bare := (blen (Req_CanonicalPayload next) =? 0)%Z && (blen (Decision_Body (Req_Decision next)) =? 0)%Z in
  match Req_PayloadPrunedAt current with
  | None =>
      match Req_PayloadPrunedAt next with
      | None => bytes_Equal (Req_CanonicalPayload current) (Req_CanonicalPayload next)
      | Some _ => bare
      end
  | Some at_ =>
      match Req_PayloadPrunedAt next with
      | None => false
      | Some at' => TimeEqual at' at_ && bare
      end
  end.

Definition CompareAndSwapRequest (u : memoryLLMUnit) (mutation : StoreRequestMutation) : res (bool * memoryLLMState) :=
  check ensureActive u then
  let s := unit_state u in
  let key := RequestMutation_Key mutation in
  let next := RequestMutation_Next mutation in
  check refuse_if (negb (memoryLLMValidRequestKey key) || (RequestMutation_ExpectedRevision mutation =? 0)%Z
                   || (Req_Revision next =? 0)%Z) memoryLLMInvalid then
  match requests s !! key with
  | None => Err (memoryLLMNotFound StoreRecordRequest (sprint_request key))
  | Some current =>
      if (Req_Revision current <>? RequestMutation_ExpectedRevision mutation) then Ok (false, s)
      else
        check refuse_if (negb (memoryLLMRequestIdentityEqual current next)
                         || (Req_Revision next <>? inc64 (Req_Revision current)))
          (memoryLLMConflict StoreConstraintImmutableRecord (sprint_request key)) then
        check refuse_if (negb (payload_frozen current next))
          (memoryLLMConflict StoreConstraintImmutableRecord (sprint_request key)) then
        check refuse_if (negb (Req_ResponseComplete next) &&
            some_entry (fun k existing => (k <>? key) && (Req_Task existing =?= Req_Task next)
                                          && negb (Req_ResponseComplete existing)) (requests s))
          (memoryLLMConflict StoreConstraintActiveRequest (sprint_task (Req_Task next))) then
        Ok (true, set_requests (<[key := next]> (requests s)) s)
  end.

Definition InsertResponseEvent (u : memoryLLMUnit) (record : StoreResponseEventRecord) : res memoryLLMState :=
  check ensureActive u then
  check memoryLLMValidateResponseEvent record then
  let s := unit_state u in
  let key := Resp_Request record in
  match requests s !! key with
  | None => Err (memoryLLMNotFound StoreRecordRequest (sprint_request key))
  | Some _ =>
      let h := history s key in
      match h !! Resp_Sequence record with
      | Some _ => Err (memoryLLMConflict StoreConstraintResponseSequence (print_Z (Resp_Sequence record)))
      | None =>
          check refuse_if (negb (is_empty (Resp_WorkerEventID record)) &&
              some_entry (fun _ existing => (Resp_WorkerEventID existing =?= Resp_WorkerEventID record)
                  && ((Resp_Worker existing <>? Resp_Worker record)
                      || (Resp_WorkerEventDigest existing <>? Resp_WorkerEventDigest record))) h)
            (memoryLLMConflict StoreConstraintWorkerEvent (Resp_WorkerEventID record)) then
          Ok (set_events (<[key := <[Resp_Sequence record := record]> h]> (events s)) s)
      end
  end.

Definition receiptKey (record : StoreWorkerReceiptRecord) : memoryLLMReceiptKey :=
  {| ReceiptKey_request := Receipt_Request record; ReceiptKey_eventID := Receipt_EventID record |}.

Definition InsertWorkerReceipt (u : memoryLLMUnit) (record : StoreWorkerReceiptRecord) : res memoryLLMState :=
  check ensureActive u then
  check memoryLLMValidateWorkerReceipt record then
  let s := unit_state u in
  match requests s !! Receipt_Request record with
  | None => Err (memoryLLMNotFound StoreRecordRequest (sprint_request (Receipt_Request record)))
  | Some _ =>
      match receipts s !! receiptKey record with
      | Some _ => Err (memoryLLMConflict StoreConstraintWorkerReceipt (Receipt_EventID record))
      | None => Ok (set_receipts (<[receiptKey record := record]> (receipts s)) s)
      end
  end.

Definition InsertToolExecution (u : memoryLLMUnit) (record : StoreToolExecutionRecord) : res memoryLLMState :=
  check ensureActive u then
  check memoryLLMValidateTool record then
  let s := unit_state u in
  match tasks s !! ToolKey_Task (Exec_Key record) with
  | None => Err (memoryLLMNotFound StoreRecordTask (sprint_task (ToolKey_Task (Exec_Key record))))
  | Some _ =>
      match tools s !! Exec_Key record with
      | Some _ => Err (memoryLLMConflict StoreConstraintToolCall (sprint_tool (Exec_Key record)))
      | None => Ok (set_tools (<[Exec_Key record := record]> (tools s)) s)
      end
  end.

Definition CompareAndSwapToolExecution (u : memoryLLMUnit) (mutation : StoreToolExecutionMutation)
    : res (bool * memoryLLMState) :=
  check ensureActive u then
  let s := unit_state u in
  let key := ToolMutation_Key mutation in
  let next := ToolMutation_Next mutation in
  check refuse_if (negb (memoryLLMValidToolKey key) || (ToolMutation_ExpectedRevision mutation =? 0)%Z
                   || (Exec_Revision next =? 0)%Z) memoryLLMInvalid then
  match tools s !! key with
  | None => Err (memoryLLMNotFound StoreRecordToolExecution (sprint_tool key))
  | Some current =>
      if (Exec_Revision current <>? ToolMutation_ExpectedRevision mutation) then Ok (false, s)
      else
        check refuse_if ((Exec_Key current <>? Exec_Key next) || (Exec_InputDigest current <>? Exec_InputDigest next)
                         || negb (TimeEqual (Exec_CreatedAt current) (Exec_CreatedAt next))
                         || (Exec_Revision next <>? inc64 (Exec_Revision current)))
          (memoryLLMConflict StoreConstraintImmutableRecord (sprint_tool key)) then
        Ok (true, set_tools (<[key := next]> (tools s)) s)
  end.

Definition DeleteTombstonedResponseEvents (u : memoryLLMUnit) (key : StoreRequestKey) : res (Z * memoryLLMState) :=
  check ensureActive u then
  check refuse_if (negb (memoryLLMValidRequestKey key)) memoryLLMInvalid then
  let s := unit_state u in
  match requests s !! key with
  | None => Err (memoryLLMNotFound StoreRecordRequest (sprint_request key))
  | Some request =>
      check refuse_if (is_none (Req_PayloadPrunedAt request))
        (memoryLLMConflict StoreConstraintCompareAndSwap (sprint_request key)) then
      Ok (Z.of_nat (size (history s key)), set_events (delete key (events s)) s)
  end.

End WriteOp.

(* ------------------------------------------------------------------ *)
(** ** Images and handles *)

Abbreviation handleID := nat.

(** The image: its binding, its committed state, and the handles opened over
    it with their [closed] flags. *)
Record MemoryLLMStoreImage := {
  image_binding : option StoreBinding;
  image_state : memoryLLMState;
  image_handles : gmap handleID bool
}.

Definition NewMemoryLLMStoreImage : MemoryLLMStoreImage :=
  {| image_binding := None; image_state := newMemoryLLMState; image_handles := ∅ |}.

Definition Open (image : MemoryLLMStoreImage) : handleID * MemoryLLMStoreImage :=
  let handle := fresh (dom (image_handles image)) in
  (handle, {| image_binding := image_binding image; image_state := image_state image;
              image_handles := <[handle := false]> (image_handles image) |}).

Definition handle_closed (image : MemoryLLMStoreImage) (handle : handleID) : bool :=
  default true (image_handles image !! handle).

(** [store.close], which the release function runs once. *)
Definition close (image : MemoryLLMStoreImage) (handle : handleID) : MemoryLLMStoreImage :=
  {| image_binding := image_binding image; image_state := image_state image;
     image_handles := <[handle := true]> (image_handles image) |}.

Definition Abandon (image : MemoryLLMStoreImage) (handle : handleID) : res MemoryLLMStoreImage :=
  check refuse_if (handle_closed image handle) ErrStoreClosed then
  Ok (close image handle).

Definition MemoryLLMStore_Description : StoreDescription :=
  {| StoreDescription_Contract := {| Contract_ID := StoreContractID; Contract_Major := StoreContractMajor;
                                     Contract_Minor := 0; Contract_Features := ∅ |};
     StoreDescription_Provider := "humantest-memory-model"; StoreDescription_Version := "1" |}.

(** A context that is nil, or already done. *)
Definition context_ready (ctx : goctx) : res unit :=
  match ctx with
  | NilContext => Err ErrStoreInvalidArgument
  | Context (Some e) => Err (ErrOf e)
  | Context None => Ok tt
  end.

Definition Bind (ctx : goctx) (binding : StoreBinding) (image : MemoryLLMStoreImage) (handle : handleID)
    : res MemoryLLMStoreImage :=
  check context_ready ctx then
  check StoreBinding_Validate binding then
  check refuse_if (handle_closed image handle) ErrStoreClosed then
  match image_binding image with
  | None => Ok {| image_binding := Some binding; image_state := image_state image; image_handles := image_handles image |}
  | Some bound =>
      check refuse_if (bound <>? binding)
        (StoreConflictError StoreConstraintDeploymentBinding (Binding_DeploymentID binding)) then
      Ok image
  end.

Definition View {A} (ctx : goctx) (callback : memoryLLMUnit -> res A) (image : MemoryLLMStoreImage)
    (handle : handleID) : res A :=
  check context_ready ctx then
  check refuse_if (handle_closed image handle) ErrStoreClosed then
  callback {| unit_state := image_state image; unit_active := true |}.

(** The callback works on a clone, which becomes the state when it returns
    nil. *)
Definition Update {A} (ctx : goctx) (callback : memoryLLMUnit -> res (A * memoryLLMState))
    (image : MemoryLLMStoreImage) (handle : handleID) : res A * MemoryLLMStoreImage :=
  match (check context_ready ctx then
         check refuse_if (handle_closed image handle) ErrStoreClosed then
         callback {| unit_state := image_state image; unit_active := true |}) with
  | Err e => (Err e, image)
  | Ok (a, next) =>
      (Ok a, {| image_binding := image_binding image; image_state := next; image_handles := image_handles image |})
  end.
