(* ===== verification/LlmLedger.v ===== *)
(** * The ledger of HumanLLM

    What holds of every state the in-memory Store can reach through its
    mutations, and what a later state keeps of an earlier one. *)

From S2P Require Import Prelude GoText GoEncoding GoTime GoJson GoStrings GoDoc AgentTypes Framework LlmTypes LlmMemory.

Import Llm.
Local Open Scope string_scope.

(** The unit of a callback that is running. *)
Definition live (s : memoryLLMState) : memoryLLMUnit := {| unit_state := s; unit_active := true |}.

(** A value of the type uint64. *)
Definition uint64 (z : Z) : Prop := (0 <= z < 18446744073709551616)%Z.

(** One successful mutation of a transaction; its argument is of its type. *)
Inductive tx_step : memoryLLMState -> memoryLLMState -> Prop :=
  | step_InsertTask r s s' : uint64 (Task_Revision r) -> WriteOp.InsertTask (live s) r = Ok s' -> tx_step s s'
  | step_CompareAndSwapTask m s b s' : WriteOp.CompareAndSwapTask (live s) m = Ok (b, s') -> tx_step s s'
  | step_InsertRequest r s s' : uint64 (Req_Revision r) -> WriteOp.InsertRequest (live s) r = Ok s' -> tx_step s s'
  | step_CompareAndSwapRequest m s b s' : WriteOp.CompareAndSwapRequest (live s) m = Ok (b, s') -> tx_step s s'
  | step_InsertResponseEvent r s s' : uint64 (Resp_Sequence r) -> WriteOp.InsertResponseEvent (live s) r = Ok s' -> tx_step s s'
  | step_InsertWorkerReceipt r s s' : WriteOp.InsertWorkerReceipt (live s) r = Ok s' -> tx_step s s'
  | step_InsertToolExecution r s s' : uint64 (Exec_Revision r) -> WriteOp.InsertToolExecution (live s) r = Ok s' -> tx_step s s'
  | step_CompareAndSwapToolExecution m s b s' :
      WriteOp.CompareAndSwapToolExecution (live s) m = Ok (b, s') -> tx_step s s'
  | step_DeleteTombstonedResponseEvents k s n s' :
      WriteOp.DeleteTombstonedResponseEvents (live s) k = Ok (n, s') -> tx_step s s'.

(** A transaction: any number of mutations. *)
Definition transacts : memoryLLMState -> memoryLLMState -> Prop := rtc tx_step.

(* ------------------------------------------------------------------ *)
(** ** Tests as equations *)

Lemma llm_active_live s : ensureActive (live s) = Ok tt.
Proof. done. Qed.

Lemma some_entry_false {K A} `{Countable K} (f : K -> A -> bool) (m : gmap K A) k a :
  some_entry f m = false -> m !! k = Some a -> f k a = false.
Proof.
  unfold some_entry. intros Hf Hk. apply not_true_iff_false. intros Ht. apply not_true_iff_false in Hf. destruct Hf.
  apply existsb_exists. exists (k, a). split; [|done]. by apply list_elem_of_In, elem_of_map_to_list.
Qed.

Lemma some_entry_true {K A} `{Countable K} (f : K -> A -> bool) (m : gmap K A) :
  some_entry f m = true <-> exists k a, m !! k = Some a /\ f k a = true.
Proof.
  unfold some_entry. rewrite existsb_exists. split.
  - intros ([k a] & Hin & Hf). apply list_elem_of_In, elem_of_map_to_list in Hin. eauto.
  - intros (k & a & Hk & Hf). exists (k, a). split; [|done]. by apply list_elem_of_In, elem_of_map_to_list.
Qed.

Lemma CodecSnapshot_Equal_eq a b : CodecSnapshot_Equal a b = true <-> a = b.
Proof.
  unfold CodecSnapshot_Equal. split.
  - intros H. bool_split. decided. destruct a as [[] ???], b as [[] ???]. cbn in *. congruence.
  - intros ->. by rewrite !bool_decide_eq_true_2.
Qed.

(** What a mutation of a Task, or of a request, keeps. *)
Record same_task (t t' : StoreTaskRecord) : Prop := {
  same_task_key : Task_Key t' = Task_Key t;
  same_task_tier : Task_CapabilityTier t' = Task_CapabilityTier t;
  same_task_codec : Task_Codec t' = Task_Codec t;
  same_task_affinity : memoryLLMAffinity t' = memoryLLMAffinity t;
  same_task_created : Task_CreatedAt t' = Task_CreatedAt t
}.
Record same_request (r r' : StoreRequestRecord) : Prop := {
  same_request_key : Req_Key r' = Req_Key r;
  same_request_task : Req_Task r' = Req_Task r;
  same_request_id : Req_RequestID r' = Req_RequestID r;
  same_request_response : Req_ResponseID r' = Req_ResponseID r;
  same_request_digest : Req_RequestDigest r' = Req_RequestDigest r;
  same_request_codec : Req_Codec r' = Req_Codec r;
  same_request_mode : Req_Mode r' = Req_Mode r;
  same_request_created : Req_CreatedAt r' = Req_CreatedAt r
}.

#[export] Instance same_task_preorder : PreOrder same_task.
Proof. split; [by split|]. intros a b c [] []. split; congruence. Qed.
#[export] Instance same_request_preorder : PreOrder same_request.
Proof. split; [by split|]. intros a b c [] []. split; congruence. Qed.

Lemma task_identity t t' : memoryLLMTaskIdentityEqual t t' = true -> same_task t t'.
Proof.
  unfold memoryLLMTaskIdentityEqual, TimeEqual. intros H. bool_split. decided. zbool.
  match goal with H : CodecSnapshot_Equal _ _ = true |- _ => apply CodecSnapshot_Equal_eq in H end.
  split; try congruence. unfold memoryLLMAffinity. congruence.
Qed.

Lemma request_identity r r' : memoryLLMRequestIdentityEqual r r' = true -> same_request r r'.
Proof.
  unfold memoryLLMRequestIdentityEqual, TimeEqual. intros H. bool_split. decided. zbool.
  match goal with H : CodecSnapshot_Equal _ _ = true |- _ => apply CodecSnapshot_Equal_eq in H end.
  split; congruence.
Qed.

Lemma request_conflict_none record l : WriteOp.request_conflict record l = Ok tt -> Forall (fun existing =>
  (Req_ResponseComplete record = false -> Req_ResponseComplete existing = false -> Req_Task existing <> Req_Task record) /\
  (RequestKey_Caller (Req_Key existing) = RequestKey_Caller (Req_Key record) ->
   Req_RequestID existing <> Req_RequestID record /\ Req_ResponseID existing <> Req_ResponseID record)) l.
Proof.
  induction l as [|existing l IH]; cbn; intros H; [constructor|]. ok_inv.
  constructor; [|by apply IH]. split.
  - intros Hr He Ht. rewrite Hr, He, bool_decide_eq_true_2 in Hv by done. done.
  - intros Hc. rewrite bool_decide_eq_true_2 in Hv0 by done. cbn in Hv0. apply orb_false_iff in Hv0 as [??]. by decided.
Qed.

Lemma payload_frozen_pruned r r' : WriteOp.payload_frozen r r' = true ->
  (Req_PayloadPrunedAt r' = None -> Req_PayloadPrunedAt r = None /\
     default "" (Req_CanonicalPayload r') = default "" (Req_CanonicalPayload r)) /\
  (forall at_, Req_PayloadPrunedAt r = Some at_ -> Req_PayloadPrunedAt r' = Some at_) /\
  (is_Some (Req_PayloadPrunedAt r') -> request_size r' = 0%Z).
Proof.
  unfold WriteOp.payload_frozen, request_size, TimeEqual, WriteOp.bytes_Equal. intros H.
  destruct (Req_PayloadPrunedAt r) as [a|], (Req_PayloadPrunedAt r') as [b|]; bool_split; try done; zbool; decided; subst.
  - split_and!; [done | congruence | lia].
  - split_and!; [done | done | lia].
  - split_and!; [done | done | by intros []].
Qed.

(* ------------------------------------------------------------------ *)
(** ** The mutations *)

Ltac op_inv :=
  repeat match goal with
  | H : context [ensureActive (live _)] |- _ => rewrite llm_active_live in H; cbn [obind] in H
  | H : obind _ _ = Ok _ |- _ => ok_step H
  | H : refuse_if _ _ = Ok _ |- _ => ok_step H
  | H : Ok _ = Ok _ |- _ => ok_step H
  | H : Err _ = Ok _ |- _ => ok_step H
  | H : (_, _) = (_, _) |- _ => injection H as H; subst
  | H : match ?x with _ => _ end = Ok _ |- _ =>
      lazymatch x with live _ => fail | _ => destruct x eqn:? end
  | H : (if ?x then _ else _) = Ok _ |- _ => destruct x eqn:?
  end; cbn [unit_state live] in *; repeat match goal with v : unit |- _ => destruct v end.

Section Mutations.
Implicit Types s : memoryLLMState.

Definition open_task (t : StoreTaskRecord) : Prop := TaskState_Terminal (Task_State t) = false.

Lemma InsertTask_inv r s s' : WriteOp.InsertTask (live s) r = Ok s' ->
  s' = set_tasks (<[Task_Key r := r]> (tasks s)) s /\ tasks s !! Task_Key r = None /\
  memoryLLMValidateTask r = Ok tt /\
  (WriteOp.open_tool_task r = true -> forall k t, tasks s !! k = Some t -> open_task t ->
     memoryLLMAffinity t <> memoryLLMAffinity r).
Proof.
  unfold WriteOp.InsertTask. intros H. op_inv. split_and!; [done..|].
  intros Ho k t Hk Ht Ha. rewrite Ho, andb_true_l in Hv0. apply (some_entry_false _ _ k t) in Hv0; [|done]. cbn beta in Hv0.
  unfold open_task in Ht. by rewrite Ht, Ha, bool_decide_eq_true_2 in Hv0.
Qed.

Lemma CompareAndSwapTask_inv m s b s' : WriteOp.CompareAndSwapTask (live s) m = Ok (b, s') ->
  (b = false /\ s' = s) \/
  exists current, b = true /\ tasks s !! TaskMutation_Key m = Some current /\
    s' = set_tasks (<[TaskMutation_Key m := TaskMutation_Next m]> (tasks s)) s /\
    Task_Revision current = TaskMutation_ExpectedRevision m /\
    Task_Revision (TaskMutation_Next m) = inc64 (Task_Revision current) /\
    same_task current (TaskMutation_Next m) /\
    (WriteOp.open_tool_task (TaskMutation_Next m) = true -> forall k t, tasks s !! k = Some t ->
       k <> TaskMutation_Key m -> open_task t -> memoryLLMAffinity t <> memoryLLMAffinity (TaskMutation_Next m)).
Proof.
  unfold WriteOp.CompareAndSwapTask. intros H. op_inv; [by left|]. right.
  bool_split. decided. match goal with H : memoryLLMTaskIdentityEqual _ _ = true |- _ => apply task_identity in H end.
  eexists. split_and!; try done. intros Ho k t Hk Hne Ht Ha.
  match goal with H : (_ && some_entry _ _)%bool = false |- _ => rewrite Ho, andb_true_l in H;
    apply (some_entry_false _ _ k t) in H; [|done]; cbn beta in H; unfold open_task in Ht;
    rewrite Ht, Ha, (bool_decide_eq_false_2 (k = _)), bool_decide_eq_true_2 in H by done end. done.
Qed.

Lemma InsertRequest_inv r s s' : WriteOp.InsertRequest (live s) r = Ok s' ->
  s' = set_requests (<[Req_Key r := r]> (requests s)) s /\ requests s !! Req_Key r = None /\
  memoryLLMValidateRequest r = Ok tt /\
  (exists t, tasks s !! Req_Task r = Some t /\ Task_Codec t = Req_Codec r) /\
  (forall k x, requests s !! k = Some x ->
    (Req_ResponseComplete r = false -> Req_ResponseComplete x = false -> Req_Task x <> Req_Task r) /\
    (RequestKey_Caller (Req_Key x) = RequestKey_Caller (Req_Key r) ->
     Req_RequestID x <> Req_RequestID r /\ Req_ResponseID x <> Req_ResponseID r)).
Proof.
  unfold WriteOp.InsertRequest. intros H. op_inv. bool_split.
  match goal with H : CodecSnapshot_Equal _ _ = true |- _ => apply CodecSnapshot_Equal_eq in H end.
  split_and!; try done; [eauto|]. intros k x Hx.
  match goal with H : WriteOp.request_conflict _ _ = _ |- _ => apply request_conflict_none in H; rewrite Forall_forall in H; apply H end.
  apply list_elem_of_fmap. exists (k, x). split; [done|]. by apply elem_of_map_to_list.
Qed.

Lemma CompareAndSwapRequest_inv m s b s' : WriteOp.CompareAndSwapRequest (live s) m = Ok (b, s') ->
  (b = false /\ s' = s) \/
  exists current, b = true /\ requests s !! RequestMutation_Key m = Some current /\
    s' = set_requests (<[RequestMutation_Key m := RequestMutation_Next m]> (requests s)) s /\
    Req_Revision current = RequestMutation_ExpectedRevision m /\
    Req_Revision (RequestMutation_Next m) = inc64 (Req_Revision current) /\
    same_request current (RequestMutation_Next m) /\
    WriteOp.payload_frozen current (RequestMutation_Next m) = true /\
    (Req_ResponseComplete (RequestMutation_Next m) = false -> forall k x, requests s !! k = Some x ->
       k <> RequestMutation_Key m -> Req_ResponseComplete x = false -> Req_Task x <> Req_Task (RequestMutation_Next m)).
Proof.
  unfold WriteOp.CompareAndSwapRequest. intros H. op_inv; [by left|]. right.
  bool_split. decided. match goal with H : memoryLLMRequestIdentityEqual _ _ = true |- _ => apply request_identity in H end.
  eexists. split_and!; try done. intros Ho k x Hk Hne Hx Ht.
  match goal with H : (_ && some_entry _ _)%bool = false |- _ => rewrite Ho in H; cbn [negb] in H; rewrite andb_true_l in H;
    apply (some_entry_false _ _ k x) in H; [|done]; cbn beta in H;
    rewrite Hx, Ht, (bool_decide_eq_false_2 (k = _)), bool_decide_eq_true_2 in H by done end. done.
Qed.

Lemma InsertResponseEvent_inv r s s' : WriteOp.InsertResponseEvent (live s) r = Ok s' ->
  s' = set_events (<[Resp_Request r := <[Resp_Sequence r := r]> (history s (Resp_Request r))]> (events s)) s /\
  history s (Resp_Request r) !! Resp_Sequence r = None /\ is_Some (requests s !! Resp_Request r) /\
  memoryLLMValidateResponseEvent r = Ok tt /\
  (Resp_WorkerEventID r <> "" -> forall n e, history s (Resp_Request r) !! n = Some e ->
     Resp_WorkerEventID e = Resp_WorkerEventID r ->
     Resp_Worker e = Resp_Worker r /\ Resp_WorkerEventDigest e = Resp_WorkerEventDigest r).
Proof.
  unfold WriteOp.InsertResponseEvent. intros H. op_inv. split_and!; try done.
  intros Hne n e Hn He.
  assert (is_empty (Resp_WorkerEventID r) = false) as Hw.
  { destruct (is_empty _) eqn:E; [by apply is_empty_true in E | done]. }
  match goal with H : (_ && some_entry _ _)%bool = false |- _ => rewrite Hw in H; cbn [negb] in H; rewrite andb_true_l in H;
    apply (some_entry_false _ _ n e) in H; [|done]; cbn beta in H; rewrite He, bool_decide_eq_true_2 in H by done; rewrite andb_true_l in H;
    apply orb_false_iff in H as [??] end. by decided.
Qed.

Lemma InsertWorkerReceipt_inv r s s' : WriteOp.InsertWorkerReceipt (live s) r = Ok s' ->
  s' = set_receipts (<[WriteOp.receiptKey r := r]> (receipts s)) s /\
  receipts s !! WriteOp.receiptKey r = None /\ is_Some (requests s !! Receipt_Request r) /\
  memoryLLMValidateWorkerReceipt r = Ok tt.
Proof. unfold WriteOp.InsertWorkerReceipt. intros H. op_inv. split_and!; done. Qed.

Lemma InsertToolExecution_inv r s s' : WriteOp.InsertToolExecution (live s) r = Ok s' ->
  s' = set_tools (<[Exec_Key r := r]> (tools s)) s /\ tools s !! Exec_Key r = None /\
  is_Some (tasks s !! ToolKey_Task (Exec_Key r)) /\ memoryLLMValidateTool r = Ok tt.
Proof. unfold WriteOp.InsertToolExecution. intros H. op_inv. split_and!; done. Qed.

Lemma CompareAndSwapToolExecution_inv m s b s' : WriteOp.CompareAndSwapToolExecution (live s) m = Ok (b, s') ->
  (b = false /\ s' = s) \/
  exists current, b = true /\ tools s !! ToolMutation_Key m = Some current /\
    s' = set_tools (<[ToolMutation_Key m := ToolMutation_Next m]> (tools s)) s /\
    Exec_Key (ToolMutation_Next m) = Exec_Key current /\
    Exec_InputDigest (ToolMutation_Next m) = Exec_InputDigest current /\
    Exec_CreatedAt (ToolMutation_Next m) = Exec_CreatedAt current /\
    Exec_Revision current = ToolMutation_ExpectedRevision m.
Proof.
  unfold WriteOp.CompareAndSwapToolExecution, TimeEqual. intros H. op_inv; [by left|]. right.
  bool_split. decided. zbool. eexists. split_and!; done.
Qed.

Lemma DeleteTombstonedResponseEvents_inv k s n s' : WriteOp.DeleteTombstonedResponseEvents (live s) k = Ok (n, s') ->
  s' = set_events (delete k (events s)) s /\ n = Z.of_nat (size (history s k)) /\
  exists r, requests s !! k = Some r /\ is_Some (Req_PayloadPrunedAt r).
Proof.
  unfold WriteOp.DeleteTombstonedResponseEvents. intros H. op_inv. split_and!; try done.
  eexists. split; [done|]. by apply is_none_false.
Qed.
End Mutations.

(* ------------------------------------------------------------------ *)
(** ** The invariant *)

Definition tool_open (t : StoreTaskRecord) : Prop := open_task t /\ toolTier (Task_CapabilityTier t) = true.

(** Every record is under its own key and points at records that are there; a
    Task has at most one request in progress; an affinity has at most one open
    Task with tools; the identifiers of requests are unique per caller; one
    worker's one event is behind all the response events of its identifier; a
    tombstone has no payload. *)
Record ledger_ok (s : memoryLLMState) : Prop := {
  ledger_task_key : forall k t, tasks s !! k = Some t -> Task_Key t = k;
  ledger_request_key : forall k r, requests s !! k = Some r -> Req_Key r = k;
  ledger_request_task : forall k r, requests s !! k = Some r ->
    exists t, tasks s !! Req_Task r = Some t /\ Task_Codec t = Req_Codec r;
  ledger_event_key : forall k n e, history s k !! n = Some e ->
    Resp_Request e = k /\ Resp_Sequence e = n /\ is_Some (requests s !! k) /\ (0 < n < 18446744073709551616)%Z;
  ledger_receipt_key : forall k r, receipts s !! k = Some r ->
    WriteOp.receiptKey r = k /\ is_Some (requests s !! Receipt_Request r);
  ledger_tool_key : forall k r, tools s !! k = Some r ->
    Exec_Key r = k /\ is_Some (tasks s !! ToolKey_Task k) /\ ToolKey_ToolCallID k <> "";
  ledger_one_active : forall k1 k2 r1 r2, requests s !! k1 = Some r1 -> requests s !! k2 = Some r2 ->
    Req_ResponseComplete r1 = false -> Req_ResponseComplete r2 = false -> Req_Task r1 = Req_Task r2 -> k1 = k2;
  ledger_one_open : forall k1 k2 t1 t2, tasks s !! k1 = Some t1 -> tasks s !! k2 = Some t2 ->
    tool_open t1 -> tool_open t2 -> memoryLLMAffinity t1 = memoryLLMAffinity t2 -> k1 = k2;
  ledger_request_ids : forall k1 k2 r1 r2, requests s !! k1 = Some r1 -> requests s !! k2 = Some r2 ->
    RequestKey_Caller k1 = RequestKey_Caller k2 ->
    Req_RequestID r1 = Req_RequestID r2 \/ Req_ResponseID r1 = Req_ResponseID r2 -> k1 = k2;
  ledger_event_owner : forall k n1 n2 e1 e2, history s k !! n1 = Some e1 -> history s k !! n2 = Some e2 ->
    Resp_WorkerEventID e1 <> "" -> Resp_WorkerEventID e1 = Resp_WorkerEventID e2 ->
    Resp_Worker e1 = Resp_Worker e2 /\ Resp_WorkerEventDigest e1 = Resp_WorkerEventDigest e2;
  ledger_tombstone : forall k r, requests s !! k = Some r -> is_Some (Req_PayloadPrunedAt r) -> request_size r = 0%Z
}.

Lemma tool_open_true t : tool_open t -> WriteOp.open_tool_task t = true.
Proof. intros [Ho Ht]. unfold WriteOp.open_tool_task. by rewrite Ho, Ht. Qed.

Lemma ledger_empty : ledger_ok newMemoryLLMState.
Proof. split; intros *; cbn; unfold history; rewrite ?lookup_empty; cbn; rewrite ?lookup_empty; done. Qed.

Lemma history_insert s k h k' : history (set_events (<[k := h]> (events s)) s) k' =
  if decide (k = k') then h else history s k'.
Proof.
  unfold history. cbn. case_decide; [subst; by rewrite lookup_insert_eq | by rewrite lookup_insert_ne].
Qed.

Lemma history_delete s k k' : history (set_events (delete k (events s)) s) k' =
  if decide (k = k') then ∅ else history s k'.
Proof.
  unfold history. cbn. case_decide; [subst; by rewrite lookup_delete_eq | by rewrite lookup_delete_ne].
Qed.

(** A change of one record of a map keeps what is there. *)
Lemma insert_is_Some {K A} `{Countable K} (m : gmap K A) i a k : is_Some (m !! k) -> is_Some (<[i := a]> m !! k).
Proof. intros H'. rewrite lookup_insert_is_Some'. by right. Qed.

Ltac lookups :=
  repeat match goal with
  | H : <[_ := _]> _ !! _ = Some _ |- _ => apply lookup_insert_Some in H as [[??]|[??]]; subst
  | H : delete _ _ !! _ = Some _ |- _ => apply lookup_delete_Some in H as [??]
  end.

Lemma ledger_tasks s m : ledger_ok s ->
  (forall k t, m !! k = Some t -> Task_Key t = k) ->
  (forall k t, tasks s !! k = Some t -> exists t', m !! k = Some t' /\ Task_Codec t' = Task_Codec t) ->
  (forall k1 k2 t1 t2, m !! k1 = Some t1 -> m !! k2 = Some t2 -> tool_open t1 -> tool_open t2 ->
    memoryLLMAffinity t1 = memoryLLMAffinity t2 -> k1 = k2) ->
  ledger_ok (set_tasks m s).
Proof.
  intros [] Hk Hm Ho. split; try done; cbn.
  - intros k r Hr. destruct (ledger_request_task0 _ _ Hr) as (t & Ht & <-). apply Hm in Ht as (t' & ? & ?). eauto.
  - intros k r Hr. destruct (ledger_tool_key0 _ _ Hr) as (Hkey & (t & Ht) & ?). apply Hm in Ht as (t' & -> & ?). eauto.
Qed.

Lemma ledger_requests s m : ledger_ok s ->
  (forall k r, m !! k = Some r -> Req_Key r = k) ->
  (forall k r, m !! k = Some r -> exists t, tasks s !! Req_Task r = Some t /\ Task_Codec t = Req_Codec r) ->
  (forall k, is_Some (requests s !! k) -> is_Some (m !! k)) ->
  (forall k1 k2 r1 r2, m !! k1 = Some r1 -> m !! k2 = Some r2 ->
    Req_ResponseComplete r1 = false -> Req_ResponseComplete r2 = false -> Req_Task r1 = Req_Task r2 -> k1 = k2) ->
  (forall k1 k2 r1 r2, m !! k1 = Some r1 -> m !! k2 = Some r2 -> RequestKey_Caller k1 = RequestKey_Caller k2 ->
    Req_RequestID r1 = Req_RequestID r2 \/ Req_ResponseID r1 = Req_ResponseID r2 -> k1 = k2) ->
  (forall k r, m !! k = Some r -> is_Some (Req_PayloadPrunedAt r) -> request_size r = 0%Z) ->
  ledger_ok (set_requests m s).
Proof.
  intros [] Hk Ht Hm Ha Hi Hp. split; try done; cbn.
  - intros k n e He. destruct (ledger_event_key0 _ _ _ He) as (? & ? & ? & ?). eauto.
  - intros k r Hr. destruct (ledger_receipt_key0 _ _ Hr) as (? & ?). eauto.
Qed.

Lemma ledger_InsertTask r s s' : ledger_ok s -> WriteOp.InsertTask (live s) r = Ok s' -> ledger_ok s'.
Proof.
  intros Hs H. apply InsertTask_inv in H as (-> & Hn & _ & Ho). apply ledger_tasks; [done|..].
  - intros k t Hk. lookups; [done | by eapply ledger_task_key].
  - intros k t Hk. exists t. rewrite lookup_insert_ne by congruence. done.
  - intros k1 k2 t1 t2 H1 H2 O1 O2 Ha. lookups; try done.
    + exfalso. first [eapply (Ho (tool_open_true _ O1)) | eapply (Ho (tool_open_true _ O2))];
        [done | .. | done]; first [done | apply O1 | apply O2].
    + exfalso. first [eapply (Ho (tool_open_true _ O1)) | eapply (Ho (tool_open_true _ O2))];
        [done | .. | done]; first [done | apply O1 | apply O2].
    + by eapply (ledger_one_open s Hs k1 k2).
Qed.

Lemma ledger_CompareAndSwapTask m s b s' : ledger_ok s ->
  WriteOp.CompareAndSwapTask (live s) m = Ok (b, s') -> ledger_ok s'.
Proof.
  intros Hs H. apply CompareAndSwapTask_inv in H as [[_ ->]|(c & -> & Hc & -> & _ & _ & Hsame & Ho)]; [done|].
  pose proof (ledger_task_key s Hs _ _ Hc) as Hkey. apply ledger_tasks; [done|..].
  - intros k t Hk. lookups; [by rewrite (same_task_key _ _ Hsame) | by eapply ledger_task_key].
  - intros k t Hk. destruct (decide (TaskMutation_Key m = k)) as [<-|Hd].
    + rewrite lookup_insert_eq. eexists. split; [done|]. rewrite (same_task_codec _ _ Hsame). congruence.
    + rewrite lookup_insert_ne by done. eauto.
  - intros k1 k2 t1 t2 H1 H2 O1 O2 Ha. lookups; try done.
    + exfalso. first [eapply (Ho (tool_open_true _ O1)) | eapply (Ho (tool_open_true _ O2))];
        [done | .. | done]; first [done | apply O1 | apply O2].
    + exfalso. first [eapply (Ho (tool_open_true _ O1)) | eapply (Ho (tool_open_true _ O2))];
        [done | .. | done]; first [done | apply O1 | apply O2].
    + by eapply (ledger_one_open s Hs k1 k2).
Qed.

Lemma request_bytes_zero r : memoryLLMValidateRequest r = Ok tt -> is_Some (Req_PayloadPrunedAt r) -> request_size r = 0%Z.
Proof.
  unfold memoryLLMValidateRequest, request_size. intros H [x Hx]. ok_inv. rewrite Hx in H. cbn [is_none negb] in H.
  bool_split. zbool. lia.
Qed.

Lemma ledger_InsertRequest r s s' : ledger_ok s -> WriteOp.InsertRequest (live s) r = Ok s' -> ledger_ok s'.
Proof.
  intros Hs H. apply InsertRequest_inv in H as (-> & Hn & Hv & Ht & Hc). apply ledger_requests; [done|..].
  - intros k x Hk. lookups; [done | by eapply ledger_request_key].
  - intros k x Hk. lookups; [done | by eapply ledger_request_task].
  - intros k Hk. by apply insert_is_Some.
  - intros k1 k2 r1 r2 H1 H2 C1 C2 E. lookups; try done.
    + by destruct (proj1 (Hc _ _ H0)).
    + by destruct (proj1 (Hc _ _ H0)).
    + by eapply (ledger_one_active s Hs).
  - intros k1 k2 r1 r2 H1 H2 C E. lookups; try done.
    + destruct (proj2 (Hc _ _ H0)); [by rewrite (ledger_request_key s Hs _ _ H0)|]. intuition congruence.
    + destruct (proj2 (Hc _ _ H0)); [by rewrite (ledger_request_key s Hs _ _ H0)|]. intuition congruence.
    + by eapply (ledger_request_ids s Hs).
  - intros k x Hk Hp. lookups; [by apply request_bytes_zero | by eapply ledger_tombstone].
Qed.

Lemma ledger_CompareAndSwapRequest m s b s' : ledger_ok s ->
  WriteOp.CompareAndSwapRequest (live s) m = Ok (b, s') -> ledger_ok s'.
Proof.
  intros Hs H. apply CompareAndSwapRequest_inv in H as [[_ ->]|(c & -> & Hc & -> & _ & _ & [] & Hp & Ho)]; [done|].
  pose proof (ledger_request_key s Hs _ _ Hc) as Hkey. apply ledger_requests; [done|..].
  - intros k x Hk. lookups; [congruence | by eapply ledger_request_key].
  - intros k x Hk. lookups; [|by eapply ledger_request_task].
    rewrite same_request_task0, same_request_codec0. by eapply ledger_request_task.
  - intros k Hk. by apply insert_is_Some.
  - intros k1 k2 r1 r2 H1 H2 C1 C2 E. lookups; try done.
    + by edestruct Ho.
    + by edestruct Ho.
    + by eapply (ledger_one_active s Hs).
  - intros k1 k2 r1 r2 H1 H2 C E. lookups; try done;
      first [eapply (ledger_request_ids s Hs); [done.. | intuition congruence]].
  - intros k x Hk Hx. lookups; [by apply payload_frozen_pruned in Hp as (_ & _ & ->) | by eapply ledger_tombstone].
Qed.

Lemma ledger_events s m : ledger_ok s ->
  (forall k n e, history (set_events m s) k !! n = Some e ->
    Resp_Request e = k /\ Resp_Sequence e = n /\ is_Some (requests s !! k) /\ (0 < n < 18446744073709551616)%Z) ->
  (forall k n1 n2 e1 e2, history (set_events m s) k !! n1 = Some e1 -> history (set_events m s) k !! n2 = Some e2 ->
    Resp_WorkerEventID e1 <> "" -> Resp_WorkerEventID e1 = Resp_WorkerEventID e2 ->
    Resp_Worker e1 = Resp_Worker e2 /\ Resp_WorkerEventDigest e1 = Resp_WorkerEventDigest e2) ->
  ledger_ok (set_events m s).
Proof. by intros [] Hk Ho. Qed.

Lemma event_sequence r : memoryLLMValidateResponseEvent r = Ok tt -> uint64 (Resp_Sequence r) ->
  (0 < Resp_Sequence r < 18446744073709551616)%Z.
Proof. unfold memoryLLMValidateResponseEvent, uint64. intros H Hu. ok_inv. bool_split. zbool. lia. Qed.

Lemma ledger_InsertResponseEvent r s s' : ledger_ok s -> uint64 (Resp_Sequence r) ->
  WriteOp.InsertResponseEvent (live s) r = Ok s' -> ledger_ok s'.
Proof.
  intros Hs Hu H. apply InsertResponseEvent_inv in H as (-> & Hn & Hr & Hv & Ho).
  apply ledger_events; [done|..]; intros k;
    rewrite history_insert; (case_decide; [subst k|by apply Hs]).
  - intros n e He. lookups; [split_and!; [done..|by apply event_sequence | by apply event_sequence]|]. by eapply ledger_event_key.
  - intros n1 n2 e1 e2 H1 H2 W E. lookups; try done.
    + by edestruct Ho; [congruence|..]; [apply H0|..].
    + by edestruct Ho; [congruence|..]; [apply H0|..].
    + by eapply (ledger_event_owner s Hs (Resp_Request r) n1 n2).
Qed.

Lemma ledger_InsertWorkerReceipt r s s' : ledger_ok s ->
  WriteOp.InsertWorkerReceipt (live s) r = Ok s' -> ledger_ok s'.
Proof.
  intros Hs H. apply InsertWorkerReceipt_inv in H as (-> & Hn & Hr & _). destruct Hs. split; try done; cbn.
  intros k x Hx. lookups; [done | by apply ledger_receipt_key0].
Qed.

Lemma ledger_tools s m : ledger_ok s ->
  (forall k r, m !! k = Some r -> Exec_Key r = k /\ is_Some (tasks s !! ToolKey_Task k) /\ ToolKey_ToolCallID k <> "") ->
  ledger_ok (set_tools m s).
Proof. by intros [] Hk. Qed.

Lemma ledger_InsertToolExecution r s s' : ledger_ok s ->
  WriteOp.InsertToolExecution (live s) r = Ok s' -> ledger_ok s'.
Proof.
  intros Hs H. apply InsertToolExecution_inv in H as (-> & Hn & Hr & Hv). apply ledger_tools; [done|].
  intros k x Hx. lookups; [|by apply (ledger_tool_key s Hs)].
  split_and!; [done..|]. unfold memoryLLMValidateTool, memoryLLMValidToolKey in Hv. ok_inv. bool_split.
  intros E. by rewrite E in *.
Qed.

Lemma ledger_CompareAndSwapToolExecution m s b s' : ledger_ok s ->
  WriteOp.CompareAndSwapToolExecution (live s) m = Ok (b, s') -> ledger_ok s'.
Proof.
  intros Hs H. apply CompareAndSwapToolExecution_inv in H as [[_ ->]|(c & -> & Hc & -> & Hk & _)]; [done|].
  apply ledger_tools; [done|]. destruct (ledger_tool_key s Hs _ _ Hc) as (He & Ht & Hid).
  intros k x Hx. lookups; [by rewrite Hk | by apply (ledger_tool_key s Hs)].
Qed.

Lemma ledger_DeleteTombstonedResponseEvents k s n s' : ledger_ok s ->
  WriteOp.DeleteTombstonedResponseEvents (live s) k = Ok (n, s') -> ledger_ok s'.
Proof.
  intros Hs H. apply DeleteTombstonedResponseEvents_inv in H as (-> & _ & _).
  apply ledger_events; [done|..]; intros k';
    rewrite history_delete; case_decide; try by apply Hs.
  - intros m e. by rewrite lookup_empty.
  - intros n1 n2 e1 e2. by rewrite lookup_empty.
Qed.

Lemma ledger_step s s' : tx_step s s' -> ledger_ok s -> ledger_ok s'.
Proof.
  intros [] Hs; [by eapply ledger_InsertTask | by eapply ledger_CompareAndSwapTask | by eapply ledger_InsertRequest
    | by eapply ledger_CompareAndSwapRequest | by eapply ledger_InsertResponseEvent
    | by eapply ledger_InsertWorkerReceipt | by eapply ledger_InsertToolExecution
    | by eapply ledger_CompareAndSwapToolExecution | by eapply ledger_DeleteTombstonedResponseEvents].
Qed.

Lemma ledger_transacts s s' : transacts s s' -> ledger_ok s -> ledger_ok s'.
Proof. induction 1; eauto using ledger_step. Qed.

(* ------------------------------------------------------------------ *)
(** ** What a later state keeps *)

Definition pruned (s : memoryLLMState) (k : StoreRequestKey) : Prop :=
  exists r, requests s !! k = Some r /\ is_Some (Req_PayloadPrunedAt r).

(** Tasks and requests keep their identity, a tombstone stays one, and until
    then the canonical payload and every response event stay; receipts stay
    for good, and so do the identities of tool calls. *)
Record extends (s s' : memoryLLMState) : Prop := {
  extends_task : forall k t, tasks s !! k = Some t -> exists t', tasks s' !! k = Some t' /\ same_task t t';
  extends_request : forall k r, requests s !! k = Some r -> exists r', requests s' !! k = Some r' /\ same_request r r' /\
    (forall at_, Req_PayloadPrunedAt r = Some at_ -> Req_PayloadPrunedAt r' = Some at_) /\
    (Req_PayloadPrunedAt r' = None -> default "" (Req_CanonicalPayload r') = default "" (Req_CanonicalPayload r));
  extends_receipt : forall k r, receipts s !! k = Some r -> receipts s' !! k = Some r;
  extends_tool : forall k r, tools s !! k = Some r -> exists r', tools s' !! k = Some r' /\
    Exec_Key r' = Exec_Key r /\ Exec_InputDigest r' = Exec_InputDigest r;
  extends_event : forall k n e, history s k !! n = Some e -> history s' k !! n = Some e \/ pruned s' k
}.

Lemma extends_refl s : extends s s.
Proof. split; eauto 10; intros; eexists; (split; [done|]); done. Qed.

Lemma pruned_extends s s' k : extends s s' -> pruned s k -> pruned s' k.
Proof.
  intros E (r & Hr & at_ & Ha). destruct (extends_request _ _ E _ _ Hr) as (r' & Hr' & _ & Hp & _).
  exists r'. rewrite (Hp _ Ha). eauto.
Qed.

#[export] Instance extends_preorder : PreOrder extends.
Proof.
  split; [intros s; apply extends_refl|]. intros s1 s2 s3 E1 E2. split.
  - intros k t Ht. apply E1 in Ht as (t2 & Ht & S1). apply E2 in Ht as (t3 & Ht & S2).
    exists t3. split; [done | by etransitivity].
  - intros k r Hr. apply E1 in Hr as (r2 & Hr & S1 & P1 & C1). apply E2 in Hr as (r3 & Hr & S2 & P2 & C2).
    exists r3. split_and!; [done | by etransitivity | eauto|].
    intros Hn. rewrite C2 by done. apply C1. destruct (Req_PayloadPrunedAt r2) as [a|]; [|done].
    by rewrite (P2 a) in Hn.
  - intros k r Hr. by apply E2, E1.
  - intros k r Hr. apply E1 in Hr as (r2 & Hr & ? & ?). apply E2 in Hr as (r3 & Hr & ? & ?).
    exists r3. split_and!; congruence.
  - intros k n e He. apply E1 in He as [He|Hp]; [by apply E2|]. right. by eapply pruned_extends.
Qed.

Lemma insert_keeps {K A} `{Countable K} (m : gmap K A) i b (R : A -> A -> Prop) `{!Reflexive R} :
  (forall a, m !! i = Some a -> R a b) ->
  forall k a, m !! k = Some a -> exists a', <[i := b]> m !! k = Some a' /\ R a a'.
Proof.
  intros Hi k a Hk. destruct (decide (i = k)) as [<-|Hne].
  - rewrite lookup_insert_eq. eauto.
  - rewrite lookup_insert_ne by done. eauto.
Qed.

Lemma extends_step s s' : tx_step s s' -> extends s s'.
Proof.
  destruct 1 as [r s s' Hu H|m s b s' H|r s s' Hu H|m s b s' H|r s s' Hu H|r s s' H|r s s' Hu H|m s b s' H|k s n s' H].
  - apply InsertTask_inv in H as (-> & Hn & _). destruct (extends_refl s). split; try done; cbn.
    apply insert_keeps; [apply _|]. intros a Ha. by rewrite Hn in Ha.
  - apply CompareAndSwapTask_inv in H as [[_ ->]|(c & -> & Hc & -> & _ & _ & Hsame & _)]; [apply extends_refl|].
    destruct (extends_refl s). split; try done; cbn.
    apply insert_keeps; [apply _|]. intros a Ha. congruence.
  - apply InsertRequest_inv in H as (-> & Hn & _). destruct (extends_refl s). split; try done; cbn.
    + intros k a Ha. rewrite lookup_insert_ne by congruence. by apply extends_request0.
    + by left.
  - apply CompareAndSwapRequest_inv in H as [[_ ->]|(c & -> & Hc & -> & _ & _ & Hsame & Hp & _)]; [apply extends_refl|].
    destruct (extends_refl s). split; try done; cbn.
    + intros k a Ha. destruct (decide (RequestMutation_Key m = k)) as [<-|Hne].
      * rewrite lookup_insert_eq. eexists. split; [done|]. replace a with c by congruence.
        apply payload_frozen_pruned in Hp as (H1 & H2 & _). split_and!; [done..|]. intros Hx. by apply H1.
      * rewrite lookup_insert_ne by done. by apply extends_request0.
    + by left.
  - apply InsertResponseEvent_inv in H as (-> & Hn & _). destruct (extends_refl s). split; try done.
    intros k n e He. left. rewrite history_insert. case_decide; [subst k|done].
    rewrite lookup_insert_ne by congruence. done.
  - apply InsertWorkerReceipt_inv in H as (-> & Hn & _). destruct (extends_refl s). split; try done; cbn.
    intros k a Ha. by rewrite lookup_insert_ne by congruence.
  - apply InsertToolExecution_inv in H as (-> & Hn & _). destruct (extends_refl s). split; try done; cbn.
    intros k a Ha. rewrite lookup_insert_ne by congruence. eauto.
  - apply CompareAndSwapToolExecution_inv in H as [[_ ->]|(c & -> & Hc & -> & Hk & Hd & _)]; [apply extends_refl|].
    destruct (extends_refl s). split; try done; cbn.
    intros k a Ha. destruct (decide (ToolMutation_Key m = k)) as [<-|Hne].
    + rewrite lookup_insert_eq. eexists. split; [done|]. split; congruence.
    + rewrite lookup_insert_ne by done. eauto.
  - apply DeleteTombstonedResponseEvents_inv in H as (-> & _ & Hr). destruct (extends_refl s). split; try done.
    intros k' n' e He. rewrite history_delete. case_decide; [subst k'; by right | by left].
Qed.

Lemma extends_transacts s s' : transacts s s' -> extends s s'.
Proof. induction 1 as [|s1 s2 s3 H _ IH]; [done|]. by etransitivity; [apply extends_step|]. Qed.

(* ------------------------------------------------------------------ *)
(** ** The finders *)

(** What a finder returns does not depend on the order of the map. *)
Lemma select_elem {K A} `{Countable K} (f : A -> bool) (m : gmap K A) a :
  a ∈ select f m <-> exists k, m !! k = Some a /\ f a = true.
Proof.
  unfold select. rewrite list_elem_of_In, List.filter_In, <- list_elem_of_In, list_elem_of_fmap. split.
  - intros (([k b] & -> & Hk) & Hf). apply elem_of_map_to_list in Hk. eauto.
  - intros (k & Hk & Hf). split; [|done]. exists (k, a). by rewrite elem_of_map_to_list.
Qed.

Lemma find_unique {K A B} `{Countable K} (f : A -> bool) (m : gmap K A) (g : A -> B) (e : error) b :
  (forall k1 k2 a1 a2, m !! k1 = Some a1 -> m !! k2 = Some a2 -> f a1 = true -> f a2 = true -> k1 = k2) ->
  match select f m with a :: _ => Ok (g a) | [] => Err e end = Ok b <->
  exists k a, m !! k = Some a /\ f a = true /\ b = g a.
Proof.
  intros Hu. destruct (select f m) as [|a l] eqn:E.
  - split; [done|]. intros (k & a & Hk & Hf & _).
    assert (a ∈ select f m) as Hin by (apply select_elem; eauto). by rewrite E in Hin; apply elem_of_nil in Hin.
  - assert (a ∈ select f m) as Hin by (rewrite E; left). apply select_elem in Hin as (k & Hk & Hf). split.
    + intros [= <-]. eauto.
    + intros (k' & a' & Hk' & Hf' & ->). rewrite (Hu _ _ _ _ Hk Hk' Hf Hf') in Hk. congruence.
Qed.

(* ------------------------------------------------------------------ *)
(** ** Revisions of the HumanLLM ledger

    The Store refuses a revision of zero, so the revisions of a record count
    its changes without ever wrapping: a record whose revision did not change
    did not change.  This is what makes the optimistic transactions of the
    service sound. *)

Definition revision_ok (n : Z) : Prop := (0 < n < 18446744073709551616)%Z.

Lemma inc64_next n : revision_ok n -> inc64 n <> 0%Z -> inc64 n = (n + 1)%Z /\ revision_ok (inc64 n).
Proof.
  unfold revision_ok, inc64. intros Hn H.
  destruct (decide (n + 1 = 18446744073709551616)%Z) as [E|E]; [by rewrite E in H|].
  rewrite Z.mod_small by lia. lia.
Qed.

Record revisions_ok (s : memoryLLMState) : Prop := {
  revisions_task : forall k t, tasks s !! k = Some t -> revision_ok (Task_Revision t);
  revisions_request : forall k r, requests s !! k = Some r -> revision_ok (Req_Revision r);
  revisions_tool : forall k x, tools s !! k = Some x -> revision_ok (Exec_Revision x) }.

(** A later record of the same key: changed at a higher revision only. *)
Definition later {A} (revision : A -> Z) (x x' : A) : Prop :=
  (revision x < revision x')%Z \/ x' = x.

Record advances (s s' : memoryLLMState) : Prop := {
  advances_task : forall k t, tasks s !! k = Some t -> exists t', tasks s' !! k = Some t' /\ later Task_Revision t t';
  advances_request : forall k r, requests s !! k = Some r ->
    exists r', requests s' !! k = Some r' /\ later Req_Revision r r';
  advances_tool : forall k x, tools s !! k = Some x -> exists x', tools s' !! k = Some x' /\ later Exec_Revision x x' }.

Lemma later_trans {A} (revision : A -> Z) x y z : later revision x y -> later revision y z -> later revision x z.
Proof. intros [H1| ->] [H2| ->]; [left; lia | by left | by left | by right]. Qed.

Lemma later_same {A} (revision : A -> Z) x y : later revision x y -> revision y = revision x -> y = x.
Proof. intros [H| ->] E; [lia | done]. Qed.

#[export] Instance advances_preorder : PreOrder advances.
Proof.
  split.
  - intros s. split; intros k x Hx; (eexists; split; [exact Hx | by right]).
  - intros s1 s2 s3 [A1 A2 A3] [B1 B2 B3]. split; intros k x Hx.
    + apply A1 in Hx as (y & Hy & L1). apply B1 in Hy as (z & Hz & L2). exists z. split; [done | by eapply later_trans].
    + apply A2 in Hx as (y & Hy & L1). apply B2 in Hy as (z & Hz & L2). exists z. split; [done | by eapply later_trans].
    + apply A3 in Hx as (y & Hy & L1). apply B3 in Hy as (z & Hz & L2). exists z. split; [done | by eapply later_trans].
Qed.

(** A map of records in which one was inserted, or changed at the next
    revision. *)
Section Insert.
Context {K A : Type} `{Countable K} (revision : A -> Z) (m : gmap K A).
Hypothesis Hm : forall k x, m !! k = Some x -> revision_ok (revision x).

Lemma insert_fresh i a : m !! i = None -> revision_ok (revision a) ->
  (forall k x, <[i := a]> m !! k = Some x -> revision_ok (revision x)) /\
  (forall k x, m !! k = Some x -> exists x', <[i := a]> m !! k = Some x' /\ later revision x x').
Proof.
  intros Hi Ha. split.
  - intros k x Hk. lookups; [done | by eapply Hm].
  - intros k x Hk. exists x. rewrite lookup_insert_ne by congruence. split; [done | by right].
Qed.

Lemma insert_next i a x0 : m !! i = Some x0 -> revision a = inc64 (revision x0) -> revision a <> 0%Z ->
  (forall k x, <[i := a]> m !! k = Some x -> revision_ok (revision x)) /\
  (forall k x, m !! k = Some x -> exists x', <[i := a]> m !! k = Some x' /\ later revision x x').
Proof.
  intros Hi Ha Hz. rewrite Ha in Hz. destruct (inc64_next _ (Hm _ _ Hi) Hz) as [E Hr]. split.
  - intros k x Hk. lookups; [by rewrite Ha | by eapply Hm].
  - intros k x Hk. destruct (decide (i = k)) as [<-|Hne].
    + exists a. rewrite lookup_insert_eq. split; [done|]. left. replace x with x0 by congruence. lia.
    + exists x. rewrite lookup_insert_ne by done. split; [done | by right].
Qed.
End Insert.

(** The tests of a compare-and-swap on the revision it writes. *)
Lemma task_swap_revision m s b s' : WriteOp.CompareAndSwapTask (live s) m = Ok (b, s') ->
  Task_Revision (TaskMutation_Next m) <> 0%Z.
Proof. unfold WriteOp.CompareAndSwapTask. intros H. ok_inv. bool_split. by zbool. Qed.
Lemma request_swap_revision m s b s' : WriteOp.CompareAndSwapRequest (live s) m = Ok (b, s') ->
  Req_Revision (RequestMutation_Next m) <> 0%Z.
Proof. unfold WriteOp.CompareAndSwapRequest. intros H. ok_inv. bool_split. by zbool. Qed.
Lemma tool_swap_revision m s b s' : WriteOp.CompareAndSwapToolExecution (live s) m = Ok (b, s') ->
  Exec_Revision (ToolMutation_Next m) <> 0%Z.
Proof. unfold WriteOp.CompareAndSwapToolExecution. intros H. ok_inv. bool_split. by zbool. Qed.
Lemma tool_swap_next m s s' : WriteOp.CompareAndSwapToolExecution (live s) m = Ok (true, s') ->
  exists current, tools s !! ToolMutation_Key m = Some current /\
    Exec_Revision (ToolMutation_Next m) = inc64 (Exec_Revision current).
Proof. unfold WriteOp.CompareAndSwapToolExecution. intros H. op_inv; [done|]. bool_split. decided. eauto. Qed.

Lemma uint64_revision n : uint64 n -> n <> 0%Z -> revision_ok n.
Proof. unfold uint64, revision_ok. lia. Qed.

Lemma advances_step s s' : tx_step s s' -> revisions_ok s -> revisions_ok s' /\ advances s s'.
Proof.
  assert (forall s, revisions_ok s -> revisions_ok s /\ advances s s) as Hrefl by (intros ? ?; split; [done | reflexivity]).
  destruct 1 as [r s s' Hu H|m s b s' H|r s s' Hu H|m s b s' H|r s s' Hu H|r s s' H|r s s' Hu H|m s b s' H|k s n s' H];
    intros Hr; destruct (reflexivity (R := advances) s) as [A1 A2 A3]; pose proof Hr as [R1 R2 R3].
  - apply InsertTask_inv in H as (-> & Hn & Hv & _).
    destruct (insert_fresh Task_Revision _ R1 _ r Hn) as [H1 H2].
    { apply uint64_revision; [done|]. unfold memoryLLMValidateTask in Hv. ok_inv. bool_split. by zbool. }
    split; split; done.
  - pose proof (task_swap_revision _ _ _ _ H) as Hz.
    apply CompareAndSwapTask_inv in H as [[_ ->]|(c & -> & Hc & -> & _ & Hi & _)]; [by apply Hrefl|].
    destruct (insert_next Task_Revision _ R1 _ _ _ Hc Hi Hz) as [H1 H2]. split; split; done.
  - apply InsertRequest_inv in H as (-> & Hn & Hv & _).
    destruct (insert_fresh Req_Revision _ R2 _ r Hn) as [H1 H2].
    { apply uint64_revision; [done|]. unfold memoryLLMValidateRequest in Hv. ok_inv. bool_split. by zbool. }
    split; split; done.
  - pose proof (request_swap_revision _ _ _ _ H) as Hz.
    apply CompareAndSwapRequest_inv in H as [[_ ->]|(c & -> & Hc & -> & _ & Hi & _)]; [by apply Hrefl|].
    destruct (insert_next Req_Revision _ R2 _ _ _ Hc Hi Hz) as [H1 H2]. split; split; done.
  - apply InsertResponseEvent_inv in H as (-> & _). split; split; done.
  - apply InsertWorkerReceipt_inv in H as (-> & _). split; split; done.
  - apply InsertToolExecution_inv in H as (-> & Hn & _ & Hv).
    destruct (insert_fresh Exec_Revision _ R3 _ r Hn) as [H1 H2].
    { apply uint64_revision; [done|]. unfold memoryLLMValidateTool in Hv. ok_inv. bool_split. by zbool. }
    split; split; done.
  - pose proof (tool_swap_revision _ _ _ _ H) as Hz. destruct b.
    + destruct (tool_swap_next _ _ _ H) as (c & Hc & Hi).
      apply CompareAndSwapToolExecution_inv in H as [[[=] _]|(c' & _ & _ & -> & _)].
      destruct (insert_next Exec_Revision _ R3 _ _ _ Hc Hi Hz) as [H1 H2]. split; split; done.
    + apply CompareAndSwapToolExecution_inv in H as [[_ ->]|(c & [=] & _)]. by apply Hrefl.
  - apply DeleteTombstonedResponseEvents_inv in H as (-> & _). split; split; done.
Qed.

Lemma advances_transacts s s' : transacts s s' -> revisions_ok s -> revisions_ok s' /\ advances s s'.
Proof.
  induction 1 as [s|s1 s2 s3 H _ IH]; intros Hr; [split; [done | reflexivity]|].
  destruct (advances_step _ _ H Hr) as [Hr2 Ha]. destruct (IH Hr2) as [Hr3 Hb]. split; [done | by etransitivity].
Qed.

Lemma revisions_empty : revisions_ok newMemoryLLMState.
Proof. split; intros k x Hx; cbn in Hx; by rewrite lookup_empty in Hx. Qed.

(** Where the revision is the same, the record is. *)
Lemma same_revision_request s s' k r r' : advances s s' -> requests s !! k = Some r -> requests s' !! k = Some r' ->
  Req_Revision r' = Req_Revision r -> r' = r.
Proof.
  intros Ha Hr Hr' E. destruct (advances_request _ _ Ha _ _ Hr) as (r2 & Hr2 & L).
  replace r2 with r' in L by congruence. by apply (later_same Req_Revision).
Qed.
Lemma same_revision_task s s' k t t' : advances s s' -> tasks s !! k = Some t -> tasks s' !! k = Some t' ->
  Task_Revision t' = Task_Revision t -> t' = t.
Proof.
  intros Ha Ht Ht' E. destruct (advances_task _ _ Ha _ _ Ht) as (t2 & Ht2 & L).
  replace t2 with t' in L by congruence. by apply (later_same Task_Revision).
Qed.
