(* ===== verification/LlmScan.v ===== *)
(** * Paged scans of the HumanLLM ledger

    The loops [for { batch := scan(after); … }] of llm/service_event.go,
    service_recovery.go, service_admission.go and service_retention.go: they
    end, and what they collect is the whole sorted list of records. *)

From S2P Require Import Prelude GoText GoEncoding GoTime GoJson GoStrings GoDoc Paging.
From S2P Require Import AgentTypes Framework LlmTypes LlmMemory LlmLedger.

Import Llm.

(* ------------------------------------------------------------------ *)
(** ** The loop *)

Section Drain.
Context {A C : Type} (scan : C -> res (list A)) (cursor : A -> C).

(** The runs of the loop: it goes on behind the last record of a batch until
    a scan fails or finds nothing. *)
Inductive drains : C -> res (list A) -> Prop :=
  | drains_fail after e : scan after = Err e -> drains after (Err e)
  | drains_done after : scan after = Ok [] -> drains after (Ok [])
  | drains_more after batch x r : scan after = Ok batch -> last batch = Some x -> drains (cursor x) r ->
      drains after (let? rest := r in Ok (batch ++ rest)).

Fixpoint drain (fuel : nat) (after : C) : res (list A) :=
  match fuel with
  | O => Ok []
  | S fuel =>
      let? batch := scan after in
      match last batch with
      | None => Ok []
      | Some x => let? rest := drain fuel (cursor x) in Ok (batch ++ rest)
      end
  end.

Lemma drains_det c r1 r2 : drains c r1 -> drains c r2 -> r1 = r2.
Proof.
  intros H1. revert r2. induction H1 as [c e E|c E|c b x r E Hx H1 IH]; intros r2 H2; inversion H2; subst; try congruence.
  - replace batch with (@nil A) in * by congruence. done.
  - by replace b with (@nil A) in * by congruence.
  - assert (batch = b) as -> by congruence. assert (x0 = x) as -> by congruence. by rewrite (IH _ H3).
Qed.

(** What is left behind a cursor. *)
Context (remaining : C -> list A).
Definition paged : Prop := forall c b, scan c = Ok b ->
  exists rest, remaining c = b ++ rest /\ (b = [] -> rest = []) /\
    forall x, last b = Some x -> remaining (cursor x) = rest.

Lemma drain_all fuel c : paged -> (length (remaining c) < fuel)%nat ->
  drains c (drain fuel c) /\ forall l, drain fuel c = Ok l -> l = remaining c.
Proof.
  intros Hp. revert c. induction fuel as [|fuel IH]; intros c Hf; [lia|]. cbn.
  destruct (scan c) as [b|e] eqn:E; cbn; [|split; [by apply drains_fail | done]].
  destruct (Hp _ _ E) as (rest & Hr & Hnil & Hnext). destruct (last b) as [x|] eqn:El.
  - pose proof (Hnext _ eq_refl) as Hn. destruct (IH (cursor x)) as [Hd Hv].
    { rewrite Hn. rewrite Hr, length_app in Hf. destruct b; [done|]. cbn in Hf. lia. }
    split; [by eapply drains_more|]. intros l Hl. ok_inv. by rewrite (Hv _ Hv0), Hr.
  - apply last_None in El as ->. split; [by apply drains_done|]. intros l [= <-]. by rewrite Hr, Hnil.
Qed.

(** A failure is the failure of a scan. *)
Lemma drains_err c e : drains c (Err e) -> exists c', scan c' = Err e.
Proof.
  intros H. remember (Err e) as r eqn:Er. induction H as [c e' E|c E|c b x r E Hx H IH]; [|done|].
  - exists c. congruence.
  - destruct r as [l|e']; cbn in Er; [done|]. apply IH. congruence.
Qed.
End Drain.

(* ------------------------------------------------------------------ *)
(** ** Pages *)

Lemma fit_page_Ok {A} kind (size : A -> Z) limit max l : forall used first p,
  fit_page kind size limit max used first l = Ok p ->
  exists rest, l = p ++ rest /\ ((0 < limit)%nat -> first = true -> used = 0%Z -> p = [] -> rest = []).
Proof.
  revert limit. induction l as [|x l IH]; intros limit used first p H.
  - destruct limit; injection H as <-; by exists [].
  - destruct limit as [|limit]; cbn in H; [injection H as <-; exists (x :: l); split; [done|lia]|].
    destruct (max <? size x)%Z eqn:E1; [destruct first; [done|]; injection H as <-; by exists (x :: l)|].
    destruct (max <? used + size x)%Z eqn:E2.
    + injection H as <-. exists (x :: l). split; [done|]. intros _ _ -> _. zbool. lia.
    + ok_inv. destruct (IH _ _ _ _ Hv) as (rest & -> & _). by exists rest.
Qed.

Lemma fit_page_Err {A} kind (size : A -> Z) limit max l used e :
  fit_page kind size limit max used true l = Err e ->
  e = memoryLLMLimit kind max /\ exists x, x ∈ l /\ (max < size x)%Z.
Proof.
  assert (forall l limit used e, fit_page kind size limit max used false l <> Err e) as Hf.
  { clear. induction l as [|x l IH]; intros limit used e; destruct limit as [|limit]; cbn; try done.
    destruct (_ <? _)%Z; [done|]. destruct (_ <? _)%Z; [done|].
    destruct (fit_page _ _ _ _ _ _ _) eqn:E; [done|]. by apply IH in E. }
  destruct l as [|x l], limit as [|limit]; cbn; [done..|].
  destruct (max <? size x)%Z eqn:E1.
  - intros [= <-]. split; [done|]. exists x. zbool. split; [by left|lia].
  - destruct (max <? used + size x)%Z; [done|]. destruct (fit_page _ _ _ _ _ _ _) eqn:E; cbn; [done|]. by apply Hf in E.
Qed.

(** Pages of the records behind a key. *)
Section Keyed.
Context {A K : Type} (key : A -> K) (kless : K -> K -> bool) (Hk : strict_total kless).

Definition behind (l : list A) (c : K) : list A := List.filter (fun x => kless c (key x)) l.

Lemma filter_filter_and (f g : A -> bool) l : List.filter f (List.filter g l) = List.filter (fun x => g x && f x) l.
Proof. induction l as [|x l IH]; [done|]. cbn. destruct (g x); cbn; [destruct (f x); by rewrite IH | done]. Qed.

Lemma filter_ext_in' (f g : A -> bool) l : (forall x, x ∈ l -> f x = g x) -> List.filter f l = List.filter g l.
Proof.
  intros H. induction l as [|x l IH]; [done|]. cbn. rewrite (H x) by left. rewrite IH; [done|].
  intros y Hy. apply H. by right.
Qed.

Lemma NoDup_key_filter (f : A -> bool) l : NoDup (key <$> l) -> NoDup (key <$> List.filter f l).
Proof.
  induction l as [|x l IH]; [done|]. rewrite fmap_cons. intros [Hx Hl]%NoDup_cons. cbn.
  destruct (f x); [|auto]. rewrite fmap_cons. apply NoDup_cons. split; [|auto].
  rewrite !list_elem_of_fmap in *. intros (y & Hy & Hin). apply Hx. exists y. split; [done|].
  apply list_elem_of_In, filter_In in Hin as [Hin _]. by apply list_elem_of_In.
Qed.

(** The records behind the last one of a page are what the page left. *)
Lemma behind_next l c p rest x :
  NoDup (key <$> l) -> ascending (fun x y => kless (key x) (key y)) l ->
  behind l c = p ++ rest -> last p = Some x -> behind l (key x) = rest.
Proof.
  intros Hnd Hs Hp Hx. apply last_Some in Hx as (p0 & ->). unfold behind in *.
  assert (kless c (key x) = true) as Hc.
  { assert (x ∈ List.filter (fun x => kless c (key x)) l) as Hin by (rewrite Hp; set_solver).
    by apply list_elem_of_In, filter_In in Hin as [_ ?]. }
  assert (List.filter (fun y => kless c (key y)) l = p0 ++ x :: rest) as Hp' by (by rewrite Hp, <- app_assoc).
  rewrite (filter_ext_in' _ (fun y => kless c (key y) && kless (key x) (key y))).
  - rewrite <- filter_filter_and, Hp'. apply (resume key kless Hk (fun x y => kless (key x) (key y)) ltac:(done));
      rewrite <- Hp'; [by apply NoDup_key_filter | by apply ascending_sub].
  - intros y _. destruct (kless (key x) (key y)) eqn:E; [|by rewrite andb_false_r]. rewrite andb_true_r. symmetry.
    by eapply (less_trans _ Hk).
Qed.

Lemma paged_behind kind size limit max l (scan : K -> res (list A)) :
  NoDup (key <$> l) -> ascending (fun x y => kless (key x) (key y)) l -> (0 < limit)%nat ->
  (forall c b, scan c = Ok b -> fit_page kind size limit max 0 true (behind l c) = Ok b) ->
  paged scan key (behind l).
Proof.
  intros Hnd Hs Hl Hscan c b Hb. apply Hscan, fit_page_Ok in Hb as (rest & Hr & Hnil). exists rest.
  split_and!; [done | by intros ->; auto|]. intros x Hx. by eapply behind_next.
Qed.
End Keyed.

(* ------------------------------------------------------------------ *)
(** ** The entries of a map, sorted *)

Lemma insert_sorted_map {A B} (less : B -> B -> bool) (f : A -> B) x l :
  insert_sorted less (f x) (f <$> l) = f <$> insert_sorted (fun x y => less (f x) (f y)) x l.
Proof. induction l as [|y l IH]; [done|]. cbn. destruct (less (f y) (f x)); [|done]. cbn. by rewrite <- IH. Qed.

Lemma sort_slice_map {A B} (less : B -> B -> bool) (f : A -> B) l :
  sort_slice less (f <$> l) = f <$> sort_slice (fun x y => less (f x) (f y)) l.
Proof. induction l as [|x l IH]; [done|]. cbn. by rewrite <- insert_sorted_map, <- IH. Qed.

Section Entries.
Context {K A I : Type} `{Countable K} (m : gmap K A) (f : K * A -> bool) (id : K -> I) (back : I -> K).
Context (less : I -> I -> bool) (Hless : strict_total less).
Hypothesis Hback : forall k a, m !! k = Some a -> f (k, a) = true -> back (id k) = k.

Definition entry_less (p q : K * A) : bool := less (id (fst p)) (id (fst q)).
Definition entries : list (K * A) := sort_slice entry_less (List.filter f (map_to_list m)).

Definition values : list A := snd <$> entries.

Lemma elem_entries k a : (k, a) ∈ entries <-> m !! k = Some a /\ f (k, a) = true.
Proof.
  unfold entries. rewrite sort_slice_perm, list_elem_of_In, List.filter_In, <- list_elem_of_In, elem_of_map_to_list. done.
Qed.

Lemma entries_inj p q : p ∈ List.filter f (map_to_list m) -> q ∈ List.filter f (map_to_list m) ->
  id (fst p) = id (fst q) -> p = q.
Proof.
  destruct p as [k a], q as [k' a']. rewrite !list_elem_of_In, !List.filter_In, <- !list_elem_of_In, !elem_of_map_to_list. cbn.
  intros [Hk Hf] [Hk' Hf'] E. rewrite <- (Hback _ _ Hk Hf), E, (Hback _ _ Hk' Hf') in Hk |- *. congruence.
Qed.

Lemma entries_ascending : ascending entry_less entries.
Proof. apply (sort_slice_ascending (fun p : K * A => id (fst p)) less Hless). done. Qed.

Lemma entries_NoDup : NoDup ((fun p : K * A => id (fst p)) <$> entries).
Proof.
  unfold entries. rewrite sort_slice_perm. apply NoDup_fmap_2_strong.
  - intros p q. apply entries_inj.
  - apply NoDup_ListNoDup, List.NoDup_filter, NoDup_ListNoDup, NoDup_map_to_list.
Qed.

(** Sorting the identifiers and looking them up again. *)
Lemma lookup_entries :
  omap (fun i => m !! back i) (sort_slice less ((fun p => id (fst p)) <$> List.filter f (map_to_list m)))
  = values.
Proof.
  unfold values.   rewrite sort_slice_map. fold entry_less. change (sort_slice (fun x y : K * A => less (id (fst x)) (id (fst y)))) with
    (sort_slice entry_less). fold entries.
  assert (forall l, (forall p, p ∈ l -> p ∈ entries) ->
    omap (fun i => m !! back i) ((fun p : K * A => id (fst p)) <$> l : list I) = (snd <$> l : list A)) as Hl.
  { induction l as [|[k a] l IH]; intros Hin; [done|]. rewrite !fmap_cons. cbn [omap list_omap fst snd].
    assert ((k, a) ∈ entries) as [Hk Hf]%elem_entries by (apply Hin; left).
    rewrite (Hback _ _ Hk Hf), Hk. f_equal. apply IH. intros p Hp. apply Hin. by right. }
  by apply Hl.
Qed.
End Entries.

(** A cursor on top of the selection. *)
Lemma entries_behind {K A I} `{Countable K} (m : gmap K A) (f : K * A -> bool) (id : K -> I) back
    (less : I -> I -> bool) (key : A -> I) c : strict_total less ->
  (forall k a, m !! k = Some a -> f (k, a) = true -> back (id k) = k) ->
  (forall k a, m !! k = Some a -> key a = id k) ->
  values m (fun p => f p && less c (id (fst p))) id less = behind key less (values m f id less) c.
Proof.
  intros Hl Hb Hkey. unfold values, entries, behind. rewrite <- filter_filter_and.
  rewrite (sort_filter (fun p : K * A => id (fst p)) less Hl) by (try done; intros *; by apply (entries_inj m f id back)).
  assert (forall l, (forall k a, (k, a) ∈ l -> m !! k = Some a) ->
    (snd <$> List.filter (fun p : K * A => less c (id (fst p))) l : list A) = List.filter (fun x => less c (key x)) (snd <$> l)) as Hf.
  { induction l as [|[k a] l IH]; intros Hin; [done|]. rewrite fmap_cons. cbn [List.filter fst snd].
    rewrite (Hkey k a) by (apply Hin; left). destruct (less c (id k)); rewrite ?fmap_cons, IH; try done;
      intros; apply Hin; by right. }
  apply Hf. intros k a Hin. by apply (elem_entries m f id less) in Hin as [? _].
Qed.

(* ------------------------------------------------------------------ *)
(** ** The loops of the service *)

Definition maximumResponseLimit : Z := 4096.

Definition event_scan (request : StoreRequestKey) (readLimit after : Z) : StoreResponseEventScan :=
  {| EventScan_Request := request; EventScan_After := after; EventScan_Kinds := []; EventScan_WorkerEventID := "";
     EventScan_Limit := maximumResponseLimit; EventScan_ReadLimit := {| ReadLimit_MaxBytes := readLimit |} |}.

(** The loop over the response events of a request. *)
Definition loadResponseEvents (u : memoryLLMUnit) (request : StoreRequestKey) (readLimit : Z)
    : res (list StoreResponseEventRecord) :=
  drain (fun after => ReadOp.ScanResponseEvents u (event_scan request readLimit after)) Resp_Sequence
    (S (size (history (unit_state u) request))) 0%Z.

Definition tool_scan (task : StoreTaskKey) (state : option ToolExecutionState) (readLimit : Z) (after : ToolCallID)
    : StoreToolExecutionScan :=
  {| ToolScan_Task := task; ToolScan_State := state; ToolScan_After := after;
     ToolScan_Limit := maximumResponseLimit; ToolScan_ReadLimit := {| ReadLimit_MaxBytes := readLimit |} |}.

(** The loop over the tool executions of a Task. *)
Definition loadToolExecutions (u : memoryLLMUnit) (task : StoreTaskKey) (state : option ToolExecutionState)
    (readLimit : Z) : res (list StoreToolExecutionRecord) :=
  drain (fun after => ReadOp.ScanToolExecutions u (tool_scan task state readLimit after))
    (fun record => ToolKey_ToolCallID (Exec_Key record)) (S (size (tools (unit_state u)))) "".

(** All response events of a request, by sequence; the tool executions of a
    Task in a state, by identifier. *)
Definition response_events (s : memoryLLMState) (request : StoreRequestKey) : list StoreResponseEventRecord :=
  values (history s request) (fun _ => true) (fun n => n) Z.ltb.
Definition tool_executions (s : memoryLLMState) (task : StoreTaskKey) (state : option ToolExecutionState)
    : list StoreToolExecutionRecord :=
  values (tools s) (fun entry => (ToolKey_Task (fst entry) =?= task) &&
      match state with None => true | Some state => Exec_State (snd entry) =?= state end)
    ToolKey_ToolCallID string_less.

Lemma length_values {K A I} `{Countable K} (m : gmap K A) f (id : K -> I) less :
  (length (values m f id less) <= size m)%nat.
Proof.
  unfold values, entries. rewrite length_fmap, sort_slice_perm, <- length_map_to_list.
  assert (forall l : list (K * A), (length (List.filter f l) <= length l)%nat) as Hl by (intros l; apply List.filter_length_le).
  apply Hl.
Qed.

Lemma values_ext {K A I} `{Countable K} (m : gmap K A) f g (id : K -> I) less :
  (forall k a, m !! k = Some a -> f (k, a) = g (k, a)) -> values m f id less = values m g id less.
Proof.
  intros Hfg. unfold values, entries. f_equal. f_equal. apply filter_ext_in'. intros [k a] Hin.
  apply Hfg. by apply elem_of_map_to_list.
Qed.

Lemma values_id_fmap {K A I} `{Countable K} (m : gmap K A) f (id : K -> I) less (key : A -> I) :
  (forall k a, m !! k = Some a -> key a = id k) ->
  key <$> values m f id less = (fun p : K * A => id (fst p)) <$> entries m f id less.
Proof.
  intros Hkey. unfold values. rewrite <- list_fmap_compose. apply list_fmap_ext. intros i [k a] Hi.
  apply list_elem_of_lookup_2, elem_entries in Hi as [Hi _]. cbn. by apply Hkey.
Qed.

Lemma values_sorted {K A I} `{Countable K} (m : gmap K A) f (id : K -> I) back less (key : A -> I) :
  strict_total less -> (forall k a, m !! k = Some a -> f (k, a) = true -> back (id k) = k) ->
  (forall k a, m !! k = Some a -> key a = id k) ->
  NoDup (key <$> values m f id less) /\ ascending (fun x y => less (key x) (key y)) (values m f id less).
Proof.
  intros Hl Hb Hkey. split.
  - rewrite (values_id_fmap m f id less key Hkey). by apply (entries_NoDup m f id back).
  - pose proof (entries_ascending m f id less Hl) as Ha. unfold ascending, values in *.
    assert (forall p, p ∈ entries m f id less -> m !! fst p = Some (snd p)) as Hm.
    { intros [k a] Hin. by apply elem_entries in Hin as [? _]. }
    revert Hm. induction Ha as [|p l Hs IH Hf]; intros Hm; [constructor|]. rewrite fmap_cons. constructor.
    + apply IH. intros q Hq. apply Hm. by right.
    + apply Forall_fmap. rewrite Forall_forall in Hf |- *. intros q Hq. cbn.
      rewrite (Hkey (fst q) (snd q)), (Hkey (fst p) (snd p)) by (apply Hm; first [by left | by right]). by apply Hf.
Qed.

Lemma page_limit : (0 < Z.to_nat maximumResponseLimit)%nat.
Proof. unfold maximumResponseLimit. lia. Qed.

Section Loops.
Context (s : memoryLLMState) (Hs : ledger_ok s).

Lemma event_page request readLimit after : memoryLLMValidRequestKey request = true ->
  ReadOp.ScanResponseEvents (live s) (event_scan request readLimit after) =
  check refuse_if (readLimit <? 1)%Z (memoryLLMLimit StoreRecordResponseEvent readLimit) then
  fit_page StoreRecordResponseEvent event_size (Z.to_nat maximumResponseLimit) readLimit 0 true
    (behind Resp_Sequence Z.ltb (response_events s request) after).
Proof.
  intros Hr. unfold ReadOp.ScanResponseEvents. rewrite llm_active_live.
  change (EventScan_Request (event_scan request readLimit after)) with request. rewrite Hr.
  change (memoryLLMScanArguments _ _ _) with (refuse_if (E := error) (readLimit <? 1)%Z (memoryLLMLimit StoreRecordResponseEvent readLimit)).
  cbn [obind negb refuse_if ReadOp.kinds_check event_scan EventScan_Request EventScan_Kinds EventScan_Limit
    EventScan_ReadLimit ReadLimit_MaxBytes unit_state live].
  assert (forall k a, history s request !! k = Some a -> Resp_Sequence a = k) as Hkey
    by (intros k a Hk; by apply (ledger_event_key s Hs) in Hk as (_ & ? & _)).
  unfold response_events. rewrite <- (entries_behind (history s request) (fun _ => true) (fun n => n) (fun n => n)
    Z.ltb Resp_Sequence after strict_total_Zlt (fun _ _ _ _ => eq_refl) Hkey).
  rewrite <- (lookup_entries (history s request) _ (fun n => n) (fun n => n) Z.ltb (fun _ _ _ _ => eq_refl)).
  rewrite (filter_ext_in' (ReadOp.event_selected (event_scan request readLimit after)) (fun p => true && (after <? fst p)%Z));
    [done|].
  intros [n e] _. unfold ReadOp.event_selected. cbn. rewrite !orb_false_r. lia.
Qed.

Lemma response_events_sorted request :
  NoDup (Resp_Sequence <$> response_events s request) /\
  ascending (fun x y => (Resp_Sequence x <? Resp_Sequence y)%Z) (response_events s request).
Proof.
  apply (values_sorted _ _ (fun n => n) (fun n => n)); [apply strict_total_Zlt | done|].
  intros k a Hk. by apply (ledger_event_key s Hs) in Hk as (_ & ? & _).
Qed.

Lemma elem_response_events request e :
  e ∈ response_events s request <-> history s request !! Resp_Sequence e = Some e.
Proof.
  unfold response_events, values. rewrite list_elem_of_fmap. split.
  - intros ([n x] & -> & [Hn _]%elem_entries). cbn. by destruct (ledger_event_key s Hs _ _ _ Hn) as (_ & -> & _).
  - intros He. exists (Resp_Sequence e, e). by rewrite elem_entries.
Qed.

Lemma events_behind_0 request : behind Resp_Sequence Z.ltb (response_events s request) 0%Z = response_events s request.
Proof.
  unfold behind. rewrite (filter_ext_in' _ (fun _ => true)).
  - by induction (response_events s request) as [|x l IH]; cbn; rewrite ?IH.
  - intros e He. apply elem_response_events in He. apply (ledger_event_key s Hs) in He as (_ & _ & _ & ?). lia.
Qed.

Definition event_loop (request : StoreRequestKey) (readLimit : Z) : res (list StoreResponseEventRecord) -> Prop :=
  drains (fun after => ReadOp.ScanResponseEvents (live s) (event_scan request readLimit after)) Resp_Sequence 0%Z.

Lemma event_loop_ends request readLimit : memoryLLMValidRequestKey request = true ->
  event_loop request readLimit (loadResponseEvents (live s) request readLimit) /\
  match loadResponseEvents (live s) request readLimit with
  | Ok l => l = response_events s request
  | Err e => e = memoryLLMLimit StoreRecordResponseEvent readLimit /\
      ((readLimit < 1)%Z \/ exists x, x ∈ response_events s request /\ (readLimit < event_size x)%Z)
  end.
Proof.
  intros Hr. destruct (response_events_sorted request) as [Hnd Hsort].
  destruct (drain_all (fun after => ReadOp.ScanResponseEvents (live s) (event_scan request readLimit after)) Resp_Sequence
    (behind Resp_Sequence Z.ltb (response_events s request)) (S (size (history s request))) 0%Z) as [Hd Hv].
  - apply (paged_behind _ _ strict_total_Zlt StoreRecordResponseEvent event_size (Z.to_nat maximumResponseLimit) readLimit); try done; [apply page_limit|].
    intros c b Hb. rewrite event_page in Hb by done. by ok_inv.
  - rewrite events_behind_0. pose proof (length_values (history s request) (fun _ => true) (fun n => n) Z.ltb).
    unfold response_events. lia.
  - split; [done|]. destruct (loadResponseEvents _ _ _) as [l|e] eqn:E.
    + rewrite <- (events_behind_0 request). by apply Hv.
    + unfold loadResponseEvents in E. change (unit_state (live s)) with s in E. rewrite E in Hd. apply drains_err in Hd as (c & Hc). rewrite event_page in Hc by done.
      destruct (readLimit <? 1)%Z eqn:El; cbn in Hc; [injection Hc as <-; split; [done|left; lia]|].
      apply fit_page_Err in Hc as (-> & x & Hx & Hx'). split; [done|]. right. exists x. split; [|done].
      apply list_elem_of_In, List.filter_In in Hx as [Hx _]. by apply list_elem_of_In.
Qed.

Definition tool_id (record : StoreToolExecutionRecord) : ToolCallID := ToolKey_ToolCallID (Exec_Key record).
Definition tool_filter (task : StoreTaskKey) (state : option ToolExecutionState)
    (entry : StoreToolExecutionKey * StoreToolExecutionRecord) : bool :=
  (ToolKey_Task (fst entry) =?= task) && match state with None => true | Some state => Exec_State (snd entry) =?= state end.

Lemma tool_back task state k a : tools s !! k = Some a -> tool_filter task state (k, a) = true ->
  {| ToolKey_Task := task; ToolKey_ToolCallID := ToolKey_ToolCallID k |} = k.
Proof. unfold tool_filter. intros _ H. cbn in H. bool_split. decided. subst task. by destruct k. Qed.

Lemma tool_key_id k a : tools s !! k = Some a -> tool_id a = ToolKey_ToolCallID k.
Proof. intros Hk. apply (ledger_tool_key s Hs) in Hk as (<- & _). done. Qed.

Definition known_state (state : option ToolExecutionState) : Prop :=
  match state with Some (ToolExecutionOther _) => False | _ => True end.

Lemma tool_page task state readLimit after : memoryLLMValidTaskKey task = true -> known_state state ->
  ReadOp.ScanToolExecutions (live s) (tool_scan task state readLimit after) =
  check refuse_if (readLimit <? 1)%Z (memoryLLMLimit StoreRecordToolExecution readLimit) then
  fit_page StoreRecordToolExecution tool_size (Z.to_nat maximumResponseLimit) readLimit 0 true
    (behind tool_id string_less (tool_executions s task state) after).
Proof.
  intros Hr Hst. unfold ReadOp.ScanToolExecutions. rewrite llm_active_live.
  change (ToolScan_Task (tool_scan task state readLimit after)) with task. rewrite Hr.
  change (memoryLLMScanArguments _ _ _) with (refuse_if (E := error) (readLimit <? 1)%Z (memoryLLMLimit StoreRecordToolExecution readLimit)).
  cbn [obind negb refuse_if tool_scan ToolScan_Task ToolScan_State ToolScan_Limit ToolScan_ReadLimit ReadLimit_MaxBytes unit_state live].
  rewrite refuse_if_false by (by destruct state as [[]|]). cbn [obind].
  change (tool_executions s task state) with (values (tools s) (tool_filter task state) ToolKey_ToolCallID string_less).
  rewrite <- (entries_behind (tools s) (tool_filter task state) ToolKey_ToolCallID _ string_less tool_id after
    strict_total_string (tool_back task state) tool_key_id).
  rewrite <- (lookup_entries (tools s) _ ToolKey_ToolCallID
    (fun id => {| ToolKey_Task := task; ToolKey_ToolCallID := id |}) string_less).
  - rewrite (filter_ext_in' (ReadOp.tool_selected (tool_scan task state readLimit after))
      (fun p => tool_filter task state p && string_less after (ToolKey_ToolCallID (fst p)))); [done|].
    intros [k a] _. unfold ReadOp.tool_selected, tool_filter. cbn.
    destruct state as [state|]; cbn; repeat case_bool_decide; cbn; by destruct (string_less after (ToolKey_ToolCallID k)).
  - intros k a Hk Hf. apply andb_true_iff in Hf as [Hf _]. by eapply tool_back.
Qed.

Lemma tools_behind_empty task state :
  behind tool_id string_less (tool_executions s task state) "" = tool_executions s task state.
Proof.
  unfold behind. rewrite (filter_ext_in' _ (fun _ => true)).
  - by induction (tool_executions s task state) as [|x l IH]; cbn; rewrite ?IH.
  - intros r Hr. unfold tool_executions, values in Hr. apply list_elem_of_fmap in Hr as ([k a] & -> & [Hk _]%elem_entries).
    apply (ledger_tool_key s Hs) in Hk as (<- & _ & Hne). cbn. unfold tool_id. by destruct (ToolKey_ToolCallID (Exec_Key a)).
Qed.

Definition tool_loop (task : StoreTaskKey) (state : option ToolExecutionState) (readLimit : Z)
    : res (list StoreToolExecutionRecord) -> Prop :=
  drains (fun after => ReadOp.ScanToolExecutions (live s) (tool_scan task state readLimit after)) tool_id "".

Lemma tool_loop_ends task state readLimit : memoryLLMValidTaskKey task = true -> known_state state ->
  tool_loop task state readLimit (loadToolExecutions (live s) task state readLimit) /\
  match loadToolExecutions (live s) task state readLimit with
  | Ok l => l = tool_executions s task state
  | Err e => e = memoryLLMLimit StoreRecordToolExecution readLimit /\
      ((readLimit < 1)%Z \/ exists x, x ∈ tool_executions s task state /\ (readLimit < tool_size x)%Z)
  end.
Proof.
  intros Hr Hst.
  destruct (values_sorted (tools s) (tool_filter task state) ToolKey_ToolCallID _ string_less tool_id strict_total_string
    (tool_back task state) tool_key_id) as [Hnd Hsort].
  destruct (drain_all (fun after => ReadOp.ScanToolExecutions (live s) (tool_scan task state readLimit after)) tool_id
    (behind tool_id string_less (tool_executions s task state)) (S (size (tools s))) "") as [Hd Hv].
  - apply (paged_behind _ _ strict_total_string StoreRecordToolExecution tool_size (Z.to_nat maximumResponseLimit) readLimit);
      [done | done | apply page_limit|].
    intros c b Hb. rewrite tool_page in Hb by done. by ok_inv.
  - rewrite tools_behind_empty. pose proof (length_values (tools s) (tool_filter task state) ToolKey_ToolCallID string_less).
    unfold tool_executions. fold (tool_filter task state). lia.
  - split; [done|]. destruct (loadToolExecutions _ _ _ _) as [l|e] eqn:E.
    + rewrite <- (tools_behind_empty task state). by apply Hv.
    + unfold loadToolExecutions in E. change (unit_state (live s)) with s in E. fold tool_id in E. rewrite E in Hd.
      apply drains_err in Hd as (c & Hc). rewrite tool_page in Hc by done.
      destruct (readLimit <? 1)%Z eqn:El; cbn in Hc; [injection Hc as <-; split; [done|left; lia]|].
      apply fit_page_Err in Hc as (-> & x & Hx & Hx'). split; [done|]. right. exists x. split; [|done].
      apply list_elem_of_In, List.filter_In in Hx as [Hx _]. by apply list_elem_of_In.
Qed.
End Loops.
