(* ===== verification/LlmRuntime.v ===== *)
(** * The in-memory state of the HumanLLM service (llm/service.go,
    service_worker.go, service_response.go, service_notice.go, the assignment
    tables of service_admission.go and service_event.go)

    What the service keeps beside its Store: the operations in progress, the
    connected workers and what was delivered to them, the assignments, the
    signals of waiting readers, the callers that went away.  Each definition
    is one critical section.  Connections and signals have identities, because
    the code compares and shares pointers to them.  The notices channel and the
    wake channel of a connection are buffers of eight and one. *)

From S2P Require Import Prelude GoText GoEncoding GoTime GoJson GoStrings GoDoc.
From S2P Require Import AgentTypes Framework LlmTypes.

Import Llm.
Local Open Scope string_scope.

Abbreviation connectionID := nat.
Abbreviation signalID := nat.

Record assignmentState := {
  assignment_delivery : WorkerAssignmentDelivery; assignment_request : StoreRequestKey;
  assignment_pending : bool; assignment_createdAt : time }.

Record WorkerNotice := {
  Notice_Code : string; Notice_Message : string; Notice_Caller : CallerID; Notice_TaskID : TaskID;
  Notice_RequestID : string }.

(** [serviceWorkerConnection]: [connection_stopped] is its cancelled context,
    [connection_done] its closed done channel. *)
Record connection := {
  connection_principal : AuthenticatedWorker;
  connection_sent : gset WorkerDeliveryID; connection_acked : gset WorkerDeliveryID;
  connection_stopped : bool; connection_err : option error;
  connection_notices : list WorkerNotice; connection_wake : bool; connection_done : bool }.

Record responseSignalState := { signal_ready : signalID; signal_waiters : Z }.
Record detachedCaller := { detached_request : StoreRequestKey; detached_requestID : string }.

(** [rt_closed] holds the signals whose channel was closed; [rt_done] is the
    result of the shutdown behind the closed done channel. *)
Record runtime := {
  rt_closing : bool; rt_active : Z; rt_drained : bool; rt_done : option (option error);
  rt_connections : gmap WorkerID connectionID; rt_objects : gmap connectionID connection;
  rt_assignments : gmap WorkerDeliveryID assignmentState;
  rt_pending : gmap WorkerID (gmap WorkerDeliveryID assignmentState);
  rt_signals : gmap StoreRequestKey responseSignalState; rt_closed : gset signalID; rt_next : nat;
  rt_detached : gmap StoreTaskKey detachedCaller }.

Definition newRuntime : runtime :=
  {| rt_closing := false; rt_active := 0; rt_drained := false; rt_done := None; rt_connections := ∅; rt_objects := ∅;
     rt_assignments := ∅; rt_pending := ∅; rt_signals := ∅; rt_closed := ∅; rt_next := 0; rt_detached := ∅ |}.

Definition set_lifecycle closing active drained r :=
  {| rt_closing := closing; rt_active := active; rt_drained := drained; rt_done := rt_done r; rt_connections := rt_connections r;
     rt_objects := rt_objects r; rt_assignments := rt_assignments r; rt_pending := rt_pending r;
     rt_signals := rt_signals r; rt_closed := rt_closed r; rt_next := rt_next r; rt_detached := rt_detached r |}.
Definition set_connections connections objects next r :=
  {| rt_closing := rt_closing r; rt_active := rt_active r; rt_drained := rt_drained r; rt_done := rt_done r; rt_connections := connections;
     rt_objects := objects; rt_assignments := rt_assignments r; rt_pending := rt_pending r;
     rt_signals := rt_signals r; rt_closed := rt_closed r; rt_next := next; rt_detached := rt_detached r |}.
Definition set_assignments assignments pending r :=
  {| rt_closing := rt_closing r; rt_active := rt_active r; rt_drained := rt_drained r; rt_done := rt_done r;
     rt_connections := rt_connections r; rt_objects := rt_objects r; rt_assignments := assignments;
     rt_pending := pending; rt_signals := rt_signals r; rt_closed := rt_closed r; rt_next := rt_next r;
     rt_detached := rt_detached r |}.
Definition set_signals signals closed next r :=
  {| rt_closing := rt_closing r; rt_active := rt_active r; rt_drained := rt_drained r; rt_done := rt_done r;
     rt_connections := rt_connections r; rt_objects := rt_objects r; rt_assignments := rt_assignments r;
     rt_pending := rt_pending r; rt_signals := signals; rt_closed := closed; rt_next := next;
     rt_detached := rt_detached r |}.
Definition set_detached detached r :=
  {| rt_closing := rt_closing r; rt_active := rt_active r; rt_drained := rt_drained r; rt_done := rt_done r;
     rt_connections := rt_connections r; rt_objects := rt_objects r; rt_assignments := rt_assignments r;
     rt_pending := rt_pending r; rt_signals := rt_signals r; rt_closed := rt_closed r; rt_next := rt_next r;
     rt_detached := detached |}.

Definition set_done result r :=
  {| rt_closing := rt_closing r; rt_active := rt_active r; rt_drained := rt_drained r; rt_done := result;
     rt_connections := rt_connections r; rt_objects := rt_objects r; rt_assignments := rt_assignments r;
     rt_pending := rt_pending r; rt_signals := rt_signals r; rt_closed := rt_closed r; rt_next := rt_next r;
     rt_detached := rt_detached r |}.

(** A change of one connection that exists. *)
Definition on_object (id : connectionID) (f : connection -> connection) (r : runtime) : runtime :=
  set_connections (rt_connections r) (alter f id (rt_objects r)) (rt_next r) r.

Definition set_delivered sent acked (c : connection) : connection :=
  {| connection_principal := connection_principal c; connection_sent := sent; connection_acked := acked;
     connection_stopped := connection_stopped c; connection_err := connection_err c;
     connection_notices := connection_notices c; connection_wake := connection_wake c; connection_done := connection_done c |}.
Definition set_stopped cause (c : connection) : connection :=
  {| connection_principal := connection_principal c; connection_sent := connection_sent c;
     connection_acked := connection_acked c; connection_stopped := true; connection_err := cause;
     connection_notices := connection_notices c; connection_wake := connection_wake c; connection_done := connection_done c |}.
Definition set_channels notices wake (c : connection) : connection :=
  {| connection_principal := connection_principal c; connection_sent := connection_sent c;
     connection_acked := connection_acked c; connection_stopped := connection_stopped c;
     connection_err := connection_err c; connection_notices := notices; connection_wake := wake;
     connection_done := connection_done c |}.

(* ------------------------------------------------------------------ *)
(** ** Operations in progress and shutdown *)

Definition beginOperation (r : runtime) : res unit * runtime :=
  if rt_closing r then (Err ErrServiceClosed, r)
  else (Ok tt, set_lifecycle false (rt_active r + 1) (rt_drained r) r).

Definition endOperation (r : runtime) : unit * runtime :=
  let active := (rt_active r - 1)%Z in
  (tt, set_lifecycle (rt_closing r) active (rt_drained r || (rt_closing r && (active =? 0)%Z)) r).

(** The section of [Shutdown], which runs once: the connections to stop. *)
Definition beginShutdown (r : runtime) : option (list connectionID) * runtime :=
  if rt_closing r then (None, r)
  else (Some (snd <$> map_to_list (rt_connections r)),
        set_lifecycle true (rt_active r) (rt_drained r || (rt_active r =? 0)%Z) r).

(** The end of [finishShutdown], and [service.Err]. *)
Definition finishDone (result : option error) (r : runtime) : unit * runtime := (tt, set_done (Some result) r).
Definition serviceErr (r : runtime) : option error * runtime := (default None (rt_done r), r).

(* ------------------------------------------------------------------ *)
(** ** Connections *)

Definition newConnection (principal : AuthenticatedWorker) : connection :=
  {| connection_principal := principal; connection_sent := ∅; connection_acked := ∅; connection_stopped := false;
     connection_err := None; connection_notices := []; connection_wake := false; connection_done := false |}.

Definition registerConnection (principal : AuthenticatedWorker) (r : runtime) : res connectionID * runtime :=
  if rt_closing r then (Err ErrServiceClosed, r)
  else match rt_connections r !! Worker_WorkerID principal with
       | Some _ => (Err ErrWorkerConnectionConflict, r)
       | None =>
           (Ok (rt_next r),
            set_connections (<[Worker_WorkerID principal := rt_next r]> (rt_connections r))
              (<[rt_next r := newConnection principal]> (rt_objects r)) (S (rt_next r)) r)
       end.

(** [connection.stop], whose body runs once. *)
Definition stop (id : connectionID) (cause : option error) (r : runtime) : unit * runtime :=
  match rt_objects r !! id with
  | None => (tt, r)
  | Some c =>
      if connection_stopped c then (tt, r)
      else
        let worker := Worker_WorkerID (connection_principal c) in
        let connections := if rt_connections r !! worker =?= Some id then delete worker (rt_connections r)
                           else rt_connections r in
        (tt, set_connections connections (alter (set_stopped cause) id (rt_objects r)) (rt_next r) r)
  end.

Definition connectedWorkers (r : runtime) : list WorkerID * runtime :=
  (sort_slice string_less (fst <$> map_to_list (rt_connections r)), r).

Definition findConnection (worker : WorkerID) (r : runtime) : option connectionID * runtime :=
  (rt_connections r !! worker, r).

Definition countConnections (r : runtime) : Z * runtime := (Z.of_nat (size (rt_connections r)), r).

(** [connection.Err]. *)
Definition connectionErr (id : connectionID) (r : runtime) : option error * runtime :=
  (match rt_objects r !! id with Some c => if connection_done c then connection_err c else None | None => None end, r).

(** The end of [dispatch], and its receive from the wake channel. *)
Definition closeConnection (id : connectionID) (r : runtime) : unit * runtime :=
  (tt, on_object id (fun c => {| connection_principal := connection_principal c; connection_sent := connection_sent c;
    connection_acked := connection_acked c; connection_stopped := connection_stopped c; connection_err := connection_err c;
    connection_notices := connection_notices c; connection_wake := connection_wake c; connection_done := true |}) r).
Definition takeWake (id : connectionID) (r : runtime) : unit * runtime :=
  (tt, on_object id (fun c => set_channels (connection_notices c) false c) r).

(** The wake channel holds one token; a notice is dropped when eight wait or
    the connection has stopped. *)
Definition signal (id : connectionID) (r : runtime) : unit * runtime :=
  (tt, on_object id (fun c => set_channels (connection_notices c) true c) r).
Definition emitNotice (id : connectionID) (notice : WorkerNotice) (r : runtime) : unit * runtime :=
  (tt, on_object id (fun c =>
     if (length (connection_notices c) <? 8)%nat && negb (connection_stopped c)
     then set_channels (connection_notices c ++ [notice])%list (connection_wake c) c else c) r).

(* ------------------------------------------------------------------ *)
(** ** Assignments *)

Definition assignment_owner (a : assignmentState) : WorkerID :=
  WorkerLease_Owner (Assignment_Lease (AssignmentDelivery_Assignment (assignment_delivery a))).
Definition pending_of (worker : WorkerID) (r : runtime) : gmap WorkerDeliveryID assignmentState :=
  default ∅ (rt_pending r !! worker).

(** The connection to signal, if there is one. *)
Definition addAssignment (key : StoreRequestKey) (delivery : WorkerAssignmentDelivery) (pending : bool)
    (createdAt : time) (r : runtime) : option connectionID * runtime :=
  let id := AssignmentDelivery_ID delivery in
  let owner := WorkerLease_Owner (Assignment_Lease (AssignmentDelivery_Assignment delivery)) in
  match rt_assignments r !! id with
  | Some _ => (None, r)
  | None =>
      let state := {| assignment_delivery := delivery; assignment_request := key; assignment_pending := pending;
                      assignment_createdAt := createdAt |} in
      (rt_connections r !! owner,
       set_assignments (<[id := state]> (rt_assignments r))
         (if pending then <[owner := <[id := state]> (pending_of owner r)]> (rt_pending r) else rt_pending r) r)
  end.

Definition findAssignment (id : WorkerDeliveryID) (r : runtime) : option assignmentState * runtime :=
  (rt_assignments r !! id, r).

(** The section that [nextDelivery] sorts by. *)
Definition assignment_less (a b : assignmentState) : bool :=
  if negb (TimeEqual (assignment_createdAt a) (assignment_createdAt b))
  then Before (assignment_createdAt a) (assignment_createdAt b)
  else if RequestKey_Caller (assignment_request a) <>? RequestKey_Caller (assignment_request b)
  then string_less (RequestKey_Caller (assignment_request a)) (RequestKey_Caller (assignment_request b))
  else string_less (RequestKey_IdempotencyKey (assignment_request a)) (RequestKey_IdempotencyKey (assignment_request b)).

(** The first assignment in the order that was not sent yet. *)
Fixpoint first_unsent (sent : gset WorkerDeliveryID) (l : list assignmentState) : option WorkerAssignmentDelivery :=
  match l with
  | [] => None
  | a :: l =>
      if bool_decide (AssignmentDelivery_ID (assignment_delivery a) ∈ sent) then first_unsent sent l
      else Some (assignment_delivery a)
  end.

Definition nextDelivery (id : connectionID) (r : runtime) : option WorkerAssignmentDelivery * runtime :=
  match rt_objects r !! id with
  | None => (None, r)
  | Some c =>
      (first_unsent (connection_sent c)
         (sort_slice assignment_less (snd <$> map_to_list (pending_of (Worker_WorkerID (connection_principal c)) r))), r)
  end.

Definition markSent (id : connectionID) (delivery : WorkerDeliveryID) (r : runtime) : unit * runtime :=
  (tt, on_object id (fun c => set_delivered ({[delivery]} ∪ connection_sent c) (connection_acked c) c) r).

Definition deliveryState (id : connectionID) (delivery : WorkerDeliveryID) (r : runtime) : (bool * bool) * runtime :=
  match rt_objects r !! id with
  | None => ((false, false), r)
  | Some c => ((bool_decide (delivery ∈ connection_sent c), bool_decide (delivery ∈ connection_acked c)), r)
  end.

Definition markAcked (id : connectionID) (delivery : WorkerDeliveryID) (r : runtime) : unit * runtime :=
  (tt, on_object id (fun c => set_delivered (connection_sent c ∖ {[delivery]}) ({[delivery]} ∪ connection_acked c) c) r).

Definition set_settled (a : assignmentState) : assignmentState :=
  {| assignment_delivery := assignment_delivery a; assignment_request := assignment_request a;
     assignment_pending := false; assignment_createdAt := assignment_createdAt a |}.

(** The section of [ackAssignment] on the tables of the service. *)
Definition settlePending (worker : WorkerID) (delivery : WorkerDeliveryID) (r : runtime) : unit * runtime :=
  (tt, set_assignments (alter set_settled delivery (rt_assignments r))
         (alter (fun m => delete delivery m) worker (rt_pending r)) r).

(** The sections of [completeAssignment]. *)
Definition forgetAssignment (worker : WorkerID) (delivery : WorkerDeliveryID) (r : runtime)
    : option connectionID * runtime :=
  (rt_connections r !! worker,
   set_assignments (delete delivery (rt_assignments r))
     (alter (fun m => delete delivery m) worker (rt_pending r)) r).
Definition forgetDelivery (id : connectionID) (delivery : WorkerDeliveryID) (r : runtime) : unit * runtime :=
  (tt, on_object id (fun c => set_delivered (connection_sent c ∖ {[delivery]}) (connection_acked c ∖ {[delivery]}) c) r).

(* ------------------------------------------------------------------ *)
(** ** Signals of waiting readers *)

Definition responseSignal (key : StoreRequestKey) (r : runtime) : signalID * runtime :=
  let '(state, next) := match rt_signals r !! key with
                        | Some state => (state, rt_next r)
                        | None => ({| signal_ready := rt_next r; signal_waiters := 0 |}, S (rt_next r))
                        end in
  (signal_ready state,
   set_signals (<[key := {| signal_ready := signal_ready state; signal_waiters := (signal_waiters state + 1)%Z |}]>
                  (rt_signals r)) (rt_closed r) next r).

(** The function that [responseSignal] returns. *)
Definition releaseSignal (key : StoreRequestKey) (ready : signalID) (r : runtime) : unit * runtime :=
  match rt_signals r !! key with
  | Some state =>
      if signal_ready state =?= ready then
        let waiters := (signal_waiters state - 1)%Z in
        (tt, set_signals
               (if (waiters =? 0)%Z then delete key (rt_signals r)
                else <[key := {| signal_ready := ready; signal_waiters := waiters |}]> (rt_signals r))
               (rt_closed r) (rt_next r) r)
      else (tt, r)
  | None => (tt, r)
  end.

Definition signalResponse (key : StoreRequestKey) (r : runtime) : unit * runtime :=
  match rt_signals r !! key with
  | Some state =>
      (tt, set_signals (delete key (rt_signals r)) ({[signal_ready state]} ∪ rt_closed r) (rt_next r) r)
  | None => (tt, r)
  end.

(* ------------------------------------------------------------------ *)
(** ** Detached callers *)

Definition markDetached (task : StoreTaskKey) (request : StoreRequestKey) (requestID : string) (r : runtime)
    : unit * runtime :=
  (tt, set_detached (<[task := {| detached_request := request; detached_requestID := requestID |}]> (rt_detached r)) r).
Definition callerDetached (task : StoreTaskKey) (active : StoreRequestHead) (r : runtime) : bool * runtime :=
  (match rt_detached r !! task with
   | Some detached => (detached_request detached =?= Head_Key active)
                      && (detached_requestID detached =?= Head_RequestID active)
   | None => false
   end, r).
Definition clearDetached (task : StoreTaskKey) (r : runtime) : unit * runtime :=
  (tt, set_detached (delete task (rt_detached r)) r).

(* ------------------------------------------------------------------ *)
(** ** The critical sections *)

Inductive section : Type -> Type :=
  | BeginOperation : section (res unit)
  | EndOperation : section unit
  | BeginShutdown : section (option (list connectionID))
  | FinishDone (result : option error) : section unit
  | ServiceErr : section (option error)
  | CountConnections : section Z
  | ConnectionErr (id : connectionID) : section (option error)
  | CloseConnection (id : connectionID) : section unit
  | TakeWake (id : connectionID) : section unit
  | RegisterConnection (principal : AuthenticatedWorker) : section (res connectionID)
  | Stop (id : connectionID) (cause : option error) : section unit
  | ConnectedWorkers : section (list WorkerID)
  | FindConnection (worker : WorkerID) : section (option connectionID)
  | Signal (id : connectionID) : section unit
  | EmitNotice (id : connectionID) (notice : WorkerNotice) : section unit
  | AddAssignment (key : StoreRequestKey) (delivery : WorkerAssignmentDelivery) (pending : bool) (createdAt : time)
      : section (option connectionID)
  | FindAssignment (id : WorkerDeliveryID) : section (option assignmentState)
  | NextDelivery (id : connectionID) : section (option WorkerAssignmentDelivery)
  | MarkSent (id : connectionID) (delivery : WorkerDeliveryID) : section unit
  | DeliveryState (id : connectionID) (delivery : WorkerDeliveryID) : section (bool * bool)
  | MarkAcked (id : connectionID) (delivery : WorkerDeliveryID) : section unit
  | SettlePending (worker : WorkerID) (delivery : WorkerDeliveryID) : section unit
  | ForgetAssignment (worker : WorkerID) (delivery : WorkerDeliveryID) : section (option connectionID)
  | ForgetDelivery (id : connectionID) (delivery : WorkerDeliveryID) : section unit
  | ResponseSignal (key : StoreRequestKey) : section signalID
  | ReleaseSignal (key : StoreRequestKey) (ready : signalID) : section unit
  | SignalResponse (key : StoreRequestKey) : section unit
  | MarkDetached (task : StoreTaskKey) (request : StoreRequestKey) (requestID : string) : section unit
  | CallerDetached (task : StoreTaskKey) (active : StoreRequestHead) : section bool
  | ClearDetached (task : StoreTaskKey) : section unit.

Definition run_section {B} (c : section B) : runtime -> B * runtime :=
  match c with
  | BeginOperation => beginOperation
  | EndOperation => endOperation
  | BeginShutdown => beginShutdown
  | FinishDone result => finishDone result
  | ServiceErr => serviceErr
  | CountConnections => countConnections
  | ConnectionErr id => connectionErr id
  | CloseConnection id => closeConnection id
  | TakeWake id => takeWake id
  | RegisterConnection principal => registerConnection principal
  | Stop id cause => stop id cause
  | ConnectedWorkers => connectedWorkers
  | FindConnection worker => findConnection worker
  | Signal id => signal id
  | EmitNotice id notice => emitNotice id notice
  | AddAssignment key delivery pending createdAt => addAssignment key delivery pending createdAt
  | FindAssignment id => findAssignment id
  | NextDelivery id => nextDelivery id
  | MarkSent id delivery => markSent id delivery
  | DeliveryState id delivery => deliveryState id delivery
  | MarkAcked id delivery => markAcked id delivery
  | SettlePending worker delivery => settlePending worker delivery
  | ForgetAssignment worker delivery => forgetAssignment worker delivery
  | ForgetDelivery id delivery => forgetDelivery id delivery
  | ResponseSignal key => responseSignal key
  | ReleaseSignal key ready => releaseSignal key ready
  | SignalResponse key => signalResponse key
  | MarkDetached task request requestID => markDetached task request requestID
  | CallerDetached task active => callerDetached task active
  | ClearDetached task => clearDetached task
  end.

(** Any interleaving of the sections of any goroutines. *)
Inductive section_step : runtime -> runtime -> Prop :=
  | step_section {B} (c : section B) r : section_step r (snd (run_section c r)).
Definition section_steps : runtime -> runtime -> Prop := rtc section_step.
