(* ===== verification/LlmProg.v ===== *)
(** * Programs over a Store (llm/service*.go)

    The operations of the HumanLLM service read and write a shared Store in
    several transactions, with other callers in between, and call their ports.
    A program is the tree of these steps.  [runs] says what it may do: other
    callers, who keep to the relation [rely], come before every step, a
    transaction can fail without an effect, and an update can fail with an
    outcome nobody knows ([ErrStoreCommitUnknown]), committed or not.  [wp]
    reasons about all runs at once and shows that the program keeps to [rely]
    itself; [exec] is one run, computed. *)

From S2P Require Import Prelude GoText GoEncoding GoTime GoJson GoStrings GoDoc.
From S2P Require Import AgentTypes Framework LlmTypes LlmMemory LlmLedger.

Import Llm.

(** Errors of the Store itself, apart from those of its callbacks. *)
Definition fault (e : error) : Prop :=
  errors_Is e ErrStoreRecordNotFound = false /\ errors_Is e ErrStoreConflict = false /\
  errors_Is e ErrTaskConflict = false /\ errors_Is e ErrStoreCommitUnknown = false.
Definition unknown (e : error) : Prop := errors_Is e ErrStoreCommitUnknown = true.

Section Programs.
Context {E : Type -> Type}.

(** [store.View], [store.Update], a call of a port, and a loop. *)
Inductive prog (A : Type) : Type :=
  | Return (a : A)
  | Reading {B} (callback : memoryLLMUnit -> res B) (k : res B -> prog A)
  | Writing {B} (callback : memoryLLMUnit -> res (B * memoryLLMState)) (k : res B -> prog A)
  | Calling {B} (e : E B) (k : B -> prog A)
  | Looping {B C} (body : C -> prog (C + B)) (c : C) (k : B -> prog A).
Arguments Return {A} _.
Arguments Reading {A B} _ _.
Arguments Writing {A B} _ _.
Arguments Calling {A B} _ _.
Arguments Looping {A B C} _ _ _.

Fixpoint bind {A B} (p : prog A) (f : A -> prog B) : prog B :=
  match p with
  | Return a => f a
  | Reading callback k => Reading callback (fun r => bind (k r) f)
  | Writing callback k => Writing callback (fun r => bind (k r) f)
  | Calling e k => Calling e (fun b => bind (k b) f)
  | Looping body c k => Looping body c (fun b => bind (k b) f)
  end.

(* ------------------------------------------------------------------ *)
(** ** Runs *)

(** What the program did: its commits and its calls, the latest first. *)
Inductive act :=
  | Committed (before after : memoryLLMState)
  | Called {B} (e : E B) (b : B).

Record world := { db : memoryLLMState; acts : list act }.

(** The other callers of the Store. *)
Context (rely : memoryLLMState -> memoryLLMState -> Prop) {rely_preorder : PreOrder rely}.
Definition evolves (w w' : world) : Prop := rely (db w) (db w') /\ acts w' = acts w.

Definition commit (w : world) (s' : memoryLLMState) : world :=
  {| db := s'; acts := Committed (db w) s' :: acts w |}.
Definition called {B} (e : E B) (b : B) (w : world) : world := {| db := db w; acts := Called e b :: acts w |}.

#[global] Instance evolves_preorder : PreOrder evolves.
Proof.
  split; [by split|]. intros w1 w2 w3 [H1 A1] [H2 A2]. split; [by etransitivity | congruence].
Qed.

(** The answers a port may give. *)
Context (answers : forall B, E B -> B -> Prop).

Inductive viewed {B} (callback : memoryLLMUnit -> res B) (s : memoryLLMState) : res B -> Prop :=
  | viewed_done : viewed callback s (callback (live s))
  | viewed_fault e : fault e -> viewed callback s (Err e).

(** The answer of an update, and the state it committed. *)
Inductive updated {B} (callback : memoryLLMUnit -> res (B * memoryLLMState)) (s : memoryLLMState)
    : res B -> option memoryLLMState -> Prop :=
  | updated_done b s' : callback (live s) = Ok (b, s') -> updated callback s (Ok b) (Some s')
  | updated_unknown b s' e : callback (live s) = Ok (b, s') -> unknown e -> updated callback s (Err e) (Some s')
  | updated_refused e : callback (live s) = Err e -> updated callback s (Err e) None
  | updated_lost e : fault e \/ unknown e -> updated callback s (Err e) None.

Definition after (w : world) (o : option memoryLLMState) : world :=
  match o with Some s' => commit w s' | None => w end.

Inductive runs : forall {A}, prog A -> world -> A -> world -> Prop :=
  | runs_Ret {A} (a : A) w w' : evolves w w' -> runs (Return a) w a w'
  | runs_View {A B} callback (k : res B -> prog A) w w1 r a w' :
      evolves w w1 -> viewed callback (db w1) r -> runs (k r) w1 a w' -> runs (Reading callback k) w a w'
  | runs_Update {A B} callback (k : res B -> prog A) w w1 r o a w' :
      evolves w w1 -> updated callback (db w1) r o -> runs (k r) (after w1 o) a w' -> runs (Writing callback k) w a w'
  | runs_Call {A B} e (k : B -> prog A) w b a w' :
      answers B e b -> runs (k b) (called e b w) a w' -> runs (Calling e k) w a w'
  | runs_next {A B C} (body : C -> prog (C + B)) c (k : B -> prog A) w c' w1 a w' :
      runs (body c) w (inl c') w1 -> runs (Looping body c' k) w1 a w' -> runs (Looping body c k) w a w'
  | runs_break {A B C} (body : C -> prog (C + B)) c (k : B -> prog A) w b w1 a w' :
      runs (body c) w (inr b) w1 -> runs (k b) w1 a w' -> runs (Looping body c k) w a w'.

(* ------------------------------------------------------------------ *)
(** ** Reasoning about every run *)

Fixpoint wp {A} (p : prog A) (Q : A -> world -> Prop) (w : world) : Prop :=
  match p with
  | Return a => forall w', evolves w w' -> Q a w'
  | Reading callback k => forall w1 r, evolves w w1 -> viewed callback (db w1) r -> wp (k r) Q w1
  | Writing callback k => forall w1 r o, evolves w w1 -> updated callback (db w1) r o ->
      (forall s', o = Some s' -> rely (db w1) s') /\ wp (k r) Q (after w1 o)
  | Calling e k => forall b, answers _ e b -> wp (k b) Q (called e b w)
  | Looping body c k => exists I : _ -> world -> Prop, I c w /\
      forall c w, I c w -> wp (body c) (fun r w1 => match r with inl c' => I c' w1 | inr b => wp (k b) Q w1 end) w
  end.

Lemma wp_mono {A} (p : prog A) : forall (Q Q' : A -> world -> Prop) w,
  (forall a w, Q a w -> Q' a w) -> wp p Q w -> wp p Q' w.
Proof.
  induction p as [A a|A B cb k IH|A B cb k IH|A B e k IH|A B C body IHb c k IH]; cbn; intros Q Q' w HQ H.
  - auto.
  - intros w1 r H1 H2. eapply IH; eauto.
  - intros w1 r o H1 H2. destruct (H _ _ _ H1 H2) as [Hg Hk]. split; [done|]. eapply IH; eauto.
  - intros b Hb. eapply IH; eauto.
  - destruct H as (I & Hc & H). exists I. split; [done|]. intros c' w' Hc'. eapply IHb; [|by apply H].
    intros [c1|b] w1 H1; [done|]. eapply IH; eauto.
Qed.

Lemma wp_bind {A B} (p : prog A) (f : A -> prog B) Q w :
  wp p (fun a w => wp (f a) Q w) w -> wp (bind p f) Q w.
Proof.
  revert f Q w. induction p as [A a|A D cb k IH|A D cb k IH|A D e k IH|A D C body _ c k IH]; cbn; intros f Q w H.
  - by apply H.
  - intros w1 r H1 H2. eauto.
  - intros w1 r o H1 H2. destruct (H _ _ _ H1 H2) as [Hg Hk]. eauto.
  - eauto.
  - destruct H as (I & Hc & H). exists I. split; [done|]. intros c' w' Hc'. eapply wp_mono; [|by apply H].
    intros [c1|b] w1 H1; [done|]. by apply IH.
Qed.

Lemma rely_after w o : (forall s', o = Some s' -> rely (db w) s') -> rely (db w) (db (after w o)).
Proof. destruct o; cbn; intros H; [by apply H | reflexivity]. Qed.

(** Adequacy: what [wp] shows holds of every run, and the run keeps to
    [rely]. *)
Theorem wp_sound {A} (p : prog A) w a w' : runs p w a w' -> forall Q, wp p Q w -> Q a w' /\ rely (db w) (db w').
Proof.
  induction 1 as [A a w w' H|A B cb k w w1 r a w' H Hr _ IH|A B cb k w w1 r o a w' H Hr _ IH|A B e k w b a w' Hb _ IH
    |A B C body c k w c' w1 a w' _ IHb _ IH|A B C body c k w b w1 a w' _ IHb _ IH]; intros Q Hw; cbn in Hw.
  - split; [auto | apply H].
  - destruct (IH _ (Hw _ _ H Hr)) as [HQ Ht]. split; [done|]. etransitivity; [apply H | done].
  - destruct (Hw _ _ _ H Hr) as [Hg Hk]. destruct (IH _ Hk) as [HQ Ht]. split; [done|].
    etransitivity; [apply H|]. etransitivity; [by eapply rely_after | done].
  - by apply (IH _ (Hw _ Hb)).
  - destruct Hw as (I & Hc & Hw). destruct (IHb _ (Hw _ _ Hc)) as [HI Ht1]. cbn in HI.
    destruct (IH Q) as [HQ Ht2]; [cbn; eauto|]. split; [done | by etransitivity].
  - destruct Hw as (I & Hc & Hw). destruct (IHb _ (Hw _ _ Hc)) as [HI Ht1]. cbn in HI.
    destruct (IH Q HI) as [HQ Ht2]. split; [done | by etransitivity].
Qed.

(* ------------------------------------------------------------------ *)
(** ** One run, computed *)

(** No other callers, no fault; [fuel] bounds the rounds of every loop. *)
Section Exec.
Context (answer : forall B, E B -> B) (fuel : nat).

Fixpoint exec {A} (p : prog A) (w : world) : option (A * world) :=
  match p with
  | Return a => Some (a, w)
  | Reading callback k => exec (k (callback (live (db w)))) w
  | Writing callback k =>
      match callback (live (db w)) with
      | Ok (b, s') => exec (k (Ok b)) (commit w s')
      | Err e => exec (k (Err e)) w
      end
  | Calling e k => exec (k (answer _ e)) (called e (answer _ e) w)
  | Looping body c k =>
      (fix rounds (n : nat) c w :=
         match n with
         | O => None
         | S n =>
             match exec (body c) w with
             | Some (inl c', w1) => rounds n c' w1
             | Some (inr b, w1) => exec (k b) w1
             | None => None
             end
         end) fuel c w
  end.

Lemma exec_runs {A} (p : prog A) : (forall B e, answers B e (answer B e)) ->
  forall w a w', exec p w = Some (a, w') -> runs p w a w'.
Proof.
  intros Hans. induction p as [A a|A B cb k IH|A B cb k IH|A B e k IH|A B C body IHb c k IH]; cbn; intros w a' w' H.
  - injection H as <- <-. by apply runs_Ret.
  - eapply runs_View; [reflexivity | apply viewed_done | by apply IH].
  - destruct (cb (live (db w))) as [[b s']|e] eqn:Ec.
    + eapply (runs_Update _ _ _ _ _ (Some s')); [reflexivity | by apply updated_done | by apply IH].
    + eapply (runs_Update _ _ _ _ _ None); [reflexivity | by apply updated_refused | by apply IH].
  - eapply runs_Call; [apply Hans | by apply IH].
  - revert c w H. generalize fuel at 1 as n. induction n as [|n IHn]; intros c w H; [done|].
    destruct (exec (body c) w) as [[[c'|b] w1]|] eqn:Eb; [| |done].
    + eapply runs_next; [by apply IHb | by apply IHn].
    + eapply runs_break; [by apply IHb | by apply IH].
Qed.
End Exec.
End Programs.

Arguments prog E A : clear implicits.
Arguments Return {E A} _.
Arguments Reading {E A B} _ _.
Arguments Writing {E A B} _ _.
Arguments Calling {E A B} _ _.
Arguments Looping {E A B C} _ _ _.
Arguments act E : clear implicits.
Arguments world E : clear implicits.

(** Go's [x, err := f(); if err != nil { return err }], and a plain call. *)
Definition try_ {E A B} (p : prog E (res A)) (f : A -> prog E (res B)) : prog E (res B) :=
  bind p (fun r => match r with Ok a => f a | Err e => Return (Err e) end).

Definition pure {E A} (a : A) : prog E A := Return a.
Definition view {E B} (callback : memoryLLMUnit -> res B) : prog E (res B) := Reading callback Return.
Definition update {E B} (callback : memoryLLMUnit -> res (B * memoryLLMState)) : prog E (res B) := Writing callback Return.
Definition call {E B} (e : E B) : prog E B := Calling e Return.

Declare Scope prog_scope.
Delimit Scope prog_scope with prog.
Notation "'do' x '<-' p 'in' k" := (bind p (fun x => k)) (at level 10, x pattern, p at level 100, k at level 200) : prog_scope.
Notation "'try' x '<-' p 'in' k" := (try_ p (fun x => k)) (at level 10, x pattern, p at level 100, k at level 200) : prog_scope.
