(* ===== verification/LlmEvents.v ===== *)
(** * Planning a worker event of HumanLLM (llm/service_event.go)

    What a worker's event plans for the Task of a completion, the check of the
    tool calls it requests, and the rows it adds to the ledger of tool
    executions. *)

From S2P Require Import Prelude GoText GoEncoding GoTime GoJson GoStrings GoDoc GoStruct.
From S2P Require Import AgentTypes Framework LlmTypes LlmJson.

Import Llm.
Local Open Scope string_scope.

(** The port [ToolAuthorizer]: [AuthorizeTool] returns nil, or an error with
    the fault it carries. *)
Definition ToolAuthorizer : Type :=
  StoreTaskRecord -> Request -> ToolCall -> option (error * option (FaultCode * RetryMode)).

Module Plan.

Section Planning.
Context (toolAuthorizer : option ToolAuthorizer).

(** The map [declared]: a later tool replaces an earlier one of its name. *)
Definition declaredTools (tools : list Tool) : gmap string Tool :=
  fold_left (fun declared tool => <[Tool_QualifiedName tool := tool]> declared) tools ∅.

(** One round of the loop over the calls: an error, a rejection, or on to the
    next call. *)
Definition authorizeCall (task : StoreTaskRecord) (request : Request) (declared : gmap string Tool) (call : ToolCall)
    : res (option WorkerRejectionCode) :=
  match declared !! ToolCall_QualifiedName call with
  | None => Ok (Some WorkerRejectForbidden)
  | Some tool =>
      let invalid :=
        match Tool_InputKind tool with
        | ToolInputJSON => negb (is_none (ToolCall_TextInput call))
        | ToolInputText => is_none (ToolCall_TextInput call) || negb (is_none (ToolCall_Input call))
        | ToolInputOther _ => true
        end in
      if invalid then Ok (Some WorkerRejectInvalid)
      else if Task_CapabilityTier task =?= TierChat then Ok None
      else match toolAuthorizer with
           | None => Ok (Some WorkerRejectForbidden)
           | Some authorize =>
               match authorize task request call with
               | None => Ok None
               | Some (err, fault) =>
                   if fault =?= Some (CodeForbidden, RetryNever) then Ok (Some WorkerRejectForbidden) else Err err
               end
           end
  end.

Fixpoint authorizeCalls (task : StoreTaskRecord) (request : Request) (declared : gmap string Tool) (calls : list ToolCall)
    : res (option WorkerRejectionCode) :=
  match calls with
  | [] => Ok None
  | call :: calls =>
      let? rejection := authorizeCall task request declared call in
      match rejection with
      | Some code => Ok (Some code)
      | None => authorizeCalls task request declared calls
      end
  end.

Definition validateAndAuthorizeToolCalls (task : StoreTaskRecord) (request : Request) (calls : list ToolCall)
    : res (option WorkerRejectionCode) :=
  if Request_ToolCallPolicy request =?= ToolCallsDisabled then Ok (Some WorkerRejectForbidden)
  else if (Request_ToolCallPolicy request =?= ToolCallsSerial) && Nat.ltb 1 (length calls)
  then Ok (Some WorkerRejectInvalid)
  else authorizeCalls task request (declaredTools (Request_Tools request)) calls.

Definition terminalEventAllowed (state : TaskState) : option WorkerRejectionCode :=
  if state =?= TaskAwaitingHuman then None else Some WorkerRejectStateConflict.

(** A plan: the next state, the rows to insert, and the rejection if any. *)
Record plan := {
  plan_state : TaskState; plan_tools : list StoreToolExecutionRecord; plan_rejection : option WorkerRejectionCode }.

Definition reject (state : TaskState) (code : WorkerRejectionCode) : plan :=
  {| plan_state := state; plan_tools := []; plan_rejection := Some code |}.
Definition go_to (state : TaskState) : plan := {| plan_state := state; plan_tools := []; plan_rejection := None |}.

Fixpoint toolRecords (task : StoreTaskKey) (now : time) (calls : list ToolCall) : res (list StoreToolExecutionRecord) :=
  match calls with
  | [] => Ok []
  | call :: calls =>
      let? digest := toolCallDigest call in
      let? records := toolRecords task now calls in
      Ok ({| Exec_Key := {| ToolKey_Task := task; ToolKey_ToolCallID := ToolCall_ID call |};
             Exec_InputDigest := digest; Exec_State := ToolExecutionPending; Exec_Result := None;
             Exec_IsError := false; Exec_Revision := 1; Exec_CreatedAt := now; Exec_CompletedAt := None;
             Exec_ResultPrunedAt := None |} :: records)
  end.

Definition planWorkerEvent (task : StoreTaskRecord) (request : Request) (event : Event) (now : time) : res plan :=
  let state := Task_State task in
  let awaiting (k : res plan) : res plan :=
    if state <>? TaskAwaitingHuman then Ok (reject state WorkerRejectStateConflict) else k in
  match Event_Type event with
  | EventAccepted => if state =?= TaskAwaitingHuman then Ok (go_to state) else Ok (reject state WorkerRejectStateConflict)
  | EventProgress => awaiting (Ok (go_to state))
  | EventFinal => awaiting (Ok (go_to TaskCompleted))
  | EventClarification =>
      awaiting (Ok (go_to (if Task_CapabilityTier task =?= TierChat then TaskCompleted else TaskAwaitingCaller)))
  | EventToolCalls =>
      awaiting (
        let? rejection := validateAndAuthorizeToolCalls task request (Event_ToolCalls event) in
        match rejection with
        | Some code => Ok (reject state code)
        | None =>
            if Task_CapabilityTier task =?= TierChat then Ok (go_to TaskCompleted)
            else match toolRecords (Task_Key task) now (Event_ToolCalls event) with
                 | Err _ => Ok (reject state WorkerRejectInvalid)
                 | Ok records =>
                     Ok {| plan_state := TaskAwaitingResults; plan_tools := records; plan_rejection := None |}
                 end
        end)
  | EventRejected => Ok {| plan_state := TaskRejected; plan_tools := []; plan_rejection := terminalEventAllowed state |}
  | EventExpired =>
      if (state =?= TaskLeased) || (state =?= TaskAwaitingHuman) then Ok (go_to TaskExpired)
      else Ok (reject state WorkerRejectStateConflict)
  | EventFailed | EventUnavailable =>
      Ok {| plan_state := TaskFailed; plan_tools := []; plan_rejection := terminalEventAllowed state |}
  | EventTypeOther _ => Ok (reject state WorkerRejectInvalid)
  end.
End Planning.

End Plan.

Import Plan.

(* ------------------------------------------------------------------ *)
(** ** What a plan guarantees *)

Section Plans.
Context (toolAuthorizer : option ToolAuthorizer).

Lemma declaredTools_lookup tools q tool : declaredTools tools !! q = Some tool ->
  tool ∈ tools /\ Tool_QualifiedName tool = q.
Proof.
  unfold declaredTools.
  assert (forall m : gmap string Tool, fold_left (fun declared tool => <[Tool_QualifiedName tool := tool]> declared) tools m !! q = Some tool ->
            tool ∈ tools /\ Tool_QualifiedName tool = q \/ m !! q = Some tool) as H.
  { induction tools as [|t tools IH]; intros m; cbn; [by right|]. intros Hl.
    destruct (IH _ Hl) as [[Hin Hq]|Hm]; [left; split; [by right | done]|].
    apply lookup_insert_Some in Hm as [[<- <-]|[_ Hm]]; [left; split; [by left | done] | by right]. }
  intros Hl. destruct (H ∅ Hl) as [?|Hm]; [done|]. by rewrite lookup_empty in Hm.
Qed.

(** A call that passed found a declared tool of its qualified name, and its
    input is of the kind the tool takes. *)
Definition call_ok (tools : list Tool) (call : ToolCall) : Prop :=
  exists tool, tool ∈ tools /\ Tool_QualifiedName tool = ToolCall_QualifiedName call /\
    match Tool_InputKind tool with
    | ToolInputJSON => ToolCall_TextInput call = None
    | ToolInputText => is_Some (ToolCall_TextInput call) /\ ToolCall_Input call = None
    | ToolInputOther _ => False
    end.

(** The deployment's authorizer allows the call. *)
Definition authorized (task : StoreTaskRecord) (request : Request) (call : ToolCall) : Prop :=
  Task_CapabilityTier task <> TierChat -> exists f, toolAuthorizer = Some f /\ f task request call = None.

Lemma authorizeCall_passed task request tools call :
  authorizeCall toolAuthorizer task request (declaredTools tools) call = Ok None ->
  call_ok tools call /\ authorized task request call.
Proof.
  unfold authorizeCall. destruct (_ !! _) as [tool|] eqn:El; [|done].
  apply declaredTools_lookup in El as [Hin Hq]. intros H. split.
  - exists tool. split_and!; [done..|].
    destruct (Tool_InputKind tool); [destruct (ToolCall_TextInput call); done| |done].
    destruct (ToolCall_TextInput call), (ToolCall_Input call); done.
  - intros Ht. rewrite (bool_decide_eq_false_2 _ Ht) in H.
    match type of H with context [if ?b then _ else _] => destruct b end; [done|].
    destruct toolAuthorizer as [f|] eqn:Ef; [|done]. exists f. destruct (f task request call) as [[err fault]|]; [|done].
    by case_bool_decide.
Qed.

Lemma authorizeCalls_passed task request tools calls :
  authorizeCalls toolAuthorizer task request (declaredTools tools) calls = Ok None ->
  Forall (fun call => call_ok tools call /\ authorized task request call) calls.
Proof.
  induction calls as [|call calls IH]; [constructor|]. cbn. intros H.
  destruct (authorizeCall _ _ _ _ _) as [[code|]|] eqn:E; cbn in H; try done.
  constructor; [by apply authorizeCall_passed | auto].
Qed.

Lemma toolRecords_ids task now calls records : toolRecords task now calls = Ok records ->
  Exec_Key <$> records = (fun call => {| ToolKey_Task := task; ToolKey_ToolCallID := ToolCall_ID call |}) <$> calls.
Proof.
  revert records. induction calls as [|call calls IH]; cbn; intros records H; [by injection H as <-|].
  ok_inv. cbn. by rewrite (IH _ Hv0).
Qed.
End Plans.

(* ------------------------------------------------------------------ *)
(** ** Qualified names *)

Fixpoint ends_with_colon (s : string) : bool :=
  match s with
  | "" => false
  | String a "" => Ascii.eqb a ":"
  | String _ s' => ends_with_colon s'
  end.

(** A namespace whose separator is the first "::" of a qualified name. *)
Definition separable (namespace : string) : Prop :=
  Contains namespace "::" = false /\ ends_with_colon namespace = false.

Lemma separable_tail a s : separable (String a s) -> separable s.
Proof.
  unfold separable. intros [Hc He]. cbn in Hc. apply orb_false_iff in Hc as [_ Hc]. split; [done|].
  destruct s; [done|]. exact He.
Qed.

Lemma not_separable_colon s t r : String ":" s ++ t = String ":" (String ":" r) -> ~ separable (String ":" s) \/ t = String ":" r /\ s = "".
Proof.
  intros [= H]. destruct s as [|b s]; [cbn in H; subst; by right|]. left. intros [Hc _].
  injection H as -> _. by vm_compute in Hc.
Qed.

Lemma separable_not_colon s t r : s <> "" -> separable s -> s ++ t <> String ":" (String ":" r).
Proof.
  intros Hs Hsep H. destruct s as [|a s]; [done|]. injection H as -> H. destruct s as [|b s].
  - destruct Hsep as [_ He]. done.
  - injection H as -> _. destruct Hsep as [Hc _]. cbn in Hc. done.
Qed.

Lemma qualified_separable ns1 ns2 n1 n2 : separable ns1 -> separable ns2 ->
  ns1 ++ "::" ++ n1 = ns2 ++ "::" ++ n2 -> ns1 = ns2 /\ n1 = n2.
Proof.
  revert ns2. induction ns1 as [|a ns1 IH]; intros [|b ns2] H1 H2 H.
  - by injection H.
  - symmetry in H. by apply separable_not_colon in H.
  - by apply separable_not_colon in H.
  - injection H as -> H. destruct (IH ns2) as [-> ->]; eauto using separable_tail.
Qed.

Lemma Contains_app s t sub : HasPrefix t sub = true -> Contains (s ++ t) sub = true.
Proof. induction s as [|a s IH]; cbn; intros H; [destruct t; cbn; by rewrite H|]. rewrite IH by done. apply orb_true_r. Qed.

Lemma QualifiedToolName_inj ns1 ns2 n1 n2 :
  separable ns1 -> separable ns2 -> Contains n1 "::" = false -> Contains n2 "::" = false ->
  QualifiedToolName ns1 n1 = QualifiedToolName ns2 n2 -> ns1 = ns2 /\ n1 = n2.
Proof.
  unfold QualifiedToolName. intros S1 S2 C1 C2 H.
  destruct (is_empty ns1) eqn:E1, (is_empty ns2) eqn:E2; rewrite ?is_empty_true in *; subst; try done.
  - rewrite Contains_app in C1; done.
  - rewrite Contains_app in C2; done.
  - by apply qualified_separable.
Qed.

(** A valid identity of a tool, and of a call. *)
Definition tool_valid (tool : Tool) : Prop := ValidateToolIdentity (Tool_Namespace tool) (Tool_Name tool) = Ok tt.
Definition call_valid (call : ToolCall) : Prop := ValidateToolIdentity (ToolCall_Namespace call) (ToolCall_Name call) = Ok tt.

Lemma identity_no_separator ns n : ValidateToolIdentity ns n = Ok tt ->
  Contains ns "::" = false /\ Contains n "::" = false.
Proof. unfold ValidateToolIdentity. intros H. ok_inv. by bool_split. Qed.

Section Properties.
Context (toolAuthorizer : option ToolAuthorizer).


(** When every namespace is valid and does not end in a colon, a tool
    call that is planned names exactly, namespace and name, a tool the caller
    declared. *)
Theorem planned_call_declared task request event now p call :
  planWorkerEvent toolAuthorizer task request event now = Ok p ->
  plan_rejection p = None -> Event_Type event = EventToolCalls -> call ∈ Event_ToolCalls event ->
  Forall (fun tool => tool_valid tool /\ ends_with_colon (Tool_Namespace tool) = false) (Request_Tools request) ->
  call_valid call -> ends_with_colon (ToolCall_Namespace call) = false ->
  exists tool, tool ∈ Request_Tools request /\
    Tool_Namespace tool = ToolCall_Namespace call /\ Tool_Name tool = ToolCall_Name call.
Proof.
  intros Hp Hr Hty Hin Htools Hcall Hend.
  assert (call_ok (Request_Tools request) call) as (tool & Ht & Hq & _).
  { unfold planWorkerEvent, validateAndAuthorizeToolCalls in Hp. rewrite Hty in Hp.
    destruct (Task_State task <>? TaskAwaitingHuman); [by injection Hp as <-|].
    destruct (_ =?= ToolCallsDisabled); [by injection Hp as <-|]. destruct (_ && _); [by injection Hp as <-|].
    destruct (authorizeCalls _ _ _ _ _) as [[code|]|] eqn:Ea; try done; [by injection Hp as <-|].
    apply authorizeCalls_passed in Ea. rewrite Forall_forall in Ea. by apply Ea. }
  rewrite Forall_forall in Htools. destruct (Htools _ Ht) as [Hv He]. exists tool. split; [done|].
  apply identity_no_separator in Hv as [Hv1 Hv2]. apply identity_no_separator in Hcall as [Hc1 Hc2].
  by apply QualifiedToolName_inj.
Qed.
End Properties.

(* ------------------------------------------------------------------ *)
(** ** Where the separator is ambiguous *)

Definition tool_of (namespace name : string) : Tool :=
  {| Tool_Namespace := namespace; Tool_Name := name; Tool_Description := ""; Tool_InputKind := ToolInputJSON;
     Tool_InputSchema := Some "{}"; Tool_InputFormat := None |}.
Definition call_of (namespace name : string) : ToolCall :=
  {| ToolCall_ID := "c1"; ToolCall_Namespace := namespace; ToolCall_Name := name; ToolCall_Input := Some [];
     ToolCall_TextInput := None |}.
Definition request_of (tool : Tool) (policy : ToolCallPolicy) : Request :=
  {| Request_Model := "m"; Request_Stream := true; Request_System := ""; Request_Messages := [];
     Request_Tools := [tool]; Request_ToolCallPolicy := policy; Request_HostedCapabilities := [];
     Request_OpaqueInput := []; Request_Metadata := None |}.
Definition event_of (call : ToolCall) : Event :=
  {| Event_ID := "e"; Event_Type := EventToolCalls; Event_WorkerID := ""; Event_Text := ""; Event_ToolCalls := [call];
     Event_ErrorCode := ""; Event_Error := "" |}.
Definition sample_snapshot : CodecSnapshot :=
  {| Snapshot_Contract := {| Contract_ID := CodecContractID; Contract_Major := 1; Contract_Minor := 0; Contract_Features := ∅ |};
     Snapshot_ID := "chat"; Snapshot_Version := "1";
     Snapshot_Fingerprint := "sha256:" ++ hex_encode (Sha256.Sum256 "chat") |}.
Definition task_of (tier : CapabilityTier) : StoreTaskRecord :=
  {| Task_Key := {| TaskKey_Caller := "caller"; TaskKey_Task := "task" |}; Task_WorkspaceKey := "ws";
     Task_CapabilityTier := tier; Task_Codec := sample_snapshot; Task_HarnessID := "h"; Task_HarnessVersion := "1";
     Task_HarnessSessionID := "s"; Task_ExecAllowed := false; Task_State := TaskAwaitingHuman;
     Task_LeaseOwner := "alice"; Task_LeaseID := "lease"; Task_Revision := 2; Task_CreatedAt := 1; Task_UpdatedAt := 1 |}.

Definition odd_tool : Tool := tool_of "a:" "b".
Definition odd_call : ToolCall := call_of "a" ":b".
Definition odd_request : Request := request_of odd_tool ToolCallsUnset.

(** The qualified name is not reversible on valid identities: a valid call of
    a tool nobody declared is planned, because it is looked up by its
    qualified name. *)
Lemma undeclared_tool_call_planned :
  tool_valid odd_tool /\ call_valid odd_call /\
  planWorkerEvent None (task_of TierChat) odd_request (event_of odd_call) 0
  = Ok {| plan_state := TaskCompleted; plan_tools := []; plan_rejection := None |} /\
  forall tool, tool ∈ Request_Tools odd_request ->
    ~ (Tool_Namespace tool = ToolCall_Namespace odd_call /\ Tool_Name tool = ToolCall_Name odd_call).
Proof.
  split_and!; [reflexivity | reflexivity | vm_compute; reflexivity|].
  intros tool ->%list_elem_of_singleton. by intros [].
Qed.

(** A Task awaiting its human whose worker calls a declared tool. *)
Definition plain_tool : Tool := tool_of "fs" "read".
Definition plain_call : ToolCall := call_of "fs" "read".
Definition plain_request : Request := request_of plain_tool ToolCallsSerial.
Definition plain_event : Event := event_of plain_call.
Definition plain_task : StoreTaskRecord := task_of TierRemoteTools.
Definition plain_authorizer : option ToolAuthorizer := Some (fun _ _ _ => None).
Definition plain_plan : plan :=
  match planWorkerEvent plain_authorizer plain_task plain_request plain_event 5 with
  | Ok p => p | Err _ => reject TaskFailed WorkerRejectInvalid end.

Lemma plain_planned : planWorkerEvent plain_authorizer plain_task plain_request plain_event 5 = Ok plain_plan.
Proof. vm_compute. reflexivity. Qed.
Lemma plain_accepted : plan_rejection plain_plan = None.
Proof. vm_compute. reflexivity. Qed.


Lemma planned_call_declared_witness :
  exists tool, tool ∈ [plain_tool] /\ Tool_Namespace tool = "fs" /\ Tool_Name tool = "read".
Proof.
  apply (planned_call_declared plain_authorizer plain_task plain_request plain_event 5
    plain_plan plain_call plain_planned); [exact plain_accepted | done | by left | | reflexivity | reflexivity].
  repeat constructor.
Defined.
