(* ===== verification/LlmService.v ===== *)
(** * The HumanLLM service: configuration, sealed payloads, and the replay of
    a response (llm/service.go, service_types.go, service_blob.go, the
    deterministic replay of service_recovery.go)

    A [Service] holds the ports a deployment injects.  A Codec, a Protector
    and a ToolAuthorizer are functions; the clock, the identifiers, the seeds,
    the admission policy and the router are asked by the programs. *)

From S2P Require Import Prelude GoText GoEncoding GoTime GoJson GoStrings GoDoc GoStruct.
From S2P Require Import AgentTypes Framework Protect LlmTypes LlmJson LlmMemory LlmLedger LlmScan LlmRuntime LlmProg LlmEvents.

Import Llm.
Local Open Scope string_scope.
Local Open Scope prog_scope.

(* ------------------------------------------------------------------ *)
(** ** Configuration *)

Definition defaultResponseLimit : Z := 256.
Definition maximumPersistedStepBytes : Z := 67108864.
Definition maximumStoreRequestPayloadBytes : Z := 134217728.
Definition maximumRecoveryReadLimitBytes : Z := maximumStoreRequestPayloadBytes.
Definition workerEnvelopeReserve : Z := 4096.
Definition assignmentValidationSession : WorkerSessionID := "core-validation".

Record registeredCodec := {
  registered_codec : Codec; registered_description : CodecDescription; registered_snapshot : CodecSnapshot;
  registered_streamType : string; registered_aggregateType : string; registered_success : Z }.

Inductive ProtectionReadPolicy := ProtectionRequireSealed | ProtectionAllowPlain | ProtectionPolicyOther (s : string).

#[export] Instance ProtectionReadPolicy_eq_dec : EqDecision ProtectionReadPolicy.
Proof. solve_decision. Defined.

(** The protector with the description read at construction. *)
Record Service := {
  service_deploymentID : string;
  service_protector : option Protector; service_protectorDescription : Description;
  service_protectionReadPolicy : ProtectionReadPolicy;
  service_codecs : gmap CodecID registeredCodec;
  service_hasRouter : bool;
  service_toolAuthorizer : option ToolAuthorizer;
  service_workerPayloadLimitBytes : Z; service_readLimitBytes : Z }.

Inductive IDKind := IDTask | IDRequest | IDResponse | IDLease.

Record AdmissionContext := {
  AdmissionContext_CallerID : CallerID; AdmissionContext_IdempotencyKey : IdempotencyKey;
  AdmissionContext_Codec : CodecDescription; AdmissionContext_Request : Request;
  AdmissionContext_Task : TaskContext }.
Record AdmissionPolicyDecision := { Decision_Allowed : bool; Decision_Failure : AdmissionFailure; Decision_Retry : Z }.
Record WorkerRouteRequest := {
  Route_CallerID : CallerID; Route_IdempotencyKey : IdempotencyKey; Route_TaskID : TaskID;
  Route_Request : Request; Route_Task : TaskContext; Route_Candidates : list WorkerID }.

(** The ports that are asked, the sections of the runtime, and the waits: for
    a signal, a context or the shutdown; to send a delivery or to be woken,
    false when the connection stopped first; for the end of the operations and
    of a connection; for the end of a shutdown, or the error of the context
    that waits for it; and the release of a dependency within its timeout. *)
Inductive serviceE : Type -> Type :=
  | Section_ {B} (c : section B) : serviceE B
  | Now : serviceE time
  | NewID (kind : IDKind) : serviceE (res string)
  | NewSessionSeed (identity : CompletionIdentity) (request : Request) : serviceE (res SessionSeed)
  | NewEventSeed (identity : CompletionIdentity) (event : Event) : serviceE (res EventSeed)
  | AdmitRequest (input : AdmissionContext) : serviceE (res AdmissionPolicyDecision)
  | RouteWorker (input : WorkerRouteRequest) : serviceE (res WorkerID)
  | AwaitSignal (ready : signalID) : serviceE (option error)
  | SendDelivery (id : connectionID) (delivery : WorkerAssignmentDelivery) : serviceE bool
  | AwaitWake (id : connectionID) : serviceE bool
  | AwaitDrain : serviceE unit
  | AwaitDone (id : connectionID) : serviceE unit
  | AwaitFinished : serviceE (option error)
  | AwaitConnection (id : connectionID) : serviceE (option error)
  | ReleaseProtector : serviceE (option error)
  | ReleaseStore : serviceE (option error).

(** A section answers what it computes on some state of the runtime; a port
    answers anything. *)
Definition service_answers {B} (e : serviceE B) : B -> Prop :=
  match e in serviceE B return B -> Prop with
  | Section_ c => fun b => exists r, fst (run_section c r) = b
  | _ => fun _ => True
  end.

Abbreviation operation A := (prog serviceE A).
Definition section_call {B} (c : section B) : operation B := call (Section_ c).

Definition checkedTime (now : time) : res time :=
  check refuse_if (IsZero now) (ErrText "clock returned zero time") then
  Ok (UnixTime (UnixNano now)).

Definition timestampAtLeast (candidate floor : time) : time := if Before candidate floor then floor else candidate.

(** Early returns: [Err] leaves the body with the result of the function. *)
Abbreviation early R A := (outcome (res R) A).
Definition or_return {R A} (m : res A) : early R A := match m with Ok a => Ok a | Err e => Err (Err e) end.
Definition result_of {R} (m : early R R) : res R := match m with Ok r => Ok r | Err r => r end.

(** Go on with the value, or return early. *)
Definition early_try {A B} (m : outcome B A) (f : A -> operation B) : operation B :=
  match m with Ok a => f a | Err r => pure r end.
Notation "'take' x ':=' m 'then' k" := (early_try m (fun x => k))
  (at level 10, x pattern, m at level 100, k at level 200) : prog_scope.

(** [end, err := service.beginOperation(); …; defer end()]. *)
Definition operating_or {A} (failed : error -> A) (body : operation A) : operation A :=
  do begun <- section_call BeginOperation in
  match begun with
  | Err e => pure (failed e)
  | Ok _ =>
      do r <- body in
      do _ <- section_call EndOperation in
      pure r
  end.
Definition operating {A} (body : operation (res A)) : operation (res A) := operating_or Err body.

(** The checks of a context before an operation. *)
Definition ctx_ready (nil_error : error) (ctx : goctx) : res unit :=
  match ctx with
  | NilContext => Err nil_error
  | Context (Some e) => Err (ErrOf e)
  | Context None => Ok tt
  end.

(* ------------------------------------------------------------------ *)
(** ** Sealed payloads (service_blob.go) *)

Record payloadBinding := {
  payload_caller : CallerID; payload_namespace : string; payload_recordType : string;
  payload_recordID : string; payload_field : string }.

Definition persistedBlobVersion : Z := 1.

Definition requestPayloadBinding (key : StoreRequestKey) (requestID : string) : payloadBinding :=
  {| payload_caller := RequestKey_Caller key; payload_namespace := RequestKey_IdempotencyKey key;
     payload_recordType := "request"; payload_recordID := requestID; payload_field := "canonical-payload" |}.
Definition responseEventBinding (key : StoreRequestKey) (requestID : string) (sequence : Z) : payloadBinding :=
  {| payload_caller := RequestKey_Caller key; payload_namespace := RequestKey_IdempotencyKey key;
     payload_recordType := "response-event"; payload_recordID := requestID ++ "/" ++ print_Z sequence;
     payload_field := "data" |}.
Definition responseBodyBinding (key : StoreRequestKey) (requestID : string) : payloadBinding :=
  {| payload_caller := RequestKey_Caller key; payload_namespace := RequestKey_IdempotencyKey key;
     payload_recordType := "request"; payload_recordID := requestID; payload_field := "decision-body" |}.
Definition toolResultBinding (key : StoreToolExecutionKey) : payloadBinding :=
  {| payload_caller := TaskKey_Caller (ToolKey_Task key); payload_namespace := TaskKey_Task (ToolKey_Task key);
     payload_recordType := "tool-execution"; payload_recordID := ToolKey_ToolCallID key; payload_field := "result" |}.

Section Payloads.
Context (service : Service) (ctx : goctx).

Definition protectionBinding (input : payloadBinding) : res Binding :=
  let binding :=
    {| Binding_Component := "human.llm"; Binding_Purpose := "persistence"; Binding_Authority := payload_caller input;
       Binding_Namespace := service_deploymentID service ++ "/" ++ payload_namespace input;
       Binding_RecordType := payload_recordType input; Binding_RecordID := payload_recordID input;
       Binding_Field := payload_field input; Binding_Schema := persistedBlobVersion |} in
  check of_other (ValidateBinding binding) then
  Ok binding.

Definition validateProtectorPlaintext (plaintext : bytes) : res unit :=
  let maximum := Description_MaxPlaintextBytes (service_protectorDescription service) in
  refuse_if ((maximum <? 1) || (service_readLimitBytes service <? 1) || (maximum <? blen plaintext)
             || (service_readLimitBytes service <? blen plaintext))%Z
    (Join errPersistedPayloadLimit (ErrOf ErrInvalidEnvelope)).

Definition validateProtectorEnvelope (envelope : Envelope) : res unit :=
  check of_other (ValidateEnvelope envelope) then
  let description := service_protectorDescription service in
  check refuse_if ((Envelope_Provider envelope <>? Description_Provider description)
                   || (Envelope_Format envelope <>? Description_Format description)) (ErrOf ErrInvalidEnvelope) then
  let dataBytes := blen (Envelope_Data envelope) in
  let nonceBytes := blen (Envelope_Nonce envelope) in
  let maximum := Description_MaxEnvelopeBytes description in
  refuse_if ((maximum <? 1) || (maximum <? dataBytes) || (maximum - dataBytes <? nonceBytes))%Z
    (ErrOf ErrInvalidEnvelope).

Definition sealPayload (binding : payloadBinding) (plaintext : bytes) : res string :=
  let? framed :=
    match service_protector service with
    | None => Ok (NewPlainStoredValue plaintext)
    | Some protector =>
        check validateProtectorPlaintext plaintext then
        let? aad := protectionBinding binding in
        let? envelope := of_other (Protector_Seal protector ctx aad plaintext) in
        check validateProtectorEnvelope envelope then
        of_other (NewSealedStoredValue (is_none plaintext) envelope)
    end in
  let? encoded := of_other (MarshalStoredValue framed) in
  check refuse_if ((service_readLimitBytes service <? 1) || (service_readLimitBytes service <? len encoded))%Z
    errPersistedPayloadLimit then
  Ok encoded.

(** A stored payload is a []byte that can be nil. *)
Definition openPayload (binding : payloadBinding) (encoded : bytes) : res bytes :=
  let? framed := of_other (UnmarshalStoredValueLimited (default "" encoded) (service_readLimitBytes service)) in
  match Value_Mode framed with
  | StoredValuePlain =>
      check refuse_if (negb (is_none (service_protector service))
                       && (service_protectionReadPolicy service <>? ProtectionAllowPlain))
        (ErrText "HumanLLM protected deployment refuses an unsealed persisted value") then
      Ok (if Value_Nil framed then None else Some (default "" (Value_Plain framed)))
  | StoredValueSealed =>
      match service_protector service, Value_Envelope framed with
      | Some protector, Some envelope =>
          check validateProtectorEnvelope envelope then
          let? aad := protectionBinding binding in
          let? plaintext := of_other (Protector_Open protector ctx aad (CloneEnvelope envelope)) in
          check validateProtectorPlaintext plaintext then
          check refuse_if (negb (Bool.eqb (is_none plaintext) (Value_Nil framed)))
            (ErrText "HumanLLM persisted payload nil marker is not authenticated consistently") then
          Ok plaintext
      | _, _ => Err (ErrText "sealed HumanLLM persisted payload requires a Protector")
      end
  | StoredValueModeOther _ => Err (ErrText "unsupported HumanLLM persisted payload mode")
  end.

Definition storeRequestPayloadAllowed (canonicalBytes decisionBodyBytes runtimeLimit : Z) : bool :=
  let limit := Z.min runtimeLimit maximumStoreRequestPayloadBytes in
  ((0 <=? canonicalBytes) && (0 <=? decisionBodyBytes) && (0 <? limit) && (canonicalBytes <=? limit)
   && (decisionBodyBytes <=? limit - canonicalBytes))%Z.

Fixpoint persisted_step (total : Z) (l : frames) : res unit :=
  match l with
  | [] => Ok tt
  | frame :: l =>
      check refuse_if (maximumPersistedStepBytes - total <? len frame)%Z ErrInvalidCodecContract then
      persisted_step (total + len frame) l
  end.
Definition checkPersistedFrameStep (l : frames) : res unit := persisted_step 0 l.

(* ------------------------------------------------------------------ *)
(** ** Checkpoints and the replay of a response (service_recovery.go) *)

Definition session_checkpoint (session : EncoderSession) : encoderCheckpoint :=
  {| Checkpoint_Version := 1; Checkpoint_Kind := "session"; Checkpoint_Session := Some session;
     Checkpoint_Event := None; Checkpoint_Seed := None; Checkpoint_LeaseID := ""; Checkpoint_Worker := "" |}.
Definition event_checkpoint (event : Event) (seed : EventSeed) (lease : WorkerLeaseID) (worker : WorkerID)
    : encoderCheckpoint :=
  {| Checkpoint_Version := 1; Checkpoint_Kind := "event"; Checkpoint_Session := None;
     Checkpoint_Event := Some event; Checkpoint_Seed := Some seed; Checkpoint_LeaseID := lease;
     Checkpoint_Worker := worker |}.

Definition openCheckpoint (request : StoreRequestRecord) (event : StoreResponseEventRecord) : res encoderCheckpoint :=
  let? encoded := openPayload
    (responseEventBinding (Req_Key request) (Req_RequestID request) (Resp_Sequence event)) (Resp_Data event) in
  let? checkpoint := decodeCanonicalJSON encoderCheckpoint_json (default "" encoded) in
  check refuse_if (match Marshal encoderCheckpoint_json checkpoint with
                   | Ok canonical => canonical <>? default "" encoded | Err _ => true end
                   || (Checkpoint_Version checkpoint <>? 1%Z))
    (ErrText "response checkpoint is not canonical version 1") then
  Ok checkpoint.

(** The frames of one step against the records from [index] on; what remains
    behind them. *)
Fixpoint verifyPersistedFrames (request : StoreRequestRecord) (events : list StoreResponseEventRecord) (l : frames)
    (worker : WorkerID) (eventID : string) (digest : StoreDigest) : res (list StoreResponseEventRecord) :=
  match l with
  | [] => Ok events
  | expected :: l =>
      match events with
      | [] => Err (ErrText "response history is missing an encoded frame")
      | persisted :: events =>
          check refuse_if ((Resp_Kind persisted <>? StoreEventWire) || (Resp_Worker persisted <>? worker)
                           || (Resp_WorkerEventID persisted <>? eventID)
                           || (Resp_WorkerEventDigest persisted <>? digest))
            (ErrText "response frame ownership does not match its checkpoint") then
          let? actual := openPayload
            (responseEventBinding (Req_Key request) (Req_RequestID request) (Resp_Sequence persisted))
            (Resp_Data persisted) in
          check refuse_if (default "" actual <>? expected)
            (ErrText "response frame differs from deterministic Codec replay") then
          verifyPersistedFrames request events l worker eventID digest
      end
  end.

Record durableEventState := {
  durable_task : StoreTaskRecord; durable_request : StoreRequestRecord;
  durable_events : list StoreResponseEventRecord; durable_toolCallExists : bool }.

Definition identity_of (request : StoreRequestRecord) (task : StoreTaskRecord) : CompletionIdentity :=
  {| Identity_CallerID := RequestKey_Caller (Req_Key request); Identity_RequestID := Req_RequestID request;
     Identity_TaskID := TaskKey_Task (Req_Task request); Identity_WorkspaceKey := Task_WorkspaceKey task;
     Identity_IdempotencyKey := RequestKey_IdempotencyKey (Req_Key request) |}.

(** The check of the frames of one step, by the mode of the response. *)
Definition check_frames (limits : CodecLimits) (mode : ResponseMode) (l : frames) (done : bool) : res unit :=
  match mode with
  | ResponseStream => CheckStreamFrames limits l
  | _ => CheckAggregateFrames limits l done
  end.

Fixpoint contiguous (key : StoreRequestKey) (n : Z) (l : list StoreResponseEventRecord) : bool :=
  match l with
  | [] => true
  | event :: l => (Resp_Request event =?= key) && (Resp_Sequence event =? n)%Z && contiguous key (n + 1) l
  end.

Section Replay.
Context (registration : registeredCodec).
Abbreviation codec := (registered_codec registration).
Abbreviation limits := (Codec_Limits (registered_description registration)).

(** One round of the loop: the checkpoint of an event, replayed. *)
Definition replay_event (identity : CompletionIdentity) (request : StoreRequestRecord)
    (record : StoreResponseEventRecord) (encoder : Encoder_ codec) (ended : bool)
    : res (frames * bool * Encoder_ codec) :=
  check refuse_if ((Resp_Kind record <>? StoreEventCheckpoint) || is_empty (Resp_WorkerEventID record)
                   || is_empty (Resp_WorkerEventDigest record))
    (ErrText "response event history has an orphan wire frame") then
  let? checkpoint := openCheckpoint request record in
  match Checkpoint_Event checkpoint, Checkpoint_Seed checkpoint with
  | Some event, Some seed =>
      check refuse_if ((Checkpoint_Kind checkpoint <>? "event") || negb (is_none (Checkpoint_Session checkpoint))
                       || is_empty (Checkpoint_LeaseID checkpoint)
                       || negb (is_ok (validateWorkerStableKey (Checkpoint_Worker checkpoint))))
        (ErrText "response event checkpoint shape is invalid") then
      check refuse_if ((Checkpoint_Worker checkpoint <>? Resp_Worker record)
                       || (Event_ID event <>? Resp_WorkerEventID record))
        (ErrText "response event checkpoint identity mismatch") then
      check refuse_if (match workerEventDigest {| EventDelivery_ID := ""; EventDelivery_Identity := identity;
                               EventDelivery_LeaseID := Checkpoint_LeaseID checkpoint; EventDelivery_Event := event |} with
                       | Ok digest => digest <>? Resp_WorkerEventDigest record | Err _ => true end)
        (ErrText "response event checkpoint digest mismatch") then
      let? (l, done, encoder) := Encoder_Encode codec event seed encoder in
      check refuse_if (negb (Bool.eqb done (EndsResponse event)) || ended)
        (ErrText "response event terminal history is invalid") then
      check check_frames limits (Req_Mode request) l done then
      check checkPersistedFrameStep l then
      Ok (l, done, encoder)
  | _, _ => Err (ErrText "response event checkpoint shape is invalid")
  end.

(** The loop over the history; every round takes at least one record. *)
Fixpoint replay_events (fuel : nat) (identity : CompletionIdentity) (request : StoreRequestRecord)
    (encoder : Encoder_ codec) (ended : bool) (events : list StoreResponseEventRecord)
    : res (Encoder_ codec * bool) :=
  match events, fuel with
  | [], _ => Ok (encoder, ended)
  | record :: events, S fuel =>
      let? (l, done, encoder) := replay_event identity request record encoder ended in
      let? events := verifyPersistedFrames request events l (Resp_Worker record) (Resp_WorkerEventID record)
                       (Resp_WorkerEventDigest record) in
      replay_events fuel identity request encoder done events
  | _, O => Err (ErrText "out of fuel")
  end.

(** The canonical request of a record. *)
Definition open_request (request : StoreRequestRecord) : res Request :=
  let? encoded := openPayload (requestPayloadBinding (Req_Key request) (Req_RequestID request))
                    (Req_CanonicalPayload request) in
  let canonical := default "" encoded in
  let? decoded := decodeCanonicalJSON Request_json canonical in
  check Request_Validate decoded then
  check refuse_if (match Marshal Request_json decoded with Ok again => again <>? canonical | Err _ => true end)
    (ErrText "canonical request persistence is not canonical") then
  check refuse_if (match canonicalRequestDigest (registered_snapshot registration) decoded with
                   | Ok (digest, _) => digest <>? Req_RequestDigest request | Err _ => true end)
    (ErrText "canonical request digest does not match persistence") then
  Ok decoded.

(** The session checkpoint at the head of the history. *)
Definition open_session (request : StoreRequestRecord) (decoded : Request) (record : StoreResponseEventRecord)
    : res EncoderSession :=
  let? checkpoint := openCheckpoint request record in
  match Checkpoint_Session checkpoint with
  | Some session =>
      check refuse_if ((Checkpoint_Kind checkpoint <>? "session") || negb (is_none (Checkpoint_Event checkpoint))
                       || negb (is_none (Checkpoint_Seed checkpoint)) || negb (is_empty (Checkpoint_LeaseID checkpoint))
                       || negb (is_empty (Checkpoint_Worker checkpoint)))
        (ErrText "first response checkpoint is not a session") then
      check refuse_if ((Session_ResponseID session <>? Req_ResponseID request)
                       || (Session_Model session <>? Request_Model decoded)
                       || (Seed_ToolCallPolicy (Session_Seed session) <>? Request_ToolCallPolicy decoded))
        (ErrText "response session checkpoint identity mismatch") then
      check EncoderSession_Validate session then
      Ok session
  | None => Err (ErrText "first response checkpoint is not a session")
  end.

Definition newEncoder (mode : ResponseMode) (session : EncoderSession) : res (Encoder_ codec) :=
  match mode with
  | ResponseStream => Codec_NewStream codec session
  | ResponseAggregate => Codec_NewAggregate codec session
  | ResponseModeOther _ => Err (ErrText "response mode is invalid")
  end.

Definition rebuildEncoder (state : durableEventState) : res (Request * Encoder_ codec) :=
  let request := durable_request state in
  let? decoded := open_request request in
  match durable_events state with
  | [] => Err (ErrText "response session checkpoint is missing")
  | first :: rest =>
      check refuse_if ((Resp_Sequence first <>? 1%Z) || (Resp_Kind first <>? StoreEventCheckpoint)
                       || negb (is_empty (Resp_Worker first)) || negb (is_empty (Resp_WorkerEventID first))
                       || negb (is_empty (Resp_WorkerEventDigest first)))
        (ErrText "response session checkpoint is missing") then
      check refuse_if (negb (contiguous (Req_Key request) 1 (durable_events state)))
        (ErrText "response event history is not contiguous or belongs to another request") then
      let? session := open_session request decoded first in
      let? encoder := newEncoder (Req_Mode request) session in
      let? (l, encoder) := Encoder_Start codec encoder in
      check check_frames limits (Req_Mode request) l false then
      check checkPersistedFrameStep l then
      let? rest := verifyPersistedFrames request rest l "" "" "" in
      let? (encoder, ended) := replay_events (length rest) (identity_of request (durable_task state)) request
                                  encoder false rest in
      check refuse_if (Req_LastEventSequence request <>? default 0%Z (Resp_Sequence <$> last (durable_events state)))
        (ErrText "response event cursor does not match history") then
      check refuse_if (negb (Bool.eqb ended (Req_ResponseComplete request)))
        (ErrText "response terminal history does not match request state") then
      Ok (decoded, encoder)
  end.
End Replay.
End Payloads.
