(* ===== verification/LlmCommit.v ===== *)
(** * Worker deliveries of HumanLLM (llm/service_event.go, the assignment
    bookkeeping of llm/service_worker.go and service_response.go)

    [ackAssignment] and [commitWorkerEvent] as programs.  The computation that
    makes a delivery into records is apart from the transactions:
    [acceptDelivery], [encodeEvent] and [prepareCommit] are the code between
    [loadDurableEventState] and [store.Update], in its order. *)

From S2P Require Import Prelude GoText GoEncoding GoTime GoJson GoStrings GoDoc GoStruct.
From S2P Require Import AgentTypes Framework Protect LlmTypes LlmJson LlmMemory LlmLedger LlmScan LlmRuntime LlmProg LlmEvents.
From S2P Require Import LlmService.

Import Llm.
Local Open Scope string_scope.
Local Open Scope prog_scope.

(** The connection of a worker; [RunExpiry] makes one without an object. *)
Record serviceWorkerConnection := {
  conn_principal : AuthenticatedWorker; conn_object : option connectionID }.
Definition conn_worker (connection : serviceWorkerConnection) : WorkerID :=
  Worker_WorkerID (conn_principal connection).

Definition ackReceipt (delivery : WorkerEventDelivery) : WorkerEventReceipt :=
  {| EventReceipt_Delivery := EventDelivery_ID delivery; EventReceipt_EventID := Event_ID (EventDelivery_Event delivery);
     EventReceipt_Decision := WorkerEventACK; EventReceipt_Code := None; EventReceipt_Message := "" |}.
Definition nackReceipt (delivery : WorkerEventDelivery) (code : WorkerRejectionCode) (message : string)
    : WorkerEventReceipt :=
  {| EventReceipt_Delivery := EventDelivery_ID delivery; EventReceipt_EventID := Event_ID (EventDelivery_Event delivery);
     EventReceipt_Decision := WorkerEventNACK; EventReceipt_Code := Some code; EventReceipt_Message := message |}.

Definition set_event (event : Event) (delivery : WorkerEventDelivery) : WorkerEventDelivery :=
  {| EventDelivery_ID := EventDelivery_ID delivery; EventDelivery_Identity := EventDelivery_Identity delivery;
     EventDelivery_LeaseID := EventDelivery_LeaseID delivery; EventDelivery_Event := event |}.

Definition key_of (identity : CompletionIdentity) : StoreRequestKey :=
  {| RequestKey_Caller := Identity_CallerID identity; RequestKey_IdempotencyKey := Identity_IdempotencyKey identity |}.

(** A mutation for every record of a list. *)
Fixpoint insert_all {A} (insert : memoryLLMUnit -> A -> res memoryLLMState) (l : list A) (s : memoryLLMState)
    : res memoryLLMState :=
  match l with
  | [] => Ok s
  | x :: l => let? s := insert (live s) x in insert_all insert l s
  end.

(** [if !changed { return err }] behind a compare-and-swap. *)
Definition swapped (e : error) (m : res (bool * memoryLLMState)) : res memoryLLMState :=
  let? (changed, s) := m in
  check refuse_if (negb changed) e then
  Ok s.

(* ------------------------------------------------------------------ *)
(** ** Assignments *)

(** The loop of [completeAssignment]: the connection of the event, then the
    live one of the worker, which is signalled. *)
Definition completeAssignment (connection : serviceWorkerConnection) (requestID : string) (lease : WorkerLeaseID)
    : operation unit :=
  let id := stableAssignmentDeliveryID requestID lease in
  do active <- section_call (ForgetAssignment (conn_worker connection) id) in
  do _ <- match conn_object connection with
          | Some c => section_call (ForgetDelivery c id)
          | None => pure tt
          end in
  match active with
  | None => pure tt
  | Some a =>
      do _ <- (if conn_object connection =?= Some a then pure tt else section_call (ForgetDelivery a id)) in
      section_call (Signal a)
  end.

Definition ackTx (storeKey : StoreTaskKey) (lease : WorkerLease) (now : time) (u : memoryLLMUnit)
    : res (unit * memoryLLMState) :=
  let? task := ReadOp.LoadTask u storeKey in
  check refuse_if ((Task_LeaseOwner task <>? WorkerLease_Owner lease) || (Task_LeaseID task <>? WorkerLease_ID lease))
    ErrWorkerDeliveryConflict then
  if Task_State task =?= TaskAwaitingHuman then Ok (tt, unit_state u)
  else
    check refuse_if (Task_State task <>? TaskLeased) ErrWorkerDeliveryConflict then
    let next := {| Task_Key := Task_Key task; Task_WorkspaceKey := Task_WorkspaceKey task;
                   Task_CapabilityTier := Task_CapabilityTier task; Task_Codec := Task_Codec task;
                   Task_HarnessID := Task_HarnessID task; Task_HarnessVersion := Task_HarnessVersion task;
                   Task_HarnessSessionID := Task_HarnessSessionID task; Task_ExecAllowed := Task_ExecAllowed task;
                   Task_State := TaskAwaitingHuman; Task_LeaseOwner := Task_LeaseOwner task;
                   Task_LeaseID := Task_LeaseID task; Task_Revision := inc64 (Task_Revision task);
                   Task_CreatedAt := Task_CreatedAt task;
                   Task_UpdatedAt := timestampAtLeast now (Task_UpdatedAt task) |} in
    let? s := swapped ErrWorkerDeliveryIndeterminate (WriteOp.CompareAndSwapTask u
      {| TaskMutation_Key := storeKey; TaskMutation_ExpectedRevision := Task_Revision task; TaskMutation_Next := next |}) in
    Ok (tt, s).

Definition ackReconcile (storeKey : StoreTaskKey) (lease : WorkerLease) (u : memoryLLMUnit) : res unit :=
  let? task := ReadOp.LoadTask u storeKey in
  refuse_if (negb ((Task_LeaseOwner task =?= WorkerLease_Owner lease) && (Task_LeaseID task =?= WorkerLease_ID lease)
                   && (Task_State task =?= TaskAwaitingHuman))) ErrWorkerDeliveryIndeterminate.

(** [errors.Is(err, ErrStoreCommitUnknown)]: settle by reading. *)
Definition reconciled {A} (r : res A) (again : operation (res A)) : operation (res A) :=
  match r with
  | Err e => if errors_Is e ErrStoreCommitUnknown then again else pure (Err e)
  | Ok a => pure (Ok a)
  end.

Definition delivery_error {A} (id : WorkerDeliveryID) (event : string) (m : res A) : res A :=
  match m with Ok a => Ok a | Err e => Err (WorkerDeliveryError id event e) end.

Definition ackAssignment (ctx : goctx) (connection : serviceWorkerConnection) (object : connectionID)
    (deliveryID : WorkerDeliveryID) : operation (res unit) :=
  operating (
    try _ <- pure (ctx_ready ErrWorkerDelivery ctx) in
    do state <- section_call (DeliveryState object deliveryID) in
    if snd state then pure (Ok tt)
    else if negb (fst state) then pure (Err ErrWorkerDeliveryNotFound)
    else
      do found <- section_call (FindAssignment deliveryID) in
      match found with
      | None => pure (Err ErrWorkerDeliveryNotFound)
      | Some assignment =>
          let body := AssignmentDelivery_Assignment (assignment_delivery assignment) in
          let lease := Assignment_Lease body in
          if (WorkerLease_Owner lease <>? conn_worker connection) then pure (Err ErrWorkerDeliveryNotFound)
          else
            let storeKey := {| TaskKey_Caller := Identity_CallerID (Assignment_Identity body);
                               TaskKey_Task := Identity_TaskID (Assignment_Identity body) |} in
            do clock <- call Now in
            try now <- pure (checkedTime clock) in
            do committed <- update (ackTx storeKey lease now) in
            do settled <- reconciled committed (view (ackReconcile storeKey lease)) in
            try _ <- pure (delivery_error deliveryID "" settled) in
            do _ <- section_call (MarkAcked object deliveryID) in
            do _ <- section_call (SettlePending (conn_worker connection) deliveryID) in
            do _ <- section_call (Signal object) in
            pure (Ok tt)
      end).

(* ------------------------------------------------------------------ *)
(** ** Receipts and durable state *)

(** [None]: there is no receipt. *)
Definition loadWorkerReceipt (delivery : WorkerEventDelivery) : operation (res (option StoreWorkerReceiptRecord)) :=
  let key := key_of (EventDelivery_Identity delivery) in
  let event := Event_ID (EventDelivery_Event delivery) in
  do loaded <- view (fun u => ReadOp.LoadWorkerReceipt u key event) in
  pure (match loaded with
        | Err e => if errors_Is e ErrStoreRecordNotFound then Ok None else Err e
        | Ok receipt =>
            check refuse_if ((Receipt_Request receipt <>? key) || (Receipt_EventID receipt <>? event))
              (ErrText "worker receipt identity does not match its lookup key") then
            Ok (Some receipt)
        end).

Definition reconcileWorkerReceipt (want : StoreWorkerReceiptRecord) : operation (res bool) :=
  do loaded <- view (fun u => ReadOp.LoadWorkerReceipt u (Receipt_Request want) (Receipt_EventID want)) in
  pure (match loaded with
        | Err e => if errors_Is e ErrStoreRecordNotFound then Ok false else Err e
        | Ok found =>
            check refuse_if ((Receipt_Worker found <>? Receipt_Worker want)
                             || (Receipt_Digest found <>? Receipt_Digest want)) ErrWorkerDeliveryConflict then
            Ok true
        end).

(** The loop over the calls of an event: whether one was used before. *)
Fixpoint toolCallUsed (u : memoryLLMUnit) (task : StoreTaskKey) (readLimit : Z) (calls : list ToolCall) : res bool :=
  match calls with
  | [] => Ok false
  | call :: calls =>
      match ReadOp.LoadToolExecution u {| ToolKey_Task := task; ToolKey_ToolCallID := ToolCall_ID call |}
              {| ReadLimit_MaxBytes := readLimit |} with
      | Ok _ => Ok true
      | Err e => if errors_Is e ErrStoreRecordNotFound then toolCallUsed u task readLimit calls else Err e
      end
  end.

Definition durableState (readLimit : Z) (key : StoreRequestKey) (event : Event) (u : memoryLLMUnit)
    : res durableEventState :=
  let? request := ReadOp.LoadRequest u key {| ReadLimit_MaxBytes := readLimit |} in
  let? task := ReadOp.LoadTask u (Req_Task request) in
  let? used := if Event_Type event =?= EventToolCalls
               then toolCallUsed u (Req_Task request) readLimit (Event_ToolCalls event) else Ok false in
  let? events := loadResponseEvents u key readLimit in
  Ok {| durable_task := task; durable_request := request; durable_events := events; durable_toolCallExists := used |}.

Section Commit.
Context (service : Service) (ctx : goctx) (connection : serviceWorkerConnection).

Definition loadDurableEventState (delivery : WorkerEventDelivery) : operation (res durableEventState) :=
  view (durableState (service_readLimitBytes service) (key_of (EventDelivery_Identity delivery))
          (EventDelivery_Event delivery)).

(* ------------------------------------------------------------------ *)
(** ** From a delivery to its records *)

Abbreviation step A := (early WorkerEventReceipt A).

Definition failed {A} (delivery : WorkerEventDelivery) (m : res A) : step A :=
  or_return (delivery_error (EventDelivery_ID delivery) (Event_ID (EventDelivery_Event delivery)) m).
Definition nack {A} (delivery : WorkerEventDelivery) (code : WorkerRejectionCode) (message : string) : step A :=
  Err (Ok (nackReceipt delivery code message)).
Definition nack_if (bad : bool) (delivery : WorkerEventDelivery) (code : WorkerRejectionCode) (message : string)
    : step unit :=
  if bad then nack delivery code message else Ok tt.

(** A delivery that cannot be identified fails; one that can is rejected. *)
Definition identified {A} (delivery : WorkerEventDelivery) (message : string) (m : res A) : step A :=
  match m with
  | Ok a => Ok a
  | Err e =>
      if is_ok (validateWorkerStableKey (EventDelivery_ID delivery))
         && is_ok (validateWorkerEventID (Event_ID (EventDelivery_Event delivery)))
      then nack delivery WorkerRejectInvalid message
      else Err (Err e)
  end.

(** The delivery in canonical form, with its digest. *)
Definition identifyDelivery (delivery0 : WorkerEventDelivery) : step (WorkerEventDelivery * StoreDigest) :=
  let? event := identified delivery0 "worker event is not canonical JSON"
                  (normalizeCanonicalJSON Event_json (EventDelivery_Event delivery0)) in
  let delivery := set_event event delivery0 in
  let? _ := identified delivery "worker event is invalid"
              (WorkerEventDelivery_ValidateFor delivery (conn_principal connection)) in
  match workerEventDigest delivery with
  | Err _ => nack delivery WorkerRejectInvalid "worker event cannot be identified"
  | Ok digest => Ok (delivery, digest)
  end.

(** The request of a completion with its response encoder, rebuilt. *)
Record rebuiltResponse := {
  rebuilt_registration : registeredCodec; rebuilt_request : Request;
  rebuilt_encoder : Encoder_ (registered_codec rebuilt_registration) }.

Definition checkPayloadLimit (delivery : WorkerEventDelivery) : step unit :=
  nack_if (match Marshal WorkerEventDelivery_json delivery with
           | Ok encoded => (service_workerPayloadLimitBytes service <? len encoded + workerEnvelopeReserve)%Z
           | Err _ => true
           end) delivery WorkerRejectInvalid "worker event exceeds the core payload limit".

(** The guards on the durable state. *)
Definition acceptDelivery (delivery : WorkerEventDelivery) (loaded : res durableEventState)
    : step (durableEventState * rebuiltResponse) :=
  let? state := match loaded with
                | Err e => if errors_Is e ErrStoreRecordNotFound
                           then nack delivery WorkerRejectNotFound "completion is not known"
                           else failed delivery (Err e)
                | Ok state => Ok state
                end in
  let request := durable_request state in
  let task := durable_task state in
  let identity := EventDelivery_Identity delivery in
  check nack_if (Req_ResponseComplete request) delivery WorkerRejectResponseClosed "response is already closed" then
  check nack_if (Task_LeaseOwner task <>? conn_worker connection) delivery WorkerRejectStaleLease
    "completion was leased to another worker" then
  check nack_if (Task_LeaseID task <>? EventDelivery_LeaseID delivery) delivery WorkerRejectStaleLease
    "worker lease is stale" then
  check nack_if ((Req_RequestID request <>? Identity_RequestID identity)
                 || (TaskKey_Task (Req_Task request) <>? Identity_TaskID identity)
                 || (Task_WorkspaceKey task <>? Identity_WorkspaceKey identity)) delivery WorkerRejectNotFound
    "completion identity does not match" then
  check nack_if (durable_toolCallExists state) delivery WorkerRejectToolConflict
    "tool call id was already used by this task" then
  match service_codecs service !! Snapshot_ID (Req_Codec request) with
  | None => failed delivery (Err ErrInvalidCodecContract)
  | Some registration =>
      check failed delivery (refuse_if (negb (CodecSnapshot_Equal (registered_snapshot registration) (Req_Codec request)))
                               ErrInvalidCodecContract) then
      let? (decoded, encoder) := failed delivery (rebuildEncoder service ctx registration state) in
      Ok (state, {| rebuilt_registration := registration; rebuilt_request := decoded; rebuilt_encoder := encoder |})
  end.

(** The plan of the event, or its rejection. *)
Definition planDelivery (delivery : WorkerEventDelivery) (state : durableEventState) (request : Request) (now : time)
    : step Plan.plan :=
  let? planned := failed delivery (Plan.planWorkerEvent (service_toolAuthorizer service) (durable_task state) request
                                     (EventDelivery_Event delivery) now) in
  match Plan.plan_rejection planned with
  | Some code => nack delivery code "worker event conflicts with durable task state"
  | None => Ok planned
  end.

Definition checkSeed (delivery : WorkerEventDelivery) (answer : res EventSeed) : step EventSeed :=
  let? seed := failed delivery answer in
  let? seed := failed delivery (normalizeEventSeed seed) in
  check failed delivery (EventSeed_Validate seed) then
  check failed delivery (refuse_if (EventSeed_EncodedAtUnix seed <=? 0)%Z
          (ErrText "invalid EventSeed: encoded-at time must be positive")) then
  Ok seed.

(** The frames of the event, within the limits of the codec. *)
Definition encodeEvent (delivery : WorkerEventDelivery) (state : durableEventState) (rebuilt : rebuiltResponse)
    (seed : EventSeed) : step (frames * bool) :=
  let registration := rebuilt_registration rebuilt in
  let event := EventDelivery_Event delivery in
  match Encoder_Encode (registered_codec registration) event seed (rebuilt_encoder rebuilt) with
  | Err _ => nack delivery WorkerRejectInvalid "Codec rejected worker event"
  | Ok (l, done, _) =>
      check nack_if (negb (is_ok (check_frames (Codec_Limits (registered_description registration))
                                    (Req_Mode (durable_request state)) l done))
                     || negb (Bool.eqb done (EndsResponse event))) delivery WorkerRejectInvalid
        "Codec rejected the event output contract" then
      check nack_if (negb (is_ok (checkPersistedFrameStep l))) delivery WorkerRejectInvalid
        "Codec exceeded the durable event step limit" then
      Ok (l, done)
  end.

(** A payload that is too large is rejected, any other fault fails. *)
Definition sealed (delivery : WorkerEventDelivery) (message : string) (m : res string) : step string :=
  match m with
  | Ok encoded => Ok encoded
  | Err e => if errors_Is e errPersistedPayloadLimit then nack delivery WorkerRejectInvalid message
             else failed delivery (Err e)
  end.

Definition response_event (key : StoreRequestKey) (sequence : Z) (kind : StoreResponseEventKind)
    (worker : WorkerID) (event : string) (digest : StoreDigest) (data : string) (now : time)
    : StoreResponseEventRecord :=
  {| Resp_Request := key; Resp_Sequence := sequence; Resp_Kind := kind; Resp_Worker := worker;
     Resp_WorkerEventID := event; Resp_WorkerEventDigest := digest; Resp_Data := Some data; Resp_CreatedAt := now |}.

(** The wire records of a step, behind [sequence]; [sealing] is what becomes
    of a frame that cannot be sealed. *)
Fixpoint wire_records {X} (sealing : res string -> outcome X string) (key : StoreRequestKey)
    (requestID : string) (sequence : Z)
    (worker : WorkerID) (event : string) (digest : StoreDigest) (now : time) (l : frames)
    : outcome X (list StoreResponseEventRecord) :=
  match l with
  | [] => Ok []
  | frame :: l =>
      let sequence := inc64 sequence in
      let? stored := sealing (sealPayload service ctx
        (responseEventBinding key requestID sequence) (Some frame)) in
      let? rest := wire_records sealing key requestID sequence worker event digest now l in
      Ok (response_event key sequence StoreEventWire worker event digest stored now :: rest)
  end.

Definition aggregateTerminalStatus (success : Z) (event : EventType) : Z :=
  match event with
  | EventRejected => 409
  | EventExpired => 504
  | EventFailed => 500
  | EventUnavailable => 503
  | _ => success
  end.

(** What the transaction writes. *)
Record eventCommit := {
  commit_tools : list StoreToolExecutionRecord; commit_events : list StoreResponseEventRecord;
  commit_request : StoreRequestRecord; commit_task : option StoreTaskRecord; commit_receipt : StoreWorkerReceiptRecord;
  commit_done : bool }.

Definition advance_request (r : StoreRequestRecord) (sequence : Z) (completed : option time)
    (decision : StoreResponseDecision) : StoreRequestRecord :=
  {| Req_Key := Req_Key r; Req_Task := Req_Task r; Req_RequestID := Req_RequestID r; Req_ResponseID := Req_ResponseID r;
     Req_RequestDigest := Req_RequestDigest r; Req_Codec := Req_Codec r; Req_Mode := Req_Mode r;
     Req_CanonicalPayload := Req_CanonicalPayload r; Req_Decision := decision;
     Req_ResponseComplete := match completed with Some _ => true | None => Req_ResponseComplete r end;
     Req_RecoveryQuarantined := Req_RecoveryQuarantined r; Req_LastEventSequence := sequence;
     Req_Revision := inc64 (Req_Revision r); Req_CreatedAt := Req_CreatedAt r;
     Req_CompletedAt := match completed with Some at_ => Some at_ | None => Req_CompletedAt r end;
     Req_PayloadPrunedAt := Req_PayloadPrunedAt r |}.
Definition advance_task (t : StoreTaskRecord) (state : TaskState) (now : time) : StoreTaskRecord :=
  {| Task_Key := Task_Key t; Task_WorkspaceKey := Task_WorkspaceKey t; Task_CapabilityTier := Task_CapabilityTier t;
     Task_Codec := Task_Codec t; Task_HarnessID := Task_HarnessID t; Task_HarnessVersion := Task_HarnessVersion t;
     Task_HarnessSessionID := Task_HarnessSessionID t; Task_ExecAllowed := Task_ExecAllowed t; Task_State := state;
     Task_LeaseOwner := Task_LeaseOwner t; Task_LeaseID := Task_LeaseID t; Task_Revision := inc64 (Task_Revision t);
     Task_CreatedAt := Task_CreatedAt t; Task_UpdatedAt := timestampAtLeast now (Task_UpdatedAt t) |}.

(** The body of an aggregate response that ends. *)
Definition aggregateBody (delivery : WorkerEventDelivery) (request : StoreRequestRecord) (l : frames) (done : bool)
    : step bytes :=
  if done then
    let? body := sealed delivery "response body exceeds the persistence limit"
      (sealPayload service ctx (responseBodyBinding (Req_Key request) (Req_RequestID request)) (List.hd_error l)) in
    check nack_if (negb (storeRequestPayloadAllowed (blen (Req_CanonicalPayload request)) (len body)
                           (service_readLimitBytes service))) delivery WorkerRejectInvalid
      "response record exceeds the persistence limit" then
    Ok (Some body)
  else Ok None.

Definition prepareCommit (delivery : WorkerEventDelivery) (digest : StoreDigest) (state : durableEventState)
    (registration : registeredCodec) (planned : Plan.plan) (seed : EventSeed) (l : frames) (done : bool) (now : time)
    : step eventCommit :=
  let request := durable_request state in
  let task := durable_task state in
  let event := EventDelivery_Event delivery in
  let worker := conn_worker connection in
  let? checkpoint := failed delivery (Marshal encoderCheckpoint_json
    (event_checkpoint event seed (EventDelivery_LeaseID delivery) worker)) in
  let sequence := inc64 (Req_LastEventSequence request) in
  let? stored := sealed delivery "worker event exceeds the persistence limit"
    (sealPayload service ctx (responseEventBinding (Req_Key request) (Req_RequestID request) sequence) (Some checkpoint)) in
  let first := response_event (Req_Key request) sequence StoreEventCheckpoint worker (Event_ID event) digest stored now in
  let? (wires, body) :=
    if Req_Mode request =?= ResponseStream then
      let? wires := wire_records (sealed delivery "response frame exceeds the persistence limit") (Req_Key request)
                      (Req_RequestID request) sequence worker
                      (Event_ID event) digest now l in
      Ok (wires, None)
    else
      let? body := aggregateBody delivery request l done in
      Ok ([], body) in
  let last_sequence := match last wires with Some e => Resp_Sequence e | None => sequence end in
  let decision := if done && (Req_Mode request =?= ResponseAggregate)
                  then {| Decision_StatusCode := aggregateTerminalStatus (registered_success registration) (Event_Type event);
                          Decision_ContentType := registered_aggregateType registration; Decision_RetryAfter := "";
                          Decision_Body := body |}
                  else Req_Decision request in
  Ok {| commit_tools := Plan.plan_tools planned; commit_events := first :: wires;
        commit_request := advance_request request last_sequence (if done then Some now else None) decision;
        commit_task := if Plan.plan_state planned <>? Task_State task
                       then Some (advance_task task (Plan.plan_state planned) now) else None;
        commit_receipt := {| Receipt_Request := Req_Key request; Receipt_EventID := Event_ID event;
                             Receipt_Worker := worker; Receipt_Digest := digest; Receipt_CreatedAt := now |};
        commit_done := done |}.

(* ------------------------------------------------------------------ *)
(** ** The transaction *)

Definition commitTx (delivery : WorkerEventDelivery) (state : durableEventState) (prepared : eventCommit)
    (u : memoryLLMUnit) : res (unit * memoryLLMState) :=
  let request := durable_request state in
  let task := durable_task state in
  let receipt := commit_receipt prepared in
  match ReadOp.LoadWorkerReceipt u (Req_Key request) (Event_ID (EventDelivery_Event delivery)) with
  | Ok existing =>
      if (Receipt_Worker existing =?= Receipt_Worker receipt) && (Receipt_Digest existing =?= Receipt_Digest receipt)
      then Ok (tt, unit_state u) else Err ErrWorkerDeliveryConflict
  | Err e =>
      check refuse_if (negb (errors_Is e ErrStoreRecordNotFound)) e then
      let? currentRequest := ReadOp.LoadRequest u (Req_Key request)
                               {| ReadLimit_MaxBytes := service_readLimitBytes service |} in
      let? currentTask := ReadOp.LoadTask u (Task_Key task) in
      check refuse_if ((Req_Revision currentRequest <>? Req_Revision request)
                       || (Task_Revision currentTask <>? Task_Revision task) || Req_ResponseComplete currentRequest
                       || (Task_LeaseOwner currentTask <>? conn_worker connection)
                       || (Task_LeaseID currentTask <>? EventDelivery_LeaseID delivery))
        ErrWorkerDeliveryIndeterminate then
      let? s := insert_all WriteOp.InsertToolExecution (commit_tools prepared) (unit_state u) in
      let? s := insert_all WriteOp.InsertResponseEvent (commit_events prepared) s in
      let? s := match commit_task prepared with
                | None => Ok s
                | Some next => swapped ErrWorkerDeliveryIndeterminate (WriteOp.CompareAndSwapTask (live s)
                    {| TaskMutation_Key := Task_Key task; TaskMutation_ExpectedRevision := Task_Revision task;
                       TaskMutation_Next := next |})
                end in
      let? s := swapped ErrWorkerDeliveryIndeterminate (WriteOp.CompareAndSwapRequest (live s)
        {| RequestMutation_Key := Req_Key request; RequestMutation_ExpectedRevision := Req_Revision request;
           RequestMutation_Next := commit_request prepared |}) in
      let? s := WriteOp.InsertWorkerReceipt (live s) receipt in
      Ok (tt, s)
  end.

(* ------------------------------------------------------------------ *)
(** ** [commitWorkerEvent] *)

(** The wake-ups and the bookkeeping behind an acknowledgement. *)
Definition acknowledge (delivery : WorkerEventDelivery) (key : StoreRequestKey) (requestID : string) (done : bool)
    : operation (res WorkerEventReceipt) :=
  do _ <- section_call (SignalResponse key) in
  do _ <- (if done then completeAssignment connection requestID (EventDelivery_LeaseID delivery) else pure tt) in
  pure (Ok (ackReceipt delivery)).

(** A delivery whose receipt is stored. *)
Definition replayReceipt (delivery : WorkerEventDelivery) (digest : StoreDigest) (stored : StoreWorkerReceiptRecord)
    : operation (res WorkerEventReceipt) :=
  if (Receipt_Worker stored =?= conn_worker connection) && (Receipt_Digest stored =?= digest) then
    acknowledge delivery (key_of (EventDelivery_Identity delivery)) (Identity_RequestID (EventDelivery_Identity delivery))
      (EndsResponse (EventDelivery_Event delivery))
  else pure (Ok (nackReceipt delivery WorkerRejectEventConflict "event id was reused with different content")).

(** The transaction and the reconciliation of an unknown outcome. *)
Definition commitPrepared (delivery : WorkerEventDelivery) (state : durableEventState) (prepared : eventCommit)
    : operation (res WorkerEventReceipt) :=
  let key := Req_Key (durable_request state) in
  let fail := delivery_error (EventDelivery_ID delivery) (Event_ID (EventDelivery_Event delivery)) in
  do committed <- update (commitTx delivery state prepared) in
  do settled <- reconciled committed (
    do _ <- section_call (SignalResponse key) in
    do matched <- reconcileWorkerReceipt (commit_receipt prepared) in
    pure (let? matched := matched in refuse_if (negb matched) ErrWorkerDeliveryIndeterminate)) in
  match fail settled with
  | Err e => pure (Err e)
  | Ok _ => acknowledge delivery key (Req_RequestID (durable_request state)) (commit_done prepared)
  end.

Definition commitDelivery (delivery : WorkerEventDelivery) (digest : StoreDigest) : operation (res WorkerEventReceipt) :=
  do stored <- loadWorkerReceipt delivery in
  take found := failed delivery stored then
  match found with
  | Some receipt => replayReceipt delivery digest receipt
  | None =>
      take _ := checkPayloadLimit delivery then
      do loaded <- loadDurableEventState delivery in
      take (state, rebuilt) := acceptDelivery delivery loaded then
      do clock <- call Now in
      take now := failed delivery (checkedTime clock) then
      take planned := planDelivery delivery state (rebuilt_request rebuilt) now then
      do answer <- call (NewEventSeed (EventDelivery_Identity delivery) (EventDelivery_Event delivery)) in
      take seed := checkSeed delivery answer then
      take (l, done) := encodeEvent delivery state rebuilt seed then
      take prepared := prepareCommit delivery digest state (rebuilt_registration rebuilt) planned seed l done now then
      commitPrepared delivery state prepared
  end.

Definition commitWorkerEvent (delivery : WorkerEventDelivery) : operation (res WorkerEventReceipt) :=
  operating (
    take _ := or_return (R := WorkerEventReceipt) (ctx_ready ErrWorkerDelivery ctx) then
    take (delivery, digest) := identifyDelivery delivery then
    commitDelivery delivery digest).
End Commit.

(** The expiry event of a request in progress (llm/service_expiry.go). *)
Definition expiryDelivery (record : StoreRecoveryRecord) : res WorkerEventDelivery :=
  let request := Recovery_Request record in
  let? digest := expiryDigest (Req_Key request) (Req_RequestID request) in
  Ok {| EventDelivery_ID := "expiry_" ++ digest; EventDelivery_Identity := identity_of request (Recovery_Task record);
        EventDelivery_LeaseID := Task_LeaseID (Recovery_Task record);
        EventDelivery_Event := {| Event_ID := "expiry-" ++ digest; Event_Type := EventExpired; Event_WorkerID := "";
                                  Event_Text := ""; Event_ToolCalls := []; Event_ErrorCode := "human_timeout";
                                  Event_Error := "timed out waiting for a human response" |} |}.
