(* ===== verification/LlmRecovery.v ===== *)
(** * Reading and recovering responses of HumanLLM (llm/service_response.go,
    service_recovery.go)

    [readResponse] and [WaitResponse]; [recover], which makes the requests in
    progress assignments again after a restart, and [quarantineRecovery], which
    closes those that cannot be.  A context made for the reconciliation of a
    commit is that of the call without its cancellation. *)

From S2P Require Import Prelude GoText GoEncoding GoTime GoJson GoStrings GoDoc GoStruct.
From S2P Require Import AgentTypes Framework Protect LlmTypes LlmJson LlmMemory LlmLedger LlmScan LlmRuntime LlmProg LlmEvents.
From S2P Require Import LlmService LlmCommit.

Import Llm.
Local Open Scope string_scope.
Local Open Scope prog_scope.

(* ------------------------------------------------------------------ *)
(** ** Response pages (service_response.go) *)

Record ResponseDecision := {
  ResponseDecision_StatusCode : Z; ResponseDecision_ContentType : string; ResponseDecision_RetryAfter : string;
  ResponseDecision_Body : bytes }.
Record WireEvent := { Wire_Sequence : Z; Wire_Data : bytes }.
Record ResponsePage := {
  Page_Identity : CompletionIdentity; Page_RequestDigest : StoreDigest; Page_Mode : ResponseMode;
  Page_DecisionCommitted : bool; Page_Decision : ResponseDecision; Page_Complete : bool;
  Page_Events : list WireEvent; Page_Cursor : Z }.
Record ResponseQuery := {
  Query_CallerID : CallerID; Query_IdempotencyKey : IdempotencyKey; Query_RequestDigest : StoreDigest;
  Query_After : Z; Query_Limit : Z; Query_MaxBytes : Z }.

Definition query_key (query : ResponseQuery) : StoreRequestKey :=
  {| RequestKey_Caller := Query_CallerID query; RequestKey_IdempotencyKey := Query_IdempotencyKey query |}.

(** What [readResponse] reads in one transaction. *)
Record responseSnapshot := {
  snapshot_request : StoreRequestHead; snapshot_decision : StoreResponseDecision; snapshot_task : StoreTaskRecord;
  snapshot_events : list StoreResponseEventRecord }.

Definition readTx (query : ResponseQuery) (limit maxBytes : Z) (u : memoryLLMUnit) : res responseSnapshot :=
  let key := query_key query in
  let readLimit := {| ReadLimit_MaxBytes := maxBytes |} in
  let? request := ReadOp.LoadRequestHead u key in
  let? decision := ReadOp.LoadResponseDecision u key readLimit in
  let? task := ReadOp.LoadTask u (Head_Task request) in
  check refuse_if (Head_LastEventSequence request <? Query_After query)%Z ErrInvalidServiceConfig then
  let? batch := ReadOp.ScanResponseEvents u
    {| EventScan_Request := key; EventScan_After := Query_After query; EventScan_Kinds := [];
       EventScan_WorkerEventID := ""; EventScan_Limit := limit; EventScan_ReadLimit := readLimit |} in
  Ok {| snapshot_request := request; snapshot_decision := decision; snapshot_task := task; snapshot_events := batch |}.

Section Reading.
Context (service : Service) (ctx : goctx).

(** The loop over the batch: the wire events it shows. *)
Fixpoint open_wires (key : StoreRequestKey) (requestID : string) (l : list StoreResponseEventRecord) : res (list WireEvent) :=
  match l with
  | [] => Ok []
  | event :: l =>
      if Resp_Kind event =?= StoreEventWire then
        let? data := openPayload service ctx (responseEventBinding key requestID (Resp_Sequence event)) (Resp_Data event) in
        let? rest := open_wires key requestID l in
        Ok ({| Wire_Sequence := Resp_Sequence event; Wire_Data := data |} :: rest)
      else open_wires key requestID l
  end.

Definition projectResponse (query : ResponseQuery) (snapshot : responseSnapshot) : res ResponsePage :=
  let key := query_key query in
  let request := snapshot_request snapshot in
  let decision := snapshot_decision snapshot in
  check refuse_if (Head_RequestDigest request <>? Query_RequestDigest query) ErrResponseDigest then
  check refuse_if (negb (is_none (Head_PayloadPrunedAt request))) ErrReplayExpired then
  let? body := match Decision_Body decision with
               | None => Ok None
               | Some stored => openPayload service ctx (responseBodyBinding key (Head_RequestID request)) (Some stored)
               end in
  let? wires := open_wires key (Head_RequestID request) (snapshot_events snapshot) in
  let cursor := match last (snapshot_events snapshot) with Some e => Resp_Sequence e | None => Query_After query end in
  Ok {| Page_Identity :=
          {| Identity_CallerID := RequestKey_Caller (Head_Key request); Identity_RequestID := Head_RequestID request;
             Identity_TaskID := TaskKey_Task (Head_Task request);
             Identity_WorkspaceKey := Task_WorkspaceKey (snapshot_task snapshot);
             Identity_IdempotencyKey := RequestKey_IdempotencyKey (Head_Key request) |};
        Page_RequestDigest := Head_RequestDigest request; Page_Mode := Head_Mode request;
        Page_DecisionCommitted := negb (Head_DecisionStatus request =? 0)%Z;
        Page_Decision := {| ResponseDecision_StatusCode := Decision_StatusCode decision;
                            ResponseDecision_ContentType := Decision_ContentType decision;
                            ResponseDecision_RetryAfter := Decision_RetryAfter decision; ResponseDecision_Body := body |};
        Page_Complete := Head_ResponseComplete request
          && ((Head_Mode request =?= ResponseAggregate) || (cursor =? Head_LastEventSequence request)%Z);
        Page_Events := wires; Page_Cursor := cursor |}.

(** The checks before the transaction: the limits of the page. *)
Definition checkQuery (query : ResponseQuery) : res (Z * Z) :=
  check ctx_ready ErrInvalidServiceConfig ctx then
  check validateWorkerStableKey (Query_CallerID query) then
  check validateWorkerStableKey (Query_IdempotencyKey query) then
  check refuse_if (is_empty (Query_RequestDigest query)) ErrResponseDigest then
  let limit := if (Query_Limit query =? 0)%Z then defaultResponseLimit else Query_Limit query in
  check refuse_if ((limit <? 1) || (maximumResponseLimit <? limit))%Z ErrInvalidServiceConfig then
  let maxBytes := if (Query_MaxBytes query =? 0)%Z then service_readLimitBytes service else Query_MaxBytes query in
  check refuse_if ((maxBytes <? 1) || (service_readLimitBytes service <? maxBytes))%Z ErrInvalidServiceConfig then
  Ok (limit, maxBytes).

(** [readResponse] without an operation of its own. *)
Definition readResponse (query : ResponseQuery) : operation (res ResponsePage) :=
  match checkQuery query with
  | Err e => pure (Err e)
  | Ok (limit, maxBytes) =>
      do loaded <- view (readTx query limit maxBytes) in
      pure (match loaded with
            | Err e => if errors_Is e ErrStoreRecordNotFound then Err ErrResponseNotFound else Err e
            | Ok snapshot => projectResponse query snapshot
            end)
  end.

Definition ReadResponse (query : ResponseQuery) : operation (res ResponsePage) := operating (readResponse query).

(** One round of the wait. *)
Definition waitRound (query : ResponseQuery) (_ : unit) : operation (unit + res ResponsePage) :=
  let key := query_key query in
  do ready <- section_call (ResponseSignal key) in
  do page <- readResponse query in
  match page with
  | Err e => do _ <- section_call (ReleaseSignal key ready) in pure (inr (Err e))
  | Ok page =>
      if (Query_After query <? Page_Cursor page)%Z || Page_Complete page
         || ((Query_After query =? 0)%Z && Page_DecisionCommitted page)
      then do _ <- section_call (ReleaseSignal key ready) in pure (inr (Ok page))
      else
        do waited <- call (AwaitSignal ready) in
        do _ <- section_call (ReleaseSignal key ready) in
        match waited with
        | None => pure (inl tt)
        | Some e => pure (inr (Err e))
        end
  end.

Definition WaitResponse (query : ResponseQuery) : operation (res ResponsePage) :=
  operating (
    match ctx with
    | NilContext => pure (Err ErrInvalidServiceConfig)
    | Context _ => Looping (waitRound query) tt (fun r => pure r)
    end).

(* ------------------------------------------------------------------ *)
(** ** Recovery (service_recovery.go) *)

Definition taskContextFromRecord (task : StoreTaskRecord) : TaskContext :=
  let context := normalizeTaskContext
    {| TaskContext_TaskID := ""; TaskContext_WorkspaceKey := Task_WorkspaceKey task;
       TaskContext_CapabilityTier := Task_CapabilityTier task; TaskContext_HarnessID := Task_HarnessID task;
       TaskContext_HarnessVersion := Task_HarnessVersion task; TaskContext_HarnessSessionID := Task_HarnessSessionID task;
       TaskContext_ExecAllowed := Task_ExecAllowed task |} in
  if TaskContext_CapabilityTier context =?= TierChat then context
  else {| TaskContext_TaskID := TaskKey_Task (Task_Key task); TaskContext_WorkspaceKey := TaskContext_WorkspaceKey context;
          TaskContext_CapabilityTier := TaskContext_CapabilityTier context;
          TaskContext_HarnessID := TaskContext_HarnessID context;
          TaskContext_HarnessVersion := TaskContext_HarnessVersion context;
          TaskContext_HarnessSessionID := TaskContext_HarnessSessionID context;
          TaskContext_ExecAllowed := TaskContext_ExecAllowed context |}.

(** [service.addAssignment]. *)
Definition addAssignmentTo (key : StoreRequestKey) (delivery : WorkerAssignmentDelivery) (pending : bool)
    (createdAt : time) : operation unit :=
  do connection <- section_call (AddAssignment key delivery pending createdAt) in
  match connection with
  | Some id => section_call (Signal id)
  | None => pure tt
  end.

Record recoveryReceiptExpectation := {
  expected_eventID : string; expected_worker : WorkerID; expected_digest : StoreDigest }.

Fixpoint receiptExpectations (request : StoreRequestRecord) (seen : list string) (l : list StoreResponseEventRecord)
    : res (list recoveryReceiptExpectation) :=
  match l with
  | [] => Ok []
  | record :: l =>
      let id := Resp_WorkerEventID record in
      if (Resp_Kind record <>? StoreEventCheckpoint) || is_empty id then receiptExpectations request seen l
      else
        check refuse_if (bool_decide (id ∈ seen)) (ErrText "worker event appears more than once in response history") then
        let? checkpoint := openCheckpoint service ctx request record in
        check refuse_if (is_empty (Checkpoint_Worker checkpoint) || (Resp_Worker record <>? Checkpoint_Worker checkpoint)
                         || match Checkpoint_Event checkpoint with
                            | None => true | Some event => Event_ID event <>? id end
                         || is_empty (Resp_WorkerEventDigest record))
          (ErrText "worker event has no durable ownership proof") then
        let? rest := receiptExpectations request (id :: seen) l in
        Ok ({| expected_eventID := id; expected_worker := Checkpoint_Worker checkpoint;
               expected_digest := Resp_WorkerEventDigest record |} :: rest)
  end.

Fixpoint expectReceipts (key : StoreRequestKey) (l : list recoveryReceiptExpectation) (u : memoryLLMUnit) : res unit :=
  match l with
  | [] => Ok tt
  | expected :: l =>
      let? receipt := match ReadOp.LoadWorkerReceipt u key (expected_eventID expected) with
                      | Ok receipt => Ok receipt
                      | Err e => Err (if errors_Is e ErrStoreRecordNotFound
                                      then ErrText "worker event is missing its durable receipt" else e)
                      end in
      check refuse_if ((Receipt_Request receipt <>? key) || (Receipt_EventID receipt <>? expected_eventID expected)
                       || (Receipt_Worker receipt <>? expected_worker expected)
                       || (Receipt_Digest receipt <>? expected_digest expected))
        (ErrText "worker event receipt does not match its durable checkpoint") then
      expectReceipts key l u
  end.

Definition validateRecoveryReceipts (request : StoreRequestRecord) (events : list StoreResponseEventRecord)
    : operation (res unit) :=
  match receiptExpectations request [] events with
  | Err e => pure (Err e)
  | Ok expectations => view (expectReceipts (Req_Key request) expectations)
  end.

(** The guards of [recoverRequest] before it reads the history. *)
Definition recoverable (record : StoreRecoveryRecord) : res registeredCodec :=
  let request := Recovery_Request record in
  let task := Recovery_Task record in
  check refuse_if (Req_RecoveryQuarantined request || negb (is_none (Req_PayloadPrunedAt request)))
    (ErrText "in-flight request is quarantined or tombstoned") then
  check refuse_if ((Task_Key task <>? Req_Task request) || is_empty (Task_LeaseOwner task) || is_empty (Task_LeaseID task))
    (ErrText "in-flight request has no valid durable lease") then
  check refuse_if (Req_ResponseComplete request) (ErrText "complete response has an unacknowledged worker event") then
  match service_codecs service !! Snapshot_ID (Req_Codec request) with
  | Some registration =>
      check refuse_if (negb (CodecSnapshot_Equal (registered_snapshot registration) (Req_Codec request))
                       || negb (CodecSnapshot_Equal (Task_Codec task) (Req_Codec request)))
        (ErrText "persisted Codec identity is not registered exactly") then
      Ok registration
  | None => Err (ErrText "persisted Codec identity is not registered exactly")
  end.

(** The assignment of a request in progress, checked as at admission. *)
Definition recoveredAssignment (record : StoreRecoveryRecord) (request : Request) : res WorkerAssignmentDelivery :=
  let stored := Recovery_Request record in
  let task := Recovery_Task record in
  check refuse_if ((Req_Mode stored =?= ResponseStream) && (Decision_StatusCode (Req_Decision stored) =? 0)%Z)
    (ErrText "streaming request lacks its durable response decision") then
  let delivery :=
    {| AssignmentDelivery_ID := stableAssignmentDeliveryID (Req_RequestID stored) (Task_LeaseID task);
       AssignmentDelivery_Assignment :=
         {| Assignment_Identity := identity_of stored task;
            Assignment_Lease := {| WorkerLease_ID := Task_LeaseID task; WorkerLease_Owner := Task_LeaseOwner task |};
            Assignment_Boundary := if Req_Mode stored =?= ResponseStream then AssignmentAfterResponse
                                   else AssignmentAfterAdmission;
            Assignment_Task := taskContextFromRecord task; Assignment_Request := request |} |} in
  check WorkerAssignmentDelivery_ValidateFor delivery
    {| Worker_WorkerID := Task_LeaseOwner task; Worker_SessionID := assignmentValidationSession |} then
  let? encoded := Marshal WorkerAssignmentDelivery_json delivery in
  check refuse_if (service_workerPayloadLimitBytes service <? len encoded + workerEnvelopeReserve)%Z
    (ErrText "recovered worker assignment exceeds the current payload limit") then
  Ok delivery.

Definition recoverRequest (record : StoreRecoveryRecord) : operation (res unit) :=
  let stored := Recovery_Request record in
  match recoverable record with
  | Err e => pure (Err e)
  | Ok registration =>
      do loaded <- view (fun u => loadResponseEvents u (Req_Key stored) (service_readLimitBytes service)) in
      match loaded with
      | Err e => pure (Err e)
      | Ok events =>
          match rebuildEncoder service ctx registration
                  {| durable_task := Recovery_Task record; durable_request := stored; durable_events := events;
                     durable_toolCallExists := false |} with
          | Err e => pure (Err e)
          | Ok (request, _) =>
              try _ <- validateRecoveryReceipts stored events in
              match recoveredAssignment record request with
              | Err e => pure (Err e)
              | Ok delivery =>
                  match Task_State (Recovery_Task record) with
                  | TaskLeased =>
                      do _ <- addAssignmentTo (Req_Key stored) delivery true (Req_CreatedAt stored) in pure (Ok tt)
                  | TaskAwaitingHuman =>
                      do _ <- addAssignmentTo (Req_Key stored) delivery false (Req_CreatedAt stored) in pure (Ok tt)
                  | _ => pure (refuse_if (negb (Req_ResponseComplete stored))
                                 (ErrText "incomplete response has incompatible task state"))
                  end
              end
          end
      end
  end.

(* ------------------------------------------------------------------ *)
(** ** Quarantine *)

Definition recoveryFailure : AdmissionFailure :=
  {| Failure_Status := 500; Failure_Code := "recovery_failed";
     Failure_Message := "HumanLLM could not safely recover this response" |}.

(** The body of the failure and its content type. *)
Definition recoveryBody (request : StoreRequestRecord) : string * string :=
  let default_body := write (DObj [("error", DObj [("code", jstr (Failure_Code recoveryFailure));
                                                   ("message", jstr (Failure_Message recoveryFailure))])]) in
  match service_codecs service !! Snapshot_ID (Req_Codec request) with
  | Some registration =>
      if CodecSnapshot_Equal (registered_snapshot registration) (Req_Codec request) then
        (match Codec_AdmissionError (registered_codec registration) recoveryFailure with
         | Ok encoded =>
             if is_ok (CheckAdmissionError (Codec_Limits (registered_description registration)) encoded)
             then encoded else default_body
         | Err _ => default_body
         end, registered_aggregateType registration)
      else (default_body, "application/json")
  | None => (default_body, "application/json")
  end.

Definition recoveryEvent (request : StoreRequestRecord) : Event :=
  {| Event_ID := "recovery-" ++ Req_RequestID request; Event_Type := EventFailed; Event_WorkerID := ""; Event_Text := "";
     Event_ToolCalls := []; Event_ErrorCode := Failure_Code recoveryFailure;
     Event_Error := Failure_Message recoveryFailure |}.

(** Best effort: the frames of a failed terminal, or none. *)
Definition recoveryTerminalFrames (record : StoreRecoveryRecord) : operation frames :=
  let stored := Recovery_Request record in
  match service_codecs service !! Snapshot_ID (Req_Codec stored) with
  | None => pure []
  | Some registration =>
      if negb (CodecSnapshot_Equal (registered_snapshot registration) (Req_Codec stored)) then pure []
      else
        do loaded <- view (fun u => loadResponseEvents u (Req_Key stored) (service_readLimitBytes service)) in
        match loaded with
        | Err _ => pure []
        | Ok events =>
            match rebuildEncoder service ctx registration
                    {| durable_task := Recovery_Task record; durable_request := stored; durable_events := events;
                       durable_toolCallExists := false |} with
            | Err _ => pure []
            | Ok (_, encoder) =>
                let event := recoveryEvent stored in
                do answer <- call (NewEventSeed (identity_of stored (Recovery_Task record)) event) in
                pure (match (let? seed := answer in
                             let? seed := normalizeEventSeed seed in
                             check EventSeed_Validate seed then
                             check refuse_if (EventSeed_EncodedAtUnix seed <=? 0)%Z json_error then
                             Encoder_Encode (registered_codec registration) event seed encoder) with
                      | Err _ => []
                      | Ok (l, done, _) =>
                          if negb done
                             || negb (is_ok (CheckStreamFrames (Codec_Limits (registered_description registration)) l))
                             || negb (is_ok (checkPersistedFrameStep l)) then [] else l
                      end)
            end
        end
  end.

Definition quarantine_checkpoint : string :=
  write (DObj [("version", DLit "1"); ("kind", jstr "quarantine"); ("code", jstr "recovery_failed")]).

(** The events of the terminal, or none when they do not fit the limit. *)
Definition quarantineEvents (request : StoreRequestRecord) (l : frames) (now : time)
    : res (list StoreResponseEventRecord) :=
  let limited (m : res string) : outcome (option error) string :=
    match m with
    | Ok encoded => Ok encoded
    | Err e => Err (if errors_Is e errPersistedPayloadLimit then None else Some e)
    end in
  if is_nil l then Ok []
  else
    let sequence := inc64 (Req_LastEventSequence request) in
    match (let? stored := limited (sealPayload service ctx
             (responseEventBinding (Req_Key request) (Req_RequestID request) sequence) (Some quarantine_checkpoint)) in
           let? wires := wire_records service ctx limited (Req_Key request) (Req_RequestID request) sequence "" "" "" now l in
           Ok (response_event (Req_Key request) sequence StoreEventCheckpoint "" "" "" stored now :: wires)) with
    | Ok events => Ok events
    | Err None => Ok []
    | Err (Some e) => Err e
    end.

Definition quarantined (r : StoreRequestRecord) (sequence : Z) (completed : option time)
    (decision : StoreResponseDecision) : StoreRequestRecord :=
  let r' := advance_request r sequence completed decision in
  {| Req_Key := Req_Key r'; Req_Task := Req_Task r'; Req_RequestID := Req_RequestID r';
     Req_ResponseID := Req_ResponseID r'; Req_RequestDigest := Req_RequestDigest r'; Req_Codec := Req_Codec r';
     Req_Mode := Req_Mode r'; Req_CanonicalPayload := Req_CanonicalPayload r'; Req_Decision := Req_Decision r';
     Req_ResponseComplete := Req_ResponseComplete r'; Req_RecoveryQuarantined := true;
     Req_LastEventSequence := Req_LastEventSequence r'; Req_Revision := Req_Revision r';
     Req_CreatedAt := Req_CreatedAt r'; Req_CompletedAt := Req_CompletedAt r';
     Req_PayloadPrunedAt := Req_PayloadPrunedAt r' |}.

(** A stream whose decision was made is closed by its events. *)
Definition streaming (request : StoreRequestRecord) : bool :=
  (Req_Mode request =?= ResponseStream) && negb (Decision_StatusCode (Req_Decision request) =? 0)%Z.

(** The events and the request of the quarantine. *)
Definition prepareQuarantine (request : StoreRequestRecord) (l : frames) (now : time)
    : res (list StoreResponseEventRecord * StoreRequestRecord) :=
  let same := Req_LastEventSequence request in
  if Req_ResponseComplete request then Ok ([], quarantined request same None (Req_Decision request))
  else if streaming request then
    let? events := quarantineEvents request l now in
    Ok (events, quarantined request (match last events with Some e => Resp_Sequence e | None => same end)
                  (Some now) (Req_Decision request))
  else
    let (body, contentType) := recoveryBody request in
    let? stored := match sealPayload service ctx (responseBodyBinding (Req_Key request) (Req_RequestID request)) (Some body) with
                   | Ok stored => Ok (Some stored)
                   | Err e => if errors_Is e errPersistedPayloadLimit then Ok None else Err e
                   end in
    let allowed := storeRequestPayloadAllowed (blen (Req_CanonicalPayload request)) (blen stored)
                     (service_readLimitBytes service) in
    Ok ([], quarantined request same (Some now)
              {| Decision_StatusCode := Failure_Status recoveryFailure; Decision_ContentType := contentType;
                 Decision_RetryAfter := ""; Decision_Body := if allowed then stored else None |}).

Definition quarantineTx (record : StoreRecoveryRecord) (events : list StoreResponseEventRecord)
    (nextRequest : StoreRequestRecord) (nextTask : option StoreTaskRecord) (u : memoryLLMUnit)
    : res (unit * memoryLLMState) :=
  let request := Recovery_Request record in
  let task := Recovery_Task record in
  let? currentRequest := ReadOp.LoadRequest u (Req_Key request) {| ReadLimit_MaxBytes := maximumRecoveryReadLimitBytes |} in
  if Req_RecoveryQuarantined currentRequest && Req_ResponseComplete currentRequest then Ok (tt, unit_state u)
  else
    check refuse_if (Req_Revision currentRequest <>? Req_Revision request) ErrWorkerDeliveryIndeterminate then
    let? s := match nextTask with
              | None => Ok (unit_state u)
              | Some next =>
                  let? currentTask := ReadOp.LoadTask u (Task_Key task) in
                  check refuse_if (Task_Revision currentTask <>? Task_Revision task) ErrWorkerDeliveryIndeterminate then
                  swapped ErrWorkerDeliveryIndeterminate (WriteOp.CompareAndSwapTask u
                    {| TaskMutation_Key := Task_Key task; TaskMutation_ExpectedRevision := Task_Revision task;
                       TaskMutation_Next := next |})
              end in
    let? s := insert_all WriteOp.InsertResponseEvent events s in
    let? s := swapped ErrWorkerDeliveryIndeterminate (WriteOp.CompareAndSwapRequest (live s)
      {| RequestMutation_Key := Req_Key request; RequestMutation_ExpectedRevision := Req_Revision request;
         RequestMutation_Next := nextRequest |}) in
    Ok (tt, s).

Definition quarantineSettled (key : StoreRequestKey) (u : memoryLLMUnit) : res unit :=
  let? head := ReadOp.LoadRequestHead u key in
  refuse_if (negb (Head_RecoveryQuarantined head) || negb (Head_ResponseComplete head)) ErrWorkerDeliveryIndeterminate.

Definition quarantineRecovery (record : StoreRecoveryRecord) (cause : error) : operation (res unit) :=
  let request := Recovery_Request record in
  let task := Recovery_Task record in
  if Req_ResponseComplete request && Req_RecoveryQuarantined request then pure (Ok tt)
  else
    do clock <- call Now in
    try now <- pure (checkedTime clock) in
    do l <- (if negb (Req_ResponseComplete request) && streaming request then recoveryTerminalFrames record else pure []) in
    match prepareQuarantine request l now with
    | Err e => pure (Err e)
    | Ok (events, nextRequest) =>
        let nextTask := if TaskState_Terminal (Task_State task) then None else Some (advance_task task TaskFailed now) in
        do committed <- update (quarantineTx record events nextRequest nextTask) in
        do settled <- reconciled committed (view (quarantineSettled (Req_Key request))) in
        pure (match settled with Ok _ => Ok tt | Err e => Err (Join e cause) end)
    end.

(** The loop over one batch. *)
Fixpoint recoverBatch (l : list StoreRecoveryRecord) : operation (res unit) :=
  match l with
  | [] => pure (Ok tt)
  | record :: l =>
      do recovered <- recoverRequest record in
      match recovered with
      | Ok _ => recoverBatch l
      | Err e => try _ <- quarantineRecovery record e in recoverBatch l
      end
  end.

Definition recovery_cursor (request : StoreRequestRecord) : StoreRecoveryCursor :=
  {| RecoveryCursor_CreatedAt := Req_CreatedAt request; RecoveryCursor_Caller := RequestKey_Caller (Req_Key request);
     RecoveryCursor_IdempotencyKey := RequestKey_IdempotencyKey (Req_Key request) |}.
Definition recovery_scan (cursor : option StoreRecoveryCursor) (limit : Z) : StoreRecoveryScan :=
  {| RecoveryScan_After := cursor; RecoveryScan_Limit := limit;
     RecoveryScan_ReadLimit := {| ReadLimit_MaxBytes := maximumRecoveryReadLimitBytes |} |}.

Definition recoverRound (cursor : option StoreRecoveryCursor)
    : operation (option StoreRecoveryCursor + res unit) :=
  do loaded <- view (fun u => ReadOp.ScanRecovery u (recovery_scan cursor defaultResponseLimit)) in
  match loaded with
  | Err e => pure (inr (Err e))
  | Ok batch =>
      match last batch with
      | None => pure (inr (Ok tt))
      | Some record =>
          do done <- recoverBatch batch in
          pure (match done with
                | Ok _ => inl (Some (recovery_cursor (Recovery_Request record)))
                | Err e => inr (Err e)
                end)
      end
  end.

Definition recover : operation (res unit) := Looping recoverRound None (fun r => pure r).
End Reading.
