(* ===== verification/LlmAdmission.v ===== *)
(** * Admission of HumanLLM requests (llm/service_admission.go)

    [Admit] as a program.  The computations between its calls are definitions
    of their own, in the order of the code: [decodeRequest], [planTask],
    [draftResponse], [draftAssignment], [admissionRecords].  The attributes of
    a caller are handed to the policy and the router only and are not modelled;
    neither is telemetry. *)

From S2P Require Import Prelude GoText GoEncoding GoTime GoJson GoStrings GoDoc GoStruct.
From S2P Require Import AgentTypes Framework Protect LlmTypes LlmJson LlmMemory LlmLedger LlmScan LlmRuntime LlmProg LlmEvents.
From S2P Require Import LlmService LlmCommit LlmRecovery.

Import Llm.
Local Open Scope string_scope.
Local Open Scope prog_scope.

Record AdmissionRequest := {
  Admission_CallerID : CallerID; Admission_IdempotencyKey : IdempotencyKey; Admission_CodecID : CodecID;
  Admission_Body : string; Admission_Task : TaskContext }.
Record AdmissionResult := {
  Result_Identity : CompletionIdentity; Result_RequestDigest : StoreDigest; Result_Replay : bool;
  Result_Response : ResponsePage }.

Record toolResultMutation := { result_current : StoreToolExecutionRecord; result_next : StoreToolExecutionRecord }.
(** [preempted] is the request to supersede when [preempt]. *)
Record admissionTaskPlan := {
  plan_existing : bool; plan_preempted : option StoreRequestHead; plan_task : option StoreTaskRecord;
  plan_results : list toolResultMutation }.
Definition no_plan : admissionTaskPlan :=
  {| plan_existing := false; plan_preempted := None; plan_task := None; plan_results := [] |}.
Record submittedToolResult := { submitted_data : string; submitted_isError : bool }.

#[export] Instance submittedToolResult_eq_dec : EqDecision submittedToolResult.
Proof. solve_decision. Defined.

(** [parseRetryAfter] of a duration in nanoseconds. *)
Definition parseRetryAfter (duration : Z) : string :=
  if (duration <=? 0)%Z then "" else print_Z (Z.quot (wrap64 (duration + 999999999)) 1000000000).

Definition validGeneratedID (value : string) : res unit :=
  refuse_if (negb (workerStableKeyPattern value)) (ErrText "IDSource returned an invalid id").

Definition sameTaskContext (record : StoreTaskRecord) (input : TaskContext) : bool :=
  (Task_WorkspaceKey record =?= TaskContext_WorkspaceKey input)
  && (Task_CapabilityTier record =?= TaskContext_CapabilityTier input)
  && (Task_HarnessID record =?= TaskContext_HarnessID input)
  && (Task_HarnessVersion record =?= TaskContext_HarnessVersion input)
  && (Task_HarnessSessionID record =?= TaskContext_HarnessSessionID input)
  && Bool.eqb (Task_ExecAllowed record) (TaskContext_ExecAllowed input).

(* ------------------------------------------------------------------ *)
(** ** Submitted tool results *)

Definition tool_results : Type := gmap ToolCallID submittedToolResult * gset ToolCallID.

(** One block of the request. *)
Definition submit_block (found : tool_results) (block : Block) : tool_results :=
  let (results, conflicted) := found in
  let id := Block_ToolCallID block in
  if (Block_Type block <>? BlockToolResult) || is_empty id then found
  else match write <$> encode_value (Block_Output block) with
       | None => found
       | Some encoded =>
           if bool_decide (id ∈ conflicted) then found
           else
             let candidate := {| submitted_data := encoded; submitted_isError := Block_IsError block |} in
             match results !! id with
             | Some existing =>
                 if existing <>? candidate then (delete id results, {[id]} ∪ conflicted)
                 else (<[id := candidate]> results, conflicted)
             | None => (<[id := candidate]> results, conflicted)
             end
       end.

Definition extractSubmittedToolResults (request : Request) : gmap ToolCallID submittedToolResult :=
  fst (fold_left (fun found message => fold_left submit_block (Message_Blocks message) found)
         (Request_Messages request) (∅, ∅)).

(* ------------------------------------------------------------------ *)
(** ** The plan for the Task *)

Section Admission.
Context (service : Service) (ctx : goctx).

(** The transaction of [planAdmissionTask]: the Task, if there is one, and its
    tool executions when it awaits their results. *)
Definition planTx (key : StoreTaskKey) (u : memoryLLMUnit)
    : res (option StoreTaskRecord * list StoreToolExecutionRecord) :=
  match ReadOp.LoadTask u key with
  | Err e => if errors_Is e ErrStoreRecordNotFound then Ok (None, []) else Err e
  | Ok task =>
      let? tools := if Task_State task =?= TaskAwaitingResults
                    then loadToolExecutions u key None (service_readLimitBytes service) else Ok [] in
      Ok (Some task, tools)
  end.

(** The loop over the executions that await a result. *)
Fixpoint plan_tool_results (results : gmap ToolCallID submittedToolResult) (l : list StoreToolExecutionRecord)
    : res (list toolResultMutation) :=
  match l with
  | [] => Ok []
  | execution :: l =>
      if (Exec_State execution <>? ToolExecutionPending) then plan_tool_results results l
      else match results !! ToolKey_ToolCallID (Exec_Key execution) with
           | None => Err ErrTaskConflict
           | Some submitted =>
               let? sealed := sealPayload service ctx (toolResultBinding (Exec_Key execution))
                                (Some (submitted_data submitted)) in
               let? rest := plan_tool_results results l in
               Ok ({| result_current := execution;
                      result_next := {| Exec_Key := Exec_Key execution; Exec_InputDigest := Exec_InputDigest execution;
                                        Exec_State := ToolExecutionCompleted; Exec_Result := Some sealed;
                                        Exec_IsError := submitted_isError submitted; Exec_Revision := Exec_Revision execution;
                                        Exec_CreatedAt := Exec_CreatedAt execution;
                                        Exec_CompletedAt := Exec_CompletedAt execution;
                                        Exec_ResultPrunedAt := Exec_ResultPrunedAt execution |} |} :: rest)
           end
  end.

Definition existing_plan (task : StoreTaskRecord) (preempted : option StoreRequestHead) (results : list toolResultMutation)
    : admissionTaskPlan :=
  {| plan_existing := true; plan_preempted := preempted; plan_task := Some task; plan_results := results |}.

(** [planAdmissionTask]. *)
Definition planTask (key : StoreTaskKey) (input : TaskContext) (codec : CodecSnapshot) (request : Request)
    : operation (res admissionTaskPlan) :=
  if TaskContext_CapabilityTier input =?= TierChat then pure (Ok no_plan)
  else
    try (found, tools) <- view (planTx key) in
    match found with
    | None => pure (Ok no_plan)
    | Some task =>
        if negb (sameTaskContext task input) || negb (CodecSnapshot_Equal (Task_Codec task) codec)
        then pure (Err ErrTaskConflict)
        else match Task_State task with
             | TaskAwaitingCaller => pure (Ok (existing_plan task None []))
             | TaskAwaitingResults =>
                 pure (let? results := plan_tool_results (extractSubmittedToolResults request) tools in
                       check refuse_if (is_nil results) ErrTaskConflict then
                       Ok (existing_plan task None results))
             | state =>
                 if TaskState_Terminal state then pure (Err ErrTaskConflict)
                 else
                   do found <- view (fun u => ReadOp.FindActiveRequest u key) in
                   match found with
                   | Err _ => pure (Err ErrTaskConflict)
                   | Ok head =>
                       if Head_ResponseComplete head then pure (Err ErrTaskConflict)
                       else
                         do gone <- section_call (CallerDetached key head) in
                         pure (if gone then Ok (existing_plan task (Some head) []) else Err ErrTaskConflict)
                   end
             end
    end.

Definition routeAdmission (input : AdmissionRequest) (request : Request) (taskID : TaskID) (plan : admissionTaskPlan)
    : operation (res WorkerID) :=
  let owner := match plan_task plan with Some task => Task_LeaseOwner task | None => "" end in
  if plan_existing plan && negb (is_empty owner) then pure (Ok owner)
  else
    do candidates <- section_call ConnectedWorkers in
    if negb (service_hasRouter service) then
      pure (match candidates with
            | [] => Err ErrWorkerUnavailable
            | [worker] => Ok worker
            | _ => Err ErrWorkerRouterRequired
            end)
    else
      try worker <- call (RouteWorker
        {| Route_CallerID := Admission_CallerID input; Route_IdempotencyKey := Admission_IdempotencyKey input;
           Route_TaskID := taskID; Route_Request := request; Route_Task := Admission_Task input;
           Route_Candidates := candidates |}) in
      pure (match validateWorkerStableKey worker with
            | Ok _ => Ok worker
            | Err _ => Err (if is_empty worker then ErrWorkerUnavailable else ErrWorkerRouteDenied)
            end).

Definition allocateID (kind : IDKind) : operation (res string) :=
  do answer <- call (NewID kind) in
  pure (let? value := answer in check validGeneratedID value then Ok value).

(* ------------------------------------------------------------------ *)
(** ** Failures *)

Definition admissionFailure (codecID : CodecID) (failure : AdmissionFailure) (retryAfter : Z) (cause : error) : error :=
  match service_codecs service !! codecID with
  | None => cause
  | Some registration =>
      match (check AdmissionFailure_Validate failure then
             let? body := Codec_AdmissionError (registered_codec registration) failure in
             check CheckAdmissionError (Codec_Limits (registered_description registration)) body then
             Ok body) with
      | Err e => Join cause e
      | Ok body => AdmissionError failure (registered_aggregateType registration) (parseRetryAfter retryAfter) body cause
      end
  end.

Definition failure_of (status : Z) (code message : string) : AdmissionFailure :=
  {| Failure_Status := status; Failure_Code := code; Failure_Message := message |}.

Definition internalAdmissionError (codec : CodecID) (cause : error) : error :=
  admissionFailure codec (failure_of 500 "internal_error" "HumanLLM could not admit the request") 0 cause.

(** [if err != nil { return AdmissionResult{}, … }]. *)
Abbreviation step A := (early AdmissionResult A).
Definition refused {A} (f : error -> error) (m : res A) : step A :=
  match m with Ok a => Ok a | Err e => Err (Err (f e)) end.
Definition denied {A} (codec : CodecID) (status : Z) (code message : string) (m : res A) : step A :=
  refused (admissionFailure codec (failure_of status code message) 0) m.
Definition internal {A} (codec : CodecID) (m : res A) : step A := refused (internalAdmissionError codec) m.

(* ------------------------------------------------------------------ *)
(** ** From the body to the canonical request *)

Definition set_task (task : TaskContext) (input : AdmissionRequest) : AdmissionRequest :=
  {| Admission_CallerID := Admission_CallerID input; Admission_IdempotencyKey := Admission_IdempotencyKey input;
     Admission_CodecID := Admission_CodecID input; Admission_Body := Admission_Body input; Admission_Task := task |}.

Record decodedRequest := {
  decoded_input : AdmissionRequest; decoded_registration : registeredCodec; decoded_request : Request;
  decoded_digest : StoreDigest; decoded_canonical : string }.

Definition decodeRequest (input0 : AdmissionRequest) : step decodedRequest :=
  let codec := Admission_CodecID input0 in
  check denied codec 400 "invalid_caller" "caller identity is invalid" (validateWorkerStableKey (Admission_CallerID input0)) then
  check denied codec 400 "invalid_idempotency_key" "idempotency key is invalid"
    (validateWorkerStableKey (Admission_IdempotencyKey input0)) then
  match service_codecs service !! codec with
  | None => Err (Err ErrInvalidServiceConfig)
  | Some registration =>
      let input := set_task (normalizeTaskContext (Admission_Task input0)) input0 in
      check denied codec 400 "invalid_task" "task identity is invalid" (validateTaskContext (Admission_Task input)) then
      check denied codec 413 "request_too_large" "request body exceeds the Codec limit"
        (CheckRequestSize (Codec_Limits (registered_description registration)) (len (Admission_Body input))) then
      let? request := denied codec 400 "invalid_request" "request body is invalid"
        (Codec_Decode (registered_codec registration) (Admission_Body input)) in
      let? request := denied codec 400 "invalid_request" "decoded request is not canonical JSON"
        (normalizeCanonicalJSON Request_json request) in
      check denied codec 400 "invalid_request" "decoded request is invalid" (Request_Validate request) then
      let? (digest, canonical) := denied codec 500 "encoding_failed" "request identity could not be computed"
        (canonicalRequestDigest (registered_snapshot registration) request) in
      Ok {| decoded_input := input; decoded_registration := registration; decoded_request := request;
            decoded_digest := digest; decoded_canonical := canonical |}
  end.

(* ------------------------------------------------------------------ *)
(** ** The records of an admission *)

Record admissionIdentity := {
  admit_key : StoreRequestKey; admit_task : StoreTaskKey; admit_requestID : string; admit_responseID : string;
  admit_lease : WorkerLease; admit_completion : CompletionIdentity }.

(** The response that starts: the sealed canonical request, the session
    checkpoint and the frames of [Start], not yet stamped. *)
Record responseDraft := { draft_canonical : string; draft_events : list StoreResponseEventRecord }.

Definition draftResponse (decoded : decodedRequest) (identity : admissionIdentity) (answer : res SessionSeed)
    : step responseDraft :=
  let codec := Admission_CodecID (decoded_input decoded) in
  let registration := decoded_registration decoded in
  let request := decoded_request decoded in
  let limits := Codec_Limits (registered_description registration) in
  let key := admit_key identity in
  let requestID := admit_requestID identity in
  let? seed := internal codec answer in
  let? seed := internal codec (normalizeSessionSeed
    {| Seed_CreatedAtUnix := Seed_CreatedAtUnix seed; Seed_Entropy := Seed_Entropy seed; Seed_Opaque := Seed_Opaque seed;
       Seed_ToolCallPolicy := Request_ToolCallPolicy request |}) in
  let session := {| Session_ResponseID := admit_responseID identity; Session_Model := Request_Model request;
                    Session_Seed := seed |} in
  check internal codec (EncoderSession_Validate session) then
  let mode := if Request_Stream request then ResponseStream else ResponseAggregate in
  let? encoder := internal codec (newEncoder registration mode session) in
  let? (startFrames, _) := internal codec (Encoder_Start (registered_codec registration) encoder) in
  check internal codec (check_frames limits mode startFrames false) then
  check internal codec (checkPersistedFrameStep startFrames) then
  let? checkpoint := internal codec (Marshal encoderCheckpoint_json (session_checkpoint session)) in
  let? canonical := match sealPayload service ctx (requestPayloadBinding key requestID) (Some (decoded_canonical decoded)) with
                    | Ok stored => Ok stored
                    | Err e => if errors_Is e errPersistedPayloadLimit
                               then denied codec 413 "request_storage_too_large"
                                      "canonical request exceeds the persistence limit" (Err e)
                               else internal codec (Err e)
                    end in
  check denied codec 413 "request_storage_too_large" "canonical request exceeds the persistence limit"
    (refuse_if (negb (storeRequestPayloadAllowed (len canonical) 0 (service_readLimitBytes service)))
       errPersistedPayloadLimit) then
  let? stored := internal codec (sealPayload service ctx (responseEventBinding key requestID 1) (Some checkpoint)) in
  let? wires := wire_records service ctx (internal codec) key requestID 1 "" "" "" zero_time startFrames in
  Ok {| draft_canonical := canonical;
        draft_events := response_event key 1 StoreEventCheckpoint "" "" "" stored zero_time :: wires |}.

(** [startEvents[index].CreatedAt = now]. *)
Definition stamp (now : time) (e : StoreResponseEventRecord) : StoreResponseEventRecord :=
  {| Resp_Request := Resp_Request e; Resp_Sequence := Resp_Sequence e; Resp_Kind := Resp_Kind e;
     Resp_Worker := Resp_Worker e; Resp_WorkerEventID := Resp_WorkerEventID e;
     Resp_WorkerEventDigest := Resp_WorkerEventDigest e; Resp_Data := Resp_Data e; Resp_CreatedAt := now |}.

Definition assignmentTaskContext (input : TaskContext) (taskID : TaskID) (plan : admissionTaskPlan) : TaskContext :=
  match plan_existing plan, plan_task plan with
  | true, Some task => taskContextFromRecord task
  | _, _ =>
      let input := normalizeTaskContext input in
      if TaskContext_CapabilityTier input =?= TierChat then input
      else {| TaskContext_TaskID := taskID; TaskContext_WorkspaceKey := TaskContext_WorkspaceKey input;
              TaskContext_CapabilityTier := TaskContext_CapabilityTier input;
              TaskContext_HarnessID := TaskContext_HarnessID input;
              TaskContext_HarnessVersion := TaskContext_HarnessVersion input;
              TaskContext_HarnessSessionID := TaskContext_HarnessSessionID input;
              TaskContext_ExecAllowed := TaskContext_ExecAllowed input |}
  end.

Definition draftAssignment (decoded : decodedRequest) (identity : admissionIdentity) (plan : admissionTaskPlan)
    : step WorkerAssignmentDelivery :=
  let codec := Admission_CodecID (decoded_input decoded) in
  let request := decoded_request decoded in
  let lease := admit_lease identity in
  let delivery :=
    {| AssignmentDelivery_ID := stableAssignmentDeliveryID (admit_requestID identity) (WorkerLease_ID lease);
       AssignmentDelivery_Assignment :=
         {| Assignment_Identity := admit_completion identity; Assignment_Lease := lease;
            Assignment_Boundary := if Request_Stream request then AssignmentAfterResponse else AssignmentAfterAdmission;
            Assignment_Task := assignmentTaskContext (Admission_Task (decoded_input decoded))
                                 (TaskKey_Task (admit_task identity)) plan;
            Assignment_Request := request |} |} in
  check denied codec 400 "invalid_assignment" "request cannot be assigned to a Human worker"
    (WorkerAssignmentDelivery_ValidateFor delivery
       {| Worker_WorkerID := WorkerLease_Owner lease; Worker_SessionID := assignmentValidationSession |}) then
  let? encoded := denied codec 400 "invalid_assignment" "request cannot be encoded for a Human worker"
    (Marshal WorkerAssignmentDelivery_json delivery) in
  check denied codec 413 "assignment_too_large" "canonical request exceeds the worker transport limit"
    (refuse_if (service_workerPayloadLimitBytes service <? len encoded + workerEnvelopeReserve)%Z ErrWorkerDelivery) then
  Ok delivery.

Record admissionRecords := {
  records_task : StoreTaskRecord; records_request : StoreRequestRecord; records_events : list StoreResponseEventRecord;
  records_results : list toolResultMutation }.

Definition settle_result (now : time) (m : toolResultMutation) : toolResultMutation :=
  let current := result_current m in
  let next := result_next m in
  {| result_current := current;
     result_next := {| Exec_Key := Exec_Key next; Exec_InputDigest := Exec_InputDigest next; Exec_State := Exec_State next;
                       Exec_Result := Exec_Result next; Exec_IsError := Exec_IsError next;
                       Exec_Revision := inc64 (Exec_Revision current); Exec_CreatedAt := Exec_CreatedAt next;
                       Exec_CompletedAt := Some (timestampAtLeast now (Exec_CreatedAt current));
                       Exec_ResultPrunedAt := Exec_ResultPrunedAt next |} |}.

Definition leased_again (task : StoreTaskRecord) (lease : WorkerLease) (now : time) : StoreTaskRecord :=
  {| Task_Key := Task_Key task; Task_WorkspaceKey := Task_WorkspaceKey task;
     Task_CapabilityTier := Task_CapabilityTier task; Task_Codec := Task_Codec task; Task_HarnessID := Task_HarnessID task;
     Task_HarnessVersion := Task_HarnessVersion task; Task_HarnessSessionID := Task_HarnessSessionID task;
     Task_ExecAllowed := Task_ExecAllowed task; Task_State := TaskLeased; Task_LeaseOwner := WorkerLease_Owner lease;
     Task_LeaseID := WorkerLease_ID lease; Task_Revision := inc64 (Task_Revision task);
     Task_CreatedAt := Task_CreatedAt task; Task_UpdatedAt := timestampAtLeast now (Task_UpdatedAt task) |}.

Definition makeRecords (decoded : decodedRequest) (identity : admissionIdentity) (plan : admissionTaskPlan)
    (draft : responseDraft) (now : time) : admissionRecords :=
  let input := Admission_Task (decoded_input decoded) in
  let registration := decoded_registration decoded in
  let lease := admit_lease identity in
  let stream := Request_Stream (decoded_request decoded) in
  {| records_task :=
       match plan_existing plan, plan_task plan with
       | true, Some task => leased_again task lease now
       | _, _ =>
           {| Task_Key := admit_task identity; Task_WorkspaceKey := TaskContext_WorkspaceKey input;
              Task_CapabilityTier := TaskContext_CapabilityTier input; Task_Codec := registered_snapshot registration;
              Task_HarnessID := TaskContext_HarnessID input; Task_HarnessVersion := TaskContext_HarnessVersion input;
              Task_HarnessSessionID := TaskContext_HarnessSessionID input;
              Task_ExecAllowed := TaskContext_ExecAllowed input; Task_State := TaskLeased;
              Task_LeaseOwner := WorkerLease_Owner lease; Task_LeaseID := WorkerLease_ID lease; Task_Revision := 1;
              Task_CreatedAt := now; Task_UpdatedAt := now |}
       end;
     records_request :=
       {| Req_Key := admit_key identity; Req_Task := admit_task identity; Req_RequestID := admit_requestID identity;
          Req_ResponseID := admit_responseID identity; Req_RequestDigest := decoded_digest decoded;
          Req_Codec := registered_snapshot registration;
          Req_Mode := if stream then ResponseStream else ResponseAggregate;
          Req_CanonicalPayload := Some (draft_canonical draft);
          Req_Decision :=
            {| Decision_StatusCode := if stream then registered_success registration else 0;
               Decision_ContentType := if stream then registered_streamType registration else "";
               Decision_RetryAfter := ""; Decision_Body := None |};
          Req_ResponseComplete := false; Req_RecoveryQuarantined := false;
          Req_LastEventSequence := match last (draft_events draft) with Some e => Resp_Sequence e | None => 1%Z end;
          Req_Revision := 1; Req_CreatedAt := now; Req_CompletedAt := None; Req_PayloadPrunedAt := None |};
     records_events := stamp now <$> draft_events draft;
     records_results := settle_result now <$> plan_results plan |}.

(* ------------------------------------------------------------------ *)
(** ** The transaction *)

(** Supersede the request of a caller that went away. *)
Definition supersede (taskKey : StoreTaskKey) (preempted : StoreRequestHead) (now : time) (s : memoryLLMState)
    : res memoryLLMState :=
  let? active := match ReadOp.FindActiveRequest (live s) taskKey with
                 | Ok head => Ok head
                 | Err e => Err (if errors_Is e ErrStoreRecordNotFound then ErrTaskConflict else e)
                 end in
  check refuse_if ((Head_Key active <>? Head_Key preempted) || (Head_RequestID active <>? Head_RequestID preempted)
                   || (Head_Revision active <>? Head_Revision preempted) || Head_ResponseComplete active) ErrTaskConflict then
  let? stale := ReadOp.LoadRequest (live s) (Head_Key active) {| ReadLimit_MaxBytes := service_readLimitBytes service |} in
  check refuse_if ((Req_RequestID stale <>? Head_RequestID preempted) || (Req_Revision stale <>? Head_Revision preempted)
                   || Req_ResponseComplete stale) ErrTaskConflict then
  swapped ErrTaskConflict (WriteOp.CompareAndSwapRequest (live s)
    {| RequestMutation_Key := Head_Key active; RequestMutation_ExpectedRevision := Req_Revision stale;
       RequestMutation_Next := advance_request stale (Req_LastEventSequence stale) (Some now) (Req_Decision stale) |}).

Definition swap_result (u : memoryLLMUnit) (m : toolResultMutation) : res memoryLLMState :=
  swapped ErrTaskConflict (WriteOp.CompareAndSwapToolExecution u
    {| ToolMutation_Key := Exec_Key (result_current m); ToolMutation_ExpectedRevision := Exec_Revision (result_current m);
       ToolMutation_Next := result_next m |}).

Definition admitTx (plan : admissionTaskPlan) (records : admissionRecords) (now : time) (u : memoryLLMUnit)
    : res (unit * memoryLLMState) :=
  let record := records_request records in
  let key := Req_Key record in
  let taskKey := Req_Task record in
  check match ReadOp.LoadRequestHead u key with
        | Ok _ => Err (StoreConflictError StoreConstraintRequestKey (sprint_request key))
        | Err e => refuse_if (negb (errors_Is e ErrStoreRecordNotFound)) e
        end then
  let? s := match plan_existing plan, plan_task plan with
            | true, Some planned =>
                let? current := ReadOp.LoadTask u taskKey in
                check refuse_if ((Task_Revision current <>? Task_Revision planned)
                                 || (Task_State current <>? Task_State planned)) ErrTaskConflict then
                let? s := match plan_preempted plan with
                          | Some preempted => supersede taskKey preempted now (unit_state u)
                          | None => Ok (unit_state u)
                          end in
                swapped ErrTaskConflict (WriteOp.CompareAndSwapTask (live s)
                  {| TaskMutation_Key := taskKey; TaskMutation_ExpectedRevision := Task_Revision planned;
                     TaskMutation_Next := records_task records |})
            | _, _ => WriteOp.InsertTask u (records_task records)
            end in
  let? s := insert_all swap_result (records_results records) s in
  let? s := WriteOp.InsertRequest (live s) record in
  let? s := insert_all WriteOp.InsertResponseEvent (records_events records) s in
  Ok (tt, s).

(* ------------------------------------------------------------------ *)
(** ** Exact retries *)

Definition loadRecovery (key : StoreRequestKey) (u : memoryLLMUnit) : res StoreRecoveryRecord :=
  let? request := ReadOp.LoadRequest u key {| ReadLimit_MaxBytes := service_readLimitBytes service |} in
  let? task := ReadOp.LoadTask u (Req_Task request) in
  Ok {| Recovery_Task := task; Recovery_Request := request |}.

(** The part of [replayAdmission] that makes the assignment of a request in
    progress visible again. *)
Definition replayRecovery (key : StoreRequestKey) (digest : StoreDigest) : operation (res unit) :=
  try record <- view (loadRecovery key) in
  let request := Recovery_Request record in
  if (Req_RequestDigest request <>? digest) then pure (Err ErrIdempotencyConflict)
  else if Req_ResponseComplete request || Req_RecoveryQuarantined request then pure (Ok tt)
  else
    do recovered <- recoverRequest service ctx record in
    match recovered with
    | Ok _ => pure (Ok tt)
    | Err recoverErr =>
        do latest <- view (fun u => ReadOp.LoadRequestHead u key) in
        pure (match latest with
              | Err e => Err (Join recoverErr e)
              | Ok head => refuse_if (negb (Head_ResponseComplete head) && negb (Head_RecoveryQuarantined head)) recoverErr
              end)
    end.

(** [None]: the request is not known. *)
Definition replayAdmission (key : StoreRequestKey) (digest : StoreDigest) : operation (option (res AdmissionResult)) :=
  do loaded <- view (fun u => ReadOp.LoadRequestHead u key) in
  match loaded with
  | Err e => pure (if errors_Is e ErrStoreRecordNotFound then None else Some (Err e))
  | Ok head =>
      if (Head_RequestDigest head <>? digest) then pure (Some (Err ErrIdempotencyConflict))
      else if negb (is_none (Head_PayloadPrunedAt head)) then pure (Some (Err ErrReplayExpired))
      else
        do recovered <- (if negb (Head_ResponseComplete head) && negb (Head_RecoveryQuarantined head)
                         then replayRecovery key digest else pure (Ok tt)) in
        match recovered with
        | Err e => pure (Some (Err e))
        | Ok _ =>
            do page <- readResponse service ctx
              {| Query_CallerID := RequestKey_Caller key; Query_IdempotencyKey := RequestKey_IdempotencyKey key;
                 Query_RequestDigest := digest; Query_After := 0; Query_Limit := defaultResponseLimit;
                 Query_MaxBytes := service_readLimitBytes service |} in
            pure (Some (let? page := page in
                        Ok {| Result_Identity := Page_Identity page; Result_RequestDigest := digest; Result_Replay := true;
                              Result_Response := page |}))
        end
  end.

Definition reconcileAdmissionCommit (key : StoreRequestKey) (digest : StoreDigest) : operation (res AdmissionResult) :=
  try record <- view (loadRecovery key) in
  let request := Recovery_Request record in
  if (Req_RequestDigest request <>? digest) then pure (Err ErrIdempotencyConflict)
  else
    try _ <- (if negb (Req_ResponseComplete request) && negb (Req_RecoveryQuarantined request) then
                do recovered <- recoverRequest service ctx record in
                match recovered with
                | Ok _ => pure (Ok tt)
                | Err e =>
                    do quarantined <- quarantineRecovery service ctx record e in
                    pure (match quarantined with Ok _ => Ok tt | Err e' => Err (Join e e') end)
                end
              else pure (Ok tt)) in
    do replay <- replayAdmission key digest in
    match replay with
    | None => pure (Err ErrWorkerDeliveryIndeterminate)
    | Some (Err e) => pure (Err e)
    | Some (Ok result) =>
        do _ <- section_call (ClearDetached (Task_Key (Recovery_Task record))) in
        pure (Ok result)
    end.

(* ------------------------------------------------------------------ *)
(** ** [Admit] *)

(** The Task of the request: named, found by its affinity, or allocated. *)
Definition admissionTaskID (input : AdmissionRequest) : operation (step TaskID) :=
  let task := Admission_Task input in
  let codec := Admission_CodecID input in
  do named <- (if is_empty (TaskContext_TaskID task) && (TaskContext_CapabilityTier task <>? TierChat) then
                 do found <- view (fun u => ReadOp.FindOpenTask u
                   {| Affinity_Caller := Admission_CallerID input; Affinity_WorkspaceKey := TaskContext_WorkspaceKey task;
                      Affinity_HarnessID := TaskContext_HarnessID task;
                      Affinity_HarnessVersion := TaskContext_HarnessVersion task;
                      Affinity_HarnessSessionID := TaskContext_HarnessSessionID task |}) in
                 pure (match found with
                       | Ok task => Ok (TaskKey_Task (Task_Key task))
                       | Err e => if errors_Is e ErrStoreRecordNotFound then Ok "" else internal codec (Err e)
                       end)
               else pure (Ok (TaskContext_TaskID task))) in
  match named with
  | Err r => pure (Err r)
  | Ok name =>
      if negb (is_empty name) then pure (Ok name)
      else
        do allocated <- call (NewID IDTask) in
        pure (denied codec 500 "id_allocation_failed" "task identity could not be allocated"
                (let? value := allocated in check validGeneratedID value then Ok value))
  end.

(** The answer to a routing failure. *)
Definition route_failure (codec : CodecID) (registration : registeredCodec) (e : error) : error :=
  if errors_Is e ErrWorkerRouterRequired then
    admissionFailure codec (failure_of 500 "worker_router_required"
      "multiple Human workers are connected; the deployment must configure a WorkerRouter") 0 e
  else if errors_Is e ErrWorkerRouteDenied then
    admissionFailure codec (failure_of 403 "worker_route_denied" "no Human worker can accept this request") 0 e
  else
    admissionFailure codec (failure_of (Codec_OverloadedStatus (registered_description registration)) "worker_unavailable"
      "no Human worker can accept this request") 5000000000 e.

Definition plan_failure (codec : CodecID) (e : error) : error :=
  if errors_Is e errPersistedPayloadLimit then
    admissionFailure codec (failure_of 413 "tool_result_too_large" "tool results exceed the persistence limit") 0 e
  else admissionFailure codec (failure_of 409 "task_conflict" "task cannot accept this request") 0 e.

(** What the policy decided. *)
Definition policy_verdict (codec : CodecID) (answer : res AdmissionPolicyDecision) : step unit :=
  let? decision := denied codec 500 "policy_failed" "admission policy failed" answer in
  if Decision_Allowed decision then Ok tt
  else
    match AdmissionFailure_Validate (Decision_Failure decision) with
    | Err _ => Err (Err ErrInvalidServiceConfig)
    | Ok _ => Err (Err (admissionFailure codec (Decision_Failure decision) (Decision_Retry decision) ErrWorkerRouteDenied))
    end.

Definition identify (input : AdmissionRequest) (taskID : TaskID) (requestID responseID lease : string) (worker : WorkerID)
    : admissionIdentity :=
  {| admit_key := {| RequestKey_Caller := Admission_CallerID input;
                     RequestKey_IdempotencyKey := Admission_IdempotencyKey input |};
     admit_task := {| TaskKey_Caller := Admission_CallerID input; TaskKey_Task := taskID |};
     admit_requestID := requestID; admit_responseID := responseID;
     admit_lease := {| WorkerLease_ID := lease; WorkerLease_Owner := worker |};
     admit_completion := {| Identity_CallerID := Admission_CallerID input; Identity_RequestID := requestID;
                            Identity_TaskID := taskID;
                            Identity_WorkspaceKey := TaskContext_WorkspaceKey (Admission_Task input);
                            Identity_IdempotencyKey := Admission_IdempotencyKey input |} |}.

(** Behind the commit. *)
Definition finishAdmission (decoded : decodedRequest) (identity : admissionIdentity) (plan : admissionTaskPlan)
    (delivery : WorkerAssignmentDelivery) (now : time) (committed : res unit) : operation (res AdmissionResult) :=
  let codec := Admission_CodecID (decoded_input decoded) in
  let key := admit_key identity in
  let digest := decoded_digest decoded in
  match committed with
  | Err e =>
      if errors_Is e ErrStoreCommitUnknown then
        do replay <- reconcileAdmissionCommit key digest in
        pure (match replay with
              | Ok result => Ok result
              | Err e' => Err (internalAdmissionError codec (Join e e'))
              end)
      else
        do replay <- replayAdmission key digest in
        pure (match replay with
              | Some r => r
              | None =>
                  Err (if errors_Is e ErrStoreConflict || errors_Is e ErrTaskConflict then
                         admissionFailure codec (failure_of 409 "task_conflict"
                           "task changed while the request was admitted; retry the exact request") 0 (Join ErrTaskConflict e)
                       else internalAdmissionError codec e)
              end)
  | Ok _ =>
      do _ <- addAssignmentTo key delivery true now in
      do _ <- match plan_preempted plan with
              | Some _ => section_call (ClearDetached (admit_task identity))
              | None => pure tt
              end in
      try page <- readResponse service ctx
        {| Query_CallerID := RequestKey_Caller key; Query_IdempotencyKey := RequestKey_IdempotencyKey key;
           Query_RequestDigest := digest; Query_After := 0; Query_Limit := defaultResponseLimit;
           Query_MaxBytes := service_readLimitBytes service |} in
      pure (Ok {| Result_Identity := admit_completion identity; Result_RequestDigest := digest; Result_Replay := false;
                  Result_Response := page |})
  end.

(** From the plan to the commit. *)
Definition admitPlanned (decoded : decodedRequest) (taskID : TaskID) (plan : admissionTaskPlan) : operation (res AdmissionResult) :=
  let input := decoded_input decoded in
  let codec := Admission_CodecID input in
  do routed <- routeAdmission input (decoded_request decoded) taskID plan in
  take worker := refused (route_failure codec (decoded_registration decoded)) routed then
  do allocated <- allocateID IDRequest in
  take requestID := internal codec allocated then
  do allocated <- allocateID IDResponse in
  take responseID := internal codec allocated then
  do allocated <- allocateID IDLease in
  take lease := internal codec allocated then
  let identity := identify input taskID requestID responseID lease worker in
  do answer <- call (NewSessionSeed (admit_completion identity) (decoded_request decoded)) in
  take draft := draftResponse decoded identity answer then
  do clock <- call Now in
  take now := internal codec (checkedTime clock) then
  take delivery := draftAssignment decoded identity plan then
  do committed <- update (admitTx plan (makeRecords decoded identity plan draft now) now) in
  finishAdmission decoded identity plan delivery now committed.

Definition Admit (input0 : AdmissionRequest) : operation (res AdmissionResult) :=
  operating (
    take _ := or_return (R := AdmissionResult) (ctx_ready ErrInvalidServiceConfig ctx) then
    take decoded := decodeRequest input0 then
    let input := decoded_input decoded in
    let codec := Admission_CodecID input in
    do replay <- replayAdmission {| RequestKey_Caller := Admission_CallerID input;
                                    RequestKey_IdempotencyKey := Admission_IdempotencyKey input |} (decoded_digest decoded) in
    match replay with
    | Some r => pure r
    | None =>
        do answer <- call (AdmitRequest
          {| AdmissionContext_CallerID := Admission_CallerID input;
             AdmissionContext_IdempotencyKey := Admission_IdempotencyKey input;
             AdmissionContext_Codec := registered_description (decoded_registration decoded);
             AdmissionContext_Request := decoded_request decoded; AdmissionContext_Task := Admission_Task input |}) in
        take _ := policy_verdict codec answer then
        do named <- admissionTaskID input in
        take taskID := named then
        do planned <- planTask {| TaskKey_Caller := Admission_CallerID input; TaskKey_Task := taskID |}
                        (Admission_Task input) (registered_snapshot (decoded_registration decoded)) (decoded_request decoded) in
        take plan := refused (plan_failure codec) planned then
        admitPlanned decoded taskID plan
    end).
End Admission.
