(* ===== verification/LlmMaintenance.v ===== *)
(** * Sweeps, notices and sessions of HumanLLM (llm/service_expiry.go,
    service_retention.go, service_notice.go, service_status.go,
    service_worker.go, the shutdown of service.go)

    The sweeps return what they did also when they fail.  The loop over the
    tool executions of a Task mutates them while it reads its pages; its fuel
    is their number, which suffices. *)

From S2P Require Import Prelude GoText GoEncoding GoTime GoJson GoStrings GoDoc GoStruct.
From S2P Require Import AgentTypes Framework Protect LlmTypes LlmJson LlmMemory LlmLedger LlmScan LlmRuntime LlmProg LlmEvents.
From S2P Require Import LlmService LlmCommit LlmRecovery.

Import Llm.
Local Open Scope string_scope.
Local Open Scope prog_scope.

(** What a sweep did, with the error that stopped it. *)
Abbreviation swept R := (outcome (R * error) R).
Definition not_swept {R} (zero : R) (e : error) : swept R := Err (zero, e).

(* ------------------------------------------------------------------ *)
(** ** Expiry (service_expiry.go) *)

Record ExpiryPolicy := { Expiry_PendingBefore : time; Expiry_BatchSize : Z }.
Record ExpiryResult := { Expiry_Scanned : Z; Expiry_Expired : Z; Expiry_Deferred : Z }.
Definition no_expiry : ExpiryResult := {| Expiry_Scanned := 0; Expiry_Expired := 0; Expiry_Deferred := 0 |}.

Definition notice_expired (identity : CompletionIdentity) : WorkerNotice :=
  {| Notice_Code := "request_expired"; Notice_Message := "This request expired before a human response was delivered.";
     Notice_Caller := Identity_CallerID identity; Notice_TaskID := Identity_TaskID identity;
     Notice_RequestID := Identity_RequestID identity |}.

Definition raiseRequestExpiredNotice (owner : WorkerID) (identity : CompletionIdentity) : operation unit :=
  do connection <- section_call (FindConnection owner) in
  match connection with
  | None => pure tt
  | Some id => section_call (EmitNotice id (notice_expired identity))
  end.

(** The limits of a batch, for both sweeps. *)
Definition sweep_batch (ctx : goctx) (boundary : time) (batch : Z) : res Z :=
  check ctx_ready ErrInvalidServiceConfig ctx then
  check refuse_if (IsZero boundary) ErrInvalidServiceConfig then
  let batchSize := if (batch =? 0)%Z then defaultResponseLimit else batch in
  check refuse_if ((batchSize <? 1) || (maximumResponseLimit <? batchSize))%Z ErrInvalidServiceConfig then
  Ok batchSize.

Section Sweeps.
Context (service : Service) (ctx : goctx).

(** The connection of the system: the worker of the lease, no session. *)
Definition expireRecoveryRecord (record : StoreRecoveryRecord) : operation (res bool) :=
  let task := Recovery_Task record in
  if is_empty (Task_LeaseOwner task) || is_empty (Task_LeaseID task) then pure (Ok false)
  else
    match expiryDelivery record with
    | Err e => pure (Err e)
    | Ok delivery =>
        let connection := {| conn_principal := {| Worker_WorkerID := Task_LeaseOwner task;
                                                  Worker_SessionID := "service-expiry" |};
                             conn_object := None |} in
        try receipt <- commitWorkerEvent service ctx connection delivery in
        match EventReceipt_Decision receipt with
        | WorkerEventACK =>
            do _ <- section_call (ClearDetached (Task_Key task)) in
            do _ <- raiseRequestExpiredNotice (Task_LeaseOwner task) (EventDelivery_Identity delivery) in
            pure (Ok true)
        | _ => pure (Ok false)
        end
    end.

(** The loop over a batch; the flag tells that a record is newer than the
    boundary, as all behind it are. *)
Fixpoint expireBatch (boundary : time) (l : list StoreRecoveryRecord) (result : ExpiryResult)
    : operation (outcome (ExpiryResult * error) (bool * ExpiryResult)) :=
  match l with
  | [] => pure (Ok (false, result))
  | record :: l =>
      let request := Recovery_Request record in
      if After (Req_CreatedAt request) boundary then pure (Ok (true, result))
      else if Req_ResponseComplete request || Req_RecoveryQuarantined request then expireBatch boundary l result
      else
        let result := {| Expiry_Scanned := inc64 (Expiry_Scanned result); Expiry_Expired := Expiry_Expired result;
                         Expiry_Deferred := Expiry_Deferred result |} in
        do expired <- expireRecoveryRecord record in
        match expired with
        | Err e => pure (Err (result, e))
        | Ok true => expireBatch boundary l
            {| Expiry_Scanned := Expiry_Scanned result; Expiry_Expired := inc64 (Expiry_Expired result);
               Expiry_Deferred := Expiry_Deferred result |}
        | Ok false => expireBatch boundary l
            {| Expiry_Scanned := Expiry_Scanned result; Expiry_Expired := Expiry_Expired result;
               Expiry_Deferred := inc64 (Expiry_Deferred result) |}
        end
  end.

Definition expiryRound (boundary : time) (batchSize : Z) (state : option StoreRecoveryCursor * ExpiryResult)
    : operation ((option StoreRecoveryCursor * ExpiryResult) + swept ExpiryResult) :=
  let (cursor, result) := state in
  do loaded <- view (fun u => ReadOp.ScanRecovery u (recovery_scan cursor batchSize)) in
  match loaded with
  | Err e => pure (inr (Err (result, e)))
  | Ok records =>
      match last records with
      | None => pure (inr (Ok result))
      | Some record =>
          do swept <- expireBatch boundary records result in
          pure (match swept with
                | Err partial => inr (Err partial)
                | Ok (true, result) => inr (Ok result)
                | Ok (false, result) => inl (Some (recovery_cursor (Recovery_Request record)), result)
                end)
      end
  end.

Definition RunExpiry (policy : ExpiryPolicy) : operation (swept ExpiryResult) :=
  operating_or (not_swept no_expiry) (
    match sweep_batch ctx (Expiry_PendingBefore policy) (Expiry_BatchSize policy) with
    | Err e => pure (not_swept no_expiry e)
    | Ok batchSize =>
        Looping (expiryRound (Expiry_PendingBefore policy) batchSize) (None, no_expiry) (fun r => pure r)
    end).

(* ------------------------------------------------------------------ *)
(** ** Retention (service_retention.go) *)

Record RetentionPolicy := {
  Retention_CompletedBefore : time; Retention_BatchSize : Z; Retention_RetainToolResults : bool }.
Record RetentionResult := {
  Retention_Scanned : Z; Retention_RequestsPruned : Z; Retention_EventsDeleted : Z;
  Retention_ToolResultsPruned : Z; Retention_Deferred : Z }.
Definition no_retention : RetentionResult :=
  {| Retention_Scanned := 0; Retention_RequestsPruned := 0; Retention_EventsDeleted := 0;
     Retention_ToolResultsPruned := 0; Retention_Deferred := 0 |}.
Definition retention_deferred : RetentionResult :=
  {| Retention_Scanned := 0; Retention_RequestsPruned := 0; Retention_EventsDeleted := 0;
     Retention_ToolResultsPruned := 0; Retention_Deferred := 1 |}.

(** Counters are uint64. *)
Definition add64 (a b : Z) : Z := ((a + b) mod 18446744073709551616)%Z.

Definition pruned_request (r : StoreRequestRecord) (prunedAt : time) : StoreRequestRecord :=
  {| Req_Key := Req_Key r; Req_Task := Req_Task r; Req_RequestID := Req_RequestID r; Req_ResponseID := Req_ResponseID r;
     Req_RequestDigest := Req_RequestDigest r; Req_Codec := Req_Codec r; Req_Mode := Req_Mode r;
     Req_CanonicalPayload := None;
     Req_Decision := {| Decision_StatusCode := Decision_StatusCode (Req_Decision r);
                        Decision_ContentType := Decision_ContentType (Req_Decision r);
                        Decision_RetryAfter := Decision_RetryAfter (Req_Decision r); Decision_Body := None |};
     Req_ResponseComplete := Req_ResponseComplete r; Req_RecoveryQuarantined := Req_RecoveryQuarantined r;
     Req_LastEventSequence := Req_LastEventSequence r; Req_Revision := inc64 (Req_Revision r);
     Req_CreatedAt := Req_CreatedAt r; Req_CompletedAt := Req_CompletedAt r; Req_PayloadPrunedAt := Some prunedAt |}.

Definition pruned_tool (t : StoreToolExecutionRecord) (prunedAt : time) : StoreToolExecutionRecord :=
  {| Exec_Key := Exec_Key t; Exec_InputDigest := Exec_InputDigest t; Exec_State := Exec_State t; Exec_Result := None;
     Exec_IsError := Exec_IsError t; Exec_Revision := inc64 (Exec_Revision t); Exec_CreatedAt := Exec_CreatedAt t;
     Exec_CompletedAt := Exec_CompletedAt t; Exec_ResultPrunedAt := Some prunedAt |}.

(** The loop over one page of tool executions. *)
Fixpoint pruneToolBatch (prunedAt : time) (l : list StoreToolExecutionRecord) (pruned : Z) (s : memoryLLMState)
    : res (Z * memoryLLMState) :=
  match l with
  | [] => Ok (pruned, s)
  | tool :: l =>
      match Exec_ResultPrunedAt tool with
      | Some _ => pruneToolBatch prunedAt l pruned s
      | None =>
          let? (changed, s) := WriteOp.CompareAndSwapToolExecution (live s)
            {| ToolMutation_Key := Exec_Key tool; ToolMutation_ExpectedRevision := Exec_Revision tool;
               ToolMutation_Next := pruned_tool tool prunedAt |} in
          pruneToolBatch prunedAt l (if changed then inc64 pruned else pruned) s
      end
  end.

Definition out_of_fuel : error := ErrText "out of fuel".

Fixpoint pruneTools (fuel : nat) (task : StoreTaskKey) (prunedAt : time) (after : ToolCallID) (pruned : Z)
    (s : memoryLLMState) : res (Z * memoryLLMState) :=
  match fuel with
  | O => Err out_of_fuel
  | S fuel =>
      let? l := ReadOp.ScanToolExecutions (live s)
        (tool_scan task (Some ToolExecutionCompleted) maximumRecoveryReadLimitBytes after) in
      match last l with
      | None => Ok (pruned, s)
      | Some tool =>
          let? (pruned, s) := pruneToolBatch prunedAt l pruned s in
          pruneTools fuel task prunedAt (tool_id tool) pruned s
      end
  end.

Definition pruneTx (key : StoreRequestKey) (boundary prunedAt : time) (retainToolResults : bool) (u : memoryLLMUnit)
    : res (RetentionResult * memoryLLMState) :=
  let? current := ReadOp.LoadRequest u key {| ReadLimit_MaxBytes := maximumRecoveryReadLimitBytes |} in
  if negb (Req_ResponseComplete current) || negb (is_none (Req_PayloadPrunedAt current))
     || After (effectiveCompletedAt current) boundary
  then Ok (retention_deferred, unit_state u)
  else
    let? (changed, s) := WriteOp.CompareAndSwapRequest u
      {| RequestMutation_Key := Req_Key current; RequestMutation_ExpectedRevision := Req_Revision current;
         RequestMutation_Next := pruned_request current prunedAt |} in
    if negb changed then Ok (retention_deferred, s)
    else
      let? (deleted, s) := WriteOp.DeleteTombstonedResponseEvents (live s) (Req_Key current) in
      let done tools := {| Retention_Scanned := 0; Retention_RequestsPruned := 1; Retention_EventsDeleted := deleted;
                           Retention_ToolResultsPruned := tools; Retention_Deferred := 0 |} in
      if retainToolResults then Ok (done 0%Z, s)
      else
        let? task := ReadOp.LoadTask (live s) (Req_Task current) in
        if negb (TaskState_Terminal (Task_State task)) then Ok (done 0%Z, s)
        else
          let? (pruned, s) := pruneTools (S (size (tools s))) (Req_Task current) prunedAt "" 0 s in
          Ok (done pruned, s).

Definition pruneRetentionCandidate (candidate : StoreRetentionCandidate) (boundary prunedAt : time)
    (retainToolResults : bool) : operation (res RetentionResult) :=
  let key := Head_Key (Candidate_Request candidate) in
  do committed <- update (pruneTx key boundary prunedAt retainToolResults) in
  match committed with
  | Ok result => pure (Ok result)
  | Err e =>
      if negb (errors_Is e ErrStoreCommitUnknown) then pure (Err e)
      else
        do loaded <- view (fun u => ReadOp.LoadRequestHead u key) in
        pure (match loaded with
              | Ok head =>
                  if is_none (Head_PayloadPrunedAt head) then Err e
                  else Ok {| Retention_Scanned := 0; Retention_RequestsPruned := 1; Retention_EventsDeleted := 0;
                             Retention_ToolResultsPruned := 0; Retention_Deferred := 0 |}
              | Err e' => Err (Join e e')
              end)
  end.

Definition add_retention (result one : RetentionResult) : RetentionResult :=
  {| Retention_Scanned := Retention_Scanned result;
     Retention_RequestsPruned := add64 (Retention_RequestsPruned result) (Retention_RequestsPruned one);
     Retention_EventsDeleted := add64 (Retention_EventsDeleted result) (Retention_EventsDeleted one);
     Retention_ToolResultsPruned := add64 (Retention_ToolResultsPruned result) (Retention_ToolResultsPruned one);
     Retention_Deferred := add64 (Retention_Deferred result) (Retention_Deferred one) |}.

Fixpoint retainBatch (boundary prunedAt : time) (retainToolResults : bool) (l : list StoreRetentionCandidate)
    (result : RetentionResult) : operation (swept RetentionResult) :=
  match l with
  | [] => pure (Ok result)
  | candidate :: l =>
      let result := {| Retention_Scanned := inc64 (Retention_Scanned result);
                       Retention_RequestsPruned := Retention_RequestsPruned result;
                       Retention_EventsDeleted := Retention_EventsDeleted result;
                       Retention_ToolResultsPruned := Retention_ToolResultsPruned result;
                       Retention_Deferred := Retention_Deferred result |} in
      if Candidate_UnacknowledgedWorkerEvent candidate then
        retainBatch boundary prunedAt retainToolResults l (add_retention result retention_deferred)
      else
        do one <- pruneRetentionCandidate candidate boundary prunedAt retainToolResults in
        match one with
        | Err e => pure (Err (result, e))
        | Ok one => retainBatch boundary prunedAt retainToolResults l (add_retention result one)
        end
  end.

Definition retention_cursor (candidate : StoreRetentionCandidate) : StoreRetentionCursor :=
  {| RetentionCursor_CompletedAt := Candidate_EffectiveCompletedAt candidate;
     RetentionCursor_Caller := RequestKey_Caller (Head_Key (Candidate_Request candidate));
     RetentionCursor_IdempotencyKey := RequestKey_IdempotencyKey (Head_Key (Candidate_Request candidate)) |}.

Definition retentionRound (policy : RetentionPolicy) (batchSize : Z) (prunedAt : time)
    (state : option StoreRetentionCursor * RetentionResult)
    : operation ((option StoreRetentionCursor * RetentionResult) + swept RetentionResult) :=
  let (cursor, result) := state in
  let boundary := Retention_CompletedBefore policy in
  do loaded <- view (fun u => ReadOp.ScanRetention u
    {| RetentionScan_CompletedBefore := boundary; RetentionScan_After := cursor; RetentionScan_Limit := batchSize |}) in
  match loaded with
  | Err e => pure (inr (Err (result, e)))
  | Ok candidates =>
      match last candidates with
      | None => pure (inr (Ok result))
      | Some candidate =>
          do swept <- retainBatch boundary prunedAt (Retention_RetainToolResults policy) candidates result in
          pure (match swept with
                | Err partial => inr (Err partial)
                | Ok result => inl (Some (retention_cursor candidate), result)
                end)
      end
  end.

Definition RunRetention (policy : RetentionPolicy) : operation (swept RetentionResult) :=
  operating_or (not_swept no_retention) (
    match sweep_batch ctx (Retention_CompletedBefore policy) (Retention_BatchSize policy) with
    | Err e => pure (not_swept no_retention e)
    | Ok batchSize =>
        do clock <- call Now in
        match checkedTime clock with
        | Err e => pure (not_swept no_retention e)
        | Ok prunedAt => Looping (retentionRound policy batchSize prunedAt) (None, no_retention) (fun r => pure r)
        end
    end).

(* ------------------------------------------------------------------ *)
(** ** Status and detached callers (service_status.go, service_notice.go) *)

Record ServiceStatus := { Status_DatabaseOK : bool; Status_RecoveryComplete : bool; Status_WorkersOnline : Z }.

Definition ServiceStatus_ : operation (res ServiceStatus) :=
  operating (
    try _ <- pure (ctx_ready ErrInvalidServiceConfig ctx) in
    try _ <- view (fun _ => Ok tt) in
    do workers <- section_call CountConnections in
    pure (Ok {| Status_DatabaseOK := true; Status_RecoveryComplete := true; Status_WorkersOnline := workers |})).

Definition notice_gone (task : StoreTaskKey) (requestID : string) : WorkerNotice :=
  {| Notice_Code := "caller_gone";
     Notice_Message := "The caller disconnected before this turn finished; they may not return. You can end the conversation.";
     Notice_Caller := TaskKey_Caller task; Notice_TaskID := TaskKey_Task task; Notice_RequestID := requestID |}.

Definition raiseCallerGoneNotice (task : StoreTaskKey) (requestID : string) : operation unit :=
  do loaded <- view (fun u => ReadOp.LoadTask u task) in
  match loaded with
  | Err _ => pure tt
  | Ok record =>
      if is_empty (Task_LeaseOwner record) then pure tt
      else
        do connection <- section_call (FindConnection (Task_LeaseOwner record)) in
        match connection with
        | None => pure tt
        | Some id => section_call (EmitNotice id (notice_gone task requestID))
        end
  end.

(** Only the request that is in progress is marked. *)
Definition DetachCaller (identity : CompletionIdentity) : operation unit :=
  operating_or (fun _ => tt) (
    match ctx with
    | Context None =>
        let task := {| TaskKey_Caller := Identity_CallerID identity; TaskKey_Task := Identity_TaskID identity |} in
        let request := key_of identity in
        if is_empty (TaskKey_Caller task) || is_empty (TaskKey_Task task)
           || is_empty (RequestKey_IdempotencyKey request) || is_empty (Identity_RequestID identity)
        then pure tt
        else
          do loaded <- view (fun u => ReadOp.FindActiveRequest u task) in
          match loaded with
          | Err _ => pure tt
          | Ok active =>
              if (Head_Key active <>? request) || (Head_RequestID active <>? Identity_RequestID identity)
                 || Head_ResponseComplete active
              then pure tt
              else
                do _ <- section_call (MarkDetached task request (Identity_RequestID identity)) in
                raiseCallerGoneNotice task (Identity_RequestID identity)
          end
    | _ => pure tt
    end).

(* ------------------------------------------------------------------ *)
(** ** Worker sessions (service_worker.go) *)

(** The dispatcher of the connection is a goroutine of its own. *)
Definition OpenWorker (principal : AuthenticatedWorker) : operation (res serviceWorkerConnection) :=
  operating (
    try _ <- pure (ctx_ready ErrWorkerPrincipal ctx) in
    try _ <- pure (AuthenticatedWorker_Validate principal) in
    try id <- section_call (RegisterConnection principal) in
    do _ <- section_call (Signal id) in
    pure (Ok {| conn_principal := principal; conn_object := Some id |})).

(** One round of the dispatcher; [inr] is its return. *)
Definition dispatchRound (id : connectionID) (_ : unit) : operation (unit + unit) :=
  do next <- section_call (NextDelivery id) in
  do sent <- match next with
             | None => pure (@None bool)
             | Some delivery =>
                 do _ <- section_call (MarkSent id (AssignmentDelivery_ID delivery)) in
                 do sent <- call (SendDelivery id delivery) in
                 pure (Some sent)
             end in
  match sent with
  | Some true => pure (inl tt)
  | Some false => pure (inr tt)
  | None =>
      do woken <- call (AwaitWake id) in
      match woken with
      | true => do _ <- section_call (TakeWake id) in pure (inl tt)
      | false => pure (inr tt)
      end
  end.

Definition dispatch (id : connectionID) : operation unit :=
  Looping (dispatchRound id) tt (fun _ => section_call (CloseConnection id)).

(** [Shutdown] of a connection. *)
Definition ConnectionShutdown (id : connectionID) : operation (option error) :=
  match ctx with
  | NilContext => pure (Some (ErrText "llm: worker shutdown context is required"))
  | Context _ =>
      do _ <- section_call (Stop id None) in
      do waited <- call (AwaitConnection id) in
      match waited with
      | Some e => pure (Some e)
      | None => section_call (ConnectionErr id)
      end
  end.

(* ------------------------------------------------------------------ *)
(** ** Shutdown (service.go) *)

Fixpoint each_connection (f : connectionID -> operation unit) (l : list connectionID) : operation unit :=
  match l with
  | [] => pure tt
  | id :: l => do _ <- f id in each_connection f l
  end.

(** [errors.Join] of two results that may be nil. *)
Definition errors_Join (left right : option error) : option error :=
  match left, right with
  | None, e => e
  | Some e, None => Some e
  | Some l, Some r => Some (Join l r)
  end.

Definition releaseResources : operation (option error) :=
  do protector <- call ReleaseProtector in
  do store <- call ReleaseStore in
  pure (errors_Join protector store).

(** The goroutine that the first [Shutdown] starts. *)
Definition finishShutdown (connections : list connectionID) : operation unit :=
  do _ <- call AwaitDrain in
  do _ <- each_connection (fun id => call (AwaitDone id)) connections in
  do result <- releaseResources in
  section_call (FinishDone result).

(** The answer of [Shutdown], and the connections of the goroutine it starts. *)
Definition Shutdown : operation (option (list connectionID) * option error) :=
  match ctx with
  | NilContext => pure (None, Some (ErrText "llm: shutdown context is required"))
  | Context _ =>
      do begun <- section_call BeginShutdown in
      do _ <- match begun with
              | Some connections => each_connection (fun id => section_call (Stop id None)) connections
              | None => pure tt
              end in
      do waited <- call AwaitFinished in
      match waited with
      | Some e => pure (begun, Some e)
      | None => do result <- section_call ServiceErr in pure (begun, result)
      end
  end.
End Sweeps.
