(* ===== verification/LlmEffects.v ===== *)
(** * What the transactions of HumanLLM commit

    The callbacks of [Update] in llm/service_event.go, service_admission.go,
    service_recovery.go and service_retention.go, read as changes of the maps:
    which tests they passed, and the state they return. *)

From S2P Require Import Prelude GoText GoEncoding GoTime GoJson GoStrings GoDoc GoStruct.
From S2P Require Import AgentTypes Framework Protect LlmTypes LlmJson LlmMemory LlmLedger LlmScan LlmRuntime LlmProg LlmEvents.
From S2P Require Import LlmService LlmCommit LlmRecovery LlmAdmission LlmMaintenance.

Import Llm.
Local Open Scope string_scope.
Local Open Scope list_scope.

(* ------------------------------------------------------------------ *)
(** ** Reads *)

Lemma refuse_if_iff {E} (b : bool) (e : E) u : refuse_if b e = Ok u <-> b = false.
Proof. destruct b, u; cbn; split; congruence. Qed.

Lemma load_task s k t : ReadOp.LoadTask (live s) k = Ok t -> tasks s !! k = Some t.
Proof.
  unfold ReadOp.LoadTask. rewrite llm_active_live. cbn [obind unit_state live]. intros H. ok_inv.
  destruct (tasks s !! k); congruence.
Qed.

Lemma load_request s k limit r : ReadOp.LoadRequest (live s) k limit = Ok r -> requests s !! k = Some r.
Proof.
  unfold ReadOp.LoadRequest. rewrite llm_active_live. cbn [obind unit_state live]. intros H. ok_inv.
  destruct (requests s !! k); [|done]. ok_inv. congruence.
Qed.

Lemma load_head s k h : ReadOp.LoadRequestHead (live s) k = Ok h ->
  exists r, requests s !! k = Some r /\ h = memoryLLMRequestHead r.
Proof.
  unfold ReadOp.LoadRequestHead. rewrite llm_active_live. cbn [obind unit_state live]. intros H. ok_inv.
  destruct (requests s !! k) as [r|]; [|done]. exists r. split; congruence.
Qed.

Abbreviation receipt_at s request id := (receipts s !! {| ReceiptKey_request := request; ReceiptKey_eventID := id |}).

Lemma load_receipt s k id x : ReadOp.LoadWorkerReceipt (live s) k id = Ok x -> receipt_at s k id = Some x.
Proof.
  unfold ReadOp.LoadWorkerReceipt. rewrite llm_active_live. cbn [obind unit_state live]. intros H. ok_inv.
  destruct (receipts s !! _); congruence.
Qed.

Lemma load_no_receipt s k id e : ReadOp.LoadWorkerReceipt (live s) k id = Err e ->
  errors_Is e ErrStoreRecordNotFound = true -> receipt_at s k id = None.
Proof.
  unfold ReadOp.LoadWorkerReceipt. rewrite llm_active_live. cbn [obind unit_state live]. intros H He.
  destruct (refuse_if _ _) as [[]|e'] eqn:E; cbn [obind] in H; [destruct (receipts s !! _); congruence|].
  destruct (_ || _)%bool; cbn in E; [|done]. by replace e with memoryLLMInvalid in He by congruence.
Qed.

(* ------------------------------------------------------------------ *)
(** ** Many mutations *)

Definition add_event (s : memoryLLMState) (e : StoreResponseEventRecord) : memoryLLMState :=
  set_events (<[Resp_Request e := <[Resp_Sequence e := e]> (history s (Resp_Request e))]> (events s)) s.
Definition add_tool (s : memoryLLMState) (x : StoreToolExecutionRecord) : memoryLLMState :=
  set_tools (<[Exec_Key x := x]> (tools s)) s.

(** [insert_all] is a fold; [P] is what every insertion tested. *)
Lemma insert_all_fold {A} (insert : memoryLLMUnit -> A -> res memoryLLMState) (f : memoryLLMState -> A -> memoryLLMState)
    (P : memoryLLMState -> A -> Prop) l : (forall s x s', insert (live s) x = Ok s' -> s' = f s x /\ P s x) ->
  forall s s', insert_all insert l s = Ok s' ->
  s' = foldl f s l /\ forall l1 x l2, l = l1 ++ x :: l2 -> P (foldl f s l1) x.
Proof.
  intros Hf. induction l as [|x l IH]; intros s s' H; cbn in H.
  - injection H as <-. split; [done|]. intros l1 x l2 E. by destruct l1.
  - ok_inv. destruct (Hf _ _ _ Hv) as [-> Hp]. destruct (IH _ _ H) as [-> Hl]. split; [done|].
    intros [|y l1] z l2 E; injection E as -> ->; [done|]. cbn. by eapply Hl.
Qed.

Lemma insert_all_transacts {A} (insert : memoryLLMUnit -> A -> res memoryLLMState) l :
  (forall s x s', x ∈ l -> insert (live s) x = Ok s' -> transacts s s') ->
  forall s s', insert_all insert l s = Ok s' -> transacts s s'.
Proof.
  induction l as [|x l IH]; intros Hf s s' H; cbn in H; [by injection H as <-|].
  ok_inv. etransitivity; [eapply Hf; [left | done]|]. eapply IH; [|done]. intros * Hx. apply Hf. by right.
Qed.

Definition tested_event (s : memoryLLMState) (e : StoreResponseEventRecord) : Prop :=
  history s (Resp_Request e) !! Resp_Sequence e = None /\ is_Some (requests s !! Resp_Request e) /\
  memoryLLMValidateResponseEvent e = Ok tt.
Definition tested_tool (s : memoryLLMState) (x : StoreToolExecutionRecord) : Prop :=
  tools s !! Exec_Key x = None /\ is_Some (tasks s !! ToolKey_Task (Exec_Key x)) /\ memoryLLMValidateTool x = Ok tt.

Lemma insert_events es s s' : insert_all WriteOp.InsertResponseEvent es s = Ok s' ->
  s' = foldl add_event s es /\ forall l1 e l2, es = l1 ++ e :: l2 -> tested_event (foldl add_event s l1) e.
Proof.
  apply insert_all_fold. intros s0 e s1 H. apply InsertResponseEvent_inv in H as (-> & H1 & H2 & H3 & _). done.
Qed.
Lemma insert_tools xs s s' : insert_all WriteOp.InsertToolExecution xs s = Ok s' ->
  s' = foldl add_tool s xs /\ forall l1 x l2, xs = l1 ++ x :: l2 -> tested_tool (foldl add_tool s l1) x.
Proof.
  apply insert_all_fold. intros s0 x s1 H. apply InsertToolExecution_inv in H as (-> & H1 & H2 & H3). done.
Qed.

Lemma add_events_frame es s :
  tasks (foldl add_event s es) = tasks s /\ requests (foldl add_event s es) = requests s /\
  receipts (foldl add_event s es) = receipts s /\ tools (foldl add_event s es) = tools s.
Proof. revert s. induction es as [|e es IH]; intros s; [done|]. cbn. by destruct (IH (add_event s e)) as (-> & -> & -> & ->). Qed.

Lemma add_tools_frame xs s :
  tasks (foldl add_tool s xs) = tasks s /\ requests (foldl add_tool s xs) = requests s /\
  receipts (foldl add_tool s xs) = receipts s /\ events (foldl add_tool s xs) = events s.
Proof. revert s. induction xs as [|x xs IH]; intros s; [done|]. cbn. by destruct (IH (add_tool s x)) as (-> & -> & -> & ->). Qed.

Lemma history_after_event s e k : history (add_event s e) k =
  if decide (Resp_Request e = k) then <[Resp_Sequence e := e]> (history s k) else history s k.
Proof. unfold add_event. rewrite history_insert. case_decide; by subst. Qed.

(** Events of one request, numbered on from [n]. *)
Fixpoint numbered (key : StoreRequestKey) (n : Z) (es : list StoreResponseEventRecord) : Prop :=
  match es with
  | [] => True
  | e :: es => Resp_Request e = key /\ Resp_Sequence e = (n + 1)%Z /\ numbered key (n + 1) es
  end.

Lemma numbered_app key n es es' :
  numbered key n (es ++ es') <-> numbered key n es /\ numbered key (n + Z.of_nat (length es)) es'.
Proof.
  revert n. induction es as [|e es IH]; intros n; cbn [numbered app length].
  - replace (n + Z.of_nat 0)%Z with n by lia. tauto.
  - rewrite IH. replace (n + 1 + Z.of_nat (length es))%Z with (n + Z.of_nat (S (length es)))%Z by lia. tauto.
Qed.

Lemma numbered_elem key n es e : numbered key n es -> e ∈ es ->
  Resp_Request e = key /\ (n < Resp_Sequence e <= n + Z.of_nat (length es))%Z.
Proof.
  revert n. induction es as [|x es IH]; intros n H He; [by apply elem_of_nil in He|].
  destruct H as (Hk & Hs & H). cbn [length]. apply elem_of_cons in He as [->|He]; [split; [done|lia]|].
  destruct (IH _ H He) as [? ?]. split; [done|]. lia.
Qed.

Lemma numbered_lookup key n es i e : numbered key n es -> es !! i = Some e -> Resp_Sequence e = (n + 1 + Z.of_nat i)%Z.
Proof.
  revert n i. induction es as [|x es IH]; intros n [|i] H Hi; cbn in Hi; try done.
  - injection Hi as ->. destruct H as (_ & -> & _). lia.
  - destruct H as (_ & _ & H). rewrite (IH _ _ H Hi). lia.
Qed.

Lemma history_numbered key n es s k m e : numbered key n es ->
  history (foldl add_event s es) k !! m = Some e <->
  (k = key /\ e ∈ es /\ Resp_Sequence e = m) \/
  (history s k !! m = Some e /\ (k <> key \/ (m <= n)%Z \/ (n + Z.of_nat (length es) < m)%Z)).
Proof.
  revert n s. induction es as [|x es IH]; intros n s H.
  - cbn. split; [intros He; right; split; [done|]; lia|]. intros [(_ & He & _)|[He _]]; [by apply elem_of_nil in He | done].
  - cbn [foldl]. destruct H as (Hk & Hs & H). rewrite (IH _ _ H), history_after_event. cbn [length].
    case_decide as E.
    + assert (k = key) as -> by congruence. rewrite lookup_insert_Some, elem_of_cons. split.
      * intros [(? & ? & ?)|[[[<- <-]|[Hne Hm]] ?]]; [left; tauto | left; split_and!; auto; lia | right; split; [done|]].
        destruct H0 as [|[|]]; [done | |right; right; lia]. right; left. lia.
      * intros [(_ & [->|?] & ?)|[Hm Ho]]; [right | left; tauto | right].
        -- split; [left; done|]. right; left. lia.
        -- destruct Ho as [|Ho]; [done|]. split; [right; split; [lia | done]|]. right. lia.
    + split.
      * intros [(? & ? & ?)|[Hm _]]; [congruence|]. right. split; [done|]. left. congruence.
      * intros [(? & _)|[Hm _]]; [congruence|]. right. split; [done|]. left. congruence.
Qed.

(** A history whose records are numbered from one is the list of them. *)
Lemma numbered_NoDup key n es : numbered key n es -> NoDup (Resp_Sequence <$> es).
Proof.
  revert n. induction es as [|e es IH]; intros n H; [constructor|]. destruct H as (_ & Hs & H). rewrite fmap_cons.
  constructor; [|by eapply IH]. rewrite list_elem_of_fmap. intros (x & Hx & Hin).
  destruct (numbered_elem _ _ _ _ H Hin). lia.
Qed.

Lemma numbered_ascending key n es : numbered key n es -> ascending (fun x y => (Resp_Sequence x <? Resp_Sequence y)%Z) es.
Proof.
  unfold ascending. revert n. induction es as [|e es IH]; intros n H; [constructor|]. destruct H as (_ & Hs & H).
  constructor; [by eapply IH|]. rewrite Forall_forall. intros x Hx. destruct (numbered_elem _ _ _ _ H Hx).
  rewrite Hs. apply Z.ltb_ge. lia.
Qed.

Lemma response_events_of s key n es : ledger_ok s -> numbered key n es ->
  (forall m e, history s key !! m = Some e <-> e ∈ es /\ Resp_Sequence e = m) -> response_events s key = es.
Proof.
  intros Hs Hn Hes. destruct (response_events_sorted s Hs key) as [Hnd Hasc].
  apply (ascending_unique Resp_Sequence Z.ltb strict_total_Zlt (fun x y => (Resp_Sequence x <? Resp_Sequence y)%Z) ltac:(done)).
  - intros x y Hx Hy E. apply (elem_response_events s Hs) in Hx, Hy. rewrite E in Hx. congruence.
  - done.
  - by eapply numbered_ascending.
  - apply NoDup_Permutation; [by eapply NoDup_fmap_1 | eapply NoDup_fmap_1; by eapply numbered_NoDup|].
    intros e. rewrite (elem_response_events s Hs), Hes. tauto.
Qed.

(** The history of a request is numbered up to its cursor. *)
Definition whole_history (s : memoryLLMState) (key : StoreRequestKey) (cursor : Z) : Prop :=
  numbered key 0 (response_events s key) /\ Z.of_nat (length (response_events s key)) = cursor.

Lemma response_events_add s s' key cursor es : ledger_ok s -> ledger_ok s' -> whole_history s key cursor ->
  numbered key cursor es -> events s' = events (foldl add_event s es) ->
  response_events s' key = response_events s key ++ es.
Proof.
  intros Hs Hs' [Hn Hl] Hes He. apply (response_events_of s' key 0); [done | apply numbered_app; split; [done|]; by rewrite Hl|].
  intros m e. assert (history s' key = history (foldl add_event s es) key) as -> by (unfold history; by rewrite He).
  rewrite (history_numbered _ _ _ _ _ _ _ Hes), elem_of_app, (elem_response_events s Hs). split.
  - intros [(_ & ? & ?)|[Hm _]]; [tauto|]. destruct (ledger_event_key s Hs _ _ _ Hm) as (_ & <- & _). tauto.
  - intros [[Hm|Hm] <-]; [|left; tauto]. right. split; [done|]. right; left.
    apply (elem_response_events s Hs) in Hm. destruct (numbered_elem _ _ _ _ Hn Hm). lia.
Qed.

Lemma response_events_other s s' key k n es : numbered key n es -> events s' = events (foldl add_event s es) -> k <> key ->
  history s' k = history s k.
Proof.
  intros Hes He Hk. transitivity (history (foldl add_event s es) k); [unfold history; by rewrite He|].
  apply map_eq. intros m. apply option_eq. intros e. rewrite (history_numbered _ _ _ _ _ _ _ Hes). split.
  - intros [(? & _)|[? _]]; done.
  - intros Hm. right. tauto.
Qed.

Lemma response_events_same s s' k : history s' k = history s k -> response_events s' k = response_events s k.
Proof. unfold response_events. by intros ->. Qed.

Lemma add_events_ext es s1 s2 : events s1 = events s2 -> events (foldl add_event s1 es) = events (foldl add_event s2 es).
Proof.
  revert s1 s2. induction es as [|e es IH]; intros s1 s2 H; [done|]. cbn. apply IH. unfold add_event, history. cbn. by rewrite H.
Qed.

(* ------------------------------------------------------------------ *)
(** ** The commit of a worker event *)

Definition settled (p : eventCommit) (key : StoreRequestKey) (taskKey : StoreTaskKey) (s : memoryLLMState)
    : memoryLLMState :=
  {| tasks := match commit_task p with Some t => <[taskKey := t]> (tasks s) | None => tasks s end;
     requests := <[key := commit_request p]> (requests s);
     events := events (foldl add_event s (commit_events p));
     receipts := <[WriteOp.receiptKey (commit_receipt p) := commit_receipt p]> (receipts s);
     tools := tools (foldl add_tool s (commit_tools p)) |}.

Lemma swapped_Ok e m s : swapped e m = Ok s <-> m = Ok (true, s).
Proof.
  unfold swapped. destruct m as [[[] s1]|]; cbn; split; congruence.
Qed.

(** The receipt is there already, or the records are written on top of the
    revisions that were read. *)
Lemma commitTx_inv service connection delivery state p s s' u :
  commitTx service connection delivery state p (live s) = Ok (u, s') ->
  let r := durable_request state in let t := durable_task state in let receipt := commit_receipt p in
  let id := Event_ID (EventDelivery_Event delivery) in
  (s' = s /\ exists existing, receipt_at s (Req_Key r) id = Some existing /\
     Receipt_Worker existing = Receipt_Worker receipt /\ Receipt_Digest existing = Receipt_Digest receipt) \/
  (s' = settled p (Req_Key r) (Task_Key t) s /\ receipt_at s (Req_Key r) id = None /\
   exists r0 t0, requests s !! Req_Key r = Some r0 /\ tasks s !! Task_Key t = Some t0 /\
     Req_Revision r0 = Req_Revision r /\ Task_Revision t0 = Task_Revision t /\ Req_ResponseComplete r0 = false /\
     Task_LeaseOwner t0 = conn_worker connection /\ Task_LeaseID t0 = EventDelivery_LeaseID delivery /\
     (forall l1 e l2, commit_events p = l1 ++ e :: l2 ->
        history (foldl add_event s l1) (Resp_Request e) !! Resp_Sequence e = None /\
        memoryLLMValidateResponseEvent e = Ok tt) /\
     (forall l1 x l2, commit_tools p = l1 ++ x :: l2 -> tested_tool (foldl add_tool s l1) x) /\
     receipts s !! WriteOp.receiptKey receipt = None /\ memoryLLMValidateWorkerReceipt receipt = Ok tt).
Proof.
  intros H r t receipt id. unfold commitTx in H. fold r t receipt id in H.
  destruct (ReadOp.LoadWorkerReceipt _ _ _) as [existing|e] eqn:Er.
  - left. apply load_receipt in Er. destruct (_ && _)%bool eqn:E; [|done]. injection H as _ <-. split; [done|].
    exists existing. bool_split. decided. done.
  - right. apply obind_Ok in H as ([] & He & H). apply refuse_if_Ok, negb_false_iff in He.
    apply (load_no_receipt _ _ _ _ Er) in He. clear Er.
    apply obind_Ok in H as (r0 & Hr & H). apply load_request in Hr.
    apply obind_Ok in H as (t0 & Ht & H). apply load_task in Ht.
    apply obind_Ok in H as ([] & Hg & H). apply refuse_if_Ok in Hg. bool_split. decided.
    apply obind_Ok in H as (s1 & M1 & H). apply insert_tools in M1 as [-> Htools].
    apply obind_Ok in H as (s2 & M2 & H). apply insert_events in M2 as [-> Hevents].
    apply obind_Ok in H as (s3 & M3 & H). apply obind_Ok in H as (s4 & M4 & H). apply obind_Ok in H as (s5 & M5 & H).
    injection H as _ <-. apply swapped_Ok, CompareAndSwapRequest_inv in M4 as [[[=] _]|(rc & _ & Hrc & -> & _)].
    apply InsertWorkerReceipt_inv in M5 as (-> & Hfresh & _ & Hvalid).
    set (s1 := foldl add_tool s (commit_tools p)) in *. set (s2 := foldl add_event s1 (commit_events p)) in *.
    destruct (add_tools_frame (commit_tools p) s) as (T1 & T2 & T3 & T4). fold s1 in T1, T2, T3, T4.
    destruct (add_events_frame (commit_events p) s1) as (E1 & E2 & E3 & E4). fold s2 in E1, E2, E3, E4.
    assert (requests s3 = requests s /\ events s3 = events s2 /\ receipts s3 = receipts s /\ tools s3 = tools s1 /\
      tasks s3 = match commit_task p with Some t1 => <[Task_Key t := t1]> (tasks s) | None => tasks s end)
      as (Q1 & Q2 & Q3 & Q4 & Q5).
    { destruct (commit_task p) as [next|]; [|injection M3 as <-; unfold s2, s1 in *; split_and!; congruence].
      apply swapped_Ok, CompareAndSwapTask_inv in M3 as [[[=] _]|(tc & _ & Htc & -> & _)]. cbn.
      unfold s2, s1 in *. rewrite E1, T1. split_and!; congruence. }
    split_and!; [|done|].
    + unfold settled. cbn in *. unfold set_receipts, set_requests. cbn.
      rewrite Q1, Q2, Q3, Q4, Q5. f_equal. by apply add_events_ext.
    + exists r0, t0. cbn in Hfresh. rewrite Q3 in Hfresh. split_and!; try done.
      intros l1 e1 l2 E. destruct (Hevents _ _ _ E) as (F1 & _ & F2). split; [|done].
      rewrite <- F1. unfold history. by rewrite (add_events_ext l1 s s1).
Qed.

(* ------------------------------------------------------------------ *)
(** ** Acknowledgement and quarantine *)

Lemma ackTx_inv key lease now s s' u : ackTx key lease now (live s) = Ok (u, s') ->
  s' = s \/
  exists t, tasks s !! key = Some t /\ Task_State t = TaskLeased /\
    s' = set_tasks (<[key := advance_task t TaskAwaitingHuman now]> (tasks s)) s.
Proof.
  unfold ackTx. intros H. apply obind_Ok in H as (t & Ht & H). apply load_task in Ht.
  apply obind_Ok in H as ([] & Hg & H). destruct (Task_State t =?= TaskAwaitingHuman); [left; cbn in H; congruence|].
  apply obind_Ok in H as ([] & Hs & H). apply refuse_if_Ok in Hs. decided.
  apply obind_Ok in H as (s1 & H1 & H). injection H as _ <-. right. exists t. split_and!; [done..|].
  apply swapped_Ok, CompareAndSwapTask_inv in H1 as [[[=] _]|(c & _ & Hc & -> & _)]. done.
Qed.

Lemma quarantineTx_inv record es next nextTask s s' u :
  quarantineTx record es next nextTask (live s) = Ok (u, s') ->
  let r := Recovery_Request record in let t := Recovery_Task record in
  s' = s \/
  exists r0, requests s !! Req_Key r = Some r0 /\ Req_Revision r0 = Req_Revision r /\
    (forall nt, nextTask = Some nt -> exists t0, tasks s !! Task_Key t = Some t0 /\ Task_Revision t0 = Task_Revision t) /\
    s' = {| tasks := match nextTask with Some nt => <[Task_Key t := nt]> (tasks s) | None => tasks s end;
            requests := <[Req_Key r := next]> (requests s); events := events (foldl add_event s es);
            receipts := receipts s; tools := tools s |} /\
    forall l1 e l2, es = l1 ++ e :: l2 -> memoryLLMValidateResponseEvent e = Ok tt.
Proof.
  intros H r t. unfold quarantineTx in H. fold r t in H.
  apply obind_Ok in H as (r0 & Hr & H). apply load_request in Hr.
  destruct (Req_RecoveryQuarantined r0 && _)%bool; [left; cbn in H; congruence|]. right. exists r0.
  apply obind_Ok in H as ([] & Hg & H). apply refuse_if_Ok in Hg. decided.
  apply obind_Ok in H as (s1 & H1 & H). apply obind_Ok in H as (s2 & H2 & H). apply insert_events in H2 as [-> Hes].
  apply obind_Ok in H as (s3 & H3 & H). injection H as _ <-.
  apply swapped_Ok, CompareAndSwapRequest_inv in H3 as [[[=] _]|(c & _ & Hc & -> & _)].
  destruct (add_events_frame es s1) as (E1 & E2 & E3 & E4).
  assert (requests s1 = requests s /\ events s1 = events s /\ receipts s1 = receipts s /\ tools s1 = tools s /\
    tasks s1 = match nextTask with Some nt => <[Task_Key t := nt]> (tasks s) | None => tasks s end /\
    (forall nt, nextTask = Some nt -> exists t0, tasks s !! Task_Key t = Some t0 /\ Task_Revision t0 = Task_Revision t))
    as (Q1 & Q2 & Q3 & Q4 & Q5 & Q6).
  { destruct nextTask as [nt|]; [|injection H1 as <-; done].
    apply obind_Ok in H1 as (t0 & Ht & H1). apply load_task in Ht. apply obind_Ok in H1 as ([] & Hg1 & H1).
    apply refuse_if_Ok in Hg1. decided. apply swapped_Ok, CompareAndSwapTask_inv in H1 as [[[=] _]|(tc & _ & Htc & -> & _)].
    split_and!; try done. intros ? _. eauto. }
  split_and!; try done.
  - unfold set_requests. cbn. rewrite E1, E2, E3, E4, Q1, Q3, Q4, Q5. f_equal. by apply add_events_ext.
  - intros l1 e l2 E. by destruct (Hes _ _ _ E) as (_ & _ & ?).
Qed.

(* ------------------------------------------------------------------ *)
(** ** Admission *)

Definition swap_tool (s : memoryLLMState) (m : toolResultMutation) : memoryLLMState :=
  set_tools (<[Exec_Key (result_current m) := result_next m]> (tools s)) s.
Definition tested_swap (s : memoryLLMState) (m : toolResultMutation) : Prop :=
  exists x, tools s !! Exec_Key (result_current m) = Some x /\ Exec_Revision x = Exec_Revision (result_current m) /\
    Exec_Key (result_next m) = Exec_Key x /\ Exec_Revision (result_next m) = inc64 (Exec_Revision x).

Lemma swap_tools ms s s' : insert_all swap_result ms s = Ok s' ->
  s' = foldl swap_tool s ms /\ forall l1 m l2, ms = l1 ++ m :: l2 -> tested_swap (foldl swap_tool s l1) m.
Proof.
  apply insert_all_fold. intros s0 m s1 H. unfold swap_result in H. apply swapped_Ok in H.
  destruct (tool_swap_next _ _ _ H) as (c' & Hc' & Hn).
  apply CompareAndSwapToolExecution_inv in H as [[[=] _]|(c & _ & Hc & -> & Hk & _ & _ & Hr)]. split; [done|].
  cbn in *. exists c. replace c' with c in Hn by congruence. done.
Qed.

Lemma swap_tools_frame ms s :
  tasks (foldl swap_tool s ms) = tasks s /\ requests (foldl swap_tool s ms) = requests s /\
  receipts (foldl swap_tool s ms) = receipts s /\ events (foldl swap_tool s ms) = events s.
Proof. revert s. induction ms as [|m ms IH]; intros s; [done|]. cbn. by destruct (IH (swap_tool s m)) as (-> & -> & -> & ->). Qed.

Lemma swap_tools_ext ms s1 s2 : tools s1 = tools s2 -> tools (foldl swap_tool s1 ms) = tools (foldl swap_tool s2 ms).
Proof.
  revert s1 s2. induction ms as [|m ms IH]; intros s1 s2 H; [done|]. cbn. apply IH. unfold swap_tool. cbn. by rewrite H.
Qed.

Definition superseded (stale : StoreRequestRecord) (now : time) : StoreRequestRecord :=
  advance_request stale (Req_LastEventSequence stale) (Some now) (Req_Decision stale).

Lemma supersede_inv service taskKey head now s s' : ledger_ok s -> supersede service taskKey head now s = Ok s' ->
  exists stale, requests s !! Head_Key head = Some stale /\ Req_Task stale = taskKey /\
    Req_RequestID stale = Head_RequestID head /\ Req_Revision stale = Head_Revision head /\
    Req_ResponseComplete stale = false /\
    s' = set_requests (<[Head_Key head := superseded stale now]> (requests s)) s.
Proof.
  unfold supersede. intros Hs H. apply obind_Ok in H as (active & Ha & H).
  destruct (ReadOp.FindActiveRequest (live s) taskKey) as [a|e] eqn:Ef; [|done]. injection Ha as ->.
  apply obind_Ok in H as ([] & Hg & H). apply refuse_if_Ok in Hg. bool_split. decided.
  apply obind_Ok in H as (stale & Hst & H). apply load_request in Hst.
  apply obind_Ok in H as ([] & Hg2 & H). apply refuse_if_Ok in Hg2. bool_split. decided.
  apply swapped_Ok, CompareAndSwapRequest_inv in H as [[[=] _]|(c & _ & Hc & -> & _)].
  unfold ReadOp.FindActiveRequest in Ef. rewrite llm_active_live in Ef. cbn [obind] in Ef.
  apply obind_Ok in Ef as ([] & _ & Ef). cbn [unit_state live] in Ef.
  destruct (select _ _) as [|x l] eqn:Es; [done|]. injection Ef as <-.
  assert (x ∈ select (fun record => (Req_Task record =?= taskKey) && negb (Req_ResponseComplete record))%bool (requests s)) as Hx
    by (rewrite Es; left).
  apply select_elem in Hx as (k & Hk & Hf). bool_split. decided.
  assert (k = Head_Key head) as -> by (rewrite <- (ledger_request_key s Hs _ _ Hk); done).
  cbn in *. assert (x = stale) as -> by congruence. exists stale. split_and!; try done. by rewrite H0.
Qed.

Lemma state_eq s1 s2 : tasks s1 = tasks s2 -> requests s1 = requests s2 -> events s1 = events s2 ->
  receipts s1 = receipts s2 -> tools s1 = tools s2 -> s1 = s2.
Proof. destruct s1, s2. cbn. congruence. Qed.

(** The state of the Task that an admission found: none, or the planned one. *)
Definition planned_task (plan : admissionTaskPlan) : option StoreTaskRecord :=
  if plan_existing plan then plan_task plan else None.

Definition admitted (plan : admissionTaskPlan) (records : admissionRecords) (stale : option StoreRequestRecord)
    (now : time) (s : memoryLLMState) : memoryLLMState :=
  let record := records_request records in
  {| tasks := <[Req_Task record := records_task records]> (tasks s);
     requests := <[Req_Key record := record]>
       (match stale with Some r => <[Req_Key r := superseded r now]> (requests s) | None => requests s end);
     events := events (foldl add_event s (records_events records)); receipts := receipts s;
     tools := tools (foldl swap_tool s (records_results records)) |}.

Lemma admitTx_inv service plan records now s s' u : ledger_ok s ->
  Task_Key (records_task records) = Req_Task (records_request records) ->
  admitTx service plan records now (live s) = Ok (u, s') ->
  let record := records_request records in
  exists stale, s' = admitted plan records stale now s /\ requests s !! Req_Key record = None /\
    memoryLLMValidateRequest record = Ok tt /\
    match planned_task plan with
    | None => tasks s !! Req_Task record = None /\ stale = None
    | Some planned =>
        (exists current, tasks s !! Req_Task record = Some current /\ Task_Revision current = Task_Revision planned /\
           Task_State current = Task_State planned) /\
        match plan_preempted plan, stale with
        | None, None => True
        | Some head, Some r => requests s !! Req_Key r = Some r /\ Req_Key r = Head_Key head /\
            Req_Task r = Req_Task record /\ Req_RequestID r = Head_RequestID head /\
            Req_Revision r = Head_Revision head /\ Req_ResponseComplete r = false
        | _, _ => False
        end
    end /\
    (Req_ResponseComplete record = false -> forall k r, requests s !! k = Some r -> Req_Task r = Req_Task record ->
       Req_ResponseComplete r = false -> exists r0, stale = Some r0 /\ Req_Key r0 = k) /\
    (forall l1 m l2, records_results records = l1 ++ m :: l2 -> tested_swap (foldl swap_tool s l1) m) /\
    (forall l1 e l2, records_events records = l1 ++ e :: l2 -> memoryLLMValidateResponseEvent e = Ok tt).
Proof.
  intros Hs Hkey H record. unfold admitTx in H. fold record in H.
  apply obind_Ok in H as ([] & Hf & H). apply obind_Ok in H as (s1 & H1 & H).
  apply obind_Ok in H as (s2 & H2 & H). apply swap_tools in H2 as [-> Hsw].
  apply obind_Ok in H as (s3 & H3 & H). apply InsertRequest_inv in H3 as (-> & Hn & Hv & _ & Hc).
  apply obind_Ok in H as (s4 & H4 & H). apply insert_events in H4 as [-> Hes]. injection H as _ <-.
  destruct (swap_tools_frame (records_results records) s1) as (T1 & T2 & T3 & T4).
  rewrite T2 in Hn, Hc. set (s2 := foldl swap_tool s1 (records_results records)) in *.
  match goal with |- context [foldl add_event ?x ?l] => destruct (add_events_frame l x) as (E1 & E2 & E3 & E4) end.
  assert (exists stale, requests s1 = match stale with Some r => <[Req_Key r := superseded r now]> (requests s) | None => requests s end /\
    events s1 = events s /\ receipts s1 = receipts s /\ tools s1 = tools s /\
    tasks s1 = <[Req_Task record := records_task records]> (tasks s) /\
    match planned_task plan with
    | None => tasks s !! Req_Task record = None /\ stale = None
    | Some planned =>
        (exists current, tasks s !! Req_Task record = Some current /\ Task_Revision current = Task_Revision planned /\
           Task_State current = Task_State planned) /\
        match plan_preempted plan, stale with
        | None, None => True
        | Some head, Some r => requests s !! Req_Key r = Some r /\ Req_Key r = Head_Key head /\
            Req_Task r = Req_Task record /\ Req_RequestID r = Head_RequestID head /\
            Req_Revision r = Head_Revision head /\ Req_ResponseComplete r = false
        | _, _ => False
        end
    end) as (stale & Q1 & Q2 & Q3 & Q4 & Q5 & Q6).
  { unfold planned_task. destruct (plan_existing plan); [destruct (plan_task plan) as [planned|]|].
    - apply obind_Ok in H1 as (current & Hcur & H1). apply load_task in Hcur.
      apply obind_Ok in H1 as ([] & Hg & H1). apply refuse_if_Ok in Hg. bool_split. decided.
      apply obind_Ok in H1 as (s1' & Hst & H1). apply swapped_Ok, CompareAndSwapTask_inv in H1 as [[[=] _]|(c & _ & Hc1 & -> & _)].
      destruct (plan_preempted plan) as [head|].
      + apply supersede_inv in Hst as (r & R1 & R2 & R3 & R4 & R5 & ->); [|done]. exists (Some r).
        pose proof (ledger_request_key s Hs _ _ R1) as Ek. cbn. rewrite Ek. split_and!; eauto.
      + injection Hst as <-. exists None. cbn. split_and!; eauto.
    - apply InsertTask_inv in H1 as (-> & Hn1 & _). exists None. cbn. rewrite Hkey in *. done.
    - apply InsertTask_inv in H1 as (-> & Hn1 & _). exists None. cbn. rewrite Hkey in *. done. }
  exists stale. split; [|split; [|split; [done|split; [done|split; [|split]]]]].
  - apply state_eq; unfold admitted; cbn [tasks requests events receipts tools]; fold record.
    + rewrite E1. cbn. unfold s2 in *. by rewrite T1.
    + rewrite E2. cbn. unfold s2 in *. by rewrite T2, Q1.
    + apply add_events_ext. cbn. unfold s2 in *. by rewrite T4.
    + rewrite E3. cbn. unfold s2 in *. by rewrite T3.
    + rewrite E4. by apply swap_tools_ext.
  - rewrite Q1 in Hn. destruct stale as [r|]; [|done]. apply lookup_insert_None in Hn. tauto.
  - intros Hinc k r Hr Ht Hr0. destruct stale as [r0|].
    + exists r0. split; [done|]. destruct (decide (Req_Key r0 = k)) as [|Hne]; [done|].
      destruct (Hc k r) as [Hc1 _]; [by rewrite Q1, lookup_insert_ne|]. by destruct (Hc1 Hinc Hr0).
    + destruct (Hc k r) as [Hc1 _]; [by rewrite Q1|]. by destruct (Hc1 Hinc Hr0).
  - intros l1 m l2 E. apply Hsw in E as (x & Hx & ?). exists x. split; [|done]. rewrite <- Hx. f_equal.
    symmetry. by apply swap_tools_ext.
  - intros l1 e l2 E. by destruct (Hes _ _ _ E) as (_ & _ & ?).
Qed.

(* ------------------------------------------------------------------ *)
(** ** Retention *)

(** Results of completed tool executions of a Task are dropped, nothing else
    of the tools changes. *)
Definition tools_pruned (task : StoreTaskKey) (prunedAt : time) (s s' : memoryLLMState) : Prop :=
  (tasks s' = tasks s /\ requests s' = requests s /\ events s' = events s /\ receipts s' = receipts s) /\
  (forall k, tools s !! k = None -> tools s' !! k = None) /\
  forall k x, tools s !! k = Some x -> tools s' !! k = Some x \/
    (tools s' !! k = Some (pruned_tool x prunedAt) /\ ToolKey_Task k = task /\
     Exec_State x = ToolExecutionCompleted /\ Exec_ResultPrunedAt x = None).

#[export] Instance tools_pruned_preorder task prunedAt : PreOrder (tools_pruned task prunedAt).
Proof.
  split; [intros s; split_and!; auto|]. intros s1 s2 s3 ((F1 & F2 & F3 & F4) & N1 & P1) ((G1 & G2 & G3 & G4) & N2 & P2).
  split_and!; try congruence; [auto|]. intros k x Hx.
  destruct (P1 _ _ Hx) as [Hx2|(Hx2 & ? & ? & ?)]; destruct (P2 _ _ Hx2) as [Hx3|(Hx3 & ? & ? & Hp)]; auto. by cbn in Hp.
Qed.

Lemma pruneToolBatch_inv task prunedAt l : forall s0 s pruned n s',
  revisions_ok s0 -> ledger_ok s0 -> transacts s0 s ->
  Forall (fun x => tools s0 !! Exec_Key x = Some x /\ ToolKey_Task (Exec_Key x) = task /\
    Exec_State x = ToolExecutionCompleted) l ->
  pruneToolBatch prunedAt l pruned s = Ok (n, s') -> transacts s s' /\ tools_pruned task prunedAt s s'.
Proof.
  induction l as [|x l IH]; intros s0 s pruned n s' Hr Hs Ht Hl H; cbn [pruneToolBatch] in H; [injection H as _ <-; split; reflexivity|].
  inversion Hl as [|? ? (Hx & Hk & Hst) Hl']; subst. destruct (Exec_ResultPrunedAt x) eqn:Ep; [by eapply IH|].
  apply obind_Ok in H as ([changed s1] & H1 & H). pose proof (step_CompareAndSwapToolExecution _ _ _ _ H1) as Hstep.
  destruct (IH s0 s1 _ _ _ Hr Hs ltac:(by eapply rtc_r) Hl' H) as [T P]. split; [by eapply rtc_l|].
  etransitivity; [|exact P].
  apply CompareAndSwapToolExecution_inv in H1 as [[-> ->]|(c & -> & Hc & -> & _ & _ & _ & Hrev)]; [reflexivity|].
  cbn in Hc, Hrev. destruct (advances_transacts _ _ Ht Hr) as [_ Ha]. destruct (advances_tool _ _ Ha _ _ Hx) as (c' & Hc' & L).
  replace c' with c in L by congruence. apply (later_same Exec_Revision) in L; [|done]. subst c.
  split_and!; try done; cbn.
  - intros k Hn. rewrite lookup_insert_ne; [done | congruence].
  - intros k y Hy. destruct (decide (Exec_Key x = k)) as [<-|Hne]; [|left; by rewrite lookup_insert_ne].
    right. rewrite lookup_insert_eq. replace y with x by congruence. done.
Qed.

Lemma scanned_tools s task limit after l : ledger_ok s -> memoryLLMValidTaskKey task = true ->
  ReadOp.ScanToolExecutions (live s) (tool_scan task (Some ToolExecutionCompleted) limit after) = Ok l ->
  exists rest, behind tool_id string_less (tool_executions s task (Some ToolExecutionCompleted)) after = l ++ rest /\
    Forall (fun x => tools s !! Exec_Key x = Some x /\ ToolKey_Task (Exec_Key x) = task /\
      Exec_State x = ToolExecutionCompleted) l.
Proof.
  intros Hs Hv H. rewrite (tool_page s Hs) in H by done. ok_inv. apply fit_page_Ok in H as (rest & Hr & _).
  exists rest. split; [done|]. rewrite Forall_forall. intros x Hx.
  assert (x ∈ behind tool_id string_less (tool_executions s task (Some ToolExecutionCompleted)) after) as Hin
    by (rewrite Hr; set_solver).
  apply list_elem_of_In, List.filter_In in Hin as [Hin _]. apply list_elem_of_In, list_elem_of_fmap in Hin as ([k y] & -> & Hin).
  apply elem_entries in Hin as [Hk Hf]. cbn in *. bool_split. decided.
  destruct (ledger_tool_key s Hs _ _ Hk) as (-> & _). done.
Qed.

Lemma pruneTools_inv task prunedAt fuel : memoryLLMValidTaskKey task = true -> forall after pruned s n s',
  revisions_ok s -> ledger_ok s -> pruneTools fuel task prunedAt after pruned s = Ok (n, s') ->
  transacts s s' /\ tools_pruned task prunedAt s s'.
Proof.
  intros Hv. induction fuel as [|fuel IH]; intros after pruned s n s' Hr Hs H; cbn [pruneTools] in H; [done|].
  apply obind_Ok in H as (l & Hl & H). destruct (last l) as [x|]; [|injection H as _ <-; split; reflexivity].
  apply obind_Ok in H as ([p1 s1] & H1 & H). destruct (scanned_tools _ _ _ _ _ Hs Hv Hl) as (_ & _ & Hall).
  destruct (pruneToolBatch_inv _ _ _ _ _ _ _ _ Hr Hs (rtc_refl _ _) Hall H1) as [T1 P1].
  destruct (advances_transacts _ _ T1 Hr) as [Hr1 _]. pose proof (ledger_transacts _ _ T1 Hs) as Hs1.
  destruct (IH _ _ _ _ _ Hr1 Hs1 H) as [T2 P2]. split; by etransitivity.
Qed.

Lemma pruneTx_inv key boundary prunedAt retain s s' result : ledger_ok s -> revisions_ok s ->
  pruneTx key boundary prunedAt retain (live s) = Ok (result, s') ->
  transacts s s' /\
  (s' = s \/
   exists r, requests s !! key = Some r /\ Req_ResponseComplete r = true /\ Req_PayloadPrunedAt r = None /\
     After (effectiveCompletedAt r) boundary = false /\
     requests s' = <[key := pruned_request r prunedAt]> (requests s) /\ events s' = delete key (events s) /\
     tasks s' = tasks s /\ receipts s' = receipts s /\
     (forall k, tools s !! k = None -> tools s' !! k = None) /\
     forall k x, tools s !! k = Some x -> tools s' !! k = Some x \/
       (tools s' !! k = Some (pruned_tool x prunedAt) /\ ToolKey_Task k = Req_Task r /\
        Exec_State x = ToolExecutionCompleted /\ Exec_ResultPrunedAt x = None /\ retain = false /\
        exists t, tasks s !! Req_Task r = Some t /\ TaskState_Terminal (Task_State t) = true)).
Proof.
  intros Hs Hr H. unfold pruneTx in H. apply obind_Ok in H as (r & Hload & H). apply load_request in Hload.
  pose proof (ledger_request_key s Hs _ _ Hload) as Hkey.
  destruct (_ || After _ _)%bool eqn:Eg; [injection H as _ <-; split; [done|by left]|].
  bool_split. apply is_none_true in H2.
  apply obind_Ok in H as ([changed s1] & H4 & H).
  pose proof (step_CompareAndSwapRequest _ _ _ _ H4) as St1.
  apply CompareAndSwapRequest_inv in H4 as [[-> ->]|(c & -> & Hc & -> & _)]; [injection H as _ <-; split; [done|by left]|].
  cbn [negb] in H. apply obind_Ok in H as ([deleted s2] & H5 & H).
  pose proof (step_DeleteTombstonedResponseEvents _ _ _ _ H5) as St2.
  apply DeleteTombstonedResponseEvents_inv in H5 as (-> & _ & _).
  cbn [RequestMutation_Key RequestMutation_Next] in *. rewrite Hkey in *.
  match type of St1 with tx_step _ ?x => set (s1 := x) in * end.
  match type of St2 with tx_step _ ?x => set (s2 := x) in * end.
  assert (transacts s s2) as T2 by (eapply rtc_l; [done|]; by apply rtc_once).
  assert (forall b, b = s2 -> transacts s b /\ (b = s \/ exists r0, requests s !! key = Some r0 /\
    Req_ResponseComplete r0 = true /\ Req_PayloadPrunedAt r0 = None /\ After (effectiveCompletedAt r0) boundary = false /\
    requests b = <[key := pruned_request r0 prunedAt]> (requests s) /\ events b = delete key (events s) /\
    tasks b = tasks s /\ receipts b = receipts s /\ (forall k, tools s !! k = None -> tools b !! k = None) /\
    forall k x, tools s !! k = Some x -> tools b !! k = Some x \/ (tools b !! k = Some (pruned_tool x prunedAt) /\
      ToolKey_Task k = Req_Task r0 /\ Exec_State x = ToolExecutionCompleted /\ Exec_ResultPrunedAt x = None /\ retain = false /\
      exists t, tasks s !! Req_Task r0 = Some t /\ TaskState_Terminal (Task_State t) = true))) as Hdone.
  { intros b ->. split; [done|]. right. exists r. split_and!; try done. intros; by left. }
  destruct retain; [injection H as _ <-; by apply Hdone|].
  apply obind_Ok in H as (t & Ht & H). apply load_task in Ht. cbn in Ht.
  destruct (TaskState_Terminal (Task_State t)) eqn:Et; cbn [negb] in H; [|injection H as _ <-; by apply Hdone].
  apply obind_Ok in H as ([pruned s3] & H6 & H). injection H as _ <-.
  destruct (advances_transacts _ _ T2 Hr) as [Hr2 _].
  assert (memoryLLMValidTaskKey (Req_Task r) = true) as Hv.
  { cbn [pruneTools] in H6. apply obind_Ok in H6 as (? & Hscan & _).
    unfold ReadOp.ScanToolExecutions in Hscan. ok_inv.
    match goal with H : negb (memoryLLMValidTaskKey _) = false |- _ => by apply negb_false_iff in H end. }
  apply pruneTools_inv in H6 as [T3 ((F1 & F2 & F3 & F4) & N & P)]; [|done..|by eapply ledger_transacts].
  split; [by etransitivity|]. right. exists r. split_and!; try done; try congruence.
  intros k x Hx. destruct (P k x Hx) as [|(? & ? & ? & ?)]; [by left|]. right. split_and!; eauto.
Qed.

(** The loop over the tools ends: its fuel is never used up. *)
Lemma tool_ids_same s s' task prunedAt : ledger_ok s -> ledger_ok s' -> tools_pruned task prunedAt s s' ->
  tool_id <$> tool_executions s' task (Some ToolExecutionCompleted) =
  tool_id <$> tool_executions s task (Some ToolExecutionCompleted).
Proof.
  intros Hs Hs' (_ & N & P).
  assert (forall s, ledger_ok s -> NoDup (tool_id <$> tool_executions s task (Some ToolExecutionCompleted)) /\
    ascending string_less (tool_id <$> tool_executions s task (Some ToolExecutionCompleted)) /\
    forall id, id ∈ tool_id <$> tool_executions s task (Some ToolExecutionCompleted) <->
      exists x, tools s !! {| ToolKey_Task := task; ToolKey_ToolCallID := id |} = Some x /\ Exec_State x = ToolExecutionCompleted)
    as Hids.
  { clear. intros s Hs.
    destruct (values_sorted (tools s) (tool_filter task (Some ToolExecutionCompleted)) ToolKey_ToolCallID _ string_less tool_id
      strict_total_string (tool_back s task _) (tool_key_id s Hs)) as [Hnd Hsort]. split_and!; [done| |].
    - unfold ascending in *. change (tool_executions s task (Some ToolExecutionCompleted)) with
        (values (tools s) (tool_filter task (Some ToolExecutionCompleted)) ToolKey_ToolCallID string_less).
      induction Hsort as [|x l Hl IH Hf]; [constructor|]. rewrite fmap_cons in *. constructor;
        [apply IH; by apply NoDup_cons in Hnd as [_ ?]|].
      by apply Forall_fmap.
    - intros id. rewrite list_elem_of_fmap. split.
      + intros (x & -> & Hx). apply list_elem_of_fmap in Hx as ([k y] & -> & Hin). apply elem_entries in Hin as [Hk Hf].
        cbn in *. bool_split. decided. exists y. destruct (ledger_tool_key s Hs _ _ Hk) as (E & _).
        split; [|done]. unfold tool_id. rewrite E. subst task. by destruct k.
      + intros (x & Hx & Hst). exists x. destruct (ledger_tool_key s Hs _ _ Hx) as (E & _). split; [by unfold tool_id; rewrite E|].
        apply list_elem_of_fmap. eexists (_, x). split; [done|]. apply elem_entries. split; [done|].
        unfold tool_filter. cbn. by rewrite !bool_decide_eq_true_2. }
  destruct (Hids s Hs) as (D1 & A1 & E1), (Hids s' Hs') as (D2 & A2 & E2).
  apply (ascending_unique (fun x => x) string_less strict_total_string string_less ltac:(done)); [done..|].
  apply NoDup_Permutation; [done..|]. intros id. rewrite E1, E2. split.
  - intros (x & Hx & Hst). destruct (tools s !! _) as [y|] eqn:Ey; [|by rewrite (N _ Ey) in Hx].
    exists y. split; [done|]. destruct (P _ _ Ey) as [Hy|(Hy & _ & ? & _)]; [congruence | done].
  - intros (x & Hx & Hst). destruct (P _ _ Hx) as [Hy|(Hy & _)]; eauto.
Qed.

Lemma length_behind l c : length (behind tool_id string_less l c) = length (List.filter (string_less c) (tool_id <$> l)).
Proof. induction l as [|x l IH]; [done|]. unfold behind in *. cbn. destruct (string_less c (tool_id x)); cbn; by rewrite IH. Qed.

Lemma tool_swap_error u m e : WriteOp.CompareAndSwapToolExecution u m = Err e -> e <> out_of_fuel.
Proof.
  unfold WriteOp.CompareAndSwapToolExecution, ensureActive, refuse_if. intros H ->.
  repeat match type of H with
  | context [if ?b then _ else _] => destruct b; cbn [obind] in H
  | context [match ?o with Some _ => _ | None => _ end] => destruct o; cbn [obind] in H
  end; done.
Qed.

Lemma pruneToolBatch_error prunedAt l : forall pruned s e, pruneToolBatch prunedAt l pruned s = Err e -> e <> out_of_fuel.
Proof.
  induction l as [|x l IH]; intros pruned s e H; cbn [pruneToolBatch] in H; [done|].
  destruct (Exec_ResultPrunedAt x); [by eapply IH|].
  destruct (WriteOp.CompareAndSwapToolExecution _ _) as [[c s1]|e1] eqn:E; cbn [obind] in H; [by eapply IH|].
  injection H as ->. by eapply tool_swap_error.
Qed.

Lemma pruneTools_total task prunedAt fuel : memoryLLMValidTaskKey task = true -> forall after pruned s,
  revisions_ok s -> ledger_ok s ->
  (length (behind tool_id string_less (tool_executions s task (Some ToolExecutionCompleted)) after) < fuel)%nat ->
  pruneTools fuel task prunedAt after pruned s <> Err out_of_fuel.
Proof.
  intros Hv. induction fuel as [|fuel IH]; intros after pruned s Hr Hs Hf; [lia|]. cbn [pruneTools].
  destruct (ReadOp.ScanToolExecutions _ _) as [l|e] eqn:El; cbn [obind].
  2:{ intros [= ->]. rewrite (tool_page s Hs) in El by done.
      destruct (refuse_if _ _) as [[]|e] eqn:Er; cbn [obind] in El; [by apply fit_page_Err in El as (? & _)|].
      injection El as ->. by destruct (_ <? _)%Z in Er. }
  destruct (last l) as [x|] eqn:Elast; [|done]. destruct (scanned_tools _ _ _ _ _ Hs Hv El) as (rest & Hrest & Hall).
  destruct (pruneToolBatch prunedAt l pruned s) as [[p1 s1]|e] eqn:Eb; cbn [obind];
    [|intros [= ->]; by apply pruneToolBatch_error in Eb].
  destruct (pruneToolBatch_inv _ _ _ _ _ _ _ _ Hr Hs (rtc_refl _ _) Hall Eb) as [T1 P1].
  destruct (advances_transacts _ _ T1 Hr) as [Hr1 _]. pose proof (ledger_transacts _ _ T1 Hs) as Hs1.
  apply IH; [done..|]. rewrite length_behind, (tool_ids_same _ _ _ _ Hs Hs1 P1), <- length_behind.
  destruct (values_sorted (tools s) (tool_filter task (Some ToolExecutionCompleted)) ToolKey_ToolCallID _ string_less tool_id
    strict_total_string (tool_back s task _) (tool_key_id s Hs)) as [Hnd Hsort].
  assert (behind tool_id string_less (tool_executions s task (Some ToolExecutionCompleted)) (tool_id x) = rest) as ->
    by exact (behind_next tool_id string_less strict_total_string _ _ _ _ _ Hnd Hsort Hrest Elast).
  rewrite Hrest, length_app in Hf. destruct l; [done|]. cbn in Hf. lia.
Qed.

(** With the fuel it is given the loop always ends. *)
Lemma pruneTools_ends task prunedAt s : memoryLLMValidTaskKey task = true -> revisions_ok s -> ledger_ok s ->
  pruneTools (S (size (tools s))) task prunedAt "" 0 s <> Err out_of_fuel.
Proof.
  intros Hv Hr Hs. apply pruneTools_total; [done..|]. rewrite (tools_behind_empty s Hs).
  pose proof (length_values (tools s) (tool_filter task (Some ToolExecutionCompleted)) ToolKey_ToolCallID string_less).
  unfold tool_executions. fold (tool_filter task (Some ToolExecutionCompleted)). lia.
Qed.
