(* ===== verification/LlmMachine.v ===== *)
(** * The commits of the HumanLLM service

    An operation of the service reads, computes, calls its ports and commits
    later, when other callers may have committed in between.  [committing],
    [admitting] and [quarantining] say what such an operation does: what it
    read at [s1], what it computed from it, and the state [s'] it makes of the
    state [s2] it finds when it commits.  An [effect] is one of them that found
    exactly what it had read, an acknowledgement, or the pruning of a request:
    the atomic steps of the service. *)

From S2P Require Import Prelude GoText GoEncoding GoTime GoJson GoStrings GoDoc GoStruct.
From S2P Require Import AgentTypes Framework Protect LlmTypes LlmJson LlmMemory LlmLedger LlmScan LlmRuntime LlmProg LlmEvents.
From S2P Require Import LlmService LlmCommit LlmRecovery LlmAdmission LlmMaintenance LlmEffects.

Import Llm.
Local Open Scope string_scope.
Local Open Scope list_scope.

(* ------------------------------------------------------------------ *)
(** ** Numbering *)

Lemma inc64_nonzero n : uint64 n -> inc64 n <> 0%Z -> inc64 n = (n + 1)%Z.
Proof.
  unfold uint64, inc64. intros Hn H. destruct (decide (n + 1 = 18446744073709551616)%Z) as [E|E]; [by rewrite E in H|].
  rewrite Z.mod_small; lia.
Qed.

Lemma inc64_uint64 n : uint64 (inc64 n).
Proof. unfold uint64, inc64. apply Z.mod_pos_bound. lia. Qed.

(** An event as the service writes it. *)
Definition written (worker : WorkerID) (id : string) (digest : StoreDigest) (now : time) (kind : StoreResponseEventKind)
    (e : StoreResponseEventRecord) : Prop :=
  Resp_Worker e = worker /\ Resp_WorkerEventID e = id /\ Resp_WorkerEventDigest e = digest /\ Resp_CreatedAt e = now /\
  Resp_Kind e = kind.

Section Records.
Context (service : Service) (ctx : goctx) {X : Type} (sealing : res string -> outcome X string).

Lemma wire_records_written key rid worker id digest now l : forall n es,
  wire_records service ctx sealing key rid n worker id digest now l = Ok es ->
  length es = length l /\ Forall (written worker id digest now StoreEventWire) es /\
  Forall (fun e => uint64 (Resp_Sequence e)) es.
Proof.
  induction l as [|frame l IH]; intros n es H; cbn [wire_records] in H; [by injection H as <-|].
  apply obind_Ok in H as (stored & _ & H). apply obind_Ok in H as (rest & Hr & H). injection H as <-.
  destruct (IH _ _ Hr) as (H1 & H2 & H3). cbn. split_and!; [congruence | by constructor|].
  constructor; [apply inc64_uint64 | done].
Qed.

Lemma wire_records_numbered key rid worker id digest now l : forall n es,
  wire_records service ctx sealing key rid n worker id digest now l = Ok es -> uint64 n ->
  Forall (fun e => Resp_Sequence e <> 0%Z) es -> numbered key n es.
Proof.
  induction l as [|frame l IH]; intros n es H Hn Hz; cbn [wire_records] in H; [by injection H as <-|].
  apply obind_Ok in H as (stored & _ & H). apply obind_Ok in H as (rest & Hr & H). injection H as <-.
  apply Forall_cons in Hz as [Hz Hz']. cbn in Hz. pose proof (inc64_nonzero n Hn Hz) as E.
  pose proof (inc64_uint64 n) as Hu. rewrite E in *. split_and!; [done|done|]. by apply (IH _ _ Hr).
Qed.
End Records.

Lemma numbered_last key n es d : numbered key n es ->
  match last es with Some e => Resp_Sequence e | None => d end =
  if decide (es = []) then d else (n + Z.of_nat (length es))%Z.
Proof.
  intros H. destruct (last es) as [e|] eqn:E.
  - apply last_Some in E as [l ->]. apply numbered_app in H as [_ (_ & Hs & _)].
    rewrite decide_False by (by destruct l). rewrite Hs, length_app. cbn. lia.
  - apply last_None in E as ->. done.
Qed.

(* ------------------------------------------------------------------ *)
(** ** The records of a commit, of a start, of a quarantine *)

(** A checkpoint and the wire records behind it. *)
Definition step_records (key : StoreRequestKey) (n : Z) (worker : WorkerID) (id : string) (digest : StoreDigest)
    (now : time) (es : list StoreResponseEventRecord) : Prop :=
  Forall (fun e => uint64 (Resp_Sequence e)) es /\
  (uint64 n -> Forall (fun e => Resp_Sequence e <> 0%Z) es -> numbered key n es) /\
  exists first wires, es = first :: wires /\ written worker id digest now StoreEventCheckpoint first /\
    Forall (written worker id digest now StoreEventWire) wires.

Lemma step_records_cons {X} service ctx (sealing : res string -> outcome X string) key rid n worker id digest now stored l wires :
  wire_records service ctx sealing key rid (inc64 n) worker id digest now l = Ok wires ->
  step_records key n worker id digest now
    (response_event key (inc64 n) StoreEventCheckpoint worker id digest stored now :: wires).
Proof.
  intros H. destruct (wire_records_written _ _ _ _ _ _ _ _ _ _ _ _ H) as (_ & H2 & H3). split_and!.
  - constructor; [apply inc64_uint64 | done].
  - intros Hn Hz. apply Forall_cons in Hz as [Hz Hz']. cbn in Hz. pose proof (inc64_nonzero n Hn Hz) as E.
    pose proof (inc64_uint64 n) as Hu. rewrite E in *. split_and!; [done|done|]. by eapply wire_records_numbered.
  - do 2 eexists. split; [done|]. by split.
Qed.

Lemma numbered_stamp key n now es : numbered key n (stamp now <$> es) <-> numbered key n es.
Proof. revert n. induction es as [|e es IH]; intros n; [done|]. rewrite fmap_cons. cbn [numbered stamp Resp_Request Resp_Sequence]. by rewrite IH. Qed.

Lemma stamp_records key n worker id digest now now' es : step_records key n worker id digest now es ->
  step_records key n worker id digest now' (stamp now' <$> es).
Proof.
  intros (H1 & H2 & first & wires & -> & Hf & Hw). split_and!.
  - apply Forall_fmap. by apply H1.
  - intros Hn Hz. rewrite numbered_stamp. apply H2; [done|]. by rewrite Forall_fmap in Hz.
  - do 2 eexists. rewrite fmap_cons. split; [done|]. unfold written in *. destruct Hf as (F1 & F2 & F3 & _ & F5). split; [by split_and!|].
    apply Forall_fmap. eapply Forall_impl; [exact Hw|]. intros e (E1 & E2 & E3 & _ & E5). by split_and!.
Qed.

Section Prepared.
Context (service : Service) (ctx : goctx) (connection : serviceWorkerConnection).

Lemma prepareCommit_inv delivery digest state registration planned seed l done now p :
  prepareCommit service ctx connection delivery digest state registration planned seed l done now = Ok p ->
  let r := durable_request state in let t := durable_task state in
  let id := Event_ID (EventDelivery_Event delivery) in let worker := conn_worker connection in
  commit_tools p = Plan.plan_tools planned /\ commit_done p = done /\
  commit_task p = (if Plan.plan_state planned <>? Task_State t
                   then Some (advance_task t (Plan.plan_state planned) now) else None) /\
  commit_receipt p = {| Receipt_Request := Req_Key r; Receipt_EventID := id; Receipt_Worker := worker;
                        Receipt_Digest := digest; Receipt_CreatedAt := now |} /\
  step_records (Req_Key r) (Req_LastEventSequence r) worker id digest now (commit_events p) /\
  exists decision, commit_request p =
    advance_request r (match last (commit_events p) with Some e => Resp_Sequence e | None => 0%Z end)
      (if done then Some now else None) decision.
Proof.
  intros H r t id worker. unfold prepareCommit in H. fold r t id worker in H.
  apply obind_Ok in H as (checkpoint & _ & H). apply obind_Ok in H as (stored & _ & H).
  apply obind_Ok in H as ([wires body] & Hw & H). injection H as <-.
  cbn [commit_tools commit_done commit_task commit_receipt commit_events commit_request].
  split_and!; try done.
  - destruct (Req_Mode r =?= ResponseStream).
    + apply obind_Ok in Hw as (ws & Hws & [= <- <-]). by eapply step_records_cons.
    + apply obind_Ok in Hw as (b & _ & [= <- <-]).
      by apply (step_records_cons (X := unit) service ctx (fun _ => Err tt) _ "" _ _ _ _ _ _ []).
  - eexists. f_equal. rewrite last_cons. by destruct (last wires).
Qed.

Lemma refused_Ok {A} (f : error -> error) (m : res A) a : refused f m = Ok a <-> m = Ok a.
Proof. unfold refused. destruct m; split; congruence. Qed.

(** What the start of a response computed. *)
Lemma draftResponse_inv decoded identity answer draft :
  draftResponse service ctx decoded identity answer = Ok draft ->
  let registration := decoded_registration decoded in
  let codec := Admission_CodecID (decoded_input decoded) in
  let mode := if Request_Stream (decoded_request decoded) then ResponseStream else ResponseAggregate in
  let key := admit_key identity in let rid := admit_requestID identity in
  exists seed encoder start started checkpoint stored wires,
    let session := {| Session_ResponseID := admit_responseID identity; Session_Model := Request_Model (decoded_request decoded);
                      Session_Seed := seed |} in
    (exists seed0, normalizeSessionSeed seed0 = Ok seed) /\
    Seed_ToolCallPolicy seed = Request_ToolCallPolicy (decoded_request decoded) /\
    EncoderSession_Validate session = Ok tt /\
    newEncoder registration mode session = Ok encoder /\
    Encoder_Start (registered_codec registration) encoder = Ok (start, started) /\
    check_frames (Codec_Limits (registered_description registration)) mode start false = Ok tt /\
    checkPersistedFrameStep start = Ok tt /\
    Marshal encoderCheckpoint_json (session_checkpoint session) = Ok checkpoint /\
    sealPayload service ctx (requestPayloadBinding key rid) (Some (decoded_canonical decoded)) = Ok (draft_canonical draft) /\
    sealPayload service ctx (responseEventBinding key rid 1) (Some checkpoint) = Ok stored /\
    wire_records service ctx (internal service codec) key rid 1 "" "" "" zero_time start = Ok wires /\
    draft_events draft = response_event key 1 StoreEventCheckpoint "" "" "" stored zero_time :: wires.
Proof.
  intros H registration codec mode key rid. unfold draftResponse in H. unfold denied, internal in H.
  apply obind_Ok in H as (seed0 & H0 & H). apply obind_Ok in H as (seed & H1 & H). apply refused_Ok in H1.
  apply obind_Ok in H as ([] & H2 & H). apply refused_Ok in H2. apply obind_Ok in H as (encoder & H3 & H). apply refused_Ok in H3.
  apply obind_Ok in H as ([start started] & H4 & H). apply refused_Ok in H4.
  apply obind_Ok in H as ([] & H5 & H). apply refused_Ok in H5. apply obind_Ok in H as ([] & H6 & H). apply refused_Ok in H6.
  apply obind_Ok in H as (checkpoint & H7 & H). apply refused_Ok in H7. apply obind_Ok in H as (canonical & H8 & H).
  apply obind_Ok in H as ([] & _ & H). apply obind_Ok in H as (stored & H9 & H). apply refused_Ok in H9.
  apply obind_Ok in H as (wires & H10 & H). injection H as <-.
  exists seed, encoder, start, started, checkpoint, stored, wires. split_and!; try done; [by eexists|..].
  - unfold normalizeSessionSeed in H1. ok_inv. done.
  - cbn [draft_canonical]. destruct (sealPayload _ _ (requestPayloadBinding _ _) _) as [c|e]; [congruence|].
    destruct (errors_Is e errPersistedPayloadLimit); by apply refused_Ok in H8.
Qed.

Lemma start_records decoded identity answer draft now :
  draftResponse service ctx decoded identity answer = Ok draft ->
  step_records (admit_key identity) 0 "" "" "" now (stamp now <$> draft_events draft).
Proof.
  intros H. apply draftResponse_inv in H as (seed & encoder & start & started & checkpoint & stored & wires & H).
  cbn zeta in H. destruct H as (_ & _ & _ & _ & _ & _ & _ & _ & _ & _ & Hw & ->).
  apply (stamp_records _ _ _ _ _ zero_time). exact (step_records_cons _ _ _ _ _ 0 _ _ _ zero_time stored _ wires Hw).
Qed.

(** The terminal of a quarantine, if any. *)
Lemma quarantineEvents_inv request l now es : quarantineEvents service ctx request l now = Ok es ->
  es = [] \/ step_records (Req_Key request) (Req_LastEventSequence request) "" "" "" now es.
Proof.
  unfold quarantineEvents. intros H. destruct (is_nil l); [left; congruence|].
  match type of H with match ?m with _ => _ end = _ => destruct m as [es'|[e|]] eqn:E end; [|done|left; congruence].
  injection H as ->. right. apply obind_Ok in E as (stored & _ & E). apply obind_Ok in E as (wires & Hw & [= <-]).
  by eapply step_records_cons.
Qed.

(** The record of a quarantine: closed, unless it was closed before. *)
Lemma prepareQuarantine_inv request l now es next : prepareQuarantine service ctx request l now = Ok (es, next) ->
  (es = [] \/ step_records (Req_Key request) (Req_LastEventSequence request) "" "" "" now es) /\
  exists decision completed, next = quarantined request
    (match last es with Some e => Resp_Sequence e | None => Req_LastEventSequence request end) completed decision /\
    (Req_ResponseComplete request = false -> completed = Some now) /\
    (Req_ResponseComplete request = true -> es = [] /\ completed = None /\ decision = Req_Decision request).
Proof.
  unfold prepareQuarantine. intros H. destruct (Req_ResponseComplete request); [|destruct (streaming request)].
  - injection H as <- <-. split; [by left|]. by eexists _, None.
  - apply obind_Ok in H as (es' & He & [= <- <-]). split; [by eapply quarantineEvents_inv|]. by eexists _, (Some now).
  - destruct (recoveryBody service request) as [body contentType]. apply obind_Ok in H as (stored & _ & [= <- <-]).
    split; [by left|]. by eexists _, (Some now).
Qed.
End Prepared.

(* ------------------------------------------------------------------ *)
(** ** What the operations commit *)

Section Machine.
Context (service : Service).

(** The durable state of a request, as [loadDurableEventState] and
    [ScanRecovery] read it. *)
Definition holds (s : memoryLLMState) (r : StoreRequestRecord) (t : StoreTaskRecord) : Prop :=
  requests s !! Req_Key r = Some r /\ tasks s !! Req_Task r = Some t.
Definition reads (s : memoryLLMState) (state : durableEventState) : Prop :=
  holds s (durable_request state) (durable_task state) /\
  durable_events state = response_events s (Req_Key (durable_request state)).

(** [commitWorkerEvent]. *)
Inductive committing ctx connection delivery (s1 s2 s' : memoryLLMState) : Prop :=
  | committing_intro delivery0 digest state rebuilt clock now planned answer seed l done prepared :
      identifyDelivery connection delivery0 = Ok (delivery, digest) ->
      reads s1 state -> Req_Key (durable_request state) = key_of (EventDelivery_Identity delivery) ->
      acceptDelivery service ctx connection delivery (Ok state) = Ok (state, rebuilt) ->
      checkedTime clock = Ok now ->
      planDelivery service delivery state (rebuilt_request rebuilt) now = Ok planned ->
      checkSeed delivery answer = Ok seed ->
      encodeEvent delivery state rebuilt seed = Ok (l, done) ->
      prepareCommit service ctx connection delivery digest state (rebuilt_registration rebuilt) planned seed l done now
        = Ok prepared ->
      commitTx service connection delivery state prepared (live s2) = Ok (tt, s') ->
      committing ctx connection delivery s1 s2 s'.

(** The plan of [planAdmissionTask] for the Task it read. *)
Inductive plans (s1 : memoryLLMState) ctx (key : StoreTaskKey) (decoded : decodedRequest) : admissionTaskPlan -> Prop :=
  | plans_new : plans s1 ctx key decoded no_plan
  | plans_continue task : tasks s1 !! key = Some task -> Task_State task = TaskAwaitingCaller ->
      plans s1 ctx key decoded (existing_plan task None [])
  | plans_results task results : tasks s1 !! key = Some task -> Task_State task = TaskAwaitingResults ->
      plan_tool_results service ctx (extractSubmittedToolResults (decoded_request decoded)) (tool_executions s1 key None)
        = Ok results -> results <> [] ->
      plans s1 ctx key decoded (existing_plan task None results)
  | plans_preempt task head : tasks s1 !! key = Some task -> Task_State task <> TaskAwaitingCaller ->
      Task_State task <> TaskAwaitingResults -> TaskState_Terminal (Task_State task) = false ->
      plans s1 ctx key decoded (existing_plan task (Some head) []).

Definition same_context (plan : admissionTaskPlan) (decoded : decodedRequest) : Prop :=
  forall task, planned_task plan = Some task ->
    sameTaskContext task (Admission_Task (decoded_input decoded)) = true /\
    CodecSnapshot_Equal (Task_Codec task) (registered_snapshot (decoded_registration decoded)) = true.

(** [Admit]. *)
Inductive admitting ctx (s1 s2 s' : memoryLLMState) : Prop :=
  | admitting_intro input decoded taskID requestID responseID lease worker plan answer draft clock now delivery :
      decodeRequest service input = Ok decoded ->
      let identity := identify (decoded_input decoded) taskID requestID responseID lease worker in
      validGeneratedID requestID = Ok tt -> validGeneratedID responseID = Ok tt -> validGeneratedID lease = Ok tt ->
      plans s1 ctx (admit_task identity) decoded plan -> same_context plan decoded ->
      draftResponse service ctx decoded identity answer = Ok draft ->
      checkedTime clock = Ok now ->
      draftAssignment service decoded identity plan = Ok delivery ->
      admitTx service plan (makeRecords decoded identity plan draft now) now (live s2) = Ok (tt, s') ->
      admitting ctx s1 s2 s'.

(** [quarantineRecovery] of a request in progress. *)
Inductive quarantining ctx (s1 s2 s' : memoryLLMState) : Prop :=
  | quarantining_intro request task l clock now es next :
      holds s1 request task -> Req_ResponseComplete request = false ->
      checkedTime clock = Ok now ->
      prepareQuarantine service ctx request l now = Ok (es, next) ->
      quarantineTx {| Recovery_Task := task; Recovery_Request := request |} es next
        (if TaskState_Terminal (Task_State task) then None else Some (advance_task task TaskFailed now)) (live s2)
        = Ok (tt, s') ->
      quarantining ctx s1 s2 s'.

Inductive acknowledging (s s' : memoryLLMState) : Prop :=
  | acknowledging_intro key lease clock now : checkedTime clock = Ok now -> ackTx key lease now (live s) = Ok (tt, s') ->
      acknowledging s s'.
Inductive pruning (s s' : memoryLLMState) : Prop :=
  | pruning_intro key boundary at_ retain result : pruneTx key boundary at_ retain (live s) = Ok (result, s') -> pruning s s'.

(** The atomic steps. *)
Inductive effect (s s' : memoryLLMState) : Prop :=
  | effect_event ctx connection delivery : committing ctx connection delivery s s s' -> effect s s'
  | effect_ack : acknowledging s s' -> effect s s'
  | effect_admit ctx : admitting ctx s s s' -> effect s s'
  | effect_quarantine ctx : quarantining ctx s s s' -> effect s s'
  | effect_prune : pruning s s' -> effect s s'.

Definition effects : memoryLLMState -> memoryLLMState -> Prop := rtc effect.
Definition reachable : memoryLLMState -> Prop := effects newMemoryLLMState.

(* ------------------------------------------------------------------ *)
(** ** They are transactions of the Store *)

Lemma transacts_swapped_task e m s s' : swapped e (WriteOp.CompareAndSwapTask (live s) m) = Ok s' -> transacts s s'.
Proof. intros H%swapped_Ok. apply rtc_once. by eapply step_CompareAndSwapTask. Qed.
Lemma transacts_swapped_request e m s s' : swapped e (WriteOp.CompareAndSwapRequest (live s) m) = Ok s' -> transacts s s'.
Proof. intros H%swapped_Ok. apply rtc_once. by eapply step_CompareAndSwapRequest. Qed.
Lemma transacts_swapped_tool e m s s' : swapped e (WriteOp.CompareAndSwapToolExecution (live s) m) = Ok s' -> transacts s s'.
Proof. intros H%swapped_Ok. apply rtc_once. by eapply step_CompareAndSwapToolExecution. Qed.

Lemma transacts_events es s s' : Forall (fun e => uint64 (Resp_Sequence e)) es ->
  insert_all WriteOp.InsertResponseEvent es s = Ok s' -> transacts s s'.
Proof.
  intros Hu. apply insert_all_transacts. intros s0 e s1 He H. apply rtc_once. eapply step_InsertResponseEvent; [|done].
  rewrite Forall_forall in Hu. by apply Hu.
Qed.

Lemma transacts_tools xs s s' : Forall (fun x => Exec_Revision x = 1%Z) xs ->
  insert_all WriteOp.InsertToolExecution xs s = Ok s' -> transacts s s'.
Proof.
  intros Hu. apply insert_all_transacts. intros s0 x s1 Hx H. apply rtc_once. eapply step_InsertToolExecution; [|done].
  rewrite Forall_forall in Hu. by rewrite (Hu _ Hx).
Qed.

Lemma commitTx_transacts connection delivery state p s s' u :
  Forall (fun e => uint64 (Resp_Sequence e)) (commit_events p) -> Forall (fun x => Exec_Revision x = 1%Z) (commit_tools p) ->
  commitTx service connection delivery state p (live s) = Ok (u, s') -> transacts s s'.
Proof.
  intros He Ht H. unfold commitTx in H. destruct (ReadOp.LoadWorkerReceipt _ _ _) as [existing|e].
  - destruct (_ && _)%bool; [|done]. by injection H as _ <-.
  - apply obind_Ok in H as ([] & _ & H). apply obind_Ok in H as (r0 & _ & H). apply obind_Ok in H as (t0 & _ & H).
    apply obind_Ok in H as ([] & _ & H). apply obind_Ok in H as (s1 & M1 & H). apply obind_Ok in H as (s2 & M2 & H).
    apply obind_Ok in H as (s3 & M3 & H). apply obind_Ok in H as (s4 & M4 & H). apply obind_Ok in H as (s5 & M5 & H).
    injection H as _ <-. apply transacts_tools in M1; [|done]. apply transacts_events in M2; [|done].
    apply transacts_swapped_request in M4. apply step_InsertWorkerReceipt in M5.
    etransitivity; [exact M1|]. etransitivity; [exact M2|]. transitivity s3.
    + destruct (commit_task p); [by eapply transacts_swapped_task | by injection M3 as <-].
    + etransitivity; [exact M4 | by apply rtc_once].
Qed.

Lemma ackTx_transacts key lease now s s' u : ackTx key lease now (live s) = Ok (u, s') -> transacts s s'.
Proof.
  unfold ackTx. intros H. apply obind_Ok in H as (t & _ & H). apply obind_Ok in H as ([] & _ & H).
  destruct (_ =?= _); [by injection H as _ <-|]. apply obind_Ok in H as ([] & _ & H).
  apply obind_Ok in H as (s1 & H1 & [= _ <-]). by eapply transacts_swapped_task.
Qed.

Lemma quarantineTx_transacts record es next nextTask s s' u : Forall (fun e => uint64 (Resp_Sequence e)) es ->
  quarantineTx record es next nextTask (live s) = Ok (u, s') -> transacts s s'.
Proof.
  unfold quarantineTx. intros He H. apply obind_Ok in H as (r & _ & H). destruct (_ && _)%bool; [by injection H as _ <-|].
  apply obind_Ok in H as ([] & _ & H). apply obind_Ok in H as (s1 & H1 & H). apply obind_Ok in H as (s2 & H2 & H).
  apply obind_Ok in H as (s3 & H3 & [= _ <-]). apply transacts_events in H2; [|done].
  apply transacts_swapped_request in H3. transitivity s1; [|by etransitivity].
  destruct nextTask; [|by injection H1 as <-]. apply obind_Ok in H1 as (t & _ & H1). apply obind_Ok in H1 as ([] & _ & H1).
  by eapply transacts_swapped_task.
Qed.

Lemma supersede_transacts taskKey head now s s' : supersede service taskKey head now s = Ok s' -> transacts s s'.
Proof.
  unfold supersede. intros H. apply obind_Ok in H as (a & _ & H). apply obind_Ok in H as ([] & _ & H).
  apply obind_Ok in H as (r & _ & H). apply obind_Ok in H as ([] & _ & H). by eapply transacts_swapped_request.
Qed.

Lemma admitTx_transacts plan records now s s' u :
  Forall (fun e => uint64 (Resp_Sequence e)) (records_events records) -> Req_Revision (records_request records) = 1%Z ->
  (planned_task plan = None -> Task_Revision (records_task records) = 1%Z) ->
  admitTx service plan records now (live s) = Ok (u, s') -> transacts s s'.
Proof.
  intros He Hr Ht H. unfold admitTx in H. apply obind_Ok in H as ([] & _ & H). apply obind_Ok in H as (s1 & H1 & H).
  apply obind_Ok in H as (s2 & H2 & H). apply obind_Ok in H as (s3 & H3 & H). apply obind_Ok in H as (s4 & H4 & [= _ <-]).
  apply transacts_events in H4; [|done]. apply step_InsertRequest in H3; [|by rewrite Hr].
  transitivity s1; [|transitivity s2; [|etransitivity; [by apply rtc_once | done]]].
  - unfold planned_task in Ht.
    assert (forall t, plan_existing plan = true -> plan_task plan = Some t ->
      (let? current := ReadOp.LoadTask (live s) (Req_Task (records_request records)) in
       check refuse_if ((Task_Revision current <>? Task_Revision t) || (Task_State current <>? Task_State t)) ErrTaskConflict then
       let? s0 := match plan_preempted plan with
                  | Some preempted => supersede service (Req_Task (records_request records)) preempted now (unit_state (live s))
                  | None => Ok (unit_state (live s))
                  end in
       swapped ErrTaskConflict (WriteOp.CompareAndSwapTask (live s0)
         {| TaskMutation_Key := Req_Task (records_request records); TaskMutation_ExpectedRevision := Task_Revision t;
            TaskMutation_Next := records_task records |})) = Ok s1 -> transacts s s1) as Hold.
    { clear H1. intros t _ _ H1. apply obind_Ok in H1 as (c & _ & H1). apply obind_Ok in H1 as ([] & _ & H1).
      apply obind_Ok in H1 as (s0 & H0 & H1). apply transacts_swapped_task in H1. transitivity s0; [|done].
      destruct (plan_preempted plan); [by eapply supersede_transacts | by injection H0 as <-]. }
    destruct (plan_existing plan); [destruct (plan_task plan) as [t|]|]; [by eapply Hold|..];
      (apply rtc_once; eapply step_InsertTask; [|done]; by rewrite Ht).
  - revert H2. apply insert_all_transacts. intros s0 m s0' _ H2. by eapply transacts_swapped_tool.
Qed.

(** Rows added to the ledger of tools are fresh. *)
Definition fresh_tool (task : StoreTaskKey) (x : StoreToolExecutionRecord) : Prop :=
  ToolKey_Task (Exec_Key x) = task /\ Exec_State x = ToolExecutionPending /\ Exec_Revision x = 1%Z /\
  Exec_ResultPrunedAt x = None.

Lemma toolRecords_fresh task now calls records : Plan.toolRecords task now calls = Ok records ->
  Forall (fresh_tool task) records.
Proof.
  revert records. induction calls as [|call calls IH]; cbn; intros records H; [by injection H as <-|].
  ok_inv. constructor; [done | by apply IH].
Qed.

Lemma planned_fresh authorizer task request event now p : Plan.planWorkerEvent authorizer task request event now = Ok p ->
  Forall (fresh_tool (Task_Key task)) (Plan.plan_tools p).
Proof.
  unfold Plan.planWorkerEvent. intros H.
  destruct (Event_Type event); repeat case_bool_decide; cbn [negb] in H; try (injection H as <-; constructor).
  all: apply obind_Ok in H as (rejection & _ & H); destruct rejection; [injection H as <-; constructor|].
  all: try (injection H as <-; constructor).
  destruct (Plan.toolRecords _ _ _) as [records|e] eqn:E; injection H as <-; [|constructor]. by eapply toolRecords_fresh.
Qed.

Lemma planDelivery_Ok delivery state request now p : planDelivery service delivery state request now = Ok p ->
  Plan.planWorkerEvent (service_toolAuthorizer service) (durable_task state) request (EventDelivery_Event delivery) now = Ok p /\
  Plan.plan_rejection p = None.
Proof.
  unfold planDelivery, failed, delivery_error, or_return. intros H. apply obind_Ok in H as (q & Hq & H).
  destruct (Plan.planWorkerEvent _ _ _ _ _) as [q'|] eqn:E; [|done]. injection Hq as ->.
  destruct (Plan.plan_rejection q) eqn:Er; [done|]. injection H as <-. done.
Qed.

Lemma committing_transacts ctx connection delivery s1 s2 s' : committing ctx connection delivery s1 s2 s' -> transacts s2 s'.
Proof.
  destruct 1 as [delivery0 digest state rebuilt clock now planned answer seed l done prepared H1 H2 H3 H4 H5 H6 H7 H8 H9 H10].
  apply prepareCommit_inv in H9 as (Et & _ & _ & _ & (Hu & _) & _). apply planDelivery_Ok in H6 as [H6 _].
  apply planned_fresh in H6. eapply commitTx_transacts; [exact Hu| |exact H10].
  rewrite Et. eapply Forall_impl; [exact H6|]. by intros x (_ & _ & ? & _).
Qed.

Lemma admitting_transacts ctx s1 s2 s' : admitting ctx s1 s2 s' -> transacts s2 s'.
Proof.
  destruct 1 as [input decoded taskID requestID responseID lease worker plan answer draft clock now delivery H1 identity
    H2 H3 H4 H5 H6 H7 H8 H9 H10].
  eapply admitTx_transacts; [| | |exact H10].
  - by apply (start_records _ _ _ _ _ _ now) in H7 as [Hu _].
  - done.
  - unfold planned_task, makeRecords. cbn. destruct (plan_existing plan), (plan_task plan); done.
Qed.

Lemma quarantining_transacts ctx s1 s2 s' : quarantining ctx s1 s2 s' -> transacts s2 s'.
Proof.
  destruct 1 as [request task l clock now es next H1 H2 H3 H4 H5].
  apply prepareQuarantine_inv in H4 as [[->|[Hu _]] _]; (eapply quarantineTx_transacts; [|exact H5]); done.
Qed.

Lemma acknowledging_transacts s s' : acknowledging s s' -> transacts s s'.
Proof. destruct 1 as [key lease clock now _ H]. by eapply ackTx_transacts. Qed.

Lemma pruning_transacts s s' : ledger_ok s -> revisions_ok s -> pruning s s' -> transacts s s'.
Proof. intros Hs Hr. destruct 1 as [key boundary at_ retain result H]. by eapply pruneTx_inv. Qed.

Lemma effect_transacts s s' : ledger_ok s -> revisions_ok s -> effect s s' -> transacts s s'.
Proof.
  intros Hs Hr. destruct 1; [by eapply committing_transacts | by apply acknowledging_transacts
    | by eapply admitting_transacts | by eapply quarantining_transacts | by apply pruning_transacts].
Qed.
End Machine.
