(* ===== verification/LlmSpec.v ===== *)
(** * The abstract machine of the HumanLLM service

    What the service promises about its ledger, apart from how it computes:
    five rules, and the invariant of the states they lead to.  A completion is
    in progress exactly while its Task is with a human; its history is numbered
    from one; every event of a worker has a receipt, and every receipt its
    event; a Task awaits results exactly while a tool call of it is pending.
    [LlmAtomic] shows that every step of the service is a step of this
    machine. *)

From S2P Require Import Prelude GoText GoEncoding GoTime GoJson GoStrings GoDoc GoStruct.
From S2P Require Import AgentTypes Framework Protect LlmTypes LlmJson LlmMemory LlmLedger LlmScan LlmRuntime LlmProg LlmEvents.
From S2P Require Import LlmService LlmCommit LlmRecovery LlmAdmission LlmMaintenance LlmEffects LlmMachine.

Import Llm.
Local Open Scope string_scope.
Local Open Scope list_scope.

(** The Task is with a worker or its human. *)
Definition with_human (state : TaskState) : Prop := state = TaskLeased \/ state = TaskAwaitingHuman.

#[export] Instance with_human_dec state : Decision (with_human state).
Proof. unfold with_human. apply _. Defined.

(** New records at the end of the history of a request. *)
Definition appended (r : StoreRequestRecord) (worker : WorkerID) (id : string) (digest : StoreDigest) (now : time)
    (es : list StoreResponseEventRecord) : Prop :=
  numbered (Req_Key r) (Req_LastEventSequence r) es /\
  exists first wires, es = first :: wires /\ written worker id digest now StoreEventCheckpoint first /\
    Forall (written worker id digest now StoreEventWire) wires.

Definition cursor_after (r : StoreRequestRecord) (es : list StoreResponseEventRecord) : Z :=
  (Req_LastEventSequence r + Z.of_nat (length es))%Z.

(** Every pending tool of a Task is completed, nothing else happens to tools. *)
Definition tools_settled (task : StoreTaskKey) (s : memoryLLMState) (tools' : gmap StoreToolExecutionKey StoreToolExecutionRecord)
    : Prop :=
  (forall k, tools s !! k = None -> tools' !! k = None) /\
  forall k x, tools s !! k = Some x ->
    if decide (ToolKey_Task k = task /\ Exec_State x = ToolExecutionPending)
    then exists x', tools' !! k = Some x' /\ Exec_State x' = ToolExecutionCompleted
    else tools' !! k = Some x.

Inductive service_step (s : memoryLLMState) : memoryLLMState -> Prop :=
  | step_event r t id digest now es state (done : bool) decision new :
      holds s r t -> Req_ResponseComplete r = false ->
      receipt_at s (Req_Key r) id = None -> id <> "" ->
      appended r (Task_LeaseOwner t) id digest now es ->
      Task_State t = TaskAwaitingHuman \/ Task_State t = TaskLeased /\ state = TaskExpired ->
      (if done then ~ with_human state else state = Task_State t) ->
      (state = TaskAwaitingResults <-> new <> []) ->
      Forall (fresh_tool (Req_Task r)) new -> Forall (fun x => tools s !! Exec_Key x = None) new ->
      service_step s
        {| tasks := if done then <[Req_Task r := advance_task t state now]> (tasks s) else tasks s;
           requests := <[Req_Key r := advance_request r (cursor_after r es) (if done then Some now else None) decision]> (requests s);
           events := events (foldl add_event s es);
           receipts := <[{| ReceiptKey_request := Req_Key r; ReceiptKey_eventID := id |} :=
             {| Receipt_Request := Req_Key r; Receipt_EventID := id; Receipt_Worker := Task_LeaseOwner t;
                Receipt_Digest := digest; Receipt_CreatedAt := now |}]> (receipts s);
           tools := tools (foldl add_tool s new) |}
  | step_ack k t now :
      tasks s !! k = Some t -> Task_State t = TaskLeased ->
      service_step s (set_tasks (<[k := advance_task t TaskAwaitingHuman now]> (tasks s)) s)
  | step_admit r t now es stale tools' :
      requests s !! Req_Key r = None -> Req_ResponseComplete r = false -> Req_RecoveryQuarantined r = false ->
      Req_CompletedAt r = None -> Req_PayloadPrunedAt r = None ->
      numbered (Req_Key r) 0 es -> Req_LastEventSequence r = Z.of_nat (length es) ->
      Forall (fun e => Resp_WorkerEventID e = "") es ->
      Task_State t = TaskLeased -> Task_LeaseOwner t <> "" -> Task_LeaseID t <> "" ->
      (forall t0, tasks s !! Req_Task r = Some t0 ->
         TaskState_Terminal (Task_State t0) = false /\ Task_Revision t = inc64 (Task_Revision t0)) ->
      match stale with
      | None => forall k r0, requests s !! k = Some r0 -> Req_Task r0 = Req_Task r -> Req_ResponseComplete r0 = true
      | Some r0 => requests s !! Req_Key r0 = Some r0 /\ Req_Task r0 = Req_Task r /\ Req_ResponseComplete r0 = false
      end ->
      tools_settled (Req_Task r) s tools' ->
      service_step s
        {| tasks := <[Req_Task r := t]> (tasks s);
           requests := <[Req_Key r := r]>
             (match stale with Some r0 => <[Req_Key r0 := superseded r0 now]> (requests s) | None => requests s end);
           events := events (foldl add_event s es); receipts := receipts s; tools := tools' |}
  | step_quarantine r t now es decision :
      holds s r t -> Req_ResponseComplete r = false -> es = [] \/ appended r "" "" "" now es ->
      service_step s
        {| tasks := <[Req_Task r := advance_task t TaskFailed now]> (tasks s);
           requests := <[Req_Key r := quarantined r (cursor_after r es) (Some now) decision]> (requests s);
           events := events (foldl add_event s es); receipts := receipts s; tools := tools s |}
  | step_prune k r at_ tools' :
      requests s !! k = Some r -> Req_ResponseComplete r = true -> Req_PayloadPrunedAt r = None ->
      (forall k, tools s !! k = None -> tools' !! k = None) ->
      (forall k x, tools s !! k = Some x -> exists x', tools' !! k = Some x' /\
         (x' = x \/ Exec_State x' = Exec_State x /\
            exists t, tasks s !! ToolKey_Task k = Some t /\ TaskState_Terminal (Task_State t) = true)) ->
      service_step s
        {| tasks := tasks s; requests := <[k := pruned_request r at_]> (requests s); events := delete k (events s);
           receipts := receipts s; tools := tools' |}.

(* ------------------------------------------------------------------ *)
(** ** The invariant *)

Definition in_progress (r : StoreRequestRecord) (t : StoreTaskRecord) : Prop :=
  with_human (Task_State t) /\ Task_LeaseOwner t <> "" /\ Task_LeaseID t <> "" /\
  Req_RecoveryQuarantined r = false /\ Req_CompletedAt r = None /\ Req_PayloadPrunedAt r = None.

Record service_ok (s : memoryLLMState) : Prop := {
  ok_ledger : ledger_ok s;
  ok_revisions : revisions_ok s;
  ok_history : forall k r, requests s !! k = Some r -> Req_PayloadPrunedAt r = None ->
    whole_history s k (Req_LastEventSequence r);
  ok_tombstone : forall k r, requests s !! k = Some r -> is_Some (Req_PayloadPrunedAt r) ->
    Req_ResponseComplete r = true /\ history s k = ∅;
  ok_receipt : forall k n e, history s k !! n = Some e -> Resp_WorkerEventID e <> "" ->
    exists x, receipt_at s k (Resp_WorkerEventID e) = Some x /\ Receipt_Worker x = Resp_Worker e /\
      Receipt_Digest x = Resp_WorkerEventDigest e;
  ok_acked : forall k r id x, requests s !! k = Some r -> Req_PayloadPrunedAt r = None -> receipt_at s k id = Some x ->
    exists n e, history s k !! n = Some e /\ Resp_Kind e = StoreEventCheckpoint /\ Resp_WorkerEventID e = id;
  ok_progress : forall k r, requests s !! k = Some r ->
    if Req_ResponseComplete r then is_Some (Req_CompletedAt r)
    else exists t, tasks s !! Req_Task r = Some t /\ in_progress r t;
  ok_human : forall k t, tasks s !! k = Some t -> with_human (Task_State t) ->
    exists k' r, requests s !! k' = Some r /\ Req_Task r = k /\ Req_ResponseComplete r = false;
  ok_pending : forall k x, tools s !! k = Some x -> Exec_State x = ToolExecutionPending ->
    exists t, tasks s !! ToolKey_Task k = Some t /\ Task_State t = TaskAwaitingResults;
  ok_awaiting : forall k t, tasks s !! k = Some t -> Task_State t = TaskAwaitingResults ->
    exists k' x, tools s !! k' = Some x /\ ToolKey_Task k' = k /\ Exec_State x = ToolExecutionPending }.

Lemma service_ok_empty : service_ok newMemoryLLMState.
Proof.
  split; [apply ledger_empty | apply revisions_empty|..]; intros *; unfold history; cbn; by rewrite ?lookup_empty; cbn; rewrite ?lookup_empty.
Qed.

(* ------------------------------------------------------------------ *)
(** ** Histories that grow *)

Section Append.
Context (s s' : memoryLLMState) (Hs : ledger_ok s) (Hs' : ledger_ok s').
Context (key : StoreRequestKey) (n : Z) (es : list StoreResponseEventRecord).
Hypothesis Hw : whole_history s key n.
Hypothesis Hn : numbered key n es.
Hypothesis He : events s' = events (foldl add_event s es).

Lemma append_response_events : response_events s' key = response_events s key ++ es.
Proof. by apply (response_events_add _ _ _ n). Qed.

Lemma append_whole : whole_history s' key (n + Z.of_nat (length es)).
Proof.
  destruct Hw as [H1 H2]. unfold whole_history. rewrite append_response_events, length_app. split; [|lia].
  apply numbered_app. split; [done|]. by rewrite H2.
Qed.

Lemma append_other k : k <> key -> history s' k = history s k.
Proof. by apply (response_events_other s s' key k n es). Qed.

Lemma append_lookup m e : history s' key !! m = Some e <-> history s key !! m = Some e \/ (e ∈ es /\ Resp_Sequence e = m).
Proof.
  assert (forall s, ledger_ok s -> history s key !! m = Some e <-> e ∈ response_events s key /\ Resp_Sequence e = m) as Hel.
  { intros s0 H0. rewrite (elem_response_events s0 H0). split; [|intros [? <-]; done].
    intros Hm. by destruct (ledger_event_key s0 H0 _ _ _ Hm) as (_ & -> & _). }
  rewrite (Hel s' Hs'), (Hel s Hs), append_response_events, elem_of_app. tauto.
Qed.
End Append.

Lemma whole_history_same s s' k n : history s' k = history s k -> whole_history s k n -> whole_history s' k n.
Proof. intros H. unfold whole_history. by rewrite (response_events_same _ _ _ H). Qed.

Lemma whole_history_fresh s k : ledger_ok s -> requests s !! k = None -> whole_history s k 0.
Proof.
  intros Hs Hk. assert (response_events s k = []) as E; [|by unfold whole_history; rewrite E].
  apply elem_of_nil_inv. intros e He. apply (elem_response_events s Hs) in He.
  apply (ledger_event_key s Hs) in He as (_ & _ & [r Hr] & _). congruence.
Qed.

(** The cursor of a whole history is a uint64. *)
Lemma whole_history_uint64 s k n : ledger_ok s -> whole_history s k n -> uint64 n.
Proof.
  intros Hs [H1 H2]. unfold uint64. destruct (last (response_events s k)) as [e|] eqn:E.
  - apply last_Some in E as [l El]. rewrite El in H1, H2. apply numbered_app in H1 as [_ (_ & Hq & _)].
    assert (history s k !! Resp_Sequence e = Some e) as He by (apply (elem_response_events s Hs); rewrite El; set_solver).
    apply (ledger_event_key s Hs) in He as (_ & _ & _ & ?). rewrite length_app in H2. cbn in H2. lia.
  - apply last_None in E. rewrite E in H2. cbn in H2. lia.
Qed.

(** Fresh rows of the ledger of tools. *)
Lemma add_tools_lookup new : forall s, Forall (fun x => tools s !! Exec_Key x = None) new ->
  (forall k x, tools s !! k = Some x -> tools (foldl add_tool s new) !! k = Some x) /\
  (forall k x, tools (foldl add_tool s new) !! k = Some x -> tools s !! k = Some x \/ (x ∈ new /\ Exec_Key x = k)) /\
  (forall x, x ∈ new -> exists x', x' ∈ new /\ tools (foldl add_tool s new) !! Exec_Key x = Some x').
Proof.
  intros s Hf.
  assert (forall l s1, (forall k x, tools (foldl add_tool s1 l) !! k = Some x -> tools s1 !! k = Some x \/ (x ∈ l /\ Exec_Key x = k)) /\
    (forall k x, tools s1 !! k = Some x -> Forall (fun y => Exec_Key y <> k) l -> tools (foldl add_tool s1 l) !! k = Some x) /\
    (forall k, is_Some (tools s1 !! k) -> is_Some (tools (foldl add_tool s1 l) !! k)) /\
    (forall x, x ∈ l -> is_Some (tools (foldl add_tool s1 l) !! Exec_Key x))) as H.
  { clear. induction l as [|y l IH]; intros s1; [split_and!; try done; [by left | intros x Hx; by apply elem_of_nil in Hx]|].
    cbn [foldl]. destruct (IH (add_tool s1 y)) as (H1 & H2 & H3 & H4). split_and!.
    - intros k x Hx. apply H1 in Hx as [Hx|[? ?]]; [|right; split; [by right | done]].
      unfold add_tool in Hx. cbn in Hx. lookups; [right; split; [by left | done] | by left].
    - intros k x Hx [Hy Hl]%Forall_cons. apply H2; [|done]. cbn. by rewrite lookup_insert_ne.
    - intros k Hk. apply H3. cbn. by apply insert_is_Some.
    - intros x [->|Hx]%elem_of_cons; [|by apply H4]. apply H3. cbn. rewrite lookup_insert_eq. by eexists. }
  destruct (H new s) as (H1 & H2 & _ & H4). split_and!; [|exact H1|].
  - intros k x Hx. apply H2; [done|]. eapply Forall_impl; [exact Hf|]. cbn. intros y Hy <-. congruence.
  - intros x Hx. destruct (H4 x Hx) as [x' Hx']. exists x'. split; [|done]. destruct (H1 _ _ Hx') as [Ho|[? _]]; [|done].
    rewrite Forall_forall in Hf. rewrite (Hf _ Hx) in Ho. done.
Qed.

(* ------------------------------------------------------------------ *)
(** ** Every rule keeps the invariant *)

Lemma in_progress_of s r t : service_ok s -> holds s r t -> Req_ResponseComplete r = false ->
  in_progress r t /\ whole_history s (Req_Key r) (Req_LastEventSequence r).
Proof.
  intros Hs [Hr Ht] Hc. pose proof (ok_progress s Hs _ _ Hr) as H. rewrite Hc in H. destruct H as (t' & Ht' & H).
  replace t' with t in H by congruence. split; [done|]. apply (ok_history s Hs); [done | apply H].
Qed.

(** Two requests in progress of one Task are one. *)
Lemma one_in_progress s k r k' r' : service_ok s -> requests s !! k = Some r -> requests s !! k' = Some r' ->
  Req_ResponseComplete r = false -> Req_ResponseComplete r' = false -> Req_Task r' = Req_Task r -> k' = k.
Proof. intros Hs H1 H2 C1 C2 E. by eapply (ledger_one_active s (ok_ledger s Hs) k' k r' r). Qed.

(** A request in progress is settled: an event of its worker, or a quarantine
    (with no identifier, so without a receipt). *)
Section Settle.
Context (s s' : memoryLLMState) (Hs : service_ok s) (L : ledger_ok s') (V : revisions_ok s').
Context (r r' : StoreRequestRecord) (t : StoreTaskRecord) (worker : WorkerID) (id : string) (digest : StoreDigest)
  (now : time) (es : list StoreResponseEventRecord) (state : TaskState) (done : bool)
  (new : list StoreToolExecutionRecord).
Hypothesis Hh : holds s r t.
Hypothesis Hc : Req_ResponseComplete r = false.
Hypothesis Hn : numbered (Req_Key r) (Req_LastEventSequence r) es.
Hypothesis Hown : Forall (fun e => Resp_Worker e = worker /\ Resp_WorkerEventID e = id /\ Resp_WorkerEventDigest e = digest) es.
Hypothesis Hdone : if done then ~ with_human state else state = Task_State t.
Hypothesis Hnew : state = TaskAwaitingResults <-> new <> [].
Hypothesis Hfresh : Forall (fresh_tool (Req_Task r)) new.
Hypothesis Habsent : Forall (fun x => tools s !! Exec_Key x = None) new.
Hypothesis Hr' : Req_Task r' = Req_Task r /\ Req_PayloadPrunedAt r' = Req_PayloadPrunedAt r /\
  Req_LastEventSequence r' = cursor_after r es /\ Req_ResponseComplete r' = done.
Hypothesis Hflags : if done then is_Some (Req_CompletedAt r')
  else Req_RecoveryQuarantined r' = Req_RecoveryQuarantined r /\ Req_CompletedAt r' = Req_CompletedAt r.
Hypothesis Et : tasks s' = if done then <[Req_Task r := advance_task t state now]> (tasks s) else tasks s.
Hypothesis Er : requests s' = <[Req_Key r := r']> (requests s).
Hypothesis Ee : events s' = events (foldl add_event s es).
Hypothesis Ex : if decide (id = "") then receipts s' = receipts s
  else receipt_at s (Req_Key r) id = None /\ (exists e, e ∈ es /\ Resp_Kind e = StoreEventCheckpoint) /\
    receipts s' = <[{| ReceiptKey_request := Req_Key r; ReceiptKey_eventID := id |} :=
      {| Receipt_Request := Req_Key r; Receipt_EventID := id; Receipt_Worker := worker;
         Receipt_Digest := digest; Receipt_CreatedAt := now |}]> (receipts s).
Hypothesis El : tools s' = tools (foldl add_tool s new).

Lemma settle_task k t' : tasks s' !! k = Some t' ->
  (done = true /\ k = Req_Task r /\ t' = advance_task t state now) \/
  (tasks s !! k = Some t' /\ (done = false \/ k <> Req_Task r)).
Proof using Et.
  rewrite Et. clear - done. destruct done; [|by auto].
  intros [[<- <-]|[Hne Hk]]%lookup_insert_Some; [by left | right; split; [done | right; congruence]].
Qed.

#[local] Set Default Proof Using "All".

Lemma settle_progress : in_progress r t /\ whole_history s (Req_Key r) (Req_LastEventSequence r).
Proof. by apply in_progress_of. Qed.

Lemma settle_whole : whole_history s' (Req_Key r) (cursor_after r es).
Proof. apply (append_whole s s' (ok_ledger s Hs) L _ _ es); [apply settle_progress | done | done]. Qed.
Lemma settle_lookup m e : history s' (Req_Key r) !! m = Some e <->
  history s (Req_Key r) !! m = Some e \/ (e ∈ es /\ Resp_Sequence e = m).
Proof. apply (append_lookup s s' (ok_ledger s Hs) L _ (Req_LastEventSequence r)); [apply settle_progress | done | done]. Qed.
Lemma settle_other k : k <> Req_Key r -> history s' k = history s k.
Proof. by apply (append_other s s' _ (Req_LastEventSequence r) es). Qed.

Lemma settle_history k x : requests s' !! k = Some x ->
  if Req_PayloadPrunedAt x then Req_ResponseComplete x = true /\ history s' k = ∅
  else whole_history s' k (Req_LastEventSequence x).
Proof.
  destruct settle_progress as [(_ & _ & _ & _ & _ & Hp) _]. destruct Hr' as (_ & Hp' & Hl & _). rewrite Er.
  intros [[<- <-]|[Hne Hk]]%lookup_insert_Some.
  - rewrite Hp', Hp, Hl. apply settle_whole.
  - pose proof (settle_other k ltac:(congruence)) as Ho. destruct (Req_PayloadPrunedAt x) eqn:E.
    + rewrite Ho. apply (ok_tombstone s Hs _ _ Hk). by rewrite E.
    + eapply whole_history_same; [exact Ho | by apply (ok_history s Hs)].
Qed.

Lemma settle_receipt k n e : history s' k !! n = Some e -> Resp_WorkerEventID e <> "" ->
  exists x, receipt_at s' k (Resp_WorkerEventID e) = Some x /\ Receipt_Worker x = Resp_Worker e /\
    Receipt_Digest x = Resp_WorkerEventDigest e.
Proof.
  assert (forall k n e, history s k !! n = Some e -> Resp_WorkerEventID e <> "" ->
    exists x, receipt_at s' k (Resp_WorkerEventID e) = Some x /\ Receipt_Worker x = Resp_Worker e /\
      Receipt_Digest x = Resp_WorkerEventDigest e) as Hold.
  { intros k0 n0 e0 He Hne. destruct (ok_receipt s Hs _ _ _ He Hne) as (x & Hx & ?). exists x. split; [|done].
    case_decide; [by rewrite Ex|]. destruct Ex as (Hnone & _ & ->). rewrite lookup_insert_ne; [done|]. intros [= E1 E2].
    congruence. }
  destruct (decide (k = Req_Key r)) as [->|Hk]; [|rewrite settle_other by done; apply Hold].
  intros [He|[Hin _]]%settle_lookup Hne; [by eapply Hold|].
  rewrite Forall_forall in Hown. destruct (Hown _ Hin) as (-> & E & ->). rewrite E in *.
  rewrite decide_False in Ex by done. destruct Ex as (_ & _ & ->). rewrite lookup_insert_eq. by eexists.
Qed.

Lemma settle_acked k x id' y : requests s' !! k = Some x -> Req_PayloadPrunedAt x = None -> receipt_at s' k id' = Some y ->
  exists n e, history s' k !! n = Some e /\ Resp_Kind e = StoreEventCheckpoint /\ Resp_WorkerEventID e = id'.
Proof.
  intros Hk Hp Hy.
  assert (receipt_at s k id' = Some y \/ (k = Req_Key r /\ id' = id /\ exists e, e ∈ es /\ Resp_Kind e = StoreEventCheckpoint)) as Hor.
  { revert Ex. case_decide; [intros Ex'; left; by rewrite <- Ex'|]. intros (_ & He & E). rewrite E in Hy.
    apply lookup_insert_Some in Hy as [[[= -> ->] _]|[_ Hy]]; [by right | by left]. }
  destruct Hor as [Hold|(-> & -> & e & Hin & Hkind)].
  - rewrite Er in Hk. apply lookup_insert_Some in Hk as [[<- <-]|[Hne Hk]].
    + destruct Hr' as (_ & Hp' & _). destruct Hh as [Hr _]. rewrite Hp' in Hp.
      destruct (ok_acked s Hs _ _ _ _ Hr Hp Hold) as (n & e & He & ?). exists n, e. split; [|done]. apply settle_lookup. by left.
    + rewrite settle_other by congruence. by eapply (ok_acked s Hs).
  - exists (Resp_Sequence e), e. split; [apply settle_lookup; by right|]. split; [done|].
    rewrite Forall_forall in Hown. by destruct (Hown _ Hin) as (_ & ? & _).
Qed.

Lemma settle_requests k x : requests s' !! k = Some x ->
  if Req_ResponseComplete x then is_Some (Req_CompletedAt x)
  else exists t', tasks s' !! Req_Task x = Some t' /\ in_progress x t'.
Proof.
  destruct settle_progress as [Hpr _]. destruct Hh as [Hr Ht], Hr' as (Ek & Hp & _ & Hd). rewrite Er.
  intros [[<- <-]|[Hne Hk]]%lookup_insert_Some.
  - rewrite Hd, Et, Ek. destruct done; [done|]. exists t. split; [done|]. unfold in_progress. rewrite Hp.
    destruct Hflags as [-> ->]. apply Hpr.
  - pose proof (ok_progress s Hs _ _ Hk) as H. destruct (Req_ResponseComplete x) eqn:Ec; [done|].
    destruct H as (t' & Ht' & ?). exists t'. split; [|done]. rewrite Et. destruct done; [|done].
    rewrite lookup_insert_ne; [done|]. intros E. destruct Hne. symmetry. by eapply one_in_progress.
Qed.

Lemma settle_human k t' : tasks s' !! k = Some t' -> with_human (Task_State t') ->
  exists k' x, requests s' !! k' = Some x /\ Req_Task x = k /\ Req_ResponseComplete x = false.
Proof.
  destruct Hh as [Hr Ht], Hr' as (Ek & _ & _ & Hd).
  intros [(E & -> & ->)|(Hk & Hor)]%settle_task Hwh; [by rewrite E in Hdone|].
  destruct (ok_human s Hs _ _ Hk Hwh) as (k' & x & Hx & <- & Hcx). rewrite Er.
  destruct (decide (k' = Req_Key r)) as [->|Hne]; [|exists k', x; by rewrite lookup_insert_ne].
  assert (x = r) as -> by congruence. destruct Hor as [E|]; [|done]. exists (Req_Key r), r'.
  rewrite lookup_insert_eq, Hd. done.
Qed.

Lemma settle_tools :
  (forall k x, tools s' !! k = Some x -> Exec_State x = ToolExecutionPending ->
    exists t', tasks s' !! ToolKey_Task k = Some t' /\ Task_State t' = TaskAwaitingResults) /\
  (forall k t', tasks s' !! k = Some t' -> Task_State t' = TaskAwaitingResults ->
    exists k' x, tools s' !! k' = Some x /\ ToolKey_Task k' = k /\ Exec_State x = ToolExecutionPending).
Proof.
  destruct settle_progress as [(Hst & _) _]. destruct Hh as [Hr Ht].
  destruct (add_tools_lookup new s Habsent) as (Hold & Hsplit & Hadd). rewrite <- El in *.
  assert (new <> [] -> done = true) as Hd.
  { intros Hne%Hnew. destruct done; [done|]. rewrite Hne in Hdone. destruct Hst as [Hst|Hst]; congruence. }
  rewrite Forall_forall in Hfresh. split.
  - intros k x [Hk|[Hin <-]]%Hsplit Hpend.
    + destruct (ok_pending s Hs _ _ Hk Hpend) as (t' & Ht' & Ha). exists t'. split; [|done]. rewrite Et. destruct done; [|done].
      rewrite lookup_insert_ne; [done|]. intros E. assert (t' = t) as -> by congruence. destruct Hst; congruence.
    + destruct (Hfresh _ Hin) as (E & _). rewrite E. assert (new <> []) as Hne by (intros ->; by apply elem_of_nil in Hin).
      rewrite Et, (Hd Hne), lookup_insert_eq. eexists. split; [done|]. by apply Hnew.
  - intros k t' [(E & -> & ->)|(Hk & Hor)]%settle_task Ha.
    + apply Hnew in Ha. destruct new as [|x l]; [done|]. destruct (Hadd x ltac:(left)) as (x' & Hin' & Hx').
      exists (Exec_Key x), x'. destruct (Hfresh x ltac:(left)) as (? & _). by destruct (Hfresh x' Hin') as (_ & ? & _).
    + destruct (ok_awaiting s Hs _ _ Hk Ha) as (k' & x & Hx & ? & ?). exists k', x. split; [by apply Hold | done].
Qed.

Lemma settle_ok : service_ok s'.
Proof.
  split; [done|done|..].
  - intros k x Hk Hp. pose proof (settle_history k x Hk) as H. by rewrite Hp in H.
  - intros k x Hk [at_ Hp]. pose proof (settle_history k x Hk) as H. by rewrite Hp in H.
  - exact settle_receipt.
  - exact settle_acked.
  - exact settle_requests.
  - exact settle_human.
  - apply settle_tools.
  - apply settle_tools.
Qed.
End Settle.

Lemma ack_ok s k t now : service_ok s -> tasks s !! k = Some t -> Task_State t = TaskLeased ->
  let s' := set_tasks (<[k := advance_task t TaskAwaitingHuman now]> (tasks s)) s in
  ledger_ok s' -> revisions_ok s' -> service_ok s'.
Proof.
  intros Hs Ht Hl s' L V. destruct Hs as [_ _ Hh Htomb Hrec Hack Hprog Hhum Hpend Hawait]. split; [done|done|..]; try done.
  - intros k' r Hr. specialize (Hprog k' r Hr). destruct (Req_ResponseComplete r); [done|].
    destruct Hprog as (t' & Ht' & Hin). destruct (decide (k = Req_Task r)) as [->|Hne].
    + eexists. cbn. rewrite lookup_insert_eq. split; [done|]. assert (t' = t) as -> by congruence.
      destruct Hin as (_ & ?). split; [by right | done].
    + exists t'. cbn. by rewrite lookup_insert_ne.
  - intros k' t' Hk Hwh. unfold s' in Hk. cbn in Hk. apply lookup_insert_Some in Hk as [[<- <-]|[Hne Hk]]; [|by eapply Hhum].
    eapply Hhum; [exact Ht | by left].
  - intros k' x Hx Hp. destruct (Hpend k' x Hx Hp) as (t' & Ht' & Ha). exists t'. cbn.
    rewrite lookup_insert_ne; [done|]. intros ->. congruence.
  - intros k' t' Hk Ha. unfold s' in Hk. cbn in Hk. apply lookup_insert_Some in Hk as [[<- <-]|[Hne Hk]]; [done | by eapply Hawait].
Qed.

Lemma prune_ok s s' k r at_ : service_ok s -> ledger_ok s' -> revisions_ok s' ->
  requests s !! k = Some r -> Req_ResponseComplete r = true ->
  tasks s' = tasks s -> requests s' = <[k := pruned_request r at_]> (requests s) -> events s' = delete k (events s) ->
  receipts s' = receipts s -> (forall k, tools s !! k = None -> tools s' !! k = None) ->
  (forall k x, tools s !! k = Some x -> exists x', tools s' !! k = Some x' /\ Exec_State x' = Exec_State x) -> service_ok s'.
Proof.
  intros Hs L V Hr Hc Et Er Ee Ex Hnone Htools. destruct Hs as [_ _ Hh Htomb Hrec Hack Hprog Hhum Hpend Hawait].
  assert (forall k', history s' k' = if decide (k = k') then ∅ else history s k') as Hd.
  { intros k'. rewrite <- history_delete. unfold history. by rewrite Ee. }
  split; [done|done|..].
  - intros k' r' Hk Hp. rewrite Er in Hk. apply lookup_insert_Some in Hk as [[<- <-]|[Hne Hk]]; [done|].
    eapply whole_history_same; [|by apply Hh]. by rewrite Hd, decide_False.
  - intros k' r' Hk Hp. rewrite Er in Hk. apply lookup_insert_Some in Hk as [[<- <-]|[Hne Hk]].
    + by rewrite Hd, decide_True.
    + rewrite Hd, decide_False by done. by apply Htomb.
  - intros k' n e He Hne. rewrite Ex. rewrite Hd in He. case_decide; [by rewrite lookup_empty in He|]. by eapply Hrec.
  - intros k' r' id x Hk Hp Hx. rewrite Er in Hk. rewrite Ex in Hx.
    apply lookup_insert_Some in Hk as [[<- <-]|[Hne Hk]]; [done|]. rewrite Hd, decide_False by done. by eapply Hack.
  - intros k' r' Hk. rewrite Er in Hk. rewrite Et. apply lookup_insert_Some in Hk as [[<- <-]|[Hne Hk]]; [|by eapply Hprog].
    specialize (Hprog _ _ Hr). cbn [Req_ResponseComplete Req_CompletedAt pruned_request]. rewrite Hc in *. done.
  - intros k' t Ht Hw. rewrite Et in Ht. rewrite Er. destruct (Hhum _ _ Ht Hw) as (k1 & r1 & H1 & ? & Hc1).
    exists k1, r1. split; [|done]. rewrite lookup_insert_ne; [done|]. intros ->. congruence.
  - intros k' x Hx Hp. rewrite Et. destruct (tools s !! k') as [x0|] eqn:E0; [|by rewrite (Hnone _ E0) in Hx].
    destruct (Htools _ _ E0) as (x' & Hx' & Hst). eapply Hpend; [exact E0|]. congruence.
  - intros k' t Ht Ha. rewrite Et in Ht. destruct (Hawait _ _ Ht Ha) as (k1 & x & H1 & ? & ?).
    destruct (Htools _ _ H1) as (x' & Hx' & Hst). exists k1, x'. split_and!; congruence.
Qed.

(** A request is admitted; the one it supersedes, if any, is closed. *)
Section Admit.
Context (s s' : memoryLLMState) (Hs : service_ok s) (L : ledger_ok s') (V : revisions_ok s').
Context (r : StoreRequestRecord) (t : StoreTaskRecord) (now : time) (es : list StoreResponseEventRecord)
  (stale : option StoreRequestRecord).
Hypothesis Hfree : requests s !! Req_Key r = None.
Hypothesis Hnew : Req_ResponseComplete r = false /\ Req_RecoveryQuarantined r = false /\ Req_CompletedAt r = None /\
  Req_PayloadPrunedAt r = None.
Hypothesis Hn : numbered (Req_Key r) 0 es.
Hypothesis Hlast : Req_LastEventSequence r = Z.of_nat (length es).
Hypothesis Hown : Forall (fun e => Resp_WorkerEventID e = "") es.
Hypothesis Ht : Task_State t = TaskLeased /\ Task_LeaseOwner t <> "" /\ Task_LeaseID t <> "".
Hypothesis Hstale : match stale with
  | None => forall k r0, requests s !! k = Some r0 -> Req_Task r0 = Req_Task r -> Req_ResponseComplete r0 = true
  | Some r0 => requests s !! Req_Key r0 = Some r0 /\ Req_Task r0 = Req_Task r /\ Req_ResponseComplete r0 = false
  end.
Hypothesis Htools : tools_settled (Req_Task r) s (tools s').
Hypothesis Et : tasks s' = <[Req_Task r := t]> (tasks s).
Hypothesis Er : requests s' = <[Req_Key r := r]>
  (match stale with Some r0 => <[Req_Key r0 := superseded r0 now]> (requests s) | None => requests s end).
Hypothesis Ee : events s' = events (foldl add_event s es).
Hypothesis Ex : receipts s' = receipts s.

Lemma admit_requests k x : requests s' !! k = Some x <->
  (k = Req_Key r /\ x = r) \/
  (k <> Req_Key r /\ (exists r0, stale = Some r0 /\ k = Req_Key r0 /\ x = superseded r0 now)) \/
  (k <> Req_Key r /\ requests s !! k = Some x /\ (forall r0, stale = Some r0 -> k <> Req_Key r0)).
Proof using Er.
  rewrite Er, lookup_insert_Some. clear. destruct stale as [r0|].
  - rewrite lookup_insert_Some. split.
    + intros [[<- <-]|[Hne [[<- <-]|[Hne' Hk]]]]; [by left | right; left; eauto | right; right]. split_and!; [done|done|].
      intros r1 [= <-]. done.
    + intros [[-> ->]|[(? & r1 & [= <-] & -> & ->)|(? & ? & H)]]; [by left | right; split; [done | by left]|].
      right. split; [done|]. right. split; [|done]. intros E. by apply (H r0).
  - split.
    + intros [[<- <-]|[Hne Hk]]; [by left | right; right]. by split_and!.
    + intros [[-> ->]|[(? & r1 & [=] & _)|(? & ? & H)]]; [by left | right]. done.
Qed.

(** A request in progress, other than the new one, has another Task. *)
Lemma admit_others k x : requests s !! k = Some x -> Req_ResponseComplete x = false ->
  (forall r0, stale = Some r0 -> k <> Req_Key r0) -> Req_Task x <> Req_Task r.
Proof using Hs Hstale.
  clear - Hs Hstale. intros Hk Hc Ho E. destruct stale as [r0|].
  - destruct Hstale as (Hr0 & E0 & Hc0). destruct (Ho r0 eq_refl).
    eapply (one_in_progress s (Req_Key r0) r0 k x Hs); congruence.
  - by rewrite (Hstale _ _ Hk E) in Hc.
Qed.

Lemma admit_events : whole_history s' (Req_Key r) (Req_LastEventSequence r) /\
  (forall n e, history s' (Req_Key r) !! n = Some e -> e ∈ es) /\
  forall k, k <> Req_Key r -> history s' k = history s k.
Proof using Hs L Hfree Hn Hlast Ee.
  clear - Hs L Hfree Hn Hlast Ee. pose proof (whole_history_fresh s _ (ok_ledger s Hs) Hfree) as H0. rewrite Hlast. split_and!.
  - by apply (append_whole s s' (ok_ledger s Hs) L _ 0 es).
  - intros n e He. apply (append_lookup s s' (ok_ledger s Hs) L _ 0 es) in He as [He|[? _]]; [|done..].
    apply (ledger_event_key s (ok_ledger s Hs)) in He as (_ & _ & [y Hy] & _). congruence.
  - by apply (append_other s s' _ 0 es).
Qed.

Lemma admission_ok : service_ok s'.
Proof using All.
  destruct admit_events as (Hw & Hin & Hother). destruct Hnew as (Hc & Hq & Hcomp & Hp), Ht as (Hl & Ho & Hi).
  destruct Htools as [Htn Hts]. split; [done|done|..].
  - intros k x [[-> ->]|[(Hne & r0 & -> & -> & ->)|(Hne & Hk & _)]]%admit_requests Hp'; [done|..];
      (eapply whole_history_same; [by apply Hother|]); [|by apply (ok_history s Hs)].
    destruct Hstale as (Hr0 & _). by apply (ok_history s Hs _ r0).
  - intros k x [[-> ->]|[(Hne & r0 & -> & -> & ->)|(Hne & Hk & _)]]%admit_requests Hp'; [by rewrite Hp in Hp'; destruct Hp'|..];
      rewrite Hother by done; [|by apply (ok_tombstone s Hs)].
    destruct Hstale as (Hr0 & _). split; [done|]. by apply (ok_tombstone s Hs _ r0).
  - intros k n e He Hne. rewrite Ex. destruct (decide (k = Req_Key r)) as [->|Hk]; [|rewrite Hother in He by done; by eapply (ok_receipt s Hs)].
    rewrite Forall_forall in Hown. by rewrite (Hown _ (Hin _ _ He)) in Hne.
  - intros k x id y [[-> ->]|[(Hne & r0 & -> & -> & ->)|(Hne & Hk & _)]]%admit_requests Hp' Hy; rewrite Ex in Hy.
    + destruct (ledger_receipt_key s (ok_ledger s Hs) _ _ Hy) as (Hkey & [z Hz]).
      apply (f_equal ReceiptKey_request) in Hkey. cbn in Hkey. congruence.
    + rewrite Hother by done. destruct Hstale as (Hr0 & _). by eapply (ok_acked s Hs _ r0).
    + rewrite Hother by done. by eapply (ok_acked s Hs).
  - intros k x [[-> ->]|[(Hne & r0 & -> & -> & ->)|(Hne & Hk & Hst)]]%admit_requests.
    + rewrite Hc. exists t. rewrite Et, lookup_insert_eq. split; [done|]. split_and!; [by left|done..].
    + cbn. by eexists.
    + pose proof (ok_progress s Hs _ _ Hk) as H. destruct (Req_ResponseComplete x) eqn:Ecx; [done|].
      destruct H as (t' & Ht' & ?). exists t'. rewrite Et, lookup_insert_ne; [done|]. intros E.
      by apply (admit_others _ _ Hk Ecx Hst).
  - intros k t' Hk Hwh. rewrite Et in Hk. apply lookup_insert_Some in Hk as [[<- <-]|[Hne Hk]].
    + exists (Req_Key r), r. split; [|done]. apply admit_requests. by left.
    + destruct (ok_human s Hs _ _ Hk Hwh) as (k' & x & Hx & <- & Hcx). exists k', x. split; [|done].
      apply admit_requests. right; right. split_and!; [congruence | done|]. intros r0 -> ->.
      destruct Hstale as (Hr0 & E0 & _). congruence.
  - intros k x Hx Hpend. destruct (tools s !! k) as [x0|] eqn:E0; [|by rewrite (Htn _ E0) in Hx].
    specialize (Hts _ _ E0). case_decide as Hd.
    + destruct Hts as (x' & Hx' & ?). congruence.
    + assert (x = x0) as -> by congruence. destruct (ok_pending s Hs _ _ E0 Hpend) as (t' & Ht' & ?). exists t'.
      rewrite Et, lookup_insert_ne; [done|]. intros E. by destruct Hd.
  - intros k t' Hk Ha. rewrite Et in Hk. apply lookup_insert_Some in Hk as [[<- <-]|[Hne Hk]]; [congruence|].
    destruct (ok_awaiting s Hs _ _ Hk Ha) as (k' & x & Hx & E & ?). exists k', x. split; [|done].
    specialize (Hts _ _ Hx). rewrite decide_False in Hts; [done|]. intros [? _]. congruence.
Qed.
End Admit.

Theorem service_step_ok s s' : service_ok s -> service_step s s' -> ledger_ok s' -> revisions_ok s' -> service_ok s'.
Proof.
  intros Hs Hstep L V. destruct Hstep as
    [r t id digest now es state done decision new Hh Hc Hx Hid [Hn (first & wires & -> & Hf & Hw)] Hst Hdone Hnew Hfresh Habs
    |k t now Ht Hl
    |r t now es stale tools' Hfree Hc Hq Hcomp Hp Hn Hlast Hown Hl Ho Hi Hterm Hstale Htools
    |r t now es decision Hh Hc Hes
    |k r at_ tools' Hr Hc Hp Htn Hts].
  - eapply (settle_ok s _ Hs L V r _ t (Task_LeaseOwner t) id digest now (first :: wires) state done new); try done.
    + constructor; [by destruct Hf as (? & ? & ? & _)|]. eapply Forall_impl; [exact Hw|]. by intros e (? & ? & ? & _).
    + cbn. split_and!; try done. by destruct done.
    + destruct done; [by eexists | done].
    + rewrite decide_False by done. cbn. split_and!; [done| |done]. exists first. split; [by left|]. by destruct Hf as (_ & _ & _ & _ & ?).
  - by apply ack_ok.
  - by eapply (admission_ok s _ Hs L V r t now es stale).
  - assert (numbered (Req_Key r) (Req_LastEventSequence r) es /\
      Forall (fun e => Resp_Worker e = "" /\ Resp_WorkerEventID e = "" /\ Resp_WorkerEventDigest e = "") es) as [Hn Hown].
    { destruct Hes as [->|[Hn (first & wires & -> & Hf & Hw)]]; [done|]. split; [done|].
      constructor; [by destruct Hf as (? & ? & ? & _)|]. eapply Forall_impl; [exact Hw|]. by intros e (? & ? & ? & _). }
    eapply (settle_ok s _ Hs L V r _ t "" "" "" now es TaskFailed true []); try done.
    + by intros [|].
    + by split_and!.
    + by eexists.
  - eapply (prune_ok s _ k r at_); try done. intros k' x Hx. destruct (Hts _ _ Hx) as (x' & ? & [->|[? _]]); eauto.
Qed.
