(* ===== verification/LlmAtomic.v ===== *)
(** * Every step of the HumanLLM service is a step of its machine

    The atomic steps of [LlmMachine], made of the code's own computations, are
    steps of the abstract machine of [LlmSpec], so that its invariant holds of
    every state the service leads to. *)

From S2P Require Import Prelude GoText GoEncoding GoTime GoJson GoStrings GoDoc GoStruct AgentTypes Framework Protect LlmTypes.
From S2P Require Import LlmJson LlmMemory LlmLedger LlmScan LlmRuntime LlmProg LlmEvents LlmService LlmCommit LlmRecovery LlmAdmission LlmMaintenance.
From S2P Require Import LlmEffects LlmMachine LlmSpec.

Import Llm.
Local Open Scope string_scope.
Local Open Scope list_scope.

(* ------------------------------------------------------------------ *)
(** ** The computations of a commit *)

Lemma failed_Ok {A} delivery (m : res A) a : failed delivery m = Ok a <-> m = Ok a.
Proof. unfold failed, delivery_error, or_return. destruct m; split; congruence. Qed.
Lemma nack_if_Ok bad delivery code message u : nack_if bad delivery code message = Ok u <-> bad = false.
Proof. unfold nack_if, nack. destruct bad, u; split; congruence. Qed.
Lemma identified_Ok {A} delivery message (m : res A) a : identified delivery message m = Ok a <-> m = Ok a.
Proof. unfold identified, nack. destruct m; [split; congruence|]. destruct (_ && _)%bool; split; congruence. Qed.

Section Computations.
Context (service : Service) (ctx : goctx) (connection : serviceWorkerConnection).

Lemma identifyDelivery_inv delivery0 delivery digest : identifyDelivery connection delivery0 = Ok (delivery, digest) ->
  normalizeCanonicalJSON Event_json (EventDelivery_Event delivery0) = Ok (EventDelivery_Event delivery) /\
  delivery = set_event (EventDelivery_Event delivery) delivery0 /\
  WorkerEventDelivery_ValidateFor delivery (conn_principal connection) = Ok tt /\
  workerEventDigest delivery = Ok digest.
Proof.
  unfold identifyDelivery. intros H. apply obind_Ok in H as (event & H1 & H). apply identified_Ok in H1.
  apply obind_Ok in H as ([] & H2 & H). apply identified_Ok in H2.
  destruct (workerEventDigest _) as [d|] eqn:E; [|done]. injection H as <- <-. done.
Qed.

Lemma acceptDelivery_inv delivery state state' rebuilt :
  acceptDelivery service ctx connection delivery (Ok state) = Ok (state', rebuilt) ->
  let r := durable_request state in let t := durable_task state in
  state' = state /\ Req_ResponseComplete r = false /\ Task_LeaseOwner t = conn_worker connection /\
  Task_LeaseID t = EventDelivery_LeaseID delivery /\
  identity_of r t = {| Identity_CallerID := RequestKey_Caller (Req_Key r);
    Identity_RequestID := Identity_RequestID (EventDelivery_Identity delivery);
    Identity_TaskID := Identity_TaskID (EventDelivery_Identity delivery);
    Identity_WorkspaceKey := Identity_WorkspaceKey (EventDelivery_Identity delivery);
    Identity_IdempotencyKey := RequestKey_IdempotencyKey (Req_Key r) |} /\
  service_codecs service !! Snapshot_ID (Req_Codec r) = Some (rebuilt_registration rebuilt) /\
  CodecSnapshot_Equal (registered_snapshot (rebuilt_registration rebuilt)) (Req_Codec r) = true /\
  rebuildEncoder service ctx (rebuilt_registration rebuilt) state = Ok (rebuilt_request rebuilt, rebuilt_encoder rebuilt).
Proof.
  unfold acceptDelivery. cbn [obind]. intros H.
  apply obind_Ok in H as ([] & H1 & H). apply nack_if_Ok in H1. apply obind_Ok in H as ([] & H2 & H). apply nack_if_Ok in H2.
  apply obind_Ok in H as ([] & H3 & H). apply nack_if_Ok in H3. apply obind_Ok in H as ([] & H4 & H). apply nack_if_Ok in H4.
  apply obind_Ok in H as ([] & _ & H). bool_split. decided.
  destruct (service_codecs service !! _) as [registration|] eqn:E; [|done].
  apply obind_Ok in H as ([] & H6 & H). apply failed_Ok, refuse_if_Ok, negb_false_iff in H6.
  apply obind_Ok in H as ([decoded encoder] & H7 & H). apply failed_Ok in H7. injection H as <- <-.
  split_and!; try done. unfold identity_of. congruence.
Qed.

Lemma encodeEvent_inv delivery state rebuilt seed l done : encodeEvent delivery state rebuilt seed = Ok (l, done) ->
  (exists encoder, Encoder_Encode (registered_codec (rebuilt_registration rebuilt)) (EventDelivery_Event delivery) seed
     (rebuilt_encoder rebuilt) = Ok (l, done, encoder)) /\
  check_frames (Codec_Limits (registered_description (rebuilt_registration rebuilt))) (Req_Mode (durable_request state)) l done
    = Ok tt /\
  done = EndsResponse (EventDelivery_Event delivery) /\ checkPersistedFrameStep l = Ok tt.
Proof.
  unfold encodeEvent. destruct (Encoder_Encode _ _ _ _) as [[[l' done'] encoder]|] eqn:E; [|done]. intros H.
  apply obind_Ok in H as ([] & H1 & H). apply nack_if_Ok, orb_false_iff in H1 as [H1 H2].
  apply obind_Ok in H as ([] & H3 & H). apply nack_if_Ok in H3. injection H as <- <-.
  apply negb_false_iff in H1, H2, H3. split_and!; [by eexists| |by apply eqb_prop|].
  - by destruct (check_frames _ _ _ _) as [[]|].
  - by destruct (checkPersistedFrameStep l') as [[]|].
Qed.
End Computations.

(** A valid event with tool calls has some. *)
Lemma event_valid connection delivery : WorkerEventDelivery_ValidateFor delivery (conn_principal connection) = Ok tt ->
  Event_ID (EventDelivery_Event delivery) <> "" /\
  (Event_Type (EventDelivery_Event delivery) = EventToolCalls -> Event_ToolCalls (EventDelivery_Event delivery) <> []).
Proof.
  unfold WorkerEventDelivery_ValidateFor, WorkerEventDelivery_Validate, validateTransportEvent.
  intros H. ok_inv. split.
  - match goal with H : validateWorkerEventID _ = _ |- _ => unfold validateWorkerEventID in H; apply refuse_if_Ok in H end.
    bool_split. intros E. rewrite E in *. done.
  - intros E. rewrite E in H. ok_inv. bool_split. by destruct (Event_ToolCalls _).
Qed.

Lemma toolRecords_length task now calls records : Plan.toolRecords task now calls = Ok records ->
  length records = length calls.
Proof. intros H. apply toolRecords_ids in H. apply (f_equal length) in H. by rewrite !length_fmap in H. Qed.

(** The states an accepted event leads to. *)
Lemma planned_state authorizer task request event now p :
  Plan.planWorkerEvent authorizer task request event now = Ok p -> Plan.plan_rejection p = None ->
  (Event_Type event = EventToolCalls -> Event_ToolCalls event <> []) ->
  (Task_State task = TaskAwaitingHuman \/ Task_State task = TaskLeased /\ Plan.plan_state p = TaskExpired) /\
  (if EndsResponse event then ~ with_human (Plan.plan_state p) else Plan.plan_state p = Task_State task) /\
  (Plan.plan_state p = TaskAwaitingResults <-> Plan.plan_tools p <> []).
Proof.
  intros H Hr Hc. unfold Plan.planWorkerEvent in H. unfold EndsResponse, with_human.
  assert (forall code, Ok (E := error) (Plan.reject (Task_State task) code) = Ok p -> False) as Hrej by (intros code [= <-]; done).
  destruct (Event_Type event) eqn:Ety; unfold Plan.terminalEventAllowed in H;
    try (destruct (decide (Task_State task = TaskAwaitingHuman)) as [Ha|Ha];
         [rewrite Ha in *; rewrite (bool_decide_eq_true_2 (TaskAwaitingHuman = TaskAwaitingHuman) eq_refl) in H; cbn [negb orb] in H
         | rewrite (bool_decide_eq_false_2 _ Ha) in H; cbn [negb] in H]);
    try (by destruct (Hrej _ H)); try done;
    lazymatch type of H with
    | obind _ _ = _ => apply obind_Ok in H as (rejection & _ & H); destruct rejection; [by destruct (Hrej _ H)|]
    | _ => idtac
    end.
  all: repeat case_bool_decide; cbn [orb] in H; try (by destruct (Hrej _ H)).
  all: try (injection H as <-; cbn in *; try done; split_and!; first [by auto | by intros [|] | split; [done | by intros []]]).
  destruct (Plan.toolRecords _ _ _) as [records|e] eqn:E; [injection H as <-|by destruct (Hrej _ H)].
  apply toolRecords_length in E. cbn. split_and!; [by auto | by intros [|]|]. split; [|done]. intros _ ->.
  by destruct (Event_ToolCalls event); [destruct Hc|].
Qed.

(* ------------------------------------------------------------------ *)
(** ** A worker event *)

Lemma add_tools_absent l1 : forall s x, tools (foldl add_tool s l1) !! Exec_Key x = None -> tools s !! Exec_Key x = None.
Proof.
  induction l1 as [|y l1 IH]; intros s x H; [done|]. cbn in H. apply IH in H. cbn in H.
  apply lookup_insert_None in H. tauto.
Qed.

(** The records that were inserted are numbered on from the cursor. *)
Lemma valid_records es : (forall l1 e l2, es = l1 ++ e :: l2 -> memoryLLMValidateResponseEvent e = Ok tt) ->
  Forall (fun e => Resp_Sequence e <> 0%Z) es.
Proof.
  intros H. rewrite Forall_forall. intros e (l1 & l2 & ->)%list_elem_of_split. specialize (H l1 e l2 eq_refl).
  unfold memoryLLMValidateResponseEvent in H. apply refuse_if_Ok in H. bool_split. by zbool.
Qed.

Lemma step_records_appended r worker id digest now es : uint64 (Req_LastEventSequence r) ->
  step_records (Req_Key r) (Req_LastEventSequence r) worker id digest now es ->
  (forall l1 e l2, es = l1 ++ e :: l2 -> memoryLLMValidateResponseEvent e = Ok tt) ->
  appended r worker id digest now es /\
  forall d, match last es with Some e => Resp_Sequence e | None => d end = cursor_after r es.
Proof.
  intros Hu (_ & Hn & first & wires & -> & Hf & Hw) Hv%valid_records. specialize (Hn Hu Hv). split; [split; eauto|].
  intros d. rewrite (numbered_last _ _ _ d Hn). by rewrite decide_False by done.
Qed.

Section Atomic.
Context (service : Service).

Lemma holds_task s r t : ledger_ok s -> holds s r t -> Task_Key t = Req_Task r.
Proof. intros Hs [_ Ht]. by apply (ledger_task_key s Hs). Qed.

(** What the effect of an event is, in terms of what was read. *)
Inductive event_step (s : memoryLLMState) r t delivery digest (p : eventCommit) (s' : memoryLLMState) : Prop :=
  | event_step_intro now state (done : bool) decision :
      let id := Event_ID (EventDelivery_Event delivery) in
      Req_ResponseComplete r = false -> receipt_at s (Req_Key r) id = None -> id <> "" ->
      appended r (Task_LeaseOwner t) id digest now (commit_events p) ->
      Task_State t = TaskAwaitingHuman \/ Task_State t = TaskLeased /\ state = TaskExpired ->
      (if done then ~ with_human state else state = Task_State t) ->
      (state = TaskAwaitingResults <-> commit_tools p <> []) ->
      Forall (fresh_tool (Req_Task r)) (commit_tools p) -> Forall (fun x => tools s !! Exec_Key x = None) (commit_tools p) ->
      s' = {| tasks := if done then <[Req_Task r := advance_task t state now]> (tasks s) else tasks s;
              requests := <[Req_Key r := advance_request r (cursor_after r (commit_events p)) (if done then Some now else None)
                                           decision]> (requests s);
              events := events (foldl add_event s (commit_events p));
              receipts := <[{| ReceiptKey_request := Req_Key r; ReceiptKey_eventID := id |} :=
                {| Receipt_Request := Req_Key r; Receipt_EventID := id; Receipt_Worker := Task_LeaseOwner t;
                   Receipt_Digest := digest; Receipt_CreatedAt := now |}]> (receipts s);
              tools := tools (foldl add_tool s (commit_tools p)) |} ->
      event_step s r t delivery digest p s'.

Lemma commit_atomic ctx connection delivery0 delivery digest s state rebuilt clock now planned seed l done p s' :
  service_ok s -> identifyDelivery connection delivery0 = Ok (delivery, digest) -> reads s state ->
  acceptDelivery service ctx connection delivery (Ok state) = Ok (state, rebuilt) -> checkedTime clock = Ok now ->
  planDelivery service delivery state (rebuilt_request rebuilt) now = Ok planned ->
  encodeEvent delivery state rebuilt seed = Ok (l, done) ->
  prepareCommit service ctx connection delivery digest state (rebuilt_registration rebuilt) planned seed l done now = Ok p ->
  commitTx service connection delivery state p (live s) = Ok (tt, s') ->
  s' = s \/ event_step s (durable_request state) (durable_task state) delivery digest p s'.
Proof.
  intros Hs H1 [Hh _] H4 H5 H6 H8 H9 H10.
  apply identifyDelivery_inv in H1 as (_ & _ & Hv & _). apply event_valid in Hv as [Hid Hcalls].
  apply acceptDelivery_inv in H4 as (_ & Hc & Ho & _). apply planDelivery_Ok in H6 as [Hp Hrej].
  destruct (planned_state _ _ _ _ _ _ Hp Hrej Hcalls) as (Hst & Hdone & Hnew). apply planned_fresh in Hp.
  apply encodeEvent_inv in H8 as (_ & _ & Edone & _). rewrite <- Edone in Hdone.
  apply prepareCommit_inv in H9 as (Etools & _ & Etask & Erec & Hes & decision & Ereq).
  set (r := durable_request state) in *. set (t := durable_task state) in *.
  destruct (in_progress_of s r t Hs Hh Hc) as [(Hwh & _) Hwhole].
  pose proof (whole_history_uint64 s _ _ (ok_ledger s Hs) Hwhole) as Hu.
  pose proof (holds_task s r t (ok_ledger s Hs) Hh) as Hkey.
  apply commitTx_inv in H10 as [[-> _]|(-> & Hnone & r0 & t0 & Hr0 & Ht0 & _ & _ & _ & _ & _ & Hev & Htl & _)]; [by left|]. right.
  destruct (step_records_appended r _ _ _ _ _ Hu Hes) as [Happ Hlast]; [intros * E; by destruct (Hev _ _ _ E)|].
  rewrite Hlast in Ereq. rewrite Etools in *. rewrite Hkey in *. rewrite <- Ho in Happ.
  eapply (event_step_intro _ _ _ _ _ _ _ now (Plan.plan_state planned) done decision); rewrite ?Etools; try done.
  - rewrite Forall_forall. intros x (l1 & l2 & E)%list_elem_of_split. destruct (Htl _ _ _ E) as [Hx _]. by eapply add_tools_absent.
  - unfold settled. rewrite Ereq, Erec, Etask, Etools. fold r t. rewrite Hkey, <- Ho. cbn. f_equal.
    destruct done; [|by rewrite bool_decide_eq_true_2].
    rewrite bool_decide_eq_false_2; [done|]. intros E. by rewrite E in Hdone.
Qed.

Lemma event_atomic ctx connection delivery s s' : service_ok s -> committing service ctx connection delivery s s s' ->
  s' = s \/ service_step s s'.
Proof.
  intros Hs. destruct 1 as [delivery0 digest state rebuilt clock now planned answer seed l done p H1 H2 H3 H4 H5 H6 H7 H8 H9 H10].
  destruct (commit_atomic _ _ _ _ _ _ _ _ _ _ _ _ _ _ _ _ Hs H1 H2 H4 H5 H6 H8 H9 H10) as [->|Hstep]; [by left|]. right.
  destruct Hstep as [now' st done' decision id Hc Hn Hid Happ Hst Hd Hnew Hf Ha ->]. eapply step_event; try done. by destruct H2.
Qed.

(* ------------------------------------------------------------------ *)
(** ** Acknowledgement, quarantine, pruning *)

Lemma ack_atomic s s' : acknowledging s s' -> s' = s \/ service_step s s'.
Proof.
  destruct 1 as [key lease clock now _ H]. apply ackTx_inv in H as [->|(t & Ht & Hl & ->)]; [by left | right]. by apply step_ack.
Qed.

Lemma not_terminal t : with_human (Task_State t) -> TaskState_Terminal (Task_State t) = false.
Proof. by intros [->| ->]. Qed.

Lemma quarantine_atomic ctx s s' : service_ok s -> quarantining service ctx s s s' -> s' = s \/ service_step s s'.
Proof.
  intros Hs. destruct 1 as [request task l clock now es next Hh Hc H3 H4 H5].
  destruct (in_progress_of s _ _ Hs Hh Hc) as [(Hwh & _) Hwhole].
  rewrite (not_terminal _ Hwh) in H5. apply prepareQuarantine_inv in H4 as (Hes & decision & completed & -> & Hcomp & _).
  pose proof (holds_task s _ _ (ok_ledger s Hs) Hh) as Hkey.
  apply quarantineTx_inv in H5 as [->|(r0 & _ & _ & _ & -> & Hv)]; [by left|]. right. cbn [Recovery_Request Recovery_Task].
  rewrite (Hcomp Hc), Hkey.
  assert ((es = [] \/ appended request "" "" "" now es) /\
    match last es with Some e => Resp_Sequence e | None => Req_LastEventSequence request end = cursor_after request es) as [Happ ->].
  { destruct Hes as [->|Hes]; [split; [by left|]; unfold cursor_after; cbn; lia|].
    destruct (step_records_appended request _ _ _ _ _ (whole_history_uint64 s _ _ (ok_ledger s Hs) Hwhole) Hes Hv). auto. }
  by apply step_quarantine.
Qed.

Lemma prune_atomic s s' : service_ok s -> pruning s s' -> s' = s \/ service_step s s'.
Proof.
  intros Hs. destruct 1 as [key boundary at_ retain result H].
  apply pruneTx_inv in H as [_ [->|(r & Hr & Hc & Hp & _ & E1 & E2 & E3 & E4 & Hn & Ht)]]; [by left| |apply Hs..]. right.
  destruct s' as [t' q' e' x' l']. cbn in *. subst. apply (step_prune s key r at_); try done.
  intros k x Hx. destruct (Ht k x Hx) as [?|(? & E & _ & _ & _ & t & ? & ?)]; (eexists; split; [done|]); [by left|].
  right. split; [done|]. exists t. by rewrite E.
Qed.

(* ------------------------------------------------------------------ *)
(** ** Admission *)

Lemma elem_tool_executions s task x : ledger_ok s ->
  x ∈ tool_executions s task None <-> tools s !! Exec_Key x = Some x /\ ToolKey_Task (Exec_Key x) = task.
Proof.
  intros Hs. unfold tool_executions, values. rewrite list_elem_of_fmap. split.
  - intros ([k y] & -> & Hin). apply elem_entries in Hin as [Hk Hf]. cbn in *. rewrite andb_true_r in Hf. decided.
    destruct (ledger_tool_key s Hs _ _ Hk) as (-> & _). done.
  - intros [Hx <-]. exists (Exec_Key x, x). split; [done|]. apply elem_entries. split; [done|].
    cbn. by rewrite bool_decide_eq_true_2.
Qed.

Lemma plan_tool_results_spec ctx results l ms : plan_tool_results service ctx results l = Ok ms ->
  (forall x, x ∈ l -> Exec_State x = ToolExecutionPending -> exists m, m ∈ ms /\ result_current m = x) /\
  Forall (fun m => result_current m ∈ l /\ Exec_State (result_current m) = ToolExecutionPending /\
    Exec_State (result_next m) = ToolExecutionCompleted) ms.
Proof.
  revert ms. induction l as [|x l IH]; intros ms H; cbn in H; [injection H as <-; split; [by intros x ?%elem_of_nil | done]|].
  destruct (decide (Exec_State x = ToolExecutionPending)) as [Hp|Hp].
  - rewrite bool_decide_eq_true_2 in H by done. cbn in H. destruct (results !! _) as [submitted|]; [|done].
    apply obind_Ok in H as (sealed & _ & H). apply obind_Ok in H as (rest & Hr & [= <-]).
    destruct (IH _ Hr) as [H1 H2]. split.
    + intros y [->|Hy]%elem_of_cons Hpy; [eexists; split; [by left | done]|]. destruct (H1 _ Hy Hpy) as (m & ? & ?).
      exists m. split; [by right | done].
    + constructor; [split_and!; [by left | done..]|]. eapply Forall_impl; [exact H2|]. intros m (? & ? & ?). split_and!; [by right | done..].
  - rewrite bool_decide_eq_false_2 in H by done. cbn in H. destruct (IH _ H) as [H1 H2]. split.
    + intros y [->|Hy]%elem_of_cons Hpy; [done|]. by apply H1.
    + eapply Forall_impl; [exact H2|]. intros m (? & ? & ?). split_and!; [by right | done..].
Qed.

Lemma swap_tools_lookup ms : forall s k,
  ((forall m, m ∈ ms -> Exec_Key (result_current m) <> k) -> tools (foldl swap_tool s ms) !! k = tools s !! k) /\
  (forall m, m ∈ ms -> Exec_Key (result_current m) = k -> exists m', m' ∈ ms /\ tools (foldl swap_tool s ms) !! k = Some (result_next m')).
Proof.
  induction ms as [|m ms IH]; intros s k; [split; [done | by intros m ?%elem_of_nil]|]. cbn [foldl].
  destruct (IH (swap_tool s m) k) as [H1 H2]. split.
  - intros Hne. rewrite H1; [|intros m' Hm'; apply Hne; by right]. cbn. rewrite lookup_insert_ne; [done|]. apply Hne. by left.
  - intros m' Hm' Hk. destruct (decide (Exists (fun m => Exec_Key (result_current m) = k) ms)) as [Hex|Hno].
    + apply Exists_exists in Hex as (m2 & Hm2 & Hk2). destruct (H2 m2 Hm2 Hk2) as (m3 & ? & ?). exists m3. split; [by right | done].
    + apply elem_of_cons in Hm' as [->|Hm']; [|destruct Hno; apply Exists_exists; eauto]. exists m. split; [by left|].
      rewrite H1; [cbn; by rewrite Hk, lookup_insert_eq|]. intros m2 Hm2 Hk2. destruct Hno. apply Exists_exists. eauto.
Qed.

Lemma plan_settles ctx key decoded plan now s : service_ok s -> plans service s ctx key decoded plan ->
  (planned_task plan = None -> tasks s !! key = None) ->
  tools_settled key s (tools (foldl swap_tool s (settle_result now <$> plan_results plan))).
Proof.
  intros Hs Hplan Hnone. pose proof (ok_ledger s Hs) as L.
  assert ((forall t, tasks s !! key = Some t -> Task_State t <> TaskAwaitingResults) -> tools_settled key s (tools s)) as Hidle.
  { intros Hst. split; [done|]. intros k x Hx. rewrite decide_False; [done|]. intros [<- Hp].
    destruct (ok_pending s Hs _ _ Hx Hp) as (t & Ht & Ha). by apply (Hst t). }
  destruct Hplan as [|task Ht Hst|task results Ht Hst Hres Hne|task head Ht H1 H2 H3].
  - apply Hidle. intros t Ht. by rewrite Hnone in Ht.
  - apply Hidle. intros t Ht' E. congruence.
  - cbn [plan_results existing_plan]. destruct (plan_tool_results_spec _ _ _ _ Hres) as [Hall Hms]. rewrite Forall_forall in Hms.
    set (ms := settle_result now <$> results).
    assert (forall m, m ∈ ms -> exists m0, m0 ∈ results /\ result_current m = result_current m0 /\
      Exec_State (result_next m) = Exec_State (result_next m0)) as Hback.
    { intros m (m0 & -> & Hm0)%list_elem_of_fmap. eauto. }
    assert (forall m, m ∈ ms -> tools s !! Exec_Key (result_current m) = Some (result_current m) /\
      ToolKey_Task (Exec_Key (result_current m)) = key /\ Exec_State (result_current m) = ToolExecutionPending /\
      Exec_State (result_next m) = ToolExecutionCompleted) as Hin.
    { intros m (m0 & Hm0 & -> & ->)%Hback. destruct (Hms _ Hm0) as (Hl & ? & ?).
      apply (elem_tool_executions s key _ L) in Hl as [? ?]. done. }
    split.
    + intros k Hk. rewrite (proj1 (swap_tools_lookup ms s k)); [done|]. intros m Hm <-. destruct (Hin _ Hm) as [? _]. congruence.
    + intros k x Hx. case_decide as Hd.
      * destruct Hd as [<- Hp]. destruct (ledger_tool_key s L _ _ Hx) as (Ek & _).
        destruct (Hall x) as (m & Hm & Em); [apply (elem_tool_executions s _ _ L); by rewrite Ek|done|].
        destruct (proj2 (swap_tools_lookup ms s k) (settle_result now m)) as (m' & Hm' & ->);
          [by apply list_elem_of_fmap_2 | cbn; by rewrite Em|]. eexists. split; [done|]. by apply Hin.
      * rewrite (proj1 (swap_tools_lookup ms s k)); [done|]. intros m Hm <-. destruct (Hin _ Hm) as (E & ? & ? & _).
        destruct Hd. assert (x = result_current m) as -> by congruence. done.
  - apply Hidle. intros t Ht' E. congruence.
Qed.

Lemma draft_lease decoded identity plan delivery : draftAssignment service decoded identity plan = Ok delivery ->
  WorkerLease_Owner (admit_lease identity) <> "" /\ WorkerLease_ID (admit_lease identity) <> "".
Proof.
  unfold draftAssignment. intros H. apply obind_Ok in H as ([] & H & _). apply refused_Ok in H.
  unfold WorkerAssignmentDelivery_ValidateFor, Assignment_ValidateFor in H. ok_inv.
  match goal with H : WorkerLease_validate _ = _ |- _ => unfold WorkerLease_validate in H; cbn in H end. ok_inv.
  assert (forall value, wrap ErrWorkerDelivery (validateWorkerStableKey value) = Ok tt -> value <> "") as Hne by (by intros value Hvalue ->).
  split; apply Hne; match goal with H : _ = Ok ?u |- _ => destruct u; exact H end.
Qed.

Lemma admit_atomic ctx s s' : service_ok s -> admitting service ctx s s s' -> service_step s s'.
Proof.
  intros Hs. destruct 1 as [input decoded taskID requestID responseID lease worker plan answer draft clock now delivery H1
    identity H2 H3 H4 Hplan _ Hdraft _ Hassign H].
  pose proof (ok_ledger s Hs) as L. destruct (draft_lease _ _ _ _ Hassign) as [Howner Hlease].
  pose proof (start_records _ _ _ _ _ _ now Hdraft) as (_ & Hn & first & wires & Efw & Hf & Hw).
  set (records := makeRecords decoded identity plan draft now) in *.
  assert (Task_Key (records_task records) = Req_Task (records_request records)) as Hkey.
  { unfold records. cbn. destruct Hplan; cbn; try done; by apply (ledger_task_key s L). }
  apply admitTx_inv in H as (stale & -> & Hfree & _ & Hplanned & Huniq & _ & Hv); [|done..].
  pose proof (valid_records _ Hv) as Hz. specialize (Hn ltac:(done) Hz).
  apply (step_admit s (records_request records) (records_task records) now (records_events records) stale
    (tools (foldl swap_tool s (records_results records)))); try done.
  - cbn. apply numbered_stamp in Hn. rewrite length_fmap.
    rewrite (numbered_last _ _ _ 1%Z Hn), decide_False; [done|]. intros E. by rewrite E in Efw.
  - cbn. rewrite Efw. constructor; [by destruct Hf as (_ & ? & _)|]. eapply Forall_impl; [exact Hw|]. by intros e (_ & ? & _).
  - cbn. by destruct (plan_existing plan), (plan_task plan).
  - cbn. by destruct (plan_existing plan), (plan_task plan).
  - cbn. by destruct (plan_existing plan), (plan_task plan).
  - intros t0 Ht0. destruct (planned_task plan) as [planned|] eqn:Ep; [|destruct Hplanned as [Hno _]; congruence].
    destruct Hplanned as [(current & Hcur & Erev & Est) _]. assert (t0 = current) as -> by congruence. rewrite Est, Erev.
    destruct Hplan as [|task Ht Hst|task results Ht Hst _ _|task head Ht _ _ Hst]; cbn in Ep; try done; injection Ep as <-;
      (split; [by rewrite Hst | done]).
  - destruct stale as [r0|].
    + destruct (planned_task plan) as [planned|]; [|by destruct Hplanned]. destruct Hplanned as [_ Hp].
      destruct (plan_preempted plan); [|done]. by destruct Hp as (? & ? & ? & ? & ? & ?).
    + intros k r0 Hr0 E. destruct (Req_ResponseComplete r0) eqn:Ec; [done|].
      by destruct (Huniq eq_refl k r0 Hr0 E Ec) as (? & ? & _).
  - apply (plan_settles ctx _ decoded plan now s Hs Hplan). intros Ep. rewrite Ep in Hplanned. by destruct Hplanned.
Qed.

(* ------------------------------------------------------------------ *)
(** ** Every state of the service *)

Lemma effect_step s s' : service_ok s -> effect service s s' -> s' = s \/ service_step s s'.
Proof.
  intros Hs. destruct 1; [by eapply event_atomic | by apply ack_atomic | right; by eapply admit_atomic
    | by eapply quarantine_atomic | by apply prune_atomic].
Qed.

Lemma effect_ok s s' : service_ok s -> effect service s s' -> service_ok s'.
Proof.
  intros Hs H. pose proof (effect_transacts service s s' (ok_ledger s Hs) (ok_revisions s Hs) H) as T.
  destruct (effect_step _ _ Hs H) as [->|Hstep]; [done|]. apply (service_step_ok s); [done|done| |].
  - eapply ledger_transacts; [exact T | apply Hs].
  - eapply advances_transacts; [exact T | apply Hs].
Qed.

Lemma effects_ok s s' : service_ok s -> effects service s s' -> service_ok s' /\ transacts s s'.
Proof.
  intros Hs H. induction H as [s|s s1 s2 H _ IH]; [by split|]. destruct (IH (effect_ok _ _ Hs H)) as [H2 T].
  split; [done|]. etransitivity; [apply (effect_transacts service); [apply Hs.. | exact H] | done].
Qed.

Lemma reachable_ok s : reachable service s -> service_ok s.
Proof. intros H. by apply (effects_ok newMemoryLLMState). Qed.
End Atomic.

(* ------------------------------------------------------------------ *)
(** ** Operations of the HumanLLM service behave as if alone

    An operation reads early and commits late.  The optimistic tests of its
    transaction make this as good as reading and committing at once: where it
    commits anything, everything it had read is still there. *)

Lemma inc64_changes n : revision_ok n -> inc64 n <> n.
Proof.
  unfold revision_ok, inc64. intros H E. destruct (decide (n + 1 = 18446744073709551616)%Z) as [E1|E1].
  - rewrite E1, Z_mod_same_full in E. lia.
  - rewrite Z.mod_small in E by lia. lia.
Qed.

(** A record that is the same at both ends is the same in between. *)
Lemma later_between {A} (revision : A -> Z) x y : later revision x y -> later revision y x -> y = x.
Proof. intros [H1| ->] [H2|E]; [lia | done | lia | done]. Qed.

Section Isolation.
Context (service : Service).

Lemma effects_advance s s' : service_ok s -> effects service s s' -> advances s s'.
Proof.
  intros Hs H. apply (effects_ok _ _ _ Hs) in H as [_ T]. eapply advances_transacts; [exact T | apply Hs].
Qed.

(** [stays k]: what happens in one step to something that hangs on a record. *)
Lemma frozen_request {B} (f : memoryLLMState -> B) s s' k r : service_ok s -> effects service s s' ->
  (forall s1 s2, service_ok s1 -> service_step s1 s2 -> advances s1 s2 -> requests s1 !! k = Some r -> requests s2 !! k = Some r ->
     f s2 = f s1) ->
  requests s !! k = Some r -> requests s' !! k = Some r -> f s' = f s.
Proof.
  intros Hs H Hstep. induction H as [s|s s1 s2 H1 H2 IH]; intros Hr Hr'; [done|].
  pose proof (effect_ok service _ _ Hs H1) as Hs1. pose proof (effects_advance s s1 Hs (rtc_once _ _ H1)) as A1.
  pose proof (effects_advance s1 s2 Hs1 H2) as A2.
  destruct (advances_request _ _ A1 _ _ Hr) as (r1 & Hr1 & L1). destruct (advances_request _ _ A2 _ _ Hr1) as (r2 & Hr2 & L2).
  assert (r2 = r) as -> by congruence. pose proof (later_between _ _ _ L1 L2) as ->.
  rewrite (IH Hs1 Hr1 Hr'). destruct (effect_step service _ _ Hs H1) as [->|St]; [done|]. by apply Hstep.
Qed.

Lemma frozen_task {B} (f : memoryLLMState -> B) s s' k t : service_ok s -> effects service s s' ->
  (forall s1 s2, service_ok s1 -> service_step s1 s2 -> advances s1 s2 -> tasks s1 !! k = Some t -> tasks s2 !! k = Some t ->
     f s2 = f s1) ->
  tasks s !! k = Some t -> tasks s' !! k = Some t -> f s' = f s.
Proof.
  intros Hs H Hstep. induction H as [s|s s1 s2 H1 H2 IH]; intros Ht Ht'; [done|].
  pose proof (effect_ok service _ _ Hs H1) as Hs1. pose proof (effects_advance s s1 Hs (rtc_once _ _ H1)) as A1.
  pose proof (effects_advance s1 s2 Hs1 H2) as A2.
  destruct (advances_task _ _ A1 _ _ Ht) as (t1 & Ht1 & L1). destruct (advances_task _ _ A2 _ _ Ht1) as (t2 & Ht2 & L2).
  assert (t2 = t) as -> by congruence. pose proof (later_between _ _ _ L1 L2) as ->.
  rewrite (IH Hs1 Ht1 Ht'). destruct (effect_step service _ _ Hs H1) as [->|St]; [done|]. by apply Hstep.
Qed.

(** The history of an unchanged request is unchanged. *)
Lemma step_history s s' k r : service_ok s -> service_step s s' -> requests s !! k = Some r -> requests s' !! k = Some r ->
  history s' k = history s k.
Proof.
  intros Hs H Hr Hr'. pose proof (revisions_request s (ok_revisions s Hs) _ _ Hr) as Hrev.
  destruct H as [r0 t id digest now es state over decision new [Hr0 _] Hc _ _ [Hn _]
    |k0 t now Ht Hl |r0 t now es stale tools' Hfree _ _ _ _ Hn |r0 t now es decision [Hr0 _] Hc Hes |k0 r0 at_ tools' Hr0]; cbn in Hr'.
  - destruct (decide (k = Req_Key r0)) as [->|Hne]; [|by eapply response_events_other].
    rewrite lookup_insert_eq in Hr'. assert (r0 = r) as -> by congruence. injection Hr' as E.
    apply (f_equal Req_Revision) in E. cbn in E. by apply inc64_changes in Hrev.
  - done.
  - destruct (decide (k = Req_Key r0)) as [->|Hne]; [congruence | by eapply response_events_other].
  - destruct (decide (k = Req_Key r0)) as [->|Hne].
    + rewrite lookup_insert_eq in Hr'. assert (r0 = r) as -> by congruence. injection Hr' as E.
      apply (f_equal Req_Revision) in E. cbn in E. by apply inc64_changes in Hrev.
    + destruct Hes as [->|[Hn _]]; [done | by eapply response_events_other].
  - destruct (decide (k = k0)) as [->|Hne].
    + rewrite lookup_insert_eq in Hr'. assert (r0 = r) as -> by congruence. injection Hr' as E.
      apply (f_equal Req_Revision) in E. cbn in E. by apply inc64_changes in Hrev.
    + change (history (set_events (delete k0 (events s)) s) k = history s k). by rewrite history_delete, decide_False.
Qed.

Lemma frozen_history s s' k r : service_ok s -> effects service s s' -> requests s !! k = Some r ->
  requests s' !! k = Some r -> response_events s' k = response_events s k.
Proof.
  intros Hs H. apply (frozen_request (fun s => response_events s k) s s' k r Hs H).
  intros s1 s2 H1 H2 _ H3 H4. apply response_events_same. by eapply step_history.
Qed.

(** The tools of an unchanged Task that is not at its end are unchanged. *)
Lemma step_tools s s' k t id : service_ok s -> service_step s s' -> advances s s' ->
  tasks s !! k = Some t -> tasks s' !! k = Some t -> TaskState_Terminal (Task_State t) = false ->
  tools s' !! {| ToolKey_Task := k; ToolKey_ToolCallID := id |} = tools s !! {| ToolKey_Task := k; ToolKey_ToolCallID := id |}.
Proof.
  intros Hs H A Ht Ht' Hterm. pose proof (revisions_task s (ok_revisions s Hs) _ _ Ht) as Hrev.
  destruct H as [r0 t0 eid digest now es state over decision new [Hr0 Ht0] Hc _ _ _ Hst Hdone Hnew Hfresh Habs
    |k0 t0 now Ht0 Hl |r0 t0 now es stale tools' _ _ _ _ _ _ _ _ _ _ _ Hold _ [Htn Hts] |r0 t0 now es decision |k0 r0 at_ tools' _ _ _ Htn Hts];
    cbn in Ht' |- *; try done.
  - destruct (add_tools_lookup new s Habs) as (H1 & H2 & _).
    destruct (decide (k = Req_Task r0)) as [->|Hne].
    + destruct over.
      * rewrite lookup_insert_eq in Ht'. assert (t0 = t) as -> by congruence. injection Ht' as E.
        apply (f_equal Task_Revision) in E. cbn in E. by apply inc64_changes in Hrev.
      * assert (new = []) as ->; [|done]. destruct new; [done|]. destruct Hnew as [_ Hn]. specialize (Hn ltac:(done)).
        destruct Hst as [Hst|[Hst _]]; congruence.
    + destruct (tools s !! _) as [x|] eqn:E; [by apply H1|].
      destruct (tools (foldl add_tool s new) !! _) as [x|] eqn:E2; [|done]. apply H2 in E2 as [E2|[Hin E2]]; [congruence|].
      rewrite Forall_forall in Hfresh. destruct (Hfresh _ Hin) as (Hk & _). rewrite E2 in Hk. cbn in Hk. congruence.
  - destruct (decide (k = Req_Task r0)) as [->|Hne].
    + rewrite lookup_insert_eq in Ht'. injection Ht' as ->. destruct (Hold _ Ht) as [_ E]. symmetry in E. by apply inc64_changes in Hrev.
    + destruct (tools s !! _) as [x|] eqn:E; [|by apply Htn]. specialize (Hts _ _ E). rewrite decide_False in Hts; [done|].
      cbn. tauto.
  - destruct (tools s !! _) as [x|] eqn:E; [|by apply Htn]. destruct (Hts _ _ E) as (x' & -> & [->|(_ & t' & Ht1 & Hterm')]); [done|].
    cbn in Ht1. congruence.
Qed.

Lemma frozen_tools s s' k t : service_ok s -> effects service s s' -> tasks s !! k = Some t -> tasks s' !! k = Some t ->
  TaskState_Terminal (Task_State t) = false -> tool_executions s' k None = tool_executions s k None.
Proof.
  intros Hs H Ht Ht' Hterm.
  assert (forall id, tools s' !! {| ToolKey_Task := k; ToolKey_ToolCallID := id |} =
    tools s !! {| ToolKey_Task := k; ToolKey_ToolCallID := id |}) as E.
  { intros id. apply (frozen_task (fun s => tools s !! {| ToolKey_Task := k; ToolKey_ToolCallID := id |}) s s' k t Hs H); [|done..].
    intros s1 s2 H1 H2 H3 H4 H5. by eapply step_tools. }
  destruct (effects_ok service _ _ Hs H) as [Hs' _]. pose proof (ok_ledger s Hs) as L. pose proof (ok_ledger s' Hs') as L'.
  assert (forall s, ledger_ok s -> NoDup (tool_id <$> tool_executions s k None) /\
    ascending (fun x y => string_less (tool_id x) (tool_id y)) (tool_executions s k None)) as Hsorted.
  { clear. intros s L. apply (values_sorted (tools s) (tool_filter k None) ToolKey_ToolCallID _ string_less tool_id
      strict_total_string (tool_back s k _) (tool_key_id s L)). }
  destruct (Hsorted s L) as [N1 A1], (Hsorted s' L') as [N2 A2].
  assert (forall x, x ∈ tool_executions s' k None <-> x ∈ tool_executions s k None) as Hin.
  { intros x. rewrite !elem_tool_executions by done. destruct (Exec_Key x) as [task id]. cbn. split; intros [Hx ->]; rewrite E in *; done. }
  apply (ascending_unique tool_id string_less strict_total_string (fun x y => string_less (tool_id x) (tool_id y)) ltac:(done)); [|done..|].
  - intros x y Hx Hy Eid. apply Hin in Hx, Hy. apply (elem_tool_executions s k _ L) in Hx as [Hx K1], Hy as [Hy K2].
    assert (Exec_Key x = Exec_Key y) as Ek; [|rewrite Ek in Hx; congruence].
    unfold tool_id in Eid. destruct (Exec_Key x), (Exec_Key y). cbn in *. congruence.
  - apply NoDup_Permutation; [by eapply NoDup_fmap_1..|done].
Qed.

(* ------------------------------------------------------------------ *)
(** ** What was read is still there *)

(** A request and a Task that were read and whose revisions still hold. *)
Lemma holds_still s1 s2 r t r0 t0 : service_ok s1 -> effects service s1 s2 -> holds s1 r t ->
  requests s2 !! Req_Key r = Some r0 -> tasks s2 !! Req_Task r = Some t0 ->
  Req_Revision r0 = Req_Revision r -> Task_Revision t0 = Task_Revision t -> r0 = r /\ t0 = t.
Proof.
  intros Hs H [Hr Ht] Hr0 Ht0 Er Et. pose proof (effects_advance _ _ Hs H) as A.
  split; [by eapply same_revision_request | by eapply same_revision_task].
Qed.

Lemma reads_still s1 s2 state r0 t0 : service_ok s1 -> effects service s1 s2 -> reads s1 state ->
  requests s2 !! Req_Key (durable_request state) = Some r0 -> tasks s2 !! Req_Task (durable_request state) = Some t0 ->
  Req_Revision r0 = Req_Revision (durable_request state) -> Task_Revision t0 = Task_Revision (durable_task state) ->
  reads s2 state.
Proof.
  intros Hs H [Hh He] Hr0 Ht0 Er Et. destruct (holds_still _ _ _ _ _ _ Hs H Hh Hr0 Ht0 Er Et) as [-> ->].
  split; [by split|]. rewrite He. symmetry. destruct Hh as [Hr _]. by apply (frozen_history _ _ _ (durable_request state)).
Qed.

Lemma committing_isolated ctx connection delivery s1 s2 s' : service_ok s1 -> effects service s1 s2 ->
  committing service ctx connection delivery s1 s2 s' -> s' = s2 \/ committing service ctx connection delivery s2 s2 s'.
Proof.
  intros Hs H. destruct 1 as [delivery0 digest state rebuilt clock now planned answer seed l finished p H1 H2 H3 H4 H5 H6 H7 H8 H9 H10].
  pose proof H10 as Hc. destruct H2 as [Hh He].
  apply commitTx_inv in Hc as [[-> _]|(_ & _ & r0 & t0 & Hr0 & Ht0 & Er & Et & _)]; [by left|]. right.
  rewrite (holds_task s1 _ _ (ok_ledger s1 Hs) Hh) in Ht0.
  assert (reads s2 state) as Hreads by (by eapply (reads_still s1 s2)).
  exact (committing_intro service ctx connection delivery s2 s2 s' _ _ _ _ _ _ _ _ _ _ _ _ H1 Hreads H3 H4 H5 H6 H7 H8 H9 H10).
Qed.

Lemma quarantining_isolated ctx s1 s2 s' : service_ok s1 -> effects service s1 s2 ->
  quarantining service ctx s1 s2 s' -> s' = s2 \/ quarantining service ctx s2 s2 s'.
Proof.
  intros Hs H. destruct 1 as [request task l clock now es next Hh Hc H3 H4 H5].
  destruct (in_progress_of s1 _ _ Hs Hh Hc) as [(Hwh & _) _]. pose proof H5 as Hq. rewrite (not_terminal _ Hwh) in Hq.
  apply quarantineTx_inv in Hq as [->|(r0 & Hr0 & Er & Ht & _)]; [by left|]. right.
  destruct (Ht _ eq_refl) as (t0 & Ht0 & Et). cbn in Hr0, Er, Ht0, Et.
  rewrite (holds_task s1 _ _ (ok_ledger s1 Hs) Hh) in Ht0.
  destruct (holds_still _ _ _ _ _ _ Hs H Hh Hr0 Ht0 Er Et) as [-> ->].
  exact (quarantining_intro service ctx s2 s2 s' request task l clock now es next (conj Hr0 Ht0) Hc H3 H4 H5).
Qed.

Lemma plans_still ctx key decoded plan s1 s2 : service_ok s1 -> effects service s1 s2 ->
  plans service s1 ctx key decoded plan ->
  (forall planned, planned_task plan = Some planned ->
     exists current, tasks s2 !! key = Some current /\ Task_Revision current = Task_Revision planned) ->
  plans service s2 ctx key decoded plan.
Proof.
  intros Hs H Hplan Hcur. pose proof (effects_advance _ _ Hs H) as A.
  assert (forall task, tasks s1 !! key = Some task -> planned_task plan = Some task -> tasks s2 !! key = Some task) as Hsame.
  { intros task Ht Hp. destruct (Hcur _ Hp) as (current & Hc & Er). by rewrite <- (same_revision_task _ _ _ _ _ A Ht Hc Er). }
  destruct Hplan as [|task Ht Hst|task results Ht Hst Hres Hne|task head Ht H1 H2 H3].
  - apply plans_new.
  - by apply plans_continue; [apply Hsame|].
  - pose proof (Hsame _ Ht eq_refl) as Ht2. apply plans_results; try done.
    rewrite (frozen_tools s1 s2 key task Hs H Ht Ht2); [done|]. by rewrite Hst.
  - by apply plans_preempt; [apply Hsame|..].
Qed.

Lemma admitting_isolated ctx s1 s2 s' : service_ok s1 -> effects service s1 s2 ->
  admitting service ctx s1 s2 s' -> admitting service ctx s2 s2 s'.
Proof.
  intros Hs H. destruct 1 as [input decoded taskID requestID responseID lease worker plan answer draft clock now delivery H1
    identity H2 H3 H4 Hplan Hsame Hdraft Hnow Hassign Htx].
  destruct (effects_ok _ _ _ Hs H) as [Hs2 _].
  assert (Task_Key (records_task (makeRecords decoded identity plan draft now)) =
    Req_Task (records_request (makeRecords decoded identity plan draft now))) as Hkey.
  { cbn. destruct Hplan; cbn; try done; by apply (ledger_task_key s1 (ok_ledger s1 Hs)). }
  pose proof Htx as Htx'. apply admitTx_inv in Htx' as (stale & _ & _ & _ & Hplanned & _); [|apply Hs2|done].
  assert (plans service s2 ctx (admit_task identity) decoded plan) as Hplan2.
  { eapply (plans_still ctx _ decoded plan s1 s2 Hs H Hplan).
    intros planned Ep. rewrite Ep in Hplanned. destruct Hplanned as [(current & Hc & Er & _) _]. eauto. }
  exact (admitting_intro service ctx s2 s2 s' input decoded taskID requestID responseID lease worker plan answer draft clock
    now delivery H1 H2 H3 H4 Hplan2 Hsame Hdraft Hnow Hassign Htx).
Qed.

(** Whatever an operation commits is one step of the service, in the state it
    finds. *)
Inductive commits (s1 s2 s' : memoryLLMState) : Prop :=
  | commits_event ctx connection delivery : committing service ctx connection delivery s1 s2 s' -> commits s1 s2 s'
  | commits_ack : acknowledging s2 s' -> commits s1 s2 s'
  | commits_admit ctx : admitting service ctx s1 s2 s' -> commits s1 s2 s'
  | commits_quarantine ctx : quarantining service ctx s1 s2 s' -> commits s1 s2 s'
  | commits_prune : pruning s2 s' -> commits s1 s2 s'.

Lemma commits_effect s1 s2 s' : service_ok s1 -> effects service s1 s2 -> commits s1 s2 s' -> s' = s2 \/ effect service s2 s'.
Proof.
  intros Hs H. destruct 1 as [ctx connection delivery Hc|Hc|ctx Hc|ctx Hc|Hc].
  - destruct (committing_isolated _ _ _ _ _ _ Hs H Hc) as [?|?]; [by left | right; by eapply effect_event].
  - right. by apply effect_ack.
  - right. eapply effect_admit. by eapply admitting_isolated.
  - destruct (quarantining_isolated _ _ _ _ Hs H Hc) as [?|?]; [by left | right; by eapply effect_quarantine].
  - right. by apply effect_prune.
Qed.

Lemma commits_effects s1 s2 s' : service_ok s1 -> effects service s1 s2 -> commits s1 s2 s' -> effects service s2 s'.
Proof. intros Hs H Hc. destruct (commits_effect _ _ _ Hs H Hc) as [->|?]; [reflexivity | by apply rtc_once]. Qed.
End Isolation.
