(* ===== verification/LlmRefinement.v ===== *)
(** * The operations of the HumanLLM service refine its machine

    Whatever other callers commit while an operation runs, whatever the ports
    answer, whichever transactions fail or end with an unknown outcome: every
    commit of the operation is a step of the service, or changes nothing. *)

From S2P Require Import Prelude GoText GoEncoding GoTime GoJson GoStrings GoDoc GoStruct.
From S2P Require Import AgentTypes Framework Protect LlmTypes LlmJson LlmMemory LlmLedger LlmScan LlmRuntime LlmProg LlmEvents.
From S2P Require Import LlmService LlmCommit LlmRecovery LlmAdmission LlmMaintenance LlmEffects LlmMachine LlmSpec LlmAtomic.

Import Llm.
Local Open Scope string_scope.
Local Open Scope list_scope.

(* ------------------------------------------------------------------ *)
(** ** Programs that do not write *)

Fixpoint quiet {A} (p : operation A) : Prop :=
  match p with
  | Return _ => True
  | Reading _ k => forall r, quiet (k r)
  | Writing _ _ => False
  | Calling _ k => forall b, quiet (k b)
  | Looping body _ k => (forall c, quiet (body c)) /\ forall b, quiet (k b)
  end.

Lemma quiet_bind {A B} (p : operation A) (f : A -> operation B) : quiet p -> (forall a, quiet (f a)) -> quiet (bind p f).
Proof.
  intros Hp Hf. revert Hp. induction p as [A a|A D cb k IH|A D cb k IH|A D e k IH|A D C body _ c k IH]; cbn; try done.
  - intros H r. by apply IH.
  - intros H b. by apply IH.
  - intros [H1 H2]. split; [done|]. intros b. by apply IH.
Qed.

Lemma quiet_pure {A} (a : A) : quiet (pure a).
Proof. done. Qed.
Lemma quiet_view {B} (callback : memoryLLMUnit -> res B) : quiet (view callback).
Proof. done. Qed.
Lemma quiet_call {B} (e : serviceE B) : quiet (call e).
Proof. done. Qed.
Lemma quiet_try {A B} (p : operation (res A)) (f : A -> operation (res B)) : quiet p -> (forall a, quiet (f a)) -> quiet (try_ p f).
Proof. intros Hp Hf. unfold try_. apply quiet_bind; [done|]. by intros [a|e]. Qed.
Lemma quiet_take {A B} (m : outcome B A) (f : A -> operation B) : (forall a, quiet (f a)) -> quiet (early_try m f).
Proof. intros Hf. unfold early_try. by destruct m. Qed.

Lemma viewed_Ok {B} (callback : memoryLLMUnit -> res B) s b : viewed callback s (Ok b) -> callback (live s) = Ok b.
Proof. intros H. by inversion H. Qed.

Create HintDb quiet discriminated.
#[export] Hint Resolve quiet_pure quiet_view quiet_call : quiet.

(** Go through a program that does not write. *)
Ltac go_quiet :=
  repeat (first
    [ apply quiet_pure | apply quiet_view | apply quiet_call | solve [eauto with quiet]
    | apply quiet_take; intros | apply quiet_try; [|intros] | apply quiet_bind; [|intros]
    | match goal with
      | |- quiet (Return _) => exact I
      | |- quiet (Calling _ _) => cbn [quiet]; intros
      | |- quiet (Reading _ _) => cbn [quiet]; intros
      | |- quiet (match ?x with _ => _ end) => destruct x eqn:?
      end
    | match goal with |- quiet (if ?b then _ else _) => destruct b eqn:? end ]).

Lemma quiet_completeAssignment connection requestID lease : quiet (completeAssignment connection requestID lease).
Proof. unfold completeAssignment, section_call. go_quiet. Qed.
Lemma quiet_addAssignmentTo key delivery pending createdAt : quiet (addAssignmentTo key delivery pending createdAt).
Proof. unfold addAssignmentTo, section_call. go_quiet. Qed.
Lemma quiet_readResponse service ctx query : quiet (readResponse service ctx query).
Proof. unfold readResponse. go_quiet. Qed.
#[export] Hint Resolve quiet_completeAssignment quiet_addAssignmentTo quiet_readResponse : quiet.

Lemma quiet_recoverRequest service ctx record : quiet (recoverRequest service ctx record).
Proof. unfold recoverRequest, validateRecoveryReceipts. go_quiet. Qed.
Lemma quiet_recoveryTerminalFrames service ctx record : quiet (recoveryTerminalFrames service ctx record).
Proof. unfold recoveryTerminalFrames. go_quiet. Qed.
Lemma quiet_acknowledge connection delivery key requestID done : quiet (acknowledge connection delivery key requestID done).
Proof. unfold acknowledge, section_call. go_quiet. Qed.
#[export] Hint Resolve quiet_recoverRequest quiet_recoveryTerminalFrames quiet_acknowledge : quiet.
Lemma quiet_replayReceipt connection delivery digest stored : quiet (replayReceipt connection delivery digest stored).
Proof. unfold replayReceipt. go_quiet. Qed.
Lemma quiet_replayAdmission service ctx key digest : quiet (replayAdmission service ctx key digest).
Proof. unfold replayAdmission, replayRecovery. go_quiet. Qed.
Lemma quiet_routeAdmission service input request taskID plan : quiet (routeAdmission service input request taskID plan).
Proof. unfold routeAdmission, section_call. go_quiet. Qed.
Lemma quiet_planTask service ctx key input codec request : quiet (planTask service ctx key input codec request).
Proof. unfold planTask, section_call. go_quiet. Qed.
Lemma quiet_admissionTaskID service input : quiet (admissionTaskID service input).
Proof. unfold admissionTaskID. go_quiet. Qed.
Lemma quiet_allocateID kind : quiet (allocateID kind).
Proof. unfold allocateID. go_quiet. Qed.
#[export] Hint Resolve quiet_replayReceipt quiet_replayAdmission quiet_routeAdmission quiet_planTask quiet_admissionTaskID
  quiet_allocateID : quiet.

(* ------------------------------------------------------------------ *)
(** ** Early returns *)

(** Every early return of a computation satisfies [P]. *)
Definition exits {R A} (P : R -> Prop) (m : outcome R A) : Prop := forall r, m = Err r -> P r.

Lemma exits_Ok {R A} (P : R -> Prop) (a : A) : exits P (Ok a).
Proof. by intros r. Qed.
Lemma exits_bind {R A B} (P : R -> Prop) (m : outcome R A) (f : A -> outcome R B) : exits P m -> (forall a, exits P (f a)) ->
  exits P (obind m f).
Proof. intros Hm Hf r H. destruct m; [by eapply Hf | injection H as <-; by apply Hm]. Qed.

Create HintDb exits discriminated.
#[export] Hint Resolve exits_Ok : exits.

Ltac go_exits :=
  repeat (first
    [ solve [eauto with exits] | apply exits_bind; [|intros]
    | match goal with |- exits _ (match ?x with _ => _ end) => destruct x end
    | match goal with |- exits _ (if ?b then _ else _) => destruct b end ]).

(* ------------------------------------------------------------------ *)
(** ** What an operation does to the Store *)

Section Refinement.
Context (service : Service).
Abbreviation W := (world serviceE).
Abbreviation wp_ p Q w := (wp (effects service) (@service_answers) p Q w).

(** The commits of a run, the latest first. *)
Definition commits_of (l : list (act serviceE)) : list (memoryLLMState * memoryLLMState) :=
  omap (fun a => match a with Committed s s' => Some (s, s') | Called _ _ => None end) l.

(** Later, with no commit of its own. *)
Definition later_world (w w' : W) : Prop := effects service (db w) (db w') /\ commits_of (acts w') = commits_of (acts w).

Definition step_or_same (c : memoryLLMState * memoryLLMState) : Prop := snd c = fst c \/ effect service (fst c) (snd c).

(** Later, with commits that are steps of states of the service. *)
Definition stepped (w : W) (c : memoryLLMState * memoryLLMState) : Prop := effects service (db w) (fst c) /\ step_or_same c.
Definition works (w w' : W) : Prop :=
  effects service (db w) (db w') /\
  exists new, commits_of (acts w') = new ++ commits_of (acts w) /\ Forall (stepped w) new.

#[global] Instance effects_preorder : PreOrder (effects service).
Proof. unfold effects. apply _. Qed.
#[global] Instance later_world_preorder : PreOrder later_world.
Proof. split; [by split|]. intros w1 w2 w3 [A1 B1] [A2 B2]. split; [by etransitivity | congruence]. Qed.
#[global] Instance works_preorder : PreOrder works.
Proof.
  split; [intros w; split; [done | by exists []]|].
  intros w1 w2 w3 [A1 (n1 & E1 & F1)] [A2 (n2 & E2 & F2)]. split; [by etransitivity|]. exists (n2 ++ n1).
  rewrite E2, E1, app_assoc. split; [done|]. apply Forall_app. split; [|done].
  eapply Forall_impl; [exact F2|]. intros c [H1 H2]. split; [by etransitivity | done].
Qed.

Lemma later_works w w' : later_world w w' -> works w w'.
Proof. intros [A E]. split; [done|]. exists []. by rewrite E. Qed.
Lemma evolves_later (w w' : W) : evolves (effects service) w w' -> later_world w w'.
Proof. intros [A E]. split; [done | by rewrite E]. Qed.
Lemma later_ok w w' : service_ok (db w) -> later_world w w' -> service_ok (db w').
Proof. intros Hs [A _]. by apply (effects_ok service (db w)). Qed.
Lemma works_ok w w' : service_ok (db w) -> works w w' -> service_ok (db w').
Proof. intros Hs [A _]. by apply (effects_ok service (db w)). Qed.

(** The world behind a commit of the operation. *)
Lemma works_commit (w : W) s' : s' = db w \/ effect service (db w) s' -> effects service (db w) s' /\ works w (commit w s').
Proof.
  intros H. assert (effects service (db w) s') as He by (destruct H as [->|H]; [reflexivity | by apply rtc_once]).
  split; [done|]. split; [done|]. exists [(db w, s')]. split; [done|]. constructor; [by split | done].
Qed.

Lemma wp_then {A B} (p : operation A) (f : A -> operation B) (Q : B -> W -> Prop) w :
  wp_ p (fun a w => wp_ (f a) Q w) w -> wp_ (bind p f) Q w.
Proof. apply (wp_bind (effects service) (rely_preorder := effects_preorder)). Qed.

Lemma wp_quiet {A} (p : operation A) : quiet p -> forall Q w, (forall a w', later_world w w' -> Q a w') -> wp_ p Q w.
Proof.
  induction p as [A a|A B cb k IH|A B cb k IH|A B e k IH|A B C body IHb c k IH]; intros Hq Q w HQ; cbn in Hq |- *; try done.
  - intros w' H. apply HQ. by apply evolves_later.
  - intros w1 r H _. apply IH; [done|]. intros a w' H'. apply HQ. etransitivity; [by apply evolves_later | done].
  - intros b _. apply IH; [done|]. intros a w' H'. apply HQ. exact H'.
  - destruct Hq as [Hb Hk]. exists (fun _ w' => later_world w w'). split; [done|]. intros c' w' Hw'. apply IHb; [done|].
    intros [c1|b] w1 H1; [by etransitivity|]. apply IH; [done|]. intros a w2 H2. apply HQ. by do 2 (etransitivity; [done|]).
Qed.

Lemma wp_ret {A} (a : A) (Q : A -> W -> Prop) w : (forall w', later_world w w' -> Q a w') -> wp_ (pure a) Q w.
Proof. intros H w1 H1. apply H. by apply evolves_later. Qed.

Lemma wp_view {B} (callback : memoryLLMUnit -> res B) Q w :
  (forall r w1 w2, later_world w w1 -> viewed callback (db w1) r -> later_world w1 w2 -> Q r w2) -> wp_ (view callback) Q w.
Proof. intros H w1 r H1 Hr w2 H2. eapply H; [by apply evolves_later | done | by apply evolves_later]. Qed.

Lemma wp_update {B} (callback : memoryLLMUnit -> res (B * memoryLLMState)) Q w :
  (forall w1 b s', later_world w w1 -> callback (live (db w1)) = Ok (b, s') -> s' = db w1 \/ effect service (db w1) s') ->
  (forall r w1 o w2, later_world w w1 -> updated callback (db w1) r o -> later_world (after w1 o) w2 -> Q r w2) ->
  wp_ (update callback) Q w.
Proof.
  intros Hg HQ w1 r o H1 Hr. apply evolves_later in H1. split.
  - intros s' ->. inversion Hr; subst; by eapply works_commit, Hg.
  - intros w2 H2. eapply HQ; [done|done|]. by apply evolves_later.
Qed.

(** An update whose commits are steps works. *)
Lemma wp_update_works {B} (callback : memoryLLMUnit -> res (B * memoryLLMState)) w :
  (forall w1 b s', later_world w w1 -> callback (live (db w1)) = Ok (b, s') -> s' = db w1 \/ effect service (db w1) s') ->
  wp_ (update callback) (fun _ w' => works w w') w.
Proof.
  intros Hg. apply wp_update; [done|]. intros r w1 o w2 H1 Hr H2. etransitivity; [by apply later_works|].
  transitivity (after w1 o); [|by apply later_works].
  inversion Hr; subst; cbn; try done; eapply works_commit; by eapply Hg.
Qed.

(** Specifications that hold from any state of the service. *)
Definition sound {A} (p : operation A) : Prop := forall w, service_ok (db w) -> wp_ p (fun _ w' => works w w') w.

Lemma sound_quiet {A} (p : operation A) : quiet p -> sound p.
Proof. intros H w _. apply wp_quiet; [done|]. intros a w'. apply later_works. Qed.

Lemma sound_bind {A B} (p : operation A) (f : A -> operation B) : sound p -> (forall a, sound (f a)) -> sound (bind p f).
Proof.
  intros Hp Hf w Hw. apply wp_then. eapply wp_mono; [|by apply Hp]. cbn. intros a w1 H1.
  eapply wp_mono; [|apply Hf; by eapply works_ok]. cbn. intros b w2 H2. by etransitivity.
Qed.

Lemma sound_try {A B} (p : operation (res A)) (f : A -> operation (res B)) : sound p -> (forall a, sound (f a)) -> sound (try_ p f).
Proof. intros Hp Hf. apply sound_bind; [done|]. intros [a|e]; [apply Hf | by apply sound_quiet]. Qed.

Lemma sound_take {A B} (m : outcome B A) (f : A -> operation B) : (forall a, m = Ok a -> sound (f a)) -> sound (early_try m f).
Proof. intros Hf. unfold early_try. destruct m; [by apply Hf | by apply sound_quiet]. Qed.

Lemma sound_loop {A B C} (body : C -> operation (C + B)) c (k : B -> operation A) : (forall c, sound (body c)) ->
  (forall b, sound (k b)) -> sound (Looping body c k).
Proof.
  intros Hb Hk w Hw. exists (fun _ w' => works w w'). split; [done|]. intros c' w1 H1.
  pose proof (works_ok _ _ Hw H1) as Hw1. eapply wp_mono; [|by apply Hb]. cbn. intros [c2|b] w2 H2; [by etransitivity|].
  eapply wp_mono; [|apply Hk; by eapply works_ok]. cbn. intros a w3 H3. by do 2 (etransitivity; [done|]).
Qed.

Lemma sound_operating {A} (failed : error -> A) (body : operation A) : sound body -> sound (operating_or failed body).
Proof.
  intros Hb. unfold operating_or. apply sound_bind; [by apply sound_quiet|]. intros [u|e]; [|by apply sound_quiet].
  apply sound_bind; [done|]. intros r. by apply sound_quiet.
Qed.

(** A view whose answer is used: it was read in a state of the service that
    led to the present one. *)
Lemma wp_view_then {B A} (callback : memoryLLMUnit -> res B) (k : res B -> operation A) w (Q : A -> W -> Prop) :
  (forall r w1 w2, later_world w w1 -> viewed callback (db w1) r -> later_world w1 w2 -> wp_ (k r) Q w2) ->
  wp_ (bind (view callback) k) Q w.
Proof. intros H. apply wp_then. by apply wp_view. Qed.

(** A quiet prefix. *)
Lemma wp_quiet_then {B A} (p : operation B) (k : B -> operation A) w (Q : A -> W -> Prop) : quiet p ->
  (forall b w1, later_world w w1 -> wp_ (k b) Q w1) -> wp_ (bind p k) Q w.
Proof. intros Hp H. apply wp_then. by apply wp_quiet. Qed.
End Refinement.
