(* ===== verification/LlmExactlyOnce.v ===== *)
(** * A worker event is committed exactly once

    What one [commitWorkerEvent] does to the Store, whatever other callers
    commit in between and however the Store fails: at most one commit; an
    acknowledgement only once the receipt is durable; a rejection only when
    nothing was committed; and no commit at all once there is a receipt. *)

From S2P Require Import Prelude GoText GoEncoding GoTime GoJson GoStrings GoDoc GoStruct.
From S2P Require Import AgentTypes Framework Protect LlmTypes LlmJson LlmMemory LlmLedger LlmScan LlmRuntime LlmProg LlmEvents.
From S2P Require Import LlmService LlmCommit LlmRecovery LlmAdmission LlmMaintenance LlmEffects LlmMachine LlmSpec LlmAtomic.
From S2P Require Import LlmRefinement.

Import Llm.
Local Open Scope string_scope.
Local Open Scope list_scope.

(* ------------------------------------------------------------------ *)
(** ** What was read *)

Lemma load_request_valid s k limit r : ReadOp.LoadRequest (live s) k limit = Ok r -> memoryLLMValidRequestKey k = true.
Proof.
  unfold ReadOp.LoadRequest. rewrite llm_active_live. cbn [obind unit_state live]. intros H. ok_inv.
  by apply negb_false_iff.
Qed.

Lemma loadResponseEvents_exact s k limit l : ledger_ok s -> memoryLLMValidRequestKey k = true ->
  loadResponseEvents (live s) k limit = Ok l -> l = response_events s k.
Proof. intros Hs Hk H. destruct (event_loop_ends s Hs k limit Hk) as [_ Hl]. by rewrite H in Hl. Qed.

Lemma durableState_reads limit key event s state : ledger_ok s -> durableState limit key event (live s) = Ok state ->
  reads s state /\ Req_Key (durable_request state) = key.
Proof.
  unfold durableState. intros Hs H. apply obind_Ok in H as (r & Hr & H). pose proof (load_request_valid _ _ _ _ Hr) as Hv.
  apply load_request in Hr. apply obind_Ok in H as (t & Ht & H). apply load_task in Ht.
  apply obind_Ok in H as (used & _ & H). apply obind_Ok in H as (es & He & [= <-]).
  pose proof (ledger_request_key s Hs _ _ Hr) as Hk. apply (loadResponseEvents_exact s _ _ _ Hs Hv) in He.
  unfold reads, holds. cbn [durable_request durable_task durable_events]. rewrite Hk. done.
Qed.

(* ------------------------------------------------------------------ *)
(** ** What a program that does not write returns *)

Fixpoint returning {A} (P : A -> Prop) (p : operation A) : Prop :=
  match p with
  | Return a => P a
  | Reading _ k => forall r, returning P (k r)
  | Writing _ _ => False
  | Calling _ k => forall b, returning P (k b)
  | Looping body _ k => (forall c, quiet (body c)) /\ forall b, returning P (k b)
  end.

Lemma returning_bind {A B} (P : B -> Prop) (p : operation A) (f : A -> operation B) : quiet p ->
  (forall a, returning P (f a)) -> returning P (bind p f).
Proof.
  intros Hp Hf. revert Hp. induction p as [A a|A D cb k IH|A D cb k IH|A D e k IH|A D C body _ c k IH]; cbn; try done.
  - intros H r. by apply IH.
  - intros H b. by apply IH.
  - intros [H1 H2]. split; [done|]. intros b. by apply IH.
Qed.

(* ------------------------------------------------------------------ *)
(** ** Early returns never acknowledge *)

Definition refusal (r : res WorkerEventReceipt) : Prop :=
  forall receipt, r = Ok receipt -> EventReceipt_Decision receipt = WorkerEventNACK.
Abbreviation refuses m := (exits refusal m).

Lemma refuses_failed {A} delivery (m : res A) : refuses (failed delivery m).
Proof. intros r. unfold failed, delivery_error, or_return. destruct m; by intros [= <-]. Qed.
Lemma refuses_nack {A} delivery code message : refuses (nack (A := A) delivery code message).
Proof. intros r [= <-]. by intros receipt [= <-]. Qed.
Lemma refuses_nack_if bad delivery code message : refuses (nack_if bad delivery code message).
Proof. unfold nack_if. destruct bad; [apply refuses_nack | apply exits_Ok]. Qed.
Lemma refuses_identified {A} delivery message (m : res A) : refuses (identified delivery message m).
Proof. unfold identified. destruct m; [apply exits_Ok|]. destruct (_ && _)%bool; [apply refuses_nack | by intros r [= <-]]. Qed.
Lemma refuses_sealed delivery message (m : res string) : refuses (sealed delivery message m).
Proof. unfold sealed. destruct m; [apply exits_Ok|]. destruct (errors_Is _ _); [apply refuses_nack | apply refuses_failed]. Qed.

#[export] Hint Resolve refuses_failed refuses_nack refuses_nack_if refuses_identified refuses_sealed : exits.

Lemma refuses_wires service ctx sealing key requestID sequence worker event digest now l :
  (forall m, refuses (sealing m)) -> refuses (wire_records service ctx sealing key requestID sequence worker event digest now l).
Proof. intros Hs. revert sequence. induction l as [|f l IH]; intros sequence; cbn; go_exits; auto. Qed.
#[export] Hint Resolve refuses_wires : exits.

Lemma refuses_identify connection delivery : refuses (identifyDelivery connection delivery).
Proof. unfold identifyDelivery. go_exits. Qed.
Lemma refuses_checkPayloadLimit service delivery : refuses (checkPayloadLimit service delivery).
Proof. unfold checkPayloadLimit. go_exits. Qed.
Lemma refuses_accept service ctx connection delivery loaded : refuses (acceptDelivery service ctx connection delivery loaded).
Proof. unfold acceptDelivery. go_exits. Qed.
Lemma refuses_plan service delivery state request now : refuses (planDelivery service delivery state request now).
Proof. unfold planDelivery. go_exits. Qed.
Lemma refuses_seed delivery answer : refuses (checkSeed delivery answer).
Proof. unfold checkSeed. go_exits. Qed.
Lemma refuses_encode delivery state rebuilt seed : refuses (encodeEvent delivery state rebuilt seed).
Proof. unfold encodeEvent. go_exits. Qed.
Lemma refuses_prepare service ctx connection delivery digest state registration planned seed l over now :
  refuses (prepareCommit service ctx connection delivery digest state registration planned seed l over now).
Proof. unfold prepareCommit, aggregateBody. go_exits. Qed.

Section ExactlyOnce.
Context (service : Service).
Abbreviation wp_ p Q w := (wp (effects service) (@service_answers) p Q w).

Lemma wp_returning {A} (P : A -> Prop) (p : operation A) : returning P p ->
  forall (Q : A -> world serviceE -> Prop) w, (forall a w', P a -> later_world service w w' -> Q a w') -> wp_ p Q w.
Proof.
  induction p as [A a|A B cb k IH|A B cb k IH|A B e k IH|A B C body _ c k IH]; intros Hp Q w HQ; cbn in Hp |- *; try done.
  - intros w' H. apply HQ; [done|]. by apply evolves_later.
  - intros w1 r H _. apply (IH r P); [done|]. intros a w' Ha H'. apply HQ; [done|]. etransitivity; [by apply evolves_later | done].
  - intros b _. apply (IH b P); [done|]. intros a w' Ha H'. by apply HQ.
  - destruct Hp as [Hb Hk]. exists (fun _ w' => later_world service w w'). split; [done|]. intros c' w' Hw'.
    apply wp_quiet; [done|]. intros [c1|b] w1 H1; [by etransitivity|]. apply (IH b P); [done|]. intros a w2 Ha H2.
    apply HQ; [done|]. by do 2 (etransitivity; [done|]).
Qed.

(* ------------------------------------------------------------------ *)
(** ** Receipts *)

Lemma receipt_stays s s' k id x : service_ok s -> effects service s s' -> receipt_at s k id = Some x -> receipt_at s' k id = Some x.
Proof. intros Hs H. unfold receipt_at. apply effects_ok in H as [_ T]; [|done]. by apply (extends_transacts _ _ T). Qed.

Lemma not_found_fault e : fault e -> errors_Is e ErrStoreRecordNotFound = false.
Proof. by intros [? _]. Qed.

Section Delivery.
Context (ctx : goctx) (connection : serviceWorkerConnection) (delivery : WorkerEventDelivery) (digest : StoreDigest).
Let key : StoreRequestKey := key_of (EventDelivery_Identity delivery).
Let id : string := Event_ID (EventDelivery_Event delivery).

Definition event_receipt (s : memoryLLMState) : option StoreWorkerReceiptRecord :=
  receipt_at s (key_of (EventDelivery_Identity delivery)) (Event_ID (EventDelivery_Event delivery)).

(** The receipt of this event from this worker is durable. *)
Definition recorded (s : memoryLLMState) : Prop :=
  exists x, event_receipt s = Some x /\ Receipt_Worker x = conn_worker connection /\ Receipt_Digest x = digest.

Lemma recorded_stays s s' : service_ok s -> effects service s s' -> recorded s -> recorded s'.
Proof. intros Hs H (x & Hx & Hr). exists x. split; [by eapply receipt_stays | done]. Qed.

(** The one commit: of the event, when it had no receipt; or nothing. *)
Definition event_committed (s s' : memoryLLMState) : Prop :=
  (s' = s /\ recorded s) \/ (event_receipt s = None /\ service_step s s' /\ recorded s').

Definition event_outcome (w : world serviceE) (r : res WorkerEventReceipt) (w' : world serviceE) : Prop :=
  works service w w' /\
  exists new, commits_of (acts w') = new ++ commits_of (acts w) /\
    (new = [] \/ exists s s', new = [(s, s')] /\ event_committed s s') /\
    forall receipt, r = Ok receipt ->
      match EventReceipt_Decision receipt with
      | WorkerEventACK => recorded (db w')
      | _ => new = []
      end.

(** Nothing was committed and nothing acknowledged. *)
Lemma outcome_quiet w w' r : later_world service w w' ->
  (forall receipt, r = Ok receipt -> EventReceipt_Decision receipt = WorkerEventACK -> recorded (db w')) -> event_outcome w r w'.
Proof.
  intros H Hr. split; [by apply later_works|]. destruct H as [H1 H2]. exists []. split; [by rewrite H2|]. split; [by left|].
  intros receipt E. specialize (Hr _ E). destruct (EventReceipt_Decision receipt); auto.
Qed.

Lemma outcome_later w w1 r w' : later_world service w w1 -> event_outcome w1 r w' -> event_outcome w r w'.
Proof.
  intros H (H3 & new & E & H4). split; [etransitivity; [by apply later_works | done]|]. destruct H as [_ H2]. exists new. by rewrite E, H2.
Qed.

(** The step of a commit that found no receipt records one. *)
Lemma commit_recorded state p s s' : Req_Key (durable_request state) = key -> Receipt_Worker (commit_receipt p) = conn_worker connection ->
  Receipt_Digest (commit_receipt p) = digest -> Receipt_Request (commit_receipt p) = key -> Receipt_EventID (commit_receipt p) = id ->
  commitTx service connection delivery state p (live s) = Ok (tt, s') ->
  (s' = s /\ recorded s) \/ (event_receipt s = None /\ recorded s' /\ s' <> s).
Proof.
  intros Hk Hw Hd H1 H2 H. apply commitTx_inv in H as [(-> & x & Hx & Ew & Ed)|(-> & Hnone & _)]; rewrite Hk in *.
  - left. split; [done|]. exists x. rewrite Ew, Ed. done.
  - right. split; [done|].
    assert (recorded (settled p key (Task_Key (durable_task state)) s)) as Hr.
    { exists (commit_receipt p). split; [|done]. 
      assert (WriteOp.receiptKey (commit_receipt p) = {| ReceiptKey_request := key; ReceiptKey_eventID := id |}) as Ek
        by (unfold WriteOp.receiptKey; by rewrite H1, H2).
      transitivity (<[WriteOp.receiptKey (commit_receipt p) := commit_receipt p]> (receipts s)
        !! {| ReceiptKey_request := key; ReceiptKey_eventID := id |}); [reflexivity|]. rewrite Ek. apply lookup_insert_eq. }
    split; [done|]. intros E. rewrite E in Hr. destruct Hr as (x & Hx & _). unfold event_receipt in Hx.
    unfold key, id in Hnone. congruence.
Qed.

(* ------------------------------------------------------------------ *)
(** ** The commit *)

Definition one_commit (w w' : world serviceE) : Prop :=
  works service w w' /\
  exists new, commits_of (acts w') = new ++ commits_of (acts w) /\
    (new = [] \/ exists s s', new = [(s, s')] /\ event_committed s s').

Lemma outcome_acked w w1 w' : service_ok (db w1) -> one_commit w w1 -> recorded (db w1) -> later_world service w1 w' ->
  event_outcome w (Ok (ackReceipt delivery)) w'.
Proof.
  intros Hs [H1 (new & E & Hn)] Hr H2. split; [etransitivity; [done | by apply later_works]|]. destruct H2 as [H2 E2]. exists new.
  rewrite E2. split_and!; [done|done|]. intros receipt [= <-]. cbn. by eapply recorded_stays.
Qed.

Lemma outcome_failed w w1 w' e : one_commit w w1 -> later_world service w1 w' -> event_outcome w (Err e) w'.
Proof.
  intros [H1 (new & E & Hn)] H2. split; [etransitivity; [done | by apply later_works]|]. destruct H2 as [_ E2]. exists new.
  rewrite E2. by split_and!.
Qed.

Lemma later_one w w1 w2 : one_commit w w1 -> later_world service w1 w2 -> one_commit w w2.
Proof.
  intros [H1 (new & E & Hn)] H2. split; [etransitivity; [done | by apply later_works]|]. destruct H2 as [_ E2]. exists new. by rewrite E2.
Qed.

Lemma wp_acknowledge key0 requestID over w w0 : service_ok (db w) -> one_commit w0 w -> recorded (db w) ->
  wp_ (acknowledge connection delivery key0 requestID over) (fun r w' => event_outcome w0 r w') w.
Proof.
  intros Hs H1 Hr. apply (wp_returning (fun r => r = Ok (ackReceipt delivery))).
  - unfold acknowledge, section_call. apply returning_bind; [done|]. intros _.
    apply returning_bind; [destruct over; go_quiet|]. done.
  - intros r w' -> H. by eapply outcome_acked.
Qed.

Section Prepared.
Context (state : durableEventState) (p : eventCommit).
Hypothesis Hkey : Req_Key (durable_request state) = key.
Hypothesis Hreceipt : exists now, commit_receipt p = {| Receipt_Request := key; Receipt_EventID := id;
  Receipt_Worker := conn_worker connection; Receipt_Digest := digest; Receipt_CreatedAt := now |}.

Lemma commit_one w w1 s' : service_ok (db w) -> later_world service w w1 -> s' = db w1 \/ effect service (db w1) s' ->
  commitTx service connection delivery state p (live (db w1)) = Ok (tt, s') -> one_commit w (commit w1 s') /\ recorded s'.
Proof.
  intros Hw H1 Heff Htx. pose proof (later_ok _ _ _ Hw H1) as Hw1. destruct Hreceipt as [now Er].
  destruct (works_commit service w1 s' Heff) as [_ He].
  apply commit_recorded in Htx; try (by rewrite Er); [|done]. split.
  - split; [etransitivity; [by apply later_works | done]|]. destruct H1 as [H1 E1]. exists [(db w1, s')].
    split; [exact (f_equal (cons (db w1, s')) E1)|]. right.
    exists (db w1), s'. split; [done|]. destruct Htx as [?|(Hn & Hr & Hne)]; [by left | right]. split_and!; [done| |done].
    destruct Heff as [?|Heff]; [done|]. by destruct (effect_step service _ _ Hw1 Heff).
  - destruct Htx as [[-> ?]|(_ & ? & _)]; done.
Qed.

Lemma updated_one w w1 r o : service_ok (db w) -> later_world service w w1 ->
  (forall s', commitTx service connection delivery state p (live (db w1)) = Ok (tt, s') -> s' = db w1 \/ effect service (db w1) s') ->
  updated (commitTx service connection delivery state p) (db w1) r o ->
  one_commit w (after w1 o) /\ (r = Ok tt -> recorded (db (after w1 o))).
Proof.
  intros Hw H1 Hg Hr.
  assert (one_commit w w1) as Hno by (split; [by apply later_works|]; destruct H1 as [_ E1]; exists []; rewrite E1; auto).
  inversion Hr as [[] s' Htx|[] s' e Htx|e Htx|e]; subst; cbn [after]; try (split; [done | intros [=]]).
  - destruct (commit_one w w1 s' Hw H1 (Hg _ Htx) Htx). by split.
  - destruct (commit_one w w1 s' Hw H1 (Hg _ Htx) Htx). by split.
Qed.

Lemma wp_commitPrepared w : service_ok (db w) ->
  (forall w1 s', later_world service w w1 -> commitTx service connection delivery state p (live (db w1)) = Ok (tt, s') ->
     s' = db w1 \/ effect service (db w1) s') ->
  wp_ (commitPrepared service connection delivery state p) (fun r w' => event_outcome w r w') w.
Proof.
  intros Hw Hg. unfold commitPrepared. apply wp_then. apply wp_update; [intros w1 [] s'; by apply Hg|].
  intros r w1 o w2 H1 Hr H2. destruct (updated_one w w1 r o Hw H1 (fun s' => Hg w1 s' H1) Hr) as [Hone Hok].
  assert (service_ok (db (after w1 o))) as Ha by (eapply works_ok; [exact Hw | apply Hone]).
  pose proof (later_one _ _ _ Hone H2) as Hone2. pose proof (later_ok _ _ _ Ha H2) as Hw2.
  assert (forall e w3, later_world service w2 w3 -> wp_ (pure (Err e)) (fun r w' => event_outcome w r w') w3) as Hfail.
  { intros e w3 H3. apply wp_ret. intros w4 H4. eapply outcome_failed; [exact Hone2 | by etransitivity]. }
  assert (forall over w3, later_world service w2 w3 -> recorded (db w3) ->
    wp_ (acknowledge connection delivery (Req_Key (durable_request state)) (Req_RequestID (durable_request state)) over)
      (fun r w' => event_outcome w r w') w3) as Hack.
  { intros over w3 H3 Hrec. apply wp_acknowledge; [by eapply later_ok | by eapply later_one | done]. }
  destruct r as [[]|e]; cbn [reconciled].
  - apply wp_then, wp_ret. intros w3 H3. apply Hack; [done|]. eapply recorded_stays; [exact Ha| |by apply Hok].
    destruct H2, H3. by etransitivity.
  - destruct (errors_Is e ErrStoreCommitUnknown); [|apply wp_then, wp_ret; intros w3 H3; by apply Hfail].
    apply wp_then. apply wp_quiet_then; [done|]. intros b w3 H3. apply wp_then. unfold reconcileWorkerReceipt.
    apply wp_view_then. intros loaded w4 w5 H4 Hload H5. apply wp_ret. intros w6 H6. apply wp_ret. intros w7 H7.
    assert (later_world service w2 w7) as H27 by (do 4 (etransitivity; [eassumption|]); done).
    destruct loaded as [found|e']; cbn [obind].
    + destruct (refuse_if _ _) as [[]|e'] eqn:Em; cbn; [|by apply Hfail]. apply Hack; [done|].
      apply refuse_if_Ok, orb_false_iff in Em as [E1 E2]. apply viewed_Ok, load_receipt in Hload. destruct Hreceipt as [now Er].
      rewrite Er in E1, E2, Hload. cbn in E1, E2, Hload. decided.
      eapply recorded_stays; [apply (later_ok service w2 w4); [exact Hw2 | by transitivity w3]| |exists found; split; [exact Hload | done]].
      destruct H5, H6, H7. do 2 (etransitivity; [eassumption|]). done.
    + destruct (errors_Is e' _); cbn; by apply Hfail.
Qed.
End Prepared.

(* ------------------------------------------------------------------ *)
(** ** The program *)

Abbreviation outcome_of p w := (wp_ p (fun r w' => event_outcome w r w') w).

Lemma outcome_then {A} (p : operation A) (f : A -> operation (res WorkerEventReceipt)) w : quiet p ->
  (forall a w1, later_world service w w1 -> outcome_of (f a) w1) -> outcome_of (bind p f) w.
Proof.
  intros Hp H. apply wp_quiet_then; [done|]. intros a w1 H1. eapply wp_mono; [|by apply H]. cbn beta. intros r w2 H2.
  by eapply outcome_later.
Qed.

Lemma outcome_refused r w : refusal r -> outcome_of (pure r) w.
Proof.
  intros Hr. apply wp_ret. intros w' H. apply outcome_quiet; [done|]. intros receipt E Ha. specialize (Hr _ E). congruence.
Qed.

Lemma outcome_take {A} (m : early WorkerEventReceipt A) (f : A -> operation (res WorkerEventReceipt)) w : refuses m ->
  (forall a, m = Ok a -> outcome_of (f a) w) -> outcome_of (early_try m f) w.
Proof. intros Hm H. unfold early_try. destruct m; [by apply H|]. apply outcome_refused. by apply Hm. Qed.

(** The receipt that was found. *)
Definition found_receipt (stored : res (option StoreWorkerReceiptRecord)) (s : memoryLLMState) : Prop :=
  forall x, stored = Ok (Some x) -> event_receipt s = Some x.

Lemma wp_loadWorkerReceipt_then {A} (k : res (option StoreWorkerReceiptRecord) -> operation A) Q w : service_ok (db w) ->
  (forall stored w1, later_world service w w1 -> found_receipt stored (db w1) ->
     (stored = Ok None -> event_receipt (db w) = None) -> wp_ (k stored) Q w1) ->
  wp_ (bind (loadWorkerReceipt delivery) k) Q w.
Proof.
  intros Hw H. apply wp_then. unfold loadWorkerReceipt. apply wp_view_then. intros loaded w1 w2 H1 Hload H2.
  apply wp_ret. intros w3 H3. pose proof (later_ok _ _ _ Hw H1) as Hw1.
  assert (later_world service w1 w3) as H13 by (by transitivity w2).
  apply H; [by transitivity w1|..].
  - intros x E. destruct loaded as [found|e]; [|by destruct (errors_Is e _)]. apply obind_Ok in E as ([] & _ & [= <-]).
    apply viewed_Ok, load_receipt in Hload. eapply receipt_stays; [done | apply H13 | done].
  - intros E. destruct loaded as [found|e]; [by apply obind_Ok in E as ([] & _ & ?)|].
    destruct (errors_Is e _) eqn:Ee; [|done]. destruct (event_receipt (db w)) as [x|] eqn:Ex; [|done].
    assert (event_receipt (db w1) = Some x) as Hx by (eapply receipt_stays; [exact Hw | apply H1 | exact Ex]).
    inversion Hload as [Hl|e' He]; subst; [|apply not_found_fault in He; congruence].
    apply (load_no_receipt _ _ _ _ Hl) in Ee. unfold event_receipt in Hx. congruence.
Qed.

Lemma matching_recorded s x : event_receipt s = Some x ->
  (Receipt_Worker x =?= conn_worker connection) && (Receipt_Digest x =?= digest) = true -> recorded s.
Proof. intros Hx E. exists x. bool_split. decided. done. Qed.

Lemma outcome_replay x w : service_ok (db w) -> event_receipt (db w) = Some x -> outcome_of (replayReceipt connection delivery digest x) w.
Proof.
  intros Hw Hx. unfold replayReceipt. destruct (_ && _)%bool eqn:E.
  - apply wp_acknowledge; [done| |by eapply matching_recorded]. split; [reflexivity|]. exists []. auto.
  - apply outcome_refused. by intros receipt [= <-].
Qed.

Lemma wp_commitDelivery delivery0 w : service_ok (db w) -> identifyDelivery connection delivery0 = Ok (delivery, digest) ->
  outcome_of (commitDelivery service ctx connection delivery digest) w.
Proof.
  intros Hw Hid. unfold commitDelivery. apply wp_loadWorkerReceipt_then; [done|]. intros stored w1 H1 Hfound _.
  pose proof (later_ok _ _ _ Hw H1) as Hw1.
  eapply wp_mono; [intros r w' H'; eapply outcome_later; [exact H1 | exact H']|].
  apply outcome_take; [go_exits|]. intros found ->%failed_Ok. destruct found as [x|]; [apply outcome_replay; [done | by apply Hfound]|].
  apply outcome_take; [apply refuses_checkPayloadLimit|]. intros [] _.
  unfold loadDurableEventState. apply wp_view_then. intros loaded w2 w3 H2 Hload H3.
  pose proof (later_ok _ _ _ Hw1 H2) as Hw2. pose proof (later_ok _ _ _ Hw2 H3) as Hw3.
  eapply wp_mono; [intros r w' H'; eapply outcome_later; [transitivity w2; [exact H2 | exact H3] | exact H']|].
  apply outcome_take; [apply refuses_accept|]. intros [state rebuilt] Hacc.
  assert (exists read, loaded = Ok read) as [read ->].
  { destruct loaded as [read|e]; [by eexists|]. unfold acceptDelivery in Hacc. cbn in Hacc. by destruct (errors_Is e ErrStoreRecordNotFound). }
  apply viewed_Ok, durableState_reads in Hload as [Hreads Hkey]; [|apply Hw2].
  destruct (acceptDelivery_inv _ _ _ _ _ _ _ Hacc) as [-> _].
  apply outcome_then; [done|]. intros clock w4 H4. apply outcome_take; [go_exits|]. intros now Hnow. apply failed_Ok in Hnow.
  apply outcome_take; [apply refuses_plan|]. intros planned Hplan. apply outcome_then; [done|]. intros answer w5 H5.
  apply outcome_take; [apply refuses_seed|]. intros seed Hseed. apply outcome_take; [apply refuses_encode|]. intros [l over] Henc.
  apply outcome_take; [apply refuses_prepare|]. intros p Hprep.
  pose proof (later_ok _ _ _ Hw3 H4) as Hw4. pose proof (later_ok _ _ _ Hw4 H5) as Hw5.
  apply wp_commitPrepared; [done| |done|].
  - apply prepareCommit_inv in Hprep as (_ & _ & _ & -> & _). exists now. by rewrite Hkey.
  - intros w6 s' H6 Htx. apply (commits_effect service (db w2)); [done| |].
    + destruct H3 as [E3 _], H4 as [E4 _], H5 as [E5 _], H6 as [E6 _]. do 3 (etransitivity; [eassumption|]). exact E6.
    + apply (commits_event service _ _ _ ctx connection delivery).
      exact (committing_intro service ctx connection delivery _ _ _ _ _ _ _ _ _ _ _ _ _ _ _ Hid Hreads Hkey Hacc Hnow Hplan Hseed Henc Hprep Htx).
Qed.

(** With a receipt, nothing is written and the answer is settled. *)
Definition replay_answer (x : StoreWorkerReceiptRecord) : WorkerEventReceipt :=
  if (Receipt_Worker x =?= conn_worker connection) && (Receipt_Digest x =?= digest) then ackReceipt delivery
  else nackReceipt delivery WorkerRejectEventConflict "event id was reused with different content".

Lemma wp_replayed x w : service_ok (db w) -> event_receipt (db w) = Some x ->
  wp_ (commitDelivery service ctx connection delivery digest)
    (fun r w' => later_world service w w' /\ forall receipt, r = Ok receipt -> receipt = replay_answer x) w.
Proof.
  intros Hw Hx. unfold commitDelivery. apply wp_loadWorkerReceipt_then; [done|]. intros stored w1 H1 Hfound Hnone.
  assert (event_receipt (db w1) = Some x) as Hx1 by (eapply receipt_stays; [exact Hw | apply H1 | exact Hx]).
  destruct stored as [[y|]|e]; [|by specialize (Hnone eq_refl); congruence|].
  - rewrite (Hfound y eq_refl) in Hx1. injection Hx1 as ->. cbn. unfold replayReceipt, replay_answer.
    destruct (_ && _)%bool.
    + apply (wp_returning (fun r => r = Ok (ackReceipt delivery))).
      * unfold acknowledge, section_call. apply returning_bind; [done|]. intros _. apply returning_bind; [destruct (EndsResponse _); go_quiet | done].
      * intros r w' -> H. split; [by etransitivity | by intros receipt [= <-]].
    + apply wp_ret. intros w' H. split; [by etransitivity | by intros receipt [= <-]].
  - apply wp_ret. intros w' H. by split; [etransitivity|].
Qed.

Lemma outcome_stays w r w1 w2 : service_ok (db w1) -> event_outcome w r w1 -> later_world service w1 w2 -> event_outcome w r w2.
Proof.
  intros Hs [H1 (new & E & Hn & Hr)] H2. split; [etransitivity; [done | by apply later_works]|]. exists new.
  destruct H2 as [H2 E2]. rewrite E2. split_and!; [done|done|]. intros receipt Er. specialize (Hr _ Er).
  destruct (EventReceipt_Decision receipt); [|done..]. by eapply recorded_stays.
Qed.

(** The whole call, for what its delivery does behind the two checks. *)
Lemma wp_commitWorkerEvent delivery0 w (Q : res WorkerEventReceipt -> world serviceE -> Prop) : service_ok (db w) ->
  identifyDelivery connection delivery0 = Ok (delivery, digest) ->
  (forall e w', later_world service w w' -> Q (Err e) w') ->
  (forall w1, later_world service w w1 -> wp_ (commitDelivery service ctx connection delivery digest)
     (fun r w2 => forall w3, later_world service w2 w3 -> Q r w3) w1) ->
  wp_ (commitWorkerEvent service ctx connection delivery0) Q w.
Proof.
  intros Hw Hid Herr Hrun. unfold commitWorkerEvent, operating, operating_or. apply wp_quiet_then; [done|]. intros [u|e] w1 H1.
  2:{ apply wp_ret. intros w2 H2. apply Herr. by transitivity w1. }
  assert (forall (r : res WorkerEventReceipt) w2, (forall w3, later_world service w2 w3 -> Q r w3) ->
    wp_ (bind (section_call EndOperation) (fun _ => pure r)) Q w2) as Hend.
  { intros r w2 Hr. apply wp_quiet_then; [done|]. intros u' w3 H3. apply wp_ret. intros w4 H4. apply Hr. by transitivity w3. }
  apply wp_then. destruct (ctx_ready ErrWorkerDelivery ctx) as [[]|e] eqn:Ectx; cbn [or_return early_try].
  - rewrite Hid. cbn [early_try]. eapply wp_mono; [|by apply Hrun]. cbn beta. intros r w2 Hr. by apply Hend.
  - apply wp_ret. intros w2 H2. apply Hend. intros w3 H3. apply Herr. transitivity w1; [done|]. by transitivity w2.
Qed.

Lemma outcome_commitWorkerEvent delivery0 w : service_ok (db w) -> identifyDelivery connection delivery0 = Ok (delivery, digest) ->
  wp_ (commitWorkerEvent service ctx connection delivery0) (fun r w' => event_outcome w r w') w.
Proof.
  intros Hw Hid. apply wp_commitWorkerEvent; [done|done| |].
  - intros e w' H. by apply outcome_quiet.
  - intros w1 H1. pose proof (later_ok _ _ _ Hw H1) as Hw1. eapply wp_mono; [|by eapply wp_commitDelivery]. cbn beta.
    intros r w2 H2 w3 H3. eapply outcome_later; [exact H1|]. eapply outcome_stays; [|exact H2 | done].
    eapply works_ok; [exact Hw1 | apply H2].
Qed.

Lemma replayed_commitWorkerEvent delivery0 x w : service_ok (db w) -> identifyDelivery connection delivery0 = Ok (delivery, digest) ->
  event_receipt (db w) = Some x ->
  wp_ (commitWorkerEvent service ctx connection delivery0)
    (fun r w' => later_world service w w' /\ forall receipt, r = Ok receipt -> receipt = replay_answer x) w.
Proof.
  intros Hw Hid Hx. apply wp_commitWorkerEvent; [done|done|by intros e w' H|].
  intros w1 H1. pose proof (later_ok _ _ _ Hw H1) as Hw1.
  eapply wp_mono; [|apply (wp_replayed x); [done | eapply receipt_stays; [exact Hw | apply H1 | exact Hx]]]. cbn beta.
  intros r w2 [H2 Hr] w3 H3. split; [transitivity w1; [done|]; by transitivity w2 | done].
Qed.
End Delivery.
End ExactlyOnce.
