(* ===== verification/LlmOperations.v ===== *)
(** * Each operation of the HumanLLM service against its machine

    Acknowledgements, worker events, recovery and quarantine, expiry and
    retention: the programs of [LlmCommit], [LlmRecovery] and [LlmMaintenance],
    shown to make steps of the service only.  [LlmAdmitOnce] has admission. *)

From S2P Require Import Prelude GoText GoEncoding GoTime GoJson GoStrings GoDoc GoStruct.
From S2P Require Import AgentTypes Framework Protect LlmTypes LlmJson LlmMemory LlmLedger LlmScan LlmRuntime LlmProg LlmEvents.
From S2P Require Import LlmService LlmCommit LlmRecovery LlmAdmission LlmMaintenance LlmEffects LlmMachine LlmSpec LlmAtomic.
From S2P Require Import LlmRefinement LlmExactlyOnce.

Import Llm.
Local Open Scope string_scope.
Local Open Scope list_scope.

(* ------------------------------------------------------------------ *)
(** ** What was read *)

(** In a state of the service no event lacks its receipt. *)
Lemma never_unacknowledged s k : service_ok s -> unacknowledged s k = false.
Proof.
  intros Hs. unfold unacknowledged. destruct (some_entry _ _) eqn:E; [|done].
  apply some_entry_true in E as (n & e & He & Hu). unfold unacknowledged_event in Hu. apply andb_true_iff in Hu as [Hne Hu].
  destruct (ok_receipt s Hs _ _ _ He) as (x & Hx & Hw & Hd); [intros E; by rewrite E in Hne|].
  rewrite Hx, Hw, Hd in Hu. by rewrite !bool_decide_eq_true_2 in Hu.
Qed.

Section Operations.
Context (service : Service).
Abbreviation sound_ p := (sound service p).
Abbreviation wp_ p Q w := (wp (effects service) (@service_answers) p Q w).

(** A record read in a state of the service before. *)
Definition was_read (record : StoreRecoveryRecord) (s : memoryLLMState) : Prop :=
  exists s1, service_ok s1 /\ effects service s1 s /\ holds s1 (Recovery_Request record) (Recovery_Task record) /\
    Req_ResponseComplete (Recovery_Request record) = false.

Lemma was_read_later record w w' : was_read record (db w) -> works service w w' -> was_read record (db w').
Proof. intros (s1 & H1 & H2 & H3) [H _]. exists s1. split; [done|]. split; [by etransitivity | done]. Qed.

Lemma scanned_read scan s l : service_ok s -> ReadOp.ScanRecovery (live s) scan = Ok l -> Forall (fun record => was_read record s) l.
Proof.
  intros Hs H. unfold ReadOp.ScanRecovery in H. rewrite llm_active_live in H. cbn [obind unit_state live] in H. ok_inv.
  apply fit_page_Ok in H as (rest & Hr & _). rewrite Forall_forall. intros record Hin.
  assert (record ∈ l ++ rest) as Hl by set_solver. rewrite <- Hr in Hl. clear Hr Hin.
  rewrite sort_slice_perm in Hl.
  apply list_elem_of_omap in Hl as (r & Hin & Hc). apply list_elem_of_fmap in Hin as ([k r'] & -> & Hin).
  apply elem_of_map_to_list in Hin. cbn in Hc. unfold ReadOp.recovery_candidate in Hc.
  rewrite (never_unacknowledged s _ Hs), andb_true_r in Hc.
  destruct (_ || _)%bool eqn:Eb; [done|]. apply orb_false_iff in Eb as [_ Eb]. match type of Hc with (if ?b then _ else _) = _ => destruct b; [done|] end.
  destruct (tasks s !! Req_Task r') as [t|] eqn:Et; [|done]. injection Hc as <-. exists s. split_and!; [done|done| |done].
  split; [|done]. cbn. by rewrite (ledger_request_key s (ok_ledger s Hs) _ _ Hin).
Qed.

(* ------------------------------------------------------------------ *)
(** ** Acknowledgement *)

Ltac go_sound :=
  repeat (first
    [ solve [eauto with sound] | apply sound_quiet; solve [go_quiet]
    | apply sound_operating | apply sound_take; intros ? ? | apply sound_try; [|intros] | apply sound_bind; [|intros]
    | match goal with |- sound _ (match ?x with _ => _ end) => destruct x eqn:? end
    | match goal with |- sound _ (if ?b then _ else _) => destruct b eqn:? end ]).

Lemma sound_ackAssignment ctx connection object id : sound_ (ackAssignment ctx connection object id).
Proof.
  unfold ackAssignment, operating. apply sound_operating. apply sound_try; [by apply sound_quiet|]. intros _.
  apply sound_bind; [by apply sound_quiet|]. intros state. destruct (snd state); [by apply sound_quiet|].
  destruct (negb _); [by apply sound_quiet|]. apply sound_bind; [by apply sound_quiet|]. intros [a|]; [|by apply sound_quiet].
  destruct (_ <>? _); [by apply sound_quiet|]. apply sound_bind; [by apply sound_quiet|]. intros clock.
  destruct (checkedTime clock) as [now|e] eqn:Enow; [|by apply sound_quiet]. cbn [try_ pure bind].
  apply sound_bind.
  - intros w _. apply wp_update_works. intros w1 [] s' _ H. right. apply effect_ack. by eapply acknowledging_intro.
  - intros committed. apply sound_quiet. unfold reconciled, section_call. go_quiet.
Qed.

(* ------------------------------------------------------------------ *)
(** ** Worker events *)

Lemma wp_sound_then {A B} (p : operation A) (f : A -> operation B) w : service_ok (db w) ->
  wp_ p (fun a w1 => works service w w1 /\ wp_ (f a) (fun _ w2 => works service w1 w2) w1) w ->
  wp_ (bind p f) (fun _ w' => works service w w') w.
Proof.
  intros Hw H. apply wp_then. eapply wp_mono; [|exact H]. cbn. intros a w1 [H1 H2]. eapply wp_mono; [|exact H2].
  cbn. intros b w2 H3. by etransitivity.
Qed.

(** A quiet prefix of a program that works. *)
Lemma wp_works_quiet {A B} (p : operation A) (f : A -> operation B) w : quiet p ->
  (forall a w1, later_world service w w1 -> wp_ (f a) (fun _ w2 => works service w1 w2) w1) ->
  wp_ (bind p f) (fun _ w' => works service w w') w.
Proof.
  intros Hp H. apply wp_quiet_then; [done|]. intros a w1 H1. eapply wp_mono; [|by apply H]. cbn. intros b w2 H2.
  etransitivity; [by apply later_works | done].
Qed.

Lemma wp_works_done {A} (p : operation A) w : quiet p -> wp_ p (fun _ w' => works service w w') w.
Proof. intros Hp. apply wp_quiet; [done|]. intros a w'. apply later_works. Qed.

Lemma wp_works_take {A B} (m : outcome B A) (f : A -> operation B) w :
  (forall a, m = Ok a -> wp_ (f a) (fun _ w' => works service w w') w) ->
  wp_ (early_try m f) (fun _ w' => works service w w') w.
Proof. intros H. unfold early_try. destruct m; [by apply H | by apply wp_works_done]. Qed.

Lemma sound_commitWorkerEvent ctx connection delivery : sound_ (commitWorkerEvent service ctx connection delivery).
Proof.
  unfold commitWorkerEvent, operating. apply sound_operating. apply sound_take. intros [] _.
  apply sound_take. intros [canonical digest] Hid. intros w Hw. eapply wp_mono; [|by eapply wp_commitDelivery]. by intros r w' [H _].
Qed.

(* ------------------------------------------------------------------ *)
(** ** Quarantine and recovery *)

Lemma sound_quarantineRecovery ctx record cause w : service_ok (db w) -> was_read record (db w) ->
  wp_ (quarantineRecovery service ctx record cause) (fun _ w' => works service w w') w.
Proof.
  intros Hw (s1 & Hs1 & He & Hh & Hc). unfold quarantineRecovery. rewrite Hc. cbn [andb negb].
  apply wp_works_quiet; [done|]. intros clock w1 H1.
  destruct (checkedTime clock) as [now|e] eqn:Enow; [|by apply wp_works_done]. cbn [try_ pure bind].
  apply wp_works_quiet; [go_quiet|]. intros l w2 H2.
  destruct (prepareQuarantine _ _ _ _ _) as [[es next]|e] eqn:Eprep; [|by apply wp_works_done].
  pose proof (later_ok _ _ _ (later_ok _ _ _ Hw H1) H2) as Hw2.
  apply wp_sound_then; [done|]. eapply wp_mono.
  2:{ apply wp_update_works. intros w3 [] s' H3 Htx. apply (commits_effect service s1); [done| |].
      - destruct H1 as [E1 _], H2 as [E2 _], H3 as [E3 _]. do 3 (etransitivity; [eassumption|]). exact E3.
      - apply (commits_quarantine service _ _ _ ctx). destruct record as [task request].
        exact (quarantining_intro service ctx s1 _ _ request task l clock now es next Hh Hc Enow Eprep Htx). }
  cbn. intros committed w3 H3. split; [done|]. apply wp_works_done. unfold reconciled. go_quiet.
Qed.

Lemma sound_recoverBatch ctx l : forall w, service_ok (db w) -> Forall (fun record => was_read record (db w)) l ->
  wp_ (recoverBatch service ctx l) (fun _ w' => works service w w') w.
Proof.
  induction l as [|record l IH]; intros w Hw Hl; cbn [recoverBatch]; [by apply wp_works_done|].
  apply Forall_cons in Hl as [Hr Hl].
  assert (forall w', works service w w' -> service_ok (db w') /\ Forall (fun record => was_read record (db w')) l) as Hlater.
  { intros w' H. split; [by eapply works_ok|]. eapply Forall_impl; [exact Hl|]. intros x Hx. exact (was_read_later _ _ _ Hx H). }
  apply wp_works_quiet; [go_quiet|]. intros recovered w1 H1. apply later_works in H1. destruct (Hlater _ H1) as [Hw1 Hl1].
  destruct recovered as [u|e]; [by apply IH|]. unfold try_. apply wp_sound_then; [done|].
  eapply wp_mono; [|apply sound_quarantineRecovery; [done | by eapply was_read_later]].
  cbn. intros [u|e'] w2 H2; (split; [done|]); [|by apply wp_works_done].
  destruct (Hlater w2) as [Hw2 Hl2]; [by etransitivity|]. by apply IH.
Qed.

Lemma sound_recover ctx : sound_ (recover service ctx).
Proof.
  unfold recover. apply sound_loop; [|intros r; by apply sound_quiet]. intros cursor w Hw. unfold recoverRound.
  apply wp_view_then. intros loaded w1 w2 H1 Hload H2. pose proof (later_ok _ _ _ Hw H1) as Hw1.
  pose proof (later_ok _ _ _ Hw1 H2) as Hw2.
  assert (later_world service w w2) as H12 by (by etransitivity).
  eapply wp_mono; [intros a w' H'; etransitivity; [apply (later_works service), H12 | exact H']|]. clear H12.
  destruct loaded as [batch|e]; [|by apply wp_works_done]. destruct (last batch) as [record|]; [|by apply wp_works_done].
  apply viewed_Ok, scanned_read in Hload as Hl; [|done].
  apply wp_sound_then; [done|]. eapply wp_mono.
  2:{ apply sound_recoverBatch; [done|]. eapply Forall_impl; [exact Hl|]. intros x Hx. eapply was_read_later; [exact Hx | by apply later_works]. }
  cbn beta. intros done w3 H3. split; [exact H3|]. by apply wp_works_done.
Qed.

(* ------------------------------------------------------------------ *)
(** ** Sweeps *)

Lemma sound_expireRecoveryRecord ctx record : sound_ (expireRecoveryRecord service ctx record).
Proof.
  unfold expireRecoveryRecord. destruct (_ || _)%bool; [by apply sound_quiet|].
  destruct (expiryDelivery record) as [delivery|e]; [|by apply sound_quiet].
  apply sound_try; [apply sound_commitWorkerEvent|]. intros receipt. apply sound_quiet.
  unfold raiseRequestExpiredNotice, section_call. go_quiet.
Qed.

Lemma sound_expireBatch ctx boundary l : forall result, sound_ (expireBatch service ctx boundary l result).
Proof.
  induction l as [|record l IH]; intros result; cbn [expireBatch]; [by apply sound_quiet|].
  destruct (After _ _); [by apply sound_quiet|]. destruct (_ || _)%bool; [by apply IH|].
  apply sound_bind; [apply sound_expireRecoveryRecord|]. intros [[]|e]; [by apply IH | by apply IH | by apply sound_quiet].
Qed.

Lemma sound_RunExpiry ctx policy : sound_ (RunExpiry service ctx policy).
Proof.
  unfold RunExpiry. apply sound_operating. destruct (sweep_batch _ _ _) as [batchSize|e]; [|by apply sound_quiet].
  apply sound_loop; [|intros r; by apply sound_quiet]. intros [cursor result]. unfold expiryRound.
  apply sound_bind; [by apply sound_quiet|]. intros [records|e]; [|by apply sound_quiet].
  destruct (last records); [|by apply sound_quiet]. apply sound_bind; [apply sound_expireBatch|]. intros r. by apply sound_quiet.
Qed.

Lemma sound_pruneRetentionCandidate candidate boundary prunedAt retain :
  sound_ (pruneRetentionCandidate candidate boundary prunedAt retain).
Proof.
  unfold pruneRetentionCandidate. apply sound_bind.
  - intros w _. apply wp_update_works. intros w1 result s' _ H. right. by eapply effect_prune, pruning_intro.
  - intros committed. apply sound_quiet. go_quiet.
Qed.

Lemma sound_retainBatch boundary prunedAt retain l : forall result, sound_ (retainBatch boundary prunedAt retain l result).
Proof.
  induction l as [|candidate l IH]; intros result; cbn [retainBatch]; [by apply sound_quiet|].
  destruct (Candidate_UnacknowledgedWorkerEvent candidate); [by apply IH|].
  apply sound_bind; [apply sound_pruneRetentionCandidate|]. intros [one|e]; [by apply IH | by apply sound_quiet].
Qed.

Lemma sound_RunRetention ctx policy : sound_ (RunRetention ctx policy).
Proof.
  unfold RunRetention. apply sound_operating. destruct (sweep_batch _ _ _) as [batchSize|e]; [|by apply sound_quiet].
  apply sound_bind; [by apply sound_quiet|]. intros clock. destruct (checkedTime clock) as [now|e]; [|by apply sound_quiet].
  apply sound_loop; [|intros r; by apply sound_quiet]. intros [cursor result]. unfold retentionRound.
  apply sound_bind; [by apply sound_quiet|]. intros [l|e]; [|by apply sound_quiet].
  destruct (last l); [|by apply sound_quiet]. apply sound_bind; [apply sound_retainBatch|]. intros r. by apply sound_quiet.
Qed.

(* ------------------------------------------------------------------ *)
(** ** Reads, sessions and shutdown *)

Lemma quiet_operating {A} (failed : error -> A) (body : operation A) : quiet body -> quiet (operating_or failed body).
Proof. intros H. unfold operating_or, section_call. go_quiet. Qed.

Lemma quiet_ReadResponse ctx query : quiet (ReadResponse service ctx query).
Proof. apply quiet_operating. go_quiet. Qed.
Lemma quiet_WaitResponse ctx query : quiet (WaitResponse service ctx query).
Proof. unfold WaitResponse, operating. apply quiet_operating. unfold waitRound, section_call. go_quiet. all: try (split; [intros|]; go_quiet). Qed.
Lemma quiet_ServiceStatus ctx : quiet (ServiceStatus_ ctx).
Proof. apply quiet_operating. unfold section_call. go_quiet. Qed.
Lemma quiet_DetachCaller ctx identity : quiet (DetachCaller ctx identity).
Proof. apply quiet_operating. unfold raiseCallerGoneNotice, section_call. destruct ctx as [|[|]]; go_quiet. Qed.
Lemma quiet_OpenWorker ctx principal : quiet (OpenWorker ctx principal).
Proof. apply quiet_operating. unfold section_call. go_quiet. Qed.
Lemma quiet_dispatch id : quiet (dispatch id).
Proof. unfold dispatch, dispatchRound, section_call. split; intros; go_quiet. Qed.
Lemma quiet_ConnectionShutdown ctx id : quiet (ConnectionShutdown ctx id).
Proof. unfold ConnectionShutdown, section_call. destruct ctx; go_quiet. Qed.
Lemma quiet_each_connection (f : connectionID -> operation unit) l : (forall id, quiet (f id)) -> quiet (each_connection f l).
Proof. intros Hf. induction l as [|id l IH]; cbn [each_connection]; go_quiet; done. Qed.
Lemma quiet_finishShutdown l : quiet (finishShutdown l).
Proof. unfold finishShutdown, releaseResources, section_call. apply quiet_bind; [done|]. intros _. apply quiet_bind; [by apply quiet_each_connection|]. intros _. go_quiet. Qed.
Lemma quiet_Shutdown ctx : quiet (Shutdown ctx).
Proof. unfold Shutdown, section_call. destruct ctx; go_quiet. by apply quiet_each_connection. Qed.
End Operations.
