(* ===== verification/LlmAdmitOnce.v ===== *)
(** * A request is admitted exactly once

    What one [Admit] does to the Store: an answer stands for a durable request
    with the digest of the body; a fresh answer comes from a commit of this
    very call, which found no request under the key; and a key that is taken is
    answered from what is stored, without a commit.  [operation_of] lists all
    operations of the service, and [sound_operation] that each makes steps of
    its machine only. *)

From S2P Require Import Prelude GoText GoEncoding GoTime GoJson GoStrings GoDoc GoStruct.
From S2P Require Import AgentTypes Framework Protect LlmTypes LlmJson LlmMemory LlmLedger LlmScan LlmRuntime LlmProg LlmEvents.
From S2P Require Import LlmService LlmCommit LlmRecovery LlmAdmission LlmMaintenance LlmEffects LlmMachine LlmSpec LlmAtomic.
From S2P Require Import LlmRefinement LlmExactlyOnce LlmOperations.

Import Llm.
Local Open Scope string_scope.
Local Open Scope list_scope.

Section AdmitOnce.
Context (service : Service).
Abbreviation sound_ p := (sound service p).
Abbreviation wp_ p Q w := (wp (effects service) (@service_answers) p Q w).

(* ------------------------------------------------------------------ *)
(** ** Plans *)

Lemma load_task_valid s k t : ReadOp.LoadTask (live s) k = Ok t -> memoryLLMValidTaskKey k = true.
Proof.
  unfold ReadOp.LoadTask. rewrite llm_active_live. cbn [obind unit_state live]. intros H. ok_inv. by apply negb_false_iff.
Qed.

Lemma planTx_exact key s task tools : ledger_ok s -> planTx service key (live s) = Ok (Some task, tools) ->
  LlmMemory.tasks s !! key = Some task /\ (Task_State task = TaskAwaitingResults -> tools = tool_executions s key None).
Proof.
  unfold planTx. intros Hs H. destruct (ReadOp.LoadTask (live s) key) as [t|e] eqn:E.
  - pose proof (load_task_valid _ _ _ E) as Hv. apply load_task in E. apply obind_Ok in H as (l & Hl & [= <- <-]).
    split; [done|]. intros Ha. rewrite bool_decide_eq_true_2 in Hl by done.
    destruct (tool_loop_ends s Hs key None (service_readLimitBytes service) Hv I) as [_ Hx]. by rewrite Hl in Hx.
  - destruct (errors_Is e _); [by injection H | done].
Qed.

Definition planned_before ctx key decoded plan (s : memoryLLMState) : Prop :=
  exists s1, service_ok s1 /\ effects service s1 s /\ plans service s1 ctx key decoded plan /\ same_context plan decoded.

Lemma planned_before_later ctx key decoded plan w w' : planned_before ctx key decoded plan (db w) -> later_world service w w' ->
  planned_before ctx key decoded plan (db w').
Proof. intros (s1 & H1 & H2 & H3) [H _]. exists s1. split; [done|]. split; [by etransitivity | done]. Qed.

Lemma wp_planTask ctx key decoded w : service_ok (db w) ->
  wp_ (planTask service ctx key (Admission_Task (decoded_input decoded)) (registered_snapshot (decoded_registration decoded))
         (decoded_request decoded))
    (fun r w' => later_world service w w' /\ forall plan, r = Ok plan -> planned_before ctx key decoded plan (db w')) w.
Proof.
  intros Hw. unfold planTask.
  assert (forall (r : res admissionTaskPlan) w1, later_world service w w1 ->
    (forall plan, r = Ok plan -> planned_before ctx key decoded plan (db w1)) ->
    wp_ (pure r) (fun r w' => later_world service w w' /\ forall plan, r = Ok plan -> planned_before ctx key decoded plan (db w')) w1) as Hret.
  { intros r w1 H1 Hr. apply wp_ret. intros w2 H2. split; [by etransitivity|]. intros plan E. eapply planned_before_later; [by apply Hr | done]. }
  assert (forall w1, later_world service w w1 -> planned_before ctx key decoded no_plan (db w1)) as Hno.
  { intros w1 H1. exists (db w1). split_and!; [by eapply later_ok | reflexivity | apply plans_new | by intros t]. }
  destruct (_ =?= TierChat); [apply Hret; [done|]; intros plan [= <-]; by apply Hno|].
  unfold try_. apply wp_view_then. intros r w1 w2 H1 Hr H2. pose proof (later_ok _ _ _ Hw H1) as Hw1.
  assert (later_world service w w2) as H12 by (by etransitivity).
  destruct r as [[[task|] tools]|e]; [|apply Hret; [done|]; intros plan [= <-]; by apply Hno | by apply Hret].
  apply viewed_Ok, planTx_exact in Hr as [Ht Htools]; [|apply Hw1].
  destruct (negb _ || negb _)%bool eqn:Esame; [by apply Hret|].
  apply orb_false_iff in Esame as [S1%negb_false_iff S2%negb_false_iff].
  assert (forall head results, same_context (existing_plan task head results) decoded) as Hsame.
  { by intros head results t [= <-]. }
  assert (forall head results, plans service (db w1) ctx key decoded (existing_plan task head results) ->
    forall w3, later_world service w2 w3 -> planned_before ctx key decoded (existing_plan task head results) (db w3)) as Hplan.
  { intros head results Hp w3 H3. exists (db w1). split_and!; [done| |done|apply Hsame]. destruct H2, H3. by etransitivity. }
  set (post := fun (r : res admissionTaskPlan) w' => later_world service w w' /\
    forall plan, r = Ok plan -> planned_before ctx key decoded plan (db w')) in *.
  assert (forall state, Task_State task = state -> state <> TaskAwaitingCaller -> state <> TaskAwaitingResults ->
    wp_ (if TaskState_Terminal state then pure (Err ErrTaskConflict)
         else bind (view (fun u => ReadOp.FindActiveRequest u key)) (fun found =>
           match found with
           | Err _ => pure (Err ErrTaskConflict)
           | Ok head =>
               if Head_ResponseComplete head then pure (Err ErrTaskConflict)
               else bind (section_call (CallerDetached key head)) (fun gone =>
                      pure (if gone then Ok (existing_plan task (Some head) []) else Err ErrTaskConflict))
           end)) post w2) as Hrest.
  { intros state Est N1 N2. destruct (TaskState_Terminal state) eqn:Eterm; [by apply Hret|].
    apply wp_quiet_then; [done|]. intros found w3 H3. destruct found as [head|e]; [|apply Hret; [by etransitivity | done]].
    destruct (Head_ResponseComplete head); [apply Hret; [by etransitivity | done]|].
    apply wp_quiet_then; [done|]. intros gone w4 H4. apply Hret; [by do 2 (etransitivity; [done|])|].
    intros plan E. destruct gone; [|done]. injection E as <-. apply Hplan; [|by etransitivity].
    apply plans_preempt; by rewrite ?Est. }
  destruct (Task_State task) eqn:Est; try (by apply Hrest).
  - apply Hret; [done|]. intros plan [= <-]. apply Hplan; [by apply plans_continue | done].
  - apply Hret; [done|]. intros plan E. apply obind_Ok in E as (results & Hres & E). apply obind_Ok in E as ([] & Hn & [= <-]).
    apply Hplan; [|done]. rewrite Htools in Hres by done. apply plans_results; try done. apply refuse_if_Ok in Hn. by destruct results.
Qed.

Lemma loadRecovery_read key s record : service_ok s -> loadRecovery service key (live s) = Ok record ->
  Req_ResponseComplete (Recovery_Request record) = false -> was_read service record s.
Proof.
  intros Hs H Hc. unfold loadRecovery in H. apply obind_Ok in H as (r & Hr & H). apply load_request in Hr.
  apply obind_Ok in H as (t & Ht & [= <-]). apply load_task in Ht. exists s. split_and!; [done|reflexivity| |done].
  split; [|done]. cbn. by rewrite (ledger_request_key s (ok_ledger s Hs) _ _ Hr).
Qed.

(** An allocated identity has the form of one. *)
Lemma wp_allocateID_then {A} kind (k : res string -> operation A) w Q :
  (forall r w1, (forall id, r = Ok id -> validGeneratedID id = Ok tt) -> later_world service w w1 -> wp_ (k r) Q w1) ->
  wp_ (bind (allocateID kind) k) Q w.
Proof.
  intros H. apply wp_then. unfold allocateID. apply wp_quiet_then; [done|]. intros answer w1 H1. apply wp_ret. intros w2 H2.
  apply H; [|by etransitivity]. intros id E. apply obind_Ok in E as (v & -> & E). by apply obind_Ok in E as ([] & ? & [= <-]).
Qed.

Lemma internal_Ok {A} codec (m : res A) a : internal service codec m = Ok a -> m = Ok a.
Proof. unfold internal, refused. destruct m; [by intros [= <-] | done]. Qed.

(* ------------------------------------------------------------------ *)
(** ** Answers and durable requests *)

Lemma request_stays s s' k r : service_ok s -> effects service s s' -> requests s !! k = Some r ->
  exists r', requests s' !! k = Some r' /\ same_request r r'.
Proof.
  intros Hs H Hr. apply effects_ok in H as [_ T]; [|done].
  destruct (extends_request _ _ (extends_transacts _ _ T) _ _ Hr) as (r' & Hr' & Hsame & _). eauto.
Qed.

(** A result stands for the request that is stored. *)
Definition names (key : StoreRequestKey) (r : StoreRequestRecord) (identity : CompletionIdentity) : Prop :=
  Identity_CallerID identity = RequestKey_Caller key /\ Identity_IdempotencyKey identity = RequestKey_IdempotencyKey key /\
  Identity_RequestID identity = Req_RequestID r /\ Identity_TaskID identity = TaskKey_Task (Req_Task r).
Definition stored_as key digest (s : memoryLLMState) (identity : CompletionIdentity) : Prop :=
  exists r, requests s !! key = Some r /\ Req_RequestDigest r = digest /\ names key r identity.

Lemma stored_as_stays key digest s s' identity : service_ok s -> effects service s s' -> stored_as key digest s identity ->
  stored_as key digest s' identity.
Proof.
  intros Hs H (r & Hr & Hd & Hn). destruct (request_stays _ _ _ _ Hs H Hr) as (r' & Hr' & []). exists r'.
  unfold names in *. split_and!; try done; try congruence; apply Hn || (destruct Hn as (? & ? & ? & ?); congruence).
Qed.

Lemma wp_readResponse ctx query w : service_ok (db w) ->
  wp_ (readResponse service ctx query) (fun r w' => later_world service w w' /\ forall page, r = Ok page ->
    stored_as (query_key query) (Query_RequestDigest query) (db w') (Page_Identity page)) w.
Proof.
  intros Hw. unfold readResponse. destruct (checkQuery _ _ _) as [[limit maxBytes]|e].
  2:{ apply wp_ret. intros w' H. by split. }
  apply wp_view_then. intros loaded w1 w2 H1 Hload H2. apply wp_ret. intros w3 H3.
  assert (later_world service w w3) as H13 by (transitivity w1; [done|]; by transitivity w2). split; [done|]. intros page E.
  destruct loaded as [snapshot|e]; [|by destruct (errors_Is e _)]. apply viewed_Ok in Hload.
  apply (stored_as_stays _ _ (db w1)); [by eapply later_ok | apply (transitivity H2 H3)|].
  unfold readTx in Hload. apply obind_Ok in Hload as (h & Hh & Hload). apply load_head in Hh as (rec & Hrec & ->).
  apply obind_Ok in Hload as (decision & _ & Hload). apply obind_Ok in Hload as (task & _ & Hload).
  apply obind_Ok in Hload as ([] & _ & Hload). apply obind_Ok in Hload as (batch & _ & [= <-]).
  unfold projectResponse in E. cbn [snapshot_request memoryLLMRequestHead Head_RequestDigest] in E.
  apply obind_Ok in E as ([] & Hd & E). apply refuse_if_Ok in Hd. decided.
  apply obind_Ok in E as ([] & _ & E). apply obind_Ok in E as (body & _ & E). apply obind_Ok in E as (wires & _ & [= <-]).
  exists rec. pose proof (ledger_request_key (db w1) (ok_ledger _ (later_ok _ _ _ Hw H1)) _ _ Hrec) as Hk.
  unfold names. cbn. rewrite Hk. split_and!; congruence || done.
Qed.


(* ------------------------------------------------------------------ *)
(** ** The answers of an admission *)

(** Early returns of an admission are errors. *)
Definition failure (r : res AdmissionResult) : Prop := forall result, r <> Ok result.

Lemma fails_refused {A} f (m : res A) : exits failure (refused f m).
Proof. intros r. unfold refused. destruct m; by intros [= <-]. Qed.
Lemma fails_denied {A} codec status code message (m : res A) : exits failure (denied service codec status code message m).
Proof. apply fails_refused. Qed.
Lemma fails_internal {A} codec (m : res A) : exits failure (internal service codec m).
Proof. apply fails_refused. Qed.
Lemma fails_or_return {A} (m : res A) : exits failure (or_return m).
Proof. intros r. unfold or_return. destruct m; by intros [= <-]. Qed.
Lemma fails_error {A} e : exits failure (A := A) (Err (Err e)).
Proof. by intros r [= <-] result. Qed.
#[local] Hint Resolve fails_refused fails_denied fails_internal fails_or_return fails_error : exits.

Lemma fails_wires ctx codec key requestID sequence worker event digest now l :
  exits failure (wire_records service ctx (internal service codec) key requestID sequence worker event digest now l).
Proof. revert sequence. induction l as [|f l IH]; intros sequence; cbn; go_exits; auto. Qed.
#[local] Hint Resolve fails_wires : exits.

Lemma fails_decode input : exits failure (decodeRequest service input).
Proof. unfold decodeRequest. go_exits. Qed.
Lemma fails_policy codec answer : exits failure (policy_verdict service codec answer).
Proof. unfold policy_verdict. go_exits. Qed.
Lemma fails_draft ctx decoded identity answer : exits failure (draftResponse service ctx decoded identity answer).
Proof. unfold draftResponse. go_exits. Qed.
Lemma fails_assignment decoded identity plan : exits failure (draftAssignment service decoded identity plan).
Proof. unfold draftAssignment. go_exits. Qed.

Lemma fails_taskID input : returning (exits failure) (admissionTaskID service input).
Proof.
  unfold admissionTaskID.
  assert (forall named : early AdmissionResult TaskID, exits failure named -> returning (exits failure)
    (match named with
     | Err r => pure (Err r)
     | Ok name => if negb (is_empty name) then pure (Ok name)
        else bind (call (NewID IDTask)) (fun allocated =>
          pure (denied service (Admission_CodecID input) 500 "id_allocation_failed" "task identity could not be allocated"
                  (let? value := allocated in check validGeneratedID value then Ok value)))
     end)) as Hend.
  { intros [name|r] Hn; [|exact Hn]. destruct (negb _); [apply exits_Ok|]. cbn. intros b. apply fails_denied. }
  destruct (_ && _)%bool; [|exact (Hend (Ok _) (exits_Ok _ _))]. intros found. refine (Hend _ _).
  destruct found as [t|e]; [apply exits_Ok|]. destruct (errors_Is e _); [apply exits_Ok | apply fails_internal].
Qed.

(** A commit that found no request under the key. *)
Definition inserted key (w : world serviceE) : Prop :=
  exists s s', (s, s') ∈ commits_of (acts w) /\ requests s !! key = None /\ is_Some (requests s' !! key).

Definition admission_outcome key digest (w : world serviceE) (r : res AdmissionResult) (w' : world serviceE) : Prop :=
  works service w w' /\ forall result, r = Ok result ->
    Result_RequestDigest result = digest /\ stored_as key digest (db w') (Result_Identity result) /\
    (Result_Replay result = false -> inserted key w').

Lemma inserted_later key w w' : works service w w' -> inserted key w -> inserted key w'.
Proof.
  intros [_ (new & E & _)] (s & s' & Hin & H). exists s, s'. rewrite E. split; [|done]. apply elem_of_app. by right.
Qed.

Lemma outcome_works key digest w w1 r w' : works service w w1 -> admission_outcome key digest w1 r w' -> admission_outcome key digest w r w'.
Proof. intros H [H1 H2]. split; [by etransitivity | done]. Qed.

Abbreviation admits key digest p w := (wp_ p (admission_outcome key digest w) w).

Lemma admits_then {A} key digest (p : operation A) (f : A -> operation (res AdmissionResult)) w : quiet p ->
  (forall a w1, later_world service w w1 -> admits key digest (f a) w1) -> admits key digest (bind p f) w.
Proof.
  intros Hp H. apply wp_quiet_then; [done|]. intros a w1 H1. eapply wp_mono; [|by apply H]. intros r w2 H2.
  eapply outcome_works; [by apply later_works | done].
Qed.

Lemma admits_failure key digest r w : failure r -> admits key digest (pure r) w.
Proof. intros Hr. apply wp_ret. intros w' H. split; [by apply later_works|]. intros result E. by destruct (Hr result). Qed.

Lemma admits_take {A} key digest (m : early AdmissionResult A) (f : A -> operation (res AdmissionResult)) w : exits failure m ->
  (forall a, m = Ok a -> admits key digest (f a) w) -> admits key digest (early_try m f) w.
Proof. intros Hm H. unfold early_try. destruct m; [by apply H | apply admits_failure; by apply Hm]. Qed.

Lemma admits_allocate key digest kind (k : res string -> operation (res AdmissionResult)) w :
  (forall r w1, (forall id, r = Ok id -> validGeneratedID id = Ok tt) -> later_world service w w1 -> admits key digest (k r) w1) ->
  admits key digest (bind (allocateID kind) k) w.
Proof.
  intros H. apply wp_allocateID_then. intros r w1 Hr H1. eapply wp_mono; [|by apply H]. intros a w2 H2.
  eapply outcome_works; [by apply later_works | done].
Qed.

Lemma admits_sound {A} key digest (p : operation A) (f : A -> operation (res AdmissionResult)) w :
  wp_ p (fun a w1 => works service w w1 /\ admits key digest (f a) w1) w -> admits key digest (bind p f) w.
Proof.
  intros H. apply wp_then. eapply wp_mono; [|exact H]. cbn beta. intros a w1 [H1 H2]. eapply wp_mono; [|exact H2].
  intros r w2 H3. by eapply outcome_works.
Qed.

(** What a replay answers. *)
Definition replay_outcome key digest (w : world serviceE) (answer : option (res AdmissionResult)) (w' : world serviceE) : Prop :=
  later_world service w w' /\ (is_Some (requests (db w) !! key) -> is_Some answer) /\
  forall result, answer = Some (Ok result) ->
    Result_Replay result = true /\ Result_RequestDigest result = digest /\ stored_as key digest (db w') (Result_Identity result).

Lemma wp_replayAdmission ctx key digest w : service_ok (db w) ->
  wp_ (replayAdmission service ctx key digest) (replay_outcome key digest w) w.
Proof.
  intros Hw. unfold replayAdmission. apply wp_view_then. intros loaded w1 w2 H1 Hload H2.
  assert (later_world service w w2) as H12 by (by transitivity w1).
  assert (forall (r : option (res AdmissionResult)) w3, later_world service w w3 ->
    (is_Some (requests (db w) !! key) -> is_Some r) -> (forall result, r <> Some (Ok result)) ->
    wp_ (pure r) (replay_outcome key digest w) w3) as Hret.
  { intros r w3 H3 Hs Hno. apply wp_ret. intros w4 H4. split_and!; [by transitivity w3|done|]. intros result E. by destruct (Hno result). }
  destruct loaded as [head|e].
  2:{ apply Hret; [done| |by destruct (errors_Is e _)]. intros Hk. destruct (errors_Is e ErrStoreRecordNotFound) eqn:Ee; [|done].
      inversion Hload as [Hl|e' He]; subst; [|apply not_found_fault in He; congruence].
      destruct Hk as [rec Hrec]. destruct (request_stays _ (db w1) _ _ Hw (proj1 H1) Hrec) as (rec' & Hrec' & _).
      unfold ReadOp.LoadRequestHead in Hl. rewrite llm_active_live in Hl. cbn [obind unit_state live] in Hl.
      destruct (refuse_if _ _) as [[]|e'] eqn:Er; cbn [obind] in Hl; [by rewrite Hrec' in Hl|].
      injection Hl as ->. unfold refuse_if in Er. destruct (negb _); [|done]. by injection Er as <-. }
  destruct (_ <>? digest); [by apply Hret|]. destruct (negb _); [by apply Hret|].
  apply wp_quiet_then; [destruct (_ && _)%bool; unfold replayRecovery; go_quiet|]. intros recovered w3 H3.
  assert (later_world service w w3) as H13 by (by transitivity w2).
  destruct recovered as [u|e]; [|by apply Hret].
  apply wp_then. eapply wp_mono; [|apply wp_readResponse; by eapply later_ok]. cbn beta. intros page w4 [H4 Hpage].
  apply wp_ret. intros w5 H5. split_and!; [transitivity w3; [done | by transitivity w4] | done|].
  intros result E. injection E as E. apply obind_Ok in E as (pg & -> & [= <-]). cbn. split_and!; [done|done|].
  eapply stored_as_stays; [|apply H5|]; [eapply (later_ok service w3); [by eapply later_ok | done]|].
  specialize (Hpage pg eq_refl). cbn in Hpage. by destruct key.
Qed.

Lemma replayed_outcome key digest w w1 w' result : works service w w1 -> replay_outcome key digest w1 (Some (Ok result)) w' ->
  admission_outcome key digest w (Ok result) w'.
Proof.
  intros H (H1 & _ & H2). split; [etransitivity; [done | by apply later_works]|]. intros result' [= <-].
  destruct (H2 result eq_refl) as (E & ? & ?). split_and!; [done|done|]. by rewrite E.
Qed.

(** The replay behind a commit whose outcome is not known. *)
Lemma admits_reconcile ctx key digest w : service_ok (db w) -> admits key digest (reconcileAdmissionCommit service ctx key digest) w.
Proof.
  intros Hw. unfold reconcileAdmissionCommit, try_ at 1. apply wp_view_then. intros r w1 w2 H1 Hr H2.
  pose proof (later_ok _ _ _ Hw H1) as Hw1. pose proof (later_ok _ _ _ Hw1 H2) as Hw2.
  eapply wp_mono; [intros a w' H'; eapply outcome_works; [apply later_works; transitivity w1; [exact H1 | exact H2] | exact H']|].
  destruct r as [record|e]; [|by apply admits_failure]. apply viewed_Ok in Hr.
  destruct (_ <>? digest); [by apply admits_failure|]. unfold try_. apply admits_sound.
  assert (forall (r : res unit) w3, works service w2 w3 -> works service w2 w3 /\
    admits key digest (match r with
         | Ok _ => bind (replayAdmission service ctx key digest) (fun replay =>
             match replay with
             | None => pure (Err ErrWorkerDeliveryIndeterminate)
             | Some (Err e) => pure (Err e)
             | Some (Ok result) =>
                 bind (section_call (ClearDetached (Task_Key (Recovery_Task record)))) (fun _ => pure (Ok result))
             end)
         | Err e => Return (Err e)
         end) w3) as Hend.
  { intros r w3 H3. split; [done|]. destruct r as [u|e]; [|by apply admits_failure].
    apply wp_then. eapply wp_mono; [|apply wp_replayAdmission; by eapply works_ok]. cbn beta. intros [[result|e]|] w4 H4.
    - apply wp_quiet_then; [done|]. intros u' w5 H5. apply wp_ret. intros w6 H6. destruct H4 as (H4 & _ & H4').
      apply (replayed_outcome key digest w3 w3); [done|]. assert (later_world service w4 w6) as H46 by (by transitivity w5).
      split_and!; [by transitivity w4 | done|]. intros result' E. destruct (H4' _ E) as (? & ? & ?). split_and!; [done|done|].
      eapply stored_as_stays; [|apply H46|done]. eapply (later_ok service w3); [by eapply works_ok | done].
    - apply wp_ret. intros w5 H5. split; [|done]. apply later_works. transitivity w4; [apply H4 | done].
    - apply wp_ret. intros w5 H5. split; [|done]. apply later_works. transitivity w4; [apply H4 | done]. }
  destruct (negb _ && negb _)%bool eqn:Einc.
  2:{ apply wp_ret. intros w3 H3. exact (Hend (Ok tt) w3 (later_works service _ _ H3)). }
  apply andb_true_iff in Einc as [Einc%negb_true_iff _].
  pose proof (loadRecovery_read _ _ _ Hw1 Hr Einc) as Hread.
  apply wp_quiet_then; [go_quiet|]. intros recovered w3 H3.
  destruct recovered as [u|e].
  { apply wp_ret. intros w4 H4. refine (Hend (Ok tt) w4 _). apply later_works. by transitivity w3. }
  apply wp_then. eapply wp_mono; [|apply (sound_quarantineRecovery service ctx record e w3)].
  - cbn beta. intros q w4 H4. apply wp_ret. intros w5 H5. eapply Hend.
    etransitivity; [by apply later_works|]. etransitivity; [done | by apply later_works].
  - by eapply later_ok.
  - eapply was_read_later; [exact Hread|]. apply later_works. by transitivity w2.
Qed.

Lemma admits_finish ctx decoded identity plan delivery now committed w : service_ok (db w) ->
  Identity_CallerID (admit_completion identity) = RequestKey_Caller (admit_key identity) ->
  (committed = Ok tt -> stored_as (admit_key identity) (decoded_digest decoded) (db w) (admit_completion identity) /\
     inserted (admit_key identity) w) ->
  admits (admit_key identity) (decoded_digest decoded) (finishAdmission service ctx decoded identity plan delivery now committed) w.
Proof.
  intros Hw _ Hok. unfold finishAdmission. set (key := admit_key identity) in *. destruct committed as [[]|e].
  - destruct (Hok eq_refl) as [Hst Hins]. apply admits_then; [go_quiet|]. intros a w1 H1.
    apply admits_then; [unfold section_call; go_quiet|]. intros b w2 H2. unfold try_. apply wp_quiet_then; [go_quiet|].
    intros page w3 H3. destruct page as [page|e].
    2:{ apply wp_ret. intros w4 H4. split; [|done]. apply later_works. by transitivity w3. }
    assert (later_world service w w3) as H03 by (transitivity w1; [done|]; by transitivity w2).
    apply wp_ret. intros w4 H4.
    assert (later_world service w w4) as H04 by (by transitivity w3).
    split; [apply later_works; by transitivity w3|]. intros result [= <-]. cbn. split_and!; [done| |].
    + eapply stored_as_stays; [exact Hw | apply H04 | done].
    + intros _. eapply inserted_later; [|exact Hins]. by apply later_works.
  - destruct (errors_Is e _).
    + apply wp_then. eapply wp_mono; [|by apply admits_reconcile]. cbn beta. intros [result|e'] w1 H1.
      * apply wp_ret. intros w2 H2. destruct H1 as [H1 H1']. split; [etransitivity; [done | by apply later_works]|].
        intros result' E. destruct (H1' _ E) as (? & ? & Hi). split_and!; [done| |].
        -- eapply stored_as_stays; [by eapply works_ok | apply H2 | done].
        -- intros Hf. eapply inserted_later; [by apply later_works | by apply Hi].
      * apply wp_ret. intros w2 H2. split; [etransitivity; [apply H1 | by apply later_works] | done].
    + apply wp_then. eapply wp_mono; [|by apply wp_replayAdmission]. cbn beta. intros answer w1 H1. apply wp_ret. intros w2 H2.
      pose proof (later_ok _ _ _ Hw (proj1 H1)) as Hw1.
      assert (later_world service w w2) as H02 by (transitivity w1; [apply H1 | done]).
      split; [by apply later_works|]. destruct answer as [r|]; [|by destruct (_ || _)%bool].
      intros result E. destruct H1 as (_ & _ & H1). destruct (H1 result (f_equal Some E)) as (Er & ? & ?). split_and!; [done| |by rewrite Er].
      eapply stored_as_stays; [exact Hw1 | apply H2 | done].
Qed.

(** The request of a commit is there under its key. *)
Lemma admitTx_inserted plan decoded identity draft now s s' : ledger_ok s ->
  admitTx service plan (makeRecords decoded identity plan draft now) now (live s) = Ok (tt, s') ->
  Task_Key (records_task (makeRecords decoded identity plan draft now)) = admit_task identity ->
  requests s !! admit_key identity = None /\
  requests s' !! admit_key identity = Some (records_request (makeRecords decoded identity plan draft now)).
Proof.
  intros Hs H Hk. apply admitTx_inv in H as (stale & -> & Hn & _); [|done|done]. split; [done|]. unfold admitted. cbn [requests].
  apply lookup_insert_eq.
Qed.

(** The transaction of an admission, planned in a state before. *)
Lemma admits_update ctx input0 decoded taskID requestID responseID lease worker plan answer draft clock now delivery w w6 :
  let identity := identify (decoded_input decoded) taskID requestID responseID lease worker in
  decodeRequest service input0 = Ok decoded -> validGeneratedID requestID = Ok tt -> validGeneratedID responseID = Ok tt ->
  validGeneratedID lease = Ok tt -> service_ok (db w) -> planned_before ctx (admit_task identity) decoded plan (db w) ->
  draftResponse service ctx decoded identity answer = Ok draft -> checkedTime clock = Ok now ->
  draftAssignment service decoded identity plan = Ok delivery -> later_world service w w6 ->
  admits (admit_key identity) (decoded_digest decoded)
    (bind (update (admitTx service plan (makeRecords decoded identity plan draft now) now)) (fun committed =>
       finishAdmission service ctx decoded identity plan delivery now committed)) w6.
Proof.
  intros identity Hdec V1 V2 V3 Hw (s1 & Hs1 & He & Hplan & Hsame) Hdraft Hnow Hdel H6. pose proof (later_ok _ _ _ Hw H6) as Hw6.
  assert (Task_Key (records_task (makeRecords decoded identity plan draft now)) = admit_task identity) as Hkey.
  { cbn. destruct Hplan; cbn; try done; by apply (ledger_task_key s1 (ok_ledger s1 Hs1)). }
  assert (forall w7 s', later_world service w6 w7 ->
    admitTx service plan (makeRecords decoded identity plan draft now) now (live (db w7)) = Ok (tt, s') ->
    s' = db w7 \/ effect service (db w7) s') as Hstep.
  { intros w7 s' H7 Htx. apply (commits_effect service s1); [done| |].
    - etransitivity; [exact He|]. destruct H6, H7. by etransitivity.
    - apply (commits_admit service _ _ _ ctx).
      exact (admitting_intro service ctx s1 _ _ input0 decoded taskID requestID responseID lease worker plan answer draft clock now
               delivery Hdec V1 V2 V3 Hplan Hsame Hdraft Hnow Hdel Htx). }
  apply admits_sound. apply wp_update; [intros w7 [] s'; by apply Hstep|]. intros r w7 o w8 H7 Hr H8.
  pose proof (later_ok _ _ _ Hw6 H7) as Hw7.
  assert (works service w6 (after w7 o)) as Ho.
  { etransitivity; [by apply later_works|]. inversion Hr as [[] s' Htx|[] s' e Htx|e Htx|e]; subst; cbn [after]; try done;
      eapply works_commit; by apply Hstep. }
  pose proof (works_ok _ _ _ Hw6 Ho) as Ha.
  split; [etransitivity; [exact Ho | by apply later_works]|]. apply admits_finish; [by eapply later_ok | done|].
  intros ->. inversion Hr as [[] s' Htx| | |]; subst. cbn [after] in *.
  destruct (admitTx_inserted _ _ _ _ _ _ _ (ok_ledger _ Hw7) Htx Hkey) as [Hn Hs']. split.
  - eapply stored_as_stays; [exact Ha | apply H8|]. eexists. split; [exact Hs'|]. split; [done|]. by split_and!.
  - eapply inserted_later; [by apply later_works|]. exists (db w7), s'. split; [by left|]. by rewrite Hn, Hs'.
Qed.

Lemma admits_planned ctx input0 decoded taskID plan w : service_ok (db w) -> decodeRequest service input0 = Ok decoded ->
  planned_before ctx {| TaskKey_Caller := Admission_CallerID (decoded_input decoded); TaskKey_Task := taskID |} decoded plan (db w) ->
  admits {| RequestKey_Caller := Admission_CallerID (decoded_input decoded);
            RequestKey_IdempotencyKey := Admission_IdempotencyKey (decoded_input decoded) |} (decoded_digest decoded)
    (admitPlanned service ctx decoded taskID plan) w.
Proof.
  intros Hw Hdec Hplan. unfold admitPlanned.
  apply admits_then; [go_quiet|]. intros routed w1 H1. apply admits_take; [go_exits|]. intros worker _.
  apply admits_allocate. intros a1 w2 V1 H2. apply admits_take; [go_exits|]. intros requestID ->%internal_Ok.
  apply admits_allocate. intros a2 w3 V2 H3. apply admits_take; [go_exits|]. intros responseID ->%internal_Ok.
  apply admits_allocate. intros a3 w4 V3 H4. apply admits_take; [go_exits|]. intros lease ->%internal_Ok.
  apply admits_then; [done|]. intros answer w5 H5. apply admits_take; [apply fails_draft|]. intros draft Hdraft.
  apply admits_then; [done|]. intros clock w6 H6. apply admits_take; [go_exits|]. intros now Hnow%internal_Ok.
  apply admits_take; [apply fails_assignment|]. intros delivery Hdel.
  assert (later_world service w w6) as H16 by (do 5 (etransitivity; [eassumption|]); eassumption).
  exact (admits_update ctx input0 decoded taskID requestID responseID lease worker plan answer draft clock now delivery w w6
           Hdec (V1 _ eq_refl) (V2 _ eq_refl) (V3 _ eq_refl) Hw Hplan Hdraft Hnow Hdel H16).
Qed.

Lemma admission_stays key digest w r w1 w2 : service_ok (db w1) -> admission_outcome key digest w r w1 -> later_world service w1 w2 ->
  admission_outcome key digest w r w2.
Proof.
  intros Hs [H1 H1'] H2. split; [etransitivity; [done | by apply later_works]|]. intros result E.
  destruct (H1' _ E) as (? & ? & Hi). split_and!; [done| |].
  - eapply stored_as_stays; [done | apply H2 | done].
  - intros Hf. eapply inserted_later; [by apply later_works | by apply Hi].
Qed.

Lemma admits_operating key digest (body : operation (res AdmissionResult)) w : service_ok (db w) ->
  (forall w1, later_world service w w1 -> admits key digest body w1) -> admits key digest (operating body) w.
Proof.
  intros Hw H. unfold operating, operating_or. apply admits_then; [done|]. intros [u|e] w1 H1; [|by apply admits_failure].
  pose proof (later_ok _ _ _ Hw H1) as Hw1. apply wp_then. eapply wp_mono; [|by apply H]. cbn beta. intros r w2 H2.
  pose proof (works_ok _ _ _ Hw1 (proj1 H2)) as Hw2. apply wp_quiet_then; [done|]. intros u' w3 H3. apply wp_ret. intros w4 H4.
  eapply admission_stays; [exact Hw2 | done | by transitivity w3].
Qed.

Definition admission_key (input : AdmissionRequest) : StoreRequestKey :=
  {| RequestKey_Caller := Admission_CallerID input; RequestKey_IdempotencyKey := Admission_IdempotencyKey input |}.

Lemma admits_Admit ctx input0 decoded w : service_ok (db w) -> decodeRequest service input0 = Ok decoded ->
  admits (admission_key (decoded_input decoded)) (decoded_digest decoded) (Admit service ctx input0) w.
Proof.
  intros Hw Hdec. set (key := admission_key (decoded_input decoded)). set (digest := decoded_digest decoded). unfold Admit.
  apply admits_operating; [done|]. intros w1 H1. pose proof (later_ok _ _ _ Hw H1) as Hw1.
  apply admits_take; [go_exits|]. intros [] _. rewrite Hdec. cbn [early_try]. fold (admission_key (decoded_input decoded)). fold key digest.
  apply wp_then. eapply wp_mono; [|by apply wp_replayAdmission]. cbn beta. intros answer w2 (H2 & _ & H2').
  pose proof (later_ok _ _ _ Hw1 H2) as Hw2.
  destruct answer as [[result|e]|].
  - apply wp_ret. intros w3 H3. split; [apply later_works; by transitivity w2|]. intros result' [= <-].
    destruct (H2' result eq_refl) as (E & ? & ?). split_and!; [done| |by rewrite E].
    eapply stored_as_stays; [exact Hw2 | apply H3 | done].
  - apply wp_ret. intros w3 H3. split; [|done]. apply later_works. by transitivity w2.
  - eapply wp_mono; [intros r w' H'; eapply outcome_works; [apply later_works; exact H2 | exact H']|].
    apply admits_then; [done|]. intros verdict w3 H3. pose proof (later_ok _ _ _ Hw2 H3) as Hw3.
    apply admits_take; [apply fails_policy|]. intros [] _. apply wp_then.
    apply (wp_returning service (exits failure)); [apply fails_taskID|]. intros named w4 Hnamed H4.
    eapply wp_mono; [intros r w' H'; eapply outcome_works; [apply later_works; exact H4 | exact H']|].
    pose proof (later_ok _ _ _ Hw3 H4) as Hw4. apply admits_take; [done|]. intros taskID _.
    apply wp_then. eapply wp_mono; [|by apply wp_planTask]. cbn beta. intros planned w5 [H5 Hplan].
    eapply wp_mono; [intros r w' H'; eapply outcome_works; [apply later_works; exact H5 | exact H']|].
    apply admits_take; [go_exits|]. intros plan ->%refused_Ok.
    eapply admits_planned; [by eapply later_ok | exact Hdec | by apply Hplan].
Qed.

Lemma sound_Admit ctx input0 : sound_ (Admit service ctx input0).
Proof.
  intros w Hw. destruct (decodeRequest service input0) as [decoded|r] eqn:Hdec.
  - eapply wp_mono; [|by eapply admits_Admit]. by intros r w' [H _].
  - unfold Admit. apply sound_operating; [|done]. apply sound_take. intros [] _. rewrite Hdec. cbn [early_try]. by apply sound_quiet.
Qed.

(** A key that is taken is answered from what is stored: no commit. *)
Lemma wp_taken ctx input0 decoded w : service_ok (db w) -> decodeRequest service input0 = Ok decoded ->
  is_Some (requests (db w) !! admission_key (decoded_input decoded)) ->
  wp_ (Admit service ctx input0) (fun r w' => later_world service w w' /\
    forall result, r = Ok result -> Result_Replay result = true) w.
Proof.
  intros Hw Hdec [rec Hrec]. set (key := admission_key (decoded_input decoded)) in *.
  assert (forall (r : res AdmissionResult) w1, later_world service w w1 -> (forall result, r = Ok result -> Result_Replay result = true) ->
    wp_ (pure r) (fun r w' => later_world service w w' /\ forall result, r = Ok result -> Result_Replay result = true) w1) as Hret.
  { intros r w1 H1 Hr. apply wp_ret. intros w2 H2. split; [by transitivity w1 | done]. }
  unfold Admit, operating, operating_or. apply wp_quiet_then; [done|]. intros [u|e] w1 H1; [|by apply Hret].
  pose proof (later_ok _ _ _ Hw H1) as Hw1. apply wp_then.
  assert (forall (r : res AdmissionResult) w2, later_world service w1 w2 -> (forall result, r = Ok result -> Result_Replay result = true) ->
    wp_ (bind (section_call EndOperation) (fun _ => pure r))
      (fun r w' => later_world service w w' /\ forall result, r = Ok result -> Result_Replay result = true) w2) as Hend.
  { intros r w2 H2 Hr. apply wp_quiet_then; [done|]. intros u' w3 H3. apply Hret; [|done]. transitivity w1; [done|]. by transitivity w2. }
  destruct (or_return _) as [[]|r] eqn:Er; cbn [early_try].
  2:{ apply wp_ret. intros w2 H2. apply Hend; [done|]. intros result E. by destruct (fails_or_return _ r Er result). }
  rewrite Hdec. cbn [early_try]. fold (admission_key (decoded_input decoded)). fold key. apply wp_then.
  eapply wp_mono; [|by apply wp_replayAdmission]. cbn beta. intros answer w2 (H2 & Hsome & Hans).
  destruct (request_stays _ (db w1) _ _ Hw (proj1 H1) Hrec) as (rec1 & Hrec1 & _).
  destruct answer as [r|]; [|by destruct Hsome].
  apply wp_ret. intros w3 H3. apply Hend; [by transitivity w2|]. intros result ->. by destruct (Hans result eq_refl).
Qed.

(* ------------------------------------------------------------------ *)
(** ** All of them *)

(** What runs in a service: the calls of its users, of its workers and of its
    transports, the recovery of its start, the goroutines it starts. *)
Inductive operation_of : forall {A}, operation A -> Prop :=
  | op_Admit ctx input : operation_of (Admit service ctx input)
  | op_ReadResponse ctx query : operation_of (ReadResponse service ctx query)
  | op_WaitResponse ctx query : operation_of (WaitResponse service ctx query)
  | op_DetachCaller ctx identity : operation_of (DetachCaller ctx identity)
  | op_OpenWorker ctx principal : operation_of (OpenWorker ctx principal)
  | op_ackAssignment ctx connection object id : operation_of (ackAssignment ctx connection object id)
  | op_commitWorkerEvent ctx connection delivery : operation_of (commitWorkerEvent service ctx connection delivery)
  | op_ConnectionShutdown ctx id : operation_of (ConnectionShutdown ctx id)
  | op_dispatch id : operation_of (dispatch id)
  | op_RunExpiry ctx policy : operation_of (RunExpiry service ctx policy)
  | op_RunRetention ctx policy : operation_of (RunRetention ctx policy)
  | op_Status ctx : operation_of (ServiceStatus_ ctx)
  | op_recover ctx : operation_of (recover service ctx)
  | op_Shutdown ctx : operation_of (Shutdown ctx)
  | op_finishShutdown l : operation_of (finishShutdown l).

Lemma sound_operation {A} (p : operation A) : operation_of p -> sound_ p.
Proof.
  destruct 1; eauto using sound_Admit, sound_ackAssignment, sound_commitWorkerEvent, sound_RunExpiry, sound_RunRetention, sound_recover.
  all: apply sound_quiet; eauto using quiet_ReadResponse, quiet_WaitResponse, quiet_DetachCaller, quiet_OpenWorker,
    quiet_ConnectionShutdown, quiet_dispatch, quiet_ServiceStatus, quiet_Shutdown, quiet_finishShutdown.
Qed.
End AdmitOnce.
