(* ===== verification/LlmOutcomes.v ===== *)
(** * A small HumanLLM service

    One codec, one worker, no protector and no router, with answers for its
    ports, for the runs that [LlmOutcomes] computes. *)

From S2P Require Import Prelude GoText GoEncoding GoTime GoJson GoStrings GoDoc GoStruct AgentTypes Framework Protect LlmTypes.
From S2P Require Import LlmJson LlmMemory LlmLedger LlmScan LlmRuntime LlmProg LlmEvents LlmService LlmCommit LlmRecovery LlmAdmission LlmMaintenance.
From S2P Require Import LlmEffects LlmMachine LlmSpec LlmAtomic LlmRefinement LlmExactlyOnce LlmOperations LlmAdmitOnce.

Import Llm.
Local Open Scope string_scope.

Definition echo_description : CodecDescription :=
  {| Codec_Contract := {| Contract_ID := CodecContractID; Contract_Major := 1; Contract_Minor := 0; Contract_Features := ∅ |};
     Codec_ID := "chat"; Codec_Version := "1"; Codec_Fingerprint := "sha256:" ++ hex_encode (Sha256.Sum256 "chat");
     Codec_Limits := {| MaxRequestBytes := 1000; MaxStreamFrameBytes := 1000; MaxStreamFramesPerStep := 8;
                        MaxAggregateBytes := 1000; MaxAdmissionErrorBytes := 1000 |};
     Codec_OverloadedStatus := 503 |}.

Definition echo_request (text : string) : Request :=
  {| Request_Model := "m"; Request_Stream := true; Request_System := "";
     Request_Messages :=
       [{| Message_Role := RoleUser; Message_Blocks :=
           [{| Block_Type := BlockText; Block_Text := text; Block_ImageURL := ""; Block_ToolCallID := "";
               Block_ToolNamespace := ""; Block_ToolName := ""; Block_Input := None; Block_TextInput := None;
               Block_Output := VNull; Block_IsError := false |}] |}];
     Request_Tools := []; Request_ToolCallPolicy := ToolCallsUnset; Request_HostedCapabilities := [];
     Request_OpaqueInput := []; Request_Metadata := None |}.

(** A codec that streams the text of each event. *)
Definition echo_codec : Codec :=
  {| Codec_Description := echo_description; Codec_Decode := fun body => Ok (echo_request body); Encoder_ := unit;
     Codec_NewStream := fun _ => Ok tt; Codec_NewAggregate := fun _ => Ok tt;
     Encoder_Start := fun _ => Ok (["start"], tt);
     Encoder_Encode := fun event _ _ => Ok ([Event_Text event], EndsResponse event, tt);
     Codec_AdmissionError := fun failure => Ok (Failure_Message failure) |}.

Definition echo_snapshot : CodecSnapshot :=
  match NewCodecSnapshot echo_description with Ok snapshot => snapshot | Err _ => sample_snapshot end.

Definition echo_protection : Description :=
  {| Description_Contract := {| Contract_ID := ""; Contract_Major := 0; Contract_Minor := 0; Contract_Features := ∅ |};
     Description_Provider := ""; Description_Format := ""; Description_MaxPlaintextBytes := 0; Description_MaxEnvelopeBytes := 0 |}.

Definition echo_service : Service :=
  {| service_deploymentID := "deployment"; service_protector := None;
     service_protectorDescription := echo_protection; service_protectionReadPolicy := ProtectionAllowPlain;
     service_codecs := {[ "chat" := {| registered_codec := echo_codec; registered_description := echo_description;
                                       registered_snapshot := echo_snapshot; registered_streamType := "text/event-stream";
                                       registered_aggregateType := "application/json"; registered_success := 200 |} ]};
     service_hasRouter := false; service_toolAuthorizer := None;
     service_workerPayloadLimitBytes := 1048576; service_readLimitBytes := 1048576 |}.

(** A runtime on which [worker] is connected. *)
Definition connected (worker : WorkerID) : runtime :=
  snd (registerConnection {| Worker_WorkerID := worker; Worker_SessionID := "session" |} newRuntime).

Definition id_of (kind : IDKind) : string :=
  match kind with IDTask => "task-1" | IDRequest => "request-1" | IDResponse => "response-1" | IDLease => "lease-1" end.

(** The ports answer the same every time, the sections from a runtime. *)
Definition echo_answer (r : runtime) {B} (e : serviceE B) : B :=
  match e in serviceE B return B with
  | Section_ c => fst (run_section c r)
  | Now => 1000000000%Z
  | NewID kind => Ok (id_of kind)
  | NewSessionSeed _ _ => Ok {| Seed_CreatedAtUnix := 1; Seed_Entropy := None; Seed_Opaque := None; Seed_ToolCallPolicy := ToolCallsUnset |}
  | NewEventSeed _ _ => Ok {| EventSeed_EncodedAtUnix := 1; EventSeed_Entropy := None; EventSeed_Opaque := None |}
  | AdmitRequest _ => Ok {| Decision_Allowed := true; Decision_Failure := recoveryFailure; Decision_Retry := 0 |}
  | RouteWorker _ => Ok "alice"
  | AwaitSignal _ => None
  | SendDelivery _ _ => false
  | AwaitWake _ => false
  | AwaitDrain => tt
  | AwaitDone _ => tt
  | AwaitFinished => None
  | AwaitConnection _ => None
  | ReleaseProtector => None
  | ReleaseStore => None
  end.

Lemma echo_answers r B (e : serviceE B) : service_answers e (echo_answer r e).
Proof. destruct e; cbn; try done. by eexists. Qed.

Definition echo_admission (text : string) : AdmissionRequest :=
  {| Admission_CallerID := "caller"; Admission_IdempotencyKey := "key"; Admission_CodecID := "chat"; Admission_Body := text;
     Admission_Task := {| TaskContext_TaskID := ""; TaskContext_WorkspaceKey := ""; TaskContext_CapabilityTier := TierChat;
                          TaskContext_HarnessID := ""; TaskContext_HarnessVersion := ""; TaskContext_HarnessSessionID := "";
                          TaskContext_ExecAllowed := false |} |}.

(** The assignment of that request, and a runtime that sent it. *)
Definition echo_identity : admissionIdentity :=
  identify (echo_admission "hello") "task-1" "request-1" "response-1" "lease-1" "alice".
Definition echo_assignment : WorkerAssignmentDelivery :=
  {| AssignmentDelivery_ID := stableAssignmentDeliveryID "request-1" "lease-1";
     AssignmentDelivery_Assignment :=
       {| Assignment_Identity := admit_completion echo_identity; Assignment_Lease := admit_lease echo_identity;
          Assignment_Boundary := AssignmentAfterResponse;
          Assignment_Task := normalizeTaskContext (Admission_Task (echo_admission "hello"));
          Assignment_Request := echo_request "hello" |} |}.
Definition assigned : runtime :=
  let r := connected "alice" in
  let r := snd (run_section (AddAssignment (admit_key echo_identity) echo_assignment true 1000000000) r) in
  snd (run_section (MarkSent 0 (AssignmentDelivery_ID echo_assignment)) r).

Definition alice : serviceWorkerConnection :=
  {| conn_principal := {| Worker_WorkerID := "alice"; Worker_SessionID := "session" |}; conn_object := Some 0%nat |}.

(** The final answer of the human. *)
Definition echo_event (text : string) : WorkerEventDelivery :=
  {| EventDelivery_ID := "delivery-1"; EventDelivery_Identity := admit_completion echo_identity;
     EventDelivery_LeaseID := "lease-1";
     EventDelivery_Event := {| Event_ID := "event-1"; Event_Type := EventFinal; Event_WorkerID := ""; Event_Text := text;
                               Event_ToolCalls := []; Event_ErrorCode := ""; Event_Error := "" |} |}.

Definition empty_world : world serviceE := {| db := newMemoryLLMState; acts := [] |}.
Definition echo_run {A} (r : runtime) (p : operation A) (w : world serviceE) : option (A * world serviceE) :=
  exec (@echo_answer r) 100 p w.
Definition world_after {A} (r : runtime) (p : operation A) (w : world serviceE) : world serviceE :=
  match echo_run r p w with Some (_, w) => w | None => w end.

(** The three steps of a completion. *)
Definition admitted_world : world serviceE :=
  world_after (connected "alice") (Admit echo_service (Context None) (echo_admission "hello")) empty_world.
Definition acked_world : world serviceE :=
  world_after assigned (ackAssignment (Context None) alice 0 (AssignmentDelivery_ID echo_assignment)) admitted_world.
Definition answered_world : world serviceE :=
  world_after assigned (commitWorkerEvent echo_service (Context None) alice (echo_event "42")) acked_world.

(** Every computed run is a run. *)
Lemma echo_runs {A} rely `{PreOrder _ rely} r (p : operation A) w a : (fst <$> echo_run r p w) = Some a ->
  runs rely (@service_answers) p w a (world_after r p w).
Proof.
  unfold world_after, echo_run. intros E. destruct (exec _ _ p w) as [[a' w']|] eqn:Ex; [|done]. injection E as ->.
  eapply (exec_runs rely (@service_answers) (@echo_answer r) 100); [|exact Ex]. intros B e. apply echo_answers.
Qed.

Definition ran {A} (r : runtime) (p : operation A) (w : world serviceE) : bool :=
  match echo_run r p w with Some _ => true | None => false end.
Lemma ran_runs {A} rely `{PreOrder _ rely} r (p : operation A) w : ran r p w = true ->
  exists a, runs rely (@service_answers) p w a (world_after r p w).
Proof.
  unfold ran. intros E. destruct (echo_run r p w) as [[a w']|] eqn:Ex; [|done]. exists a. apply (echo_runs rely). by rewrite Ex.
Qed.

(* ------------------------------------------------------------------ *)
(** ** What the operations of the HumanLLM service guarantee

    The refinement of its machine, the invariant of the states it leads to,
    and the exactly-once contracts of worker events and admissions, each for
    every run: with other callers between its steps, with any answers of the
    ports, with a Store that fails or does not know what it committed. *)

Local Open Scope list_scope.

(** A run of an operation among others. *)
Abbreviation runs_in service p w a w' := (runs (effects service) (@service_answers) p w a w').

(** What the run committed, the latest first. *)
Definition committed_by (w w' : world serviceE) (new : list (memoryLLMState * memoryLLMState)) : Prop :=
  commits_of (acts w') = new ++ commits_of (acts w).

Lemma committed_unique w w' new1 new2 : committed_by w w' new1 -> committed_by w w' new2 -> new1 = new2.
Proof. unfold committed_by. intros E1 E2. rewrite E1 in E2. by apply app_inv_tail in E2. Qed.

(** Where a run of an operation leads, and what it commits. *)
Lemma run_works service {A} (p : operation A) w a w' : reachable service (db w) -> operation_of service p ->
  runs_in service p w a w' -> works service w w'.
Proof.
  intros Hw Hp Hr. pose proof (reachable_ok service _ Hw) as Hs.
  by apply (wp_sound (effects service) (@service_answers)) with (Q := fun _ w' => works service w w') in Hr as [H _];
    [|apply (sound_operation service p Hp)].
Qed.
Lemma run_reachable service {A} (p : operation A) w a w' : reachable service (db w) -> operation_of service p ->
  runs_in service p w a w' -> reachable service (db w').
Proof. intros Hw Hp Hr. destruct (run_works _ _ _ _ _ Hw Hp Hr) as [He _]. unfold reachable in *. by etransitivity. Qed.

(** C7: any run of any operation of the service, from any state its
    operations lead to and among any other calls, leads to such a state again,
    and everything it commits is one step of the abstract machine or changes
    nothing. *)
Theorem llm_operations_refine service {A} (p : operation A) w a w' :
  reachable service (db w) -> operation_of service p -> runs_in service p w a w' ->
  reachable service (db w') /\
  exists new, committed_by w w' new /\
    Forall (fun c => reachable service (fst c) /\ (snd c = fst c \/ service_step (fst c) (snd c))) new.
Proof.
  intros Hw Hp Hr. pose proof (reachable_ok service _ Hw) as Hs. split; [by eapply run_reachable|].
  destruct (run_works _ _ _ _ _ Hw Hp Hr) as [_ (new & E & Hnew)]. exists new. split; [exact E|].
  eapply Forall_impl; [exact Hnew|]. intros [s s'] [H1 H2]. cbn in *.
  assert (reachable service s) as Hreach by (unfold reachable in *; by etransitivity).
  split; [done|]. destruct H2 as [?|H2]; [by left|]. apply (effect_step service); [by apply (reachable_ok service) | done].
Qed.

(** C8: every state the operations of a service lead to satisfies its
    invariant: the ledger is well formed, histories are numbered from one
    without a gap up to the cursor of their request, an event of a worker has
    its receipt and a receipt its event, a completion is in progress exactly
    while its Task is with a worker or its human, and a Task awaits results
    exactly while a tool call of it is pending. *)
Theorem llm_service_invariant service s : reachable service s -> service_ok s.
Proof. apply reachable_ok. Qed.

(** C9: a worker event is committed exactly once.  Whatever happens during one
    [commitWorkerEvent], it commits at most once, and then the event with its
    receipt; it acknowledges only an event whose receipt is durable, and
    rejects only when it committed nothing; and once there is a receipt of the
    event it commits nothing: the same event of the same worker is
    acknowledged again, any other is a conflict. *)
Theorem llm_worker_event_exactly_once service ctx connection delivery0 delivery digest w r w' :
  reachable service (db w) -> identifyDelivery connection delivery0 = Ok (delivery, digest) ->
  runs_in service (commitWorkerEvent service ctx connection delivery0) w r w' ->
  exists new, committed_by w w' new /\
    (new = [] \/ exists s s', new = [(s, s')] /\ event_committed connection delivery digest s s') /\
    (forall receipt, r = Ok receipt ->
       match EventReceipt_Decision receipt with
       | WorkerEventACK => recorded connection delivery digest (db w')
       | _ => new = []
       end) /\
    (forall x, event_receipt delivery (db w) = Some x ->
       new = [] /\ forall receipt, r = Ok receipt -> receipt = replay_answer connection delivery digest x).
Proof.
  intros Hw Hid Hr. pose proof (reachable_ok service _ Hw) as Hs.
  pose proof (wp_sound _ _ _ _ _ _ Hr _ (outcome_commitWorkerEvent service ctx connection delivery digest delivery0 w Hs Hid))
    as [[_ (new & E & Hn & Hans)] _].
  exists new. split_and!; [exact E | exact Hn | exact Hans|]. intros x Hx.
  pose proof (wp_sound _ _ _ _ _ _ Hr _ (replayed_commitWorkerEvent service ctx connection delivery digest delivery0 x w Hs Hid Hx))
    as [[[_ E'] Hx'] _].
  split; [|exact Hx']. by apply (committed_unique w w').
Qed.

(** C10: a request is admitted exactly once.  Whatever happens during one
    [Admit], an answer stands for the durable request of its key with the
    digest of its body and the identity it names; a fresh answer comes from a
    commit of this very call, which found no request under the key; and once
    the key is taken nothing is committed, and every answer is a replay. *)
Theorem llm_admission_exactly_once service ctx input0 decoded s r w' :
  reachable service s -> decodeRequest service input0 = Ok decoded ->
  runs_in service (Admit service ctx input0) {| db := s; acts := [] |} r w' ->
  let key := admission_key (decoded_input decoded) in
  (forall result, r = Ok result ->
     Result_RequestDigest result = decoded_digest decoded /\
     stored_as key (decoded_digest decoded) (db w') (Result_Identity result) /\
     (Result_Replay result = false -> inserted key w')) /\
  (is_Some (requests s !! key) -> commits_of (acts w') = [] /\ forall result, r = Ok result -> Result_Replay result = true).
Proof.
  intros Hw Hdec Hr key. pose proof (reachable_ok service _ Hw) as Hs. split.
  - by pose proof (wp_sound _ _ _ _ _ _ Hr _ (admits_Admit service ctx input0 decoded {| db := s; acts := [] |} Hs Hdec)) as [[_ H] _].
  - intros Hk.
    by pose proof (wp_sound _ _ _ _ _ _ Hr _ (wp_taken service ctx input0 decoded {| db := s; acts := [] |} Hs Hdec Hk)) as [[[_ E] H] _].
Qed.

(* ------------------------------------------------------------------ *)
(** ** A completion, computed *)

#[local] Instance echo_preorder : PreOrder (effects echo_service) := effects_preorder echo_service.

Lemma empty_reachable : reachable echo_service (db empty_world).
Proof. apply rtc_refl. Qed.

Lemma llm_operations_refine_witness :
  reachable echo_service (db admitted_world) /\ requests (db admitted_world) !! admit_key echo_identity <> None.
Proof.
  destruct (ran_runs (effects echo_service) (connected "alice") (Admit echo_service (Context None) (echo_admission "hello"))
    empty_world ltac:(vm_compute; reflexivity)) as [a H].
  split; [|vm_compute; discriminate].
  exact (proj1 (llm_operations_refine echo_service _ _ _ _ empty_reachable (op_Admit _ _ _) H)).
Defined.

(** The states of that completion. *)
Definition admit_hello : operation (res AdmissionResult) := Admit echo_service (Context None) (echo_admission "hello").
Definition ack_hello : operation (res unit) := ackAssignment (Context None) alice 0 (AssignmentDelivery_ID echo_assignment).
Definition answer_hello : operation (res WorkerEventReceipt) := commitWorkerEvent echo_service (Context None) alice (echo_event "42").

Definition fresh_hello : AdmissionResult :=
  match fst <$> echo_run (connected "alice") admit_hello empty_world with
  | Some (Ok result) => result
  | _ => {| Result_Identity := admit_completion echo_identity; Result_RequestDigest := ""; Result_Replay := true;
            Result_Response := {| Page_Identity := admit_completion echo_identity; Page_RequestDigest := ""; Page_Mode := ResponseStream;
              Page_DecisionCommitted := false; Page_Decision := {| ResponseDecision_StatusCode := 0; ResponseDecision_ContentType := "";
                ResponseDecision_RetryAfter := ""; ResponseDecision_Body := None |};
              Page_Complete := false; Page_Events := []; Page_Cursor := 0 |} |}
  end.

Lemma admit_runs : runs_in echo_service admit_hello empty_world (Ok fresh_hello) admitted_world.
Proof. apply (echo_runs (effects echo_service)). vm_compute. reflexivity. Qed.
Lemma ack_runs : runs_in echo_service ack_hello admitted_world (Ok tt) acked_world.
Proof. apply (echo_runs (effects echo_service)). vm_compute. reflexivity. Qed.
Lemma answer_runs : runs_in echo_service answer_hello acked_world (Ok (ackReceipt (echo_event "42"))) answered_world.
Proof. apply (echo_runs (effects echo_service)). vm_compute. reflexivity. Qed.

Lemma admitted_reachable : reachable echo_service (db admitted_world).
Proof. exact (run_reachable _ _ _ _ _ empty_reachable (op_Admit _ _ _) admit_runs). Qed.
Lemma acked_reachable : reachable echo_service (db acked_world).
Proof. exact (run_reachable _ _ _ _ _ admitted_reachable (op_ackAssignment _ _ _ _ _) ack_runs). Qed.
Lemma answered_reachable : reachable echo_service (db answered_world).
Proof. exact (run_reachable _ _ _ _ _ acked_reachable (op_commitWorkerEvent _ _ _ _) answer_runs). Qed.

Lemma llm_service_invariant_witness :
  service_ok (db answered_world) /\
  (Req_ResponseComplete <$> requests (db answered_world) !! admit_key echo_identity) = Some true.
Proof. split; [exact (llm_service_invariant echo_service _ answered_reachable) | vm_compute; reflexivity]. Defined.

Definition hello_digest : StoreDigest := match workerEventDigest (echo_event "42") with Ok digest => digest | Err _ => "" end.

Lemma hello_identified : identifyDelivery alice (echo_event "42") = Ok (echo_event "42", hello_digest).
Proof. vm_compute. reflexivity. Qed.

Lemma llm_worker_event_exactly_once_witness : recorded alice (echo_event "42") hello_digest (db answered_world).
Proof.
  destruct (llm_worker_event_exactly_once echo_service (Context None) alice _ _ _ _ _ _ acked_reachable hello_identified answer_runs)
    as (new & _ & _ & H & _).
  exact (H _ eq_refl).
Defined.

Definition hello_decoded : decodedRequest :=
  match decodeRequest echo_service (echo_admission "hello") with
  | Ok decoded => decoded
  | Err _ => {| decoded_input := echo_admission ""; decoded_registration := {| registered_codec := echo_codec;
      registered_description := echo_description; registered_snapshot := echo_snapshot; registered_streamType := "";
      registered_aggregateType := ""; registered_success := 0 |}; decoded_request := echo_request ""; decoded_digest := "";
      decoded_canonical := "" |}
  end.
Lemma hello_decodes : decodeRequest echo_service (echo_admission "hello") = Ok hello_decoded.
Proof. vm_compute. reflexivity. Qed.

Lemma llm_admission_exactly_once_witness : inserted (admit_key echo_identity) admitted_world.
Proof.
  destruct (llm_admission_exactly_once echo_service (Context None) _ _ newMemoryLLMState _ _ empty_reachable hello_decodes admit_runs)
    as [H _].
  exact (proj2 (proj2 (H _ eq_refl)) ltac:(vm_compute; reflexivity)).
Defined.
