(* ===== verification/LlmProperties.v ===== *)
(** * Properties of the HumanLLM ledger

    What every state of the in-memory Store satisfies, whatever transactions
    its handles ran, and what its finders and its canonical JSON guarantee. *)

From S2P Require Import Prelude GoText GoEncoding GoTime GoJson GoStrings GoDoc GoStruct.
From S2P Require Import AgentTypes Framework Protect LlmTypes LlmJson LlmMemory LlmLedger LlmScan LlmRuntime LlmProg LlmEvents.
From S2P Require Import LlmService LlmCommit LlmRecovery LlmAdmission LlmMaintenance LlmEffects.

Import Llm.
Local Open Scope string_scope.

(* ------------------------------------------------------------------ *)
(** ** The life of an image *)

(** A callback of [Update] that changes the state through the mutations of its
    transaction only. *)
Definition lawful {A} (callback : memoryLLMUnit -> res (A * memoryLLMState)) : Prop :=
  forall s a s', callback (live s) = Ok (a, s') -> transacts s s'.

Inductive image_step : MemoryLLMStoreImage -> MemoryLLMStoreImage -> Prop :=
  | image_Open image : image_step image (snd (Open image))
  | image_close image handle : image_step image (close image handle)
  | image_Abandon image handle image' : Abandon image handle = Ok image' -> image_step image image'
  | image_Bind ctx binding image handle image' : Bind ctx binding image handle = Ok image' -> image_step image image'
  | image_Update {A} ctx (callback : memoryLLMUnit -> res (A * memoryLLMState)) image handle :
      lawful callback -> image_step image (snd (Update ctx callback image handle)).

Definition image_steps : MemoryLLMStoreImage -> MemoryLLMStoreImage -> Prop := rtc image_step.

Lemma Update_state {A} ctx (callback : memoryLLMUnit -> res (A * memoryLLMState)) image handle : lawful callback ->
  transacts (image_state image) (image_state (snd (Update ctx callback image handle))) /\
  image_binding (snd (Update ctx callback image handle)) = image_binding image.
Proof.
  intros Hc. unfold Update. destruct (context_ready ctx) as [[]|]; cbn; [|by split].
  destruct (refuse_if _ _) as [[]|]; cbn; [|by split].
  destruct (callback _) as [[a next]|e] eqn:E; cbn; [|by split]. split; [by eapply Hc | done].
Qed.

Lemma image_step_state image image' : image_step image image' ->
  transacts (image_state image) (image_state image') /\
  forall binding, image_binding image = Some binding -> image_binding image' = Some binding.
Proof.
  destruct 1 as [image|image handle|image handle image' H|ctx binding image handle image' H|A ctx callback image handle H].
  - by split.
  - by split.
  - unfold Abandon in H. ok_inv. by split.
  - unfold Bind in H. ok_inv. destruct (image_binding image) as [bound|] eqn:E; ok_inv; rewrite ?E; by split.
  - destruct (Update_state ctx callback image handle H) as [H1 H2]. split; [done|]. intros b Hb. by rewrite H2.
Qed.

Lemma image_steps_state image image' : image_steps image image' ->
  transacts (image_state image) (image_state image') /\
  forall binding, image_binding image = Some binding -> image_binding image' = Some binding.
Proof.
  induction 1 as [|i1 i2 i3 H _ [IH1 IH2]]; [by split|]. apply image_step_state in H as [H1 H2].
  split; [by etransitivity | auto].
Qed.

(** C36: whatever handles were opened, closed, abandoned or bound and
    whatever transactions they ran, the state of an image is well formed:
    every record is under its key and points at records that are there, a Task
    has at most one request in progress, an affinity at most one open Task
    with tools, request and response identifiers are unique per caller, one
    event of one worker is behind every response event of its identifier, and
    a tombstone has no payload; and every revision is a positive uint64 that
    never wrapped. *)
Theorem llm_ledger_well_formed image :
  image_steps NewMemoryLLMStoreImage image -> ledger_ok (image_state image) /\ revisions_ok (image_state image).
Proof.
  intros H. apply image_steps_state in H as [H _].
  split; [eapply ledger_transacts; [done | apply ledger_empty] | eapply advances_transacts; [done | apply revisions_empty]].
Qed.

(** C37: nothing committed is lost over the life of an image: its binding never
    changes, Tasks and requests keep their identity, a tombstone stays one and
    until then the canonical payload and every response event stay, receipts
    stay for good, and so do the identities of tool calls. *)
Theorem llm_ledger_kept image image' :
  image_steps image image' ->
  extends (image_state image) (image_state image') /\
  forall binding, image_binding image = Some binding -> image_binding image' = Some binding.
Proof. intros H. apply image_steps_state in H as [H Hb]. split; [by apply extends_transacts | done]. Qed.

(* ------------------------------------------------------------------ *)
(** ** The finders *)

Lemma find_active_request s task head : ledger_ok s -> memoryLLMValidTaskKey task = true ->
  ReadOp.FindActiveRequest (live s) task = Ok head <->
  exists k r, requests s !! k = Some r /\ Req_Task r = task /\ Req_ResponseComplete r = false /\
    head = memoryLLMRequestHead r.
Proof.
  intros Hs Hv. unfold ReadOp.FindActiveRequest. rewrite llm_active_live, Hv. cbn [negb refuse_if obind unit_state live].
  rewrite (find_unique _ _ memoryLLMRequestHead).
  - split; intros (k & r & Hr & Hf & H); exists k, r.
    + bool_split. decided. done.
    + destruct H as (Hc & ->). subst task. by rewrite bool_decide_eq_true_2, Hc.
  - intros k1 k2 r1 r2 H1 H2 F1 F2. bool_split. decided. eapply (ledger_one_active s Hs); try done. congruence.
Qed.

Definition affinity_complete (affinity : StoreTaskAffinity) : Prop :=
  Affinity_Caller affinity <> "" /\ Affinity_WorkspaceKey affinity <> "" /\ Affinity_HarnessID affinity <> "" /\
  Affinity_HarnessVersion affinity <> "" /\ Affinity_HarnessSessionID affinity <> "".

Lemma not_empty_false s : s <> "" -> is_empty s = false.
Proof. destruct s; [done | done]. Qed.

Lemma find_open_task s affinity task : ledger_ok s -> affinity_complete affinity ->
  ReadOp.FindOpenTask (live s) affinity = Ok task <->
  tasks s !! Task_Key task = Some task /\ tool_open task /\ memoryLLMAffinity task = affinity.
Proof.
  intros Hs (H1 & H2 & H3 & H4 & H5). unfold ReadOp.FindOpenTask. rewrite llm_active_live. cbn [obind].
  rewrite refuse_if_false by (by rewrite !not_empty_false). cbn [obind unit_state live].
  rewrite (find_unique _ _ (fun t => t)).
  - split.
    + intros (k & t & Ht & Hf & ->). bool_split. decided. split_and!; [by rewrite (ledger_task_key s Hs _ _ Ht) | by split | done].
    + intros (Ht & [Ho Htier] & Ha). exists (Task_Key task), task. split_and!; [done| |done].
      by rewrite Ho, Htier, bool_decide_eq_true_2.
  - intros k1 k2 t1 t2 F1 F2 G1 G2. bool_split. decided. eapply (ledger_one_open s Hs k1 k2 t1 t2); [done | done | by split | by split | congruence].
Qed.

(** In a well-formed state the two finders return exactly the one open
    Task with tools of an affinity and the one request in progress of a Task,
    whatever order the maps are visited in, and refuse nothing else. *)
Theorem llm_finders_exact s : ledger_ok s ->
  (forall affinity task, affinity_complete affinity ->
     ReadOp.FindOpenTask (live s) affinity = Ok task <->
     tasks s !! Task_Key task = Some task /\ tool_open task /\ memoryLLMAffinity task = affinity) /\
  (forall task head, memoryLLMValidTaskKey task = true ->
     ReadOp.FindActiveRequest (live s) task = Ok head <->
     exists k r, requests s !! k = Some r /\ Req_Task r = task /\ Req_ResponseComplete r = false /\
       head = memoryLLMRequestHead r).
Proof. intros Hs. split; [intros *; by apply find_open_task | intros *; by apply find_active_request]. Qed.

(* ------------------------------------------------------------------ *)
(** ** Loops over pages *)

(** C38: The loops over the pages of a scan end in a well-formed state, whatever
    the byte limit of a read: the events of a response and the executions of a
    Task are read in full, in order, unless one record alone is over the limit
    (and then the error says so); and the loop that drops tool results, which
    writes between its reads, ends too. *)
Theorem llm_page_loops_end s : ledger_ok s -> revisions_ok s ->
  (forall request limit, memoryLLMValidRequestKey request = true ->
     event_loop s request limit (loadResponseEvents (live s) request limit) /\
     match loadResponseEvents (live s) request limit with
     | Ok l => l = response_events s request
     | Err e => e = memoryLLMLimit StoreRecordResponseEvent limit /\
         ((limit < 1)%Z \/ exists x, x ∈ response_events s request /\ (limit < event_size x)%Z)
     end) /\
  (forall task state limit, memoryLLMValidTaskKey task = true -> known_state state ->
     tool_loop s task state limit (loadToolExecutions (live s) task state limit) /\
     match loadToolExecutions (live s) task state limit with
     | Ok l => l = tool_executions s task state
     | Err e => e = memoryLLMLimit StoreRecordToolExecution limit /\
         ((limit < 1)%Z \/ exists x, x ∈ tool_executions s task state /\ (limit < tool_size x)%Z)
     end) /\
  (forall task (at_ : time), memoryLLMValidTaskKey task = true ->
     pruneTools (S (size (tools s))) task at_ "" 0 s <> Err out_of_fuel).
Proof.
  intros Hs Hr. split_and!.
  - intros request limit Hv. by apply event_loop_ends.
  - intros task state limit Hv Hk. by apply tool_loop_ends.
  - intros task at_ Hv. by apply pruneTools_ends.
Qed.

(* ------------------------------------------------------------------ *)
(** ** Canonical JSON *)

(** A value that is its own canonical form: its encoding decodes to it. *)
Definition stands {A} (c : codec A) (a : A) : Prop :=
  normalizeCanonicalJSON c a = Ok a /\ exists s, Marshal c a = Ok s /\ decodeCanonicalJSON c s = Ok a.

Lemma normalize_stands {A} (c : codec A) a s : Marshal c a = Ok s ->
  exists a', normalizeCanonicalJSON c a = Ok a' /\ stands c a'.
Proof.
  intros H. apply normalize_total in H. destruct (normalizeCanonicalJSON c a) as [a'|] eqn:E; [|done].
  exists a'. split; [done|]. apply normalize_canonical in E. split; [by apply normalize_fixed | by apply marshal_canonical].
Qed.


(* ------------------------------------------------------------------ *)
(** ** A small ledger *)

Definition sample_key : StoreRequestKey := {| RequestKey_Caller := "caller"; RequestKey_IdempotencyKey := "key" |}.
Definition sample_request : StoreRequestRecord :=
  {| Req_Key := sample_key; Req_Task := Task_Key plain_task; Req_RequestID := "req"; Req_ResponseID := "resp";
     Req_RequestDigest := "digest"; Req_Codec := sample_snapshot; Req_Mode := ResponseStream;
     Req_CanonicalPayload := Some "payload";
     Req_Decision := {| Decision_StatusCode := 200; Decision_ContentType := "text/event-stream";
                        Decision_RetryAfter := ""; Decision_Body := None |};
     Req_ResponseComplete := false; Req_RecoveryQuarantined := false; Req_LastEventSequence := 0; Req_Revision := 1;
     Req_CreatedAt := 1; Req_CompletedAt := None; Req_PayloadPrunedAt := None |}.

(** One transaction: a Task and its request. *)
Definition sample_callback (u : memoryLLMUnit) : res (unit * memoryLLMState) :=
  let? s := WriteOp.InsertTask u plain_task in
  let? s := WriteOp.InsertRequest (live s) sample_request in
  Ok (tt, s).

Lemma sample_lawful : lawful sample_callback.
Proof.
  intros s a s' H. unfold sample_callback in H. apply obind_Ok in H as (s1 & H1 & H). apply obind_Ok in H as (s2 & H2 & [= <- <-]).
  eapply rtc_l; [eapply step_InsertTask; [|done]; split; vm_compute; congruence|].
  eapply rtc_l; [eapply step_InsertRequest; [|done]; split; vm_compute; congruence|]. done.
Qed.

Definition sample_image : MemoryLLMStoreImage :=
  let '(handle, image) := Open NewMemoryLLMStoreImage in snd (Update (Context None) sample_callback image handle).

Lemma sample_steps : image_steps NewMemoryLLMStoreImage sample_image.
Proof.
  eapply rtc_l; [apply image_Open|]. eapply rtc_l; [apply (image_Update (Context None) sample_callback), sample_lawful|]. apply rtc_refl.
Qed.

Lemma llm_ledger_well_formed_witness :
  is_Some (requests (image_state sample_image) !! sample_key) /\ ledger_ok (image_state sample_image).
Proof. split; [vm_compute; by eexists | exact (proj1 (llm_ledger_well_formed sample_image sample_steps))]. Defined.

Lemma llm_ledger_kept_witness : extends newMemoryLLMState (image_state sample_image).
Proof. exact (proj1 (llm_ledger_kept NewMemoryLLMStoreImage sample_image sample_steps)). Defined.

Lemma sample_ledger : ledger_ok (image_state sample_image).
Proof. eapply ledger_transacts; [apply image_steps_state, sample_steps | apply ledger_empty]. Qed.
Lemma sample_revisions : revisions_ok (image_state sample_image).
Proof. eapply advances_transacts; [apply image_steps_state, sample_steps | apply revisions_empty]. Qed.

Lemma llm_page_loops_end_witness :
  loadResponseEvents (live (image_state sample_image)) sample_key 1000 = Ok [] /\
  pruneTools 1 (Task_Key plain_task) 7 "" 0 (image_state sample_image) <> Err out_of_fuel.
Proof.
  destruct (llm_page_loops_end (image_state sample_image) sample_ledger sample_revisions) as (H1 & _ & H3). split.
  - destruct (H1 sample_key 1000%Z eq_refl) as [_ H]. vm_compute in H |- *. exact (f_equal Ok H).
  - exact (H3 (Task_Key plain_task) 7%Z eq_refl).
Defined.

Lemma llm_finders_exact_witness :
  ReadOp.FindActiveRequest (live (image_state sample_image)) (Task_Key plain_task) = Ok (memoryLLMRequestHead sample_request).
Proof.
  apply (proj2 (llm_finders_exact (image_state sample_image) sample_ledger) (Task_Key plain_task)); [reflexivity|].
  exists sample_key, sample_request. split_and!; [vm_compute; reflexivity | reflexivity | reflexivity | reflexivity].
Defined.

Definition sample_text : string := match Marshal Request_json plain_request with Ok s => s | Err _ => "" end.

