(* ===== verification/CompletionTypes.v ===== *)
(** * The vocabulary of completions (internal/completion/event.go, identity.go,
    state.go, canonical/model.go, adapter/*.go)

    Canonical requests, worker events and assignments, routing identities, the
    states of a completion, harness profiles and their registry, with their
    validation.  A string type of the code is [string] and its constants are
    definitions; a nil slice and an empty one are one list.  An error is its
    identity under [errors.Is]; texts without a sentinel are [ErrText]. *)

From S2P Require Import Prelude GoText GoEncoding GoTime GoJson GoStrings GoDoc GoStruct.
From S2P Require Import AgentCodec LlmJson.

Local Open Scope string_scope.

Module Completion.

(** The errors of internal/completion/hub/hub.go, texts, [ctx.Err()] and
    whatever the consumer of an event commits. *)
Inductive error :=
  | ErrNoWorker | ErrCapacity | ErrReservationUsed | ErrSessionExists | ErrSessionMissing
  | ErrEventConflict | ErrWorkerOwnership | ErrWorkerConnected | ErrEventRejected
  | ErrContextDone | ErrConsumer (text : string) | ErrText (text : string).

#[export] Instance error_eq_dec : EqDecision error.
Proof. solve_decision. Defined.

Abbreviation res A := (outcome error A).
Abbreviation bytes := (option string).

(* ------------------------------------------------------------------ *)
(** ** Canonical requests (canonical/model.go) *)

Definition DialectOpenAIChat := "openai_chat".
Definition DialectAnthropic := "anthropic_messages".
Definition DialectResponses := "openai_responses".
Definition RoleSystem := "system".
Definition RoleUser := "user".
Definition RoleAssistant := "assistant".
Definition RoleTool := "tool".
Definition BlockText := "text".
Definition BlockImage := "image".
Definition BlockToolUse := "tool_use".
Definition BlockToolResult := "tool_result".
Definition ToolInputJSON := "".
Definition ToolInputText := "text".
Definition ToolCallsDisabled := "disabled".
Definition ToolCallsSerial := "serial".
Definition ToolCallsParallel := "parallel".

Record Block := {
  Block_Type : string; Block_Text : string; Block_ImageURL : string; Block_ToolCallID : string;
  Block_ToolNamespace : string; Block_ToolName : string;
  Block_Input : option (list (string * value)); Block_TextInput : option string;
  Block_Output : value; Block_IsError : bool }.
Record Message := { Message_Role : string; Message_Blocks : list Block }.
Record Tool := {
  Tool_Namespace : string; Tool_Name : string; Tool_Description : string; Tool_InputKind : string;
  Tool_InputSchema : bytes; Tool_InputFormat : bytes }.
Record HostedCapability := { Capability_Type : string; Capability_Configuration : bytes }.
Record OpaqueInput := { Opaque_Type : string; Opaque_SHA256 : string }.
Record Request := {
  Request_Dialect : string; Request_Model : string; Request_Stream : bool; Request_System : string;
  Request_Messages : list Message; Request_Tools : list Tool; Request_ToolCallPolicy : string;
  Request_HostedCapabilities : list HostedCapability; Request_OpaqueInput : list OpaqueInput;
  Request_Metadata : option (list (string * string)) }.

(** [len(raw)] and [json.Valid(raw)] of a slice that may be nil. *)
Definition blen (b : bytes) : Z := len (default "" b).
Definition raw_Valid (b : bytes) : bool := json_Valid (default "" b).

Definition one_of (s : string) (l : list string) : bool := existsb (String.eqb s) l.

Definition is_nil {A} (l : list A) : bool := match l with [] => true | _ => false end.

(** A loop that returns at the first bad element. *)
Fixpoint each {A} (f : A -> res unit) (l : list A) : res unit :=
  match l with
  | [] => Ok tt
  | x :: l => check f x then each f l
  end.

Definition QualifiedToolName (namespace name : string) : string :=
  if is_empty namespace then name else namespace ++ "::" ++ name.

Definition ValidateToolIdentity (namespace name : string) : res unit :=
  check refuse_if (is_empty (TrimSpace name)) (ErrText "tool name is required") then
  check refuse_if (name <>? TrimSpace name) (ErrText "tool name has surrounding whitespace") then
  check refuse_if (namespace <>? TrimSpace namespace) (ErrText "tool namespace has surrounding whitespace") then
  refuse_if (Contains namespace "::" || Contains name "::") (ErrText "tool namespace and name cannot contain ::").

Definition Tool_QualifiedName (tool : Tool) : string := QualifiedToolName (Tool_Namespace tool) (Tool_Name tool).
Definition Block_QualifiedToolName (block : Block) : string :=
  QualifiedToolName (Block_ToolNamespace block) (Block_ToolName block).

Definition Block_Validate (block : Block) : res unit :=
  let type := Block_Type block in
  if String.eqb type BlockText then refuse_if (is_empty (Block_Text block)) (ErrText "text block is empty")
  else if String.eqb type BlockImage then
    refuse_if (is_empty (TrimSpace (Block_ImageURL block))) (ErrText "image URL is required")
  else if String.eqb type BlockToolUse then
    check refuse_if (is_empty (Block_ToolCallID block)) (ErrText "tool use requires id and name") then
    check ValidateToolIdentity (Block_ToolNamespace block) (Block_ToolName block) then
    refuse_if (negb (is_none (Block_Input block)) && negb (is_none (Block_TextInput block)))
      (ErrText "tool use cannot have both JSON and text input")
  else if String.eqb type BlockToolResult then
    refuse_if (is_empty (Block_ToolCallID block)) (ErrText "tool result requires tool call id")
  else Err (ErrText "unsupported block type").

(** The loops of [Request.Validate]. *)
Definition tool_check (tool : Tool) : res unit :=
  let kind := Tool_InputKind tool in
  if String.eqb kind ToolInputJSON then
    check refuse_if (negb (raw_Valid (Tool_InputSchema tool))) (ErrText "tool has invalid input schema") then
    refuse_if (negb (blen (Tool_InputFormat tool) =? 0)%Z) (ErrText "JSON-input tool has a text input format")
  else if String.eqb kind ToolInputText then
    check refuse_if (negb (blen (Tool_InputSchema tool) =? 0)%Z) (ErrText "text-input tool has an input schema") then
    refuse_if (negb (blen (Tool_InputFormat tool) =? 0)%Z && negb (raw_Valid (Tool_InputFormat tool)))
      (ErrText "text-input tool has invalid input format")
  else Err (ErrText "tool has unsupported input kind").

Fixpoint tools_check (toolNames : list (string * string)) (tools : list Tool) : res unit :=
  match tools with
  | [] => Ok tt
  | tool :: tools =>
      let identity := (Tool_Namespace tool, Tool_Name tool) in
      check ValidateToolIdentity (Tool_Namespace tool) (Tool_Name tool) then
      check refuse_if (bool_decide (identity ∈ toolNames)) (ErrText "duplicate tool") then
      check tool_check tool then
      tools_check (identity :: toolNames) tools
  end.

Definition trimmed_type (s : string) : bool := negb (is_empty (TrimSpace s)) && (s =?= TrimSpace s).

Definition capability_check (capability : HostedCapability) : res unit :=
  check refuse_if (negb (trimmed_type (Capability_Type capability))) (ErrText "hosted capability has no type") then
  refuse_if (negb (raw_Valid (Capability_Configuration capability)))
    (ErrText "hosted capability has invalid configuration").

Definition opaque_check (item : OpaqueInput) : res unit :=
  check refuse_if (negb (trimmed_type (Opaque_Type item))) (ErrText "opaque input has no type") then
  refuse_if (match hex_decode (Opaque_SHA256 item) with Some decoded => negb (len decoded =? 32)%Z | None => true end)
    (ErrText "opaque input has invalid SHA-256 fingerprint").

Definition message_check (message : Message) : res unit :=
  check refuse_if (negb (one_of (Message_Role message) [RoleSystem; RoleUser; RoleAssistant; RoleTool]))
    (ErrText "message has invalid role") then
  check refuse_if (is_nil (Message_Blocks message)) (ErrText "message has no content blocks") then
  each Block_Validate (Message_Blocks message).

Definition Request_Validate (request : Request) : res unit :=
  check refuse_if (negb (one_of (Request_Dialect request) [DialectOpenAIChat; DialectAnthropic; DialectResponses]))
    (ErrText "unsupported dialect") then
  check refuse_if (is_empty (TrimSpace (Request_Model request))) (ErrText "model is required") then
  check refuse_if (is_nil (Request_Messages request)) (ErrText "at least one message is required") then
  check refuse_if (negb (one_of (Request_ToolCallPolicy request)
                           [""; ToolCallsDisabled; ToolCallsSerial; ToolCallsParallel]))
    (ErrText "unsupported tool-call policy") then
  check tools_check [] (Request_Tools request) then
  check each capability_check (Request_HostedCapabilities request) then
  check each opaque_check (Request_OpaqueInput request) then
  each message_check (Request_Messages request).

(** The JSON of a request, under its tags. *)
Definition Block_json : codec Block :=
  record_of ("type" =: f_string & "text" =: o_string & "image_url" =: o_string & "tool_call_id" =: o_string
             & "tool_namespace" =: o_string & "tool_name" =: o_string & "input" =: o_map & "text_input" =: o_text
             & "output" =: o_any & "is_error" =: f_bool true & ∙)%members
    (fun x => (Block_Type x, (Block_Text x, (Block_ImageURL x, (Block_ToolCallID x, (Block_ToolNamespace x,
               (Block_ToolName x, (Block_Input x, (Block_TextInput x, (Block_Output x, (Block_IsError x, tt)))))))))))
    (fun '(a, (b, (c, (d, (e, (f, (g, (h, (i, (j, tt)))))))))) =>
       {| Block_Type := a; Block_Text := b; Block_ImageURL := c; Block_ToolCallID := d; Block_ToolNamespace := e;
          Block_ToolName := f; Block_Input := g; Block_TextInput := h; Block_Output := i; Block_IsError := j |}).

Definition Message_json : codec Message :=
  record_of ("role" =: f_string & "blocks" =: f_list false Block_json & ∙)%members
    (fun x => (Message_Role x, (Message_Blocks x, tt)))
    (fun '(a, (b, tt)) => {| Message_Role := a; Message_Blocks := b |}).

Definition Tool_json : codec Tool :=
  record_of ("namespace" =: o_string & "name" =: f_string & "description" =: o_string
             & "input_kind" =: o_string & "input_schema" =: f_raw true & "input_format" =: f_raw true & ∙)%members
    (fun x => (Tool_Namespace x, (Tool_Name x, (Tool_Description x, (Tool_InputKind x, (Tool_InputSchema x,
               (Tool_InputFormat x, tt)))))))
    (fun '(a, (b, (c, (d, (e, (f, tt)))))) =>
       {| Tool_Namespace := a; Tool_Name := b; Tool_Description := c; Tool_InputKind := d; Tool_InputSchema := e;
          Tool_InputFormat := f |}).

Definition HostedCapability_json : codec HostedCapability :=
  record_of ("type" =: f_string & "configuration" =: f_raw false & ∙)%members
    (fun x => (Capability_Type x, (Capability_Configuration x, tt)))
    (fun '(a, (b, tt)) => {| Capability_Type := a; Capability_Configuration := b |}).

Definition OpaqueInput_json : codec OpaqueInput :=
  record_of ("type" =: f_string & "sha256" =: f_string & ∙)%members
    (fun x => (Opaque_Type x, (Opaque_SHA256 x, tt)))
    (fun '(a, (b, tt)) => {| Opaque_Type := a; Opaque_SHA256 := b |}).

Definition Request_json : codec Request :=
  record_of ("dialect" =: f_string & "model" =: f_string & "stream" =: f_bool false & "system" =: o_string
             & "messages" =: f_list false Message_json & "tools" =: f_list true Tool_json
             & "tool_call_policy" =: o_string & "hosted_capabilities" =: f_list true HostedCapability_json
             & "opaque_input" =: f_list true OpaqueInput_json & "metadata" =: o_strings & ∙)%members
    (fun x => (Request_Dialect x, (Request_Model x, (Request_Stream x, (Request_System x, (Request_Messages x,
               (Request_Tools x, (Request_ToolCallPolicy x, (Request_HostedCapabilities x, (Request_OpaqueInput x,
               (Request_Metadata x, tt)))))))))))
    (fun '(a, (b, (c, (d, (e, (f, (g, (h, (i, (j, tt)))))))))) =>
       {| Request_Dialect := a; Request_Model := b; Request_Stream := c; Request_System := d; Request_Messages := e;
          Request_Tools := f; Request_ToolCallPolicy := g; Request_HostedCapabilities := h; Request_OpaqueInput := i;
          Request_Metadata := j |}).

Definition Request_Digest (request : Request) : res string :=
  check Request_Validate request then
  match Marshal_ Request_json request with
  | None => Err (ErrText "marshal canonical request")
  | Some payload => Ok (byteDigest payload)
  end.

(* ------------------------------------------------------------------ *)
(** ** Worker events and assignments (event.go) *)

Definition EventAccepted := "accepted".
Definition EventProgress := "progress".
Definition EventFinal := "final".
Definition EventClarification := "clarification".
Definition EventToolCalls := "tool_calls".
Definition EventRejected := "rejected".
Definition EventExpired := "expired".
Definition EventFailed := "failed".
Definition EventUnavailable := "unavailable".

Record ToolCall := {
  ToolCall_ID : string; ToolCall_Namespace : string; ToolCall_Name : string;
  ToolCall_Input : option (list (string * value)); ToolCall_TextInput : option string }.
Record Event := {
  Event_ID : string; Event_Type : string; Event_WorkerID : string; Event_Text : string;
  Event_ToolCalls : list ToolCall; Event_ErrorCode : string; Event_Error : string }.

Definition ToolCall_QualifiedName (call : ToolCall) : string :=
  QualifiedToolName (ToolCall_Namespace call) (ToolCall_Name call).

Definition EndsResponse (event : Event) : bool :=
  one_of (Event_Type event)
    [EventFinal; EventClarification; EventToolCalls; EventRejected; EventExpired; EventFailed; EventUnavailable].

Definition with_WorkerID (event : Event) (worker : string) : Event :=
  {| Event_ID := Event_ID event; Event_Type := Event_Type event; Event_WorkerID := worker;
     Event_Text := Event_Text event; Event_ToolCalls := Event_ToolCalls event;
     Event_ErrorCode := Event_ErrorCode event; Event_Error := Event_Error event |}.

Definition ToolCall_json : codec ToolCall :=
  record_of ("id" =: f_string & "namespace" =: o_string & "name" =: f_string & "input" =: o_map
             & "text_input" =: o_text & ∙)%members
    (fun x => (ToolCall_ID x, (ToolCall_Namespace x, (ToolCall_Name x, (ToolCall_Input x, (ToolCall_TextInput x, tt))))))
    (fun '(a, (b, (c, (d, (e, tt))))) => {| ToolCall_ID := a; ToolCall_Namespace := b; ToolCall_Name := c;
                                          ToolCall_Input := d; ToolCall_TextInput := e |}).

Definition Event_json : codec Event :=
  record_of ("id" =: o_string & "type" =: f_string & "worker_id" =: o_string & "text" =: o_string
             & "tool_calls" =: f_list true ToolCall_json & "error_code" =: o_string & "error" =: o_string & ∙)%members
    (fun x => (Event_ID x, (Event_Type x, (Event_WorkerID x, (Event_Text x, (Event_ToolCalls x,
               (Event_ErrorCode x, (Event_Error x, tt))))))))
    (fun '(a, (b, (c, (d, (e, (f, (g, tt))))))) =>
       {| Event_ID := a; Event_Type := b; Event_WorkerID := c; Event_Text := d; Event_ToolCalls := e;
          Event_ErrorCode := f; Event_Error := g |}).

(* ------------------------------------------------------------------ *)
(** ** Harness profiles (adapter/profile.go) *)

Definition EditExact := "exact".
Definition EditFuzzy := "fuzzy".
Definition EditLine := "line".
Definition PathWorkspaceVirtual := "workspace_virtual".
Definition PathAbsolute := "absolute".
Definition ResultHumanShimV1 := "human_shim_v1".
Definition ResultOpenCode11718 := "opencode_1_17_18".
Definition ToolAuthorizationStandard := "standard".
Definition ToolAuthorizationPrivileged := "privileged".
Definition HumanShimID := "human-shim".
Definition HumanShimVersion := "1".
Definition OpenCodeID := "opencode".
Definition OpenCodeVersion := "1.17.18".

Record MappedTool := { Mapped_Name : string; Mapped_Args : gmap string string }.
Record EditTool := {
  Edit_Tool : MappedTool; Edit_Semantics : string; Edit_OldField : string; Edit_NewField : string }.
Record ExecTool := {
  Exec_Tool : MappedTool; Exec_CWDField : string; Exec_TimeoutField : string; Exec_Approval : string }.
Record Profile := {
  Profile_HarnessID : string; Profile_HarnessVersion : string; Profile_PathStyle : string;
  Profile_ResultCodec : string; Profile_Read : option MappedTool; Profile_Search : option MappedTool;
  Profile_Write : option MappedTool; Profile_Edit : option EditTool; Profile_Delete : option MappedTool;
  Profile_Rename : option MappedTool; Profile_Exec : option ExecTool;
  Profile_NativeTools : gmap string string; Profile_ParallelCalls : bool; Profile_ErrorShape : string }.

Definition profile_key (harnessID harnessVersion : string) : string := harnessID ++ "@" ++ harnessVersion.
Definition Profile_Key (profile : Profile) : string :=
  profile_key (Profile_HarnessID profile) (Profile_HarnessVersion profile).

(** [[]*Tool{Read, Search, Write, Delete, Rename}], without the nils. *)
Definition mapped_tools (profile : Profile) : list MappedTool :=
  omap id [Profile_Read profile; Profile_Search profile; Profile_Write profile; Profile_Delete profile;
           Profile_Rename profile].
Definition edit_name (tool : EditTool) : string := Mapped_Name (Edit_Tool tool).
Definition exec_name (tool : ExecTool) : string := Mapped_Name (Exec_Tool tool).

(** [validateTool]; the names seen with the one it adds. *)
Definition validateTool (name : string) (seen : gset string) : res (gset string) :=
  check refuse_if (is_empty (TrimSpace name)) (ErrText "tool name is required") then
  check refuse_if (bool_decide (name ∈ seen)) (ErrText "tool name is declared more than once") then
  Ok ({[name]} ∪ seen).

Fixpoint validate_names (names : list string) (seen : gset string) : res (gset string) :=
  match names with
  | [] => Ok seen
  | name :: names => let? seen := validateTool name seen in validate_names names seen
  end.

Definition validate_edit (edit : option EditTool) (seen : gset string) : res (gset string) :=
  match edit with
  | None => Ok seen
  | Some tool =>
      let? seen := validateTool (edit_name tool) seen in
      check refuse_if (negb (one_of (Edit_Semantics tool) [EditExact; EditFuzzy; EditLine]))
        (ErrText "unsupported edit semantics") then
      check refuse_if (is_empty (Edit_OldField tool) || is_empty (Edit_NewField tool))
        (ErrText "edit old and new fields are required") then
      Ok seen
  end.

Definition validate_exec (exec : option ExecTool) (seen : gset string) : res (gset string) :=
  match exec with None => Ok seen | Some tool => validateTool (exec_name tool) seen end.

(** The loop over [NativeTools], in any order: which of several errors comes
    first is the order's. *)
Fixpoint validate_native (native : list (string * string)) (seen : gset string) : res (gset string) :=
  match native with
  | [] => Ok seen
  | (name, authorization) :: native =>
      let? seen := validateTool name seen in
      check refuse_if (negb (one_of authorization [ToolAuthorizationStandard; ToolAuthorizationPrivileged]))
        (ErrText "native tool has unsupported authorization") then
      validate_native native seen
  end.

Definition declares_nothing (profile : Profile) : bool :=
  is_nil (mapped_tools profile) && is_none (Profile_Edit profile) && is_none (Profile_Exec profile)
  && bool_decide (Profile_NativeTools profile = ∅).

Definition reserved_codec (profile : Profile) : res unit :=
  if String.eqb (Profile_ResultCodec profile) ResultHumanShimV1 then
    refuse_if ((Profile_Key profile <>? profile_key HumanShimID HumanShimVersion)
               || (Profile_PathStyle profile <>? PathWorkspaceVirtual)) (ErrText "result codec is reserved")
  else if String.eqb (Profile_ResultCodec profile) ResultOpenCode11718 then
    refuse_if ((Profile_Key profile <>? profile_key OpenCodeID OpenCodeVersion)
               || (Profile_PathStyle profile <>? PathAbsolute)) (ErrText "result codec is reserved")
  else Ok tt.

Definition Profile_Validate (profile : Profile) : res unit :=
  check refuse_if (is_empty (TrimSpace (Profile_HarnessID profile)) || is_empty (TrimSpace (Profile_HarnessVersion profile)))
    (ErrText "harness id and version are required") then
  check refuse_if (is_empty (TrimSpace (Profile_ErrorShape profile))) (ErrText "error shape is required") then
  check refuse_if (negb (one_of (Profile_PathStyle profile) [""; PathWorkspaceVirtual; PathAbsolute]))
    (ErrText "unsupported path style") then
  check refuse_if (negb (one_of (Profile_ResultCodec profile) [""; ResultHumanShimV1; ResultOpenCode11718]))
    (ErrText "unsupported result codec") then
  check refuse_if (xorb (is_empty (Profile_PathStyle profile)) (is_empty (Profile_ResultCodec profile)))
    (ErrText "workspace path style and result codec must be declared together") then
  check reserved_codec profile then
  let? seen := validate_names (Mapped_Name <$> mapped_tools profile) ∅ in
  let? seen := validate_edit (Profile_Edit profile) seen in
  let? seen := validate_exec (Profile_Exec profile) seen in
  let? seen := validate_native (map_to_list (Profile_NativeTools profile)) seen in
  refuse_if (declares_nothing profile) (ErrText "profile declares no capabilities").

Definition named (name : string) (other : option string) : bool :=
  match other with Some s => String.eqb s name | None => false end.

Definition AllowsTool (profile : Profile) (name : string) : bool :=
  existsb (fun tool => String.eqb (Mapped_Name tool) name) (mapped_tools profile)
  || named name (edit_name <$> Profile_Edit profile) || named name (exec_name <$> Profile_Exec profile).

Definition IsExecTool (profile : Profile) (name : string) : bool := named name (exec_name <$> Profile_Exec profile).

Definition AuthorizeTool (profile : Profile) (name : string) : option string :=
  if IsExecTool profile name then Some ToolAuthorizationPrivileged
  else if AllowsTool profile name then Some ToolAuthorizationStandard
  else Profile_NativeTools profile !! name.

(** ** The registry *)

Abbreviation Registry := (gmap string Profile).

Definition Register (registry : Registry) (profile : Profile) : res Registry :=
  check Profile_Validate profile then
  check refuse_if (negb (is_none (registry !! Profile_Key profile))) (ErrText "adapter profile already registered") then
  Ok (<[Profile_Key profile := profile]> registry).

Definition Resolve (registry : Registry) (harnessID harnessVersion : string) : option Profile :=
  registry !! profile_key harnessID harnessVersion.

(** ** The profiles of the daemon (adapter/builtin.go, adapter/opencode.go) *)

Definition mapped (name : string) (args : list (string * string)) : MappedTool :=
  {| Mapped_Name := name; Mapped_Args := list_to_map args |}.

Definition HumanShimProfile : Profile := {|
  Profile_HarnessID := HumanShimID; Profile_HarnessVersion := HumanShimVersion;
  Profile_PathStyle := PathWorkspaceVirtual; Profile_ResultCodec := ResultHumanShimV1;
  Profile_Read := Some (mapped "human_read_file" [("path", "path")]);
  Profile_Search := Some (mapped "human_search" [("query", "query"); ("path", "path")]);
  Profile_Write := Some (mapped "human_write_file"
    [("path", "path"); ("content", "content"); ("encoding", "encoding"); ("expected_sha256", "expected_sha256")]);
  Profile_Edit := Some {|
    Edit_Tool := mapped "human_edit_file"
      [("path", "path"); ("old", "old_string"); ("new", "new_string"); ("expected_sha256", "expected_sha256")];
    Edit_Semantics := EditExact; Edit_OldField := "old_string"; Edit_NewField := "new_string" |};
  Profile_Delete := Some (mapped "human_delete_file" [("path", "path"); ("expected_sha256", "expected_sha256")]);
  Profile_Rename := Some (mapped "human_rename_file"
    [("from", "from"); ("to", "to"); ("expected_sha256", "expected_sha256")]);
  Profile_Exec := Some {|
    Exec_Tool := mapped "human_exec" [("command", "command"); ("cwd", "cwd"); ("timeout_ms", "timeout_ms")];
    Exec_CWDField := "cwd"; Exec_TimeoutField := "timeout_ms"; Exec_Approval := "caller" |};
  Profile_NativeTools := ∅; Profile_ParallelCalls := true;
  Profile_ErrorShape := "{content:string,is_error:boolean}" |}.

Definition OpenCode11718Profile : Profile := {|
  Profile_HarnessID := OpenCodeID; Profile_HarnessVersion := OpenCodeVersion;
  Profile_PathStyle := PathAbsolute; Profile_ResultCodec := ResultOpenCode11718;
  Profile_Read := Some (mapped "read" [("path", "filePath")]);
  Profile_Search := None;
  Profile_Write := Some (mapped "write" [("path", "filePath"); ("content", "content")]);
  Profile_Edit := Some {|
    Edit_Tool := mapped "edit" [("path", "filePath"); ("old", "oldString"); ("new", "newString")];
    Edit_Semantics := EditExact; Edit_OldField := "oldString"; Edit_NewField := "newString" |};
  Profile_Delete := None; Profile_Rename := None;
  Profile_Exec := Some {|
    Exec_Tool := mapped "bash" [("command", "command"); ("cwd", "workdir"); ("timeout_ms", "timeout")];
    Exec_CWDField := "workdir"; Exec_TimeoutField := "timeout"; Exec_Approval := "" |};
  Profile_NativeTools := list_to_map [
    ("glob", ToolAuthorizationStandard); ("grep", ToolAuthorizationStandard); ("list", ToolAuthorizationStandard);
    ("question", ToolAuthorizationStandard); ("todoread", ToolAuthorizationStandard);
    ("todowrite", ToolAuthorizationStandard); ("codesearch", ToolAuthorizationPrivileged);
    ("doom_loop", ToolAuthorizationPrivileged); ("external_directory", ToolAuthorizationPrivileged);
    ("lsp", ToolAuthorizationPrivileged); ("skill", ToolAuthorizationPrivileged);
    ("task", ToolAuthorizationPrivileged); ("webfetch", ToolAuthorizationPrivileged);
    ("websearch", ToolAuthorizationPrivileged)];
  Profile_ParallelCalls := true;
  Profile_ErrorShape := "OpenAI Chat tool message {tool_call_id:string,content:string}" |}.

(** [None] is the panic. *)
Definition NewDefaultRegistry : option Registry :=
  foldl (fun registry profile => r ← registry; match Register r profile with Ok r => Some r | Err _ => None end)
    (Some ∅) [HumanShimProfile; OpenCode11718Profile].

(* ------------------------------------------------------------------ *)
(** ** Routing identities (identity.go) *)

Definition TierChat := "chat".
Definition TierRemoteTools := "remote_tools".
Definition TierWorkspace := "workspace".

Record RoutingIdentity := {
  Routing_CallerID : string; Routing_WorkspaceKey : string; Routing_TaskID : string;
  Routing_IdempotencyKey : string; Routing_HarnessID : string; Routing_HarnessVersion : string;
  Routing_HarnessSessionID : string; Routing_Root : string; Routing_ExecAllowed : bool }.

Definition ParseCapabilityTier (value : string) : res string :=
  let tier := ToLower (TrimSpace value) in
  if one_of tier [""; TierChat] then Ok TierChat
  else if String.eqb tier TierRemoteTools then Ok TierRemoteTools
  else if String.eqb tier TierWorkspace then Ok TierWorkspace
  else Err (ErrText "unknown capability tier").

Definition validStableKey (value : string) : bool := match_stable value.
Definition IsStableKey (value : string) : bool := validStableKey value.

Definition stable_field (field : string * string) : res unit :=
  refuse_if (negb (validStableKey field.2)) (ErrText (field.1 ++ " is required and must be a stable key")).

Definition RoutingIdentity_Validate (id : RoutingIdentity) (tier : string) : res unit :=
  check refuse_if (negb (validStableKey (Routing_CallerID id)))
    (ErrText "caller_id is required and must be a stable key") then
  if String.eqb tier TierChat then Ok tt
  else
    check each stable_field
      [("workspace_key", Routing_WorkspaceKey id); ("task_id", Routing_TaskID id);
       ("idempotency_key", Routing_IdempotencyKey id); ("harness_id", Routing_HarnessID id);
       ("harness_version", Routing_HarnessVersion id)] then
    check refuse_if (negb (is_empty (Routing_HarnessSessionID id)) && negb (validStableKey (Routing_HarnessSessionID id)))
      (ErrText "harness_session_id must be a stable key when provided") then
    refuse_if (is_empty (TrimSpace (Routing_Root id))) (ErrText "workspace root is required").

Definition Namespace (id : RoutingIdentity) : string :=
  Routing_CallerID id ++ "/" ++ Routing_WorkspaceKey id ++ "/" ++ Routing_TaskID id.

Record Assignment := {
  Assignment_CallerID : string; Assignment_WorkspaceKey : string; Assignment_TaskID : string;
  Assignment_IdempotencyKey : string; Assignment_LeaseOwner : string; Assignment_CapabilityTier : string;
  Assignment_HarnessID : string; Assignment_HarnessVersion : string; Assignment_HarnessSessionID : string;
  Assignment_Root : string; Assignment_ExecAllowed : bool; Assignment_Adapter : option Profile;
  Assignment_Request : Request }.

(** The key of a live session: [callerID + "\x00" + idempotencyKey]. *)
Definition session_key (callerID idempotencyKey : string) : string := callerID ++ String nul idempotencyKey.
Definition SessionKey (assignment : Assignment) : string :=
  session_key (Assignment_CallerID assignment) (Assignment_IdempotencyKey assignment).

Definition with_LeaseOwner (a : Assignment) (owner : string) : Assignment :=
  {| Assignment_CallerID := Assignment_CallerID a; Assignment_WorkspaceKey := Assignment_WorkspaceKey a;
     Assignment_TaskID := Assignment_TaskID a; Assignment_IdempotencyKey := Assignment_IdempotencyKey a;
     Assignment_LeaseOwner := owner; Assignment_CapabilityTier := Assignment_CapabilityTier a;
     Assignment_HarnessID := Assignment_HarnessID a; Assignment_HarnessVersion := Assignment_HarnessVersion a;
     Assignment_HarnessSessionID := Assignment_HarnessSessionID a; Assignment_Root := Assignment_Root a;
     Assignment_ExecAllowed := Assignment_ExecAllowed a; Assignment_Adapter := Assignment_Adapter a;
     Assignment_Request := Assignment_Request a |}.

(* ------------------------------------------------------------------ *)
(** ** The states of a completion (state.go) *)

Definition StateAdmitted := "admitted".
Definition StateLeased := "leased".
Definition StateAwaitingHuman := "awaiting_human".
Definition StateResponded := "responded".
Definition StateAwaitingCaller := "awaiting_caller".
Definition StateToolsDispatched := "tools_dispatched".
Definition StateAwaitingResults := "awaiting_results".
Definition StateReconciled := "reconciled".
Definition StateCompleted := "completed".
Definition StateCanceled := "canceled".
Definition StateRejected := "rejected".
Definition StateExpired := "expired".
Definition StateFailed := "failed".

Definition terminalStates : list string :=
  [StateCompleted; StateCanceled; StateRejected; StateExpired; StateFailed].

Definition transitions : gmap string (list string) := list_to_map [
  (StateAdmitted, [StateLeased]);
  (StateLeased, [StateAwaitingHuman]);
  (StateAwaitingHuman, [StateResponded]);
  (StateResponded, [StateCompleted; StateAwaitingCaller; StateToolsDispatched]);
  (StateAwaitingCaller, [StateReconciled]);
  (StateToolsDispatched, [StateAwaitingResults]);
  (StateAwaitingResults, [StateReconciled]);
  (StateReconciled, [StateLeased])].

Definition IsTerminal (state : string) : bool := one_of state terminalStates.

Definition State_Valid (state : string) : bool := IsTerminal state || negb (is_none (transitions !! state)).

Definition CanTransition (from to : string) : bool :=
  if negb (State_Valid from) || negb (State_Valid to) || IsTerminal from then false
  else if (to <>? StateCompleted) && IsTerminal to then true
  else one_of to (default [] (transitions !! from)).

Definition ValidateTransition (from to : string) : res unit :=
  refuse_if (negb (CanTransition from to)) (ErrText "invalid completion task transition").


(* ------------------------------------------------------------------ *)
(** ** Keys made of several parts *)

Lemma separated_inj c a b x y : no_byte c a = true -> no_byte c b = true ->
  a ++ String c x = b ++ String c y -> a = b /\ x = y.
Proof.
  unfold no_byte. revert b. induction a as [|d a IH]; intros [|e b]; cbn.
  - intros _ _ [= ->]. done.
  - intros _ Hb [= <- _]. by rewrite Ascii.eqb_refl in Hb.
  - intros Ha _ [= -> _]. by rewrite Ascii.eqb_refl in Ha.
  - intros Ha Hb [= -> E]. bool_split. by destruct (IH b) as [-> ->].
Qed.

Lemma stable_no_byte c s : stable_first c = false -> stable_rest c = false -> match_stable s = true ->
  no_byte c s = true.
Proof.
  intros Hf Hr. destruct s as [|a s]; [done|]. cbn. intros H. bool_split. unfold no_byte. cbn.
  assert (forall x, stable_rest x = true \/ stable_first x = true -> Ascii.eqb x c = false) as Hne.
  { intros x Hx. apply Ascii.eqb_neq. intros ->. destruct Hx; congruence. }
  rewrite Hne by eauto. cbn.
  match goal with H : string_forallb _ s = true |- _ => revert H end. clear - Hne.
  induction s as [|x s IH]; [done|]. cbn. intros H. bool_split. rewrite Hne by eauto. by apply IH.
Qed.

(** The keys of live sessions do not mix callers. *)
Lemma session_key_inj c1 k1 c2 k2 : IsStableKey c1 = true -> IsStableKey c2 = true ->
  session_key c1 k1 = session_key c2 k2 -> c1 = c2 /\ k1 = k2.
Proof. intros H1 H2. apply separated_inj; by apply stable_no_byte. Qed.

Lemma each_Ok {A} (f : A -> res unit) l u : each f l = Ok u -> Forall (fun x => f x = Ok tt) l.
Proof.
  induction l as [|x l IH]; cbn; intros H; constructor; ok_inv; [by destruct v | by apply IH].
Qed.

(** What a validated identity of a tool-capable tier is made of. *)
Lemma RoutingIdentity_stable id tier u : RoutingIdentity_Validate id tier = Ok u -> tier <> TierChat ->
  Forall (fun s => match_stable s = true)
    [Routing_CallerID id; Routing_WorkspaceKey id; Routing_TaskID id; Routing_IdempotencyKey id].
Proof.
  unfold RoutingIdentity_Validate. intros H Ht. rewrite (proj2 (String.eqb_neq _ _) Ht) in H. ok_inv. bool_split.
  match goal with H : each _ _ = Ok _ |- _ => apply each_Ok in H end.
  repeat match goal with H : Forall _ (_ :: _) |- _ => inversion_clear H end.
  unfold stable_field in *. repeat match goal with H : refuse_if _ _ = Ok _ |- _ => apply refuse_if_Ok in H end.
  bool_split. by repeat constructor.
Qed.

(** Two validated identities with one namespace are of the same caller,
    workspace and task; with one session key, of the same caller and
    idempotency key. *)
Theorem routing_keys_injective (id1 id2 : RoutingIdentity) (tier1 tier2 : string) :
  RoutingIdentity_Validate id1 tier1 = Ok tt -> RoutingIdentity_Validate id2 tier2 = Ok tt ->
  tier1 <> TierChat -> tier2 <> TierChat ->
  (Namespace id1 = Namespace id2 ->
     Routing_CallerID id1 = Routing_CallerID id2 /\ Routing_WorkspaceKey id1 = Routing_WorkspaceKey id2
     /\ Routing_TaskID id1 = Routing_TaskID id2)
  /\ (session_key (Routing_CallerID id1) (Routing_IdempotencyKey id1)
      = session_key (Routing_CallerID id2) (Routing_IdempotencyKey id2) ->
     Routing_CallerID id1 = Routing_CallerID id2 /\ Routing_IdempotencyKey id1 = Routing_IdempotencyKey id2).
Proof.
  intros H1 H2 N1 N2. apply RoutingIdentity_stable in H1, H2; [|done..].
  repeat match goal with H : Forall _ (_ :: _) |- _ => inversion_clear H end.
  split; [|by apply session_key_inj]. unfold Namespace. cbn [append]. intros E.
  apply separated_inj in E as [E1 E]; [|by apply stable_no_byte..].
  apply separated_inj in E as [E2 E3]; [|by apply stable_no_byte..]. done.
Qed.

(** The qualified names of two valid tool identities can be the same. *)
Lemma qualified_name_ambiguous :
  ValidateToolIdentity "a:" "b" = Ok tt /\ ValidateToolIdentity "a" ":b" = Ok tt
  /\ QualifiedToolName "a:" "b" = QualifiedToolName "a" ":b".
Proof. by vm_compute. Qed.

(* ------------------------------------------------------------------ *)
(** ** One authorization per tool name *)

(** What a profile says of its tools, in the order it is validated. *)
Definition declared (p : Profile) : list (string * string) :=
  ((fun tool => (Mapped_Name tool, ToolAuthorizationStandard)) <$> mapped_tools p)
  ++ ((fun tool => (edit_name tool, ToolAuthorizationStandard)) <$> option_list (Profile_Edit p))
  ++ ((fun tool => (exec_name tool, ToolAuthorizationPrivileged)) <$> option_list (Profile_Exec p))
  ++ map_to_list (Profile_NativeTools p).


Lemma validateTool_Ok name seen seen' : validateTool name seen = Ok seen' ->
  name ∉ seen /\ seen' = {[name]} ∪ seen /\ TrimSpace name <> "".
Proof.
  unfold validateTool. intros H. ok_inv. decided. split_and!; [done..|]. by intros E; rewrite E in *.
Qed.

Lemma validate_names_app l1 l2 seen :
  validate_names (l1 ++ l2) seen = let? seen := validate_names l1 seen in validate_names l2 seen.
Proof. revert seen. induction l1 as [|x l1 IH]; intros seen; cbn; [done|]. destruct (validateTool x seen); cbn; auto. Qed.

Lemma validate_edit_names edit seen seen' : validate_edit edit seen = Ok seen' ->
  validate_names (edit_name <$> option_list edit) seen = Ok seen'.
Proof. destruct edit as [tool|]; cbn; [|done]. intros H. ok_inv. by rewrite Hv. Qed.

Lemma validate_exec_names exec seen seen' : validate_exec exec seen = Ok seen' ->
  validate_names (exec_name <$> option_list exec) seen = Ok seen'.
Proof. destruct exec as [tool|]; cbn; [|done]. intros ->. done. Qed.

Lemma validate_native_names native seen seen' : validate_native native seen = Ok seen' ->
  validate_names native.*1 seen = Ok seen'.
Proof.
  revert seen. induction native as [|[name c] native IH]; intros seen; cbn; [done|]. intros H. ok_inv.
  rewrite Hv. cbn. by apply IH.
Qed.

Lemma validate_names_NoDup names seen seen' : validate_names names seen = Ok seen' ->
  NoDup names /\ (forall x, x ∈ names -> x ∉ seen).
Proof.
  revert seen. induction names as [|x names IH]; intros seen; cbn.
  { intros _. split; [constructor | by intros x ?%not_elem_of_nil]. }
  intros H. ok_inv. apply validateTool_Ok in Hv as (Hx & -> & _). apply IH in H as [Hd Hn].
  split.
  - constructor; [|done]. intros Hin. apply (Hn _ Hin). set_solver.
  - intros y [->|Hy]%elem_of_cons; [done|]. specialize (Hn _ Hy). set_solver.
Qed.

Lemma declared_NoDup p : Profile_Validate p = Ok tt -> NoDup (declared p).*1.
Proof.
  unfold Profile_Validate. intros H. ok_inv.
  match goal with H : validate_names _ _ = Ok _ |- _ => rename H into H1 end.
  match goal with H : validate_edit _ _ = Ok _ |- _ => apply validate_edit_names in H; rename H into H2 end.
  match goal with H : validate_exec _ _ = Ok _ |- _ => apply validate_exec_names in H; rename H into H3 end.
  match goal with H : validate_native _ _ = Ok ?s |- _ => apply validate_native_names in H; rename H into H4; set (last := s) in * end.
  assert ((declared p).*1 = ((Mapped_Name <$> mapped_tools p) ++ (edit_name <$> option_list (Profile_Edit p))
    ++ (exec_name <$> option_list (Profile_Exec p)) ++ (map_to_list (Profile_NativeTools p)).*1)%list) as ->.
  { unfold declared. rewrite !fmap_app, <- !list_fmap_compose. done. }
  apply (validate_names_NoDup _ ∅ last). rewrite validate_names_app, H1. cbn [obind].
  rewrite validate_names_app, H2. cbn [obind]. rewrite validate_names_app, H3. exact H4.
Qed.

Lemma named_true name o : named name o = true <-> o = Some name.
Proof. destruct o as [s|]; cbn; [|done]. rewrite String.eqb_eq. split; congruence. Qed.

Lemma elem_of_declared p name c : (name, c) ∈ declared p <->
  (exists tool, tool ∈ mapped_tools p /\ Mapped_Name tool = name /\ c = ToolAuthorizationStandard)
  \/ (edit_name <$> Profile_Edit p = Some name /\ c = ToolAuthorizationStandard)
  \/ (exec_name <$> Profile_Exec p = Some name /\ c = ToolAuthorizationPrivileged)
  \/ Profile_NativeTools p !! name = Some c.
Proof.
  unfold declared. rewrite !elem_of_app, !list_elem_of_fmap, elem_of_map_to_list.
  assert (forall A (o : option A) (f : A -> string) d,
    (exists x, (name, c) = (f x, d) /\ x ∈ option_list o) <-> (f <$> o = Some name /\ c = d)) as Ho.
  { intros A [a|] f d; cbn; split.
    - intros (x & [= -> ->] & ->%list_elem_of_singleton). done.
    - intros [[= <-] ->]. exists a. split; [done|]. by apply list_elem_of_singleton.
    - by intros (x & _ & ?%not_elem_of_nil).
    - by intros []. }
  rewrite !Ho. split; (intros [(tool & H)|?]; [left|by right]); exists tool; naive_solver.
Qed.

Lemma NoDup_keys_eq {A} (l : list (string * A)) k a b : NoDup l.*1 -> (k, a) ∈ l -> (k, b) ∈ l -> a = b.
Proof.
  induction l as [|[k' c] l IH]; cbn; [by intros _ ?%not_elem_of_nil|].
  intros [Hn Hd]%NoDup_cons. assert (forall d, (k, d) ∈ l -> k ∈ l.*1) as Hin.
  { intros d Hd'. apply list_elem_of_fmap. by exists (k, d). }
  intros Ha Hb. apply elem_of_cons in Ha as [Ha|Ha]; apply elem_of_cons in Hb as [Hb|Hb].
  - congruence.
  - injection Ha as -> ->. by destruct Hn; apply (Hin b).
  - injection Hb as -> ->. by destruct Hn; apply (Hin a).
  - by apply IH.
Qed.

(** In a valid profile every tool name is declared once, and AuthorizeTool
    answers exactly the class of its declaration: no command tool is
    standard. *)
Theorem authorize_tool_exact (p : Profile) : Profile_Validate p = Ok tt ->
  NoDup (declared p).*1
  /\ forall name c, AuthorizeTool p name = Some c <-> (name, c) ∈ declared p.
Proof.
  intros H. apply declared_NoDup in H. split; [done|]. intros name c.
  assert (forall d, AuthorizeTool p name = Some d -> (name, d) ∈ declared p) as Hsound.
  { intros d. rewrite elem_of_declared. unfold AuthorizeTool, IsExecTool, AllowsTool.
    destruct (named name (exec_name <$> _)) eqn:Ex.
    { intros [= <-]. apply named_true in Ex. by right; right; left. }
    rewrite orb_false_r. destruct (existsb _ _) eqn:Em; cbn [orb].
    { intros [= <-]. apply existsb_exists in Em as (tool & Hin & E%String.eqb_eq). left. exists tool.
      by rewrite list_elem_of_In. }
    destruct (named name (edit_name <$> _)) eqn:Ee.
    { intros [= <-]. apply named_true in Ee. by right; left. }
    intros. by right; right; right. }
  split; [apply Hsound|]. intros Hin.
  destruct (AuthorizeTool p name) as [d|] eqn:E.
  { f_equal. eapply NoDup_keys_eq; [exact H| |exact Hin]. by apply Hsound. }
  exfalso. apply elem_of_declared in Hin. unfold AuthorizeTool, IsExecTool, AllowsTool in E.
  destruct (named name (exec_name <$> _)) eqn:Ex; [done|]. rewrite orb_false_r in E.
  destruct (_ || _) eqn:Ea; [done|]. bool_split.
  destruct Hin as [(tool & Hin & Hn & _)|[[Hn _]|[[Hn _]|Hn]]].
  - assert (existsb (fun tool => String.eqb (Mapped_Name tool) name) (mapped_tools p) = true) as Hc; [|congruence].
    apply existsb_exists. exists tool. rewrite <- list_elem_of_In. split; [done|]. by apply String.eqb_eq.
  - apply named_true in Hn. congruence.
  - apply named_true in Hn. congruence.
  - congruence.
Qed.

(* ------------------------------------------------------------------ *)
(** ** Runs of a completion *)

(** States in the order they are entered, each by a valid transition. *)
Inductive run : string -> list string -> string -> Prop :=
  | run_start s : run s [] s
  | run_step s l t u : run s l t -> ValidateTransition t u = Ok tt -> run s (l ++ [u]) u.


Lemma transitions_lookup s l : transitions !! s = Some l -> (s, l) ∈
  [(StateAdmitted, [StateLeased]); (StateLeased, [StateAwaitingHuman]); (StateAwaitingHuman, [StateResponded]);
   (StateResponded, [StateCompleted; StateAwaitingCaller; StateToolsDispatched]);
   (StateAwaitingCaller, [StateReconciled]); (StateToolsDispatched, [StateAwaitingResults]);
   (StateAwaitingResults, [StateReconciled]); (StateReconciled, [StateLeased])].
Proof. apply elem_of_list_to_map_2. Qed.

Lemma one_of_true s l : one_of s l = true <-> s ∈ l.
Proof.
  unfold one_of. rewrite existsb_exists, list_elem_of_In. split.
  - by intros (x & Hx & ->%String.eqb_eq).
  - intros H. exists s. split; [done|]. apply String.eqb_refl.
Qed.

(** A transition that is not a way out follows the table. *)
Lemma CanTransition_table from to : CanTransition from to = true ->
  to = StateCompleted \/ IsTerminal to = false -> exists l, transitions !! from = Some l /\ to ∈ l.
Proof.
  unfold CanTransition. intros H Hto. destruct (_ || IsTerminal from); [done|].
  assert ((to <>? StateCompleted) && IsTerminal to = false) as E.
  { destruct Hto as [->| ->]; [done | apply andb_false_r]. }
  rewrite E in H. apply one_of_true in H. destruct (transitions !! from) as [l|]; [by exists l|].
  by apply not_elem_of_nil in H.
Qed.

Ltac table_cases :=
  repeat match goal with
  | H : transitions !! _ = Some _ |- _ => apply transitions_lookup in H
  | H : _ ∈ [] |- _ => by apply not_elem_of_nil in H
  | H : _ ∈ _ :: _ |- _ => apply elem_of_cons in H as [H|H]; try (simplify_eq; try done)
  end.

Lemma before_completed s : CanTransition s StateCompleted = true -> s = StateResponded.
Proof. intros H. apply CanTransition_table in H as (l & Hl & Hin); [|by left]. table_cases. Qed.
Lemma before_responded s : CanTransition s StateResponded = true -> s = StateAwaitingHuman.
Proof. intros H. apply CanTransition_table in H as (l & Hl & Hin); [|by right]. table_cases. Qed.
Lemma before_awaiting s : CanTransition s StateAwaitingHuman = true -> s = StateLeased.
Proof. intros H. apply CanTransition_table in H as (l & Hl & Hin); [|by right]. table_cases. Qed.

Lemma run_inv s l t : run s l t -> (l = [] /\ t = s) \/
  exists l' u, l = (l' ++ [t])%list /\ run s l' u /\ CanTransition u t = true.
Proof.
  intros [|? l' u ? H Hv]; [by left|right]. exists l', u. split_and!; [done..|].
  unfold ValidateTransition in Hv. apply refuse_if_Ok in Hv. by bool_split.
Qed.

(** A completion that starts admitted completes only by a response of the
    human it was leased to: the last states before it are leased, awaiting the
    human and responded.  Nothing leaves a terminal state, and any other valid
    state can be canceled, rejected, expired or failed at once. *)
Theorem completion_runs (l : list string) (t : string) : run StateAdmitted l t ->
  (t = StateCompleted -> exists l', l = (l' ++ [StateLeased; StateAwaitingHuman; StateResponded; StateCompleted])%list)
  /\ (IsTerminal t = true -> forall u, ValidateTransition t u <> Ok tt)
  /\ State_Valid t = true
  /\ (IsTerminal t = false -> Forall (fun u => ValidateTransition t u = Ok tt)
        [StateCanceled; StateRejected; StateExpired; StateFailed]).
Proof.
  intros H. assert (State_Valid t = true) as Hvalid.
  { apply run_inv in H as [[_ ->]|(l' & u & -> & _ & H)]; [done|]. unfold CanTransition in H.
    by destruct (State_Valid u), (State_Valid t). }
  split_and!; [|..|done|].
  - intros ->. apply run_inv in H as [[_ H]|(l1 & u & -> & H & Hu%before_completed)]; [done|subst u].
    apply run_inv in H as [[_ H]|(l2 & u & -> & H & Hu%before_responded)]; [done|subst u].
    apply run_inv in H as [[_ H]|(l3 & u & -> & H & Hu%before_awaiting)]; [done|subst u].
    apply run_inv in H as [[_ H]|(l4 & u & -> & _ & _)]; [done|]. exists l4. by rewrite <- !app_assoc.
  - intros Ht u. unfold ValidateTransition, CanTransition. by rewrite Ht, orb_true_r.
  - intros Ht. repeat constructor; unfold ValidateTransition, CanTransition; by rewrite Hvalid, Ht.
Qed.

Lemma completion_runs_witness :
  run StateAdmitted [StateLeased; StateAwaitingHuman; StateResponded; StateCompleted] StateCompleted
  /\ exists l', [StateLeased; StateAwaitingHuman; StateResponded; StateCompleted]
       = (l' ++ [StateLeased; StateAwaitingHuman; StateResponded; StateCompleted])%list.
Proof.
  assert (run StateAdmitted [StateLeased; StateAwaitingHuman; StateResponded; StateCompleted] StateCompleted) as H.
  { apply (run_step _ [StateLeased; StateAwaitingHuman; StateResponded] StateResponded); [|by vm_compute].
    apply (run_step _ [StateLeased; StateAwaitingHuman] StateAwaitingHuman); [|by vm_compute].
    apply (run_step _ [StateLeased] StateLeased); [|by vm_compute].
    apply (run_step _ [] StateAdmitted); [constructor|by vm_compute]. }
  split; [exact H|]. by apply (completion_runs _ _ H).
Defined.

(** The registry of the daemon. *)
Lemma default_registry : exists registry, NewDefaultRegistry = Some registry
  /\ Resolve registry HumanShimID HumanShimVersion = Some HumanShimProfile
  /\ Resolve registry OpenCodeID OpenCodeVersion = Some OpenCode11718Profile.
Proof. vm_compute. eauto. Qed.

Lemma authorize_tool_exact_witness :
  NoDup (declared OpenCode11718Profile).*1 /\ AuthorizeTool OpenCode11718Profile "bash" = Some ToolAuthorizationPrivileged.
Proof.
  assert (Profile_Validate OpenCode11718Profile = Ok tt) as H by by vm_compute.
  split; [by apply (authorize_tool_exact _ H)|]. apply (authorize_tool_exact _ H). by vm_compute; repeat constructor.
Defined.

Definition sample_identity : RoutingIdentity := {|
  Routing_CallerID := "caller-1"; Routing_WorkspaceKey := "repo"; Routing_TaskID := "task-1";
  Routing_IdempotencyKey := "key-1"; Routing_HarnessID := "opencode"; Routing_HarnessVersion := "1.17.18";
  Routing_HarnessSessionID := ""; Routing_Root := "/work"; Routing_ExecAllowed := false |}.

Lemma routing_keys_injective_witness :
  RoutingIdentity_Validate sample_identity TierWorkspace = Ok tt
  /\ Routing_CallerID sample_identity = Routing_CallerID sample_identity.
Proof.
  assert (RoutingIdentity_Validate sample_identity TierWorkspace = Ok tt) as H by by vm_compute. split; [exact H|].
  exact (proj1 (proj1 (routing_keys_injective _ _ _ _ H H ltac:(discriminate) ltac:(discriminate)) eq_refl)).
Defined.
End Completion.
