(* ===== verification/CompletionHub.v ===== *)
(** * The hub of live completions (internal/completion/hub/hub.go)

    The in-process queue between the gateway and its workers.  A Go pointer is
    the identity (a number) of an object of the [world]: sessions, deliveries,
    worker states and reservations.  Every section under [Hub.mu] is one
    definition on the world; [publish] is split where it lets go of the lock:
    [publish_begin], the send, the wait, [publish_end].  [step] interleaves
    them with the dispatchers of the workers and the consumers of events.  A
    channel that is only ever closed is a flag. *)

From S2P Require Import Prelude GoText GoEncoding GoTime GoJson GoStrings GoDoc GoStruct.
From S2P Require Import CompletionTypes.

Local Open Scope string_scope.

Module Hub.
Import Completion.

(* ------------------------------------------------------------------ *)
(** ** The objects *)

(** An assignment with the session whose [retired] channel it carries. *)
Record queuedAssignment := { queued_assignment : Assignment; queued_session : nat }.

(** Where the goroutine [dispatch] stands: in [next], before its lock or in its
    select; about to look at [retired]; in the last select; gone. *)
Inductive dispatcher := Taking | Idle | Holding (q : queuedAssignment) | Offering (q : queuedAssignment) | Stopped.

(** [workerState]; [ws_worker] is the ID of the [Worker] that was handed out
    with it, [handed] what its receiver got so far. *)
Record workerState := {
  ws_worker : string; instanceID : string; ws_pending : list queuedAssignment; ws_capacity : Z; notify : bool; ws_done : bool;
  dispatch : dispatcher; handed : list queuedAssignment }.

(** [session]; [s_events] is the buffered channel. *)
Record session := {
  s_workerID : string; s_assignment : Assignment; s_events : list nat; s_terminal : bool; s_accepted : bool;
  s_terminalPending : bool; s_seen : gset string; s_inflight : gmap string nat; s_pending : gset nat;
  s_retired : bool }.

(** [Delivery]: its outcome once [done] is closed.  [d_session] and [d_taken]
    say for which session it was made and whether the consumer received it. *)
Record delivery := { d_event : Event; d_outcome : option (option error); d_session : nat; d_taken : bool }.

Record terminalReceipt := { receipt_eventID : string; receipt_digest : string; receipt_workerID : string }.

Record Reservation := { r_workerID : string; r_used : bool }.

(** A call of [publish] between its two sections. *)
Inductive phase := Sending | Waiting.
Record publisher := {
  p_key : string; p_workerID : string; p_event : Event; p_session : nat; p_delivery : nat; p_phase : phase }.

Record Hub := {
  capacity : Z; reserved : Z; active : Z; workers : gmap string nat; onlineWorkers : Z;
  sessions : gmap string nat; retired : gmap string terminalReceipt; order : list string; maxRetired : Z }.

(** The hub and the heap it lives in; [restored] counts the sessions that
    [Restore] made. *)
Record world := {
  hub : Hub; w_sessions : gmap nat session; w_deliveries : gmap nat delivery; w_states : gmap nat workerState;
  w_reservations : gmap nat Reservation; w_publishers : gmap nat publisher; restored : Z }.

(* ------------------------------------------------------------------ *)
(** ** Assignments to one field *)

Definition with_hub (w : world) (h : Hub) : world :=
  {| hub := h; w_sessions := w_sessions w; w_deliveries := w_deliveries w; w_states := w_states w;
     w_reservations := w_reservations w; w_publishers := w_publishers w; restored := restored w |}.
Definition with_sessions (w : world) (m : gmap nat session) : world :=
  {| hub := hub w; w_sessions := m; w_deliveries := w_deliveries w; w_states := w_states w;
     w_reservations := w_reservations w; w_publishers := w_publishers w; restored := restored w |}.
Definition with_deliveries (w : world) (m : gmap nat delivery) : world :=
  {| hub := hub w; w_sessions := w_sessions w; w_deliveries := m; w_states := w_states w;
     w_reservations := w_reservations w; w_publishers := w_publishers w; restored := restored w |}.
Definition with_states (w : world) (m : gmap nat workerState) : world :=
  {| hub := hub w; w_sessions := w_sessions w; w_deliveries := w_deliveries w; w_states := m;
     w_reservations := w_reservations w; w_publishers := w_publishers w; restored := restored w |}.
Definition with_reservations (w : world) (m : gmap nat Reservation) : world :=
  {| hub := hub w; w_sessions := w_sessions w; w_deliveries := w_deliveries w; w_states := w_states w;
     w_reservations := m; w_publishers := w_publishers w; restored := restored w |}.
Definition with_publishers (w : world) (m : gmap nat publisher) : world :=
  {| hub := hub w; w_sessions := w_sessions w; w_deliveries := w_deliveries w; w_states := w_states w;
     w_reservations := w_reservations w; w_publishers := m; restored := restored w |}.

Definition set_reserved (h : Hub) (z : Z) : Hub :=
  {| capacity := capacity h; reserved := z; active := active h; workers := workers h;
     onlineWorkers := onlineWorkers h; sessions := sessions h; retired := retired h; order := order h;
     maxRetired := maxRetired h |}.
Definition set_workers (h : Hub) (m : gmap string nat) (online : Z) : Hub :=
  {| capacity := capacity h; reserved := reserved h; active := active h; workers := m;
     onlineWorkers := online; sessions := sessions h; retired := retired h; order := order h;
     maxRetired := maxRetired h |}.
Definition set_sessions (h : Hub) (m : gmap string nat) (z : Z) : Hub :=
  {| capacity := capacity h; reserved := reserved h; active := z; workers := workers h;
     onlineWorkers := onlineWorkers h; sessions := m; retired := retired h; order := order h;
     maxRetired := maxRetired h |}.
Definition set_receipts (h : Hub) (m : gmap string terminalReceipt) (l : list string) : Hub :=
  {| capacity := capacity h; reserved := reserved h; active := active h; workers := workers h;
     onlineWorkers := onlineWorkers h; sessions := sessions h; retired := m; order := l;
     maxRetired := maxRetired h |}.

Definition set_owner (s : session) (worker : string) : session :=
  {| s_workerID := worker; s_assignment := with_LeaseOwner (s_assignment s) worker; s_events := s_events s;
     s_terminal := s_terminal s; s_accepted := s_accepted s; s_terminalPending := s_terminalPending s;
     s_seen := s_seen s; s_inflight := s_inflight s; s_pending := s_pending s; s_retired := s_retired s |}.
Definition set_events (s : session) (l : list nat) : session :=
  {| s_workerID := s_workerID s; s_assignment := s_assignment s; s_events := l;
     s_terminal := s_terminal s; s_accepted := s_accepted s; s_terminalPending := s_terminalPending s;
     s_seen := s_seen s; s_inflight := s_inflight s; s_pending := s_pending s; s_retired := s_retired s |}.
Definition set_retired (s : session) : session :=
  {| s_workerID := s_workerID s; s_assignment := s_assignment s; s_events := s_events s;
     s_terminal := true; s_accepted := s_accepted s; s_terminalPending := false;
     s_seen := s_seen s; s_inflight := s_inflight s; s_pending := s_pending s; s_retired := true |}.
Definition set_seen (s : session) (m : gset string) : session :=
  {| s_workerID := s_workerID s; s_assignment := s_assignment s; s_events := s_events s;
     s_terminal := s_terminal s; s_accepted := s_accepted s; s_terminalPending := s_terminalPending s;
     s_seen := m; s_inflight := s_inflight s; s_pending := s_pending s; s_retired := s_retired s |}.
Definition set_accepted (s : session) (b : bool) : session :=
  {| s_workerID := s_workerID s; s_assignment := s_assignment s; s_events := s_events s;
     s_terminal := s_terminal s; s_accepted := b; s_terminalPending := s_terminalPending s;
     s_seen := s_seen s; s_inflight := s_inflight s; s_pending := s_pending s; s_retired := s_retired s |}.
Definition set_terminalPending (s : session) (b : bool) : session :=
  {| s_workerID := s_workerID s; s_assignment := s_assignment s; s_events := s_events s;
     s_terminal := s_terminal s; s_accepted := s_accepted s; s_terminalPending := b;
     s_seen := s_seen s; s_inflight := s_inflight s; s_pending := s_pending s; s_retired := s_retired s |}.
Definition set_flight (s : session) (inflight : gmap string nat) (pending : gset nat) : session :=
  {| s_workerID := s_workerID s; s_assignment := s_assignment s; s_events := s_events s;
     s_terminal := s_terminal s; s_accepted := s_accepted s; s_terminalPending := s_terminalPending s;
     s_seen := s_seen s; s_inflight := inflight; s_pending := pending; s_retired := s_retired s |}.

Definition update_session (w : world) (i : nat) (f : session -> session) : world :=
  with_sessions w (alter f i (w_sessions w)).

(* ------------------------------------------------------------------ *)
(** ** Workers *)

Definition newWorkerState (cap : Z) (worker instance : string) : workerState :=
  {| ws_worker := worker; instanceID := instance; ws_pending := []; ws_capacity := cap; notify := false; ws_done := false;
     dispatch := Taking; handed := [] |}.

Definition set_queue (st : workerState) (l : list queuedAssignment) (n : bool) : workerState :=
  {| ws_worker := ws_worker st; instanceID := instanceID st; ws_pending := l; ws_capacity := ws_capacity st; notify := n;
     ws_done := ws_done st; dispatch := dispatch st; handed := handed st |}.
Definition set_dispatch (st : workerState) (d : dispatcher) (got : list queuedAssignment) : workerState :=
  {| ws_worker := ws_worker st; instanceID := instanceID st; ws_pending := ws_pending st; ws_capacity := ws_capacity st; notify := notify st;
     ws_done := ws_done st; dispatch := d; handed := got |}.

(** [workerState.close] *)
Definition closed (st : workerState) : workerState :=
  {| ws_worker := ws_worker st; instanceID := instanceID st; ws_pending := ws_pending st; ws_capacity := ws_capacity st; notify := notify st;
     ws_done := true; dispatch := dispatch st; handed := handed st |}.

Definition ensureCapacity (st : workerState) (cap : Z) : workerState :=
  {| ws_worker := ws_worker st; instanceID := instanceID st; ws_pending := ws_pending st;
     ws_capacity := if (ws_capacity st <? cap)%Z then cap else ws_capacity st;
     notify := notify st; ws_done := ws_done st; dispatch := dispatch st; handed := handed st |}.

(** Whether the [retired] channel of a session is closed. *)
Definition is_retired (ss : gmap nat session) (i : nat) : bool :=
  match ss !! i with Some s => s_retired s | None => false end.

(** [workerState.enqueue] *)
Definition enqueue (ss : gmap nat session) (st : workerState) (a : Assignment) (i : nat) : bool * workerState :=
  if ws_done st then (false, st)
  else
    let kept := filter (fun q => is_retired ss (queued_session q) = false) (ws_pending st) in
    if (ws_capacity st <=? Z.of_nat (length kept))%Z then (false, set_queue st kept (notify st))
    else (true, set_queue st (kept ++ [{| queued_assignment := a; queued_session := i |}])%list true).

(** The session [i] is put in the queue of the state [k]. *)
Definition enqueue_at (w : world) (k : nat) (a : Assignment) (i : nat) : bool * world :=
  match w_states w !! k with
  | None => (false, w)
  | Some st =>
      let '(sent, st') := enqueue (w_sessions w) st a i in (sent, with_states w (<[k := st']> (w_states w)))
  end.

(** One round of [dispatch]: [next], the look at [retired], the select. *)
Inductive dispatches (ss : gmap nat session) (st : workerState) : workerState -> Prop :=
  | next_queued q l : dispatch st = Taking -> ws_pending st = q :: l ->
      dispatches ss st (set_dispatch (set_queue st l (notify st)) (Holding q) (handed st))
  | next_empty : dispatch st = Taking -> ws_pending st = [] ->
      dispatches ss st (set_dispatch st Idle (handed st))
  | next_notified : dispatch st = Idle -> notify st = true ->
      dispatches ss st (set_dispatch (set_queue st (ws_pending st) false) Taking (handed st))
  | next_done : dispatch st = Idle -> ws_done st = true ->
      dispatches ss st (set_dispatch st Stopped (handed st))
  | look q : dispatch st = Holding q ->
      dispatches ss st (set_dispatch st (if is_retired ss (queued_session q) then Taking else Offering q) (handed st))
  | hand_over q : dispatch st = Offering q ->
      dispatches ss st (set_dispatch st Taking (handed st ++ [q])%list)
  | drop_retired q : dispatch st = Offering q -> is_retired ss (queued_session q) = true ->
      dispatches ss st (set_dispatch st Taking (handed st))
  | drop_closed q : dispatch st = Offering q -> ws_done st = true ->
      dispatches ss st (set_dispatch st Stopped (handed st)).

(* ------------------------------------------------------------------ *)
(** ** Deliveries and receipts *)

Definition settled (d : delivery) (outcome : option error) : delivery :=
  match d_outcome d with
  | Some _ => d
  | None => {| d_event := d_event d; d_outcome := Some outcome; d_session := d_session d; d_taken := d_taken d |}
  end.

(** [Delivery.Commit] *)
Definition Commit (m : gmap nat delivery) (i : nat) (outcome : option error) : gmap nat delivery :=
  alter (fun d => settled d outcome) i m.

Definition commit_all (m : gmap nat delivery) (ids : list nat) (outcome : option error) : gmap nat delivery :=
  foldl (fun m i => Commit m i outcome) m ids.

Definition terminalEventDigest (event : Event) : res string :=
  match Marshal_ Event_json event with
  | None => Err (ErrText "marshal terminal worker event")
  | Some payload => Ok (Sha256.Sum256 payload)
  end.

(** The loop that drops the oldest receipts. *)
Fixpoint evict (max : Z) (l : list string) (m : gmap string terminalReceipt)
    : gmap string terminalReceipt * list string :=
  match l with
  | [] => (m, [])
  | oldest :: rest => if (max <? Z.of_nat (length l))%Z then evict max rest (delete oldest m) else (m, l)
  end.

Definition remember (h : Hub) (key : string) (receipt : terminalReceipt) : Hub :=
  let '(m, l) := evict (maxRetired h) (order h ++ [key])%list (<[key := receipt]> (retired h)) in
  set_receipts h m l.

Definition rememberTerminal (h : Hub) (key workerID : string) (event : Event) : Hub :=
  if is_empty (Event_ID event) then h
  else
    match terminalEventDigest event with
    | Err _ => h
    | Ok digest =>
        let receipt := {| receipt_eventID := Event_ID event; receipt_digest := digest; receipt_workerID := workerID |} in
        match retired h !! key with
        | Some _ => set_receipts h (<[key := receipt]> (retired h)) (order h)
        | None => remember h key receipt
        end
    end.

(** The zero value of [[sha256.Size]byte]. *)
Definition zero_digest : string := concat_strings (replicate 32 (str1 nul)).

Definition rememberRetiredOwner (h : Hub) (key workerID : string) : Hub :=
  match retired h !! key with
  | Some _ => h
  | None => remember h key {| receipt_eventID := ""; receipt_digest := zero_digest; receipt_workerID := workerID |}
  end.

(** [retireSessionLocked] *)
Definition retireSessionLocked (w : world) (key : string) (i : nat) (err : option error) : bool * world :=
  match w_sessions w !! i with
  | None => (false, w)
  | Some s =>
      if (sessions (hub w) !! key <>? Some i) || s_terminal s then (false, w)
      else
        let err := default ErrSessionMissing err in
        (true, {| hub := set_sessions (hub w) (delete key (sessions (hub w))) (active (hub w) - 1);
                  w_sessions := <[i := set_retired s]> (w_sessions w);
                  w_deliveries := commit_all (w_deliveries w) (elements (s_pending s)) (Some err);
                  w_states := w_states w; w_reservations := w_reservations w; w_publishers := w_publishers w;
                  restored := restored w |})
  end.

(* ------------------------------------------------------------------ *)
(** ** Workers and reservations *)

(** An int of 64 bits. *)
Definition wrap_int (z : Z) : Z := ((z + 9223372036854775808) mod 18446744073709551616 - 9223372036854775808)%Z.

Definition New (cap : Z) : Hub :=
  let cap := if (cap <? 1)%Z then 1%Z else cap in
  let maxRetired := wrap_int (cap * 4) in
  {| capacity := cap; reserved := 0; active := 0; workers := ∅; onlineWorkers := 0; sessions := ∅;
     retired := ∅; order := []; maxRetired := if (maxRetired <? 64)%Z then 64 else maxRetired |}.

Definition new_world (cap : Z) : world :=
  {| hub := New cap; w_sessions := ∅; w_deliveries := ∅; w_states := ∅; w_reservations := ∅;
     w_publishers := ∅; restored := 0 |}.

Definition Snapshot (h : Hub) : Z * bool := (onlineWorkers h, (0 <? onlineWorkers h)%Z).

(** The loop of [RegisterInstance] over the live sessions, in the order of
    [l]; whether every one was queued. *)
Fixpoint requeue (w : world) (workerID : string) (k : nat) (l : list nat) : bool * world :=
  match l with
  | [] => (true, w)
  | i :: l =>
      match w_sessions w !! i with
      | None => requeue w workerID k l
      | Some s =>
          let s := if is_empty (s_workerID s) && negb (s_terminal s) then set_owner s workerID else s in
          let w := with_sessions w (<[i := s]> (w_sessions w)) in
          if (s_workerID s =?= workerID) && negb (s_terminal s) then
            let '(sent, w) := enqueue_at w k (s_assignment s) i in
            if sent then requeue w workerID k l else (false, w)
          else requeue w workerID k l
      end
  end.

Definition close_state (w : world) (k : nat) : world := with_states w (alter closed k (w_states w)).

(** [RegisterInstance], with the order in which Go's loop meets the live
    sessions; the new state. *)
Definition RegisterInstance (w : world) (workerID instance : string) (l : list nat) : res nat * world :=
  if is_empty workerID then (Err (ErrText "worker id is required"), w)
  else if negb (IsStableKey instance) then (Err (ErrText "stable worker instance id is required"), w)
  else
    let previous := workers (hub w) !! workerID in
    let other := match previous ≫= fun k => w_states w !! k with
                 | Some st => instanceID st <>? instance | None => false end in
    if other then (Err ErrWorkerConnected, w)
    else
      let k := fresh (dom (w_states w)) in
      let w0 := with_states w (<[k := newWorkerState (Z.max (capacity (hub w)) (active (hub w))) workerID instance]> (w_states w)) in
      let w1 := with_hub w0 (set_workers (hub w0) (<[workerID := k]> (workers (hub w0))) (onlineWorkers (hub w0))) in
      let '(sent, w2) := requeue w1 workerID k l in
      if negb sent then
        let m := match previous with
                 | None => delete workerID (workers (hub w2))
                 | Some p => <[workerID := p]> (workers (hub w2)) end in
        (Err ErrNoWorker, close_state (with_hub w2 (set_workers (hub w2) m (onlineWorkers (hub w2)))) k)
      else
        match previous with
        | Some p => (Ok k, close_state w2 p)
        | None => (Ok k, with_hub w2 (set_workers (hub w2) (workers (hub w2)) (onlineWorkers (hub w2) + 1)))
        end.

Definition Register (w : world) (workerID : string) (l : list nat) : res nat * world :=
  RegisterInstance w workerID workerID l.

(** [unregister], by which a [Worker] is closed. *)
Definition unregister (w : world) (workerID : string) (k : nat) : world :=
  if workers (hub w) !! workerID <>? Some k then close_state w k
  else close_state (with_hub w (set_workers (hub w) (delete workerID (workers (hub w))) (onlineWorkers (hub w) - 1))) k.

Definition chooseWorker (h : Hub) (preferred : string) : res string :=
  if negb (is_empty preferred) then
    if is_none (workers h !! preferred) then Err ErrNoWorker else Ok preferred
  else
    match sort_slice string_less (map_to_list (workers h)).*1 with
    | [] => Err ErrNoWorker
    | id :: _ => Ok id
    end.

Definition Reserve (w : world) (preferredWorker : string) : res nat * world :=
  match chooseWorker (hub w) preferredWorker with
  | Err e => (Err e, w)
  | Ok workerID =>
      let h := hub w in
      if (capacity h <=? active h + reserved h)%Z then (Err ErrCapacity, w)
      else
        let r := fresh (dom (w_reservations w)) in
        (Ok r, with_reservations (with_hub w (set_reserved h (reserved h + 1)))
                 (<[r := {| r_workerID := workerID; r_used := false |}]> (w_reservations w)))
  end.

Definition use_reservation (w : world) (r : nat) (reservation : Reservation) : world :=
  with_reservations (with_hub w (set_reserved (hub w) (reserved (hub w) - 1)))
    (<[r := {| r_workerID := r_workerID reservation; r_used := true |}]> (w_reservations w)).

Definition Release (w : world) (r : nat) : world :=
  match w_reservations w !! r with
  | None => w
  | Some reservation => if r_used reservation then w else use_reservation w r reservation
  end.

(* ------------------------------------------------------------------ *)
(** ** Sessions *)

Definition newSession (workerID : string) (a : Assignment) (accepted : bool) : session :=
  {| s_workerID := workerID; s_assignment := a; s_events := []; s_terminal := false; s_accepted := accepted;
     s_terminalPending := false; s_seen := ∅; s_inflight := ∅; s_pending := ∅; s_retired := false |}.

(** A session enters the table, and the count. *)
Definition open_session (w : world) (s : session) : nat * world :=
  let i := fresh (dom (w_sessions w)) in
  (i, with_sessions (with_hub w (set_sessions (hub w) (<[SessionKey (s_assignment s) := i]> (sessions (hub w)))
                                   (active (hub w) + 1)))
        (<[i := s]> (w_sessions w))).

(** [Reservation.Enqueue]; the new session. *)
Definition Enqueue (w : world) (r : nat) (assignment : Assignment) : res nat * world :=
  match w_reservations w !! r with
  | None => (Err ErrReservationUsed, w)
  | Some reservation =>
      if r_used reservation then (Err ErrReservationUsed, w)
      else
        let w := use_reservation w r reservation in
        match workers (hub w) !! r_workerID reservation with
        | None => (Err ErrNoWorker, w)
        | Some k =>
            let key := SessionKey assignment in
            if negb (is_none (sessions (hub w) !! key)) then (Err ErrSessionExists, w)
            else if negb (is_none (retired (hub w) !! key)) then (Err ErrSessionExists, w)
            else
              let assignment := with_LeaseOwner assignment (r_workerID reservation) in
              let '(i, w) := open_session w (newSession (r_workerID reservation) assignment false) in
              let '(sent, w) := enqueue_at w k assignment i in
              if negb sent then (Err ErrNoWorker, (retireSessionLocked w key i (Some ErrNoWorker)).2)
              else (Ok i, w)
        end
  end.

Record RestoreOptions := {
  Restore_WorkerID : string; Restore_Accepted : bool; Restore_SeenEventIDs : list string }.

Definition count_restored (w : world) : world :=
  {| hub := hub w; w_sessions := w_sessions w; w_deliveries := w_deliveries w; w_states := w_states w;
     w_reservations := w_reservations w; w_publishers := w_publishers w; restored := (restored w + 1)%Z |}.

Definition Restore (w : world) (assignment : Assignment) (options : RestoreOptions) : res nat * world :=
  let key := SessionKey assignment in
  if negb (is_none (sessions (hub w) !! key)) then (Err ErrSessionExists, w)
  else if negb (is_none (retired (hub w) !! key)) then (Err ErrSessionExists, w)
  else
    let workerID := if is_empty (Restore_WorkerID options) && (workers (hub w) <>? ∅)
                    then chooseWorker (hub w) "" else Ok (Restore_WorkerID options) in
    match workerID with
    | Err e => (Err e, w)
    | Ok workerID =>
        let assignment := with_LeaseOwner assignment workerID in
        let seen := list_to_set (filter (fun id => is_empty id = false) (Restore_SeenEventIDs options)) in
        let '(i, w) := open_session (count_restored w)
                         (set_seen (newSession workerID assignment (Restore_Accepted options)) seen) in
        match workers (hub w) !! workerID with
        | None => (Ok i, w)
        | Some k =>
            let w := with_states w (alter (fun st => ensureCapacity st (active (hub w))) k (w_states w)) in
            let '(sent, w) := enqueue_at w k assignment i in
            if negb sent then (Err ErrNoWorker, (retireSessionLocked w key i (Some ErrNoWorker)).2)
            else (Ok i, w)
        end
    end.

Definition Abort (w : world) (callerID idempotencyKey : string) : option error * world :=
  let key := session_key callerID idempotencyKey in
  match sessions (hub w) !! key with
  | None => (Some ErrSessionMissing, w)
  | Some i =>
      match w_sessions w !! i with
      | None => (Some ErrSessionMissing, w)
      | Some s =>
          if s_terminal s then (Some ErrSessionMissing, w)
          else
            let w := (retireSessionLocked w key i (Some ErrSessionMissing)).2 in
            (None, with_hub w (rememberRetiredOwner (hub w) key (s_workerID s)))
      end
  end.

(** [AuthorizePublisher]; no error is [None]. *)
Definition AuthorizePublisher (w : world) (workerID callerID idempotencyKey : string) : option error :=
  if is_empty workerID then Some ErrWorkerOwnership
  else
    let key := session_key callerID idempotencyKey in
    match sessions (hub w) !! key ≫= fun i => w_sessions w !! i with
    | Some s => if s_workerID s =?= workerID then None else Some ErrWorkerOwnership
    | None =>
        match retired (hub w) !! key with
        | Some receipt => if receipt_workerID receipt =?= workerID then None else Some ErrWorkerOwnership
        | None => Some ErrSessionMissing
        end
    end.

(* ------------------------------------------------------------------ *)
(** ** Publishing *)

Definition RejectEvent (err : option error) : option error :=
  match err with None => None | Some _ => Some ErrEventRejected end.

(** Where the first section of [publish] leaves a call: back at its caller,
    waiting for the delivery of another call, or about to send. *)
Inductive published := Returned (err : option error) | Following (d : nat) | Started (t : nat).

(** What happens to the key of no live session. *)
Definition publish_retired (h : Hub) (workerID key : string) (event : Event) : option error :=
  match retired h !! key with
  | None => Some ErrSessionMissing
  | Some receipt =>
      if negb (is_empty workerID) && (workerID <>? receipt_workerID receipt) then Some ErrWorkerOwnership
      else if negb (is_empty (Event_ID event)) && (Event_ID event =?= receipt_eventID receipt) then
        match terminalEventDigest event with
        | Err e => Some e
        | Ok digest => if digest <>? receipt_digest receipt then Some ErrEventConflict else None
        end
      else Some ErrSessionMissing
  end.

(** The worker an [accepted] event is attributed to. *)
Definition attribute (s : session) (workerID : string) (event : Event) : res Event :=
  if String.eqb (Event_Type event) EventAccepted then
    if negb (is_empty workerID) then Ok (with_WorkerID event workerID)
    else if is_empty (Event_WorkerID event) then Ok (with_WorkerID event (s_workerID s))
    else if Event_WorkerID event <>? s_workerID s then Err (ErrText "assignment accepted by the wrong worker")
    else Ok event
  else Ok event.

(** The delivery is made and the call is on its way to the channel. *)
Definition start_delivery (w : world) (key workerID : string) (i : nat) (s : session) (event : Event) : published * world :=
  let d := fresh (dom (w_deliveries w)) in
  let t := fresh (dom (w_publishers w)) in
  let inflight := if is_empty (Event_ID event) then s_inflight s else <[Event_ID event := d]> (s_inflight s) in
  let s := set_flight (set_terminalPending s (s_terminalPending s || EndsResponse event)) inflight ({[d]} ∪ s_pending s) in
  (Started t,
   {| hub := hub w; w_sessions := <[i := s]> (w_sessions w);
      w_deliveries := <[d := {| d_event := event; d_outcome := None; d_session := i; d_taken := false |}]> (w_deliveries w);
      w_states := w_states w; w_reservations := w_reservations w;
      w_publishers := <[t := {| p_key := key; p_workerID := workerID; p_event := event; p_session := i;
                                p_delivery := d; p_phase := Sending |}]> (w_publishers w);
      restored := restored w |}).

(** [publish] up to its first [Unlock]. *)
Definition publish_begin (w : world) (workerID callerID idempotencyKey : string) (event : Event) : published * world :=
  let key := session_key callerID idempotencyKey in
  match sessions (hub w) !! key with
  | None => (Returned (publish_retired (hub w) workerID key event), w)
  | Some i =>
      match w_sessions w !! i with
      | None => (Returned (Some ErrSessionMissing), w)
      | Some s =>
          if negb (is_empty workerID) && (workerID <>? s_workerID s) then (Returned (Some ErrWorkerOwnership), w)
          else if negb (is_empty (Event_ID event)) && bool_decide (Event_ID event ∈ s_seen s) then (Returned None, w)
          else
            match (if is_empty (Event_ID event) then None else s_inflight s !! Event_ID event) with
            | Some d => (Following d, w)
            | None =>
                if s_terminal s || s_terminalPending s then (Returned (Some ErrSessionMissing), w)
                else
                  match attribute s workerID event with
                  | Err e => (Returned (Some e), w)
                  | Ok event =>
                      if String.eqb (Event_Type event) EventAccepted && s_accepted s then
                        (Returned None,
                         if is_empty (Event_ID event) then w
                         else with_sessions w (<[i := set_seen s ({[Event_ID event]} ∪ s_seen s)]> (w_sessions w)))
                      else start_delivery w key workerID i s event
                  end
            end
      end
  end.

(** [publish] after its wait, with what the delivery was committed with. *)
Definition settle_session (s : session) (p : publisher) (outcome : option error) (current : bool) : session :=
  let id := Event_ID (p_event p) in
  let d := p_delivery p in
  let inflight := if negb (is_empty id) && (s_inflight s !! id =?= Some d) then delete id (s_inflight s) else s_inflight s in
  let s := set_flight s inflight (s_pending s ∖ {[d]}) in
  let s := if negb (is_empty id) && is_none outcome then set_seen s ({[id]} ∪ s_seen s) else s in
  let terminal := EndsResponse (p_event p) in
  match outcome with
  | Some _ => if terminal && current then set_terminalPending s false else s
  | None =>
      let s := if String.eqb (Event_Type (p_event p)) EventAccepted then set_accepted s true else s in
      if terminal then set_terminalPending s false else s
  end.

Definition publish_end (w : world) (t : nat) (p : publisher) (outcome : option error) : option error * world :=
  let i := p_session p in
  match w_sessions w !! i with
  | None => (outcome, w)
  | Some s =>
      let current := (sessions (hub w) !! p_key p =?= Some i) && negb (s_terminal s) in
      let w := with_publishers (with_sessions w (<[i := settle_session s p outcome current]> (w_sessions w)))
                 (delete t (w_publishers w)) in
      match outcome with
      | Some e => (Some e, w)
      | None =>
          if EndsResponse (p_event p) then
            let w := if current then (retireSessionLocked w (p_key p) i (Some ErrSessionMissing)).2 else w in
            (None, with_hub w (rememberTerminal (hub w) (p_key p) (s_workerID s) (p_event p)))
          else (None, w)
      end
  end.

(** [Publish] and [PublishFrom], as far as their first section. *)
Definition Publish (w : world) (callerID idempotencyKey : string) (event : Event) : published * world :=
  publish_begin w "" callerID idempotencyKey event.
Definition PublishFrom (w : world) (workerID callerID idempotencyKey : string) (event : Event) : published * world :=
  if is_empty workerID then (Returned (Some ErrWorkerOwnership), w)
  else publish_begin w workerID callerID idempotencyKey event.

(* ------------------------------------------------------------------ *)
(** ** All of it, interleaved *)

(** The capacity of the channel of events. *)
Definition events_capacity : nat := 32.

Definition waiting (p : publisher) : publisher :=
  {| p_key := p_key p; p_workerID := p_workerID p; p_event := p_event p; p_session := p_session p;
     p_delivery := p_delivery p; p_phase := Waiting |}.
Definition now_waiting (w : world) (t : nat) (p : publisher) : world :=
  with_publishers w (<[t := waiting p]> (w_publishers w)).

Definition taken (d : delivery) : delivery :=
  {| d_event := d_event d; d_outcome := d_outcome d; d_session := d_session d; d_taken := true |}.

(** [events <- delivery] *)
Definition send (w : world) (t : nat) (p : publisher) : world :=
  now_waiting (update_session w (p_session p) (fun s => set_events s (s_events s ++ [p_delivery p])%list)) t p.
(** [ctx.Done()] *)
Definition give_up_waiting (w : world) (t : nat) (p : publisher) : world :=
  now_waiting (with_deliveries w (Commit (w_deliveries w) (p_delivery p) (Some ErrContextDone))) t p.

(** One step of anyone: a worker's transport, an admission, a publisher, the
    consumer of the events of a session, a dispatcher. *)
Inductive step (w : world) : world -> Prop :=
  | s_register workerID instance l : l ≡ₚ (map_to_list (sessions (hub w))).*2 ->
      step w (RegisterInstance w workerID instance l).2
  | s_close k st : w_states w !! k = Some st -> step w (unregister w (ws_worker st) k)
  | s_reserve preferred : step w (Reserve w preferred).2
  | s_release r : step w (Release w r)
  | s_enqueue r assignment : step w (Enqueue w r assignment).2
  | s_restore assignment options : step w (Restore w assignment options).2
  | s_abort callerID idempotencyKey : step w (Abort w callerID idempotencyKey).2
  | s_publish callerID idempotencyKey event : step w (Publish w callerID idempotencyKey event).2
  | s_publish_from workerID callerID idempotencyKey event :
      step w (PublishFrom w workerID callerID idempotencyKey event).2
  | s_send t p s : w_publishers w !! t = Some p -> p_phase p = Sending -> w_sessions w !! p_session p = Some s ->
      (length (s_events s) < events_capacity)%nat -> step w (send w t p)
  | s_notice t p : w_publishers w !! t = Some p -> p_phase p = Sending -> is_retired (w_sessions w) (p_session p) = true ->
      step w (now_waiting w t p)
  | s_cancel t p : w_publishers w !! t = Some p -> p_phase p = Sending -> step w (give_up_waiting w t p)
  | s_finish t p d outcome : w_publishers w !! t = Some p -> p_phase p = Waiting ->
      w_deliveries w !! p_delivery p = Some d -> d_outcome d = Some outcome -> step w (publish_end w t p outcome).2
  | s_receive i s d l : w_sessions w !! i = Some s -> s_events s = (d :: l)%list ->
      step w (with_deliveries (update_session w i (fun s => set_events s l)) (alter taken d (w_deliveries w)))
  | s_commit d x outcome : w_deliveries w !! d = Some x -> d_taken x = true ->
      step w (with_deliveries w (Commit (w_deliveries w) d outcome))
  | s_dispatch k st st' : w_states w !! k = Some st -> dispatches (w_sessions w) st st' ->
      step w (with_states w (<[k := st']> (w_states w))).

(** The worlds that calls on a new hub lead to. *)
Inductive reachable (cap : Z) : world -> Prop :=
  | r_new : reachable cap (new_world cap)
  | r_step w w' : reachable cap w -> step w w' -> reachable cap w'.

End Hub.
