(* ===== verification/CompletionHubFacts.v ===== *)
(** * What the hub keeps (theorems on [CompletionHub])

    The invariant of the worlds that calls on a new hub lead to, in four
    parts: the counters and the table of sessions, the receipts of retired
    sessions, the queues of the workers, and the deliveries with their
    publishers. *)

From S2P Require Import Prelude GoText GoEncoding GoTime GoJson GoStrings GoDoc GoStruct.
From S2P Require Import CompletionTypes CompletionHub.

Local Open Scope string_scope.

Module HubFacts.
Import Completion Hub.

#[local] Arguments EndsResponse : simpl never.
#[local] Arguments SessionKey : simpl never.
#[local] Arguments settle_session : simpl never.

(* ------------------------------------------------------------------ *)
(** ** The invariant *)

(** The live sessions are those of the table. *)
Record table_ok (h : Hub) (ss : gmap nat session) : Prop := {
  table_live key i : sessions h !! key = Some i ->
    exists s, ss !! i = Some s /\ s_terminal s = false /\ SessionKey (s_assignment s) = key;
  live_table i s : ss !! i = Some s -> s_terminal s = false -> sessions h !! SessionKey (s_assignment s) = Some i;
  retired_terminal i s : ss !! i = Some s -> s_retired s = s_terminal s;
  active_counts : active h = Z.of_nat (size (sessions h)) }.

Definition unused (r : Reservation) : bool := negb (r_used r).

Record counts_ok (w : world) : Prop := {
  reserved_counts : reserved (hub w) = Z.of_nat (count_map unused (w_reservations w));
  capacity_pos : (1 <= capacity (hub w))%Z;
  restored_pos : (0 <= restored w)%Z }.

(** Admissions keep within the capacity; only [Restore] goes beyond it. *)
Definition within_capacity (w : world) : Prop :=
  (active (hub w) + reserved (hub w) <= capacity (hub w) + restored w)%Z.

Record receipts_ok (h : Hub) : Prop := {
  order_NoDup : NoDup (order h);
  order_dom key : key ∈ order h <-> is_Some (retired h !! key);
  order_bound : (Z.of_nat (length (order h)) <= maxRetired h)%Z;
  maxRetired_pos : (64 <= maxRetired h)%Z }.

(** A queue of a worker: no session twice, within its capacity. *)
Record queue_ok (h : Hub) (ss : gmap nat session) (st : workerState) : Prop := {
  queue_NoDup : NoDup (queued_session <$> ws_pending st);
  queue_known q : q ∈ ws_pending st -> is_Some (ss !! queued_session q);
  queue_bound : (Z.of_nat (length (ws_pending st)) <= ws_capacity st)%Z;
  queue_capacity : (capacity h <= ws_capacity st)%Z }.

Record workers_ok (h : Hub) (ss : gmap nat session) (states : gmap nat workerState) : Prop := {
  worker_state id k : workers h !! id = Some k ->
    exists st, states !! k = Some st /\ ws_done st = false /\ ws_worker st = id;
  state_queue k st : states !! k = Some st -> queue_ok h ss st }.

Definition online_counts (h : Hub) : Prop := onlineWorkers h = Z.of_nat (size (workers h)).

(** A delivery whose publisher has not returned. *)
Definition pending_publisher (ps : gmap nat publisher) (d : nat) : Prop :=
  exists t p, ps !! t = Some p /\ p_delivery p = d.

(** A delivery that was, or may still be, processed. *)
Definition claims (ps : gmap nat publisher) (d : nat) (x : delivery) : Prop :=
  pending_publisher ps d \/ d_outcome x = Some None.

Record publisher_ok (ss : gmap nat session) (ds : gmap nat delivery) (p : publisher) (s : session) (x : delivery) : Prop := {
  pub_session : ss !! p_session p = Some s;
  pub_delivery : ds !! p_delivery p = Some x;
  pub_of : d_session x = p_session p;
  pub_event : d_event x = p_event p;
  pub_pending : p_delivery p ∈ s_pending s;
  pub_inflight : Event_ID (p_event p) <> "" -> s_inflight s !! Event_ID (p_event p) = Some (p_delivery p);
  pub_unseen : Event_ID (p_event p) <> "" -> Event_ID (p_event p) ∉ s_seen s;
  pub_terminal : EndsResponse (p_event p) = true -> s_terminal s = false -> s_terminalPending s = true;
  pub_owner : p_workerID p <> "" -> s_workerID s = p_workerID p;
  pub_key : p_key p = SessionKey (s_assignment s);
  pub_sending : p_phase p = Sending -> d_taken x = false /\ p_delivery p ∉ s_events s }.

Record session_ok (ds : gmap nat delivery) (ps : gmap nat publisher) (i : nat) (s : session) : Prop := {
  pending_of d : d ∈ s_pending s -> exists t p, ps !! t = Some p /\ p_delivery p = d /\ p_session p = i;
  inflight_of id d : s_inflight s !! id = Some d -> id <> "" /\
    exists t p, ps !! t = Some p /\ p_delivery p = d /\ p_session p = i /\ Event_ID (p_event p) = id;
  terminal_settled d : s_terminal s = true -> d ∈ s_pending s ->
    exists x o, ds !! d = Some x /\ d_outcome x = Some o;
  events_NoDup : NoDup (s_events s);
  events_of d : d ∈ s_events s -> exists x, ds !! d = Some x /\ d_taken x = false /\ d_session x = i }.

Record delivery_ok (ss : gmap nat session) (ps : gmap nat publisher) (d : nat) (x : delivery) (s : session) : Prop := {
  del_session : ss !! d_session x = Some s;
  del_taken : d_outcome x = Some None -> d_taken x = true;
  del_waiting : d_outcome x = None -> pending_publisher ps d;
  del_done : d_outcome x = Some None -> ~ pending_publisher ps d ->
    (Event_ID (d_event x) <> "" -> Event_ID (d_event x) ∈ s_seen s)
    /\ (EndsResponse (d_event x) = true -> s_terminal s = true) }.

(** Two deliveries of one session that count: not of one event, nor both of a
    closing one. *)
Definition apart (x y : delivery) : Prop :=
  (Event_ID (d_event x) <> "" -> Event_ID (d_event x) <> Event_ID (d_event y))
  /\ ~ (EndsResponse (d_event x) = true /\ EndsResponse (d_event y) = true).

Record deliveries_ok (ss : gmap nat session) (ds : gmap nat delivery) (ps : gmap nat publisher) : Prop := {
  all_publishers t p : ps !! t = Some p -> exists s x, publisher_ok ss ds p s x;
  publisher_unique t1 t2 p1 p2 : ps !! t1 = Some p1 -> ps !! t2 = Some p2 -> p_delivery p1 = p_delivery p2 -> t1 = t2;
  all_sessions i s : ss !! i = Some s -> session_ok ds ps i s;
  all_deliveries d x : ds !! d = Some x -> exists s, delivery_ok ss ps d x s;
  claims_apart d1 d2 x1 x2 : ds !! d1 = Some x1 -> ds !! d2 = Some x2 -> d1 <> d2 -> d_session x1 = d_session x2 ->
    claims ps d1 x1 -> claims ps d2 x2 -> apart x1 x2 }.

Record invariant (w : world) : Prop := {
  inv_table : table_ok (hub w) (w_sessions w);
  inv_counts : counts_ok w;
  inv_within : within_capacity w;
  inv_receipts : receipts_ok (hub w);
  inv_workers : workers_ok (hub w) (w_sessions w) (w_states w);
  inv_online : online_counts (hub w);
  inv_deliveries : deliveries_ok (w_sessions w) (w_deliveries w) (w_publishers w) }.

(* ------------------------------------------------------------------ *)
(** ** Receipts *)

Lemma evict_ok max l m m' l' : (0 <= max)%Z -> NoDup l -> (forall key, key ∈ l <-> is_Some (m !! key)) ->
  evict max l m = (m', l') ->
  NoDup l' /\ (forall key, key ∈ l' <-> is_Some (m' !! key)) /\ (Z.of_nat (length l') <= max)%Z.
Proof.
  intros Hmax. revert m. induction l as [|x l IH]; cbn [evict]; intros m Hd Hm H.
  { injection H as <- <-. split_and!; [done..|cbn; lia]. }
  apply NoDup_cons in Hd as [Hx Hd]. destruct (_ <? _)%Z eqn:E.
  - apply IH in H; [done|done|]. intros key. destruct (decide (key = x)) as [->|Hne].
    + rewrite lookup_delete_eq. split; [done | by intros []].
    + rewrite lookup_delete_ne by done. rewrite <- Hm, elem_of_cons. naive_solver.
  - injection H as <- <-. zbool. split_and!; [by constructor | done | done].
Qed.

Lemma remember_ok h key receipt : receipts_ok h -> retired h !! key = None -> receipts_ok (remember h key receipt).
Proof.
  intros [Hd Hm Hb Hp] Hk. unfold remember. destruct (evict _ _ _) as [m l] eqn:E.
  apply evict_ok in E as (? & ? & ?); [by split; cbn|lia|..].
  - apply NoDup_app. split_and!; [done| |apply NoDup_singleton].
    intros x Hx ->%list_elem_of_singleton. apply Hm in Hx. rewrite Hk in Hx. by destruct Hx.
  - intros x. rewrite elem_of_app, Hm, list_elem_of_singleton. destruct (decide (x = key)) as [->|Hne].
    + rewrite lookup_insert_eq. naive_solver.
    + rewrite lookup_insert_ne by done. naive_solver.
Qed.

Lemma rememberRetiredOwner_ok h key id : receipts_ok h -> receipts_ok (rememberRetiredOwner h key id).
Proof.
  unfold rememberRetiredOwner. intros H. destruct (retired h !! key) eqn:E; [done|]. by apply remember_ok.
Qed.

Lemma rememberTerminal_ok h key id e : receipts_ok h -> receipts_ok (rememberTerminal h key id e).
Proof.
  unfold rememberTerminal. intros H. destruct (is_empty _); [done|]. destruct (terminalEventDigest e); [|done].
  destruct (retired h !! key) as [r|] eqn:E; [|by apply remember_ok].
  destruct H as [Hd Hm Hb Hp]. split; cbn; [done| |done..]. intros x. rewrite Hm.
  destruct (decide (x = key)) as [->|Hne]; [|by rewrite lookup_insert_ne].
  rewrite lookup_insert_eq, E. split; eauto.
Qed.

(** Receipts are all that [rememberTerminal] and [rememberRetiredOwner] change. *)
Lemma remember_rest h key r : exists m l, remember h key r = set_receipts h m l.
Proof. unfold remember. destruct (evict _ _ _) as [m l]. eauto. Qed.
Lemma rememberRetiredOwner_rest h key id : exists m l, rememberRetiredOwner h key id = set_receipts h m l.
Proof.
  unfold rememberRetiredOwner. destruct (retired h !! key); [|apply remember_rest].
  exists (retired h), (order h). by destruct h.
Qed.
Lemma rememberTerminal_rest h key id e : exists m l, rememberTerminal h key id e = set_receipts h m l.
Proof.
  unfold rememberTerminal. repeat case_match; try apply remember_rest; try (by eauto);
    exists (retired h), (order h); by destruct h.
Qed.

(* ------------------------------------------------------------------ *)
(** ** Queues *)

(** Different live sessions are as many as the table has entries, at most. *)
Lemma live_length h ss l : table_ok h ss -> NoDup l ->
  (forall i, i ∈ l -> exists s, ss !! i = Some s /\ s_terminal s = false) ->
  (Z.of_nat (length l) <= active h)%Z.
Proof.
  intros Ht Hd Hl. rewrite (active_counts _ _ Ht), <- length_map_to_list.
  rewrite <- (length_fmap snd (map_to_list (sessions h))). apply Nat2Z.inj_le, submseteq_length, NoDup_submseteq; [done|].
  intros i Hi. destruct (Hl i Hi) as (s & Hs & Hlive). apply list_elem_of_fmap. exists (SessionKey (s_assignment s), i).
  split; [done|]. apply elem_of_map_to_list. by apply (live_table _ _ Ht).
Qed.

Definition kept (ss : gmap nat session) (st : workerState) : list queuedAssignment :=
  filter (fun q => is_retired ss (queued_session q) = false) (ws_pending st).

Lemma kept_sub ss st : sublist (kept ss st) (ws_pending st).
Proof. apply sublist_filter. Qed.

Lemma is_retired_false h ss i : table_ok h ss -> is_Some (ss !! i) -> is_retired ss i = false ->
  exists s, ss !! i = Some s /\ s_terminal s = false.
Proof.
  unfold is_retired. intros Ht [s Hs] H. rewrite Hs in H. exists s. split; [done|].
  by rewrite <- (retired_terminal _ _ Ht i s Hs).
Qed.

Lemma kept_ids ss st i : i ∈ (queued_session <$> kept ss st) -> i ∈ (queued_session <$> ws_pending st).
Proof. intros H. eapply elem_of_sublist; [exact H|]. apply fmap_sublist, kept_sub. Qed.

Lemma kept_queue h ss st : queue_ok h ss st ->
  NoDup (queued_session <$> kept ss st) /\ forall q, q ∈ kept ss st -> is_Some (ss !! queued_session q).
Proof.
  intros [Hd Hk _ _]. pose proof (kept_sub ss st) as Hs. split.
  - eapply sublist_NoDup; [exact Hd|]. by apply fmap_sublist.
  - intros q Hq. apply Hk. by eapply elem_of_sublist.
Qed.

Lemma enqueue_queue h ss st a i : queue_ok h ss st -> is_Some (ss !! i) ->
  i ∉ (queued_session <$> ws_pending st) -> queue_ok h ss (enqueue ss st a i).2.
Proof.
  intros H Hi Hn. unfold enqueue. destruct (ws_done st); [done|]. fold (kept ss st).
  destruct (kept_queue h ss st H) as [Hd Hk]. destruct H as [Hd' _ Hb Hc].
  pose proof (sublist_length _ _ (kept_sub ss st)) as Hl.
  destruct (_ <=? _)%Z eqn:E; zbool; split; cbn; try done; [lia|..].
  - rewrite fmap_app. apply NoDup_app. split_and!; [done| |apply NoDup_singleton].
    intros x Hx ->%list_elem_of_singleton. by apply Hn, (kept_ids ss).
  - intros q [Hq| ->%list_elem_of_singleton]%elem_of_app; [by apply Hk | done].
  - rewrite length_app. cbn. lia.
Qed.

(** The queue has room for a live session that is not in it. *)
Lemma enqueue_room h ss st a i : table_ok h ss -> queue_ok h ss st -> ws_done st = false ->
  (exists s, ss !! i = Some s /\ s_terminal s = false) -> i ∉ (queued_session <$> ws_pending st) ->
  (active h <= ws_capacity st)%Z -> (enqueue ss st a i).1 = true.
Proof.
  intros Ht Hq Hdone Hi Hn Hc. unfold enqueue. rewrite Hdone. fold (kept ss st).
  destruct (kept_queue h ss st Hq) as [Hd Hk].
  assert (Z.of_nat (length (i :: (queued_session <$> kept ss st))) <= active h)%Z as Hl.
  { apply (live_length h ss); [done| |].
    - constructor; [|done]. intros Hx. by apply Hn, (kept_ids ss).
    - intros j [->|Hj]%elem_of_cons; [done|]. apply list_elem_of_fmap in Hj as (q & -> & Hq').
      apply (is_retired_false h); [done | by apply Hk|]. by apply list_elem_of_filter in Hq' as [? _]. }
  cbn [length] in Hl. rewrite length_fmap in Hl. destruct (_ <=? _)%Z eqn:E; zbool; [lia | done].
Qed.

(** What the queues depend on. *)
Lemma queue_ok_frame h h' ss ss' st : capacity h' = capacity h ->
  (forall i, is_Some (ss !! i) -> is_Some (ss' !! i)) -> queue_ok h ss st -> queue_ok h' ss' st.
Proof. intros E Hs [Hd Hk Hb Hc]. split; [done| |done|by rewrite E]. intros q Hq. by apply Hs, Hk. Qed.

Lemma workers_ok_frame h h' ss ss' states : capacity h' = capacity h -> workers h' = workers h ->
  (forall i, is_Some (ss !! i) -> is_Some (ss' !! i)) -> workers_ok h ss states -> workers_ok h' ss' states.
Proof.
  intros Ec Ew Hs [Hw Hq]. split; [by rewrite Ew|]. intros k st Hk. eapply queue_ok_frame; [..|by eapply Hq]; done.
Qed.

(** One state is replaced by one with the same owner that is as alive. *)
Lemma workers_ok_update h ss states k st st' : workers_ok h ss states -> states !! k = Some st ->
  queue_ok h ss st' -> ws_worker st' = ws_worker st -> ws_done st' = ws_done st ->
  workers_ok h ss (<[k := st']> states).
Proof.
  intros [Hw Hq] Hk Hq' Ho Hd. split.
  - intros id k' H. destruct (Hw _ _ H) as (x & Hx & Hxd & Hxo). destruct (decide (k' = k)) as [->|Hne].
    + rewrite lookup_insert_eq. exists st'. rewrite Hk in Hx. injection Hx as <-. by rewrite Ho, Hd.
    + rewrite lookup_insert_ne by done. by exists x.
  - intros k' x. destruct (decide (k' = k)) as [->|Hne].
    + rewrite lookup_insert_eq. by intros [= <-].
    + rewrite lookup_insert_ne by done. apply Hq.
Qed.

Lemma enqueue_same ss st a i : ws_worker (enqueue ss st a i).2 = ws_worker st /\ ws_done (enqueue ss st a i).2 = ws_done st.
Proof. unfold enqueue. by repeat case_match. Qed.

Lemma enqueue_at_parts w k a i : exists states, (enqueue_at w k a i).2 = with_states w states.
Proof.
  unfold enqueue_at. destruct (w_states w !! k) as [st|]; [|exists (w_states w); by destruct w].
  destruct (enqueue _ _ _ _) as [sent st']. eauto.
Qed.

Lemma enqueue_at_workers w k a i h : workers_ok h (w_sessions w) (w_states w) -> is_Some (w_sessions w !! i) ->
  (forall st, w_states w !! k = Some st -> i ∉ (queued_session <$> ws_pending st)) ->
  workers_ok h (w_sessions w) (w_states (enqueue_at w k a i).2).
Proof.
  intros H Hi Hn. unfold enqueue_at. destruct (w_states w !! k) as [st|] eqn:E; [|done].
  pose proof (enqueue_queue h (w_sessions w) st a i (state_queue _ _ _ H k st E) Hi (Hn st eq_refl)) as Hq.
  pose proof (enqueue_same (w_sessions w) st a i) as [Ho Hd].
  destruct (enqueue _ _ _ _) as [sent st']. cbn in *. by eapply workers_ok_update.
Qed.

(** A session nobody has seen is in no queue. *)
Lemma unknown_unqueued h ss states k st i : workers_ok h ss states -> states !! k = Some st -> ss !! i = None ->
  i ∉ (queued_session <$> ws_pending st).
Proof.
  intros H Hk Hi Hin. apply list_elem_of_fmap in Hin as (q & -> & Hq).
  destruct (queue_known _ _ _ (state_queue _ _ _ H k st Hk) q Hq) as [s Hs]. congruence.
Qed.

(* ------------------------------------------------------------------ *)
(** ** Deliveries: the frame of a session *)

(** Facts about one entry of an updated map. *)
Ltac entry H :=
  first [apply lookup_insert_Some in H as [[? ?]|[? H]] | apply lookup_alter_Some in H as [(? & ? & ? & ?)|[? H]]];
  simplify_eq.

(** What the deliveries see of a session. *)
Record same_view (s s' : session) : Prop := {
  view_pending : s_pending s' = s_pending s;
  view_inflight : s_inflight s' = s_inflight s;
  view_events : s_events s' = s_events s;
  view_seen : s_seen s' = s_seen s;
  view_terminal : s_terminal s' = s_terminal s;
  view_closing : s_terminalPending s' = s_terminalPending s;
  view_key : SessionKey (s_assignment s') = SessionKey (s_assignment s);
  view_owner : s_workerID s <> "" -> s_workerID s' = s_workerID s }.

Lemma same_view_refl s : same_view s s.
Proof. by split. Qed.

Lemma lookup_update {A} (m : gmap nat A) i j x y y' : m !! i = Some y -> m !! j = Some x ->
  <[i := y']> m !! j = Some (if decide (i = j) then y' else x) /\ (i = j -> x = y).
Proof.
  intros Hi Hj. destruct (decide (i = j)) as [->|Hne].
  - rewrite lookup_insert_eq. split; [done|congruence].
  - rewrite lookup_insert_ne by done. done.
Qed.

Lemma deliveries_view ss ds ps i s s' : deliveries_ok ss ds ps -> ss !! i = Some s -> same_view s s' ->
  deliveries_ok (<[i := s']> ss) ds ps.
Proof.
  intros [Hp Hu Hs Hd Hc] Hi V.
  assert (forall j x, ss !! j = Some x -> exists x', <[i := s']> ss !! j = Some x' /\ same_view x x') as Hv.
  { intros j x Hj. destruct (lookup_update ss i j x s s' Hi Hj) as [E Ex]. eexists. split; [exact E|].
    case_decide as Hij; [by rewrite (Ex Hij) | apply same_view_refl]. }
  split; [|done| | |done].
  - intros t p Ht. destruct (Hp t p Ht) as (x & y & [P1 P2 P3 P4 P5 P6 P6' P7 P8 P9 P10]).
    destruct (Hv _ _ P1) as (x' & Hx & [V1 V2 V3 V4 V5 V6 V7 V8]). exists x', y.
    split; rewrite ?V1, ?V2, ?V3, ?V4, ?V5, ?V6, ?V7; try done.
    intros Hw. rewrite V8; [by apply P8 | by rewrite P8].
  - intros j x Hj. assert (exists x0, ss !! j = Some x0 /\ same_view x0 x) as (x0 & Hx0 & [V1 V2 V3 V4 V5 V6 V7 V8]).
    { entry Hj; [by exists s | exists x; split; [done|apply same_view_refl]]. }
    destruct (Hs _ _ Hx0) as [S1 S2 S3 S4 S5]. split; rewrite ?V1, ?V2, ?V3, ?V5; done.
  - intros d x Hx. destruct (Hd _ _ Hx) as (y & [D1 D2 D3 D4]).
    destruct (Hv _ _ D1) as (y' & Hy & [V1 V2 V3 V4 V5 V6 V7 V8]). exists y'. split; rewrite ?V4, ?V5; done.
Qed.

(** A new session. *)
Lemma deliveries_new ss ds ps i s : deliveries_ok ss ds ps -> ss !! i = None ->
  s_pending s = ∅ -> s_inflight s = ∅ -> s_events s = [] -> deliveries_ok (<[i := s]> ss) ds ps.
Proof.
  intros [Hp Hu Hs Hd Hc] Hi E1 E2 E3.
  assert (forall j x, ss !! j = Some x -> <[i := s]> ss !! j = Some x) as Hv.
  { intros j x Hj. rewrite lookup_insert_ne; [done|congruence]. }
  split; [|done| | |done].
  - intros t p Ht. destruct (Hp t p Ht) as (x & y & [P1 P2 P3 P4 P5 P6 P6' P7 P8 P9 P10]). exists x, y. split; auto.
  - intros j x Hj. entry Hj; [|by apply Hs]. split; rewrite ?E1, ?E2, ?E3.
    + by intros d ?%elem_of_empty.
    + intros id d H. by rewrite lookup_empty in H.
    + by intros d _ ?%elem_of_empty.
    + constructor.
    + by intros d ?%elem_of_nil.
  - intros d x Hx. destruct (Hd _ _ Hx) as (y & [D1 D2 D3 D4]). exists y. split; auto.
Qed.

(* ------------------------------------------------------------------ *)
(** ** Deliveries: commits *)

Lemma Commit_lookup m i o j : Commit m i o !! j = (fun d => if decide (i = j) then settled d o else d) <$> m !! j.
Proof.
  unfold Commit. destruct (decide (i = j)) as [->|Hne].
  - by rewrite lookup_alter_eq.
  - rewrite lookup_alter_ne by done. by destruct (m !! j).
Qed.

Lemma settled_done d o o' : d_outcome d = Some o -> settled d o' = d.
Proof. unfold settled. by intros ->. Qed.
Lemma settled_settled d o o' : settled (settled d o) o' = settled d o.
Proof. unfold settled. destruct (d_outcome d) eqn:E; [by rewrite E | done]. Qed.
Lemma settled_rest d o : d_event (settled d o) = d_event d /\ d_session (settled d o) = d_session d
  /\ d_taken (settled d o) = d_taken d /\ exists o', d_outcome (settled d o) = Some o'.
Proof. unfold settled. destruct (d_outcome d) eqn:E; cbn; eauto 10. Qed.

Lemma commit_all_lookup m l o j :
  commit_all m l o !! j = (fun d => if decide (j ∈ l) then settled d o else d) <$> m !! j.
Proof.
  unfold commit_all. revert m. induction l as [|i l IH]; intros m; cbn [foldl].
  { destruct (m !! j); [|done]. cbn. by destruct (decide (j ∈ [])) as [?%elem_of_nil|]. }
  rewrite IH, Commit_lookup. destruct (m !! j) as [d|]; [|done]. cbn. f_equal.
  destruct (decide (i = j)) as [->|Hne].
  - destruct (decide (j ∈ j :: l)) as [_|Hn]; [|by destruct Hn; left].
    destruct (decide (j ∈ l)); [apply settled_settled | done].
  - destruct (decide (j ∈ i :: l)) as [[?|?]%elem_of_cons|Hn]; [congruence|by rewrite decide_True|].
    rewrite decide_False; [done|]. intros ?. apply Hn. by right.
Qed.

(** A commit settles a delivery that waits, with success only if the consumer
    has it. *)
Lemma deliveries_commit ss ds ps i o : deliveries_ok ss ds ps ->
  (forall x, ds !! i = Some x -> o = None -> d_taken x = true) -> deliveries_ok ss (Commit ds i o) ps.
Proof.
  intros [Hp Hu Hs Hd Hc] Ho.
  assert (forall j x, ds !! j = Some x -> exists x', Commit ds i o !! j = Some x'
    /\ d_event x' = d_event x /\ d_session x' = d_session x /\ d_taken x' = d_taken x
    /\ (d_outcome x = None \/ d_outcome x' = d_outcome x)
    /\ (d_outcome x' = Some None -> d_outcome x = Some None \/ d_taken x = true)
    /\ (forall r, d_outcome x = Some r -> exists r', d_outcome x' = Some r')
    /\ (d_outcome x' = None -> d_outcome x = None)) as Hv.
  { intros j x Hj. rewrite Commit_lookup, Hj. cbn. eexists. split; [done|].
    destruct (decide (i = j)) as [->|]; [|split_and!; [done..|by right|by left|eauto|done]].
    destruct (settled_rest x o) as (-> & -> & -> & _). split_and!; try done.
    - destruct (d_outcome x) eqn:E; [right | by left]. by rewrite (settled_done _ _ _ E), E.
    - unfold settled. destruct (d_outcome x) as [r|] eqn:E; cbn; [rewrite E; by left|].
      intros [= ->]. right. by eapply Ho.
    - intros r Hr. unfold settled. rewrite Hr. eauto.
    - unfold settled. destruct (d_outcome x) eqn:E; [by rewrite E | done]. }
  assert (forall j x', Commit ds i o !! j = Some x' -> exists x, ds !! j = Some x) as Hback.
  { intros j x'. rewrite Commit_lookup. destruct (ds !! j) as [x|]; [by exists x | done]. }
  split.
  - intros t p Ht. destruct (Hp t p Ht) as (s & x & [P1 P2 P3 P4 P5 P6 P6' P7 P8 P9 P10]).
    destruct (Hv _ _ P2) as (x' & ? & E1 & E2 & E3 & _). exists s, x'. split; rewrite ?E1, ?E2, ?E3; done.
  - done.
  - intros j s Hj. destruct (Hs j s Hj) as [S1 S2 S3 S4 S5]. split; [done|done| |done|].
    + intros d Ht Hin. destruct (S3 d Ht Hin) as (x & r & Hx & Hr). destruct (Hv _ _ Hx) as (x' & Hx' & _ & _ & _ & _ & _ & V & _).
      destruct (V r Hr) as [r' Hr']. eauto.
    + intros d Hin. destruct (S5 d Hin) as (x & Hx & ? & ?). destruct (Hv _ _ Hx) as (x' & ? & E1 & E2 & E3 & _).
      exists x'. rewrite E2, E3. done.
  - intros j x' Hj. destruct (Hback _ _ Hj) as [x Hx]. destruct (Hd _ _ Hx) as (s & [D1 D2 D3 D4]).
    destruct (Hv _ _ Hx) as (y & Hy & E1 & E2 & E3 & V1 & V2 & V3 & V4). rewrite Hj in Hy. injection Hy as <-.
    exists s. split; rewrite ?E1, ?E2, ?E3; [done| |by auto|].
    + intros Hn. destruct (V2 Hn) as [?|?]; auto.
    + intros Hn Hnp. destruct V1 as [V1|V1]; [by destruct Hnp; apply D3|]. apply D4; [congruence|done].
  - intros d1 d2 x1' x2' H1 H2 Hne He C1 C2.
    destruct (Hback _ _ H1) as [x1 Hx1], (Hback _ _ H2) as [x2 Hx2].
    destruct (Hv _ _ Hx1) as (y1 & Hy1 & A1 & A2 & A3 & A4 & A5 & A6 & A7).
    destruct (Hv _ _ Hx2) as (y2 & Hy2 & B1 & B2 & B3 & B4 & B5 & B6 & B7).
    rewrite H1 in Hy1. injection Hy1 as <-. rewrite H2 in Hy2. injection Hy2 as <-.
    assert (apart x1 x2) as Ha.
    { apply (Hc d1 d2); try done; [congruence|..].
      - destruct C1 as [C1|C1]; [by left|]. destruct A4 as [A4|A4]; [|right; congruence].
        left. destruct (Hd _ _ Hx1) as (s & [_ _ D3 _]). by apply D3.
      - destruct C2 as [C2|C2]; [by left|]. destruct B4 as [B4|B4]; [|right; congruence].
        left. destruct (Hd _ _ Hx2) as (s & [_ _ D3 _]). by apply D3. }
    unfold apart in *. by rewrite A1, B1.
Qed.

Lemma deliveries_commit_all ss ds ps l e : deliveries_ok ss ds ps -> deliveries_ok ss (commit_all ds l (Some e)) ps.
Proof.
  unfold commit_all. revert ds. induction l as [|i l IH]; intros ds H; [done|]. cbn. apply IH.
  by apply deliveries_commit.
Qed.

(* ------------------------------------------------------------------ *)
(** ** Deliveries: the changes of a session *)

Section Session.
Context (ss : gmap nat session) (ds : gmap nat delivery) (ps : gmap nat publisher).
Context (H : deliveries_ok ss ds ps) (i : nat) (s : session) (Hi : ss !! i = Some s).

(** It retires, once what its publishers wait for is settled. *)
Lemma deliveries_retire :
  (forall d, d ∈ s_pending s -> exists x o, ds !! d = Some x /\ d_outcome x = Some o) ->
  deliveries_ok (<[i := set_retired s]> ss) ds ps.
Proof.
  intros Hset. destruct H as [Hp Hu Hs Hd Hc]. split; [|done| | |done].
  - intros t p Ht. destruct (Hp t p Ht) as (y & x & [P1 P2 P3 P4 P5 P6 P6' P7 P8 P9 P10]).
    destruct (lookup_update ss i _ y s (set_retired s) Hi P1) as [E Ey].
    eexists _, x. split; [exact E|done|done|done|..]; case_decide as Hx; try done; rewrite ?(Ey Hx) in *; cbn; try done.
  - intros j y Hj. entry Hj; [|by apply Hs]. destruct (Hs _ _ Hi) as [S1 S2 S3 S4 S5]. split; cbn; eauto.
  - intros d x Hx. destruct (Hd _ _ Hx) as (y & [D1 D2 D3 D4]).
    destruct (lookup_update ss i _ y s (set_retired s) Hi D1) as [E Ey].
    eexists. split; [exact E|done|done|..]. intros Hn Hnp. destruct (D4 Hn Hnp) as [A B].
    case_decide as Hij; [|done]. rewrite (Ey Hij) in *. done.
Qed.

(** An accepted event that came again is remembered. *)
Lemma deliveries_seen id : s_inflight s !! id = None ->
  deliveries_ok (<[i := set_seen s ({[id]} ∪ s_seen s)]> ss) ds ps.
Proof.
  intros Hf. destruct H as [Hp Hu Hs Hd Hc]. split; [|done| | |done].
  - intros t p Ht. destruct (Hp t p Ht) as (y & x & [P1 P2 P3 P4 P5 P6 P6' P7 P8 P9 P10]).
    destruct (lookup_update ss i _ y s (set_seen s ({[id]} ∪ s_seen s)) Hi P1) as [E Ey].
    eexists _, x. split; [exact E|done|done|done|..]; case_decide as Hx; try done; rewrite ?(Ey Hx) in *; cbn; try done.
    intros Hn [Hid%elem_of_singleton|Hin]%elem_of_union; [|by apply P6'].
    rewrite Hid in *. rewrite P6 in Hf by done. done.
  - intros j y Hj. entry Hj; [|by apply Hs]. destruct (Hs _ _ Hi) as [S1 S2 S3 S4 S5]. by split.
  - intros d x Hx. destruct (Hd _ _ Hx) as (y & [D1 D2 D3 D4]).
    destruct (lookup_update ss i _ y s (set_seen s ({[id]} ∪ s_seen s)) Hi D1) as [E Ey].
    eexists. split; [exact E|done|done|..]. intros Hn Hnp. destruct (D4 Hn Hnp) as [A B].
    case_decide as Hij; [|done]. rewrite (Ey Hij) in *. cbn. split; [|done].
    intros Hid. apply elem_of_union. right. by apply A.
Qed.

(** The next event of its channel is received. *)
Lemma deliveries_receive d l : s_events s = d :: l ->
  deliveries_ok (<[i := set_events s l]> ss) (alter taken d ds) ps.
Proof.
  intros El. destruct H as [Hp Hu Hs Hd Hc].
  assert (forall j x, ds !! j = Some x -> exists x', alter taken d ds !! j = Some x'
    /\ d_event x' = d_event x /\ d_session x' = d_session x /\ d_outcome x' = d_outcome x
    /\ (d_taken x = true -> d_taken x' = true) /\ (j <> d -> x' = x)) as Hv.
  { intros j x Hj. destruct (decide (d = j)) as [->|Hne].
    - rewrite lookup_alter_eq, Hj. eexists. split; [done|]. by split_and!.
    - rewrite lookup_alter_ne by done. exists x. by split_and!. }
  assert (forall j x', alter taken d ds !! j = Some x' -> exists x, ds !! j = Some x) as Hback.
  { intros j x'. destruct (decide (d = j)) as [->|Hne].
    - rewrite lookup_alter_eq. destruct (ds !! j); [by eexists|done].
    - rewrite lookup_alter_ne by done. by exists x'. }
  destruct (Hs _ _ Hi) as [S1 S2 S3 S4 S5].
  destruct (S5 d) as (xd & Hxd & Htd & Hsd); [rewrite El; left|].
  assert (forall j y, ss !! j = Some y -> j <> i -> d ∉ s_events y) as Hother.
  { intros j y Hj Hne Hin. destruct (events_of _ _ _ _ (Hs _ _ Hj) d Hin) as (x & Hx & _ & Hsx). congruence. }
  rewrite El in S4. apply NoDup_cons in S4 as [Hdl Hnd].
  split; [|done| | |].
  - intros t p Ht. destruct (Hp t p Ht) as (y & x & [P1 P2 P3 P4 P5 P6 P6' P7 P8 P9 P10]).
    destruct (lookup_update ss i _ y s (set_events s l) Hi P1) as [E Ey].
    destruct (Hv _ _ P2) as (x' & Hx' & V1 & V2 & V3 & V4 & V5).
    eexists _, x'. split; [exact E|exact Hx'|congruence|congruence|..]; try (case_decide as Hx; try done;
      rewrite ?(Ey Hx) in *; cbn; done).
    intros Hph. destruct (P10 Hph) as [T1 T2]. destruct (decide (p_delivery p = d)) as [Hpd|Hpd].
    + exfalso. rewrite Hpd in *. assert (x = xd) as -> by congruence. rewrite P3 in Hsd. subst i. rewrite P1 in Hi.
      injection Hi as ->. apply T2. rewrite El. left.
    + rewrite V5 by done. split; [done|]. case_decide as Hx; [|done]. rewrite (Ey Hx), El in *. cbn.
      intros ?. apply T2. by right.
  - intros j y Hj. entry Hj.
    + split; cbn; [done|done| |done|].
      * intros e Ht He. destruct (S3 e Ht He) as (x & o & Hx & Ho). destruct (Hv _ _ Hx) as (x' & ? & _ & _ & V3 & _).
        exists x', o. by rewrite V3.
      * intros e He. destruct (S5 e) as (x & Hx & ? & ?); [rewrite El; by right|].
        destruct (Hv _ _ Hx) as (x' & Hx' & _ & _ & _ & _ & V5). assert (e <> d) as Hne by congruence.
        rewrite (V5 Hne) in Hx'. eauto.
    + destruct (Hs _ _ Hj) as [R1 R2 R3 R4 R5]. split; [done|done| |done|].
      * intros e Ht He. destruct (R3 e Ht He) as (x & o & Hx & Ho). destruct (Hv _ _ Hx) as (x' & ? & _ & _ & V3 & _).
        exists x', o. by rewrite V3.
      * intros e He. destruct (R5 e He) as (x & Hx & ? & ?).
        destruct (Hv _ _ Hx) as (x' & Hx' & _ & _ & _ & _ & V5).
        assert (e <> d) as Hne by (intros ->; by eapply Hother). rewrite (V5 Hne) in Hx'. eauto.
  - intros e x' He. destruct (Hback _ _ He) as [x Hx]. destruct (Hv _ _ Hx) as (x2 & Hx2 & V1 & V2 & V3 & V4 & V5).
    rewrite He in Hx2. injection Hx2 as <-. destruct (Hd _ _ Hx) as (y & [D1 D2 D3 D4]).
    destruct (lookup_update ss i _ y s (set_events s l) Hi D1) as [E Ey].
    eexists. split; rewrite ?V1, ?V2, ?V3; [exact E|auto|done|]. intros Hn Hnp. destruct (D4 Hn Hnp) as [A B].
    case_decide as Hij; [|done]. by rewrite (Ey Hij) in *.
  - intros d1 d2 x1' x2' H1 H2 Hne He C1 C2.
    destruct (Hback _ _ H1) as [x1 Hx1], (Hback _ _ H2) as [x2 Hx2].
    destruct (Hv _ _ Hx1) as (y1 & Hy1 & A1 & A2 & A3 & _). destruct (Hv _ _ Hx2) as (y2 & Hy2 & B1 & B2 & B3 & _).
    rewrite H1 in Hy1. injection Hy1 as <-. rewrite H2 in Hy2. injection Hy2 as <-.
    unfold apart, claims in *. rewrite A1, B1. rewrite A3 in C1. rewrite B3 in C2.
    apply (Hc d1 d2 x1 x2); try done. congruence.
Qed.
End Session.

(* ------------------------------------------------------------------ *)
(** ** Deliveries: the publishers *)

Lemma pending_waiting ps t p d : ps !! t = Some p ->
  pending_publisher (<[t := waiting p]> ps) d <-> pending_publisher ps d.
Proof.
  intros Ht. unfold pending_publisher. split; intros (t' & p' & H & E).
  - entry H; eauto.
  - destruct (decide (t = t')) as [->|Hne].
    + exists t', (waiting p). rewrite lookup_insert_eq. split; [done|]. by assert (p' = p) as <- by congruence.
    + exists t', p'. by rewrite lookup_insert_ne.
Qed.

Lemma deliveries_waiting ss ds ps t p : deliveries_ok ss ds ps -> ps !! t = Some p ->
  deliveries_ok ss ds (<[t := waiting p]> ps).
Proof.
  intros [Hp Hu Hs Hd Hc] Ht.
  assert (forall t' p', <[t := waiting p]> ps !! t' = Some p' -> exists q, ps !! t' = Some q
    /\ p_key p' = p_key q /\ p_workerID p' = p_workerID q /\ p_event p' = p_event q /\ p_session p' = p_session q
    /\ p_delivery p' = p_delivery q /\ (p_phase p' = Waiting \/ p' = q)) as Hv.
  { intros t' p' H. entry H; [by exists p; split_and!; try left | exists p'; split_and!; try done; by right]. }
  assert (forall t' q, ps !! t' = Some q -> exists p', <[t := waiting p]> ps !! t' = Some p'
    /\ p_event p' = p_event q /\ p_session p' = p_session q /\ p_delivery p' = p_delivery q) as Hf.
  { intros t' q H. destruct (lookup_update ps t t' q p (waiting p) Ht H) as [E Eq]. eexists. split; [exact E|].
    case_decide as Hx; [by rewrite (Eq Hx) | done]. }
  split.
  - intros t' p' H'. destruct (Hv _ _ H') as (q & Hq & E1 & E2 & E3 & E4 & E5 & E6).
    destruct (Hp _ _ Hq) as (y & x & [P1 P2 P3 P4 P5 P6 P6' P7 P8 P9 P10]). exists y, x.
    split; rewrite ?E1, ?E2, ?E3, ?E4, ?E5; try done.
    intros Hph. destruct E6 as [E6|E6]; [congruence|]. subst q. by apply P10.
  - intros t1 t2 p1 p2 H1 H2. destruct (Hv _ _ H1) as (q1 & Hq1 & _ & _ & _ & _ & E1 & _).
    destruct (Hv _ _ H2) as (q2 & Hq2 & _ & _ & _ & _ & E2 & _). rewrite E1, E2. by eapply Hu.
  - intros j y Hj. destruct (Hs _ _ Hj) as [S1 S2 S3 S4 S5]. split; [..|done|done|done].
    + intros d Hin. destruct (S1 d Hin) as (t' & q & Hq & ? & ?). destruct (Hf _ _ Hq) as (p' & ? & E1 & E2 & E3).
      exists t', p'. by rewrite E2, E3.
    + intros id d Hin. destruct (S2 id d Hin) as (Hid & t' & q & Hq & ? & ? & ?). split; [done|].
      destruct (Hf _ _ Hq) as (p' & ? & E1 & E2 & E3). exists t', p'. by rewrite E1, E2, E3.
  - intros d x Hx. destruct (Hd _ _ Hx) as (y & [D1 D2 D3 D4]). exists y. split; [done..|by rewrite pending_waiting|].
    by rewrite pending_waiting.
  - intros d1 d2 x1 x2 H1 H2 Hne He C1 C2. unfold claims in *. rewrite pending_waiting in C1, C2 by done. by eapply Hc.
Qed.

(** A delivery is put in the channel of its session. *)
Lemma deliveries_send ss ds ps i s d x : deliveries_ok ss ds ps -> ss !! i = Some s -> ds !! d = Some x ->
  d_session x = i -> d_taken x = false -> d ∉ s_events s ->
  (forall t p, ps !! t = Some p -> p_delivery p = d -> p_phase p = Waiting) ->
  deliveries_ok (<[i := set_events s (s_events s ++ [d])%list]> ss) ds ps.
Proof.
  intros [Hp Hu Hs Hd Hc] Hi Hx Hxi Hxt Hn Hw. split; [|done| | |done].
  - intros t p Ht. destruct (Hp t p Ht) as (y & z & [P1 P2 P3 P4 P5 P6 P6' P7 P8 P9 P10]).
    destruct (lookup_update ss i _ y s (set_events s (s_events s ++ [d])%list) Hi P1) as [E Ey].
    eexists _, z. split; [exact E|done|done|done|..]; try (case_decide as Hx'; try done; rewrite ?(Ey Hx') in *; cbn; done).
    intros Hph. destruct (P10 Hph) as [T1 T2]. split; [done|]. case_decide as Hx'; [|done]. rewrite (Ey Hx') in *. cbn.
    rewrite elem_of_app, list_elem_of_singleton. intros [?|Hpd]; [done|]. rewrite (Hw t p Ht Hpd) in Hph. done.
  - intros j y Hj. entry Hj; [|by apply Hs]. destruct (Hs _ _ Hi) as [S1 S2 S3 S4 S5]. split; cbn; [done..| |].
    + apply NoDup_app. split_and!; [done| |apply NoDup_singleton]. by intros e He ->%list_elem_of_singleton.
    + intros e [He| ->%list_elem_of_singleton]%elem_of_app; [by apply S5|]. by exists x.
  - intros e z Hz. destruct (Hd _ _ Hz) as (y & [D1 D2 D3 D4]).
    destruct (lookup_update ss i _ y s (set_events s (s_events s ++ [d])%list) Hi D1) as [E Ey].
    eexists. split; [exact E|done|done|..]. intros Hn' Hnp. destruct (D4 Hn' Hnp) as [A B].
    case_decide as Hij; [|done]. by rewrite (Ey Hij) in *.
Qed.

(** What [settle_session] leaves of a session. *)
Lemma settle_view s p o c :
  let s' := settle_session s p o c in
  s_workerID s' = s_workerID s /\ s_assignment s' = s_assignment s /\ s_events s' = s_events s
  /\ s_terminal s' = s_terminal s /\ s_retired s' = s_retired s /\ s_pending s' = s_pending s ∖ {[p_delivery p]}
  /\ (forall id d, s_inflight s' !! id = Some d -> s_inflight s !! id = Some d
        /\ ~ (id = Event_ID (p_event p) /\ d = p_delivery p /\ id <> ""))
  /\ (forall id d, s_inflight s !! id = Some d -> d <> p_delivery p -> s_inflight s' !! id = Some d)
  /\ (forall id, id ∈ s_seen s' <-> id ∈ s_seen s \/ (id = Event_ID (p_event p) /\ id <> "" /\ o = None))
  /\ (s_terminalPending s' = s_terminalPending s \/ EndsResponse (p_event p) = true).
Proof.
  cbn zeta. unfold settle_session. set (id0 := Event_ID (p_event p)). set (d0 := p_delivery p).
  set (fl := if negb (is_empty id0) && (s_inflight s !! id0 =?= Some d0) then delete id0 (s_inflight s) else s_inflight s).
  assert (forall id d, fl !! id = Some d -> s_inflight s !! id = Some d /\ ~ (id = id0 /\ d = d0 /\ id <> "")) as F1.
  { intros id d. unfold fl. destruct (_ && _) eqn:E.
    - intros [Hne Hl]%lookup_delete_Some. split; [done|]. by intros [? _].
    - intros Hl. split; [done|]. intros (-> & -> & Hid). destruct (is_empty id0) eqn:Ee; [by apply is_empty_true in Ee|].
      cbn in E. decided. done. }
  assert (forall id d, s_inflight s !! id = Some d -> d <> d0 -> fl !! id = Some d) as F2.
  { intros id d Hl Hne. unfold fl. destruct (_ && _) eqn:E; [|done]. bool_split. decided.
    rewrite lookup_delete_ne; [done|]. intros <-. congruence. }
  assert (forall id, id ∈ s_seen (if negb (is_empty id0) && is_none o then set_seen s ({[id0]} ∪ s_seen s) else s)
    <-> id ∈ s_seen s \/ (id = id0 /\ id <> "" /\ o = None)) as F3.
  { intros id. destruct (negb (is_empty id0) && is_none o) eqn:E; cbn.
    - bool_split. match goal with H : is_none o = true |- _ => apply is_none_true in H as -> end.
      rewrite elem_of_union, elem_of_singleton. split; [intros [->|?]; [right|by left] | intros [?|(-> & _)]; [by right|by left]].
      split_and!; [done| |done]. intros Hid. rewrite Hid in *. done.
    - split; [by left|]. intros [?|(-> & Hid & ->)]; [done|]. rewrite andb_true_r in E. apply negb_false_iff, is_empty_true in E. done. }
  clearbody fl. destruct (negb (is_empty id0) && is_none o) eqn:Es, o as [e|], (EndsResponse (p_event p)) eqn:Et, c,
    (String.eqb (Event_Type (p_event p)) EventAccepted); cbn in *; split_and!; try done; first [by left | by right].
Qed.

Lemma pending_delete ps t p d : ps !! t = Some p ->
  (forall t1 t2 p1 p2, ps !! t1 = Some p1 -> ps !! t2 = Some p2 -> p_delivery p1 = p_delivery p2 -> t1 = t2) ->
  pending_publisher (delete t ps) d <-> pending_publisher ps d /\ d <> p_delivery p.
Proof.
  intros Ht Hu. unfold pending_publisher. split.
  - intros (t' & p' & [Hne H]%lookup_delete_Some & <-). split; [by eauto|]. intros E. by destruct Hne; eapply Hu.
  - intros [(t' & p' & H & <-) Hne]. exists t', p'. split; [|done]. apply lookup_delete_Some. split; [|done].
    intros <-. congruence.
Qed.

(** A call of [publish] returns. *)
Lemma deliveries_finish ss ds ps t p s x o c : deliveries_ok ss ds ps -> ps !! t = Some p ->
  ss !! p_session p = Some s -> ds !! p_delivery p = Some x -> d_outcome x = Some o ->
  (o = None -> EndsResponse (p_event p) = true -> s_terminal s = true) ->
  deliveries_ok (<[p_session p := settle_session s p o c]> ss) ds (delete t ps).
Proof.
  intros [Hp Hu Hs Hd Hc] Ht Hi Hx Ho Hend.
  pose proof (pending_delete ps t p) as Hpend.
  destruct (settle_view s p o c) as (V1 & V2 & V3 & V4 & V5 & V6 & V7 & V8 & V9 & V10).
  set (s' := settle_session s p o c) in *. clearbody s'.
  assert (exists y x', publisher_ok ss ds p y x') as (y0 & x0 & Hpub) by by eapply Hp.
  assert (y0 = s) as -> by (pose proof (pub_session _ _ _ _ _ Hpub); congruence).
  assert (x0 = x) as -> by (pose proof (pub_delivery _ _ _ _ _ Hpub); congruence).
  split.
  - intros t' q [Hne Hq]%lookup_delete_Some. destruct (Hp t' q Hq) as (y & z & [P1 P2 P3 P4 P5 P6 P6' P7 P8 P9 P10]).
    destruct (lookup_update ss _ _ y s s' Hi P1) as [E Ey].
    assert (p_delivery q <> p_delivery p) as Hqp by (intros Heq; by destruct Hne; eapply Hu).
    eexists _, z. split; [exact E|done|done|done|..]; case_decide as Hx'; try done; rewrite ?(Ey Hx') in *; clear E.
    + rewrite V6. apply elem_of_difference. split; [done|]. by intros ?%elem_of_singleton.
    + intros Hid. apply V8; [by apply P6 | done].
    + intros Hid [?|(Heq & _ & _)]%V9; [by apply P6'|]. pose proof (P6 Hid) as A. rewrite Heq in A, Hid.
      pose proof (pub_inflight _ _ _ _ _ Hpub Hid) as B. congruence.
    + rewrite V4. intros Ht1 Ht2. destruct V10 as [-> |Ht3]; [by apply P7|]. exfalso.
      assert (apart x z) as [_ Ha].
      { apply (Hc (p_delivery p) (p_delivery q)); try done.
        - by rewrite (pub_of _ _ _ _ _ Hpub), P3.
        - left. by exists t, p.
        - left. by exists t', q. }
      apply Ha. by rewrite (pub_event _ _ _ _ _ Hpub), P4.
    + by rewrite V1.
    + by rewrite V2.
    + by rewrite V3.
  - intros t1 t2 p1 p2 [_ H1]%lookup_delete_Some [_ H2]%lookup_delete_Some. by eapply Hu.
  - assert (forall t' q, ps !! t' = Some q -> p_delivery q <> p_delivery p -> delete t ps !! t' = Some q) as Hkeep.
    { intros t' q Hq Hne. apply lookup_delete_Some. split; [|done]. intros <-. congruence. }
    intros j y Hj. entry Hj.
    + destruct (Hs _ _ Hi) as [S1 S2 S3 S4 S5]. split; rewrite ?V3, ?V4; [..|done|done].
      * intros d. rewrite V6. intros [Hin Hnd]%elem_of_difference. destruct (S1 d Hin) as (t' & q & Hq & <- & ?).
        exists t', q. split; [|done]. apply Hkeep; [done|]. intros Heq. apply Hnd. by apply elem_of_singleton.
      * intros id d Hin. destruct (V7 id d Hin) as [Hin' Hnot]. destruct (S2 id d Hin') as (Hid & t' & q & Hq & <- & ? & <-).
        split; [done|]. exists t', q. split; [|done]. apply Hkeep; [done|]. intros Heq. apply Hnot.
        split_and!; [|done|done]. by assert (q = p) as -> by (assert (t' = t) as -> by (by eapply Hu); congruence).
      * intros d Htm. rewrite V6. intros [Hin _]%elem_of_difference. by apply S3.
    + match goal with Hne : p_session p <> j |- _ => rename Hne into Hj' end.
      destruct (Hs _ _ Hj) as [S1 S2 S3 S4 S5]. split; [..|done|done|done].
      * intros d Hin. destruct (S1 d Hin) as (t' & q & Hq & <- & Hqj). exists t', q. split; [|done].
        apply lookup_delete_Some. split; [|done]. intros <-. congruence.
      * intros id d Hin. destruct (S2 id d Hin) as (Hid & t' & q & Hq & <- & Hqj & Hqid). split; [done|].
        exists t', q. split; [|done]. apply lookup_delete_Some. split; [|done]. intros <-. congruence.
  - intros d z Hz. destruct (Hd _ _ Hz) as (y & [D1 D2 D3 D4]).
    destruct (lookup_update ss _ _ y s s' Hi D1) as [E Ey].
    eexists. split; [exact E|done|..]; rewrite Hpend by done.
    + intros Hn. split; [by apply D3|]. intros ->. congruence.
    + intros Hn Hnp. destruct (decide (d = p_delivery p)) as [->|Hne].
      * assert (z = x) as -> by congruence. assert (o = None) as -> by congruence.
        rewrite (pub_of _ _ _ _ _ Hpub), decide_True, (pub_event _ _ _ _ _ Hpub) by done. rewrite V4, V9.
        split; [by right|]. by apply Hend.
      * destruct D4 as [A B]; [done|by intros ?; apply Hnp|]. case_decide as Hij; [|done].
        rewrite (Ey Hij) in *. rewrite V4, V9. split; [left; by apply A | done].
  - intros d1 d2 x1 x2 H1 H2 Hne He C1 C2. apply (Hc d1 d2 x1 x2); try done.
    + destruct C1 as [[C1 _]%Hpend|C1]; [by left | done | done | by right].
    + destruct C2 as [[C2 _]%Hpend|C2]; [by left | done | done | by right].
Qed.

(** A delivery is made. *)
Lemma deliveries_start w key worker i s e : deliveries_ok (w_sessions w) (w_deliveries w) (w_publishers w) ->
  w_sessions w !! i = Some s -> s_terminal s = false -> s_terminalPending s = false ->
  (Event_ID e <> "" -> Event_ID e ∉ s_seen s /\ s_inflight s !! Event_ID e = None) ->
  (worker <> "" -> s_workerID s = worker) -> key = SessionKey (s_assignment s) ->
  let w' := (start_delivery w key worker i s e).2 in
  deliveries_ok (w_sessions w') (w_deliveries w') (w_publishers w').
Proof.
  intros [Hp Hu Hs Hd Hc] Hi Hlive Hopen Hid Hown Hkey. unfold start_delivery.
  destruct w as [h ss ds st rs ps r]. cbn in *.
  set (d := fresh (dom ds)). set (t := fresh (dom ps)).
  assert (ds !! d = None) as Hdn by apply not_elem_of_dom, is_fresh.
  assert (ps !! t = None) as Htn by apply not_elem_of_dom, is_fresh.
  clearbody d t. set (p := Build_publisher _ _ _ _ _ _). set (x := Build_delivery _ _ _ _).
  set (fl := if is_empty (Event_ID e) then s_inflight s else <[Event_ID e := d]> (s_inflight s)).
  set (s' := set_flight _ fl _).
  assert (forall id d', s_inflight s !! id = Some d' -> fl !! id = Some d') as F1.
  { intros id d' Hl. unfold fl. destruct (is_empty (Event_ID e)) eqn:E; [done|]. rewrite lookup_insert_ne; [done|].
    intros <-. destruct Hid as [_ Hn]; [by intros E'; rewrite E' in E|]. congruence. }
  assert (forall id d', fl !! id = Some d' -> s_inflight s !! id = Some d' \/ (id = Event_ID e /\ d' = d /\ id <> "")) as F2.
  { intros id d'. unfold fl. destruct (is_empty (Event_ID e)) eqn:E; [by left|]. intros Hl. entry Hl; [right|by left].
    split_and!; [done..|]. by intros E'; rewrite E' in E. }
  assert (Event_ID e <> "" -> fl !! Event_ID e = Some d) as F3.
  { intros Hne. unfold fl. destruct (is_empty (Event_ID e)) eqn:E; [by apply is_empty_true in E|]. apply lookup_insert_eq. }
  clearbody fl.
  assert (forall d', pending_publisher ps d' -> d' <> d) as Hold.
  { intros d' (t' & q & Hq & <-) E. destruct (Hp _ _ Hq) as (y & z & Hpub). pose proof (pub_delivery _ _ _ _ _ Hpub). congruence. }
  assert (forall d', pending_publisher (<[t := p]> ps) d' <-> d' = d \/ pending_publisher ps d') as Hpend.
  { intros d'. unfold pending_publisher. split.
    - intros (t' & q & Hq & <-). entry Hq; [by left | right; eauto].
    - intros [->|(t' & q & Hq & <-)]; [exists t, p; by rewrite lookup_insert_eq|].
      exists t', q. rewrite lookup_insert_ne; [done|]. intros <-. congruence. }
  assert (forall z, ds !! d = Some z -> False) as Hno by congruence.
  split.
  - intros t' q Hq. entry Hq.
    + exists s', x. split; cbn; try done; rewrite ?lookup_insert_eq; try done.
      * apply elem_of_union_l. by apply elem_of_singleton.
      * intros Hne. by apply Hid.
      * intros -> _. apply orb_true_r.
      * intros _. split; [done|]. intros Hin. destruct (Hs _ _ Hi) as [_ _ _ _ S5]. destruct (S5 _ Hin) as (z & Hz & _).
        by eapply Hno.
    + destruct (Hp _ _ Hq) as (y & z & [P1 P2 P3 P4 P5 P6 P6' P7 P8 P9 P10]).
      destruct (lookup_update ss i _ y s s' Hi P1) as [E Ey].
      assert (<[d := x]> ds !! p_delivery q = Some z) as Hz by (rewrite lookup_insert_ne; [done | congruence]).
      eexists _, z. split; [exact E|exact Hz|done|done|..]; case_decide as Hx; try done; rewrite ?(Ey Hx) in *; cbn; clear E.
      * by apply elem_of_union_r.
      * intros Hne. by apply F1, P6.
      * done.
      * intros Ht1 Ht2. by rewrite (P7 Ht1 Ht2).
      * done.
      * done.
      * done.
  - intros t1 t2 p1 p2 H1 H2 Heq. entry H1; entry H2; try done.
    + exfalso. destruct (Hold (p_delivery p2)); [by exists t2, p2|]. done.
    + exfalso. destruct (Hold (p_delivery p1)); [by exists t1, p1|]. done.
    + by eapply Hu.
  - assert (forall t' q, ps !! t' = Some q -> <[t := p]> ps !! t' = Some q) as Hps.
    { intros t' q Hq. rewrite lookup_insert_ne; [done|congruence]. }
    assert (forall d' z, ds !! d' = Some z -> <[d := x]> ds !! d' = Some z) as Hds.
    { intros d' z Hz. rewrite lookup_insert_ne; [done|congruence]. }
    intros j y Hj. entry Hj.
    + destruct (Hs _ _ Hi) as [S1 S2 S3 S4 S5]. split; cbn.
      * intros d' [->%elem_of_singleton|Hin]%elem_of_union.
        { exists t, p. by rewrite lookup_insert_eq. }
        destruct (S1 _ Hin) as (t' & q & ? & ? & ?). eauto 10.
      * intros id d' [Hin|(-> & -> & Hne)]%F2.
        { destruct (S2 _ _ Hin) as (? & t' & q & ? & ? & ? & ?). split; [done|]. eauto 10. }
        split; [done|]. exists t, p. by rewrite lookup_insert_eq.
      * congruence.
      * done.
      * intros d' Hin. destruct (S5 _ Hin) as (z & ? & ? & ?). eauto.
    + destruct (Hs _ _ Hj) as [S1 S2 S3 S4 S5]. split; [..|done|].
      * intros d' Hin. destruct (S1 _ Hin) as (t' & q & ? & ? & ?). eauto 10.
      * intros id d' Hin. destruct (S2 _ _ Hin) as (? & t' & q & ? & ? & ? & ?). split; [done|]. eauto 10.
      * intros d' Ht Hin. destruct (S3 _ Ht Hin) as (z & o & ? & ?). eauto.
      * intros d' Hin. destruct (S5 _ Hin) as (z & ? & ? & ?). eauto.
  - intros d' z Hz. entry Hz.
    + exists s'. split; cbn; try done; [by rewrite lookup_insert_eq|]. intros _. apply Hpend. by left.
    + destruct (Hd _ _ Hz) as (y & [D1 D2 D3 D4]). destruct (lookup_update ss i _ y s s' Hi D1) as [E Ey].
      eexists. split; [exact E|done|..]; rewrite Hpend.
      * intros Hn. right. by apply D3.
      * intros Hn Hnp. destruct D4 as [A B]; [done|by intros ?; apply Hnp; right|].
        case_decide as Hij; [|done]. rewrite (Ey Hij) in *. done.
  - assert (forall d' z, ds !! d' = Some z -> d_session z = i -> claims ps d' z ->
      (Event_ID e <> "" -> Event_ID e <> Event_ID (d_event z)) /\ (EndsResponse (d_event z) = false)) as Hnew.
    { intros d' z Hz Hzi Hcl.
      assert (pending_publisher ps d' \/ ~ pending_publisher ps d') as [(t' & q & Hq & Hqd)|Hnp].
      { unfold claims in Hcl. destruct (decide (Exists (fun tp => p_delivery tp.2 = d') (map_to_list ps))) as [Hex|Hex].
        - left. apply Exists_exists in Hex as ([t' q] & Hin%elem_of_map_to_list & Hqd). by exists t', q.
        - right. intros (t' & q & Hq & Hqd). apply Hex, Exists_exists. exists (t', q). by rewrite elem_of_map_to_list. }
      - destruct (Hp _ _ Hq) as (y & z' & [P1 P2 P3 P4 P5 P6 P6' P7 P8 P9 P10]). rewrite Hqd in *.
        assert (z' = z) as -> by congruence. assert (y = s) as -> by congruence. rewrite P4. split.
        + intros Hne Heq. destruct (Hid Hne) as [_ Hn]. rewrite Heq in Hn, Hne. rewrite P6 in Hn; done.
        + destruct (EndsResponse (p_event q)) eqn:Et; [|done]. rewrite P7 in Hopen; done.
      - destruct Hcl as [?|Ho]; [done|]. destruct (Hd _ _ Hz) as (y & [D1 D2 D3 D4]). assert (y = s) as -> by congruence.
        destruct (D4 Ho Hnp) as [A B]. split.
        + intros Hne Heq. destruct (Hid Hne) as [Hn _]. apply Hn. rewrite Heq. apply A. congruence.
        + destruct (EndsResponse (d_event z)); [|done]. rewrite B in Hlive; done. }
    intros d1 d2 x1 x2 H1 H2 Hne He C1 C2. unfold claims in *. rewrite Hpend in C1, C2. entry H1; entry H2; try done.
    + destruct (Hnew d2 x2 H2) as [A B]; [done|naive_solver|]. split; cbn; [done|]. rewrite B. by intros [_ ?].
    + destruct (Hnew d1 x1 H1) as [A B]; [done|naive_solver|]. split; cbn; [|rewrite B; by intros [? _]].
      intros Hn Heq. apply A; congruence.
    + eapply Hc; [exact H1|exact H2|done..| |]; naive_solver.
Qed.

(* ------------------------------------------------------------------ *)
(** ** The pieces of an operation keep the invariant *)

Lemma fresh_session (w : world) : w_sessions w !! fresh (dom (w_sessions w)) = None.
Proof. apply not_elem_of_dom, is_fresh. Qed.

Lemma inv_receipts_only w m l : invariant w -> receipts_ok (set_receipts (hub w) m l) ->
  invariant (with_hub w (set_receipts (hub w) m l)).
Proof.
  intros [I1 I2 I3 I4 I5 I6 I7] Hr. split; [|..|done].
  - destruct I1. by split.
  - destruct I2. by split.
  - done.
  - done.
  - (eapply workers_ok_frame; [..|exact I5]); done.
  - done.
Qed.

Lemma inv_retired_owner w key id : invariant w -> invariant (with_hub w (rememberRetiredOwner (hub w) key id)).
Proof.
  intros H. pose proof (rememberRetiredOwner_ok (hub w) key id (inv_receipts w H)) as Hr.
  destruct (rememberRetiredOwner_rest (hub w) key id) as (m & l & E). rewrite E in *. by apply inv_receipts_only.
Qed.

Lemma inv_terminal_receipt w key id e : invariant w -> invariant (with_hub w (rememberTerminal (hub w) key id e)).
Proof.
  intros H. pose proof (rememberTerminal_ok (hub w) key id e (inv_receipts w H)) as Hr.
  destruct (rememberTerminal_rest (hub w) key id e) as (m & l & E). rewrite E in *. by apply inv_receipts_only.
Qed.

(** Only the states of the workers change. *)
Lemma inv_states w states : invariant w -> workers_ok (hub w) (w_sessions w) states -> invariant (with_states w states).
Proof.
  intros [I1 I2 I3 I4 I5 I6 I7] Hw. split; cbn; try done. destruct I2. by split.
Qed.

Lemma inv_enqueue_at w k a i : invariant w -> is_Some (w_sessions w !! i) ->
  (forall st, w_states w !! k = Some st -> i ∉ (queued_session <$> ws_pending st)) ->
  invariant (enqueue_at w k a i).2.
Proof.
  intros H Hi Hn. pose proof (enqueue_at_workers w k a i (hub w) (inv_workers w H) Hi Hn) as Hw.
  destruct (enqueue_at_parts w k a i) as [states E]. rewrite E in *. by apply inv_states.
Qed.

Lemma inv_alter_state w k f : invariant w ->
  (forall st, w_states w !! k = Some st -> queue_ok (hub w) (w_sessions w) (f st)
     /\ ws_worker (f st) = ws_worker st /\ ws_done (f st) = ws_done st) ->
  invariant (with_states w (alter f k (w_states w))).
Proof.
  intros H Hf. apply inv_states; [done|]. destruct (w_states w !! k) as [st|] eqn:E.
  - destruct (Hf st eq_refl) as (? & ? & ?).
    replace (alter f k (w_states w)) with (<[k := f st]> (w_states w)); [by eapply workers_ok_update; eauto using inv_workers|].
    apply map_eq. intros j. destruct (decide (k = j)) as [->|Hne].
    + by rewrite lookup_insert_eq, lookup_alter_eq, E.
    + by rewrite lookup_insert_ne, lookup_alter_ne.
  - replace (alter f k (w_states w)) with (w_states w); [by apply inv_workers|]. symmetry. by apply alter_id; intros; congruence.
Qed.

Lemma inv_ensure w k : invariant w ->
  invariant (with_states w (alter (fun st => ensureCapacity st (active (hub w))) k (w_states w))).
Proof.
  intros H. apply inv_alter_state; [done|]. intros st Hst.
  destruct (state_queue _ _ _ (inv_workers w H) k st Hst) as [Q1 Q2 Q3 Q4].
  split_and!; [|done..]. split; cbn; try done; destruct (_ <? _)%Z eqn:E; zbool; lia.
Qed.

Lemma inv_use w r x : invariant w -> w_reservations w !! r = Some x -> r_used x = false ->
  invariant (use_reservation w r x)
  /\ (active (hub w) + reserved (hub (use_reservation w r x)) < capacity (hub w) + restored w)%Z.
Proof.
  intros [I1 [C1 C2 C3] I3 I4 I5 I6 I7] Hr Hu.
  pose proof (count_update unused (w_reservations w) r x {| r_workerID := r_workerID x; r_used := true |} Hr) as Hc.
  unfold unused at 2 4 in Hc. rewrite Hu in Hc. cbn in Hc. unfold within_capacity in I3.
  split; [|cbn; lia]. split; cbn.
  - destruct I1. by split.
  - split; cbn; [lia|done|done].
  - unfold within_capacity. cbn. lia.
  - destruct I4. by split.
  - (eapply workers_ok_frame; [..|exact I5]); done.
  - done.
  - done.
Qed.

Lemma inv_open w s : invariant w ->
  (active (hub w) + reserved (hub w) < capacity (hub w) + restored w)%Z ->
  sessions (hub w) !! SessionKey (s_assignment s) = None ->
  s_terminal s = false -> s_retired s = false -> s_pending s = ∅ -> s_inflight s = ∅ -> s_events s = [] ->
  invariant (open_session w s).2.
Proof.
  intros [I1 [C1 C2 C3] I3 I4 I5 I6 I7] Hslack Hkey Ht Hr E1 E2 E3. pose proof (fresh_session w) as Hi.
  unfold open_session. cbn. set (i := fresh _) in *. clearbody i. split; cbn.
  - destruct I1 as [T1 T2 T3 T4]. split; cbn.
    + intros key j Hj. entry Hj; [exists s; by rewrite lookup_insert_eq|].
      destruct (T1 _ _ Hj) as (y & Hy & ? & ?). exists y. rewrite lookup_insert_ne; [done|congruence].
    + intros j y Hj Hlive. entry Hj; [by rewrite lookup_insert_eq|]. pose proof (T2 _ _ Hj Hlive) as Hk.
      rewrite lookup_insert_ne; [done|]. intros Heq. rewrite <- Heq in Hk. congruence.
    + intros j y Hj. entry Hj; [congruence | by eapply T3].
    + rewrite map_size_insert_None by done. lia.
  - by split.
  - unfold within_capacity. cbn. lia.
  - destruct I4. by split.
  - eapply workers_ok_frame; [..|exact I5]; [done|done|]. intros j [y Hy]. exists y.
    rewrite lookup_insert_ne; [done|congruence].
  - done.
  - by apply deliveries_new.
Qed.

Lemma retire_eq w key i s err : w_sessions w !! i = Some s -> sessions (hub w) !! key = Some i -> s_terminal s = false ->
  retireSessionLocked w key i err =
  (true, {| hub := set_sessions (hub w) (delete key (sessions (hub w))) (active (hub w) - 1);
            w_sessions := <[i := set_retired s]> (w_sessions w);
            w_deliveries := commit_all (w_deliveries w) (elements (s_pending s)) (Some (default ErrSessionMissing err));
            w_states := w_states w; w_reservations := w_reservations w; w_publishers := w_publishers w;
            restored := restored w |}).
Proof.
  intros Hi Hk Ht. unfold retireSessionLocked. rewrite Hi, Hk, Ht. by rewrite bool_decide_eq_true_2.
Qed.

Lemma inv_retire w key i s err : invariant w -> w_sessions w !! i = Some s -> sessions (hub w) !! key = Some i ->
  s_terminal s = false -> invariant (retireSessionLocked w key i err).2.
Proof.
  intros [I1 [C1 C2 C3] I3 I4 I5 I6 I7] Hi Hk Ht. rewrite (retire_eq _ _ _ _ _ Hi Hk Ht). cbn. split; cbn.
  - destruct I1 as [T1 T2 T3 T4]. split; cbn.
    + intros key' j [Hne Hj]%lookup_delete_Some. destruct (T1 _ _ Hj) as (y & Hy & Hlive & Hkey). exists y.
      rewrite lookup_insert_ne; [done|]. intros ->. destruct (T1 _ _ Hk) as (y' & ? & _ & ?). congruence.
    + intros j y Hj Hlive. entry Hj. pose proof (T2 _ _ Hj Hlive). apply lookup_delete_Some. split; [congruence|done].
    + intros j y Hj. entry Hj; [done | by eapply T3].
    + rewrite T4, <- (insert_delete_id (sessions (hub w)) key i Hk) at 1.
      rewrite map_size_insert_None by apply lookup_delete_eq. lia.
  - by split.
  - unfold within_capacity in *. cbn. lia.
  - destruct I4. by split.
  - eapply workers_ok_frame; [..|exact I5]; [done|done|]. intros j [y Hy]. destruct (decide (i = j)) as [->|Hne].
    + rewrite lookup_insert_eq. eauto.
    + rewrite lookup_insert_ne by done. eauto.
  - done.
  - apply deliveries_retire; [by apply deliveries_commit_all | done|]. intros d Hd.
    destruct (all_sessions _ _ _ I7 i s Hi) as [S1 _ _ _ _]. destruct (S1 d Hd) as (t & p & Hp & <- & _).
    destruct (all_publishers _ _ _ I7 t p Hp) as (y & x & Hpub). pose proof (pub_delivery _ _ _ _ _ Hpub) as Hx.
    rewrite commit_all_lookup, Hx. cbn. destruct (decide _) as [_|Hn]; [|by destruct Hn; apply elem_of_elements].
    destruct (settled_rest x (Some (default ErrSessionMissing err))) as (_ & _ & _ & o & Ho). eauto.
Qed.

(* ------------------------------------------------------------------ *)
(** ** Registration *)

(** What the loop makes of a session, and what it queues. *)
Definition adopted (s : session) (worker : string) : session :=
  if is_empty (s_workerID s) && negb (s_terminal s) then set_owner s worker else s.
Definition owned (s : session) (worker : string) : bool := (s_workerID s =?= worker) && negb (s_terminal s).
Definition requeued (ss : gmap nat session) (worker : string) (l : list nat) : list queuedAssignment :=
  omap (fun i => match ss !! i with
                 | Some s => if owned (adopted s worker) worker
                             then Some {| queued_assignment := s_assignment (adopted s worker); queued_session := i |}
                             else None
                 | None => None end) l.

#[local] Arguments requeued : simpl never.

Lemma adopted_view s worker : same_view s (adopted s worker).
Proof.
  unfold adopted. destruct (_ && _) eqn:E; [|apply same_view_refl]. split; try done. bool_split.
  match goal with H : is_empty _ = true |- _ => apply is_empty_true in H end. done.
Qed.

Lemma adopted_flags s worker : s_terminal (adopted s worker) = s_terminal s /\ s_retired (adopted s worker) = s_retired s.
Proof. unfold adopted. by destruct (_ && _). Qed.

(** A session takes an owner. *)
Lemma inv_adopt w i s worker : invariant w -> w_sessions w !! i = Some s ->
  invariant (with_sessions w (<[i := adopted s worker]> (w_sessions w))).
Proof.
  intros [I1 [C1 C2 C3] I3 I4 I5 I6 I7] Hi. pose proof (adopted_view s worker) as V. destruct (adopted_flags s worker) as [Et Er].
  split; cbn; try done.
  - destruct I1 as [T1 T2 T3 T4]. split; [..|done].
    + intros key j Hj. destruct (T1 _ _ Hj) as (y & Hy & ? & ?). destruct (decide (i = j)) as [->|Hne].
      * assert (y = s) as -> by congruence. exists (adopted s worker). rewrite lookup_insert_eq, Et, (view_key _ _ V). done.
      * exists y. by rewrite lookup_insert_ne.
    + intros j y Hj Hlive. entry Hj; [|by apply T2]. rewrite (view_key _ _ V). apply T2; congruence.
    + intros j y Hj. entry Hj; [rewrite Et, Er|]; by eapply T3.
  - eapply workers_ok_frame; [..|exact I5]; [done|done|]. intros j [y Hy]. destruct (decide (i = j)) as [->|Hne].
    + rewrite lookup_insert_eq. eauto.
    + rewrite lookup_insert_ne by done. eauto.
  - by eapply deliveries_view.
Qed.

(** The queue of the new state while the loop runs. *)
Lemma requeue_cons w worker k i l s : w_sessions w !! i = Some s ->
  requeue w worker k (i :: l) =
  let w := with_sessions w (<[i := adopted s worker]> (w_sessions w)) in
  if owned (adopted s worker) worker then
    let '(sent, w) := enqueue_at w k (s_assignment (adopted s worker)) i in
    if sent then requeue w worker k l else (false, w)
  else requeue w worker k l.
Proof. intros Hi. cbn. by rewrite Hi. Qed.

Lemma requeued_adopt ss worker l i s : i ∉ l -> requeued (<[i := s]> ss) worker l = requeued ss worker l.
Proof.
  unfold requeued. induction l as [|j l IH]; cbn; [done|]. intros Hn. rewrite not_elem_of_cons in Hn.
  rewrite lookup_insert_ne, IH by naive_solver. done.
Qed.

Lemma requeued_cons ss worker i l s : ss !! i = Some s ->
  requeued ss worker (i :: l) =
  if owned (adopted s worker) worker
  then {| queued_assignment := s_assignment (adopted s worker); queued_session := i |} :: requeued ss worker l
  else requeued ss worker l.
Proof. intros Hi. unfold requeued. cbn. rewrite Hi. by destruct (owned _ _). Qed.

Definition all_live (w : world) (st : workerState) : Prop :=
  forall q, q ∈ ws_pending st -> is_retired (w_sessions w) (queued_session q) = false.

Lemma kept_all w st : all_live w st -> kept (w_sessions w) st = ws_pending st.
Proof.
  unfold all_live, kept. generalize (ws_pending st). intros l. induction l as [|q l IH]; [done|]. intros H.
  rewrite filter_cons_True by (apply H; left). f_equal. apply IH. intros q' Hq'. apply H. by right.
Qed.

Lemma is_retired_adopt ss i s worker j : ss !! i = Some s ->
  is_retired (<[i := adopted s worker]> ss) j = is_retired ss j.
Proof.
  intros Hi. unfold is_retired. destruct (decide (i = j)) as [->|Hne].
  - rewrite lookup_insert_eq, Hi. apply adopted_flags.
  - by rewrite lookup_insert_ne.
Qed.

Lemma enqueue_at_sent w k st a i : w_states w !! k = Some st -> ws_done st = false -> all_live w st ->
  (enqueue (w_sessions w) st a i).1 = true ->
  enqueue_at w k a i =
  (true, with_states w (<[k := set_queue st (ws_pending st ++ [{| queued_assignment := a; queued_session := i |}])%list true]>
                          (w_states w))).
Proof.
  intros Hk Hd Hl. unfold enqueue_at. rewrite Hk. unfold enqueue. rewrite Hd. fold (kept (w_sessions w) st).
  rewrite kept_all by done. by destruct (_ <=? _)%Z.
Qed.

(** The loop queues every session it owns: there is room for all. *)
Lemma requeue_spec l : forall w worker k st, invariant w -> worker <> "" -> w_states w !! k = Some st -> ws_done st = false ->
  (active (hub w) <= ws_capacity st)%Z -> all_live w st -> NoDup l ->
  (forall i, i ∈ l -> i ∉ (queued_session <$> ws_pending st)
     /\ exists s, w_sessions w !! i = Some s /\ s_terminal s = false) ->
  exists w' n, requeue w worker k l = (true, w') /\ invariant w' /\ hub w' = hub w
    /\ (forall i, w_sessions w' !! i = (fun s => if decide (i ∈ l) then adopted s worker else s) <$> w_sessions w !! i)
    /\ w_states w' = <[k := set_queue st (ws_pending st ++ requeued (w_sessions w) worker l)%list n]> (w_states w)
    /\ w_deliveries w' = w_deliveries w /\ w_publishers w' = w_publishers w.
Proof.
  induction l as [|i l IH]; intros w worker k st H Hw Hk Hd Hc Hl Hnd Hin.
  { exists w, (notify st). split_and!; try done.
    - intros i. destruct (w_sessions w !! i); [|done]. cbn. by destruct (decide (i ∈ [])) as [?%elem_of_nil|].
    - cbn. rewrite app_nil_r, insert_id; [done|]. rewrite Hk. by destruct st. }
  apply NoDup_cons in Hnd as [Hil Hnd]. destruct (Hin i) as (Hnq & s & Hs & Hlive); [left|].
  rewrite (requeue_cons _ _ _ _ _ _ Hs). cbn zeta. set (w1 := with_sessions w _).
  assert (invariant w1) as H1 by by apply inv_adopt.
  assert (forall j, j ∈ l -> j <> i) as Hji by (intros j Hj ->; done).
  assert (all_live w1 st) as Hl1.
  { intros q Hq. unfold w1. cbn. rewrite is_retired_adopt by done. by apply Hl. }
  assert (forall j, j ∈ l -> exists s', w_sessions w1 !! j = Some s' /\ s_terminal s' = false) as Hlive1.
  { intros j Hj. destruct (Hin j) as (_ & s' & Hs' & ?); [by right|]. exists s'. unfold w1. cbn.
    rewrite lookup_insert_ne; [done|]. intros <-. done. }
  assert (requeued (w_sessions w1) worker l = requeued (w_sessions w) worker l) as Er by by apply requeued_adopt.
  assert (forall w2 m, w_sessions w2 = m -> m = w_sessions w1 -> forall w', 
      (forall j, w_sessions w' !! j = (fun s => if decide (j ∈ l) then adopted s worker else s) <$> w_sessions w2 !! j) ->
      forall j, w_sessions w' !! j = (fun s => if decide (j ∈ i :: l) then adopted s worker else s) <$> w_sessions w !! j) as Hfin.
  { intros w2 m -> -> w' Hw' j. rewrite Hw'. unfold w1. cbn. destruct (decide (i = j)) as [->|Hne].
    - rewrite lookup_insert_eq, Hs. cbn. f_equal. destruct (decide (j ∈ l)) as [|_]; [done|].
      destruct (decide (j ∈ j :: l)) as [_|Hx]; [done|]. by destruct Hx; left.
    - rewrite lookup_insert_ne by done. destruct (w_sessions w !! j); [|done]. cbn. f_equal.
      destruct (decide (j ∈ l)), (decide (j ∈ i :: l)) as [[?|?]%elem_of_cons|Hx]; try done.
      by destruct Hx; right. }
  destruct (owned _ _) eqn:Eo.
  - assert ((enqueue (w_sessions w1) st (s_assignment (adopted s worker)) i).1 = true) as Hsent.
    { apply (enqueue_room (hub w1)); try done; [by apply inv_table | by eapply state_queue; [apply inv_workers|]|].
      exists (adopted s worker). unfold w1. cbn. rewrite lookup_insert_eq. split; [done|].
      by destruct (adopted_flags s worker) as [-> _]. }
    pose proof (inv_enqueue_at w1 k (s_assignment (adopted s worker)) i H1) as H2.
    rewrite (enqueue_at_sent w1 k st _ _ Hk Hd Hl1 Hsent) in *.
    set (st2 := set_queue st _ true) in *. cbn [snd] in H2.
    assert (invariant (with_states w1 (<[k := st2]> (w_states w1)))) as H3.
    { apply H2; [unfold w1; cbn; rewrite lookup_insert_eq; eauto|]. intros st' Hst'.
      by assert (st' = st) as -> by (unfold w1 in Hst'; cbn in Hst'; congruence). }
    destruct (IH (with_states w1 (<[k := st2]> (w_states w1))) worker k st2) as (w' & n & E & Hi' & Eh & Es & Est & Ed & Ep);
      [done|done|by cbn; rewrite lookup_insert_eq|done|done| |done|..].
    { intros q Hq. cbn in Hq. apply elem_of_app in Hq as [Hq| ->%list_elem_of_singleton]; [by apply Hl1|].
      unfold w1. cbn. rewrite is_retired_adopt by done. unfold is_retired. rewrite Hs.
      by rewrite (retired_terminal _ _ (inv_table w H) i s Hs). }
    { intros j Hj. cbn. split; [|by apply Hlive1]. rewrite fmap_app. cbn. rewrite elem_of_app, list_elem_of_singleton.
      intros [?| ->]; [|by eapply Hji]. by apply (proj1 (Hin j (list_elem_of_further _ _ _ Hj))). }
    exists w', n. rewrite E. split_and!; [done|done|by rewrite Eh|by eapply Hfin| |by rewrite Ed|by rewrite Ep].
    rewrite Est. cbn. rewrite insert_insert_eq. unfold w1. cbn. f_equal. unfold set_queue. cbn. f_equal.
    rewrite <- app_assoc, (requeued_cons _ _ _ _ _ Hs), Eo. cbn [app]. by rewrite <- Er.
  - destruct (IH w1 worker k st) as (w' & n & E & Hi' & Eh & Es & Est & Ed & Ep); try done.
    { intros j Hj. split; [|by apply Hlive1]. by apply (proj1 (Hin j (list_elem_of_further _ _ _ Hj))). }
    exists w', n. rewrite E. split_and!; [done|done|by rewrite Eh|by eapply Hfin| |by rewrite Ed|by rewrite Ep].
    rewrite Est. by rewrite (requeued_cons _ _ _ _ _ Hs), Eo, <- Er.
Qed.

(** A fresh state is registered, with the count of the online workers. *)
Definition enlisted (w : world) (workerID instance : string) : nat * world :=
  let h := hub w in
  let k := fresh (dom (w_states w)) in
  let online := if is_none (workers h !! workerID) then (onlineWorkers h + 1)%Z else onlineWorkers h in
  (k, with_states (with_hub w (set_workers h (<[workerID := k]> (workers h)) online))
        (<[k := newWorkerState (Z.max (capacity h) (active h)) workerID instance]> (w_states w))).

Lemma inv_enlist w workerID instance : invariant w -> invariant (enlisted w workerID instance).2.
Proof.
  intros [I1 [C1 C2 C3] I3 I4 I5 I6 I7].
  assert (w_states w !! fresh (dom (w_states w)) = None) as Hk by apply not_elem_of_dom, is_fresh.
  unfold enlisted. set (k := fresh _) in *. clearbody k. cbn. split; cbn; try done.
  - destruct I1. by split.
  - destruct I4. by split.
  - destruct I5 as [W1 W2]. split; cbn.
    + intros id j Hj. entry Hj; [eexists; by rewrite lookup_insert_eq|].
      destruct (W1 _ _ Hj) as (st & Hst & ? & ?). exists st. rewrite lookup_insert_ne; [done|congruence].
    + intros j st Hj. entry Hj.
      * split; cbn; [constructor|by intros q ?%elem_of_nil|lia|lia].
      * eapply queue_ok_frame; [..|by eapply W2]; done.
  - unfold online_counts in *. cbn. destruct (workers (hub w) !! workerID) as [p|] eqn:E; cbn.
    + rewrite map_size_insert_Some by eauto. done.
    + rewrite map_size_insert_None by done. lia.
Qed.

(** A state that is not registered is closed. *)
Lemma inv_close w k : invariant w -> (forall id, workers (hub w) !! id <> Some k) -> invariant (close_state w k).
Proof.
  intros [I1 [C1 C2 C3] I3 I4 I5 I6 I7] Hno. split; cbn; try done.
  destruct I5 as [W1 W2]. split.
  - intros id j Hj. destruct (W1 _ _ Hj) as (st & Hst & ? & ?). exists st.
    rewrite lookup_alter_ne; [done|]. intros ->. by eapply Hno.
  - intros j st Hj. entry Hj; [|by eapply W2]. match goal with H : w_states w !! _ = Some _ |- _ => destruct (W2 _ _ H) end. by split.
Qed.

Lemma requeue_with_hub l : forall w h worker k,
  requeue (with_hub w h) worker k l = ((requeue w worker k l).1, with_hub (requeue w worker k l).2 h).
Proof.
  induction l as [|i l IH]; intros w h worker k; [done|]. cbn [requeue]. cbn [w_sessions with_hub].
  destruct (w_sessions w !! i) as [s|]; [|apply IH]. cbv zeta. destruct (_ && negb (s_terminal _)); [|].
  all: match goal with |- context [if ?b then _ else _] => destruct b end; try (rewrite <- IH; done).
  all: unfold enqueue_at; cbn [w_states w_sessions with_sessions with_hub]; destruct (w_states w !! k) as [st|]; [|done];
    destruct (enqueue _ _ _ _) as [sent st']; destruct sent; [|done]; rewrite <- IH; done.
Qed.


(** The live sessions, each once, in any order. *)
Lemma all_live_sessions w l : invariant w -> l ≡ₚ (map_to_list (sessions (hub w))).*2 ->
  NoDup l /\ forall i, i ∈ l <-> exists s, w_sessions w !! i = Some s /\ s_terminal s = false.
Proof.
  intros H Hl. destruct (inv_table w H) as [T1 T2 _ _]. rewrite Hl. split.
  - apply NoDup_fmap_2_strong; [|apply NoDup_map_to_list]. intros [k1 i] [k2 j] H1%elem_of_map_to_list H2%elem_of_map_to_list.
    cbn. intros ->. destruct (T1 _ _ H1) as (s & ? & _ & ?), (T1 _ _ H2) as (s' & ? & _ & ?). congruence.
  - intros i. rewrite Hl, list_elem_of_fmap. split.
    + intros ([key j] & -> & Hj%elem_of_map_to_list). destruct (T1 _ _ Hj) as (s & ? & ? & _). eauto.
    + intros (s & Hs & Hlive). exists (SessionKey (s_assignment s), i). split; [done|]. apply elem_of_map_to_list. by apply T2.
Qed.

(** What a registration that is not refused leaves. *)
Definition refused (w : world) (workerID instance : string) : Prop :=
  workerID = "" \/ IsStableKey instance = false
  \/ exists k st, workers (hub w) !! workerID = Some k /\ w_states w !! k = Some st /\ instanceID st <> instance.

Lemma register_spec w workerID instance l : invariant w -> l ≡ₚ (map_to_list (sessions (hub w))).*2 ->
  (refused w workerID instance /\ exists e, RegisterInstance w workerID instance l = (Err e, w) /\ e <> ErrNoWorker)
  \/ exists k w2 n,
       k = fresh (dom (w_states w))
       /\ RegisterInstance w workerID instance l
          = (Ok k, match workers (hub w) !! workerID with Some p => close_state w2 p | None => w2 end)
       /\ invariant w2 /\ hub w2 = hub (enlisted w workerID instance).2
       /\ (forall i, w_sessions w2 !! i = (fun s => adopted s workerID) <$> w_sessions w !! i)
       /\ w_states w2 = <[k := set_queue (newWorkerState (Z.max (capacity (hub w)) (active (hub w))) workerID instance)
                                 (requeued (w_sessions w) workerID l) n]> (w_states w)
       /\ w_deliveries w2 = w_deliveries w /\ w_publishers w2 = w_publishers w.
Proof.
  intros H Hl. unfold RegisterInstance.
  destruct (is_empty workerID) eqn:E1; [left; split; [left; by apply is_empty_true | eauto]|].
  destruct (IsStableKey instance) eqn:E2; cbn [negb]; [|left; split; [by right; left | eauto]].
  destruct (match workers (hub w) !! workerID ≫= _ with Some st => _ | None => false end) eqn:E3.
  { left. split; [|eauto]. right. right. destruct (workers (hub w) !! workerID) as [k|]; [|done]. cbn in E3.
    destruct (w_states w !! k) as [st|] eqn:Ek; [|done]. decided. eauto 10. }
  right. pose proof (inv_enlist w workerID instance H) as He.
  assert (w_states w !! fresh (dom (w_states w)) = None) as Hk by apply not_elem_of_dom, is_fresh.
  unfold enlisted in *. set (k := fresh _) in *. cbn [snd] in He. set (w0 := with_states (with_hub w _) _) in He.
  destruct (all_live_sessions w l H Hl) as [Hnd Hlive].
  destruct (requeue_spec l w0 workerID k (newWorkerState (Z.max (capacity (hub w)) (active (hub w))) workerID instance))
    as (w2 & n & Er & Hi2 & Eh & Es & Est & Ed & Ep); try done.
  { intros ->. done. }
  { unfold w0. cbn. by rewrite lookup_insert_eq. }
  { cbn. lia. }
  { by intros q ?%elem_of_nil. }
  { intros i Hi. split; [by intros ?%elem_of_nil|]. by apply Hlive. }
  exists k, w2, n. split; [done|].
  assert (requeue (with_hub (with_states w (<[k := newWorkerState (Z.max (capacity (hub w)) (active (hub w))) workerID instance]> (w_states w)))
      (set_workers (hub w) (<[workerID := k]> (workers (hub w))) (onlineWorkers (hub w)))) workerID k l
    = (true, with_hub w2 (set_workers (hub w) (<[workerID := k]> (workers (hub w))) (onlineWorkers (hub w))))) as Er'.
  { pose proof (requeue_with_hub l w0 (set_workers (hub w) (<[workerID := k]> (workers (hub w))) (onlineWorkers (hub w))) workerID k) as E.
    rewrite Er in E. exact E. }
  cbn [hub with_states] in *. rewrite Er'. cbn [negb]. split; [|split_and!;
    [done|by rewrite Eh| |rewrite Est; unfold w0; cbn; by rewrite insert_insert_eq|done|done]].
  - unfold w0 in Eh. cbn in Eh. destruct (workers (hub w) !! workerID) as [p|] eqn:Epv; cbn in Eh |- *; f_equal.
    + f_equal. unfold with_hub. destruct w2; cbn in *. by rewrite Eh.
    + unfold with_hub. destruct w2; cbn in *. by rewrite Eh.
  - intros i. rewrite Es. unfold w0. cbn. destruct (w_sessions w !! i) as [s|] eqn:Ei; [|done]. cbn. f_equal.
    destruct (decide (i ∈ l)) as [|Hn]; [done|]. unfold adopted. destruct (s_terminal s) eqn:Et; [by rewrite andb_false_r|].
    destruct Hn. apply Hlive. eauto.
Qed.

Lemma inv_register w workerID instance l : invariant w -> l ≡ₚ (map_to_list (sessions (hub w))).*2 ->
  invariant (RegisterInstance w workerID instance l).2.
Proof.
  intros H Hl. destruct (register_spec w workerID instance l H Hl) as [(_ & e & -> & _)|(k & w2 & n & Ek & -> & Hi & Eh & _)];
    [done|]. cbn. destruct (workers (hub w) !! workerID) as [p|] eqn:Ep; [|done]. apply inv_close; [done|].
  intros id. rewrite Eh. cbn. intros Hid. destruct (inv_workers w H) as [W1 _].
  destruct (W1 _ _ Ep) as (st & Hst & _ & Ho). entry Hid.
  - assert (w_states w !! fresh (dom (w_states w)) = None) as Hk by apply not_elem_of_dom, is_fresh. congruence.
  - destruct (W1 _ _ Hid) as (st' & Hst' & _ & Ho'). congruence.
Qed.

(* ------------------------------------------------------------------ *)
(** ** Every step keeps the invariant *)

Lemma inv_new cap : invariant (new_world cap).
Proof.
  assert (1 <= capacity (New cap))%Z as Hc by (cbn; destruct (_ <? _)%Z eqn:E; zbool; lia).
  split; cbn.
  - split; cbn; [intros ? ?; by rewrite lookup_empty|intros ? ? H; by rewrite lookup_empty in H..|done].
  - by split.
  - unfold within_capacity. cbn in *. lia.
  - split; cbn; [by apply NoDup_nil| | |].
    + intros key. rewrite lookup_empty. split; [by intros ?%elem_of_nil | by intros []].
    + destruct (_ <? 64)%Z eqn:E; zbool; lia.
    + destruct (_ <? 64)%Z eqn:E; zbool; lia.
  - by split; intros ? ? H; cbn in H; rewrite lookup_empty in H.
  - done.
  - split; cbn; intros; match goal with H : ∅ !! _ = Some _ |- _ => by rewrite lookup_empty in H end.
Qed.

Lemma inv_unregister w k st : invariant w -> w_states w !! k = Some st -> invariant (unregister w (ws_worker st) k).
Proof.
  intros H Hk. destruct (inv_workers w H) as [W1 W2].
  assert (forall id, workers (hub w) !! id = Some k -> id = ws_worker st) as Ho.
  { intros id Hid. destruct (W1 _ _ Hid) as (st' & Hst' & _ & E). congruence. }
  unfold unregister. destruct (_ <>? _) eqn:E.
  - apply inv_close; [done|]. intros id Hid. pose proof (Ho _ Hid) as ->. decided. done.
  - decided. apply inv_close.
    + destruct H as [I1 [C1 C2 C3] I3 I4 I5 I6 I7]. split; cbn; try done.
      * destruct I1. by split.
      * destruct I4. by split.
      * split; cbn.
        { intros id j [_ Hj]%lookup_delete_Some. by apply W1. }
        intros j x Hj. eapply queue_ok_frame; [..|by eapply W2]; done.
      * unfold online_counts in *. cbn. rewrite I6, <- (insert_delete_id (workers (hub w)) _ _ E) at 1.
        rewrite map_size_insert_None by apply lookup_delete_eq. lia.
    + intros id. cbn. intros [Hne Hid]%lookup_delete_Some. by rewrite (Ho _ Hid) in Hne.
Qed.

Lemma inv_reserve w preferred : invariant w -> invariant (Reserve w preferred).2.
Proof.
  intros H. unfold Reserve. destruct (chooseWorker _ _) as [id|]; [|done]. destruct (_ <=? _)%Z eqn:E; [done|]. zbool.
  destruct H as [I1 [C1 C2 C3] I3 I4 I5 I6 I7].
  assert (w_reservations w !! fresh (dom (w_reservations w)) = None) as Hr by apply not_elem_of_dom, is_fresh.
  set (r := fresh _) in *. clearbody r. split; cbn; try done.
  - destruct I1. by split.
  - split; cbn; [|done|done]. rewrite count_insert_new by done. unfold unused at 2. cbn. lia.
  - unfold within_capacity in *. cbn. pose proof (active_counts _ _ I1). lia.
  - destruct I4. by split.
  - by eapply workers_ok_frame; [..|exact I5].
Qed.

Lemma inv_release w r : invariant w -> invariant (Release w r).
Proof.
  intros H. unfold Release. destruct (w_reservations w !! r) as [x|] eqn:E; [|done].
  destruct (r_used x) eqn:Eu; [done|]. by apply (inv_use w r x).
Qed.

(** The part that [Enqueue] and [Restore] share: a session enters and is
    queued at its worker, or leaves at once. *)
Lemma inv_admit w s k a : invariant w -> sessions (hub w) !! SessionKey (s_assignment s) = None ->
  (active (hub w) + reserved (hub w) < capacity (hub w) + restored w)%Z ->
  s_terminal s = false -> s_retired s = false -> s_pending s = ∅ -> s_inflight s = ∅ -> s_events s = [] ->
  forall f : world -> world, (forall x : world, (f x = x \/ f x = with_states x (alter (fun st => ensureCapacity st (active (hub x))) k (w_states x)))) ->
  let i := (open_session w s).1 in
  let w1 := f (open_session w s).2 in
  let '(sent, w2) := enqueue_at w1 k a i in
  invariant w2 /\ invariant (retireSessionLocked w2 (SessionKey (s_assignment s)) i (Some ErrNoWorker)).2.
Proof.
  intros H Hkey Hslack Ht Hr E1 E2 E3 f Hf. cbn zeta.
  pose proof (inv_open w s H Hslack Hkey Ht Hr E1 E2 E3) as Ho. pose proof (fresh_session w) as Hi.
  assert (forall k' st, w_states (open_session w s).2 !! k' = Some st -> (open_session w s).1 ∉ (queued_session <$> ws_pending st)) as Hq.
  { intros k' st Hst. apply (unknown_unqueued (hub w) (w_sessions w) (w_states w) k'); [by apply inv_workers | exact Hst | exact Hi]. }
  set (i := (open_session w s).1) in *. set (w0 := (open_session w s).2) in *.
  assert (w_sessions w0 !! i = Some s /\ sessions (hub w0) !! SessionKey (s_assignment s) = Some i) as [Hs Hk].
  { unfold w0, i, open_session. cbn. by rewrite !lookup_insert_eq. }
  clearbody i w0.
  assert (invariant (f w0) /\ w_sessions (f w0) = w_sessions w0 /\ hub (f w0) = hub w0
    /\ forall k' st, w_states (f w0) !! k' = Some st -> i ∉ (queued_session <$> ws_pending st)) as (H1 & Es & Eh & Hq1).
  { destruct (Hf w0) as [-> | ->]; [done|]. split_and!; [by apply inv_ensure|done|done|].
    intros k' st Hst. cbn in Hst. entry Hst; cbn; [by eapply Hq | by eapply Hq]. }
  pose proof (inv_enqueue_at (f w0) k a i H1) as H2. destruct (enqueue_at_parts (f w0) k a i) as [states Est].
  destruct (enqueue_at _ _ _ _) as [sent w2]. cbn in Est, H2.
  assert (invariant w2) as Hw2 by (apply H2; [rewrite Es, Hs; eauto | intros; by eapply Hq1]).
  split; [done|]. apply (inv_retire w2 _ i s); [done|..|done]; rewrite Est; cbn; [by rewrite Es | by rewrite Eh].
Qed.

Lemma inv_Enqueue w r a : invariant w -> invariant (Enqueue w r a).2.
Proof.
  intros H. unfold Enqueue. destruct (w_reservations w !! r) as [x|] eqn:Er; [|done].
  destruct (r_used x) eqn:Eu; [done|]. destruct (inv_use w r x H Er Eu) as [H1 Hslack].
  set (w1 := use_reservation w r x) in *.
  destruct (workers (hub w1) !! r_workerID x) as [k|] eqn:Ek; [|done].
  destruct (sessions (hub w1) !! SessionKey a) eqn:Es; [done|]. destruct (retired (hub w1) !! SessionKey a); [done|]. cbn [is_none negb].
  pose proof (inv_admit w1 (newSession (r_workerID x) (with_LeaseOwner a (r_workerID x)) false) k
    (with_LeaseOwner a (r_workerID x)) H1 Es Hslack eq_refl eq_refl eq_refl eq_refl eq_refl (fun y : world => y) (fun _ : world => or_introl eq_refl)) as Ha.
  cbn zeta in Ha. destruct (open_session w1 _) as [i w2] eqn:Eo. cbn [fst snd] in Ha.
  destruct (enqueue_at _ _ _ _) as [sent w3]. destruct Ha as [Ha1 Ha2]. by destruct sent.
Qed.

Lemma inv_Restore w a o : invariant w -> invariant (Restore w a o).2.
Proof.
  intros H. unfold Restore. destruct (sessions (hub w) !! SessionKey a) eqn:Es; [done|].
  destruct (retired (hub w) !! SessionKey a); [done|]. cbn [is_none negb].
  match goal with |- context [if ?b then chooseWorker ?h ?p else ?o] => destruct (if b then chooseWorker h p else o) as [id|e]; [|done] end.
  assert (invariant (count_restored w)) as H1.
  { destruct H as [I1 [C1 C2 C3] I3 I4 I5 I6 I7]. split; cbn; try done; [split; cbn; [done|done|lia]|].
    unfold within_capacity in *. cbn. lia. }
  set (s := set_seen (newSession id (with_LeaseOwner a id) (Restore_Accepted o))
              (list_to_set (filter (λ id0 : string, is_empty id0 = false) (Restore_SeenEventIDs o)))).
  assert (active (hub (count_restored w)) + reserved (hub (count_restored w))
            < capacity (hub (count_restored w)) + restored (count_restored w))%Z as Hslack.
  { pose proof (inv_within w H) as Hw. unfold within_capacity in Hw. cbn. lia. }
  destruct (open_session (count_restored w) s) as [i w2] eqn:Eo.
  destruct (workers (hub w2) !! id) as [k|] eqn:Ek.
  - pose proof (inv_admit (count_restored w) s k (with_LeaseOwner a id) H1 Es Hslack eq_refl eq_refl eq_refl eq_refl eq_refl
      (fun y : world => with_states y (alter (fun st => ensureCapacity st (active (hub y))) k (w_states y)))
      (fun _ : world => or_intror eq_refl)) as Ha.
    cbn zeta in Ha. rewrite Eo in Ha. cbn [fst snd] in Ha.
    destruct (enqueue_at _ _ _ _) as [sent w3]. destruct Ha as [Ha1 Ha2]. by destruct sent.
  - pose proof (inv_open (count_restored w) s H1 Hslack Es eq_refl eq_refl eq_refl eq_refl eq_refl) as Ho. by rewrite Eo in Ho.
Qed.

Lemma inv_Abort w callerID key : invariant w -> invariant (Abort w callerID key).2.
Proof.
  intros H. unfold Abort. destruct (sessions (hub w) !! _) as [i|] eqn:Ei; [|done].
  destruct (w_sessions w !! i) as [s|] eqn:Es; [|done]. destruct (s_terminal s) eqn:Et; [done|]. cbn [snd].
  apply inv_retired_owner. by eapply inv_retire.
Qed.

(** The deliveries of the world change, and its sessions but for their flags. *)
Lemma inv_deliver w ss ds ps : invariant w -> deliveries_ok ss ds ps ->
  (forall i, fmap (fun s => (s_terminal s, s_retired s, SessionKey (s_assignment s))) (ss !! i)
             = fmap (fun s => (s_terminal s, s_retired s, SessionKey (s_assignment s))) (w_sessions w !! i)) ->
  invariant {| hub := hub w; w_sessions := ss; w_deliveries := ds; w_states := w_states w;
               w_reservations := w_reservations w; w_publishers := ps; restored := restored w |}.
Proof.
  intros [I1 [C1 C2 C3] I3 I4 I5 I6 I7] Hd Hv. split; cbn; try done.
  - destruct I1 as [T1 T2 T3 T4]. split; [..|done].
    + intros key i Hi. destruct (T1 _ _ Hi) as (s & Hs & ? & ?). pose proof (Hv i) as Hvi. rewrite Hs in Hvi.
      apply fmap_Some in Hvi as (s' & Hs' & [= E1 E2 E3]). exists s'. split_and!; congruence.
    + intros i s Hs Hl. pose proof (Hv i) as Hvi. rewrite Hs in Hvi. symmetry in Hvi.
      apply fmap_Some in Hvi as (s' & Hs' & [= E1 E2 E3]). rewrite E3. apply T2; congruence.
    + intros i s Hs. pose proof (Hv i) as Hvi. rewrite Hs in Hvi. symmetry in Hvi.
      apply fmap_Some in Hvi as (s' & Hs' & [= E1 E2 E3]). rewrite E1, E2. by eapply T3.
  - eapply workers_ok_frame; [..|exact I5]; [done|done|]. intros i [s Hs]. pose proof (Hv i) as Hvi. rewrite Hs in Hvi.
    apply fmap_Some in Hvi as (s' & Hs' & _). eauto.
Qed.

Lemma flags_insert (ss : gmap nat session) i s s' : ss !! i = Some s ->
  s_terminal s' = s_terminal s -> s_retired s' = s_retired s -> SessionKey (s_assignment s') = SessionKey (s_assignment s) ->
  forall j, fmap (fun s => (s_terminal s, s_retired s, SessionKey (s_assignment s))) (<[i := s']> ss !! j)
            = fmap (fun s => (s_terminal s, s_retired s, SessionKey (s_assignment s))) (ss !! j).
Proof.
  intros Hi E1 E2 E3 j. destruct (decide (i = j)) as [->|Hne]; [|by rewrite lookup_insert_ne].
  rewrite lookup_insert_eq, Hi. cbn. by rewrite E1, E2, E3.
Qed.

Lemma with_sessions_eta w ss : with_sessions w ss =
  {| hub := hub w; w_sessions := ss; w_deliveries := w_deliveries w; w_states := w_states w;
     w_reservations := w_reservations w; w_publishers := w_publishers w; restored := restored w |}.
Proof. done. Qed.

Lemma attribute_same s worker e e' : attribute s worker e = Ok e' ->
  Event_ID e' = Event_ID e /\ Event_Type e' = Event_Type e /\ EndsResponse e' = EndsResponse e
  /\ (String.eqb (Event_Type e) EventAccepted = true -> Event_WorkerID e' = if is_empty worker then s_workerID s else worker).
Proof.
  unfold attribute. destruct (String.eqb _ _).
  - destruct (is_empty worker); cbn [negb].
    + destruct (is_empty (Event_WorkerID e)); [by intros [= <-]|]. destruct (_ <>? _) eqn:E; [done|]. decided.
      intros [= <-]. done.
    + by intros [= <-].
  - by intros [= <-].
Qed.

Lemma inv_publish w worker caller idem e : invariant w -> invariant (publish_begin w worker caller idem e).2.
Proof.
  intros H. unfold publish_begin. set (key := session_key caller idem).
  destruct (sessions (hub w) !! key) as [i|] eqn:Ei; [|done].
  destruct (w_sessions w !! i) as [s|] eqn:Es; [|done].
  destruct (negb (is_empty worker) && _) eqn:Eo; [done|].
  destruct (negb (is_empty (Event_ID e)) && _) eqn:Eseen; [done|].
  destruct (if is_empty (Event_ID e) then None else _) as [d|] eqn:Efl; [done|].
  destruct (s_terminal s || s_terminalPending s) eqn:Et; [done|]. apply orb_false_iff in Et as [Et Etp].
  destruct (attribute s worker e) as [e'|] eqn:Ea; [|done].
  destruct (attribute_same _ _ _ _ Ea) as (E1 & E2 & E3 & _).
  destruct (is_empty (Event_ID e)) eqn:Eid.
  - destruct (_ && s_accepted s); cbn [snd].
    { by rewrite E1, Eid. }
    apply is_empty_true in Eid. unfold start_delivery. apply inv_deliver; [done| |by apply (flags_insert _ _ s)].
    apply (deliveries_start w key worker i s e'); try done; [by apply inv_deliveries|by rewrite E1, Eid|..].
    + intros Hw. destruct (is_empty worker) eqn:Ew; [by apply is_empty_true in Ew|]. cbn in Eo. by decided.
    + destruct (inv_table w H) as [T1 _ _ _]. destruct (T1 _ _ Ei) as (s' & ? & _ & <-). congruence.
  - cbn in Eseen. decided. destruct (_ && s_accepted s); cbn [snd].
    { rewrite E1, Eid. rewrite with_sessions_eta. apply inv_deliver; [done| |by apply (flags_insert _ _ s)].
      apply deliveries_seen; [by apply inv_deliveries|done|done]. }
    unfold start_delivery. apply inv_deliver; [done| |by apply (flags_insert _ _ s)].
    apply (deliveries_start w key worker i s e'); try done; [by apply inv_deliveries|by rewrite E1|..].
    + intros Hw. destruct (is_empty worker) eqn:Ew; [by apply is_empty_true in Ew|]. cbn in Eo. by decided.
    + destruct (inv_table w H) as [T1 _ _ _]. destruct (T1 _ _ Ei) as (s' & ? & _ & <-). congruence.
Qed.

(** A closing event settles its call and retires its session: the order does
    not matter. *)
Lemma settle_retire s p c : EndsResponse (p_event p) = true ->
  set_retired (settle_session s p None true) = settle_session (set_retired s) p None c.
Proof.
  intros Ht. unfold settle_session. rewrite Ht. cbn [negb is_none s_inflight set_retired].
  by repeat case_match.
Qed.

Lemma commit_all_difference ds P d x o err : ds !! d = Some x -> d_outcome x = Some o ->
  commit_all ds (elements (P ∖ {[d]} : gset nat)) err = commit_all ds (elements P) err.
Proof.
  intros Hx Ho. apply map_eq. intros j. rewrite !commit_all_lookup. destruct (ds !! j) as [y|] eqn:Ej; [|done]. cbn. f_equal.
  destruct (decide (j = d)) as [->|Hne].
  - assert (y = x) as -> by congruence. rewrite (settled_done _ _ _ Ho). by repeat case_decide.
  - destruct (decide (j ∈ elements (P ∖ {[d]}))) as [Hin|Hn], (decide (j ∈ elements P)) as [Hin'|Hn']; try done;
      rewrite elem_of_elements in *; exfalso.
    + apply Hn'. by apply elem_of_difference in Hin as [? _].
    + apply Hn. apply elem_of_difference. split; [done|]. by intros ->%elem_of_singleton.
Qed.

Lemma inv_publish_end w t p x o : invariant w -> w_publishers w !! t = Some p -> w_deliveries w !! p_delivery p = Some x ->
  d_outcome x = Some o -> invariant (publish_end w t p o).2.
Proof.
  intros H Ht Hx Ho. destruct (all_publishers _ _ _ (inv_deliveries w H) t p Ht) as (s & x' & Hpub).
  pose proof (pub_session _ _ _ _ _ Hpub) as Hs. pose proof (pub_key _ _ _ _ _ Hpub) as Hkey.
  unfold publish_end. rewrite Hs. cbv zeta. set (c := (sessions (hub w) !! p_key p =?= Some (p_session p)) && negb (s_terminal s)).
  assert (forall s' c', w_sessions w !! p_session p = Some s' -> (o = None -> EndsResponse (p_event p) = true -> s_terminal s' = true) ->
    invariant (with_publishers (with_sessions w (<[p_session p := settle_session s' p o c']> (w_sessions w))) (delete t (w_publishers w)))) as Hplain.
  { intros s' c' Hs' Hend. destruct (settle_view s' p o c') as (V1 & V2 & V3 & V4 & V5 & _).
    apply (inv_deliver w); [done| |apply (flags_insert _ _ s'); [done|done|done|by rewrite V2]].
    by apply (deliveries_finish _ _ _ t p s' x o c' (inv_deliveries w H)). }
  destruct o as [e|]; cbn [snd].
  { apply Hplain; done. }
  destruct (EndsResponse (p_event p)) eqn:Ee; [|by apply Hplain]. cbn [snd].
  apply inv_terminal_receipt. destruct c eqn:Ec; unfold c in Ec.
  - bool_split. decided. match goal with Hl : s_terminal s = false |- _ => rename Hl into Hlive end.
    match goal with Hl : sessions (hub w) !! p_key p = Some _ |- _ => rename Hl into Hk end.
    pose proof (inv_retire w (p_key p) (p_session p) s (Some ErrSessionMissing) H Hs Hk Hlive) as Hr.
    rewrite (retire_eq _ _ _ _ _ Hs Hk Hlive) in Hr. cbn [snd] in Hr.
    destruct (settle_view s p None true) as (V1 & V2 & V3 & V4 & V5 & V6 & _).
    rewrite (retire_eq _ _ _ (settle_session s p None true)); [|cbn; by rewrite lookup_insert_eq|done|by rewrite V4]. cbn.
    rewrite V6, insert_insert_eq, (settle_retire s p true Ee), (commit_all_difference _ _ _ _ _ _ Hx Ho).
    match type of Hr with invariant ?X => pose proof (inv_deliver X (<[p_session p := settle_session (set_retired s) p None true]> (w_sessions w))
      (w_deliveries X) (delete t (w_publishers w)) Hr) as Hd end. cbn in Hd. apply Hd.
    + rewrite <- (insert_insert_eq (w_sessions w) (p_session p) (settle_session (set_retired s) p None true) (set_retired s)).
      pose proof (inv_deliveries _ Hr) as Hok. cbn in Hok.
      apply (deliveries_finish _ _ _ t p (set_retired s) x None true Hok); [done|by rewrite lookup_insert_eq| |done|done].
      rewrite commit_all_lookup, Hx. cbn. f_equal. destruct (decide _); [by eapply settled_done | done].
    + intros i. destruct (settle_view (set_retired s) p None true) as (U1 & U2 & U3 & U4 & U5 & _).
      destruct (decide (p_session p = i)) as [<-|Hne]; [|by rewrite !lookup_insert_ne].
      rewrite !lookup_insert_eq. cbn. by rewrite U2, U4, U5.
  - apply Hplain; [done|]. intros _ _. destruct (s_terminal s) eqn:El; [done|]. exfalso.
    rewrite andb_true_r in Ec. decided. apply Ec. rewrite Hkey. by apply (live_table _ _ (inv_table w H)).
Qed.

Lemma update_eq w i s f : w_sessions w !! i = Some s -> update_session w i f = with_sessions w (<[i := f s]> (w_sessions w)).
Proof.
  intros Hi. unfold update_session. f_equal. apply map_eq. intros j. destruct (decide (i = j)) as [->|Hne].
  - by rewrite lookup_insert_eq, lookup_alter_eq, Hi.
  - by rewrite lookup_insert_ne, lookup_alter_ne.
Qed.

Lemma inv_send w t p s : invariant w -> w_publishers w !! t = Some p -> p_phase p = Sending ->
  w_sessions w !! p_session p = Some s -> invariant (send w t p).
Proof.
  intros H Ht Hph Hs. unfold send, now_waiting. rewrite (update_eq _ _ s) by done.
  destruct (all_publishers _ _ _ (inv_deliveries w H) t p Ht) as (s' & x & Hpub).
  assert (s' = s) as -> by (pose proof (pub_session _ _ _ _ _ Hpub); congruence).
  destruct (pub_sending _ _ _ _ _ Hpub Hph) as [Hx Hn].
  apply (inv_deliver w); [done| |by apply (flags_insert _ _ s)]. cbn.
  pose proof (deliveries_waiting _ _ _ t p (inv_deliveries w H) Ht) as Hw.
  apply (deliveries_send _ _ _ _ s _ x Hw); try done.
  - by apply (pub_delivery _ _ _ _ _ Hpub).
  - by apply (pub_of _ _ _ _ _ Hpub).
  - intros t' q Hq Hqd. entry Hq; [done|]. exfalso. match goal with Hne : t <> t' |- _ => apply Hne end.
    by eapply publisher_unique; [apply inv_deliveries|..].
Qed.

Lemma inv_waiting w t p : invariant w -> w_publishers w !! t = Some p -> invariant (now_waiting w t p).
Proof.
  intros H Ht. apply (inv_deliver w); [done| |done]. by apply deliveries_waiting; [apply inv_deliveries|].
Qed.

Lemma dispatches_queue h ss st st' : queue_ok h ss st -> dispatches ss st st' ->
  queue_ok h ss st' /\ ws_worker st' = ws_worker st /\ ws_done st' = ws_done st.
Proof.
  intros [Q1 Q2 Q3 Q4] Hst. destruct Hst as [q l H1 H2| | | | | | |]; (split; [|done]); split; cbn; try done.
  - rewrite H2 in Q1. cbn in Q1. by apply NoDup_cons in Q1 as [_ Q1].
  - intros x Hx. apply Q2. rewrite H2. by right.
  - rewrite H2 in Q3. cbn in Q3. lia.
Qed.

Lemma inv_step w w' : invariant w -> step w w' -> invariant w'.
Proof.
  intros H Hst. destruct Hst.
  - by apply inv_register.
  - by apply inv_unregister.
  - by apply inv_reserve.
  - by apply inv_release.
  - by apply inv_Enqueue.
  - by apply inv_Restore.
  - by apply inv_Abort.
  - by apply inv_publish.
  - unfold PublishFrom. destruct (is_empty workerID); [done | by apply inv_publish].
  - by eapply inv_send.
  - by apply inv_waiting.
  - unfold give_up_waiting. assert (invariant (with_deliveries w (Commit (w_deliveries w) (p_delivery p) (Some ErrContextDone)))) as Hc.
    { apply (inv_deliver w); [done| |done]. by apply deliveries_commit; [apply inv_deliveries|]. }
    by apply inv_waiting.
  - by eapply inv_publish_end.
  - rewrite (update_eq _ _ s) by done. apply (inv_deliver w); [done| |by apply (flags_insert _ _ s)]. cbn.
    by apply deliveries_receive; [apply inv_deliveries|..].
  - apply (inv_deliver w); [done| |done]. apply deliveries_commit; [by apply inv_deliveries|]. intros y Hy _. congruence.
  - apply inv_states; [done|].
    destruct (dispatches_queue (hub w) (w_sessions w) st st') as (? & ? & ?); [by eapply state_queue; [apply inv_workers|]|done|].
    by eapply workers_ok_update; eauto using inv_workers.
Qed.

Lemma hub_reachable_invariant cap w : reachable cap w -> invariant w.
Proof. induction 1 as [|w w' _ IH Hst]; [apply inv_new | by eapply inv_step]. Qed.

(* ------------------------------------------------------------------ *)
(** ** Bounds *)

Lemma requeue_hub w worker k l : hub (requeue w worker k l).2 = hub w.
Proof.
  pose proof (requeue_with_hub l w (hub w) worker k) as E.
  replace (with_hub w (hub w)) with w in E by by destruct w. rewrite E. done.
Qed.

Lemma enqueue_at_hub w k a i : hub (enqueue_at w k a i).2 = hub w.
Proof. destruct (enqueue_at_parts w k a i) as [m ->]. done. Qed.

Definition limits (h : Hub) : Z * Z := (capacity h, maxRetired h).

Lemma limits_retire w key i err : limits (hub (retireSessionLocked w key i err).2) = limits (hub w).
Proof. unfold retireSessionLocked. by repeat case_match. Qed.

Lemma limits_remember h key id e :
  limits (rememberTerminal h key id e) = limits h /\ limits (rememberRetiredOwner h key id) = limits h.
Proof.
  destruct (rememberTerminal_rest h key id e) as (m & l & ->), (rememberRetiredOwner_rest h key id) as (m' & l' & ->). done.
Qed.

Lemma limits_register w worker instance l : limits (hub (RegisterInstance w worker instance l).2) = limits (hub w).
Proof.
  unfold RegisterInstance. repeat (destruct (is_empty worker); [done|]). destruct (negb (IsStableKey instance)); [done|].
  match goal with |- context [if ?b then _ else _] => destruct b end; [done|]. cbv zeta.
  match goal with |- context [requeue ?x ?y ?z ?l] => pose proof (requeue_hub x y z l) as E; destruct (requeue x y z l) as [sent w2] end.
  cbn [snd] in E. destruct sent; cbn [negb]; [destruct (workers (hub w) !! worker)|]; cbn; rewrite E; done.
Qed.

Lemma limits_admit w k a i key : forall w2 sent, enqueue_at w k a i = (sent, w2) ->
  limits (hub w2) = limits (hub w) /\ limits (hub (retireSessionLocked w2 key i (Some ErrNoWorker)).2) = limits (hub w).
Proof. intros w2 sent E. rewrite limits_retire. pose proof (enqueue_at_hub w k a i) as Eh. rewrite E in Eh. cbn in Eh. by rewrite Eh. Qed.

Lemma limits_open w s i w' : open_session w s = (i, w') -> limits (hub w') = limits (hub w).
Proof. unfold open_session. by intros [= <- <-]. Qed.

Lemma step_limits w w' : step w w' -> limits (hub w') = limits (hub w).
Proof.
  destruct 1; try done.
  - apply limits_register.
  - unfold unregister. by case_match.
  - unfold Reserve. destruct (chooseWorker _ _); [|done]. by case_match.
  - unfold Release. by repeat case_match.
  - unfold Enqueue. destruct (w_reservations w !! r) as [x|]; [|done]. destruct (r_used x); [done|].
    destruct (workers _ !! _) as [k|]; [|done]. destruct (negb _); [done|]. destruct (negb _); [done|].
    destruct (open_session _ _) as [i w1] eqn:Eo. apply limits_open in Eo.
    destruct (enqueue_at _ _ _ _) as [sent w2] eqn:Ee. apply (limits_admit _ _ _ _ (SessionKey assignment)) in Ee as [E1 E2].
    destruct sent; cbn [negb snd]; [rewrite E1 | rewrite E2]; exact Eo.
  - unfold Restore. destruct (negb _); [done|]. destruct (negb _); [done|].
    match goal with |- context [match ?m with Ok _ => _ | Err _ => _ end] => destruct m as [id|e]; [|done] end.
    destruct (open_session _ _) as [i w1] eqn:Eo. apply limits_open in Eo. cbv zeta.
    destruct (workers _ !! _) as [k|]; [|exact Eo].
    destruct (enqueue_at _ _ _ _) as [sent w2] eqn:Ee. apply (limits_admit _ _ _ _ (SessionKey assignment)) in Ee as [E1 E2].
    destruct sent; cbn [negb snd]; [rewrite E1 | rewrite E2]; exact Eo.
  - unfold Abort. repeat case_match; try done. cbn [snd hub with_hub].
    rewrite (proj2 (limits_remember _ _ _ {| Event_ID := ""; Event_Type := ""; Event_WorkerID := ""; Event_Text := "";
      Event_ToolCalls := []; Event_ErrorCode := ""; Event_Error := "" |})). apply limits_retire.
  - unfold Publish, publish_begin, start_delivery. by repeat case_match.
  - unfold PublishFrom, publish_begin, start_delivery. by repeat case_match.
  - unfold publish_end. destruct (w_sessions w !! p_session p); [|done]. cbv zeta. destruct outcome; [done|].
    destruct (EndsResponse _); [|done]. cbn [snd hub with_hub]. rewrite (proj1 (limits_remember _ _ _ _)).
    destruct (_ && _); [by rewrite limits_retire | done].
Qed.

(** C30: The counters of the hub and the size of everything it keeps. *)
Theorem hub_bounds (cap : Z) (w : world) : reachable cap w ->
  capacity (hub w) = Z.max 1 cap
  /\ active (hub w) = Z.of_nat (size (sessions (hub w)))
  /\ reserved (hub w) = Z.of_nat (count_map unused (w_reservations w))
  /\ Snapshot (hub w) = (Z.of_nat (size (workers (hub w))), bool_decide (workers (hub w) <> ∅))
  /\ (active (hub w) + reserved (hub w) <= Z.max 1 cap + restored w)%Z
  /\ (maxRetired (hub w) = maxRetired (New cap) /\ 64 <= maxRetired (New cap))%Z
  /\ dom (retired (hub w)) = list_to_set (order (hub w)) /\ NoDup (order (hub w))
  /\ (Z.of_nat (length (order (hub w))) <= maxRetired (New cap))%Z
  /\ (forall k st, w_states w !! k = Some st ->
        NoDup (queued_session <$> ws_pending st) /\ (Z.of_nat (length (ws_pending st)) <= ws_capacity st)%Z).
Proof.
  intros H. assert (limits (hub w) = limits (New cap)) as Hl.
  { induction H as [|w w' Hw IH Hst]; [done|]. by rewrite (step_limits _ _ Hst). }
  apply hub_reachable_invariant in H. destruct H as [I1 [C1 C2 C3] I3 [R1 R2 R3 R4] [_ I5] I6 _].
  assert (capacity (hub w) = capacity (New cap)) as Hc by exact (f_equal fst Hl).
  assert (maxRetired (hub w) = maxRetired (New cap)) as Hm by exact (f_equal snd Hl). clear Hl.
  assert (capacity (New cap) = Z.max 1 cap) as Ecap by (cbn; destruct (_ <? _)%Z eqn:E; zbool; lia).
  rewrite Ecap in Hc. unfold within_capacity in I3.
  split_and!; [done|by apply active_counts with (w_sessions w)|done| |lia|done|lia| |done|lia|].
  - unfold Snapshot. rewrite I6. f_equal. destruct (decide (workers (hub w) = ∅)) as [->|Hne].
    + by rewrite bool_decide_eq_false_2 by (intros Hx; by apply Hx).
    + rewrite bool_decide_eq_true_2 by done. apply Z.ltb_lt.
      assert (size (workers (hub w)) <> 0)%nat; [by intros E%map_size_empty_iff|lia].
  - apply set_eq. intros key. by rewrite elem_of_dom, elem_of_list_to_set, R2.
  - intros k st Hk. by destruct (I5 k st Hk).
Qed.

(* ------------------------------------------------------------------ *)
(** ** Workers get their sessions *)

Lemma requeued_elem ss worker l q : q ∈ requeued ss worker l <-> exists i s, i ∈ l /\ ss !! i = Some s
  /\ owned (adopted s worker) worker = true
  /\ q = {| queued_assignment := s_assignment (adopted s worker); queued_session := i |}.
Proof.
  unfold requeued. rewrite list_elem_of_omap. split.
  - intros (i & Hi & H). destruct (ss !! i) as [s|] eqn:E; [|done]. destruct (owned _ _) eqn:Eo; [|done].
    injection H as <-. eauto 10.
  - intros (i & s & Hi & E & Eo & ->). exists i. by rewrite E, Eo.
Qed.


(** C34: A reservation is honoured: unless sessions were restored beyond the
    capacity, an admission that holds one, of a key that is new, at a worker
    that is still online, gets a session of that worker, and its assignment is
    in the worker's queue. *)
Theorem reservation_honoured (cap : Z) (w : world) (r k : nat) (x : Reservation) (a : Assignment) :
  reachable cap w -> w_reservations w !! r = Some x -> r_used x = false ->
  workers (hub w) !! r_workerID x = Some k ->
  sessions (hub w) !! SessionKey a = None -> retired (hub w) !! SessionKey a = None ->
  (active (hub w) + reserved (hub w) <= capacity (hub w))%Z ->
  exists i w' s st, Enqueue w r a = (Ok i, w')
    /\ w_sessions w' !! i = Some s /\ s_terminal s = false /\ s_workerID s = r_workerID x
    /\ s_assignment s = with_LeaseOwner a (r_workerID x) /\ sessions (hub w') !! SessionKey a = Some i
    /\ w_states w' !! k = Some st /\ {| queued_assignment := s_assignment s; queued_session := i |} ∈ ws_pending st
    /\ active (hub w') = (active (hub w) + 1)%Z /\ reserved (hub w') = (reserved (hub w) - 1)%Z.
Proof.
  intros H Hr Hu Hk Hs Hret Hcap. apply hub_reachable_invariant in H. destruct (inv_use w r x H Hr Hu) as [H1 Hslack].
  unfold Enqueue. rewrite Hr, Hu. cbv zeta. set (w1 := use_reservation w r x) in *.
  assert (workers (hub w1) !! r_workerID x = Some k) as -> by done.
  assert (sessions (hub w1) !! SessionKey a = None) as Es by done. rewrite Es.
  assert (retired (hub w1) !! SessionKey a = None) as -> by done. cbn [is_none negb].
  set (s := newSession (r_workerID x) (with_LeaseOwner a (r_workerID x)) false).
  pose proof (inv_open w1 s H1 Hslack Es eq_refl eq_refl eq_refl eq_refl eq_refl) as Ho.
  pose proof (fresh_session w1) as Hi. destruct (worker_state _ _ _ (inv_workers w H) _ _ Hk) as (st & Hst & Hd & _).
  assert (fresh (dom (w_sessions w1)) ∉ (queued_session <$> ws_pending st)) as Hn.
  { apply (unknown_unqueued (hub w) (w_sessions w) (w_states w) k); [by apply inv_workers|done|exact Hi]. }
  unfold open_session in *. cbn [snd] in Ho. set (i := fresh _) in *. clearbody i.
  set (w2 := with_sessions _ _) in *. cbn [fst snd].
  assert (w_sessions w2 !! i = Some s) as Hi2 by by (unfold w2; cbn; rewrite lookup_insert_eq).
  assert (w_states w2 !! k = Some st) as Hst2 by done.
  assert ((enqueue (w_sessions w2) st (with_LeaseOwner a (r_workerID x)) i).1 = true) as Hsent.
  { apply (enqueue_room (hub w2)); [by apply inv_table|by eapply state_queue; [apply inv_workers|]|done|by exists s|done|].
    pose proof (queue_capacity _ _ _ (state_queue _ _ _ (inv_workers w H) k st Hst)) as Hc. unfold w2. cbn.
    pose proof (reserved_counts _ (inv_counts w H)) as Hrc. pose proof (count_pos unused _ _ _ Hr) as Hpos.
    unfold unused at 1 in Hpos. rewrite Hu in Hpos. specialize (Hpos eq_refl). lia. }
  unfold enqueue_at. rewrite Hst2. destruct (enqueue _ _ _ _) as [sent st'] eqn:Ee. cbn in Hsent. subst sent. cbn [negb].
  unfold enqueue in Ee. rewrite Hd in Ee. destruct (_ <=? _)%Z; [done|]. injection Ee as <-.
  eexists i, _, s, _. split; [done|]. cbn. rewrite !lookup_insert_eq. split_and!; try done.
  apply elem_of_app. right. by apply list_elem_of_singleton.
Qed.

(* ------------------------------------------------------------------ *)
(** ** Events *)



(** C33: The hub keeps workers apart: what [AuthorizePublisher] refuses,
    [PublishFrom] refuses the same way and changes nothing; an event it lets
    through belongs to a live session of that worker, is attributed to it when
    it accepts the assignment, and the session stays that worker's until the
    call returns. *)
Theorem publisher_ownership (cap : Z) (w : world) (workerID callerID idem : string) (e : Event) :
  reachable cap w ->
  (forall err, AuthorizePublisher w workerID callerID idem = Some err ->
     PublishFrom w workerID callerID idem e = (Returned (Some err), w))
  /\ (forall t w', PublishFrom w workerID callerID idem e = (Started t, w') ->
       AuthorizePublisher w workerID callerID idem = None
       /\ exists p s, w_publishers w' !! t = Some p /\ p_workerID p = workerID /\ w_sessions w' !! p_session p = Some s
          /\ s_terminal s = false /\ SessionKey (s_assignment s) = session_key callerID idem
          /\ Event_ID (p_event p) = Event_ID e /\ Event_Type (p_event p) = Event_Type e
          /\ (Event_Type e = EventAccepted -> Event_WorkerID (p_event p) = workerID))
  /\ (forall t p s, w_publishers w !! t = Some p -> p_workerID p <> "" -> w_sessions w !! p_session p = Some s ->
       s_workerID s = p_workerID p).
Proof.
  intros H. apply hub_reachable_invariant in H. pose proof (inv_table w H) as [T1 T2 T3 T4]. split_and!.
  - intros err. unfold AuthorizePublisher, PublishFrom, publish_begin. destruct (is_empty workerID) eqn:Ew; [by intros [= <-]|].
    destruct (sessions (hub w) !! session_key callerID idem) as [i|] eqn:Ei; cbn.
    + destruct (T1 _ _ Ei) as (s & Hs & _ & _). rewrite Hs. destruct (_ =?= _) eqn:Eo; [done|]. intros [= <-]. decided.
      by rewrite bool_decide_eq_false_2 by congruence.
    + unfold publish_retired. destruct (retired (hub w) !! _) as [receipt|]; [|by intros [= <-]].
      destruct (_ =?= _) eqn:Eo; [done|]. intros [= <-]. decided. rewrite Ew. cbn.
      by rewrite bool_decide_eq_false_2 by congruence.
  - intros t w'. unfold AuthorizePublisher, PublishFrom, publish_begin. destruct (is_empty workerID) eqn:Ew; [done|].
    destruct (sessions (hub w) !! session_key callerID idem) as [i|] eqn:Ei; cbn; [|done].
    destruct (T1 _ _ Ei) as (s & Hs & Hlive & Hkey). rewrite Hs. cbn.
    destruct (workerID =?= s_workerID s) eqn:Eo; cbn; [|done]. decided.
    destruct (negb (is_empty (Event_ID e)) && _); [done|].
    match goal with |- context [match ?m with Some d => (Following d, _) | None => _ end] => destruct m as [d|]; [done|] end.
    destruct (s_terminal s || s_terminalPending s); [done|]. destruct (attribute s workerID e) as [e'|] eqn:Ea; [|done].
    destruct (attribute_same _ _ _ _ Ea) as (E1 & E2 & E3 & E4). destruct (_ && s_accepted s); [done|].
    unfold start_delivery. intros [= <- <-]. split; [by rewrite bool_decide_eq_true_2|]. cbn.
    eexists _, _. split; [by rewrite lookup_insert_eq|]. split; [done|]. split; [by cbn; rewrite lookup_insert_eq|].
    split_and!; try done.
    intros Hacc. cbn. rewrite E4, Ew; [done|]. by rewrite Hacc.
  - intros t p s Ht Hw Hs. destruct (all_publishers _ _ _ (inv_deliveries w H) t p Ht) as (s' & x & Hpub).
    pose proof (pub_session _ _ _ _ _ Hpub). assert (s' = s) as -> by congruence. by apply (pub_owner _ _ _ _ _ Hpub).
Qed.

(* ------------------------------------------------------------------ *)
(** ** A run: a worker registers, a completion is admitted, its final event is
    published, received and committed; or the completion is aborted. *)

Definition sample : Assignment := {|
  Assignment_CallerID := "caller"; Assignment_WorkspaceKey := "repo"; Assignment_TaskID := "task";
  Assignment_IdempotencyKey := "key"; Assignment_LeaseOwner := ""; Assignment_CapabilityTier := TierWorkspace;
  Assignment_HarnessID := OpenCodeID; Assignment_HarnessVersion := OpenCodeVersion;
  Assignment_HarnessSessionID := ""; Assignment_Root := "/work"; Assignment_ExecAllowed := false;
  Assignment_Adapter := Some OpenCode11718Profile;
  Assignment_Request := {| Request_Dialect := DialectOpenAIChat; Request_Model := "human"; Request_Stream := false;
    Request_System := ""; Request_Messages := []; Request_Tools := []; Request_ToolCallPolicy := "";
    Request_HostedCapabilities := []; Request_OpaqueInput := []; Request_Metadata := None |} |}.
Definition final_event : Event := {|
  Event_ID := "e-1"; Event_Type := EventFinal; Event_WorkerID := ""; Event_Text := "ready"; Event_ToolCalls := [];
  Event_ErrorCode := ""; Event_Error := "" |}.

Definition online_world : world := (RegisterInstance (new_world 1) "w-1" "tui-1" []).2.
Definition reserved_world : world := (Reserve online_world "").2.
Definition live_world : world := (Enqueue reserved_world 0 sample).2.
Definition publishing_world : world := (PublishFrom live_world "w-1" "caller" "key" final_event).2.
Definition sending : publisher := {|
  p_key := session_key "caller" "key"; p_workerID := "w-1"; p_event := final_event; p_session := 0; p_delivery := 0;
  p_phase := Sending |}.
Definition sent_world : world := send publishing_world 0 sending.
Definition received_world : world :=
  with_deliveries (update_session sent_world 0 (fun s => set_events s [])) (alter taken 0%nat (w_deliveries sent_world)).
Definition committed_world : world := with_deliveries received_world (Commit (w_deliveries received_world) 0 None).
Definition finished_world : world := (publish_end committed_world 0 (waiting sending) None).2.
Definition aborted_world : world := (Abort publishing_world "caller" "key").2.

Lemma publishing_reachable : reachable 1 publishing_world.
Proof.
  apply (r_step _ live_world); [|apply s_publish_from].
  apply (r_step _ reserved_world); [|apply s_enqueue].
  apply (r_step _ online_world); [|apply s_reserve].
  apply (r_step _ (new_world 1)); [constructor|]. apply (s_register (new_world 1)). by vm_compute.
Qed.

(** The entry of a table of a closed world, by evaluation. *)
Ltac entry_of := vm_compute; reflexivity.

Lemma reserved_reachable : reachable 1 reserved_world.
Proof.
  apply (r_step _ online_world); [|apply s_reserve].
  apply (r_step _ (new_world 1)); [constructor|]. apply (s_register (new_world 1)). by vm_compute.
Qed.

Lemma committed_reachable : reachable 1 committed_world.
Proof.
  assert (reachable 1 received_world) as H.
  { apply (r_step _ sent_world).
    - apply (r_step _ publishing_world); [apply publishing_reachable|].
      eapply (s_send publishing_world 0 sending); [entry_of|done|entry_of|]. vm_compute. lia.
    - eapply (s_receive sent_world 0 _ 0 []); [entry_of|]. entry_of. }
  apply (r_step _ received_world); [done|]. eapply s_commit; entry_of.
Qed.

Lemma finished_reachable : reachable 1 finished_world.
Proof.
  apply (r_step _ committed_world); [apply committed_reachable|].
  eapply (s_finish committed_world 0 (waiting sending)); [entry_of|done|entry_of|]. entry_of.
Qed.

Lemma aborted_reachable : reachable 1 aborted_world.
Proof. apply (r_step _ publishing_world); [apply publishing_reachable | apply s_abort]. Qed.

(** The final event is acknowledged, its session gone, its receipt kept: the
    same event again is a success, another content under its identifier a
    conflict, another worker refused. *)
Lemma finished_replay :
  (publish_end committed_world 0 (waiting sending) None).1 = None
  /\ active (hub finished_world) = 0%Z
  /\ PublishFrom finished_world "w-1" "caller" "key" final_event = (Returned None, finished_world)
  /\ PublishFrom finished_world "w-1" "caller" "key" (with_WorkerID final_event "x") = (Returned (Some ErrEventConflict), finished_world)
  /\ PublishFrom finished_world "w-2" "caller" "key" final_event = (Returned (Some ErrWorkerOwnership), finished_world).
Proof. vm_compute. done. Qed.

Lemma hub_bounds_witness : active (hub finished_world) = Z.of_nat (size (sessions (hub finished_world))).
Proof. apply (hub_bounds 1 finished_world). exact finished_reachable. Defined.


Lemma reservation_honoured_witness :
  exists i w' s st, Enqueue reserved_world 0 sample = (Ok i, w')
    /\ w_sessions w' !! i = Some s /\ s_terminal s = false /\ s_workerID s = "w-1"
    /\ s_assignment s = with_LeaseOwner sample "w-1" /\ sessions (hub w') !! SessionKey sample = Some i
    /\ w_states w' !! 0%nat = Some st /\ {| queued_assignment := s_assignment s; queued_session := i |} ∈ ws_pending st
    /\ active (hub w') = (active (hub reserved_world) + 1)%Z /\ reserved (hub w') = (reserved (hub reserved_world) - 1)%Z.
Proof.
  apply (reservation_honoured 1 reserved_world 0 0 {| r_workerID := "w-1"; r_used := false |} sample);
    [exact reserved_reachable|entry_of|entry_of|entry_of|entry_of|entry_of|vm_compute; discriminate].
Defined.



Lemma publisher_ownership_witness :
  PublishFrom live_world "w-2" "caller" "key" final_event = (Returned (Some ErrWorkerOwnership), live_world).
Proof.
  apply (publisher_ownership 1 live_world "w-2" "caller" "key" final_event); [|entry_of].
  apply (r_step _ reserved_world); [exact reserved_reachable | apply s_enqueue].
Defined.
End HubFacts.
