(* ===== verification/AgentProperties.v ===== *)
(** * Properties of the Agent's commands

    Refinement of the abstract machine, the invariant of the committed states,
    what later states keep, and exactly-once commands; each with a witness on
    the history of Scenario. *)

From S2P Require Import Prelude GoText GoTime GoJson AgentTypes AgentCodec Framework Protect.
From S2P Require Import AgentStore MemoryStore AgentCore AgentCommands AgentLease AgentArtifact AgentQuery Scenario.
From S2P Require Import AgentFacts AgentReplay MemoryFacts AgentMachine AgentRefinement AgentInvariant.
From S2P Require Import AgentPreserve AgentHistory.

Local Open Scope string_scope.

(* ------------------------------------------------------------------ *)
(** ** The history of Scenario is reachable *)

Lemma demo_reach op t w w' :
  agent_reachable w -> runAgentOp (Demo.agent t) Demo.ctx op Demo.alone w = w' -> agent_reachable w'.
Proof. intros Hw <-. by apply reach_call. Qed.

Lemma demo_w0 : agent_reachable Demo.w0.
Proof. by apply reach_new. Qed.
Lemma demo_w1 : agent_reachable Demo.w1.
Proof. eapply (demo_reach (OpCreateTask Demo.create) 1700000000000000000); [exact demo_w0|evaluate]. Qed.
Lemma demo_w2 : agent_reachable Demo.w2.
Proof. eapply (demo_reach (OpAcquireLease Demo.acquire) 1700000000000000001); [exact demo_w1|evaluate]. Qed.
Lemma demo_w3 : agent_reachable Demo.w3.
Proof. eapply (demo_reach (OpTask (OpAccept Demo.accept)) 1700000000000000002); [exact demo_w2|evaluate]. Qed.
Lemma demo_w4 : agent_reachable Demo.w4.
Proof. eapply (demo_reach (OpFreezeArtifact Demo.freeze) 1700000000000000003); [exact demo_w3|evaluate]. Qed.
Lemma demo_w5 : agent_reachable Demo.w5.
Proof. eapply (demo_reach (OpTask (OpComplete Demo.complete)) 1700000000000000004); [exact demo_w4|evaluate]. Qed.
Lemma demo_w6 : agent_reachable Demo.w6.
Proof. eapply (demo_reach (OpRecordApplyReceipt Demo.apply_ok) 1700000000000000005); [exact demo_w5|evaluate]. Qed.

Lemma demo_later op t w w' :
  runAgentOp (Demo.agent t) Demo.ctx op Demo.alone w = w' -> later w w'.
Proof. intros <-. apply later_call; apply later_now. Qed.

Lemma demo_later_23 : later Demo.w2 Demo.w3.
Proof. apply (demo_later (OpTask (OpAccept Demo.accept)) 1700000000000000002); evaluate. Qed.
Lemma demo_later_12 : later Demo.w1 Demo.w2.
Proof. apply (demo_later (OpAcquireLease Demo.acquire) 1700000000000000001); evaluate. Qed.
Lemma demo_later_34 : later Demo.w3 Demo.w4.
Proof. apply (demo_later (OpFreezeArtifact Demo.freeze) 1700000000000000003); evaluate. Qed.
Lemma demo_later_56 : later Demo.w5 Demo.w6.
Proof. apply (demo_later (OpRecordApplyReceipt Demo.apply_ok) 1700000000000000005); evaluate. Qed.

Section Commands.
Context {W : Type} `{HS : Store W memoryAgentState} `{HC : !StoreContract W memoryAgentState}.

(** C1: every command of the Agent refines the abstract machine. From any
    store that Agent calls can lead to, whatever the command, its Agent, its
    context, its clock and its protector, whatever other calls commit while it
    runs, and whatever it returns, the committed state stays as it was or
    makes exactly one step of the machine. *)
Theorem agent_call_refines_machine agent ctx op between (w : W) :
  agent_reachable w -> simulated between w (runAgentOp agent ctx op between w).
Proof. intros Hw. apply agent_op_simulated, wf_keyed, reachable_WF, Hw. Qed.

(** C2: every committed state is well formed: Task records are valid and keyed
    by their reference, public Task identifiers are unique in an authority,
    events and messages are numbered without a gap and follow the life of the
    Task, authors alternate, lease fences are consecutive and the owner holds
    the last one, Artifacts, submissions, heads and decisions agree with the
    records they belong to. *)
Theorem reachable_states_well_formed (w : W) : agent_reachable w -> WF (snapshot w).
Proof. apply reachable_WF. Qed.

(** C3: nothing committed is lost or rewritten: receipts, lease grants,
    messages, events, submissions and decisions are only added, Artifacts keep
    their identity and payload and are final once published or discarded, the
    revision and the fence of a Task never decrease, its content only changes
    with its revision, and a terminal Task is final. *)
Theorem committed_history_is_kept (w w' : W) :
  agent_reachable w -> later w w' -> extends (snapshot w) (snapshot w').
Proof. intros Hw%reachable_WF Hl. by apply later_extends. Qed.

(** Stores reached by a call are reachable, and well formed. *)
Lemma result_WF agent ctx op between (w : W) :
  agent_reachable w -> agent_reachable (between w) -> WF (snapshot (runAgentOp agent ctx op between w)).
Proof. intros H1 H2. by apply reachable_WF, reach_call. Qed.

(** C4: CreateTask is exactly-once. Once it has returned a Task, the same
    command returns that Task in every later store and changes nothing, under
    any other Agent, clock and protector. *)
Theorem create_task_exactly_once agent ctx command between agent' ctx' between' (w w1 w2 : W) t :
  agent_reachable w -> agent_reachable (between w) ->
  CreateTask agent ctx command between w = (Ok t, w1) -> receipt_fits t ->
  later w1 w2 -> reaches agent' ctx' w2 ->
  CreateTask agent' ctx' command between' w2 = (Ok t, w2).
Proof.
  intros Hw Hb Hr Hf Hl Hre.
  assert (WF (snapshot w1)) as Hwf.
  { pose proof (result_WF agent ctx (OpCreateTask command) between w Hw Hb) as H. cbn in H. by rewrite Hr in H. }
  eapply create_task_replay_any; try done. by apply extends_keeps, later_extends.
Qed.

(** C5: so are the seven transitions: once AcceptTask, RejectTask,
    RequestInput, ReplyTask, CancelTask, FailTask or CompleteTask has returned
    a Task, the same command returns that Task in every later store, even when
    the Task has moved on or its lease was fenced, and changes nothing. *)
Theorem task_command_exactly_once agent ctx op between agent' ctx' between' (w w1 w2 : W) t :
  agent_reachable w -> agent_reachable (between w) ->
  runTaskOp agent ctx op between w = (Ok t, w1) -> receipt_fits t ->
  later w1 w2 -> reaches agent' ctx' w2 ->
  exists w3, runTaskOp agent' ctx' op between' w2 = (Ok t, w3) /\ snapshot w3 = snapshot w2.
Proof.
  intros Hw Hb Hr Hf Hl Hre.
  assert (WF (snapshot w1)) as Hwf.
  { pose proof (result_WF agent ctx (OpTask op) between w Hw Hb) as H. cbn in H. by rewrite Hr in H. }
  eapply task_op_replay_any; try done; [by apply wf_exact_transitions|]. by apply extends_keeps, later_extends.
Qed.

(** C6: so are the two commands that grant a lease: a repeated AcquireLease or
    ClaimLease returns the assignment it granted first, even when that lease
    has been fenced since, and grants nothing new. *)
Theorem lease_command_exactly_once agent ctx acquire claim agent' ctx' (w w1 w2 : W) a :
  agent_reachable w -> receipt_fits a -> later w1 w2 -> reaches agent' ctx' w2 ->
  (AcquireLease agent ctx acquire w = (Ok a, w1) ->
    exists w3, AcquireLease agent' ctx' acquire w2 = (Ok a, w3) /\ snapshot w3 = snapshot w2) /\
  (ClaimLease agent ctx claim w = (Ok a, w1) ->
    exists w3, ClaimLease agent' ctx' claim w2 = (Ok a, w3) /\ snapshot w3 = snapshot w2).
Proof.
  intros Hw Hf Hl Hre. split; intros Hr.
  - pose proof (result_WF agent ctx (OpAcquireLease acquire) (fun x => x) w Hw Hw) as Hwf. cbn in Hwf.
    rewrite Hr in Hwf. cbn in Hwf.
    eapply acquire_lease_replay_any; try done; [by apply wf_exact_grants|]. by apply extends_keeps, later_extends.
  - pose proof (result_WF agent ctx (OpClaimLease claim) (fun x => x) w Hw Hw) as Hwf. cbn in Hwf.
    rewrite Hr in Hwf. cbn in Hwf.
    eapply claim_lease_replay_any; try done; [by apply wf_exact_grants|]. by apply extends_keeps, later_extends.
Qed.
End Commands.

(* ------------------------------------------------------------------ *)
(** ** Witnesses *)

Lemma agent_call_refines_machine_witness :
  simulated Demo.alone Demo.w4
    (runAgentOp (Demo.agent 1700000000000000004) Demo.ctx (OpTask (OpComplete Demo.complete)) Demo.alone Demo.w4).
Proof. apply agent_call_refines_machine. exact demo_w4. Defined.

Lemma reachable_states_well_formed_witness : WF (snapshot Demo.w6).
Proof. apply reachable_states_well_formed. exact demo_w6. Defined.

Lemma committed_history_is_kept_witness : extends (snapshot Demo.w5) (snapshot Demo.w6).
Proof. apply committed_history_is_kept; [exact demo_w5|exact demo_later_56]. Defined.

Lemma demo_reaches t w : admits w Demo.ctx -> reaches (Demo.agent t) Demo.ctx w.
Proof. by split. Qed.

Lemma create_task_exactly_once_witness :
  CreateTask (Demo.agent 1800000000000000000) Demo.ctx Demo.create Demo.alone Demo.w2 = (Ok Demo.task1, Demo.w2).
Proof.
  apply (create_task_exactly_once (Demo.agent 1700000000000000000) Demo.ctx Demo.create Demo.alone
    (Demo.agent 1800000000000000000) Demo.ctx Demo.alone Demo.w0 Demo.w1 Demo.w2).
  - exact demo_w0.
  - exact demo_w0.
  - evaluate.
  - evaluate_le.
  - exact demo_later_12.
  - by apply demo_reaches.
Defined.

Lemma task_command_exactly_once_witness :
  exists w, runTaskOp (Demo.agent 1800000000000000000) Demo.ctx (OpAccept Demo.accept) Demo.alone Demo.w4
    = (Ok Demo.task3, w) /\ snapshot w = snapshot Demo.w4.
Proof.
  apply (task_command_exactly_once (Demo.agent 1700000000000000002) Demo.ctx (OpAccept Demo.accept) Demo.alone
    (Demo.agent 1800000000000000000) Demo.ctx Demo.alone Demo.w2 Demo.w3 Demo.w4).
  - exact demo_w2.
  - exact demo_w2.
  - evaluate.
  - evaluate_le.
  - exact demo_later_34.
  - by apply demo_reaches.
Defined.

Lemma lease_command_exactly_once_witness :
  exists w, AcquireLease (Demo.agent 1800000000000000000) Demo.ctx Demo.acquire Demo.w3 = (Ok Demo.assignment2, w) /\
    snapshot w = snapshot Demo.w3.
Proof.
  eapply (proj1 (lease_command_exactly_once (Demo.agent 1700000000000000001) Demo.ctx Demo.acquire Demo.claim
    (Demo.agent 1800000000000000000) Demo.ctx Demo.w1 Demo.w2 Demo.w3 Demo.assignment2 _ _ _ _)).
  evaluate.
  Unshelve.
  - exact demo_w1.
  - evaluate_le.
  - exact demo_later_23.
  - by apply demo_reaches.
Defined.
