(* ===== verification/AgentWitnesses.v ===== *)
(** * Instances on the history of Scenario

    Each verdict, listing and read of the Agent at a concrete store. *)

From S2P Require Import Prelude Paging GoText GoTime GoJson AgentTypes AgentCodec Framework Protect.
From S2P Require Import AgentStore MemoryStore AgentCore AgentCommands AgentLease AgentArtifact AgentQuery Scenario.
From S2P Require Import AgentFacts AgentReplay MemoryFacts MemoryForward AgentMachine AgentRefinement AgentInvariant.
From S2P Require Import AgentPreserve AgentHistory AgentVerdict AgentLeaseVerdict AgentArtifactVerdict AgentFencing.
From S2P Require Import AgentPages AgentMessages AgentLeaseList AgentReads AgentSealing AgentProperties.

Local Open Scope string_scope.

Lemma demo_WF w : agent_reachable w -> WF (snapshot w).
Proof. apply reachable_WF. Qed.

(* ------------------------------------------------------------------ *)
(** ** Verdicts *)

(** The worker accepts the Task. *)
Lemma transition_outcome_witness :
  is_ok (transitionTx (Demo.agent 1700000000000000002) "accept_task" (commandMeta (Demo.meta "c3" 1)) (Some Demo.grant)
    Demo.task "digest" (plainChange [TaskSubmitted] TaskWorking EventTaskAccepted false) noContent
    (snapshot Demo.w2)) = true.
Proof.
  rewrite (transition_outcome _ _ _ _ _ _ _ true _ 1700000000000000002).
  - evaluate.
  - apply demo_WF, demo_w2.
  - constructor.
  - intros g [= <-]. by split.
  - evaluate.
  - evaluate.
Defined.

(** A second Task with the same public identifier is refused. *)
Lemma create_task_outcome_witness :
  createTaskTx (Demo.agent 1700000000000000002)
    {| CreateTask_Meta := {| CommandMeta_ID := "c9"; CommandMeta_ExpectedRevision := 0 |};
       CreateTask_Task := Demo.task; CreateTask_Context := CreateTask_Context Demo.create;
       CreateTask_Message := Demo.text "m9" "again" |} "digest" noContent (snapshot Demo.w2) = Err ErrTaskConflict.
Proof.
  rewrite (create_task_outcome _ _ _ _ 1700000000000000002).
  - evaluate.
  - apply demo_WF, demo_w2.
  - evaluate.
  - evaluate.
Defined.

Lemma acquire_lease_outcome_witness :
  is_ok (acquireLeaseTx (Demo.agent 1700000000000000001) Demo.acquire "digest" (snapshot Demo.w1)) = true.
Proof.
  rewrite (acquire_lease_outcome _ _ _ 1700000000000000001).
  - evaluate.
  - apply demo_WF, demo_w1.
  - evaluate.
  - evaluate.
Defined.

Lemma claim_lease_outcome_witness :
  exists r, first_claimable (snapshot Demo.w1) "auth" r.
Proof.
  destruct (claim_lease_outcome (Demo.agent 1700000000000000001) Demo.claim "digest" 1700000000000000001
    (snapshot Demo.w1)) as [(r & Hr & _) | [_ H]].
  - apply demo_WF, demo_w1.
  - evaluate.
  - evaluate.
  - evaluate.
  - exists r. exact Hr.
  - vm_compute in H. discriminate H.
Defined.

Lemma fence_lease_outcome_witness :
  is_ok (fenceLeaseTx (Demo.agent 1700000000000000002) {| FenceLease_ID := "c8"; FenceLease_Grant := Demo.grant |}
    "digest" (snapshot Demo.w2)) = true.
Proof.
  rewrite (fence_lease_outcome _ _ _ 1700000000000000002).
  - evaluate.
  - apply demo_WF, demo_w2.
  - evaluate.
  - evaluate.
  - evaluate.
Defined.

Lemma freeze_artifact_outcome_witness :
  is_ok (freezeArtifactTx (Demo.agent 1700000000000000003) Demo.freeze "digest" "payload" (snapshot Demo.w3)) = true.
Proof.
  rewrite (freeze_artifact_outcome _ _ _ _ 1700000000000000003).
  - evaluate.
  - apply demo_WF, demo_w3.
  - evaluate.
  - evaluate.
  - evaluate.
  - evaluate.
  - evaluate.
Defined.

(** The revisions of the Artifacts of a store differ. *)
Definition bases_differ (s : memoryAgentState) (a : ArtifactRef) : bool :=
  match artifacts s !! a with
  | Some x => Artifact_BaseRevision (ArtifactRecord_Artifact x) <>? Artifact_ResultRevision (ArtifactRecord_Artifact x)
  | None => true
  end.

Lemma bases_differ_true s a x :
  bases_differ s a = true -> artifacts s !! a = Some x ->
  Artifact_BaseRevision (ArtifactRecord_Artifact x) <> Artifact_ResultRevision (ArtifactRecord_Artifact x).
Proof. unfold bases_differ. intros Hb Hx. rewrite Hx in Hb. by decided. Qed.

Lemma record_apply_receipt_outcome_witness :
  is_ok (recordApplyReceiptTx (Demo.agent 1700000000000000005) Demo.apply_ok "digest" (snapshot Demo.w5)) = true.
Proof.
  rewrite (record_apply_receipt_outcome _ _ _ 1700000000000000005).
  - evaluate.
  - apply demo_WF, demo_w5.
  - evaluate.
  - evaluate.
  - intros x. apply bases_differ_true. evaluate.
Defined.

(* ------------------------------------------------------------------ *)
(** ** Later stores *)

(** The lease of a completed Task is retired. *)
Definition retired_now (grant : LeaseGrant) (s : memoryAgentState) : bool :=
  negb (is_empty (LeaseGrant_Worker grant))
  && match tasks s !! LeaseGrant_Task grant with
     | Some r => (LeaseGrant_Fence grant <=? Lease_Fence (TaskRecord_Lease r))%Z
         && (TaskRecord_Lease r <>? {| Lease_Owner := LeaseGrant_Worker grant; Lease_Fence := LeaseGrant_Fence grant |})
     | None => false
     end
  && match leaseGrants s !! lease_key grant with
     | Some g => GrantRecord_Grant g =?= grant
     | None => false
     end.

Lemma retired_now_true grant s : retired_now grant s = true -> retired grant s.
Proof.
  unfold retired_now. rewrite !andb_true_iff. intros [[Hw Ht] Hg]. split.
  - intros E. by rewrite E in Hw.
  - destruct (tasks s !! _) as [r|]; [|done]. exists r. apply andb_true_iff in Ht as [Hf Hl]. zbool. by decided.
  - destruct (leaseGrants s !! _) as [g|]; [|done]. exists g. by decided.
Qed.

Lemma retired_grant_stays_stale_witness :
  requireCurrentLeaseFromStore (snapshot Demo.w6) Demo.grant = Err ErrStaleLease.
Proof.
  apply (retired_grant_stays_stale Demo.grant Demo.w5 Demo.w6).
  - exact demo_w5.
  - exact demo_later_56.
  - evaluate.
  - apply retired_now_true. evaluate.
Defined.

Lemma workspace_follows_successes_witness : follows Demo.ws "rev0" (snapshot Demo.w6).
Proof.
  apply (workspace_follows_successes Demo.ws "rev0" Demo.w5 Demo.w6).
  - exact demo_w5.
  - exact demo_later_56.
  - evaluate.
Defined.

(* ------------------------------------------------------------------ *)
(** ** Reads *)

Lemma list_tasks_complete_witness :
  exists l, all_pages (tasks_page (Demo.agent 0) Demo.ctx (CreateTask_Context Demo.create) 1 Demo.w6)
              (Datatypes.S (length l)) None = Some l.
Proof.
  destruct (list_tasks_complete (Demo.agent 0) Demo.ctx (CreateTask_Context Demo.create) 1 Demo.w6) as (l & H & _).
  - exact demo_w6.
  - by apply demo_reaches.
  - evaluate.
  - split; evaluate_le.
  - exists l. apply H. lia.
Defined.

Definition all_tasks : TaskQuery :=
  {| TaskQuery_Context := ""; TaskQuery_State := TaskStateOther ""; TaskQuery_UpdatedAtOrAfter := None;
     TaskQuery_After := None; TaskQuery_Limit := 0 |}.

Lemma list_authority_tasks_complete_witness :
  exists l : list Task,
    all_pages (authority_page (Demo.agent 0) Demo.ctx "auth" all_tasks 1 Demo.w6) (Datatypes.S (length l)) None
      = Some ((fun t => (t, Z.of_nat (length l))) <$> l).
Proof.
  destruct (list_authority_tasks_complete (Demo.agent 0) Demo.ctx "auth" all_tasks 1 Demo.w6) as (l & H & _).
  - exact demo_w6.
  - by apply demo_reaches.
  - evaluate.
  - split; [by left|by left|done].
  - split; evaluate_le.
  - exists l. apply H. lia.
Defined.

(** A Task of a store. *)
Lemma demo_stored w : agent_reachable w -> bool_decide (is_Some (tasks (snapshot w) !! Demo.task)) = true ->
  exists r, tasks (snapshot w) !! Demo.task = Some r.
Proof. intros _ H. by apply bool_decide_eq_true in H. Qed.

Lemma read_events_complete_witness :
  exists l, all_after (events_page (Demo.agent 0) Demo.ctx Demo.task 2 Demo.w6) (Datatypes.S (length l)) 0 = Some l.
Proof.
  destruct (demo_stored Demo.w6 demo_w6) as [r Hr]; [evaluate|].
  destruct (read_events_complete (Demo.agent 0) Demo.ctx Demo.task 2 Demo.w6 r) as (l & _ & _ & H & _).
  - exact demo_w6.
  - by apply demo_reaches.
  - exact Hr.
  - split; evaluate_le.
  - exists l. apply (H _ O); lia.
Defined.

(** Every message of the store opens. *)
Definition all_open (w : MemoryAgentStore) : bool :=
  forallb (fun p : StoreMessageKey * StoreMessageRecord =>
    is_ok (messageFromStoreRecord (Demo.agent 0) Demo.ctx (snd p))) (map_to_list (messages (snapshot w))).

Lemma all_open_true w k m :
  all_open w = true -> messages (snapshot w) !! k = Some m -> exists x, opens (Demo.agent 0) Demo.ctx m x.
Proof.
  unfold all_open. intros H Hm. rewrite forallb_forall in H.
  specialize (H (k, m) (proj1 (list_elem_of_In _ _) (proj2 (elem_of_map_to_list _ _ _) Hm))).
  by apply is_ok_Ok in H.
Qed.

Lemma list_messages_complete_witness :
  exists l, all_after (messages_page (Demo.agent 0) Demo.ctx Demo.task 1 Demo.w6) (Datatypes.S (length l)) 0 = Some l.
Proof.
  destruct (demo_stored Demo.w6 demo_w6) as [r Hr]; [evaluate|].
  destruct (list_messages_complete (Demo.agent 0) Demo.ctx Demo.task 1 Demo.w6 r) as (l & _ & _ & H).
  - exact demo_w6.
  - by apply demo_reaches.
  - exact Hr.
  - split; evaluate_le.
  - intros k m Hm _. eapply all_open_true; [evaluate|exact Hm].
  - exists l. apply (H _ O); lia.
Defined.

Lemma list_leases_complete_witness :
  exists l, all_pages (leases_page (Demo.agent 0) Demo.ctx "auth" "wk" 1 Demo.w3) (Datatypes.S (length l)) None = Some l.
Proof.
  destruct (list_leases_complete (Demo.agent 0) Demo.ctx "auth" "wk" 1 Demo.w3) as (l & H & _).
  - exact demo_w3.
  - by apply demo_reaches.
  - evaluate.
  - evaluate.
  - split; evaluate_le.
  - exists l. apply H. lia.
Defined.

Lemma task_reads_exact_witness :
  GetTask (Demo.agent 0) Demo.ctx Demo.task Demo.w3 = Ok Demo.task3.
Proof.
  destruct (task_reads_exact (Demo.agent 0) Demo.ctx Demo.task "auth" "task1" Demo.w3) as [H _].
  - exact demo_w3.
  - by apply demo_reaches.
  - evaluate.
  - evaluate.
  - evaluate.
  - rewrite H. evaluate.
Defined.

Lemma workspace_reads_exact_witness :
  is_ok (GetApplyReceipt (Demo.agent 0) Demo.ctx Demo.artifact Demo.w6) = true.
Proof.
  destruct (workspace_reads_exact (Demo.agent 0) Demo.ctx Demo.ws Demo.artifact Demo.w6) as [_ H].
  - exact demo_w6.
  - by apply demo_reaches.
  - evaluate.
  - evaluate.
  - intros x. apply bases_differ_true. evaluate.
  - rewrite H. evaluate.
Defined.

(* ------------------------------------------------------------------ *)
(** ** Content *)

(** The published Artifact's record. *)
Definition demo_published : StoreArtifactRecord := Eval vm_compute in
  match artifacts (snapshot Demo.w6) !! Demo.artifact with
  | Some x => x
  | None => {| ArtifactRecord_Artifact := Demo.published; ArtifactRecord_EncodedPayload := "" |}
  end.

Lemma artifact_payload_roundtrip_witness :
  artifactContentFromStoreRecord (Demo.agent 0) Demo.ctx demo_published =
    Ok {| ArtifactContent_Artifact := ArtifactRecord_Artifact demo_published;
          ArtifactContent_Payload := FreezeArtifact_Payload Demo.freeze |}.
Proof.
  apply (artifact_payload_roundtrip (Demo.agent 1700000000000000003) (Demo.agent 0) Demo.ctx Demo.ctx
    Demo.published (FreezeArtifact_Payload Demo.freeze) (ArtifactRecord_EncodedPayload demo_published)).
  - evaluate.
  - by split.
  - intros protector E. discriminate E.
  - evaluate.
  - evaluate.
  - evaluate.
  - vm_compute. reflexivity.
  - evaluate.
  - evaluate.
  - evaluate.
Defined.
